(* ===== verification/_CoqProject ===== *)
-Q . S2P
Prelude.v
HostIf.v
FileStore.v
IniFile.v
RFCStore.v
BSJournal.v
BSStore.v
MsgHandler.v
WalDB.v
WalList.v
RFCVar.v
FrontEnd.v
Webpa.v
ProfileIO.v
WebpaAttr.v
WebpaAdapter.v
NotificationHandler.v
Libpd.v
HttpServer.v
Utils.v
Notify.v
InterfaceStack.v
ClientLocks.v
UpdateHandler.v
Network.v
IPAddress.v
IPProfile.v
IPClient.v
StartParodus.v
DHCPv4.v
Ethernet.v
MoCA.v
DeviceInfo.v
DeviceClient.v
ProcessStatus.v
TimeClient.v
DeviceFirmware.v
DeviceSsh.v
DevicePackages.v
DeviceSwitches.v
DeviceActions.v
DeviceRpc.v
EndToEnd.v
RbusDml.v
SmallClients.v
JsonHandler.v
IarmHandler.v
Cloud.v
AllFrontEnds.v
DaemonMain.v
