(* ===== verification/Prelude.v ===== *)
(** * A verification of tr69hostif

    tr69hostif is the TR-181 parameter daemon of an RDK set-top box.  Requests
    to read and write parameters reach it over WebPA (parodus), over HTTP from
    local clients, over IARM and over the RBus; a dispatcher routes each to the
    manager that owns the parameter's prefix, and the managers' handlers read and
    write the device and two persistent stores, of RFC settings and of bootstrap
    settings.  All paths below are under src/src/hostif/.

    ** Parts

    - Prelude (this file): characters, C strings, the [hostif] hint databases,
      successive assignments to a map.
    - HostIf: include/hostIf_tr69ReqHandler.h and the conversions of
      src/hostIf_utils.cpp.  A message is the record [HOSTIF_MsgData_t]; its
      value field is a list of 4096 bytes, and integers are put into it and read
      from it little-endian at their width.
    - FileStore: the files a store sees ([env]), with what cannot be written and
      the traversal order of an unordered_map ([UMapOrder]: any permutation, a
      new one at every traversal), and the key=value format all stores use.
    - IniFile: src/IniFile.cpp ([IniFile]) and, on it,
      profiles/DeviceInfo/XrdkCentralComRFC.cpp ([XRFCStorage]).
    - RFCStore: profiles/DeviceInfo/XrdkCentralComRFCStore.cpp ([XRFCStore]), the
      RFC settings with their local overrides, volatile settings and defaults.
    - BSJournal and BSStore: XrdkCentralComBSStoreJournal.cpp
      ([XBSStoreJournal]) and XrdkCentralComBSStore.cpp ([XBSStore]), the
      bootstrap settings and the record of who set them;
      get_PartnerId_From_Script of Device_DeviceInfo.cpp is modelled with them.
      cJSON is the parameter [CJson].
    - MsgHandler: handlers/src/hostIf_msgHandler.cpp, the configuration file,
      the routing and the four entry points.  GLib's hash table ([GHashTable])
      and the managers' handlers ([Managers]) are parameters.
    - WalDB and WalList: parodusClient/waldb/waldb.cpp, looking a parameter up
      in the data model and listing the parameters below a partial path.  The
      parsed document is the parameter [TinyXml].
    - FrontEnd: the dispatcher as the front ends see it (the class [ReqHandler],
      implemented by [dispatcher] from MsgHandler's entry points) and the names
      of wdmp-c ([Wdmp]).
    - Webpa and WebpaAttr: parodusClient/pal/webpa_parameter.cpp and
      webpa_attribute.cpp.  The RBus client is the parameter [Rbus].
    - RFCVar and HttpServer: httpserver/src/XrdkCentralComRFCVar.cpp
      ([XRFCVarStore]) and request_handler.cpp ([RequestHandler]), with the
      status code that http_server.cpp puts on an answer.
    - WebpaAdapter and Libpd: parodusClient/pal/webpa_adapter.cpp with
      webpa_notification.cpp, what a decoded cloud request does and what is
      notified; libpd.cpp, the connection to parodus, its loop of requests and
      the sending of notifications.  wdmp-c ([Adapter.WdmpJson]), cJSON and
      libparodus are parameters.
    - StartParodus: parodusClient/startParodus/startParodus.cpp, the program that
      collects what parodus is told and starts it.  cJSON ([ConfigJson]) and the
      library that asks the daemon are parameters.
    - NotificationHandler and UpdateHandler: the queue of notifications between
      the threads that push and the one that sends, as functions and as a step
      relation over any number of threads; the rounds of the update thread and
      the events it broadcasts.
    - RbusDml, JsonHandler, IarmHandler: the three other front ends,
      handlers/src/hostIf_rbus_Dml_Provider.cpp, hostIf_jsonReqHandlerThread.cpp
      and hostIf_IARM_ReqHandler.cpp, over librbus ([RbusProvider]), yajl and
      libsoup ([Yajl], [Soup]) and the IARM bus ([Platform]).
    - Utils, Notify, ClientLocks: the rest of hostIf_utils.cpp; the notification
      attributes and the counting loops that the handlers share; the two ways
      in which the profile classes lock.
    - DeviceInfo and DeviceClient: profiles/DeviceInfo/Device_DeviceInfo.cpp as
      far as the RFC and bootstrap parameters go, and
      handlers/src/hostIf_DeviceClient_ReqHandler.cpp, the manager in front of
      them with its mutex.  The setters and getters of the other parameters are
      the parameter [DeviceProfile].
    - DeviceFirmware, DeviceSsh, DevicePackages, DeviceSwitches, DeviceRpc: other
      setters and getters of Device_DeviceInfo.cpp, by what they do: firmware
      downloads, remote access and the AppArmor block list, packages for
      debugging, settings that act at once (flag files, services, RBus events),
      notifications of downloads and reboots.  DeviceActions makes the switches and
      packages an instance of [DeviceProfile] over a profile of the rest, so that
      a request passes the real handler, store and setter.  The files they use are
      [env] as well; ProfileIO holds how they read and write them.
    - TimeClient: profiles/Time/Device_Time.cpp and its manager, chrony's settings
      and the clock.
    - InterfaceStack: profiles/InterfaceStack/Device_InterfaceStack.cpp and its
      manager, over the network ([net]) as other profiles and sysfs give it.
    - Network, IPAddress, IPProfile, IPClient: the classes of profiles/IP and their
      manager, handlers/src/hostIf_IPClient_ReqHandler.cpp.  Network numbers the
      interfaces, aliases included, over what the system lists ([net]); IPAddress has
      the tables of addresses and prefixes and the requests that change them, over
      the resolution of IPv6 addresses ([Inet6]); IPProfile the parameters of an
      interface, its counters, the active ports and the settings of IPPing; IPClient
      the routing, the state between requests and the rounds of updates.
    - DHCPv4: profiles/DHCPv4/Device_DHCPv4_Client.cpp and its manager,
      handlers/src/hostIf_DHCPv4Client_ReqHandler.cpp ([DHCPv4ClientReqHandler]),
      over what the commands for routes and name servers print and the interfaces
      of Network.
    - Ethernet: profiles/Ethernet/Device_Ethernet_Interface.cpp, its Stats and
      their manager ([EthernetClientReqHandler]), over [net] and the files of sysfs.
    - MoCA: profiles/moca and handlers/src/hostIf_MoCAClient_ReqHandler.cpp, over the
      library of the chip ([Rmh]): the parameters and settings of the interface, its
      counters, the devices of its network and the table of their links.
    - ProcessStatus: Device_DeviceInfo_ProcessStatus.cpp and
      Device_DeviceInfo_ProcessStatus_Process.cpp, the use of the CPU from
      /proc/stat and the table of processes that libproc lists, reached by the
      routes of DeviceClient.
    - SmallClients: three managers whole, of telemetry profiles
      ([XRdkCentralT2]), WebPA addresses ([XRdkProfile]) and the check for
      firmware ([XREClient]).
    - DaemonMain: src/hostIf_main.cpp, merging the files of the data model, the
      command line and the order of the start, and the shutdown as a step relation
      of the main thread, the shutdown thread and signals.
    - EndToEnd, Cloud, AllFrontEnds: the components composed as the daemon
      composes them, from a request over HTTP, WebPA or the RBus through the
      dispatcher and the device handler to the files of the stores and back.

    ** How the model reads

    A definition has the name of the C++ function it models; the object it is a
    method of is an argument and comes back changed, and so do the files ([env])
    and, for the front ends, the state behind the handlers.  An operation that
    can end the process or read and write outside an object returns an option
    ([None]) or, where recursion also needs fuel, a [walk]: [Done], [Crash] or
    [OutOfFuel].  An exception that a caller catches is a value of [outcome];
    one that nothing catches is [None] or [Crash].  Log output is left out;
    telemetry is the list of events a call returns.  The stores and the device
    handler run under mutexes and are modelled as sequences of their operations;
    that the device handler gives its mutex back, and
    that an exception leaves it locked behind the dispatcher, is a theorem of EndToEnd
    ([exception_keeps_mutex]), and where threads share state without such a
    sequence the model is a step relation (NotificationHandler, ClientLocks).
    The semaphore around the local RFC file is whether it can be opened.

    Fuel: the configuration scan has one more than the file has characters,
    which is proved enough on every content; the walk over the data model is
    given any fuel, and [wildcard_flat] says how much is enough for a model
    whose objects have one instance each; the loops that wait for a connection
    have one more than the attempts that fail ([connects_eventually],
    [power_flags_agree]).

    ** What is proved

    A theorem's comment says for which parameters, values and states it holds.
    Ordinary RFC settings, below, are those of Device.DeviceInfo that are kept in
    the RFC store and nothing else: not the volatile ones, those with a limit or an
    action on the device, or the names that control an update.

    - The daemon as a whole.  An ordinary RFC setting made over HTTP, from the cloud
      or over the RBus, in a text as the daemon prints it, is in the file of its
      store and is what a later request reads, over any front end
      ([http_rfc_round_trip], [cloud_rfc_round_trip], [rbus_set_read_everywhere]);
      so is a bootstrap setting over HTTP ([http_bootstrap_round_trip]).  An update
      of the RFC server refines its specification through the whole daemon
      ([http_rfc_update]); a requestor that may not override a bootstrap parameter
      is refused and nothing changes ([http_bootstrap_denied],
      [bootstrap_override_rule]).  A switch that is set is in the RFC store and on
      the device, as far as the disk lets it ([switch_stored_and_acts]).
    - The process.  The data model is merged from its files as they stand
      ([merge_data_model]) and no front end serves without one
      ([served_with_data_model]); a signal ends the daemon when the main loop runs
      and no signal came before it ([signal_ends_daemon]).
    - The stores.  A set is what the next get returns ([rfc_set_get],
      [bs_override_get]) and what a restart reads back ([bs_file_sync],
      [journal_restart], [setValue_load_roundtrip], [rfcvar_reload]); a restart
      outside an update finds all four caches of the RFC store as they were
      ([rfc_restart_safe]). The update protocols of the RFC server refine their
      specifications: a map of the last values set, overlaid on the local or
      firmware values ([rfc_update_protocol], [bs_update_protocol]); the volatile
      parameters stay through an update ([volatile_survive_update]).  A firmware default never takes the place of an
      override ([bs_default_never_overrides], [bs_defaults_keep_overrides]).
    - The dispatcher.  The loader's table routes a request to the manager configured
      for its prefix ([get_routed]), everything else is refused
      ([unrouted_refused]), the scan ends ([config_scan_terminates]), telemetry is
      sent once ([load_telemetry_once]).
    - The data model.  The lookup finds exactly the entries of the model
      ([lookup_plain_name]) and tries the placeholders in a stated order
      ([lookup_one_instance], [lookup_two_instances]); the listing gives exactly the
      parameters below a path ([wildcard_flat]) within the callers' arrays
      ([wildcard_bounded]); the RBus is given one element for each listed name
      ([rbus_registers_model]).
    - The front ends.  A set that the data model allows reaches the handler once, as
      the message the text stands for ([webpa_set_delivers], [http_set_delivers]),
      the same over HTTP and the RBus as over WebPA for the values that both take
      ([front_ends_agree], [rbus_set_delivers]); what it forbids is refused
      ([http_set_refused], [set_refused_as_whole]); a get answers the handler's
      value or the default ([http_get_answers]), over the RBus in the type that the
      handler's message has ([rbus_get_typed]), and as one JSON text
      ([json_answer_well_formed]).
    - Notifications and connections.  Every notification pushed is handed once to
      the function that sends it, or dropped when the callback is not registered
      yet, whatever the threads do ([every_notification_sent]); every request read
      is answered ([requests_answered]); the daemon connects as soon as parodus or
      the power controller does ([connects_eventually], [power_flags_agree]); the
      changes of deep sleep are notified ([deepsleep_notified]); parodus is told
      what the daemon, when it answers, and the configuration say
      ([daemon_parameters_passed]) and is started unless the partner's file is too
      long ([parodus_started]); added and removed instances become events
      ([add_remove_events]).
    - The profiles.  Over any sequence of requests and on any disk the switches
      refine what they promise ([switches_refine]); the interface stack answers the
      layers of the network it is given ([interface_stack_answers]); IP interfaces
      are the devices and then their aliases ([interfaces_numbered]), and their
      tables of addresses are those of the system ([address_tables]), as are
      prefixes ([prefix_exact]), ports ([active_port_exact]) and the settings of
      IPPing after a restart ([ping_settings_kept]); a DHCP client whose default
      route has a device to itself is that device and answers its gateway and name
      servers ([client_of_route], [servers_by_route]), which are well-formed
      addresses ([valid_address_exact]); an Ethernet interface answers what sysfs
      says of it ([ethernet_answers], [bytes_counted]); a MoCA interface answers
      what its chip says ([moca_numbers], [device_numbers]) and the table of links
      has each ordered pair of its nodes once ([mesh_links]); the use of the CPU is
      the share of the two samples that is not idle ([cpu_usage_exact]) and a
      process is the one at its place in the table ([process_answers]); chrony's
      settings, of lines in the form of their five fields, are taken when they are
      valid and answered as they were set ([ntp_settings_exact]); the block list
      keeps the profiles that a request does not name ([blocklist_set],
      [blocklist_refused]); the status of a download reads back
      ([download_status_round_trip]) and its trigger uses each setting once
      ([download_trigger]); the time after which a debug tool expires is what was
      accepted, a number without sign from 1 to 2^32-1 for which the disk has room
      ([package_expiry_exact], [install_path_safe]); the cloud is notified of
      downloads when the store says so ([rpc_notified_iff_enabled],
      [download_reported]); of what reaches the scripts of the SSH tunnel the ssh
      arguments and the local port are checked, the host and the destination through
      stunnel are not ([tunnel_text_checked], [shorts_tunnel_command]).
    - Values.  Text put into a message reads back as the same text
      ([put_get_value_roundtrip]).
    - Where the code falls short of this, a theorem says how: an unsigned long
      through [get_ulong], ClearParam during an update, a comma in the journal, a
      dropped override, unknown managers, a digit in a path component, defaults of
      WebPA gets that are not strings, RFC variables in HTTP requests, numbers out
      of range over HTTP, the type dateTime, attributes of DeviceInfo, IP and
      Ethernet that are freed while the table holds them ([freed_attributes]),
      attribute requests from the cloud ([attribute_requests_crash]) and over IARM
      ([iarm_attributes_never_read]), a mutex that is initialised before every lock
      ([reinit_excludes_nobody]), a signal during the start ([early_signal_lost]), a
      switch that is refused and stays in the store ([refused_switch_stored]),
      telemetry profiles from the cloud that never reach the bus
      ([cloud_profiles_dropped]), an address that anyone may override
      ([dns_text_set_by_anyone]), addresses that can or cannot be set depending on
      what was read ([read_type_guards_set], [origin_read_forbids_set],
      [refused_address_deletes]), counters cut to 32 bits ([counters_wrap]),
      lifetimes read from memory that was never written ([lifetime_unwritten]),
      interfaces that every round reports as new ([rounds_repeat]), sets of
      interfaces that do not exist ([set_without_interface]), counters of Ethernet
      that no traffic moves ([counters_stay_zero]), Ethernet sets that reach another
      parameter ([ethernet_set_misdirected]), parameters of parodus that repeat the
      one before ([unanswered_repeated]), name servers lost behind a long name
      ([long_name_no_servers]), MoCA booleans refused as no booleans
      ([booleans_refused]), a mask that cannot be set as it was read
      ([mask_not_restored]), a last device that never leaves
      ([last_device_unnoticed]), a reference that outlives its interface
      ([reference_kept]).

    ** What is not modelled, and why

    The other profiles (storage, and the set-top box's ports and decoders), and the
    other setters and getters of Device_DeviceInfo.cpp, read and write devices
    through libraries, Thunder, IARM and sysfs, with little logic between the calls;
    the dispatcher and the device handler are proved for any behaviour of theirs.
    Loading the data model into TinyXML, the Thunder helpers of hostIf_utils.cpp,
    the thread that waits for a partner id, the loggers and the sockets are glue
    around libraries.  The comparison of an answer with the last one, which the
    getters of a profile make under HAVE_VALUE_CHANGE_EVENT, is not compiled: no
    makefile of a profile sets it.  Commands are the lists of their words, and what
    they answer is an argument. *)
From stdpp Require Import base list strings gmap sorting.
From Stdlib Require Import Ascii ZArith Lia.

Declare Scope hostif_scope.
Delimit Scope hostif_scope with hostif.
Create HintDb hostif discriminated.
Create Rewrite HintDb hostif.

#[global] Arguments Ascii.eqb : simpl never.

(** ** Characters *)
Definition NUL : ascii := "000"%char.
Definition NL : ascii := "010"%char.
Definition EQ : ascii := "="%char.
Definition QUOTE : ascii := "034"%char.
Definition COMMA : ascii := ","%char.
Definition DOT : ascii := "."%char.

(** Membership in a list that is written out. *)
Ltac in_list := repeat first [apply list_elem_of_here | apply list_elem_of_further].

(** Case analysis on a boolean test, with a name for the outcome. *)
Ltac case_if_as H :=
  match goal with |- context [if ?b then _ else _] => destruct b eqn:H end.

(** Case analysis on the Boolean tests of the model. *)
Ltac case_bool :=
  match goal with
  | |- context [if decide ?P then _ else _] => destruct (decide P)
  | |- context [if Ascii.eqb ?x ?y then _ else _] => destruct (Ascii.eqb_spec x y)
  | |- context [if ?b then _ else _] => destruct b eqn:?
  end.

(** ** C and C++ strings

    A [string] of the model is the content of an [std::string]; a C string is
    such a content cut at its first NUL. *)
Fixpoint c_str (s : string) : string :=
  match s with
  | EmptyString => EmptyString
  | String c s' => if Ascii.eqb c NUL then EmptyString else String c (c_str s')
  end.

Fixpoint has_char (c : ascii) (s : string) : bool :=
  match s with
  | EmptyString => false
  | String c' s' => Ascii.eqb c c' || has_char c s'
  end.

(** [s.erase(remove(s.begin(), s.end(), c), s.end())] *)
Fixpoint erase_char (c : ascii) (s : string) : string :=
  match s with
  | EmptyString => EmptyString
  | String c' s' => if Ascii.eqb c c' then erase_char c s' else String c' (erase_char c s')
  end.

(** [pos = s.find(c); s.substr(0, pos); s.substr(pos + 1)] *)
Fixpoint split_at (c : ascii) (s : string) : option (string * string) :=
  match s with
  | EmptyString => None
  | String c' s' =>
      if Ascii.eqb c c' then Some (EmptyString, s')
      else match split_at c s' with
           | Some (l, r) => Some (String c' l, r)
           | None => None
           end
  end.

(** The lines [getline(stream, line)] delivers until the stream ends. *)
Fixpoint getlines (s : string) : list string :=
  match s with
  | EmptyString => []
  | String c s' =>
      if Ascii.eqb c NL then EmptyString :: getlines s'
      else match getlines s' with
           | [] => [String c EmptyString]
           | l :: ls => String c l :: ls
           end
  end.

Fixpoint starts_with (p s : string) : bool :=
  match p, s with
  | EmptyString, _ => true
  | String a p', String b s' => Ascii.eqb a b && starts_with p' s'
  | String _ _, EmptyString => false
  end.

(** [s.find(p) != string::npos], [strstr(s, p) != NULL] *)
Fixpoint contains (p s : string) : bool :=
  starts_with p s ||
  match s with
  | EmptyString => false
  | String _ s' => contains p s'
  end.

Fixpoint last_char (s : string) : option ascii :=
  match s with
  | EmptyString => None
  | String c EmptyString => Some c
  | String _ s' => last_char s'
  end.

Definition is_empty (s : string) : bool :=
  match s with EmptyString => true | _ => false end.

Fixpoint str_take (n : nat) (s : string) : string :=
  match n, s with
  | S n', String c s' => String c (str_take n' s')
  | _, _ => EmptyString
  end.

Fixpoint str_drop (n : nat) (s : string) : string :=
  match n, s with
  | S n', String _ s' => str_drop n' s'
  | _, _ => s
  end.

Definition to_lower (c : ascii) : ascii :=
  let n := nat_of_ascii c in
  if (65 <=? n)%nat && (n <=? 90)%nat then ascii_of_nat (n + 32) else c.

Fixpoint lower (s : string) : string :=
  match s with
  | EmptyString => EmptyString
  | String c s' => String (to_lower c) (lower s')
  end.

(** [strcmp(a, b) == 0] and [strcasecmp(a, b) == 0] on C strings. *)
Definition streq (a b : string) : bool := String.eqb a b.
Definition strcaseeq (a b : string) : bool := String.eqb (lower a) (lower b).
(** [strncmp(p, s, strlen(p)) == 0] and its case-insensitive form. *)
Definition strncaseeq (p s : string) : bool := starts_with (lower p) (lower s).

Infix "=s?" := streq (at level 70) : hostif_scope.

(** ** Lemmas on strings *)
#[global] Arguments String.append : simpl nomatch.

Lemma str_app_nil_r s : s +:+ EmptyString = s.
Proof. induction s as [|c s IH]; simpl; congruence. Qed.

Lemma str_app_assoc a b c : (a +:+ b) +:+ c = a +:+ (b +:+ c).
Proof. induction a as [|x a IH]; simpl; congruence. Qed.

Lemma str_length_app a b : String.length (a +:+ b) = (String.length a + String.length b)%nat.
Proof. induction a as [|x a IH]; simpl; congruence. Qed.

Lemma streq_true a b : streq a b = true ↔ a = b.
Proof. apply String.eqb_eq. Qed.

Lemma streq_false a b : streq a b = false ↔ a ≠ b.
Proof. apply String.eqb_neq. Qed.

Lemma streq_refl a : streq a a = true.
Proof. by apply streq_true. Qed.

Lemma strcaseeq_refl a : strcaseeq a a = true.
Proof. apply String.eqb_refl. Qed.

Lemma has_char_app c a b : has_char c (a +:+ b) = has_char c a || has_char c b.
Proof. induction a as [|x a IH]; simpl; [done|]. by rewrite IH, orb_assoc. Qed.

Lemma c_str_no_nul s : has_char NUL s = false → c_str s = s.
Proof.
  induction s as [|c s IH]; simpl; [done|]. intros [Hc Hs]%orb_false_elim.
  rewrite Ascii.eqb_sym, Hc. by rewrite IH.
Qed.

Lemma c_str_has_nul s : has_char NUL (c_str s) = false.
Proof.
  induction s as [|c s IH]; simpl; [done|].
  case_bool; [done|]. simpl. rewrite IH, orb_false_r. by apply Ascii.eqb_neq.
Qed.

Lemma str_drop_app a s : str_drop (String.length a) (a +:+ s) = s.
Proof. by induction a. Qed.

Lemma c_str_idemp s : c_str (c_str s) = c_str s.
Proof. apply c_str_no_nul, c_str_has_nul. Qed.

Lemma erase_char_no c s : has_char c s = false → erase_char c s = s.
Proof.
  induction s as [|x s IH]; simpl; [done|]. intros [Hx Hs]%orb_false_elim.
  by rewrite Hx, IH.
Qed.

Lemma erase_char_has c s : has_char c (erase_char c s) = false.
Proof.
  induction s as [|x s IH]; simpl; [done|]. case_bool; simpl; [done|].
  rewrite IH, orb_false_r. by apply Ascii.eqb_neq.
Qed.

Lemma erase_char_app c a b : erase_char c (a +:+ b) = erase_char c a +:+ erase_char c b.
Proof. induction a as [|x a IH]; simpl; [done|]. case_bool; simpl; congruence. Qed.

Lemma split_at_app c k v : has_char c k = false → split_at c (k +:+ String c v) = Some (k, v).
Proof.
  induction k as [|x k IH]; simpl.
  - by rewrite Ascii.eqb_refl.
  - intros [Hx Hk]%orb_false_elim. by rewrite Hx, IH.
Qed.

Lemma split_at_None c s : split_at c s = None ↔ has_char c s = false.
Proof.
  induction s as [|x s IH]; simpl; [done|].
  destruct (Ascii.eqb c x); simpl; [done|].
  destruct (split_at c s) as [[l r]|]; naive_solver.
Qed.

Lemma split_at_Some c s l r :
  split_at c s = Some (l, r) → s = l +:+ String c r ∧ has_char c l = false.
Proof.
  revert l; induction s as [|x s IH]; intros l; simpl; [done|].
  destruct (Ascii.eqb_spec c x) as [->|Hx].
  - intros [= <- <-]. done.
  - destruct (split_at c s) as [[l' r']|]; [|done]. intros [= <- <-].
    destruct (IH l' eq_refl) as [-> Hl]. simpl. rewrite Hl, orb_false_r.
    split; [done|]. by apply Ascii.eqb_neq.
Qed.

Lemma getlines_line l s :
  has_char NL l = false → getlines (l +:+ String NL s) = l :: getlines s.
Proof.
  induction l as [|c l IH]; simpl; [done|]. intros [Hc Hl]%orb_false_elim.
  rewrite Ascii.eqb_sym, Hc. by rewrite (IH Hl).
Qed.

Lemma getlines_no_nl s : Forall (λ l, has_char NL l = false) (getlines s).
Proof.
  induction s as [|c s IH]; simpl; [constructor|].
  destruct (Ascii.eqb_spec c NL) as [->|Hc]; [by constructor|].
  assert (Ascii.eqb NL c = false) as Hc' by (apply Ascii.eqb_neq; congruence).
  destruct (getlines s) as [|l ls].
  - repeat constructor. simpl. by rewrite Hc'.
  - apply Forall_cons in IH as [Hl Hls]. constructor; [|done]. simpl. by rewrite Hc'.
Qed.

Lemma starts_with_app p s : starts_with p (p +:+ s) = true.
Proof. induction p as [|c p IH]; simpl; [done|]. by rewrite Ascii.eqb_refl. Qed.

Lemma starts_with_true p s : starts_with p s = true ↔ ∃ t, s = p +:+ t.
Proof.
  split; [|intros [t ->]; apply starts_with_app].
  revert s; induction p as [|c p IH]; intros s; simpl; [eauto|].
  destruct s as [|d s]; [done|]. intros [->%Ascii.eqb_eq Hp]%andb_true_iff.
  destruct (IH _ Hp) as [t ->]. by exists t.
Qed.

Lemma contains_refl s : contains s s = true.
Proof.
  destruct s as [|c s]; [done|]. simpl. rewrite Ascii.eqb_refl. simpl.
  rewrite <- (str_app_nil_r s) at 2. by rewrite starts_with_app.
Qed.

Lemma contains_true p s : contains p s = true ↔ ∃ a b, s = a +:+ p +:+ b.
Proof.
  split.
  - induction s as [|c s IH]; simpl.
    + rewrite orb_false_r. intros [t Ht]%starts_with_true. by exists EmptyString, t.
    + intros [[t ->]%starts_with_true|H]%orb_true_iff; [by exists EmptyString, t|].
      destruct (IH H) as (a & b & ->). by exists (String c a), b.
  - intros (a & b & ->). induction a as [|c a IH]; simpl.
    + destruct p as [|c p]; [by destruct b|]. simpl.
      by rewrite Ascii.eqb_refl, starts_with_app.
    + by rewrite IH, orb_true_r.
Qed.

Lemma lower_app a b : lower (a +:+ b) = lower a +:+ lower b.
Proof. induction a as [|c a IH]; [done|]. cbn [String.append lower]. by rewrite IH. Qed.

Lemma str_take_split n a b : str_take n (a +:+ b) = str_take n a +:+ str_take (n - String.length a) b.
Proof.
  revert n. induction a as [|c a IH]; intros n; cbn [String.append String.length].
  - rewrite Nat.sub_0_r. by destruct n.
  - destruct n as [|n]; [by destruct b|]. cbn [str_take String.append]. by rewrite IH.
Qed.

Lemma str_take_exact s k : (k ≤ String.length s)%nat → String.length (str_take k s) = k.
Proof. revert k. induction s as [|c s IH]; intros [|k] Hk; cbn [str_take String.length] in *; [done|lia|done|]. by rewrite IH by lia. Qed.

Lemma str_take_all n a : (String.length a ≤ n)%nat → str_take n a = a.
Proof.
  revert n. induction a as [|c a IH]; intros [|n]; cbn [String.length str_take]; intros Hn; try done; [lia|].
  f_equal. apply IH. lia.
Qed.

Lemma last_char_app s c : last_char (s +:+ String c EmptyString) = Some c.
Proof.
  induction s as [|x s IH]; [done|]. cbn [String.append last_char].
  destruct s; [done|]. cbn in *. exact IH.
Qed.

#[export] Hint Resolve c_str_has_nul erase_char_has starts_with_app contains_refl
  streq_refl strcaseeq_refl : hostif.
#[export] Hint Rewrite str_app_nil_r str_app_assoc c_str_idemp streq_refl strcaseeq_refl : hostif.

(** ** Lists of key/value pairs *)
Section assoc.
Context {A : Type}.

(** Successive [dict[key] = value] assignments. *)
Definition insert_all (l : list (string * A)) (m : gmap string A) : gmap string A :=
  foldl (λ m kv, <[kv.1 := kv.2]> m) m l.

Lemma insert_all_app l1 l2 m : insert_all (l1 ++ l2) m = insert_all l2 (insert_all l1 m).
Proof. apply foldl_app. Qed.

Lemma insert_all_notin l m k : k ∉ l.*1 → insert_all l m !! k = m !! k.
Proof.
  revert m; induction l as [|[k' v] l IH]; intros m; [done|].
  rewrite fmap_cons, not_elem_of_cons. intros [Hk Hl]. simpl.
  unfold insert_all in *. simpl. rewrite (IH _ Hl). by apply lookup_insert_ne.
Qed.

Lemma insert_all_in l m k v :
  NoDup l.*1 → (k, v) ∈ l → insert_all l m !! k = Some v.
Proof.
  revert m; induction l as [|[k' v'] l IH]; intros m Hnd Hin.
  { by apply not_elem_of_nil in Hin. }
  rewrite fmap_cons in Hnd. apply NoDup_cons in Hnd as [Hk Hnd].
  apply elem_of_cons in Hin as [[= <- <-]|Hin].
  - unfold insert_all; simpl. fold (insert_all l (<[k:=v]> m)).
    rewrite insert_all_notin by done. apply lookup_insert_eq.
  - by apply (IH (<[k':=v']> m)).
Qed.

(** A key that is assigned ends with its last value, whatever was there. *)
Lemma insert_all_covered l k : k ∈ l.*1 → ∃ v, ∀ m, insert_all l m !! k = Some v.
Proof.
  induction l as [|[k0 v0] l IH] using rev_ind; [by intros ?%not_elem_of_nil|].
  rewrite fmap_app, elem_of_app. intros Hk. setoid_rewrite insert_all_app. unfold insert_all at 1.
  simpl. destruct (decide (k = k0)) as [->|Hne]; [exists v0; intros; apply lookup_insert_eq|].
  destruct IH as [v Hv]; [destruct Hk as [?|Hk]; [done|]; by apply list_elem_of_singleton in Hk|].
  exists v. intros m. rewrite lookup_insert_ne by done. apply Hv.
Qed.

(** Assigning every entry of [m1], in any order, overlays [m1] on [m2]. *)
Lemma insert_all_perm l (m1 m2 : gmap string A) :
  l ≡ₚ map_to_list m1 → insert_all l m2 = m1 ∪ m2.
Proof.
  intros Hl. assert (NoDup l.*1) as Hnd.
  { rewrite Hl. apply NoDup_fst_map_to_list. }
  apply map_eq. intros k. destruct (m1 !! k) as [v|] eqn:Hk.
  - rewrite (lookup_union_Some_l _ _ _ _ Hk). apply insert_all_in; [done|].
    rewrite Hl. by apply elem_of_map_to_list.
  - rewrite lookup_union_r by done. apply insert_all_notin.
    intros Hin. apply list_elem_of_fmap in Hin as ([k' v] & -> & Hin).
    rewrite Hl in Hin. apply elem_of_map_to_list in Hin. simpl in *. congruence.
Qed.
End assoc.
