(* ===== verification/HostIf.v ===== *)
(** * The request envelope and its value codecs

    [HOSTIF_MsgData_t] of hostIf_tr69ReqHandler.h and the conversions of
    hostIf_utils.cpp between the bytes of [paramValue] and strings.  The target
    is LP64 little-endian: [int] has 32 bits, [long] has 64. *)
From stdpp Require Import base list strings.
From Stdlib Require Import Ascii ZArith Lia.
From S2P Require Import Prelude.

Open Scope Z_scope.

(** ** Enumerations *)
Inductive HostIf_ParamType_t : Type :=
| hostIf_StringType | hostIf_IntegerType | hostIf_UnsignedIntType
| hostIf_BooleanType | hostIf_DateTimeType | hostIf_UnsignedLongType.

Inductive HostIf_ReqType_t : Type :=
| HOSTIF_INVALID_TYPE | HOSTIF_GET | HOSTIF_SET | HOSTIF_GETATTRIB | HOSTIF_SETATTRIB.

Inductive faultCode_t : Type :=
| fcNoFault | fcMethodNotSupported | fcRequestDenied | fcInternalError
| fcInvalidArguments | fcResourcesExceeded | fcInvalidParameterName
| fcInvalidParameterType | fcInvalidParameterValue
| fcAttemptToSetaNonWritableParameter.

Definition faultCode_val (f : faultCode_t) : Z :=
  match f with
  | fcNoFault => 0
  | fcMethodNotSupported => 9000
  | fcRequestDenied => 9001
  | fcInternalError => 9002
  | fcInvalidArguments => 9003
  | fcResourcesExceeded => 9004
  | fcInvalidParameterName => 9005
  | fcInvalidParameterType => 9006
  | fcInvalidParameterValue => 9007
  | fcAttemptToSetaNonWritableParameter => 9008
  end.

Inductive HostIf_Source_Type_t : Type :=
| HOSTIF_NONE | HOSTIF_SRC_ALL | HOSTIF_SRC_WEBPA | HOSTIF_SRC_RFC
| HOSTIF_SRC_IARM | HOSTIF_SRC_DEFAULT.

#[export] Instance paramtype_eq_dec : EqDecision HostIf_ParamType_t.
Proof. solve_decision. Defined.
#[export] Instance reqtype_eq_dec : EqDecision HostIf_ReqType_t.
Proof. solve_decision. Defined.
#[export] Instance faultcode_eq_dec : EqDecision faultCode_t.
Proof. solve_decision. Defined.
#[export] Instance source_eq_dec : EqDecision HostIf_Source_Type_t.
Proof. solve_decision. Defined.

Definition OK : Z := 0.
Definition NOK : Z := -1.
Definition NOT_HANDLED : Z := -2.

Definition TR69HOSTIFMGR_MAX_PARAM_LEN : nat := 4096.

(** ** The message *)
Record HOSTIF_MsgData_t := mkMsg {
  paramName : string;
  paramValue : list ascii;
  paramValueLong : option string;
  transactionID : string;
  paramLen : Z;
  instanceNum : Z;
  paramtype : HostIf_ParamType_t;
  reqType : HostIf_ReqType_t;
  faultCode : faultCode_t;
  requestor : HostIf_Source_Type_t;
  bsUpdate : HostIf_Source_Type_t;
  isLengthyParam : bool
}.

Definition zero_buffer : list ascii := replicate TR69HOSTIFMGR_MAX_PARAM_LEN NUL.

(** [memset(&msg, 0, sizeof(msg))] *)
Definition zero_msg : HOSTIF_MsgData_t :=
  mkMsg EmptyString zero_buffer None EmptyString 0 0 hostIf_StringType
        HOSTIF_INVALID_TYPE fcNoFault HOSTIF_NONE HOSTIF_NONE false.

Definition set_value (m : HOSTIF_MsgData_t) (v : list ascii) : HOSTIF_MsgData_t :=
  mkMsg (paramName m) v (paramValueLong m) (transactionID m) (paramLen m) (instanceNum m)
        (paramtype m) (reqType m) (faultCode m) (requestor m) (bsUpdate m) (isLengthyParam m).
Definition set_len (m : HOSTIF_MsgData_t) (n : Z) : HOSTIF_MsgData_t :=
  mkMsg (paramName m) (paramValue m) (paramValueLong m) (transactionID m) n (instanceNum m)
        (paramtype m) (reqType m) (faultCode m) (requestor m) (bsUpdate m) (isLengthyParam m).
Definition set_fault (m : HOSTIF_MsgData_t) (f : faultCode_t) : HOSTIF_MsgData_t :=
  mkMsg (paramName m) (paramValue m) (paramValueLong m) (transactionID m) (paramLen m)
        (instanceNum m) (paramtype m) (reqType m) f (requestor m) (bsUpdate m) (isLengthyParam m).
Definition set_reqType (m : HOSTIF_MsgData_t) (r : HostIf_ReqType_t) : HOSTIF_MsgData_t :=
  mkMsg (paramName m) (paramValue m) (paramValueLong m) (transactionID m) (paramLen m)
        (instanceNum m) (paramtype m) r (faultCode m) (requestor m) (bsUpdate m) (isLengthyParam m).

Definition set_instance (m : HOSTIF_MsgData_t) (n : Z) : HOSTIF_MsgData_t :=
  mkMsg (paramName m) (paramValue m) (paramValueLong m) (transactionID m) (paramLen m) n
        (paramtype m) (reqType m) (faultCode m) (requestor m) (bsUpdate m) (isLengthyParam m).
Definition set_paramtype (m : HOSTIF_MsgData_t) (t : HostIf_ParamType_t) : HOSTIF_MsgData_t :=
  mkMsg (paramName m) (paramValue m) (paramValueLong m) (transactionID m) (paramLen m) (instanceNum m)
        t (reqType m) (faultCode m) (requestor m) (bsUpdate m) (isLengthyParam m).

(** ** Machine integers *)
Definition int16 (z : Z) : Z := (z + 2 ^ 15) mod 2 ^ 16 - 2 ^ 15.
Definition int32 (z : Z) : Z := (z + 2 ^ 31) mod 2 ^ 32 - 2 ^ 31.
Definition uint32 (z : Z) : Z := z mod 2 ^ 32.
Definition uint64 (z : Z) : Z := z mod 2 ^ 64.

Definition byte_val (c : ascii) : Z := Z.of_N (N_of_ascii c).
Definition byte_of (z : Z) : ascii := ascii_of_N (Z.to_N (z mod 256)).

Fixpoint le_bytes (n : nat) (z : Z) : list ascii :=
  match n with
  | O => []
  | S n' => byte_of z :: le_bytes n' (z / 256)
  end.

Fixpoint le_val (bs : list ascii) : Z :=
  match bs with
  | [] => 0
  | b :: bs' => byte_val b + 256 * le_val bs'
  end.

(** Store bytes at the start of a buffer. *)
Definition poke (buf bs : list ascii) : list ascii := bs ++ drop (length bs) buf.

Definition get_int (ptr : list ascii) : Z := int32 (le_val (take 4 ptr)).
Definition put_int (ptr : list ascii) (val : Z) : list ascii := poke ptr (le_bytes 4 val).
Definition get_uint (ptr : list ascii) : Z := uint32 (le_val (take 4 ptr)).
Definition put_uint (ptr : list ascii) (val : Z) : list ascii := poke ptr (le_bytes 4 val).
(** The declared result type of [get_ulong] is [int]. *)
Definition get_ulong (ptr : list ascii) : Z := int32 (le_val (take 8 ptr)).
Definition put_ulong (ptr : list ascii) (val : Z) : list ascii := poke ptr (le_bytes 8 val).
Definition get_boolean (ptr : list ascii) : bool := negb (le_val (take 1 ptr) =? 0).
Definition put_boolean (ptr : list ascii) (val : bool) : list ascii :=
  poke ptr (le_bytes 1 (if val then 1 else 0)).

(** The C string at the start of a buffer. *)
Definition buf_str (ptr : list ascii) : string := c_str (String.string_of_list_ascii ptr).

(** [strcpy_s(buf, max, src)]: copies only when [src] and its NUL fit. *)
Definition strcpy_s (buf : list ascii) (max : nat) (src : string) : list ascii :=
  if (String.length (c_str src) <? max)%nat
  then poke buf (String.list_ascii_of_string (c_str src) ++ [NUL])
  else buf.

(** ** Decimal text *)
Definition digit (d : Z) : ascii := ascii_of_N (Z.to_N (48 + d)).
Definition digit_val (c : ascii) : Z := byte_val c - 48.
Definition is_digit (c : ascii) : bool := (48 <=? byte_val c) && (byte_val c <=? 57).
Definition is_space (c : ascii) : bool :=
  ((9 <=? byte_val c) && (byte_val c <=? 13)) || (byte_val c =? 32).

Fixpoint dec_aux (fuel : nat) (n : Z) (acc : string) : string :=
  match fuel with
  | O => acc
  | S f =>
      let acc' := String (digit (n mod 10)) acc in
      if n <? 10 then acc' else dec_aux f (n / 10) acc'
  end.

(** Twenty digits are enough for every 64-bit number. *)
Definition dec_nat (n : Z) : string := dec_aux 20 n EmptyString.
Definition dec (z : Z) : string :=
  if z <? 0 then String "-"%char (dec_nat (- z)) else dec_nat z.

Fixpoint scan_digits (s : string) (acc : Z) : Z * string :=
  match s with
  | String c s' => if is_digit c then scan_digits s' (acc * 10 + digit_val c) else (acc, s)
  | EmptyString => (acc, EmptyString)
  end.

Fixpoint skip_space (s : string) : string :=
  match s with
  | String c s' => if is_space c then skip_space s' else s
  | EmptyString => EmptyString
  end.

(** The subject sequence of [strtol]/[strtoul] in base 10: sign, magnitude and
    the text after it; [None] when no conversion is possible. *)
Definition strto (s : string) : option (bool * Z * string) :=
  let s1 := skip_space s in
  let '(neg, s2) :=
    match s1 with
    | String c s' =>
        if Ascii.eqb c "-"%char then (true, s')
        else if Ascii.eqb c "+"%char then (false, s') else (false, s1)
    | EmptyString => (false, s1)
    end in
  match s2 with
  | String c _ =>
      if is_digit c then let '(n, rest) := scan_digits s2 0 in Some (neg, n, rest) else None
  | EmptyString => None
  end.

Definition LONG_MAX : Z := 2 ^ 63 - 1.
Definition LONG_MIN : Z := - 2 ^ 63.
Definition ULONG_MAX : Z := 2 ^ 64 - 1.

Definition strtol (value : string) : Z * string :=
  match strto (c_str value) with
  | None => (0, c_str value)
  | Some (neg, n, rest) => (Z.max LONG_MIN (Z.min LONG_MAX (if neg then - n else n)), rest)
  end.

Definition atoi (s : string) : Z := int32 (strtol s).1.

Definition strtoul (value : string) : Z * string :=
  match strto (c_str value) with
  | None => (0, c_str value)
  | Some (neg, n, rest) =>
      (if ULONG_MAX <? n then ULONG_MAX else uint64 (if neg then - n else n), rest)
  end.

(** ** hostIf_utils.cpp conversions *)

(** [sprintf] into a 10-byte buffer: [None] when the text and its NUL do not fit. *)
Definition int_to_string (d : Z) : option string :=
  let s := dec d in
  if (String.length s <? 10)%nat then Some s else None.
Definition uint_to_string (d : Z) : string := dec d.
Definition ulong_to_string (d : Z) : string := dec d.
Definition bool_to_string (value : bool) : string := (if value then "true" else "false")%string.

Definition string_to_int (value : string) : Z := int32 (fst (strtol value)).
Definition string_to_uint (value : string) : Z := uint32 (fst (strtoul value)).
Definition string_to_ulong (value : string) : Z := fst (strtoul value).
Definition string_to_bool (value : string) : bool :=
  strcaseeq (c_str value) "true"%string || streq (c_str value) "1"%string.

(** The value held by a message, as text; [None] is undefined behaviour. *)
Definition getStringValue (m : HOSTIF_MsgData_t) : option string :=
  match paramtype m with
  | hostIf_StringType => Some (buf_str (paramValue m))
  | hostIf_IntegerType => int_to_string (get_int (paramValue m))
  | hostIf_UnsignedIntType => Some (uint_to_string (get_uint (paramValue m)))
  | hostIf_BooleanType => Some (bool_to_string (get_boolean (paramValue m)))
  | hostIf_UnsignedLongType => Some (ulong_to_string (uint64 (get_ulong (paramValue m))))
  | hostIf_DateTimeType => Some EmptyString
  end.

(** Store a text into the message according to its type. *)
Definition putValue (m0 : HOSTIF_MsgData_t) (value : string) : HOSTIF_MsgData_t :=
  let m := set_value m0 zero_buffer in
  match paramtype m with
  | hostIf_StringType =>
      set_len (set_value m (strcpy_s (paramValue m) TR69HOSTIFMGR_MAX_PARAM_LEN value))
              (int16 (Z.of_nat (String.length (c_str value))))
  | hostIf_IntegerType => set_value m (put_int (paramValue m) (string_to_int (c_str value)))
  | hostIf_UnsignedIntType => set_value m (put_uint (paramValue m) (string_to_uint (c_str value)))
  | hostIf_BooleanType => set_value m (put_boolean (paramValue m) (string_to_bool (c_str value)))
  | hostIf_UnsignedLongType =>
      set_value m (put_ulong (paramValue m) (string_to_ulong (c_str value)))
  | hostIf_DateTimeType => m
  end.

Definition getBSUpdateEnum (bs : option string) : HostIf_Source_Type_t :=
  match bs with
  | None => HOSTIF_NONE
  | Some s =>
      if strcaseeq s "allUpdate" then HOSTIF_SRC_ALL
      else if strcaseeq s "rfcUpdate" then HOSTIF_SRC_RFC
      else if strcaseeq s "default" then HOSTIF_SRC_DEFAULT
      else HOSTIF_NONE
  end.

(** ** Lemmas: bytes *)
Lemma byte_val_range c : 0 <= byte_val c < 256.
Proof.
  unfold byte_val. pose proof (N_ascii_bounded c). lia.
Qed.

Lemma byte_val_of z : byte_val (byte_of z) = z mod 256.
Proof.
  unfold byte_val, byte_of. pose proof (Z.mod_pos_bound z 256).
  rewrite N_ascii_embedding by lia. lia.
Qed.

Lemma le_val_le_bytes n z : le_val (le_bytes n z) = z mod 256 ^ Z.of_nat n.
Proof.
  revert z. induction n as [|n IH]; intros z; cbn [le_val le_bytes].
  - by rewrite Z.mod_1_r.
  - rewrite byte_val_of, IH, Nat2Z.inj_succ, Z.pow_succ_r by lia.
    rewrite Z.rem_mul_r by lia. lia.
Qed.

Lemma length_le_bytes n z : length (le_bytes n z) = n.
Proof. revert z; induction n as [|n IH]; intros z; simpl; by rewrite ?IH. Qed.

Lemma take_poke buf bs n : length bs = n → take n (poke buf bs) = bs.
Proof. intros <-. unfold poke. by rewrite take_app_length. Qed.

Lemma length_poke buf bs : (length bs <= length buf)%nat → length (poke buf bs) = length buf.
Proof. intros H. unfold poke. rewrite length_app, length_drop. lia. Qed.

Lemma le_val_put buf n z : le_val (take n (poke buf (le_bytes n z))) = z mod 256 ^ Z.of_nat n.
Proof. rewrite take_poke by apply length_le_bytes. apply le_val_le_bytes. Qed.

Lemma int32_mod z : int32 (z mod 2 ^ 32) = int32 z.
Proof. unfold int32. by rewrite Z.add_mod_idemp_l by lia. Qed.

Lemma uint32_int32 z : uint32 (int32 z) = z mod 2 ^ 32.
Proof.
  unfold uint32, int32. rewrite Zminus_mod_idemp_l. f_equal. lia.
Qed.

Lemma int32_id z : - 2 ^ 31 <= z < 2 ^ 31 → int32 z = z.
Proof. intros H. unfold int32. rewrite Z.mod_small by lia. lia. Qed.

Lemma int32_range z : - 2 ^ 31 <= int32 z < 2 ^ 31.
Proof. unfold int32. pose proof (Z.mod_pos_bound (z + 2 ^ 31) (2 ^ 32)). lia. Qed.

Lemma get_put_int buf z : get_int (put_int buf z) = int32 z.
Proof. unfold get_int, put_int. rewrite le_val_put. apply int32_mod. Qed.

Lemma get_put_uint buf z : get_uint (put_uint buf z) = uint32 z.
Proof.
  unfold get_uint, put_uint. rewrite le_val_put. unfold uint32.
  by rewrite Z.mod_mod by lia.
Qed.

Lemma get_put_ulong buf z : get_ulong (put_ulong buf z) = int32 z.
Proof.
  unfold get_ulong, put_ulong. rewrite le_val_put.
  rewrite <- int32_mod, <- (int32_mod z). f_equal.
  change (256 ^ Z.of_nat 8) with (2 ^ 32 * 2 ^ 32).
  rewrite Z.rem_mul_r by lia.
  rewrite Z.mul_comm, Z.mod_add by lia. by rewrite Z.mod_mod by lia.
Qed.

Lemma get_put_boolean buf b : get_boolean (put_boolean buf b) = b.
Proof. unfold get_boolean, put_boolean. rewrite le_val_put. by destruct b. Qed.

Lemma list_string_app a b :
  String.list_ascii_of_string (a +:+ b)
  = String.list_ascii_of_string a ++ String.list_ascii_of_string b.
Proof. induction a as [|c a IH]; simpl; congruence. Qed.

Lemma buf_str_poke buf s :
  has_char NUL s = false →
  buf_str (poke buf (String.list_ascii_of_string s ++ [NUL])) = s.
Proof.
  intros Hs. unfold buf_str, poke. rewrite <- app_assoc. simpl.
  generalize (drop (length (String.list_ascii_of_string s ++ [NUL])) buf). intros l.
  revert Hs. induction s as [|c s IH]; simpl; [done|].
  intros [Hc Hs]%orb_false_elim. rewrite Ascii.eqb_sym, Hc. by rewrite IH.
Qed.

(** ** Lemmas: decimal text *)
Lemma digit_byte d : 0 <= d < 10 → byte_val (digit d) = 48 + d.
Proof.
  intros H. unfold byte_val, digit. rewrite N_ascii_embedding by lia. lia.
Qed.

Lemma digit_is_digit d : 0 <= d < 10 → is_digit (digit d) = true.
Proof. intros H. unfold is_digit. rewrite digit_byte by done. lia. Qed.

Lemma digit_digit_val d : 0 <= d < 10 → digit_val (digit d) = d.
Proof. intros H. unfold digit_val. rewrite digit_byte by done. lia. Qed.

Lemma scan_dec_aux fuel n acc a :
  0 <= n < 10 ^ Z.of_nat fuel → (0 < fuel)%nat →
  ∃ k, 0 <= k ∧ scan_digits (dec_aux fuel n acc) a = scan_digits acc (a * 10 ^ k + n).
Proof.
  revert n acc. induction fuel as [|f IH]; intros n acc Hn Hf; [lia|].
  rewrite Nat2Z.inj_succ, Z.pow_succ_r in Hn by lia. cbn [dec_aux].
  pose proof (Z.mod_pos_bound n 10 ltac:(lia)). pose proof (Z.div_mod n 10 ltac:(lia)).
  destruct (Z.ltb_spec n 10).
  - exists 1. split; [lia|]. cbn [scan_digits].
    rewrite digit_is_digit, digit_digit_val by lia.
    rewrite Z.mod_small by lia. by rewrite Z.pow_1_r.
  - destruct (IH (n / 10) (String (digit (n mod 10)) acc)) as (k & Hk & ->).
    + split; [apply Z.div_pos; lia|]. apply Z.div_lt_upper_bound; lia.
    + destruct f; [|lia]. simpl in Hn. lia.
    + exists (k + 1). split; [lia|]. cbn [scan_digits].
      rewrite digit_is_digit, digit_digit_val by lia.
      rewrite Z.pow_add_r by lia. f_equal. lia.
Qed.

Lemma dec_aux_head fuel n acc :
  0 <= n → (0 < fuel)%nat →
  ∃ d t, dec_aux fuel n acc = String d t ∧ is_digit d = true.
Proof.
  revert n acc. induction fuel as [|f IH]; intros n acc Hn Hf; [lia|]. cbn [dec_aux].
  pose proof (Z.mod_pos_bound n 10 ltac:(lia)).
  destruct (Z.ltb_spec n 10); [eexists _, _; split; [done|by apply digit_is_digit]|].
  destruct f as [|f].
  { cbn. eexists _, _; split; [done|by apply digit_is_digit]. }
  apply IH; [apply Z.div_pos; lia|lia].
Qed.

Lemma dec_aux_length fuel n acc k :
  0 <= n < 10 ^ Z.of_nat fuel → (0 < k)%nat →
  ((String.length (dec_aux fuel n acc) <= String.length acc + k)%nat ↔ n < 10 ^ Z.of_nat k ∨ (fuel <= k)%nat).
Proof.
  revert n acc k. induction fuel as [|f IH]; intros n acc k Hn Hk.
  { simpl. lia. }
  rewrite Nat2Z.inj_succ, Z.pow_succ_r in Hn by lia. cbn [dec_aux].
  pose proof (Z.div_mod n 10 ltac:(lia)). pose proof (Z.mod_pos_bound n 10 ltac:(lia)).
  destruct (Z.ltb_spec n 10).
  - cbn [String.length]. split; [|lia]. intros _. left.
    apply Z.lt_le_trans with (10 ^ 1); [lia|]. apply Z.pow_le_mono_r; lia.
  - destruct k as [|k]; [lia|].
    rewrite Nat2Z.inj_succ, Z.pow_succ_r by lia.
    destruct (decide (k = 0%nat)) as [->|Hk0].
    + destruct f as [|f]; [simpl in Hn; lia|].
      assert (∀ f m (s : string), (0 < f)%nat →
        (String.length s < String.length (dec_aux f m s))%nat) as Hgrow.
      { clear. induction f as [|f IH]; intros m s Hf; [lia|]. cbn [dec_aux].
        case_bool; cbn [String.length]; [lia|]. destruct f as [|f]; [cbn; lia|].
        etrans; [|apply IH; lia]. cbn; lia. }
      split; [|simpl; lia].
      pose proof (Hgrow (S f) (n / 10) (String (digit (n mod 10)) acc) ltac:(lia)).
      cbn [String.length] in *. lia.
    + specialize (IH (n / 10) (String (digit (n mod 10)) acc) k). cbn [String.length] in IH.
      replace (String.length acc + S k)%nat with (S (String.length acc) + k)%nat by lia.
      rewrite IH.
      * split; (intros [?|?]; [left|right; lia]); [|apply Z.div_lt_upper_bound; lia].
        assert (n / 10 + 1 <= 10 ^ Z.of_nat k) by lia. lia.
      * split; [apply Z.div_pos; lia|]. apply Z.div_lt_upper_bound; lia.
      * lia.
Qed.

Lemma is_digit_not c d : is_digit c = true → is_digit d = false → Ascii.eqb c d = false.
Proof. intros Hc Hd. apply Ascii.eqb_neq. intros ->. congruence. Qed.

Lemma is_digit_not_space c : is_digit c = true → is_space c = false.
Proof. unfold is_digit, is_space. lia. Qed.

Lemma dec_nat_strto n :
  0 <= n < 10 ^ 20 →
  ∃ d t, dec_nat n = String d t ∧ is_digit d = true ∧ scan_digits (dec_nat n) 0 = (n, EmptyString).
Proof.
  intros Hn. destruct (dec_aux_head 20 n EmptyString ltac:(lia) ltac:(lia)) as (d & t & Hdt & Hd).
  destruct (scan_dec_aux 20 n EmptyString 0) as (k & Hk & Hs); [lia|lia|].
  exists d, t. unfold dec_nat. rewrite Hs. cbn [scan_digits].
  split_and!; [done|done|]. by f_equal.
Qed.

(** Scanning stops at a text that does not begin with a digit. *)
Lemma scan_digits_app s acc n rest :
  (∀ a, scan_digits rest a = (a, rest)) → scan_digits s acc = (n, EmptyString) → scan_digits (s +:+ rest) acc = (n, rest).
Proof.
  intros Hr. revert acc. induction s as [|x s IH]; intros acc; cbn [scan_digits String.append].
  - intros [= ->]. apply Hr.
  - destruct (is_digit x); [apply IH|done].
Qed.

Lemma strto_dec_app z rest :
  - 10 ^ 20 < z < 10 ^ 20 → (∀ a, scan_digits rest a = (a, rest)) →
  strto (dec z +:+ rest) = Some (z <? 0, Z.abs z, rest).
Proof.
  intros Hz Hr. unfold dec. destruct (Z.ltb_spec z 0).
  - destruct (dec_nat_strto (- z) ltac:(lia)) as (d & t & Hdt & Hd & Hs).
    apply (scan_digits_app _ _ _ rest Hr) in Hs. rewrite Hdt in Hs |- *.
    unfold strto. cbn [skip_space String.append]. replace (is_space "-"%char) with false by reflexivity.
    cbn [String.append] in Hs. rewrite Ascii.eqb_refl, Hd, Hs. by rewrite Z.abs_neq by lia.
  - destruct (dec_nat_strto z ltac:(lia)) as (d & t & Hdt & Hd & Hs).
    apply (scan_digits_app _ _ _ rest Hr) in Hs. rewrite Hdt in Hs |- *.
    unfold strto. cbn [skip_space String.append]. cbn [String.append] in Hs.
    rewrite (is_digit_not_space d Hd), !(is_digit_not d) by done. rewrite Hd, Hs. by rewrite Z.abs_eq by lia.
Qed.

Lemma strto_dec z :
  - 10 ^ 20 < z < 10 ^ 20 → strto (dec z) = Some (z <? 0, Z.abs z, EmptyString).
Proof. intros Hz. pose proof (strto_dec_app z EmptyString Hz ltac:(done)) as H. by rewrite str_app_nil_r in H. Qed.

Lemma dec_aux_no_char c fuel n acc :
  is_digit c = false → 0 <= n → has_char c (dec_aux fuel n acc) = has_char c acc.
Proof.
  intros Hc. revert n acc. induction fuel as [|f IH]; intros n acc Hn; [done|]. cbn [dec_aux].
  pose proof (Z.mod_pos_bound n 10 ltac:(lia)).
  assert (has_char c (String (digit (n mod 10)) acc) = has_char c acc) as Hacc.
  { simpl. rewrite Ascii.eqb_sym, is_digit_not; [done|by apply digit_is_digit|done]. }
  case_bool; [done|]. rewrite IH by (apply Z.div_pos; lia). done.
Qed.

Lemma dec_no_char c z :
  is_digit c = false → Ascii.eqb c "-" = false → has_char c (dec z) = false.
Proof.
  intros Hc Hm. unfold dec, dec_nat. destruct (Z.ltb_spec z 0); cbn [has_char];
    rewrite dec_aux_no_char by (done || lia); [by rewrite Hm|done].
Qed.

Lemma dec_no_nul z : has_char NUL (dec z) = false.
Proof. by apply dec_no_char. Qed.

Lemma c_str_dec z : c_str (dec z) = dec z.
Proof. apply c_str_no_nul, dec_no_nul. Qed.

Lemma strtol_dec z : LONG_MIN <= z <= LONG_MAX → strtol (dec z) = (z, EmptyString).
Proof.
  unfold LONG_MIN, LONG_MAX. intros Hz. unfold strtol. rewrite c_str_dec, strto_dec by lia.
  f_equal. unfold LONG_MIN, LONG_MAX. destruct (Z.ltb_spec z 0); lia.
Qed.

Lemma strtoul_dec z : 0 <= z <= ULONG_MAX → strtoul (dec z) = (z, EmptyString).
Proof.
  unfold ULONG_MAX. intros Hz. unfold strtoul. rewrite c_str_dec, strto_dec by lia.
  f_equal. unfold ULONG_MAX, uint64. destruct (Z.ltb_spec z 0); [lia|].
  destruct (Z.ltb_spec (2 ^ 64 - 1) (Z.abs z)); [lia|]. rewrite Z.abs_eq by lia.
  apply Z.mod_small. lia.
Qed.

Lemma string_to_int_dec z : - 2 ^ 31 <= z < 2 ^ 31 → string_to_int (dec z) = z.
Proof.
  intros Hz. unfold string_to_int. rewrite strtol_dec by (unfold LONG_MIN, LONG_MAX; lia).
  by apply int32_id.
Qed.

Lemma string_to_uint_dec z : 0 <= z < 2 ^ 32 → string_to_uint (dec z) = z.
Proof.
  intros Hz. unfold string_to_uint. rewrite strtoul_dec by (unfold ULONG_MAX; lia).
  apply Z.mod_small. done.
Qed.

Lemma string_to_ulong_dec z : 0 <= z < 2 ^ 64 → string_to_ulong (dec z) = z.
Proof. intros Hz. unfold string_to_ulong. by rewrite strtoul_dec by (unfold ULONG_MAX; lia). Qed.

#[export] Hint Rewrite c_str_dec get_put_int get_put_uint get_put_ulong get_put_boolean : hostif.

Lemma int_to_string_fits z :
  - 2 ^ 31 <= z < 2 ^ 31 →
  int_to_string z = if decide (- 10 ^ 8 < z < 10 ^ 9) then Some (dec z) else None.
Proof.
  intros Hz. unfold int_to_string, dec, dec_nat.
  destruct (Z.ltb_spec z 0); cbn [String.length].
  - pose proof (dec_aux_length 20 (- z) EmptyString 8 ltac:(lia) ltac:(lia)) as Hl.
    cbn [String.length] in Hl. change (Z.of_nat 8) with 8 in Hl.
    case_decide; (destruct (Nat.ltb_spec (S (String.length (dec_aux 20 (- z) ""))) 10); [|]);
      try done; exfalso; lia.
  - pose proof (dec_aux_length 20 z EmptyString 9 ltac:(lia) ltac:(lia)) as Hl.
    cbn [String.length] in Hl. change (Z.of_nat 9) with 9 in Hl.
    case_decide; (destruct (Nat.ltb_spec (String.length (dec_aux 20 z "")) 10); [|]);
      try done; exfalso; lia.
Qed.

Lemma dec_inj a b :
  0 <= a < 2 ^ 64 → 0 <= b < 2 ^ 64 → dec a = dec b → a = b.
Proof.
  intros Ha Hb Heq. rewrite <- (string_to_ulong_dec a), <- (string_to_ulong_dec b) by done.
  by rewrite Heq.
Qed.

(** The texts that a parameter of a given type prints. *)
Definition canonical_text (t : HostIf_ParamType_t) (s : string) : Prop :=
  match t with
  | hostIf_StringType => has_char NUL s = false ∧ (String.length s < TR69HOSTIFMGR_MAX_PARAM_LEN)%nat
  | hostIf_IntegerType => ∃ z, s = dec z ∧ - 10 ^ 8 < z < 10 ^ 9
  | hostIf_UnsignedIntType => ∃ z, s = dec z ∧ 0 <= z < 2 ^ 32
  | hostIf_BooleanType => s = "true"%string ∨ s = "false"%string
  | hostIf_UnsignedLongType => ∃ z, s = dec z ∧ 0 <= z < 2 ^ 31
  | hostIf_DateTimeType => s = EmptyString
  end.

Lemma canonical_no_nul t s : canonical_text t s → has_char NUL s = false.
Proof.
  destruct t; simpl; [naive_solver| | | | |]; try (intros (z & -> & _); apply dec_no_nul);
    [by intros [-> | ->]|by intros ->].
Qed.

Lemma paramtype_putValue m s : paramtype (putValue m s) = paramtype m.
Proof. by destruct m as [? ? ? ? ? ? []]. Qed.

Lemma getStringValue_eq m1 m2 :
  paramtype m1 = paramtype m2 → paramValue m1 = paramValue m2 →
  getStringValue m1 = getStringValue m2.
Proof. intros Ht Hv. unfold getStringValue. by rewrite Ht, Hv. Qed.

(** What a message holds after [putValue], type by type. *)
Lemma putValue_string m s :
  paramtype m = hostIf_StringType → has_char NUL s = false →
  (String.length s < TR69HOSTIFMGR_MAX_PARAM_LEN)%nat →
  getStringValue (putValue m s) = Some s.
Proof.
  intros Ht Hn Hl. unfold putValue, getStringValue. destruct m; simpl in *; subst; simpl.
  unfold strcpy_s. rewrite (c_str_no_nul s Hn).
  destruct (Nat.ltb_spec (String.length s) TR69HOSTIFMGR_MAX_PARAM_LEN); [|lia].
  by rewrite buf_str_poke.
Qed.

Lemma putValue_int m z :
  paramtype m = hostIf_IntegerType → - 2 ^ 31 <= z < 2 ^ 31 →
  getStringValue (putValue m (dec z)) = int_to_string z.
Proof.
  intros Ht Hz. unfold putValue, getStringValue. destruct m; simpl in *; subst; simpl.
  by rewrite get_put_int, c_str_dec, string_to_int_dec, int32_id by done.
Qed.

Lemma putValue_uint m z :
  paramtype m = hostIf_UnsignedIntType → 0 <= z < 2 ^ 32 →
  getStringValue (putValue m (dec z)) = Some (dec z).
Proof.
  intros Ht Hz. unfold putValue, getStringValue. destruct m; simpl in *; subst; simpl.
  rewrite get_put_uint, c_str_dec, string_to_uint_dec by done.
  unfold uint_to_string, uint32. by rewrite Z.mod_small.
Qed.

Lemma putValue_ulong m z :
  paramtype m = hostIf_UnsignedLongType → 0 <= z < 2 ^ 64 →
  getStringValue (putValue m (dec z)) = Some (dec (uint64 (int32 z))).
Proof.
  intros Ht Hz. unfold putValue, getStringValue. destruct m; simpl in *; subst; simpl.
  by rewrite get_put_ulong, c_str_dec, string_to_ulong_dec by done.
Qed.

Lemma putValue_bool m (b : bool) :
  paramtype m = hostIf_BooleanType →
  getStringValue (putValue m (bool_to_string b)) = Some (bool_to_string b).
Proof.
  intros Ht. unfold putValue, getStringValue. destruct m; simpl in *; subst; simpl.
  rewrite get_put_boolean. by destruct b.
Qed.

#[export] Hint Resolve canonical_no_nul dec_no_nul : hostif.

(** Proof of the round trip, shared by the stores that put and re-read values. *)
Lemma putValue_canonical m s :
  canonical_text (paramtype m) s → getStringValue (putValue m s) = Some s.
Proof.
  destruct (paramtype m) eqn:Ht; simpl.
  - intros [Hn Hl]. by apply putValue_string.
  - intros (z & -> & Hz). rewrite putValue_int by (done || lia).
    rewrite int_to_string_fits by lia. by rewrite decide_True by lia.
  - intros (z & -> & Hz). by apply putValue_uint.
  - intros [-> | ->]; [by apply (putValue_bool m true)|by apply (putValue_bool m false)].
  - intros ->. destruct m; simpl in *; by subst.
  - intros (z & -> & Hz). rewrite putValue_ulong by (done || lia).
    rewrite int32_id by lia. unfold uint64. by rewrite Z.mod_small by lia.
Qed.

(** A set request carrying a text. *)
Definition string_set (name value : string) (src : HostIf_Source_Type_t) : HOSTIF_MsgData_t :=
  putValue (mkMsg name zero_buffer None EmptyString 0 0 hostIf_StringType HOSTIF_SET fcNoFault
                  src HOSTIF_NONE false) value.

Lemma string_set_value name value src :
  has_char NUL value = false → (String.length value < TR69HOSTIFMGR_MAX_PARAM_LEN)%nat →
  getStringValue (string_set name value src) = Some value.
Proof. intros. by apply putValue_string. Qed.

Lemma string_set_name name value src : paramName (string_set name value src) = name.
Proof. done. Qed.

Lemma string_set_requestor name value src : requestor (string_set name value src) = src.
Proof. done. Qed.

(** ** Properties *)

(** Storing a text into a message and reading the message back gives the
    same text, for every parameter type and every text that the type prints
    within its bounds. *)
Theorem put_get_value_roundtrip m s :
  canonical_text (paramtype m) s → getStringValue (putValue m s) = Some s.
Proof. apply putValue_canonical. Qed.

Lemma put_get_value_roundtrip_witness :
  let m := mkMsg "Device.Time.X" zero_buffer None "" 0 0 hostIf_IntegerType HOSTIF_SET
                 fcNoFault HOSTIF_NONE HOSTIF_NONE false in
  canonical_text (paramtype m) "-4096" ∧ getStringValue (putValue m "-4096") = Some "-4096"%string.
Proof.
  intros m. assert (canonical_text (paramtype m) "-4096") as Hc.
  { exists (-4096). split; [by vm_compute|lia]. }
  split; [exact Hc|]. exact (put_get_value_roundtrip m "-4096" Hc).
Defined.

(** An unsigned long survives a put and a get exactly when it is below
    2^31 or within 2^31 of 2^64: [get_ulong] is declared to return [int], so
    every value in between comes back truncated to 32 bits and sign-extended. *)
Theorem ulong_roundtrip_iff m z :
  paramtype m = hostIf_UnsignedLongType → 0 <= z < 2 ^ 64 →
  (getStringValue (putValue m (dec z)) = Some (dec z) ↔ z < 2 ^ 31 ∨ 2 ^ 64 - 2 ^ 31 <= z).
Proof.
  intros Ht Hz. rewrite putValue_ulong by done.
  pose proof (Z.mod_pos_bound (int32 z) (2 ^ 64)) as Hr. fold (uint64 (int32 z)) in Hr.
  split.
  - intros [= Heq]. apply dec_inj in Heq; [|lia|done].
    pose proof (int32_range z). rewrite <- Heq. unfold uint64.
    destruct (Z.le_gt_cases 0 (int32 z)); [left; rewrite Z.mod_small; lia|right].
    rewrite <- (Z.mod_add _ 1), Z.mod_small by lia. lia.
  - intros Hcase. do 2 f_equal. destruct Hcase as [Hlt|Hge].
    + rewrite int32_id by lia. unfold uint64. by rewrite Z.mod_small by lia.
    + assert (int32 z = z - 2 ^ 64) as ->.
      { unfold int32. replace (z + 2 ^ 31) with (z - 2 ^ 64 + 2 ^ 31 + 2 ^ 32 * 2 ^ 32) by lia.
        rewrite Z.mod_add by lia. rewrite Z.mod_small by lia. lia. }
      unfold uint64. rewrite <- (Z.mod_add _ 1), Z.mod_small by lia. lia.
Qed.

Lemma ulong_roundtrip_iff_witness :
  let m := mkMsg "Device.Time.X" zero_buffer None "" 0 0 hostIf_UnsignedLongType HOSTIF_SET
                 fcNoFault HOSTIF_NONE HOSTIF_NONE false in
  getStringValue (putValue m (dec (2 ^ 31))) ≠ Some (dec (2 ^ 31)).
Proof.
  intros m Heq. apply (ulong_roundtrip_iff m (2 ^ 31)) in Heq; [|reflexivity|lia].
  destruct Heq; lia.
Defined.

(** [int_to_string] formats into a 10-byte buffer: the text of an [int] and
    its terminator fit exactly for the values strictly between -10^8 and 10^9,
    and every other [int] writes past the buffer. *)
Theorem int_to_string_bounds z :
  - 2 ^ 31 <= z < 2 ^ 31 →
  (- 10 ^ 8 < z < 10 ^ 9 ∧ int_to_string z = Some (dec z))
  ∨ (¬ (- 10 ^ 8 < z < 10 ^ 9) ∧ int_to_string z = None).
Proof.
  intros Hz. rewrite int_to_string_fits by done. case_decide; [by left|by right].
Qed.

Lemma int_to_string_bounds_witness : int_to_string (10 ^ 9) = None.
Proof.
  destruct (int_to_string_bounds (10 ^ 9) ltac:(lia)) as [[[_ H] _]|[_ H]]; [lia|exact H].
Defined.
