(* ===== verification/FileStore.v ===== *)
(** * Files, unordered maps and key=value texts

    The environment the stores run in: the files, which of them cannot be
    opened for writing, whether [sem_open] succeeds, the directories that are
    listed, and the clock.  An [std::unordered_map] is a [gmap]; the order of
    each of its traversals is unspecified and is given by [um_order], indexed
    by a counter that every traversal increments, so that two traversals of
    the same map need not agree. *)
From stdpp Require Import base list strings gmap.
From Stdlib Require Import Ascii ZArith Lia.
From S2P Require Import Prelude.

Class UMapOrder := {
  um_order : ∀ {A : Type}, nat → gmap string A → list (string * A);
  um_order_perm : ∀ (A : Type) n (m : gmap string A), um_order n m ≡ₚ map_to_list m
}.

(** One possible traversal order. *)
Definition canonical_order : UMapOrder :=
  {| um_order := λ A _ m, map_to_list m; um_order_perm := λ A _ m, reflexivity _ |}.

Record env := mkEnv {
  e_files : gmap string string;
  e_readonly : gset string;
  e_sem_ok : bool;
  e_dirs : gmap string (list string);
  e_now : string;
  e_tick : nat
}.

Definition set_files (w : env) (f : gmap string string) : env :=
  mkEnv f (e_readonly w) (e_sem_ok w) (e_dirs w) (e_now w) (e_tick w).
Definition next_tick (w : env) : env :=
  mkEnv (e_files w) (e_readonly w) (e_sem_ok w) (e_dirs w) (e_now w) (S (e_tick w)).

(** [ifstream ifs(p); ifs.is_open()] and its content. *)
Definition read_file (w : env) (p : string) : option string := e_files w !! p.
Definition put_file (w : env) (p txt : string) : env := set_files w (<[p:=txt]> (e_files w)).
(** [remove(p)]; the result is only logged. *)
Definition remove_file (w : env) (p : string) : env := set_files w (delete p (e_files w)).
Definition can_write (w : env) (p : string) : bool :=
  negb (is_empty p) && negb (bool_decide (p ∈ e_readonly w)).
(** [ofstream ofs(p, ios::trunc | ios::out)]: [None] when it does not open. *)
Definition open_trunc (w : env) (p : string) : option env :=
  if can_write w p then Some (put_file w p EmptyString) else None.
(** [ofstream ofs(p, ios::out | ios::app)] *)
Definition open_app (w : env) (p : string) : option env :=
  if can_write w p then Some (put_file w p (default EmptyString (read_file w p))) else None.
(** Text written to the end of an open file. *)
Definition append_file (w : env) (p txt : string) : env :=
  put_file w p (default EmptyString (read_file w p) +:+ txt).

(** [ofs << key << '=' << value << endl] *)
Definition kv_line (k v : string) : string := k +:+ String EQ (v +:+ String NL EmptyString).

Fixpoint kv_text (l : list (string * string)) : string :=
  match l with
  | [] => EmptyString
  | (k, v) :: l' => kv_line k v +:+ kv_text l'
  end.

(** One line of a key=value file. *)
Definition parse_line (m : gmap string string) (line : string) : gmap string string :=
  match split_at EQ line with
  | Some (k, v) => <[k:=v]> m
  | None => m
  end.

(** The [while (getline(...))] loop all the stores share. *)
Definition parse_kv (m : gmap string string) (content : string) : gmap string string :=
  foldl parse_line m (getlines content).

(** ** Texts that survive being written and read *)
Definition key_ok (k : string) : bool := negb (has_char EQ k) && negb (has_char NL k).
Definition val_ok (v : string) : bool := negb (has_char NL v).
Definition kv_ok (m : gmap string string) : Prop := map_Forall (λ k v, key_ok k ∧ val_ok v) m.
(** Every line of the text is ended by a newline. *)
Definition nl_terminated (s : string) : Prop := s = EmptyString ∨ last_char s = Some NL.

Lemma key_ok_spec k : key_ok k ↔ has_char EQ k = false ∧ has_char NL k = false.
Proof. unfold key_ok. destruct (has_char EQ k), (has_char NL k); naive_solver. Qed.

Lemma val_ok_spec v : val_ok v ↔ has_char NL v = false.
Proof. unfold val_ok. destruct (has_char NL v); naive_solver. Qed.

Lemma getlines_kv_line k v s :
  key_ok k → val_ok v → getlines (kv_line k v +:+ s) = (k +:+ String EQ v) :: getlines s.
Proof.
  intros [_ Hk]%key_ok_spec Hv%val_ok_spec. unfold kv_line.
  replace ((k +:+ String EQ (v +:+ String NL EmptyString)) +:+ s)
    with ((k +:+ String EQ v) +:+ String NL s) by (rewrite !str_app_assoc; simpl; by rewrite str_app_assoc).
  rewrite getlines_line; [done|]. rewrite has_char_app. simpl. by rewrite Hk, Hv.
Qed.

Lemma parse_line_kv m k v : key_ok k → parse_line m (k +:+ String EQ v) = <[k:=v]> m.
Proof. intros [Hk _]%key_ok_spec. unfold parse_line. by rewrite split_at_app. Qed.

(** The writer's text parses back to the assignments it lists. *)
Lemma parse_kv_text m l :
  Forall (λ kv, key_ok kv.1 ∧ val_ok kv.2) l → parse_kv m (kv_text l) = insert_all l m.
Proof.
  intros Hl. revert m. induction Hl as [|[k v] l [Hk Hv] Hl IH]; intros m; [done|].
  unfold parse_kv. cbn [kv_text]. rewrite getlines_kv_line by done. cbn [foldl].
  rewrite parse_line_kv by done. apply IH.
Qed.

(** Parsing adds the entries of the text to what was there; a second time it adds
    nothing. *)
Lemma parse_line_union m line : parse_line m line = parse_line ∅ line ∪ m.
Proof.
  unfold parse_line. repeat case_match; rewrite ?map_empty_union; try done.
  by rewrite <- insert_union_l, map_empty_union.
Qed.

Lemma parse_lines_union m l : foldl parse_line m l = foldl parse_line ∅ l ∪ m.
Proof.
  revert m. induction l as [|line l IH]; intros m; cbn [foldl]; [by rewrite map_empty_union|].
  rewrite IH, (IH (parse_line ∅ line)), (parse_line_union m line). apply map_union_assoc.
Qed.

Lemma parse_kv_again content : parse_kv (parse_kv ∅ content) content = parse_kv ∅ content.
Proof. unfold parse_kv at 1. rewrite parse_lines_union. apply map_union_idemp. Qed.

Lemma kv_ok_perm l m : kv_ok m → l ≡ₚ map_to_list m → Forall (λ kv, key_ok kv.1 ∧ val_ok kv.2) l.
Proof.
  intros Hm Hl. rewrite Hl. apply Forall_forall. intros [k v] Hin.
  apply elem_of_map_to_list in Hin. by apply (Hm k v).
Qed.

(** Writing a map in any order and loading the file gives the map back. *)
Lemma parse_kv_perm l m : kv_ok m → l ≡ₚ map_to_list m → parse_kv ∅ (kv_text l) = m.
Proof.
  intros Hm Hl. rewrite parse_kv_text by eauto using kv_ok_perm.
  rewrite (insert_all_perm l m) by done. apply map_union_empty.
Qed.

Lemma kv_ok_insert m k v : kv_ok m → key_ok k → val_ok v → kv_ok (<[k:=v]> m).
Proof. intros. by apply map_Forall_insert_2. Qed.

Lemma kv_ok_delete m k : kv_ok m → kv_ok (delete k m).
Proof. apply map_Forall_delete. Qed.

Lemma kv_ok_empty : kv_ok ∅.
Proof. apply map_Forall_empty. Qed.

Lemma kv_ok_union m1 m2 : kv_ok m1 → kv_ok m2 → kv_ok (m1 ∪ m2).
Proof.
  intros H1 H2 k v [Hk|[_ Hk]]%lookup_union_Some_raw; [by apply H1|by apply H2].
Qed.

Lemma parse_line_ok m line : kv_ok m → has_char NL line = false → kv_ok (parse_line m line).
Proof.
  intros Hm Hl. unfold parse_line. destruct (split_at EQ line) as [[k v]|] eqn:Hs; [|done].
  apply split_at_Some in Hs as [-> Hk]. rewrite has_char_app in Hl. simpl in Hl.
  apply orb_false_elim in Hl as [Hkn Hv].
  apply kv_ok_insert; [done|by apply key_ok_spec|by apply val_ok_spec].
Qed.

(** Whatever the file holds, the loaded map can be written and read again. *)
Lemma parse_kv_ok m content : kv_ok m → kv_ok (parse_kv m content).
Proof.
  unfold parse_kv. pose proof (getlines_no_nl content) as Hls. revert m.
  induction Hls as [|l ls Hl Hls IH]; intros m Hm; [done|]. simpl. apply IH. by apply parse_line_ok.
Qed.

Lemma nl_terminated_split s :
  nl_terminated s → s = EmptyString ∨ ∃ s', s = s' +:+ String NL EmptyString.
Proof.
  intros [->|Hl]; [by left|right]. induction s as [|x s IH]; [done|].
  destruct s as [|y s]; [cbn in Hl; simplify_eq; by exists EmptyString|].
  destruct (IH Hl) as [s' Hs']. exists (String x s'). simpl. by rewrite Hs'.
Qed.

Lemma getlines_app a b : nl_terminated a → getlines (a +:+ b) = getlines a ++ getlines b.
Proof.
  intros [->|[s ->]]%nl_terminated_split; [done|].
  rewrite str_app_assoc. cbn [String.append]. induction s as [|c s IH].
  - cbn [String.append getlines]. by rewrite Ascii.eqb_refl.
  - cbn [String.append getlines]. case_bool; rewrite IH; [done|].
    assert (getlines (s +:+ String NL EmptyString) ≠ []) as Hne.
    { clear. destruct s as [|x s]; [by rewrite (getlines_line EmptyString)|].
      cbn [String.append getlines]. case_bool; [done|]. by destruct (getlines _). }
    by destruct (getlines (s +:+ String NL EmptyString)).
Qed.

(** Appending a line to a file assigns one more key. *)
Lemma parse_kv_append m a k v :
  nl_terminated a → key_ok k → val_ok v →
  parse_kv m (a +:+ kv_line k v) = <[k:=v]> (parse_kv m a).
Proof.
  intros Ha Hk Hv. unfold parse_kv. rewrite getlines_app, foldl_app by done.
  rewrite <- (str_app_nil_r (kv_line k v)), getlines_kv_line by done. cbn [foldl getlines].
  by rewrite parse_line_kv.
Qed.

Lemma nl_terminated_kv_line a k v : nl_terminated (a +:+ kv_line k v).
Proof.
  right. replace (a +:+ kv_line k v) with ((a +:+ k +:+ String EQ v) +:+ String NL EmptyString).
  - apply last_char_app.
  - unfold kv_line. by rewrite !str_app_assoc.
Qed.

Lemma nl_terminated_app a b : nl_terminated a → nl_terminated b → nl_terminated (a +:+ b).
Proof.
  intros Ha [->|[s ->]]%nl_terminated_split.
  - by rewrite str_app_nil_r.
  - rewrite <- str_app_assoc. right. apply last_char_app.
Qed.

Lemma nl_terminated_kv_text l : nl_terminated (kv_text l).
Proof.
  induction l as [|[k v] l IH]; [by left|]. cbn [kv_text]. apply nl_terminated_app; [|done].
  apply (nl_terminated_kv_line EmptyString).
Qed.

Lemma can_write_put_file w p q txt : can_write (put_file w p txt) q = can_write w q.
Proof. done. Qed.

Lemma read_put_file w p txt : read_file (put_file w p txt) p = Some txt.
Proof. apply lookup_insert_eq. Qed.

Lemma read_put_file_ne w p q txt : p ≠ q → read_file (put_file w p txt) q = read_file w q.
Proof. apply lookup_insert_ne. Qed.

#[export] Hint Resolve kv_ok_insert kv_ok_delete kv_ok_empty kv_ok_union parse_kv_ok
  nl_terminated_kv_line nl_terminated_kv_text um_order_perm : hostif.
#[export] Hint Rewrite can_write_put_file read_put_file : hostif.

(** Write a whole map to an open, truncated file. *)
Definition write_map `{UMapOrder} (w : env) (p : string) (m : gmap string string) : env :=
  append_file (next_tick w) p (kv_text (um_order (e_tick w) m)).

Lemma write_map_load `{UMapOrder} w w' p m :
  kv_ok m → open_trunc w p = Some w' →
  ∃ txt, read_file (write_map w' p m) p = Some txt ∧ parse_kv ∅ txt = m ∧ nl_terminated txt.
Proof.
  unfold open_trunc. intros Hm Ho. destruct (can_write w p); simplify_eq.
  eexists. split; [apply read_put_file|]. unfold read_file. simpl.
  rewrite lookup_insert_eq. simpl. split; [|apply nl_terminated_kv_text].
  apply parse_kv_perm; [done|apply um_order_perm].
Qed.

Lemma write_map_other `{UMapOrder} w p q m :
  p ≠ q → read_file (write_map w p m) q = read_file w q.
Proof. intros Hne. unfold write_map, append_file. by rewrite read_put_file_ne. Qed.

(** What loading a file gives. *)
Definition file_map (w : env) (p : string) : gmap string string :=
  match read_file w p with None => ∅ | Some content => parse_kv ∅ content end.

Lemma file_map_ok w p : kv_ok (file_map w p).
Proof. unfold file_map. case_match; eauto with hostif. Qed.

Lemma file_map_put w p txt : file_map (put_file w p txt) p = parse_kv ∅ txt.
Proof. unfold file_map. by rewrite read_put_file. Qed.

Lemma file_map_put_ne w p q txt : p ≠ q → file_map (put_file w p txt) q = file_map w q.
Proof. intros Hne. unfold file_map. by rewrite read_put_file_ne. Qed.

Lemma file_map_write_map `{UMapOrder} w w' p m :
  kv_ok m → open_trunc w p = Some w' → file_map (write_map w' p m) p = m.
Proof. intros Hm Ho. destruct (write_map_load w w' p m Hm Ho) as (txt & Ht & Hp & _).
  unfold file_map. by rewrite Ht. Qed.

Lemma open_trunc_ok w p : can_write w p = true → open_trunc w p = Some (put_file w p EmptyString).
Proof. unfold open_trunc. by intros ->. Qed.

Lemma can_write_ne w p : can_write w p = true → p ≠ EmptyString.
Proof. by intros Hw ->. Qed.

