(* ===== verification/IniFile.v ===== *)
(** * IniFile and the storage built on it

    [IniFile] models src/hostif/src/IniFile.cpp: an [std::map] of the lines of
    a key=value file, written back in key order after every change.
    [XRFCStorage] models profiles/DeviceInfo/XrdkCentralComRFC.cpp, the store
    of RFC parameters that uses it. *)
From stdpp Require Import base list strings gmap sorting.
From Stdlib Require Import Ascii ZArith Lia.
From S2P Require Import Prelude HostIf FileStore.

(** [operator<] on [std::string] orders the keys of an [std::map]. *)
Definition key_le (a b : string * string) : Prop := String.leb a.1 b.1 = true.
#[export] Instance key_le_dec a b : Decision (key_le a b).
Proof. unfold key_le. apply _. Defined.

(** Traversal of an [std::map]. *)
Definition in_key_order (m : gmap string string) : list (string * string) :=
  merge_sort key_le (map_to_list m).

Lemma in_key_order_perm m : in_key_order m ≡ₚ map_to_list m.
Proof. apply merge_sort_Permutation. Qed.

Module IniFile.

Record t := mk { m_filename : string; m_dict : gmap string string }.

(** The constructor. *)
Definition init : t := mk EmptyString ∅.

Definition load (filename : string) (x : t) (w : env) : bool * t :=
  let fn := erase_char QUOTE filename in
  match read_file w (c_str fn) with
  | None => (false, mk fn ∅)
  | Some content => (true, mk fn (parse_kv ∅ content))
  end.

(** Write out the file. *)
Definition flush (x : t) (w : env) : bool * env :=
  match open_trunc w (c_str (m_filename x)) with
  | None => (false, w)
  | Some w' => (true, append_file w' (c_str (m_filename x)) (kv_text (in_key_order (m_dict x))))
  end.

Definition clear (x : t) (w : env) : bool * t * env :=
  let x' := mk (m_filename x) ∅ in
  let '(r, w') := flush x' w in (r, x', w').

Definition value (x : t) (key defaultValue : string) : string :=
  default defaultValue (m_dict x !! key).

Definition setValue (x : t) (w : env) (key v : string) : bool * t * env :=
  if is_empty (m_filename x) then (false, x, w)
  else
    let x' := mk (m_filename x) (<[key:=v]> (m_dict x)) in
    let '(r, w') := flush x' w in (r, x', w').

(** A file name as [load] leaves it. *)
Definition clean_name (fn : string) : Prop := has_char QUOTE fn = false ∧ has_char NUL fn = false.

Lemma flush_load x y w w' :
  clean_name (m_filename x) → kv_ok (m_dict x) → flush x w = (true, w') →
  load (m_filename x) y w' = (true, x).
Proof.
  intros [Hq Hn] Hok. unfold flush, load, open_trunc.
  rewrite (c_str_no_nul _ Hn), (erase_char_no _ _ Hq), (c_str_no_nul _ Hn).
  destruct (can_write w (m_filename x)); [|done]. intros [= <-].
  unfold append_file. rewrite read_put_file. unfold read_file at 1. simpl.
  rewrite lookup_insert_eq. simpl.
  rewrite (parse_kv_perm _ (m_dict x)); [by destruct x|done|apply in_key_order_perm].
Qed.

(** After a successful [setValue], loading the file into any [IniFile]
    gives exactly the entries of the writer: the new value for the key and the
    old one for every other key. *)
Theorem setValue_load_roundtrip x y w key v x' w' :
  clean_name (m_filename x) → kv_ok (m_dict x) → key_ok key → val_ok v →
  setValue x w key v = (true, x', w') →
  ∃ z, load (m_filename x) y w' = (true, z) ∧ m_dict z = m_dict x' ∧
       (∀ k d, value z k d = if decide (k = key) then v else value x k d).
Proof.
  intros Hn Hok Hk Hv. unfold setValue. destruct (is_empty (m_filename x)); [done|].
  destruct (flush _ w) as [r w1] eqn:Hf. intros [= -> <- <-].
  eexists. split; [eapply (flush_load (mk _ _)); [done| |exact Hf]|].
  - by apply kv_ok_insert.
  - split; [done|]. intros k d. unfold value. simpl. rewrite lookup_insert.
    repeat case_decide; naive_solver.
Qed.

Lemma setValue_load_roundtrip_witness :
  let w := mkEnv {["/a.ini" := "k=1"%string]} ∅ true ∅ "" 0 in
  let x := (load "/a.ini" init w).2 in
  ∃ x' w' z, setValue x w "j" "a=b" = (true, x', w') ∧
    load "/a.ini" init w' = (true, z) ∧ value z "k" "" = "1"%string ∧ value z "j" "" = "a=b"%string.
Proof.
  intros w x. destruct (setValue x w "j" "a=b") as [[r x'] w'] eqn:Hs.
  assert (r = true) as -> by (by vm_compute in Hs; simplify_eq).
  destruct (setValue_load_roundtrip x init w "j" "a=b" x' w') as (z & Hl & _ & Hv);
    [by vm_compute|apply parse_kv_ok, kv_ok_empty|by vm_compute|by vm_compute|exact Hs|].
  exists x', w', z. split; [done|]. split; [exact Hl|]. by rewrite !Hv.
Defined.

(** A failed [setValue] writes nothing: the file system is unchanged. *)
Theorem setValue_failure_writes_nothing x w key v x' w' :
  setValue x w key v = (false, x', w') → w' = w.
Proof.
  unfold setValue, flush. destruct (is_empty (m_filename x)); [by intros [= <- <-]|].
  destruct (open_trunc _ _); [done|]. by intros [= <- <-].
Qed.

Lemma setValue_failure_writes_nothing_witness :
  let w := mkEnv ∅ {["/a.ini"%string]} true ∅ "" 0 in
  ∃ x' w', setValue (mk "/a.ini" ∅) w "k" "1" = (false, x', w') ∧ w' = w.
Proof.
  intros w. eexists _, _. split; [vm_compute; reflexivity|].
  eapply (setValue_failure_writes_nothing (mk "/a.ini" ∅) w "k" "1"). vm_compute. reflexivity.
Defined.

End IniFile.

(** ** XRFCStorage *)
Module XRFCStorage.

Definition TR181_RFC_STORE_KEY : string := "TR181_STORE_FILENAME".
Definition RFC_PROPERTIES_FILE : string := "/etc/rfc.properties".

Record t := mk { m_storageLoaded : bool; m_storageFile : string; m_storage : IniFile.t }.

Definition new : t := mk false EmptyString IniFile.init.

Definition init (x : t) (w : env) : bool * t :=
  if m_storageLoaded x then (true, x)
  else
    match IniFile.load RFC_PROPERTIES_FILE IniFile.init w with
    | (false, _) => (false, x)
    | (true, file) =>
        let fn := IniFile.value file TR181_RFC_STORE_KEY EmptyString in
        if is_empty fn then (false, mk false fn (m_storage x))
        else (true, mk true fn (snd (IniFile.load fn (m_storage x) w)))
    end.

Definition clearAll (x : t) (w : env) : t * env :=
  let '(_, s, w') := IniFile.clear (m_storage x) w in
  (mk (m_storageLoaded x) (m_storageFile x) s, w').

Definition getValue (x : t) (w : env) (m : HOSTIF_MsgData_t) : Z * t * HOSTIF_MsgData_t :=
  match init x w with
  | (false, x') => (NOK, x', m)
  | (true, x') => (OK, x', putValue m (IniFile.value (m_storage x') (paramName m) EmptyString))
  end.

(** [None]: undefined behaviour while the value is formatted. *)
Definition setValue (x : t) (w : env) (m : HOSTIF_MsgData_t) : option (Z * t * env) :=
  match init x w with
  | (false, x') => Some (NOK, x', w)
  | (true, x') =>
      valueString ← getStringValue m;
      let oldValue := IniFile.value (m_storage x') (paramName m) EmptyString in
      if streq oldValue valueString then Some (OK, x', w)
      else
        let '(ok, s, w') := IniFile.setValue (m_storage x') w (paramName m) valueString in
        Some (if (ok : bool) then OK else NOK, mk (m_storageLoaded x') (m_storageFile x') s, w')
  end.

Definition getRawValue (x : t) (w : env) (key : string) : string * t :=
  match init x w with
  | (false, x') => (EmptyString, x')
  | (true, x') => (IniFile.value (m_storage x') key EmptyString, x')
  end.

Definition setRawValue (x : t) (w : env) (key v : string) : bool * t * env :=
  match init x w with
  | (false, x') => (false, x', w)
  | (true, x') =>
      let '(ok, s, w') := IniFile.setValue (m_storage x') w key v in
      (ok, mk (m_storageLoaded x') (m_storageFile x') s, w')
  end.

Lemma init_loaded x w x' : init x w = (true, x') → m_storageLoaded x' = true.
Proof.
  unfold init. destruct (m_storageLoaded x) eqn:Hl; [by intros [= <-]|].
  destruct (IniFile.load _ _ _) as [[] f]; [|done]. case_match; [done|]. by intros [= <-].
Qed.

Lemma init_idem x w : m_storageLoaded x = true → init x w = (true, x).
Proof. unfold init. by intros ->. Qed.

Lemma ini_setValue_value s w k v s' w' ok :
  IniFile.setValue s w k v = (ok, s', w') → ok = true → IniFile.value s' k EmptyString = v.
Proof.
  unfold IniFile.setValue. destruct (is_empty _); [congruence|].
  destruct (IniFile.flush _ _) as [r w1]. intros [= <- <- <-] _.
  unfold IniFile.value. simpl. by rewrite lookup_insert_eq.
Qed.

(** Once [setValue] answers OK, [getValue] on a message of the same name
    and type answers OK and returns the value that was set. *)
Theorem storage_set_get x w m x' w' g :
  setValue x w m = Some (OK, x', w') →
  paramName g = paramName m →
  (∀ s, getStringValue m = Some s → canonical_text (paramtype g) s) →
  ∃ g', getValue x' w' g = (OK, x', g') ∧ getStringValue g' = getStringValue m.
Proof.
  unfold setValue, getValue. intros Hset Hn Hc.
  destruct (init x w) as [[] x1] eqn:Hi; [|done].
  apply init_loaded in Hi. apply bind_Some in Hset as (s & Hs & Hset).
  assert (m_storageLoaded x' = true ∧ IniFile.value (m_storage x') (paramName m) EmptyString = s)
    as [Hl Hv].
  { destruct (streq _ s) eqn:He in Hset.
    - simplify_eq. split; [done|]. by apply streq_true.
    - destruct (IniFile.setValue _ _ _ _) as [[ok st] w1] eqn:Hset'.
      destruct ok; simplify_eq; simpl. split; [done|]. by eapply ini_setValue_value. }
  rewrite init_idem by done. eexists. split; [done|]. rewrite Hn, Hv, Hs.
  apply putValue_canonical. by apply Hc.
Qed.

Lemma storage_set_get_witness :
  let w := mkEnv {["/etc/rfc.properties" := "TR181_STORE_FILENAME=/opt/tr181.ini"%string]} ∅ true ∅ "" 0 in
  let m := putValue (mkMsg "Device.A" zero_buffer None "" 0 0 hostIf_StringType HOSTIF_SET
                    fcNoFault HOSTIF_NONE HOSTIF_NONE false) "on" in
  ∃ x' w' g', setValue new w m = Some (OK, x', w') ∧
    getValue x' w' m = (OK, x', g') ∧ getStringValue g' = Some "on"%string.
Proof.
  intros w m. assert (getStringValue m = Some "on"%string) as Hm by (vm_compute; reflexivity).
  destruct (setValue new w m) as [[[r x'] w']|] eqn:Hs; [|exfalso; by vm_compute in Hs].
  assert (r = OK) as -> by (by vm_compute in Hs; simplify_eq).
  destruct (storage_set_get new w m x' w' m Hs eq_refl) as (g' & Hg & Hv).
  { intros s. rewrite Hm. intros [= <-]. vm_compute. split; [done|lia]. }
  exists x', w', g'. split; [done|]. split; [exact Hg|]. by rewrite Hv.
Defined.

End XRFCStorage.
