(* ===== verification/RFCStore.v ===== *)
(** * The RFC parameter store

    [XRFCStore] models profiles/DeviceInfo/XrdkCentralComRFCStore.cpp: the
    cache of tr181store.ini, the local overrides of tr181localstore.ini, the
    non-persistent parameters and the defaults, with the ClearDB / ClearDBEnd
    protocol during which sets go to the file only. *)
From stdpp Require Import base list strings gmap relations.
From Stdlib Require Import Ascii ZArith Lia.
From S2P Require Import Prelude HostIf FileStore.

Module XRFCStore.

Definition TR181_RFC_STORE_KEY : string := "TR181_STORE_FILENAME".
Definition RFC_PROPERTIES_FILE : string := "/etc/rfc.properties".
Definition RFCDEFAULTS_FILE : string := "/tmp/rfcdefaults.ini".
Definition TR181_STORE_NONPERSISTENT_FILE : string := "/opt/secure/RFC/tr181store_nonpersist.ini".
Definition TR181_RFC_NONPERSISTENT_PREFIX : string :=
  "Device.DeviceInfo.X_RDKCENTRAL-COM_RFC.Feature.NonPersistent.".
Definition RFCDEFAULTS_ETC_DIR : string := "/etc/rfcdefaults/".
(** Built without USE_NONSECURE_TR181_LOCALSTORE. *)
Definition TR181_LOCAL_STORE_KEY : string := "TR181_LOCAL_STORE_FILENAME".
Definition TR181_CLEAR_PARAM : string := "Device.DeviceInfo.X_RDKCENTRAL-COM_RFC.ClearParam".
Definition RFC_SYNC_DONE : string := "/tmp/.rfcSyncDone".

Record t := mk {
  m_filename : string;
  m_local_filename : string;
  m_initDone : bool;
  m_updateInProgress : bool;
  m_dict : gmap string string;
  m_local_dict : gmap string string;
  m_nonpersist_dict : gmap string string;
  m_dict_rfcdefaults : gmap string string
}.

Definition set_names (x : t) (f l : string) : t :=
  mk f l (m_initDone x) (m_updateInProgress x) (m_dict x) (m_local_dict x)
     (m_nonpersist_dict x) (m_dict_rfcdefaults x).
Definition set_initDone (x : t) (b : bool) : t :=
  mk (m_filename x) (m_local_filename x) b (m_updateInProgress x) (m_dict x) (m_local_dict x)
     (m_nonpersist_dict x) (m_dict_rfcdefaults x).
Definition set_update (x : t) (b : bool) : t :=
  mk (m_filename x) (m_local_filename x) (m_initDone x) b (m_dict x) (m_local_dict x)
     (m_nonpersist_dict x) (m_dict_rfcdefaults x).
Definition set_dict (x : t) (d : gmap string string) : t :=
  mk (m_filename x) (m_local_filename x) (m_initDone x) (m_updateInProgress x) d (m_local_dict x)
     (m_nonpersist_dict x) (m_dict_rfcdefaults x).
Definition set_local (x : t) (d : gmap string string) : t :=
  mk (m_filename x) (m_local_filename x) (m_initDone x) (m_updateInProgress x) (m_dict x) d
     (m_nonpersist_dict x) (m_dict_rfcdefaults x).
Definition set_nonpersist (x : t) (d : gmap string string) : t :=
  mk (m_filename x) (m_local_filename x) (m_initDone x) (m_updateInProgress x) (m_dict x)
     (m_local_dict x) d (m_dict_rfcdefaults x).
Definition set_defaults (x : t) (d : gmap string string) : t :=
  mk (m_filename x) (m_local_filename x) (m_initDone x) (m_updateInProgress x) (m_dict x)
     (m_local_dict x) (m_nonpersist_dict x) d.

(** One line of /etc/rfc.properties. *)
Definition property_line (fl : string * string) (line : string) : string * string :=
  match split_at EQ line with
  | Some (k, v) =>
      if streq (c_str k) TR181_RFC_STORE_KEY then (erase_char QUOTE v, fl.2)
      else if streq (c_str k) TR181_LOCAL_STORE_KEY then (fl.1, erase_char QUOTE v)
      else fl
  | None => fl
  end.

Definition initTR181PropertiesFileName (x : t) (w : env) : t :=
  match read_file w RFC_PROPERTIES_FILE with
  | None => x
  | Some content =>
      let fl := foldl property_line (m_filename x, m_local_filename x) (getlines content) in
      set_names x fl.1 fl.2
  end.

(** One file of the defaults directory copied to the combined stream; [ok] is
    the stream's state.  [os << file.rdbuf()] fails the stream when it inserts
    nothing, and a failed stream ignores what follows. *)
Definition combine_step (acc : bool * env) (name : string) : bool * env :=
  let '(ok, w) := acc in
  if contains ".ini" name then
    if (ok : bool) then
      match read_file w (RFCDEFAULTS_ETC_DIR +:+ name) with
      | None => (false, w)
      | Some content =>
          if is_empty content then (false, w)
          else (true, append_file (append_file w RFCDEFAULTS_FILE content)
                                  RFCDEFAULTS_FILE (String NL EmptyString))
      end
    else acc
  else acc.

Definition init_rfcdefaults (w : env) : bool * env :=
  match e_dirs w !! RFCDEFAULTS_ETC_DIR with
  | None => (false, w)
  | Some names =>
      let start := match open_app w RFCDEFAULTS_FILE with
                   | Some w' => (true, w')
                   | None => (false, w)
                   end in
      (true, (foldl combine_step start names).2)
  end.

Definition loadFileToCache (filename : string) (dict : gmap string string) (w : env)
  : bool * gmap string string :=
  if is_empty filename then (false, dict)
  else (true, match read_file w filename with
              | None => ∅
              | Some content => parse_kv ∅ content
              end).

Definition loadTR181PropertiesIntoCache (x : t) (w : env) : bool * t * env :=
  let x1 := set_dict x (loadFileToCache (m_filename x) (m_dict x) w).2 in
  if negb (e_sem_ok w) then (false, x1, w)
  else
    let x2 := set_local x1 (loadFileToCache (m_local_filename x) (m_local_dict x) w).2 in
    let x3 := set_nonpersist x2
                (loadFileToCache TR181_STORE_NONPERSISTENT_FILE (m_nonpersist_dict x) w).2 in
    let load_defaults (content : string) :=
      set_defaults x3 (parse_kv (m_dict_rfcdefaults x3) content) in
    match read_file w RFCDEFAULTS_FILE with
    | Some content => (true, load_defaults content, w)
    | None =>
        let '(ok, w') := init_rfcdefaults w in
        if ok then
          match read_file w' RFCDEFAULTS_FILE with
          | Some content => (true, load_defaults content, w')
          | None => (false, x3, w')
          end
        else (false, x3, w')
    end.

Definition init (x : t) (w : env) : bool * t * env :=
  if m_initDone x then (true, x, w)
  else
    let '(ok, x', w') := loadTR181PropertiesIntoCache (initTR181PropertiesFileName x w) w in
    (ok, set_initDone x' ok, w').

(** The constructor. *)
Definition new (w : env) : t * env :=
  let '(_, x, w') := init (mk EmptyString EmptyString false false ∅ ∅ ∅ ∅) w in (x, w').

Definition getRawValue (x : t) (w : env) (key : string) : string :=
  if contains TR181_RFC_NONPERSISTENT_PREFIX (c_str key) then
    match read_file w RFC_SYNC_DONE with
    | None => EmptyString
    | Some _ => default EmptyString (m_nonpersist_dict x !! key)
    end
  else default EmptyString (m_dict x !! key).

Definition getValue (x0 : t) (w0 : env) (m : HOSTIF_MsgData_t)
  : faultCode_t * t * HOSTIF_MsgData_t * env :=
  match init x0 w0 with
  | (false, x, w) => (fcInternalError, x, m, w)
  | (true, x, w) =>
      let rawValue := getRawValue x w (paramName m) in
      let found v := (fcNoFault, x, set_fault (putValue m (c_str v)) fcNoFault, w) in
      let missing := (fcInternalError, x, set_fault m fcInternalError, w) in
      if negb (is_empty rawValue) then found rawValue
      else
        match m_dict_rfcdefaults x !! paramName m with
        | Some v => if negb (is_empty v) then found v else missing
        | None => missing
        end
  end.

(** Is the local entry [key] cleared by a ClearParam of [value]?
    [None]: [back()] of an empty string. *)
Definition clear_match (key value : string) : option bool :=
  if streq key value then Some true
  else match last_char value with
       | None => None
       | Some c => Some (Ascii.eqb c DOT && contains value key)
       end.

Fixpoint clear_loop (l : list (string * string)) (value : string)
    (acc : bool * gmap string string * gmap string string)
  : option (bool * gmap string string * gmap string string) :=
  match l with
  | [] => Some acc
  | (k, _) :: l' =>
      b ← clear_match k value;
      let '(found, local, dict) := acc in
      clear_loop l' value (if (b : bool) then (true, delete k local, delete k dict) else acc)
  end.

Section order.
Context `{UMapOrder}.

Definition writeHashToFile (key value : string) (dict : gmap string string) (filename : string)
    (w : env) : bool * gmap string string * env :=
  match open_trunc w filename with
  | None => (false, dict, w)
  | Some w' =>
      let dict' := if streq key TR181_CLEAR_PARAM then dict else <[key:=value]> dict in
      (true, dict', write_map w' filename dict')
  end.

Definition setRawValue (x : t) (w : env) (key value : string) : bool * t * env :=
  if m_updateInProgress x then
    match open_app w (m_filename x) with
    | None => (false, x, w)
    | Some w' => (true, x, append_file w' (m_filename x) (kv_line key value))
    end
  else
    let '(ok, d, w') := writeHashToFile key value (m_dict x) (m_filename x) w in
    (ok, set_dict x d, w').

Definition clearAll (x0 : t) (w0 : env) : t * env :=
  match init x0 w0 with
  | (false, x, w) => (x, w)
  | (true, x, w) =>
      if m_updateInProgress x then (x, w)
      else
        let w1 := default w (open_trunc w (m_filename x)) in
        let w2 := default w1 (open_trunc w1 TR181_STORE_NONPERSISTENT_FILE) in
        (set_update x true, w2)
  end.

(** Copy the local settings that the main store does not have. *)
Definition merge_local (local : list (string * string)) (m : gmap string string)
  : gmap string string :=
  foldl (λ m kv, match m !! kv.1 with None => <[kv.1:=kv.2]> m | Some _ => m end) m local.

Definition reloadCache (x0 : t) (w0 : env) : t * env :=
  if negb (m_updateInProgress x0) then (x0, w0)
  else
    let '(ok, x1, w1) := loadTR181PropertiesIntoCache x0 w0 in
    let x2 := set_update (set_initDone x1 ok) false in
    let d := merge_local (um_order (e_tick w1) (m_local_dict x2)) (m_dict x2) in
    let x3 := set_dict x2 d in
    let w2 := next_tick w1 in
    match open_trunc w2 (m_filename x3) with
    | None => (x3, w2)
    | Some w3 => (x3, write_map w3 (m_filename x3) d)
    end.

Definition clearValue (x : t) (w : env) (key value : string) : option (faultCode_t * t * env) :=
  if negb (e_sem_ok w) then Some (fcInternalError, x, w)
  else
    let local := (loadFileToCache (m_local_filename x) (m_local_dict x) w).2 in
    res ← clear_loop (um_order (e_tick w) local) value (false, local, m_dict x);
    let '(found, local', dict') := res in
    let x1 := set_dict (set_local x local') dict' in
    let w1 := next_tick w in
    if (found : bool) then
      let '(_, local2, w2) := writeHashToFile key value local' (m_local_filename x) w1 in
      let '(_, dict2, w3) := writeHashToFile key value dict' (m_filename x) w2 in
      Some (fcNoFault, set_dict (set_local x local2) dict2, w3)
    else Some (fcNoFault, x1, w1).

(** [setValue] after the name has been recognised as an ordinary parameter. *)
Definition setOrdinary (x : t) (w : env) (m : HOSTIF_MsgData_t) (givenValue : string)
  : faultCode_t * t * HOSTIF_MsgData_t * env :=
  let currentValue := getRawValue x w (paramName m) in
  if negb (m_updateInProgress x) && negb (is_empty (c_str currentValue))
     && streq (c_str currentValue) (c_str givenValue)
  then (fcNoFault, x, m, w)
  else
    let '(ok, x', w') := setRawValue x w (paramName m) givenValue in
    let f := if (ok : bool) then fcNoFault else fcInternalError in
    (f, x', set_fault m f, w').

Definition setWebpaLocal (x : t) (w : env) (m : HOSTIF_MsgData_t) (givenValue : string)
  : bool * t * env :=
  let local := (loadFileToCache (m_local_filename x) (m_local_dict x) w).2 in
  let '(ok, local', w') := writeHashToFile (paramName m) givenValue local (m_local_filename x) w in
  (ok, set_local x local', w').

Definition setValue (x0 : t) (w0 : env) (m : HOSTIF_MsgData_t)
  : option (faultCode_t * t * HOSTIF_MsgData_t * env) :=
  match init x0 w0 with
  | (false, x, w) => Some (fcInternalError, x, m, w)
  | (true, x, w) =>
      givenValue ← getStringValue m;
      if streq (paramName m) TR181_CLEAR_PARAM then
        res ← clearValue x w (paramName m) givenValue;
        let '(f, x', w') := res in Some (f, x', m, w')
      else if contains TR181_RFC_NONPERSISTENT_PREFIX (paramName m) then
        if decide (requestor m = HOSTIF_SRC_RFC) then
          let '(ok, d, w') := writeHashToFile (paramName m) givenValue (m_nonpersist_dict x)
                                TR181_STORE_NONPERSISTENT_FILE w in
          Some (if (ok : bool) then fcNoFault else fcInternalError, set_nonpersist x d, m, w')
        else Some (fcInternalError, x, m, w)
      else if decide (requestor m = HOSTIF_SRC_WEBPA) then
        if negb (e_sem_ok w) then Some (fcInternalError, x, m, w)
        else
          let '(ok, x', w') := setWebpaLocal x w m givenValue in
          if negb ok then Some (fcInternalError, x', m, w')
          else if m_updateInProgress x' then Some (fcNoFault, x', m, w')
          else Some (setOrdinary x' w' m givenValue)
      else Some (setOrdinary x w m givenValue)
  end.

End order.

(** ** Lemmas *)
Section lemmas.
Context `{UMapOrder}.

Lemma merge_local_keep l d k v : d !! k = Some v → merge_local l d !! k = Some v.
Proof.
  unfold merge_local. revert d. induction l as [|[k' v'] l IH]; intros d Hd; [done|]. simpl.
  apply IH. destruct (d !! k') eqn:Hk'; [done|]. rewrite lookup_insert_ne; congruence.
Qed.

Lemma merge_local_notin l d k : k ∉ l.*1 → merge_local l d !! k = d !! k.
Proof.
  unfold merge_local. revert d. induction l as [|[k' v'] l IH]; intros d Hk; [done|].
  rewrite fmap_cons, not_elem_of_cons in Hk. destruct Hk as [Hne Hk]. simpl.
  rewrite IH by done. destruct (d !! k'); [done|]. by apply lookup_insert_ne.
Qed.

Lemma merge_local_in l d k v :
  NoDup l.*1 → (k, v) ∈ l → d !! k = None → merge_local l d !! k = Some v.
Proof.
  revert d. induction l as [|[k' v'] l IH]; intros d Hnd Hin Hd; [by apply not_elem_of_nil in Hin|].
  rewrite fmap_cons in Hnd. apply NoDup_cons in Hnd as [Hk Hnd].
  apply elem_of_cons in Hin as [[= <- <-]|Hin].
  - unfold merge_local. simpl. rewrite Hd. apply merge_local_keep. apply lookup_insert_eq.
  - assert (k ≠ k') as Hne.
    { intros ->. apply Hk, list_elem_of_fmap. by exists (k', v). }
    unfold merge_local. simpl. apply IH; [done|done|].
    destruct (d !! k'); [done|]. by rewrite lookup_insert_ne.
Qed.

(** The merge keeps the main store's entries and adds the missing local ones. *)
Lemma merge_local_union n (local d : gmap string string) :
  merge_local (um_order n local) d = d ∪ local.
Proof.
  pose proof (um_order_perm _ n local) as Hp.
  assert (NoDup (um_order n local).*1) as Hnd by (rewrite Hp; apply NoDup_fst_map_to_list).
  apply map_eq. intros k. destruct (d !! k) as [v|] eqn:Hd.
  - rewrite (lookup_union_Some_l _ _ _ _ Hd). by apply merge_local_keep.
  - rewrite lookup_union_r by done. destruct (local !! k) as [v|] eqn:Hl.
    + apply merge_local_in; [done| |done]. rewrite Hp. by apply elem_of_map_to_list.
    + rewrite merge_local_notin; [done|]. intros ([k' v] & -> & Hin)%list_elem_of_fmap.
      rewrite Hp in Hin. apply elem_of_map_to_list in Hin. simpl in *. congruence.
Qed.

(** The keys a ClearParam of a non-empty [value] clears. *)
Definition clears (value key : string) : bool :=
  streq key value || (bool_decide (last_char value = Some DOT) && contains value key).

Lemma clear_match_clears key value :
  value ≠ EmptyString → clear_match key value = Some (clears value key).
Proof.
  intros Hv. unfold clear_match, clears. destruct (streq key value); [done|]. simpl.
  destruct (last_char value) as [c|] eqn:Hc.
  - do 2 f_equal. case_bool_decide; [|apply Ascii.eqb_neq; congruence].
    by apply Ascii.eqb_eq; simplify_eq.
  - exfalso. clear -Hv Hc. induction value as [|x s IH]; [done|]. destruct s; [done|]. by apply IH.
Qed.

Lemma clear_loop_spec l value found local dict :
  value ≠ EmptyString →
  ∃ found' local' dict',
    clear_loop l value (found, local, dict) = Some (found', local', dict') ∧
    (found' = found || existsb (λ kv, clears value kv.1) l) ∧
    (∀ k, local' !! k = if bool_decide (k ∈ l.*1) && clears value k then None else local !! k) ∧
    (∀ k, dict' !! k = if bool_decide (k ∈ l.*1) && clears value k then None else dict !! k).
Proof.
  intros Hv. revert found local dict. induction l as [|[k0 v0] l IH]; intros found local dict.
  { eexists _, _, _. split; [done|]. by rewrite orb_false_r. }
  cbn [clear_loop]. rewrite clear_match_clears by done. cbn [mbind option_bind].
  destruct (clears value k0) eqn:Hc.
  - destruct (IH true (delete k0 local) (delete k0 dict)) as (f & lo & d & -> & Hf & Hl & Hd).
    exists f, lo, d. split; [done|]. split; [rewrite Hf; simpl; by rewrite Hc, orb_true_r|].
    split; intros k; [rewrite Hl|rewrite Hd]; clear -Hc; rewrite fmap_cons;
      (destruct (decide (k = k0)) as [->|Hne];
       [rewrite lookup_delete_eq, (bool_decide_true (k0 ∈ _ :: _)), Hc by (simpl; left);
        by destruct (_ && _)
       |rewrite lookup_delete_ne by done;
        rewrite (bool_decide_ext (k ∈ _ :: _) (k ∈ l.*1)); [done|set_solver]]).
  - destruct (IH found local dict) as (f & lo & d & -> & Hf & Hl & Hd).
    exists f, lo, d. split; [done|]. split; [rewrite Hf; simpl; by rewrite Hc|].
    split; intros k; [rewrite Hl|rewrite Hd]; clear -Hc; rewrite fmap_cons;
      (destruct (decide (k = k0)) as [->|Hne];
       [rewrite Hc, !andb_false_r; done
       |rewrite (bool_decide_ext (k ∈ _ :: _) (k ∈ l.*1)); [done|set_solver]]).
Qed.

(** An ordinary parameter: neither ClearParam nor a non-persistent one. *)
Definition plain_name (n : string) : Prop :=
  streq n TR181_CLEAR_PARAM = false ∧ contains TR181_RFC_NONPERSISTENT_PREFIX n = false
  ∧ has_char NUL n = false.

Lemma getRawValue_plain x w n : plain_name n → getRawValue x w n = default EmptyString (m_dict x !! n).
Proof. intros (_ & Hp & Hn). unfold getRawValue. by rewrite (c_str_no_nul _ Hn), Hp. Qed.

Lemma init_done x w x' w' : init x w = (true, x', w') → m_initDone x' = true.
Proof.
  unfold init. destruct (m_initDone x) eqn:Hd; [by intros [= <- <-]|].
  destruct (loadTR181PropertiesIntoCache _ _) as [[ok x1] w1]. by intros [= -> <- <-].
Qed.

Lemma init_id x w : m_initDone x = true → init x w = (true, x, w).
Proof. unfold init. by intros ->. Qed.

Lemma writeHashToFile_true key v d p w d' w' :
  writeHashToFile key v d p w = (true, d', w') → streq key TR181_CLEAR_PARAM = false →
  d' = <[key:=v]> d.
Proof.
  unfold writeHashToFile. intros Hw Hk. rewrite Hk in Hw. case_match; by simplify_eq.
Qed.

Lemma setOrdinary_sets x w m s x' m' w' w2 :
  setOrdinary x w m s = (fcNoFault, x', m', w') → plain_name (paramName m) →
  m_updateInProgress x = false → has_char NUL s = false →
  c_str (getRawValue x' w2 (paramName m)) = s ∧ m_initDone x' = m_initDone x
  ∧ m_updateInProgress x' = false.
Proof.
  intros Hset Hp Hu Hn. unfold setOrdinary in Hset. rewrite Hu in Hset. simpl in Hset.
  rewrite getRawValue_plain in Hset by done. rewrite getRawValue_plain by done.
  destruct (negb _ && _) eqn:He in Hset.
  - simplify_eq. apply andb_true_iff in He as [_ He%streq_true].
    by rewrite He, (c_str_no_nul s).
  - unfold setRawValue in Hset. rewrite Hu in Hset.
    destruct (writeHashToFile _ _ _ _ _) as [[ok d] w1] eqn:Hw.
    destruct ok; [|by simplify_eq]. apply writeHashToFile_true in Hw as ->; [|by apply Hp].
    simplify_eq. simpl. rewrite lookup_insert_eq. simpl. by rewrite c_str_no_nul.
Qed.

Lemma setValue_ordinary x w m s x1 w1 f x' m' w' :
  init x w = (true, x1, w1) → getStringValue m = Some s → plain_name (paramName m) →
  setValue x w m = Some (f, x', m', w') → m_updateInProgress x' = false → f = fcNoFault →
  ∃ x2 w2, setOrdinary x2 w2 m s = (f, x', m', w') ∧ m_initDone x2 = true
           ∧ m_updateInProgress x2 = false.
Proof.
  intros Hi Hs (Hc & Hp & _) Hset Hu ->. unfold setValue in Hset. rewrite Hi, Hs in Hset.
  pose proof (init_done _ _ _ _ Hi) as Hd. cbn [mbind option_bind] in Hset. rewrite Hc, Hp in Hset.
  assert (∀ y z, setOrdinary y z m s = (fcNoFault, x', m', w') → m_updateInProgress y = false) as Hup.
  { intros y z. unfold setOrdinary.
    destruct (_ && _ && _); [by intros [= <- <- <-]|]. unfold setRawValue. destruct (m_updateInProgress y) eqn:Hy; [|done].
    destruct (open_app _ _); [|done]. intros [= <- <- <-]. congruence. }
  destruct (decide (requestor m = HOSTIF_SRC_WEBPA)).
  - destruct (negb (e_sem_ok w1)); [done|].
    destruct (setWebpaLocal x1 w1 m s) as [[ok x2] w2] eqn:Hl. destruct ok; [|done]. simpl in Hset.
    assert (m_initDone x2 = true).
    { unfold setWebpaLocal in Hl. destruct (writeHashToFile _ _ _ _ _) as [[? ?] ?]. by simplify_eq. }
    destruct (m_updateInProgress x2) eqn:Hu2; [simplify_eq; congruence|].
    exists x2, w2. by simplify_eq.
  - exists x1, w1. simplify_eq. split_and!; eauto.
Qed.

End lemmas.

(** ** Reachable states *)
Section reachable.
Context `{UMapOrder}.

(** A device whose properties file names the two stores [f] and [l], both
    writable and distinct from the other files, with the defaults in place. *)
Record installed (f l : string) (w : env) : Prop := {
  inst_names : foldl property_line (EmptyString, EmptyString)
                 (getlines (default EmptyString (read_file w RFC_PROPERTIES_FILE))) = (f, l);
  inst_props : is_Some (read_file w RFC_PROPERTIES_FILE);
  inst_main : can_write w f = true;
  inst_local : can_write w l = true;
  inst_sem : e_sem_ok w = true;
  inst_defaults : is_Some (read_file w RFCDEFAULTS_FILE);
  inst_distinct : f ≠ l ∧ f ≠ TR181_STORE_NONPERSISTENT_FILE ∧ l ≠ TR181_STORE_NONPERSISTENT_FILE
                  ∧ f ≠ RFC_PROPERTIES_FILE ∧ l ≠ RFC_PROPERTIES_FILE
}.

(** The cache of the local store is its file; so is the main cache outside an
    update, and during one the main file is a sequence of complete lines. *)
Record good (f l : string) (x : t) (w : env) : Prop := {
  good_inst : installed f l w;
  good_names : m_filename x = f ∧ m_local_filename x = l;
  good_init : m_initDone x = true;
  good_local : kv_ok (m_local_dict x) ∧ file_map w l = m_local_dict x;
  good_dict : kv_ok (m_dict x);
  good_main : m_updateInProgress x = false → file_map w f = m_dict x;
  good_update : m_updateInProgress x = true → nl_terminated (default EmptyString (read_file w f))
}.

(** A request whose name and value survive a key=value line. *)
Definition request_ok (m : HOSTIF_MsgData_t) : Prop :=
  ∀ s, getStringValue m = Some s → key_ok (paramName m) ∧ val_ok s.

Inductive step : t * env → t * env → Prop :=
| step_get x w m f x' m' w' :
    getValue x w m = (f, x', m', w') → step (x, w) (x', w')
| step_set x w m f x' m' w' :
    request_ok m → setValue x w m = Some (f, x', m', w') → step (x, w) (x', w')
| step_clear x w x' w' : clearAll x w = (x', w') → step (x, w) (x', w')
| step_reload x w x' w' : reloadCache x w = (x', w') → step (x, w) (x', w').

Lemma loadFileToCache_map p d w : p ≠ EmptyString → loadFileToCache p d w = (true, file_map w p).
Proof. unfold loadFileToCache. destruct p; [done|]. done. Qed.

Lemma installed_put f l w p txt :
  installed f l w → p ≠ RFC_PROPERTIES_FILE → installed f l (put_file w p txt).
Proof.
  intros [] Hp. constructor; try done; rewrite ?read_put_file_ne by done; try done.
  destruct (decide (p = RFCDEFAULTS_FILE)) as [->|]; [rewrite read_put_file; eauto|].
  by rewrite read_put_file_ne.
Qed.

Lemma installed_tick f l w : installed f l w → installed f l (next_tick w).
Proof. by intros []. Qed.

Lemma installed_write_map f l w p m :
  installed f l w → p ≠ RFC_PROPERTIES_FILE → installed f l (write_map w p m).
Proof. intros. apply installed_put; [by apply installed_tick|done]. Qed.

Lemma good_frame f l x w p txt :
  good f l x w → p ≠ f → p ≠ l → p ≠ RFC_PROPERTIES_FILE → good f l x (put_file w p txt).
Proof.
  intros [] Hf Hl Hp. constructor; try done.
  - by apply installed_put.
  - by rewrite file_map_put_ne.
  - by rewrite file_map_put_ne.
  - by rewrite read_put_file_ne.
Qed.

Lemma good_tick f l x w : good f l x w → good f l x (next_tick w).
Proof. intros []. constructor; try done. by apply installed_tick. Qed.

(** Replacing the cache and the file of the main store together. *)
Lemma good_write_main f l x w d :
  good f l x w → kv_ok d →
  good f l (set_dict x d) (write_map (put_file w f EmptyString) f d).
Proof.
  intros [Hi [Hnf Hnl] Hd Hl Hdk Hm Hu] Hok.
  destruct (inst_distinct _ _ _ Hi) as (? & ? & ? & ? & ?).
  constructor; try done.
  - by apply installed_write_map; [apply installed_put|].
  - split; [by apply Hl|]. simpl. unfold file_map. rewrite write_map_other by done.
    rewrite read_put_file_ne by done. by apply Hl.
  - intros _. apply (file_map_write_map w); [done|]. apply open_trunc_ok, Hi.
  - intros _. destruct (write_map_load w (put_file w f EmptyString) f d) as (txt & -> & _ & Ht);
      [done|apply open_trunc_ok, Hi|done].
Qed.

Lemma good_write_local f l x w d :
  good f l x w → kv_ok d →
  good f l (set_local x d) (write_map (put_file w l EmptyString) l d).
Proof.
  intros [Hi [Hnf Hnl] Hd Hl Hdk Hm Hu] Hok.
  destruct (inst_distinct _ _ _ Hi) as (? & ? & ? & ? & ?).
  constructor; try done.
  - by apply installed_write_map; [apply installed_put|].
  - split; [done|]. apply (file_map_write_map w); [done|]. apply open_trunc_ok, Hi.
  - intros Hup. simpl. unfold file_map. rewrite write_map_other, read_put_file_ne by done.
    by apply Hm.
  - intros Hup. rewrite write_map_other, read_put_file_ne by done. by apply Hu.
Qed.

(** Each write of the stores, under the invariant. *)
Lemma writeHashToFile_main f l x w key v :
  good f l x w → key_ok key → val_ok v →
  ∃ d w', writeHashToFile key v (m_dict x) f w = (true, d, w') ∧ good f l (set_dict x d) w'.
Proof.
  intros Hg Hk Hv. pose proof (good_dict _ _ _ _ Hg). unfold writeHashToFile.
  rewrite open_trunc_ok by apply Hg. eexists _, _. split; [done|].
  apply good_write_main; [done|]. case_bool; [done|]. by apply kv_ok_insert.
Qed.

Lemma writeHashToFile_local f l x w key v :
  good f l x w → key_ok key → val_ok v →
  ∃ d w', writeHashToFile key v (file_map w l) l w = (true, d, w') ∧ good f l (set_local x d) w'.
Proof.
  intros Hg Hk Hv. unfold writeHashToFile. rewrite open_trunc_ok by apply Hg.
  eexists _, _. split; [done|]. apply good_write_local; [done|].
  case_bool; [|apply kv_ok_insert]; eauto using file_map_ok.
Qed.

Lemma writeHashToFile_nonpersist f l x w key v d ok d' w' :
  good f l x w → writeHashToFile key v d TR181_STORE_NONPERSISTENT_FILE w = (ok, d', w') →
  good f l (set_nonpersist x d') w'.
Proof.
  intros Hg Hw. destruct (inst_distinct _ _ _ (good_inst _ _ _ _ Hg)) as (? & ? & ? & ? & ?).
  assert (good f l x w') as [].
  { unfold writeHashToFile, open_trunc in Hw. destruct (can_write _ _); simplify_eq; [|done].
    do 2 (apply good_frame; [try apply good_tick|done..]). done. }
  by constructor.
Qed.

Lemma setOrdinary_good f l x w m s f' x' m' w' :
  good f l x w → key_ok (paramName m) → val_ok s →
  setOrdinary x w m s = (f', x', m', w') → good f l x' w'.
Proof.
  intros Hg Hk Hv. unfold setOrdinary. destruct (_ && _ && _); [by intros [= <- <- <- <-]|].
  unfold setRawValue. destruct (good_names _ _ _ _ Hg) as [Hnf _]. rewrite Hnf.
  destruct (m_updateInProgress x) eqn:Hu.
  - destruct (open_app w f) as [w1|] eqn:Ho; intros [= <- <- <- <-]; [|done].
    destruct Hg as [Hi Hn Hd Hl Hdk Hm Hup]. destruct (inst_distinct _ _ _ Hi) as (? & ? & ? & ? & ?).
    unfold open_app in Ho. destruct (can_write w f); simplify_eq. unfold append_file. constructor.
    + by apply installed_put; [apply installed_put|].
    + done.
    + done.
    + by rewrite !file_map_put_ne.
    + done.
    + congruence.
    + intros _. rewrite read_put_file. apply nl_terminated_kv_line.
  - destruct (writeHashToFile_main f l x w (paramName m) s) as (d & w1 & -> & Hg'); [done..|].
    by intros [= <- <- <- <-].
Qed.

Lemma good_set_local_id f l x w : good f l x w → good f l (set_local x (m_local_dict x)) w.
Proof. by intros []. Qed.

Lemma good_local_load f l x w :
  good f l x w → (loadFileToCache (m_local_filename x) (m_local_dict x) w).2 = m_local_dict x.
Proof.
  intros Hg. destruct (good_names _ _ _ _ Hg) as [_ ->].
  rewrite loadFileToCache_map by (eapply can_write_ne, Hg). by apply Hg.
Qed.

Lemma setWebpaLocal_good f l x w m s ok x' w' :
  good f l x w → key_ok (paramName m) → val_ok s →
  setWebpaLocal x w m s = (ok, x', w') → good f l x' w'.
Proof.
  intros Hg Hk Hv. unfold setWebpaLocal. rewrite (good_local_load f l) by done.
  destruct (good_names _ _ _ _ Hg) as [_ ->]. destruct (good_local _ _ _ _ Hg) as [_ <-].
  destruct (writeHashToFile_local f l x w (paramName m) s) as (d & w1 & -> & Hg'); [done..|].
  by intros [= <- <- <-].
Qed.

Lemma clear_loop_good l' value found local dict found' local' dict' :
  clear_loop l' value (found, local, dict) = Some (found', local', dict') →
  kv_ok local → kv_ok dict → kv_ok local' ∧ kv_ok dict' ∧ (found' = false → local' = local ∧ dict' = dict).
Proof.
  revert found local dict. induction l' as [|[k v] l' IH]; intros found local dict; cbn [clear_loop].
  { by intros [= <- <- <-]. }
  destruct (clear_match k value) as [[]|]; cbn [mbind option_bind]; [|eauto|done].
  intros Hc Hlo Hdi. destruct (IH _ _ _ Hc) as (? & ? & Hf); [by apply kv_ok_delete..|].
  split_and!; [done|done|]. intros ->. exfalso. clear -Hc.
  revert Hc. generalize (delete k local), (delete k dict).
  induction l' as [|[k' v'] l' IH]; intros a b; cbn [clear_loop]; [done|].
  destruct (clear_match k' value) as [[]|]; cbn [mbind option_bind]; [apply IH|apply IH|done].
Qed.

Lemma clearValue_good f l x w key v f' x' w' :
  good f l x w → streq key TR181_CLEAR_PARAM = true →
  clearValue x w key v = Some (f', x', w') → good f l x' w'.
Proof.
  intros Hg Hk. unfold clearValue. rewrite (inst_sem _ _ _ (good_inst _ _ _ _ Hg)). simpl.
  rewrite (good_local_load f l) by done. destruct (good_names _ _ _ _ Hg) as [-> ->].
  destruct (clear_loop _ _ _) as [[[found lo] di]|] eqn:Hc; [|done]. cbn [mbind option_bind].
  apply clear_loop_good in Hc as (Hlo & Hdi & Hnf); [|by apply Hg|by apply Hg].
  destruct found.
  - unfold writeHashToFile. rewrite Hk. rewrite open_trunc_ok by apply Hg.
    rewrite open_trunc_ok by apply Hg. intros [= <- <- <-].
    apply good_write_main; [|done]. apply good_write_local; [by apply good_tick|done].
  - destruct (Hnf eq_refl) as [-> ->]. intros [= <- <- <-]. apply good_tick.
    destruct Hg. by constructor.
Qed.

Lemma load_installed f l x w :
  installed f l w → m_filename x = f → m_local_filename x = l →
  ∃ x', loadTR181PropertiesIntoCache x w = (true, x', w) ∧ m_filename x' = f ∧ m_local_filename x' = l
    ∧ m_updateInProgress x' = m_updateInProgress x
    ∧ m_dict x' = file_map w f ∧ m_local_dict x' = file_map w l.
Proof.
  intros Hi <- <-. unfold loadTR181PropertiesIntoCache. rewrite (inst_sem _ _ _ Hi). simpl.
  destruct (inst_defaults _ _ _ Hi) as [c Hc]. rewrite Hc. eexists. split; [done|]. simpl.
  rewrite !loadFileToCache_map; [done| |]; eapply can_write_ne, Hi.
Qed.

(** The store a restart would build. *)
Lemma new_good f l w : installed f l w →
  ∃ x, new w = (x, w) ∧ good f l x w ∧ m_updateInProgress x = false
       ∧ m_dict x = file_map w f ∧ m_local_dict x = file_map w l.
Proof.
  intros Hi. unfold new, init. simpl. unfold initTR181PropertiesFileName.
  destruct (inst_props _ _ _ Hi) as [c Hc]. pose proof (inst_names _ _ _ Hi) as Hn.
  rewrite Hc in Hn |- *. simpl in Hn |- *. rewrite Hn. simpl.
  edestruct (load_installed f l) as (x' & -> & Hf & Hl & Hu & Hd & Hld);
    [exact Hi|shelve|shelve|]. Unshelve. 2-3: done.
  eexists. split; [done|]. simpl. split_and!; try done. constructor; try done; simpl.
  - rewrite Hld. split; [apply file_map_ok|done].
  - rewrite Hd. apply file_map_ok.
  - simpl in Hu. by rewrite Hu.
Qed.

Lemma reloadCache_good f l x w x' w' :
  good f l x w → reloadCache x w = (x', w') → good f l x' w'.
Proof.
  intros Hg. unfold reloadCache. destruct (m_updateInProgress x) eqn:Hu; simpl;
    [|by intros [= <- <-]].
  destruct (good_names _ _ _ _ Hg) as [Hnf Hnl].
  destruct (load_installed f l x w) as (x1 & -> & Hf & Hl & _ & Hd & Hld); [apply Hg|done..|].
  simpl. rewrite Hf, merge_local_union.
  rewrite open_trunc_ok by apply (good_inst _ _ _ _ Hg). intros [= <- <-].
  rewrite Hd, Hld. apply good_write_main; [|apply kv_ok_union; apply file_map_ok].
  apply good_tick. constructor; simpl; try done; try apply Hg.
  - by rewrite Hld; split; [apply file_map_ok|].
  - rewrite Hd. apply file_map_ok.
Qed.

Lemma clearAll_good f l x w x' w' : good f l x w → clearAll x w = (x', w') → good f l x' w'.
Proof.
  intros Hg. unfold clearAll. rewrite init_id by apply Hg.
  destruct (m_updateInProgress x) eqn:Hu; [by intros [= <- <-]|]. intros [= <- <-].
  destruct (good_names _ _ _ _ Hg) as [-> _].
  rewrite open_trunc_ok by apply (good_inst _ _ _ _ Hg). simpl.
  destruct (inst_distinct _ _ _ (good_inst _ _ _ _ Hg)) as (? & ? & ? & ? & ?).
  assert (good f l (set_update x true) (put_file w f EmptyString)) as Hg1.
  { destruct Hg as [Hi Hn Hd [Hlo Hlm] Hdk Hm Hup]. constructor; try done; simpl.
    - by apply installed_put.
    - by rewrite file_map_put_ne.
    - intros _. rewrite read_put_file. by left. }
  unfold open_trunc. destruct (can_write _ TR181_STORE_NONPERSISTENT_FILE); simpl; [|done].
  by apply good_frame.
Qed.

Lemma getValue_good f l x w m f' x' m' w' :
  good f l x w → getValue x w m = (f', x', m', w') → x' = x ∧ w' = w.
Proof.
  intros Hg. unfold getValue. rewrite init_id by apply Hg.
  destruct (negb _); [by intros [= _ <- _ <-]|].
  destruct (m_dict_rfcdefaults x !! paramName m) as [v|]; [destruct (negb _)|];
    by intros [= _ <- _ <-].
Qed.

Lemma setValue_good f l x w m f' x' m' w' :
  good f l x w → request_ok m → setValue x w m = Some (f', x', m', w') → good f l x' w'.
Proof.
  intros Hg Hr. unfold setValue. rewrite init_id by apply Hg.
  destruct (getStringValue m) as [s|] eqn:Hs; [|done]. cbn [mbind option_bind].
  destruct (Hr s Hs) as [Hk Hv].
  destruct (streq _ _) eqn:Hcl.
  { destruct (clearValue _ _ _ _) as [[[? ?] ?]|] eqn:Hc; [|done]. cbn [mbind option_bind].
    intros [= <- <- <- <-]. by eapply clearValue_good. }
  destruct (contains _ _).
  { destruct (decide _); [|by intros [= <- <- <- <-]].
    destruct (writeHashToFile _ _ _ _ _) as [[? ?] ?] eqn:Hw. intros [= <- <- <- <-].
    by eapply writeHashToFile_nonpersist. }
  destruct (decide (requestor m = HOSTIF_SRC_WEBPA)).
  - destruct (negb (e_sem_ok w)); [by intros [= <- <- <- <-]|].
    destruct (setWebpaLocal x w m s) as [[ok x1] w1] eqn:Hw.
    pose proof (setWebpaLocal_good _ _ _ _ _ _ _ _ _ Hg Hk Hv Hw) as Hg1.
    destruct (negb ok); [by intros [= <- <- <- <-]|].
    destruct (m_updateInProgress x1); [by intros [= <- <- <- <-]|].
    intros [= Ho]. by eapply setOrdinary_good.
  - intros [= Ho]. by eapply setOrdinary_good.
Qed.

Lemma step_good f l s1 s2 : step s1 s2 → good f l s1.1 s1.2 → good f l s2.1 s2.2.
Proof.
  intros Hs Hg. destruct Hs; simpl in *.
  - eapply getValue_good in H0 as [-> ->]; done.
  - by eapply setValue_good.
  - by eapply clearAll_good.
  - by eapply reloadCache_good.
Qed.

Lemma steps_good f l s1 s2 : rtc step s1 s2 → good f l s1.1 s1.2 → good f l s2.1 s2.2.
Proof. induction 1; eauto using step_good. Qed.

(** *** The volatile store and the defaults

    They have files of their own, which the writes of the two stores leave
    alone. *)
Definition aside (x : t) (w : env) :=
  (m_nonpersist_dict x, m_dict_rfcdefaults x, m_updateInProgress x,
   read_file w TR181_STORE_NONPERSISTENT_FILE, read_file w RFCDEFAULTS_FILE,
   can_write w TR181_STORE_NONPERSISTENT_FILE).

Definition apart (p : string) : Prop := p ≠ TR181_STORE_NONPERSISTENT_FILE ∧ p ≠ RFCDEFAULTS_FILE.

Lemma aside_inv x w x' w' :
  aside x' w' = aside x w →
  m_nonpersist_dict x' = m_nonpersist_dict x ∧ m_dict_rfcdefaults x' = m_dict_rfcdefaults x
  ∧ m_updateInProgress x' = m_updateInProgress x
  ∧ read_file w' TR181_STORE_NONPERSISTENT_FILE = read_file w TR181_STORE_NONPERSISTENT_FILE
  ∧ read_file w' RFCDEFAULTS_FILE = read_file w RFCDEFAULTS_FILE
  ∧ can_write w' TR181_STORE_NONPERSISTENT_FILE = can_write w TR181_STORE_NONPERSISTENT_FILE.
Proof.
  intros Ea. apply pair_eq in Ea as [Ea E6]. apply pair_eq in Ea as [Ea E5]. apply pair_eq in Ea as [Ea E4].
  apply pair_eq in Ea as [Ea E3]. by apply pair_eq in Ea as [E1 E2].
Qed.

Lemma aside_put x w p txt : apart p → aside x (put_file w p txt) = aside x w.
Proof. intros []. unfold aside. by rewrite !read_put_file_ne. Qed.

Lemma aside_write x w p k v d ok d' w' :
  apart p → writeHashToFile k v d p w = (ok, d', w') → aside x w' = aside x w.
Proof.
  intros Hp. unfold writeHashToFile, open_trunc. destruct (can_write w p); intros [= <- <- <-]; [|done].
  unfold write_map, append_file. rewrite aside_put by done. by apply (aside_put x w).
Qed.

Lemma setOrdinary_aside x w m s f' x' m' w' :
  apart (m_filename x) → setOrdinary x w m s = (f', x', m', w') → aside x' w' = aside x w.
Proof.
  intros Hp. unfold setOrdinary. destruct (_ && _ && _); [by intros [= <- <- <- <-]|].
  unfold setRawValue. destruct (m_updateInProgress x).
  - unfold open_app. destruct (can_write _ _); intros [= <- <- <- <-]; [|done].
    unfold append_file. by rewrite !aside_put.
  - destruct (writeHashToFile _ _ _ _ _) as [[ok d] w1] eqn:Hw. intros [= <- <- <- <-].
    by apply (aside_write x) in Hw.
Qed.

Lemma setWebpaLocal_aside x w m s ok x' w' :
  apart (m_local_filename x) → setWebpaLocal x w m s = (ok, x', w') →
  aside x' w' = aside x w ∧ m_filename x' = m_filename x.
Proof.
  intros Hp. unfold setWebpaLocal. destruct (writeHashToFile _ _ _ _ _) as [[ok1 d] w1] eqn:Hw.
  intros [= <- <- <-]. split; [|done]. by apply (aside_write x) in Hw.
Qed.

Lemma clearValue_aside x w key v f' x' w' :
  apart (m_filename x) → apart (m_local_filename x) → clearValue x w key v = Some (f', x', w') →
  aside x' w' = aside x w.
Proof.
  intros Hf Hl. unfold clearValue. destruct (negb _); [by intros [= <- <- <-]|].
  destruct (clear_loop _ _ _) as [[[[] lo] di]|]; cbn [mbind option_bind]; try done.
  - destruct (writeHashToFile _ _ lo _ _) as [[ok1 lo2] w1] eqn:H1.
    destruct (writeHashToFile _ _ di _ _) as [[ok2 di2] w2] eqn:H2. intros [= <- <- <-].
    apply (aside_write x) in H1; [|done]. apply (aside_write x) in H2; [|done].
    change (aside x w2 = aside x w). by rewrite H2, H1.
  - by intros [= <- <- <-].
Qed.

(** All four caches are what the files hold. *)
Record whole (f l : string) (x : t) (w : env) : Prop := {
  wh_good : good f l x w;
  wh_apart : apart f ∧ apart l;
  wh_write : can_write w TR181_STORE_NONPERSISTENT_FILE = true;
  wh_ok : kv_ok (m_nonpersist_dict x);
  wh_volatile : m_updateInProgress x = false →
                file_map w TR181_STORE_NONPERSISTENT_FILE = m_nonpersist_dict x;
  wh_defaults : file_map w RFCDEFAULTS_FILE = m_dict_rfcdefaults x
}.

Lemma whole_aside f l x w x' w' :
  whole f l x w → good f l x' w' → aside x' w' = aside x w → whole f l x' w'.
Proof.
  intros [_ Ha Hw Hok Hv Hd] Hg (E1 & E2 & E3 & E4 & E5 & E6)%aside_inv. unfold file_map in *.
  constructor; unfold file_map; rewrite ?E1, ?E2, ?E3, ?E4, ?E5, ?E6; done.
Qed.

(** What loading the files puts into the other two caches. *)
Lemma load_whole x w :
  e_sem_ok w = true → is_Some (read_file w RFCDEFAULTS_FILE) →
  ∃ x', loadTR181PropertiesIntoCache x w = (true, x', w)
    ∧ m_nonpersist_dict x' = file_map w TR181_STORE_NONPERSISTENT_FILE
    ∧ ∀ c, read_file w RFCDEFAULTS_FILE = Some c → m_dict_rfcdefaults x' = parse_kv (m_dict_rfcdefaults x) c.
Proof.
  intros Hs [c Hc]. unfold loadTR181PropertiesIntoCache. rewrite Hs, Hc. cbn [negb]. eexists. split; [done|].
  split; [done|]. by intros c' [= <-].
Qed.



Lemma setValue_whole f l x w m f' x' m' w' :
  whole f l x w → request_ok m → setValue x w m = Some (f', x', m', w') → whole f l x' w'.
Proof.
  intros Hwh Hr Hset. pose proof Hwh as [Hg [Haf Hal] Hw Hok Hv Hd].
  pose proof (setValue_good _ _ _ _ _ _ _ _ _ Hg Hr Hset) as Hg'. revert Hset.
  destruct (good_names _ _ _ _ Hg) as [Hnf Hnl]. unfold setValue. rewrite init_id by apply Hg.
  destruct (getStringValue m) as [s|] eqn:Hs; [|done]. cbn [mbind option_bind]. destruct (Hr s Hs) as [Hk Hvo].
  destruct (streq _ _) eqn:Hcl.
  { destruct (clearValue _ _ _ _) as [[[? ?] ?]|] eqn:Hc; [|done]. cbn [mbind option_bind].
    intros [= <- <- <- <-]. apply clearValue_aside in Hc; [|by rewrite Hnf|by rewrite Hnl].
    by eapply whole_aside. }
  destruct (contains _ _).
  { destruct (decide _); [|by intros [= <- <- <- <-]].
    unfold writeHashToFile. rewrite Hcl, open_trunc_ok by done. intros [= <- <- <- <-].
    constructor; [exact Hg'|done|done|by apply kv_ok_insert| |].
    - intros _. eapply file_map_write_map; [by apply kv_ok_insert|by apply open_trunc_ok].
    - unfold file_map in Hd |- *. by rewrite write_map_other, read_put_file_ne by done. }
  assert (∀ y w1, aside y w1 = aside x w → m_filename y = f →
    ∀ f2 x2 m2 w2, setOrdinary y w1 m s = (f2, x2, m2, w2) → aside x2 w2 = aside x w) as Hord.
  { intros y w1 E Hy f2 x2 m2 w2 Ho. apply setOrdinary_aside in Ho; [congruence|by rewrite Hy]. }
  destruct (decide (requestor m = HOSTIF_SRC_WEBPA)).
  - destruct (negb (e_sem_ok w)); [by intros [= <- <- <- <-]|].
    destruct (setWebpaLocal x w m s) as [[ok x1] w1] eqn:Hl.
    apply setWebpaLocal_aside in Hl as [Hl Hn1]; [|by rewrite Hnl].
    destruct (negb ok); [intros [= <- <- <- <-]; by eapply whole_aside|].
    destruct (m_updateInProgress x1); [intros [= <- <- <- <-]; by eapply whole_aside|].
    intros [= Ho]. eapply whole_aside; [done|done|]. by eapply Hord; [exact Hl|congruence|].
  - intros [= Ho]. eapply whole_aside; [done|done|]. by eapply Hord; [done|done|].
Qed.


Lemma new_whole f l w :
  installed f l w → can_write w TR181_STORE_NONPERSISTENT_FILE = true → apart f → apart l →
  ∃ x, new w = (x, w) ∧ whole f l x w ∧ m_updateInProgress x = false.
Proof.
  intros Hi Hw Hf Hl. destruct (new_good f l w Hi) as (x & Hn & Hg & Hu & _). exists x. split; [done|]. split; [|done].
  unfold new, init in Hn. cbn [m_initDone] in Hn.
  match type of Hn with context [loadTR181PropertiesIntoCache ?y w] =>
    destruct (load_whole y w) as (x1 & Hlo & Hnp & Hdf); [apply Hi..|] end.
  rewrite Hlo in Hn. injection Hn as <-. destruct (inst_defaults _ _ _ Hi) as [c Hc]. specialize (Hdf c Hc).
  constructor; [exact Hg|done|done| | |]; cbn [m_nonpersist_dict m_dict_rfcdefaults set_initDone].
  - rewrite Hnp. apply file_map_ok.
  - by intros _.
  - unfold file_map. rewrite Hc, Hdf. unfold initTR181PropertiesFileName. by case_match.
Qed.


(** A set by a source other than WebPA while an update is in progress only
    appends a line to the main file. *)
Lemma setValue_update f l x w m k v :
  good f l x w → m_updateInProgress x = true → getStringValue m = Some v → paramName m = k →
  plain_name k → requestor m ≠ HOSTIF_SRC_WEBPA → key_ok k → val_ok v →
  ∃ w', setValue x w m = Some (fcNoFault, x, set_fault m fcNoFault, w') ∧ good f l x w'
        ∧ file_map w' f = <[k:=v]> (file_map w f) ∧ file_map w' l = file_map w l.
Proof.
  intros Hg Hu Hs <- (Hc & Hp & _) Hr Hk Hv. unfold setValue. rewrite init_id by apply Hg.
  rewrite Hs. cbn [mbind option_bind]. rewrite Hc, Hp. rewrite decide_False by done.
  destruct (setOrdinary x w m v) as [[[f0 x'] m'] w'] eqn:Ho.
  assert (good f l x' w') as Hg' by (by eapply setOrdinary_good).
  unfold setOrdinary, setRawValue in Ho. rewrite Hu in Ho. simpl in Ho.
  destruct (good_names _ _ _ _ Hg) as [Hnf _]. rewrite Hnf in Ho.
  unfold open_app in Ho. rewrite (inst_main _ _ _ (good_inst _ _ _ _ Hg)) in Ho.
  injection Ho as <- <- <- <-. eexists. split; [done|]. split; [done|].
  destruct (inst_distinct _ _ _ (good_inst _ _ _ _ Hg)) as (? & _).
  unfold append_file. rewrite !file_map_put, !file_map_put_ne, read_put_file by done. simpl.
  split; [|done]. rewrite parse_kv_append; [|by eapply good_update|done|done].
  unfold file_map. by destruct (read_file w f).
Qed.

(** Outside an update a set of an ordinary parameter succeeds, from any source:
    the cache then has the value, and the other entries are as they were. *)
Lemma setOrdinary_plain f l x w m v :
  good f l x w → m_updateInProgress x = false → plain_name (paramName m) → key_ok (paramName m) →
  val_ok v → has_char NUL v = false →
  ∃ x' m' w', setOrdinary x w m v = (fcNoFault, x', m', w') ∧ good f l x' w'
    ∧ m_updateInProgress x' = false ∧ (m' = m ∨ m' = set_fault m fcNoFault)
    ∧ c_str (default EmptyString (m_dict x' !! paramName m)) = v
    ∧ ∀ k, k ≠ paramName m → m_dict x' !! k = m_dict x !! k.
Proof.
  intros Hg Hu Hp Hk Hv Hnul. destruct (setOrdinary x w m v) as [[[f0 x'] m'] w'] eqn:Ho.
  pose proof (setOrdinary_good f l x w m v f0 x' m' w' Hg Hk Hv Ho) as Hg'.
  assert (f0 = fcNoFault ∧ (m' = m ∨ m' = set_fault m fcNoFault)
          ∧ ∀ k, k ≠ paramName m → m_dict x' !! k = m_dict x !! k) as (-> & Hm & Hother).
  { clear Hg'. unfold setOrdinary in Ho. destruct (_ && _ && _) in Ho.
    - injection Ho as <- <- <- <-. split_and!; [done|by left|done].
    - unfold setRawValue, writeHashToFile in Ho. rewrite Hu in Ho.
      destruct (good_names _ _ _ _ Hg) as [Hnf _]. rewrite Hnf in Ho.
      rewrite open_trunc_ok in Ho by apply Hg.
      destruct Hp as (Hc & _). rewrite Hc in Ho. injection Ho as <- <- <- <-.
      split_and!; [done|by right|]. intros k Hne. simpl. by apply lookup_insert_ne. }
  destruct (setOrdinary_sets x w m v x' m' w' w' Ho Hp Hu Hnul) as (Hr & _ & Hu').
  exists x', m', w'. rewrite getRawValue_plain in Hr by done. by split_and!.
Qed.

Lemma setValue_plain f l x w m v :
  good f l x w → m_updateInProgress x = false → getStringValue m = Some v → plain_name (paramName m) →
  key_ok (paramName m) → val_ok v → has_char NUL v = false →
  ∃ x' m' w', setValue x w m = Some (fcNoFault, x', m', w') ∧ good f l x' w'
    ∧ m_updateInProgress x' = false ∧ (m' = m ∨ m' = set_fault m fcNoFault)
    ∧ c_str (default EmptyString (m_dict x' !! paramName m)) = v
    ∧ ∀ k, k ≠ paramName m → m_dict x' !! k = m_dict x !! k.
Proof.
  intros Hg Hu Hs Hp Hk Hv Hnul. pose proof Hp as (Hc & Hnp & _).
  unfold setValue. rewrite init_id by apply Hg. rewrite Hs. cbn [mbind option_bind]. rewrite Hc, Hnp.
  destruct (decide (requestor m = HOSTIF_SRC_WEBPA)).
  - rewrite (inst_sem _ _ _ (good_inst _ _ _ _ Hg)). cbn [negb].
    destruct (setWebpaLocal x w m v) as [[ok x1] w1] eqn:Hw.
    pose proof (setWebpaLocal_good f l x w m v ok x1 w1 Hg Hk Hv Hw) as Hg1.
    unfold setWebpaLocal in Hw. rewrite (good_local_load f l) in Hw by done.
    destruct (good_names _ _ _ _ Hg) as [_ Hnl]. rewrite Hnl in Hw. unfold writeHashToFile in Hw.
    rewrite open_trunc_ok in Hw by apply (good_inst _ _ _ _ Hg). injection Hw as <- <- <-. cbn [negb].
    assert (m_updateInProgress (set_local x (if streq (paramName m) TR181_CLEAR_PARAM
             then m_local_dict x else <[paramName m:=v]> (m_local_dict x))) = false) as Hu1 by done.
    rewrite Hu1.
    destruct (setOrdinary_plain f l _ _ m v Hg1 Hu1 Hp Hk Hv Hnul) as (x' & m' & w' & Ho & H').
    exists x', m', w'. rewrite Ho. by split.
  - destruct (setOrdinary_plain f l x w m v Hg Hu Hp Hk Hv Hnul) as (x' & m' & w' & Ho & H').
    exists x', m', w'. rewrite Ho. by split.
Qed.

Fixpoint run_sets (x : t) (w : env) (ms : list HOSTIF_MsgData_t) : option (t * env) :=
  match ms with
  | [] => Some (x, w)
  | m :: ms' =>
      match setValue x w m with
      | Some (fcNoFault, x', _, w') => run_sets x' w' ms'
      | _ => None
      end
  end.

(** A message of the RFC server that sets [kv.1] to [kv.2]. *)
Definition rfc_set (m : HOSTIF_MsgData_t) (kv : string * string) : Prop :=
  getStringValue m = Some kv.2 ∧ paramName m = kv.1 ∧ plain_name kv.1
  ∧ requestor m ≠ HOSTIF_SRC_WEBPA ∧ key_ok kv.1 ∧ val_ok kv.2.

Lemma run_sets_update f l x w ms kvs :
  good f l x w → m_updateInProgress x = true → Forall2 rfc_set ms kvs →
  ∃ w', run_sets x w ms = Some (x, w') ∧ good f l x w'
        ∧ file_map w' f = insert_all kvs (file_map w f) ∧ file_map w' l = file_map w l.
Proof.
  intros Hg Hu Hms. revert w Hg. induction Hms as [|m [k v] ms kvs Hm Hms IH]; intros w Hg.
  { exists w. done. }
  destruct Hm as (Hs & Hn & Hp & Hr & Hk & Hv). cbn [run_sets].
  destruct (setValue_update f l x w m k v) as (w1 & -> & Hg1 & Hf1 & Hl1); [done..|].
  destruct (IH w1 Hg1) as (w2 & -> & Hg2 & Hf2 & Hl2). exists w2.
  split_and!; [done|done| |congruence]. rewrite Hf2, Hf1. done.
Qed.

Lemma clearAll_spec f l x w :
  good f l x w → m_updateInProgress x = false →
  ∃ w', clearAll x w = (set_update x true, w') ∧ good f l (set_update x true) w'
        ∧ file_map w' f = ∅ ∧ file_map w' l = file_map w l.
Proof.
  intros Hg Hu. destruct (clearAll x w) as [x' w'] eqn:Hc.
  pose proof (clearAll_good f l x w x' w' Hg Hc) as Hg'. unfold clearAll in Hc.
  rewrite init_id, Hu in Hc by apply Hg. injection Hc as <- <-. eexists. split; [done|].
  split; [done|]. destruct (good_names _ _ _ _ Hg) as [-> _].
  rewrite open_trunc_ok by apply (good_inst _ _ _ _ Hg). simpl.
  destruct (inst_distinct _ _ _ (good_inst _ _ _ _ Hg)) as (? & ? & ? & ? & ?).
  unfold open_trunc. destruct (can_write _ TR181_STORE_NONPERSISTENT_FILE); simpl;
    rewrite ?(file_map_put_ne _ TR181_STORE_NONPERSISTENT_FILE), ?file_map_put by done;
    by rewrite file_map_put_ne.
Qed.

Lemma reloadCache_spec f l x w :
  good f l x w → m_updateInProgress x = true →
  ∃ x' w', reloadCache x w = (x', w') ∧ good f l x' w' ∧ m_updateInProgress x' = false
           ∧ m_dict x' = file_map w f ∪ file_map w l ∧ m_local_dict x' = file_map w l.
Proof.
  intros Hg Hu. destruct (reloadCache x w) as [x' w'] eqn:Hc. exists x', w'. split; [done|].
  split; [by eapply reloadCache_good|]. unfold reloadCache in Hc. rewrite Hu in Hc. simpl in Hc.
  destruct (good_names _ _ _ _ Hg) as [Hnf Hnl].
  destruct (load_installed f l x w) as (x1 & Hlo & Hf & Hl & _ & Hd & Hld); [apply Hg|done..|].
  rewrite Hlo in Hc. simpl in Hc. rewrite merge_local_union, Hd, Hld in Hc.
  destruct (open_trunc _ _); by simplify_eq.
Qed.

(** Clearing, under the invariant. *)
Lemma clearValue_spec f l x w value :
  good f l x w → value ≠ EmptyString →
  ∃ x' w', clearValue x w TR181_CLEAR_PARAM value = Some (fcNoFault, x', w') ∧ good f l x' w'
    ∧ m_updateInProgress x' = m_updateInProgress x
    ∧ (∀ k, m_local_dict x' !! k = if clears value k then None else m_local_dict x !! k)
    ∧ (∀ k, m_dict x' !! k = if bool_decide (is_Some (m_local_dict x !! k)) && clears value k
                             then None else m_dict x !! k)
    ∧ ((∃ k, is_Some (m_local_dict x !! k) ∧ clears value k = true) → file_map w' f = m_dict x').
Proof.
  intros Hg Hne. destruct (clearValue x w TR181_CLEAR_PARAM value) as [[[f' x'] w']|] eqn:Hc.
  all: pose proof Hc as Hc'; unfold clearValue in Hc;
    rewrite (inst_sem _ _ _ (good_inst _ _ _ _ Hg)), (good_local_load f l) in Hc by done;
    destruct (clear_loop_spec (um_order (e_tick w) (m_local_dict x)) value false (m_local_dict x) (m_dict x) Hne)
      as (fo & lo & di & Heq & Hfo & Hlo & Hdi); simpl in Hc; rewrite Heq in Hc;
    cbn [mbind option_bind] in Hc.
  2: { exfalso. unfold writeHashToFile in Hc. repeat case_match; simplify_eq. }
  pose proof (um_order_perm _ (e_tick w) (m_local_dict x)) as Hperm.
  assert (∀ k, k ∈ (um_order (e_tick w) (m_local_dict x)).*1 ↔ is_Some (m_local_dict x !! k)) as Hin.
  { intros k. rewrite Hperm, list_elem_of_fmap. split.
    - intros ([? v] & -> & Hkv%elem_of_map_to_list). by exists v.
    - intros [v Hv]. exists (k, v). by rewrite elem_of_map_to_list. }
  assert (∀ k, bool_decide (k ∈ (um_order (e_tick w) (m_local_dict x)).*1)
             = bool_decide (is_Some (m_local_dict x !! k))) as Hbd.
  { intros k. by apply bool_decide_ext. }
  pose proof (clearValue_good f l x w _ _ _ _ _ Hg (streq_refl _) Hc') as Hg'.
  assert (f' = fcNoFault ∧ m_updateInProgress x' = m_updateInProgress x
          ∧ m_local_dict x' = lo ∧ m_dict x' = di ∧ (fo = true → file_map w' f = di)) as (-> & Hu & Hl & Hd & Hfm).
  { destruct fo.
    - unfold writeHashToFile in Hc. rewrite streq_refl in Hc.
      destruct (good_names _ _ _ _ Hg) as [Hnf Hnl]. simpl in Hc. rewrite Hnf, Hnl in Hc.
      rewrite open_trunc_ok in Hc by apply (good_inst _ _ _ _ Hg).
      rewrite open_trunc_ok in Hc by apply (good_inst _ _ _ _ Hg). injection Hc as <- <- <-.
      split_and!; try done. intros _. pose proof (good_dict _ _ _ _ Hg') as Hok. simpl in Hok.
      eapply file_map_write_map; [done|]. apply open_trunc_ok. apply (good_inst _ _ _ _ Hg).
    - injection Hc as <- <- <-. by split_and!. }
  exists x', w'. rewrite Hl, Hd. split; [done|]. split; [done|]. split; [done|]. split_and!.
  - intros k. rewrite Hlo, Hbd. case_bool_decide as Hk; [done|]. simpl.
    destruct (clears value k); [|done]. destruct (m_local_dict x !! k) eqn:E; [|done].
    destruct Hk; eauto.
  - intros k. by rewrite Hdi, Hbd.
  - intros (k & Hk & Hck). apply Hfm. rewrite Hfo. simpl. apply existsb_exists.
    apply Hin, list_elem_of_fmap in Hk as (kv & -> & Hkv). exists kv.
    by rewrite <- list_elem_of_In.
Qed.

End reachable.

(** ** Properties *)
Section properties.
Context `{UMapOrder}.

(** A set of an ordinary parameter that answers no fault outside an RFC
    update is what the next get of that parameter returns, for a message of any
    type that can hold the text. *)
Theorem rfc_set_get x w m s x' m' w' g :
  setValue x w m = Some (fcNoFault, x', m', w') → m_updateInProgress x' = false →
  plain_name (paramName m) → getStringValue m = Some s → s ≠ EmptyString →
  paramName g = paramName m → canonical_text (paramtype g) s →
  ∃ g', getValue x' w' g = (fcNoFault, x', g', w')
        ∧ faultCode g' = fcNoFault ∧ getStringValue g' = Some s.
Proof.
  intros Hset Hu Hp Hs Hne Hname Hc.
  destruct (init x w) as [[ok x1] w1] eqn:Hi.
  destruct ok; [|unfold setValue in Hset; by rewrite Hi in Hset].
  destruct (setValue_ordinary _ _ _ _ _ _ _ _ _ _ Hi Hs Hp Hset Hu eq_refl)
    as (x2 & w2 & Ho & Hd & Hu2).
  destruct (setOrdinary_sets _ _ _ _ _ _ _ w' Ho Hp Hu2 (canonical_no_nul _ _ Hc)) as (Hr & Hd' & _).
  unfold getValue. rewrite init_id by congruence. rewrite Hname.
  destruct (is_empty (getRawValue x' w' (paramName m))) eqn:He; simpl.
  { destruct (getRawValue _ _ _); [|done]. by subst s. }
  eexists. split; [done|]. split; [done|]. rewrite Hr.
  etrans; [|by apply (putValue_canonical g s)]. by apply getStringValue_eq.
Qed.


(** C7. The update protocol: after ClearDB, any sequence of sets of ordinary
    parameters by a caller other than WebPA succeeds and leaves the served
    values alone, and ClearDBEnd makes the store hold exactly the last value of
    each key set in between, plus the local overrides for keys that were not
    set; the file then agrees with the cache.  Ordinary are the parameters
    other than ClearParam (see rfc_clear_param_during_update) and the volatile
    ones (see volatile_survive_update), with no equals sign and no newline in the
    name and no newline in the value, which a line of the file cannot hold. *)
Theorem rfc_update_protocol f l x w ms kvs :
  good f l x w → m_updateInProgress x = false → Forall2 rfc_set ms kvs →
  ∃ x1 w1 x2 w2 x3 w3,
    clearAll x w = (x1, w1) ∧ run_sets x1 w1 ms = Some (x2, w2)
    ∧ m_dict x2 = m_dict x ∧ m_updateInProgress x2 = true
    ∧ reloadCache x2 w2 = (x3, w3)
    ∧ m_dict x3 = insert_all kvs ∅ ∪ m_local_dict x
    ∧ file_map w3 f = m_dict x3 ∧ m_updateInProgress x3 = false.
Proof.
  intros Hg Hu Hms. destruct (clearAll_spec f l x w Hg Hu) as (w1 & Hc & Hg1 & Hf1 & Hl1).
  destruct (run_sets_update f l _ w1 ms kvs Hg1 eq_refl Hms) as (w2 & Hr & Hg2 & Hf2 & Hl2).
  destruct (reloadCache_spec f l _ w2 Hg2 eq_refl) as (x3 & w3 & Hre & Hg3 & Hu3 & Hd3 & _).
  exists (set_update x true), w1, (set_update x true), w2, x3, w3.
  split_and!; try done.
  - rewrite Hd3, Hf2, Hf1, Hl2, Hl1. f_equal. by apply (good_local f l).
  - by apply (good_main f l).
Qed.

(** ClearParam of a non-empty value answers no fault, removes from the
    local store exactly the entries named by the value or, when it ends in a
    dot, containing it, removes the same entries from the main store, and keeps
    every other entry of both. *)
Theorem rfc_clear_param f l x w m v :
  good f l x w → paramName m = TR181_CLEAR_PARAM → getStringValue m = Some v → v ≠ EmptyString →
  ∃ x' w', setValue x w m = Some (fcNoFault, x', m, w')
    ∧ (∀ k, m_local_dict x' !! k = if clears v k then None else m_local_dict x !! k)
    ∧ (∀ k, m_dict x' !! k = if bool_decide (is_Some (m_local_dict x !! k)) && clears v k
                             then None else m_dict x !! k).
Proof.
  intros Hg Hn Hs Hv. destruct (clearValue_spec f l x w v Hg Hv) as (x' & w' & Hc & _ & _ & Hl & Hd & _).
  exists x', w'. split; [|done]. unfold setValue. rewrite init_id by apply Hg.
  rewrite Hs. cbn [mbind option_bind]. by rewrite Hn, streq_refl, Hc.
Qed.

(** A ClearParam that arrives between ClearDB and ClearDBEnd replaces the
    file being collected by the cache from before ClearDB: what the update had
    set so far is lost, and the values it meant to drop are back. *)
Theorem rfc_clear_param_during_update f l x w m v k :
  good f l x w → m_updateInProgress x = true → paramName m = TR181_CLEAR_PARAM →
  getStringValue m = Some v → v ≠ EmptyString →
  is_Some (m_local_dict x !! k) → clears v k = true →
  ∃ x' w', setValue x w m = Some (fcNoFault, x', m, w') ∧ m_updateInProgress x' = true
    ∧ file_map w' f = m_dict x'
    ∧ (∀ k', ¬ (is_Some (m_local_dict x !! k') ∧ clears v k' = true) →
             file_map w' f !! k' = m_dict x !! k').
Proof.
  intros Hg Hu Hn Hs Hv Hk Hck.
  destruct (clearValue_spec f l x w v Hg Hv) as (x' & w' & Hc & _ & Hu' & _ & Hd & Hf).
  exists x', w'. split_and!.
  - unfold setValue. rewrite init_id by apply Hg.
    rewrite Hs. cbn [mbind option_bind]. by rewrite Hn, streq_refl, Hc.
  - congruence.
  - by apply Hf; exists k.
  - intros k' Hk'. rewrite Hf by (by exists k). rewrite Hd. case_bool_decide; [|done].
    destruct (clears v k') eqn:?; [|done]. by destruct Hk'.
Qed.

(** ClearDB empties the file of the volatile parameters and keeps their cache, so
    the first of them that an update sets writes the old ones back: they survive
    the ClearDBEnd, which drops them when the update sets none. *)
Theorem volatile_survive_update f l x w m v k :
  whole f l x w → m_updateInProgress x = true → getStringValue m = Some v → requestor m = HOSTIF_SRC_RFC →
  contains TR181_RFC_NONPERSISTENT_PREFIX (paramName m) = true → paramName m ≠ TR181_CLEAR_PARAM →
  key_ok (paramName m) → val_ok v → k ≠ paramName m →
  ∃ x' w', setValue x w m = Some (fcNoFault, x', m, w')
    ∧ m_nonpersist_dict (reloadCache x' w').1 !! k = m_nonpersist_dict x !! k.
Proof.
  intros Hwh Hu Hs Hr Hp Hc%streq_false Hk Hv Hne. pose proof Hwh as [Hg _ Hw Hok _ _].
  assert (setValue x w m = Some (fcNoFault, set_nonpersist x (<[paramName m := v]> (m_nonpersist_dict x)), m,
    write_map (put_file w TR181_STORE_NONPERSISTENT_FILE EmptyString) TR181_STORE_NONPERSISTENT_FILE
      (<[paramName m := v]> (m_nonpersist_dict x)))) as Hset.
  { unfold setValue. rewrite init_id by apply Hg. rewrite Hs. cbn [mbind option_bind].
    rewrite Hc, Hp, decide_True by done. unfold writeHashToFile. by rewrite Hc, open_trunc_ok. }
  eexists _, _. split; [exact Hset|].
  assert (whole f l (set_nonpersist x (<[paramName m := v]> (m_nonpersist_dict x)))
    (write_map (put_file w TR181_STORE_NONPERSISTENT_FILE EmptyString) TR181_STORE_NONPERSISTENT_FILE
      (<[paramName m := v]> (m_nonpersist_dict x)))) as Hwh'.
  { eapply setValue_whole; [exact Hwh| |exact Hset]. intros s. rewrite Hs. by intros [= <-]. }
  pose proof (wh_good _ _ _ _ Hwh') as Hg'.
  unfold reloadCache. change (m_updateInProgress (set_nonpersist x _)) with (m_updateInProgress x). rewrite Hu. cbn [negb].
  destruct (load_whole (set_nonpersist x (<[paramName m := v]> (m_nonpersist_dict x)))
    (write_map (put_file w TR181_STORE_NONPERSISTENT_FILE EmptyString) TR181_STORE_NONPERSISTENT_FILE
      (<[paramName m := v]> (m_nonpersist_dict x)))) as (x1 & Hlo & Hnp & _); [apply Hg'..|].
  rewrite Hlo. assert (m_nonpersist_dict x1 !! k = m_nonpersist_dict x !! k) as Hkk.
  { rewrite Hnp. erewrite file_map_write_map; [by rewrite lookup_insert_ne|by apply kv_ok_insert|by apply open_trunc_ok]. }
  by destruct (open_trunc _ _).
Qed.

(** Only the RFC server may set a non-persistent parameter: any other
    requestor gets an internal error and changes neither the store nor a file. *)
Theorem rfc_nonpersistent_denied f l x w m v :
  good f l x w → getStringValue m = Some v → paramName m ≠ TR181_CLEAR_PARAM →
  contains TR181_RFC_NONPERSISTENT_PREFIX (paramName m) = true → requestor m ≠ HOSTIF_SRC_RFC →
  setValue x w m = Some (fcInternalError, x, m, w).
Proof.
  intros Hg Hs Hn Hp Hr. unfold setValue. rewrite init_id by apply Hg. rewrite Hs.
  cbn [mbind option_bind]. apply streq_false in Hn. rewrite Hn, Hp. by rewrite decide_False.
Qed.

(** What a get answers: the stored value when there is a non-empty one,
    else the non-empty default, else an internal error; it changes no state. *)
Theorem rfc_get_precedence f l x w m :
  good f l x w → plain_name (paramName m) →
  let answer v := getValue x w m = (fcNoFault, x, set_fault (putValue m (c_str v)) fcNoFault, w) in
  let error := getValue x w m = (fcInternalError, x, set_fault m fcInternalError, w) in
  match m_dict x !! paramName m, m_dict_rfcdefaults x !! paramName m with
  | Some (String c s), _ => answer (String c s)
  | _, Some (String c s) => answer (String c s)
  | _, _ => error
  end.
Proof.
  intros Hg Hp answer error. unfold answer, error, getValue. rewrite init_id by apply Hg.
  rewrite getRawValue_plain by done.
  destruct (m_dict x !! paramName m) as [[|c s]|]; simpl; try done;
    by destruct (m_dict_rfcdefaults x !! paramName m) as [[|c' s']|].
Qed.

(** Merging the defaults directory stops at the first .ini file that is
    empty or unreadable: every file listed after it is ignored. *)
Theorem rfcdefaults_merge_stops w names1 name names2 :
  contains ".ini" name = true →
  default EmptyString (read_file (foldl combine_step (true, w) names1).2
                        (RFCDEFAULTS_ETC_DIR +:+ name)) = EmptyString →
  (foldl combine_step (true, w) (names1 ++ name :: names2)).2
  = (foldl combine_step (true, w) names1).2.
Proof.
  intros Hn He. rewrite foldl_app. simpl.
  destruct (foldl combine_step (true, w) names1) as [ok w1]. simpl in He.
  assert (combine_step (ok, w1) name = (false, w1)) as ->.
  { unfold combine_step. rewrite Hn. destruct ok; [|done].
    destruct (read_file w1 _) as [[|c s]|]; by simpl in *. }
  induction names2 as [|n ns IH]; [done|]. simpl. by destruct (contains ".ini" n).
Qed.

End properties.

(** ** A concrete device *)
Definition ex_lines (a b : string) : string := a +:+ String NL (b +:+ String NL EmptyString).

Definition ex_env : env :=
  mkEnv (list_to_map
    [("/etc/rfc.properties"%string,
      ex_lines "TR181_STORE_FILENAME=/opt/s.ini" "TR181_LOCAL_STORE_FILENAME=/opt/l.ini");
     ("/opt/s.ini"%string, ex_lines "Device.A=1" "Device.B=2");
     ("/opt/l.ini"%string, ex_lines "Device.C=local" "Device.A.x=7");
     ("/tmp/rfcdefaults.ini"%string, ex_lines "Device.D=dflt" "Device.E=")])
    ∅ true ∅ EmptyString 0.

Lemma ex_installed : installed "/opt/s.ini" "/opt/l.ini" ex_env.
Proof. constructor; try by vm_compute. by eexists; vm_compute. by eexists; vm_compute. Qed.

Definition ex_store : t := (@new ex_env).1.

Lemma ex_good : good "/opt/s.ini" "/opt/l.ini" ex_store ex_env ∧ m_updateInProgress ex_store = false.
Proof.
  destruct (new_good _ _ _ ex_installed) as (x & Hn & Hg & Hu & _). unfold ex_store. by rewrite Hn.
Qed.

#[local] Existing Instance canonical_order.

Lemma rfc_set_get_witness :
  let m := string_set "Device.Z" "on" HOSTIF_SRC_WEBPA in
  ∃ x' m' w' g', setValue ex_store ex_env m = Some (fcNoFault, x', m', w')
    ∧ getValue x' w' m = (fcNoFault, x', g', w') ∧ getStringValue g' = Some "on"%string.
Proof.
  intros m.
  assert (match setValue ex_store ex_env m with
          | Some (fcNoFault, x', _, _) => negb (m_updateInProgress x')
          | _ => false
          end = true) as Ht by (vm_compute; reflexivity).
  destruct (setValue ex_store ex_env m) as [[[[[] x'] m'] w']|] eqn:Hs; try discriminate Ht.
  apply negb_true_iff in Ht.
  assert (getStringValue m = Some "on"%string) as Hv by (vm_compute; reflexivity).
  assert (canonical_text (paramtype m) "on") as Hc by (split; [reflexivity|vm_compute; lia]).
  assert (plain_name (paramName m)) as Hp by (vm_compute; split_and!; reflexivity).
  assert ("on"%string ≠ EmptyString) as Hne by discriminate.
  destruct (rfc_set_get ex_store ex_env m "on" x' m' w' m Hs Ht Hp Hv Hne eq_refl Hc)
    as (g' & Hg & _ & Hgv).
  exists x', m', w', g'. exact (conj eq_refl (conj Hg Hgv)).
Defined.


Lemma string_set_rfc k v src :
  has_char NUL v = false → (String.length v < TR69HOSTIFMGR_MAX_PARAM_LEN)%nat →
  plain_name k → src ≠ HOSTIF_SRC_WEBPA → key_ok k → val_ok v →
  rfc_set (string_set k v src) (k, v).
Proof. intros. split; [by apply string_set_value|]. done. Qed.

Lemma rfc_update_protocol_witness :
  let m := string_set "Device.A" "9" HOSTIF_SRC_RFC in
  ∃ x3, m_dict x3 !! "Device.A"%string = Some "9"%string ∧ m_dict x3 !! "Device.B"%string = None
        ∧ m_dict x3 !! "Device.C"%string = Some "local"%string.
Proof.
  intros m. destruct ex_good as [Hg Hu].
  assert (Forall2 rfc_set [m] [("Device.A", "9")%string]) as Hms.
  { constructor; [|constructor]. apply string_set_rfc; try discriminate; try exact I;
      try (apply Nat.ltb_lt; reflexivity); vm_compute; split_and?; reflexivity. }
  destruct (rfc_update_protocol _ _ _ _ [m] [("Device.A", "9")%string] Hg Hu Hms)
    as (x1 & w1 & x2 & w2 & x3 & w3 & _ & _ & _ & _ & _ & Hd & _).
  exists x3. rewrite Hd. vm_compute. split_and!; reflexivity.
Defined.

Lemma rfc_clear_param_witness :
  let m := string_set TR181_CLEAR_PARAM "Device.A." HOSTIF_SRC_WEBPA in
  ∃ x' w', setValue ex_store ex_env m = Some (fcNoFault, x', m, w')
           ∧ m_local_dict x' !! "Device.A.x"%string = None
           ∧ m_local_dict x' !! "Device.C"%string = Some "local"%string.
Proof.
  intros m. destruct ex_good as [Hg Hu].
  assert (getStringValue m = Some "Device.A."%string) as Hv by (vm_compute; reflexivity).
  destruct (rfc_clear_param _ _ _ _ m "Device.A." Hg eq_refl Hv ltac:(discriminate))
    as (x' & w' & Hs & Hl & _).
  exists x', w'. split; [exact Hs|]. rewrite !Hl. vm_compute. split; reflexivity.
Defined.

Lemma volatile_survive_update_witness :
  let n k := (TR181_RFC_NONPERSISTENT_PREFIX +:+ k)%string in
  ∃ x x' w', m_nonpersist_dict x !! n "Old" = Some "1"%string
    ∧ setValue x ex_env (string_set (n "New") "2" HOSTIF_SRC_RFC)
      = Some (fcNoFault, x', string_set (n "New") "2" HOSTIF_SRC_RFC, w')
    ∧ m_nonpersist_dict (reloadCache x' w').1 !! n "Old" = Some "1"%string.
Proof.
  intros n. destruct (new_whole "/opt/s.ini" "/opt/l.ini" ex_env ex_installed eq_refl) as (x0 & Hn & [Hg Ha Hw Hok Hv Hd] & Hu);
    [split; discriminate..|].
  set (x := set_update (set_nonpersist x0 {[n "Old" := "1"]}) true).
  assert (whole "/opt/s.ini" "/opt/l.ini" x ex_env) as Hwh.
  { constructor; [|exact Ha|exact Hw| |discriminate|exact Hd].
    - destruct Hg as [? ? ? ? ? Hm Hup]. constructor; [assumption..|discriminate|].
      intros _. right. vm_compute. reflexivity.
    - apply map_Forall_singleton. vm_compute. split; exact I. }
  destruct (volatile_survive_update _ _ x ex_env (string_set (n "New") "2" HOSTIF_SRC_RFC) "2" (n "Old") Hwh eq_refl)
    as (x' & w' & Hset & Hk).
  - by apply string_set_value; [|apply Nat.ltb_lt].
  - reflexivity.
  - vm_compute. reflexivity.
  - discriminate.
  - vm_compute. exact I.
  - vm_compute. exact I.
  - discriminate.
  - exists x, x', w'. split; [reflexivity|]. split; [exact Hset|]. rewrite Hk. reflexivity.
Defined.

Lemma rfc_clear_param_during_update_witness :
  let m := string_set TR181_CLEAR_PARAM "Device.C" HOSTIF_SRC_WEBPA in
  ∃ x w x' w', clearAll ex_store ex_env = (x, w)
    ∧ setValue x w m = Some (fcNoFault, x', m, w')
    ∧ file_map w' "/opt/s.ini" !! "Device.B"%string = Some "2"%string.
Proof.
  intros m. destruct ex_good as [Hg Hu].
  destruct (clearAll_spec _ _ _ _ Hg Hu) as (w1 & Hc & Hg1 & _).
  assert (getStringValue m = Some "Device.C"%string) as Hv by (vm_compute; reflexivity).
  destruct (rfc_clear_param_during_update _ _ _ w1 m "Device.C" "Device.C" Hg1 eq_refl eq_refl Hv
              ltac:(discriminate) ltac:(eexists; vm_compute; reflexivity) ltac:(vm_compute; reflexivity))
    as (x' & w' & Hs & _ & _ & Hf).
  exists (set_update ex_store true), w1, x', w'. split; [exact Hc|]. split; [exact Hs|].
  rewrite Hf; [vm_compute; reflexivity|]. intros [_ Hcl]. vm_compute in Hcl. discriminate Hcl.
Defined.

Lemma rfc_nonpersistent_denied_witness :
  let m := string_set (TR181_RFC_NONPERSISTENT_PREFIX +:+ "X") "1" HOSTIF_SRC_WEBPA in
  setValue ex_store ex_env m = Some (fcInternalError, ex_store, m, ex_env).
Proof.
  intros m. destruct ex_good as [Hg Hu].
  assert (getStringValue m = Some "1"%string) as Hv by (vm_compute; reflexivity).
  exact (rfc_nonpersistent_denied _ _ _ _ m "1" Hg Hv ltac:(discriminate)
           ltac:(vm_compute; reflexivity) ltac:(discriminate)).
Defined.

Lemma rfc_get_precedence_witness :
  let m := string_set "Device.D" "" HOSTIF_SRC_WEBPA in
  getValue ex_store ex_env m
  = (fcNoFault, ex_store, set_fault (putValue m "dflt") fcNoFault, ex_env).
Proof.
  intros m. destruct ex_good as [Hg Hu].
  pose proof (rfc_get_precedence _ _ _ _ m Hg ltac:(vm_compute; split_and!; reflexivity)) as Hp. cbv zeta in Hp.
  replace (m_dict ex_store !! paramName m) with (@None string) in Hp by (vm_compute; reflexivity).
  replace (m_dict_rfcdefaults ex_store !! paramName m) with (Some "dflt"%string) in Hp
    by (vm_compute; reflexivity). exact Hp.
Defined.

Lemma rfcdefaults_merge_stops_witness :
  let w := mkEnv {["/etc/rfcdefaults/b.ini" := "k=1"%string]} ∅ true ∅ EmptyString 0 in
  (foldl combine_step (true, w) ["a.ini"; "b.ini"]%string).2 = w.
Proof.
  intros w. exact (rfcdefaults_merge_stops w [] "a.ini" ["b.ini"%string] eq_refl eq_refl).
Defined.

End XRFCStore.
