(* ===== verification/BSJournal.v ===== *)
(** * The bootstrap journal

    [XBSStoreJournal] models profiles/DeviceInfo/XrdkCentralComBSStoreJournal.cpp:
    for every bootstrap parameter, the firmware value, the value that overrides
    it with its source, and the mark of the RFC update in progress; kept in a
    file of comma-separated, quoted fields. *)
From stdpp Require Import base list strings gmap.
From Stdlib Require Import Ascii ZArith Lia.
From S2P Require Import Prelude HostIf FileStore.

Module XBSStoreJournal.

Definition VERSION_TXT_FILE : string := "/version.txt".
Definition BS_RFC_STR : string := "rfc".
Definition BS_WEBPA_STR : string := "webpa".

Record BS_JournalData_t := mkData {
  fwValue : string;
  buildTime : string;
  updatedValue : string;
  updatedTime : string;
  updatedSource : HostIf_Source_Type_t;
  clearRfc : bool
}.

Record t := mk {
  m_filename : string;
  m_buildTime : string;
  m_initDone : bool;
  m_initialUpdate : bool;
  m_dict : gmap string BS_JournalData_t
}.

Definition set_dict (x : t) (d : gmap string BS_JournalData_t) : t :=
  mk (m_filename x) (m_buildTime x) (m_initDone x) (m_initialUpdate x) d.
Definition setInitialUpdate (x : t) (b : bool) : t :=
  mk (m_filename x) (m_buildTime x) (m_initDone x) b (m_dict x).

Definition getUpdatedSourceString (s : HostIf_Source_Type_t) : string :=
  match s with
  | HOSTIF_SRC_RFC => BS_RFC_STR
  | HOSTIF_SRC_WEBPA => BS_WEBPA_STR
  | _ => "-"
  end.

(** The reading of the last field. *)
Definition source_of_string (s : string) : HostIf_Source_Type_t :=
  if streq s BS_RFC_STR then HOSTIF_SRC_RFC
  else if streq s BS_WEBPA_STR then HOSTIF_SRC_WEBPA
  else HOSTIF_SRC_DEFAULT.

Definition quoted (s : string) : string := String QUOTE (s +:+ String QUOTE EmptyString).

(** One record as every writer prints it. *)
Definition journal_line (key : string) (d : BS_JournalData_t) : string :=
  quoted key +:+ String COMMA (quoted (fwValue d) +:+ String COMMA (quoted (buildTime d) +:+
  String COMMA (quoted (updatedValue d) +:+ String COMMA (quoted (updatedTime d) +:+
  String COMMA (quoted (getUpdatedSourceString (updatedSource d)) +:+ String NL EmptyString))))).

Fixpoint journal_text (l : list (string * BS_JournalData_t)) : string :=
  match l with
  | [] => EmptyString
  | (k, d) :: l' => journal_line k d +:+ journal_text l'
  end.

(** [getline(ss, field, ',')] on the rest of a line; the state is [None] once
    the stream is no longer good, and the field then stays empty. *)
Definition get_field (ss : option string) : string * option string :=
  match ss with
  | None => (EmptyString, None)
  | Some s =>
      match split_at COMMA s with
      | Some (field, rest) => (erase_char QUOTE field, Some rest)
      | None => (erase_char QUOTE s, None)
      end
  end.

Definition parse_record (line : string) : string * BS_JournalData_t :=
  let '(key, s1) := get_field (Some line) in
  let '(fw, s2) := get_field s1 in
  let '(bt, s3) := get_field s2 in
  let '(uv, s4) := get_field s3 in
  let '(ut, s5) := get_field s4 in
  let '(src, _) := get_field s5 in
  (key, mkData fw bt uv ut (source_of_string src) false).

Definition parse_journal (content : string) : gmap string BS_JournalData_t :=
  foldl (λ m line, let '(k, d) := parse_record line in <[k:=d]> m) ∅ (getlines content).

Definition loadJournalRecordsIntoCache (x : t) (w : env) : bool * t :=
  if is_empty (m_filename x) then (false, x)
  else
    let fn := erase_char QUOTE (m_filename x) in
    let d := match read_file w fn with None => ∅ | Some content => parse_journal content end in
    (true, mk fn (m_buildTime x) (m_initDone x) (m_initialUpdate x) d).

Definition init (x : t) (w : env) : bool * t :=
  if m_initDone x then (true, x)
  else
    let '(ok, x') := loadJournalRecordsIntoCache x w in
    (ok, mk (m_filename x') (m_buildTime x') ok (m_initialUpdate x') (m_dict x')).

Definition getBuildTime (w : env) : string :=
  match read_file w VERSION_TXT_FILE with
  | None => EmptyString
  | Some content =>
      erase_char QUOTE
        (foldl (λ bt line,
                 match split_at EQ line with
                 | Some (k, v) => if streq (c_str k) "BUILD_TIME" then v else bt
                 | None => bt
                 end) EmptyString (getlines content))
  end.

(** The constructor. *)
Definition new (fileName : string) (w : env) : t :=
  (init (mk fileName (getBuildTime w) false false ∅) w).2.

Definition getJournalSource (x : t) (key : string) : HostIf_Source_Type_t :=
  match m_dict x !! key with
  | None => HOSTIF_NONE
  | Some d => updatedSource d
  end.

Definition set_clearRfc (d : BS_JournalData_t) (b : bool) : BS_JournalData_t :=
  mkData (fwValue d) (buildTime d) (updatedValue d) (updatedTime d) (updatedSource d) b.

Definition removeRecord (x0 : t) (w : env) (key : string) : bool * t :=
  match init x0 w with
  | (false, x) => (false, x)
  | (true, x) => (true, set_dict x (delete key (m_dict x)))
  end.

Definition resetCacheAndStore (x : t) (w : env) : t * env :=
  (set_dict x ∅, if is_empty (m_filename x) then w else remove_file w (m_filename x)).

Definition resetClearRfc (x0 : t) (w : env) (key : string) : bool * t :=
  match init x0 w with
  | (false, x) => (false, x)
  | (true, x) =>
      match m_dict x !! key with
      | None => (false, x)
      | Some d =>
          if clearRfc d then (true, set_dict x (<[key := set_clearRfc d false]> (m_dict x)))
          else (false, x)
      end
  end.

(** The default value is the second component when the answer is true. *)
Definition clearRfcAndGetDefaultValue (x0 : t) (w : env) (key defaultValue : string)
  : bool * string * t :=
  match init x0 w with
  | (false, x) => (false, defaultValue, x)
  | (true, x) =>
      match m_dict x !! key with
      | None => (false, defaultValue, x)
      | Some d =>
          if clearRfc d then
            let d' := mkData (fwValue d) (buildTime d) "-" "-" HOSTIF_SRC_DEFAULT false in
            (true, fwValue d', set_dict x (<[key:=d']> (m_dict x)))
          else (false, defaultValue, x)
      end
  end.

(** The record [setJournalValue] stores for a key. *)
Definition updated_record (x : t) (w : env) (old : option BS_JournalData_t) (value : string)
    (bsSource : HostIf_Source_Type_t) : BS_JournalData_t :=
  match old with
  | None =>
      if decide (bsSource ≠ HOSTIF_SRC_DEFAULT)
      then mkData "-" (m_buildTime x) value (e_now w) bsSource false
      else mkData value (m_buildTime x) "-" "-" HOSTIF_SRC_DEFAULT false
  | Some d =>
      if decide (bsSource = HOSTIF_SRC_DEFAULT)
      then mkData value (m_buildTime x) (updatedValue d) (updatedTime d) (updatedSource d) (clearRfc d)
      else mkData (fwValue d) (buildTime d) value (e_now w) bsSource false
  end.

Section order.
Context `{UMapOrder}.

Definition write_journal (w : env) (p : string) (d : gmap string BS_JournalData_t) : env :=
  append_file (next_tick w) p (journal_text (um_order (e_tick w) d)).

Definition rfcUpdateStarted (x0 : t) (w : env) : bool * t * env :=
  match init x0 w with
  | (false, x) => (false, x, w)
  | (true, x) =>
      let mark m (kd : string * BS_JournalData_t) :=
        if decide (updatedSource kd.2 = HOSTIF_SRC_RFC)
        then <[kd.1 := set_clearRfc kd.2 true]> m else m in
      (true, set_dict x (foldl mark (m_dict x) (um_order (e_tick w) (m_dict x))), next_tick w)
  end.

Definition rfcUpdateEnd (x0 : t) (w : env) : bool * t * env :=
  match init x0 w with
  | (false, x) => (false, x, w)
  | (true, x) =>
      match open_trunc w (m_filename x) with
      | None => (false, x, w)
      | Some w' => (true, x, write_journal w' (m_filename x) (m_dict x))
      end
  end.

Definition setJournalValue (x0 : t) (w : env) (key value : string)
    (bsSource : HostIf_Source_Type_t) : bool * t * env :=
  match init x0 w with
  | (false, x) => (false, x, w)
  | (true, x) =>
      let d := updated_record x w (m_dict x !! key) value bsSource in
      let x' := set_dict x (<[key:=d]> (m_dict x)) in
      if m_initialUpdate x then
        match open_app w (m_filename x) with
        | None => (false, x, w)
        | Some w' => (true, x', append_file w' (m_filename x) (journal_line key d))
        end
      else
        match open_trunc w (m_filename x) with
        | None => (false, x, w)
        | Some w' => (true, x', write_journal w' (m_filename x) (m_dict x'))
        end
  end.

End order.

(** ** Lemmas *)

(** A text that a quoted field can carry. *)
Definition field_ok (s : string) : Prop :=
  has_char COMMA s = false ∧ has_char QUOTE s = false ∧ has_char NL s = false.

Definition record_ok (k : string) (d : BS_JournalData_t) : Prop :=
  field_ok k ∧ field_ok (fwValue d) ∧ field_ok (buildTime d) ∧ field_ok (updatedValue d)
  ∧ field_ok (updatedTime d).

Definition journal_ok (m : gmap string BS_JournalData_t) : Prop := map_Forall record_ok m.

(** What the file keeps of a record: the mark is dropped, and the source is
    reduced to RFC, WebPA or default. *)
Definition stored (d : BS_JournalData_t) : BS_JournalData_t :=
  mkData (fwValue d) (buildTime d) (updatedValue d) (updatedTime d)
         (source_of_string (getUpdatedSourceString (updatedSource d))) false.

Lemma source_ok s : field_ok (getUpdatedSourceString s).
Proof. by destruct s. Qed.

Lemma has_char_quoted c s : c ≠ QUOTE → has_char c s = false → has_char c (quoted s) = false.
Proof.
  intros Hc Hs. unfold quoted. simpl. rewrite has_char_app, Hs. simpl.
  apply Ascii.eqb_neq in Hc. by rewrite Hc.
Qed.

Lemma erase_quoted s : has_char QUOTE s = false → erase_char QUOTE (quoted s) = s.
Proof.
  intros Hs. unfold quoted. cbn [erase_char]. rewrite Ascii.eqb_refl, erase_char_app.
  rewrite erase_char_no by done. cbn [erase_char]. by rewrite Ascii.eqb_refl, str_app_nil_r.
Qed.

Lemma get_field_quoted s rest :
  field_ok s → get_field (Some (quoted s +:+ String COMMA rest)) = (s, Some rest).
Proof.
  intros (Hc & Hq & _). unfold get_field. rewrite split_at_app by by apply has_char_quoted.
  by rewrite erase_quoted.
Qed.

Lemma get_field_last s : field_ok s → get_field (Some (quoted s)) = (s, None).
Proof.
  intros (Hc & Hq & _). unfold get_field.
  assert (split_at COMMA (quoted s) = None) as ->; [|by rewrite erase_quoted].
  apply split_at_None. by apply has_char_quoted.
Qed.

(** The line without its newline. *)
Definition journal_fields (key : string) (d : BS_JournalData_t) : string :=
  quoted key +:+ String COMMA (quoted (fwValue d) +:+ String COMMA (quoted (buildTime d) +:+
  String COMMA (quoted (updatedValue d) +:+ String COMMA (quoted (updatedTime d) +:+
  String COMMA (quoted (getUpdatedSourceString (updatedSource d))))))).

Lemma journal_line_fields k d s :
  journal_line k d +:+ s = journal_fields k d +:+ String NL s.
Proof. unfold journal_line, journal_fields. by repeat (rewrite !str_app_assoc; cbn [String.append]). Qed.

Lemma parse_record_fields k d : record_ok k d → parse_record (journal_fields k d) = (k, stored d).
Proof.
  intros (Hk & Hf & Hb & Hu & Ht). unfold parse_record, journal_fields.
  rewrite !get_field_quoted by done. by rewrite get_field_last by apply source_ok.
Qed.

Lemma journal_fields_no_nl k d : record_ok k d → has_char NL (journal_fields k d) = false.
Proof.
  intros (Hk & Hf & Hb & Hu & Ht). unfold journal_fields.
  repeat (rewrite has_char_app; cbn [has_char]).
  rewrite !has_char_quoted; try done; try by apply source_ok.
  all: try apply Hk; try apply Hf; try apply Hb; try apply Hu; try apply Ht.
Qed.

Lemma getlines_journal_text l :
  Forall (λ kd, record_ok kd.1 kd.2) l →
  getlines (journal_text l) = (λ kd, journal_fields kd.1 kd.2) <$> l.
Proof.
  induction 1 as [|[k d] l Hr Hl IH]; [done|]. cbn [journal_text].
  rewrite journal_line_fields, getlines_line by by apply journal_fields_no_nl. by rewrite IH.
Qed.

Lemma parse_journal_text l :
  Forall (λ kd, record_ok kd.1 kd.2) l →
  parse_journal (journal_text l) = insert_all ((λ kd, (kd.1, stored kd.2)) <$> l) ∅.
Proof.
  intros Hl. unfold parse_journal, insert_all. rewrite getlines_journal_text by done.
  generalize (∅ : gmap string BS_JournalData_t). induction Hl as [|[k d] l Hr Hl IH]; intros m; [done|].
  cbn [fmap list_fmap foldl]. rewrite parse_record_fields by done. apply IH.
Qed.

(** Writing the journal in any order and loading it gives every record back as
    far as the file keeps it. *)
Lemma parse_journal_perm l m :
  journal_ok m → l ≡ₚ map_to_list m → parse_journal (journal_text l) = stored <$> m.
Proof.
  intros Hm Hl. rewrite parse_journal_text.
  - assert (((λ kd, (kd.1, stored kd.2)) <$> l) ≡ₚ map_to_list (stored <$> m)) as Hp.
    { rewrite map_to_list_fmap, Hl. f_equiv. }
    rewrite (insert_all_perm _ _ _ Hp). apply map_union_empty.
  - rewrite Hl. apply Forall_forall. intros [k d] Hin%elem_of_map_to_list. by apply Hm.
Qed.

Lemma write_journal_load `{UMapOrder} w w' p m :
  journal_ok m → open_trunc w p = Some w' →
  parse_journal (default EmptyString (read_file (write_journal w' p m) p)) = stored <$> m.
Proof.
  unfold open_trunc. intros Hm Ho. destruct (can_write w p); simplify_eq.
  unfold write_journal, append_file. rewrite read_put_file. simpl. unfold read_file. simpl.
  rewrite lookup_insert_eq. simpl. apply parse_journal_perm; [done|apply um_order_perm].
Qed.

Lemma journal_init_id x w : m_initDone x = true → init x w = (true, x).
Proof. unfold init. by intros ->. Qed.

Lemma journal_init_done x w x' : init x w = (true, x') → m_initDone x' = true.
Proof.
  unfold init. destruct (m_initDone x) eqn:Hd; [by intros [= <-]|].
  destruct (loadJournalRecordsIntoCache x w) as [ok x1]. by intros [= -> <-].
Qed.

(** The update marks exactly the records whose active value came from RFC. *)
Definition mark_rfc (d : BS_JournalData_t) : BS_JournalData_t :=
  if decide (updatedSource d = HOSTIF_SRC_RFC) then set_clearRfc d true else d.

Lemma rfcUpdateStarted_spec `{UMapOrder} x w :
  m_initDone x = true →
  rfcUpdateStarted x w = (true, set_dict x (mark_rfc <$> m_dict x), next_tick w).
Proof.
  intros Hi. unfold rfcUpdateStarted. rewrite journal_init_id by done. do 3 f_equal.
  pose proof (um_order_perm _ (e_tick w) (m_dict x)) as Hp.
  set (l := um_order (e_tick w) (m_dict x)) in *. clearbody l.
  assert (NoDup l.*1) as Hnd by (rewrite Hp; apply NoDup_fst_map_to_list).
  assert (∀ (l' : list (string * BS_JournalData_t)) (m : gmap string BS_JournalData_t), l' ⊆ l → NoDup l'.*1 → (∀ k d, (k, d) ∈ l' → m !! k = Some d) → ∀ k,
    foldl (λ m (kd : string * BS_JournalData_t), if decide (updatedSource kd.2 = HOSTIF_SRC_RFC)
                 then <[kd.1 := set_clearRfc kd.2 true]> m else m) m l' !! k
    = if bool_decide (k ∈ l'.*1) then mark_rfc <$> m !! k else m !! k) as Hfold.
  { induction l' as [|[k0 d0] l' IH]; intros m Hsub Hnd' Hm k; [done|]. simpl.
    rewrite fmap_cons in Hnd'. apply NoDup_cons in Hnd' as [Hk0 Hnd'].
    assert (m !! k0 = Some d0) as Hmk0 by (apply Hm; left).
    set (m1 := if decide _ then _ else m).
    assert (∀ k, k ≠ k0 → m1 !! k = m !! k) as Hother.
    { intros k' Hne. unfold m1. case_decide; [by rewrite lookup_insert_ne|done]. }
    rewrite IH; [|set_solver|done|].
    2: { intros k' d' Hin. rewrite Hother; [apply Hm; by right|]. intros ->.
         apply Hk0, list_elem_of_fmap. by exists (k0, d'). }
    destruct (decide (k = k0)) as [->|Hne].
    - rewrite bool_decide_false, (bool_decide_true (k0 ∈ _)) by (done || set_solver).
      rewrite Hmk0. simpl. unfold m1, mark_rfc. simpl. case_decide; [apply lookup_insert_eq|done].
    - rewrite Hother by done. rewrite (bool_decide_ext (k ∈ l'.*1) (k ∈ k0 :: l'.*1)); [done|set_solver]. }
  apply map_eq. intros k. rewrite lookup_fmap, Hfold; [|done|done|].
  2: { intros k' d. rewrite Hp. by rewrite elem_of_map_to_list. }
  case_bool_decide as Hk; [done|]. destruct (m_dict x !! k) as [d|] eqn:Hd; [|done].
  destruct Hk. rewrite Hp, list_elem_of_fmap. exists (k, d). by rewrite elem_of_map_to_list.
Qed.

(** ** Properties *)

(** What a set of the journal leaves on disk: a journal built from the
    file it wrote holds every record of the running one, source included, with
    the update marks dropped. *)
Theorem journal_restart `{UMapOrder} x w key value src x' w' :
  setJournalValue x w key value src = (true, x', w') →
  m_initDone x = true → m_initialUpdate x = false →
  has_char QUOTE (m_filename x) = false → journal_ok (m_dict x') →
  m_dict x' !! key = Some (updated_record x w (m_dict x !! key) value src)
  ∧ m_dict (new (m_filename x) w') = stored <$> m_dict x'.
Proof.
  intros Hs Hi Hu Hq Hok. unfold setJournalValue in Hs. rewrite journal_init_id, Hu in Hs by done.
  destruct (open_trunc w (m_filename x)) as [w1|] eqn:Ho; [|done]. injection Hs as <- <-.
  split; [apply lookup_insert_eq|].
  unfold new, init, loadJournalRecordsIntoCache. simpl.
  assert (is_empty (m_filename x) = false) as He.
  { unfold open_trunc, can_write in Ho. by destruct (is_empty (m_filename x)). }
  rewrite He. simpl. rewrite erase_char_no by done.
  pose proof (write_journal_load w w1 (m_filename x) _ Hok Ho) as Hl.
  destruct (read_file _ _); exact Hl.
Qed.

(** An override whose value holds a comma is misread after a restart: the
    quotes do not protect it, the fields shift, the time is read as the source,
    and the record comes back as a firmware default with a truncated value. *)
Theorem journal_comma_loses_source k d a b :
  field_ok k → field_ok (fwValue d) → field_ok (buildTime d) → field_ok (updatedTime d) →
  updatedValue d = a +:+ String COMMA b → field_ok a → field_ok b →
  updatedTime d ≠ BS_RFC_STR → updatedTime d ≠ BS_WEBPA_STR →
  ∃ d', parse_record (journal_fields k d) = (k, d') ∧ updatedValue d' = a
        ∧ updatedSource d' = HOSTIF_SRC_DEFAULT.
Proof.
  intros Hk Hf Hb Ht Hv (Hac & Haq & Han) (Hbc & Hbq & Hbn) Hr Hw.
  exists (mkData (fwValue d) (buildTime d) a b (source_of_string (updatedTime d)) false).
  split; [|split; [reflexivity|]].
  - unfold parse_record, journal_fields. rewrite !get_field_quoted by done. rewrite Hv.
    unfold quoted at 1. cbn [String.append].
    replace (String QUOTE (((a +:+ String COMMA b) +:+ String QUOTE "") +:+ String COMMA
      (quoted (updatedTime d) +:+ String COMMA (quoted (getUpdatedSourceString (updatedSource d))))))
      with (String QUOTE a +:+ String COMMA ((b +:+ String QUOTE "") +:+ String COMMA
      (quoted (updatedTime d) +:+ String COMMA (quoted (getUpdatedSourceString (updatedSource d)))))).
    2: { cbn [String.append]. f_equal. by rewrite !str_app_assoc. }
    assert (has_char COMMA (String QUOTE a) = false) as Hqa by (simpl; by rewrite Hac).
    assert (has_char COMMA (b +:+ String QUOTE "") = false) as Hqb.
    { rewrite has_char_app, Hbc. done. }
    unfold get_field at 1. rewrite (split_at_app _ _ _ Hqa).
    unfold get_field at 1. rewrite (split_at_app _ _ _ Hqb).
    rewrite get_field_quoted by done.
    rewrite erase_char_app, (erase_char_no _ b Hbq). cbn [erase_char].
    rewrite !Ascii.eqb_refl, str_app_nil_r, (erase_char_no _ a Haq). reflexivity.
  - simpl. unfold source_of_string. apply streq_false in Hr, Hw. by rewrite Hr, Hw.
Qed.

Lemma journal_restart_witness :
  let w := mkEnv ∅ ∅ true ∅ "2024-01-01 00:00:00 "%string 0 in
  let x := mk "/opt/j" "T0" true false ∅ in
  ∃ x' w', @setJournalValue canonical_order x w "Device.A" "v" HOSTIF_SRC_RFC = (true, x', w')
    ∧ getJournalSource (new "/opt/j" w') "Device.A" = HOSTIF_SRC_RFC.
Proof.
  intros w x.
  destruct (@setJournalValue canonical_order x w "Device.A" "v" HOSTIF_SRC_RFC) as [[r x'] w'] eqn:Hs.
  assert (r = true) as -> by (by vm_compute in Hs; simplify_eq).
  assert (m_dict x' = {["Device.A"%string := mkData "-" "T0" "v" "2024-01-01 00:00:00 " HOSTIF_SRC_RFC false]})
    as Hd by (vm_compute in Hs; injection Hs as <- <-; by vm_compute).
  exists x', w'. split; [done|].
  destruct (@journal_restart canonical_order x w "Device.A" "v" HOSTIF_SRC_RFC x' w' Hs)
    as [_ Hn]; [done|done|by vm_compute| |].
  { rewrite Hd. apply map_Forall_singleton. repeat split. }
  unfold getJournalSource. change (m_filename x) with "/opt/j"%string in Hn. rewrite Hn, Hd.
  by vm_compute.
Defined.

Lemma journal_comma_loses_source_witness :
  ∃ d', parse_record (journal_fields "Device.A"
          (mkData "fw" "T0" "http://a,b" "2024-01-01 00:00:00 " HOSTIF_SRC_RFC false)) = ("Device.A"%string, d')
        ∧ updatedSource d' = HOSTIF_SRC_DEFAULT.
Proof.
  destruct (journal_comma_loses_source "Device.A"
    (mkData "fw" "T0" "http://a,b" "2024-01-01 00:00:00 " HOSTIF_SRC_RFC false) "http://a" "b")
    as (d' & Hp & _ & Hsrc); [by repeat split..|done|by repeat split|by repeat split|done|done|].
  by exists d'.
Defined.

End XBSStoreJournal.
