(* ===== verification/BSStore.v ===== *)
(** * The bootstrap store

    [XBSStore] models profiles/DeviceInfo/XrdkCentralComBSStore.cpp: the
    bootstrap parameters with the journal that remembers where each value came
    from, the precedence of RFC and WebPA overrides over firmware defaults, the
    update protocol of the RFC server, and the loading of the partner defaults.
    cJSON is a parameter ([CJson]). *)
From stdpp Require Import base list strings gmap.
From Stdlib Require Import Ascii ZArith Lia.
From S2P Require Import Prelude HostIf FileStore BSJournal.

(** The part of cJSON the store uses.  An object's members are the key and
    [valuestring] of its children, [valuestring] being NULL ([None]) when the
    value is not a string. *)
Class CJson := {
  cJSON : Type;
  cJSON_Parse : string → option cJSON;
  cJSON_GetObjectItem : cJSON → string → option cJSON;
  cJSON_is_object : cJSON → bool;
  cJSON_members : cJSON → list (string * option string);
  cJSON_CreateString : option string → option cJSON;
  cJSON_ReplaceItemInObject : cJSON → string → option cJSON → cJSON;
  cJSON_AddItemToObject : cJSON → string → option cJSON → cJSON
}.

Module XBSStore.

Definition BS_STORE_KEY : string := "BS_STORE_FILENAME".
Definition BS_JOURNAL_KEY : string := "BS_JOURNAL_FILENAME".
Definition RFC_PROPERTIES_FILE : string := "/etc/rfc.properties".
Definition BS_JSON_FILE : string := "/etc/partners_defaults.json".
Definition BS_JSON_DEVICE_FILE : string := "/etc/partners_defaults_device.json".
Definition TR181_PARTNER_ID_KEY : string := "Device.DeviceInfo.X_RDKCENTRAL-COM_Syndication.PartnerId".
Definition BS_CLEAR_DB_START : string :=
  "Device.DeviceInfo.X_RDKCENTRAL-COM_RFC.Bootstrap.Control.ClearDB".
Definition BS_CLEAR_DB_END : string :=
  "Device.DeviceInfo.X_RDKCENTRAL-COM_RFC.Bootstrap.Control.ClearDBEnd".
Definition PARTNER_ID_FILE : string := "/opt/www/authService/partnerId3.dat".
Definition BOOTSTRAP_INI : string := "/opt/secure/RFC/bootstrap.ini".

Record t := mk {
  m_filename : string;
  m_initDone : bool;
  m_initialUpdate : bool;
  m_rfcUpdateInProgress : bool;
  m_dict : gmap string string;
  (** [xbsJournalInstance], NULL until the properties file names it *)
  journal : option XBSStoreJournal.t
}.

Definition set_filename (x : t) (f : string) : t :=
  mk f (m_initDone x) (m_initialUpdate x) (m_rfcUpdateInProgress x) (m_dict x) (journal x).
Definition set_initDone (x : t) (b : bool) : t :=
  mk (m_filename x) b (m_initialUpdate x) (m_rfcUpdateInProgress x) (m_dict x) (journal x).
Definition set_initialUpdate (x : t) (b : bool) : t :=
  mk (m_filename x) (m_initDone x) b (m_rfcUpdateInProgress x) (m_dict x) (journal x).
Definition set_rfcUpdate (x : t) (b : bool) : t :=
  mk (m_filename x) (m_initDone x) (m_initialUpdate x) b (m_dict x) (journal x).
Definition set_dict (x : t) (d : gmap string string) : t :=
  mk (m_filename x) (m_initDone x) (m_initialUpdate x) (m_rfcUpdateInProgress x) d (journal x).
Definition set_journal (x : t) (j : XBSStoreJournal.t) : t :=
  mk (m_filename x) (m_initDone x) (m_initialUpdate x) (m_rfcUpdateInProgress x) (m_dict x) (Some j).

(** [hostIf_DeviceInfo::get_PartnerId_From_Script]: the result code and the
    identifier, empty when it cannot be read. *)
Fixpoint find_partner (lines : list string) : string :=
  match lines with
  | [] => EmptyString
  | l :: ls =>
      let key := TR181_PARTNER_ID_KEY +:+ "=" in
      if starts_with key l then str_drop (String.length key) l else find_partner ls
  end.

Definition get_PartnerId_From_Script (w : env) : Z * string :=
  match read_file w PARTNER_ID_FILE with
  | Some content => (OK, foldl String.append EmptyString (getlines content))
  | None =>
      match read_file w BOOTSTRAP_INI with
      | None => (NOK, EmptyString)
      | Some content => (OK, find_partner (getlines content))
      end
  end.

Definition getRawValue (x : t) (key : string) : string := default EmptyString (m_dict x !! key).

(** One line of /etc/rfc.properties.  The journal is a singleton: only the
    first name creates it. *)
Definition property_line (w : env) (x : t) (line : string) : t :=
  match split_at EQ line with
  | Some (k, v) =>
      if streq (c_str k) BS_STORE_KEY then set_filename x v
      else if streq (c_str k) BS_JOURNAL_KEY then
        match journal x with
        | Some _ => x
        | None => set_journal x (XBSStoreJournal.new (c_str v) w)
        end
      else x
  | None => x
  end.

Definition initBSPropertiesFileName (x : t) (w : env) : t :=
  match read_file w RFC_PROPERTIES_FILE with
  | None => x
  | Some content => foldl (property_line w) x (getlines content)
  end.

Section order.
Context `{UMapOrder}.

(** [None]: the journal pointer is NULL. *)
Definition setRawValue (x : t) (w : env) (key value : string) (sourceType : HostIf_Source_Type_t)
  : option (bool * t * env) :=
  let set_j (x : t) (w : env) : option (bool * t * env) :=
    j ← journal x;
    let '(_, j', w') := XBSStoreJournal.setJournalValue j w key value sourceType in
    Some (true, set_journal x j', w') in
  if m_initialUpdate x then
    match open_app w (m_filename x) with
    | None => Some (false, x, w)
    | Some w' =>
        set_j (set_dict x (<[key:=value]> (m_dict x))) (append_file w' (m_filename x) (kv_line key value))
    end
  else
    let currentValue := getRawValue x key in
    if negb (is_empty (c_str currentValue)) && streq (c_str currentValue) (c_str value) then
      j ← journal x;
      if decide (sourceType ≠ XBSStoreJournal.getJournalSource j key) then set_j x w
      else Some (true, x, w)
    else
      keep ← (if decide (sourceType = HOSTIF_SRC_DEFAULT) then
                j ← journal x;
                let s := XBSStoreJournal.getJournalSource j key in
                Some (bool_decide (s = HOSTIF_SRC_RFC ∨ s = HOSTIF_SRC_WEBPA))
              else Some false);
      if (keep : bool) then set_j x w
      else
        match open_trunc w (m_filename x) with
        | None => Some (false, x, w)
        | Some w' =>
            let d := <[key:=value]> (m_dict x) in
            set_j (set_dict x d) (write_map w' (m_filename x) d)
        end.

Definition clear_step (w : env) (acc : gmap string string * XBSStoreJournal.t)
    (kv : string * string) : gmap string string * XBSStoreJournal.t :=
  let '(d, j) := acc in
  let '(cleared, defaultValue, j') :=
    XBSStoreJournal.clearRfcAndGetDefaultValue j w kv.1 EmptyString in
  (if cleared then <[kv.1:=defaultValue]> d else d, j').

Definition clearRfcValues (x : t) (w : env) : option (bool * t * env) :=
  match open_trunc w (m_filename x) with
  | None => Some (false, x, w)
  | Some w1 =>
      j ← journal x;
      let '(d, j') := foldl (clear_step w1) (m_dict x, j) (um_order (e_tick w1) (m_dict x)) in
      Some (true, set_journal (set_dict x d) j', write_map (next_tick w1) (m_filename x) d)
  end.

Definition resetCacheAndStore (x : t) (w : env) : option (t * env) :=
  let w1 := if is_empty (m_filename x) then w else remove_file w (m_filename x) in
  j ← journal x;
  let '(j', w2) := XBSStoreJournal.resetCacheAndStore j w1 in
  Some (set_journal (set_dict x ∅) j', w2).

(** ** Partner defaults *)
Section json.
Context `{CJson}.

Definition merge_member (partnerConfig : cJSON) (kv : string * option string) : cJSON :=
  match cJSON_GetObjectItem partnerConfig kv.1 with
  | Some _ => cJSON_ReplaceItemInObject partnerConfig kv.1 (cJSON_CreateString kv.2)
  | None => cJSON_AddItemToObject partnerConfig kv.1 (cJSON_CreateString kv.2)
  end.

Definition getPartnerDeviceConfig (partnerConfig : cJSON) (partnerId : string) (w : env)
  : bool * cJSON :=
  match read_file w BS_JSON_DEVICE_FILE with
  | None => (true, partnerConfig)
  | Some text =>
      match cJSON_Parse (c_str text) with
      | None => (false, partnerConfig)
      | Some jsonDevice =>
          let config := match cJSON_GetObjectItem jsonDevice (c_str partnerId) with
                        | Some c => Some c
                        | None => cJSON_GetObjectItem jsonDevice "default"
                        end in
          match config with
          | None => (true, partnerConfig)
          | Some c => (true, foldl merge_member partnerConfig (cJSON_members c))
          end
      end
  end.

(** A stored parameter that the firmware no longer defines. *)
Definition obsolete (partnerConfig : cJSON) (j : XBSStoreJournal.t) (key : string) : bool :=
  match cJSON_GetObjectItem partnerConfig (c_str key) with
  | Some _ => false
  | None =>
      negb (streq key TR181_PARTNER_ID_KEY)
      && bool_decide (XBSStoreJournal.getJournalSource j key = HOSTIF_SRC_DEFAULT)
  end.

Definition remove_step (partnerConfig : cJSON) (w : env)
    (acc : bool * gmap string string * XBSStoreJournal.t) (kv : string * string)
  : bool * gmap string string * XBSStoreJournal.t :=
  let '(removed, d, j) := acc in
  if obsolete partnerConfig j kv.1
  then (true, delete kv.1 d, (XBSStoreJournal.removeRecord j w kv.1).2)
  else acc.

(** The loop that stores the members of the configuration; the answers of
    [setRawValue] are not looked at.  [None]: an [std::string] is built from a
    NULL [valuestring]. *)
Fixpoint set_members (x : t) (w : env) (l : list (string * option string)) : option (t * env) :=
  match l with
  | [] => Some (x, w)
  | (k, ov) :: l' =>
      v ← ov;
      res ← setRawValue x w k v HOSTIF_SRC_DEFAULT;
      let '(_, x', w') := res in set_members x' w' l'
  end.

(** The end of the load: the members are stored and the first population, if
    it was one, is over. *)
Definition store_defaults (partnerConfig : cJSON) (x : t) (w : env) : option (bool * t * env) :=
  res ← set_members x w (cJSON_members partnerConfig);
  let '(x', w') := res in
  j' ← journal x';
  Some (true, set_journal (set_initialUpdate x' false) (XBSStoreJournal.setInitialUpdate j' false), w').

Definition partner_config (json : cJSON) (partnerId : string) : option cJSON :=
  match cJSON_GetObjectItem json (c_str partnerId) with
  | Some c => Some c
  | None => cJSON_GetObjectItem json "default"
  end.

(** [None]: the defaults file cannot be opened and a string of the size
    [(size_t)-1] is requested, or one of the failures of the steps. *)
Definition loadFromJson (x : t) (w : env) : option (bool * t * env) :=
  let id := (get_PartnerId_From_Script w).2 in
  let partnerId := if is_empty id then "default_boot"%string else id in
  text ← read_file w BS_JSON_FILE;
  match cJSON_Parse (c_str text) with
  | None => Some (false, x, w)
  | Some json =>
      match partner_config json partnerId with
      | None => Some (false, x, w)
      | Some partnerConfig0 =>
          if negb (cJSON_is_object partnerConfig0) then Some (true, x, w)
          else
            let '(ok, partnerConfig) := getPartnerDeviceConfig partnerConfig0 partnerId w in
            if negb ok then Some (false, x, w)
            else
              j0 ← journal x;
              let x1 := match read_file w (m_filename x) with
                        | Some _ => x
                        | None => set_journal (set_initialUpdate x true)
                                              (XBSStoreJournal.setInitialUpdate j0 true)
                        end in
              j1 ← journal x1;
              let '(removed, d, j2) :=
                foldl (remove_step partnerConfig w) (false, m_dict x1, j1)
                      (um_order (e_tick w) (m_dict x1)) in
              let x2 := set_journal (set_dict x1 d) j2 in
              let w1 := next_tick w in
              if removed then
                match open_trunc w1 (m_filename x2) with
                | None => Some (false, x2, w1)
                | Some w2 =>
                    let '(_, j3, w3) :=
                      XBSStoreJournal.rfcUpdateEnd j2 (write_map w2 (m_filename x2) d) in
                    store_defaults partnerConfig (set_journal x2 j3) w3
                end
              else store_defaults partnerConfig x2 w1
      end
  end.

Definition loadBSPropertiesIntoCache (x : t) (w : env) : option (bool * t * env) :=
  if is_empty (m_filename x) then Some (false, x, w)
  else
    let fn := erase_char QUOTE (m_filename x) in
    let x1 := set_dict (set_filename x fn) (file_map w fn) in
    loadFromJson x1 w.

Definition init (x : t) (w : env) : option (bool * t * env) :=
  if m_initDone x then Some (true, x, w)
  else
    res ← loadBSPropertiesIntoCache (initBSPropertiesFileName x w) w;
    let '(ok, x', w') := res in
    Some (ok, set_initDone x' ok, w').

(** The constructor. *)
Definition new (w : env) : option (t * env) :=
  res ← init (mk EmptyString false false false ∅ None) w;
  let '(_, x, w') := res in Some (x, w').

Definition getValue (x0 : t) (w0 : env) (m : HOSTIF_MsgData_t)
  : option (faultCode_t * t * HOSTIF_MsgData_t * env) :=
  res ← init x0 w0;
  let '(_, x, w) := res in
  let rawValue := getRawValue x (paramName m) in
  Some (if negb (is_empty rawValue)
        then (fcNoFault, x, set_fault (putValue m (c_str rawValue)) fcNoFault, w)
        else (fcInternalError, x, set_fault m fcInternalError, w)).

Definition overrideValue (x0 : t) (w0 : env) (m : HOSTIF_MsgData_t)
  : option (faultCode_t * t * HOSTIF_MsgData_t * env) :=
  res ← init x0 w0;
  let '(ok, x, w) := res in
  if negb ok then Some (fcInternalError, x, m, w)
  else if strcaseeq (paramName m) BS_CLEAR_DB_START then
    j ← journal x;
    let '(_, j', w') := XBSStoreJournal.rfcUpdateStarted j w in
    Some (fcNoFault, set_journal (set_rfcUpdate x true) j', set_fault m fcNoFault, w')
  else if strcaseeq (paramName m) BS_CLEAR_DB_END then
    res ← clearRfcValues x w;
    let '(_, x1, w1) := res in
    j ← journal x1;
    let '(_, j', w2) := XBSStoreJournal.rfcUpdateEnd j w1 in
    Some (fcNoFault, set_rfcUpdate (set_journal x1 j') false, set_fault m fcNoFault, w2)
  else
    givenValue ← getStringValue m;
    x1 ← (if m_rfcUpdateInProgress x then
            j ← journal x;
            Some (set_journal x (XBSStoreJournal.resetClearRfc j w (paramName m)).2)
          else Some x);
    res ← setRawValue x1 w (paramName m) givenValue (requestor m);
    let '(ok, x2, w2) := res in
    let f := if (ok : bool) then fcNoFault else fcInternalError in
    Some (f, x2, set_fault m f, w2).

End json.
End order.

(** ** Lemmas *)
Section lemmas.
Context `{UMapOrder}.
Import XBSStoreJournal (getJournalSource, updated_record, updatedSource, fwValue, mark_rfc).

(** A store with its journal loaded, outside the first population of the files,
    on a device where both files can be written. *)
Record ready (x : t) (w : env) (j : XBSStoreJournal.t) : Prop := {
  ready_journal : journal x = Some j;
  ready_initial : m_initialUpdate x = false;
  ready_jinit : XBSStoreJournal.m_initDone j = true;
  ready_jinitial : XBSStoreJournal.m_initialUpdate j = false;
  ready_write : can_write w (m_filename x) = true;
  ready_jwrite : can_write w (XBSStoreJournal.m_filename j) = true
}.

(** The value is the one already stored. *)
Definition same_value (x : t) (key value : string) : bool :=
  negb (is_empty (c_str (getRawValue x key))) && streq (c_str (getRawValue x key)) (c_str value).

(** A firmware default meets an override. *)
Definition shadowed (j : XBSStoreJournal.t) (key : string) (src : HostIf_Source_Type_t) : bool :=
  bool_decide (src = HOSTIF_SRC_DEFAULT)
  && bool_decide (getJournalSource j key = HOSTIF_SRC_RFC ∨ getJournalSource j key = HOSTIF_SRC_WEBPA).

Definition dict_after (x : t) (j : XBSStoreJournal.t) (key value : string) src : gmap string string :=
  if same_value x key value || shadowed j key src then m_dict x else <[key:=value]> (m_dict x).

Definition journal_after (x : t) (w : env) (j : XBSStoreJournal.t) (key value : string) src :=
  if same_value x key value && bool_decide (src = getJournalSource j key) then XBSStoreJournal.m_dict j
  else <[key := updated_record j w (XBSStoreJournal.m_dict j !! key) value src]>
         (XBSStoreJournal.m_dict j).

Lemma updated_record_env j w1 w2 o v src :
  e_now w1 = e_now w2 → updated_record j w1 o v src = updated_record j w2 o v src.
Proof. unfold updated_record. by intros ->. Qed.

Lemma setJournalValue_ready j w key v src :
  XBSStoreJournal.m_initDone j = true → XBSStoreJournal.m_initialUpdate j = false →
  can_write w (XBSStoreJournal.m_filename j) = true →
  ∃ w', XBSStoreJournal.setJournalValue j w key v src
        = (true, XBSStoreJournal.set_dict j
                   (<[key := updated_record j w (XBSStoreJournal.m_dict j !! key) v src]>
                      (XBSStoreJournal.m_dict j)), w')
        ∧ e_readonly w' = e_readonly w ∧ e_now w' = e_now w.
Proof.
  intros Hi Hu Hw. unfold XBSStoreJournal.setJournalValue.
  rewrite XBSStoreJournal.journal_init_id, Hu by done. rewrite open_trunc_ok by done. by eexists.
Qed.

Lemma can_write_ro w w' p : e_readonly w' = e_readonly w → can_write w' p = can_write w p.
Proof. unfold can_write. by intros ->. Qed.

Lemma ready_update x w j d jd w' :
  ready x w j → e_readonly w' = e_readonly w →
  ready (set_journal (set_dict x d) (XBSStoreJournal.set_dict j jd)) w' (XBSStoreJournal.set_dict j jd).
Proof. intros [] Hw. constructor; try done; simpl; by rewrite (can_write_ro w). Qed.

Lemma setRawValue_ready x w j key v src :
  ready x w j →
  ∃ w', setRawValue x w key v src
        = Some (true, set_journal (set_dict x (dict_after x j key v src))
                        (XBSStoreJournal.set_dict j (journal_after x w j key v src)), w')
        ∧ e_readonly w' = e_readonly w ∧ e_now w' = e_now w.
Proof.
  intros Hr. unfold setRawValue, dict_after, journal_after, shadowed.
  rewrite (ready_initial _ _ _ Hr), (ready_journal _ _ _ Hr). fold (same_value x key v).
  destruct (setJournalValue_ready j w key v src) as (w1 & Hj1 & Hro1 & Hn1); [by apply Hr..|].
  destruct (same_value x key v) eqn:Hs; cbn [mbind option_bind orb andb].
  - case_decide as Hsrc.
    + rewrite Hj1. exists w1. rewrite bool_decide_false by done. destruct x; simpl. done.
    + rewrite bool_decide_true by (by destruct (decide (src = getJournalSource j key))). exists w. split; [|done].
      destruct Hr as [Hj ? ? ? ? ?]. destruct x, j; simpl in *. by rewrite Hj.
  - destruct (decide (src = HOSTIF_SRC_DEFAULT)) as [->|Hne]; cbn [mbind option_bind].
    + rewrite (bool_decide_true (HOSTIF_SRC_DEFAULT = HOSTIF_SRC_DEFAULT)) by done. simpl.
      case_bool_decide.
      * rewrite Hj1. exists w1. by destruct x.
      * rewrite open_trunc_ok by apply Hr.
        destruct (setJournalValue_ready j (write_map (put_file w (m_filename x) EmptyString)
                    (m_filename x) (<[key:=v]> (m_dict x))) key v HOSTIF_SRC_DEFAULT)
          as (w2 & Hj2 & Hro2 & Hn2); [by apply Hr..|].
        simpl. rewrite (ready_journal _ _ _ Hr). cbn [mbind option_bind]. rewrite Hj2. by exists w2.
    + rewrite (bool_decide_false (src = _)) by done. simpl. rewrite open_trunc_ok by apply Hr.
      destruct (setJournalValue_ready j (write_map (put_file w (m_filename x) EmptyString)
                  (m_filename x) (<[key:=v]> (m_dict x))) key v src)
        as (w2 & Hj2 & Hro2 & Hn2); [by apply Hr..|].
      simpl. rewrite (ready_journal _ _ _ Hr). cbn [mbind option_bind]. rewrite Hj2. by exists w2.
Qed.

(** Clearing at the end of an update, on any list of distinct keys. *)
Definition cleared_value (j : XBSStoreJournal.t) (k : string) (o : option string) : option string :=
  match XBSStoreJournal.m_dict j !! k with
  | Some d => if XBSStoreJournal.clearRfc d then Some (fwValue d) else o
  | None => o
  end.

Lemma clear_step_spec w l d j :
  XBSStoreJournal.m_initDone j = true → NoDup l.*1 →
  ∃ d' jd', foldl (clear_step w) (d, j) l = (d', XBSStoreJournal.set_dict j jd')
    ∧ (∀ k, d' !! k = if bool_decide (k ∈ l.*1) then cleared_value j k (d !! k) else d !! k).
Proof.
  intros Hi. revert d j Hi. induction l as [|[k0 v0] l IH]; intros d j Hi Hnd.
  { exists d, (XBSStoreJournal.m_dict j). split; [by destruct j|done]. }
  rewrite fmap_cons in Hnd. apply NoDup_cons in Hnd as [Hk0 Hnd]. cbn [foldl].
  unfold clear_step at 2. simpl. unfold XBSStoreJournal.clearRfcAndGetDefaultValue.
  rewrite XBSStoreJournal.journal_init_id by done.
  assert (∀ d1 j1, XBSStoreJournal.m_initDone j1 = true →
    (∀ k, k ≠ k0 → d1 !! k = d !! k ∧ XBSStoreJournal.m_dict j1 !! k = XBSStoreJournal.m_dict j !! k) →
    d1 !! k0 = cleared_value j k0 (d !! k0) →
    (∀ jd, XBSStoreJournal.set_dict j1 jd = XBSStoreJournal.set_dict j jd) →
    ∃ d' jd', foldl (clear_step w) (d1, j1) l = (d', XBSStoreJournal.set_dict j jd')
    ∧ (∀ k, d' !! k = if bool_decide (k ∈ k0 :: l.*1) then cleared_value j k (d !! k) else d !! k)) as Hstep.
  { intros d1 j1 Hi1 Hoth Hd1 Hset. destruct (IH d1 j1 Hi1 Hnd) as (d' & jd' & -> & Hd').
    exists d', jd'. split; [by rewrite Hset|]. intros k. rewrite Hd'.
    destruct (decide (k = k0)) as [->|Hne].
    - by rewrite bool_decide_false, bool_decide_true by (done || by left).
    - destruct (Hoth k Hne) as [-> Hj1]. unfold cleared_value. rewrite Hj1.
      rewrite (bool_decide_ext (k ∈ k0 :: l.*1) (k ∈ l.*1)); [done|set_solver]. }
  destruct (XBSStoreJournal.m_dict j !! k0) as [r|] eqn:Hr; [destruct (XBSStoreJournal.clearRfc r) eqn:Hc|].
  - apply Hstep; [done| |by unfold cleared_value; rewrite Hr, Hc, lookup_insert_eq|done].
    intros k Hne. simpl. by rewrite !lookup_insert_ne.
  - apply Hstep; try done. unfold cleared_value. by rewrite Hr, Hc.
  - apply Hstep; try done. unfold cleared_value. by rewrite Hr.
Qed.

Lemma clearRfcValues_ready x w j :
  ready x w j →
  ∃ d jd w', clearRfcValues x w
             = Some (true, set_journal (set_dict x d) (XBSStoreJournal.set_dict j jd), w')
    ∧ e_readonly w' = e_readonly w
    ∧ (∀ k, d !! k = match m_dict x !! k with Some v => cleared_value j k (Some v) | None => None end).
Proof.
  intros Hr. unfold clearRfcValues. rewrite open_trunc_ok by apply Hr.
  rewrite (ready_journal _ _ _ Hr). cbn [mbind option_bind].
  pose proof (um_order_perm _ (e_tick w) (m_dict x)) as Hp.
  destruct (clear_step_spec (put_file w (m_filename x) EmptyString) (um_order (e_tick w) (m_dict x))
    (m_dict x) j) as (d & jd & Heq & Hd); [apply Hr|rewrite Hp; apply NoDup_fst_map_to_list|].
  simpl. rewrite Heq. eexists d, jd, _. split; [done|]. split; [done|].
  intros k. rewrite Hd. case_bool_decide as Hin.
  - rewrite Hp, list_elem_of_fmap in Hin. destruct Hin as ([k' v] & -> & Hkv%elem_of_map_to_list).
    simpl in *. by rewrite Hkv.
  - destruct (m_dict x !! k) as [v|] eqn:Hk; [|done]. destruct Hin.
    rewrite Hp, list_elem_of_fmap. exists (k, v). by rewrite elem_of_map_to_list.
Qed.

Context `{CJson}.

Lemma bs_init_id x w : m_initDone x = true → init x w = Some (true, x, w).
Proof. unfold init. by intros ->. Qed.

(** An override of an ordinary parameter. *)
Definition bs_name (n : string) : Prop :=
  strcaseeq n BS_CLEAR_DB_START = false ∧ strcaseeq n BS_CLEAR_DB_END = false.

(** The journal as [overrideValue] prepares it: during an update the record of
    the parameter is kept from being cleared. *)
Definition prepared (x : t) (w : env) (j : XBSStoreJournal.t) (k : string) : XBSStoreJournal.t :=
  if m_rfcUpdateInProgress x then (XBSStoreJournal.resetClearRfc j w k).2 else j.

Lemma prepared_dict x w j k :
  XBSStoreJournal.m_initDone j = true → ∃ jd, prepared x w j k = XBSStoreJournal.set_dict j jd.
Proof.
  intros Hi. unfold prepared, XBSStoreJournal.resetClearRfc. rewrite XBSStoreJournal.journal_init_id by done.
  assert (∃ jd, j = XBSStoreJournal.set_dict j jd)
    by (exists (XBSStoreJournal.m_dict j); by destruct j).
  destruct (m_rfcUpdateInProgress x); [|done].
  destruct (XBSStoreJournal.m_dict j !! k) as [d|]; [destruct (XBSStoreJournal.clearRfc d)|];
    simpl; eauto.
Qed.

Lemma set_journal_id x j : journal x = Some j → set_journal x j = x.
Proof. destruct x; simpl. by intros ->. Qed.

Lemma overrideValue_ready x w j m v :
  ready x w j → m_initDone x = true → bs_name (paramName m) → getStringValue m = Some v →
  let k := paramName m in
  let j1 := prepared x w j k in
  ∃ w', overrideValue x w m
        = Some (fcNoFault,
                set_journal (set_dict x (dict_after x j1 k v (requestor m)))
                  (XBSStoreJournal.set_dict j (journal_after x w j1 k v (requestor m))),
                set_fault m fcNoFault, w')
        ∧ e_readonly w' = e_readonly w ∧ e_now w' = e_now w.
Proof.
  intros Hr Hi [Hs He] Hv k j1. unfold overrideValue. rewrite bs_init_id by done.
  cbn [mbind option_bind negb]. rewrite Hs, He, Hv. cbn [mbind option_bind].
  destruct (prepared_dict x w j k) as [jd Hj1]; [apply Hr|]. fold j1 in Hj1.
  assert (ready (set_journal x j1) w j1) as Hr1.
  { rewrite Hj1. destruct Hr. by constructor. }
  destruct (setRawValue_ready _ w j1 k v (requestor m) Hr1) as (w' & Heq & Hro & Hn).
  exists w'. split; [|done].
  assert ((if m_rfcUpdateInProgress x
           then j0 ← journal x; Some (set_journal x (XBSStoreJournal.resetClearRfc j0 w (paramName m)).2)
           else Some x) = Some (set_journal x j1)) as ->.
  { unfold j1, prepared. rewrite (ready_journal _ _ _ Hr).
    destruct (m_rfcUpdateInProgress x); [done|]. by rewrite set_journal_id by apply Hr. }
  cbn [mbind option_bind]. fold k. rewrite Heq. cbn [mbind option_bind].
  unfold dict_after, journal_after, same_value, getRawValue. rewrite Hj1. done.
Qed.

(** Values without NUL, which the C string comparisons see whole. *)
Definition dict_ok (d : gmap string string) : Prop := map_Forall (λ _ v, has_char NUL v = false) d.

Lemma dict_ok_insert d k v : dict_ok d → has_char NUL v = false → dict_ok (<[k:=v]> d).
Proof. intros. by apply map_Forall_insert_2. Qed.

Lemma same_value_lookup x k v :
  dict_ok (m_dict x) → has_char NUL v = false → same_value x k v = true → m_dict x !! k = Some v.
Proof.
  unfold same_value, getRawValue. intros Hd Hv [He Hs]%andb_true_iff.
  destruct (m_dict x !! k) as [v'|] eqn:Hk; [|done]. simpl in *. f_equal.
  apply streq_true in Hs. rewrite !c_str_no_nul in Hs; [done|done|]. by apply (Hd k).
Qed.

(** An override that is not a firmware default makes the value the given one. *)
Lemma dict_after_override x j k v src :
  dict_ok (m_dict x) → has_char NUL v = false → src ≠ HOSTIF_SRC_DEFAULT →
  dict_after x j k v src = <[k:=v]> (m_dict x).
Proof.
  intros Hd Hv Hs. unfold dict_after, shadowed. rewrite (bool_decide_false (src = _)) by done.
  rewrite orb_false_r. destruct (same_value x k v) eqn:Hsame; [|done].
  symmetry. apply insert_id. by apply same_value_lookup.
Qed.

(** During an update an RFC set leaves a record of its key that the end of the
    update will not clear, and touches no other record. *)
Lemma journal_after_update x w j k v :
  XBSStoreJournal.m_initDone j = true → m_rfcUpdateInProgress x = true →
  (∃ d, journal_after x w (prepared x w j k) k v HOSTIF_SRC_RFC !! k = Some d
        ∧ XBSStoreJournal.clearRfc d = false ∧ updatedSource d = HOSTIF_SRC_RFC)
  ∧ ∀ k', k' ≠ k → journal_after x w (prepared x w j k) k v HOSTIF_SRC_RFC !! k'
                  = XBSStoreJournal.m_dict j !! k'.
Proof.
  intros Hi Hu. unfold journal_after, prepared, XBSStoreJournal.resetClearRfc. rewrite Hu.
  rewrite XBSStoreJournal.journal_init_id by done.
  destruct (XBSStoreJournal.m_dict j !! k) as [d|] eqn:Hd;
    [destruct (XBSStoreJournal.clearRfc d) eqn:Hc|]; simpl; unfold getJournalSource; simpl.
  - rewrite lookup_insert_eq. simpl. case_if_as Hb; [|split; [eexists; by rewrite lookup_insert_eq|]].
    + apply andb_true_iff in Hb as [_ Hsrc%bool_decide_eq_true].
      split; [eexists; by rewrite lookup_insert_eq|]. intros. by rewrite lookup_insert_ne.
    + intros. by rewrite !lookup_insert_ne.
  - rewrite Hd. case_if_as Hb; [|split; [eexists; by rewrite lookup_insert_eq|]].
    + apply andb_true_iff in Hb as [_ Hsrc%bool_decide_eq_true]. split; [by eexists|done].
    + intros. by rewrite lookup_insert_ne.
  - rewrite Hd. rewrite (bool_decide_false (HOSTIF_SRC_RFC = HOSTIF_NONE)) by done.
    rewrite andb_false_r. split; [eexists; by rewrite lookup_insert_eq|].
    intros. by rewrite lookup_insert_ne.
Qed.

(** The RFC server's sets of one update, in order. *)
Fixpoint run_overrides (x : t) (w : env) (ms : list HOSTIF_MsgData_t) : option (t * env) :=
  match ms with
  | [] => Some (x, w)
  | m :: ms' =>
      match overrideValue x w m with
      | Some (fcNoFault, x', _, w') => run_overrides x' w' ms'
      | _ => None
      end
  end.

Record bs_rfc_set (m : HOSTIF_MsgData_t) (kv : string * string) : Prop := {
  bs_set_value : getStringValue m = Some kv.2;
  bs_set_name : paramName m = kv.1;
  bs_set_src : requestor m = HOSTIF_SRC_RFC;
  bs_set_plain : bs_name kv.1;
  bs_set_nul : has_char NUL kv.2 = false
}.

Lemma ready_env x w w' j : ready x w j → e_readonly w' = e_readonly w → ready x w' j.
Proof. intros [] Hw. constructor; try done; by rewrite (can_write_ro w). Qed.

Lemma run_overrides_update ms kvs x w j :
  ready x w j → m_initDone x = true → m_rfcUpdateInProgress x = true → dict_ok (m_dict x) →
  Forall2 bs_rfc_set ms kvs →
  ∃ jd w', let x' := set_journal (set_dict x (insert_all kvs (m_dict x)))
                                 (XBSStoreJournal.set_dict j jd) in
    run_overrides x w ms = Some (x', w') ∧ ready x' w' (XBSStoreJournal.set_dict j jd)
    ∧ (∀ k, k ∈ kvs.*1 → ∃ d, jd !! k = Some d ∧ XBSStoreJournal.clearRfc d = false
                              ∧ updatedSource d = HOSTIF_SRC_RFC)
    ∧ (∀ k, k ∉ kvs.*1 → jd !! k = XBSStoreJournal.m_dict j !! k).
Proof.
  intros Hr Hi Hu Hd Hms. revert x w j Hr Hi Hu Hd. induction Hms as [|m [k v] ms kvs Hm Hms IH];
    intros x w j Hr Hi Hu Hd.
  - exists (XBSStoreJournal.m_dict j), w. simpl.
    assert (set_journal (set_dict x (m_dict x)) (XBSStoreJournal.set_dict j (XBSStoreJournal.m_dict j)) = x) as Hx.
    { pose proof (ready_journal _ _ _ Hr). destruct x, j; simpl in *. by subst. }
    replace (XBSStoreJournal.set_dict j (XBSStoreJournal.m_dict j)) with j in * by (by destruct j).
    unfold insert_all. simpl. rewrite Hx. split_and!; try done. by intros k ?%not_elem_of_nil.
  - destruct Hm as [Hv Hn Hs Hp Hnul]. simpl in *. rewrite <- Hn in Hp.
    destruct (overrideValue_ready x w j m v Hr Hi Hp Hv) as (w1 & Ho & Hro & _).
    rewrite Hn, Hs in Ho.
    rewrite dict_after_override in Ho by done.
    destruct (journal_after_update x w j k v) as [Hjk Hjo]; [apply Hr|done|].
    set (jd1 := journal_after x w (prepared x w j k) k v HOSTIF_SRC_RFC) in *.
    destruct (IH (set_journal (set_dict x (<[k:=v]> (m_dict x))) (XBSStoreJournal.set_dict j jd1)) w1
                 (XBSStoreJournal.set_dict j jd1))
      as (jd & w' & Hrun & Hr' & Hin & Hout);
      [by apply (ready_update x w)|done|done|by apply dict_ok_insert|].
    exists jd, w'. simpl in Hrun. cbn [run_overrides]. rewrite Ho. simpl in *.
    split; [exact Hrun|]. split; [exact Hr'|]. split.
    + intros k' [->|Hk']%elem_of_cons; [|by apply Hin].
      destruct (decide (k ∈ kvs.*1)) as [Hk|Hk]; [by apply Hin|]. rewrite Hout by done. exact Hjk.
    + intros k' [Hne Hk']%not_elem_of_cons. rewrite Hout by done. simpl. by apply Hjo.
Qed.

(** The two ends of an update. *)
Lemma override_start x w j m :
  ready x w j → m_initDone x = true → strcaseeq (paramName m) BS_CLEAR_DB_START = true →
  overrideValue x w m
  = Some (fcNoFault,
          set_journal (set_rfcUpdate x true)
            (XBSStoreJournal.set_dict j (mark_rfc <$> XBSStoreJournal.m_dict j)),
          set_fault m fcNoFault, next_tick w).
Proof.
  intros Hr Hi Hs. unfold overrideValue. rewrite bs_init_id by done. cbn [mbind option_bind negb].
  rewrite Hs, (ready_journal _ _ _ Hr). cbn [mbind option_bind].
  by rewrite XBSStoreJournal.rfcUpdateStarted_spec by apply Hr.
Qed.

Lemma override_end x w j m :
  ready x w j → m_initDone x = true → strcaseeq (paramName m) BS_CLEAR_DB_START = false →
  strcaseeq (paramName m) BS_CLEAR_DB_END = true →
  ∃ x' w', overrideValue x w m = Some (fcNoFault, x', set_fault m fcNoFault, w')
    ∧ m_rfcUpdateInProgress x' = false
    ∧ ∀ k, m_dict x' !! k
           = match m_dict x !! k with Some v => cleared_value j k (Some v) | None => None end.
Proof.
  intros Hr Hi Hs He. unfold overrideValue. rewrite bs_init_id by done. cbn [mbind option_bind negb].
  rewrite Hs, He. destruct (clearRfcValues_ready x w j Hr) as (d & jd & w1 & -> & Hro & Hd).
  cbn [mbind option_bind journal set_journal].
  unfold XBSStoreJournal.rfcUpdateEnd. rewrite XBSStoreJournal.journal_init_id by apply Hr. simpl.
  rewrite open_trunc_ok by (rewrite (can_write_ro w) by done; apply Hr).
  by eexists _, _.
Qed.

(** ** Keeping the file *)
Lemma setJournalValue_other j w key v src p :
  XBSStoreJournal.m_initDone j = true → XBSStoreJournal.m_filename j ≠ p →
  file_map (XBSStoreJournal.setJournalValue j w key v src).2 p = file_map w p.
Proof.
  intros Hi Hne. unfold XBSStoreJournal.setJournalValue. rewrite XBSStoreJournal.journal_init_id by done.
  assert (∀ w w', open_trunc w (XBSStoreJournal.m_filename j) = Some w' →
    file_map w' p = file_map w p) as Hot.
  { intros ? ?. unfold open_trunc. destruct (can_write _ _); [|done]. intros [= <-].
    by rewrite file_map_put_ne. }
  destruct (XBSStoreJournal.m_initialUpdate j).
  - unfold open_app. destruct (can_write _ _); [|done]. simpl.
    unfold append_file. by repeat (rewrite file_map_put_ne by done).
  - destruct (open_trunc w _) as [w'|] eqn:Ho; [|done]. simpl.
    unfold XBSStoreJournal.write_journal, append_file. rewrite file_map_put_ne by done.
    by apply (Hot w w').
Qed.

(** Loading the partner defaults does not touch what is overridden. *)
Definition overridden (j : XBSStoreJournal.t) (k : string) : Prop :=
  getJournalSource j k = HOSTIF_SRC_RFC ∨ getJournalSource j k = HOSTIF_SRC_WEBPA.

(** Two states that agree on every key overridden in the first. *)
Definition keeps (x : t) (j : XBSStoreJournal.t) (x' : t) (j' : XBSStoreJournal.t) : Prop :=
  ∀ k, overridden j k → m_dict x' !! k = m_dict x !! k ∧ getJournalSource j' k = getJournalSource j k.

Lemma keeps_refl x j : keeps x j x j.
Proof. by intros k. Qed.

Lemma keeps_trans x1 j1 x2 j2 x3 j3 : keeps x1 j1 x2 j2 → keeps x2 j2 x3 j3 → keeps x1 j1 x3 j3.
Proof.
  intros H1 H2 k Hk. destruct (H1 k Hk) as [Hd Hs].
  destruct (H2 k) as [Hd' Hs']; [by unfold overridden; rewrite Hs|]. by rewrite Hd', Hs'.
Qed.

(** Storing a firmware default keeps every override. *)
Lemma default_keeps x w j key v :
  keeps x j (set_journal (set_dict x (dict_after x j key v HOSTIF_SRC_DEFAULT))
                (XBSStoreJournal.set_dict j (journal_after x w j key v HOSTIF_SRC_DEFAULT)))
            (XBSStoreJournal.set_dict j (journal_after x w j key v HOSTIF_SRC_DEFAULT)).
Proof.
  intros k Hk. simpl. unfold dict_after, journal_after, shadowed. split.
  - destruct (decide (k = key)) as [->|Hne].
    + rewrite (bool_decide_true (getJournalSource j key = _ ∨ _)) by done.
      rewrite bool_decide_true by done. by rewrite orb_true_r.
    + case_if_as Hb; [done|]. by rewrite lookup_insert_ne.
  - unfold getJournalSource at 1. simpl. case_if_as Hb; [done|].
    destruct (decide (k = key)) as [->|Hne].
    + rewrite lookup_insert_eq. unfold updated_record, overridden, getJournalSource in *.
      destruct (XBSStoreJournal.m_dict j !! key) as [d|]; [by simpl|naive_solver].
    + by rewrite lookup_insert_ne.
Qed.

Lemma set_members_keeps l x w j x' w' :
  ready x w j → set_members x w l = Some (x', w') →
  ∃ j', ready x' w' j' ∧ keeps x j x' j'.
Proof.
  revert x w j. induction l as [|[k ov] l IH]; intros x w j Hr; simpl.
  { intros [= <- <-]. exists j. split; [done|apply keeps_refl]. }
  destruct ov as [v|]; [|done]. cbn [mbind option_bind].
  destruct (setRawValue_ready x w j k v HOSTIF_SRC_DEFAULT Hr) as (w1 & -> & Hro & _).
  cbn [mbind option_bind]. intros Hs.
  destruct (IH _ w1 (XBSStoreJournal.set_dict j (journal_after x w j k v HOSTIF_SRC_DEFAULT))
              (ready_update _ _ _ _ _ _ Hr Hro) Hs) as (j' & Hr' & Hk).
  exists j'. split; [done|]. by eapply keeps_trans; [apply default_keeps|].
Qed.

Lemma remove_step_keeps pc w l rm d jd j :
  XBSStoreJournal.m_initDone j = true →
  ∃ rm' d' jd', foldl (remove_step pc w) (rm, d, XBSStoreJournal.set_dict j jd) l
                = (rm', d', XBSStoreJournal.set_dict j jd')
    ∧ ∀ k, overridden (XBSStoreJournal.set_dict j jd) k → d' !! k = d !! k ∧ jd' !! k = jd !! k.
Proof.
  intros Hi. revert rm d jd. induction l as [|[k0 v0] l IH]; intros rm d jd; simpl.
  { by exists rm, d, jd. }
  destruct (obsolete pc _ k0) eqn:Ho; [|apply IH].
  unfold XBSStoreJournal.removeRecord. rewrite XBSStoreJournal.journal_init_id by done.
  destruct (IH true (delete k0 d) (delete k0 jd)) as (rm' & d' & jd' & Heq & Hk).
  exists rm', d', jd'. split; [exact Heq|]. intros k Hov.
  assert (k0 ≠ k) as Hne.
  { intros ->. unfold obsolete in Ho. destruct (cJSON_GetObjectItem _ _); [done|].
    apply andb_true_iff in Ho as [_ Ho%bool_decide_eq_true]. unfold overridden in Hov.
    rewrite Ho in Hov. naive_solver. }
  destruct (Hk k) as [-> ->]; [|by rewrite !lookup_delete_ne].
  unfold overridden, getJournalSource in *. simpl in *. by rewrite lookup_delete_ne.
Qed.

Lemma store_defaults_keeps pc x0 j0 x w j x' w' :
  keeps x0 j0 x j → ready x w j → store_defaults pc x w = Some (true, x', w') →
  ∃ j', journal x' = Some j' ∧ keeps x0 j0 x' j'.
Proof.
  intros Hk Hr. unfold store_defaults.
  destruct (set_members x w (cJSON_members pc)) as [[x1 w1]|] eqn:Hs; [|done].
  destruct (set_members_keeps _ _ _ _ _ _ Hr Hs) as (j1 & Hr1 & Hk1).
  cbn [mbind option_bind]. rewrite (ready_journal _ _ _ Hr1). cbn [mbind option_bind].
  intros [= <- <-]. eexists. split; [done|]. exact (keeps_trans _ _ _ _ _ _ Hk Hk1).
Qed.

(** ** Properties *)

(** The precedence of the bootstrap store: a firmware default stored on a
    parameter that RFC or WebPA overrides answers success and leaves every
    value alone; the journal takes the default as the new firmware value and
    keeps the overriding value and its source. *)
Theorem bs_default_never_overrides x w j key v :
  ready x w j → overridden j key →
  ∃ d jd w', let j' := XBSStoreJournal.set_dict j jd in
    XBSStoreJournal.m_dict j !! key = Some d
    ∧ setRawValue x w key v HOSTIF_SRC_DEFAULT = Some (true, set_journal x j', w')
    ∧ (∃ d', jd !! key = Some d' ∧ fwValue d' = v ∧ updatedSource d' = updatedSource d
             ∧ XBSStoreJournal.updatedValue d' = XBSStoreJournal.updatedValue d)
    ∧ ∀ k, k ≠ key → jd !! k = XBSStoreJournal.m_dict j !! k.
Proof.
  intros Hr Hov. destruct (setRawValue_ready x w j key v HOSTIF_SRC_DEFAULT Hr) as (w' & -> & _).
  pose proof Hov as Hsrc. unfold overridden, getJournalSource in Hsrc.
  destruct (XBSStoreJournal.m_dict j !! key) as [d|] eqn:Hd; [|naive_solver].
  exists d, (journal_after x w j key v HOSTIF_SRC_DEFAULT), w'. split; [done|].
  unfold dict_after, journal_after, shadowed.
  rewrite (bool_decide_true (getJournalSource j key = _ ∨ _)) by done.
  rewrite (bool_decide_true (HOSTIF_SRC_DEFAULT = _)), orb_true_r by done.
  rewrite (bool_decide_false (HOSTIF_SRC_DEFAULT = getJournalSource j key)), andb_false_r
    by (unfold getJournalSource; rewrite Hd; intros Heq; rewrite <- Heq in Hsrc; naive_solver).
  split; [by destruct x|]. rewrite lookup_insert_eq, Hd. split.
  - eexists. split; [done|]. by simpl.
  - intros k Hk. by rewrite lookup_insert_ne.
Qed.

(** C6. The update protocol of the RFC server: the start message, any sequence
    of RFC sets and the end message all answer no fault; afterwards every
    parameter that was set holds the last value given, a parameter that was
    not set and that RFC was overriding is back to its firmware value, and
    every other parameter is unchanged. *)
Theorem bs_update_protocol x w j start ms kvs stop :
  ready x w j → m_initDone x = true → dict_ok (m_dict x) →
  strcaseeq (paramName start) BS_CLEAR_DB_START = true →
  Forall2 bs_rfc_set ms kvs →
  strcaseeq (paramName stop) BS_CLEAR_DB_START = false →
  strcaseeq (paramName stop) BS_CLEAR_DB_END = true →
  ∃ x1 m1 w1 x2 w2 x3 m3 w3,
    overrideValue x w start = Some (fcNoFault, x1, m1, w1)
    ∧ run_overrides x1 w1 ms = Some (x2, w2)
    ∧ overrideValue x2 w2 stop = Some (fcNoFault, x3, m3, w3)
    ∧ m_rfcUpdateInProgress x3 = false
    ∧ ∀ k, m_dict x3 !! k =
        match insert_all kvs ∅ !! k with
        | Some v => Some v
        | None =>
            match m_dict x !! k, XBSStoreJournal.m_dict j !! k with
            | Some v, Some d => if XBSStoreJournal.clearRfc (mark_rfc d) then Some (fwValue d) else Some v
            | o, _ => o
            end
        end.
Proof.
  intros Hr Hi Hd Hs Hms He1 He2.
  set (j1 := XBSStoreJournal.set_dict j (mark_rfc <$> XBSStoreJournal.m_dict j)).
  set (x1 := set_journal (set_rfcUpdate x true) j1).
  assert (ready x1 (next_tick w) j1) as Hr1 by (destruct Hr; by constructor).
  destruct (run_overrides_update ms kvs x1 (next_tick w) j1 Hr1 Hi eq_refl Hd Hms)
    as (jd & w2 & Hrun & Hr2 & Hin & Hout).
  destruct (override_end _ w2 _ stop Hr2 Hi He1 He2) as (x3 & w3 & He & Hu3 & Hd3).
  eexists x1, _, (next_tick w), _, w2, x3, _, w3.
  split; [exact (override_start _ _ _ _ Hr Hi Hs)|]. split; [exact Hrun|]. split; [exact He|].
  split; [done|]. intros k. rewrite Hd3. simpl. unfold cleared_value. simpl.
  destruct (decide (k ∈ kvs.*1)) as [Hk|Hk].
  - destruct (Hin k Hk) as (d & -> & -> & _). destruct (insert_all_covered kvs k Hk) as [v Hv]. by rewrite !Hv.
  - rewrite !insert_all_notin, Hout by done. rewrite lookup_empty.
    unfold j1. simpl. rewrite lookup_fmap. destruct (m_dict x !! k); [|done].
    destruct (XBSStoreJournal.m_dict j !! k) as [d|]; [|done]. simpl.
    destruct (XBSStoreJournal.clearRfc (mark_rfc d)); [|done]. unfold mark_rfc. by case_decide.
Qed.

(** An override is what a get answers: the value, or nothing at all when
    the override was the empty text. *)
Theorem bs_override_get x w j m v g :
  ready x w j → m_initDone x = true → dict_ok (m_dict x) → bs_name (paramName m) →
  getStringValue m = Some v → has_char NUL v = false → requestor m ≠ HOSTIF_SRC_DEFAULT →
  paramName g = paramName m →
  ∃ x' m' w', overrideValue x w m = Some (fcNoFault, x', m', w')
    ∧ getValue x' w' g
      = Some (if is_empty v then (fcInternalError, x', set_fault g fcInternalError, w')
              else (fcNoFault, x', set_fault (putValue g v) fcNoFault, w')).
Proof.
  intros Hr Hi Hd Hn Hv Hnul Hsrc Hg.
  destruct (overrideValue_ready x w j m v Hr Hi Hn Hv) as (w' & Ho & _).
  eexists _, _, w'. split; [exact Ho|]. unfold getValue. rewrite bs_init_id by done.
  cbn [mbind option_bind]. unfold getRawValue. simpl. rewrite dict_after_override by done.
  rewrite Hg, lookup_insert_eq. simpl. rewrite c_str_no_nul by done. by destruct v.
Qed.

(** The bootstrap file follows the cache: a set that answers success, from
    any source, leaves the file holding exactly the cached values. *)
Theorem bs_file_sync x w j key v src x' w' :
  ready x w j → kv_ok (m_dict x) → key_ok key → val_ok v →
  XBSStoreJournal.m_filename j ≠ m_filename x →
  file_map w (m_filename x) = m_dict x →
  setRawValue x w key v src = Some (true, x', w') →
  kv_ok (m_dict x') ∧ file_map w' (m_filename x') = m_dict x'.
Proof.
  intros Hr Hok Hk Hv Hne Hf. unfold setRawValue.
  rewrite (ready_initial _ _ _ Hr), (ready_journal _ _ _ Hr), open_trunc_ok by apply Hr.
  cbn [mbind option_bind].
  set (d := <[key:=v]> (m_dict x)).
  assert (kv_ok d) as Hokd by (by apply kv_ok_insert).
  pose proof (setJournalValue_other j w key v src (m_filename x) (ready_jinit _ _ _ Hr) Hne) as Hs1.
  set (w1 := write_map _ _ _).
  pose proof (setJournalValue_other j w1 key v src (m_filename x) (ready_jinit _ _ _ Hr) Hne) as Hs2.
  assert (file_map w1 (m_filename x) = d) as Hw1
    by (apply (file_map_write_map w); [done|by apply open_trunc_ok; apply Hr]).
  destruct (XBSStoreJournal.setJournalValue j w key v src) as [[b1 j1] w1'].
  cbn [journal set_dict mbind option_bind]. rewrite (ready_journal _ _ _ Hr). cbn [mbind option_bind].
  destruct (XBSStoreJournal.setJournalValue j w1 key v src) as [[b2 j2] w2']. simpl in *.
  destruct (_ && _).
  { case_decide; intros [= <- <-]; simpl; [by rewrite Hs1|done]. }
  case_decide; cbn [mbind option_bind]; [case_bool_decide|]; intros [= <- <-]; simpl;
    by rewrite ?Hs1, ?Hs2.
Qed.

(** A firmware update keeps the overrides: loading the partner defaults
    over a bootstrap file that exists leaves the value and the source of every
    parameter that RFC or WebPA overrides, whatever the defaults say about it. *)
Theorem bs_defaults_keep_overrides x w j x' w' :
  ready x w j → is_Some (read_file w (m_filename x)) →
  loadFromJson x w = Some (true, x', w') →
  ∃ j', journal x' = Some j' ∧ keeps x j x' j'.
Proof.
  intros Hr [txt Htxt]. unfold loadFromJson.
  destruct (read_file w BS_JSON_FILE) as [text|]; [|done]. cbn [mbind option_bind].
  destruct (cJSON_Parse _) as [json|]; [|done]. destruct (partner_config _ _) as [pc0|]; [|done].
  destruct (negb (cJSON_is_object pc0)).
  { intros [= <- <-]. exists j. split; [by apply Hr|apply keeps_refl]. }
  destruct (getPartnerDeviceConfig _ _ _) as [ok pc]. destruct ok; [|done]. cbn [negb].
  rewrite (ready_journal _ _ _ Hr), Htxt. cbn [mbind option_bind]. rewrite (ready_journal _ _ _ Hr).
  cbn [mbind option_bind].
  destruct (remove_step_keeps pc w (um_order (e_tick w) (m_dict x)) false (m_dict x)
              (XBSStoreJournal.m_dict j) j) as (rm & d & jd & Hrm & Hk); [apply Hr|].
  replace (XBSStoreJournal.set_dict j (XBSStoreJournal.m_dict j)) with j in * by (by destruct j).
  rewrite Hrm. set (j2 := XBSStoreJournal.set_dict j jd). set (x2 := set_journal (set_dict x d) j2).
  assert (keeps x j x2 j2) as Hk2.
  { intros k Hov. destruct (Hk k Hov) as [Hd Hj]. unfold getJournalSource. simpl. by rewrite Hd, Hj. }
  assert (ready x2 (next_tick w) j2) as Hr2 by (by apply (ready_update x w)).
  destruct rm; [|by apply (store_defaults_keeps _ _ _ _ _ _ _ _ Hk2 Hr2)].
  rewrite open_trunc_ok by apply Hr2.
  unfold XBSStoreJournal.rfcUpdateEnd. rewrite XBSStoreJournal.journal_init_id by apply Hr2.
  rewrite open_trunc_ok by apply Hr2.
  apply (store_defaults_keeps _ _ _ (set_journal x2 j2) _ j2 _ _ Hk2).
  by apply (ready_env _ (next_tick w)).
Qed.

(** A parameter that RFC added and that the firmware does not know is not
    removed when an update drops it: it stays in the store with the value -,
    the journal's placeholder for a missing firmware value. *)
Theorem bs_dropped_override_leaves_dash x w j start stop k v :
  ready x w j → m_initDone x = true → dict_ok (m_dict x) →
  bs_rfc_set (string_set k v HOSTIF_SRC_RFC) (k, v) →
  XBSStoreJournal.m_dict j !! k = None → m_rfcUpdateInProgress x = false →
  strcaseeq (paramName start) BS_CLEAR_DB_START = true →
  strcaseeq (paramName stop) BS_CLEAR_DB_START = false →
  strcaseeq (paramName stop) BS_CLEAR_DB_END = true →
  ∃ x1 m1 w1 x2 m2 w2 x3 m3 w3,
    overrideValue x w (string_set k v HOSTIF_SRC_RFC) = Some (fcNoFault, x1, m1, w1)
    ∧ overrideValue x1 w1 start = Some (fcNoFault, x2, m2, w2)
    ∧ overrideValue x2 w2 stop = Some (fcNoFault, x3, m3, w3)
    ∧ m_dict x3 !! k = Some "-"%string.
Proof.
  intros Hr Hi Hd [Hv Hn Hsrc Hp Hnul] Hj Hu Hs He1 He2. cbn [fst snd] in *.
  rewrite <- Hn in Hp.
  destruct (overrideValue_ready x w j _ v Hr Hi Hp Hv) as (w1 & Ho & Hro & _).
  rewrite Hn, Hsrc, dict_after_override in Ho by done.
  unfold journal_after, prepared, getJournalSource in Ho. rewrite Hu, Hj in Ho.
  rewrite (bool_decide_false (HOSTIF_SRC_RFC = HOSTIF_NONE)), andb_false_r in Ho by done.
  match type of Ho with _ = Some (_, set_journal (set_dict _ ?d) (XBSStoreJournal.set_dict _ ?jd), _, _) =>
    pose proof (ready_update x w j d jd w1 Hr Hro) as Hr1 end.
  pose proof (override_start _ _ _ start Hr1 Hi Hs) as Hst.
  match type of Hst with _ = Some (_, ?x2, _, ?w2) =>
    assert (ready x2 w2 (default j (journal x2))) as Hr2 by (destruct Hr1; by constructor) end.
  destruct (override_end _ _ _ stop Hr2 Hi He1 He2) as (x3 & w3 & He & _ & Hd3).
  eexists _, _, w1, _, _, _, x3, _, w3. split; [exact Ho|]. split; [exact Hst|].
  split; [exact He|]. rewrite Hd3. simpl. rewrite lookup_insert_eq. unfold cleared_value. simpl.
  by rewrite lookup_fmap, lookup_insert_eq.
Qed.

End lemmas.
(** ** Witnesses *)

(** A concrete JSON library: values are texts or objects, members are looked up
    by name, ASCII case aside, and one document parses. *)
Inductive toy_json :=
  | TString (s : option string)
  | TObject (l : list (string * toy_json)).

Definition toy_doc : toy_json :=
  TObject [("default"%string,
            TObject [("Device.A"%string, TString (Some "new1"%string));
                     ("Device.B"%string, TString (Some "new2"%string))])].

Definition toy_members (o : toy_json) : list (string * toy_json) :=
  match o with TObject l => l | TString _ => [] end.

Fixpoint toy_find (l : list (string * toy_json)) (k : string) : option toy_json :=
  match l with
  | [] => None
  | (k', v) :: l' => if strcaseeq k' k then Some v else toy_find l' k
  end.

#[local] Instance toy_cjson : CJson := {
  cJSON := toy_json;
  cJSON_Parse := λ s, if streq s "doc" then Some toy_doc else None;
  cJSON_GetObjectItem := λ o k, toy_find (toy_members o) k;
  cJSON_is_object := λ o, match o with TObject _ => true | TString _ => false end;
  cJSON_members := λ o, (λ kv, (kv.1, match kv.2 with TString s => s | TObject _ => None end))
                          <$> toy_members o;
  cJSON_CreateString := λ s, Some (TString s);
  cJSON_ReplaceItemInObject := λ o k v,
    TObject ((λ kv, if strcaseeq kv.1 k then (k, default kv.2 v) else kv) <$> toy_members o);
  cJSON_AddItemToObject := λ o k v,
    match v with Some v => TObject (toy_members o ++ [(k, v)]) | None => o end
}.

#[local] Existing Instance canonical_order.

Definition ex_journal : XBSStoreJournal.t :=
  XBSStoreJournal.mk "/opt/bs.journal" "T0" true false
    {["Device.A"%string := XBSStoreJournal.mkData "fw1" "T0" "-" "-" HOSTIF_SRC_DEFAULT false;
      "Device.B"%string := XBSStoreJournal.mkData "fw2" "T0" "rfc2" "T1" HOSTIF_SRC_RFC false]}.
Definition ex_store : t :=
  mk "/opt/bs.ini" true false false
     {["Device.A"%string := "fw1"%string; "Device.B"%string := "rfc2"%string]} (Some ex_journal).
Definition ex_env : env :=
  mkEnv {[BS_JSON_FILE := "doc"%string;
          "/opt/bs.ini"%string := String.append (kv_line "Device.A" "fw1") (kv_line "Device.B" "rfc2")]}
        ∅ true ∅ "2024-01-01 00:00:00 " 0.

Lemma ex_ready : ready ex_store ex_env ex_journal.
Proof. constructor; vm_compute; reflexivity. Qed.

Lemma ex_dict_ok : dict_ok (m_dict ex_store).
Proof. apply dict_ok_insert; [apply map_Forall_singleton|]; vm_compute; reflexivity. Qed.

Lemma ex_kv_ok : kv_ok (m_dict ex_store).
Proof. apply kv_ok_insert; [apply map_Forall_singleton; split| |]; vm_compute; exact I. Qed.

Lemma ex_rfc_set k v :
  bs_name k → has_char NUL v = false → (String.length v < TR69HOSTIFMGR_MAX_PARAM_LEN)%nat →
  bs_rfc_set (string_set k v HOSTIF_SRC_RFC) (k, v).
Proof. intros. constructor; [by apply string_set_value|done..]. Qed.

Lemma bs_default_never_overrides_witness :
  ∃ j' w', @setRawValue canonical_order ex_store ex_env "Device.B" "fw3" HOSTIF_SRC_DEFAULT
           = Some (true, set_journal ex_store j', w')
    ∧ m_dict (set_journal ex_store j') !! "Device.B"%string = Some "rfc2"%string.
Proof.
  destruct (@bs_default_never_overrides canonical_order _ _ _ "Device.B" "fw3" ex_ready)
    as (d & jd & w' & _ & Hs & _); [left; vm_compute; reflexivity|].
  eexists _, w'. split; [exact Hs|vm_compute; reflexivity].
Defined.

Lemma bs_update_protocol_witness :
  let start := string_set BS_CLEAR_DB_START "1" HOSTIF_SRC_RFC in
  let stop := string_set BS_CLEAR_DB_END "1" HOSTIF_SRC_RFC in
  let m := string_set "Device.C" "rfc3" HOSTIF_SRC_RFC in
  ∃ x1 m1 w1 x2 w2 x3 m3 w3,
    @overrideValue canonical_order _ ex_store ex_env start = Some (fcNoFault, x1, m1, w1)
    ∧ run_overrides x1 w1 [m] = Some (x2, w2)
    ∧ overrideValue x2 w2 stop = Some (fcNoFault, x3, m3, w3)
    ∧ m_dict x3 !! "Device.A"%string = Some "fw1"%string
    ∧ m_dict x3 !! "Device.B"%string = Some "fw2"%string
    ∧ m_dict x3 !! "Device.C"%string = Some "rfc3"%string.
Proof.
  intros start stop m.
  assert (Forall2 bs_rfc_set [m] [("Device.C", "rfc3")%string]) as Hms.
  { constructor; [|constructor]. apply ex_rfc_set; [split; vm_compute; reflexivity|vm_compute; reflexivity|].
    apply Nat.ltb_lt; vm_compute; reflexivity. }
  destruct (@bs_update_protocol canonical_order _ _ _ _ start [m] [("Device.C", "rfc3")%string] stop
              ex_ready eq_refl ex_dict_ok ltac:(vm_compute; reflexivity) Hms
              ltac:(vm_compute; reflexivity) ltac:(vm_compute; reflexivity))
    as (x1 & m1 & w1 & x2 & w2 & x3 & m3 & w3 & H1 & H2 & H3 & _ & Hd).
  exists x1, m1, w1, x2, w2, x3, m3, w3.
  split; [exact H1|]. split; [exact H2|]. split; [exact H3|].
  split; [rewrite (Hd _); vm_compute; reflexivity|].
  split; rewrite (Hd _); vm_compute; reflexivity.
Defined.

Lemma bs_override_get_witness :
  let m := string_set "Device.A" "web1" HOSTIF_SRC_WEBPA in
  ∃ x' m' w', @overrideValue canonical_order _ ex_store ex_env m = Some (fcNoFault, x', m', w')
    ∧ getValue x' w' m = Some (fcNoFault, x', set_fault (putValue m "web1") fcNoFault, w').
Proof.
  intros m.
  assert (getStringValue m = Some "web1"%string) as Hv by (vm_compute; reflexivity).
  assert (bs_name (paramName m)) as Hn by (split; vm_compute; reflexivity).
  exact (@bs_override_get canonical_order _ _ _ _ m "web1" m ex_ready eq_refl ex_dict_ok Hn Hv
           ltac:(vm_compute; reflexivity) ltac:(discriminate) eq_refl).
Defined.

Lemma bs_file_sync_witness :
  ∃ x' w', @setRawValue canonical_order ex_store ex_env "Device.A" "web1" HOSTIF_SRC_WEBPA
           = Some (true, x', w')
    ∧ file_map w' "/opt/bs.ini" !! "Device.A"%string = Some "web1"%string.
Proof.
  destruct (@setRawValue canonical_order ex_store ex_env "Device.A" "web1" HOSTIF_SRC_WEBPA)
    as [[[b x'] w']|] eqn:Hs; [|vm_compute in Hs; discriminate Hs].
  assert (b = true ∧ m_filename x' = "/opt/bs.ini"%string
          ∧ m_dict x' !! "Device.A"%string = Some "web1"%string) as (-> & Hfn & Hx).
  { vm_compute in Hs. injection Hs as <- <- _. vm_compute. split; [|split]; reflexivity. }
  exists x', w'. split; [reflexivity|].
  destruct (@bs_file_sync canonical_order _ _ _ "Device.A" "web1" _ _ _ ex_ready
              ex_kv_ok ltac:(vm_compute; exact I) ltac:(vm_compute; exact I)
              ltac:(discriminate) ltac:(vm_compute; reflexivity) Hs) as [_ Hf].
  rewrite Hfn in Hf. rewrite Hf. exact Hx.
Defined.

Lemma bs_defaults_keep_overrides_witness :
  ∃ x' w', @loadFromJson canonical_order _ ex_store ex_env = Some (true, x', w')
    ∧ m_dict x' !! "Device.A"%string = Some "new1"%string
    ∧ m_dict x' !! "Device.B"%string = Some "rfc2"%string.
Proof.
  destruct (@loadFromJson canonical_order _ ex_store ex_env) as [[[b x'] w']|] eqn:Hs;
    [|vm_compute in Hs; discriminate Hs].
  assert (b = true) as -> by (vm_compute in Hs; injection Hs as <- _ _; reflexivity).
  exists x', w'. split; [reflexivity|].
  destruct (@bs_defaults_keep_overrides canonical_order _ _ _ _ _ _ ex_ready
              ltac:(eexists; vm_compute; reflexivity) Hs) as (j' & _ & Hk).
  split.
  - vm_compute in Hs. injection Hs as <- _. vm_compute. reflexivity.
  - destruct (Hk "Device.B"%string) as [-> _]; [left; vm_compute; reflexivity|].
    vm_compute. reflexivity.
Defined.

Lemma bs_dropped_override_leaves_dash_witness :
  let m := string_set "Device.C" "rfc3" HOSTIF_SRC_RFC in
  let start := string_set BS_CLEAR_DB_START "1" HOSTIF_SRC_RFC in
  let stop := string_set BS_CLEAR_DB_END "1" HOSTIF_SRC_RFC in
  ∃ x1 m1 w1 x2 m2 w2 x3 m3 w3,
    @overrideValue canonical_order _ ex_store ex_env m = Some (fcNoFault, x1, m1, w1)
    ∧ overrideValue x1 w1 start = Some (fcNoFault, x2, m2, w2)
    ∧ overrideValue x2 w2 stop = Some (fcNoFault, x3, m3, w3)
    ∧ m_dict x3 !! "Device.C"%string = Some "-"%string.
Proof.
  intros m start stop.
  assert (bs_rfc_set m ("Device.C", "rfc3")%string) as Hm.
  { apply ex_rfc_set; [split; vm_compute; reflexivity|vm_compute; reflexivity|].
    apply Nat.ltb_lt; vm_compute; reflexivity. }
  exact (@bs_dropped_override_leaves_dash canonical_order _ _ _ _ start stop "Device.C" "rfc3"
           ex_ready eq_refl ex_dict_ok Hm ltac:(vm_compute; reflexivity) eq_refl
           ltac:(vm_compute; reflexivity) ltac:(vm_compute; reflexivity) ltac:(vm_compute; reflexivity)).
Defined.

End XBSStore.
