(* ===== verification/MsgHandler.v ===== *)
(** * The request dispatcher

    [MsgHandler] models handlers/src/hostIf_msgHandler.cpp: the table from
    parameter prefixes to managers read from mgrlist.conf, the choice of the
    manager of a request, and the four entry points every protocol front end
    calls, with the counters behind the telemetry of the first minutes.  GLib's
    hash table is a parameter ([GHashTable]), and so are the managers'
    handlers ([Managers]). *)
From stdpp Require Import base list strings gmap.
From Stdlib Require Import Ascii ZArith Lia.
From S2P Require Import Prelude HostIf FileStore.

Inductive HostIf_ParamMgr_t : Type :=
  | HOSTIF_INVALID_Mgr | HOSTIF_DeviceMgr | HOSTIF_XREMgr | HOSTIF_DSMgr | HOSTIF_MoCAMgr
  | HOSTIF_EthernetMgr | HOSTIF_IPMgr | HOSTIF_TimeMgr | HOSTIF_DHCPv4 | HOSTIF_InterfaceStack
  | HOSTIF_TelemetryMgr | HOSTIF_RdkProfileMgr | HOSTIF_StorageSrvcMgr.

#[export] Instance HostIf_ParamMgr_t_eq_dec : EqDecision HostIf_ParamMgr_t.
Proof. solve_decision. Defined.

(** [g_int_equal] on two strings: their first four bytes, the byte after the
    terminator of a shorter one counting as NUL. *)
Definition g_int_equal (a b : string) : bool :=
  bool_decide (take 4 (String.list_ascii_of_string a ++ replicate 4 NUL)
               = take 4 (String.list_ascii_of_string b ++ replicate 4 NUL)).

(** What the dispatcher uses of a GLib hash table with string keys: two keys
    are the same to the table when their hashes agree and the equality function
    it was made with, here [g_int_equal], accepts them.  Inserting under a key
    the table has replaces the value and keeps the old key; the order of
    [g_hash_table_get_keys] is not specified. *)
Class GHashTable := {
  ghash : Type;
  g_str_hash : string → Z;
  g_hash_table_new : ghash;
  g_hash_table_insert : ghash → string → HostIf_ParamMgr_t → ghash;
  g_hash_table_lookup : ghash → string → option HostIf_ParamMgr_t;
  g_hash_table_get_keys : ghash → list string;
  g_same (a b : string) : bool := Z.eqb (g_str_hash a) (g_str_hash b) && g_int_equal a b;
  g_lookup_new : ∀ k, g_hash_table_lookup g_hash_table_new k = None;
  g_lookup_insert : ∀ h k v k', g_hash_table_lookup (g_hash_table_insert h k v) k'
    = if g_same k k' then Some v else g_hash_table_lookup h k';
  g_keys_new : g_hash_table_get_keys g_hash_table_new = [];
  g_keys_insert : ∀ h k v k', k' ∈ g_hash_table_get_keys (g_hash_table_insert h k v)
    ↔ k' ∈ g_hash_table_get_keys h
      ∨ (k' = k ∧ ∀ k0, k0 ∈ g_hash_table_get_keys h → g_same k k0 = false)
}.

(** A request that reached a manager: it answered, or an exception left the
    handler; the message and the device are as it left them. *)
Inductive outcome (dev : Type) : Type :=
  | Returned (ret : Z) (m : HOSTIF_MsgData_t) (d : dev)
  | Threw (m : HOSTIF_MsgData_t) (d : dev).
Arguments Returned {dev} ret m d.
Arguments Threw {dev} m d.

Inductive request : Type := GetMsg | SetMsg | GetAttributesMsg | SetAttributesMsg.

(** The virtual functions of the msgHandler subclasses, over the state of the
    device; the last component is the time the call took, in microseconds. *)
Class Managers := {
  dev : Type;
  handle : HostIf_ParamMgr_t → request → HOSTIF_MsgData_t → dev → outcome dev * Z
}.

Module MsgHandler.

(** The profiles compiled in. *)
Record build := mkBuild {
  USE_MoCA_PROFILE : bool;
  USE_DHCPv4_PROFILE : bool;
  USE_INTFSTACK_PROFILE : bool;
  USE_STORAGESERVICE_PROFILE : bool;
  T2_EVENT_ENABLED : bool
}.

(** ** The configuration file *)

(** [%Ns]: blanks are skipped and at most [n] other characters read. *)
Fixpoint take_word (n : nat) (s : string) : string * string :=
  match n, s with
  | S n', String c s' =>
      if is_space c then (EmptyString, s)
      else let '(w, r) := take_word n' s' in (String c w, r)
  | _, _ => (EmptyString, s)
  end.

(** [fscanf(fp, %99s %15s, param, mgr)] with the present contents of the two
    buffers; [None] is EOF.  When only the first word is there, [mgr] keeps
    what it held. *)
Definition fscanf_pair (s mgr : string) : option (string * string * string) :=
  let '(w1, r1) := take_word 99 (skip_space s) in
  if is_empty w1 then None
  else
    let '(w2, r2) := take_word 15 (skip_space r1) in
    Some (w1, if is_empty w2 then mgr else w2, r2).

(** The chain of comparisons; a name no branch accepts leaves the manager of
    the line before. *)
Definition mgr_of_name (b : build) (mgr : string) (previous : HostIf_ParamMgr_t)
  : HostIf_ParamMgr_t :=
  if strcaseeq mgr "deviceMgr" then HOSTIF_DeviceMgr
  else if strcaseeq mgr "dsMgr" then HOSTIF_DSMgr
  else if strcaseeq mgr "telemetryMgr" then HOSTIF_TelemetryMgr
  else if USE_MoCA_PROFILE b && strcaseeq mgr "mocaMgr" then HOSTIF_MoCAMgr
  else if strcaseeq mgr "xreMgr" then HOSTIF_XREMgr
  else if strcaseeq mgr "ethernetMgr" then HOSTIF_EthernetMgr
  else if strcaseeq mgr "ipMgr" then HOSTIF_IPMgr
  else if strcaseeq mgr "timeMgr" then HOSTIF_TimeMgr
  else if USE_DHCPv4_PROFILE b && strcaseeq mgr "dhcpv4Mgr" then HOSTIF_DHCPv4
  else if USE_INTFSTACK_PROFILE b && strcaseeq mgr "ifStackMgr" then HOSTIF_InterfaceStack
  else if USE_STORAGESERVICE_PROFILE b && strcaseeq mgr "storageSrvcMgr" then HOSTIF_StorageSrvcMgr
  else if strcaseeq mgr "rdkProfileMgr" then HOSTIF_RdkProfileMgr
  else previous.

Section dispatch.
Context `{GHashTable} `{Managers} (b : build).

(** The [while (fscanf(...) != EOF)] loop; [None]: out of fuel. *)
Fixpoint config_loop (fuel : nat) (s mgr : string) (mgrName : HostIf_ParamMgr_t) (h : ghash)
  : option ghash :=
  match fuel with
  | O => None
  | S fuel' =>
      match fscanf_pair s mgr with
      | None => Some h
      | Some (param, mgr', rest) =>
          let mgrName' := mgr_of_name b (c_str mgr') mgrName in
          let h' := if decide (mgrName' ≠ HOSTIF_INVALID_Mgr)
                    then g_hash_table_insert h (c_str param) mgrName' else h in
          config_loop fuel' rest mgr' mgrName' h'
      end
  end.

(** [None]: the file cannot be opened and the process exits. *)
Definition hostIf_initalize_ConfigManger (w : env) (confFile : string) : option ghash :=
  match read_file w confFile with
  | None => None
  | Some content =>
      config_loop (S (String.length content)) content EmptyString HOSTIF_INVALID_Mgr g_hash_table_new
  end.

(** ** The choice of the manager *)

(** The [switch]: the managers this build has a handler for. *)
Definition getInstance (mgrId : HostIf_ParamMgr_t) : option HostIf_ParamMgr_t :=
  match mgrId with
  | HOSTIF_DSMgr | HOSTIF_XREMgr | HOSTIF_DeviceMgr | HOSTIF_EthernetMgr | HOSTIF_TimeMgr
  | HOSTIF_IPMgr | HOSTIF_TelemetryMgr | HOSTIF_RdkProfileMgr => Some mgrId
  | HOSTIF_MoCAMgr => if USE_MoCA_PROFILE b then Some mgrId else None
  | HOSTIF_DHCPv4 => if USE_DHCPv4_PROFILE b then Some mgrId else None
  | HOSTIF_InterfaceStack => if USE_INTFSTACK_PROFILE b then Some mgrId else None
  | HOSTIF_StorageSrvcMgr => if USE_STORAGESERVICE_PROFILE b then Some mgrId else None
  | HOSTIF_INVALID_Mgr => None
  end.

(** The keys are scanned in the table's order; the first that starts the name
    is taken.  [None] is NULL, for the table as for the answer. *)
Definition HostIf_GetMgr (paramMgrhash : option ghash) (m : HOSTIF_MsgData_t)
  : option HostIf_ParamMgr_t :=
  h ← paramMgrhash;
  key ← List.find (λ data, starts_with data (paramName m)) (g_hash_table_get_keys h);
  mgrId ← g_hash_table_lookup h key;
  getInstance mgrId.

(** ** Counting *)

(** The statics of one of the two handlers: [..CountSinceBoot], [bootTimeSec..],
    [logged..200Within1Min], [logged..1000Within5Min]. *)
Record counters := mkCounters {
  countSinceBoot : Z;
  bootTimeSec : Z;
  logged200 : bool;
  logged1000 : bool
}.

Definition fresh_counters : counters := mkCounters 0 0 false false.

Inductive event : Type :=
  | t2CountNotify (name : string)
  | t2ValNotify (name value : string).

(** The beginning of hostIf_GetMsgHandler and hostIf_SetMsgHandler.  [tb] and
    [tn] are the readings of CLOCK_BOOTTIME, the first used only when no boot
    time has been recorded. *)
Definition count_call (ev200 ev1000 : string) (c : counters) (tb tn : Z)
  : counters * list event :=
  let boot := if bootTimeSec c =? 0 then tb else bootTimeSec c in
  let n := int32 (countSinceBoot c + 1) in
  let secondsSinceBoot := tn - boot in
  let hit200 := negb (logged200 c) && (200 <=? n) && (secondsSinceBoot <=? 60) in
  let hit1000 := negb (logged1000 c) && (1000 <=? n) && (secondsSinceBoot <=? 300) in
  (mkCounters n boot (logged200 c || hit200) (logged1000 c || hit1000),
   if T2_EVENT_ENABLED b
   then (if hit200 then [t2CountNotify ev200] else [])
        ++ (if hit1000 then [t2CountNotify ev1000] else [])
   else []).

Definition slow_event (name : string) (m : HOSTIF_MsgData_t) (timeTaken : Z) : list event :=
  if T2_EVENT_ENABLED b && (5000000 <? timeTaken) then [t2ValNotify name (paramName m)] else [].

Definition PARAM_VALUE_STR_SIZE : nat := 128.

(** The text the handlers log for a message, in a buffer of [strSize] bytes; the
    [default] case has no type left to catch. *)
Definition paramValueToString (om : option HOSTIF_MsgData_t) (strSize : nat) : option string :=
  match strSize with
  | O => None
  | S n =>
      Some (str_take n
        match om with
        | None => "<invalid input>"
        | Some m =>
            match paramtype m with
            | hostIf_StringType | hostIf_DateTimeType => buf_str (paramValue m)
            | hostIf_IntegerType => dec (get_int (paramValue m))
            | hostIf_UnsignedIntType => dec (get_uint (paramValue m))
            | hostIf_BooleanType => if get_boolean (paramValue m) then "true" else "false"
            | hostIf_UnsignedLongType => dec (uint64 (le_val (take 8 (paramValue m))))
            end
        end)
  end.

(** ** The entry points *)

(** A [catch] around the whole dispatch turns an exception into NOK. *)
Definition hostIf_GetMsgHandler (t : option ghash) (c : counters) (tb tn : Z)
    (m : HOSTIF_MsgData_t) (d : dev) : Z * HOSTIF_MsgData_t * dev * counters * list event :=
  let '(c', evs) :=
    count_call "TR69HOSTIF_GET_200_WITHIN_1MIN" "TR69HOSTIF_GET_1000_WITHIN_5MIN" c tb tn in
  match HostIf_GetMgr t m with
  | None => (NOK, m, d, c', evs)
  | Some mgr =>
      match handle mgr GetMsg m d with
      | (Returned ret m' d', timeTaken) =>
          (ret, m', d', c', evs ++ slow_event "TR69HOSTIF_GET_TIMEOUT_PARAM" m' timeTaken)
      | (Threw m' d', _) => (NOK, m', d', c', evs)
      end
  end.

(** Nothing catches here: [None] is the exception going on to the caller. *)
Definition hostIf_SetMsgHandler (t : option ghash) (c : counters) (tb tn : Z)
    (m : HOSTIF_MsgData_t) (d : dev)
  : option Z * HOSTIF_MsgData_t * dev * counters * list event :=
  let '(c', evs) :=
    count_call "TR69HOSTIF_SET_200_WITHIN_1MIN" "TR69HOSTIF_SET_1000_WITHIN_5MIN" c tb tn in
  match HostIf_GetMgr t m with
  | None => (Some NOK, m, d, c', evs)
  | Some mgr =>
      match handle mgr SetMsg m d with
      | (Returned ret m' d', timeTaken) =>
          (Some ret, m', d', c', evs ++ slow_event "TR69HOSTIF_SET_TIMEOUT_PARAM" m' timeTaken)
      | (Threw m' d', _) => (None, m', d', c', evs)
      end
  end.

Definition attributes_handler (r : request) (t : option ghash) (m : HOSTIF_MsgData_t) (d : dev)
  : option Z * HOSTIF_MsgData_t * dev :=
  match HostIf_GetMgr t m with
  | None => (Some NOK, m, d)
  | Some mgr =>
      match (handle mgr r m d).1 with
      | Returned ret m' d' => (Some ret, m', d')
      | Threw m' d' => (None, m', d')
      end
  end.

Definition hostIf_GetAttributesMsgHandler := attributes_handler GetAttributesMsg.
Definition hostIf_SetAttributesMsgHandler := attributes_handler SetAttributesMsg.

End dispatch.
(** ** Reading a configuration *)
Section config.
Context `{GHashTable} (b : build).

(** A word the two conversions read whole. *)
Definition word_ok (n : nat) (s : string) : Prop :=
  s ≠ EmptyString ∧ (String.length s ≤ n)%nat ∧ has_char NUL s = false
  ∧ ∀ c, has_char c s = true → is_space c = false.

Definition line_ok (kv : string * string) : Prop := word_ok 99 kv.1 ∧ word_ok 15 kv.2.

(** A file of lines [param mgr]. *)
Fixpoint conf_text (l : list (string * string)) : string :=
  match l with
  | [] => EmptyString
  | (k, v) :: l' => k +:+ String " " (v +:+ String NL (conf_text l'))
  end.

Lemma take_word_ok n w c r :
  word_ok n w → is_space c = true → take_word n (w +:+ String c r) = (w, String c r).
Proof.
  intros (_ & Hn & _ & Hsp) Hc. revert n Hn. induction w as [|x w IH]; intros n Hn; simpl in *.
  - destruct n; [done|]. simpl. by rewrite Hc.
  - destruct n as [|n]; [lia|]. simpl. rewrite (Hsp x) by (by rewrite Ascii.eqb_refl).
    rewrite IH; [done| |lia]. intros c' Hc'. apply Hsp. by rewrite Hc', orb_true_r.
Qed.

Lemma skip_space_word n w r : word_ok n w → skip_space (w +:+ r) = w +:+ r.
Proof.
  intros (Hne & _ & _ & Hsp). destruct w as [|x w]; [done|]. simpl.
  by rewrite (Hsp x) by (simpl; by rewrite Ascii.eqb_refl).
Qed.

Lemma fscanf_pair_line k v mgr r :
  word_ok 99 k → word_ok 15 v →
  fscanf_pair (k +:+ String " " (v +:+ String NL r)) mgr = Some (k, v, String NL r).
Proof.
  intros Hk Hv. unfold fscanf_pair. rewrite (skip_space_word _ _ _ Hk), (take_word_ok _ _ _ _ Hk) by done.
  destruct Hk as [Hk _]. destruct k as [|x k]; [done|]. cbn [is_empty skip_space].
  replace (is_space " ") with true by done.
  rewrite (skip_space_word _ _ _ Hv), (take_word_ok _ _ _ _ Hv) by done.
  destruct Hv as [Hv _]. by destruct v.
Qed.

Lemma take_word_length n s : (String.length (take_word n s).2 ≤ String.length s)%nat
  ∧ ((take_word n s).1 ≠ EmptyString → String.length (take_word n s).2 < String.length s)%nat.
Proof.
  revert s. induction n as [|n IH]; intros [|c s]; simpl; try (split; [lia|done]).
  destruct (is_space c); simpl; [split; [lia|done]|].
  destruct (IH s) as [Hle _]. destruct (take_word n s) as [w r]. simpl in *. split; [lia|intros _; lia].
Qed.

Lemma skip_space_length s : (String.length (skip_space s) ≤ String.length s)%nat.
Proof. induction s as [|c s IH]; simpl; [done|]. destruct (is_space c); simpl; lia. Qed.

(** Every conversion that is not at the end consumes something. *)
Lemma fscanf_pair_length s mgr w1 w2 r :
  fscanf_pair s mgr = Some (w1, w2, r) → (String.length r < String.length s)%nat.
Proof.
  unfold fscanf_pair. destruct (take_word 99 (skip_space s)) as [v1 r1] eqn:H1.
  destruct (is_empty v1) eqn:He; [done|].
  destruct (take_word 15 (skip_space r1)) as [v2 r2] eqn:H2. intros [= _ _ <-].
  pose proof (take_word_length 99 (skip_space s)) as [_ L1]. rewrite H1 in L1. simpl in L1.
  pose proof (take_word_length 15 (skip_space r1)) as [L2 _]. rewrite H2 in L2. simpl in L2.
  pose proof (skip_space_length s). pose proof (skip_space_length r1).
  specialize (L1 ltac:(by intros ->)). lia.
Qed.

(** The managers of the lines, in order: a name the build does not know stands
    for the manager of the line before. *)
Fixpoint effective (previous : HostIf_ParamMgr_t) (l : list (string * string))
  : list (string * HostIf_ParamMgr_t) :=
  match l with
  | [] => []
  | (k, v) :: l' =>
      let g := mgr_of_name b v previous in
      (if decide (g ≠ HOSTIF_INVALID_Mgr) then [(k, g)] else []) ++ effective g l'
  end.

Definition g_insert_all (l : list (string * HostIf_ParamMgr_t)) (h : ghash) : ghash :=
  foldl (λ h kg, g_hash_table_insert h kg.1 kg.2) h l.

Lemma skip_space_text l x :
  Forall line_ok l →
  fscanf_pair (String NL (conf_text l)) x = fscanf_pair (conf_text l) x.
Proof. intros _. unfold fscanf_pair. cbn [skip_space]. by replace (is_space NL) with true by done. Qed.

Lemma config_loop_text fuel l x prev h :
  Forall line_ok l → (String.length (conf_text l) < fuel)%nat →
  config_loop b fuel (conf_text l) x prev h = Some (g_insert_all (effective prev l) h)
  ∧ ((S (String.length (conf_text l)) < fuel)%nat →
     config_loop b fuel (String NL (conf_text l)) x prev h = Some (g_insert_all (effective prev l) h)).
Proof.
  intros Hl. revert fuel x prev h. induction Hl as [|[k v] l [Hk Hv] Hl IH]; intros fuel x prev h Hf.
  { destruct fuel as [|fuel]; [lia|]. done. }
  destruct fuel as [|fuel]; [lia|].
  assert (∀ h, Some (g_insert_all (effective prev ((k, v) :: l)) h)
    = config_loop b fuel (String NL (conf_text l)) v (mgr_of_name b (c_str v) prev)
        (if decide (mgr_of_name b (c_str v) prev ≠ HOSTIF_INVALID_Mgr)
         then g_hash_table_insert h (c_str k) (mgr_of_name b (c_str v) prev) else h)) as Hstep.
  { intros h0. rewrite !c_str_no_nul by (apply Hk || apply Hv).
    destruct (IH fuel v (mgr_of_name b v prev)
      (if decide (mgr_of_name b v prev ≠ HOSTIF_INVALID_Mgr)
       then g_hash_table_insert h0 k (mgr_of_name b v prev) else h0)) as [_ ->].
    - cbn [conf_text] in Hf. rewrite !str_length_app in Hf. simpl in Hf. rewrite str_length_app in Hf.
      simpl in Hf. lia.
    - cbn [effective]. by case_decide.
    - cbn [conf_text] in Hf. rewrite !str_length_app in Hf. simpl in Hf. rewrite str_length_app in Hf.
      simpl in Hf. destruct Hk as (Hk & _). destruct k; [done|]. simpl in Hf. lia. }
  split; [|intros _]; cbn [config_loop].
  - cbn [conf_text]. rewrite fscanf_pair_line by done. symmetry. apply Hstep.
  - rewrite skip_space_text by (by constructor). cbn [conf_text].
    rewrite fscanf_pair_line by done. symmetry. apply Hstep.
Qed.

(** The keys of a list are pairwise different to the table. *)
Fixpoint distinct (ks : list string) : Prop :=
  match ks with
  | [] => True
  | k :: ks' => (∀ k', k' ∈ ks' → g_same k k' = false ∧ g_same k' k = false) ∧ distinct ks'
  end.

Lemma g_same_refl k : g_same k k = true.
Proof. unfold g_same, g_int_equal. rewrite Z.eqb_refl. by rewrite bool_decide_true. Qed.

Lemma g_insert_all_spec l h :
  distinct l.*1 →
  (∀ k k', k ∈ g_hash_table_get_keys h → k' ∈ l.*1 → g_same k' k = false) →
  (∀ k g, (k, g) ∈ l → g_hash_table_lookup (g_insert_all l h) k = Some g)
  ∧ (∀ k, (∀ k', k' ∈ l.*1 → g_same k' k = false) →
          g_hash_table_lookup (g_insert_all l h) k = g_hash_table_lookup h k)
  ∧ (∀ k, k ∈ g_hash_table_get_keys (g_insert_all l h) ↔ k ∈ g_hash_table_get_keys h ∨ k ∈ l.*1).
Proof.
  revert h. induction l as [|[k0 g0] l IH]; intros h Hd Hh.
  { split; [by intros k g ?%not_elem_of_nil|]. split; [done|].
    intros k. split; [by left|]. by intros [?|?%not_elem_of_nil]. }
  destruct Hd as [H0 Hd]. cbn [fmap list_fmap fst] in *.
  destruct (IH (g_hash_table_insert h k0 g0) Hd) as (Hin & Hout & Hkeys).
  { intros k k' [Hk|[-> _]]%g_keys_insert Hk'; [apply Hh; [done|by right]|]. by apply H0. }
  split; [|split].
  - intros k g [[= -> ->]|Hk]%elem_of_cons; [|by apply Hin].
    unfold g_insert_all. simpl. fold (g_insert_all l (g_hash_table_insert h k0 g0)).
    rewrite Hout by (intros; by apply H0). by rewrite g_lookup_insert, g_same_refl.
  - intros k Hk. unfold g_insert_all. simpl. fold (g_insert_all l (g_hash_table_insert h k0 g0)).
    rewrite Hout by (intros; apply Hk; by right). rewrite g_lookup_insert.
    by rewrite (Hk k0) by left.
  - intros k. unfold g_insert_all. simpl. fold (g_insert_all l (g_hash_table_insert h k0 g0)).
    rewrite Hkeys, g_keys_insert, elem_of_cons. split; [naive_solver|].
    intros [Hk|[->|Hk]]; [by left; left| |by right].
    left. right. split; [done|]. intros k1 Hk1. apply Hh; [done|by left].
Qed.

End config.

(** ** Routing *)
Section routing.
Context `{GHashTable} `{Managers} (b : build).

(** A manager name the build knows, and one it does not. *)
Definition known (v : string) (g : HostIf_ParamMgr_t) : Prop :=
  g ≠ HOSTIF_INVALID_Mgr ∧ ∀ previous, mgr_of_name b v previous = g.
Definition unknown (v : string) : Prop := ∀ previous, mgr_of_name b v previous = previous.

Definition config_ok (l : list (string * string)) : Prop := Forall line_ok l ∧ distinct l.*1.

Lemma mgr_of_name_handler v previous :
  mgr_of_name b v previous = previous
  ∨ getInstance b (mgr_of_name b v previous) = Some (mgr_of_name b v previous).
Proof.
  unfold mgr_of_name.
  repeat (case_if_as Hb;
          [right; simpl; try (apply andb_true_iff in Hb as [-> _]); done|clear Hb]).
  by left.
Qed.

Lemma known_handler v g : known v g → getInstance b g = Some g.
Proof.
  intros [Hne Hg]. destruct (mgr_of_name_handler v HOSTIF_INVALID_Mgr) as [Hm|Hm];
    rewrite Hg in Hm; [by destruct Hne|done].
Qed.

Lemma effective_known prev l k v g : (k, v) ∈ l → known v g → (k, g) ∈ effective b prev l.
Proof.
  intros Hin [Hne Hg]. revert prev. induction l as [|[k0 v0] l IH]; intros prev.
  { by apply not_elem_of_nil in Hin. }
  cbn [effective]. apply elem_of_app. apply elem_of_cons in Hin as [[= <- <-]|Hin].
  - left. rewrite Hg, decide_True by done. by left.
  - right. by apply IH.
Qed.

Lemma effective_app prev l1 l2 k v g :
  known v g →
  effective b prev (l1 ++ (k, v) :: l2) = effective b prev (l1 ++ [(k, v)]) ++ effective b g l2.
Proof.
  intros [Hne Hg]. revert prev. induction l1 as [|[k0 v0] l1 IH]; intros prev; simpl.
  - rewrite Hg, decide_True by done. done.
  - by rewrite IH, app_assoc.
Qed.

Lemma effective_keys prev l k : k ∈ (effective b prev l).*1 → k ∈ l.*1.
Proof.
  revert prev. induction l as [|[k0 v0] l IH]; intros prev; [done|]. cbn [effective].
  rewrite fmap_app, elem_of_app. intros [Hk|Hk]; [|right; by eapply IH].
  case_decide; [|by apply not_elem_of_nil in Hk]. apply list_elem_of_singleton in Hk as ->. by left.
Qed.

Lemma effective_distinct prev l : distinct l.*1 → distinct (effective b prev l).*1.
Proof.
  revert prev. induction l as [|[k0 v0] l IH]; intros prev; [done|]. intros [Hne Hd]. cbn [effective].
  case_decide; [|by apply IH]. split; [|by apply IH].
  intros k' Hk'%effective_keys. by apply Hne.
Qed.

Lemma config_loads w f l :
  config_ok l → read_file w f = Some (conf_text l) →
  ∃ h, hostIf_initalize_ConfigManger b w f = Some h
    ∧ (∀ k, k ∈ g_hash_table_get_keys h ↔ k ∈ (effective b HOSTIF_INVALID_Mgr l).*1)
    ∧ ∀ k g, (k, g) ∈ effective b HOSTIF_INVALID_Mgr l → g_hash_table_lookup h k = Some g.
Proof.
  intros [Hl Hd] Hr. unfold hostIf_initalize_ConfigManger. rewrite Hr.
  destruct (config_loop_text b (S (String.length (conf_text l))) l EmptyString HOSTIF_INVALID_Mgr
              g_hash_table_new Hl ltac:(lia)) as [-> _].
  destruct (g_insert_all_spec (effective b HOSTIF_INVALID_Mgr l) g_hash_table_new)
    as (Hin & _ & Hkeys); [by apply effective_distinct| |].
  { intros k k'. rewrite g_keys_new. by intros ?%not_elem_of_nil. }
  eexists. split; [done|]. split; [|done].
  intros k. rewrite Hkeys, g_keys_new. split; [|by right].
  by intros [?%not_elem_of_nil|?].
Qed.

Lemma find_unique (f : string → bool) l k :
  k ∈ l → f k = true → (∀ k', k' ∈ l → f k' = true → k' = k) → List.find f l = Some k.
Proof.
  intros Hin Hk Hu. induction l as [|k0 l IH]; [by apply not_elem_of_nil in Hin|]. simpl.
  destruct (f k0) eqn:Hf0; [by rewrite (Hu k0 ltac:(left) Hf0)|].
  apply elem_of_cons in Hin as [->|Hin]; [congruence|].
  apply IH; [done|]. intros k' Hk'. apply Hu. by right.
Qed.

Lemma find_none (f : string → bool) l : (∀ k, k ∈ l → f k = false) → List.find f l = None.
Proof.
  induction l as [|k l IH]; intros Hf; [done|]. simpl. rewrite (Hf k) by left.
  apply IH. intros k' Hk'. apply Hf. by right.
Qed.

Lemma HostIf_GetMgr_unique h m k g :
  k ∈ g_hash_table_get_keys h → starts_with k (paramName m) = true →
  (∀ k', k' ∈ g_hash_table_get_keys h → starts_with k' (paramName m) = true → k' = k) →
  g_hash_table_lookup h k = Some g → HostIf_GetMgr b (Some h) m = getInstance b g.
Proof.
  intros Hin Hk Hu Hl. unfold HostIf_GetMgr. cbn [mbind option_bind].
  rewrite (find_unique _ _ _ Hin Hk Hu). cbn [mbind option_bind]. by rewrite Hl.
Qed.

(** ** Properties *)

(** The table of a configuration of distinct prefixes sends a name that starts
    with exactly one of them to its manager. *)
Lemma config_routes w f l :
  config_ok l → read_file w f = Some (conf_text l) →
  ∃ h, hostIf_initalize_ConfigManger b w f = Some h
    ∧ ∀ k v g m, (k, v) ∈ l → known v g → starts_with k (paramName m) = true →
        (∀ k', k' ∈ l.*1 → starts_with k' (paramName m) = true → k' = k) →
        HostIf_GetMgr b (Some h) m = Some g.
Proof.
  intros Hc Hr. destruct (config_loads w f l Hc Hr) as (h & -> & Hkeys & Hlook). exists h. split; [done|].
  intros k v g m Hin Hg Hk Hu. pose proof (effective_known HOSTIF_INVALID_Mgr l k v g Hin Hg) as Heff.
  rewrite (HostIf_GetMgr_unique h m k g), (known_handler v g) by
    first [done|apply Hkeys, list_elem_of_fmap; by exists (k, g)|by apply Hlook
          |intros k' Hk'%Hkeys; apply Hu; by eapply effective_keys]. done.
Qed.

(** C34. The scan of the configuration file ends on every content: the fuel the
    loader uses, one more than the file has characters, is always enough, and
    more does not change the table. *)
Theorem config_scan_terminates s mgr mgrName h :
  ∃ h', ∀ fuel, (String.length s < fuel)%nat → config_loop b fuel s mgr mgrName h = Some h'.
Proof.
  remember (String.length s) as n eqn:Hn.
  revert s Hn mgr mgrName h. induction (lt_wf n) as [n _ IH]. intros s -> mgr mgrName h.
  destruct (fscanf_pair s mgr) as [[[param mgr'] rest]|] eqn:Hs.
  - pose proof (fscanf_pair_length _ _ _ _ _ Hs) as Hlt.
    destruct (IH _ Hlt rest eq_refl mgr' (mgr_of_name b (c_str mgr') mgrName)
      (if decide (mgr_of_name b (c_str mgr') mgrName ≠ HOSTIF_INVALID_Mgr)
       then g_hash_table_insert h (c_str param) (mgr_of_name b (c_str mgr') mgrName) else h)) as [h' Hh'].
    exists h'. intros [|fuel] Hf; [lia|]. simpl. rewrite Hs. apply Hh'. lia.
  - exists h. intros [|fuel] Hf; [lia|]. simpl. by rewrite Hs.
Qed.

(** C39. Routing: with a configuration of distinct prefixes, a get whose name
    starts with exactly one of them, listed with a manager the build knows, is
    answered by that manager's handler, and an exception it lets out becomes
    NOK. *)
Theorem get_routed w f l k v g c tb tn m d :
  config_ok l → read_file w f = Some (conf_text l) → (k, v) ∈ l → known v g →
  starts_with k (paramName m) = true →
  (∀ k', k' ∈ l.*1 → starts_with k' (paramName m) = true → k' = k) →
  ∃ h c' evs, hostIf_initalize_ConfigManger b w f = Some h
    ∧ hostIf_GetMsgHandler b (Some h) c tb tn m d
      = match (handle g GetMsg m d).1 with
        | Returned ret m' d' => (ret, m', d', c', evs)
        | Threw m' d' => (NOK, m', d', c', evs)
        end.
Proof.
  intros Hc Hr Hin Hg Hk Hu. destruct (config_routes w f l Hc Hr) as (h & -> & Hroute).
  exists h. unfold hostIf_GetMsgHandler. rewrite (Hroute k v g m) by done.
  destruct (count_call _ _ _ _ _ _) as [c' evs]. destruct (handle g GetMsg m d) as [[ret m' d'|m' d'] t];
    by eexists c', _.
Qed.

(** A request whose name starts with no configured prefix, or any request
    before the table exists, is answered NOK by all four entry points, and
    neither the message nor the device is touched. *)
Theorem unrouted_refused t c tb tn m d :
  (∀ h k, t = Some h → k ∈ g_hash_table_get_keys h → starts_with k (paramName m) = false) →
  (hostIf_GetMsgHandler b t c tb tn m d).1.1 = (NOK, m, d)
  ∧ (hostIf_SetMsgHandler b t c tb tn m d).1.1 = (Some NOK, m, d)
  ∧ hostIf_GetAttributesMsgHandler b t m d = (Some NOK, m, d)
  ∧ hostIf_SetAttributesMsgHandler b t m d = (Some NOK, m, d).
Proof.
  intros Hno. assert (HostIf_GetMgr b t m = None) as Hmgr.
  { unfold HostIf_GetMgr. destruct t as [h|]; [|done]. cbn [mbind option_bind].
    rewrite find_none; [done|]. intros k. by apply Hno. }
  unfold hostIf_GetMsgHandler, hostIf_SetMsgHandler, hostIf_GetAttributesMsgHandler,
    hostIf_SetAttributesMsgHandler, attributes_handler. rewrite Hmgr.
  by repeat (destruct (count_call _ _ _ _ _ _)).
Qed.

(** A line whose manager the build does not know is not skipped: its prefix
    is given to the manager of the line before. *)
Theorem unknown_manager_inherits w f l1 k1 v1 g k2 v2 l2 :
  config_ok (l1 ++ (k1, v1) :: (k2, v2) :: l2) →
  read_file w f = Some (conf_text (l1 ++ (k1, v1) :: (k2, v2) :: l2)) →
  known v1 g → unknown v2 →
  ∃ h, hostIf_initalize_ConfigManger b w f = Some h
    ∧ k2 ∈ g_hash_table_get_keys h ∧ g_hash_table_lookup h k2 = Some g.
Proof.
  intros Hc Hr Hg Hv. destruct (config_loads w f _ Hc Hr) as (h & -> & Hkeys & Hlook).
  exists h. split; [done|].
  assert ((k2, g) ∈ effective b HOSTIF_INVALID_Mgr (l1 ++ (k1, v1) :: (k2, v2) :: l2)) as Hin.
  { rewrite (effective_app _ _ _ _ _ _ Hg). apply elem_of_app. right. cbn [effective].
    rewrite Hv, decide_True by apply Hg. by left. }
  split; [|by apply Hlook]. apply Hkeys, list_elem_of_fmap. by exists (k2, g).
Qed.

End routing.

(** ** Telemetry *)
#[export] Instance event_eq_dec : EqDecision event.
Proof. solve_decision. Defined.

Definition occurrences (e : event) (l : list event) : nat := length (filter (λ e', e' = e) l).

Lemma occurrences_app e l1 l2 : occurrences e (l1 ++ l2) = (occurrences e l1 + occurrences e l2)%nat.
Proof. unfold occurrences. by rewrite filter_app, length_app. Qed.

(** The counting part of successive calls, with the clock readings of each. *)
Fixpoint run_counts (b : build) (ev200 ev1000 : string) (c : counters) (l : list (Z * Z))
  : counters * list event :=
  match l with
  | [] => (c, [])
  | (tb, tn) :: l' =>
      let '(c1, evs1) := count_call b ev200 ev1000 c tb tn in
      let '(c2, evs2) := run_counts b ev200 ev1000 c1 l' in (c2, evs1 ++ evs2)
  end.

(** Some call from the [limit]-th on falls within [secs] of [t0], [n] calls
    having been counted before. *)
Fixpoint reaches (limit secs t0 n : Z) (l : list (Z * Z)) : bool :=
  match l with
  | [] => false
  | (_, tn) :: l' =>
      ((limit <=? n + 1) && (tn - t0 <=? secs)) || reaches limit secs t0 (n + 1) l'
  end.

Lemma occurrences_if (x : bool) e e' :
  occurrences (t2CountNotify e) (if x then [t2CountNotify e'] else [])
  = if x && bool_decide (e = e') then 1%nat else 0%nat.
Proof.
  destruct x; [|done]. unfold occurrences. rewrite filter_cons. simpl. case_decide as H; case_bool_decide as H'.
  - done.
  - injection H as ->. done.
  - by destruct H; subst.
  - done.
Qed.

Lemma run_counts_occurrences b e1 e2 c l :
  T2_EVENT_ENABLED b = true → e1 ≠ e2 → bootTimeSec c ≠ 0 →
  0 <= countSinceBoot c → countSinceBoot c + Z.of_nat (length l) < 2 ^ 31 →
  occurrences (t2CountNotify e1) (run_counts b e1 e2 c l).2
    = (if negb (logged200 c) && reaches 200 60 (bootTimeSec c) (countSinceBoot c) l then 1%nat else 0%nat)
  ∧ occurrences (t2CountNotify e2) (run_counts b e1 e2 c l).2
    = (if negb (logged1000 c) && reaches 1000 300 (bootTimeSec c) (countSinceBoot c) l then 1%nat else 0%nat).
Proof.
  intros Ht2 Hne. revert c. induction l as [|[tb tn] l IH]; intros c Hb H0 Hl.
  { simpl. by rewrite !andb_false_r. }
  cbn [length] in Hl. cbn [run_counts]. unfold count_call. rewrite Ht2.
  rewrite (proj2 (Z.eqb_neq _ _) Hb).
  replace (int32 (countSinceBoot c + 1)) with (countSinceBoot c + 1)
    by (unfold int32; rewrite Z.mod_small; lia).
  match goal with |- context [run_counts b e1 e2 ?c1 l] =>
    destruct (IH c1) as [IH1 IH2]; [done|simpl; lia|simpl; lia|];
    destruct (run_counts b e1 e2 c1 l) as [c2 evs2] end.
  cbn [snd] in *. rewrite !occurrences_app, !occurrences_if, IH1, IH2. simpl.
  rewrite (bool_decide_true (e1 = e1)), (bool_decide_true (e2 = e2)) by done.
  rewrite (bool_decide_false (e1 = e2)), (bool_decide_false (e2 = e1)) by congruence.
  rewrite !andb_true_r, !andb_false_r.
  generalize (200 <=? countSinceBoot c + 1), (tn - bootTimeSec c <=? 60),
    (1000 <=? countSinceBoot c + 1), (tn - bootTimeSec c <=? 300),
    (reaches 200 60 (bootTimeSec c) (countSinceBoot c + 1) l),
    (reaches 1000 300 (bootTimeSec c) (countSinceBoot c + 1) l).
  intros [] [] [] [] [] []; destruct (logged200 c), (logged1000 c); done.
Qed.

(** The load telemetry of a handler: over any number of calls below 2^31,
    each of the two events is sent once at most, and it is sent exactly when
    the 200th call or a later one falls within a minute, the 1000th or a later
    one within five minutes, of the first call, which is what the code records
    as the boot time. *)
Theorem load_telemetry_once b e1 e2 tb tn l :
  T2_EVENT_ENABLED b = true → e1 ≠ e2 → tb ≠ 0 → Z.of_nat (length l) < 2 ^ 31 - 1 →
  let evs := (run_counts b e1 e2 fresh_counters ((tb, tn) :: l)).2 in
  occurrences (t2CountNotify e1) evs
    = (if reaches 200 60 tb 0 ((tb, tn) :: l) then 1%nat else 0%nat)
  ∧ occurrences (t2CountNotify e2) evs
    = (if reaches 1000 300 tb 0 ((tb, tn) :: l) then 1%nat else 0%nat).
Proof.
  intros Ht2 Hne Htb Hl evs.
  assert (evs = (run_counts b e1 e2 (mkCounters 0 tb false false) ((tb, tn) :: l)).2) as ->.
  { unfold evs. cbn [run_counts]. unfold count_call. simpl.
    apply Z.eqb_neq in Htb. by rewrite Htb. }
  destruct (run_counts_occurrences b e1 e2 (mkCounters 0 tb false false) ((tb, tn) :: l)) as [H1 H2];
    [done|done|done|done|cbn [length countSinceBoot]; lia|].
  by rewrite H1, H2.
Qed.

(** ** Witnesses *)

(** A table as a list of entries, listed from the first or from the last. *)
Fixpoint djb_hash (s : string) (acc : Z) : Z :=
  match s with
  | EmptyString => acc
  | String c s' => djb_hash s' (uint32 (acc * 33 + byte_val c))
  end.

Definition list_same (a b : string) : bool :=
  Z.eqb (djb_hash a 5381) (djb_hash b 5381) && g_int_equal a b.

Lemma list_same_eq a b :
  list_same a b = true → ∀ x, list_same a x = list_same b x.
Proof.
  unfold list_same, g_int_equal. intros [->%Z.eqb_eq ->%bool_decide_eq_true]%andb_true_iff x. done.
Qed.

Lemma list_same_sym a b : list_same a b = list_same b a.
Proof. unfold list_same, g_int_equal. rewrite Z.eqb_sym. f_equal. by apply bool_decide_ext. Qed.

Fixpoint list_insert (h : list (string * HostIf_ParamMgr_t)) (k : string) (v : HostIf_ParamMgr_t) :=
  match h with
  | [] => [(k, v)]
  | (k0, v0) :: h' => if list_same k k0 then (k0, v) :: h' else (k0, v0) :: list_insert h' k v
  end.

Fixpoint list_lookup (h : list (string * HostIf_ParamMgr_t)) (k : string) : option HostIf_ParamMgr_t :=
  match h with
  | [] => None
  | (k0, v0) :: h' => if list_same k k0 then Some v0 else list_lookup h' k
  end.

Lemma list_lookup_insert h k v k' :
  list_lookup (list_insert h k v) k' = if list_same k k' then Some v else list_lookup h k'.
Proof.
  induction h as [|[k0 v0] h IH]; simpl.
  { by rewrite list_same_sym. }
  destruct (list_same k k0) eqn:Hk; simpl.
  - rewrite (list_same_eq _ _ Hk k'), (list_same_sym k' k0). by destruct (list_same k0 k').
  - rewrite IH. destruct (list_same k' k0) eqn:Hk'; [|done]. destruct (list_same k k') eqn:Hkk; [|done].
    by rewrite (list_same_eq _ _ Hkk), Hk' in Hk.
Qed.

Lemma list_keys_insert h k v k' :
  k' ∈ (list_insert h k v).*1 ↔ k' ∈ h.*1 ∨ (k' = k ∧ ∀ k0, k0 ∈ h.*1 → list_same k k0 = false).
Proof.
  induction h as [|[k0 v0] h IH]; simpl.
  { rewrite list_elem_of_singleton. split; [intros ->; right; split; [done|by intros ? ?%not_elem_of_nil]|].
    by intros [?%not_elem_of_nil|[? _]]. }
  destruct (list_same k k0) eqn:Hk; simpl.
  - split; [by left|]. intros [?|[-> Hno]]; [done|]. rewrite (Hno k0) in Hk by left. done.
  - rewrite !elem_of_cons, IH. split.
    + intros [?|[?|[? Hno]]]; [by left; left|by left; right|]. right. split; [done|].
      intros k1 [->|?]%elem_of_cons; [done|by apply Hno].
    + intros [[?|?]|[? Hno]]; [by left|by right; left|]. right; right. split; [done|].
      intros k1 ?. apply Hno. by right.
Qed.

#[local] Program Instance list_table (backwards : bool) : GHashTable := {
  ghash := list (string * HostIf_ParamMgr_t);
  g_str_hash := λ s, djb_hash s 5381;
  g_hash_table_new := [];
  g_hash_table_insert := list_insert;
  g_hash_table_lookup := list_lookup;
  g_hash_table_get_keys := λ h, if backwards then reverse h.*1 else h.*1
}.
Next Obligation. done. Qed.
Next Obligation. intros ? h k v k'. apply list_lookup_insert. Qed.
Next Obligation. by intros []. Qed.
Next Obligation.
  intros [] h k v k'; rewrite ?elem_of_reverse, list_keys_insert; [|done].
  by setoid_rewrite elem_of_reverse.
Qed.

(** Managers that answer 0 and leave their name, except the time manager, which
    throws. *)
#[local] Instance ex_managers : Managers := {
  dev := unit;
  handle := λ g _ m d, if decide (g = HOSTIF_TimeMgr) then (Threw m d, 0) else (Returned OK m d, 6000000)
}.

Definition full_build : build := mkBuild true true true true true.

(** The shipped conf/mgrlist.conf. *)
Definition mgrlist : list (string * string) :=
  [("Device.DeviceInfo", "deviceMgr"); ("Device.Services.STBService", "dsMgr");
   ("Device.Services.StorageService", "storageSrvcMgr"); ("Device.MoCA", "mocaMgr");
   ("Device.X_COMCAST-COM_Xcalibur.Client", "xreMgr"); ("Device.Ethernet", "ethernetMgr");
   ("Device.IP", "ipMgr"); ("Device.Time", "timeMgr"); ("Device.DHCPv4", "dhcpv4Mgr");
   ("Device.InterfaceStack", "ifStackMgr"); ("Device.X_RDK_WebConfig", "webConfigMgr");
   ("Device.X_RDKCENTRAL-COM_T2", "telemetryMgr"); ("Device.X_RDK_", "rdkProfileMgr")]%string.

Definition mgrlist_env : FileStore.env :=
  mkEnv {["/etc/mgrlist.conf"%string := conf_text mgrlist]} ∅ true ∅ EmptyString 0.

(** With the shipped mgrlist.conf and every profile built in, the names
    under Device.X_RDK_WebConfig reach the interface stack manager or the RDK
    profile manager depending only on the order in which the hash table lists
    its keys: the prefix is registered for a manager the dispatcher does not
    know, and a second prefix covers it. *)
Theorem shipped_webconfig_ambiguous :
  ∃ (T1 T2 : GHashTable) h1 h2,
    @hostIf_initalize_ConfigManger T1 full_build mgrlist_env "/etc/mgrlist.conf" = Some h1
    ∧ @hostIf_initalize_ConfigManger T2 full_build mgrlist_env "/etc/mgrlist.conf" = Some h2
    ∧ let m := string_set "Device.X_RDK_WebConfig.Data" "" HOSTIF_SRC_WEBPA in
      @HostIf_GetMgr T1 full_build (Some h1) m = Some HOSTIF_InterfaceStack
      ∧ @HostIf_GetMgr T2 full_build (Some h2) m = Some HOSTIF_RdkProfileMgr.
Proof.
  exists (list_table false), (list_table true). eexists _, _.
  split; [vm_compute; reflexivity|]. split; [vm_compute; reflexivity|].
  split; vm_compute; reflexivity.
Qed.

Fixpoint no_spaces (s : string) : bool :=
  match s with EmptyString => true | String c s' => negb (is_space c) && no_spaces s' end.

Definition wordb (n : nat) (s : string) : bool :=
  negb (is_empty s) && (String.length s <=? n)%nat && negb (has_char NUL s) && no_spaces s.

Lemma wordb_ok n s : wordb n s = true → word_ok n s.
Proof.
  unfold wordb, word_ok. rewrite !andb_true_iff. intros [[[He Hl%Nat.leb_le] Hn] Hs].
  split; [by destruct s|]. split; [done|]. split; [by destruct (has_char NUL s)|].
  clear -Hs. intros c. induction s as [|x s IH]; simpl in *; [done|].
  apply andb_true_iff in Hs as [Hx Hs]. intros [->%Ascii.eqb_eq|Hc]%orb_true_iff; [|by apply IH].
  by destruct (is_space x).
Qed.

Fixpoint distinctb `{GHashTable} (ks : list string) : bool :=
  match ks with
  | [] => true
  | k :: ks' => forallb (λ k', negb (g_same k k') && negb (g_same k' k)) ks' && distinctb ks'
  end.

Lemma distinctb_ok `{GHashTable} ks : distinctb ks = true → distinct ks.
Proof.
  induction ks as [|k ks IH]; simpl; [done|]. intros [Hf Hd]%andb_true_iff. split; [|by apply IH].
  intros k' Hk'. rewrite List.forallb_forall in Hf. apply list_elem_of_In in Hk'.
  specialize (Hf _ Hk'). apply andb_true_iff in Hf as [Hf1 Hf2].
  by rewrite negb_true_iff in Hf1, Hf2.
Qed.

Lemma mgrlist_ok : @config_ok (list_table false) mgrlist.
Proof.
  split; [|by apply distinctb_ok; vm_compute].
  assert (forallb (λ kv, wordb 99 kv.1 && wordb 15 kv.2) mgrlist = true) as Hw by (by vm_compute).
  apply Forall_forall. intros kv Hin. rewrite List.forallb_forall in Hw.
  apply list_elem_of_In in Hin. specialize (Hw _ Hin). apply andb_true_iff in Hw as [? ?].
  split; by apply wordb_ok.
Qed.

Lemma get_routed_witness :
  let T := list_table false in
  let m := string_set "Device.Time.Enable" "" HOSTIF_SRC_WEBPA in
  ∃ h c' evs, @hostIf_initalize_ConfigManger T full_build mgrlist_env "/etc/mgrlist.conf" = Some h
    ∧ @hostIf_GetMsgHandler T _ full_build (Some h) fresh_counters 5 5 m () = (NOK, m, (), c', evs).
Proof.
  intros T m.
  exact (@get_routed T _ full_build mgrlist_env "/etc/mgrlist.conf" mgrlist "Device.Time" "timeMgr"
    HOSTIF_TimeMgr fresh_counters 5 5 m () mgrlist_ok ltac:(vm_compute; reflexivity)
    ltac:(unfold mgrlist; do 7 right; left) ltac:(split; [discriminate|intros; vm_compute; reflexivity])
    ltac:(vm_compute; reflexivity)
    ltac:(intros k' Hk'; vm_compute in Hk'; repeat (apply elem_of_cons in Hk' as [->|Hk'];
            [intros Hs; vm_compute in Hs; first [discriminate Hs|reflexivity]|]);
          by apply not_elem_of_nil in Hk')).
Defined.

Lemma unrouted_refused_witness :
  let T := list_table false in
  let m := string_set "Device.WiFi.Radio" "" HOSTIF_SRC_WEBPA in
  ∃ h, @hostIf_initalize_ConfigManger T full_build mgrlist_env "/etc/mgrlist.conf" = Some h
    ∧ @hostIf_GetAttributesMsgHandler T _ full_build (Some h) m () = (Some NOK, m, ()).
Proof.
  intros T m. destruct (@config_loads T full_build mgrlist_env "/etc/mgrlist.conf" mgrlist mgrlist_ok
    ltac:(vm_compute; reflexivity)) as (h & Hi & Hkeys & _).
  exists h. split; [exact Hi|].
  destruct (@unrouted_refused T ex_managers full_build (Some h) fresh_counters 5 5 m ())
    as (_ & _ & Ha & _); [|exact Ha].
  intros h' k Hh' Hk. injection Hh' as <-. apply Hkeys in Hk. vm_compute in Hk.
  repeat (apply elem_of_cons in Hk as [->|Hk]; [vm_compute; reflexivity|]).
  exfalso. exact (not_elem_of_nil _ Hk).
Defined.

Lemma unknown_manager_inherits_witness :
  let T := list_table false in
  ∃ h, @hostIf_initalize_ConfigManger T full_build mgrlist_env "/etc/mgrlist.conf" = Some h
    ∧ @g_hash_table_lookup T h "Device.X_RDK_WebConfig" = Some HOSTIF_InterfaceStack.
Proof.
  intros T.
  destruct (@unknown_manager_inherits T full_build mgrlist_env "/etc/mgrlist.conf" (take 9 mgrlist)
    "Device.InterfaceStack" "ifStackMgr" HOSTIF_InterfaceStack "Device.X_RDK_WebConfig" "webConfigMgr"
    (drop 11 mgrlist) mgrlist_ok ltac:(vm_compute; reflexivity)
    ltac:(split; [discriminate|intros; vm_compute; reflexivity])
    ltac:(intros p; vm_compute; reflexivity)) as (h & Hi & _ & Hl).
  exists h. split; [exact Hi|exact Hl].
Defined.

Lemma load_telemetry_once_witness :
  occurrences (t2CountNotify "TR69HOSTIF_GET_200_WITHIN_1MIN")
    (run_counts full_build "TR69HOSTIF_GET_200_WITHIN_1MIN" "TR69HOSTIF_GET_1000_WITHIN_5MIN"
       fresh_counters ((1000, 1000) :: replicate 300 (1010, 1010))).2 = 1%nat.
Proof.
  destruct (load_telemetry_once full_build "TR69HOSTIF_GET_200_WITHIN_1MIN"
    "TR69HOSTIF_GET_1000_WITHIN_5MIN" 1000 1000 (replicate 300 (1010, 1010)) eq_refl
    ltac:(discriminate) ltac:(discriminate) ltac:(vm_compute; reflexivity)) as [-> _].
  vm_compute. reflexivity.
Defined.

End MsgHandler.
