(* ===== verification/WalDB.v ===== *)
(** * Looking a parameter up in the data model

    [WalDB] models the exact lookups of parodusClient/waldb/waldb.cpp: the
    search of the data model for the entry of a parameter name, with the
    rewriting of instance numbers into the data model's placeholder.  The XML
    document is tinyxml2's and a parameter ([TinyXml]): a node has a value,
    attributes in order, and the children that FirstChild and NextSibling
    enumerate.  Buffers are of 512 bytes in the code: an operation that would
    write or read outside one, or follow a null pointer, is [None]. *)
From stdpp Require Import base list strings.
From Stdlib Require Import Ascii ZArith Lia.
From S2P Require Import Prelude HostIf.

Class TinyXml := {
  XMLNode : Type;
  Value : XMLNode → string;
  (** [ToElement()] is not NULL *)
  is_element : XMLNode → bool;
  attributes : XMLNode → list (string * string);
  children : XMLNode → list XMLNode
}.

#[local] Arguments streq : simpl never.

Module WalDB.

Definition MAX_PARAMETER_LENGTH : nat := 512.

(** The fields are C strings, [None] the null pointer they start as. *)
Record DataModelParam := mkParam {
  objectName : option string;
  paramName : option string;
  dataType : option string;
  access : option string;
  defaultValue : option string;
  bsUpdate : option string
}.

Definition zero_param : DataModelParam := mkParam None None None None None None.

(** ** Characters of a C string *)
Fixpoint find_first_digit (s : string) : option nat :=
  match s with
  | EmptyString => None
  | String c s' => if is_digit c then Some O else S <$> find_first_digit s'
  end.

(** The character at an index; the terminator counts, nothing beyond does. *)
Fixpoint char_at (s : string) (i : nat) : option ascii :=
  match s, i with
  | EmptyString, O => Some NUL
  | EmptyString, S _ => None
  | String c _, O => Some c
  | String _ s', S i' => char_at s' i'
  end.

(** The character before an index; before the buffer there is none. *)
Definition char_before (s : string) (i : nat) : option ascii :=
  match i with O => None | S i' => char_at s i' end.

Fixpoint count_digits (s : string) : nat :=
  match s with
  | String c s' => if is_digit c then S (count_digits s') else O
  | EmptyString => O
  end.

Definition getNumberOfDigitsInInstanceNumber (s : string) (position : nat) : nat :=
  count_digits (str_drop position s).

(** [strcat] into a buffer of MAX_PARAMETER_LENGTH bytes. *)
Definition buf_cat (a b : string) : option string :=
  if (String.length a + String.length b <? MAX_PARAMETER_LENGTH)%nat then Some (a +:+ b) else None.

(** The first [n] characters and a terminator in such a buffer. *)
Definition buf_take (n : nat) (s : string) : option string :=
  if (n <? MAX_PARAMETER_LENGTH)%nat then Some (str_take n s) else None.

(** [find_last_of(DOT)]: what comes before the last dot. *)
Fixpoint before_last_dot (s : string) : option string :=
  match s with
  | EmptyString => None
  | String c s' =>
      match before_last_dot s' with
      | Some b => Some (String c b)
      | None => if Ascii.eqb c DOT then Some EmptyString else None
      end
  end.

Section lookup.
Context `{TinyXml}.

Fixpoint assoc (k : string) (l : list (string * string)) : option string :=
  match l with
  | [] => None
  | (k', v) :: l' => if streq k' k then Some v else assoc k l'
  end.

(** [Attribute(name)] and the value of [FirstAttribute()]. *)
Definition Attribute (n : XMLNode) (name : string) : option string := assoc name (attributes n).
Definition first_attribute (n : XMLNode) : option string := snd <$> head (attributes n).

Definition element_named (name : string) (n : XMLNode) : bool := is_element n && streq (Value n) name.
Definition FirstChildElement (n : XMLNode) (name : string) : option XMLNode :=
  List.find (element_named name) (children n).

(** The node a name search stops at and its following siblings. *)
Fixpoint from_element (name : string) (l : list XMLNode) : list XMLNode :=
  match l with
  | [] => []
  | n :: l' => if element_named name n then l else from_element name l'
  end.

(** [strdup] of an attribute that may be missing keeps the old field. *)
Definition keep (old new : option string) : option string :=
  match new with Some v => Some v | None => old end.

(** The children of the syntax element: the last element other than
    [default] names the type. *)
Fixpoint read_syntax (l : list XMLNode) (dm : DataModelParam) : option DataModelParam :=
  match l with
  | [] => Some dm
  | n :: l' =>
      if negb (is_element n) then read_syntax l' dm
      else if streq "default" (Value n) then
        v ← Attribute n "value";
        read_syntax l' (mkParam (objectName dm) (paramName dm) (dataType dm) (access dm) (Some v) (bsUpdate dm))
      else
        read_syntax l' (mkParam (objectName dm) (paramName dm) (Some (Value n)) (access dm)
                                (defaultValue dm) (bsUpdate dm))
  end.

(** The answers of the searches: [Some None] is no match. *)
Definition search := option (option DataModelParam).

Definition checkforParameterNameMatch (n : XMLNode) (ObjectName name : string) (dm : DataModelParam)
  : search :=
  match first_attribute n with
  | Some a =>
      if is_element n && streq (Value n) "parameter" then
        ParameterName ← buf_cat ObjectName a;
        if streq ParameterName name then
          syntax ← FirstChildElement n "syntax";
          Some <$> read_syntax (children syntax)
            (mkParam (Some name) (keep (paramName dm) (Attribute n "base")) (dataType dm)
               (keep (access dm) (Attribute n "access")) (defaultValue dm)
               (keep (bsUpdate dm) (Attribute n "bsUpdate")))
        else Some None
      else Some None
  | None => Some None
  end.

Definition checkforObjectMatch (n : XMLNode) (objectName : string) : bool :=
  match first_attribute n with
  | Some a => is_element n && streq (Value n) "object" && streq a objectName
  | None => false
  end.

Fixpoint search_params (l : list XMLNode) (ObjectName name : string) (dm : DataModelParam) : search :=
  match l with
  | [] => Some None
  | n :: l' =>
      r ← checkforParameterNameMatch n ObjectName name dm;
      match r with
      | Some dm' => Some (Some dm')
      | None => search_params l' ObjectName name dm
      end
  end.

Fixpoint search_objects (l : list XMLNode) (ObjectName name : string) (dm : DataModelParam) : search :=
  match l with
  | [] => Some None
  | n :: l' =>
      if is_element n && checkforObjectMatch n ObjectName then
        r ← search_params (children n) ObjectName name dm;
        match r with
        | Some dm' => Some (Some dm')
        | None => search_objects l' ObjectName name dm
        end
      else search_objects l' ObjectName name dm
  end.

(** The object part of a name, as the 512-byte buffer holds it. *)
Definition object_of (name : string) : option string :=
  match before_last_dot name with
  | Some b => buf_cat b "."
  | None => Some (str_take (MAX_PARAMETER_LENGTH - 1) name)
  end.

(** The objects of the model. *)
Definition model_objects (doc : XMLNode) : option (list XMLNode) :=
  d ← FirstChildElement doc "dm:document";
  m ← FirstChildElement d "model";
  Some (from_element "object" (children m)).

Definition checkforParameterMatch (doc : XMLNode) (name : string) (dm : DataModelParam) : search :=
  paramObject ← object_of name;
  objects ← model_objects doc;
  search_objects objects paramObject name dm.

(** A search that goes on with [rest] when it finds nothing. *)
Definition or_else (r : search) (rest : search) : search :=
  m ← r; match m with Some dm => Some (Some dm) | None => rest end.

(** [a.b.1.c]: the digits from [found] on are the whole of a path component.
    The tests are in the code's order, and the second is not made when the
    first fails. *)
Definition whole_component (s : string) (found digits : nat) : option bool :=
  c ← char_at s (found + digits);
  if Ascii.eqb c DOT then
    c' ← char_before s found; Some (Ascii.eqb c' DOT)
  else Some false.

(** The second number of the name, looked for in [splitParam]: the text the
    buffer is left with, and what has been tried on the way. *)
Definition second_instance (doc : XMLNode) (name : string) (first_i : nat) (split : string)
    (dm : DataModelParam) (last : string → search) : search :=
  match find_first_digit split with
  | None => last split
  | Some found =>
      new ← buf_take first_i name;
      let digits := getNumberOfDigitsInInstanceNumber split found in
      whole ← whole_component split found digits;
      if (whole : bool) then
        s1 ← buf_cat (str_take found split) "{i}";
        s2 ← buf_cat s1 (str_drop (found + digits) split);
        new' ← buf_cat new (str_drop 3 s2);
        or_else (checkforParameterMatch doc new' dm) (last s2)
      else
        let str := str_drop (found + 1) split in
        match find_first_digit str with
        | None => last split
        | Some found' =>
            s1 ← buf_cat (str_take (found' + found) split) ".{i}";
            s2 ← buf_cat s1 (str_drop (found' + 1) str);
            new' ← buf_cat new (str_drop 3 s2);
            or_else (checkforParameterMatch doc new' dm) (last s2)
        end
  end.

(** The last attempt: what precedes the first number, then [splitParam]. *)
Definition last_attempt (doc : XMLNode) (name : string) (found : nat) (dm : DataModelParam)
    (split : string) : search :=
  new ← buf_cat (str_take found name) split;
  checkforParameterMatch doc new dm.

Definition getParamInfoFromDataModel (doc : XMLNode) (name : string) (dm : DataModelParam) : search :=
  match find_first_digit name with
  | None => checkforParameterMatch doc name dm
  | Some found =>
      or_else (checkforParameterMatch doc name dm)
      (let digits := getNumberOfDigitsInInstanceNumber name found in
       whole ← whole_component name found digits;
       if (whole : bool) then
         new ← buf_take found name;
         split ← buf_cat "{i}" (str_drop (found + digits) name);
         new' ← buf_cat new split;
         or_else (checkforParameterMatch doc new' dm)
                 (second_instance doc name (found + 1) split dm (last_attempt doc name found dm))
       else
         _ ← buf_take (found + 1) name;
         second_instance doc name (found + 1)
           (str_take (MAX_PARAMETER_LENGTH - 1) (str_drop (found + 1) name)) dm
           (last_attempt doc name found dm))
  end.

(** ** What a search finds *)

(** A parameter entry of an object, and what is read from it. *)
Definition entry (o p : XMLNode) (obj name : string) : Prop :=
  is_element o = true ∧ Value o = "object"%string ∧ first_attribute o = Some obj
  ∧ p ∈ children o ∧ is_element p = true ∧ Value p = "parameter"%string
  ∧ ∃ a, first_attribute p = Some a ∧ obj +:+ a = name.

Definition entry_info (p : XMLNode) (name : string) (dm : DataModelParam) : option DataModelParam :=
  syntax ← FirstChildElement p "syntax";
  read_syntax (children syntax)
    (mkParam (Some name) (keep (paramName dm) (Attribute p "base")) (dataType dm)
       (keep (access dm) (Attribute p "access")) (defaultValue dm) (keep (bsUpdate dm) (Attribute p "bsUpdate"))).

(** A parameter entry the code reads without leaving a buffer or following a
    null pointer. *)
Definition param_ok (obj : string) (p : XMLNode) : Prop :=
  is_element p = true → Value p = "parameter"%string →
  (∀ a, first_attribute p = Some a → (String.length obj + String.length a < MAX_PARAMETER_LENGTH)%nat)
  ∧ ∃ syntax, FirstChildElement p "syntax" = Some syntax
      ∧ Forall (λ n, is_element n = true → Value n = "default"%string → is_Some (Attribute n "value"))
               (children syntax).

Definition object_ok (o : XMLNode) : Prop :=
  ∀ obj, first_attribute o = Some obj → Forall (param_ok obj) (children o).

Lemma read_syntax_ok l dm :
  Forall (λ n, is_element n = true → Value n = "default"%string → is_Some (Attribute n "value")) l →
  is_Some (read_syntax l dm).
Proof.
  intros Hl. revert dm. induction Hl as [|n l Hn Hl IH]; intros dm; [by eexists|]. simpl.
  destruct (is_element n); [|apply IH]. simpl.
  destruct (streq "default" (Value n)) eqn:Hd; [|apply IH].
  apply streq_true in Hd. destruct (Hn eq_refl (eq_sym Hd)) as [v ->]. apply IH.
Qed.

Lemma entry_info_ok obj p name dm :
  is_element p = true → Value p = "parameter"%string → param_ok obj p → is_Some (entry_info p name dm).
Proof.
  intros He Hv Hp. destruct (Hp He Hv) as (_ & syntax & Hs & Hall). unfold entry_info. rewrite Hs.
  by apply read_syntax_ok.
Qed.

Definition has_name (p : XMLNode) (obj name : string) : bool :=
  match first_attribute p with Some a => streq (obj +:+ a) name | None => false end.

Lemma has_name_true p obj name :
  has_name p obj name = true ↔ ∃ a, first_attribute p = Some a ∧ obj +:+ a = name.
Proof.
  unfold has_name. destruct (first_attribute p) as [a|]; [|naive_solver].
  rewrite streq_true. naive_solver.
Qed.

Lemma name_match_spec p obj name dm :
  param_ok obj p →
  checkforParameterNameMatch p obj name dm
  = if is_element p && streq (Value p) "parameter" && has_name p obj name then Some <$> entry_info p name dm else Some None.
Proof.
  intros Hp. unfold checkforParameterNameMatch, has_name.
  destruct (first_attribute p) as [a|] eqn:Ha; [|by rewrite andb_false_r].
  destruct (is_element p) eqn:He; [|done]. destruct (streq (Value p) "parameter") eqn:Hv; [|done].
  apply streq_true in Hv. destruct (Hp He Hv) as [Hlen _]. simpl. unfold buf_cat.
  rewrite (proj2 (Nat.ltb_lt _ _) (Hlen a Ha)). cbn [mbind option_bind].
  destruct (streq (obj +:+ a) name) eqn:Heq; [|done].
  unfold entry_info. by destruct (FirstChildElement p "syntax").
Qed.

Lemma search_params_spec l obj name dm :
  Forall (param_ok obj) l →
  ∃ r, search_params l obj name dm = Some r
    ∧ match r with
      | Some dm' => ∃ p, p ∈ l ∧ is_element p = true ∧ Value p = "parameter"%string
          ∧ (∃ a, first_attribute p = Some a ∧ obj +:+ a = name) ∧ entry_info p name dm = Some dm'
      | None => ∀ p, p ∈ l → is_element p = true → Value p = "parameter"%string →
          ¬ ∃ a, first_attribute p = Some a ∧ obj +:+ a = name
      end.
Proof.
  induction 1 as [|p l Hp Hl (r & IH & Hr)].
  { exists None. split; [done|]. by intros ? ?%not_elem_of_nil. }
  cbn [search_params]. rewrite name_match_spec by done.
  destruct (is_element p && streq (Value p) "parameter" && has_name p obj name) eqn:Hb.
  - apply andb_true_iff in Hb as [[He Hv]%andb_true_iff Ha%has_name_true].
    apply streq_true in Hv. destruct (entry_info_ok obj p name dm He Hv Hp) as [dm' Hdm].
    rewrite Hdm. exists (Some dm'). split; [done|]. exists p. split; [left|done].
  - cbn [mbind option_bind]. rewrite IH. exists r. split; [done|]. destruct r as [dm'|].
    + destruct Hr as (p' & Hin & Hrest). exists p'. split; [by right|done].
    + intros p' [->|Hin]%elem_of_cons He Hv; [|by apply Hr].
      intros Ha%has_name_true. by rewrite He, Hv, streq_refl, Ha in Hb.
Qed.

Lemma object_match_spec o obj :
  is_element o && checkforObjectMatch o obj = true
  ↔ is_element o = true ∧ Value o = "object"%string ∧ first_attribute o = Some obj.
Proof.
  unfold checkforObjectMatch. destruct (is_element o); simpl; [|naive_solver].
  destruct (first_attribute o) as [a|]; simpl; [|naive_solver].
  rewrite andb_true_iff, !streq_true. naive_solver.
Qed.

Lemma search_objects_spec l obj name dm :
  Forall object_ok l →
  ∃ r, search_objects l obj name dm = Some r
    ∧ match r with
      | Some dm' => ∃ o p, o ∈ l ∧ entry o p obj name ∧ entry_info p name dm = Some dm'
      | None => ∀ o p, o ∈ l → ¬ entry o p obj name
      end.
Proof.
  induction 1 as [|o l Ho Hl (r & IH & Hr)].
  { exists None. split; [done|]. by intros ? ? ?%not_elem_of_nil. }
  cbn [search_objects]. rewrite IH.
  assert (∀ r', r' = r → (∀ p, ¬ entry o p obj name) → ∃ r, Some r' = Some r
    ∧ match r with
      | Some dm' => ∃ o0 p, o0 ∈ o :: l ∧ entry o0 p obj name ∧ entry_info p name dm = Some dm'
      | None => ∀ o0 p, o0 ∈ o :: l → ¬ entry o0 p obj name
      end) as Hskip.
  { intros r' -> Hno. exists r. split; [done|]. destruct r as [dm'|].
    - destruct Hr as (o' & p & Hin & Hrest). exists o', p. split; [by right|done].
    - intros o' p [->|Hin]%elem_of_cons; [apply Hno|by apply Hr]. }
  destruct (is_element o && checkforObjectMatch o obj) eqn:Hm.
  - apply object_match_spec in Hm as (He & Hv & Ha).
    destruct (search_params_spec (children o) obj name dm (Ho obj Ha)) as (r0 & -> & Hr0).
    cbn [mbind option_bind]. destruct r0 as [dm'|].
    + exists (Some dm'). split; [done|]. destruct Hr0 as (p & Hin & Hpe & Hpv & Hpa & Hinfo).
      exists o, p. split; [left|]. by repeat split.
    + apply Hskip; [done|]. intros p (_ & _ & _ & Hin & Hpe & Hpv & Hpa). by apply (Hr0 p).
  - apply Hskip; [done|]. intros p (He & Hv & Ha & _).
    by rewrite (proj2 (object_match_spec o obj)) in Hm.
Qed.

(** ** Names with instance numbers *)
Lemma find_first_digit_app a s :
  find_first_digit a = None → find_first_digit (a +:+ s) = (λ n, String.length a + n)%nat <$> find_first_digit s.
Proof.
  induction a as [|c a IH]; simpl; [by destruct (find_first_digit s)|].
  destruct (is_digit c); [done|]. destruct (find_first_digit a); [done|]. intros _.
  rewrite IH by done. by destruct (find_first_digit s).
Qed.

Lemma str_take_app a s : str_take (String.length a) (a +:+ s) = a.
Proof. induction a as [|c a IH]; simpl; [by destruct s|]. by rewrite IH. Qed.

Lemma str_take_app_more a s n : str_take (String.length a + n) (a +:+ s) = a +:+ str_take n s.
Proof. induction a as [|c a IH]; simpl; [done|]. by rewrite IH. Qed.

Lemma str_drop_app_more a s n : str_drop (String.length a + n) (a +:+ s) = str_drop n s.
Proof. induction a as [|c a IH]; simpl; [done|]. by rewrite IH. Qed.

Lemma str_drop_1 c s : str_drop 1 (String c s) = s.
Proof. by destruct s. Qed.

Lemma str_take_1 c s : str_take 1 (String c s) = String c EmptyString.
Proof. by destruct s. Qed.

Lemma str_drop_placeholder s : str_drop 3 ("{i}" +:+ s) = s.
Proof. by destruct s. Qed.

Lemma char_at_app a s n : char_at (a +:+ s) (String.length a + n) = char_at s n.
Proof. induction a as [|c a IH]; simpl; [done|]. apply IH. Qed.

(** A number as it appears in a name: digits only, and at least one. *)
Fixpoint all_digits (s : string) : bool :=
  match s with EmptyString => true | String c s' => is_digit c && all_digits s' end.
Definition number (s : string) : Prop := s ≠ EmptyString ∧ all_digits s = true.

(** A piece of a name without digits, starting with a dot. *)
Definition after_number (s : string) : Prop :=
  find_first_digit s = None ∧ ∃ t, s = String DOT t.

Lemma number_first n s : number n → find_first_digit (n +:+ s) = Some O.
Proof. intros [Hne Hd]. destruct n as [|c n]; [done|]. simpl in *. by destruct (is_digit c). Qed.

Lemma count_digits_number n t : all_digits n = true → count_digits (n +:+ String DOT t) = String.length n.
Proof.
  induction n as [|c n IH]; simpl; [done|]. intros [Hc Hn]%andb_true_iff. by rewrite Hc, IH.
Qed.

Lemma ends_with_dot a : last_char a = Some DOT → ∃ b, a = b +:+ "."%string.
Proof.
  intros Ha. induction a as [|c a IH]; [done|]. cbn [last_char] in Ha.
  destruct a as [|c' a]; [injection Ha as ->; by exists EmptyString|].
  destruct (IH Ha) as [b Hb]. exists (String c b). simpl. by rewrite Hb.
Qed.

Lemma char_before_dot a s : last_char a = Some DOT → char_before (a +:+ s) (String.length a) = Some DOT.
Proof.
  intros [b ->]%ends_with_dot. rewrite str_length_app, Nat.add_comm. simpl. rewrite str_app_assoc.
  rewrite <- (Nat.add_0_r (String.length b)). by rewrite char_at_app.
Qed.

(** A number between dots is recognised as a whole component. *)
Lemma whole_component_number a n t :
  last_char a = Some DOT → all_digits n = true →
  whole_component (a +:+ n +:+ String DOT t) (String.length a) (String.length n) = Some true.
Proof.
  intros Ha Hn. unfold whole_component. rewrite char_at_app.
  rewrite <- (Nat.add_0_r (String.length n)), char_at_app. cbn [char_at mbind option_bind].
  rewrite Ascii.eqb_refl, char_before_dot by done. done.
Qed.

Lemma digits_at a n t :
  all_digits n = true →
  getNumberOfDigitsInInstanceNumber (a +:+ n +:+ String DOT t) (String.length a) = String.length n.
Proof. intros Hn. unfold getNumberOfDigitsInInstanceNumber. by rewrite str_drop_app, count_digits_number. Qed.

Lemma char_before_other a s :
  a ≠ EmptyString → last_char a ≠ Some DOT →
  (c' ← char_before (a +:+ s) (String.length a); Some (Ascii.eqb c' DOT)) = Some false.
Proof.
  intros Hne Hl. induction a as [|x a IH]; [done|]. destruct a as [|y a].
  - simpl in *. f_equal. apply Ascii.eqb_neq. congruence.
  - cbn [String.length char_before]. cbn [String.append char_at].
    cbn [last_char] in Hl. specialize (IH ltac:(done) Hl). exact IH.
Qed.

Lemma or_else_same r : or_else r r = r.
Proof. by destruct r as [[dm|]|]. Qed.

Lemma or_else_None r : or_else (Some None) r = r.
Proof. done. Qed.

Lemma buf_cat_ok a b :
  (String.length a + String.length b < MAX_PARAMETER_LENGTH)%nat → buf_cat a b = Some (a +:+ b).
Proof. unfold buf_cat. intros Hl. by rewrite (proj2 (Nat.ltb_lt _ _) Hl). Qed.

Lemma buf_take_ok n s : (n < MAX_PARAMETER_LENGTH)%nat → buf_take n s = Some (str_take n s).
Proof. unfold buf_take. intros Hl. by rewrite (proj2 (Nat.ltb_lt _ _) Hl). Qed.

(** The first number of a name, when it is a component of its own. *)
Lemma first_instance doc a n rest dm :
  find_first_digit a = None → last_char a = Some DOT → number n → (∃ t, rest = String DOT t) →
  (String.length a + 3 + String.length rest < MAX_PARAMETER_LENGTH)%nat →
  getParamInfoFromDataModel doc (a +:+ n +:+ rest) dm
  = or_else (checkforParameterMatch doc (a +:+ n +:+ rest) dm)
     (or_else (checkforParameterMatch doc (a +:+ "{i}" +:+ rest) dm)
       (second_instance doc (a +:+ n +:+ rest) (String.length a + 1) ("{i}" +:+ rest) dm
          (last_attempt doc (a +:+ n +:+ rest) (String.length a) dm))).
Proof.
  intros Ha Hdot Hn [t ->] Hlen. unfold getParamInfoFromDataModel.
  rewrite (find_first_digit_app _ _ Ha), number_first by done. cbn [fmap option_fmap option_map].
  rewrite Nat.add_0_r. f_equal. rewrite digits_at by apply Hn.
  rewrite whole_component_number by (done || apply Hn). cbn [mbind option_bind].
  rewrite buf_take_ok by lia. cbn [mbind option_bind].
  rewrite str_drop_app_more, str_drop_app, str_take_app.
  rewrite (buf_cat_ok "{i}") by (simpl in *; lia). cbn [mbind option_bind].
  rewrite buf_cat_ok by (rewrite str_length_app; simpl in *; lia). done.
Qed.

Lemma last_attempt_eq doc a z dm split :
  (String.length a + String.length split < MAX_PARAMETER_LENGTH)%nat →
  last_attempt doc (a +:+ z) (String.length a) dm split = checkforParameterMatch doc (a +:+ split) dm.
Proof. intros Hl. unfold last_attempt. by rewrite str_take_app, buf_cat_ok. Qed.

(** ** Properties *)

(** A name without digits is found exactly when some object of the model
    carries its object part and has a parameter that completes it; what is
    answered is read from that parameter. *)
Theorem lookup_plain_name doc objs obj name dm :
  find_first_digit name = None → object_of name = Some obj →
  model_objects doc = Some objs → Forall object_ok objs →
  ∃ r, getParamInfoFromDataModel doc name dm = Some r
    ∧ match r with
      | Some dm' => ∃ o p, o ∈ objs ∧ entry o p obj name ∧ entry_info p name dm = Some dm'
      | None => ∀ o p, o ∈ objs → ¬ entry o p obj name
      end.
Proof.
  intros Hn Ho Hm Hok. unfold getParamInfoFromDataModel, checkforParameterMatch. rewrite Hn, Ho, Hm.
  cbn [mbind option_bind]. by apply search_objects_spec.
Qed.

(** A name with one instance number is looked up as it is and, when that
    finds nothing, with the number replaced by the placeholder. *)
Theorem lookup_one_instance doc a n c dm :
  find_first_digit a = None → last_char a = Some DOT → number n → after_number c →
  (String.length a + 3 + String.length c < MAX_PARAMETER_LENGTH)%nat →
  getParamInfoFromDataModel doc (a +:+ n +:+ c) dm
  = or_else (checkforParameterMatch doc (a +:+ n +:+ c) dm)
            (checkforParameterMatch doc (a +:+ "{i}" +:+ c) dm).
Proof.
  intros Ha Hdot Hn [Hc Hdc] Hlen. rewrite first_instance by (done || lia). f_equal.
  unfold second_instance. rewrite (find_first_digit_app "{i}" c), Hc by done.
  cbn [fmap option_fmap option_map].
  rewrite last_attempt_eq by (rewrite str_length_app; simpl; lia). apply or_else_same.
Qed.

(** A name with two instance numbers is tried in four ways, the first that
    finds an entry being the answer: as it is, with the first number replaced,
    with the second replaced and only the first digit of the first kept, and
    with both replaced. *)
Theorem lookup_two_instances doc a d n b m c dm :
  find_first_digit a = None → last_char a = Some DOT → number (String d n) →
  find_first_digit b = None → (∃ t, b = String DOT t) → last_char b = Some DOT →
  number m → after_number c →
  (String.length a + 6 + String.length b + String.length m + String.length c < MAX_PARAMETER_LENGTH)%nat →
  getParamInfoFromDataModel doc (a +:+ String d n +:+ b +:+ m +:+ c) dm
  = or_else (checkforParameterMatch doc (a +:+ String d n +:+ b +:+ m +:+ c) dm)
     (or_else (checkforParameterMatch doc (a +:+ "{i}" +:+ b +:+ m +:+ c) dm)
      (or_else (checkforParameterMatch doc (a +:+ String d EmptyString +:+ b +:+ "{i}" +:+ c) dm)
               (checkforParameterMatch doc (a +:+ "{i}" +:+ b +:+ "{i}" +:+ c) dm))).
Proof.
  intros Ha Hdot Hn Hb [tb Htb] Hbdot Hm (Hc & t & Ht) Hlen.
  set (rest := b +:+ m +:+ c).
  assert (String.length rest = String.length b + String.length m + String.length c)%nat as Hlr
    by (unfold rest; rewrite !str_length_app; lia).
  rewrite first_instance by (done || lia || (unfold rest; rewrite Htb; by eexists)).
  f_equal. f_equal.
  assert (last_char ("{i}" +:+ b) = Some DOT) as Hsplit.
  { apply ends_with_dot in Hbdot as [b' ->]. rewrite <- str_app_assoc.
    change "."%string with (String DOT EmptyString). apply last_char_app. }
  assert (find_first_digit ("{i}" +:+ b) = None) as Hfd by (by rewrite find_first_digit_app, Hb).
  unfold second_instance. unfold rest. rewrite <- (str_app_assoc "{i}" b).
  rewrite (find_first_digit_app _ _ Hfd), number_first by done. cbn [fmap option_fmap option_map].
  rewrite Nat.add_0_r, buf_take_ok by lia. cbn [mbind option_bind].
  rewrite Ht, digits_at, whole_component_number, <- Ht by (done || apply Hm). cbn [mbind option_bind].
  rewrite str_take_app, str_drop_app_more, str_drop_app.
  rewrite buf_cat_ok by (rewrite str_length_app; simpl; lia). cbn [mbind option_bind].
  rewrite buf_cat_ok by (rewrite !str_length_app; simpl; lia). cbn [mbind option_bind].
  rewrite str_take_app_more. change (str_take 1 (String d n +:+ b +:+ m +:+ c)) with (String d (str_take 0 (n +:+ b +:+ m +:+ c))).
  replace (str_take 0 (n +:+ b +:+ m +:+ c)) with EmptyString by (by destruct (n +:+ b +:+ m +:+ c)).
  rewrite (str_app_assoc ("{i}" +:+ b)), (str_app_assoc "{i}" b).
  change 3%nat with (String.length "{i}"). rewrite str_drop_app.
  rewrite buf_cat_ok by (rewrite !str_length_app; simpl; lia). cbn [mbind option_bind].
  rewrite (str_app_assoc a). f_equal.
  by rewrite last_attempt_eq by (rewrite !str_length_app; simpl; lia).
Qed.

(** Scanning a text that holds a lone digit [x] inside a component and, after
    that component, a number that starts with [e]. *)
Lemma split_after_digit p x q e m :
  find_first_digit p = None → is_digit x = true → find_first_digit q = None →
  (∃ y q', q = String y q' ∧ is_digit y = false ∧ y ≠ DOT) → is_digit e = true →
  let s := p +:+ String x ((q +:+ ".") +:+ String e m) in
  find_first_digit s = Some (String.length p)
  ∧ getNumberOfDigitsInInstanceNumber s (String.length p) = 1%nat
  ∧ whole_component s (String.length p) 1 = Some false
  ∧ str_drop (String.length p + 1) s = (q +:+ ".") +:+ String e m
  ∧ find_first_digit ((q +:+ ".") +:+ String e m) = Some (S (String.length q))
  ∧ str_drop (S (String.length q) + 1) ((q +:+ ".") +:+ String e m) = m
  ∧ str_take (S (String.length q) + String.length p) s = p +:+ String x q.
Proof.
  intros Hp Hx Hq (y & q' & -> & Hy & Hyd) He s. unfold s.
  assert (find_first_digit (String y q' +:+ ".") = None) as Hq' by (by rewrite find_first_digit_app).
  split_and!.
  - rewrite (find_first_digit_app _ _ Hp). cbn [find_first_digit]. rewrite Hx.
    cbn [fmap option_fmap option_map]. by rewrite Nat.add_0_r.
  - unfold getNumberOfDigitsInInstanceNumber. rewrite str_drop_app. cbn [String.append count_digits].
    by rewrite Hx, Hy.
  - unfold whole_component. rewrite char_at_app. cbn [String.append char_at mbind option_bind].
    by rewrite (proj2 (Ascii.eqb_neq _ _) Hyd).
  - by rewrite str_drop_app_more, str_drop_1.
  - rewrite (find_first_digit_app _ _ Hq'). cbn [find_first_digit]. rewrite He, str_length_app.
    cbn [fmap option_fmap option_map String.length]. f_equal. lia.
  - replace (S (String.length (String y q')) + 1)%nat with (String.length (String y q' +:+ ".") + 1)%nat
      by (rewrite str_length_app; simpl; lia).
    by rewrite str_drop_app_more, str_drop_1.
  - rewrite Nat.add_comm, str_take_app_more. f_equal. cbn [str_take]. f_equal.
    rewrite (str_app_assoc (String y q')). apply str_take_app.
Qed.

(** When the component between the two numbers has a digit of its own, as
    in IPv4Address, the second number is replaced digit by digit: only its
    first digit becomes the placeholder, so an entry is found for a second
    number below ten and not looked for above. *)
Theorem lookup_second_instance_after_digit doc a d n b1 x y b2 e m c dm :
  find_first_digit a = None → last_char a = Some DOT → number (String d n) →
  find_first_digit b1 = None → (∃ t, b1 = String DOT t) → is_digit x = true →
  is_digit y = false → y ≠ DOT → find_first_digit b2 = None → is_digit e = true →
  after_number c →
  let b := b1 +:+ String x (String y b2) in
  let m := String e m in
  (String.length a + 8 + String.length b + String.length m + String.length c < MAX_PARAMETER_LENGTH)%nat →
  getParamInfoFromDataModel doc (a +:+ String d n +:+ b +:+ "." +:+ m +:+ c) dm
  = or_else (checkforParameterMatch doc (a +:+ String d n +:+ b +:+ "." +:+ m +:+ c) dm)
     (or_else (checkforParameterMatch doc (a +:+ "{i}" +:+ b +:+ "." +:+ m +:+ c) dm)
      (or_else (checkforParameterMatch doc (a +:+ String d EmptyString +:+ b +:+ ".{i}" +:+ str_drop 1 m +:+ c) dm)
               (checkforParameterMatch doc (a +:+ "{i}" +:+ b +:+ ".{i}" +:+ str_drop 1 m +:+ c) dm))).
Proof.
  intros Ha Hdot Hn Hb1 [tb Htb] Hx Hy Hyd Hb2 He (Hc & t & Ht) b m' Hlen.
  set (rest := b +:+ "." +:+ m' +:+ c).
  assert (String.length rest = String.length b + 1 + String.length m' + String.length c)%nat as Hlr
    by (unfold rest; rewrite !str_length_app; simpl; lia).
  rewrite first_instance by (done || lia || (unfold rest, b; rewrite Htb; by eexists)).
  f_equal. f_equal.
  set (p := "{i}" +:+ b1). set (q := String y b2).
  assert (find_first_digit p = None) as Hp by (unfold p; by rewrite find_first_digit_app, Hb1).
  assert (find_first_digit q = None) as Hq by (unfold q; cbn [find_first_digit]; by rewrite Hy, Hb2).
  assert ("{i}" +:+ rest = p +:+ String x ((q +:+ ".") +:+ m' +:+ c)) as Hsplit.
  { unfold rest, b, p, q. by rewrite !str_app_assoc. }
  destruct (split_after_digit p x q e (m +:+ c)) as (E1 & E2 & E3 & E4 & E5 & E6 & E7);
    try done; [by exists y, b2|].
  unfold second_instance. rewrite Hsplit. change (m' +:+ c) with (String e (m +:+ c)).
  rewrite E1, buf_take_ok by lia. cbn [mbind option_bind].
  rewrite E2, E3. cbn [mbind option_bind]. rewrite E4, E5, E7.
  assert (String.length p = 3 + String.length b1)%nat as Hlp by (unfold p; by rewrite str_length_app).
  assert (String.length b = String.length b1 + 1 + String.length q)%nat as Hlb
    by (unfold b; rewrite str_length_app; simpl; lia).
  assert (String.length (p +:+ String x q) = 4 + String.length b1 + String.length q)%nat as Hl1.
  { rewrite str_length_app, Hlp. change (String.length (String x q)) with (S (String.length q)). lia. }
  change (String.length ".{i}") with 4%nat in *.
  rewrite buf_cat_ok by (rewrite Hl1; change (String.length ".{i}") with 4%nat; lia).
  cbn [mbind option_bind]. rewrite E6.
  assert (String.length m' = S (String.length m)) as Hlm by done.
  rewrite buf_cat_ok
    by (rewrite (str_length_app (p +:+ String x q)), (str_length_app m), Hl1;
        change (String.length ".{i}") with 4%nat; lia).
  cbn [mbind option_bind].
  rewrite str_take_app_more.
  cbn [String.append]. rewrite str_take_1.
  assert (((p +:+ String x q) +:+ ".{i}") +:+ m +:+ c = "{i}" +:+ b +:+ ".{i}" +:+ m +:+ c) as ->.
  { unfold p, b. fold q. rewrite !str_app_assoc. done. }
  rewrite str_drop_placeholder.
  assert (String.length (b +:+ ".{i}" +:+ m +:+ c)
          = String.length b + 4 + String.length m + String.length c)%nat as Hl2.
  { rewrite !str_length_app. change (String.length ".{i}") with 4%nat. lia. }
  rewrite buf_cat_ok by (rewrite str_length_app, Hl2; change (String.length (String d EmptyString)) with 1%nat; lia).
  cbn [mbind option_bind].
  rewrite (str_app_assoc a). unfold m'. rewrite !str_drop_1. f_equal.
  by rewrite last_attempt_eq
    by (rewrite (str_length_app "{i}"), Hl2; change (String.length "{i}") with 3%nat; lia).
Qed.

(** A name with a path component that ends in a number of two digits or
    more without being one makes the lookup read the byte before a local
    buffer, unless the data model has the name as it is. *)
Theorem lookup_reads_before_buffer doc a d n t dm :
  find_first_digit a = None → last_char a ≠ Some DOT → number (String d n) → number n →
  (String.length a + 2 < MAX_PARAMETER_LENGTH)%nat →
  (String.length (n +:+ String DOT t) < MAX_PARAMETER_LENGTH)%nat →
  checkforParameterMatch doc (a +:+ String d n +:+ String DOT t) dm = Some None →
  a ≠ EmptyString →
  getParamInfoFromDataModel doc (a +:+ String d n +:+ String DOT t) dm = None.
Proof.
  intros Ha Hdot Hdn Hn Hlen Hlen' Hno Hne. unfold getParamInfoFromDataModel.
  rewrite (find_first_digit_app _ _ Ha), number_first by done. cbn [fmap option_fmap option_map].
  rewrite Nat.add_0_r, Hno, or_else_None, digits_at by apply Hdn.
  assert (whole_component (a +:+ String d n +:+ String DOT t) (String.length a) (String.length (String d n))
          = Some false) as ->.
  { unfold whole_component. rewrite char_at_app.
    rewrite <- (Nat.add_0_r (String.length (String d n))), char_at_app. cbn [char_at mbind option_bind].
    rewrite Ascii.eqb_refl. by apply char_before_other. }
  cbn [mbind option_bind]. rewrite buf_take_ok by lia. cbn [mbind option_bind].
  rewrite str_drop_app_more. cbn [String.append str_drop].
  rewrite str_take_all by (unfold MAX_PARAMETER_LENGTH in *; lia).
  unfold second_instance. rewrite number_first by done.
  rewrite buf_take_ok by lia. cbn [mbind option_bind].
  pose proof (digits_at EmptyString n t (proj2 Hn)) as Hd. cbn [String.append String.length] in Hd.
  rewrite Hd. unfold whole_component. cbn [Nat.add].
  rewrite <- (Nat.add_0_r (String.length n)), char_at_app. cbn [char_at mbind option_bind].
  by rewrite Ascii.eqb_refl.
Qed.

End lookup.
(** ** Witnesses *)

(** A concrete document tree. *)
Inductive toy_node :=
  | Elem (value : string) (attrs : list (string * string)) (kids : list toy_node)
  | Text (text : string).

#[local] Instance toy_xml : TinyXml := {
  XMLNode := toy_node;
  Value := λ n, match n with Elem v _ _ => v | Text t => t end;
  is_element := λ n, match n with Elem _ _ _ => true | Text _ => false end;
  attributes := λ n, match n with Elem _ a _ => a | Text _ => [] end;
  children := λ n, match n with Elem _ _ k => k | Text _ => [] end
}.

Definition toy_param (name type : string) : toy_node :=
  Elem "parameter" [("base", name); ("access", "readWrite")]%string
    [Elem "syntax" [] [Text " comment "; Elem type [] []]].

Definition toy_object (name : string) (params : list toy_node) : toy_node :=
  Elem "object" [("base"%string, name)] params.

Definition toy_model (objects : list toy_node) : toy_node :=
  Elem "" [] [Elem "dm:document" [] [Elem "model" [] objects]].

Definition ex_doc : @XMLNode toy_xml :=
  toy_model
    [toy_object "Device.DeviceInfo." [toy_param "Manufacturer" "string"];
     toy_object "Device.DeviceInfo.XRDsp.XR19." [toy_param "Enable" "boolean"];
     toy_object "Device.IP.Interface.{i}." [toy_param "Enable" "boolean"];
     toy_object "Device.IP.Interface.{i}.IPv4Address.{i}." [toy_param "IPAddress" "string"];
     toy_object "Device.Ethernet.Link.{i}.Lower.{i}." [toy_param "Name" "string"]].

Lemma toy_param_ok obj name type :
  (String.length obj + String.length name < MAX_PARAMETER_LENGTH)%nat → type ≠ "default"%string →
  param_ok obj (toy_param name type).
Proof.
  intros Hl Ht _ _. split; [by intros a [= <-]|]. eexists. split; [done|].
  apply List.Forall_cons; [done|]. apply List.Forall_cons; [done|apply List.Forall_nil].
Qed.

Lemma lookup_plain_name_witness :
  ∃ dm', getParamInfoFromDataModel ex_doc "Device.DeviceInfo.Manufacturer" zero_param = Some (Some dm').
Proof.
  assert (∃ objs, model_objects ex_doc = Some objs) as [objs Hobjs] by (eexists; vm_compute; reflexivity).
  assert (Forall object_ok objs) as Hok.
  { vm_compute in Hobjs. injection Hobjs as <-.
    repeat (apply List.Forall_cons; [intros obj Hobj; injection Hobj as <-; apply List.Forall_cons;
      [apply toy_param_ok; [apply Nat.ltb_lt; vm_compute; reflexivity|discriminate]|apply List.Forall_nil]|]).
    apply List.Forall_nil. }
  destruct (@lookup_plain_name toy_xml ex_doc objs "Device.DeviceInfo." "Device.DeviceInfo.Manufacturer" zero_param
              ltac:(vm_compute; reflexivity) ltac:(vm_compute; reflexivity) Hobjs Hok)
    as (r & Hr & Hspec).
  vm_compute in Hr. injection Hr as <-. eexists. vm_compute. reflexivity.
Defined.

Lemma lookup_one_instance_witness :
  getParamInfoFromDataModel ex_doc "Device.IP.Interface.12.Enable" zero_param
  = checkforParameterMatch ex_doc "Device.IP.Interface.{i}.Enable" zero_param.
Proof.
  exact (@lookup_one_instance toy_xml ex_doc "Device.IP.Interface." "12" ".Enable" zero_param
    ltac:(vm_compute; reflexivity) ltac:(vm_compute; reflexivity) ltac:(split; [discriminate|vm_compute; reflexivity])
    ltac:(split; [vm_compute; reflexivity|by eexists]) ltac:(apply Nat.ltb_lt; vm_compute; reflexivity)).
Defined.

Lemma lookup_two_instances_witness :
  getParamInfoFromDataModel ex_doc "Device.Ethernet.Link.1.Lower.12.Name" zero_param
  = checkforParameterMatch ex_doc "Device.Ethernet.Link.{i}.Lower.{i}.Name" zero_param.
Proof.
  refine (eq_trans (@lookup_two_instances toy_xml ex_doc "Device.Ethernet.Link." "1" "" ".Lower." "12" ".Name" zero_param
    ltac:(vm_compute; reflexivity) ltac:(vm_compute; reflexivity) ltac:(split; [discriminate|vm_compute; reflexivity])
    ltac:(vm_compute; reflexivity) ltac:(by eexists) ltac:(vm_compute; reflexivity)
    ltac:(split; [discriminate|vm_compute; reflexivity])
    ltac:(split; [vm_compute; reflexivity|by eexists]) ltac:(apply Nat.ltb_lt; vm_compute; reflexivity)) _). vm_compute. reflexivity.
Defined.

Lemma lookup_second_instance_after_digit_witness :
  (∃ dm, getParamInfoFromDataModel ex_doc "Device.IP.Interface.1.IPv4Address.2.IPAddress" zero_param
         = Some (Some dm))
  ∧ getParamInfoFromDataModel ex_doc "Device.IP.Interface.1.IPv4Address.12.IPAddress" zero_param = Some None.
Proof.
  split.
  - eexists. vm_compute. reflexivity.
  - refine (eq_trans (@lookup_second_instance_after_digit toy_xml ex_doc "Device.IP.Interface." "1" "" ".IPv" "4" "A" "ddress"
      "1" "2" ".IPAddress" zero_param
      ltac:(vm_compute; reflexivity) ltac:(vm_compute; reflexivity) ltac:(split; [discriminate|vm_compute; reflexivity])
      ltac:(vm_compute; reflexivity) ltac:(by eexists) ltac:(vm_compute; reflexivity)
      ltac:(vm_compute; reflexivity) ltac:(discriminate) ltac:(vm_compute; reflexivity) ltac:(vm_compute; reflexivity)
      ltac:(split; [vm_compute; reflexivity|by eexists]) ltac:(apply Nat.ltb_lt; vm_compute; reflexivity)) _). vm_compute. reflexivity.
Defined.

Lemma lookup_reads_before_buffer_witness :
  getParamInfoFromDataModel ex_doc "Device.DeviceInfo.XRDsp.XR19.Disable" zero_param = None.
Proof.
  exact (@lookup_reads_before_buffer toy_xml ex_doc "Device.DeviceInfo.XRDsp.XR" "1" "9" "Disable" zero_param
    ltac:(vm_compute; reflexivity) ltac:(discriminate) ltac:(split; [discriminate|vm_compute; reflexivity])
    ltac:(split; [discriminate|vm_compute; reflexivity]) ltac:(apply Nat.ltb_lt; vm_compute; reflexivity)
    ltac:(apply Nat.ltb_lt; vm_compute; reflexivity) ltac:(vm_compute; reflexivity) ltac:(discriminate)).
Defined.

End WalDB.
