(* ===== verification/WalList.v ===== *)
(** * Wildcards of the data model

    [WalList] models the enumeration half of parodusClient/waldb/waldb.cpp: the
    expansion of a partial path into parameter names, with the instances of
    multi-instance objects counted by asking for the number-of-entries
    parameter, and the complete list of the model's parameters.  The walk is
    the code's cursor over the XML tree, moved by FirstChild, NextSibling and
    Parent. *)
From stdpp Require Import base list strings.
From Stdlib Require Import Ascii ZArith Lia.
From S2P Require Import Prelude HostIf WalDB.
Import WalDB (MAX_PARAMETER_LENGTH, first_attribute, Attribute).

#[local] Arguments streq : simpl never.

Module WalList.

Definition MAX_DATATYPE_LENGTH : nat := 48.
Definition MAX_NUM_PARAMETERS : nat := 2048.
Definition INSTANCE_NUMBER_INDICATOR : string := "{i}.".

Inductive DB_STATUS : Type :=
  | DB_SUCCESS | DB_FAILURE | DB_ERR_WILDCARD_NOT_SUPPORTED | DB_ERR_INVALID_PARAMETER
  | DB_ERR_TIMEOUT | DB_ERR_NOT_EXIST.

(** ** Names.  [None] is a read or a write outside the string's buffer. *)

(** [strcmp(s + strlen(s) - n, suffix) == 0] for a suffix of [n] characters. *)
Definition ends_with (suffix s : string) : option bool :=
  if (String.length s <? String.length suffix)%nat then None
  else Some (streq (str_drop (String.length s - String.length suffix) s) suffix).

Definition isParamEndsWithInstance (name : string) : option bool :=
  ends_with INSTANCE_NUMBER_INDICATOR name.
Definition isWildCardParam (name : string) : option bool := ends_with "." name.

Definition replaceWithInstanceNumber (name : string) (instanceNumber : Z) : string :=
  if contains INSTANCE_NUMBER_INDICATOR name
  then str_take (String.length name - 4) name +:+ str_take 9 (dec instanceNumber +:+ ".")
  else name.

(** The digits up to the next dot, accumulated in an int. *)
Fixpoint read_instance (s : string) (acc : Z) : Z * string :=
  match s with
  | EmptyString => (acc, EmptyString)
  | String c s' =>
      if Ascii.eqb c DOT then (acc, s) else read_instance s' (int32 (acc * 10 + (byte_val c - 48)))
  end.

Definition instance_digit (c : ascii) : bool := (48 <=? byte_val c) && (byte_val c <=? 56).

(** One character further; stepping over the terminator leaves the string. *)
Definition advance (s : string) : option string :=
  match s with String _ s' => Some s' | EmptyString => None end.

Definition advance3 (s : string) : option string :=
  s1 ← advance s; s2 ← advance s1; advance s2.

(** The loop of checkMatchingParameter; [back] is the character two before
    [attr], [back1] the one before. *)
Fixpoint matching_loop (fuel : nat) (back back1 : option ascii) (attr param : string) (inst : Z)
  : option (bool * Z) :=
  match fuel with
  | O => None
  | S fuel' =>
      match attr, param with
      | String a attr', String p param' =>
          if Ascii.eqb a p then matching_loop fuel' back1 (Some a) attr' param' inst
          else if Ascii.eqb a "{"%char && instance_digit p then
            attr1 ← advance3 attr;
            let '(n, param1) := read_instance param 0 in
            attr2 ← advance attr1;
            param2 ← advance param1;
            matching_loop fuel' (WalDB.char_at attr 2) (WalDB.char_at attr 3) attr2 param2 n
          else Some (false, 0)
      | EmptyString, String _ _ => Some (false, 0)
      | String _ _, EmptyString => Some (true, 0)
      | EmptyString, EmptyString =>
          c ← back;
          Some (true, if Ascii.eqb c "}"%char then inst else 0)
      end
  end.

(** Whether the name matches the attribute, and the instance number to use when
    the attribute ends in the placeholder.  The skip over the placeholder takes
    three characters whatever they are; the models only have {i}. *)
Definition checkMatchingParameter (attr param : string) : option (bool * Z) :=
  matching_loop (S (String.length param)) None None attr param 0.

Fixpoint to_dot (s : string) : option string :=
  match s with
  | EmptyString => None
  | String c s' => if Ascii.eqb c DOT then Some s else to_dot s'
  end.

(** What stays of [currentParam] is the text it shares with the attribute,
    instance numbers standing for placeholders; the rest is the attribute's. *)
Fixpoint append_loop (fuel : nat) (cur att : string) : option string :=
  match fuel with
  | O => None
  | S fuel' =>
      match cur, att with
      | String c cur', String a att' =>
          if Ascii.eqb c a then String c <$> append_loop fuel' cur' att'
          else if Ascii.eqb a "{"%char then
            att1 ← advance3 att;
            cur1 ← to_dot cur;
            att2 ← advance att1;
            cur2 ← advance cur1;
            let kept := str_take (String.length cur - String.length cur2) cur in
            (λ s, kept +:+ s) <$> append_loop fuel' cur2 att2
          else Some att
      | _, _ => Some att
      end
  end.

Definition appendNextObject (currentParam pAttparam : string) : option string :=
  append_loop (S (String.length currentParam)) currentParam pAttparam.

(** ** Counting instances *)
Definition instanceNumParamHash : list (string * string) :=
  [("Device.DeviceInfo.X_RDKCENTRAL-COM_xBlueTooth.DiscoveredDevice",
    "Device.DeviceInfo.X_RDKCENTRAL-COM_xBlueTooth.DiscoveredDeviceCnt");
   ("Device.DeviceInfo.X_RDKCENTRAL-COM_xBlueTooth.PairedDevice",
    "Device.DeviceInfo.X_RDKCENTRAL-COM_xBlueTooth.PairedDeviceCnt");
   ("Device.DeviceInfo.X_RDKCENTRAL-COM_xBlueTooth.ConnectedDevice",
    "Device.DeviceInfo.X_RDKCENTRAL-COM_xBlueTooth.ConnectedDeviceCnt")]%string.

(** The position of the first occurrence of [p]. *)
Fixpoint find_sub (p s : string) : option nat :=
  if starts_with p s then Some O
  else match s with EmptyString => None | String _ s' => S <$> find_sub p s' end.

(** The parameter that counts the instances of an object. *)
Definition entries_param (name : string) : option string :=
  let n := str_take (MAX_PARAMETER_LENGTH - 1) name in
  position ← find_sub INSTANCE_NUMBER_INDICATOR n;
  match WalDB.assoc (str_take (String.length n - 5) n) instanceNumParamHash with
  | Some v => Some v
  | None =>
      Some (str_take (position - 1) n
            +:+ (if (MAX_PARAMETER_LENGTH - position <? 16)%nat then EmptyString else "NumberOfEntries"))
  end.

(** The end of a walk: a result, an operation outside the memory of an object,
    or the end of the fuel. *)
Inductive walk (A : Type) : Type := Done (a : A) | Crash | OutOfFuel.
Arguments Done {A} a.
Arguments Crash {A}.
Arguments OutOfFuel {A}.

Definition wbind {A B} (x : walk A) (f : A → walk B) : walk B :=
  match x with Done a => f a | Crash => Crash | OutOfFuel => OutOfFuel end.
Definition of_option {A} (o : option A) : walk A :=
  match o with Some a => Done a | None => Crash end.

Notation "'let*' x := e 'in' k" := (wbind e (λ x, k))
  (at level 10, x pattern, e at level 100, k at level 200).

Section list.
Context `{TinyXml} {St : Type}.
(** [getValues] on one name: the value, when there is one. *)
Variable getValue1 : string → St → walk (option string * St).

Definition getNumberofInstances (name : string) (st : St) : walk (Z * St) :=
  let n := str_take (MAX_PARAMETER_LENGTH - 1) name in
  match find_sub INSTANCE_NUMBER_INDICATOR n with
  | None => Done (0, st)
  | Some O => Crash
  | Some (S _) =>
      if (String.length n <? 5)%nat then Crash
      else
        match entries_param name with
        | None => Crash
        | Some p =>
            let* r := getValue1 p st in
            let '(ov, st') := r in
            Done (match ov with Some v => int32 (strtol v).1 | None => 0 end, st')
        end
  end.

(** ** The cursor *)

(** A node, its following siblings, and its ancestors with theirs. *)
Definition cursor : Type := XMLNode * list XMLNode * list (XMLNode * list XMLNode).

Definition FirstChild (c : cursor) : option cursor :=
  let '(n, sibs, anc) := c in
  match children n with [] => None | k :: ks => Some (k, ks, (n, sibs) :: anc) end.

Definition NextSibling (c : cursor) : option cursor :=
  let '(n, sibs, anc) := c in match sibs with [] => None | s :: ss => Some (s, ss, anc) end.

Definition ParentOf (c : cursor) : option cursor :=
  let '(n, sibs, anc) := c in match anc with [] => None | (p, ps) :: anc' => Some (p, ps, anc') end.

Definition node (c : cursor) : XMLNode := c.1.1.

(** [Goto actual Object node]: down the first elements to an object. *)
Fixpoint goto_object (fuel : nat) (oc : option cursor) : walk (option cursor) :=
  match fuel with
  | O => OutOfFuel
  | S fuel' =>
      match oc with
      | None => Done None
      | Some c =>
          if negb (is_element (node c)) then goto_object fuel' (NextSibling c)
          else if streq (Value (node c)) "object" then Done (Some c)
          else goto_object fuel' (FirstChild c)
      end
  end.

Definition start_cursor (fuel : nat) (parent : cursor) : walk (option cursor) :=
  if is_element (node parent) then Done (Some parent) else goto_object fuel (FirstChild parent).

(** ** The list being built *)
Record out := mkOut { names : list (string * string); currentParam : string; handler : St }.

Definition set_current (o : out) (s : string) : out := mkOut (names o) s (handler o).

(** The parameters of an object, from the first on. *)
Fixpoint add_params (l : list XMLNode) (o : out) : walk out :=
  match l with
  | [] => Done o
  | p :: l' =>
      if (length (names o) <? MAX_NUM_PARAMETERS)%nat && negb (is_empty (currentParam o)) then
        if negb (is_element p) then Crash
        else
          let* a := of_option (first_attribute p) in
          let* syntax := of_option (head (children p)) in
          let* type := of_option (head (children syntax)) in
          let entry := (str_take (MAX_PARAMETER_LENGTH - 1) (currentParam o +:+ a),
                        str_take (MAX_DATATYPE_LENGTH - 1) (Value type)) in
          add_params l' (mkOut (names o ++ [entry]) (currentParam o) (handler o))
      else add_params l' o
  end.

(** [maxEntries] of an object that can have several instances. *)
Definition multi_instance (n : XMLNode) : bool :=
  match Attribute n "maxEntries" with
  | None => false
  | Some m => streq m "unbounded" || (1 <? (strtol m).1)
  end.

(** strcpy_s into a buffer of MAX_PARAMETER_LENGTH bytes. *)
Definition copy_param (s : string) : string :=
  if (String.length s <? MAX_PARAMETER_LENGTH)%nat then s else EmptyString.

(** [strcpy(currentParam + len, INSTANCE_NUMBER_INDICATOR)], where [len] was
    the length but four before the recursive call. *)
Definition restore_indicator (len : nat) (s : string) : string :=
  if (String.length s <? len)%nat then s else str_take len s +:+ INSTANCE_NUMBER_INDICATOR.

(** The loop over the instances of an object, from the [i]-th on, around the
    recursive call. *)
Fixpoint instances (call : string → cursor → out → walk (option cursor * out)) (k : nat) (i : Z)
    (c sChild : option cursor) (o : out) : walk (option cursor * out) :=
  match k with
  | O => Done (sChild, o)
  | S k' =>
      let* c' := of_option c in
      let* p := of_option (ParentOf c') in
      let* a := of_option (first_attribute (node p)) in
      if (String.length (currentParam o) <? 4)%nat then Crash
      else
        let len := (String.length (currentParam o) - 4)%nat in
        let* r := call (copy_param a) c' (set_current o (replaceWithInstanceNumber (currentParam o) i)) in
        let '(s, o2) := r in
        instances call k' (i + 1) c s (set_current o2 (restore_indicator len (currentParam o2)))
  end.

(** getList, the loop and the recursion on instances; [rec] is whether this
    is an inner call, [zero] the object found to have no instances. *)
Fixpoint getList_loop (fuel : nat) (rec : bool) (paramName zero : string) (oc : option cursor)
    (o : out) : walk (option cursor * out) :=
  match fuel with
  | O => OutOfFuel
  | S fuel' =>
      match oc with
      | None => Done (None, o)
      | Some c =>
          if negb (is_element (node c)) then Crash
          else if streq (Value (node c)) "object" then
            let* attr := of_option (first_attribute (node c)) in
            let* m := (if contains paramName attr then Done (true, (false, 0))
                       else let* r := of_option (checkMatchingParameter attr paramName) in
                            Done (r.1, r)) in
            let '(matched, (status, inst)) := m in
            if (matched : bool) then
              if negb (is_empty zero) && contains zero attr
              then getList_loop fuel' rec paramName zero (NextSibling c) o
              else
                let cur0 := if status && negb rec then paramName else currentParam o in
                let* cur := of_option (appendNextObject cur0 attr) in
                let o1 := set_current o cur in
                let c1 := match FirstChild c with Some k => Some k | None => NextSibling c end in
                let* multi := (if multi_instance (node c) then of_option (isParamEndsWithInstance attr)
                               else Done false) in
                if (multi : bool) then
                  let* r := getNumberofInstances attr (handler o1) in
                  let '(actual, h) := r in
                  let o2 := mkOut (names o1) (currentParam o1) h in
                  let instanceNumber := if inst =? 0 then actual
                                        else if inst <=? actual then inst else 0 in
                  let* r := (if inst =? 0
                             then instances
                                    (λ tparaName c o,
                                       let* oc := start_cursor fuel' c in
                                       getList_loop fuel' (negb (is_empty (currentParam o))) tparaName
                                                    EmptyString oc o)
                                    (Z.to_nat instanceNumber) 1 c1 c1 o2
                             else Done (c1, o2)) in
                  let '(c2, o3) := r in
                  if instanceNumber =? 0 then
                    let* c3 := of_option c2 in
                    getList_loop fuel' rec paramName (copy_param attr) (ParentOf c3) o3
                  else getList_loop fuel' rec paramName EmptyString c2 o3
                else getList_loop fuel' rec paramName EmptyString c1 o1
            else if rec then Done (Some c, o)
            else getList_loop fuel' rec paramName zero (NextSibling c) o
          else if streq (Value (node c)) "parameter" then
            let* o1 := add_params (node c :: c.1.2) o in
            let* p := of_option (ParentOf c) in
            getList_loop fuel' rec paramName zero (NextSibling p) o1
          else getList_loop fuel' rec paramName zero oc o
      end
  end.

Definition getList (fuel : nat) (doc : XMLNode) (paramName : string) (o : out)
  : walk (option cursor * out) :=
  let* c := start_cursor fuel (doc, [], []) in
  getList_loop fuel (negb (is_empty (currentParam o))) paramName EmptyString c o.

(** The names and types of a partial path; [dbhandle] NULL is [None]. *)
Definition getChildParamNamesFromDataModel (fuel : nat) (dbhandle : option XMLNode)
    (paramName : string) (st : St) : walk (DB_STATUS * list (string * string) * St) :=
  let parameterName := str_take (MAX_PARAMETER_LENGTH - 1) paramName in
  match dbhandle with
  | None => Done (DB_FAILURE, [], st)
  | Some doc =>
      let* wild := of_option (isWildCardParam parameterName) in
      if (wild : bool) then
        let* r := getList fuel doc parameterName (mkOut [] EmptyString st) in
        let '(_, o) := r in
        Done (match names o with [] => DB_ERR_INVALID_PARAMETER | _ => DB_SUCCESS end,
              names o, handler o)
      else Done (DB_ERR_WILDCARD_NOT_SUPPORTED, [], st)
  end.

(** ** The complete list *)
Fixpoint add_all_params (l : list XMLNode) (cur : string) (acc : list string) : walk (list string) :=
  match l with
  | [] => Done acc
  | p :: l' =>
      if (length acc <? MAX_NUM_PARAMETERS)%nat && negb (is_empty cur) then
        if negb (is_element p) then Crash
        else
          let* a := of_option (first_attribute p) in
          add_all_params l' cur (acc ++ [str_take (MAX_PARAMETER_LENGTH - 1) (cur +:+ a)])
      else add_all_params l' cur acc
  end.

Fixpoint complete_loop (fuel : nat) (oc : option cursor) (cur : string) (acc : list string)
  : walk (list string) :=
  match fuel with
  | O => OutOfFuel
  | S fuel' =>
      match oc with
      | None => Done acc
      | Some c =>
          if negb (is_element (node c)) then Crash
          else if streq (Value (node c)) "object" then
            let* attr := of_option (first_attribute (node c)) in
            if contains "Device." attr then
              let* cur' := of_option (appendNextObject cur attr) in
              let* table := of_option (ends_with ".{i}." attr) in
              let acc' := if table && (length acc <? MAX_NUM_PARAMETERS)%nat
                          then acc ++ [str_take (MAX_PARAMETER_LENGTH - 1) attr] else acc in
              complete_loop fuel' (match FirstChild c with Some k => Some k | None => NextSibling c end)
                            cur' acc'
            else complete_loop fuel' (NextSibling c) cur acc
          else if streq (Value (node c)) "parameter" then
            let* acc' := add_all_params (node c :: c.1.2) cur acc in
            let* p := of_option (ParentOf c) in
            complete_loop fuel' (NextSibling p) cur acc'
          else complete_loop fuel' oc cur acc
      end
  end.

Definition get_complete_parameter_list_from_dml_xml (fuel : nat) (doc : XMLNode) : walk (list string) :=
  let* c := start_cursor fuel (doc, [], []) in complete_loop fuel c EmptyString [].

Definition get_complete_param_list (fuel : nat) (dbhandle : option XMLNode)
  : walk (DB_STATUS * list string) :=
  match dbhandle with
  | None => Done (DB_FAILURE, [])
  | Some doc =>
      let* l := get_complete_parameter_list_from_dml_xml fuel doc in Done (DB_SUCCESS, l)
  end.

(** ** Bounds *)
Definition bounded (o : out) : Prop := (length (names o) ≤ MAX_NUM_PARAMETERS)%nat.

Lemma wbind_Done {A B} (x : walk A) (f : A → walk B) b :
  wbind x f = Done b → ∃ a, x = Done a ∧ f a = Done b.
Proof. destruct x as [a| |]; [|done..]. intros Hf. by exists a. Qed.

Lemma add_params_bounded l o o' : bounded o → add_params l o = Done o' → bounded o'.
Proof.
  revert o. induction l as [|p l IH]; intros o Hb; [by intros [= <-]|]. cbn [add_params].
  destruct ((length (names o) <? MAX_NUM_PARAMETERS)%nat) eqn:Hlt; [|by apply IH].
  destruct (negb (is_empty (currentParam o))); [|by apply IH]. cbn [andb].
  destruct (negb (is_element p)); [done|].
  intros (a & _ & (sy & _ & (ty & _ & Hrest)%wbind_Done)%wbind_Done)%wbind_Done.
  apply IH in Hrest; [done|]. unfold bounded. simpl. rewrite length_app. simpl.
  apply Nat.ltb_lt in Hlt. unfold bounded in Hb. lia.
Qed.

Lemma instances_bounded call k i c s o s' o' :
  (∀ t c o s' o', bounded o → call t c o = Done (s', o') → bounded o') →
  bounded o → instances call k i c s o = Done (s', o') → bounded o'.
Proof.
  intros Hcall. revert i s o. induction k as [|k IH]; intros i s o Hb; [by intros [= _ <-]|].
  cbn [instances].
  intros (c' & _ & (p & _ & (a & _ & Hrest)%wbind_Done)%wbind_Done)%wbind_Done.
  destruct (String.length (currentParam o) <? 4)%nat; [done|].
  apply wbind_Done in Hrest as ([s2 o2] & Hc & Hrest).
  apply Hcall in Hc; [|done]. by apply IH in Hrest.
Qed.

Lemma getList_loop_bounded fuel rec w zero oc o c' o' :
  bounded o → getList_loop fuel rec w zero oc o = Done (c', o') → bounded o'.
Proof.
  revert rec w zero oc o c' o'. induction fuel as [|fuel IH]; intros rec w zero oc o c' o' Hb; [done|].
  cbn [getList_loop]. destruct oc as [c|]; [|by intros [= _ <-]].
  destruct (negb (is_element (node c))); [done|].
  destruct (streq (Value (node c)) "object").
  - intros (attr & _ & ([matched [status inst]] & _ & Hrest)%wbind_Done)%wbind_Done.
    destruct matched; [|destruct rec; [by injection Hrest as _ <-|by apply IH in Hrest]].
    destruct (negb (is_empty zero) && contains zero attr); [by apply IH in Hrest|].
    apply wbind_Done in Hrest as (cur & _ & Hrest).
    apply wbind_Done in Hrest as (multi & _ & Hrest). destruct multi; [|by apply IH in Hrest].
    apply wbind_Done in Hrest as ([actual h] & _ & Hrest).
    apply wbind_Done in Hrest as ([c2 o3] & Hinst & Hrest).
    assert (bounded o3) as Hb3.
    { destruct (inst =? 0); [|by injection Hinst as _ <-].
      refine (instances_bounded _ _ _ _ _ _ _ _ _ _ Hinst); [|exact Hb].
      intros t c0 o0 s1 o1 Hb0 (oc0 & _ & Hr)%wbind_Done. by apply IH in Hr. }
    match type of Hrest with (if ?b then _ else _) = _ => destruct b end; [|by apply IH in Hrest].
    apply wbind_Done in Hrest as (c3 & _ & Hrest). by apply IH in Hrest.
  - destruct (streq (Value (node c)) "parameter"); [|by apply IH].
    intros (o1 & Ho1 & (p & _ & Hrest)%wbind_Done)%wbind_Done.
    apply add_params_bounded in Ho1; [|done]. by apply IH in Hrest.
Qed.

(** ** Models without multi-instance objects *)
Definition flat_param (p : XMLNode) (at_ : string * string) : Prop :=
  is_element p = true ∧ Value p = "parameter"%string ∧ first_attribute p = Some at_.1
  ∧ ∃ syntax type, head (children p) = Some syntax ∧ head (children syntax) = Some type
                   ∧ Value type = at_.2.

Record flat_object (n : XMLNode) (o : string * list (string * string)) : Prop := {
  flat_element : is_element n = true;
  flat_value : Value n = "object"%string;
  flat_name : first_attribute n = Some o.1;
  flat_multi : multi_instance n = false;
  flat_plain : has_char "{" o.1 = false;
  flat_nonempty : o.1 ≠ EmptyString;
  flat_params : Forall2 flat_param (children n) o.2;
  flat_some : o.2 ≠ []
}.

(** The names and types an object contributes. *)
Definition expanded (o : string * list (string * string)) : list (string * string) :=
  (λ at_, (str_take (MAX_PARAMETER_LENGTH - 1) (o.1 +:+ at_.1), str_take (MAX_DATATYPE_LENGTH - 1) at_.2))
    <$> o.2.

Definition listed (w : string) (objs : list (string * list (string * string))) : list (string * string) :=
  mjoin ((λ o, if contains w o.1 then expanded o else []) <$> objs).

Lemma append_plain fuel cur att :
  has_char "{" att = false → (String.length cur < fuel)%nat → append_loop fuel cur att = Some att.
Proof.
  revert cur att. induction fuel as [|fuel IH]; intros cur att Hp Hf; [lia|]. cbn [append_loop].
  destruct cur as [|c cur]; [done|]. destruct att as [|a att]; [done|].
  cbn [has_char] in Hp. apply orb_false_elim in Hp as [Ha Hp].
  destruct (Ascii.eqb_spec c a) as [->|Hne].
  - rewrite IH; [done|done|simpl in Hf; lia].
  - rewrite Ascii.eqb_sym in Ha. by rewrite Ha.
Qed.

Lemma matching_plain fuel back back1 attr param inst :
  has_char "{" attr = false → starts_with param attr = false → (String.length param < fuel)%nat →
  matching_loop fuel back back1 attr param inst = Some (false, 0).
Proof.
  revert back back1 attr param. induction fuel as [|fuel IH]; intros back back1 attr param Hp Hs Hf; [lia|].
  cbn [matching_loop]. destruct param as [|p param]; [done|]. destruct attr as [|a attr]; [done|].
  cbn [has_char] in Hp. apply orb_false_elim in Hp as [Ha Hp]. cbn [starts_with] in Hs.
  destruct (Ascii.eqb_spec a p) as [->|Hne].
  - rewrite Ascii.eqb_refl in Hs. apply IH; [done|done|simpl in Hf; lia].
  - rewrite Ascii.eqb_sym in Ha. by rewrite Ha.
Qed.

Lemma contains_prefix p s : starts_with p s = true → contains p s = true.
Proof. intros [t ->]%starts_with_true. apply contains_true. by exists EmptyString, t. Qed.

Lemma add_params_flat l ps o :
  Forall2 flat_param l ps → currentParam o ≠ EmptyString →
  (length (names o) + length ps ≤ MAX_NUM_PARAMETERS)%nat →
  add_params l o = Done (mkOut (names o ++ expanded (currentParam o, ps)) (currentParam o) (handler o)).
Proof.
  intros Hl. revert o. induction Hl as [|p [a ty] l ps Hp Hl IH]; intros o Hc Hb.
  { unfold expanded. simpl. rewrite app_nil_r. by destruct o. }
  cbn [length] in Hb. cbn [add_params].
  rewrite (proj2 (Nat.ltb_lt (length (names o)) _)) by lia.
  assert (is_empty (currentParam o) = false) as -> by (by destruct (currentParam o)).
  destruct Hp as (He & _ & Ha & sy & t & Hsy & Ht & Hv). simpl in Ha, Hv.
  rewrite He, Ha, Hsy. cbn [andb negb of_option wbind]. rewrite Ht. cbn [of_option wbind].
  rewrite IH; [|done|simpl; rewrite length_app; simpl; lia].
  simpl. rewrite <- app_assoc, Hv. done.
Qed.

Lemma getList_flat nodes objs fuel w anc o :
  Forall2 flat_object nodes objs → (2 * length objs < fuel)%nat →
  (length (names o) + length (listed w objs) ≤ MAX_NUM_PARAMETERS)%nat →
  ∃ c' cur, getList_loop fuel false w EmptyString
              match nodes with [] => None | n :: ns => Some (n, ns, anc) end o
            = Done (c', mkOut (names o ++ listed w objs) cur (handler o)).
Proof.
  intros Hn. revert fuel o. induction Hn as [|n [name ps] nodes objs Hobj Hn IH]; intros fuel o Hf Hb.
  { destruct fuel as [|fuel]; [lia|]. exists None, (currentParam o). simpl.
    unfold listed. simpl. rewrite app_nil_r. by destruct o. }
  cbn [length] in Hf. destruct fuel as [|[|fuel]]; [lia|lia|].
  destruct Hobj as [He Hv Ha Hm Hp Hne Hps Hsome]. cbn [fst snd] in *.
  unfold listed in Hb |- *. cbn [fmap list_fmap fst] in Hb |- *.
  change (mjoin (?x :: ?l)) with (x ++ mjoin l) in Hb |- *.
  rewrite length_app in Hb. fold (listed w objs) in Hb |- *.
  remember (S fuel) as fuel1 eqn:Hfuel1. cbn [getList_loop]. unfold node. cbn [fst snd].
  rewrite He, Hv, Ha, streq_refl. cbn [negb of_option wbind].
  destruct (contains w name) eqn:Hw.
  - cbn [wbind]. cbn [is_empty negb andb]. unfold appendNextObject.
    rewrite append_plain by (done || lia). cbn [of_option wbind]. rewrite Hm. cbn [wbind].
    unfold FirstChild. destruct Hps as [|p at_ kids ps Hp0 Hps]; [done|].
    subst fuel1. remember fuel as fuel1. cbn [getList_loop]. unfold node. cbn [fst snd].
    destruct Hp0 as (Hpe & Hpv & Hprest) eqn:Hp0e. rewrite Hpe, Hpv.
    cbn [negb]. replace (streq "parameter" "object") with false by done. rewrite streq_refl.
    rewrite (add_params_flat (p :: kids) (at_ :: ps)).
    + cbn [wbind ParentOf of_option NextSibling].
      destruct (IH fuel1 (mkOut (names o ++ expanded (name, at_ :: ps)) name (handler o))) as (c' & cur & Hr);
        [lia| |].
      { simpl names. rewrite length_app. lia. }
      simpl names in Hr. simpl handler in Hr. rewrite <- app_assoc in Hr.
      exists c', cur. rewrite <- Hr. by destruct nodes.
    + by constructor.
    + done.
    + simpl names. unfold expanded in Hb. cbn [snd] in Hb. rewrite length_fmap in Hb. lia.
  - unfold checkMatchingParameter. rewrite matching_plain.
    + cbn [of_option wbind fst]. destruct (IH fuel1 o) as (c' & cur & Hr); [lia|simpl in Hb; lia|].
      exists c', cur. simpl app. rewrite <- Hr. by destruct nodes.
    + done.
    + destruct (starts_with w name) eqn:Hst; [|done]. by rewrite contains_prefix in Hw.
    + lia.
Qed.

(** ** Properties *)

(** In a data model whose objects have one instance each, a partial path
    that ends in a dot expands to the parameters of exactly the objects whose
    name contains it, in document order, each name being its object's followed
    by its own, each with its type; a path no object contains is an invalid
    parameter. *)
Theorem wildcard_flat doc n ns anc objs fuel w st :
  is_element doc = false → start_cursor fuel (doc, [], []) = Done (Some (n, ns, anc)) →
  Forall2 flat_object (n :: ns) objs → (2 * length objs < fuel)%nat →
  isWildCardParam w = Some true → (String.length w < MAX_PARAMETER_LENGTH)%nat →
  (length (listed w objs) ≤ MAX_NUM_PARAMETERS)%nat →
  getChildParamNamesFromDataModel fuel (Some doc) w st
  = Done (match listed w objs with [] => DB_ERR_INVALID_PARAMETER | _ => DB_SUCCESS end, listed w objs, st).
Proof.
  intros Hdoc Hs Hn Hf Hw Hlen Hb. unfold getChildParamNamesFromDataModel.
  rewrite str_take_all by (unfold MAX_PARAMETER_LENGTH in *; lia). rewrite Hw.
  cbn [of_option wbind]. unfold getList. rewrite Hs. cbn [wbind].
  destruct (getList_flat (n :: ns) objs fuel w anc (mkOut [] EmptyString st) Hn Hf) as (c' & cur & Hr).
  { exact Hb. }
  simpl currentParam. cbn [is_empty negb]. rewrite Hr. cbn [wbind names handler app]. done.
Qed.

(** However the walk goes, instances and recursion included, it writes no
    more than MAX_NUM_PARAMETERS names, the size of the caller's arrays. *)
Theorem wildcard_bounded fuel dbhandle w st status l st' :
  getChildParamNamesFromDataModel fuel dbhandle w st = Done (status, l, st') →
  (length l ≤ MAX_NUM_PARAMETERS)%nat.
Proof.
  unfold getChildParamNamesFromDataModel. destruct dbhandle as [doc|].
  2: { intros [= _ <- _]. simpl. lia. }
  intros (wild & _ & Hr)%wbind_Done. destruct wild; [|injection Hr as _ <- _; simpl; lia].
  apply wbind_Done in Hr as ([c o] & Hl & Hr). injection Hr as _ <- _.
  unfold getList in Hl. apply wbind_Done in Hl as (c0 & _ & Hl).
  apply getList_loop_bounded in Hl; [done|]. unfold bounded. simpl. lia.
Qed.

End list.

(** ** Instance numbers in names *)
Lemma ends_with_app suffix a : ends_with suffix (a +:+ suffix) = Some true.
Proof.
  unfold ends_with. rewrite str_length_app. case_if_as Hl; [apply Nat.ltb_lt in Hl; lia|].
  replace (String.length a + String.length suffix - String.length suffix)%nat with (String.length a) by lia.
  by rewrite str_drop_app, streq_refl.
Qed.

Lemma append_loop_prefix fuel a cur att :
  append_loop (String.length a + fuel) (a +:+ cur) (a +:+ att) = (λ s, a +:+ s) <$> append_loop fuel cur att.
Proof.
  induction a as [|c a IH]; simpl; [by destruct (append_loop fuel cur att)|].
  rewrite Ascii.eqb_refl, IH. by destruct (append_loop fuel cur att).
Qed.

Lemma to_dot_app n t : has_char DOT n = false → to_dot (n +:+ String DOT t) = Some (String DOT t).
Proof.
  induction n as [|c n IH]; simpl; [done|]. intros [Hc Hn]%orb_false_elim.
  rewrite Ascii.eqb_sym, Hc. by apply IH.
Qed.

(** The next object of an instance: what follows the placeholder is appended to
    the name with the number. *)
Lemma appendNextObject_instance a n r c n' :
  n = String c n' → c ≠ "{"%char → has_char DOT n = false →
  appendNextObject (a +:+ n +:+ ".") (a +:+ "{i}." +:+ r) = Some (a +:+ n +:+ "." +:+ r).
Proof.
  intros Hn Hc Hdot. unfold appendNextObject.
  assert (S (String.length (a +:+ n +:+ ".")) = String.length a + S (String.length (n +:+ ".")))%nat as ->
    by (rewrite (str_length_app a); lia).
  rewrite append_loop_prefix. remember (n +:+ ".") as cur eqn:Hcur.
  assert (to_dot cur = Some "."%string) as Htd by (rewrite Hcur; by apply to_dot_app).
  destruct cur as [|c0 cur0]; [by rewrite Hn in Hcur|].
  assert (c0 = c) as -> by (rewrite Hn in Hcur; by injection Hcur).
  cbn [append_loop String.append String.length].
  rewrite (proj2 (Ascii.eqb_neq _ _) Hc), Ascii.eqb_refl, Htd. cbn [advance3 advance mbind option_bind].
  cbn [append_loop fmap option_fmap option_map String.length].
  rewrite Nat.sub_0_r. cbn [append_loop]. rewrite str_take_all by (simpl; lia).
  rewrite Hcur. by rewrite str_app_assoc.
Qed.

Lemma scan_digits_le s acc n : scan_digits s acc = (n, EmptyString) → 0 <= acc → acc <= n.
Proof.
  revert acc. induction s as [|c s IH]; intros acc; cbn [scan_digits]; [intros [= <-]; lia|].
  destruct (is_digit c) eqn:Hc; [|done]. intros Hs H0.
  apply IH in Hs; unfold digit_val in *; unfold is_digit in Hc; lia.
Qed.

Lemma read_instance_digits s acc n t :
  scan_digits s acc = (n, EmptyString) → 0 <= acc → n < 2 ^ 31 →
  read_instance (s +:+ String DOT t) acc = (n, String DOT t).
Proof.
  revert acc. induction s as [|c s IH]; intros acc; cbn [scan_digits String.append read_instance].
  - intros [= <-] _ _. done.
  - destruct (is_digit c) eqn:Hc; [|done]. intros Hs H0 Hn.
    destruct (Ascii.eqb_spec c DOT) as [->|_]; [done|].
    pose proof (scan_digits_le _ _ _ Hs). unfold digit_val in *.
    assert (0 <= acc * 10 + (byte_val c - 48)) by (unfold is_digit in Hc; lia).
    replace (int32 (acc * 10 + (byte_val c - 48))) with (acc * 10 + (byte_val c - 48))
      by (unfold int32; rewrite Z.mod_small; lia).
    by apply IH.
Qed.

Lemma matching_loop_prefix fuel a back back1 attr param inst :
  (∀ b b1, matching_loop fuel b b1 attr param inst = matching_loop fuel back back1 attr param inst) →
  matching_loop (String.length a + fuel) back back1 (a +:+ attr) (a +:+ param) inst
  = matching_loop fuel back back1 attr param inst.
Proof.
  intros Hb. assert (∀ b b1, matching_loop (String.length a + fuel) b b1 (a +:+ attr) (a +:+ param) inst
    = matching_loop fuel back back1 attr param inst) as Hall; [|apply Hall].
  induction a as [|c a IH]; intros b b1; simpl; [apply Hb|]. rewrite Ascii.eqb_refl. apply IH.
Qed.

(** Naming an instance: replacing the placeholder at the end of an object's
    name by a number, and then walking down to an object below it, gives the
    name with that number in the placeholder's place. *)
Theorem instance_naming a z r :
  0 <= z < 10 ^ 8 →
  let named := replaceWithInstanceNumber (a +:+ "{i}.") z in
  named = a +:+ dec z +:+ "."
  ∧ appendNextObject named (a +:+ "{i}." +:+ r) = Some (a +:+ dec z +:+ "." +:+ r).
Proof.
  intros Hz named. assert (named = a +:+ dec z +:+ ".") as Hnamed.
  { unfold named, replaceWithInstanceNumber.
    assert (contains INSTANCE_NUMBER_INDICATOR (a +:+ "{i}.") = true) as ->.
    { apply contains_true. exists a, EmptyString. by rewrite str_app_nil_r. }
    rewrite str_length_app. change (String.length "{i}.") with 4%nat.
    replace (String.length a + 4 - 4)%nat with (String.length a) by lia.
    rewrite WalDB.str_take_app. f_equal. apply str_take_all.
    rewrite str_length_app. simpl. unfold dec. rewrite (proj2 (Z.ltb_ge _ _)) by lia.
    pose proof (proj2 (dec_aux_length 20 z EmptyString 8 ltac:(lia) ltac:(lia))) as Hl.
    assert (z < 10 ^ Z.of_nat 8) as H8 by (change (10 ^ Z.of_nat 8) with (10 ^ 8); lia).
    specialize (Hl (or_introl H8)). unfold dec_nat. cbn [String.length] in Hl. lia. }
  split; [done|]. rewrite Hnamed.
  destruct (dec_nat_strto z ltac:(lia)) as (d & t & Hd & Hdig & _).
  apply (appendNextObject_instance a (dec z) r d t).
  - unfold dec. by rewrite (proj2 (Z.ltb_ge _ _)) by lia.
  - by intros ->.
  - by apply dec_no_char.
Qed.

(** Matching an instance: a partial path that names an instance of a
    multi-instance object matches the object's entry and yields the number,
    unless the number starts with a nine, which the digit test leaves out. *)
Theorem instance_matching a z d t :
  0 <= z < 2 ^ 31 → dec z = String d t →
  checkMatchingParameter (a +:+ "{i}.") (a +:+ dec z +:+ ".")
  = Some (if Ascii.eqb d "9" then (false, 0) else (true, z)).
Proof.
  intros Hz Hd. destruct (dec_nat_strto z ltac:(lia)) as (d' & t' & Hd' & Hdig & Hscan).
  assert (dec z = dec_nat z) as Hdec by (unfold dec; by rewrite (proj2 (Z.ltb_ge _ _)) by lia).
  rewrite <- Hdec in Hd', Hscan. rewrite Hd in Hd'. injection Hd' as <- <-.
  unfold checkMatchingParameter.
  assert (S (String.length (a +:+ dec z +:+ ".")) = String.length a + S (String.length (dec z +:+ ".")))%nat
    as -> by (rewrite (str_length_app a); lia).
  assert (Ascii.eqb "{" d = false) as Hbr.
  { apply Ascii.eqb_neq. by intros <-. }
  assert (∀ b b1, matching_loop (S (String.length (dec z +:+ "."))) b b1 "{i}." (dec z +:+ ".") 0
    = Some (if Ascii.eqb d "9" then (false, 0) else (true, z))) as Hloop.
  { intros b b1. cbn [matching_loop]. rewrite Hd. cbn [String.append]. rewrite Hbr, Ascii.eqb_refl.
    assert (instance_digit d = negb (Ascii.eqb d "9")) as ->.
    { clear -Hdig. destruct d as [[] [] [] [] [] [] [] []]; vm_compute in *; congruence. }
    cbn [andb]. destruct (Ascii.eqb d "9"); [done|]. cbn [negb].
    change (advance3 "{i}.") with (Some "."%string). cbn [mbind option_bind].
    pose proof (read_instance_digits (dec z) 0 z EmptyString Hscan ltac:(lia) ltac:(lia)) as Hri.
    rewrite Hd in Hri. cbn [String.append] in Hri.
    change (String DOT EmptyString) with "."%string in Hri. rewrite Hri.
    cbn [advance mbind option_bind]. cbn [String.append String.length matching_loop].
    done. }
  rewrite matching_loop_prefix; [apply Hloop|]. intros b b1. by rewrite !Hloop.
Qed.

(** ** Witnesses *)
Definition flat_doc : @XMLNode WalDB.toy_xml :=
  WalDB.Elem "" [] [WalDB.Elem "dm:document" [] [WalDB.Elem "model" []
    [WalDB.toy_object "Device.DeviceInfo."
       [WalDB.toy_param "Manufacturer" "string"; WalDB.toy_param "UpTime" "unsignedInt"];
     WalDB.toy_object "Device.Time." [WalDB.toy_param "Enable" "boolean"]]]].

(** The document node is not an element. *)
#[local] Instance doc_xml : TinyXml := {
  XMLNode := @XMLNode WalDB.toy_xml;
  Value := @Value WalDB.toy_xml;
  is_element := λ n, @is_element WalDB.toy_xml n && negb (is_empty (@Value WalDB.toy_xml n));
  attributes := @attributes WalDB.toy_xml;
  children := λ n, match n with
                   | WalDB.Elem "syntax" a (_ :: k) => k
                   | _ => @children WalDB.toy_xml n
                   end
}.

Definition no_values (name : string) (st : unit) : walk (option string * unit) := Done (None, st).

Definition flat_objects : list (string * list (string * string)) :=
  [("Device.DeviceInfo.", [("Manufacturer", "string"); ("UpTime", "unsignedInt")]);
   ("Device.Time.", [("Enable", "boolean")])]%string.

Lemma flat_object_check n name ps :
  @is_element doc_xml n = true → @Value doc_xml n = "object"%string →
  @first_attribute doc_xml n = Some name → @multi_instance doc_xml n = false →
  has_char "{" name = false → name ≠ EmptyString → Forall2 (@flat_param doc_xml) (@children doc_xml n) ps →
  ps ≠ [] → @flat_object doc_xml n (name, ps).
Proof. intros. by constructor. Qed.

Lemma wildcard_flat_witness :
  @getChildParamNamesFromDataModel doc_xml unit no_values 10 (Some flat_doc) "Device.DeviceInfo." ()
  = Done (DB_SUCCESS, [("Device.DeviceInfo.Manufacturer", "string");
                       ("Device.DeviceInfo.UpTime", "unsignedInt")]%string, ()).
Proof.
  assert (∃ n ns anc, @start_cursor doc_xml 10 (flat_doc, [], []) = Done (Some (n, ns, anc)))
    as (n & ns & anc & Hs) by (eexists _, _, _; vm_compute; reflexivity).
  refine (@wildcard_flat doc_xml unit no_values flat_doc n ns anc flat_objects 10 "Device.DeviceInfo." ()
    eq_refl Hs _ ltac:(apply Nat.ltb_lt; vm_compute; reflexivity) ltac:(vm_compute; reflexivity)
    ltac:(apply Nat.ltb_lt; vm_compute; reflexivity) ltac:(apply Nat.leb_le; vm_compute; reflexivity)).
  vm_compute in Hs. injection Hs as <- <- <-.
  apply Forall2_cons; split; [|apply Forall2_cons; split; [|apply Forall2_nil; done]].
  - apply flat_object_check; try (vm_compute; reflexivity); try discriminate.
    apply Forall2_cons; split; [|apply Forall2_cons; split; [|apply Forall2_nil; done]];
      repeat split; eexists _, _; repeat split; vm_compute; reflexivity.
  - apply flat_object_check; try (vm_compute; reflexivity); try discriminate.
    apply Forall2_cons; split; [|apply Forall2_nil; done];
      repeat split; eexists _, _; repeat split; vm_compute; reflexivity.
Defined.

Lemma wildcard_bounded_witness :
  ∃ status l, @getChildParamNamesFromDataModel doc_xml unit no_values 10 (Some flat_doc) "Device." ()
              = Done (status, l, ()) ∧ (length l ≤ MAX_NUM_PARAMETERS)%nat.
Proof.
  destruct (@getChildParamNamesFromDataModel doc_xml unit no_values 10 (Some flat_doc) "Device." ())
    as [[[status l] []]| |] eqn:Hr; [|vm_compute in Hr; discriminate Hr..].
  exists status, l. split; [reflexivity|]. exact (@wildcard_bounded doc_xml unit no_values _ _ _ _ _ _ _ Hr).
Defined.

Lemma instance_naming_witness :
  replaceWithInstanceNumber "Device.IP.Interface.{i}." 12 = "Device.IP.Interface.12."%string.
Proof. exact (proj1 (instance_naming "Device.IP.Interface." 12 "" ltac:(lia))). Defined.

Lemma instance_matching_witness :
  checkMatchingParameter "Device.IP.Interface.{i}." "Device.IP.Interface.12." = Some (true, 12)
  ∧ checkMatchingParameter "Device.IP.Interface.{i}." "Device.IP.Interface.9." = Some (false, 0).
Proof.
  split.
  - exact (instance_matching "Device.IP.Interface." 12 "1" "2" ltac:(lia) eq_refl).
  - exact (instance_matching "Device.IP.Interface." 9 "9" "" ltac:(lia) eq_refl).
Defined.

End WalList.
