(* ===== verification/RFCVar.v ===== *)
(** * RFC variables

    [XRFCVarStore] models httpserver/src/XrdkCentralComRFCVar.cpp: the variables
    of the RFC script, read from a file of [export KEY=VALUE] lines whose name
    /etc/rfc.properties gives. *)
From stdpp Require Import base list strings gmap.
From Stdlib Require Import Ascii Lia.
From S2P Require Import Prelude FileStore.

Module XRFCVarStore.

Definition RFC_VAR_KEY : string := "RFC_VAR_FILENAME".
Definition RFC_PROPERTIES_FILE : string := "/etc/rfc.properties".
Definition XRFC_VAR_STORE_RELOADCACHE : string := "RFC_CONTROL_RELOADCACHE".

Record t := mk { m_filename : string; initDone : bool; m_dict : gmap string string }.

(** One line of the properties file. *)
Definition property_line (fn line : string) : string :=
  match split_at EQ line with
  | Some (k, v) => if streq (c_str k) RFC_VAR_KEY then v else fn
  | None => fn
  end.

Definition initRFCVarFileName (x : t) (w : env) : t :=
  match read_file w RFC_PROPERTIES_FILE with
  | None => x
  | Some content => mk (foldl property_line (m_filename x) (getlines content)) (initDone x) (m_dict x)
  end.

Definition TAB : ascii := "009"%char.

(** [line.substr(line.find_first_of(blanks) + 1)]: what follows the first
    blank, or the whole line when there is none. *)
Fixpoint after_blank (line : string) : option string :=
  match line with
  | EmptyString => None
  | String c s => if Ascii.eqb c " " || Ascii.eqb c TAB then Some s else after_blank s
  end.

Definition var_line (m : gmap string string) (line : string) : gmap string string :=
  parse_line m (default line (after_blank line)).

Definition loadRFCVarIntoCache (x : t) (w : env) : bool * t :=
  if is_empty (m_filename x) then (false, x)
  else
    let fn := erase_char QUOTE (m_filename x) in
    match read_file w fn with
    | None => (false, mk fn (initDone x) ∅)
    | Some content => (true, mk fn (initDone x) (foldl var_line ∅ (getlines content)))
    end.

Definition reloadCache (x : t) (w : env) : t :=
  let '(ok, x') := loadRFCVarIntoCache x w in mk (m_filename x') ok (m_dict x').

Definition getValue (x : t) (key : string) : string :=
  if initDone x then default EmptyString (m_dict x !! key) else EmptyString.

(** The constructor. *)
Definition new (w : env) : t := reloadCache (initRFCVarFileName (mk EmptyString false ∅) w) w.

(** ** Properties *)

(** A file of exported variables. *)
Fixpoint export_text (l : list (string * string)) : string :=
  match l with
  | [] => EmptyString
  | (k, v) :: l' => "export " +:+ kv_line k v +:+ export_text l'
  end.

Lemma var_line_export m k v : key_ok k → var_line m ("export " +:+ k +:+ String EQ v) = <[k:=v]> m.
Proof.
  intros Hk. unfold var_line. simpl. by apply parse_line_kv.
Qed.

Lemma getlines_export_text l :
  Forall (λ kv, key_ok kv.1 ∧ val_ok kv.2) l →
  getlines (export_text l) = (λ kv, "export " +:+ kv.1 +:+ String EQ kv.2) <$> l.
Proof.
  induction 1 as [|[k v] l [Hk Hv] _ IH]; [done|]. cbn [export_text]. rewrite fmap_cons, <- IH.
  simpl fst in *. simpl snd in *. apply key_ok_spec in Hk as [_ Hk]. apply val_ok_spec in Hv.
  assert ("export " +:+ kv_line k v +:+ export_text l
          = ("export " +:+ k +:+ String EQ v) +:+ String NL (export_text l)) as ->.
  { unfold kv_line. rewrite !str_app_assoc. do 2 f_equal. cbn [String.append]. by rewrite !str_app_assoc. }
  apply getlines_line. rewrite !has_char_app, Hk. simpl. by rewrite Hv.
Qed.

(** The variables a client reads after a reload are the exported ones, the
    last export of a name being the value; without the file every variable
    reads as empty, whatever was cached. *)
Theorem rfcvar_reload x w l key :
  m_filename x ≠ EmptyString → Forall (λ kv, key_ok kv.1 ∧ val_ok kv.2) l →
  match read_file w (erase_char QUOTE (m_filename x)) with
  | None => getValue (reloadCache x w) key = EmptyString
  | Some content =>
      content = export_text l →
      getValue (reloadCache x w) key = default EmptyString (insert_all l ∅ !! key)
  end.
Proof.
  intros Hfn Hl. unfold reloadCache, loadRFCVarIntoCache.
  assert (is_empty (m_filename x) = false) as -> by (by destruct (m_filename x)).
  destruct (read_file _ _) as [content|]; [|done]. intros ->. unfold getValue. simpl.
  rewrite getlines_export_text by done. do 2 f_equal. generalize (∅ : gmap string string).
  induction Hl as [|[k v] l [Hk Hv] _ IH]; intros m; [done|].
  change (insert_all ((k, v) :: l) m) with (insert_all l (<[k:=v]> m)). rewrite <- IH, fmap_cons.
  cbn [foldl fst snd]. by rewrite var_line_export.
Qed.

Definition ex_env : env :=
  mkEnv {["/tmp/rfcVariable.ini"%string := export_text [("RFC_A", "1"); ("RFC_B", "x y")]%string]} ∅ true ∅
        EmptyString 0.

Lemma rfcvar_reload_witness :
  getValue (reloadCache (mk "/tmp/rfcVariable.ini" false ∅) ex_env) "RFC_B" = "x y"%string.
Proof.
  assert (Forall (λ kv, key_ok kv.1 ∧ val_ok kv.2) [("RFC_A", "1"); ("RFC_B", "x y")]%string) as Hl
    by (repeat constructor).
  pose proof (rfcvar_reload (mk "/tmp/rfcVariable.ini" false ∅) ex_env _ "RFC_B" (ltac:(discriminate)) Hl) as H.
  change (erase_char QUOTE (m_filename (mk "/tmp/rfcVariable.ini" false ∅)))
    with "/tmp/rfcVariable.ini"%string in H.
  unfold read_file, ex_env in H. cbn [e_files] in H. rewrite lookup_singleton_eq in H.
  exact (H eq_refl).
Defined.

End XRFCVarStore.
