(* ===== verification/FrontEnd.v ===== *)
(** * What the front ends share

    The dispatcher as the WebPA and HTTP front ends see it ([ReqHandler], which
    MsgHandler's entry points implement as [dispatcher]), and the names that the
    wdmp-c library gives to data types and states of a request ([Wdmp]). *)
From stdpp Require Import base list strings.
From Stdlib Require Import ZArith Lia.
From S2P Require Import Prelude HostIf MsgHandler WalList.
Import WalList (walk, wbind).

Notation "'let*' x := e 'in' k" := (wbind e (λ x, k))
  (at level 10, x pattern, e at level 100, k at level 200).

(** What the front ends use of the dispatcher.  [None] is an exception that the
    set handler lets out and that no caller catches. *)
Class ReqHandler := {
  hst : Type;
  hostIf_Get : HOSTIF_MsgData_t → hst → Z * HOSTIF_MsgData_t * hst;
  hostIf_Set : HOSTIF_MsgData_t → hst → option Z * HOSTIF_MsgData_t * hst;
  hostIf_GetAttributes : HOSTIF_MsgData_t → hst → option Z * HOSTIF_MsgData_t * hst;
  hostIf_SetAttributes : HOSTIF_MsgData_t → hst → option Z * HOSTIF_MsgData_t * hst
}.

(** The dispatcher of MsgHandler, with the readings of the clock. *)
Definition dispatcher `{GHashTable} `{Managers} (b : MsgHandler.build) (t : option ghash)
    (clock : nat → Z) : ReqHandler := {|
  hst := MsgHandler.counters * MsgHandler.counters * nat * dev;
  hostIf_Get := λ m s,
    let '(cg, cs, n, d) := s in
    let '(r, m', d', cg', _) := MsgHandler.hostIf_GetMsgHandler b t cg (clock n) (clock (S n)) m d in
    (r, m', (cg', cs, S (S n), d'));
  hostIf_Set := λ m s,
    let '(cg, cs, n, d) := s in
    let '(r, m', d', cs', _) := MsgHandler.hostIf_SetMsgHandler b t cs (clock n) (clock (S n)) m d in
    (r, m', (cg, cs', S (S n), d'));
  hostIf_GetAttributes := λ m s,
    let '(cg, cs, n, d) := s in
    let '(r, m', d') := MsgHandler.hostIf_GetAttributesMsgHandler b t m d in (r, m', (cg, cs, n, d'));
  hostIf_SetAttributes := λ m s,
    let '(cg, cs, n, d) := s in
    let '(r, m', d') := MsgHandler.hostIf_SetAttributesMsgHandler b t m d in (r, m', (cg, cs, n, d'))
|}.

(** The names of wdmp-c that the code uses. *)
Inductive DATA_TYPE : Type :=
  | WDMP_STRING | WDMP_INT | WDMP_UINT | WDMP_BOOLEAN | WDMP_DATETIME | WDMP_BASE64 | WDMP_LONG
  | WDMP_ULONG | WDMP_FLOAT | WDMP_DOUBLE | WDMP_BYTE | WDMP_NONE.

Inductive WDMP_STATUS : Type :=
  | WDMP_SUCCESS | WDMP_FAILURE | WDMP_ERR_INVALID_PARAMETER_NAME | WDMP_ERR_WILDCARD_NOT_SUPPORTED
  | WDMP_ERR_SET_OF_CMC_OR_CID_NOT_SUPPORTED | WDMP_ERR_VALUE_IS_NULL | WDMP_ERR_VALUE_IS_EMPTY
  | WDMP_ERR_DEFAULT_VALUE | WDMP_ERR_METHOD_NOT_SUPPORTED | WDMP_ERR_INVALID_PARAMETER_VALUE
  | WDMP_ERR_INTERNAL_ERROR | WDMP_ERR_NOT_WRITABLE | WDMP_ERR_INVALID_PARAMETER_TYPE.

(** Their numbers: data types have numbers of their own, [WDMP_NONE] the
    highest; success is zero and the other states are not. *)
Class Wdmp := {
  data_type : DATA_TYPE → Z;
  data_type_inj : ∀ t u, data_type t = data_type u → t = u;
  data_type_none : ∀ t, t ≠ WDMP_NONE → data_type t < data_type WDMP_NONE;
  wdmp_status : WDMP_STATUS → Z;
  wdmp_success : wdmp_status WDMP_SUCCESS = 0;
  wdmp_errors : ∀ s, s ≠ WDMP_SUCCESS → wdmp_status s ≠ 0
}.

#[export] Instance DATA_TYPE_eq_dec : EqDecision DATA_TYPE.
Proof. solve_decision. Defined.
#[export] Instance WDMP_STATUS_eq_dec : EqDecision WDMP_STATUS.
Proof. solve_decision. Defined.

(** The enumerators in their order, from zero. *)
Definition data_type_number (t : DATA_TYPE) : Z :=
  match t with
  | WDMP_STRING => 0 | WDMP_INT => 1 | WDMP_UINT => 2 | WDMP_BOOLEAN => 3 | WDMP_DATETIME => 4
  | WDMP_BASE64 => 5 | WDMP_LONG => 6 | WDMP_ULONG => 7 | WDMP_FLOAT => 8 | WDMP_DOUBLE => 9
  | WDMP_BYTE => 10 | WDMP_NONE => 11
  end.

(** Numbers that have the laws. *)
Definition plain_wdmp : Wdmp.
Proof.
  refine {| data_type := data_type_number;
            wdmp_status := λ s, match s with WDMP_SUCCESS => 0 | WDMP_FAILURE => 1 | _ => 100 end |}.
  - intros [] []; simpl; congruence.
  - intros []; simpl; (lia || congruence).
  - done.
  - by intros [].
Defined.
