(* ===== verification/Webpa.v ===== *)
(** * Parameters over WebPA

    [Webpa] models parodusClient/pal/webpa_parameter.cpp: reading and writing
    parameters for the WebPA front end, with the data model deciding whether a
    parameter is the daemon's own or is passed on to the RBus.  The dispatcher is used through the interface
    [ReqHandler], which MsgHandler's handlers implement; the RBus client library
    and the wdmp-c numbers are parameters ([Rbus], [Wdmp]). *)
From stdpp Require Import base list strings.
From Stdlib Require Import Ascii ZArith Lia.
From S2P Require Import Prelude HostIf MsgHandler WalDB WalList FrontEnd.
Import WalList (walk, Done, Crash, OutOfFuel, wbind, of_option).

#[local] Arguments streq : simpl never.

Inductive rbusValueType_t : Type :=
  | RBUS_BOOLEAN | RBUS_CHAR | RBUS_BYTE | RBUS_INT8 | RBUS_UINT8 | RBUS_INT16 | RBUS_UINT16
  | RBUS_INT32 | RBUS_UINT32 | RBUS_INT64 | RBUS_UINT64 | RBUS_SINGLE | RBUS_DOUBLE
  | RBUS_DATETIME | RBUS_STRING | RBUS_BYTES | RBUS_PROPERTY | RBUS_OBJECT | RBUS_NONE.

(** The calls to the bus: whether the handle is open, the request, and the
    state of the bus; [None] is an error code.  A value is its text, as
    rbusValue_ToString gives it, with its type. *)
Class Rbus := {
  rbus : Type;
  rbus_open : rbus → bool * rbus;
  rbus_getExt : bool → string → rbus → option (list (string * string * rbusValueType_t)) * rbus;
  rbus_get : bool → string → rbus → option (string * rbusValueType_t) * rbus;
  rbusValue_SetFromString : rbusValueType_t → string → bool;
  rbus_set : bool → string → rbusValueType_t → string → Z → rbus → bool * rbus
}.

Module Webpa.

Inductive WAL_STATUS : Type :=
  | WAL_SUCCESS | WAL_FAILURE | WAL_ERR_TIMEOUT | WAL_ERR_NOT_EXIST | WAL_ERR_INVALID_PARAMETER_NAME
  | WAL_ERR_INVALID_PARAMETER_TYPE | WAL_ERR_INVALID_PARAMETER_VALUE | WAL_ERR_NOT_WRITABLE
  | WAL_ERR_SETATTRIBUTE_REJECTED | WAL_ERR_NAMESPACE_OVERLAP | WAL_ERR_UNKNOWN_COMPONENT
  | WAL_ERR_NAMESPACE_MISMATCH | WAL_ERR_UNSUPPORTED_NAMESPACE
  | WAL_ERR_DP_COMPONENT_VERSION_MISMATCH | WAL_ERR_INVALID_PARAM | WAL_ERR_UNSUPPORTED_DATATYPE
  | WAL_STATUS_RESOURCES | WAL_ERR_WIFI_BUSY.

(** The enumeration's numbers, for the casts between the status types. *)
Definition wal_status (s : WAL_STATUS) : Z :=
  match s with
  | WAL_SUCCESS => 0 | WAL_FAILURE => 1 | WAL_ERR_TIMEOUT => 2 | WAL_ERR_NOT_EXIST => 3
  | WAL_ERR_INVALID_PARAMETER_NAME => 4 | WAL_ERR_INVALID_PARAMETER_TYPE => 5
  | WAL_ERR_INVALID_PARAMETER_VALUE => 6 | WAL_ERR_NOT_WRITABLE => 7
  | WAL_ERR_SETATTRIBUTE_REJECTED => 8 | WAL_ERR_NAMESPACE_OVERLAP => 9
  | WAL_ERR_UNKNOWN_COMPONENT => 10 | WAL_ERR_NAMESPACE_MISMATCH => 11
  | WAL_ERR_UNSUPPORTED_NAMESPACE => 12 | WAL_ERR_DP_COMPONENT_VERSION_MISMATCH => 13
  | WAL_ERR_INVALID_PARAM => 14 | WAL_ERR_UNSUPPORTED_DATATYPE => 15 | WAL_STATUS_RESOURCES => 16
  | WAL_ERR_WIFI_BUSY => 17
  end.

Inductive WAL_DATA_TYPE : Type :=
  | WAL_STRING | WAL_INT | WAL_UINT | WAL_BOOLEAN | WAL_DATETIME | WAL_BASE64 | WAL_LONG | WAL_ULONG
  | WAL_FLOAT | WAL_DOUBLE | WAL_BYTE | WAL_NONE.

#[export] Instance WAL_DATA_TYPE_eq_dec : EqDecision WAL_DATA_TYPE.
Proof. solve_decision. Defined.

Definition wal_type (t : WAL_DATA_TYPE) : Z :=
  match t with
  | WAL_STRING => 0 | WAL_INT => 1 | WAL_UINT => 2 | WAL_BOOLEAN => 3 | WAL_DATETIME => 4
  | WAL_BASE64 => 5 | WAL_LONG => 6 | WAL_ULONG => 7 | WAL_FLOAT => 8 | WAL_DOUBLE => 9
  | WAL_BYTE => 10 | WAL_NONE => 11
  end.

Definition MAX_PARAMETERNAME_LEN : nat := 256.
Definition MAX_PARAM_LENGTH : nat := TR69HOSTIFMGR_MAX_PARAM_LEN.
Definition TR69HOSTIFMGR_MAX_LONG_PARAM_LEN : Z := 200 * 1024.

(** A set request's entry; a value can be missing. *)
Record ParamVal := mkParamVal { pv_name : string; pv_value : option string; pv_type : WAL_DATA_TYPE }.

(** An answer; the type is a number, since it is written through casts. *)
Record param_t := mkParamT { name : string; value : string; type : Z }.

(** ** Conversions *)
Definition converttohostIfType (ParamDataType : string) : HostIf_ParamType_t :=
  if streq ParamDataType "string" then hostIf_StringType
  else if streq ParamDataType "unsignedInt" then hostIf_UnsignedIntType
  else if streq ParamDataType "int" then hostIf_IntegerType
  else if streq ParamDataType "unsignedLong" then hostIf_UnsignedLongType
  else if streq ParamDataType "boolean" then hostIf_BooleanType
  else if streq ParamDataType "hexBinary" then hostIf_StringType
  else hostIf_StringType.

Definition converttoWalType (t : HostIf_ParamType_t) : WAL_DATA_TYPE :=
  match t with
  | hostIf_StringType => WAL_STRING
  | hostIf_UnsignedIntType => WAL_UINT
  | hostIf_IntegerType => WAL_INT
  | hostIf_BooleanType => WAL_BOOLEAN
  | hostIf_UnsignedLongType => WAL_ULONG
  | hostIf_DateTimeType => WAL_DATETIME
  end.

Definition convertFaultCodeToWalStatus (f : faultCode_t) : WAL_STATUS :=
  match f with
  | fcNoFault | fcRequestDenied => WAL_FAILURE
  | fcAttemptToSetaNonWritableParameter => WAL_ERR_NOT_WRITABLE
  | fcInvalidParameterName => WAL_ERR_INVALID_PARAMETER_NAME
  | fcInvalidParameterType => WAL_ERR_INVALID_PARAMETER_TYPE
  | fcInvalidParameterValue => WAL_ERR_INVALID_PARAMETER_VALUE
  | _ => WAL_FAILURE
  end.

Definition getRbusDataTypefromWebPA (t : WAL_DATA_TYPE) : rbusValueType_t :=
  match t with
  | WAL_STRING => RBUS_STRING
  | WAL_INT => RBUS_INT32
  | WAL_UINT => RBUS_UINT32
  | WAL_BOOLEAN => RBUS_BOOLEAN
  | WAL_DATETIME => RBUS_DATETIME
  | WAL_BASE64 => RBUS_BYTES
  | WAL_LONG => RBUS_INT64
  | WAL_ULONG => RBUS_UINT64
  | WAL_FLOAT => RBUS_SINGLE
  | WAL_DOUBLE => RBUS_DOUBLE
  | WAL_BYTE => RBUS_BYTE
  | WAL_NONE => RBUS_STRING
  end.

Definition mapRbusDataTypeToWebPA (t : rbusValueType_t) : DATA_TYPE :=
  match t with
  | RBUS_BOOLEAN => WDMP_BOOLEAN
  | RBUS_CHAR | RBUS_BYTE | RBUS_INT8 | RBUS_UINT8 => WDMP_BYTE
  | RBUS_INT16 | RBUS_INT32 => WDMP_INT
  | RBUS_UINT16 | RBUS_UINT32 => WDMP_UINT
  | RBUS_INT64 => WDMP_LONG
  | RBUS_UINT64 => WDMP_ULONG
  | RBUS_STRING => WDMP_STRING
  | RBUS_DATETIME => WDMP_DATETIME
  | RBUS_BYTES => WDMP_BASE64
  | RBUS_SINGLE => WDMP_FLOAT
  | RBUS_DOUBLE => WDMP_DOUBLE
  | RBUS_PROPERTY | RBUS_OBJECT | RBUS_NONE => WDMP_NONE
  end.

(** [strtoul(s, NULL, 0)]: a leading 0x is hexadecimal, a leading 0 octal. *)
Definition digit_in (base : Z) (c : ascii) : option Z :=
  let v := byte_val c in
  let d := if is_digit c then v - 48
           else if (97 <=? v) && (v <=? 102) then v - 87
           else if (65 <=? v) && (v <=? 70) then v - 55 else 99 in
  if d <? base then Some d else None.

Fixpoint scan_base (base : Z) (s : string) (acc : Z) : Z :=
  match s with
  | String c s' => match digit_in base c with Some d => scan_base base s' (acc * base + d) | None => acc end
  | EmptyString => acc
  end.

Definition strtoul0 (s : string) : Z :=
  let s1 := skip_space s in
  let '(neg, s2) :=
    match s1 with
    | String c s' =>
        if Ascii.eqb c "-" then (true, s') else if Ascii.eqb c "+" then (false, s') else (false, s1)
    | EmptyString => (false, s1)
    end in
  let v :=
    match s2 with
    | String "0" (String x (String h r)) =>
        if (Ascii.eqb x "x" || Ascii.eqb x "X") && (match digit_in 16 h with Some _ => true | None => false end)
        then scan_base 16 (String h r) 0 else scan_base 8 s2 0
    | String "0" _ => scan_base 8 s2 0
    | _ => scan_base 10 s2 0
    end in
  if ULONG_MAX <? v then ULONG_MAX else if neg then uint64 (- v) else v.

(** The text of an answer's value.  A boolean is read as an int. *)
Definition value_text (m : HOSTIF_MsgData_t) : string :=
  match paramtype m with
  | hostIf_IntegerType | hostIf_BooleanType => dec (get_int (paramValue m))
  | hostIf_UnsignedIntType => dec (get_uint (paramValue m))
  | hostIf_UnsignedLongType => dec (uint64 (le_val (take 8 (paramValue m))))
  | _ =>
      match (if isLengthyParam m then paramValueLong m else None) with
      | Some long => long
      | None => str_take (MAX_PARAM_LENGTH - 1) (buf_str (paramValue m))
      end
  end.

(** [strncpy(buf, s, MAX_PARAM_LENGTH - 1)] and the terminator: what is not
    written is filled with NULs. *)
Definition fill (s : string) : list ascii :=
  let l := take (MAX_PARAM_LENGTH - 1) (String.list_ascii_of_string s) in
  l ++ replicate (MAX_PARAM_LENGTH - length l) NUL.

Definition mk_request (n : string) (t : HostIf_ParamType_t) (m : HOSTIF_MsgData_t) : HOSTIF_MsgData_t :=
  mkMsg (str_take (MAX_PARAM_LENGTH - 1) n) (paramValue m) (paramValueLong m) (transactionID m)
        (paramLen m) 0 t (reqType m) (faultCode m) (requestor m) (bsUpdate m) (isLengthyParam m).

Definition with_source (m : HOSTIF_MsgData_t) (r b : HostIf_Source_Type_t) : HOSTIF_MsgData_t :=
  mkMsg (paramName m) (paramValue m) (paramValueLong m) (transactionID m) (paramLen m)
        (instanceNum m) (paramtype m) (reqType m) (faultCode m) r b (isLengthyParam m).

Definition with_long (m : HOSTIF_MsgData_t) (l : bool) (v : option string) : HOSTIF_MsgData_t :=
  mkMsg (paramName m) (paramValue m) v (transactionID m) (paramLen m)
        (instanceNum m) (paramtype m) (reqType m) (faultCode m) (requestor m) (bsUpdate m) l.

Section pal.
Context `{TinyXml} `{ReqHandler} `{Wdmp} `{Rbus}.

(** The handle [g_busHandle] being open, the bus, and the dispatcher. *)
Record pal := mkPal { g_busHandle : bool; bus : rbus; hs : hst }.

Definition set_hs (s : pal) (h : hst) : pal := mkPal (g_busHandle s) (bus s) h.

Definition ensureRbusHandle (s : pal) : pal :=
  if g_busHandle s then s
  else let '(ok, b') := rbus_open (bus s) in mkPal ok b' (hs s).

(** ** Reading *)
Definition rbusGetParamInfo (n : string) (s0 : pal) : walk (Z * list param_t * pal) :=
  let s := ensureRbusHandle s0 in
  let* wild := of_option (WalList.isWildCardParam n) in
  let '(r, b') :=
    (if (wild : bool) then rbus_getExt (g_busHandle s) n (bus s)
     else let '(r, b') := rbus_get (g_busHandle s) n (bus s) in
          ((λ v, [(n, v.1, v.2)]) <$> r, b')) in
  let s' := mkPal (g_busHandle s) b' (hs s) in
  match r with
  | Some l =>
      Done (wdmp_status WDMP_SUCCESS,
            (λ e, mkParamT e.1.1 e.1.2 (data_type (mapRbusDataTypeToWebPA e.2))) <$> l, s')
  | None => Done (wdmp_status WDMP_FAILURE, [], s')
  end.

(** The status is a cast of the fault code when the get fails.  When the data
    model has a default the buffer takes its text, and is then written over
    with what it reads as in the parameter's type. *)
Definition get_ParamValues_tr69hostIf (m0 : HOSTIF_MsgData_t) (dm : option WalDB.DataModelParam) (s : pal)
  : Z * HOSTIF_MsgData_t * pal :=
  let '(status, m, h) := hostIf_Get (set_reqType m0 HOSTIF_GET) (hs s) in
  let s' := set_hs s h in
  if status =? 0 then (wdmp_status WDMP_SUCCESS, m, s')
  else
    match (d ← dm; WalDB.defaultValue d) with
    | Some def =>
        let m1 := set_value m (fill def) in
        let text := default EmptyString (MsgHandler.paramValueToString (Some m1) MAX_PARAM_LENGTH) in
        (wdmp_status WDMP_SUCCESS,
         set_value m1 (poke (paramValue m1) (String.list_ascii_of_string text ++ [NUL])), s')
    | None => (wal_status (convertFaultCodeToWalStatus (faultCode m)), m, s')
    end.

Definition answer (n : string) (m : HOSTIF_MsgData_t) : param_t :=
  mkParamT n (value_text m) (wal_type (converttoWalType (paramtype m))).

(** GetParamInfo on a name that is not a wildcard. *)
Definition get_single (doc : XMLNode) (n : string) (s : pal) : walk (Z * list param_t * pal) :=
  let* r := of_option (WalDB.getParamInfoFromDataModel doc n WalDB.zero_param) in
  match r with
  | None => rbusGetParamInfo n s
  | Some dm =>
      let t := match WalDB.dataType dm with Some d => converttohostIfType d | None => hostIf_StringType end in
      let m := with_source (mk_request n t zero_msg) HOSTIF_SRC_WEBPA (getBSUpdateEnum (WalDB.bsUpdate dm)) in
      let '(ret, m', s') := get_ParamValues_tr69hostIf m (Some dm) s in
      if ret =? wdmp_status WDMP_SUCCESS
      then Done (ret, [answer (str_take (String.length n + 1) (paramName m')) m'], s')
      else Done (ret, [], s')
  end.

(** The loop over the names of a wildcard: the message is cleared after a
    success only. *)
Fixpoint get_children (l : list (string * string)) (m : HOSTIF_MsgData_t) (s : pal)
  : list param_t * pal :=
  match l with
  | [] => ([], s)
  | (n, t) :: l' =>
      let '(ret, m', s') := get_ParamValues_tr69hostIf (mk_request n (converttohostIfType t) m) None s in
      if ret =? wdmp_status WDMP_SUCCESS
      then let '(rest, s'') := get_children l' zero_msg s' in
           (answer (str_take (MAX_PARAM_LENGTH - 1) (paramName m')) m' :: rest, s'')
      else get_children l' m' s'
  end.

(** [getValues] on one name that is not a wildcard: the value, when there is
    one.  A wildcard never gets here: the names it is asked for are shorter
    than the limit only when they end in a parameter's own name. *)
Definition getValue1 (doc : XMLNode) (n : string) (s : pal) : walk (option string * pal) :=
  if (String.length n <? MAX_PARAMETERNAME_LEN)%nat then
    let* r := get_single doc n s in
    let '(_, l, s') := r in Done (value <$> head l, s')
  else Done (None, s).

Definition GetParamInfo (fuel : nat) (dbhandle : option XMLNode) (n : string) (s : pal)
  : walk (Z * list param_t * pal) :=
  match dbhandle with
  | None => rbusGetParamInfo n s
  | Some doc =>
      let* wild := of_option (WalList.isWildCardParam n) in
      if (wild : bool) then
        let* r := WalList.getChildParamNamesFromDataModel (getValue1 doc) fuel (Some doc) n s in
        let '(_, names, s') := r in
        match names with
        | [] => rbusGetParamInfo n s'
        | _ =>
            let '(l, s'') := get_children names zero_msg s' in
            Done (wdmp_status WDMP_SUCCESS, l, s'')
        end
      else get_single doc n s
  end.

(** The status, the count and the values of every name. *)
Fixpoint getValues (fuel : nat) (dbhandle : option XMLNode) (paramName : list string) (s : pal)
  : walk (list (Z * list param_t) * pal) :=
  match paramName with
  | [] => Done ([], s)
  | n :: ns =>
      let* r := (if (String.length n <? MAX_PARAMETERNAME_LEN)%nat then GetParamInfo fuel dbhandle n s
                 else Done (wdmp_status WDMP_ERR_INVALID_PARAMETER_NAME, [], s)) in
      let '(ret, l, s') := r in
      let* r' := getValues fuel dbhandle ns s' in
      let '(rest, s'') := r' in Done ((ret, l) :: rest, s'')
  end.

(** ** Writing *)
Definition rbusSetParamInfo (p : ParamVal) (transactionID : option string) (s0 : pal)
  : walk (WAL_STATUS * pal) :=
  let s := ensureRbusHandle s0 in
  let t := getRbusDataTypefromWebPA (pv_type p) in
  let* v := of_option (pv_value p) in
  if rbusValue_SetFromString t v then
    let* tid := of_option transactionID in
    let '(ok, b') := rbus_set (g_busHandle s) (pv_name p) t v (uint32 (strtoul0 tid)) (bus s) in
    Done (if ok then WAL_SUCCESS else WAL_ERR_INVALID_PARAMETER_VALUE, mkPal (g_busHandle s) b' (hs s))
  else Done (WAL_ERR_INVALID_PARAMETER_NAME, s).

Definition set_ParamValues_tr69hostIf (m0 : HOSTIF_MsgData_t) (s : pal) : walk (WAL_STATUS * pal) :=
  let '(status, m, h) := hostIf_Set (set_reqType m0 HOSTIF_SET) (hs s) in
  let* st := of_option status in
  Done (if st =? 0 then WAL_SUCCESS else convertFaultCodeToWalStatus (faultCode m), set_hs s h).

(** The value of a set as the message carries it; the left is the status of a
    refusal. *)
Definition encode_value (m : HOSTIF_MsgData_t) (v : string) : WAL_STATUS + HOSTIF_MsgData_t :=
  match paramtype m with
  | hostIf_BooleanType =>
      if streq v "1" || strcaseeq v "true" then inr (set_value m (put_boolean (paramValue m) true))
      else if streq v "0" || strcaseeq v "false" then inr (set_value m (put_boolean (paramValue m) false))
      else inl WAL_ERR_INVALID_PARAMETER_VALUE
  | hostIf_IntegerType =>
      let '(n, tail) := strtol v in
      if negb (is_empty tail) then inl WAL_ERR_INVALID_PARAMETER_VALUE
      else inr (set_value m (put_int (paramValue m) (int32 n)))
  | hostIf_UnsignedIntType =>
      let '(n, tail) := strtol v in
      if negb (is_empty tail) || (int32 n <? 0) then inl WAL_ERR_INVALID_PARAMETER_VALUE
      else inr (set_value m (put_int (paramValue m) (int32 n)))
  | _ =>
      if isLengthyParam m then
        if TR69HOSTIFMGR_MAX_LONG_PARAM_LEN <? int32 (Z.of_nat (String.length v))
        then inl WAL_ERR_INVALID_PARAMETER_VALUE
        else inr (with_long m true (Some v))
      else inr (set_value m (fill v))
  end.

Definition SetParamInfo (dbhandle : option XMLNode) (p : ParamVal) (transactionID : option string) (s : pal)
  : walk (WAL_STATUS * pal) :=
  match dbhandle with
  | None => rbusSetParamInfo p transactionID s
  | Some doc =>
      let* r := of_option (WalDB.getParamInfoFromDataModel doc (pv_name p) WalDB.zero_param) in
      match r with
      | None => rbusSetParamInfo p transactionID s
      | Some dm =>
          let t := match WalDB.dataType dm with Some d => converttohostIfType d | None => hostIf_StringType end in
          if decide (converttoWalType t ≠ pv_type p) then Done (WAL_ERR_INVALID_PARAMETER_TYPE, s)
          else
            let m := with_source (mk_request (pv_name p) t zero_msg) HOSTIF_SRC_WEBPA
                                 (getBSUpdateEnum (WalDB.bsUpdate dm)) in
            let m1 := with_long m (strcaseeq (paramName m) "Device.X_RDKCENTRAL-COM_T2.ReportProfiles") None in
            let* v := of_option (pv_value p) in
            match encode_value m1 v with
            | inl e => Done (e, s)
            | inr m2 => set_ParamValues_tr69hostIf m2 s
            end
      end
  end.

Fixpoint setValues (dbhandle : option XMLNode) (paramVal : list ParamVal) (transactionID : option string)
    (s : pal) : walk (list Z * pal) :=
  match paramVal with
  | [] => Done ([], s)
  | p :: ps =>
      let* r := SetParamInfo dbhandle p transactionID s in
      let '(ret, s') := r in
      let* r' := setValues dbhandle ps transactionID s' in
      let '(rest, s'') := r' in Done (wal_status ret :: rest, s'')
  end.

(** ** Lemmas *)
Lemma length_list_ascii s : length (String.list_ascii_of_string s) = String.length s.
Proof. induction s as [|c s IH]; simpl; [done|]. by rewrite IH. Qed.

Lemma fill_buf s :
  has_char NUL s = false → (String.length s < MAX_PARAM_LENGTH)%nat → buf_str (fill s) = s.
Proof.
  intros Hn Hl. rewrite <- (buf_str_poke zero_buffer s) at 2 by done. f_equal. unfold fill, poke.
  rewrite take_ge by (rewrite length_list_ascii; unfold MAX_PARAM_LENGTH in *; lia).
  rewrite length_app, length_list_ascii. rewrite <- app_assoc. f_equal. unfold zero_buffer.
  rewrite drop_replicate. change [NUL] with (replicate 1 NUL). rewrite <- replicate_add. f_equal.
  simpl length. unfold MAX_PARAM_LENGTH in *. lia.
Qed.

(** The texts a set takes as they are: for an unsigned parameter, those of the
    lower half of its range. *)
Definition settable (t : HostIf_ParamType_t) (v : string) : Prop :=
  match t with
  | hostIf_UnsignedIntType => ∃ z, v = dec z ∧ 0 <= z < 2 ^ 31
  | hostIf_UnsignedLongType | hostIf_DateTimeType => False
  | _ => canonical_text t v
  end.

Lemma encode_settable m v :
  settable (paramtype m) v → isLengthyParam m = false →
  ∃ m', encode_value m v = inr m' ∧ getStringValue m' = Some v ∧ paramName m' = paramName m
        ∧ requestor m' = requestor m ∧ bsUpdate m' = bsUpdate m.
Proof.
  intros Hv Hl. unfold encode_value, settable in *. destruct (paramtype m) eqn:Ht; simpl in Hv; try done.
  - destruct Hv as [Hn Hlen]. rewrite Hl. eexists. split; [done|].
    unfold getStringValue. cbn [paramtype paramValue set_value]. rewrite Ht, fill_buf by done. done.
  - destruct Hv as (z & -> & Hz). rewrite strtol_dec by (unfold LONG_MIN, LONG_MAX; lia).
    eexists. split; [done|]. unfold getStringValue. cbn [paramtype paramValue set_value].
    rewrite Ht, get_put_int, !int32_id by (rewrite ?int32_id; lia).
    rewrite int_to_string_fits by lia. by rewrite decide_True by lia.
  - destruct Hv as (z & -> & Hz). rewrite strtol_dec by (unfold LONG_MIN, LONG_MAX; lia).
    rewrite int32_id by lia. rewrite (proj2 (Z.ltb_ge z 0)) by lia. eexists. split; [done|].
    unfold getStringValue. cbn [paramtype paramValue set_value]. rewrite Ht.
    change (put_int (paramValue m) z) with (put_uint (paramValue m) z).
    rewrite get_put_uint. unfold uint_to_string, uint32. rewrite Z.mod_small by lia. done.
  - destruct Hv as [-> | ->]; eexists; (split; [done|]); unfold getStringValue;
      cbn [paramtype paramValue set_value]; rewrite Ht, get_put_boolean; done.
Qed.

(** The parameter is the daemon's own, with this entry. *)
Definition owned (doc : XMLNode) (n : string) (dm : WalDB.DataModelParam) : Prop :=
  WalDB.getParamInfoFromDataModel doc n WalDB.zero_param = Some (Some dm).

Definition entry_type (dm : WalDB.DataModelParam) : HostIf_ParamType_t :=
  match WalDB.dataType dm with Some d => converttohostIfType d | None => hostIf_StringType end.

(** The request of a set before its value. *)
Definition set_request (n : string) (dm : WalDB.DataModelParam) : HOSTIF_MsgData_t :=
  with_long (with_source (mk_request n (entry_type dm) zero_msg) HOSTIF_SRC_WEBPA
               (getBSUpdateEnum (WalDB.bsUpdate dm)))
            (strcaseeq (str_take (MAX_PARAM_LENGTH - 1) n) "Device.X_RDKCENTRAL-COM_T2.ReportProfiles") None.

Lemma SetParamInfo_owned doc n v dm tid s :
  owned doc n dm →
  SetParamInfo (Some doc) (mkParamVal n (Some v) (converttoWalType (entry_type dm))) tid s
  = match encode_value (set_request n dm) v with
    | inl e => Done (e, s)
    | inr m => set_ParamValues_tr69hostIf m s
    end.
Proof.
  intros Ho. unfold SetParamInfo. cbn [pv_name pv_value pv_type]. rewrite Ho. cbn [of_option wbind].
  fold (entry_type dm). rewrite decide_False by (intros Hne; by apply Hne). done.
Qed.

(** ** Properties *)

(** A WebPA set of a parameter of the daemon, with the type the data model
    gives it and a value in range, reaches the set handler once, as a request
    with the parameter's name, WebPA as requestor, the data model's update rule,
    and a value that reads back as the text; the answer is success when the
    handler's is, and the handler's fault otherwise. *)
Theorem webpa_set_delivers doc n v dm tid s :
  owned doc n dm → settable (entry_type dm) v → (String.length n < MAX_PARAM_LENGTH)%nat →
  strcaseeq n "Device.X_RDKCENTRAL-COM_T2.ReportProfiles" = false →
  ∃ m, paramName m = n ∧ reqType m = HOSTIF_SET ∧ requestor m = HOSTIF_SRC_WEBPA
    ∧ bsUpdate m = getBSUpdateEnum (WalDB.bsUpdate dm) ∧ getStringValue m = Some v
    ∧ SetParamInfo (Some doc) (mkParamVal n (Some v) (converttoWalType (entry_type dm))) tid s
      = (let '(status, m', h) := hostIf_Set m (hs s) in
         let* st := of_option status in
         Done (if st =? 0 then WAL_SUCCESS else convertFaultCodeToWalStatus (faultCode m'), set_hs s h)).
Proof.
  intros Ho Hv Hl Hrp. rewrite SetParamInfo_owned by done.
  assert (str_take (MAX_PARAM_LENGTH - 1) n = n) as Hn by (apply str_take_all; lia).
  destruct (encode_settable (set_request n dm) v) as (m & -> & Hg & Hname & Hreq & Hbs).
  - exact Hv.
  - unfold set_request. cbn [isLengthyParam with_long]. by rewrite Hn.
  - exists (set_reqType m HOSTIF_SET). cbn [paramName reqType requestor bsUpdate set_reqType].
    rewrite Hname, Hreq, Hbs. by split_and!.
Qed.

(** A set whose type is not the data model's is refused as such, and an
    unsigned value in the upper half of the 32-bit range is refused as an
    invalid value; the handler is not called and nothing changes. *)
Theorem webpa_set_refused doc n v t dm tid s z :
  owned doc n dm →
  (t ≠ converttoWalType (entry_type dm) →
   SetParamInfo (Some doc) (mkParamVal n v t) tid s = Done (WAL_ERR_INVALID_PARAMETER_TYPE, s))
  ∧ (entry_type dm = hostIf_UnsignedIntType → 2 ^ 31 <= z < 2 ^ 32 →
     SetParamInfo (Some doc) (mkParamVal n (Some (dec z)) WAL_UINT) tid s
     = Done (WAL_ERR_INVALID_PARAMETER_VALUE, s)).
Proof.
  intros Ho. split.
  - intros Ht. unfold SetParamInfo. cbn [pv_name pv_type]. rewrite Ho. cbn [of_option wbind].
    fold (entry_type dm). by rewrite decide_True by congruence.
  - intros He Hz. replace WAL_UINT with (converttoWalType (entry_type dm)) by by rewrite He.
    rewrite SetParamInfo_owned by done. unfold encode_value.
    replace (paramtype (set_request n dm)) with (entry_type dm) by done. rewrite He.
    rewrite strtol_dec by (unfold LONG_MIN, LONG_MAX; lia).
    assert (int32 z < 0) as Hneg.
    { unfold int32. replace (z + 2 ^ 31) with (z - 2 ^ 31 + 1 * 2 ^ 32) by lia.
      rewrite Z.mod_add, Z.mod_small; lia. }
    by rewrite (proj2 (Z.ltb_lt _ _) Hneg), orb_true_r.
Qed.

(** An unsigned long is not converted: the set handler is given the text's
    bytes, which read as another number; a digit reads as its character code. *)
Theorem webpa_set_ulong_garbled doc n d dm tid s :
  owned doc n dm → entry_type dm = hostIf_UnsignedLongType → 0 <= d < 10 →
  strcaseeq (str_take (MAX_PARAM_LENGTH - 1) n) "Device.X_RDKCENTRAL-COM_T2.ReportProfiles" = false →
  ∃ m, getStringValue m = Some (dec (48 + d))
    ∧ SetParamInfo (Some doc) (mkParamVal n (Some (dec d)) WAL_ULONG) tid s
      = (let '(status, m', h) := hostIf_Set m (hs s) in
         let* st := of_option status in
         Done (if st =? 0 then WAL_SUCCESS else convertFaultCodeToWalStatus (faultCode m'), set_hs s h)).
Proof.
  intros Ho He Hd Hrp. replace WAL_ULONG with (converttoWalType (entry_type dm)) by by rewrite He.
  rewrite SetParamInfo_owned by done. unfold encode_value.
  replace (paramtype (set_request n dm)) with (entry_type dm) by done. rewrite He.
  unfold set_request at 1. cbn [isLengthyParam with_long]. rewrite Hrp.
  eexists. split; [|reflexivity]. unfold getStringValue.
  cbn [paramtype paramValue set_value set_reqType].
  replace (paramtype (set_request n dm)) with hostIf_UnsignedLongType by done.
  assert (get_ulong (fill (dec d)) = 48 + d) as ->; [|unfold uint64; rewrite Z.mod_small by lia; done].
  assert (d = 0 ∨ d = 1 ∨ d = 2 ∨ d = 3 ∨ d = 4 ∨ d = 5 ∨ d = 6 ∨ d = 7 ∨ d = 8 ∨ d = 9) as Hcases by lia.
  repeat (destruct Hcases as [->|Hcases]; [vm_compute; reflexivity|]). subst. vm_compute. reflexivity.
Qed.

(** Every get of the parameter fails and leaves the request's name and type. *)
Definition unavailable (n : string) : Prop :=
  ∀ m h, paramName m = n →
    ∃ status m' h', hostIf_Get m h = (status, m', h') ∧ status ≠ 0
      ∧ paramName m' = n ∧ paramtype m' = paramtype m ∧ isLengthyParam m' = isLengthyParam m.

Lemma get_single_default doc n dm def s :
  owned doc n dm → WalDB.defaultValue dm = Some def → unavailable n → (String.length n < MAX_PARAM_LENGTH)%nat →
  ∃ m s', get_single doc n s = Done (wdmp_status WDMP_SUCCESS, [answer n m], s')
    ∧ paramtype m = entry_type dm ∧ isLengthyParam m = false
    ∧ ∃ m0, paramtype m0 = entry_type dm ∧ paramValue m0 = fill def
        ∧ paramValue m = poke (fill def) (String.list_ascii_of_string
            (default EmptyString (MsgHandler.paramValueToString (Some m0) MAX_PARAM_LENGTH)) ++ [NUL]).
Proof.
  intros Ho Hd Hu Hl. unfold get_single. rewrite Ho. cbn [of_option wbind].
  unfold get_ParamValues_tr69hostIf. fold (entry_type dm).
  set (req := set_reqType _ HOSTIF_GET).
  assert (paramName req = n) as Hn by (apply str_take_all; lia).
  destruct (Hu req (hs s) Hn) as (status & m & h & -> & Hst & Hname & Htype & Hlong).
  rewrite (proj2 (Z.eqb_neq _ _) Hst). cbn [mbind option_bind]. rewrite Hd, Z.eqb_refl.
  cbn [paramName set_value]. rewrite Hname, str_take_all by lia.
  eexists _, _. split; [reflexivity|]. cbn [paramtype isLengthyParam set_value paramValue].
  split; [by rewrite Htype|]. split; [by rewrite Hlong|].
  exists (set_value m (fill def)). cbn [paramtype paramValue set_value]. by rewrite Htype.
Qed.

(** When the handler of a string parameter fails and the data model has a
    default, the get succeeds with the default as the value. *)
Theorem webpa_default_string doc n dm def s :
  owned doc n dm → entry_type dm = hostIf_StringType → WalDB.defaultValue dm = Some def →
  unavailable n → (String.length n < MAX_PARAM_LENGTH)%nat →
  has_char NUL def = false → (String.length def < MAX_PARAM_LENGTH)%nat →
  ∃ s', get_single doc n s
        = Done (wdmp_status WDMP_SUCCESS, [mkParamT n def (wal_type WAL_STRING)], s').
Proof.
  intros Ho He Hd Hu Hl Hn Hlen.
  destruct (get_single_default doc n dm def s Ho Hd Hu Hl) as (m & s' & -> & Ht & Hlong & m0 & Ht0 & Hv0 & Hv).
  exists s'. unfold answer, value_text. rewrite Ht, He, Hlong, Hv.
  unfold MsgHandler.paramValueToString. rewrite Ht0, He, Hv0, fill_buf by done.
  revert Hlen. generalize MAX_PARAM_LENGTH. intros [|k] Hlen; [lia|]. cbn [default].
  unfold id. rewrite (str_take_all k def) by lia.
  rewrite buf_str_poke by done. by rewrite str_take_all by lia.
Qed.

(** The default of any other type is garbled: its text is read as the bytes
    of a number, printed over itself, and read so again.  Every default of a
    boolean is answered as 1702195828, and the default 10 of an int as
    858993201. *)
Theorem webpa_default_garbled doc n dm def s :
  owned doc n dm → WalDB.defaultValue dm = Some def →
  unavailable n → (String.length n < MAX_PARAM_LENGTH)%nat →
  has_char NUL def = false → def ≠ EmptyString →
  (entry_type dm = hostIf_BooleanType →
   ∃ s', get_single doc n s
         = Done (wdmp_status WDMP_SUCCESS, [mkParamT n "1702195828" (wal_type WAL_BOOLEAN)], s'))
  ∧ (entry_type dm = hostIf_IntegerType → def = "10"%string →
     ∃ s', get_single doc n s
           = Done (wdmp_status WDMP_SUCCESS, [mkParamT n "858993201" (wal_type WAL_INT)], s')).
Proof.
  intros Ho Hd Hu Hl Hn Hne.
  destruct (get_single_default doc n dm def s Ho Hd Hu Hl) as (m & s' & -> & Ht & Hlong & m0 & Ht0 & Hv0 & Hv).
  split; [intros He|intros He ->]; exists s'; unfold answer, value_text; rewrite Ht, He, Hv;
    unfold MsgHandler.paramValueToString; rewrite Ht0, He, Hv0.
  - assert (get_boolean (fill def) = true) as ->; [|vm_compute; reflexivity].
    destruct def as [|c def]; [done|]. unfold get_boolean, fill. simpl take.
    cbn [has_char] in Hn. apply orb_false_elim in Hn as [Hc _].
    unfold le_val. simpl. apply negb_true_iff, Z.eqb_neq. intros Hz.
    assert (byte_val c = 0) as Hb by lia. apply Ascii.eqb_neq in Hc. apply Hc.
    unfold byte_val in Hb. rewrite <- (ascii_N_embedding c).
    replace (N_of_ascii c) with 0%N by lia. done.
  - vm_compute. reflexivity.
Qed.

(** A get of several names answers one entry per name, in order, and
    refuses every name of 256 characters or more without looking it up. *)
Theorem webpa_get_shape fuel dbhandle ns s l s' :
  getValues fuel dbhandle ns s = Done (l, s') →
  length l = length ns
  ∧ ∀ i n, ns !! i = Some n → (MAX_PARAMETERNAME_LEN ≤ String.length n)%nat →
           l !! i = Some (wdmp_status WDMP_ERR_INVALID_PARAMETER_NAME, []).
Proof.
  revert s l s'. induction ns as [|n ns IH]; intros s l s'; cbn [getValues].
  { intros [= <- _]. split; [done|]. by intros i n ?. }
  intros ([[ret e] s1] & Hg & ([rest s2] & Hr & Heq)%WalList.wbind_Done)%WalList.wbind_Done.
  injection Heq as <- _. destruct (IH _ _ _ Hr) as [Hl Hi]. split; [simpl; by rewrite Hl|].
  intros [|i] n' Hn' Hlen; [|by apply (Hi i n')]. injection Hn' as ->. simpl.
  rewrite (proj2 (Nat.ltb_ge _ _)) in Hg by done. by injection Hg as <- <- _.
Qed.

End pal.
(** ** Witnesses *)
#[local] Instance ex_wdmp : Wdmp := plain_wdmp.

(** A bus that knows nothing. *)
#[local] Instance ex_rbus : Rbus := {
  rbus := unit;
  rbus_open := λ b, (true, b);
  rbus_getExt := λ _ _ b, (None, b);
  rbus_get := λ _ _ b, (None, b);
  rbusValue_SetFromString := λ _ _, true;
  rbus_set := λ _ _ _ _ _ b, (false, b)
}.

(** Handlers that fail every get and accept every set. *)
#[local] Instance ex_handler : ReqHandler := {
  hst := unit;
  hostIf_Get := λ m h, (NOK, m, h);
  hostIf_Set := λ m h, (Some OK, m, h);
  hostIf_GetAttributes := λ m h, (Some NOK, m, h);
  hostIf_SetAttributes := λ m h, (Some NOK, m, h)
}.

#[local] Existing Instance WalDB.toy_xml.

Definition ex_param (n type def : string) : WalDB.toy_node :=
  WalDB.Elem "parameter" [("base", n); ("access", "readWrite"); ("bsUpdate", "allUpdate")]%string
    [WalDB.Elem "syntax" [] [WalDB.Elem type [] [];
                             WalDB.Elem "default" [("type", "factory"); ("value", def)]%string []]].

Definition ex_doc : @XMLNode WalDB.toy_xml :=
  WalDB.toy_model
    [WalDB.toy_object "Device.X."
       [ex_param "Text" "string" "none"; ex_param "Flag" "boolean" "false";
        ex_param "Count" "unsignedInt" "0"; ex_param "Big" "unsignedLong" "0"]].

Definition ex_state : pal := mkPal false () ().

Lemma ex_unavailable n : unavailable n.
Proof. intros m h Hn. exists NOK, m, h. by repeat split. Qed.

Lemma webpa_set_delivers_witness :
  SetParamInfo (Some ex_doc) (mkParamVal "Device.X.Text" (Some "abc"%string) WAL_STRING) None ex_state
  = Done (WAL_SUCCESS, ex_state).
Proof.
  destruct (@webpa_set_delivers WalDB.toy_xml ex_handler ex_rbus ex_doc "Device.X.Text" "abc"
    (WalDB.mkParam (Some "Device.X.Text") (Some "Text") (Some "string") (Some "readWrite") (Some "none")
       (Some "allUpdate"))%string None ex_state) as (m & _ & _ & _ & _ & _ & Hs).
  - vm_compute. reflexivity.
  - split; [vm_compute; reflexivity|apply Nat.ltb_lt; vm_compute; reflexivity].
  - apply Nat.ltb_lt; vm_compute; reflexivity.
  - vm_compute. reflexivity.
  - exact Hs.
Defined.

Lemma webpa_set_refused_witness :
  SetParamInfo (Some ex_doc) (mkParamVal "Device.X.Count" (Some (dec 3000000000)) WAL_UINT) None ex_state
  = Done (WAL_ERR_INVALID_PARAMETER_VALUE, ex_state).
Proof.
  refine (proj2 (@webpa_set_refused WalDB.toy_xml ex_handler ex_rbus ex_doc "Device.X.Count" None WAL_INT
    (WalDB.mkParam (Some "Device.X.Count") (Some "Count") (Some "unsignedInt") (Some "readWrite") (Some "0")
       (Some "allUpdate"))%string None ex_state 3000000000 _) _ _).
  - vm_compute. reflexivity.
  - vm_compute. reflexivity.
  - split; [discriminate|reflexivity].
Defined.

Lemma webpa_set_ulong_garbled_witness :
  ∃ m, getStringValue m = Some "53"%string
    ∧ SetParamInfo (Some ex_doc) (mkParamVal "Device.X.Big" (Some "5"%string) WAL_ULONG) None ex_state
      = (let '(status, m', h) := @hostIf_Set ex_handler m () in
         let* st := of_option status in
         Done (if st =? 0 then WAL_SUCCESS else convertFaultCodeToWalStatus (faultCode m'),
               set_hs ex_state h)).
Proof.
  refine (@webpa_set_ulong_garbled WalDB.toy_xml ex_handler ex_rbus ex_doc "Device.X.Big" 5
    (WalDB.mkParam (Some "Device.X.Big") (Some "Big") (Some "unsignedLong") (Some "readWrite") (Some "0")
       (Some "allUpdate"))%string None ex_state _ _ _ _).
  - vm_compute. reflexivity.
  - vm_compute. reflexivity.
  - split; [discriminate|reflexivity].
  - vm_compute. reflexivity.
Defined.

Lemma webpa_default_string_witness :
  ∃ s', get_single ex_doc "Device.X.Text" ex_state = Done (0, [mkParamT "Device.X.Text" "none" 0], s').
Proof.
  refine (@webpa_default_string WalDB.toy_xml ex_handler ex_wdmp ex_rbus ex_doc "Device.X.Text"
    (WalDB.mkParam (Some "Device.X.Text") (Some "Text") (Some "string") (Some "readWrite") (Some "none")
       (Some "allUpdate"))%string "none" ex_state _ _ _ (ex_unavailable _) _ _ _).
  - vm_compute. reflexivity.
  - vm_compute. reflexivity.
  - vm_compute. reflexivity.
  - apply Nat.ltb_lt; vm_compute; reflexivity.
  - vm_compute. reflexivity.
  - apply Nat.ltb_lt; vm_compute; reflexivity.
Defined.

Lemma webpa_default_garbled_witness :
  ∃ s', get_single ex_doc "Device.X.Flag" ex_state = Done (0, [mkParamT "Device.X.Flag" "1702195828" 3], s').
Proof.
  refine (proj1 (@webpa_default_garbled WalDB.toy_xml ex_handler ex_wdmp ex_rbus ex_doc "Device.X.Flag"
    (WalDB.mkParam (Some "Device.X.Flag") (Some "Flag") (Some "boolean") (Some "readWrite") (Some "false")
       (Some "allUpdate"))%string "false" ex_state _ _ (ex_unavailable _) _ _ _) _).
  - vm_compute. reflexivity.
  - vm_compute. reflexivity.
  - apply Nat.ltb_lt; vm_compute; reflexivity.
  - vm_compute. reflexivity.
  - discriminate.
  - vm_compute. reflexivity.
Defined.

Lemma webpa_get_shape_witness :
  ∃ l s', getValues 100 (Some ex_doc) ["Device.X.Text"; "Device.X.Flag"]%string ex_state = Done (l, s')
    ∧ length l = 2%nat.
Proof.
  destruct (getValues 100 (Some ex_doc) ["Device.X.Text"; "Device.X.Flag"]%string ex_state)
    as [[l s']| |] eqn:Hg; [|vm_compute in Hg; discriminate Hg..].
  exists l, s'. split; [reflexivity|].
  exact (proj1 (@webpa_get_shape WalDB.toy_xml ex_handler ex_wdmp ex_rbus _ _ _ _ _ _ Hg)).
Defined.

End Webpa.
