(* ===== verification/ProfileIO.v ===== *)
(** * How the profiles read and write files

    The idioms that the classes under profiles/ and src/hostIf_main.cpp share:
    reading a file line by line with fgets or getline, replacing one file by
    another, and answering a request with a text. *)
From stdpp Require Import base list strings gmap.
From Stdlib Require Import Ascii ZArith Lia.
From S2P Require Import Prelude HostIf FileStore Webpa.

Module ProfileIO.

(** ** Lines *)

(** What [fgets] gives, call after call: up to and with a newline, and at most
    [max] characters, of which [room] are left for the line that is begun. *)
Fixpoint chunks (max room : nat) (s : string) : list string :=
  match s with
  | EmptyString => []
  | String c s' =>
      if Ascii.eqb c NL then String c EmptyString :: chunks max max s'
      else match room with
           | S (S r) => match chunks max (S r) s' with [] => [String c EmptyString] | l :: ls => String c l :: ls end
           | _ => String c EmptyString :: chunks max max s'
           end
  end.

Definition fgets_lines (size : nat) (s : string) : list string := chunks (size - 1) (size - 1) s.

(** Whether the last line of a file has no newline. *)
Definition unterminated (content : string) : bool :=
  match last_char content with Some c => negb (Ascii.eqb c NL) | None => false end.

(** [while(getline(f, line)) if(p(line)) break;]: what [line] is after the loop.
    A call at the end of the file empties it, unless the end was already seen. *)
Definition scan_lines (p : string → bool) (content : string) : string :=
  match List.find p (getlines content) with
  | Some l => l
  | None => if unterminated content then default EmptyString (last (getlines content)) else EmptyString
  end.

Definition text_of (lines : list string) : string :=
  foldr (λ l s, l +:+ String NL s) EmptyString lines.

(** The pieces between the runs of a character, as [strtok] gives them. *)
Fixpoint tokens_from (c : ascii) (cur : string) (s : string) : list string :=
  match s with
  | EmptyString => if is_empty cur then [] else [cur]
  | String a s' =>
      if Ascii.eqb a c then (if is_empty cur then tokens_from c EmptyString s' else cur :: tokens_from c EmptyString s')
      else tokens_from c (cur +:+ String a EmptyString) s'
  end.
Definition tokens (c : ascii) (s : string) : list string := tokens_from c EmptyString s.

(** Pieces with a character between them. *)
Fixpoint join (c : ascii) (l : list string) : string :=
  match l with
  | [] => EmptyString
  | [x] => x
  | x :: l' => x +:+ String c (join c l')
  end.

(** ** Files *)
Definition rewrite_file (w : env) (path text : string) : option env :=
  w' ← open_trunc w path; Some (append_file w' path text).

Definition rename (old new : string) (w : env) : bool * env :=
  match read_file w old with
  | Some t => if can_write w new then (true, put_file (remove_file w old) new t) else (false, w)
  | None => (false, w)
  end.

(** A text written to an opened file, and whether the stream is good after [close]:
    [room] is how many characters can still be written to the disk, if that is
    limited. *)
Definition write_all (room : option nat) (w : env) (path text : string) : bool * env :=
  match room with
  | None => (true, append_file w path text)
  | Some n => ((String.length text <=? n)%nat, append_file w path (str_take n text))
  end.

(** Whether a text fits, and what of it is on the disk. *)
Definition fits_room (room : option nat) (t : string) : bool :=
  match room with None => true | Some n => (String.length t <=? n)%nat end.
Definition cut_to_room (room : option nat) (t : string) : string :=
  match room with None => t | Some n => str_take n t end.

(** [remove(path)]: whether the file is gone by it.  [removable]: the files that the
    system lets the daemon remove. *)
Definition remove_path (removable : string → bool) (w : env) (path : string) : bool * env :=
  match read_file w path with
  | Some _ => if removable path then (true, remove_file w path) else (false, w)
  | None => (false, w)
  end.

(** ** Answers *)
Definition answer_text (m : HOSTIF_MsgData_t) (value : string) : HOSTIF_MsgData_t :=
  let m1 := set_value (set_paramtype m hostIf_StringType) (Webpa.fill (c_str value)) in
  set_len m1 (Z.of_nat (String.length (buf_str (paramValue m1)))).

(** [strncpy(buf, s, n)] into a buffer of at least [n] bytes. *)
Definition strncpy_into (buf : list ascii) (s : string) (n : nat) : list ascii :=
  let l := take n (String.list_ascii_of_string (c_str s)) in poke buf (l ++ replicate (n - length l) NUL).

(** The answers of a text, which [strncpy] copies up to [n] bytes, and of an [int]. *)
Definition answer_str (n : nat) (m : HOSTIF_MsgData_t) (s : string) : HOSTIF_MsgData_t :=
  set_len (set_paramtype (set_value m (strncpy_into (paramValue m) s n)) hostIf_StringType) (Z.of_nat (String.length s)).
Definition answer_int (t : HostIf_ParamType_t) (len : Z) (m : HOSTIF_MsgData_t) (z : Z) : HOSTIF_MsgData_t :=
  set_len (set_paramtype (set_value m (put_int (paramValue m) z)) t) len.
Definition answer_bool (m : HOSTIF_MsgData_t) (b : bool) : HOSTIF_MsgData_t :=
  answer_int hostIf_BooleanType 1 m (if b then 1 else 0).

(** ** Lemmas *)
Lemma poke_app buf a b : poke buf (a ++ b) = a ++ poke (drop (length a) buf) b.
Proof. unfold poke. by rewrite length_app, drop_drop, <- app_assoc. Qed.

Lemma strncpy_into_value buf s n :
  has_char NUL s = false → (String.length s < n)%nat → buf_str (strncpy_into buf s n) = s.
Proof.
  intros Hn Hl. unfold strncpy_into. rewrite c_str_no_nul, take_ge by (done || rewrite Webpa.length_list_ascii; lia).
  rewrite Webpa.length_list_ascii. replace (n - String.length s)%nat with (S (n - S (String.length s))) by lia.
  change (replicate (S ?k) NUL) with ([NUL] ++ replicate k NUL). rewrite app_assoc, poke_app.
  etrans; [|apply (buf_str_poke [] s Hn)]. unfold buf_str, poke. rewrite <- !app_assoc. cbn [app].
  generalize (replicate (n - S (String.length s)) NUL ++ drop (length (replicate (n - S (String.length s)) NUL)) (drop (length (String.list_ascii_of_string s ++ [NUL])) buf)).
  intros l. generalize (drop (length (String.list_ascii_of_string s ++ [NUL])) (@nil ascii)). intros l'.
  clear. induction s as [|c s IH]; [done|]. cbn [String.list_ascii_of_string app String.string_of_list_ascii c_str].
  case_bool; [done|]. f_equal. exact IH.
Qed.

Lemma answer_str_value n m s :
  has_char NUL s = false → (String.length s < n)%nat → buf_str (paramValue (answer_str n m s)) = s.
Proof. apply (strncpy_into_value (paramValue m)). Qed.

Lemma answer_int_value t len m z : get_int (paramValue (answer_int t len m z)) = int32 z.
Proof. apply (get_put_int (paramValue m)). Qed.

Lemma answer_bool_value m b : get_boolean (paramValue (answer_bool m b)) = b.
Proof. by destruct b. Qed.

Lemma value_set_fault m f : paramValue (set_fault m f) = paramValue m.
Proof. reflexivity. Qed.

Lemma answer_text_value m v :
  (String.length v < 4096)%nat → has_char NUL v = false → buf_str (paramValue (answer_text m v)) = v.
Proof.
  intros Hl Hn. change (paramValue (answer_text m v)) with (Webpa.fill (c_str v)).
  rewrite c_str_no_nul by done. by apply Webpa.fill_buf.
Qed.

Lemma fill_text v : has_char NUL v = false → (String.length v <? 4096)%nat = true → buf_str (Webpa.fill v) = v.
Proof. intros Hn Hl. apply Webpa.fill_buf; [done|]. by apply Nat.ltb_lt. Qed.

Lemma put_file_twice w p s t : put_file (put_file w p s) p t = put_file w p t.
Proof. unfold put_file, set_files. cbn. by rewrite insert_insert_eq. Qed.

Lemma rewrite_file_put w p t : can_write w p = true → rewrite_file w p t = Some (put_file w p t).
Proof.
  intros Hw. unfold rewrite_file, append_file. rewrite open_trunc_ok by done. cbn [mbind option_bind].
  rewrite read_put_file, put_file_twice. done.
Qed.

Lemma rewrite_file_read w p t :
  can_write w p = true →
  ∃ w', rewrite_file w p t = Some w' ∧ ∀ q, read_file w' q = if decide (q = p) then Some t else read_file w q.
Proof.
  intros Hw. rewrite rewrite_file_put by done. eexists. split; [done|]. intros q.
  case_decide as Hq; [subst; apply read_put_file|by apply read_put_file_ne].
Qed.

(** What is written to a file that was just emptied. *)
Lemma write_all_room room w p t w1 :
  open_trunc w p = Some w1 → write_all room w1 p t = (fits_room room t, put_file w p (cut_to_room room t)).
Proof.
  unfold open_trunc. destruct (can_write w p); [|done]. intros [= <-].
  unfold write_all, append_file, fits_room, cut_to_room.
  destruct room; by rewrite read_put_file, put_file_twice.
Qed.

Lemma write_all_unlimited w w1 p t :
  open_trunc w p = Some w1 → write_all None w1 p t = (true, put_file w p t).
Proof.
  unfold open_trunc. destruct (can_write w p); [|done]. intros [= <-]. unfold write_all, append_file.
  by rewrite read_put_file, put_file_twice.
Qed.

Lemma rename_read old new w t :
  read_file w old = Some t → can_write w new = true → old ≠ new →
  ∃ w', rename old new w = (true, w') ∧ read_file w' new = Some t ∧ read_file w' old = None
        ∧ ∀ q, q ≠ old → q ≠ new → read_file w' q = read_file w q.
Proof.
  intros Ht Hw Hne. unfold rename. rewrite Ht, Hw. eexists. split; [done|]. split; [apply read_put_file|].
  split; [rewrite read_put_file_ne by done; apply lookup_delete_eq|].
  intros q Hq Hq'. rewrite read_put_file_ne by done. by apply lookup_delete_ne.
Qed.

Lemma chunks_line max l s r :
  has_char NL l = false → (String.length l < r)%nat →
  chunks max r (l +:+ String NL s) = (l +:+ String NL EmptyString) :: chunks max max s.
Proof.
  revert r. induction l as [|c l IH]; intros r Hl Hr; cbn [String.append chunks].
  - by rewrite Ascii.eqb_refl.
  - cbn [has_char] in Hl. apply orb_false_elim in Hl as [Hc Hl]. rewrite Ascii.eqb_sym, Hc.
    cbn [String.length] in Hr. destruct r as [|[|r]]; [lia|lia|]. by rewrite (IH (S r)) by (done || lia).
Qed.

Definition with_nl (l : string) : string := l +:+ String NL EmptyString.

(** A text that a buffer takes whole: one line, without a newline. *)
Definition fits (size : nat) (s : string) : Prop :=
  has_char NL s = false ∧ has_char NUL s = false ∧ (String.length s < size)%nat.

Lemma fgets_text_of size lines :
  Forall (λ l, (String.length l < size - 1)%nat ∧ has_char NL l = false) lines →
  fgets_lines size (text_of lines) = with_nl <$> lines.
Proof.
  unfold fgets_lines. induction 1 as [|l lines (Hl & Hnl) _ IH]; [done|]. cbn [text_of foldr fmap list_fmap].
  rewrite chunks_line by (done || lia). f_equal. exact IH.
Qed.

Lemma getlines_text_of lines :
  Forall (λ l, has_char NL l = false) lines → getlines (text_of lines) = lines.
Proof.
  induction 1 as [|l lines Hl _ IH]; [done|]. cbn [text_of foldr]. rewrite getlines_line by done. f_equal. exact IH.
Qed.

Lemma text_of_app a b : text_of (a ++ b) = text_of a +:+ text_of b.
Proof.
  induction a as [|l a IH]; [done|]. cbn [app text_of foldr]. fold (text_of (a ++ b)). fold (text_of a).
  rewrite IH. by rewrite str_app_assoc.
Qed.

Lemma terminated_text_of lines : unterminated (text_of lines) = false.
Proof.
  destruct lines as [|l lines] using rev_ind; [done|]. rewrite text_of_app. cbn [text_of foldr].
  unfold unterminated. rewrite <- str_app_assoc. by rewrite last_char_app, Ascii.eqb_refl.
Qed.

Lemma tokens_from_end c p : ∀ cur, has_char c p = false → tokens_from c cur p = if is_empty (cur +:+ p) then [] else [cur +:+ p].
Proof.
  induction p as [|a p IH]; intros cur; cbn [has_char tokens_from]; [by rewrite str_app_nil_r|].
  intros [Ha Hp]%orb_false_elim. rewrite Ascii.eqb_sym, Ha, IH by done. by rewrite str_app_assoc.
Qed.

Lemma tokens_from_sep c p s : ∀ cur,
  has_char c p = false → is_empty (cur +:+ p) = false → tokens_from c cur (p +:+ String c s) = (cur +:+ p) :: tokens c s.
Proof.
  induction p as [|a p IH]; intros cur; cbn [has_char String.append tokens_from].
  - rewrite Ascii.eqb_refl, str_app_nil_r. by intros _ ->.
  - intros [Ha Hp]%orb_false_elim He. rewrite Ascii.eqb_sym, Ha. rewrite IH; rewrite ?str_app_assoc; done.
Qed.

Lemma tokens_join c l : Forall (λ x, has_char c x = false ∧ is_empty x = false) l → tokens c (join c l) = l.
Proof.
  induction 1 as [|x l [Hx He] Hl IH]; [done|]. destruct l as [|y l].
  - unfold tokens. cbn [join]. rewrite tokens_from_end by done. cbn [String.append]. by rewrite He.
  - change (tokens_from c EmptyString (x +:+ String c (join c (y :: l))) = x :: y :: l).
    rewrite tokens_from_sep by done. cbn [String.append]. by rewrite IH.
Qed.

(** The line a loop stops at. *)
Lemma scan_lines_found p a l b :
  Forall (λ l, has_char NL l = false) (a ++ l :: b) → Forall (λ l, p l = false) a → p l = true →
  scan_lines p (text_of (a ++ l :: b)) = l.
Proof.
  intros Hn Ha Hl. unfold scan_lines. rewrite getlines_text_of by done. clear Hn.
  replace (List.find p (a ++ l :: b)) with (Some l); [done|].
  induction Ha as [|x a Hx _ IH]; cbn [app List.find]; [by rewrite Hl|]. by rewrite Hx.
Qed.

Lemma find_absent {A} (p : A → bool) ls : Forall (λ l, p l = false) ls → List.find p ls = None.
Proof. induction 1 as [|x l Hx _ IH]; cbn [List.find]; [done|]. by rewrite Hx. Qed.

Lemma scan_lines_absent p lines :
  Forall (λ l, has_char NL l = false) lines → Forall (λ l, p l = false) lines → scan_lines p (text_of lines) = EmptyString.
Proof.
  intros Hn Hl. unfold scan_lines. rewrite getlines_text_of, terminated_text_of by done. by rewrite find_absent.
Qed.

(** ** What is not written stays *)

(** Two environments with the same files but for some, and the same limits. *)
Definition same_but (ps : list string) (w w' : env) : Prop :=
  (∀ q, q ∉ ps → read_file w' q = read_file w q) ∧ e_readonly w' = e_readonly w ∧ e_sem_ok w' = e_sem_ok w.

Lemma same_but_refl ps w : same_but ps w w.
Proof. done. Qed.

Lemma same_but_trans ps w1 w2 w3 : same_but ps w1 w2 → same_but ps w2 w3 → same_but ps w1 w3.
Proof. intros (Hr1 & Ho1 & Hs1) (Hr2 & Ho2 & Hs2). split_and!; [|congruence..]. intros q Hq. by rewrite Hr2, Hr1. Qed.

Lemma same_but_weaken ps ps' w w' : ps ⊆ ps' → same_but ps w w' → same_but ps' w w'.
Proof. intros Hs (Hr & Ho). split; [|done]. intros q Hq. apply Hr. intros Hin. by apply Hq, Hs. Qed.

Lemma same_but_put ps w p t : p ∈ ps → same_but ps w (put_file w p t).
Proof. intros Hp. split_and!; [|done..]. intros q Hq. apply read_put_file_ne. by intros ->. Qed.

Lemma same_but_remove ps w p : p ∈ ps → same_but ps w (remove_file w p).
Proof. intros Hp. split_and!; [|done..]. intros q Hq. apply lookup_delete_ne. by intros ->. Qed.

Lemma same_but_trunc ps w p w' : p ∈ ps → open_trunc w p = Some w' → same_but ps w w'.
Proof. intros Hp. unfold open_trunc. destruct (can_write w p); [|done]. intros [= <-]. by apply same_but_put. Qed.

Lemma same_but_write_map `{UMapOrder} ps w p m : p ∈ ps → same_but ps w (write_map w p m).
Proof. intros Hp. unfold write_map, append_file. by apply (same_but_put ps (next_tick w)). Qed.

Lemma same_but_write_all ps room w p t : p ∈ ps → same_but ps w (write_all room w p t).2.
Proof. intros Hp. destruct room; by apply same_but_put. Qed.

End ProfileIO.
