(* ===== verification/WebpaAttr.v ===== *)
(** * Attributes over WebPA

    [WebpaAttribute] models parodusClient/pal/webpa_attribute.cpp: reading and
    writing the one attribute the daemon has, whether a parameter's changes are
    notified, for the parameters of the notification list. *)
From stdpp Require Import base list strings.
From Stdlib Require Import Ascii ZArith Lia.
From S2P Require Import Prelude HostIf MsgHandler WalDB WalList FrontEnd Webpa.
Import WalList (walk, Done, Crash, OutOfFuel, wbind, of_option).
Import Webpa (WAL_STATUS(..), WAL_DATA_TYPE(..)).

#[local] Arguments streq : simpl never.

Module WebpaAttribute.

Definition MAX_PARAMETER_LENGTH : nat := 512.
Definition MAX_PARAMETERVALUE_LEN : nat := 128.

Record AttrVal := mkAttr { attr_name : string; attr_value : string; attr_type : WAL_DATA_TYPE }.

Section attributes.
Context `{ReqHandler}.

(** [g_notifyParamList], of [g_notifyListSize] entries. *)
Variable g_notifyParamList : list string.

Definition listed (pParameterName : string) : bool := existsb (streq pParameterName) g_notifyParamList.

(** The request of an attribute before its value. *)
Definition attr_request (n : string) : HOSTIF_MsgData_t := Webpa.mk_request n hostIf_IntegerType zero_msg.

(** The handler's answer is looked at, and its status dropped by the caller. *)
Definition get_AttribValues_tr69hostIf (m : HOSTIF_MsgData_t) (h : hst)
  : walk (WAL_STATUS * HOSTIF_MsgData_t * hst) :=
  let '(r, m', h') := hostIf_GetAttributes (set_reqType m HOSTIF_GETATTRIB) h in
  let* ret := of_option r in
  Done (if ret =? 0 then WAL_SUCCESS else WAL_ERR_INVALID_PARAM, m', h').

(** [Crash]: the name does not fit the message, or the value the buffer of
    MAX_PARAMETERVALUE_LEN bytes it is copied to. *)
Definition getParamAttributes (n : string) (h : hst) : walk (WAL_STATUS * list AttrVal * hst) :=
  if listed n then
    if (TR69HOSTIFMGR_MAX_PARAM_LEN <=? String.length n)%nat then Crash else
    let* a := get_AttribValues_tr69hostIf (attr_request n) h in
    let '(_, m, h') := a in
    let v := buf_str (paramValue m) in
    if (MAX_PARAMETERVALUE_LEN <=? String.length v)%nat then Crash
    else
      let name := if (String.length n <? MAX_PARAMETER_LENGTH)%nat then n else EmptyString in
      Done (WAL_SUCCESS, [mkAttr name v WAL_INT], h')
  else Done (WAL_ERR_INVALID_PARAM, [], h).

Fixpoint getAttributes (paramName : list string) (h : hst) : walk (list (WAL_STATUS * list AttrVal) * hst) :=
  match paramName with
  | [] => Done ([], h)
  | n :: ns =>
      let* r := getParamAttributes n h in
      let '(st, l, h') := r in
      let* rest := getAttributes ns h' in
      let '(out, h'') := rest in Done ((st, l) :: out, h'')
  end.

Definition set_AttribValues_tr69hostIf (m : HOSTIF_MsgData_t) (h : hst) : walk (WAL_STATUS * hst) :=
  let '(r, _, h') := hostIf_SetAttributes (set_reqType m HOSTIF_SETATTRIB) h in
  let* ret := of_option r in
  Done (if ret =? 0 then WAL_SUCCESS else WAL_ERR_INVALID_PARAMETER_NAME, h').

(** "Fake success" for a parameter that is not on the list.  The name and the
    value are copied with strcpy_s, which leaves an empty string when they do
    not fit. *)
Definition setParamAttributes (n v : string) (h : hst) : walk (WAL_STATUS * hst) :=
  if listed n then
    let name := if (String.length n <? TR69HOSTIFMGR_MAX_PARAM_LEN)%nat then n else EmptyString in
    let m := attr_request name in
    set_AttribValues_tr69hostIf (set_value m (strcpy_s (paramValue m) TR69HOSTIFMGR_MAX_PARAM_LEN v)) h
  else Done (WAL_SUCCESS, h).

Fixpoint setAttributes (params : list (string * string)) (h : hst) : walk (list WAL_STATUS * hst) :=
  match params with
  | [] => Done ([], h)
  | (n, v) :: l =>
      let* r := setParamAttributes n v h in
      let '(st, h') := r in
      let* rest := setAttributes l h' in
      let '(out, h'') := rest in Done (st :: out, h'')
  end.

(** ** Properties *)

Lemma listed_spec n : listed n = true ↔ n ∈ g_notifyParamList.
Proof.
  unfold listed. rewrite existsb_exists. split.
  - intros (x & Hx & E). apply list_elem_of_In. apply streq_true in E. by subst.
  - intros Hn. exists n. split; [by apply list_elem_of_In|apply streq_refl].
Qed.

(** A set of attributes answers success for every parameter that is not on the
    notification list, in the order of the request, and asks the handler about
    the listed ones only: each of those is one request with the parameter's
    name, and its answer is the handler's. *)
Theorem attributes_set l h :
  Forall (λ nv, (String.length nv.1 < TR69HOSTIFMGR_MAX_PARAM_LEN)%nat) l →
  setAttributes l h
  = foldr (λ nv rest h,
      if bool_decide (nv.1 ∈ g_notifyParamList) then
        let m := set_reqType (set_value (attr_request nv.1) (strcpy_s zero_buffer TR69HOSTIFMGR_MAX_PARAM_LEN nv.2))
                             HOSTIF_SETATTRIB in
        let '(r, _, h') := hostIf_SetAttributes m h in
        let* ret := of_option r in
        let* x := rest h' in
        Done ((if ret =? 0 then WAL_SUCCESS else WAL_ERR_INVALID_PARAMETER_NAME) :: x.1, x.2)
      else let* x := rest h in Done (WAL_SUCCESS :: x.1, x.2))
    (λ h, Done ([], h)) l h.
Proof.
  intros Hl. revert h. induction Hl as [|[n v] l Hn _ IH]; intros h; [done|].
  cbn [setAttributes foldr fst snd]. unfold setParamAttributes. cbn [fst] in Hn.
  destruct (listed n) eqn:E.
  - rewrite bool_decide_eq_true_2 by by apply listed_spec. rewrite (proj2 (Nat.ltb_lt _ _) Hn).
    unfold set_AttribValues_tr69hostIf. change (paramValue (attr_request n)) with zero_buffer.
    destruct (hostIf_SetAttributes _ h) as [[[r|] ?] h']; [|done]. cbn [of_option wbind].
    rewrite IH. by destruct (foldr _ _ l h') as [[out h'']| |].
  - rewrite bool_decide_eq_false_2 by (rewrite <- listed_spec; congruence). cbn [wbind]. rewrite IH.
    by destruct (foldr _ _ l h) as [[out h'']| |].
Qed.

Lemma buf_str_zero : buf_str zero_buffer = EmptyString.
Proof. vm_compute. reflexivity. Qed.

(** A get of a listed parameter's attribute answers success whatever the
    handler answers: a failure of the handler is an attribute with the value the
    request had, which is empty when the handler left it alone. *)
Theorem attributes_get_hides_failure n h :
  n ∈ g_notifyParamList → (String.length n < MAX_PARAMETER_LENGTH)%nat →
  (∀ m, ∃ ret h', hostIf_GetAttributes m h = (Some ret, m, h') ∧ ret ≠ 0) →
  ∃ h', getParamAttributes n h = Done (WAL_SUCCESS, [mkAttr n EmptyString WAL_INT], h').
Proof.
  intros Hn%listed_spec Hl Hf. unfold getParamAttributes, get_AttribValues_tr69hostIf. rewrite Hn.
  rewrite (proj2 (Nat.leb_gt TR69HOSTIFMGR_MAX_PARAM_LEN _))
    by (unfold MAX_PARAMETER_LENGTH, TR69HOSTIFMGR_MAX_PARAM_LEN in *; lia).
  destruct (Hf (set_reqType (attr_request n) HOSTIF_GETATTRIB)) as (ret & h' & -> & Hret).
  cbn [of_option wbind]. rewrite (proj2 (Nat.ltb_lt _ _) Hl). exists h'.
  change (paramValue (set_reqType _ _)) with zero_buffer. by rewrite buf_str_zero.
Qed.

End attributes.

#[local] Instance ex_handler : ReqHandler := {
  hst := unit;
  hostIf_Get := λ m h, (NOK, m, h);
  hostIf_Set := λ m h, (Some OK, m, h);
  hostIf_GetAttributes := λ m h, (Some NOK, m, h);
  hostIf_SetAttributes := λ m h, (Some NOK, m, h)
}.

Lemma attributes_set_witness :
  setAttributes ["Device.A"%string] [("Device.A", "1"); ("Device.B", "1")]%string ()
  = Done ([WAL_ERR_INVALID_PARAMETER_NAME; WAL_SUCCESS], ()).
Proof.
  refine (eq_trans (attributes_set ["Device.A"%string] [("Device.A", "1"); ("Device.B", "1")]%string () _) _).
  - refine (Forall_cons_2 _ _ _ _ (Forall_cons_2 _ _ _ _ (Forall_nil_2 _)));
      apply Nat.ltb_lt; vm_compute; reflexivity.
  - vm_compute. reflexivity.
Defined.

Lemma attributes_get_hides_failure_witness :
  ∃ h', getParamAttributes ["Device.A"%string] "Device.A" () = Done (WAL_SUCCESS, [mkAttr "Device.A" "" WAL_INT], h').
Proof.
  refine (attributes_get_hides_failure ["Device.A"%string] "Device.A" () _ _ _).
  - left.
  - apply Nat.ltb_lt; vm_compute; reflexivity.
  - intros m. exists NOK, (). split; [reflexivity|discriminate].
Defined.

End WebpaAttribute.
