(* ===== verification/WebpaAdapter.v ===== *)
(** * Requests and notifications over WebPA

    [WebpaNotification] models parodusClient/pal/webpa_notification.cpp: the list
    of parameters whose changes are notified and the name the device notifies
    under.  [Adapter] models parodusClient/pal/webpa_adapter.cpp: a decoded
    request is checked, carried out by the functions of [Webpa] and
    [WebpaAttribute], and answered.  Decoding and encoding are wdmp-c's, and the
    JSON of the list is cJSON's; both are parameters. *)
From stdpp Require Import base list strings.
From Stdlib Require Import Ascii ZArith Lia.
From S2P Require Import Prelude HostIf MsgHandler WalDB WalList FrontEnd Webpa WebpaAttr.
Import WalList (walk, Done, Crash, OutOfFuel, wbind, of_option).
Import Webpa (WAL_STATUS(..), WAL_DATA_TYPE(..)).

#[local] Arguments streq : simpl never.

Module WebpaNotification.

Definition DEVICE_ESTB_MAC_PARAM : string := "Device.DeviceInfo.X_COMCAST-COM_STB_MAC".
Definition WEBPA_NOTIFY_SRC_LEN : nat := 32.

(** The pieces that [strtok] gives: what is between the separators, without the
    empty ones.  [cur] is the piece that has been started. *)
Fixpoint tokens (c : ascii) (s cur : string) : list string :=
  let emit rest := if is_empty cur then rest else cur :: rest in
  match s with
  | EmptyString => emit []
  | String x s' => if Ascii.eqb c x then emit (tokens c s' EmptyString) else tokens c s' (cur +:+ String x EmptyString)
  end.

(** Both buffers have 32 bytes, the last one for the terminator. *)
Definition macToLower (macValue : string) : string :=
  let tmp := str_take 31 macValue in
  lower (foldl (λ macConverted token, str_take 31 (macConverted +:+ token)) EmptyString
           (tokens ":"%char tmp EmptyString)).

(** The array Notify of a document: the text of each item, when it has one.
    [None]: the content is not a document with such an item. *)
Class NotifyList := { notify_items : string → option (list (option string)) }.

(** The content of the configuration file; [None]: no path has been set, or
    the file cannot be opened.  In the result [None] is an entry that has been
    allocated and not written. *)
Definition getnotifyparamList `{NotifyList} (cfg : option string) : option (list (option string)) :=
  match cfg with
  | None => None
  | Some content => if is_empty content then None else notify_items (c_str content)
  end.

Section source.
Context `{TinyXml} `{ReqHandler} `{Wdmp} `{Rbus} (fuel : nat) (dbhandle : option XMLNode).

(** The name, which is asked for until there is one.  [Crash]: without a value
    the length of a buffer that has not been written is taken. *)
Definition getNotifySource (notificationSource : option string) (s : Webpa.pal) : walk (string * Webpa.pal) :=
  match notificationSource with
  | Some n => Done (n, s)
  | None =>
      let* r := Webpa.getValues fuel dbhandle [DEVICE_ESTB_MAC_PARAM] s in
      let '(l, s') := r in
      match l with
      | (_, v :: _) :: _ =>
          Done ("mac:" +:+ macToLower (str_take WEBPA_NOTIFY_SRC_LEN (Webpa.value v)), s')
      | _ => Crash
      end
  end.
End source.

(** ** Lemmas *)
Lemma tokens_concat c s cur :
  has_char c cur = false →
  foldr String.append EmptyString (tokens c s cur) = cur +:+ erase_char c s.
Proof.
  revert cur. induction s as [|x s IH]; intros cur Hc; cbn [tokens erase_char].
  - destruct cur; [done|]. cbn [is_empty foldr]. done.
  - destruct (Ascii.eqb c x) eqn:E.
    + destruct cur as [|y cur]; cbn [is_empty foldr]; by rewrite IH.
    + rewrite IH, str_app_assoc; [done|]. rewrite has_char_app, Hc. cbn [has_char]. by rewrite E.
Qed.

Lemma str_take_length n s : (String.length (str_take n s) ≤ n)%nat.
Proof. revert s. induction n as [|n IH]; intros [|c s]; simpl; try lia. specialize (IH s). lia. Qed.

Lemma erase_char_length c s : (String.length (erase_char c s) ≤ String.length s)%nat.
Proof. induction s as [|x s IH]; simpl; [lia|]. destruct (Ascii.eqb c x); simpl; lia. Qed.

Lemma foldl_append l a :
  (String.length a + String.length (foldr String.append EmptyString l) ≤ 31)%nat →
  foldl (λ x token, str_take 31 (x +:+ token)) a l = a +:+ foldr String.append EmptyString l.
Proof.
  revert a. induction l as [|t l IH]; intros a Hl; cbn [foldl foldr].
  - by rewrite str_app_nil_r.
  - cbn [foldr] in Hl. rewrite str_length_app in Hl.
    rewrite str_take_all by (rewrite str_length_app; lia).
    rewrite IH by (rewrite str_length_app; lia). by rewrite str_app_assoc.
Qed.

(** The MAC address in the name: its first 31 characters without the colons, in
    lower case. *)
Theorem mac_to_lower s : macToLower s = lower (erase_char ":"%char (str_take 31 s)).
Proof.
  unfold macToLower. f_equal. rewrite foldl_append; rewrite (tokens_concat _ _ EmptyString) by done; [done|].
  change (String.length EmptyString) with 0%nat.
  change (EmptyString +:+ erase_char ":" (str_take 31 s)) with (erase_char ":" (str_take 31 s)).
  pose proof (erase_char_length ":"%char (str_take 31 s)). pose proof (str_take_length 31 s). lia.
Qed.

End WebpaNotification.

Module Adapter.
Import WebpaNotification.

Definition WEBPA_DEVICE_REBOOT_PARAM : string := "Device.X_CISCO_COM_DeviceControl.RebootDevice".
Definition WEBPA_DEVICE_REBOOT_VALUE : string := "Device".
Definition PARAM_CID : string := "Device.DeviceInfo.Webpa.X_COMCAST-COM_CID".
Definition PARAM_CMC : string := "Device.DeviceInfo.Webpa.X_COMCAST-COM_CMC".

Inductive REQ_TYPE : Type :=
  | GET | GET_ATTRIBUTES | SET | SET_ATTRIBUTES | TEST_AND_SET | REPLACE_ROWS | ADD_ROWS | DELETE_ROW.

(** A decoded request: the two gets carry names, the two sets parameters. *)
Record req_struct := mkReq { reqType : REQ_TYPE; paramNames : list string; param : list Webpa.ParamVal }.

(** The body of an answer: for a get every name with its values, for the others
    the names of the parameters, [None] being NULL. *)
Inductive response : Type :=
  | no_body
  | getRes (l : list (string * list Webpa.param_t))
  | paramRes (params : option (list (option string))).

(** In the states [None] is an entry that has been allocated and not written. *)
Record res_struct := mkRes { res_type : REQ_TYPE; retStatus : list (option Z); u : response }.

(** wdmp-c's decoding and encoding. *)
Class WdmpJson := {
  wdmp_parse_request : string → option req_struct;
  wdmp_form_response : option res_struct → option string
}.

Section adapter.
Context `{TinyXml} `{ReqHandler} `{Wdmp} `{Rbus} (fuel : nat) (dbhandle : option XMLNode)
  (g_notifyParamList : list string).

(** [Crash]: the character before an empty name is read. *)
Fixpoint validate_parameter (l : list Webpa.ParamVal) : walk WDMP_STATUS :=
  match l with
  | [] => Done WDMP_SUCCESS
  | p :: l' =>
      let* c := of_option (last_char (Webpa.pv_name p)) in
      if Ascii.eqb c DOT then Done WDMP_ERR_WILDCARD_NOT_SUPPORTED
      else if streq (Webpa.pv_name p) PARAM_CID || streq (Webpa.pv_name p) PARAM_CMC
      then Done WDMP_ERR_SET_OF_CMC_OR_CID_NOT_SUPPORTED
      else match Webpa.pv_value p with
           | None => Done WDMP_ERR_VALUE_IS_NULL
           | Some _ => validate_parameter l'
           end
  end.

Definition reboot_reason : list Webpa.ParamVal :=
  [Webpa.mkParamVal "Device.DeviceInfo.X_RDKCENTRAL-COM_LastRebootReason" (Some "webpa-reboot"%string) WAL_STRING].

(** [Crash]: the value of the reboot parameter is compared without a look
    whether there is one. *)
Definition setRebootReason (p : Webpa.ParamVal) (s : Webpa.pal) : walk Webpa.pal :=
  if streq (Webpa.pv_name p) WEBPA_DEVICE_REBOOT_PARAM then
    let* v := of_option (Webpa.pv_value p) in
    if streq v WEBPA_DEVICE_REBOOT_VALUE then
      let* r := Webpa.setValues dbhandle reboot_reason None s in Done r.2
    else Done s
  else Done s.

Fixpoint setRebootReasons (l : list Webpa.ParamVal) (s : Webpa.pal) : walk Webpa.pal :=
  match l with
  | [] => Done s
  | p :: l' => let* s' := setRebootReason p s in setRebootReasons l' s'
  end.

(** [setAttributes] on the array of a request, which a cast turns from an array
    of parameters into one of pointers to attributes: what it takes for the
    value of a listed parameter is not a pointer. *)
Fixpoint setAttributes_cast (l : list Webpa.ParamVal) : walk (list WAL_STATUS) :=
  match l with
  | [] => Done []
  | p :: l' =>
      if WebpaAttribute.listed g_notifyParamList (Webpa.pv_name p) then Crash
      else let* r := setAttributes_cast l' in Done (WAL_SUCCESS :: r)
  end.

(** The check of the names of a get of attributes; [true]: a wildcard. *)
Fixpoint has_wildcard (l : list string) : walk bool :=
  match l with
  | [] => Done false
  | n :: l' =>
      let* c := of_option (last_char n) in if Ascii.eqb c DOT then Done true else has_wildcard l'
  end.

(** [getAttributes] writes one state for each name to the address of a single
    one, and for a listed parameter it replaces the array that is read
    afterwards by a shorter one. *)
Definition getAttributes_cast (l : list string) : walk (list (option Z)) :=
  match l with
  | [] => Done []
  | [n] => if WebpaAttribute.listed g_notifyParamList n then Crash
           else Done [Some (Webpa.wal_status WAL_ERR_INVALID_PARAM)]
  | _ => Crash
  end.

(** The name of a parameter in the answer to a set, copied with strcpy_s. *)
Definition res_name (n : string) : string :=
  if (String.length n <? Webpa.MAX_PARAMETERNAME_LEN)%nat then n else EmptyString.

(** [getParamList] has room for [MAX_PARAMETERNAME_LEN] names. *)
Definition process_get (l : list string) (s : Webpa.pal) : walk (res_struct * Webpa.pal) :=
  if (Webpa.MAX_PARAMETERNAME_LEN <? length l)%nat then Crash
  else match l with
       | [] => Done (mkRes GET [] no_body, s)
       | _ =>
           let* r := Webpa.getValues fuel dbhandle l s in
           let '(out, s') := r in
           Done (mkRes GET (Some ∘ fst <$> out) (getRes (zip l (snd <$> out))), s')
       end.

Definition process_get_attributes (l : list string) (s : Webpa.pal) : walk (res_struct * Webpa.pal) :=
  let* wild := has_wildcard l in
  if (wild : bool) then
    Done (mkRes GET_ATTRIBUTES
            (Some (wdmp_status WDMP_ERR_WILDCARD_NOT_SUPPORTED) :: replicate (length l - 1) None) no_body, s)
  else
    let* st := getAttributes_cast l in
    Done (mkRes GET_ATTRIBUTES st (paramRes (Some ((λ _, None) <$> l))), s).

Definition process_set (t : REQ_TYPE) (l : list Webpa.ParamVal) (transactionId : option string) (s : Webpa.pal)
  : walk (res_struct * Webpa.pal) :=
  let* s1 := setRebootReasons l s in
  let* ret := validate_parameter l in
  if decide (ret = WDMP_SUCCESS) then
    let* r := (match t with
               | SET => Webpa.setValues dbhandle l transactionId s1
               | _ => let* st := setAttributes_cast l in Done (Webpa.wal_status <$> st, s1)
               end) in
    let '(st, s2) := r in
    Done (mkRes t (Some <$> st) (paramRes (Some ((λ p, Some (res_name (Webpa.pv_name p))) <$> l))), s2)
  else
    Done (mkRes t (Some (wdmp_status ret) :: replicate (length l - 1) (Some (wdmp_status WDMP_SUCCESS)))
            (paramRes None), s1).

Definition processRequest `{WdmpJson} (reqPayload : string) (transactionId : option string) (s : Webpa.pal)
  : walk (option string * Webpa.pal) :=
  match wdmp_parse_request reqPayload with
  | None => Done (wdmp_form_response None, s)
  | Some r =>
      let* x :=
        (match reqType r with
         | GET => process_get (paramNames r) s
         | GET_ATTRIBUTES => process_get_attributes (paramNames r) s
         | SET | SET_ATTRIBUTES => process_set (reqType r) (param r) transactionId s
         | t => Done (mkRes t [] no_body, s)
         end) in
      let '(res, s') := x in Done (wdmp_form_response (Some res), s')
  end.

(** Notification is turned on for every parameter of the list: one attribute
    with the value 1.  [Crash]: an entry that has not been written. *)
Fixpoint turn_on (l : list (option string)) (h : hst) : walk (list WAL_STATUS * hst) :=
  match l with
  | [] => Done ([], h)
  | None :: _ => Crash
  | Some n :: l' =>
      let* r := WebpaAttribute.setAttributes g_notifyParamList [(n, "1"%string)] h in
      let* rest := turn_on l' r.2 in
      Done (r.1 ++ rest.1, rest.2)
  end.

(** The states are only logged. *)
Definition setInitialNotify (l : list (option string)) (source : option string) (s : Webpa.pal)
  : walk (string * Webpa.pal) :=
  let* r := turn_on l (Webpa.hs s) in
  getNotifySource fuel dbhandle source (Webpa.set_hs s r.2).

(** ** Lemmas *)

(** A parameter that a set may name: not a wildcard, not one of the two that the
    cloud may not set, with a value. *)
Definition acceptable (p : Webpa.ParamVal) : Prop :=
  Webpa.pv_name p ≠ EmptyString ∧ last_char (Webpa.pv_name p) ≠ Some DOT
  ∧ Webpa.pv_name p ≠ PARAM_CID ∧ Webpa.pv_name p ≠ PARAM_CMC ∧ Webpa.pv_value p ≠ None.

(** Why a set is refused, in the order of the checks. *)
Definition refusal (p : Webpa.ParamVal) (st : WDMP_STATUS) : Prop :=
  Webpa.pv_name p ≠ EmptyString ∧
  ((last_char (Webpa.pv_name p) = Some DOT ∧ st = WDMP_ERR_WILDCARD_NOT_SUPPORTED)
   ∨ (last_char (Webpa.pv_name p) ≠ Some DOT ∧
      ((Webpa.pv_name p ∈ [PARAM_CID; PARAM_CMC] ∧ st = WDMP_ERR_SET_OF_CMC_OR_CID_NOT_SUPPORTED)
       ∨ (¬ (Webpa.pv_name p ∈ [PARAM_CID; PARAM_CMC]) ∧ Webpa.pv_value p = None ∧ st = WDMP_ERR_VALUE_IS_NULL)))).

(** Not a request to reboot. *)
Definition no_reboot (p : Webpa.ParamVal) : Prop := Webpa.pv_name p ≠ WEBPA_DEVICE_REBOOT_PARAM.

Lemma last_char_some s : s ≠ EmptyString → ∃ c, last_char s = Some c.
Proof.
  induction s as [|c [|d s] IH]; [done|by exists c|]. intros _. destruct IH as [e He]; [done|]. by exists e.
Qed.

Lemma validate_acceptable p l : acceptable p → validate_parameter (p :: l) = validate_parameter l.
Proof.
  intros (Hn & Hd & Hcid & Hcmc & Hv). cbn [validate_parameter].
  destruct (last_char_some _ Hn) as [c Hc]. rewrite Hc in Hd |- *. cbn [of_option wbind].
  destruct (Ascii.eqb_spec c DOT) as [->|]; [done|].
  rewrite (proj2 (streq_false _ _) Hcid), (proj2 (streq_false _ _) Hcmc). by destruct (Webpa.pv_value p).
Qed.

Lemma validate_refused p l st : refusal p st → validate_parameter (p :: l) = Done st.
Proof.
  intros [Hn Hr]. cbn [validate_parameter]. destruct (last_char_some _ Hn) as [c Hc]. rewrite Hc in Hr |- *.
  cbn [of_option wbind]. destruct Hr as [[[= ->] ->]|[Hd [[Hin ->]|(Hin & Hv & ->)]]]; [done|..];
    (destruct (Ascii.eqb_spec c DOT) as [->|]; [done|]).
  - apply elem_of_cons in Hin as [->|Hin]; [by rewrite streq_refl|].
    apply list_elem_of_singleton in Hin as ->. by rewrite streq_refl, orb_true_r.
  - apply not_elem_of_cons in Hin as [Hn1 Hin]. apply not_elem_of_cons in Hin as [Hn2 _].
    by rewrite (proj2 (streq_false _ _) Hn1), (proj2 (streq_false _ _) Hn2), Hv.
Qed.

Lemma validate_app l p rest st :
  Forall acceptable l → refusal p st → validate_parameter (l ++ p :: rest) = Done st.
Proof.
  intros Hl Hp. induction Hl as [|q l Hq _ IH]; [by apply validate_refused|].
  cbn [app]. by rewrite validate_acceptable.
Qed.

Lemma validate_all l : Forall acceptable l → validate_parameter l = Done WDMP_SUCCESS.
Proof. induction 1 as [|q l Hq _ IH]; [done|]. by rewrite validate_acceptable. Qed.

Lemma setRebootReasons_none l s : Forall no_reboot l → setRebootReasons l s = Done s.
Proof.
  induction 1 as [|p l Hp _ IH]; [done|]. cbn [setRebootReasons]. unfold setRebootReason.
  by rewrite (proj2 (streq_false _ _) Hp).
Qed.

(** A set of parameters that may be named: every one is given to
    [Webpa.setValues], and the answer has their states and names. *)
Lemma process_set_accepted l tid s :
  Forall acceptable l → Forall no_reboot l →
  process_set SET l tid s
  = (let* r := Webpa.setValues dbhandle l tid s in
     Done (mkRes SET (Some <$> r.1) (paramRes (Some ((λ p, Some (res_name (Webpa.pv_name p))) <$> l))), r.2)).
Proof.
  intros Ha Hr. unfold process_set. rewrite setRebootReasons_none, validate_all by done. cbn [wbind].
  rewrite decide_True by done. by destruct (Webpa.setValues _ _ _ _) as [[st s2]| |].
Qed.

(** ** Properties *)

(** A set is carried out as a whole or refused as a whole: when one parameter is
    a wildcard, one of the two that cannot be set, or has no value, nothing is
    set.  The answer's first state is the reason, whichever parameter it is
    about; the other states say success. *)
Theorem set_refused_as_whole `{WdmpJson} t good bad rest payload tid s st :
  t = SET ∨ t = SET_ATTRIBUTES →
  wdmp_parse_request payload = Some (mkReq t [] (good ++ bad :: rest)) →
  Forall acceptable good → refusal bad st → Forall no_reboot (good ++ bad :: rest) →
  processRequest payload tid s
  = Done (wdmp_form_response (Some (mkRes t
            (Some (wdmp_status st) :: replicate (length good + length rest) (Some 0)) (paramRes None))), s).
Proof.
  intros Ht Hp Hg Hb Hr. unfold processRequest. rewrite Hp. cbn [reqType param].
  assert (process_set t (good ++ bad :: rest) tid s
    = Done (mkRes t (Some (wdmp_status st) :: replicate (length good + length rest) (Some 0)) (paramRes None), s)) as E.
  { unfold process_set. rewrite setRebootReasons_none by done. cbn [wbind].
    rewrite (validate_app good bad rest st) by done. cbn [wbind].
    rewrite decide_False by (intros ->; destruct Hb as [_ [[_ ?]|[_ [[_ ?]|(_ & _ & ?)]]]]; done).
    rewrite wdmp_success, length_app. cbn [length].
    by replace (length good + S (length rest) - 1)%nat with (length good + length rest)%nat by lia. }
  destruct Ht as [-> | ->]; by rewrite E.
Qed.

(** The reason of a reboot is recorded before the request is checked: a request
    that asks for a reboot and is then refused has set it. *)
Theorem reboot_reason_before_check `{WdmpJson} good bad payload tid s s' r st :
  wdmp_parse_request payload
    = Some (mkReq SET [] (good ++ [Webpa.mkParamVal WEBPA_DEVICE_REBOOT_PARAM (Some WEBPA_DEVICE_REBOOT_VALUE) WAL_STRING; bad])) →
  Forall acceptable good → Forall no_reboot good → no_reboot bad → refusal bad st →
  Webpa.setValues dbhandle reboot_reason None s = Done (r, s') →
  ∃ res, processRequest payload tid s = Done (wdmp_form_response (Some res), s')
    ∧ head (retStatus res) = Some (Some (wdmp_status st)).
Proof.
  intros Hp Hg Hgr Hbr Hb Hset. unfold processRequest. rewrite Hp. cbn [reqType param].
  set (reboot := Webpa.mkParamVal _ _ _) in *. unfold process_set.
  assert (setRebootReasons (good ++ [reboot; bad]) s = Done s') as ->.
  { clear Hp Hg. induction Hgr as [|p l Hpr _ IH].
    - cbn [app setRebootReasons]. unfold setRebootReason.
      rewrite (proj2 (streq_false _ _) Hbr). change (Webpa.pv_name reboot) with WEBPA_DEVICE_REBOOT_PARAM.
      change (Webpa.pv_value reboot) with (Some WEBPA_DEVICE_REBOOT_VALUE). rewrite streq_refl.
      cbn [of_option wbind]. rewrite streq_refl, Hset. done.
    - cbn [app setRebootReasons]. unfold setRebootReason at 1. by rewrite (proj2 (streq_false _ _) Hpr). }
  cbn [wbind]. change (good ++ [reboot; bad]) with (good ++ ([reboot] ++ [bad])). rewrite (List.app_assoc good).
  rewrite (validate_app (good ++ [reboot]) bad [] st); [| |done].
  2:{ apply Forall_app. split; [done|]. apply List.Forall_cons; [|done]. by split_and!. }
  cbn [wbind].
  rewrite decide_False by (intros ->; destruct Hb as [_ [[_ ?]|[_ [[_ ?]|(_ & _ & ?)]]]]; done).
  by eexists.
Qed.

Lemma setAttributes_cast_spec l :
  setAttributes_cast l
  = if existsb (λ p, WebpaAttribute.listed g_notifyParamList (Webpa.pv_name p)) l then Crash
    else Done (replicate (length l) WAL_SUCCESS).
Proof.
  induction l as [|p l IH]; [done|]. cbn [setAttributes_cast existsb length replicate].
  destruct (WebpaAttribute.listed _ _); [done|]. rewrite IH. by destruct (existsb _ l).
Qed.

(** A request for the attributes of a parameter whose changes are notified ends
    the process, to set them as to read them.  To set those of others is
    answered with success, and nothing is done; to read those of one other is
    answered with an error. *)
Theorem attribute_requests_crash `{WdmpJson} payload l payload' n tid s :
  wdmp_parse_request payload = Some (mkReq SET_ATTRIBUTES [] l) →
  Forall acceptable l → Forall no_reboot l →
  wdmp_parse_request payload' = Some (mkReq GET_ATTRIBUTES [n] []) →
  n ≠ EmptyString → last_char n ≠ Some DOT →
  processRequest payload tid s
  = (if existsb (λ p, WebpaAttribute.listed g_notifyParamList (Webpa.pv_name p)) l then Crash
     else Done (wdmp_form_response (Some (mkRes SET_ATTRIBUTES (replicate (length l) (Some 0))
            (paramRes (Some ((λ p, Some (res_name (Webpa.pv_name p))) <$> l))))), s))
  ∧ processRequest payload' tid s
  = (if WebpaAttribute.listed g_notifyParamList n then Crash
     else Done (wdmp_form_response (Some (mkRes GET_ATTRIBUTES [Some (Webpa.wal_status WAL_ERR_INVALID_PARAM)]
            (paramRes (Some [None])))), s)).
Proof.
  intros Hp Ha Hr Hp' Hn Hd. unfold processRequest. rewrite Hp, Hp'. cbn [reqType param paramNames]. split.
  - unfold process_set. rewrite setRebootReasons_none, validate_all by done. cbn [wbind].
    rewrite decide_True, setAttributes_cast_spec by done.
    destruct (existsb _ l); [done|]. cbn [wbind]. by rewrite !fmap_replicate.
  - unfold process_get_attributes. cbn [has_wildcard].
    destruct (last_char_some _ Hn) as [c Hc]. rewrite Hc in Hd |- *. cbn [of_option wbind].
    destruct (Ascii.eqb_spec c DOT) as [->|]; [done|]. cbn [wbind getAttributes_cast].
    by destruct (WebpaAttribute.listed _ _).
Qed.

(** A get names at most 256 parameters: with more the array of the names is
    written past its end; with at most 256 the answer has the state and the
    values of each, as [Webpa.getValues] gives them. *)
Theorem get_request_bounds `{WdmpJson} payload l tid s :
  wdmp_parse_request payload = Some (mkReq GET l []) → l ≠ [] →
  processRequest payload tid s
  = if bool_decide (length l ≤ 256)%nat then
      let* r := Webpa.getValues fuel dbhandle l s in
      Done (wdmp_form_response (Some (mkRes GET (Some ∘ fst <$> r.1) (getRes (zip l (snd <$> r.1))))), r.2)
    else Crash.
Proof.
  intros Hp Hl. unfold processRequest, process_get. rewrite Hp. cbn [reqType paramNames].
  destruct (Nat.ltb_spec Webpa.MAX_PARAMETERNAME_LEN (length l)) as [Hlt|Hle]; unfold Webpa.MAX_PARAMETERNAME_LEN in *.
  - by rewrite bool_decide_eq_false_2 by lia.
  - rewrite bool_decide_eq_true_2 by lia. destruct l as [|n l]; [done|].
    by destruct (Webpa.getValues _ _ _ _) as [[out s']| |].
Qed.

End adapter.

(** ** Witnesses *)
#[local] Existing Instance WalDB.toy_xml.
#[local] Existing Instance Webpa.ex_handler.
#[local] Existing Instance Webpa.ex_rbus.
#[local] Existing Instance Webpa.ex_wdmp.

Definition ex_doc : @XMLNode WalDB.toy_xml :=
  WalDB.toy_model
    [WalDB.toy_object "Device.DeviceInfo."
       [Webpa.ex_param "X_RDKCENTRAL-COM_LastRebootReason" "string" "none"]].

Definition ex_set (n : string) (v : option string) : Webpa.ParamVal := Webpa.mkParamVal n v WAL_STRING.

(** A payload is the number of one of a few requests; an answer is its first
    states. *)
#[local] Instance ex_json : WdmpJson := {
  wdmp_parse_request p :=
    if streq p "refused" then Some (mkReq SET [] [ex_set "Device.A" (Some "1"%string); ex_set "Device.B." None])
    else if streq p "reboot" then
      Some (mkReq SET [] [ex_set WEBPA_DEVICE_REBOOT_PARAM (Some WEBPA_DEVICE_REBOOT_VALUE); ex_set "Device.B." None])
    else if streq p "attributes" then Some (mkReq SET_ATTRIBUTES [] [ex_set "Device.A" (Some "1"%string)])
    else if streq p "attribute" then Some (mkReq GET_ATTRIBUTES ["Device.A"%string] [])
    else if streq p "get" then Some (mkReq GET ["Device.A"%string] [])
    else None;
  wdmp_form_response r :=
    match r with
    | Some r => match retStatus r with Some z :: _ => Some (dec z) | _ => Some EmptyString end
    | None => None
    end
}.

Lemma ex_wildcard_refused : refusal (ex_set "Device.B." None) WDMP_ERR_WILDCARD_NOT_SUPPORTED.
Proof. split; [done|]. by left. Qed.

Lemma ex_acceptable : acceptable (ex_set "Device.A" (Some "1"%string)).
Proof. by split_and!. Qed.

Lemma set_refused_as_whole_witness :
  processRequest 0 None [] "refused" None Webpa.ex_state = Done (Some "100"%string, Webpa.ex_state).
Proof.
  refine (set_refused_as_whole 0 None [] SET [ex_set "Device.A" (Some "1"%string)] (ex_set "Device.B." None) []
    "refused" None Webpa.ex_state WDMP_ERR_WILDCARD_NOT_SUPPORTED (or_introl eq_refl) eq_refl _ ex_wildcard_refused _).
  - apply List.Forall_cons; [exact ex_acceptable|apply List.Forall_nil].
  - repeat (apply List.Forall_cons; [discriminate|]). apply List.Forall_nil.
Defined.

Lemma reboot_reason_before_check_witness :
  ∃ res, processRequest 0 (Some ex_doc) [] "reboot" None Webpa.ex_state
         = Done (wdmp_form_response (Some res), Webpa.ex_state)
    ∧ head (retStatus res) = Some (Some 100).
Proof.
  refine (reboot_reason_before_check 0 (Some ex_doc) [] [] (ex_set "Device.B." None) "reboot" None
    Webpa.ex_state Webpa.ex_state [0] WDMP_ERR_WILDCARD_NOT_SUPPORTED eq_refl _ _ _ ex_wildcard_refused _).
  - apply List.Forall_nil.
  - apply List.Forall_nil.
  - discriminate.
  - vm_compute. reflexivity.
Defined.

Lemma attribute_requests_crash_witness :
  processRequest 0 None ["Device.A"%string] "attributes" None Webpa.ex_state = Crash
  ∧ processRequest 0 None ["Device.A"%string] "attribute" None Webpa.ex_state = Crash.
Proof.
  refine (attribute_requests_crash 0 None ["Device.A"%string] "attributes" [ex_set "Device.A" (Some "1"%string)]
    "attribute" "Device.A" None Webpa.ex_state eq_refl _ _ eq_refl _ _).
  - apply List.Forall_cons; [exact ex_acceptable|apply List.Forall_nil].
  - apply List.Forall_cons; [discriminate|apply List.Forall_nil].
  - discriminate.
  - discriminate.
Defined.

Lemma get_request_bounds_witness :
  processRequest 0 None [] "get" None Webpa.ex_state
  = Done (Some "1"%string, Webpa.mkPal true () ()).
Proof.
  refine (eq_trans (get_request_bounds 0 None [] "get" ["Device.A"%string] None Webpa.ex_state eq_refl _) _).
  - discriminate.
  - vm_compute. reflexivity.
Defined.

End Adapter.
