(* ===== verification/NotificationHandler.v ===== *)
(** * Notifications to the cloud

    [NotificationHandler] models handlers/src/hostIf_NotificationHandler.cpp,
    with [notificationCallBack] of parodusClient/pal/webpa_adapter.cpp: what a
    notification says, and the queue between the threads that have something to
    notify and the callback that sends it.  A JSON object under construction is
    the list of its members; printing it is cJSON's, a parameter. *)
From stdpp Require Import base list strings numbers relations.
From Stdlib Require Import Ascii ZArith Lia.
From S2P Require Import Prelude HostIf MsgHandler FrontEnd Webpa.
Import Webpa (WAL_DATA_TYPE(..)).

#[local] Arguments streq : simpl never.

Module NotificationHandler.

(** ** Payloads *)
Inductive jvalue : Type :=
  | JString (s : string)
  | JNumber (z : Z)
  | JBool (b : bool).

Definition json : Type := list (string * jvalue).

Record NotifyData := mkNotify { notifyDest : string; notifyPayload : json }.

(** What is broadcast about a change, with the value as the bytes of its buffer. *)
Record IARM_Bus_tr69HostIfMgr_EventData_t := mkEvent {
  ev_paramName : string;
  ev_paramValue : list ascii;
  ev_paramtype : HostIf_ParamType_t
}.

Definition converttoWalType (paramType : HostIf_ParamType_t) : WAL_DATA_TYPE :=
  match paramType with
  | hostIf_StringType => WAL_STRING
  | hostIf_UnsignedIntType => WAL_UINT
  | hostIf_IntegerType => WAL_INT
  | hostIf_BooleanType => WAL_BOOLEAN
  | hostIf_UnsignedLongType => WAL_ULONG
  | hostIf_DateTimeType => WAL_DATETIME
  end.

Definition addToJsonObject (j : json) (key : string) (value : list ascii) (type : WAL_DATA_TYPE) : json :=
  j ++ [(key, match type with
              | WAL_STRING => JString (buf_str value)
              | WAL_INT => JNumber (get_int value)
              | WAL_UINT => JNumber (get_uint value)
              | WAL_BOOLEAN => JBool (get_boolean value)
              | WAL_ULONG => JNumber (uint64 (le_val (take 8 value)))
              | _ => JString (buf_str value)
              end)].

Section payloads.
(** [getNotifySource ()] *)
Variable device_id : string.

Definition pushValueChangeNotification (event : IARM_Bus_tr69HostIfMgr_EventData_t) : NotifyData :=
  let pwalType := converttoWalType (ev_paramtype event) in
  mkNotify "event:VALUE_CHANGE_NOTIFICATION"
    (addToJsonObject
       [("device_id", JString device_id); ("datatype", JNumber (Webpa.wal_type pwalType));
        ("paramName", JString (ev_paramName event));
        ("notificationType", JString "VALUE_CHANGE_NOTIFICATION")]%string
       "paramValue" (ev_paramValue event) pwalType).

Definition pushKeyValueNotification (destination key value : string) : NotifyData :=
  mkNotify destination [("device_id"%string, JString device_id); (key, JString value)].

(** The profile's getters that are asked, from a message of zeroes. *)
Variables get_X_RDKCENTRAL_COM_BootTime get_X_RDKCENTRAL_COM_LastRebootReason get_X_RDK_FirmwareName :
  HOSTIF_MsgData_t → HOSTIF_MsgData_t.

(** A member that is there when its text is. *)
Definition member (key : string) (o : option string) : json :=
  match o with Some v => [(key, JString v)] | None => [] end.

Definition bootTime : Z := uint64 (get_ulong (paramValue (get_X_RDKCENTRAL_COM_BootTime zero_msg))).

Definition push_device_mgmt_notifications (delay time download_status status system_ready_time : option string)
  : NotifyData :=
  let reboot_pending := match status with Some s => streq s "reboot-pending" | None => false end in
  let fully_manageable := match status with Some s => streq s "fully-manageable" | None => false end in
  mkNotify "event:device-status"
    ([("device_id"%string, JString device_id)] ++ member "status" status ++ member "start-time" time
     ++ match download_status with
        | Some d => [("download-status"%string, JString (if streq d "true" then "success" else "failure"))]
        | None => []
        end
     ++ (if reboot_pending then
           [("boot-time"%string, JNumber bootTime);
            ("reboot-reason"%string, JString (buf_str (paramValue (get_X_RDKCENTRAL_COM_LastRebootReason zero_msg))))]
           ++ match delay with Some d => [("delay"%string, JNumber (atoi d))] | None => [] end
         else [])
     ++ match system_ready_time with
        | Some t => if fully_manageable
                    then [("boot-time"%string, JNumber bootTime); ("system-ready-time"%string, JNumber (atoi t))]
                    else []
        | None => []
        end).

Definition push_device_deepsleep_notifications (deepsleep_status event_time : option string) : NotifyData :=
  mkNotify "event:device-status"
    ([("device_id"%string, JString device_id);
      ("fw-name"%string, JString (buf_str (paramValue (get_X_RDK_FirmwareName zero_msg))))]
     ++ member "status" deepsleep_status ++ member "event-time" event_time).
End payloads.

(** ** The queue *)

(** The queue, whether the callback has been registered, and what has been
    handed to [sendNotification]. *)
Record t := mk { notificationQueue : list NotifyData; notifyUpdateCallback : bool; sent : list NotifyData }.

(** [notificationCallBack]: one notification is taken off the queue and sent. *)
Definition notificationCallBack (h : t) : t :=
  match notificationQueue h with
  | [] => h
  | n :: q => mk q (notifyUpdateCallback h) (sent h ++ [n])
  end.

(** Before the callback is registered a notification is dropped. *)
Definition pushNotification (n : NotifyData) (h : t) : t :=
  if notifyUpdateCallback h
  then notificationCallBack (mk (notificationQueue h ++ [n]) true (sent h))
  else h.

Definition registerUpdateCallback (h : t) : t := mk (notificationQueue h) true (sent h).

(** ** Threads

    [pushNotification] by any number of threads, while one of them or another
    registers the callback.  A thread looks whether the callback is there: when
    it is not, the notification is dropped.  When it is, the thread puts its
    notification at the end of the queue, takes the one at the front, which can
    be another thread's, and hands what it took to [sendNotification].  Between
    any two of these other threads can run.  A thread that finds the queue empty
    gives up after a timeout. *)
Inductive pc : Type :=
  | idle
  | pushed
  | popped (n : NotifyData).

Record thread := mkThread { at_pc : pc; todo : list NotifyData }.

(** The queue, whether the callback is registered, the threads, what has been
    handed to [sendNotification] and what was dropped. *)
Record state := mkState {
  queue : list NotifyData;
  registered : bool;
  threads : list thread;
  out : list NotifyData;
  dropped : list NotifyData
}.

Inductive thread_step : state → state → Prop :=
  | step_drop i n l q ts o d :
      ts !! i = Some (mkThread idle (n :: l)) →
      thread_step (mkState q false ts o d) (mkState q false (<[i := mkThread idle l]> ts) o (d ++ [n]))
  | step_push i n l q ts o d :
      ts !! i = Some (mkThread idle (n :: l)) →
      thread_step (mkState q true ts o d) (mkState (q ++ [n]) true (<[i := mkThread pushed l]> ts) o d)
  | step_pop i n l q c ts o d :
      ts !! i = Some (mkThread pushed l) →
      thread_step (mkState (n :: q) c ts o d) (mkState q c (<[i := mkThread (popped n) l]> ts) o d)
  | step_timeout i l c ts o d :
      ts !! i = Some (mkThread pushed l) →
      thread_step (mkState [] c ts o d) (mkState [] c (<[i := mkThread idle l]> ts) o d)
  | step_send i n l q c ts o d :
      ts !! i = Some (mkThread (popped n) l) →
      thread_step (mkState q c ts o d) (mkState q c (<[i := mkThread idle l]> ts) (o ++ [n]) d).

(** [registerNotifyCallback] runs once; the callback is never taken back. *)
Inductive step : state → state → Prop :=
  | step_thread s s' : thread_step s s' → step s s'
  | step_register q ts o d : step (mkState q false ts o d) (mkState q true ts o d).

Definition start (c : bool) (work : list (list NotifyData)) : state := mkState [] c (mkThread idle <$> work) [] [].

(** Nothing is left to do. *)
Definition finished (s : state) : Prop := Forall (λ x, at_pc x = idle ∧ todo x = []) (threads s).

(** ** Lemmas *)

Lemma sum_insert {A} (f : A → nat) (l : list A) i x y :
  l !! i = Some x → (sum_list_with f (<[i:=y]> l) + f x = sum_list_with f l + f y)%nat.
Proof.
  revert i. induction l as [|a l IH]; intros [|i]; simpl; try done.
  - intros [= ->]. lia.
  - intros Hi. specialize (IH i Hi). lia.
Qed.

Lemma bind_insert {A B} (g : A → list B) (l : list A) i x :
  l !! i = Some x →
  ∃ rest, (l ≫= g) ≡ₚ g x ++ rest ∧ ∀ y, (<[i:=y]> l ≫= g) ≡ₚ g y ++ rest.
Proof.
  intros Hi. exists ((take i l ≫= g) ++ (drop (S i) l ≫= g)).
  assert (∀ y, (take i l ++ y :: drop (S i) l) ≫= g ≡ₚ g y ++ (take i l ≫= g) ++ (drop (S i) l ≫= g)) as E.
  { intros y. rewrite bind_app, bind_cons, !app_assoc. f_equiv. apply Permutation_app_comm. }
  split; [by rewrite <- E, take_drop_middle|].
  intros y. rewrite insert_take_drop by by eapply lookup_lt_Some. apply E.
Qed.

(** The threads that have put a notification and not yet taken one. *)
Definition waiting (x : thread) : nat := match at_pc x with pushed => 1 | _ => 0 end.

(** What a thread has in hand. *)
Definition pending (x : thread) : list NotifyData :=
  match at_pc x with popped n => n :: todo x | _ => todo x end.

(** The actions it has left. *)
Definition left_over (x : thread) : nat :=
  3 * length (todo x) + match at_pc x with idle => 0 | pushed => 2 | popped _ => 1 end.

(** The queue is as long as there are threads to take from it, and nothing is
    lost or doubled. *)
Record inv (work : list NotifyData) (s : state) : Prop := {
  inv_queue : length (queue s) = sum_list_with waiting (threads s);
  inv_all : (out s ++ dropped s) ++ queue s ++ (threads s ≫= pending) ≡ₚ work
}.

Lemma start_bind work : ((mkThread idle <$> work) ≫= pending) = List.concat work.
Proof. induction work as [|l work IH]; [done|]. cbn [List.concat]. by rewrite <- IH. Qed.

Lemma inv_start c work : inv (List.concat work) (start c work).
Proof.
  split; simpl; [|by rewrite start_bind].
  induction work as [|l work IH]; [done|]. by cbn.
Qed.

Lemma inv_thread_step work s s' : thread_step s s' → inv work s → inv work s'.
Proof.
  intros [i n l q ts o d Hi|i n l q ts o d Hi|i n l q c ts o d Hi|i l c ts o d Hi|i n l q c ts o d Hi] [Hq Ha];
    cbn [queue threads out dropped] in *;
    pose proof (λ y, sum_insert waiting ts i _ y Hi) as Hs;
    destruct (bind_insert pending ts i _ Hi) as (rest & Hb & Hb'); cbn in Hs, Hb; rewrite Hb in Ha;
    (split; cbn [queue threads out dropped]; [rewrite ?length_app; cbn in *|rewrite Hb', <- Ha; cbn [pending at_pc todo]]).
  - specialize (Hs (mkThread idle l)). cbn in Hs. lia.
  - solve_Permutation.
  - specialize (Hs (mkThread pushed l)). cbn in Hs. lia.
  - solve_Permutation.
  - specialize (Hs (mkThread (popped n) l)). cbn in Hs. lia.
  - solve_Permutation.
  - specialize (Hs (mkThread idle l)). cbn in Hs. lia.
  - done.
  - specialize (Hs (mkThread idle l)). cbn in Hs. lia.
  - solve_Permutation.
Qed.

Lemma inv_step work s s' : step s s' → inv work s → inv work s'.
Proof. intros [s1 s2 Hst|q ts o d]; [by apply inv_thread_step|]. by intros [Hq Ha]; split. Qed.

Lemma inv_reachable c work s : rtc step (start c work) s → inv (List.concat work) s.
Proof.
  intros Hr. assert (inv (List.concat work) (start c work)) as Hi by apply inv_start. revert Hi.
  induction Hr as [s|s s1 s2 Hst _ IH]; [done|]. intros Hi. apply IH. by eapply inv_step.
Qed.

(** From the registration on nothing is dropped. *)
Lemma registered_steps s s' :
  rtc step s s' → registered s = true → registered s' = true ∧ dropped s' = dropped s.
Proof.
  induction 1 as [s|s s1 s2 Hst _ IH]; [done|]. intros Hc.
  assert (registered s1 = true ∧ dropped s1 = dropped s) as [Hc1 <-]; [|by apply IH].
  by destruct Hst as [s s1 []|].
Qed.

(** Each step is one action less to do; the timeout, which skips two, never
    happens to a reachable state. *)
Definition actions (s : state) : nat :=
  sum_list_with left_over (threads s) + if registered s then 0 else 1.

Lemma left_over_step s s' : step s s' → (actions s' + 1 ≤ actions s)%nat.
Proof.
  unfold actions. intros [s1 s2 Hst|q ts o d]; [|cbn; lia].
  destruct Hst as [i n l q ts o d Hi|i n l q ts o d Hi|i n l q c ts o d Hi|i l c ts o d Hi|i n l q c ts o d Hi];
    cbn [threads registered];
    match goal with |- context [<[i:=?y]> ts] => pose proof (sum_insert left_over ts i _ y Hi) as Hs end;
    cbn in Hs; lia.
Qed.

Lemma left_over_steps n s s' : nsteps step n s s' → (actions s' + n ≤ actions s)%nat.
Proof.
  induction 1 as [s|n s s1 s2 Hst _ IH]; [lia|]. pose proof (left_over_step s s1 Hst). lia.
Qed.

Lemma left_over_start c work :
  sum_list_with left_over (threads (start c work)) = (3 * length (List.concat work))%nat.
Proof.
  simpl. induction work as [|l work IH]; [done|]. cbn [fmap list_fmap sum_list_with List.concat].
  rewrite length_app. unfold left_over at 1. simpl in *. lia.
Qed.

(** A state in which something is left to do has a thread that can go on. *)
Lemma some_thread ts :
  Forall (λ x, at_pc x = idle ∧ todo x = []) ts
  ∨ ∃ i x, ts !! i = Some x ∧ ¬ (at_pc x = idle ∧ todo x = []).
Proof.
  induction ts as [|[[| |n] l] ts [IH|(i & x & Hi & Hx)]]; try (by right; exists (S i), x);
    try (by right; eexists 0%nat, _; split; [done|intros [? _]]); [by left|].
  destruct l as [|n l]; [by left; constructor|]. right. eexists 0%nat, _. by split; [|intros [_ ?]].
Qed.

Lemma progress s : finished s ∨ ∃ s', thread_step s s'.
Proof.
  destruct (some_thread (threads s)) as [Hf|(i & [p l] & Hi & Hx)]; [by left|right].
  destruct s as [q c ts o d]; cbn [threads] in *. destruct p as [| |n].
  - destruct l as [|n l]; [by destruct Hx|]. destruct c; eexists; [by eapply step_push|by eapply step_drop].
  - destruct q as [|n q]; eexists; [by eapply step_timeout|by eapply step_pop].
  - eexists. by eapply step_send.
Qed.

Lemma finished_left ts :
  Forall (λ x, at_pc x = idle ∧ todo x = []) ts → (ts ≫= pending) = [] ∧ sum_list_with waiting ts = 0%nat.
Proof.
  induction 1 as [|[p l] ts [Hp Hl] _ [IH1 IH2]]; [done|]. simpl in Hp, Hl. subst p l.
  by rewrite bind_cons, IH1.
Qed.

(** ** Properties *)

(** C12. No notification is lost or doubled between [pushNotification] and
    [sendNotification]: whatever the threads, the order in which they run and
    the moment at which the callback is registered, no thread that waits finds
    the queue empty, a run has at most three steps for each notification and
    one for the registration, as long as something is left to do some thread
    can go on, and at the end the queue is empty and each notification was
    either handed to [sendNotification] once or dropped once.  From the
    registration on none is dropped, so with the callback registered at the
    start all are handed on.  ([sendNotification] itself gives up after four
    failed attempts.) *)
Theorem every_notification_sent c work s n :
  nsteps step n (start c work) s →
  (n ≤ 3 * length (List.concat work) + if c then 0 else 1)%nat
  ∧ (∀ i l, threads s !! i = Some (mkThread pushed l) → queue s ≠ [])
  ∧ (finished s ∨ ∃ s', thread_step s s')
  ∧ (finished s → queue s = [] ∧ out s ++ dropped s ≡ₚ List.concat work)
  ∧ (c = true → dropped s = [])
  ∧ (registered s = true → ∀ s', rtc step s s' → dropped s' = dropped s).
Proof.
  intros Hn. assert (rtc step (start c work) s) as Hr by (apply rtc_nsteps; by eexists).
  destruct (inv_reachable _ _ _ Hr) as [Hq Ha].
  pose proof (left_over_steps _ _ _ Hn) as Hl. unfold actions in Hl. rewrite left_over_start in Hl. simpl in Hl.
  split; [lia|]. split; [|split; [apply progress|split; [|split]]].
  - intros i l Hi Hnil. rewrite Hnil in Hq. pose proof (sum_insert waiting _ i _ (mkThread idle l) Hi) as Hs.
    cbn in Hs, Hq. lia.
  - intros [Hp Hw]%finished_left. rewrite Hw in Hq. apply nil_length_inv in Hq. split; [done|].
    by rewrite Hp, Hq, !app_nil_r in Ha.
  - intros ->. by apply (registered_steps _ _ Hr).
  - intros Hc s' Hs'. by apply (registered_steps _ _ Hs').
Qed.

(** With one thread the order is that of the calls: as long as the callback is
    registered the queue is empty between calls, and a notification is sent by
    the call that pushes it.  Before it is registered notifications are lost. *)
Theorem pushed_in_order ns before after :
  notificationQueue before = [] →
  foldl (λ h n, pushNotification n h) before (ns ++ after)
  = (if notifyUpdateCallback before then mk [] true (sent before ++ ns ++ after) else before)
  ∧ foldl (λ h n, pushNotification n h) (registerUpdateCallback (foldl (λ h n, pushNotification n h) (mk [] false []) ns)) after
    = mk [] true after.
Proof.
  assert (∀ l c o, foldl (λ h n, pushNotification n h) (mk [] c o) l = if (c : bool) then mk [] true (o ++ l) else mk [] c o) as E.
  { induction l as [|n l IH]; intros [] o; cbn [foldl]; try done; [by rewrite app_nil_r|..].
    - unfold pushNotification at 2. cbn. rewrite IH. by rewrite <- (assoc app).
    - unfold pushNotification at 2. cbn. by rewrite IH. }
  intros Hq. destruct before as [q c o]; cbn [notificationQueue] in Hq; subst q. rewrite !E. cbn.
  split; [by destruct c|]. unfold registerUpdateCallback. cbn. by rewrite E.
Qed.

(** ** Witnesses *)
Definition ex_note (v : string) : NotifyData := mkNotify "event:A" [("v"%string, JString v)].

(** Three threads: the first pushes before the callback is registered, the third
    takes what the second has put. *)
Lemma every_notification_sent_witness :
  ∃ s, nsteps step 8 (start false [[ex_note "0"]; [ex_note "1"]; [ex_note "2"]]) s
    ∧ dropped s = [ex_note "0"]
    ∧ out s ++ dropped s ≡ₚ [ex_note "0"; ex_note "1"; ex_note "2"].
Proof.
  assert (nsteps step 8 (start false [[ex_note "0"]; [ex_note "1"]; [ex_note "2"]])
    (mkState [] true [mkThread idle []; mkThread idle []; mkThread idle []]
       [ex_note "2"; ex_note "1"] [ex_note "0"])) as Hrun.
  { unfold start. cbn [fmap list_fmap].
    eapply nsteps_l; [apply step_thread; refine (step_drop 0 (ex_note "0") [] [] _ _ _ _); reflexivity|].
    eapply nsteps_l; [apply step_register|].
    eapply nsteps_l; [apply step_thread; refine (step_push 1 (ex_note "1") [] [] _ _ _ _); reflexivity|].
    eapply nsteps_l; [apply step_thread; refine (step_push 2 (ex_note "2") [] _ _ _ _ _); reflexivity|].
    eapply nsteps_l; [apply step_thread; refine (step_pop 2 (ex_note "1") [] _ _ _ _ _ _); reflexivity|].
    eapply nsteps_l; [apply step_thread; refine (step_pop 1 (ex_note "2") [] _ _ _ _ _ _); reflexivity|].
    eapply nsteps_l; [apply step_thread; refine (step_send 1 (ex_note "2") [] _ _ _ _ _ _); reflexivity|].
    eapply nsteps_l; [apply step_thread; refine (step_send 2 (ex_note "1") [] _ _ _ _ _ _); reflexivity|].
    apply nsteps_O. }
  exists (mkState [] true [mkThread idle []; mkThread idle []; mkThread idle []]
       [ex_note "2"; ex_note "1"] [ex_note "0"]).
  split; [exact Hrun|]. split; [reflexivity|].
  refine (proj2 (proj1 (proj2 (proj2 (proj2 (every_notification_sent false
    [[ex_note "0"]; [ex_note "1"]; [ex_note "2"]] _ 8 Hrun)))) _)).
  repeat (apply List.Forall_cons; [split; reflexivity|]). apply List.Forall_nil.
Defined.

Lemma pushed_in_order_witness :
  foldl (λ h n, pushNotification n h) (mk [] true []) ([ex_note "1"] ++ [ex_note "2"])
  = mk [] true [ex_note "1"; ex_note "2"].
Proof. exact (proj1 (pushed_in_order [ex_note "1"] (mk [] true []) [ex_note "2"] eq_refl)). Defined.

End NotificationHandler.
