(* ===== verification/Libpd.v ===== *)
(** * The connection to the cloud

    [Libpd] models parodusClient/pal/libpd.cpp: reading the address of parodus,
    connecting with growing pauses, the loop that receives requests and answers
    them, and the sending of notifications.  libparodus is what its calls answer. *)
From stdpp Require Import base list strings numbers.
From Stdlib Require Import Ascii ZArith Lia.
From S2P Require Import Prelude HostIf MsgHandler WalDB WalList FrontEnd Webpa WebpaAttr WebpaAdapter.
From S2P Require Import NotificationHandler.
Import WalList (walk, Done, Crash, OutOfFuel, wbind, of_option).

#[local] Arguments streq : simpl never.

Module Libpd.

(** ** The addresses *)
Definition URL_SIZE : nat := 64.
Definition PARODUS_URL : string := "tcp://127.0.0.1:6666".
Definition PAROUDUS_CLIENT_URL : string := "tcp://127.0.0.1:6667".

(** The items ParodusURL and ParodusClientURL of a document, each with its text
    when it is a string; [None]: the content is not a document. *)
Class UrlConfig := { url_items : string → option (option (option string) * option (option string)) }.

(** The default is copied for as many characters as the empty buffer has, and
    one more. *)
Definition default_url (url : string) : string := str_take 1 url.

(** The two addresses; the buffers are zero before.  [Crash]: an address does
    not fit its buffer, or the client's, which is not checked, is no string.
    Both are copied for the length of the first one. *)
Definition get_parodus_url `{UrlConfig} (file : option string) : walk (string * string) :=
  let fallback := Done (default_url PARODUS_URL, default_url PAROUDUS_CLIENT_URL) in
  match file with
  | None => fallback
  | Some content =>
      if is_empty content then fallback
      else match url_items (c_str content) with
           | Some (Some (Some p), Some c) =>
               if (URL_SIZE <=? String.length p)%nat then Crash
               else let* c' := of_option c in Done (p, str_take (String.length p) c')
           | _ => fallback
           end
  end.

(** ** Connecting *)
Definition max_retry_sleep : Z := 2 ^ 5 - 1.

(** [init i] is what the i-th attempt answers, zero for success; the result is
    the pauses made.  [None]: the fuel is used up. *)
Fixpoint connect_loop (fuel : nat) (init : nat → Z) (i : nat) (backoffRetryTime c : Z) : option (list Z) :=
  match fuel with
  | O => None
  | S fuel' =>
      let backoff := if backoffRetryTime <? max_retry_sleep then 2 ^ c - 1 else backoffRetryTime in
      if init i =? 0 then Some []
      else
        rest ← (if backoff =? max_retry_sleep then connect_loop fuel' init (S i) 0 2
                else connect_loop fuel' init (S i) backoff (c + 1));
        Some (backoff :: rest)
  end.

Definition connect_parodus (fuel : nat) (init : nat → Z) : option (list Z) := connect_loop fuel init 0 0 2.

(** ** Notifications *)

(** Whether it was sent, and the pauses made. *)
Fixpoint send_loop (fuel : nat) (send : nat → Z) (i : nat) (retry_count c : Z) : bool * list Z :=
  match fuel with
  | O => (false, [])
  | S fuel' =>
      if retry_count <=? 3 then
        if send i =? 0 then (true, [])
        else let '(ok, l) := send_loop fuel' send (S i) (retry_count + 1) (c + 1) in (ok, 2 ^ c - 1 :: l)
      else (false, [])
  end.

(** The count of attempts goes from zero to three. *)
Definition sendNotification (send : nat → Z) : bool * list Z := send_loop 5 send 0 0 2.

(** ** Requests *)
Record req := mkReq { payload : option string; transaction_uuid : option string;
                      source : option string; dest : option string }.

(** A message: a request, or another kind. *)
Inductive wrp_msg_t : Type :=
  | WRP_MSG_TYPE__REQ (r : req)
  | other_message.

(** What a receive answers: its result, and the message when that is zero. *)
Definition received : Type := Z * option wrp_msg_t.

Section receive.
Context `{TinyXml} `{ReqHandler} `{Wdmp} `{Rbus} `{Adapter.WdmpJson} (fuel : nat) (dbhandle : option XMLNode)
  (g_notifyParamList : list string).

(** The answer goes back to where the request came from. *)
Definition respond (r : req) (s : Webpa.pal) : walk (req * Webpa.pal) :=
  let* p := of_option (payload r) in
  let* x := Adapter.processRequest fuel dbhandle g_notifyParamList p (transaction_uuid r) s in
  let '(out, s') := x in Done (mkReq out (transaction_uuid r) (dest r) (source r), s').

(** The loop up to the look that finds the flag set: what each receive answers.
    A timeout is tried again at once, another failure after five seconds. *)
Fixpoint parodus_receive_wait (inputs : list received) (s : Webpa.pal) : walk (list req * Webpa.pal) :=
  match inputs with
  | [] => Done ([], s)
  | (rtn, wrp_msg) :: rest =>
      if rtn =? 1 then parodus_receive_wait rest s
      else if negb (rtn =? 0) then parodus_receive_wait rest s
      else match wrp_msg with
           | Some (WRP_MSG_TYPE__REQ r) =>
               let* x := respond r s in
               let '(res, s') := x in
               let* y := parodus_receive_wait rest s' in
               let '(out, s'') := y in Done (res :: out, s'')
           | _ => parodus_receive_wait rest s
           end
  end.

(** The thread: nothing without a data model; otherwise it connects, registers
    the callback of notifications, turns the initial ones on and receives until
    it is stopped.  [fuel_connect] bounds the attempts to connect. *)
Definition libpd_client_mgr `{UrlConfig} (checkDataModelStatus : Z) (cfg : option string) (init : nat → Z)
    (fuel_connect : nat) (notify_list : option (list (option string))) (h : NotificationHandler.t)
    (notificationSource : option string) (inputs : list received) (s : Webpa.pal)
  : walk (option (list req) * NotificationHandler.t * Webpa.pal) :=
  if negb (checkDataModelStatus =? 0) then Done (None, h, s)
  else
    let* _ := get_parodus_url cfg in
    match connect_parodus fuel_connect init with
    | None => OutOfFuel
    | Some _ =>
        let h' := NotificationHandler.registerUpdateCallback h in
        let* x := Adapter.setInitialNotify fuel dbhandle g_notifyParamList
                    (default [] notify_list) notificationSource s in
        let* y := parodus_receive_wait inputs x.2 in
        Done (Some y.1, h', y.2)
    end.

(** ** Lemmas *)

(** The requests among what is received. *)
Definition request_of (x : received) : option req :=
  match x with (0, Some (WRP_MSG_TYPE__REQ r)) => Some r | _ => None end.

(** The answer to a request: same transaction, back to the sender. *)
Definition answers (r res : req) : Prop :=
  transaction_uuid res = transaction_uuid r ∧ source res = dest r ∧ dest res = source r.

Lemma receive_request rtn m rest s r :
  request_of (rtn, m) = Some r →
  parodus_receive_wait ((rtn, m) :: rest) s
  = (let* x := respond r s in
     let '(res, s') := x in
     let* y := parodus_receive_wait rest s' in
     let '(out, s'') := y in Done (res :: out, s'')).
Proof. destruct rtn; try done. destruct m as [[r'|]|]; try done. by intros [= ->]. Qed.

Lemma receive_other rtn m rest s :
  request_of (rtn, m) = None → parodus_receive_wait ((rtn, m) :: rest) s = parodus_receive_wait rest s.
Proof.
  intros Hm. cbn [parodus_receive_wait]. destruct (Z.eqb_spec rtn 1); [done|].
  destruct (Z.eqb_spec rtn 0) as [->|]; [|done]. by destruct m as [[r|]|].
Qed.

(** ** Properties *)

(** C13. Every request is answered, once, in the order of arrival, in its own
    transaction and to its own sender; failed receives and other messages are
    neither answered nor do they change anything.  The loop goes through all
    that it receives as long as no request ends the process. *)
Theorem requests_answered inputs s :
  parodus_receive_wait inputs s
  = parodus_receive_wait ((λ r, (0, Some (WRP_MSG_TYPE__REQ r))) <$> omap request_of inputs) s
  ∧ (∀ out s', parodus_receive_wait inputs s = Done (out, s') → Forall2 answers (omap request_of inputs) out)
  ∧ ((∀ r s, r ∈ omap request_of inputs → ∃ x, respond r s = Done x) →
     ∃ out s', parodus_receive_wait inputs s = Done (out, s')).
Proof.
  split_and!.
  - revert s. induction inputs as [|[rtn m] inputs IH]; intros s; [done|]. cbn [omap list_omap].
    destruct (request_of (rtn, m)) as [r|] eqn:Hr; [|by rewrite receive_other].
    rewrite (receive_request _ _ _ _ r Hr), fmap_cons, (receive_request 0 (Some (WRP_MSG_TYPE__REQ r)) _ _ r eq_refl).
    destruct (respond r s) as [[res s']| |]; [|done..]. cbn [wbind]. by rewrite IH.
  - revert s. induction inputs as [|[rtn m] inputs IH]; intros s out s'.
    { intros [= <- <-]. constructor. }
    destruct (request_of (rtn, m)) as [r|] eqn:Hr.
    + rewrite (receive_request _ _ _ _ r Hr).
      intros ([res s1] & Hres & ([l s2] & Hl & [= <- <-])%WalList.wbind_Done)%WalList.wbind_Done.
      cbn [omap list_omap]. rewrite Hr. constructor; [|by eapply IH].
      unfold respond in Hres. apply WalList.wbind_Done in Hres as (p & _ & Hres).
      apply WalList.wbind_Done in Hres as ([o s3] & _ & [= <- _]). by repeat split.
    + rewrite receive_other by done. intros Hl. cbn [omap list_omap]. rewrite Hr. by eapply IH.
  - revert s. induction inputs as [|[rtn m] inputs IH]; intros s Hall; [by eexists _, _|].
    cbn [omap list_omap] in Hall. destruct (request_of (rtn, m)) as [r|] eqn:Hr.
    + rewrite (receive_request _ _ _ _ r Hr). destruct (Hall r s) as [[res s1] ->]; [by left|]. cbn [wbind].
      destruct (IH s1) as (out & s2 & ->); [|by eexists _, _]. intros r' s' Hin. apply Hall. by right.
    + rewrite receive_other by done. by apply IH.
Qed.

End receive.

(** The pause before the attempt after the i-th one. *)
Definition pause (i : nat) : Z := nth (i mod 4) [3; 7; 15; 31] 0.

Lemma connect_loop_run n : ∀ init i fuel,
  (∀ k, (k < n)%nat → init (i + k)%nat ≠ 0) → init (i + n)%nat = 0 → (n < fuel)%nat →
  ∀ j, (j < 4)%nat →
  connect_loop fuel init i (nth j [0; 3; 7; 15] 0) (2 + Z.of_nat j) = Some (map (λ k, pause (j + k)) (seq 0 n)).
Proof.
  induction n as [|n IH]; intros init i fuel Hb Hz Hf j Hj; (destruct fuel as [|fuel]; [lia|]).
  { rewrite Nat.add_0_r in Hz. cbn [connect_loop]. by rewrite Hz. }
  cbn [connect_loop].
  assert (nth j [0; 3; 7; 15] 0 <? max_retry_sleep = true) as ->
    by (destruct j as [|[|[|[|j]]]]; [reflexivity..|lia]).
  assert (init i =? 0 = false) as ->.
  { apply Z.eqb_neq. specialize (Hb 0%nat). rewrite Nat.add_0_r in Hb. apply Hb. lia. }
  assert (2 ^ (2 + Z.of_nat j) - 1 = pause j) as Hp
    by (destruct j as [|[|[|[|j]]]]; [reflexivity..|lia]).
  rewrite Hp. assert (∀ k, (k < n)%nat → init (S i + k)%nat ≠ 0) as Hb'.
  { intros k Hk. rewrite Nat.add_succ_comm. apply Hb. lia. }
  assert (init (S i + n)%nat = 0) as Hz' by by rewrite Nat.add_succ_comm.
  cbn [seq map]. rewrite Nat.add_0_r, <- (seq_shift _ 0), map_map.
  destruct (decide (j = 3%nat)) as [->|Hj3].
  - change (pause 3 =? max_retry_sleep) with true. cbn match.
    pose proof (IH init (S i) fuel Hb' Hz' ltac:(lia) 0%nat ltac:(lia)) as E.
    change (2 + Z.of_nat 0) with 2 in E. cbn [nth] in E. rewrite E. cbn [mbind option_bind].
    do 2 f_equal. apply map_ext. intros k. unfold pause. f_equal.
    replace (3 + S k)%nat with (k + 1 * 4)%nat by lia. by rewrite Nat.Div0.mod_add.
  - assert (pause j =? max_retry_sleep = false) as ->
      by (destruct j as [|[|[|[|j]]]]; [reflexivity..|lia|lia]).
    replace (pause j) with (nth (S j) [0; 3; 7; 15] 0) at 1
      by (destruct j as [|[|[|[|j]]]]; [reflexivity..|lia|lia]).
    replace (2 + Z.of_nat j + 1) with (2 + Z.of_nat (S j)) by lia.
    rewrite (IH init (S i) fuel Hb' Hz' ltac:(lia) (S j) ltac:(lia)). cbn [mbind option_bind].
    do 2 f_equal. apply map_ext. intros k. f_equal. lia.
Qed.

(** C14. The daemon connects as soon as an attempt succeeds, whenever that is: it
    never gives up, and between attempts pauses 3, 7, 15 and 31 seconds, over
    and over. *)
Theorem connects_eventually init n :
  (∀ k, (k < n)%nat → init k ≠ 0) → init n = 0 →
  connect_parodus (S n) init = Some (map pause (seq 0 n)).
Proof. intros Hb Hz. apply (connect_loop_run n init 0 (S n) Hb Hz ltac:(lia) 0 ltac:(lia)). Qed.

(** A notification is tried at most four times, with a pause after each failure,
    the last one too; it is lost after the fourth. *)
Theorem notification_attempts send :
  sendNotification send
  = match List.find (λ i, send i =? 0) [0; 1; 2; 3]%nat with
    | Some i => (true, firstn i [3; 7; 15; 31])
    | None => (false, [3; 7; 15; 31])
    end.
Proof.
  unfold sendNotification. cbn [send_loop List.find]. change (0 + 1) with 1. change (1 + 1) with 2.
  change (2 + 1) with 3. change (3 + 1) with 4. cbn [Z.leb Z.compare].
  destruct (send 0%nat =? 0); [done|]. destruct (send 1%nat =? 0); [done|].
  destruct (send 2%nat =? 0); [done|]. by destruct (send 3%nat =? 0).
Qed.

(** The addresses: without a configuration file that has them both, the defaults
    are cut to their first character; with one, the client's address is cut to
    the length of parodus' own. *)
Theorem parodus_addresses `{UrlConfig} file p c :
  (file = None ∨ file = Some EmptyString → get_parodus_url file = Done ("t", "t")%string)
  ∧ (∀ content, file = Some content → content ≠ EmptyString → (String.length p < URL_SIZE)%nat →
     url_items (c_str content) = Some (Some (Some p), Some (Some c)) →
     get_parodus_url file = Done (p, str_take (String.length p) c)).
Proof.
  split.
  - by intros [-> | ->].
  - intros content -> Hne Hp Hu. unfold get_parodus_url. rewrite Hu. destruct content; [done|]. cbn [is_empty].
    by rewrite (proj2 (Nat.leb_gt _ _)).
Qed.

(** ** Witnesses *)
#[local] Existing Instance WalDB.toy_xml.
#[local] Existing Instance Webpa.ex_handler.
#[local] Existing Instance Webpa.ex_rbus.
#[local] Existing Instance Webpa.ex_wdmp.
#[local] Existing Instance Adapter.ex_json.

Definition ex_request : req :=
  mkReq (Some "refused"%string) (Some "id-1"%string) (Some "dns:cloud"%string) (Some "mac:1/config"%string).

(** A timeout, a request and a failure. *)
Lemma requests_answered_witness :
  Forall2 answers [ex_request]
    [mkReq (Some "100"%string) (Some "id-1"%string) (Some "mac:1/config"%string) (Some "dns:cloud"%string)].
Proof.
  refine (proj1 (proj2 (requests_answered 0 None [] [(1, None); (0, Some (WRP_MSG_TYPE__REQ ex_request)); (-1, None)]
    Webpa.ex_state)) _ Webpa.ex_state _).
  vm_compute. reflexivity.
Defined.

Lemma connects_eventually_witness :
  connect_parodus 6 (λ i, if (i <? 5)%nat then -1 else 0) = Some [3; 7; 15; 31; 3].
Proof.
  refine (eq_trans (connects_eventually (λ i, if (i <? 5)%nat then -1 else 0) 5 _ eq_refl) eq_refl).
  intros k Hk. rewrite (proj2 (Nat.ltb_lt _ _) Hk). discriminate.
Defined.

#[local] Instance ex_urls : UrlConfig := {
  url_items c :=
    if streq c "local" then Some (Some (Some "tcp://127.0.0.1:6666"), Some (Some "tcp://127.0.0.1:66678"))%string
    else None
}.

Lemma parodus_addresses_witness :
  get_parodus_url None = Done ("t", "t")%string
  ∧ get_parodus_url (Some "local"%string) = Done ("tcp://127.0.0.1:6666", "tcp://127.0.0.1:6667")%string.
Proof.
  destruct (parodus_addresses None "tcp://127.0.0.1:6666" "tcp://127.0.0.1:66678") as [Hd _].
  destruct (parodus_addresses (Some "local"%string) "tcp://127.0.0.1:6666" "tcp://127.0.0.1:66678") as [_ Hc].
  split; [apply Hd; left; reflexivity|].
  refine (Hc "local"%string eq_refl _ _ eq_refl); [discriminate|apply Nat.ltb_lt; vm_compute; reflexivity].
Defined.

End Libpd.
