(* ===== verification/HttpServer.v ===== *)
(** * The HTTP front end

    [RequestHandler] models httpserver/src/request_handler.cpp, which answers
    the JSON requests of local clients, and the status code that
    httpserver/src/http_server.cpp puts on the answer.  It uses the dispatcher
    ([ReqHandler]), the data model (WalDB, WalList) and the RFC variables
    (RFCVar). *)
From stdpp Require Import base list strings gmap.
From Stdlib Require Import Ascii ZArith Lia.
From S2P Require Import Prelude HostIf FileStore MsgHandler WalDB WalList RFCVar FrontEnd Webpa.
Import WalList (walk, Done, Crash, OutOfFuel, wbind, of_option).

#[local] Arguments streq : simpl never.

Module RequestHandler.

Definition DEVICE_REBOOT_PARAM : string := "Device.X_CISCO_COM_DeviceControl.RebootDevice".
Definition MAX_PARAMETERNAME_LEN : nat := 256.

Definition getWdmpDataType (dmParamDataType : string) : DATA_TYPE :=
  if streq dmParamDataType "string" then WDMP_STRING
  else if streq dmParamDataType "boolean" then WDMP_BOOLEAN
  else if streq dmParamDataType "unsignedInt" then WDMP_UINT
  else if streq dmParamDataType "int" then WDMP_INT
  else if streq dmParamDataType "unsignedLong" then WDMP_ULONG
  else if streq dmParamDataType "dataTime" then WDMP_DATETIME
  else WDMP_NONE.

(** The value of a set as the message carries it. *)
Definition convertAndAssignParamValue (m : HOSTIF_MsgData_t) (value : string) : HOSTIF_MsgData_t :=
  match paramtype m with
  | hostIf_StringType | hostIf_DateTimeType => set_value m (Webpa.fill value)
  | hostIf_IntegerType | hostIf_UnsignedIntType =>
      set_value m (put_int (paramValue m) (int32 (strtol value).1))
  | hostIf_UnsignedLongType => set_value m (put_ulong (paramValue m) (strtol value).1)
  | hostIf_BooleanType =>
      let first := match value with String c _ => is_digit c && negb (Ascii.eqb c "0") | EmptyString => false end in
      set_value m (put_boolean (paramValue m) (strncaseeq "TRUE" value || first))
  end.

(** The text of an answer's value. *)
Definition getStringValue (t : HostIf_ParamType_t) (value : list ascii) : string :=
  match t with
  | hostIf_StringType | hostIf_DateTimeType => str_take (TR69HOSTIFMGR_MAX_PARAM_LEN - 1) (buf_str value)
  | hostIf_IntegerType | hostIf_UnsignedIntType => dec (get_int value)
  | hostIf_UnsignedLongType => dec (uint64 (le_val (take 8 value)))
  | hostIf_BooleanType => if get_boolean value then "true" else "false"
  end.

(** std::stoi and std::stoul: the number and the text after it.  [Crash] is the
    exception, which nothing between here and the C library that calls the
    handler catches. *)
Definition stoi (v : string) : walk (Z * string) :=
  match strto v with
  | None => Crash
  | Some (neg, n, rest) =>
      let z := if (neg : bool) then - n else n in
      if (- 2 ^ 31 <=? z) && (z <? 2 ^ 31) then Done (z, rest) else Crash
  end.

Definition stoul (v : string) : walk (Z * string) :=
  match strto v with
  | None => Crash
  | Some (neg, n, rest) =>
      if ULONG_MAX <? n then Crash else Done (uint64 (if (neg : bool) then - n else n), rest)
  end.

Definition char0_digit (s : string) : bool :=
  match s with String c _ => is_digit c | EmptyString => false end.

Definition validateParamValue (v : string) (t : HostIf_ParamType_t) : walk bool :=
  match t with
  | hostIf_StringType | hostIf_DateTimeType =>
      Done (String.length v <=? TR69HOSTIFMGR_MAX_PARAM_LEN)%nat
  | hostIf_IntegerType =>
      if char0_digit v || (match v with String c s => Ascii.eqb c "-" && char0_digit s | EmptyString => false end)
      then let* r := stoi v in Done (is_empty r.2)
      else Done false
  | hostIf_UnsignedIntType | hostIf_UnsignedLongType =>
      if char0_digit v then let* r := stoul v in Done (is_empty r.2) else Done false
  | hostIf_BooleanType =>
      Done (strcaseeq v "true" || strcaseeq v "false" || streq v "1" || streq v "0")
  end.

Definition isAuthorized (pcCallerID pcParamName : string) : bool :=
  negb (streq pcParamName DEVICE_REBOOT_PARAM).

(** Names that are RFC variables and not in the data model. *)
Definition is_rfc_name (n : string) : bool := starts_with "RFC_" n && negb (has_char DOT n).

Inductive REQ_TYPE : Type := GET | SET.

(** A parameter of a request and of an answer; the value can be NULL. *)
Record param_t := mkParam { name : string; value : option string; type : Z }.

Section http.
Context `{TinyXml} `{ReqHandler} `{Wdmp} `{Rbus}.

(** The data model, which the server thread waits for, and the files. *)
Variables (doc : XMLNode) (w : env).

(** The platform layer and the RFC variables once they have been asked for. *)
Record server := mkServer { pl : Webpa.pal; xrfcVarStoreInstance : option XRFCVarStore.t }.

Definition set_handler (s : server) (h : hst) : server :=
  mkServer (Webpa.set_hs (pl s) h) (xrfcVarStoreInstance s).

Definition getHostIfParamType (t : Z) : HostIf_ParamType_t :=
  if t =? data_type WDMP_STRING then hostIf_StringType
  else if t =? data_type WDMP_INT then hostIf_IntegerType
  else if (t =? data_type WDMP_UINT) || (t =? data_type WDMP_ULONG) then hostIf_UnsignedIntType
  else if t =? data_type WDMP_BOOLEAN then hostIf_BooleanType
  else if t =? data_type WDMP_DATETIME then hostIf_DateTimeType
  else hostIf_StringType.

(** The message of a request.  [Crash]: the name is longer than the field and
    its terminator is written behind it. *)
Definition getHostIfParamStFromRequest (r : REQ_TYPE) (p : param_t) (m0 : HOSTIF_MsgData_t)
  : walk HOSTIF_MsgData_t :=
  if (TR69HOSTIFMGR_MAX_PARAM_LEN <=? String.length (name p))%nat then Crash
  else
    let m := Webpa.mk_request (name p) (getHostIfParamType (type p)) m0 in
    match r with
    | GET => Done (set_reqType m HOSTIF_GET)
    | SET => let* v := of_option (value p) in Done (convertAndAssignParamValue (set_reqType m HOSTIF_SET) v)
    end.

Definition getInstance (s : server) : XRFCVarStore.t :=
  match xrfcVarStoreInstance s with Some x => x | None => XRFCVarStore.new w end.

Definition handleRFCRequest (r : REQ_TYPE) (p : param_t) (s : server) : WDMP_STATUS * param_t * server :=
  match r with
  | GET =>
      let x := getInstance s in
      let v := XRFCVarStore.getValue x (name p) in
      (if is_empty v then WDMP_ERR_VALUE_IS_NULL else WDMP_SUCCESS,
       mkParam (name p) (Some v) (type p), mkServer (pl s) (Some x))
  | SET =>
      let v := default EmptyString (value p) in
      if streq (name p) XRFCVarStore.XRFC_VAR_STORE_RELOADCACHE && (strcaseeq v "true" || streq v "1")
      then (WDMP_SUCCESS, p, mkServer (pl s) (Some (XRFCVarStore.reloadCache (getInstance s) w)))
      else (WDMP_ERR_METHOD_NOT_SUPPORTED, p, s)
  end.

Definition caller_source (pcCallerID : string) : HostIf_Source_Type_t :=
  if streq pcCallerID "rfc" then HOSTIF_SRC_RFC else HOSTIF_SRC_WEBPA.

(** What the handler's result and message give the client. *)
Definition result_of (result : Z) (m : HOSTIF_MsgData_t) : WDMP_STATUS * string :=
  if result =? OK then
    if decide (faultCode m = fcNoFault) then (WDMP_SUCCESS, getStringValue (paramtype m) (paramValue m))
    else (WDMP_FAILURE, EmptyString)
  else if result =? faultCode_val fcInvalidParameterValue then (WDMP_ERR_INVALID_PARAMETER_VALUE, EmptyString)
  else (WDMP_ERR_INTERNAL_ERROR, EmptyString).

Definition invokeHostIfAPI (r : REQ_TYPE) (p : param_t) (bsUpdate : HostIf_Source_Type_t)
    (pcCallerID : string) (s : server) : walk (WDMP_STATUS * param_t * server) :=
  let* m := getHostIfParamStFromRequest r p
              (Webpa.with_source zero_msg (caller_source pcCallerID) bsUpdate) in
  let* a := (match r with
             | GET => let '(result, m', h) := hostIf_Get m (Webpa.hs (pl s)) in
                      Done (result, m', set_handler s h)
             | SET =>
                 let* v := of_option (value p) in
                 let* ok := validateParamValue v (getHostIfParamType (type p)) in
                 if negb ok then Done (faultCode_val fcInvalidParameterValue, m, s)
                 else let '(result, m', h) := hostIf_Set m (Webpa.hs (pl s)) in
                      let* result' := of_option result in Done (result', m', set_handler s h)
             end) in
  let '(result, m', s') := a in
  let '(status, v) := result_of result m' in
  Done (status, mkParam (name p) (Some v) (type p), s').

(** The status, the data type, the default value and the update rule; what the
    code leaves as it was is passed through. *)
Definition validateAgainstDataModel (r : REQ_TYPE) (p : param_t) (dataType : Z)
  : walk (WDMP_STATUS * Z * option string * HostIf_Source_Type_t) :=
  let* found := of_option (WalDB.getParamInfoFromDataModel doc (name p) WalDB.zero_param) in
  match found with
  | None => Done (WDMP_ERR_INVALID_PARAMETER_NAME, dataType, None, HOSTIF_NONE)
  | Some dm =>
      let bs := getBSUpdateEnum (WalDB.bsUpdate dm) in
      match r with
      | GET =>
          let t := match WalDB.dataType dm with Some d => data_type (getWdmpDataType d) | None => dataType end in
          Done (WDMP_SUCCESS, t, WalDB.defaultValue dm, bs)
      | SET =>
          let status :=
            if (match value p with None => true | Some _ => false end) || (data_type WDMP_NONE <=? dataType)
            then WDMP_ERR_VALUE_IS_NULL
            else if (match WalDB.access dm with Some a => strcaseeq a "readOnly" | None => false end)
            then WDMP_ERR_NOT_WRITABLE
            else match WalDB.dataType dm with
                 | Some d => if data_type (getWdmpDataType d) =? dataType then WDMP_SUCCESS
                             else WDMP_ERR_INVALID_PARAMETER_TYPE
                 | None => WDMP_ERR_INVALID_PARAMETER_TYPE
                 end in
          Done (status, dataType, None, bs)
      end
  end.

(** ** Reading *)

(** The children of a wildcard.  A child that fails makes the whole name's
    status "value is empty". *)
Fixpoint get_children (l : list (string * string)) (pcCallerID : string) (status : WDMP_STATUS) (s : server)
  : walk (WDMP_STATUS * list param_t * server) :=
  match l with
  | [] => Done (status, [], s)
  | (n, t) :: l' =>
      let* a := invokeHostIfAPI GET (mkParam n None (data_type (getWdmpDataType t))) HOSTIF_NONE pcCallerID s in
      let '(st, p, s1) := a in
      let status' := if decide (st ≠ WDMP_SUCCESS ∧ status = WDMP_SUCCESS) then WDMP_ERR_VALUE_IS_EMPTY else status in
      let* rest := get_children l' pcCallerID status' s1 in
      let '(st', ps, s2) := rest in Done (st', p :: ps, s2)
  end.

Definition get_wildcard (fuel : nat) (n pcCallerID : string) (s : server)
  : walk (WDMP_STATUS * list param_t * server) :=
  let* r := WalList.getChildParamNamesFromDataModel (Webpa.getValue1 doc) fuel (Some doc) n (pl s) in
  let '(db, l, pal') := r in
  let s1 := mkServer pal' (xrfcVarStoreInstance s) in
  match db with
  | WalList.DB_SUCCESS => get_children l pcCallerID WDMP_SUCCESS s1
  | _ => Done (WDMP_ERR_INVALID_PARAMETER_NAME, [mkParam n (Some EmptyString) (data_type WDMP_NONE)], s1)
  end.

(** A name that is not a wildcard, once [status] tells whether the data model
    has it: the handler or the RFC variables are asked, and the default value is
    used when they fail. *)
Definition get_value (rfcParam : bool) (status : WDMP_STATUS) (p : param_t) (defaultValue : option string)
    (bsUpdate : HostIf_Source_Type_t) (pcCallerID : string) (s : server)
  : walk (WDMP_STATUS * param_t * server) :=
  if decide (status = WDMP_SUCCESS) then
    let* a := (if rfcParam then Done (handleRFCRequest GET p s)
               else invokeHostIfAPI GET p bsUpdate pcCallerID s) in
    let '(st, p', s') := a in
    Done (if decide (st = WDMP_SUCCESS) then (WDMP_SUCCESS, p', s')
          else match defaultValue with
               | Some d => (WDMP_ERR_DEFAULT_VALUE, mkParam (name p') (Some d) (type p'), s')
               | None => (WDMP_ERR_VALUE_IS_EMPTY, p', s')
               end)
  else Done (status, mkParam (name p) (Some EmptyString) (type p), s).

(** What the loop carries from name to name: [dataType] and [rfcParam] are
    declared outside it. *)
Record carried := mkCarried { dataType : Z; rfcParam : bool }.

Definition get_name (fuel : nat) (n pcCallerID : string) (c : carried) (s : server)
  : walk (WDMP_STATUS * list param_t * carried * server) :=
  if (MAX_PARAMETERNAME_LEN <? String.length n)%nat
  then Done (WDMP_ERR_INVALID_PARAMETER_NAME, [mkParam n None (data_type WDMP_NONE)], c, s)
  else
    let* wild := of_option (WalList.isWildCardParam n) in
    if (wild : bool) then
      let* r := get_wildcard fuel n pcCallerID s in
      let '(st, ps, s') := r in Done (st, ps, c, s')
    else
      let* v := (if is_rfc_name n
                 then Done (WDMP_SUCCESS, data_type WDMP_STRING, None, HOSTIF_NONE)
                 else validateAgainstDataModel GET (mkParam n None 0) (dataType c)) in
      let '(st, t, def, bs) := v in
      let c' := mkCarried t (rfcParam c || is_rfc_name n) in
      let* r := get_value (rfcParam c') st (mkParam n None t) def bs pcCallerID s in
      let '(st', p, s') := r in Done (st', [p], c', s').

Fixpoint get_names (fuel : nat) (l : list string) (pcCallerID : string) (c : carried) (s : server)
  : walk (list (WDMP_STATUS * list param_t) * server) :=
  match l with
  | [] => Done ([], s)
  | n :: l' =>
      let* r := get_name fuel n pcCallerID c s in
      let '(st, ps, c', s1) := r in
      let* rest := get_names fuel l' pcCallerID c' s1 in
      let '(out, s2) := rest in Done ((st, ps) :: out, s2)
  end.

(** ** Writing *)
Definition set_param (p : param_t) (pcCallerID : string) (s : server)
  : walk (WDMP_STATUS * param_t * server) :=
  let res v := mkParam (name p) v 0 in
  if negb (isAuthorized pcCallerID (name p)) then Done (WDMP_FAILURE, res None, s)
  else
    let* wild := of_option (WalList.isWildCardParam (name p)) in
    if (wild : bool) then Done (WDMP_ERR_WILDCARD_NOT_SUPPORTED, res None, s)
    else match value p with
         | None => Done (WDMP_ERR_VALUE_IS_NULL, res None, s)
         | Some v =>
             if is_rfc_name (name p) then
               let '(st, _, s') := handleRFCRequest SET p s in Done (st, res (Some v), s')
             else
               let* r := validateAgainstDataModel SET p (type p) in
               let '(st, _, _, bs) := r in
               if decide (st = WDMP_SUCCESS) then
                 let* a := invokeHostIfAPI SET p bs pcCallerID s in
                 let '(st', _, s') := a in Done (st', res (Some v), s')
               else Done (st, res (Some v), s)
         end.

Fixpoint set_params (l : list param_t) (pcCallerID : string) (s : server)
  : walk (list (WDMP_STATUS * list param_t) * server) :=
  match l with
  | [] => Done ([], s)
  | p :: l' =>
      let* r := set_param p pcCallerID s in
      let '(st, p', s1) := r in
      let* rest := set_params l' pcCallerID s1 in
      let '(out, s2) := rest in Done ((st, [p']) :: out, s2)
  end.

(** ** A request *)
Inductive req_struct : Type :=
  | getReq (paramNames : list string)
  | setReq (param : list param_t)
  | otherReq.

(** The states and parameters of the answer, in the order of the request;
    [None] is NULL. *)
Definition handleRequest (fuel : nat) (pcCallerID : string) (req : req_struct) (s : server)
  : walk (option (list (WDMP_STATUS * list param_t)) * server) :=
  match req with
  | getReq [] | setReq [] | otherReq => Done (None, s)
  | getReq l =>
      let* r := get_names fuel l pcCallerID (mkCarried (data_type WDMP_NONE) false) s in Done (Some r.1, r.2)
  | setReq l => let* r := set_params l pcCallerID s in Done (Some r.1, r.2)
  end.

(** The status code of the answer: the first error, or the last status. *)
Fixpoint statusCode (l : list WDMP_STATUS) : Z :=
  match l with
  | [] => 0
  | st :: l' =>
      if negb (wdmp_status st =? 0) || (match l' with [] => true | _ => false end)
      then wdmp_status st else statusCode l'
  end.

(** ** Lemmas *)

Lemma dec_char0 z : 0 <= z < 10 ^ 20 → char0_digit (dec z) = true.
Proof.
  intros Hz. unfold dec. rewrite (proj2 (Z.ltb_ge z 0)) by lia.
  destruct (dec_nat_strto z Hz) as (d & t & -> & Hd & _). done.
Qed.

Lemma dec_int_start z :
  - 10 ^ 20 < z < 10 ^ 20 →
  char0_digit (dec z) || (match dec z with String c s => Ascii.eqb c "-" && char0_digit s | EmptyString => false end)
  = true.
Proof.
  intros Hz. destruct (Z.ltb_spec z 0).
  - unfold dec. rewrite (proj2 (Z.ltb_lt z 0)) by lia.
    destruct (dec_nat_strto (- z)) as (d & t & -> & Hd & _); [lia|]. cbn [char0_digit]. rewrite Hd.
    by rewrite Ascii.eqb_refl, orb_true_r.
  - by rewrite dec_char0 by lia.
Qed.

Lemma validate_int z :
  - 10 ^ 20 < z < 10 ^ 20 →
  validateParamValue (dec z) hostIf_IntegerType
  = if (- 2 ^ 31 <=? z) && (z <? 2 ^ 31) then Done true else Crash.
Proof.
  intros Hz. unfold validateParamValue. rewrite dec_int_start by done.
  unfold stoi. rewrite strto_dec by done.
  replace (if z <? 0 then - Z.abs z else Z.abs z) with z by (destruct (Z.ltb_spec z 0); lia).
  by destruct ((- 2 ^ 31 <=? z) && (z <? 2 ^ 31)).
Qed.

Lemma validate_uint z :
  0 <= z < 10 ^ 20 →
  validateParamValue (dec z) hostIf_UnsignedIntType = if ULONG_MAX <? z then Crash else Done true.
Proof.
  intros Hz. unfold validateParamValue. rewrite dec_char0 by done.
  unfold stoul. rewrite strto_dec by lia. rewrite Z.abs_eq by lia. by destruct (ULONG_MAX <? z).
Qed.

(** A text that the type prints passes the validation, and the message built
    from it reads back as that text. *)
Lemma validate_canonical t v :
  canonical_text t v → t ≠ hostIf_UnsignedLongType → validateParamValue v t = Done true.
Proof.
  intros Hv Ht. destruct t; simpl in Hv.
  - unfold validateParamValue. f_equal. apply Nat.leb_le. lia.
  - destruct Hv as (z & -> & Hz). rewrite validate_int by lia.
    by rewrite (proj2 (Z.leb_le _ _)), (proj2 (Z.ltb_lt _ _)) by lia.
  - destruct Hv as (z & -> & Hz). rewrite validate_uint by lia.
    by rewrite (proj2 (Z.ltb_ge _ _)) by (unfold ULONG_MAX; lia).
  - by destruct Hv as [-> | ->].
  - subst. vm_compute. reflexivity.
  - by destruct Ht.
Qed.

Lemma convert_canonical m v :
  canonical_text (paramtype m) v → paramtype m ≠ hostIf_UnsignedLongType →
  HostIf.getStringValue (convertAndAssignParamValue m v) = Some v.
Proof.
  intros Hv Ht. unfold convertAndAssignParamValue, HostIf.getStringValue.
  destruct (paramtype m) eqn:E; simpl in Hv; cbn [paramtype paramValue set_value]; rewrite E.
  - destruct Hv. by rewrite Webpa.fill_buf.
  - destruct Hv as (z & -> & Hz). rewrite strtol_dec by (unfold LONG_MIN, LONG_MAX; lia).
    rewrite get_put_int. cbn [fst]. rewrite !int32_id by (rewrite ?int32_id; lia).
    rewrite int_to_string_fits by lia. by rewrite decide_True by lia.
  - destruct Hv as (z & -> & Hz). rewrite strtol_dec by (unfold LONG_MIN, LONG_MAX; lia).
    change (put_int (paramValue m)) with (put_uint (paramValue m)). rewrite get_put_uint. cbn [fst].
    unfold uint_to_string. by rewrite uint32_int32, (Z.mod_small z) by lia.
  - destruct Hv as [-> | ->]; by rewrite get_put_boolean.
  - by subst.
  - by destruct Ht.
Qed.

(** The parameter is the daemon's own, with this entry and type, and a set may
    reach its handler. *)
Record writable (n d : string) (dm : WalDB.DataModelParam) : Prop := {
  wr_owned : Webpa.owned doc n dm;
  wr_type : WalDB.dataType dm = Some d;
  wr_access : (match WalDB.access dm with Some a => strcaseeq a "readOnly" | None => false end) = false;
  wr_reboot : streq n DEVICE_REBOOT_PARAM = false;
  wr_wild : WalList.isWildCardParam n = Some false;
  wr_rfc : is_rfc_name n = false;
  wr_length : (String.length n < TR69HOSTIFMGR_MAX_PARAM_LEN)%nat
}.

(** The message type that a data-model type becomes. *)
Definition http_type (d : string) : HostIf_ParamType_t := getHostIfParamType (data_type (getWdmpDataType d)).

(** The message of a set. *)
Definition set_message (n d v pcCallerID : string) (dm : WalDB.DataModelParam) : HOSTIF_MsgData_t :=
  convertAndAssignParamValue
    (set_reqType (Webpa.mk_request n (http_type d)
                    (Webpa.with_source zero_msg (caller_source pcCallerID) (getBSUpdateEnum (WalDB.bsUpdate dm))))
       HOSTIF_SET) v.

(** What the client sees of a handler's answer to a set. *)
Definition deliver (n v : string) (m : HOSTIF_MsgData_t) (s : server) : walk (WDMP_STATUS * param_t * server) :=
  let '(result, m', h) := hostIf_Set m (Webpa.hs (pl s)) in
  let* r := of_option result in Done ((result_of r m').1, mkParam n (Some v) 0, set_handler s h).

(** A set that the data model allows is decided by the validation of its value. *)
Lemma set_param_writable n d dm v pcCallerID s :
  writable n d dm → getWdmpDataType d ≠ WDMP_NONE →
  set_param (mkParam n (Some v) (data_type (getWdmpDataType d))) pcCallerID s
  = let* ok := validateParamValue v (http_type d) in
    if (ok : bool) then deliver n v (set_message n d v pcCallerID dm) s
    else Done (WDMP_ERR_INVALID_PARAMETER_VALUE, mkParam n (Some v) 0, s).
Proof.
  intros [Ho Ht Ha Hr Hw Hf Hl] Hd. unfold set_param. cbn [name value type].
  unfold isAuthorized. rewrite Hr, Hw, Hf. cbn [negb of_option wbind].
  unfold validateAgainstDataModel. cbn [name value type]. rewrite Ho. cbn [of_option wbind].
  rewrite Ht, Ha. cbn [orb].
  rewrite (proj2 (Z.leb_gt _ _)) by by apply data_type_none. rewrite Z.eqb_refl. cbn [wbind].
  rewrite decide_True by done. unfold invokeHostIfAPI, getHostIfParamStFromRequest. cbn [name value type].
  rewrite (proj2 (Nat.leb_gt _ _) Hl). cbn [of_option wbind]. fold (http_type d).
  destruct (validateParamValue v (http_type d)) as [[]| |]; [|done..]. cbn [wbind negb].
  unfold deliver, set_message. destruct (hostIf_Set _ _) as [[r m'] h].
  destruct r as [r|]; [|done]. cbn [of_option wbind]. by destruct (result_of r m').
Qed.

Lemma getHostIfParamType_of t :
  getHostIfParamType (data_type t)
  = match t with
    | WDMP_INT => hostIf_IntegerType
    | WDMP_UINT | WDMP_ULONG => hostIf_UnsignedIntType
    | WDMP_BOOLEAN => hostIf_BooleanType
    | WDMP_DATETIME => hostIf_DateTimeType
    | _ => hostIf_StringType
    end.
Proof.
  unfold getHostIfParamType.
  repeat match goal with
  | |- context [data_type ?x =? data_type ?y] =>
      destruct (Z.eqb_spec (data_type x) (data_type y)) as [?%data_type_inj|?]; [subst; try done|]
  end; by destruct t.
Qed.

Lemma set_message_fields n d v pcCallerID dm :
  (String.length n < TR69HOSTIFMGR_MAX_PARAM_LEN)%nat →
  let m := set_message n d v pcCallerID dm in
  paramName m = n ∧ reqType m = HOSTIF_SET ∧ paramtype m = http_type d
  ∧ requestor m = caller_source pcCallerID ∧ bsUpdate m = getBSUpdateEnum (WalDB.bsUpdate dm).
Proof.
  intros Hl. unfold set_message, convertAndAssignParamValue. cbn [paramtype set_reqType Webpa.mk_request].
  assert (str_take (Webpa.MAX_PARAM_LENGTH - 1) n = n) as Hn
    by (apply str_take_all; unfold Webpa.MAX_PARAM_LENGTH; lia).
  destruct (http_type d);
    cbn [paramName reqType paramtype requestor bsUpdate set_value set_reqType Webpa.mk_request Webpa.with_source];
    rewrite Hn; repeat split.
Qed.

(** A set of a value that its type prints goes through to the handler. *)
Lemma set_param_canonical n d dm v pcCallerID s :
  writable n d dm → getWdmpDataType d ≠ WDMP_NONE → canonical_text (http_type d) v →
  set_param (mkParam n (Some v) (data_type (getWdmpDataType d))) pcCallerID s
  = deliver n v (set_message n d v pcCallerID dm) s.
Proof.
  intros Hw Hd Hv. rewrite (set_param_writable n d dm) by done. rewrite validate_canonical; [done|done|].
  unfold http_type. rewrite getHostIfParamType_of. by destruct (getWdmpDataType d).
Qed.

Lemma set_message_value n d v pcCallerID dm :
  canonical_text (http_type d) v → HostIf.getStringValue (set_message n d v pcCallerID dm) = Some v.
Proof.
  intros Hv. apply convert_canonical; [done|]. change (http_type d ≠ hostIf_UnsignedLongType).
  unfold http_type. rewrite getHostIfParamType_of. by destruct (getWdmpDataType d).
Qed.

(** ** Properties *)

(** A set over HTTP of a parameter that the data model lets write, with the
    type the model gives it and a text that type prints, reaches the set
    handler once, as a request with the parameter's name, the source that the
    caller's name stands for, the data model's update rule, and a value that
    reads back as the text; the client gets the handler's verdict. *)
Theorem http_set_delivers n d dm v pcCallerID s :
  writable n d dm → getWdmpDataType d ≠ WDMP_NONE → canonical_text (http_type d) v →
  ∃ m, paramName m = n ∧ reqType m = HOSTIF_SET ∧ paramtype m = http_type d
    ∧ requestor m = (if streq pcCallerID "rfc" then HOSTIF_SRC_RFC else HOSTIF_SRC_WEBPA)
    ∧ bsUpdate m = getBSUpdateEnum (WalDB.bsUpdate dm) ∧ HostIf.getStringValue m = Some v
    ∧ set_param (mkParam n (Some v) (data_type (getWdmpDataType d))) pcCallerID s = deliver n v m s.
Proof.
  intros Hw Hd Hv. exists (set_message n d v pcCallerID dm).
  destruct (set_message_fields n d v pcCallerID dm (wr_length _ _ _ Hw)) as (F1 & F2 & F3 & F4 & F5).
  split_and!; try done; [by apply set_message_value|by apply set_param_canonical].
Qed.

(** A number that its type cannot hold is not refused: the conversion of the
    validation throws, nothing catches the exception, and the daemon ends. *)
Theorem http_set_out_of_range_crash n d dm z pcCallerID s :
  writable n d dm → - 10 ^ 20 < z < 10 ^ 20 →
  (d = "int"%string ∧ ¬ (- 2 ^ 31 <= z < 2 ^ 31))
  ∨ ((d = "unsignedInt" ∨ d = "unsignedLong")%string ∧ ULONG_MAX < z) →
  set_param (mkParam n (Some (dec z)) (data_type (getWdmpDataType d))) pcCallerID s = Crash.
Proof.
  intros Hw Hz Hd. rewrite (set_param_writable n d dm) by (done || by destruct Hd as [[-> _]|[[-> | ->] _]]).
  unfold http_type. rewrite getHostIfParamType_of. destruct Hd as [[-> Hr]|[Hd Hr]].
  - change (getWdmpDataType "int") with WDMP_INT. cbv iota. rewrite validate_int by done.
    destruct ((- 2 ^ 31 <=? z) && (z <? 2 ^ 31)) eqn:E; [|done]. apply andb_prop in E as [? ?]. lia.
  - replace (match getWdmpDataType d with WDMP_INT => hostIf_IntegerType | WDMP_UINT | WDMP_ULONG => hostIf_UnsignedIntType
             | WDMP_BOOLEAN => hostIf_BooleanType | WDMP_DATETIME => hostIf_DateTimeType | _ => hostIf_StringType end)
      with hostIf_UnsignedIntType by by destruct Hd as [-> | ->].
    rewrite validate_uint by (unfold ULONG_MAX in *; lia). by rewrite (proj2 (Z.ltb_lt _ _) Hr).
Qed.

(** An unsigned long is delivered as an unsigned int: of a value of 2^32 or
    more, only the lower 32 bits reach the handler, and the client is told the
    handler's verdict on those. *)
Theorem http_set_ulong_truncated n dm z pcCallerID s :
  writable n "unsignedLong" dm → 2 ^ 32 <= z <= LONG_MAX →
  ∃ m, paramName m = n ∧ paramtype m = hostIf_UnsignedIntType
    ∧ HostIf.getStringValue m = Some (dec (z mod 2 ^ 32))
    ∧ set_param (mkParam n (Some (dec z)) (data_type WDMP_ULONG)) pcCallerID s = deliver n (dec z) m s.
Proof.
  intros Hw Hz. unfold LONG_MAX in Hz. exists (set_message n "unsignedLong" (dec z) pcCallerID dm).
  destruct (set_message_fields n "unsignedLong" (dec z) pcCallerID dm (wr_length _ _ _ Hw)) as (F1 & _ & F3 & _).
  assert (http_type "unsignedLong" = hostIf_UnsignedIntType) as Ht
    by (unfold http_type; by rewrite getHostIfParamType_of).
  rewrite Ht in F3. split_and!; try done.
  - unfold HostIf.getStringValue. rewrite F3. unfold set_message, convertAndAssignParamValue.
    cbn [paramtype set_reqType Webpa.mk_request]. rewrite Ht. cbn [paramValue set_value].
    rewrite strtol_dec by (unfold LONG_MIN, LONG_MAX; lia). cbn [fst].
    change (get_uint (put_int ?b ?x)) with (get_uint (put_uint b x)). rewrite get_put_uint, uint32_int32.
    done.
  - change WDMP_ULONG with (getWdmpDataType "unsignedLong"). rewrite (set_param_writable n "unsignedLong" dm) by done.
    rewrite Ht, validate_uint by lia. by rewrite (proj2 (Z.ltb_ge _ _)) by (unfold ULONG_MAX; lia).
Qed.

Lemma convert_set_reqType m r v :
  convertAndAssignParamValue (set_reqType m r) v = set_reqType (convertAndAssignParamValue m v) r.
Proof.
  unfold convertAndAssignParamValue. cbn [paramtype paramValue set_reqType].
  destruct (paramtype m); unfold set_value, set_reqType;
    cbn [paramName paramValue paramValueLong transactionID paramLen instanceNum paramtype reqType faultCode
         requestor bsUpdate isLengthyParam]; reflexivity.
Qed.

(** The two ways of putting a value into the message. *)
Lemma encode_convert m v :
  Webpa.settable (paramtype m) v → isLengthyParam m = false →
  Webpa.encode_value m v = inr (convertAndAssignParamValue m v).
Proof.
  intros Hv Hl. unfold Webpa.encode_value, convertAndAssignParamValue. rewrite Hl.
  destruct (paramtype m); cbn [Webpa.settable canonical_text] in Hv.
  - reflexivity.
  - destruct Hv as (z & -> & Hz). by rewrite strtol_dec by (unfold LONG_MIN, LONG_MAX; lia).
  - destruct Hv as (z & -> & Hz). rewrite strtol_dec by (unfold LONG_MIN, LONG_MAX; lia).
    cbn [fst]. rewrite int32_id by lia. by rewrite (proj2 (Z.ltb_ge z 0)) by lia.
  - by destruct Hv as [-> | ->].
  - done.
  - done.
Qed.

(** WebPA's set of the same parameter makes the same message. *)
Lemma webpa_set_message n d dm v pcCallerID tid s :
  writable n d dm → d ∈ ["string"; "boolean"; "int"; "unsignedInt"]%string →
  Webpa.settable (http_type d) v → streq pcCallerID "rfc" = false →
  strcaseeq n "Device.X_RDKCENTRAL-COM_T2.ReportProfiles" = false →
  getWdmpDataType d ≠ WDMP_NONE ∧ canonical_text (http_type d) v
  ∧ Webpa.SetParamInfo (Some doc)
      (Webpa.mkParamVal n (Some v) (Webpa.converttoWalType (Webpa.entry_type dm))) tid (pl s)
    = (let '(status, m', h) := hostIf_Set (set_message n d v pcCallerID dm) (Webpa.hs (pl s)) in
       let* st := of_option status in
       Done (if st =? 0 then Webpa.WAL_SUCCESS else Webpa.convertFaultCodeToWalStatus (faultCode m'),
             Webpa.set_hs (pl s) h)).
Proof.
  intros Hw Hd Hv Hc Hrp.
  assert (http_type d = Webpa.entry_type dm ∧ http_type d ≠ hostIf_UnsignedLongType
          ∧ getWdmpDataType d ≠ WDMP_NONE) as (He & Hu & Hn).
  { unfold Webpa.entry_type. rewrite (wr_type _ _ _ Hw). unfold http_type. rewrite getHostIfParamType_of.
    repeat (apply elem_of_cons in Hd as [->|Hd]; [by split_and!|]). by apply not_elem_of_nil in Hd. }
  split; [done|]. split.
  { destruct (http_type d); simpl in Hv |- *; try done. destruct Hv as (z & -> & Hz). exists z. split; [done|lia]. }
  rewrite Webpa.SetParamInfo_owned by apply Hw.
  assert (strcaseeq (str_take (Webpa.MAX_PARAM_LENGTH - 1) n)
            "Device.X_RDKCENTRAL-COM_T2.ReportProfiles" = false) as Hrp'.
  { pose proof (wr_length _ _ _ Hw). rewrite str_take_all; [done|]. unfold Webpa.MAX_PARAM_LENGTH. lia. }
  assert (paramtype (Webpa.set_request n dm) = http_type d) as Ht by by rewrite He.
  rewrite encode_convert by (rewrite ?Ht; done).
  unfold Webpa.set_ParamValues_tr69hostIf. rewrite <- convert_set_reqType.
  assert (set_reqType (Webpa.set_request n dm) HOSTIF_SET
          = set_reqType (Webpa.mk_request n (http_type d) (Webpa.with_source zero_msg (caller_source pcCallerID)
              (getBSUpdateEnum (WalDB.bsUpdate dm)))) HOSTIF_SET) as ->; [|done].
  unfold caller_source. rewrite Hc, He. unfold Webpa.set_request. rewrite Hrp'. reflexivity.
Qed.

(** C40. For a value that both front ends take, HTTP and WebPA hand the
    dispatcher the same message, so a parameter's handler cannot tell them
    apart. The values are a string that fits the message, true or false, an int
    above -10^8 and below 10^9 and an unsigned int below 2^31, in decimal as the
    daemon prints it; the caller of the HTTP request is not rfc, which is a
    requestor of its own; the parameter is one that the data model lets be
    written as a string, boolean, int or unsigned int, other than the report
    profiles, the reboot parameter, wildcards and RFC variables. *)
Theorem front_ends_agree n d dm v pcCallerID tid s :
  writable n d dm → d ∈ ["string"; "boolean"; "int"; "unsignedInt"]%string →
  Webpa.settable (http_type d) v → streq pcCallerID "rfc" = false →
  strcaseeq n "Device.X_RDKCENTRAL-COM_T2.ReportProfiles" = false →
  ∃ m, HostIf.getStringValue m = Some v
    ∧ set_param (mkParam n (Some v) (data_type (getWdmpDataType d))) pcCallerID s = deliver n v m s
    ∧ Webpa.SetParamInfo (Some doc)
        (Webpa.mkParamVal n (Some v) (Webpa.converttoWalType (Webpa.entry_type dm))) tid (pl s)
      = (let '(status, m', h) := hostIf_Set m (Webpa.hs (pl s)) in
         let* st := of_option status in
         Done (if st =? 0 then Webpa.WAL_SUCCESS else Webpa.convertFaultCodeToWalStatus (faultCode m'),
               Webpa.set_hs (pl s) h)).
Proof.
  intros Hw Hd Hv Hc Hrp. exists (set_message n d v pcCallerID dm).
  destruct (webpa_set_message n d dm v pcCallerID tid s) as (Hn & Hcan & Hs); [done..|].
  split_and!; [by apply set_message_value|by apply set_param_canonical|exact Hs].
Qed.

(** What the data model forbids is refused with the reason: a name it does not
    have, a type that is not a type, a read-only parameter, another type than
    the model's.  The handler is not called and nothing changes. *)
Theorem http_set_refused p v found pcCallerID s :
  value p = Some v → streq (name p) DEVICE_REBOOT_PARAM = false →
  WalList.isWildCardParam (name p) = Some false → is_rfc_name (name p) = false →
  WalDB.getParamInfoFromDataModel doc (name p) WalDB.zero_param = Some found →
  let readOnly dm := match WalDB.access dm with Some a => strcaseeq a "readOnly" | None => false end in
  match found with
  | None => True
  | Some dm => data_type WDMP_NONE <= type p ∨ readOnly dm = true
               ∨ ∀ d, WalDB.dataType dm = Some d → data_type (getWdmpDataType d) ≠ type p
  end →
  set_param p pcCallerID s
  = Done (match found with
          | None => WDMP_ERR_INVALID_PARAMETER_NAME
          | Some dm => if data_type WDMP_NONE <=? type p then WDMP_ERR_VALUE_IS_NULL
                       else if readOnly dm then WDMP_ERR_NOT_WRITABLE
                       else WDMP_ERR_INVALID_PARAMETER_TYPE
          end, mkParam (name p) (Some v) 0, s).
Proof.
  intros Hv Hr Hw Hf Hm readOnly Hno. unfold set_param, isAuthorized. rewrite Hr, Hw, Hv, Hf.
  cbn [negb of_option wbind]. unfold validateAgainstDataModel. rewrite Hm, Hv. cbn [of_option wbind orb].
  destruct found as [dm|]; [|done]. fold (readOnly dm).
  destruct (Z.leb_spec (data_type WDMP_NONE) (type p)); [done|].
  destruct (readOnly dm) eqn:Hro; [done|]. destruct Hno as [?|[?|Hno]]; [lia|congruence|].
  destruct (WalDB.dataType dm) as [d|]; [|done]. cbn [wbind].
  by rewrite (proj2 (Z.eqb_neq _ _) (Hno d eq_refl)).
Qed.

(** A parameter of a type that is not one of the six names the server compares
    with can never be set: dateTime is one, since the server spells it
    dataTime. *)
Theorem http_unknown_type_never_set n d dm v t pcCallerID s :
  writable n d dm → getWdmpDataType d = WDMP_NONE →
  ∃ st, st ≠ WDMP_SUCCESS
    ∧ set_param (mkParam n (Some v) t) pcCallerID s = Done (st, mkParam n (Some v) 0, s).
Proof.
  intros [Ho Ht Ha Hr Hw Hf Hl] Hd. unfold set_param, isAuthorized. cbn [name value type].
  rewrite Hr, Hw, Hf. cbn [negb of_option wbind]. unfold validateAgainstDataModel. cbn [name value type].
  rewrite Ho. cbn [of_option wbind]. rewrite Ht, Ha, Hd. cbn [orb].
  destruct (Z.leb_spec (data_type WDMP_NONE) t); cbn [wbind];
    [by exists WDMP_ERR_VALUE_IS_NULL|].
  rewrite (proj2 (Z.eqb_neq _ _)) by lia. by exists WDMP_ERR_INVALID_PARAMETER_TYPE.
Qed.

(** A get can reach the handler of this parameter. *)
Record readable (n d : string) (dm : WalDB.DataModelParam) : Prop := {
  rd_owned : Webpa.owned doc n dm;
  rd_type : WalDB.dataType dm = Some d;
  rd_wild : WalList.isWildCardParam n = Some false;
  rd_rfc : is_rfc_name n = false;
  rd_length : (String.length n ≤ MAX_PARAMETERNAME_LEN)%nat
}.

(** What a parameter that could not be read is answered with. *)
Definition unread (n d : string) (dm : WalDB.DataModelParam) : WDMP_STATUS * list param_t :=
  match WalDB.defaultValue dm with
  | Some def => (WDMP_ERR_DEFAULT_VALUE, [mkParam n (Some def) (data_type (getWdmpDataType d))])
  | None => (WDMP_ERR_VALUE_IS_EMPTY, [mkParam n (Some EmptyString) (data_type (getWdmpDataType d))])
  end.

Lemma get_name_readable fuel n d dm pcCallerID c s :
  readable n d dm →
  get_name fuel n pcCallerID c s
  = let t := data_type (getWdmpDataType d) in
    let* r := get_value (rfcParam c) WDMP_SUCCESS (mkParam n None t) (WalDB.defaultValue dm)
                (getBSUpdateEnum (WalDB.bsUpdate dm)) pcCallerID s in
    let '(st, p, s') := r in Done (st, [p], mkCarried t (rfcParam c), s').
Proof.
  intros [Ho Ht Hw Hf Hl]. unfold get_name. rewrite (proj2 (Nat.ltb_ge _ _) Hl), Hw, Hf.
  cbn [of_option wbind]. unfold validateAgainstDataModel. cbn [name]. rewrite Ho. cbn [of_option wbind].
  rewrite Ht. cbn [wbind rfcParam]. by rewrite orb_false_r.
Qed.

(** The message of a get. *)
Definition get_message (n d pcCallerID : string) (dm : WalDB.DataModelParam) : HOSTIF_MsgData_t :=
  set_reqType (Webpa.mk_request n (http_type d)
    (Webpa.with_source zero_msg (caller_source pcCallerID) (getBSUpdateEnum (WalDB.bsUpdate dm)))) HOSTIF_GET.

Lemma get_message_fields n d pcCallerID dm :
  (String.length n < TR69HOSTIFMGR_MAX_PARAM_LEN)%nat →
  let m := get_message n d pcCallerID dm in
  paramName m = n ∧ reqType m = HOSTIF_GET ∧ paramtype m = http_type d
  ∧ requestor m = caller_source pcCallerID ∧ bsUpdate m = getBSUpdateEnum (WalDB.bsUpdate dm).
Proof.
  intros Hl. split; [|done]. change (str_take (Webpa.MAX_PARAM_LENGTH - 1) n = n).
  apply str_take_all. unfold Webpa.MAX_PARAM_LENGTH. lia.
Qed.

Lemma handle_get_readable fuel n d dm pcCallerID s :
  readable n d dm →
  handleRequest fuel pcCallerID (getReq [n]) s
  = (let '(result, m', h) := hostIf_Get (get_message n d pcCallerID dm) (Webpa.hs (pl s)) in
     Done (Some [if decide (result = OK ∧ faultCode m' = fcNoFault)
                 then (WDMP_SUCCESS, [mkParam n (Some (getStringValue (paramtype m') (paramValue m')))
                                              (data_type (getWdmpDataType d))])
                 else unread n d dm], set_handler s h)).
Proof.
  intros Hr. pose proof (rd_length _ _ _ Hr) as Hl.
  assert (String.length n < TR69HOSTIFMGR_MAX_PARAM_LEN)%nat as Hl'.
  { unfold MAX_PARAMETERNAME_LEN in Hl. unfold TR69HOSTIFMGR_MAX_PARAM_LEN. lia. }
  unfold handleRequest. cbn [get_names]. rewrite (get_name_readable _ _ _ _ _ _ _ Hr). cbv zeta.
  unfold get_value. rewrite decide_True by done. cbn [rfcParam].
  unfold invokeHostIfAPI, getHostIfParamStFromRequest. cbn [name type].
  rewrite (proj2 (Nat.leb_gt _ _) Hl'). cbn [wbind]. fold (http_type d).
  unfold get_message. destruct (hostIf_Get _ _) as [[result m'] h]. cbn [wbind]. unfold result_of, unread.
  destruct (Z.eqb_spec result OK) as [->|Hne].
  - destruct (decide (faultCode m' = fcNoFault)) as [Hf|Hf].
    + rewrite (decide_True (P := _ ∧ _)) by done. cbn.
      done.
    + rewrite (decide_False (P := _ ∧ _)) by naive_solver. cbn.
      by destruct (WalDB.defaultValue dm).
  - rewrite (decide_False (P := _ ∧ _)) by naive_solver.
    by destruct (result =? _); cbn; destruct (WalDB.defaultValue dm).
Qed.

(** A get of one parameter asks its handler once and answers the value with the
    data model's type; when the handler fails, or succeeds with a fault, the
    data model's default is answered and marked as one, and without a default
    the value is empty and marked so. *)
Theorem http_get_answers fuel n d dm pcCallerID s :
  readable n d dm →
  ∃ m, paramName m = n ∧ reqType m = HOSTIF_GET ∧ paramtype m = http_type d
    ∧ requestor m = (if streq pcCallerID "rfc" then HOSTIF_SRC_RFC else HOSTIF_SRC_WEBPA)
    ∧ bsUpdate m = getBSUpdateEnum (WalDB.bsUpdate dm)
    ∧ handleRequest fuel pcCallerID (getReq [n]) s
      = (let '(result, m', h) := hostIf_Get m (Webpa.hs (pl s)) in
         Done (Some [if decide (result = OK ∧ faultCode m' = fcNoFault)
                     then (WDMP_SUCCESS, [mkParam n (Some (getStringValue (paramtype m') (paramValue m')))
                                                  (data_type (getWdmpDataType d))])
                     else unread n d dm], set_handler s h)).
Proof.
  intros Hr. exists (get_message n d pcCallerID dm).
  destruct (get_message_fields n d pcCallerID dm) as (F1 & F2 & F3 & F4 & F5).
  { pose proof (rd_length _ _ _ Hr) as Hl. unfold MAX_PARAMETERNAME_LEN in Hl.
    unfold TR69HOSTIFMGR_MAX_PARAM_LEN. lia. }
  split_and!; try done. by apply handle_get_readable.
Qed.

(** One RFC variable in a request changes how every later name of the request
    is read: the flag is not reset, so a parameter of the data model is looked
    for among the RFC variables, its handler is not asked, and its default or
    nothing is answered. *)
Theorem http_rfc_variable_sticks fuel n1 n2 d dm pcCallerID s :
  is_rfc_name n1 = true → WalList.isWildCardParam n1 = Some false →
  (String.length n1 ≤ MAX_PARAMETERNAME_LEN)%nat →
  readable n2 d dm → XRFCVarStore.getValue (getInstance s) n2 = EmptyString →
  ∃ a1 s', handleRequest fuel pcCallerID (getReq [n1; n2]) s = Done (Some [a1; unread n2 d dm], s')
    ∧ pl s' = pl s.
Proof.
  intros Hf Hw Hl Hr Hv.
  assert (∃ a p, get_name fuel n1 pcCallerID (mkCarried (data_type WDMP_NONE) false) s
                 = Done (a, [p], mkCarried (data_type WDMP_STRING) true,
                         mkServer (pl s) (Some (getInstance s)))) as (a & p & E).
  { unfold get_name. rewrite (proj2 (Nat.ltb_ge _ _) Hl), Hw, Hf. cbn [of_option wbind rfcParam orb].
    unfold get_value. rewrite decide_True by done. cbn [handleRFCRequest wbind name type].
    destruct (is_empty _); cbn; by eexists _, _. }
  unfold handleRequest. cbn [get_names]. rewrite E. cbn [wbind].
  rewrite (get_name_readable _ _ _ _ _ _ _ Hr). cbv zeta. cbn [rfcParam]. unfold get_value.
  rewrite decide_True by done. cbn [handleRFCRequest wbind name type].
  replace (getInstance (mkServer (pl s) (Some (getInstance s)))) with (getInstance s) by done.
  rewrite Hv. cbn. unfold unread. destruct (WalDB.defaultValue dm); by eexists _, _.
Qed.

(** The upper half of the unsigned range is shown as negative numbers, though
    the daemon's own text of the value is right. *)
Theorem http_uint_shown_negative m z :
  paramtype m = hostIf_UnsignedIntType → faultCode m = fcNoFault → get_uint (paramValue m) = z → 2 ^ 31 <= z →
  HostIf.getStringValue m = Some (dec z) ∧ result_of OK m = (WDMP_SUCCESS, dec (z - 2 ^ 32)).
Proof.
  intros Ht Hf <- Hz. unfold HostIf.getStringValue, result_of. rewrite Ht, Hf. split; [done|].
  rewrite decide_True by done. unfold getStringValue. do 3 f_equal. unfold get_int, get_uint in *.
  revert Hz. unfold uint32, int32. generalize (le_val (take 4 (paramValue m))). intros x Hx.
  pose proof (Z.mod_pos_bound x (2 ^ 32) ltac:(lia)).
  rewrite <- (Zplus_mod_idemp_l x). generalize dependent (x mod 2 ^ 32). intros y Hy Hy'.
  replace (y + 2 ^ 31) with (y - 2 ^ 31 + 1 * 2 ^ 32) by lia. rewrite Z.mod_add, Z.mod_small by lia. lia.
Qed.

(** The status code of an answer is success exactly when every parameter
    succeeded, and is otherwise one of theirs. *)
Theorem http_status_code l :
  (statusCode l = 0 ↔ ∀ st, st ∈ l → st = WDMP_SUCCESS)
  ∧ (l ≠ [] → ∃ st, st ∈ l ∧ statusCode l = wdmp_status st).
Proof.
  induction l as [|st l [IH IH']]; [split; [|done]; split; [by intros _ ? ?%not_elem_of_nil|done]|].
  cbn [statusCode]. destruct (decide (st = WDMP_SUCCESS)) as [->|Hst].
  - rewrite wdmp_success. cbn [negb orb]. destruct l as [|st' l]; [|destruct IH' as (x & Hx & E); [done|]].
    + split; [|by exists WDMP_SUCCESS; split; [left|rewrite wdmp_success]].
      split; [|done]. intros _ st ->%list_elem_of_singleton. done.
    + split; [|exists x; split; [by right|done]]. rewrite IH. setoid_rewrite (elem_of_cons (st' :: l)).
      naive_solver.
  - rewrite (proj2 (Z.eqb_neq _ _)) by by apply wdmp_errors. cbn [negb orb].
    split; [|exists st; split; [left|done]]. split; [by intros ?%wdmp_errors|].
    intros Hall. destruct Hst. apply Hall. left.
Qed.

End http.

(** ** Witnesses *)
#[local] Existing Instance WalDB.toy_xml.
#[local] Existing Instance plain_wdmp.

#[local] Instance ex_bus : Rbus := {
  rbus := unit;
  rbus_open := λ b, (true, b);
  rbus_getExt := λ _ _ b, (None, b);
  rbus_get := λ _ _ b, (None, b);
  rbusValue_SetFromString := λ _ _, true;
  rbus_set := λ _ _ _ _ _ b, (false, b)
}.

(** A handler that keeps the last message it was given to set. *)
#[local] Instance ex_memory : ReqHandler := {
  hst := option HOSTIF_MsgData_t;
  hostIf_Get := λ m h, match h with Some m' => (OK, m', h) | None => (NOK, m, h) end;
  hostIf_Set := λ m h, (Some OK, m, Some m);
  hostIf_GetAttributes := λ m h, (Some NOK, m, h);
  hostIf_SetAttributes := λ m h, (Some NOK, m, h)
}.

Definition ex_parameter (n access type : string) : WalDB.toy_node :=
  WalDB.Elem "parameter" [("base", n); ("access", access)]%string
    [WalDB.Elem "syntax" [] [WalDB.Elem type [] []]].

Definition ex_doc : @XMLNode WalDB.toy_xml :=
  WalDB.toy_model
    [WalDB.toy_object "Device.X."
       [ex_parameter "Count" "readWrite" "unsignedInt"; ex_parameter "Big" "readWrite" "unsignedLong";
        ex_parameter "Level" "readWrite" "int"; ex_parameter "When" "readWrite" "dateTime";
        ex_parameter "Fixed" "readOnly" "string"]].

Definition ex_entry (n base type access : string) : WalDB.DataModelParam :=
  WalDB.mkParam (Some n) (Some base) (Some type) (Some access) None None.

Definition ex_files : env := mkEnv ∅ ∅ true ∅ EmptyString 0.
Definition ex_server : server := mkServer (Webpa.mkPal false () None) None.

Ltac ex_record := constructor; (vm_compute; reflexivity) || (apply Nat.ltb_lt; vm_compute; reflexivity)
                               || (apply Nat.leb_le; vm_compute; reflexivity).

Lemma ex_count : writable ex_doc "Device.X.Count" "unsignedInt"
                   (ex_entry "Device.X.Count" "Count" "unsignedInt" "readWrite").
Proof. ex_record. Qed.

Lemma ex_count_readable : readable ex_doc "Device.X.Count" "unsignedInt"
                            (ex_entry "Device.X.Count" "Count" "unsignedInt" "readWrite").
Proof. ex_record. Qed.

Lemma http_set_delivers_witness :
  ∃ m, HostIf.getStringValue m = Some "7"%string
    ∧ set_param ex_doc ex_files (mkParam "Device.X.Count" (Some "7"%string) 2) "rfc" ex_server
      = Done (WDMP_SUCCESS, mkParam "Device.X.Count" (Some "7"%string) 0, set_handler ex_server (Some m)).
Proof.
  destruct (http_set_delivers ex_doc ex_files "Device.X.Count" "unsignedInt" _ "7" "rfc" ex_server ex_count)
    as (m & _ & _ & Ht & _ & _ & Hg & Hs).
  - discriminate.
  - exists 7. split; [reflexivity|split; [discriminate|reflexivity]].
  - exists m. split; [exact Hg|]. refine (eq_trans Hs _). unfold deliver. cbn [hostIf_Set ex_memory of_option wbind].
    unfold result_of. rewrite Z.eqb_refl.
    destruct (decide (faultCode m = fcNoFault)) as [Hf|Hf]; [reflexivity|].
    exfalso. revert Hs. unfold deliver. cbn [hostIf_Set ex_memory of_option wbind]. unfold result_of.
    rewrite Z.eqb_refl, decide_False by exact Hf. vm_compute. discriminate.
Defined.

Lemma http_set_out_of_range_crash_witness :
  set_param ex_doc ex_files (mkParam "Device.X.Level" (Some "3000000000"%string) 1) "rfc" ex_server = Crash.
Proof.
  refine (http_set_out_of_range_crash ex_doc ex_files "Device.X.Level" "int"
            (ex_entry "Device.X.Level" "Level" "int" "readWrite") 3000000000 "rfc" ex_server _ _ _).
  - ex_record.
  - split; reflexivity.
  - left. split; [reflexivity|]. intros [_ Hlt]. vm_compute in Hlt. discriminate Hlt.
Defined.

Lemma http_set_ulong_truncated_witness :
  ∃ m, HostIf.getStringValue m = Some "1"%string
    ∧ set_param ex_doc ex_files (mkParam "Device.X.Big" (Some "4294967297"%string) 7) "cli" ex_server
      = deliver "Device.X.Big" "4294967297" m ex_server.
Proof.
  destruct (http_set_ulong_truncated ex_doc ex_files "Device.X.Big"
              (ex_entry "Device.X.Big" "Big" "unsignedLong" "readWrite") 4294967297 "cli" ex_server)
    as (m & _ & _ & Hg & Hs).
  - ex_record.
  - split; discriminate.
  - exists m. split; [exact Hg|exact Hs].
Defined.

Lemma front_ends_agree_witness :
  ∃ m, HostIf.getStringValue m = Some "7"%string
    ∧ Webpa.SetParamInfo (Some ex_doc) (Webpa.mkParamVal "Device.X.Count" (Some "7"%string) Webpa.WAL_UINT)
        None (pl ex_server) = Done (if OK =? 0 then Webpa.WAL_SUCCESS else Webpa.WAL_FAILURE,
                                    Webpa.set_hs (pl ex_server) (Some m)).
Proof.
  destruct (front_ends_agree ex_doc ex_files "Device.X.Count" "unsignedInt" _ "7" "cli" None ex_server ex_count)
    as (m & Hg & _ & Hs).
  - right. right. right. left.
  - exists 7. split; [reflexivity|split; [discriminate|reflexivity]].
  - reflexivity.
  - vm_compute. reflexivity.
  - exists m. split; [exact Hg|exact Hs].
Defined.

Lemma http_set_refused_witness :
  set_param ex_doc ex_files (mkParam "Device.X.Fixed" (Some "a"%string) 0) "rfc" ex_server
  = Done (WDMP_ERR_NOT_WRITABLE, mkParam "Device.X.Fixed" (Some "a"%string) 0, ex_server).
Proof.
  refine (http_set_refused ex_doc ex_files (mkParam "Device.X.Fixed" (Some "a"%string) 0) "a"
            (Some (ex_entry "Device.X.Fixed" "Fixed" "string" "readOnly")) "rfc" ex_server _ _ _ _ _ _).
  - reflexivity.
  - vm_compute. reflexivity.
  - vm_compute. reflexivity.
  - vm_compute. reflexivity.
  - vm_compute. reflexivity.
  - right. left. vm_compute. reflexivity.
Defined.

Lemma http_unknown_type_never_set_witness :
  ∃ st, st ≠ WDMP_SUCCESS
    ∧ set_param ex_doc ex_files (mkParam "Device.X.When" (Some "2020-01-01"%string) 4) "rfc" ex_server
      = Done (st, mkParam "Device.X.When" (Some "2020-01-01"%string) 0, ex_server).
Proof.
  refine (http_unknown_type_never_set ex_doc ex_files "Device.X.When" "dateTime"
            (ex_entry "Device.X.When" "When" "dateTime" "readWrite") "2020-01-01" 4 "rfc" ex_server _ _).
  - ex_record.
  - vm_compute. reflexivity.
Defined.

Lemma http_get_answers_witness :
  handleRequest ex_doc ex_files 100 "cli" (getReq ["Device.X.Count"%string]) ex_server
  = Done (Some [(WDMP_ERR_VALUE_IS_EMPTY, [mkParam "Device.X.Count" (Some EmptyString) 2])], ex_server).
Proof.
  destruct (http_get_answers ex_doc ex_files 100 "Device.X.Count" "unsignedInt" _ "cli" ex_server ex_count_readable)
    as (m & _ & _ & _ & _ & _ & Hs).
  refine (eq_trans Hs _). reflexivity.
Defined.

Lemma http_rfc_variable_sticks_witness :
  ∃ a1 s', handleRequest ex_doc ex_files 100 "cli" (getReq ["RFC_A"; "Device.X.Count"]%string) ex_server
           = Done (Some [a1; (WDMP_ERR_VALUE_IS_EMPTY, [mkParam "Device.X.Count" (Some EmptyString) 2])], s')
    ∧ pl s' = pl ex_server.
Proof.
  refine (http_rfc_variable_sticks ex_doc ex_files 100 "RFC_A" "Device.X.Count" "unsignedInt" _ "cli" ex_server
            _ _ _ ex_count_readable _).
  - vm_compute. reflexivity.
  - vm_compute. reflexivity.
  - apply Nat.leb_le; vm_compute; reflexivity.
  - reflexivity.
Defined.

Lemma http_uint_shown_negative_witness :
  (result_of OK (HostIf.putValue (Webpa.mk_request "Device.X.Count" hostIf_UnsignedIntType zero_msg) "4294967295")).2
  = "-1"%string.
Proof.
  refine (f_equal snd (proj2 (http_uint_shown_negative
            (HostIf.putValue (Webpa.mk_request "Device.X.Count" hostIf_UnsignedIntType zero_msg) "4294967295")
            4294967295 _ _ _ _))).
  - vm_compute. reflexivity.
  - vm_compute. reflexivity.
  - vm_compute. reflexivity.
  - discriminate.
Defined.

Lemma http_status_code_witness :
  ∃ st, st ∈ [WDMP_SUCCESS; WDMP_FAILURE] ∧ statusCode [WDMP_SUCCESS; WDMP_FAILURE] = wdmp_status st.
Proof. apply (proj2 (http_status_code [WDMP_SUCCESS; WDMP_FAILURE])). discriminate. Defined.

End RequestHandler.
