(* ===== verification/Utils.v ===== *)
(** * Helpers of hostIf_utils.cpp

    [Utils] models the helpers that the handlers share: the split of a parameter
    name into component, instance and setting, the enumeration tables, the
    reset scripts and the difference of two readings of the clock. *)
From stdpp Require Import base list strings.
From Stdlib Require Import Ascii ZArith Lia.
From S2P Require Import Prelude HostIf.

#[local] Arguments streq : simpl never.

Module Utils.

(** A table of codes and names. *)
Definition EnumStringMapper : Type := list (Z * string).

Definition getStringFromEnum (stbMapperArray : EnumStringMapper) (enumCode : Z) : option string :=
  snd <$> List.find (λ e, e.1 =? enumCode) stbMapperArray.

Definition getEnumFromString (stbMapperArray : EnumStringMapper) (inputStr : string) : Z :=
  match List.find (λ e, strncaseeq inputStr e.2) stbMapperArray with
  | Some e => e.1
  | None => -1
  end.

Definition MAX_NUM_LEN : nat := 10.

(** The setting and the instance number, when the name is the component, a dot,
    at most nine characters and a dot. *)
Definition matchComponent (pParam pKey : string) : option (string * Z) :=
  if strncaseeq pKey pParam then
    match str_drop (String.length pKey) pParam with
    | String c rest =>
        if Ascii.eqb c DOT then
          '(num, pSetting) ← split_at DOT rest;
          if (String.length num <? MAX_NUM_LEN)%nat then Some (pSetting, int32 (strtol num).1) else None
        else None
    | EmptyString => None
    end
  else None.

Inductive eSTBResetState : Type :=
  | NoReset | ColdReset | FactoryReset | WarehouseReset | CustomerReset.

Definition SCR_PATH : string := "/lib/rdk".
Definition REBOOT_SCR : string := "backgroundrun sh /rebootNow.sh -s hostIf_utils".

Definition script (name : string) : string := str_take 99 ("sh " +:+ SCR_PATH +:+ "/" +:+ name).

(** The commands that run, in order; [exit_status] is what each ends with. *)
Definition triggerResetScript (exit_status : string → Z) (gResetState : eSTBResetState) : list string :=
  let run_and_reboot cmd := if exit_status cmd =? 0 then [cmd; REBOOT_SCR] else [cmd] in
  match gResetState with
  | ColdReset => run_and_reboot (script "coldfactory-reset.sh")
  | FactoryReset => run_and_reboot (script "factory-reset.sh")
  | WarehouseReset => [script "warehouse-reset.sh"]
  | CustomerReset => run_and_reboot (script "customer-reset.sh")
  | NoReset => []
  end.

(** [struct timespec]. *)
Record timespec := mkTimespec { tv_sec : Z; tv_nsec : Z }.

Definition timeValDiff (starttime finishtime : timespec) : Z :=
  (tv_sec finishtime - tv_sec starttime) * 1000
  + Z.quot (tv_nsec finishtime - tv_nsec starttime) 1000000.

(** ** Lemmas *)
Lemma strncaseeq_app p s : strncaseeq p (p +:+ s) = true.
Proof. unfold strncaseeq. rewrite lower_app. apply starts_with_app. Qed.

Lemma dec_length_nine n : 0 <= n < 10 ^ 9 → (String.length (dec n) < 10)%nat.
Proof.
  intros Hn. unfold dec. rewrite (proj2 (Z.ltb_ge n 0)) by lia. unfold dec_nat.
  destruct (dec_aux_length 20 n EmptyString 9) as [_ H]; [lia|lia|]. cbn [String.length Nat.add] in H.
  assert (String.length (dec_aux 20 n EmptyString) ≤ 9)%nat; [|lia]. apply H. lia.
Qed.

(** A name built from a component, an instance number and a setting is taken
    apart into the same number and setting. *)
Theorem match_component_name key n setting :
  0 <= n < 10 ^ 9 →
  matchComponent (key +:+ String DOT (dec n +:+ String DOT setting)) key = Some (setting, n).
Proof.
  intros Hn. unfold matchComponent. rewrite strncaseeq_app, str_drop_app.
  rewrite Ascii.eqb_refl, split_at_app by by apply dec_no_char.
  cbn [mbind option_bind].
  rewrite (proj2 (Nat.ltb_lt _ _)) by (by apply dec_length_nine).
  rewrite strtol_dec by (unfold LONG_MIN, LONG_MAX; lia). cbn [fst]. by rewrite int32_id by lia.
Qed.

(** Text and code of an enumeration are inverse when no earlier name of the
    table starts with the text; otherwise the earlier code is answered. *)
Theorem enum_roundtrip t1 c s t2 :
  (∀ e, e ∈ t1 → e.1 ≠ c) →
  getStringFromEnum (t1 ++ (c, s) :: t2) c = Some s
  ∧ ((∀ e, e ∈ t1 → strncaseeq s e.2 = false) → getEnumFromString (t1 ++ (c, s) :: t2) s = c)
  ∧ (∀ t0 e t, t1 = t0 ++ e :: t → (∀ e', e' ∈ t0 → strncaseeq s e'.2 = false) → strncaseeq s e.2 = true →
     getEnumFromString (t1 ++ (c, s) :: t2) s = e.1).
Proof.
  assert (∀ (f : Z * string → bool) l e l', (∀ e', e' ∈ l → f e' = false) → f e = true →
    List.find f (l ++ e :: l') = Some e) as Hfind.
  { intros f l e l' Hl He. induction l as [|e' l IH]; simpl; [by rewrite He|].
    rewrite Hl by left. apply IH. intros e0 He0. apply Hl. by right. }
  intros Hc. split_and!.
  - unfold getStringFromEnum. rewrite Hfind; [done| |by rewrite Z.eqb_refl].
    intros e He. by apply Z.eqb_neq, Hc.
  - intros Hs. unfold getEnumFromString. rewrite Hfind; [done|done|].
    pose proof (strncaseeq_app s EmptyString) as E. by rewrite str_app_nil_r in E.
  - intros t0 e t -> H0 He. unfold getEnumFromString. rewrite <- app_assoc. simpl. by rewrite Hfind.
Qed.

(** The device reboots only after a reset script that succeeded, and never
    after a warehouse reset. *)
Theorem reset_reboots exit_status st :
  (∀ cmd, exit_status cmd ≠ 0) ∨ st = WarehouseReset ∨ st = NoReset →
  REBOOT_SCR ∉ triggerResetScript exit_status st.
Proof.
  intros [He|[-> | ->]]; [|vm_compute; by intros ?%list_elem_of_singleton|by intros ?%not_elem_of_nil].
  unfold triggerResetScript. destruct st; cbv zeta; rewrite ?(proj2 (Z.eqb_neq _ _) (He _));
    (by intros ?%list_elem_of_singleton) || by intros ?%not_elem_of_nil.
Qed.

(** Two readings of a clock that does not go back: the difference is the
    elapsed time in milliseconds, up to rounding of less than one. *)
Theorem time_difference s f :
  let ns t := tv_sec t * 1000000000 + tv_nsec t in
  Z.abs (timeValDiff s f * 1000000 - (ns f - ns s)) < 1000000.
Proof.
  unfold timeValDiff. set (d := tv_nsec f - tv_nsec s).
  pose proof (Z.quot_rem d 1000000 ltac:(lia)). pose proof (Z.rem_bound_abs d 1000000 ltac:(lia)). lia.
Qed.

Lemma match_component_name_witness :
  matchComponent "Device.DeviceInfo.ProcessStatus.Process.12.PID" "Device.DeviceInfo.ProcessStatus.Process"
  = Some ("PID"%string, 12).
Proof. apply (match_component_name "Device.DeviceInfo.ProcessStatus.Process" 12 "PID"). lia. Defined.

Lemma enum_roundtrip_witness :
  getEnumFromString [(7, "720p"); (8, "1080p")]%string "1080p" = 8.
Proof.
  refine (proj1 (proj2 (enum_roundtrip [(7, "720p"%string)] 8 "1080p" [] _)) _);
    intros e ->%list_elem_of_singleton; [discriminate|reflexivity].
Defined.

Lemma reset_reboots_witness : REBOOT_SCR ∉ triggerResetScript (λ _, 1) ColdReset.
Proof. apply reset_reboots. left. discriminate. Defined.

End Utils.
