(* ===== verification/Notify.v ===== *)
(** * What the request handlers share about changes

    [NotifyHash] is the table of the parameters whose changes a client wants to
    hear of: a GLib hash table that keeps the pointers it is given, so that the
    handlers' [free] of a key or a value leaves it pointing at freed memory.
    [Updates] is the loop with which every handler reports that instances of an
    object came or went. *)
From stdpp Require Import base list strings.
From Stdlib Require Import Ascii ZArith Lia.
From S2P Require Import Prelude HostIf.

#[local] Arguments streq : simpl never.

Module NotifyHash.

(** An entry: key and value, and whether the memory of each is still allocated. *)
Record entry := mkEntry { key : string; key_live : bool; value : Z; value_live : bool }.

(** A lookup that ends without reading freed memory finds a value or not. *)
Inductive found : Type :=
  | Found (e : entry)
  | NotFound
  | UseAfterFree.

(** A class's table: not made, made, or destroyed without being forgotten, which
    is what the destructors of the instances do. *)
Inductive notify : Type := no_table | table_of (t : list entry) | destroyed.

(** [None]: the table is destroyed twice. *)
Definition destroy_table (t : notify) : option notify :=
  match t with no_table => Some no_table | table_of _ => Some destroyed | destroyed => None end.

(** [getNotifyHash], which makes the table. *)
Definition made (t : notify) : notify := match t with no_table => table_of [] | _ => t end.

Section table.
(** [g_str_hash], which the table keeps for each entry. *)
Variable str_hash : string → Z.

(** The keys with the hash of the name are compared with it, through their pointers. *)
Fixpoint g_hash_table_lookup (t : list entry) (name : string) : found :=
  match t with
  | [] => NotFound
  | e :: t' =>
      if str_hash (key e) =? str_hash name then
        if key_live e then if streq (key e) name then Found e else g_hash_table_lookup t' name
        else UseAfterFree
      else g_hash_table_lookup t' name
  end.

Definition replace_value (t : list entry) (name : string) (v : Z) : list entry :=
  map (λ e, if streq (key e) name then mkEntry (key e) (key_live e) v true else e) t.

(** A key that the table has is kept, and its value replaced. [None]: freed
    memory was read. *)
Definition g_hash_table_insert (t : list entry) (name : string) (v : Z) : option (list entry) :=
  match g_hash_table_lookup t name with
  | Found _ => Some (replace_value t name v)
  | NotFound => Some (mkEntry name true v true :: t)
  | UseAfterFree => None
  end.

(** [free] of the value, and of the key when it was the one inserted. *)
Definition free_inserted (t t' : list entry) (name : string) : list entry :=
  match g_hash_table_lookup t name with
  | Found _ => map (λ e, if streq (key e) name then mkEntry (key e) (key_live e) (value e) false else e) t'
  | _ => match t' with e :: r => mkEntry (key e) false (value e) false :: r | [] => [] end
  end.

(** The body of [handleSetAttributesMsg] with the two [free]s after the
    insertion, which the handlers of DeviceInfo, IP, Ethernet, InterfaceStack
    and Time have ([freeing]); those of MoCA and DHCPv4 do not. *)
Definition set_attribute (freeing : bool) (t : list entry) (name : string) : option (list entry) :=
  t' ← g_hash_table_insert t name 1;
  Some (if freeing then free_inserted t t' name else t').

(** The body of [handleGetAttributesMsg]: the value is read through the pointer
    that the lookup gives, which is NULL when there is no entry. *)
Definition get_attribute (t : list entry) (name : string) : option Z :=
  match g_hash_table_lookup t name with
  | Found e => if value_live e then Some (value e) else None
  | NotFound | UseAfterFree => None
  end.

Definition set_attributes (freeing : bool) (t : list entry) (names : list string) : option (list entry) :=
  foldl (λ acc n, t ← acc; set_attribute freeing t n) (Some t) names.

(** Every key in the table has been freed. *)
Definition dangling (t : list entry) : Prop := Forall (λ e, key_live e = false) t.

Lemma lookup_dangling t n e : dangling t → g_hash_table_lookup t n ≠ Found e.
Proof. induction 1 as [|e' t He Ht IH]; [done|]. simpl. rewrite He. by case_match. Qed.

Lemma set_attribute_dangling t n t' :
  dangling t → set_attribute true t n = Some t' → dangling t' ∧ key <$> t' = n :: (key <$> t).
Proof.
  intros Hd. unfold set_attribute, g_hash_table_insert, free_inserted.
  destruct (g_hash_table_lookup t n) as [e| |] eqn:Hl; [by apply lookup_dangling in Hl| |done].
  cbn [mbind option_bind]. intros [= <-]. split; [by constructor|done].
Qed.

Lemma lookup_live t n :
  Forall (λ e, key_live e = true) t → g_hash_table_lookup t n ≠ UseAfterFree.
Proof. induction 1 as [|e t He Ht IH]; [done|]. simpl. rewrite He. by repeat case_match. Qed.

Lemma lookup_replace t n v k :
  Forall (λ e, key_live e = true) t → (∃ e, g_hash_table_lookup t n = Found e) →
  match g_hash_table_lookup (replace_value t n v) k with
  | Found e => if streq n k then value e = v ∧ value_live e = true else g_hash_table_lookup t k = Found e
  | NotFound => g_hash_table_lookup t k = NotFound
  | UseAfterFree => False
  end.
Proof.
  intros Hl _. induction Hl as [|e t He Ht IH]; simpl; [done|].
  assert (key (if streq (key e) n then mkEntry (key e) (key_live e) v true else e) = key e
          ∧ key_live (if streq (key e) n then mkEntry (key e) (key_live e) v true else e) = true) as [-> ->]
    by (destruct (streq (key e) n); simpl; by rewrite He).
  rewrite He. destruct (str_hash (key e) =? str_hash k); [|done].
  destruct (streq (key e) k) eqn:Ek; [|done]. apply streq_true in Ek as <-.
  destruct (streq (key e) n) eqn:En.
  - apply streq_true in En as <-. by rewrite streq_refl.
  - destruct (streq n (key e)) eqn:E; [|done]. apply streq_true in E as ->. by rewrite streq_refl in En.
Qed.

(** C11. As the handlers of DeviceInfo, IP and Ethernet keep notification
    attributes, none that was set can be read back: after any sequence of sets
    that has a result, a get has none (it reads freed memory or through NULL),
    whatever the parameter, and setting a parameter a second time reads freed
    memory. (InterfaceStack and Time free the same way, but the former never
    reaches its table, see stack_never_notified, and the latter's get repeats
    the set, see time_attributes_set_by_get.) *)
Theorem freed_attributes names t n :
  set_attributes true [] names = Some t →
  get_attribute t n = None ∧ (n ∈ names → set_attribute true t n = None).
Proof.
  intros Hs.
  assert (dangling t ∧ ∀ k, k ∈ names → k ∈ key <$> t) as [Hd Hin].
  { revert t Hs. induction names as [|k names IH] using rev_ind; intros t Hs.
    { injection Hs as <-. split; [by constructor|]. by intros ? ?%not_elem_of_nil. }
    unfold set_attributes in Hs. rewrite foldl_app in Hs. simpl in Hs.
    apply bind_Some in Hs as (t0 & H0 & Hs). destruct (IH _ H0) as [Hd0 Hin0].
    destruct (set_attribute_dangling t0 k t Hd0 Hs) as [Hd Hk]. split; [done|].
    intros k' [Hk'| ->%list_elem_of_singleton]%elem_of_app; rewrite Hk; [right; by apply Hin0|left]. }
  assert (∀ e, g_hash_table_lookup t n ≠ Found e) as Hno by (intros e; by apply lookup_dangling).
  split.
  - unfold get_attribute. destruct (g_hash_table_lookup t n); [by destruct (Hno e)|done|done].
  - intros Hn%Hin. apply list_elem_of_fmap in Hn as (e & -> & He).
    unfold set_attribute, g_hash_table_insert.
    assert (g_hash_table_lookup t (key e) = UseAfterFree) as ->; [|done].
    clear -Hd He. induction Hd as [|e' t He' Ht IH]; [by apply not_elem_of_nil in He|].
    simpl. rewrite He'. destruct (str_hash (key e') =? str_hash (key e)) eqn:E; [done|].
    apply elem_of_cons in He as [->|He]; [by rewrite Z.eqb_refl in E|by apply IH].
Qed.

(** Without the [free]s, as in the handlers of MoCA and DHCPv4, the same calls
    always succeed, and a parameter that was set reads 1; the others still read
    through NULL. *)
Theorem kept_attributes names n :
  ∃ t, set_attributes false [] names = Some t
       ∧ get_attribute t n = if decide (n ∈ names) then Some 1 else None.
Proof.
  assert (∃ t, set_attributes false [] names = Some t ∧ Forall (λ e, key_live e = true) t
    ∧ ∀ k, match g_hash_table_lookup t k with
           | Found e => k ∈ names ∧ value e = 1 ∧ value_live e = true
           | NotFound => k ∉ names
           | UseAfterFree => False
           end) as (t & Hs & _ & Ht).
  { induction names as [|k names IH] using rev_ind.
    { exists []. split; [done|]. split; [done|]. intros k. apply not_elem_of_nil. }
    destruct IH as (t & Hs & Hl & Ht). unfold set_attributes. rewrite foldl_app.
    unfold set_attributes in Hs. simpl. rewrite Hs. cbn [mbind option_bind].
    unfold set_attribute, g_hash_table_insert. pose proof (Ht k) as Hk.
    destruct (g_hash_table_lookup t k) as [e| |] eqn:Hlk; [|..|done]; cbn [mbind option_bind].
    - eexists. split; [done|]. split.
      { apply Forall_map. eapply Forall_impl; [exact Hl|]. intros e' He'. simpl. by destruct (streq _ _). }
      intros k'. pose proof (lookup_replace t k 1 k' Hl ltac:(eauto)) as Hr. pose proof (Ht k') as Hk'.
      assert (k' ∈ names ++ [k] ↔ k' ∈ names ∨ k' = k) as Hin
        by (by rewrite elem_of_app, list_elem_of_singleton).
      destruct (g_hash_table_lookup (replace_value t k 1) k') as [e'| |]; [|..|done].
      + destruct (streq k k') eqn:E; [apply streq_true in E as ->; naive_solver|].
        rewrite Hr in Hk'. naive_solver.
      + rewrite Hr in Hk'. rewrite Hin. intros [?| ->]; [done|]. by rewrite Hlk in Hr.
    - eexists. split; [done|]. split; [by constructor|]. intros k'. simpl. pose proof (Ht k') as Hk'.
      assert (k' ∈ names ++ [k] ↔ k' ∈ names ∨ k' = k) as Hin
        by (by rewrite elem_of_app, list_elem_of_singleton).
      destruct (str_hash k =? str_hash k') eqn:Eh; [destruct (streq k k') eqn:E|].
      + apply streq_true in E as ->. naive_solver.
      + apply streq_false in E. destruct (g_hash_table_lookup t k'); naive_solver.
      + assert (k' ≠ k) by (intros ->; by rewrite Z.eqb_refl in Eh).
        destruct (g_hash_table_lookup t k'); naive_solver. }
  exists t. split; [done|]. unfold get_attribute. specialize (Ht n).
  destruct (g_hash_table_lookup t n) as [e| |]; [|..|done].
  - destruct Ht as (? & -> & ->). by rewrite decide_True.
  - by rewrite decide_False.
Qed.

End table.

Lemma freed_attributes_witness :
  get_attribute (λ _, 0) [mkEntry "Device.A" false 1 false] "Device.A" = None.
Proof.
  apply (freed_attributes (λ _, 0) ["Device.A"%string] [mkEntry "Device.A" false 1 false] "Device.A").
  reflexivity.
Defined.

End NotifyHash.

Module Updates.

(** The events handed to the callback. *)
Inductive event : Type :=
  | EVENT_ADD (paramName : string)
  | EVENT_REMOVE (paramName : string).

(** The two loops; [curNum] is the count of the last round.  [tmpNoDev] moves
    towards it. *)
Fixpoint removals (fuel : nat) (tmp_buff : string) (curNum tmpNoDev : Z) : list event * Z :=
  match fuel with
  | O => ([], tmpNoDev)
  | S fuel' =>
      if tmpNoDev <? curNum then
        let '(evs, n) := removals fuel' tmp_buff curNum (tmpNoDev + 1) in
        (EVENT_REMOVE (tmp_buff +:+ String DOT (dec tmpNoDev +:+ String DOT EmptyString)) :: evs, n)
      else ([], tmpNoDev)
  end.

Fixpoint additions (fuel : nat) (tmp_buff : string) (curNum tmpNoDev : Z) : list event * Z :=
  match fuel with
  | O => ([], tmpNoDev)
  | S fuel' =>
      if curNum <? tmpNoDev then
        let '(evs, n) := additions fuel' tmp_buff curNum (tmpNoDev - 1) in
        (EVENT_ADD (tmp_buff +:+ String DOT EmptyString) :: evs, n)
      else ([], tmpNoDev)
  end.

(** As many rounds as the counts differ by are enough for both. *)
Definition count_changes (tmp_buff : string) (curNum number : Z) : list event :=
  let fuel := Z.to_nat (Z.abs (curNum - number)) in
  let '(evs1, n1) := removals fuel tmp_buff curNum number in
  let '(evs2, _) := additions fuel tmp_buff curNum n1 in evs1 ++ evs2.

Definition removed (tmp_buff : string) (i : Z) : event :=
  EVENT_REMOVE (tmp_buff +:+ String DOT (dec i +:+ String DOT EmptyString)).

Lemma removals_run fuel b cur n :
  n <= cur → (Z.to_nat (cur - n) ≤ fuel)%nat →
  removals fuel b cur n = (map (λ i, removed b (n + Z.of_nat i)) (seq 0 (Z.to_nat (cur - n))), cur).
Proof.
  revert n. induction fuel as [|fuel IH]; intros n Hn Hf.
  { assert (cur = n) as -> by lia. by rewrite Z.sub_diag. }
  simpl. destruct (Z.ltb_spec n cur).
  - rewrite IH by lia. replace (Z.to_nat (cur - n)) with (S (Z.to_nat (cur - (n + 1)))) by lia.
    cbn [seq map]. rewrite Z.add_0_r. f_equal. f_equal. rewrite <- (seq_shift _ 0), map_map.
    apply map_ext. intros i. f_equal. lia.
  - assert (cur = n) as -> by lia. by rewrite Z.sub_diag.
Qed.

Lemma additions_run fuel b cur n :
  cur <= n → (Z.to_nat (n - cur) ≤ fuel)%nat →
  additions fuel b cur n = (replicate (Z.to_nat (n - cur)) (EVENT_ADD (b +:+ String DOT EmptyString)), cur).
Proof.
  revert n. induction fuel as [|fuel IH]; intros n Hn Hf.
  { assert (n = cur) as -> by lia. by rewrite Z.sub_diag. }
  simpl. destruct (Z.ltb_spec cur n).
  - rewrite IH by lia. by replace (Z.to_nat (n - cur)) with (S (Z.to_nat (n - 1 - cur))) by lia.
  - assert (n = cur) as -> by lia. by rewrite Z.sub_diag.
Qed.

Lemma additions_none fuel b cur n : n <= cur → additions fuel b cur n = ([], n).
Proof. intros Hn. destruct fuel; [done|]. simpl. by rewrite (proj2 (Z.ltb_ge _ _)) by lia. Qed.

Lemma removals_none fuel b cur n : cur <= n → removals fuel b cur n = ([], n).
Proof. intros Hn. destruct fuel; [done|]. simpl. by rewrite (proj2 (Z.ltb_ge _ _)) by lia. Qed.

(** The loops end, and report each change of the count once: one add event per
    new instance, without its number, or one remove event per instance that is
    gone.  The numbers of the remove events run from the new count to the old
    one less one, while the instances that are gone are numbered one higher. *)
Theorem count_changes_events b cur number :
  count_changes b cur number
  = if number <=? cur then map (λ i, removed b (number + Z.of_nat i)) (seq 0 (Z.to_nat (cur - number)))
    else replicate (Z.to_nat (number - cur)) (EVENT_ADD (b +:+ String DOT EmptyString)).
Proof.
  unfold count_changes. destruct (Z.leb_spec number cur).
  - rewrite removals_run, additions_none by lia. by rewrite app_nil_r.
  - rewrite removals_none, additions_run by lia. done.
Qed.

End Updates.
