(* ===== verification/InterfaceStack.v ===== *)
(** * The interface stack

    [InterfaceStack] models profiles/InterfaceStack/Device_InterfaceStack.cpp: the
    table that says which interface lies on which, built anew from the interfaces
    of Ethernet, MoCA and IP and from the bridges the kernel lists, at every
    question for its length.  [InterfaceStackClientReqHandler] models the manager
    in front of it, handlers/src/hostIf_InterfaceStackClient_ReqHandler.cpp.  The
    interfaces are what the other profiles answer about them. *)
From stdpp Require Import base list strings gmap.
From Stdlib Require Import Ascii ZArith Lia.
From S2P Require Import Prelude HostIf Webpa WebpaAdapter Utils Notify.
Import NotifyHash (entry, notify(..), destroy_table).

#[local] Arguments streq : simpl never.

Module InterfaceStack.

(** ** Layers *)
Record LayerInfo_t := mkLayer { higherLayer : string; lowerLayer : string }.

(** A multimap from the name of an interface: its elements in the order of
    iteration, which is that of the keys and, for one key, of the insertions. *)
Abbreviation InterfaceStackMap_t := (list (string * LayerInfo_t)).

Fixpoint mm_insert (kv : string * LayerInfo_t) (m : InterfaceStackMap_t) : InterfaceStackMap_t :=
  match m with
  | [] => [kv]
  | x :: m' => if String.ltb kv.1 x.1 then kv :: m else x :: mm_insert kv m'
  end.

(** [find], which gives the first element with the key, and an assignment to
    what it found; [None]: no element has the key. *)
Fixpoint mm_update (k : string) (f : LayerInfo_t → LayerInfo_t) (m : InterfaceStackMap_t)
  : option InterfaceStackMap_t :=
  match m with
  | [] => None
  | (k', v) :: m' => if streq k k' then Some ((k', f v) :: m') else m'' ← mm_update k f m'; Some ((k', v) :: m'')
  end.

Definition set_higher (h : string) (v : LayerInfo_t) : LayerInfo_t := mkLayer h (lowerLayer v).
Definition set_lower (l : string) (v : LayerInfo_t) : LayerInfo_t := mkLayer (higherLayer v) l.

(** The paths.  [None]: the number does not fit the buffer of [int_to_string]. *)
Definition DEVICE_ETHERNET_INTERFACE (PORT_NUM : Z) : option string :=
  s ← int_to_string PORT_NUM; Some ("Device.Ethernet.Interface." +:+ s).
Definition DEVICE_MOCA_INTERFACE (PORT_NUM : Z) : option string :=
  s ← int_to_string PORT_NUM; Some ("Device.MoCA.Interface." +:+ s).
Definition DEVICE_IP_INTERFACE (PORT_NUM : Z) : option string :=
  s ← int_to_string PORT_NUM; Some ("Device.IP.Interface." +:+ s).
Definition DEVICE_BRIDGING_BRIDGE (BRIDGE_NUM PORT_NUM : Z) : option string :=
  b ← int_to_string BRIDGE_NUM; p ← int_to_string PORT_NUM;
  Some ("Device.Bridging.Bridge." +:+ b +:+ ".PORT." +:+ p).

(** ** What is there to find *)

(** The interfaces of a kind, as its profile answers: how many there are, which
    of them exist, their names. *)
Record lower := mkLower { numberOfEntries : option Z; exists_ : Z → bool; name_of : Z → option string }.

(** A directory of /sys/class/net: its name, whether it holds bridge and brif,
    and the first word of each line that listing brif prints, when the command
    can be started. *)
Record netdir := mkDir { d_name : string; has_bridge : bool; has_brif : bool; brif : option (list string) }.

Record net := mkNet {
  ethernet : lower;
  moca : lower;
  ip_entries : option Z;
  (** The first line of ifindex for each name that ls prints; [None]: the
      command cannot be started. *)
  ifindex_lines : option (list (option string));
  ip_exists : Z → bool;
  ip_name : Z → option string;
  (** What scandir gives, sorted. *)
  scandir : option (list netdir)
}.

(** ** The bridge table *)

(** Addresses: a copy that [g_strdup] made, or the text of a local string. *)
Inductive pointer : Type := strdup (n : nat) | c_string_of_local.

#[export] Instance pointer_eq_dec : EqDecision pointer.
Proof. solve_decision. Defined.

Record row := mkRow { r_key : pointer; r_bridge : string; r_interfaces : string }.

Definition MAX_BUF_LEN : nat := 128.

(** The table is made without hash and comparison functions, so it compares
    addresses: every insertion adds a row. *)
Definition insertRowIntoBridgeTable (bridge interfaces : string) (t : list row) : list row :=
  t ++ [mkRow (strdup (length t)) bridge interfaces].

(** What fgets reads of the line that awk prints. *)
Definition csv (names : list string) : string :=
  str_take (MAX_BUF_LEN - 1) (foldr (λ n s, n +:+ "," +:+ s) EmptyString names).

(** The first two entries are taken for the directory and its parent.  [None]:
    there is no table, which a row would have made. *)
Definition populateBridgeTable (n : net) : option (list row) :=
  dirs ← scandir n;
  let t := foldl (λ t d,
             if has_bridge d && has_brif d then
               match brif d with Some l => insertRowIntoBridgeTable (d_name d) (csv l) t | None => t end
             else t) [] (drop 2 dirs) in
  if decide (t = []) then None else Some t.

Definition g_hash_table_lookup_extended (t : list row) (p : pointer) : bool :=
  existsb (λ r, bool_decide (r_key r = p)) t.

(** The order in which the table is iterated. *)
Class RowOrder := { row_order : list row → list row; row_order_perm : ∀ t, row_order t ≡ₚ t }.

(** ** Building the map *)

(** The loop over the interfaces of a kind.  [Some None]: an interface is not
    there. *)
Fixpoint lowers_loop (path : Z → option string) (k : lower) (indices : list Z) (layerInfo : InterfaceStackMap_t)
  : option (option InterfaceStackMap_t) :=
  match indices with
  | [] => Some (Some layerInfo)
  | index :: indices' =>
      if exists_ k index then
        match name_of k index with
        | Some ifname =>
            if is_empty ifname then lowers_loop path k indices' layerInfo
            else p ← path index; lowers_loop path k indices' (mm_insert (ifname, mkLayer EmptyString p) layerInfo)
        | None => lowers_loop path k indices' layerInfo
        end
      else Some None
  end.

Definition one_to (n : Z) : list Z := Z.of_nat <$> seq 1 (Z.to_nat n).

(** A count that is not answered is zero. *)
Definition buildLowerLayerInfo (path : Z → option string) (k : lower) (layerInfo : InterfaceStackMap_t)
  : option (option InterfaceStackMap_t) :=
  lowers_loop path k (one_to (default 0 (numberOfEntries k))) layerInfo.

Definition getBridgeElements (elementsCSV : string) : list string :=
  WebpaNotification.tokens COMMA elementsCSV EmptyString.

Definition addBridgeNameLayerInfo (layerInfo : InterfaceStackMap_t) (ifname bridgeLowerLayer : string)
  : InterfaceStackMap_t :=
  match mm_update ifname (set_lower bridgeLowerLayer) layerInfo with
  | Some m => m
  | None => mm_insert (ifname, mkLayer EmptyString bridgeLowerLayer) layerInfo
  end.

(** The name of an interface that is not in the map is looked for among the
    bridges, by the address of a local string. *)
Definition addBridgeChildLayerInfo (t : list row) (layerInfo : InterfaceStackMap_t) (ifname bridgeHigherLayer : string)
  : bool * InterfaceStackMap_t :=
  match mm_update ifname (set_higher bridgeHigherLayer) layerInfo with
  | Some m => (true, m)
  | None =>
      if g_hash_table_lookup_extended t c_string_of_local
      then (true, mm_insert (ifname, mkLayer bridgeHigherLayer EmptyString) layerInfo)
      else (false, layerInfo)
  end.

Definition addBridgeUnmanagedLayerInfo (layerInfo : InterfaceStackMap_t) (ifname bridgeHigherLayer bridgeLowerLayer : string)
  : InterfaceStackMap_t := mm_insert (ifname, mkLayer bridgeHigherLayer bridgeLowerLayer) layerInfo.

(** The loop over the elements of one bridge. *)
Fixpoint elements_loop (t : list row) (bridgeNum : Z) (bridgeName bridgeNameLayer : string) (portNum : Z)
    (els : list string) (layerInfo : InterfaceStackMap_t) : option InterfaceStackMap_t :=
  match els with
  | [] => Some layerInfo
  | ifname :: els' =>
      bridgeElementLayer ← DEVICE_BRIDGING_BRIDGE bridgeNum portNum;
      let '(added, m) := addBridgeChildLayerInfo t layerInfo ifname bridgeElementLayer in
      let m' := if added
                then addBridgeUnmanagedLayerInfo m (bridgeName +:+ "-child") bridgeNameLayer bridgeElementLayer
                else m in
      elements_loop t bridgeNum bridgeName bridgeNameLayer (portNum + 1) els' m'
  end.

(** The loop over the bridges; their number stays the same. *)
Fixpoint bridges_loop (t : list row) (bridgeNum : Z) (rows : list row) (layerInfo : InterfaceStackMap_t)
  : option InterfaceStackMap_t :=
  match rows with
  | [] => Some layerInfo
  | r :: rows' =>
      bridgeNameLayer ← DEVICE_BRIDGING_BRIDGE bridgeNum 1;
      m ← elements_loop t bridgeNum (r_bridge r) bridgeNameLayer 2 (getBridgeElements (r_interfaces r))
            (addBridgeNameLayerInfo layerInfo (r_bridge r) bridgeNameLayer);
      bridges_loop t bridgeNum rows' m
  end.

Definition buildBridgeTableLayerInfo `{RowOrder} (table : option (list row)) (layerInfo : InterfaceStackMap_t)
  : option InterfaceStackMap_t :=
  match table with Some t => bridges_loop t 1 (row_order t) layerInfo | None => Some layerInfo end.

Abbreviation IPInterfacesMap_t := (gmap string Z).

Definition MAX_IFCS : nat := 256.

(** The array that is filled; [None]: a number is written past its end. *)
Definition getIPInterfaceIDs (n : net) : option (list Z) :=
  match ifindex_lines n with
  | None => Some []
  | Some lines =>
      let ids := (λ l, string_to_int (str_take 63 l)) <$> omap id lines in
      if (length ids <=? MAX_IFCS)%nat then Some ids else None
  end.

(** [insert] keeps the value of a key that is there.  [None]: a place of the
    array that was not filled is read; [Some None]: an interface is not there. *)
Fixpoint ip_loop (n : net) (ifindexes : list Z) (todo ipIndex : nat) (interfaceList : IPInterfacesMap_t)
  : option (option IPInterfacesMap_t) :=
  match todo with
  | O => Some (Some interfaceList)
  | S todo' =>
      ifindex ← ifindexes !! ipIndex;
      if ip_exists n ifindex then
        ip_loop n ifindexes todo' (S ipIndex)
          (match ip_name n ifindex with
           | Some ipIfName =>
               match interfaceList !! ipIfName with
               | Some _ => interfaceList
               | None => <[ipIfName := Z.of_nat ipIndex]> interfaceList
               end
           | None => interfaceList
           end)
      else Some None
  end.

Definition getIPInterfaces (n : net) : option (option IPInterfacesMap_t) :=
  match ip_entries n with
  | None => Some None
  | Some ipNumOfEntries =>
      ifindexes ← getIPInterfaceIDs n;
      ip_loop n ifindexes (Nat.min (Z.to_nat ipNumOfEntries) MAX_IFCS) 0 ∅
  end.

Definition fill_one (ips : IPInterfacesMap_t) (x : string * LayerInfo_t) : option (string * LayerInfo_t) :=
  if is_empty (higherLayer x.2) then
    match ips !! x.1 with
    | Some portNum => h ← DEVICE_IP_INTERFACE portNum; Some (x.1, set_higher h x.2)
    | None => Some x
    end
  else Some x.

Definition fillHigherLayersWithIP (layerInfo : InterfaceStackMap_t) (ips : IPInterfacesMap_t)
  : option InterfaceStackMap_t := mapM (fill_one ips) layerInfo.

(** The steps up to the filled map, in their order; MoCA may not be built in. *)
Definition build `{RowOrder} (USE_MoCA_PROFILE : bool) (n : net) (table : option (list row))
  : option (option InterfaceStackMap_t) :=
  ips ← getIPInterfaces n;
  match ips with
  | None => Some None
  | Some ips =>
      m1 ← buildLowerLayerInfo DEVICE_ETHERNET_INTERFACE (ethernet n) [];
      match m1 with
      | None => Some None
      | Some m1 =>
          m2 ← (if USE_MoCA_PROFILE then buildLowerLayerInfo DEVICE_MOCA_INTERFACE (moca n) m1 else Some (Some m1));
          match m2 with
          | None => Some None
          | Some m2 =>
              m3 ← buildBridgeTableLayerInfo table m2;
              m4 ← fillHigherLayersWithIP m3 ips;
              Some (Some m4)
          end
      end
  end.

(** ** The instances *)
Record instance := mkInstance {
  i_higherLayer : string;
  i_lowerLayer : string;
  bCalledHigherLayer : bool;
  bCalledLowerLayer : bool;
  backupHigherLayer : string;
  backupLowerLayer : string
}.

Definition MAX_HIGHERLAYER_LEN : nat := 256.

Definition new (higher lower : string) : instance :=
  mkInstance (str_take (MAX_HIGHERLAYER_LEN - 1) higher) (str_take (MAX_HIGHERLAYER_LEN - 1) lower)
    false false EmptyString EmptyString.

Record state := mkState {
  stIshash : option (gmap Z instance);
  stBridgeTableHash : option (list row);
  m_notifyHash : notify
}.

Definition getInstance (dev_id : Z) (s : state) : option instance :=
  m ← stIshash s; m !! dev_id.

Definition createInstance (dev_id : Z) (higher lower : string) (s : state) : state :=
  mkState (Some (<[dev_id := new higher lower]> (default ∅ (stIshash s)))) (stBridgeTableHash s) (m_notifyHash s).

Definition getNotifyHash (s : state) : notify * state :=
  let t := NotifyHash.made (m_notifyHash s) in (t, mkState (stIshash s) (stBridgeTableHash s) t).

Definition closeAllInstances (s : state) : option state :=
  match stIshash s with
  | None => Some s
  | Some m =>
      t ← Nat.iter (size m) (λ t, t ≫= destroy_table) (Some (m_notifyHash s));
      Some (mkState (Some ∅) (stBridgeTableHash s) t)
  end.

(** A text given as the format; [None]: it asks for an argument. *)
Definition snprintf_format (size : nat) (format : string) : option string :=
  if has_char "%" format then None else Some (str_take (size - 1) format).

Fixpoint create_loop (i : Z) (rows : InterfaceStackMap_t) (s : state) : option state :=
  match rows with
  | [] => Some s
  | x :: rows' =>
      h ← snprintf_format MAX_HIGHERLAYER_LEN (higherLayer x.2);
      l ← snprintf_format MAX_HIGHERLAYER_LEN (lowerLayer x.2);
      create_loop (i + 1) rows' (createInstance i h l s)
  end.

(** [None]: undefined behaviour. *)
Definition get_Device_InterfaceStackNumberOfEntries `{RowOrder} (USE_MoCA_PROFILE : bool) (n : net)
    (m : HOSTIF_MsgData_t) (s : state) : option (Z * HOSTIF_MsgData_t * state) :=
  s1 ← closeAllInstances s;
  let table := populateBridgeTable n in
  let s2 := mkState (stIshash s1) table (m_notifyHash s1) in
  info ← build USE_MoCA_PROFILE n table;
  let rows := default [] info in
  s3 ← create_loop 1 rows s2;
  let count := Z.of_nat (length rows) in
  if 0 <? count
  then Some (OK, set_value (set_len (set_paramtype m hostIf_IntegerType) 4) (put_int (paramValue m) count), s3)
  else Some (NOK, m, s3).

(** The answer, whether the value differs from the last one asked for, and the
    instance with that value remembered. *)
Definition get_Device_InterfaceStack_HigherLayer (m : HOSTIF_MsgData_t) (x : instance)
  : HOSTIF_MsgData_t * bool * instance :=
  (set_len (set_paramtype (set_value m (Webpa.fill (i_higherLayer x))) hostIf_StringType)
           (Z.of_nat (String.length (i_higherLayer x))),
   bCalledHigherLayer x && negb (streq (backupHigherLayer x) (i_higherLayer x)),
   mkInstance (i_higherLayer x) (i_lowerLayer x) true (bCalledLowerLayer x) (i_higherLayer x) (backupLowerLayer x)).

Definition get_Device_InterfaceStack_LowerLayer (m : HOSTIF_MsgData_t) (x : instance)
  : HOSTIF_MsgData_t * bool * instance :=
  (set_len (set_paramtype (set_value m (Webpa.fill (i_lowerLayer x))) hostIf_StringType)
           (Z.of_nat (String.length (i_lowerLayer x))),
   bCalledLowerLayer x && negb (streq (backupLowerLayer x) (i_lowerLayer x)),
   mkInstance (i_higherLayer x) (i_lowerLayer x) (bCalledHigherLayer x) true (backupHigherLayer x) (i_lowerLayer x)).

(** ** What the map holds *)

(** A port of a bridge, and the elements of a bridge with theirs: the bridge has
    port 1. *)
Definition port (k : Z) : string := "Device.Bridging.Bridge.1.PORT." +:+ dec k.

Fixpoint ports_from (k : Z) (els : list string) : list (string * string) :=
  match els with [] => [] | e :: els' => (e, port k) :: ports_from (k + 1) els' end.

(** The rows of the interfaces of Ethernet and MoCA, given the ports they are
    on, and of a bridge: its own, and one for each element that is known. *)
Definition lower_rows (ports : gmap string string) (l : list (string * string)) : InterfaceStackMap_t :=
  (λ x, (x.1, mkLayer (default EmptyString (ports !! x.1)) x.2)) <$> l.

Definition child_rows (known : list string) (b : string) (ports : list (string * string)) : InterfaceStackMap_t :=
  (λ x, (b +:+ "-child", mkLayer (port 1) x.2)) <$> filter (λ x, x.1 ∈ known) ports.

Definition row_ports (r : row) : list (string * string) := ports_from 2 (getBridgeElements (r_interfaces r)).

Definition bridge_rows (known : list string) (r : row) : InterfaceStackMap_t :=
  (r_bridge r, mkLayer EmptyString (port 1)) :: child_rows known (r_bridge r) (row_ports r).

Definition fill_row (ips : IPInterfacesMap_t) (x : string * LayerInfo_t) : string * LayerInfo_t :=
  if is_empty (higherLayer x.2) then
    match ips !! x.1 with
    | Some k => (x.1, set_higher ("Device.IP.Interface." +:+ dec k) x.2)
    | None => x
    end
  else x.

(** The interfaces of a kind that have a name, with their paths. *)
Definition named (prefix : string) (k : lower) : list (string * string) :=
  omap (λ i, match name_of k i with
             | Some n => if is_empty n then None else Some (n, prefix +:+ dec i)
             | None => None
             end) (one_to (default 0 (numberOfEntries k))).

Definition lowers (USE_MoCA_PROFILE : bool) (n : net) : list (string * string) :=
  (if USE_MoCA_PROFILE then named "Device.MoCA.Interface." (moca n) else [])
  ++ named "Device.Ethernet.Interface." (ethernet n).

Definition stack_rows (low : list (string * string)) (rows : list row) (ips : IPInterfacesMap_t)
  : InterfaceStackMap_t :=
  fill_row ips <$> lower_rows (insert_all (rows ≫= row_ports) ∅) low ++ (rows ≫= bridge_rows low.*1).

(** ** Lemmas on the multimap *)
Lemma mm_insert_perm kv m : mm_insert kv m ≡ₚ kv :: m.
Proof. induction m as [|x m IH]; simpl; [done|]. case_bool; [done|]. rewrite IH. constructor. Qed.

Lemma mm_update_None k f m : k ∉ m.*1 → mm_update k f m = None.
Proof.
  induction m as [|[k' v] m IH]; simpl; [done|]. intros [Hk Hm]%not_elem_of_cons.
  rewrite (proj2 (streq_false _ _)) by done. by rewrite IH.
Qed.

Lemma mm_update_perm k f m v r :
  m ≡ₚ (k, v) :: r → k ∉ r.*1 → ∃ m', mm_update k f m = Some m' ∧ m' ≡ₚ (k, f v) :: r.
Proof.
  revert r. induction m as [|[k' v'] m IH]; intros r Hm Hr; [by apply Permutation_nil_cons in Hm|].
  cbn [mm_update]. destruct (streq k k') eqn:E.
  - apply streq_true in E as ->.
    assert ((k', v') ∈ (k', v) :: r) as [[= ->]|Hin]%elem_of_cons by (rewrite <- Hm; left).
    + eexists. split; [done|]. f_equiv. by apply Permutation_cons_inv in Hm.
    + exfalso. apply Hr. apply list_elem_of_fmap. by exists (k', v').
  - apply streq_false in E.
    assert ((k', v') ∈ (k, v) :: r) as [[= -> ->]|Hin]%elem_of_cons by (rewrite <- Hm; left); [done|].
    apply elem_of_Permutation in Hin as [r' Hr'].
    rewrite Hr', Permutation_swap in Hm. apply Permutation_cons_inv in Hm.
    destruct (IH r' Hm) as (m' & -> & Hm').
    { intros Hin. apply Hr. rewrite Hr'. by right. }
    eexists. split; [done|]. rewrite Hm', Hr'. constructor.
Qed.

Lemma lower_rows_keys P l : (lower_rows P l).*1 = l.*1.
Proof. unfold lower_rows. rewrite <- list_fmap_compose. by apply list_fmap_ext. Qed.

Lemma lower_rows_foreign P e x l : e ∉ l.*1 → lower_rows (<[e:=x]> P) l = lower_rows P l.
Proof.
  intros He. apply list_fmap_ext. intros i y Hy. rewrite lookup_insert_ne; [done|].
  intros ->. apply He. apply list_elem_of_fmap. exists y. split; [done|]. by eapply list_elem_of_lookup_2.
Qed.

(** Putting an interface on a port. *)
Lemma lower_rows_update P e x l rest m :
  NoDup l.*1 → e ∈ l.*1 → e ∉ rest.*1 → m ≡ₚ lower_rows P l ++ rest →
  ∃ m', mm_update e (set_higher x) m = Some m' ∧ m' ≡ₚ lower_rows (<[e:=x]> P) l ++ rest.
Proof.
  intros Hnd He Hrest Hm. apply list_elem_of_fmap in He as ([e' p] & He & Hin). simpl in He. subst e'.
  apply elem_of_Permutation in Hin as [l' Hl]. rewrite Hl in Hnd. inversion Hnd as [|? ? Hnot Hnd']. subst.
  assert (∀ Q, lower_rows Q l ≡ₚ (e, mkLayer (default EmptyString (Q !! e)) p) :: lower_rows Q l') as Hrows.
  { intros Q. unfold lower_rows. by rewrite Hl. }
  rewrite Hrows, <- app_comm_cons in Hm. destruct (mm_update_perm e (set_higher x) m _ _ Hm) as (m' & Hu & Hm').
  { rewrite fmap_app, lower_rows_keys. by rewrite not_elem_of_app. }
  exists m'. split; [done|]. rewrite Hm', Hrows, lookup_insert_eq, lower_rows_foreign by done. done.
Qed.

Lemma path_some k : 0 <= k < 10 ^ 9 → DEVICE_BRIDGING_BRIDGE 1 k = Some (port k).
Proof.
  intros Hk. unfold DEVICE_BRIDGING_BRIDGE. rewrite !int_to_string_fits by lia.
  rewrite !decide_True by lia. done.
Qed.

(** ** The loops *)
Definition strdup_keys (t : list row) : Prop := Forall (λ r, r_key r ≠ c_string_of_local) t.

(** No bridge is found by the address of a local string. *)
Lemma lookup_no_local t : strdup_keys t → g_hash_table_lookup_extended t c_string_of_local = false.
Proof.
  induction 1 as [|r t Hr Ht IH]; [done|]. cbn [g_hash_table_lookup_extended existsb].
  by rewrite bool_decide_eq_false_2.
Qed.

Lemma lower_rows_foreign_all e x l Q low : e ∉ low.*1 →
  lower_rows (insert_all l (<[e:=x]> Q)) low = lower_rows (insert_all l Q) low.
Proof.
  intros He. revert Q. induction l as [|[e0 y] l IH]; intros Q; [by apply lower_rows_foreign|].
  unfold insert_all in *. cbn [foldl fst snd].
  destruct (decide (e0 = e)) as [->|Hne]; [by rewrite insert_insert_eq|].
  rewrite insert_insert_ne by done. apply IH.
Qed.

Lemma elements_loop_run t b low k els P rest m :
  strdup_keys t → NoDup low.*1 → 0 <= k → k + Z.of_nat (length els) < 10 ^ 9 →
  (∀ e, e ∈ els → e ≠ b +:+ "-child" ∧ e ∉ rest.*1) → m ≡ₚ lower_rows P low ++ rest →
  ∃ m', elements_loop t 1 b (port 1) k els m = Some m'
    ∧ m' ≡ₚ lower_rows (insert_all (ports_from k els) P) low ++ child_rows low.*1 b (ports_from k els) ++ rest.
Proof.
  intros Ht Hnd. revert k P rest m. induction els as [|e els IH]; intros k P rest m Hk Hlen Hels Hm; [eauto|].
  cbn [length] in Hlen. cbn [elements_loop]. rewrite path_some by lia. cbn [mbind option_bind].
  destruct (Hels e ltac:(left)) as [Hec Hrest]. unfold addBridgeChildLayerInfo.
  assert (∀ e0, e0 ∈ els → e0 ≠ b +:+ "-child" ∧ e0 ∉ rest.*1) as Hels' by (intros e0 ?; apply Hels; by right).
  unfold child_rows. cbn [ports_from]. rewrite filter_cons. cbn [fst].
  change (insert_all ((e, port k) :: ports_from (k + 1) els) P) with (insert_all (ports_from (k + 1) els) (<[e:=port k]> P)).
  destruct (decide (e ∈ low.*1)) as [He|He].
  - destruct (lower_rows_update P e (port k) low rest m) as (m1 & -> & Hm1); [done..|].
    destruct (IH (k + 1) (<[e:=port k]> P) ((b +:+ "-child", mkLayer (port 1) (port k)) :: rest)
      (mm_insert (b +:+ "-child", mkLayer (port 1) (port k)) m1)) as (m' & Hm' & Hp); [lia|lia| | |].
    + intros e0 He0. destruct (Hels' e0 He0). split; [done|]. by apply not_elem_of_cons.
    + by rewrite mm_insert_perm, Hm1, Permutation_middle.
    + exists m'. split; [exact Hm'|]. rewrite Hp. by rewrite fmap_cons, <- app_comm_cons, Permutation_middle.
  - rewrite mm_update_None.
    2: { rewrite Hm, fmap_app, lower_rows_keys. by rewrite not_elem_of_app. }
    rewrite lookup_no_local by done.
    destruct (IH (k + 1) P rest m) as (m' & Hm' & Hp); [lia|lia|done|done|].
    exists m'. split; [exact Hm'|]. by rewrite Hp, lower_rows_foreign_all.
Qed.

(** What a map needs: the bridges have names of their own, their elements are
    none of them, and there are not too many for a port's number. *)
Record bridges_fit (low : list string) (rows : list row) : Prop := {
  fit_names : NoDup (r_bridge <$> rows);
  fit_low : ∀ r, r ∈ rows → r_bridge r ∉ low;
  fit_child : ∀ r r', r ∈ rows → r' ∈ rows → r_bridge r ≠ r_bridge r' +:+ "-child";
  fit_element : ∀ r r' e, r ∈ rows → r' ∈ rows → e ∈ getBridgeElements (r_interfaces r) →
    e ≠ r_bridge r' ∧ e ≠ r_bridge r' +:+ "-child";
  fit_length : ∀ r, r ∈ rows → Z.of_nat (length (getBridgeElements (r_interfaces r))) < 10 ^ 8
}.

Lemma bridges_fit_cons low r rows : bridges_fit low (r :: rows) → bridges_fit low rows.
Proof.
  intros [H1 H2 H3 H4 H5]. apply NoDup_cons in H1 as [_ H1].
  split; [done|..].
  - intros r0 Hr0. apply (H2 r0). by right.
  - intros r0 r1 ??. apply (H3 r0 r1); by right.
  - intros r0 r1 e ???. apply (H4 r0 r1 e); [by right|by right|done].
  - intros r0 ?. apply (H5 r0). by right.
Qed.

Lemma bridge_rows_keys low r k : k ∈ (bridge_rows low r).*1 → k = r_bridge r ∨ k = r_bridge r +:+ "-child".
Proof.
  unfold bridge_rows, child_rows. rewrite fmap_cons, elem_of_cons, <- list_fmap_compose.
  intros [->|(x & -> & _)%list_elem_of_fmap]; [by left|by right].
Qed.

Lemma bridges_loop_run t low rows P rest m :
  strdup_keys t → NoDup low.*1 → bridges_fit low.*1 rows →
  (∀ k r, k ∈ rest.*1 → r ∈ rows → k ≠ r_bridge r ∧ k ∉ getBridgeElements (r_interfaces r)) →
  m ≡ₚ lower_rows P low ++ rest →
  ∃ m', bridges_loop t 1 rows m = Some m'
    ∧ m' ≡ₚ lower_rows (insert_all (rows ≫= row_ports) P) low ++ (rows ≫= bridge_rows low.*1) ++ rest.
Proof.
  intros Ht Hnd. revert P rest m. induction rows as [|r rows IH]; intros P rest m Hfit Hrest Hm; [by exists m|].
  cbn [bridges_loop]. rewrite path_some by lia. cbn [mbind option_bind].
  assert (r ∈ r :: rows) as Hr by left.
  unfold addBridgeNameLayerInfo. rewrite mm_update_None.
  2: { rewrite Hm, fmap_app, lower_rows_keys, not_elem_of_app. split; [by eapply fit_low|].
       intros Hin. by destruct (Hrest _ r Hin Hr). }
  destruct (elements_loop_run t (r_bridge r) low 2 (getBridgeElements (r_interfaces r)) P
    ((r_bridge r, mkLayer EmptyString (port 1)) :: rest)
    (mm_insert (r_bridge r, mkLayer EmptyString (port 1)) m)) as (m1 & -> & Hm1); [done|done|lia| | | |].
  - pose proof (fit_length _ _ Hfit r Hr). lia.
  - intros e He. destruct (fit_element _ _ Hfit r r e Hr Hr He). split; [done|].
    apply not_elem_of_cons. split; [done|]. intros Hin. by destruct (Hrest _ r Hin Hr).
  - by rewrite mm_insert_perm, Hm, Permutation_middle.
  - cbn [mbind option_bind].
    destruct (IH (insert_all (row_ports r) P) (bridge_rows low.*1 r ++ rest) m1) as (m' & Hm' & Hp).
    + by eapply bridges_fit_cons.
    + intros k r' Hk Hr'. rewrite fmap_app in Hk. apply elem_of_app in Hk as [Hk|Hk]; [|apply Hrest; [done|by right]].
      apply bridge_rows_keys in Hk. assert (r' ∈ r :: rows) as Hr'' by by right.
      pose proof (fit_names _ _ Hfit) as Hn. apply NoDup_cons in Hn as [Hn _].
      assert (r_bridge r ≠ r_bridge r') by (intros E; apply Hn; rewrite E; by apply list_elem_of_fmap_2).
      pose proof (fit_child _ _ Hfit r' r Hr'' Hr). pose proof (fit_element _ _ Hfit r' r) as He.
      split; [destruct Hk as [->| ->]; [done|]; by intros ?|].
      intros Hin. destruct (He k Hr'' Hr Hin). destruct Hk as [->| ->]; done.
    + rewrite Hm1. apply Permutation_app_head. symmetry. exact (Permutation_middle _ _ _).
    + exists m'. split; [exact Hm'|]. rewrite Hp. rewrite !bind_cons, insert_all_app.
      f_equiv. rewrite !app_assoc. f_equiv. apply Permutation_app_comm.
Qed.

Lemma lowers_loop_run path prefix k indices m :
  (∀ i, i ∈ indices → exists_ k i = true) → (∀ i, i ∈ indices → path i = Some (prefix +:+ dec i)) →
  ∃ m', lowers_loop path k indices m = Some (Some m')
    ∧ m' ≡ₚ lower_rows ∅ (omap (λ i, match name_of k i with
                                     | Some n => if is_empty n then None else Some (n, prefix +:+ dec i)
                                     | None => None
                                     end) indices) ++ m.
Proof.
  revert m. induction indices as [|i indices IH]; intros m He Hp; [by exists m|].
  cbn [lowers_loop]. rewrite He by left.
  assert (∀ m, ∃ m', lowers_loop path k indices m = Some (Some m') ∧ m' ≡ₚ _) as IH'
    by (intros m0; apply (IH m0); intros; [apply He|apply Hp]; by right).
  change (omap ?f (i :: indices)) with (match f i with Some y => y :: omap f indices | None => omap f indices end).
  cbv beta.
  destruct (name_of k i) as [n|]; [|apply IH']. destruct (is_empty n); [apply IH'|].
  rewrite Hp by left. cbn [mbind option_bind].
  destruct (IH' (mm_insert (n, mkLayer EmptyString (prefix +:+ dec i)) m)) as (m' & Hm' & E).
  exists m'. split; [done|]. rewrite E, mm_insert_perm. symmetry. exact (Permutation_middle _ _ _).
Qed.

Lemma one_to_range n i : i ∈ one_to n → 1 <= i <= n.
Proof. unfold one_to. intros (j & -> & Hj%elem_of_seq)%list_elem_of_fmap. lia. Qed.

Definition all_there (k : lower) : Prop :=
  default 0 (numberOfEntries k) < 10 ^ 9 ∧ ∀ i, 1 <= i <= default 0 (numberOfEntries k) → exists_ k i = true.

Lemma buildLowerLayerInfo_run path prefix k m :
  (∀ i, path i = (s ← int_to_string i; Some (prefix +:+ s))) → all_there k →
  ∃ m', buildLowerLayerInfo path k m = Some (Some m') ∧ m' ≡ₚ lower_rows ∅ (named prefix k) ++ m.
Proof.
  intros Hp [Hn He]. apply lowers_loop_run.
  - intros i Hi%one_to_range. by apply He.
  - intros i Hi%one_to_range. rewrite Hp, int_to_string_fits by lia. by rewrite decide_True by lia.
Qed.

Definition numbered (ips : IPInterfacesMap_t) : Prop := ∀ x k, ips !! x = Some k → 0 <= k < 256.

Lemma ip_loop_numbered n ids todo i ips ips' :
  (i + todo ≤ 256)%nat → numbered ips → ip_loop n ids todo i ips = Some (Some ips') → numbered ips'.
Proof.
  revert i ips. induction todo as [|todo IH]; intros i ips Hi Hn; [by intros [= <-]|].
  cbn [ip_loop]. destruct (ids !! i) as [z|]; [|done]. cbn [mbind option_bind].
  destruct (ip_exists n z); [|done]. apply IH; [lia|].
  destruct (ip_name n z) as [s|]; [|done]. destruct (ips !! s) eqn:E; [done|].
  intros x k [[_ <-]|[_ Hk]]%(lookup_insert_Some (M:=gmap string)); [lia|by apply (Hn x)].
Qed.

Lemma getIPInterfaces_numbered n ips : getIPInterfaces n = Some (Some ips) → numbered ips.
Proof.
  unfold getIPInterfaces. destruct (ip_entries n) as [k|]; [|done].
  destruct (getIPInterfaceIDs n) as [ids|]; [|done]. cbn [mbind option_bind].
  apply ip_loop_numbered; [unfold MAX_IFCS; lia|]. intros x j Hx. by rewrite lookup_empty in Hx.
Qed.

Lemma fill_run m ips : numbered ips → fillHigherLayersWithIP m ips = Some (fill_row ips <$> m).
Proof.
  intros Hn. unfold fillHigherLayersWithIP. apply mapM_Some_2, Forall2_fmap_r, Forall_Forall2_diag, Forall_forall.
  intros x _. change (fill_one ips x = Some (fill_row ips x)).
  unfold fill_one, fill_row. destruct (is_empty _); [|done].
  destruct (ips !! x.1) as [k|] eqn:E; [|done]. apply Hn in E.
  unfold DEVICE_IP_INTERFACE. rewrite int_to_string_fits by lia. by rewrite decide_True by lia.
Qed.

(** What the network must be like for the table to be built: the interfaces that
    are counted exist and their names differ, and so do those of the bridges. *)
Record net_fits (USE_MoCA_PROFILE : bool) (n : net) (rows : list row) : Prop := {
  fit_ethernet : all_there (ethernet n);
  fit_moca : USE_MoCA_PROFILE = true → all_there (moca n);
  fit_lower_names : NoDup (lowers USE_MoCA_PROFILE n).*1;
  fit_bridges : bridges_fit (lowers USE_MoCA_PROFILE n).*1 rows
}.

Lemma populate_keys n t : populateBridgeTable n = Some t → strdup_keys t.
Proof.
  unfold populateBridgeTable. destruct (scandir n) as [dirs|]; [|done]. cbn [mbind option_bind].
  match goal with |- context [foldl ?f [] ?l] => enough (strdup_keys (foldl f [] l)) as Hk end.
  { case_decide; [done|]. by intros [= <-]. }
  generalize (drop 2 dirs) as l. assert (strdup_keys []) as Hnil by constructor.
  revert Hnil. generalize (@nil row) as t0. intros t0 H0 l. revert t0 H0.
  induction l as [|d l IH]; intros t0 H0; [done|]. apply IH.
  destruct (has_bridge d && has_brif d); [|done]. destruct (brif d); [|done].
  apply Forall_app. split; [done|]. by constructor.
Qed.

Lemma bridges_fit_perm low l l' : l ≡ₚ l' → bridges_fit low l → bridges_fit low l'.
Proof.
  intros Hp [H1 H2 H3 H4 H5].
  assert (∀ r, r ∈ l' → r ∈ l) as Hin by (intros r; by rewrite Hp).
  split; [by rewrite <- Hp|..].
  - intros r Hr. by apply (H2 r), Hin.
  - intros r r' Hr Hr'. by apply (H3 r r'); apply Hin.
  - intros r r' e Hr Hr' He. by apply (H4 r r' e); [apply Hin|apply Hin|].
  - intros r Hr. by apply (H5 r), Hin.
Qed.

Section table.
Context `{RowOrder}.

(** The rows of the bridges as they are iterated. *)
Definition table_rows (table : option (list row)) : list row :=
  match table with Some t => row_order t | None => [] end.

Lemma build_run moca_built n ips :
  getIPInterfaces n = Some (Some ips) →
  net_fits moca_built n (default [] (populateBridgeTable n)) →
  ∃ m, build moca_built n (populateBridgeTable n) = Some (Some m)
    ∧ m ≡ₚ stack_rows (lowers moca_built n) (table_rows (populateBridgeTable n)) ips.
Proof.
  intros Hip [He Hm Hnd Hb]. unfold build. rewrite Hip. cbn [mbind option_bind].
  destruct (buildLowerLayerInfo_run DEVICE_ETHERNET_INTERFACE "Device.Ethernet.Interface." (ethernet n) [])
    as (m1 & -> & Hm1); [done|done|]. cbn [mbind option_bind]. rewrite app_nil_r in Hm1.
  assert (∃ m2, (if moca_built then buildLowerLayerInfo DEVICE_MOCA_INTERFACE (moca n) m1 else Some (Some m1))
                = Some (Some m2) ∧ m2 ≡ₚ lower_rows ∅ (lowers moca_built n) ++ []) as (m2 & -> & Hm2).
  { rewrite app_nil_r. unfold lowers. destruct moca_built; [|by eauto].
    destruct (buildLowerLayerInfo_run DEVICE_MOCA_INTERFACE "Device.MoCA.Interface." (moca n) m1)
      as (m2 & -> & Hm2); [done|by apply Hm|].
    exists m2. split; [done|]. rewrite Hm2, Hm1. unfold lower_rows. by rewrite fmap_app. }
  cbn [mbind option_bind].
  assert (∃ m3, buildBridgeTableLayerInfo (populateBridgeTable n) m2 = Some m3
    ∧ m3 ≡ₚ lower_rows (insert_all (table_rows (populateBridgeTable n) ≫= row_ports) ∅) (lowers moca_built n)
            ++ (table_rows (populateBridgeTable n) ≫= bridge_rows (lowers moca_built n).*1) ++ []) as (m3 & -> & Hm3).
  { unfold buildBridgeTableLayerInfo, table_rows. destruct (populateBridgeTable n) as [t|] eqn:Et; [|by exists m2].
    apply bridges_loop_run; [by eapply populate_keys|done| |by intros k r ?%not_elem_of_nil|done].
    eapply bridges_fit_perm; [symmetry; apply row_order_perm|done]. }
  cbn [mbind option_bind]. rewrite fill_run by by eapply getIPInterfaces_numbered. cbn [mbind option_bind].
  eexists. split; [done|]. unfold stack_rows. by rewrite Hm3, app_nil_r.
Qed.
End table.

(** ** Paths are short and hold no conversion *)
Definition plain (s : string) : Prop :=
  (String.length s < 60)%nat ∧ has_char "%" s = false ∧ has_char NUL s = false.

Lemma plain_path p k :
  (String.length p < 50)%nat → has_char "%" p = false → has_char NUL p = false → 0 <= k < 10 ^ 9 →
  plain (p +:+ dec k).
Proof.
  intros Hl Hp Hn Hk. pose proof (Utils.dec_length_nine k Hk) as Hd. unfold plain.
  rewrite str_length_app, !has_char_app, Hp, Hn, !dec_no_char by done. split; [lia|done].
Qed.

Lemma insert_all_values (l : list (string * string)) m k v :
  insert_all l m !! k = Some v → v ∈ l.*2 ∨ m !! k = Some v.
Proof.
  revert m. induction l as [|[k' v'] l IH]; intros m; [by right|]. intros [Hv|Hm]%IH.
  - left. by right.
  - apply lookup_insert_Some in Hm as [[_ <-]|[_ Hm]]; [left; by left|by right].
Qed.

Lemma ports_from_plain k els x :
  1 <= k → k + Z.of_nat (length els) < 10 ^ 9 → x ∈ (ports_from k els).*2 → plain x.
Proof.
  revert k. induction els as [|e els IH]; intros k Hk Hl; [by intros ?%not_elem_of_nil|].
  cbn [length ports_from] in *. intros [->|Hx]%elem_of_cons; [|eapply (IH (k + 1)); [lia|lia|done]].
  apply plain_path; [apply Nat.ltb_lt; reflexivity|done|done|lia].
Qed.

Lemma named_plain prefix k x :
  (String.length prefix < 50)%nat → has_char "%" prefix = false → has_char NUL prefix = false →
  all_there k → x ∈ named prefix k → plain x.2.
Proof.
  intros Hl Hp Hn [Hk _] (i & Hi%one_to_range & Hx)%list_elem_of_omap.
  destruct (name_of k i) as [n|]; [|done]. destruct (is_empty n); [done|]. injection Hx as <-.
  apply plain_path; [done..|lia].
Qed.

Definition plain_row (x : string * LayerInfo_t) : Prop := plain (higherLayer x.2) ∧ plain (lowerLayer x.2).

Lemma fill_row_plain ips x : numbered ips → plain_row x → plain_row (fill_row ips x).
Proof.
  intros Hn [Hh Hl]. unfold fill_row. destruct (is_empty _); [|done].
  destruct (ips !! x.1) as [k|] eqn:E; [|done]. apply Hn in E. split; [|done].
  apply plain_path; [apply Nat.ltb_lt; reflexivity|done|done|lia].
Qed.

Lemma stack_rows_plain moca_built n rows ips :
  numbered ips → net_fits moca_built n rows → Forall plain_row (stack_rows (lowers moca_built n) rows ips).
Proof.
  intros Hi [He Hm _ Hb]. unfold stack_rows. apply Forall_fmap. apply (Forall_impl plain_row).
  2: { intros x. by apply fill_row_plain. }
  assert (plain EmptyString) as Hempty by (split; [apply Nat.ltb_lt; reflexivity|done]).
  assert (plain (port 1)) as H1 by (apply plain_path; [apply Nat.ltb_lt; reflexivity|done|done|lia]).
  assert (∀ r x, r ∈ rows → x ∈ (row_ports r).*2 → plain x) as Hports.
  { intros r x Hr. apply ports_from_plain; [lia|]. pose proof (fit_length _ _ Hb r Hr). lia. }
  apply Forall_app. split; apply Forall_forall; intros x Hx.
  - apply list_elem_of_fmap in Hx as (y & -> & Hy). split; cbn.
    + destruct (_ !! y.1) as [v|] eqn:E; [|done]. apply insert_all_values in E as [Hv|E].
      * apply list_elem_of_fmap in Hv as (z & -> & (r & Hz & Hr)%list_elem_of_bind).
        apply (Hports r); [done|]. by apply (list_elem_of_fmap_2 snd).
      * by rewrite lookup_empty in E.
    + unfold lowers in Hy. apply elem_of_app in Hy as [Hy|Hy].
      * destruct moca_built; [|by apply not_elem_of_nil in Hy].
        eapply named_plain, Hy; [apply Nat.ltb_lt; reflexivity|done|done|by apply Hm].
      * eapply named_plain, Hy; [apply Nat.ltb_lt; reflexivity|done|done|done].
  - apply list_elem_of_bind in Hx as (r & Hx & Hr). apply elem_of_cons in Hx as [->|Hx]; [done|].
    apply list_elem_of_fmap in Hx as (y & -> & [_ Hy]%list_elem_of_filter). split; [done|].
    apply (Hports r); [done|]. by apply (list_elem_of_fmap_2 snd).
Qed.

(** ** The instances *)
Lemma create_loop_run i rows s :
  Forall plain_row rows →
  ∃ s', create_loop i rows s = Some s' ∧ m_notifyHash s' = m_notifyHash s
    ∧ (∀ j, getInstance j s' =
         if decide (i <= j < i + Z.of_nat (length rows))
         then (λ x, new (higherLayer x.2) (lowerLayer x.2)) <$> rows !! Z.to_nat (j - i)
         else getInstance j s).
Proof.
  revert i s. induction rows as [|x rows IH]; intros i s Hp.
  { exists s. split; [done|]. split; [done|]. intros j. by rewrite decide_False by (cbn; lia). }
  apply Forall_cons in Hp as [[[Hhl [Hh _]] [Hll [Hl _]]] Hp].
  cbn [create_loop]. unfold snprintf_format. rewrite Hh, Hl. cbn [mbind option_bind].
  rewrite !str_take_all by (unfold MAX_HIGHERLAYER_LEN; lia).
  destruct (IH (i + 1) (createInstance i (higherLayer x.2) (lowerLayer x.2) s) Hp) as (s' & Hs' & Hn & Hj).
  exists s'. split; [done|]. split; [done|]. intros j. rewrite Hj. cbn [length].
  unfold getInstance at 1, createInstance. cbn [stIshash mbind option_bind].
  destruct (decide (j = i)) as [->|Hne].
  - rewrite decide_False, decide_True by lia. rewrite lookup_insert_eq, Z.sub_diag. done.
  - rewrite lookup_insert_ne by done. destruct (decide (i <= j < i + Z.of_nat (S (length rows)))).
    + rewrite decide_True by lia. replace (Z.to_nat (j - i)) with (S (Z.to_nat (j - (i + 1)))) by lia. done.
    + rewrite decide_False by lia. unfold getInstance. destruct (stIshash s); [done|]. cbn. by rewrite lookup_empty.
Qed.

Lemma close_all s :
  m_notifyHash s = no_table →
  ∃ s', closeAllInstances s = Some s' ∧ m_notifyHash s' = no_table ∧ (∀ j, getInstance j s' = None).
Proof.
  intros Hn. unfold closeAllInstances. destruct (stIshash s) as [m|] eqn:E.
  - assert (∀ k, Nat.iter k (λ t, t ≫= destroy_table) (Some no_table) = Some no_table) as Hk
      by (intros k; induction k as [|k IH]; [done|]; by rewrite Nat.iter_succ, IH).
    rewrite Hn, Hk. eexists. split; [done|]. split; [done|]. intros j. unfold getInstance. cbn. apply lookup_empty.
  - exists s. split; [done|]. split; [done|]. intros j. unfold getInstance. by rewrite E.
Qed.

Section counted.
Context `{RowOrder}.

(** The instances after the question for their number: those of the rows that
    have been found, in any order that the map gives them. *)
Definition holds (rows : InterfaceStackMap_t) (s : state) : Prop :=
  ∀ j, getInstance j s = if decide (1 <= j <= Z.of_nat (length rows))
                         then (λ x, new (higherLayer x.2) (lowerLayer x.2)) <$> rows !! Z.to_nat (j - 1)
                         else None.

Lemma count_run moca_built n ips m s :
  m_notifyHash s = no_table → getIPInterfaces n = Some (Some ips) →
  net_fits moca_built n (default [] (populateBridgeTable n)) →
  ∃ rows s',
    rows ≡ₚ stack_rows (lowers moca_built n) (table_rows (populateBridgeTable n)) ips
    ∧ get_Device_InterfaceStackNumberOfEntries moca_built n m s
      = Some (if decide (rows = []) then (NOK, m, s')
              else (OK, set_value (set_len (set_paramtype m hostIf_IntegerType) 4)
                          (put_int (paramValue m) (Z.of_nat (length rows))), s'))
    ∧ holds rows s' ∧ m_notifyHash s' = no_table.
Proof.
  intros Hno Hip Hfit. destruct (build_run moca_built n ips Hip Hfit) as (rows & Hb & Hp).
  destruct (close_all s Hno) as (s1 & Hs1 & Hn1 & Hg1).
  destruct (create_loop_run 1 rows (mkState (stIshash s1) (populateBridgeTable n) (m_notifyHash s1)))
    as (s' & Hs' & Hn' & Hj).
  { rewrite Hp. apply stack_rows_plain; [by eapply getIPInterfaces_numbered|].
    destruct Hfit as [? ? ? Hfit]. split; [done..|]. eapply bridges_fit_perm; [|exact Hfit].
    unfold table_rows. destruct (populateBridgeTable n); [by rewrite row_order_perm|done]. }
  exists rows, s'. split; [done|]. split; [|split; [|by rewrite Hn', <- Hn1]].
  - unfold get_Device_InterfaceStackNumberOfEntries. rewrite Hs1, Hb. cbn [mbind option_bind].
    change (default [] (Some rows)) with rows. rewrite Hs'. cbn [mbind option_bind]. destruct rows; [done|]. by rewrite decide_False.
  - intros j. rewrite Hj. destruct (decide (1 <= j <= Z.of_nat (length rows))).
    + by rewrite decide_True by lia.
    + rewrite decide_False by lia. change (getInstance j s1 = None). apply Hg1.
Qed.
End counted.

(** ** The manager *)
Module InterfaceStackClientReqHandler.

(** What is broadcast. *)
Inductive update : Type :=
  | counted (e : Updates.event)
  | VALUECHANGED (paramName : string) (value : string).

Record handler := mkHandler { curNumOfEntriesInInterfaceStack : Z; stack : state }.

Section manager.
Context `{RowOrder} (USE_MoCA_PROFILE HAVE_VALUE_CHANGE_EVENT : bool) (str_hash : string → Z).

Definition reset (h : handler) : handler := mkHandler 0 (stack h).

Definition unInit (h : handler) : option handler :=
  s ← closeAllInstances (stack h); Some (mkHandler (curNumOfEntriesInInterfaceStack h) s).

Definition handleSetMsg (m : HOSTIF_MsgData_t) (h : handler) : Z * HOSTIF_MsgData_t * handler :=
  (NOT_HANDLED, set_fault m fcAttemptToSetaNonWritableParameter, h).

Definition put_instance (i : Z) (x : instance) (s : state) : state :=
  mkState ((λ t, <[i := x]> t) <$> stIshash s) (stBridgeTableHash s) (m_notifyHash s).

Definition with_stack (h : handler) (s : state) : handler := mkHandler (curNumOfEntriesInInterfaceStack h) s.

Definition handleGetMsg (n : net) (m : HOSTIF_MsgData_t) (h : handler) : option (Z * HOSTIF_MsgData_t * handler) :=
  if strcaseeq (paramName m) "Device.InterfaceStackNumberOfEntries" then
    '(ret, m', s) ← get_Device_InterfaceStackNumberOfEntries USE_MoCA_PROFILE n m (stack h);
    Some (ret, m', with_stack h s)
  else
    Some (match Utils.matchComponent (paramName m) "Device.InterfaceStack" with
          | Some (pSetting, instanceNumber) =>
              let m1 := set_instance m instanceNumber in
              match getInstance instanceNumber (stack h) with
              | Some x =>
                  if strcaseeq pSetting "HigherLayer" then
                    let '(m2, _, x') := get_Device_InterfaceStack_HigherLayer m1 x in
                    (OK, m2, with_stack h (put_instance instanceNumber x' (stack h)))
                  else if strcaseeq pSetting "LowerLayer" then
                    let '(m2, _, x') := get_Device_InterfaceStack_LowerLayer m1 x in
                    (OK, m2, with_stack h (put_instance instanceNumber x' (stack h)))
                  else (NOK, set_fault m1 fcInvalidParameterName, h)
              | None => (NOK, m1, h)
              end
          | None => (NOT_HANDLED, m, h)
          end).

(** Attributes are kept by the table of instance 0. *)
Definition handleGetAttributesMsg (m : HOSTIF_MsgData_t) (h : handler) : option (Z * HOSTIF_MsgData_t * handler) :=
  let m1 := set_instance m 0 in
  match getInstance 0 (stack h) with
  | None => Some (NOK, m1, h)
  | Some _ =>
      let '(t, s) := getNotifyHash (stack h) in
      match t with
      | table_of t =>
          v ← NotifyHash.get_attribute str_hash t (paramName m);
          Some (OK, set_paramtype (set_value m1 (put_int (paramValue m1) v)) hostIf_IntegerType, with_stack h s)
      | _ => None
      end
  end.

Definition handleSetAttributesMsg (m : HOSTIF_MsgData_t) (h : handler) : option (Z * HOSTIF_MsgData_t * handler) :=
  let m1 := set_instance m 0 in
  match getInstance 0 (stack h) with
  | None => Some (NOK, m1, h)
  | Some _ =>
      match (getNotifyHash (stack h)).1 with
      | table_of t =>
          t' ← NotifyHash.set_attribute str_hash true t (paramName m);
          Some (OK, m1, with_stack h (mkState (stIshash (stack h)) (stBridgeTableHash (stack h)) (table_of t')))
      | _ => None
      end
  end.

Definition layer_changed (getter : HOSTIF_MsgData_t → instance → HOSTIF_MsgData_t * bool * instance)
    (i : Z) (x : instance) (e : entry) (s : state) : option (list update * state) :=
  let '(m, bChanged, x') := getter zero_msg x in
  let s' := put_instance i x' s in
  if bChanged then
    if NotifyHash.value_live e then
      Some (if NotifyHash.value e =? 1 then [VALUECHANGED (NotifyHash.key e) (buf_str (paramValue m))] else [], s')
    else None
  else Some ([], s').

(** The loop over the parameters whose changes are wanted. *)
Fixpoint changes_loop (t : list entry) (s : state) : option (list update * state) :=
  match t with
  | [] => Some ([], s)
  | e :: t' =>
      if NotifyHash.key_live e then
        '(evs, s1) ← (match Utils.matchComponent (NotifyHash.key e) "Device.InterfaceStack." with
                      | Some (pSetting, i) =>
                          match getInstance i s with
                          | Some x =>
                              if strcaseeq pSetting "HigherLayer"
                              then layer_changed get_Device_InterfaceStack_HigherLayer i x e s
                              else if strcaseeq pSetting "LowerLayer"
                              then layer_changed get_Device_InterfaceStack_LowerLayer i x e s
                              else Some ([], s)
                          | None => Some ([], s)
                          end
                      | None => Some ([], s)
                      end);
        '(rest, s2) ← changes_loop t' s1;
        Some (evs ++ rest, s2)
      else None
  end.

(** A round: the count, then the values. *)
Definition checkForUpdates (n : net) (h : handler) : option (list update * handler) :=
  '(ret, m, s) ← get_Device_InterfaceStackNumberOfEntries USE_MoCA_PROFILE n zero_msg (stack h);
  let count := get_int (paramValue m) in
  let '(evs, cur) :=
    if ret =? OK
    then (counted <$> Updates.count_changes "Device.InterfaceStack" (curNumOfEntriesInInterfaceStack h) count, count)
    else ([], curNumOfEntriesInInterfaceStack h) in
  if HAVE_VALUE_CHANGE_EVENT then
    match getInstance 0 s with
    | None => Some (evs, mkHandler cur s)
    | Some _ =>
        let '(t, s1) := getNotifyHash s in
        match t with
        | table_of t => '(more, s2) ← changes_loop t s1; Some (evs ++ more, mkHandler cur s2)
        | _ => None
        end
    end
  else Some (evs, mkHandler cur s).
End manager.

(** ** The table through the manager *)
Section answers.
Context `{RowOrder}.

Definition layers : list (string * (LayerInfo_t → string)) :=
  [("HigherLayer"%string, higherLayer); ("LowerLayer"%string, lowerLayer)].

(** The layers that the instances show, whatever was asked of them. *)
Definition shows (rows : InterfaceStackMap_t) (s : state) : Prop :=
  ∀ j, (λ x, (i_higherLayer x, i_lowerLayer x)) <$> getInstance j s
       = if decide (1 <= j <= Z.of_nat (length rows))
         then (λ x, let y := new (higherLayer x.2) (lowerLayer x.2) in (i_higherLayer y, i_lowerLayer y))
              <$> rows !! Z.to_nat (j - 1)
         else None.

Lemma holds_shows rows s : holds rows s → shows rows s.
Proof. intros Hh j. rewrite (Hh j). case_decide; [|done]. by destruct (rows !! _). Qed.

(** The calls that leave the map as it is: every call but the question for the
    number of entries, which a round of updates asks too. *)
Inductive quiet (moca_built : bool) (str_hash : string → Z) (h : handler) : handler → Prop :=
  | quiet_get n m ret m' h' :
      strcaseeq (paramName m) "Device.InterfaceStackNumberOfEntries" = false →
      handleGetMsg moca_built n m h = Some (ret, m', h') → quiet moca_built str_hash h h'
  | quiet_set m : quiet moca_built str_hash h (handleSetMsg m h).2
  | quiet_get_attributes m ret m' h' :
      handleGetAttributesMsg str_hash m h = Some (ret, m', h') → quiet moca_built str_hash h h'
  | quiet_set_attributes m ret m' h' :
      handleSetAttributesMsg str_hash m h = Some (ret, m', h') → quiet moca_built str_hash h h'
  | quiet_reset : quiet moca_built str_hash h (reset h).

Lemma put_instance_shows rows i x y s :
  getInstance i s = Some y → i_higherLayer x = i_higherLayer y → i_lowerLayer x = i_lowerLayer y →
  shows rows s → shows rows (put_instance i x s).
Proof.
  intros Hi Hx Hy Hs j. rewrite <- (Hs j). unfold getInstance, put_instance in *.
  destruct (stIshash s) as [t|] eqn:E; [|done]. cbn [mbind option_bind stIshash fmap option_fmap option_map] in *.
  destruct (decide (i = j)) as [->|]; [|by rewrite lookup_insert_ne].
  rewrite lookup_insert_eq, Hi. cbn. by rewrite Hx, Hy.
Qed.

Lemma quiet_shows moca_built str_hash rows h h' :
  quiet moca_built str_hash h h' → shows rows (stack h) → shows rows (stack h').
Proof.
  intros Hq Hs. assert (getInstance 0 (stack h) = None) as H0.
  { specialize (Hs 0). rewrite decide_False in Hs by lia. by destruct (getInstance 0 (stack h)). }
  destruct Hq as [n m ret m' h' Hn Hg|m|m ret m' h' Hg|m ret m' h' Hg|]; [|done|..|done].
  - unfold handleGetMsg in Hg. rewrite Hn in Hg. injection Hg as Hg.
    destruct (Utils.matchComponent _ _) as [[p i]|]; [|by injection Hg as _ _ <-].
    destruct (getInstance i _) as [x|] eqn:E; [|by injection Hg as _ _ <-].
    destruct (strcaseeq p _); [|destruct (strcaseeq p _)]; injection Hg as _ _ <-; [..|done];
      by eapply put_instance_shows.
  - unfold handleGetAttributesMsg in Hg. rewrite H0 in Hg. by injection Hg as _ _ <-.
  - unfold handleSetAttributesMsg in Hg. rewrite H0 in Hg. by injection Hg as _ _ <-.
Qed.

Lemma quiets_show moca_built str_hash rows h h' :
  rtc (quiet moca_built str_hash) h h' → shows rows (stack h) → shows rows (stack h').
Proof. induction 1; eauto using quiet_shows. Qed.

(** What a question for a layer is answered after [rows] have been found. *)
Lemma layer_answer moca_built n m h rows i setting f :
  Forall plain_row rows → shows rows (stack h) → (setting, f) ∈ layers → 1 <= i < 10 ^ 9 →
  paramName m = "Device.InterfaceStack" +:+ String DOT (dec i +:+ String DOT setting) →
  match rows !! Z.to_nat (i - 1) with
  | Some x => ∃ m' h', handleGetMsg moca_built n m h = Some (OK, m', h') ∧ buf_str (paramValue m') = f x.2
  | None => handleGetMsg moca_built n m h = Some (NOK, set_instance m i, h)
  end.
Proof.
  intros Hp Hh Hin Hi Hn. unfold handleGetMsg. rewrite Hn.
  replace (strcaseeq _ _) with false by reflexivity.
  rewrite Utils.match_component_name by lia. specialize (Hh i).
  destruct (rows !! Z.to_nat (i - 1)) as [x|] eqn:E.
  - rewrite decide_True in Hh.
    2: { apply lookup_lt_Some in E. lia. }
    destruct (getInstance i (stack h)) as [y|]; [|done]. injection Hh as Ey1 Ey2.
    destruct (proj1 (Forall_forall _ _) Hp x ltac:(by eapply list_elem_of_lookup_2)) as [[H1 [_ H2]] [H3 [_ H4]]].
    assert (∀ s, (String.length s < 60)%nat → has_char NUL s = false →
      buf_str (Webpa.fill (str_take (MAX_HIGHERLAYER_LEN - 1) s)) = s) as Hbuf.
    { intros s Hs Hs'. rewrite str_take_all by (unfold MAX_HIGHERLAYER_LEN; lia).
      apply Webpa.fill_buf; [done|]. unfold Webpa.MAX_PARAM_LENGTH, TR69HOSTIFMGR_MAX_PARAM_LEN. lia. }
    apply elem_of_cons in Hin as [[= -> ->]|[= -> ->]%list_elem_of_singleton].
    + replace (strcaseeq _ _) with true by reflexivity. eexists _, _. split; [reflexivity|].
      cbn. rewrite Ey1. by apply Hbuf.
    + replace (strcaseeq _ "HigherLayer") with false by reflexivity.
      replace (strcaseeq _ _) with true by reflexivity. eexists _, _. split; [reflexivity|].
      cbn. rewrite Ey2. by apply Hbuf.
  - destruct (getInstance i (stack h)); [by case_decide|]. done.
Qed.

(** C15. The question for the number of entries builds the table of its specification:
    one row for each named interface of Ethernet and MoCA, on the port of the last
    bridge that lists it or else on the IP interface of its name; one row for each
    bridge, on its IP interface; one row for each element of a bridge that is such
    an interface.  The number of rows is the answer, or NOK when there are none.
    After it, and after any further gets, sets and requests for attributes other
    than this question and the rounds of updates, which ask it too, row i answers
    the two layers of instance i, whatever the network has become; other
    instances are refused.  All bridges have number 1 in the paths, and an IP
    interface has its position in the listing.  This is for a network whose
    counted interfaces exist and whose IP interfaces can be listed, with
    interfaces, bridges and the elements of bridges named differently (an
    element has the name of an interface, not of a bridge or of a bridge's
    child) and fewer than 10^8 elements to a bridge; and no attribute table was
    made before, as stack_never_notified shows. *)
Theorem interface_stack_answers moca_built n ips m h :
  m_notifyHash (stack h) = no_table → getIPInterfaces n = Some (Some ips) →
  net_fits moca_built n (default [] (populateBridgeTable n)) →
  strcaseeq (paramName m) "Device.InterfaceStackNumberOfEntries" = true →
  ∃ rows ret m' h',
    rows ≡ₚ stack_rows (lowers moca_built n) (table_rows (populateBridgeTable n)) ips
    ∧ handleGetMsg moca_built n m h = Some (ret, m', h')
    ∧ (if decide (rows = []) then ret = NOK
       else ret = OK ∧ get_int (paramValue m') = int32 (Z.of_nat (length rows)))
    ∧ ∀ str_hash h2, rtc (quiet moca_built str_hash) h' h2 →
        ∀ n' mq i setting f, (setting, f) ∈ layers → 1 <= i < 10 ^ 9 →
        paramName mq = "Device.InterfaceStack" +:+ String DOT (dec i +:+ String DOT setting) →
        match rows !! Z.to_nat (i - 1) with
        | Some x => ∃ mq' h3, handleGetMsg moca_built n' mq h2 = Some (OK, mq', h3)
                              ∧ buf_str (paramValue mq') = f x.2
        | None => handleGetMsg moca_built n' mq h2 = Some (NOK, set_instance mq i, h2)
        end.
Proof.
  intros Hno Hip Hfit Hname. destruct (count_run moca_built n ips m (stack h)) as (rows & s' & Hp & Hc & Hh & _);
    [done..|].
  assert (Forall plain_row rows) as Hplain.
  { rewrite Hp. apply stack_rows_plain; [by eapply getIPInterfaces_numbered|].
    destruct Hfit as [? ? ? Hfit]. split; [done..|]. eapply bridges_fit_perm; [|exact Hfit].
    unfold table_rows. destruct (populateBridgeTable n); [by rewrite row_order_perm|done]. }
  assert (∀ str_hash h2, rtc (quiet moca_built str_hash) (with_stack h s') h2 → shows rows (stack h2)) as Hshow.
  { intros str_hash h2 Hq. eapply quiets_show; [exact Hq|]. by apply holds_shows. }
  exists rows. unfold handleGetMsg at 1. rewrite Hname, Hc.
  destruct (decide (rows = [])) as [Hr|Hr]; cbn [mbind option_bind]; eexists _, _, (with_stack h s');
    (split; [done|]; split; [done|]; split); [done| |split; [done|apply get_put_int]|];
    intros str_hash h2 Hq n0 mq i setting f Hin ??;
    apply (layer_answer _ _ _ _ _ _ setting f); try done; by eapply Hshow.
Qed.

(** ** Notifications *)

(** The calls the manager gets, each over the network as it is then. *)
Inductive step (moca_built changes : bool) (str_hash : string → Z) (h : handler) : handler → Prop :=
  | did_get n m ret m' h' : handleGetMsg moca_built n m h = Some (ret, m', h') → step moca_built changes str_hash h h'
  | did_set m : step moca_built changes str_hash h (handleSetMsg m h).2
  | did_get_attributes m ret m' h' :
      handleGetAttributesMsg str_hash m h = Some (ret, m', h') → step moca_built changes str_hash h h'
  | did_set_attributes m ret m' h' :
      handleSetAttributesMsg str_hash m h = Some (ret, m', h') → step moca_built changes str_hash h h'
  | did_check n evs h' :
      checkForUpdates moca_built changes n h = Some (evs, h') → step moca_built changes str_hash h h'
  | did_reset : step moca_built changes str_hash h (reset h)
  | did_unInit h' : unInit h = Some h' → step moca_built changes str_hash h h'.

Definition start : handler := mkHandler 0 (mkState None None no_table).

Definition unnotified (s : state) : Prop := m_notifyHash s = no_table ∧ getInstance 0 s = None.

Lemma create_loop_zero i rows s s' :
  1 <= i → create_loop i rows s = Some s' → unnotified s → unnotified s'.
Proof.
  revert i s. induction rows as [|x rows IH]; intros i s Hi; [by intros [= <-]|]. cbn [create_loop].
  intros (h & _ & (l & _ & Hc)%bind_Some)%bind_Some [Hn H0]. apply (IH (i + 1) _ ltac:(lia) Hc).
  split; [done|]. unfold getInstance, createInstance. cbn [stIshash mbind option_bind].
  rewrite lookup_insert_ne by lia. unfold getInstance in H0. destruct (stIshash s); [done|apply lookup_empty].
Qed.

Lemma count_unnotified moca_built n m s ret m' s' :
  get_Device_InterfaceStackNumberOfEntries moca_built n m s = Some (ret, m', s') → unnotified s → unnotified s'.
Proof.
  intros Hc [Hn _]. destruct (close_all s Hn) as (s1 & Hs1 & Hn1 & Hg1).
  unfold get_Device_InterfaceStackNumberOfEntries in Hc. rewrite Hs1 in Hc. cbn [mbind option_bind] in Hc.
  apply bind_Some in Hc as (info & _ & (s3 & Hl & Hr)%bind_Some).
  assert (s3 = s') as <- by (by destruct (0 <? _); injection Hr).
  apply (create_loop_zero _ _ _ _ ltac:(done) Hl). split; [exact Hn1|exact (Hg1 0)].
Qed.

Lemma put_instance_unnotified i x y s : getInstance i s = Some y → unnotified s → unnotified (put_instance i x s).
Proof.
  intros Hi [Hn H0]. split; [done|]. unfold getInstance in *. cbn.
  destruct (stIshash s) as [t|]; [|done]. cbn in *. rewrite lookup_insert_ne; [done|]. intros ->. by rewrite H0 in Hi.
Qed.

Lemma step_unnotified moca_built changes str_hash h h' :
  step moca_built changes str_hash h h' → unnotified (stack h) → unnotified (stack h').
Proof.
  intros Hs Hu. pose proof Hu as [Hn H0].
  destruct Hs as [n m ret m' h' Hg|m|m ret m' h' Hg|m ret m' h' Hg|n evs h' Hc| |h' Hc]; [|done|..].
  - unfold handleGetMsg in Hg. destruct (strcaseeq _ _).
    + apply bind_Some in Hg as ([[r mm] s] & Hc & [= _ _ <-]). by eapply count_unnotified.
    + injection Hg as Hg. destruct (Utils.matchComponent _ _) as [[p i]|]; [|by injection Hg as _ _ <-].
      destruct (getInstance i _) as [x|] eqn:E; [|by injection Hg as _ _ <-].
      destruct (strcaseeq p _); [|destruct (strcaseeq p _)]; injection Hg as _ _ <-; [..|done];
        by eapply put_instance_unnotified.
  - unfold handleGetAttributesMsg in Hg. rewrite H0 in Hg. by injection Hg as _ _ <-.
  - unfold handleSetAttributesMsg in Hg. rewrite H0 in Hg. by injection Hg as _ _ <-.
  - unfold checkForUpdates in Hc. apply bind_Some in Hc as ([[r mm] s] & Hcount & Hc).
    apply count_unnotified in Hcount as Hs; [|done]. destruct Hs as [Hn' H0']. rewrite H0' in Hc.
    destruct (r =? OK), changes; by injection Hc as _ <-.
  - done.
  - destruct (close_all (stack h) Hn) as (s1 & Hs1 & Hn1 & Hg1). unfold unInit in Hc. rewrite Hs1 in Hc.
    injection Hc as <-. split; [done|apply Hg1].
Qed.

(** Attributes are asked of instance 0, and the instances have numbers from 1 on:
    whatever calls are made, no attribute of an interface stack parameter can be
    set or read, and a round of updates never reports a changed value, also in a
    build that looks for changed values. *)
Theorem stack_never_notified moca_built changes str_hash h :
  rtc (step moca_built changes str_hash) start h →
  (∀ m, handleGetAttributesMsg str_hash m h = Some (NOK, set_instance m 0, h)
        ∧ handleSetAttributesMsg str_hash m h = Some (NOK, set_instance m 0, h))
  ∧ (∀ n evs h', checkForUpdates moca_built changes n h = Some (evs, h') → ∀ p v, VALUECHANGED p v ∉ evs).
Proof.
  intros Hr. assert (unnotified (stack start) → unnotified (stack h)) as Hu.
  { clear -Hr. induction Hr as [|h1 h2 h3 Hs _ IH]; [done|]. intros Hu. by eapply IH, step_unnotified. }
  specialize (Hu (conj eq_refl eq_refl)).
  pose proof Hu as [Hn H0]. split.
  { intros m. unfold handleGetAttributesMsg, handleSetAttributesMsg. by rewrite H0. }
  intros n evs h' Hc p v. unfold checkForUpdates in Hc.
  apply bind_Some in Hc as ([[r mm] s] & Hcount & Hc).
  apply count_unnotified in Hcount as [_ H0']; [|done]. rewrite H0' in Hc.
  destruct (r =? OK), changes; injection Hc as <- _; try apply not_elem_of_nil;
    by intros (e & ? & _)%list_elem_of_fmap.
Qed.
End answers.

(** ** Examples *)
#[local] Instance ex_order : RowOrder := {| row_order := λ t, t; row_order_perm := λ t, Permutation_refl t |}.

(** The network of the comment in the source: two Ethernet interfaces, one of
    MoCA, and a bridge over two of them. *)
Definition ex_lower (names : list string) : lower :=
  mkLower (Some (Z.of_nat (length names))) (λ _, true) (λ i, names !! Z.to_nat (i - 1)).

Definition ex_net : net :=
  mkNet (ex_lower ["bcm0"; "eth2"]%string) (ex_lower ["eth1"%string]) (Some 2)
    (Some [Some "8"; Some "9"]%string) (λ _, true)
    (λ i, if i =? 8 then Some "eth2"%string else Some "hnbr0"%string)
    (Some [mkDir "." false false None; mkDir ".." false false None; mkDir "bcm0" false false None;
           mkDir "hnbr0" true true (Some ["bcm0"; "eth1"]%string)]).

Definition ex_rows : InterfaceStackMap_t :=
  [("eth1", mkLayer "Device.Bridging.Bridge.1.PORT.3" "Device.MoCA.Interface.1");
   ("bcm0", mkLayer "Device.Bridging.Bridge.1.PORT.2" "Device.Ethernet.Interface.1");
   ("eth2", mkLayer "Device.IP.Interface.0" "Device.Ethernet.Interface.2");
   ("hnbr0", mkLayer "Device.IP.Interface.1" "Device.Bridging.Bridge.1.PORT.1");
   ("hnbr0-child", mkLayer "Device.Bridging.Bridge.1.PORT.1" "Device.Bridging.Bridge.1.PORT.2");
   ("hnbr0-child", mkLayer "Device.Bridging.Bridge.1.PORT.1" "Device.Bridging.Bridge.1.PORT.3")]%string.

Definition ex_count : HOSTIF_MsgData_t :=
  mkMsg "Device.InterfaceStackNumberOfEntries" (paramValue zero_msg) None EmptyString 0 0 hostIf_StringType
    HOSTIF_INVALID_TYPE fcNoFault HOSTIF_NONE HOSTIF_NONE false.

Lemma interface_stack_answers_witness :
  ∃ rows ret m' h', rows ≡ₚ ex_rows ∧ handleGetMsg true ex_net ex_count start = Some (ret, m', h')
    ∧ ret = OK ∧ get_int (paramValue m') = 6.
Proof.
  destruct (interface_stack_answers true ex_net {["eth2"%string := 0; "hnbr0"%string := 1]} ex_count start)
    as (rows & ret & m' & h' & Hp & Hg & Hr & _).
  - done.
  - vm_compute. reflexivity.
  - split.
    + split; [done|]. intros; done.
    + intros _. split; [done|]. intros; done.
    + apply (bool_decide_unpack _). vm_compute. exact I.
    + split.
      * apply (bool_decide_unpack _). vm_compute. exact I.
      * intros r Hr. apply (bool_decide_unpack _).
        apply list_elem_of_singleton in Hr as ->. vm_compute. exact I.
      * intros r r' Hr Hr'. apply list_elem_of_singleton in Hr as ->. apply list_elem_of_singleton in Hr' as ->. done.
      * intros r r' e Hr Hr' He. apply list_elem_of_singleton in Hr as ->. apply list_elem_of_singleton in Hr' as ->.
        apply elem_of_cons in He as [->|[->|He%not_elem_of_nil]%elem_of_cons]; done.
      * intros r Hr. apply list_elem_of_singleton in Hr as ->. done.
  - reflexivity.
  - exists rows, ret, m', h'. split; [exact Hp|]. split; [exact Hg|].
    assert (length rows = 6%nat) as Hl by (by rewrite Hp).
    destruct (decide (rows = [])) as [->|_]; [done|]. destruct Hr as [-> Hi]. split; [done|]. by rewrite Hi, Hl.
Defined.

Lemma stack_never_notified_witness :
  handleSetAttributesMsg (λ _, 0) ex_count start = Some (NOK, ex_count, start).
Proof. exact (proj2 (proj1 (stack_never_notified true true (λ _, 0) start (rtc_refl _ _)) ex_count)). Defined.

End InterfaceStackClientReqHandler.

End InterfaceStack.
