(* ===== verification/ClientLocks.v ===== *)
(** * The locks of the profiles

    How the profiles take and leave their mutexes, as steps of threads that run
    interleaved: [Guarded] is the way of DHCPv4, MoCA and StorageService, which
    make the mutex at the first use (profiles/DHCPv4/Device_DHCPv4_Client.cpp);
    [Reinit] is the way of Ethernet, IP, InterfaceStack, Time and most others,
    which initialise it at every use
    (profiles/Ethernet/Device_Ethernet_Interface.cpp).  GLib's manual leaves the
    second initialisation undefined; here it does what it does to memory, and
    makes an unlocked mutex. *)
From stdpp Require Import base list numbers relations.
From Stdlib Require Import Lia.
From S2P Require Import Prelude.

(** ** Mutexes made at the first use *)
Module Guarded.

(** Where a thread is: before [getLock], having found no mutex, about to read
    the pointer, waiting for the mutex it read, between the two calls. *)
Inductive pc : Type :=
  | outside
  | saw_null
  | checked
  | waiting (p : nat)
  | inside.

(** The mutexes made, with their owners; the pointer; the threads. *)
Record state := mkState { mutexes : list (option nat); m_mutex : option nat; threads : list pc }.

(** [getLock]: the test, [g_mutex_new], the read of the pointer, the lock.
    [releaseLock]: the mutex that the pointer has then is unlocked. *)
Inductive step : state → state → Prop :=
  | getLock_null i ms ts :
      ts !! i = Some outside →
      step (mkState ms None ts) (mkState ms None (<[i := saw_null]> ts))
  | getLock_some i ms p ts :
      ts !! i = Some outside →
      step (mkState ms (Some p) ts) (mkState ms (Some p) (<[i := checked]> ts))
  | getLock_new i ms o ts :
      ts !! i = Some saw_null →
      step (mkState ms o ts) (mkState (ms ++ [None]) (Some (length ms)) (<[i := checked]> ts))
  | getLock_read i ms p ts :
      ts !! i = Some checked →
      step (mkState ms (Some p) ts) (mkState ms (Some p) (<[i := waiting p]> ts))
  | getLock_lock i ms o p ts :
      ts !! i = Some (waiting p) → ms !! p = Some None →
      step (mkState ms o ts) (mkState (<[p := Some i]> ms) o (<[i := inside]> ts))
  | releaseLock_unlock i ms p ts :
      ts !! i = Some inside →
      step (mkState ms (Some p) ts) (mkState (<[p := None]> ms) (Some p) (<[i := outside]> ts)).

Definition start (n : nat) (made : bool) : state :=
  if made then mkState [None] (Some 0) (replicate n outside) else mkState [] None (replicate n outside).

(** No two threads are between the calls. *)
Definition exclusive (s : state) : Prop :=
  ∀ i j, threads s !! i = Some inside → threads s !! j = Some inside → i = j.

(** The state once the mutex is there. *)
Record inv (s : state) : Prop := {
  inv_mutex : ∃ o, mutexes s = [o] ∧ ∀ i, threads s !! i = Some inside ↔ o = Some i;
  inv_pointer : m_mutex s = Some 0;
  inv_threads : ∀ i x, threads s !! i = Some x →
    match x with saw_null => False | waiting p => p = 0 | _ => True end
}.

Lemma insert_pc (ts : list pc) i x j y :
  <[i := x]> ts !! j = Some y → (i = j ∧ y = x) ∨ (i ≠ j ∧ ts !! j = Some y).
Proof. intros [(-> & <- & _)|[Hn Hj]]%list_lookup_insert_Some; [by left|by right]. Qed.

Lemma insert_pc_same (ts : list pc) i x y : ts !! i = Some y → <[i := x]> ts !! i = Some x.
Proof. intros Hi. apply list_lookup_insert_eq. by eapply lookup_lt_Some. Qed.

Lemma insert_inside (ts : list pc) i x y o :
  ts !! i = Some y → x ≠ inside → y ≠ inside → (∀ j, ts !! j = Some inside ↔ o = Some j) →
  ∀ j, <[i := x]> ts !! j = Some inside ↔ o = Some j.
Proof.
  intros Hi Hx Hy Ho j. rewrite <- Ho. split.
  - intros [[-> E]|[_ Hj]]%insert_pc; [by destruct Hx|done].
  - intros Hj. destruct (decide (i = j)) as [->|Hne]; [congruence|]. by rewrite list_lookup_insert_ne.
Qed.

Lemma step_inv s s' : inv s → step s s' → inv s'.
Proof.
  intros [(o & Hm & Ho) Hp Ht] Hs.
  inversion Hs as [i ms ts Hi|i ms p ts Hi|i ms o' ts Hi|i ms p ts Hi|i ms o' p ts Hi Hl|i ms p ts Hi]; subst;
    cbn [mutexes m_mutex threads] in *; simplify_eq.
  - constructor; cbn [mutexes m_mutex threads]; [|done|].
    + exists o. split; [done|]. by eapply insert_inside.
    + intros j x [[-> ->]|[_ Hj]]%insert_pc; [done|by eapply Ht].
  - destruct (Ht i _ Hi).
  - constructor; cbn [mutexes m_mutex threads]; [|done|].
    + exists o. split; [done|]. by eapply insert_inside.
    + intros j x [[-> ->]|[_ Hj]]%insert_pc; [done|by eapply Ht].
  - pose proof (Ht i _ Hi) as ->. cbn in Hl. injection Hl as ->.
    constructor; cbn [mutexes m_mutex threads]; [|done|].
    + exists (Some i). split; [done|]. intros j. split.
      * intros [[-> _]|[_ Hj]]%insert_pc; [done|]. by apply Ho in Hj.
      * intros [= <-]. by eapply insert_pc_same.
    + intros j x [[-> ->]|[_ Hj]]%insert_pc; [done|by eapply Ht].
  - constructor; cbn [mutexes m_mutex threads]; [|done|].
    + exists None. split; [done|]. intros j. split; [|done].
      intros [[_ E]|[Hne Hj]]%insert_pc; [done|]. apply Ho in Hi, Hj. congruence.
    + intros j x [[-> ->]|[_ Hj]]%insert_pc; [done|by eapply Ht].
Qed.

Lemma start_inv n : inv (start n true).
Proof.
  constructor; cbn [start mutexes m_mutex threads].
  - exists None. split; [done|]. intros i. split; [|done]. by intros [? _]%lookup_replicate.
  - done.
  - by intros i x [-> _]%lookup_replicate.
Qed.

(** Once the mutex has been made it does its work: whatever the threads do, no two of
    them are between getLock and releaseLock.  At the first use it does not: two
    threads that both find no mutex make one each, and are both inside. *)
Theorem guarded_exclusion n :
  (∀ s, rtc step (start n true) s → exclusive s)
  ∧ ((2 ≤ n)%nat → ∃ s, rtc step (start n false) s ∧ ¬ exclusive s).
Proof.
  split.
  - intros s Hs.
    assert (∀ x y, rtc step x y → inv x → inv y) as Hrtc.
    { intros x y. induction 1 as [|x y z Hxy _ IH]; [done|]. intros Hi. apply IH. by eapply step_inv. }
    destruct (Hrtc _ _ Hs (start_inv n)) as [(o & _ & Ho) _ _]. intros i j Hi%Ho Hj%Ho. congruence.
  - intros Hn. destruct n as [|[|n]]; [lia|lia|].
    exists (mkState [Some 0; Some 1] (Some 1) (inside :: inside :: replicate n outside)). split.
    + eapply rtc_l; [by apply (getLock_null 0)|]. eapply rtc_l; [by apply (getLock_null 1)|].
      eapply rtc_l; [by apply (getLock_new 0)|]. eapply rtc_l; [by apply (getLock_read 0)|].
      eapply rtc_l; [by apply (getLock_lock 0 _ _ 0)|]. eapply rtc_l; [by apply (getLock_new 1)|].
      eapply rtc_l; [by apply (getLock_read 1)|]. eapply rtc_l; [by apply (getLock_lock 1 _ _ 1)|].
      apply rtc_refl.
    + intros He. by specialize (He 0 1 eq_refl eq_refl).
Qed.

Lemma guarded_exclusion_witness : ∃ s, rtc step (start 2 false) s ∧ ¬ exclusive s.
Proof. apply (proj2 (guarded_exclusion 2)). lia. Defined.

End Guarded.

(** ** Mutexes initialised at every use *)
Module Reinit.

Inductive pc : Type := outside | initialised | inside.

(** The owner of the mutex, and the threads. *)
Record state := mkState { m_mutex : option nat; threads : list pc }.

Definition g_mutex_init (m : option nat) : option nat := None.
Definition g_mutex_unlock (m : option nat) : option nat := None.

Inductive step : state → state → Prop :=
  | getLock_init i m ts :
      ts !! i = Some outside →
      step (mkState m ts) (mkState (g_mutex_init m) (<[i := initialised]> ts))
  | getLock_lock i ts :
      ts !! i = Some initialised →
      step (mkState None ts) (mkState (Some i) (<[i := inside]> ts))
  | releaseLock i m ts :
      ts !! i = Some inside →
      step (mkState m ts) (mkState (g_mutex_unlock m) (<[i := outside]> ts)).

(** A lock that is initialised at every use excludes nobody: any number of threads can
    be between getLock and releaseLock at the same time, starting from a state
    where none is. *)
Theorem reinit_excludes_nobody n m :
  ∃ o, rtc step (mkState m (replicate n outside)) (mkState o (replicate n inside)).
Proof.
  assert (∀ k l m, ∃ o, rtc step (mkState m (replicate k inside ++ replicate l outside))
                          (mkState o (replicate k inside ++ replicate l inside))) as H.
  { intros k l. revert k. induction l as [|l IH]; intros k m'; [by exists m'|].
    destruct (IH (S k) (Some k)) as [o Ho]. exists o.
    assert (∀ x (r : list pc) y, <[k := y]> (replicate k inside ++ x :: r) = replicate k inside ++ y :: r) as Hins.
    { intros x r y. rewrite insert_app_r_alt by by rewrite length_replicate.
      by rewrite length_replicate, Nat.sub_diag. }
    assert (∀ x (r : list pc), (replicate k inside ++ x :: r) !! k = Some x) as Hlk.
    { intros x r. rewrite lookup_app_r by by rewrite length_replicate.
      by rewrite length_replicate, Nat.sub_diag. }
    assert (∀ r : list pc, replicate (S k) inside ++ r = replicate k inside ++ inside :: r) as Hs.
    { intros r. rewrite replicate_S_end, <- app_assoc. done. }
    eapply rtc_l; [by apply (getLock_init k), Hlk|]. cbn [replicate]. rewrite Hins.
    eapply rtc_l; [by apply (getLock_lock k), Hlk|]. rewrite Hins, <- Hs.
    rewrite Hs, <- Hs. rewrite Hs in Ho. rewrite Hs in Ho. rewrite Hs. exact Ho. }
  apply (H 0%nat n m).
Qed.

End Reinit.
