(* ===== verification/UpdateHandler.v ===== *)
(** * The update thread

    [updateHandler] models handlers/src/hostIf_updateHandler.cpp: the rounds of
    the thread that asks every manager for changes, the broadcast of a change,
    which is also a notification to the cloud when parodus is built in, and the
    events for instances that came or went. *)
From stdpp Require Import base list strings numbers.
From Stdlib Require Import Ascii ZArith Lia.
From S2P Require Import Prelude HostIf MsgHandler FrontEnd Webpa NotificationHandler Notify.
Import NotificationHandler.

#[local] Arguments streq : simpl never.

Module updateHandler.

(** ** The rounds *)

(** What is built in. *)
Record options := mkOptions {
  USE_MoCA_PROFILE : bool;
  USE_DHCPv4_PROFILE : bool;
  USE_INTFSTACK_PROFILE : bool;
  USE_XRDK_BT_PROFILE : bool
}.

Inductive Updater : Type :=
  | MoCAClientReqHandler | EthernetClientReqHandler | IPClientReqHandler | DeviceClientReqHandler
  | DHCPv4ClientReqHandler | InterfaceStackClientReqHandler | hostIf_DeviceInfoRdk_xBT.

Definition only (b : bool) (u : Updater) : list Updater := if b then [u] else [].

(** The order within a round. *)
Definition updaters (o : options) : list Updater :=
  only (USE_MoCA_PROFILE o) MoCAClientReqHandler
  ++ [EthernetClientReqHandler; IPClientReqHandler; DeviceClientReqHandler]
  ++ only (USE_DHCPv4_PROFILE o) DHCPv4ClientReqHandler
  ++ only (USE_INTFSTACK_PROFILE o) InterfaceStackClientReqHandler
  ++ only (USE_XRDK_BT_PROFILE o) hostIf_DeviceInfoRdk_xBT.

(** [reset] leaves DHCPv4 out. *)
Definition resetters (o : options) : list Updater :=
  only (USE_MoCA_PROFILE o) MoCAClientReqHandler
  ++ [EthernetClientReqHandler; IPClientReqHandler; DeviceClientReqHandler]
  ++ only (USE_INTFSTACK_PROFILE o) InterfaceStackClientReqHandler
  ++ only (USE_XRDK_BT_PROFILE o) hostIf_DeviceInfoRdk_xBT.

Section rounds.
Context {D : Type} (o : options).
Variable checkForUpdates resetOne : Updater → D → D.

Definition round (d : D) : D := foldl (λ d u, checkForUpdates u d) d (updaters o).

Definition reset (d : D) : D := foldl (λ d u, resetOne u d) d (resetters o).

(** [stopped i] is what the i-th look at the flag finds.  [None]: the fuel is
    used up. *)
Fixpoint run (fuel : nat) (stopped : nat → bool) (i : nat) (d : D) : option D :=
  match fuel with
  | O => None
  | S fuel' => if stopped i then Some d else run fuel' stopped (S i) (round d)
  end.
End rounds.

(** ** Changes *)
Inductive IARM_EventId_t : Type := EVENT_ADD | EVENT_REMOVE | EVENT_VALUECHANGED.

(** What is broadcast, and the notification to the cloud when there is one.
    [None]: the character before an empty name is read. *)
Definition notifyCallback (PARODUS_ENABLE : bool) (device_id : string) (event_type : IARM_EventId_t)
    (paramName : string) (paramValue : option (list ascii)) (paramtype : HostIf_ParamType_t)
  : option (IARM_Bus_tr69HostIfMgr_EventData_t * option NotifyData) :=
  let eventData :=
    mkEvent (str_take (TR69HOSTIFMGR_MAX_PARAM_LEN - 1) paramName)
      (match paramValue with Some v => Webpa.fill (buf_str v) | None => zero_buffer end) paramtype in
  match PARODUS_ENABLE, event_type with
  | true, EVENT_VALUECHANGED =>
      c ← last_char paramName;
      Some (eventData, if Ascii.eqb c DOT then None else Some (pushValueChangeNotification device_id eventData))
  | _, _ => Some (eventData, None)
  end.

(** ** Instances that came or went *)

(** The path of an instance, in a buffer. *)
Definition instancePath (objectPath : string) (n : Z) : string :=
  str_take (TR69HOSTIFMGR_MAX_PARAM_LEN - 1) (objectPath +:+ dec n +:+ String DOT EmptyString).

Fixpoint send_removes (fuel : nat) (objectPath : string) (newValue savedValue : Z) : list Updates.event * Z :=
  match fuel with
  | O => ([], savedValue)
  | S fuel' =>
      if newValue <? savedValue then
        let '(evs, n) := send_removes fuel' objectPath newValue (savedValue - 1) in
        (Updates.EVENT_REMOVE (instancePath objectPath savedValue) :: evs, n)
      else ([], savedValue)
  end.

Fixpoint send_adds (fuel : nat) (objectPath : string) (newValue savedValue : Z) : list Updates.event * Z :=
  match fuel with
  | O => ([], savedValue)
  | S fuel' =>
      if savedValue <? newValue then
        let '(evs, n) := send_adds fuel' objectPath newValue (savedValue + 1) in
        (Updates.EVENT_ADD objectPath :: evs, n)
      else ([], savedValue)
  end.

(** The events, and the saved count afterwards. *)
Definition sendAddRemoveEvents (newValue savedValue : Z) (objectPath : string) : list Updates.event * Z :=
  let fuel := Z.to_nat (Z.abs (savedValue - newValue)) in
  let '(evs1, n1) := send_removes fuel objectPath newValue savedValue in
  let '(evs2, n2) := send_adds fuel objectPath newValue n1 in (evs1 ++ evs2, n2).

(** ** Lemmas *)
Lemma send_removes_run fuel p new saved :
  new <= saved → (Z.to_nat (saved - new) ≤ fuel)%nat →
  send_removes fuel p new saved
  = (map (λ i, Updates.EVENT_REMOVE (instancePath p (saved - Z.of_nat i))) (seq 0 (Z.to_nat (saved - new))), new).
Proof.
  revert saved. induction fuel as [|fuel IH]; intros saved Hn Hf.
  { assert (saved = new) as -> by lia. by rewrite Z.sub_diag. }
  simpl. destruct (Z.ltb_spec new saved).
  - rewrite IH by lia. replace (Z.to_nat (saved - new)) with (S (Z.to_nat (saved - 1 - new))) by lia.
    cbn [seq map]. rewrite Z.sub_0_r. f_equal. f_equal. rewrite <- (seq_shift _ 0), map_map.
    apply map_ext. intros i. do 2 f_equal. lia.
  - assert (saved = new) as -> by lia. by rewrite Z.sub_diag.
Qed.

Lemma send_adds_run fuel p new saved :
  saved <= new → (Z.to_nat (new - saved) ≤ fuel)%nat →
  send_adds fuel p new saved = (replicate (Z.to_nat (new - saved)) (Updates.EVENT_ADD p), new).
Proof.
  revert saved. induction fuel as [|fuel IH]; intros saved Hn Hf.
  { assert (saved = new) as -> by lia. by rewrite Z.sub_diag. }
  simpl. destruct (Z.ltb_spec saved new).
  - rewrite IH by lia. by replace (Z.to_nat (new - saved)) with (S (Z.to_nat (new - (saved + 1)))) by lia.
  - assert (saved = new) as -> by lia. by rewrite Z.sub_diag.
Qed.

Lemma send_adds_none fuel p new saved : new <= saved → send_adds fuel p new saved = ([], saved).
Proof. intros Hn. destruct fuel; [done|]. simpl. by rewrite (proj2 (Z.ltb_ge _ _)) by lia. Qed.

Lemma send_removes_none fuel p new saved : saved <= new → send_removes fuel p new saved = ([], saved).
Proof. intros Hn. destruct fuel; [done|]. simpl. by rewrite (proj2 (Z.ltb_ge _ _)) by lia. Qed.

(** The first four bytes of a copied C string. *)
Lemma take_fill s :
  take 4 (Webpa.fill s) = take 4 (String.list_ascii_of_string s ++ replicate 4 NUL).
Proof.
  unfold Webpa.fill. set (l := String.list_ascii_of_string s).
  assert (4 ≤ Webpa.MAX_PARAM_LENGTH - 1)%nat as Hm by (apply Nat.leb_le; vm_compute; reflexivity).
  destruct (decide (length l ≤ 4)%nat) as [Hl|Hl].
  - rewrite (take_ge l) by lia. rewrite !firstn_app. f_equal. rewrite !take_replicate. f_equal. lia.
  - rewrite !take_app_le by (rewrite ?length_take; lia). by rewrite take_take, Nat.min_l by lia.
Qed.

Lemma byte_of_nul z : byte_of z = NUL ↔ z mod 256 = 0.
Proof.
  pose proof (byte_val_of z) as E. split.
  - intros Hz. rewrite Hz in E. by vm_compute in E.
  - intros Hz. unfold byte_of. by rewrite Hz.
Qed.

Lemma byte_of_not_nul z : z mod 256 ≠ 0 → Ascii.eqb (byte_of z) NUL = false.
Proof. intros Hz. apply Ascii.eqb_neq. by rewrite byte_of_nul. Qed.

(** The number that an integer becomes when its bytes are copied as a C string. *)
Definition shown (z : Z) : Z :=
  if z mod 256 =? 0 then 0
  else if z / 256 mod 256 =? 0 then z mod 256
  else if z / 256 / 256 mod 256 =? 0 then z mod 65536
  else z.

Lemma get_int_copied buf z :
  - 2 ^ 31 <= z < 2 ^ 31 → get_int (Webpa.fill (buf_str (put_int buf z))) = shown z.
Proof.
  intros Hz. unfold get_int. rewrite take_fill. unfold put_int, poke, buf_str.
  generalize (drop (length (le_bytes 4 z)) buf) as rest. intros rest. cbn [le_bytes app].
  set (z1 := z / 256). set (z2 := z1 / 256). set (z3 := z2 / 256).
  pose proof (Z.mod_pos_bound z 256 eq_refl) as B0. pose proof (Z.mod_pos_bound z1 256 eq_refl) as B1.
  pose proof (Z.rem_mul_r z 256 256 ltac:(done) eq_refl) as E65536. fold z1 in E65536.
  change (256 * 256) with 65536 in E65536.
  cbn [String.string_of_list_ascii c_str]. unfold shown. fold z1 z2.
  destruct (Z.eqb_spec (z mod 256) 0) as [E0|E0].
  { rewrite (proj2 (byte_of_nul z) E0), Ascii.eqb_refl. by vm_compute. }
  rewrite (byte_of_not_nul z) by done. cbn [String.list_ascii_of_string].
  destruct (Z.eqb_spec (z1 mod 256) 0) as [E1|E1].
  { rewrite (proj2 (byte_of_nul z1) E1), Ascii.eqb_refl. cbn [String.list_ascii_of_string app take replicate le_val].
    rewrite byte_val_of. change (byte_val NUL) with 0. rewrite int32_id; [lia|]. lia. }
  rewrite (byte_of_not_nul z1) by done. cbn [String.list_ascii_of_string].
  destruct (Z.eqb_spec (z2 mod 256) 0) as [E2|E2].
  { rewrite (proj2 (byte_of_nul z2) E2), Ascii.eqb_refl. cbn [String.list_ascii_of_string app take replicate le_val].
    rewrite !byte_val_of. change (byte_val NUL) with 0. rewrite int32_id by lia. lia. }
  rewrite (byte_of_not_nul z2) by done. cbn [String.list_ascii_of_string].
  assert (int32 (le_val (le_bytes 4 z)) = z) as Ez by (rewrite le_val_le_bytes, int32_mod; by apply int32_id).
  cbn [le_bytes] in Ez. fold z1 z2 z3 in Ez.
  destruct (Z.eq_dec (z3 mod 256) 0) as [E3|E3].
  { rewrite (proj2 (byte_of_nul z3) E3) in Ez |- *. by rewrite Ascii.eqb_refl. }
  by rewrite (byte_of_not_nul z3) by done.
Qed.

(** ** Properties *)

(** The loops end with the saved count equal to the new one, and report exactly
    the instances that came or went: the removed ones from the highest number
    down to one more than the new count, an add event without a number for each
    new one. *)
Theorem add_remove_events new saved p :
  sendAddRemoveEvents new saved p
  = (if new <=? saved
     then map (λ i, Updates.EVENT_REMOVE (instancePath p (saved - Z.of_nat i))) (seq 0 (Z.to_nat (saved - new)))
     else replicate (Z.to_nat (new - saved)) (Updates.EVENT_ADD p), new).
Proof.
  unfold sendAddRemoveEvents. destruct (Z.leb_spec new saved).
  - rewrite send_removes_run, send_adds_none by lia. by rewrite app_nil_r.
  - rewrite send_removes_none, send_adds_run by lia. done.
Qed.

(** The thread ends: with the flag set before the n-th look and not earlier, it
    runs n rounds and no more. *)
Theorem update_thread_stops {D} (o : options) (check : Updater → D → D) stopped n d :
  stopped n = true → (∀ k, (k < n)%nat → stopped k = false) →
  run o check (S n) stopped 0 d = Some (Nat.iter n (round o check) d).
Proof.
  intros Hn Hb.
  assert (∀ m i d, (i + m = n)%nat → run o check (S m) stopped i d = Some (Nat.iter m (round o check) d)) as E.
  { induction m as [|m IH]; intros i e Hi; cbn [run].
    - rewrite Nat.add_0_r in Hi. subst i. by rewrite Hn.
    - rewrite Hb by lia. fold (run o check (S m)). change (run o check (S m) stopped (S i) (round o check e)
        = Some (Nat.iter (S m) (round o check) e)). rewrite IH by lia. f_equal. by rewrite Nat.iter_swap. }
  by apply E.
Qed.

(** A change of an integer is notified with the bytes of the number copied as a
    string: what follows its first zero byte is lost.  A number is notified as
    it is when no zero byte is below another one, so 1 to 255 are, and a
    multiple of 256 is notified as zero. *)
Theorem integer_change_notified device_id n buf z :
  last_char n ≠ None → last_char n ≠ Some DOT → (String.length n < TR69HOSTIFMGR_MAX_PARAM_LEN)%nat →
  - 2 ^ 31 <= z < 2 ^ 31 →
  (∃ ev, notifyCallback true device_id EVENT_VALUECHANGED n (Some (put_int buf z)) hostIf_IntegerType
    = Some (ev, Some (mkNotify "event:VALUE_CHANGE_NOTIFICATION"
        [("device_id", JString device_id); ("datatype", JNumber 1); ("paramName", JString n);
         ("notificationType", JString "VALUE_CHANGE_NOTIFICATION"); ("paramValue", JNumber (shown z))]%string)))
  ∧ (0 <= z < 256 → shown z = z) ∧ (z mod 256 = 0 → shown z = 0).
Proof.
  intros Hn Hd Hl Hz. split; [|split].
  - unfold notifyCallback. destruct (last_char n) as [c|]; [|done]. cbn [mbind option_bind].
    destruct (Ascii.eqb_spec c DOT) as [->|]; [done|]. eexists. do 2 f_equal.
    unfold pushValueChangeNotification. cbn [ev_paramName ev_paramValue ev_paramtype converttoWalType].
    unfold addToJsonObject. rewrite get_int_copied by done.
    rewrite str_take_all by (unfold TR69HOSTIFMGR_MAX_PARAM_LEN in *; lia). done.
  - intros H. unfold shown. rewrite Z.mod_small by done. rewrite Z.div_small by done.
    destruct (Z.eqb_spec z 0); [done|]. done.
  - intros H. unfold shown. by rewrite H.
Qed.

Lemma update_thread_stops_witness :
  run (mkOptions false false false false) (λ u d, (d + 1)%nat) 3 (λ k, (2 <=? k)%nat) 0 0%nat = Some 6%nat.
Proof.
  refine (eq_trans (update_thread_stops (mkOptions false false false false) (λ u d, (d + 1)%nat)
    (λ k, (2 <=? k)%nat) 2 0%nat eq_refl _) eq_refl).
  intros k Hk. apply Nat.leb_gt. exact Hk.
Defined.

Lemma integer_change_notified_witness : shown 256 = 0 ∧ shown 255 = 255.
Proof.
  split.
  - refine (proj2 (proj2 (integer_change_notified "mac" "Device.A" zero_buffer 256 _ _ _ _)) _);
      [discriminate|discriminate|apply Nat.ltb_lt; vm_compute; reflexivity|lia|reflexivity].
  - refine (proj1 (proj2 (integer_change_notified "mac" "Device.A" zero_buffer 255 _ _ _ _)) _);
      [discriminate|discriminate|apply Nat.ltb_lt; vm_compute; reflexivity|lia|lia].
Defined.

End updateHandler.
