(* ===== verification/Network.v ===== *)
(** * The network as the kernel describes it

    [Network] models the functions of profiles/IP/Device_IP.cpp that number the
    interfaces for Device.IP.Interface, over what if_nameindex, if_indextoname and
    getifaddrs answer, and that count the ports in use. *)
From stdpp Require Import base list strings gmap.
From Stdlib Require Import Ascii ZArith Lia.
From S2P Require Import Prelude HostIf FileStore Webpa ProfileIO.
Import ProfileIO.

#[local] Arguments streq : simpl never.

Module Network.

(** ** What the kernel answers *)

(** An address with its mask, as their bytes; [other] is any other family. *)
Inductive sockaddr : Type :=
  | inet (address mask : list Z)
  | inet6 (address mask : list Z)
  | other.

(** An element of the list that getifaddrs makes; an interface may have no
    address, which is a null pointer. *)
Record ifaddrs := mkIfaddrs { ifa_name : string; ifa_addr : option sockaddr }.

(** [devices]: index and name of each device, in the order of if_nameindex;
    [nameindex_ok]: whether that call succeeds, [addrs] what getifaddrs makes when
    it does.  [up], [loopback], [mtu]: what the requests for flags and size answer,
    false and 0 when they fail. *)
Record net := mkNet {
  devices : list (Z * string);
  nameindex_ok : bool;
  addrs : option (list ifaddrs);
  up : string → bool;
  loopback : string → bool;
  mtu : string → Z
}.

Definition if_indextoname (n : net) (if_index : Z) : option string :=
  snd <$> List.find (λ d, d.1 =? if_index) (devices n).

Definition phy_if_list (n : net) : option (list (Z * string)) := if nameindex_ok n then Some (devices n) else None.

(** ** Physical and virtual interfaces *)
Definition getPhysicalInterfaceNumberOfEntries (l : list (Z * string)) : Z := Z.of_nat (length l).

(** Where two names part: what is left of each. *)
Fixpoint part (v p : string) : string * string :=
  match v, p with
  | String a v', String b p' => if Ascii.eqb a b then part v' p' else (v, p)
  | _, _ => (v, p)
  end.

(** A colon and a text that strtol reads to its end as a number that is not
    negative as an int. *)
Definition virtual_suffix (v : string) : bool :=
  match v with
  | String c number => let '(value, tail) := strtol number in Ascii.eqb c ":" && is_empty tail && (0 <=? int32 value)
  | EmptyString => false
  end.

(** One name against the list of devices, up to the device it is the name of: what
    is left of it for each device before that. *)
Fixpoint remainders (l : list (Z * string)) (name : string) : list string :=
  match l with
  | [] => []
  | (_, d) :: l' =>
      let '(v, p) := part name d in
      if is_empty v && is_empty p then [] else v :: remainders l' name
  end.

(** The counting loop stops at the first device that fits. *)
Definition is_virtual (l : list (Z * string)) (name : string) : bool := existsb virtual_suffix (remainders l name).

(** The loop that looks for a name goes on, and counts a name once for each device
    that fits. *)
Definition times_virtual (l : list (Z * string)) (name : string) : Z :=
  Z.of_nat (length (filter (λ v, virtual_suffix v) (remainders l name))).

(** [None]: the address of an interface without one is read. *)
Fixpoint count_virtual (l : list (Z * string)) (ifa : list ifaddrs) : option Z :=
  match ifa with
  | [] => Some 0
  | mkIfaddrs name a :: ifa' =>
      family ← a;
      rest ← count_virtual l ifa';
      Some (match family with inet _ _ => if is_virtual l name then 1 + rest else rest | _ => rest end)
  end.

Definition getVirtualInterfaceNumberOfEntries (n : net) (l : list (Z * string)) : option Z :=
  match addrs n with None => Some 0 | Some ifa => count_virtual l ifa end.

Definition IF_NAMESIZE : nat := 16.

Fixpoint find_virtual (l : list (Z * string)) (ifa : list ifaddrs) (virtual_if_index : Z) : option string :=
  match ifa with
  | [] => None
  | mkIfaddrs name (Some (inet _ _)) :: ifa' =>
      let k := times_virtual l name in
      if (1 <=? virtual_if_index) && (virtual_if_index <=? k)
      then Some (if (String.length name <? IF_NAMESIZE)%nat then name else EmptyString)
      else find_virtual l ifa' (virtual_if_index - k)
  | _ :: ifa' => find_virtual l ifa' virtual_if_index
  end.

Definition getVirtualInterfaceName (n : net) (l : list (Z * string)) (virtual_if_index : Z) : option string :=
  ifa ← addrs n; find_virtual l ifa virtual_if_index.

(** ** The numbering *)
Definition getInterfaceName (n : net) (if_index : Z) : option string :=
  match if_indextoname n if_index with
  | Some name => Some name
  | None =>
      l ← phy_if_list n;
      let phy_if_count := getPhysicalInterfaceNumberOfEntries l in
      if phy_if_count <? if_index then getVirtualInterfaceName n l (if_index - phy_if_count) else None
  end.

Definition getInterfaceNumberOfEntries (n : net) : option Z :=
  match phy_if_list n with
  | None => Some 0
  | Some l => v ← getVirtualInterfaceNumberOfEntries n l; Some (getPhysicalInterfaceNumberOfEntries l + v)
  end.

(** What [refreshInterfaceName] leaves as the name of an instance. *)
Definition refreshInterfaceName (n : net) (dev_id : Z) : string := default EmptyString (getInterfaceName n dev_id).

(** ** Ports in use *)
Definition TCP_FILE : string := "/proc/net/tcp".

(** The words of a line. *)
Fixpoint words_from (cur : string) (s : string) : list string :=
  match s with
  | EmptyString => if is_empty cur then [] else [cur]
  | String c s' =>
      if is_space c then (if is_empty cur then words_from EmptyString s' else cur :: words_from EmptyString s')
      else words_from (cur +:+ String c EmptyString) s'
  end.
Definition words (s : string) : list string := words_from EmptyString s.

(** [field] after four extractions: one that fails leaves it as it is. *)
Definition fourth_field (line : string) : string := default EmptyString (last (take 4 (words line))).

Definition in_use (line : string) : bool := streq (fourth_field line) "0A" || streq (fourth_field line) "01".

Definition getNumOfActivePorts (w : env) : Z :=
  match read_file w TCP_FILE with
  | None => 0
  | Some content => Z.of_nat (length (filter (λ line, in_use line) (getlines content)))
  end.

(** ** Lemmas *)

(** A network whose devices the kernel numbers from one, where names part as the
    kernel makes them: a device's name has no colon and is no beginning of
    another's, and an IPv4 address belongs to a device or to an alias of one. *)
Record regular (n : net) (ifa : list ifaddrs) : Prop := {
  reg_index : nameindex_ok n = true;
  reg_numbers : (devices n).*1 = seqZ 1 (Z.of_nat (length (devices n)));
  reg_addrs : addrs n = Some ifa;
  reg_address : Forall (λ a, ifa_addr a ≠ None) ifa;
  reg_device : Forall (λ d, has_char ":" d.2 = false) (devices n);
  reg_nodup : NoDup (devices n).*2;
  reg_prefix : ∀ d e, d ∈ (devices n).*2 → e ∈ (devices n).*2 → starts_with d e = true → d = e;
  reg_alias : ∀ name a m, mkIfaddrs name (Some (inet a m)) ∈ ifa →
    (String.length name < IF_NAMESIZE)%nat
    ∧ (name ∈ (devices n).*2 ∨ ∃ d k, d ∈ (devices n).*2 ∧ 0 <= k < 2 ^ 31 ∧ name = d +:+ String ":" (dec k))
}.

(** The aliases that have an IPv4 address, in the order of the addresses. *)
Fixpoint aliases (ifa : list ifaddrs) : list string :=
  match ifa with
  | [] => []
  | mkIfaddrs name (Some (inet _ _)) :: ifa' => if has_char ":" name then name :: aliases ifa' else aliases ifa'
  | _ :: ifa' => aliases ifa'
  end.

Lemma part_app c v p : part (c +:+ v) (c +:+ p) = part v p.
Proof. induction c as [|a c IH]; [done|]. cbn [String.append part]. by rewrite Ascii.eqb_refl. Qed.

Lemma part_nil v : part v EmptyString = (v, EmptyString).
Proof. by destruct v. Qed.

(** What is left is what follows a common beginning. *)
Lemma part_common v p : ∃ c, v = c +:+ (part v p).1 ∧ p = c +:+ (part v p).2.
Proof.
  revert p. induction v as [|a v IH]; intros [|b p]; cbn [part]; try by exists EmptyString.
  destruct (Ascii.eqb_spec a b) as [->|]; [|by exists EmptyString].
  destruct (IH p) as (c & Hv & Hp). exists (String b c). cbn [String.append]. by rewrite <- Hv, <- Hp.
Qed.

Lemma part_refl s : part s s = (EmptyString, EmptyString).
Proof. rewrite <- (str_app_nil_r s) at 1 2. rewrite part_app. done. Qed.

Lemma virtual_suffix_colon v : has_char ":" v = false → virtual_suffix v = false.
Proof. destruct v as [|c v]; [done|]. cbn [has_char virtual_suffix]. intros [Hc _]%orb_false_elim.
  rewrite Ascii.eqb_sym, Hc. by destruct (strtol v). Qed.

Lemma virtual_suffix_dec k : 0 <= k < 2 ^ 31 → virtual_suffix (String ":" (dec k)) = true.
Proof.
  intros Hk. cbn [virtual_suffix]. rewrite strtol_dec by (unfold LONG_MIN, LONG_MAX; lia).
  rewrite Ascii.eqb_refl, int32_id by lia. cbn [is_empty andb]. lia.
Qed.

Lemma remainders_plain l name :
  has_char ":" name = false → Forall (λ v, virtual_suffix v = false) (remainders l name).
Proof.
  intros Hn. induction l as [|[i d] l IH]; [constructor|]. cbn [remainders].
  destruct (part_common name d) as (c & Hc & _). destruct (part name d) as [v p]. cbn [fst] in Hc.
  destruct (is_empty v && is_empty p); [constructor|]. constructor; [|done].
  apply virtual_suffix_colon. rewrite Hc, has_char_app in Hn. by apply orb_false_elim in Hn as [_ ?].
Qed.

(** An alias against a list of devices: each device other than its own leaves
    something that is no suffix of an alias. *)
Lemma remainders_alias l d k :
  has_char ":" d = false → 0 <= k < 2 ^ 31 →
  Forall (λ e, has_char ":" e.2 = false ∧ (starts_with d e.2 = true → d = e.2)) l →
  filter (λ v, virtual_suffix v) (remainders l (d +:+ String ":" (dec k)))
  = (λ _, String ":" (dec k)) <$> filter (λ e, d = e.2) l.
Proof.
  intros Hd Hk. induction 1 as [|[i e] l [He Hpre] _ IH]; [done|]. cbn [remainders snd] in *.
  destruct (part_common (d +:+ String ":" (dec k)) e) as (c & Hc & Hce).
  destruct (part (d +:+ String ":" (dec k)) e) as [v p] eqn:Hp. cbn [fst snd] in Hc, Hce.
  assert (is_empty v && is_empty p = false) as ->.
  { destruct v; [|done]. destruct p; [|done]. rewrite str_app_nil_r in Hc, Hce. subst c.
    rewrite Hce, has_char_app in He. cbn [has_char] in He. by rewrite Ascii.eqb_refl, orb_true_r in He. }
  rewrite !filter_cons, IH. cbn [snd]. destruct (decide (d = e)) as [->|Hne].
  - rewrite <- (str_app_nil_r e) in Hp at 2. rewrite part_app, part_nil in Hp. injection Hp as <- <-.
    rewrite decide_True by (rewrite virtual_suffix_dec; done). done.
  - rewrite decide_False; [done|]. intros Hv. destruct v as [|x v]; [done|].
    assert (x = ":"%char) as ->.
    { cbn [virtual_suffix] in Hv. destruct (strtol v). destruct (Ascii.eqb_spec x ":"); [done|]. by destruct Hv. }
    apply Hne, Hpre. apply starts_with_true.
    assert (∀ a b s t, has_char ":" a = false → has_char ":" b = false →
              a +:+ String ":" s = b +:+ String ":" t → a = b) as Hsplit.
    { intros a b s t Ha Hb E. pose proof (split_at_app ":" a s Ha) as E1. rewrite E, split_at_app in E1 by done. congruence. }
    exists p. rewrite Hce. f_equal. symmetry. eapply Hsplit; [done| |exact Hc].
    rewrite Hce, has_char_app in He. by apply orb_false_elim in He as [? _].
Qed.

Lemma existsb_filter {A} (f : A → bool) l : existsb f l = negb (Nat.eqb (length (filter (λ x, f x) l)) 0).
Proof. induction l as [|x l IH]; [done|]. cbn [existsb]. rewrite filter_cons, IH. by destruct (f x). Qed.

Lemma filter_none {A} (f : A → bool) l : Forall (λ x, f x = false) l → filter (λ x, f x) l = [].
Proof. induction 1 as [|x l Hx _ IH]; [done|]. rewrite filter_cons, Hx. exact IH. Qed.

Lemma filter_unique (d : string) (l : list (Z * string)) :
  NoDup l.*2 → d ∈ l.*2 → length (filter (λ e, d = e.2) l) = 1%nat.
Proof.
  induction l as [|[i e] l IH]; intros Hn Hd; [by apply not_elem_of_nil in Hd|].
  cbn [fmap list_fmap snd] in *. apply NoDup_cons in Hn as [Hni Hn]. rewrite filter_cons. cbn [snd].
  destruct (decide (d = e)) as [->|Hne].
  - cbn [length]. f_equal. destruct (filter (λ e', e = e'.2) l) as [|e' l'] eqn:E; [done|].
    assert (e' ∈ filter (λ e', e = e'.2) l) as [-> He']%list_elem_of_filter by (rewrite E; left).
    destruct Hni. by apply list_elem_of_fmap_2.
  - apply IH; [done|]. by apply elem_of_cons in Hd as [|].
Qed.

Section regular_net.
Context (n : net) (ifa : list ifaddrs) (Hreg : regular n ifa).

Lemma reg_elem d : d ∈ (devices n).*2 → has_char ":" d = false.
Proof. intros (e & -> & He)%list_elem_of_fmap. exact (proj1 (Forall_forall _ _) (reg_device _ _ Hreg) e He). Qed.

(** An IPv4 address counts as an alias exactly when its name has a colon, and once. *)
Lemma regular_times name a m :
  mkIfaddrs name (Some (inet a m)) ∈ ifa →
  length (filter (λ v, virtual_suffix v) (remainders (devices n) name)) = if has_char ":" name then 1%nat else 0%nat.
Proof.
  intros Hin. destruct (reg_alias _ _ Hreg name a m Hin) as [_ [Hd|(d & k & Hd & Hk & ->)]].
  - rewrite (reg_elem name Hd), filter_none; [done|]. by apply remainders_plain, reg_elem.
  - rewrite has_char_app. cbn [has_char]. rewrite Ascii.eqb_refl. cbn [orb]. rewrite orb_true_r.
    rewrite remainders_alias; [|by apply reg_elem|done|].
    + rewrite length_fmap. apply filter_unique; [apply Hreg|done].
    + apply Forall_forall. intros e He. assert (e.2 ∈ (devices n).*2) as He2 by by apply list_elem_of_fmap_2.
      split; [by apply reg_elem|]. by apply Hreg.
Qed.

Lemma regular_count l : l ⊆ ifa → count_virtual (devices n) l = Some (Z.of_nat (length (aliases l))).
Proof.
  induction l as [|[name a] l IH]; intros Hl; [done|]. cbn [count_virtual aliases].
  assert (mkIfaddrs name a ∈ ifa) as Hin by (apply Hl; left).
  pose proof (proj1 (Forall_forall _ _) (reg_address _ _ Hreg) _ Hin) as Ha. cbn in Ha. destruct a as [s|]; [|done].
  cbn [mbind option_bind]. rewrite IH by (intros x Hx; apply Hl; by right). cbn [option_bind mbind].
  destruct s as [a m|a m|]; [|done|done]. unfold is_virtual. rewrite existsb_filter, (regular_times name a m Hin).
  destruct (has_char ":" name); [|done]. cbn [Nat.eqb negb length]. f_equal. lia.
Qed.

Lemma regular_find l k :
  l ⊆ ifa → 1 <= k → find_virtual (devices n) l k = aliases l !! Z.to_nat (k - 1).
Proof.
  revert k. induction l as [|[name a] l IH]; intros k Hl Hk; [done|]. cbn [find_virtual aliases].
  assert (l ⊆ ifa) as Hl' by (intros x Hx; apply Hl; by right). destruct a as [[a m|a m|]|]; [|by apply IH..].
  assert (mkIfaddrs name (Some (inet a m)) ∈ ifa) as Hin by (apply Hl; left).
  unfold times_virtual. rewrite (regular_times name a m Hin).
  destruct (reg_alias _ _ Hreg name a m Hin) as [Hlen _]. rewrite (proj2 (Nat.ltb_lt _ _) Hlen).
  destruct (has_char ":" name).
  - destruct (Z.leb_spec 1 k); [|lia]. destruct (Z.leb_spec k (Z.of_nat 1)); cbn [andb].
    + assert (k = 1) as -> by lia. done.
    + rewrite IH by (done || lia). replace (Z.to_nat (k - 1)) with (S (Z.to_nat (k - Z.of_nat 1 - 1))) by lia. done.
  - rewrite (proj2 (Z.leb_gt k (Z.of_nat 0))) by lia. rewrite andb_false_r. rewrite Z.sub_0_r. by apply IH.
Qed.

Lemma find_numbered (l : list (Z * string)) s i :
  l.*1 = seqZ s (Z.of_nat (length l)) → s <= i →
  snd <$> List.find (λ d, d.1 =? i) l = l.*2 !! Z.to_nat (i - s).
Proof.
  revert s. induction l as [|[j d] l IH]; intros s Hl Hi; [done|]. cbn [length] in Hl.
  rewrite Nat2Z.inj_succ, seqZ_cons in Hl by lia. injection Hl as -> Hl. rewrite Z.pred_succ in Hl.
  cbn [List.find fst]. destruct (Z.eqb_spec s i) as [->|Hne].
  - rewrite Z.sub_diag. done.
  - rewrite (IH (Z.succ s)) by (done || lia). replace (Z.to_nat (i - s)) with (S (Z.to_nat (i - Z.succ s))) by lia. done.
Qed.

Lemma find_below (l : list (Z * string)) s i :
  l.*1 = seqZ s (Z.of_nat (length l)) → i < s → List.find (λ d, d.1 =? i) l = None.
Proof.
  revert s. induction l as [|[j d] l IH]; intros s Hl Hi; [done|]. cbn [length] in Hl.
  rewrite Nat2Z.inj_succ, seqZ_cons in Hl by lia. injection Hl as -> Hl. rewrite Z.pred_succ in Hl.
  cbn [List.find fst]. rewrite (proj2 (Z.eqb_neq s i)) by lia. apply (IH (Z.succ s)); [done|lia].
Qed.

(** The names behind Device.IP.Interface.{i}. *)
Definition interface_names : list string := (devices n).*2 ++ aliases ifa.

Lemma regular_entries : getInterfaceNumberOfEntries n = Some (Z.of_nat (length interface_names)).
Proof.
  unfold interface_names, getInterfaceNumberOfEntries, phy_if_list, getVirtualInterfaceNumberOfEntries, getPhysicalInterfaceNumberOfEntries.
  rewrite (reg_index _ _ Hreg), (reg_addrs _ _ Hreg), regular_count by done. cbn [mbind option_bind].
  rewrite length_app, length_fmap. f_equal. lia.
Qed.

Lemma regular_name i :
  getInterfaceName n i = if 1 <=? i then interface_names !! Z.to_nat (i - 1) else None.
Proof.
  pose proof (reg_numbers _ _ Hreg) as Hnum. unfold interface_names.
  unfold getInterfaceName, if_indextoname. destruct (Z.leb_spec 1 i) as [Hi|Hi].
  - rewrite (find_numbered _ 1) by done. destruct ((devices n).*2 !! Z.to_nat (i - 1)) as [d|] eqn:Hd.
    { symmetry. by apply lookup_app_l_Some. }
    apply lookup_ge_None in Hd. rewrite length_fmap in Hd. unfold phy_if_list. rewrite (reg_index _ _ Hreg).
    cbn [mbind option_bind]. unfold getPhysicalInterfaceNumberOfEntries.
    rewrite lookup_app_r by (rewrite length_fmap; lia). rewrite length_fmap.
    rewrite (proj2 (Z.ltb_lt _ _)) by lia. unfold getVirtualInterfaceName. rewrite (reg_addrs _ _ Hreg).
    cbn [mbind option_bind]. rewrite regular_find by (done || lia). f_equal. lia.
  - rewrite (find_below _ 1) by done. cbn [fmap option_fmap option_map]. unfold phy_if_list.
    rewrite (reg_index _ _ Hreg). cbn [mbind option_bind]. unfold getPhysicalInterfaceNumberOfEntries.
    by rewrite (proj2 (Z.ltb_ge _ _)) by lia.
Qed.

(** C17. The numbering of the interfaces: on a regular network the instances are the
    devices in the kernel's order and after them the aliases in the order of their
    addresses, as many as the number of entries says; below and above there is no
    name. *)
Theorem interfaces_numbered i :
  getInterfaceNumberOfEntries n = Some (Z.of_nat (length interface_names))
  ∧ getInterfaceName n i = if 1 <=? i then interface_names !! Z.to_nat (i - 1) else None.
Proof. split; [apply regular_entries|apply regular_name]. Qed.

End regular_net.

(** *** A concrete network *)
Definition lo : ifaddrs := mkIfaddrs "lo" (Some (inet [127; 0; 0; 1] [255; 0; 0; 0])).
Definition v4 (name : string) (last : Z) : ifaddrs := mkIfaddrs name (Some (inet [10; 0; 0; last] [255; 255; 255; 0])).
Definition link_local : list Z := [254; 128; 0; 0; 0; 0; 0; 0; 2; 0; 0; 0; 0; 0; 0; 1].
Definition mask64 : list Z := replicate 8 255 ++ replicate 8 0.

Definition home : list ifaddrs := [lo; v4 "eth0" 5; v4 "eth0:1" 6; v4 "eth0:2" 7; mkIfaddrs "eth0" (Some (inet6 link_local mask64))].
Definition home_net (more : list (Z * string)) : net :=
  mkNet ([(1, "lo"%string); (2, "eth0"%string)] ++ more) true (Some home) (λ _, true) (streq "lo") (λ _, 1500).

Lemma home_regular : regular (home_net []) home.
Proof.
  constructor; [reflexivity|reflexivity|reflexivity|repeat constructor; discriminate|repeat constructor| | |].
  - apply (bool_decide_unpack _). vm_compute. exact I.
  - intros d e Hd He. cbn in Hd, He. rewrite !elem_of_cons in Hd, He.
    destruct Hd as [->|[->|[]%not_elem_of_nil]], He as [->|[->|[]%not_elem_of_nil]]; done.
  - assert (∀ name a m, mkIfaddrs name (Some (inet a m)) ∈ home →
              name = "lo"%string ∨ name = "eth0"%string ∨ name = "eth0:1"%string ∨ name = "eth0:2"%string) as Hh.
    { intros name a m Hin. unfold home in Hin. rewrite !elem_of_cons in Hin.
      destruct Hin as [[=]|[[=]|[[=]|[[=]|[[=]|[]%not_elem_of_nil]]]]]; tauto. }
    intros name a m [->|[->|[->| ->]]]%Hh; (split; [apply Nat.ltb_lt; reflexivity|]).
    + left. in_list.
    + left. in_list.
    + right. exists "eth0"%string, 1. split; [in_list|]. split; [lia|reflexivity].
    + right. exists "eth0"%string, 2. split; [in_list|]. split; [lia|reflexivity].
Qed.

Lemma interfaces_numbered_witness :
  getInterfaceNumberOfEntries (home_net []) = Some 4 ∧ getInterfaceName (home_net []) 4 = Some "eth0:2"%string.
Proof. apply (interfaces_numbered (home_net []) home home_regular 4). Defined.

(** A VLAN of the device that has the aliases: they are counted once, but the
    lookup counts each once more for the VLAN, whose name parts from the alias at
    the colon too.  Five entries are announced; the last two are the same alias
    and the other one has no number. *)
Example vlan_repeats_alias :
  let n := home_net [(3, "eth0.100"%string)] in
  getInterfaceNumberOfEntries n = Some 5
  ∧ getInterfaceName n 4 = Some "eth0:1"%string ∧ getInterfaceName n 5 = Some "eth0:1"%string.
Proof. vm_compute. done. Qed.

(** The kernel's indices have gaps after a device was removed: a device whose index is
    above the number of entries has no number, and one of the numbers no device. *)
Example sparse_index_unreachable :
  let n := mkNet [(1, "lo"%string); (5, "eth0"%string)] true (Some [lo; v4 "eth0" 5]) (λ _, true) (streq "lo") (λ _, 1500) in
  getInterfaceNumberOfEntries n = Some 2 ∧ getInterfaceName n 2 = None ∧ getInterfaceName n 5 = Some "eth0"%string.
Proof. vm_compute. done. Qed.

(** A device without an address, as a tunnel that is down has none: the count reads
    through a null pointer, which the lookup checks. *)
Example addressless_device_crashes :
  let n := mkNet [(1, "lo"%string)] true (Some [mkIfaddrs "tun0" None; lo]) (λ _, true) (streq "lo") (λ _, 1500) in
  getInterfaceNumberOfEntries n = None ∧ getInterfaceName n 1 = Some "lo"%string.
Proof. vm_compute. done. Qed.

End Network.
