(* ===== verification/IPAddress.v ===== *)
(** * The addresses of an interface

    [IPv4Address] and [IPv6Address] model profiles/IP/Device_IP_Interface_IPv4Address.cpp
    and Device_IP_Interface_IPv6Address.cpp: the tables of the addresses and prefixes
    of an interface, which are those that getifaddrs lists for its name, and the
    requests that change them.  What a caller is told about changes, which only the
    code under HAVE_VALUE_CHANGE_EVENT asks for, is left out; the members that keep
    the last origin and addressing type are state, since the setters look at them. *)
From stdpp Require Import base list strings gmap.
From Stdlib Require Import Ascii ZArith Lia.
From S2P Require Import Prelude HostIf FileStore Webpa ProfileIO Utils Network.
Import ProfileIO Network.

#[local] Arguments streq : simpl never.

(** What is asked of the system, in order. *)
Inductive request : Type :=
  | Command (words : list string)
  | AddAddress (ifr6_ifindex : Z) (address : list Z) (ifr6_prefixlen : Z)
  | DelAddress (ifr6_ifindex : Z) (address : list Z) (ifr6_prefixlen : Z).

Module AddressTable.

Definition of_family (v6 : bool) (a : sockaddr) : option (list Z * list Z) :=
  match v6, a with
  | false, inet address mask | true, inet6 address mask => Some (address, mask)
  | _, _ => None
  end.

(** The entry of a name that is reached when the count of its entries is
    [instance]; [None]: the address of an interface without one is read. *)
Fixpoint find_entry (v6 : bool) (ifa : list ifaddrs) (name : string) (instance : Z) : option (option (list Z * list Z)) :=
  match ifa with
  | [] => Some None
  | mkIfaddrs ifa_name a :: ifa' =>
      address ← a;
      match of_family v6 address with
      | Some am =>
          if streq ifa_name name then
            if instance =? 1 then Some (Some am) else find_entry v6 ifa' name (instance - 1)
          else find_entry v6 ifa' name instance
      | None => find_entry v6 ifa' name instance
      end
  end.

Definition getAddressAndMask (v6 : bool) (n : net) (name : string) (instance : Z) : option (option (list Z * list Z)) :=
  match addrs n with None => Some None | Some ifa => find_entry v6 ifa name instance end.

Fixpoint count_entries (v6 : bool) (ifa : list ifaddrs) (name : string) : option Z :=
  match ifa with
  | [] => Some 0
  | mkIfaddrs ifa_name a :: ifa' =>
      address ← a;
      rest ← count_entries v6 ifa' name;
      Some (match of_family v6 address with Some _ => if streq ifa_name name then 1 + rest else rest | None => rest end)
  end.

Definition getIPAddressNumberOfEntries (v6 : bool) (n : net) (name : string) : option Z :=
  match addrs n with None => Some 0 | Some ifa => count_entries v6 ifa name end.

(** ** The table they stand for *)
Fixpoint rows (v6 : bool) (ifa : list ifaddrs) (name : string) : list (list Z * list Z) :=
  match ifa with
  | [] => []
  | mkIfaddrs ifa_name (Some a) :: ifa' =>
      match of_family v6 a with
      | Some am => if streq ifa_name name then am :: rows v6 ifa' name else rows v6 ifa' name
      | None => rows v6 ifa' name
      end
  | _ :: ifa' => rows v6 ifa' name
  end.

Definition addressed (ifa : list ifaddrs) : Prop := Forall (λ a, ifa_addr a ≠ None) ifa.

Lemma find_entry_rows v6 ifa name instance :
  addressed ifa →
  find_entry v6 ifa name instance = Some (if 1 <=? instance then rows v6 ifa name !! Z.to_nat (instance - 1) else None).
Proof.
  intros Ha. revert instance. induction Ha as [|[m [a|]] ifa Ha _ IH]; intros instance; [by case_match|cbn|done].
  destruct (of_family v6 a) as [am|]; [|apply IH]. destruct (streq m name); [|apply IH].
  destruct (Z.eqb_spec instance 1) as [->|Hne]; [done|]. rewrite IH. f_equal.
  destruct (Z.leb_spec 1 instance); [|by rewrite (proj2 (Z.leb_gt 1 _)) by lia].
  rewrite (proj2 (Z.leb_le 1 _)) by lia. by replace (Z.to_nat (instance - 1)) with (S (Z.to_nat (instance - 1 - 1))) by lia.
Qed.

Lemma count_entries_rows v6 ifa name :
  addressed ifa → count_entries v6 ifa name = Some (Z.of_nat (length (rows v6 ifa name))).
Proof.
  induction 1 as [|[m [a|]] ifa Ha _ IH]; [done|cbn|done]. rewrite IH. cbn.
  destruct (of_family v6 a); [|done]. destruct (streq m name); [|done]. cbn [length]. f_equal. lia.
Qed.

End AddressTable.

Module IPv4Address.
Import AddressTable.

(** An instance: its number, the name behind it and the last addressing type read. *)
Record t := mk { dev_id : Z; nameOfInterface : string; backupAddressingType : string }.
Definition new (n : net) (dev_id : Z) : t := mk dev_id (refreshInterfaceName n dev_id) "Static".
Definition refresh (n : net) (x : t) : t := mk (dev_id x) (refreshInterfaceName n (dev_id x)) (backupAddressingType x).

(** [inet_ntop(AF_INET, ...)] *)
Definition dotted (a : list Z) : string :=
  match a with
  | [a; b; c; d] => dec a +:+ "." +:+ dec b +:+ "." +:+ dec c +:+ "." +:+ dec d
  | _ => EmptyString
  end.

Definition isLinkLocalAddress (a : list Z) : bool := starts_with "169.254." (dotted a).

Section operations.
(** [getenv]: the process's environment. *)
Context (getenv : string → option string) (n : net).

Definition getenvOrDefault (name : string) (default : string) : string :=
  match getenv name with Some v => v | None => default end.

Definition hasPhysicalInterfaceAs (x : t) (phy_if_name : string) : bool :=
  starts_with phy_if_name (nameOfInterface x)
  && match str_drop (String.length phy_if_name) (nameOfInterface x) with
     | EmptyString => true
     | String c _ => Ascii.eqb c ":"
     end.

Definition keeps_default (x : t) (address interface default_ip : string) : bool :=
  hasPhysicalInterfaceAs x (getenvOrDefault interface EmptyString)
  && streq address (getenvOrDefault default_ip EmptyString).

(** ** Getters.  [None]: the address of an interface without one is read. *)
Definition reply : Type := option (Z * HOSTIF_MsgData_t * t).

Definition getIPv4AddressAndMask (x : t) (instance : Z) := getAddressAndMask false n (nameOfInterface x) instance.

Definition get_IPv4Address_Enable (m : HOSTIF_MsgData_t) (i : Z) (x : t) : reply :=
  r ← getIPv4AddressAndMask x i; Some (OK, answer_bool m (bool_decide (is_Some r)), x).

Definition get_IPv4Address_Status (m : HOSTIF_MsgData_t) (i : Z) (x : t) : reply :=
  r ← getIPv4AddressAndMask x i;
  Some (OK, answer_str 16 m (if bool_decide (is_Some r) then "Enabled" else "Disabled")%string, x).

Definition get_text (f : list Z * list Z → list Z) (m : HOSTIF_MsgData_t) (i : Z) (x : t) : reply :=
  r ← getIPv4AddressAndMask x i;
  Some (match r with Some am => (OK, answer_str 64 m (dotted (f am)), x) | None => (NOK, m, x) end).
Definition get_IPv4Address_IPAddress := get_text fst.
Definition get_IPv4Address_SubnetMask := get_text snd.

Definition addressing_type (x : t) (address : list Z) : string :=
  if loopback n (nameOfInterface x) then "Static"
  else if isLinkLocalAddress address then "AutoIP"
  else if keeps_default x (dotted address) "MOCA_INTERFACE" "DEFAULT_MOCA_IFACE_IP"
          || keeps_default x (dotted address) "WIFI_INTERFACE" "DEFAULT_WIFI_IFACE_IP" then "Static"
  else "DHCP".

Definition get_IPv4Address_AddressingType (m : HOSTIF_MsgData_t) (i : Z) (x : t) : reply :=
  r ← getIPv4AddressAndMask x i;
  Some (match r with
        | Some (address, _) =>
            let type := addressing_type x address in
            (OK, answer_str 16 m type, mk (dev_id x) (nameOfInterface x) type)
        | None => (NOK, m, x)
        end).

Definition handleGetMsg (setting : string) (i : Z) (m : HOSTIF_MsgData_t) (x : t) : reply :=
  if strcaseeq setting "Enable" then get_IPv4Address_Enable m i x
  else if strcaseeq setting "Status" then get_IPv4Address_Status m i x
  else if strcaseeq setting "Alias" then Some (NOK, m, x)
  else if strcaseeq setting "SubnetMask" then get_IPv4Address_SubnetMask m i x
  else if strcaseeq setting "AddressingType" then get_IPv4Address_AddressingType m i x
  else if strcaseeq setting "IPAddress" then get_IPv4Address_IPAddress m i x
  else Some (NOK, set_fault m fcInvalidParameterName, x).

(** ** Setters, with the commands that are run *)
Definition setIpOrMask (x : t) (value ipOrMask : string) : list request :=
  if negb (is_empty value) && strcaseeq (backupAddressingType x) "static"
  then [Command ["ifconfig"; nameOfInterface x; ipOrMask; value]%string] else [].

Definition set_IPv4Address_Enable (m : HOSTIF_MsgData_t) (x : t) : list request :=
  if get_boolean (paramValue m) then [Command ["ifdown"; nameOfInterface x; "&&"; "ifup"; nameOfInterface x]%string]
  else [Command ["ifconfig"; nameOfInterface x; "0.0.0.0"]%string].

Definition handleSetMsg (setting : string) (m : HOSTIF_MsgData_t) (x : t) : Z * HOSTIF_MsgData_t * list request :=
  if strcaseeq setting "Enable" then (OK, m, set_IPv4Address_Enable m x)
  else if strcaseeq setting "SubnetMask" then (OK, m, setIpOrMask x (buf_str (paramValue m)) "netmask")
  else if strcaseeq setting "IPAddress" then (OK, m, setIpOrMask x (buf_str (paramValue m)) "inet")
  else (NOT_HANDLED, set_fault m fcInvalidParameterName, []).

End operations.

(** ** Lemmas *)
Definition byte (b : Z) : Prop := 0 <= b < 256.

Lemma dotted_text a : length a = 4%nat → Forall byte a →
  has_char NUL (dotted a) = false ∧ (String.length (dotted a) < 16)%nat.
Proof.
  intros Hl Ha. destruct a as [|a [|b [|c [|d [|]]]]]; try done.
  assert (∀ z, byte z → (String.length (dec z) <= 3)%nat) as Hb.
  { intros z Hz. unfold byte in Hz. unfold dec, dec_nat. destruct (Z.ltb_spec z 0); [lia|].
    apply (proj2 (dec_aux_length 20 z EmptyString 3 ltac:(lia) ltac:(lia))). left. lia. }
  rewrite !Forall_cons in Ha. destruct Ha as (Ha & Hb' & Hc & Hd & _).
  split; [cbn [dotted]; rewrite !has_char_app, !dec_no_nul; done|].
  cbn [dotted]. rewrite !str_length_app. cbn [String.length].
  pose proof (Hb a Ha). pose proof (Hb b Hb'). pose proof (Hb c Hc). pose proof (Hb d Hd). lia.
Qed.

Lemma prefix_dec a p s : starts_with (p +:+ ".") (dec a +:+ String "." s) = true → has_char "." p = false → dec a = p.
Proof.
  intros (t & Ht)%starts_with_true Hp. rewrite str_app_assoc in Ht.
  assert (has_char "." (dec a) = false) as Ha by by apply dec_no_char.
  pose proof (split_at_app "." (dec a) s Ha) as E. rewrite Ht in E.
  change ("." +:+ t) with (String "." t) in E. rewrite split_at_app in E by done. congruence.
Qed.

(** The addresses that begin with 169.254 are those whose text does. *)
Lemma link_local_bytes a b c d :
  byte a → byte b → isLinkLocalAddress [a; b; c; d] = (a =? 169) && (b =? 254).
Proof.
  intros Ha Hb. unfold isLinkLocalAddress, dotted. apply eq_true_iff_eq. rewrite andb_true_iff, !Z.eqb_eq. split.
  - intros Hs. assert (a = 169) as ->.
    { apply dec_inj; [unfold byte in *; lia|lia|]. apply (prefix_dec a "169" (dec b +:+ "." +:+ dec c +:+ "." +:+ dec d)); [|done].
      apply starts_with_true in Hs as (t & Ht). apply starts_with_true. exists ("254." +:+ t). exact Ht. }
    split; [done|]. apply dec_inj; [unfold byte in *; lia|lia|].
    apply (prefix_dec b "254" (dec c +:+ "." +:+ dec d)); [|done]. exact Hs.
  - intros [-> ->]. done.
Qed.

End IPv4Address.

(** [inet_ntop] and [inet_pton] for AF_INET6: a text of fewer than 46 characters, from
    which the address is read back. *)
Class Inet6 := {
  inet_ntop : list Z → string;
  inet_pton : string → option (list Z);
  ntop_text : ∀ a, has_char NUL (inet_ntop a) = false ∧ (String.length (inet_ntop a) < 46)%nat
                   ∧ is_empty (inet_ntop a) = false;
  pton_ntop : ∀ a, length a = 16%nat → Forall IPv4Address.byte a → inet_pton (inet_ntop a) = Some a
}.

Module IPv6Address.
Import AddressTable.
Import IPv4Address (byte).

Record t := mk { dev_id : Z; nameOfInterface : string; backupIPv6AddressOrigin : string }.
Definition STATIC : string := "Static".
Definition new (n : net) (dev_id : Z) : t := mk dev_id (refreshInterfaceName n dev_id) STATIC.
Definition refresh (n : net) (x : t) : t := mk (dev_id x) (refreshInterfaceName n (dev_id x)) (backupIPv6AddressOrigin x).

(** ** Bits *)
Fixpoint le_word (bs : list Z) : Z := match bs with [] => 0 | b :: bs' => b + 256 * le_word bs' end.
Fixpoint word_bytes (k : nat) (z : Z) : list Z := match k with O => [] | S k => z mod 256 :: word_bytes k (z / 256) end.

Definition s6_addr32 (a : list Z) (i : nat) : Z := le_word (take 4 (drop (4 * i) a)).

(** The address of the prefix, word by word. *)
Definition in6_prefix (address mask : list Z) : list Z :=
  mjoin ((λ i, word_bytes 4 (Z.land (s6_addr32 address i) (s6_addr32 mask i))) <$> [0; 1; 2; 3]%nat).

(** The loop over one byte of the mask: [bitPattern] and [number_of_1bits] after it. *)
Fixpoint match_byte (b bitPattern : Z) (number_of_1bits : nat) : Z * nat :=
  if b =? bitPattern then (bitPattern, number_of_1bits)
  else match number_of_1bits with
       | O => (bitPattern, O)
       | S k => match_byte b (Z.shiftl bitPattern 1 mod 256) k
       end.

Fixpoint prefix_length_loop (mask : list Z) (bitPattern : Z) (number_of_1bits : nat) : nat :=
  match mask with
  | [] => O
  | b :: mask' =>
      if (number_of_1bits =? 8)%nat then
        let '(p, k) := match_byte b bitPattern number_of_1bits in (k + prefix_length_loop mask' p k)%nat
      else O
  end.
Definition prefix_length (mask : list Z) : nat := prefix_length_loop mask 255 8.

(** [ntohs(s6_addr16[0]) & 0xffc0] *)
Definition isLinkLocalAddress (a : list Z) : bool :=
  Z.land (256 * nth 0 a 0 + nth 1 a 0) (0xffc0) =? 0xfe80.

Definition TIME_UNKNOWN : string := "0001-01-01T00:00:00Z".
Definition TIME_INFINITY : string := "9999-12-31T23:59:59Z".

Section operations.
(** [addr_show]: what the command ip prints about the address of this number of a
    name, where it can be run; [strftime]: a time as text; [socket]: whether one can
    be opened; [accepts]: whether a request succeeds, given those before it. *)
Context `{Inet6} (n : net) (addr_show : string → Z → option string) (strftime : Z → string)
  (socket : bool) (accepts : list request → request → bool).

Definition getIPv6AddressAndMask (x : t) (instance : Z) := getAddressAndMask true n (nameOfInterface x) instance.

Definition getIPv6Prefix (x : t) (instance : Z) : option (option (list Z * nat)) :=
  r ← getIPv6AddressAndMask x instance;
  Some ('(address, mask) ← r; Some (in6_prefix address mask, prefix_length mask)).

(** The text after the search string is copied nowhere: what is compared and read as
    a number is memory that was never written ([None]).  [Some None]: nothing could be
    read; -1: not known. *)
Definition get_ipv6address_lifetime (x : t) (instance : Z) (search_string : string) : option (option Z) :=
  match (output ← addr_show (nameOfInterface x) instance; head (fgets_lines 128 output)) with
  | None => Some None
  | Some resultBuff => if contains search_string resultBuff then None else Some (Some (-1))
  end.

Definition convert_lifetime_to_string (lifetime : Z) : string :=
  if lifetime =? -1 then TIME_UNKNOWN else if lifetime =? -2 then TIME_INFINITY else strftime lifetime.

Definition reply : Type := option (Z * HOSTIF_MsgData_t * t).

(** ** Getters that addresses and prefixes share *)
Definition get_Enable (m : HOSTIF_MsgData_t) (i : Z) (x : t) : reply :=
  r ← getIPv6AddressAndMask x i; Some (OK, answer_bool m (bool_decide (is_Some r)), x).
Definition get_Status (m : HOSTIF_MsgData_t) (i : Z) (x : t) : reply :=
  r ← getIPv6AddressAndMask x i;
  Some (OK, answer_str 16 m (if bool_decide (is_Some r) then "Enabled" else "Disabled")%string, x).

(** The state of the interface is asked of the instance of hostIf_IPInterface with the
    same number, whose name is read anew. *)
Definition get_AddressStatus (m : HOSTIF_MsgData_t) (i : Z) (x : t) : reply :=
  valid ← get_ipv6address_lifetime x i "valid_lft";
  match valid with
  | None => Some (NOK, m, x)
  | Some valid =>
      preferred ← get_ipv6address_lifetime x i "preferred_lft";
      Some (match preferred with
            | None => (NOK, m, x)
            | Some preferred =>
                (OK, answer_str 16 m
                       (if valid =? 0 then "Invalid"%string
                        else if negb (up n (refreshInterfaceName n (dev_id x))) then "Inaccessible"%string
                        else if preferred =? 0 then "Deprecated"%string else "Preferred"%string), x)
            end)
  end.

Definition get_Lifetime (search_string : string) (m : HOSTIF_MsgData_t) (i : Z) (x : t) : reply :=
  lifetime ← get_ipv6address_lifetime x i search_string;
  Some (match lifetime with
        | None => (NOK, m, x)
        | Some v => (OK, answer_str 32 m (convert_lifetime_to_string v), x)
        end).

(** ** Addresses *)
Definition get_IPv6Address_IPAddress (m : HOSTIF_MsgData_t) (i : Z) (x : t) : reply :=
  r ← getIPv6AddressAndMask x i;
  Some (match r with Some (a, _) => (OK, answer_str 64 m (inet_ntop a), x) | None => (NOK, m, x) end).

Definition get_IPv6Address_Origin (m : HOSTIF_MsgData_t) (i : Z) (x : t) : reply :=
  r ← getIPv6AddressAndMask x i;
  Some (match r with
        | Some (a, _) =>
            let origin := if loopback n (nameOfInterface x) then "WellKnown"%string
                          else if isLinkLocalAddress a then "AutoConfigured"%string else "AutoConfigured"%string in
            (OK, answer_str 32 m origin, mk (dev_id x) (nameOfInterface x) origin)
        | None => (NOK, m, x)
        end).

(** The path of the row of the prefix: the name up to its instance number, and after
    that, in the room that the rest of the name takes, the name of the row. *)
Definition prefix_row (paramName : string) (i : Z) : option string :=
  '(rest, _) ← Utils.matchComponent paramName "Device.IP.Interface";
  let start := str_take (String.length paramName - String.length rest) paramName in
  Some (if is_empty rest then paramName
        else start +:+ str_take (String.length rest - 1) ("IPv6Prefix." +:+ dec i +:+ ".")).

Definition get_IPv6Address_Prefix (m : HOSTIF_MsgData_t) (i : Z) (x : t) : reply :=
  r ← getIPv6AddressAndMask x i;
  match r with
  | None => Some (NOK, m, x)
  | Some _ =>
      path ← prefix_row (paramName m) i;
      Some (OK, set_len (set_paramtype (set_value m (Webpa.fill path)) hostIf_StringType) (Z.of_nat (String.length path)), x)
  end.

Definition get_false (m : HOSTIF_MsgData_t) (x : t) : reply := Some (OK, answer_bool m false, x).

(** ** Prefixes *)
Definition get_IPv6Prefix_Prefix (m : HOSTIF_MsgData_t) (i : Z) (x : t) : reply :=
  r ← getIPv6Prefix x i;
  Some (match r with
        | Some (a, k) => (OK, answer_str 64 m (inet_ntop a +:+ "/" +:+ dec (Z.of_nat k)), x)
        | None => (NOK, m, x)
        end).

Definition prefix_origin (x : t) (i : Z) : option (option string) :=
  r ← getIPv6AddressAndMask x i;
  Some ('(a, _) ← r;
        Some (if loopback n (nameOfInterface x) || isLinkLocalAddress a then "WellKnown" else "AutoConfigured")%string).

Definition NOT_IMPLEMENTED : string := "Not Implemented".

Definition static_type (x : t) (i : Z) : option (option string) :=
  o ← prefix_origin x i;
  Some (origin ← o; Some (if strcaseeq origin STATIC then NOT_IMPLEMENTED else "Inapplicable")%string).

Definition parent_prefix (x : t) (i : Z) : option (option string) :=
  o ← prefix_origin x i;
  match o with
  | None => Some None
  | Some origin =>
      if strcaseeq origin "Child" then Some (Some NOT_IMPLEMENTED)
      else s ← static_type x i; Some (type ← s; Some (if strcaseeq type "Child" then NOT_IMPLEMENTED else EmptyString))
  end.

Definition child_prefix_bits (x : t) (i : Z) : option (option string) :=
  s ← static_type x i; Some (type ← s; Some (if strcaseeq type "Child" then NOT_IMPLEMENTED else EmptyString)).

(** These are copied with [strcpy_s]. *)
Definition answer_copy (m : HOSTIF_MsgData_t) (s : string) : HOSTIF_MsgData_t :=
  set_len (set_paramtype (set_value m (strcpy_s (paramValue m) TR69HOSTIFMGR_MAX_PARAM_LEN s)) hostIf_StringType)
          (Z.of_nat (String.length s)).
Definition get_copied (f : t → Z → option (option string)) (m : HOSTIF_MsgData_t) (i : Z) (x : t) : reply :=
  o ← f x i; Some (match o with Some s => (OK, answer_copy m s, x) | None => (NOK, m, x) end).

Definition get_IPv6Prefix_Origin (m : HOSTIF_MsgData_t) (i : Z) (x : t) : reply :=
  o ← prefix_origin x i;
  Some (match o with Some origin => (OK, answer_str 32 m origin, x) | None => (NOK, m, x) end).

(** ** The getters by the names of the code *)
Definition get_IPv6Address_Enable := get_Enable.
Definition get_IPv6Address_Status := get_Status.
Definition get_IPv6Address_IPAddressStatus := get_AddressStatus.
Definition get_IPv6Address_Alias (m : HOSTIF_MsgData_t) (i : Z) (x : t) : reply := Some (NOK, m, x).
Definition get_IPv6Address_PreferredLifetime := get_Lifetime "preferred_lft".
Definition get_IPv6Address_ValidLifetime := get_Lifetime "valid_lft".
Definition get_IPv6Address_Anycast (m : HOSTIF_MsgData_t) (i : Z) (x : t) : reply := get_false m x.
Definition get_IPv6Prefix_Enable := get_Enable.
Definition get_IPv6Prefix_Status := get_Status.
Definition get_IPv6Prefix_PrefixStatus := get_AddressStatus.
Definition get_IPv6Prefix_Alias (m : HOSTIF_MsgData_t) (i : Z) (x : t) : reply := Some (NOK, m, x).
Definition get_IPv6Prefix_StaticType := get_copied static_type.
Definition get_IPv6Prefix_ParentPrefix := get_copied parent_prefix.
Definition get_IPv6Prefix_ChildPrefixBits := get_copied child_prefix_bits.
Definition get_IPv6Prefix_OnLink (m : HOSTIF_MsgData_t) (i : Z) (x : t) : reply := get_false m x.
Definition get_IPv6Prefix_Autonomous (m : HOSTIF_MsgData_t) (i : Z) (x : t) : reply := get_false m x.
Definition get_IPv6Prefix_PreferredLifetime := get_Lifetime "preferred_lft".
Definition get_IPv6Prefix_ValidLifetime := get_Lifetime "valid_lft".

Definition handleGetMsg (setting : string) (i : Z) (m : HOSTIF_MsgData_t) (isAddress : bool) (x : t) : reply :=
  if isAddress then
    if strcaseeq setting "Enable" then get_IPv6Address_Enable m i x
    else if strcaseeq setting "Status" then get_IPv6Address_Status m i x
    else if strcaseeq setting "IPAddressStatus" then get_IPv6Address_IPAddressStatus m i x
    else if strcaseeq setting "Alias" then get_IPv6Address_Alias m i x
    else if strcaseeq setting "IPAddress" then get_IPv6Address_IPAddress m i x
    else if strcaseeq setting "Origin" then get_IPv6Address_Origin m i x
    else if strcaseeq setting "Prefix" then get_IPv6Address_Prefix m i x
    else if strcaseeq setting "PreferredLifetime" then get_IPv6Address_PreferredLifetime m i x
    else if strcaseeq setting "ValidLifetime" then get_IPv6Address_ValidLifetime m i x
    else if strcaseeq setting "Anycast" then get_IPv6Address_Anycast m i x
    else Some (NOK, set_fault m fcInvalidParameterName, x)
  else if strcaseeq setting "Enable" then get_IPv6Prefix_Enable m i x
  else if strcaseeq setting "Status" then get_IPv6Prefix_Status m i x
  else if strcaseeq setting "PrefixStatus" then get_IPv6Prefix_PrefixStatus m i x
  else if strcaseeq setting "Alias" then get_IPv6Prefix_Alias m i x
  else if strcaseeq setting "Origin" then get_IPv6Prefix_Origin m i x
  else if strcaseeq setting "Prefix" then get_IPv6Prefix_Prefix m i x
  else if strcaseeq setting "StaticType" then get_IPv6Prefix_StaticType m i x
  else if strcaseeq setting "ParentPrefix" then get_IPv6Prefix_ParentPrefix m i x
  else if strcaseeq setting "ChildPrefixBits" then get_IPv6Prefix_ChildPrefixBits m i x
  else if strcaseeq setting "OnLink" then get_IPv6Prefix_OnLink m i x
  else if strcaseeq setting "Autonomous" then get_IPv6Prefix_Autonomous m i x
  else if strcaseeq setting "PreferredLifetime" then get_IPv6Prefix_PreferredLifetime m i x
  else if strcaseeq setting "ValidLifetime" then get_IPv6Prefix_ValidLifetime m i x
  else Some (NOK, set_fault m fcInvalidParameterName, x).

(** ** Setters, with what was asked of the system before *)
Definition change (f : Z → list Z → Z → request) (x : t) (value : string) (es : list request) : Z * list request :=
  if strcaseeq (backupIPv6AddressOrigin x) STATIC && socket then
    match inet_pton value with
    | None => (NOK, es)
    | Some a => let r := f (dev_id x) a 64 in (if accepts es r then OK else NOK, es ++ [r])
    end
  else (NOK, es).
Definition removeIp := change DelAddress.
Definition setIp := change AddAddress.

Definition set_IPv6Address_IPAddress (m : HOSTIF_MsgData_t) (i : Z) (x : t) (es : list request) : option (Z * list request) :=
  r ← getIPv6AddressAndMask x i;
  Some (match r with
        | None => (NOK, es)
        | Some (a, _) =>
            let '(rc, es1) := if is_empty (inet_ntop a) then (OK, es) else removeIp x (inet_ntop a) es in
            if rc =? OK then setIp x (buf_str (paramValue m)) es1 else (rc, es1)
        end).

Definition unimplemented (isAddress : bool) : list string :=
  if isAddress then ["Enable"; "Alias"; "Prefix"; "PreferredLifetime"; "ValidLifetime"; "Anycast"]
  else ["Enable"; "Alias"; "Prefix"; "StaticType"; "ParentPrefix"; "ChildPrefixBits"; "OnLink"; "Autonomous";
        "PreferredLifetime"; "ValidLifetime"].

Definition handleSetMsg (setting : string) (i : Z) (m : HOSTIF_MsgData_t) (isAddress : bool) (x : t) (es : list request)
  : option (Z * HOSTIF_MsgData_t * list request) :=
  if isAddress && strcaseeq setting "IPAddress" then
    '(rc, es') ← set_IPv6Address_IPAddress m i x es; Some (rc, m, es')
  else if existsb (strcaseeq setting) (unimplemented isAddress) then Some (NOK, m, es)
  else Some (NOT_HANDLED, set_fault m fcInvalidParameterName, es).

End operations.

(** ** Lemmas: words and bytes *)
Lemma word_bytes_le bs : Forall byte bs → word_bytes (length bs) (le_word bs) = bs.
Proof.
  induction 1 as [|b bs Hb _ IH]; [done|]. unfold byte in Hb. cbn [length word_bytes le_word]. f_equal.
  - rewrite Z.mul_comm, Z.mod_add, Z.mod_small by lia. done.
  - rewrite Z.mul_comm, Z.div_add, Z.div_small by lia. exact IH.
Qed.

(** The conjunction of two words is that of their bytes. *)
Lemma word_bytes_land k x y : word_bytes k (Z.land x y) = zip_with Z.land (word_bytes k x) (word_bytes k y).
Proof.
  revert x y. induction k as [|k IH]; intros x y; [done|]. cbn [word_bytes zip_with]. rewrite <- IH. f_equal.
  - change 256 with (2 ^ 8). rewrite <- !Z.land_ones by lia. apply Z.bits_inj'. intros i Hi.
    rewrite !Z.land_spec. by destruct (Z.testbit x i), (Z.testbit y i), (Z.testbit (Z.ones 8) i).
  - change 256 with (2 ^ 8). rewrite <- !Z.shiftr_div_pow2 by lia. f_equal. apply Z.shiftr_land.
Qed.

Lemma in6_prefix_bytes a m :
  length a = 16%nat → length m = 16%nat → Forall byte a → Forall byte m → in6_prefix a m = zip_with Z.land a m.
Proof.
  intros Ha Hm Hba Hbm. unfold in6_prefix. cbn [fmap list_fmap mjoin list_join]. rewrite app_nil_r, !word_bytes_land.
  assert (∀ l i, length l = 16%nat → Forall byte l → (i < 4)%nat → word_bytes 4 (s6_addr32 l i) = take 4 (drop (4 * i) l)) as Hw.
  { intros l i Hl Hb Hi. unfold s6_addr32.
    pose proof (word_bytes_le (take 4 (drop (4 * i) l)) ltac:(by apply Forall_take, Forall_drop)) as E.
    rewrite length_take, length_drop, Hl, Nat.min_l in E by lia. exact E. }
  rewrite !Hw by (done || lia).
  do 16 (destruct a as [|? a]; [done|]). destruct a; [|done]. do 16 (destruct m as [|? m]; [done|]). destruct m; [|done]. done.
Qed.

(** *** Masks *)
(** The mask of a length: as many bits as that, from the left. *)
Definition netmask (k : nat) : list Z := (λ j, 256 - 2 ^ Z.of_nat (8 - (k - 8 * j))) <$> seq 0 16.

(** Bit [i] of an address, from the left. *)
Definition bit (a : list Z) (i : nat) : bool := Z.testbit (nth (i / 8) a 0) (Z.of_nat (7 - i mod 8)).

Lemma prefix_length_netmask k : (k <= 128)%nat → prefix_length (netmask k) = k.
Proof.
  assert (Forall (λ k, prefix_length (netmask k) = k) (seq 0 129)) as Hall.
  { apply (bool_decide_unpack _). vm_compute. exact I. }
  intros Hk. apply (proj1 (Forall_forall _ _) Hall). apply elem_of_seq. lia.
Qed.

Lemma netmask_bytes k : length (netmask k) = 16%nat ∧ Forall byte (netmask k).
Proof.
  split; [done|]. apply Forall_fmap, Forall_forall. intros j _. unfold compose, byte.
  assert (0 <= Z.of_nat (8 - (k - 8 * j)) <= 8) as He by lia. revert He. generalize (Z.of_nat (8 - (k - 8 * j))). intros e He.
  pose proof (Z.pow_le_mono_r 2 0 e ltac:(lia) ltac:(lia)). pose proof (Z.pow_le_mono_r 2 e 8 ltac:(lia) ltac:(lia)).
  change (2 ^ 0) with 1 in *. change (2 ^ 8) with 256 in *. lia.
Qed.

Lemma netmask_bit k i : (k <= 128)%nat → (i < 128)%nat → bit (netmask k) i = (i <? k)%nat.
Proof.
  assert (Forall (λ k, Forall (λ i, bit (netmask k) i = (i <? k)%nat) (seq 0 128)) (seq 0 129)) as Hall.
  { apply (bool_decide_unpack _). vm_compute. exact I. }
  intros Hk Hi. assert (Forall (λ i, bit (netmask k) i = (i <? k)%nat) (seq 0 128)) as Hk'
    by (apply (proj1 (Forall_forall _ _) Hall), elem_of_seq; lia).
  apply (proj1 (Forall_forall _ _) Hk'), elem_of_seq. lia.
Qed.

Lemma bit_land a m i : length a = length m → bit (zip_with Z.land a m) i = bit a i && bit m i.
Proof.
  unfold bit. generalize (Z.of_nat (7 - i mod 8)). generalize (i / 8)%nat. intros j b. revert a m.
  induction j as [|j IH]; intros [|x a] [|y m] Hl; try done; cbn [zip_with nth].
  - rewrite Z.bits_0. done.
  - by rewrite Z.land_spec.
  - rewrite Z.bits_0. done.
  - apply IH. by injection Hl.
Qed.

Section addresses.
Context `{Inet6} (n : net) (addr_show : string → Z → option string) (strftime : Z → string)
  (socket : bool) (accepts : list request → request → bool).

Lemma ntop_answer m a : buf_str (paramValue (answer_str 64 m (inet_ntop a))) = inet_ntop a.
Proof. destruct (ntop_text a) as (Hn & Hl & _). apply answer_str_value; [done|lia]. Qed.

(** C18. The prefix of an address: when the kernel's mask has k leading bits, the code's
    words and its search through the bytes of the mask give exactly the first k bits of
    the address, zeros after them, and the length k, for every k up to 128; the answer
    is their text. *)
Theorem prefix_exact x i m a k :
  getIPv6AddressAndMask n x i = Some (Some (a, netmask k)) → length a = 16%nat → Forall byte a → (k <= 128)%nat →
  ∃ p m', get_IPv6Prefix_Prefix n m i x = Some (OK, m', x)
    ∧ buf_str (paramValue m') = inet_ntop p +:+ "/" +:+ dec (Z.of_nat k)
    ∧ length p = 16%nat ∧ ∀ j, (j < 128)%nat → bit p j = (j <? k)%nat && bit a j.
Proof.
  intros Hr Ha Hb Hk. destruct (netmask_bytes k) as [Hml Hmb].
  unfold get_IPv6Prefix_Prefix, getIPv6Prefix. rewrite Hr. cbn [mbind option_bind].
  rewrite in6_prefix_bytes, prefix_length_netmask by done. eexists (zip_with Z.land a (netmask k)), _.
  split; [done|]. split; [|split].
  - destruct (ntop_text (zip_with Z.land a (netmask k))) as (Hn & Hl & _). apply answer_str_value.
    + rewrite !has_char_app, Hn, dec_no_nul. done.
    + rewrite !str_length_app. cbn [String.length].
      assert (String.length (dec (Z.of_nat k)) <= 3)%nat; [|lia]. unfold dec, dec_nat.
      destruct (Z.ltb_spec (Z.of_nat k) 0); [lia|].
      apply (proj2 (dec_aux_length 20 (Z.of_nat k) EmptyString 3 ltac:(lia) ltac:(lia))). left. lia.
  - rewrite length_zip_with, Ha, Hml. done.
  - intros j Hj. rewrite bit_land by congruence. rewrite netmask_bit by done. apply andb_comm.
Qed.

(** ** Changing an address *)

(** What a request asks: the deletion of the old address and then the addition of the
    new one, both under the instance's number and with prefix length 64. *)
Definition replacement (x : t) (a : list Z) (b : list Z) : list request := [DelAddress (dev_id x) a 64; AddAddress (dev_id x) b 64].

Lemma set_ipv6_address x i m a mask es :
  getIPv6AddressAndMask n x i = Some (Some (a, mask)) → length a = 16%nat → Forall byte a →
  set_IPv6Address_IPAddress n socket accepts m i x es
  = Some (if strcaseeq (backupIPv6AddressOrigin x) STATIC && socket then
            let del := DelAddress (dev_id x) a 64 in
            if accepts es del then setIp socket accepts x (buf_str (paramValue m)) (es ++ [del]) else (NOK, es ++ [del])
          else (NOK, es)).
Proof.
  intros Hr Ha Hb. unfold set_IPv6Address_IPAddress. rewrite Hr. cbn [mbind option_bind].
  destruct (ntop_text a) as (_ & _ & ->). unfold removeIp, change. rewrite pton_ntop by done.
  destruct (strcaseeq (backupIPv6AddressOrigin x) STATIC && socket); [|done].
  destruct (accepts es (DelAddress (dev_id x) a 64)); done.
Qed.

(** An address can be set only as long as nobody has read an origin: a get of the
    origin of any row of the instance answers AutoConfigured or WellKnown and keeps it,
    and from then on every set of an address is refused without a request. *)
Theorem origin_read_forbids_set x i j m1 m2 m1' x' r es :
  get_IPv6Address_Origin n m1 i x = Some (OK, m1', x') → getIPv6AddressAndMask n x' j = Some r →
  set_IPv6Address_IPAddress n socket accepts m2 j x' es = Some (NOK, es)
  ∧ buf_str (paramValue m1') ∈ ["WellKnown"; "AutoConfigured"]%string.
Proof.
  intros Ho Hj. unfold get_IPv6Address_Origin in Ho. destruct (getIPv6AddressAndMask n x i) as [[[a mask]|]|]; [|done..].
  cbn [mbind option_bind] in Ho. injection Ho as <- <-. split.
  - unfold set_IPv6Address_IPAddress. rewrite Hj. cbn [mbind option_bind]. destruct r as [[b bm]|]; [|done].
    destruct (ntop_text b) as (_ & _ & ->). unfold removeIp, change. cbn [backupIPv6AddressOrigin].
    by destruct (loopback n (nameOfInterface x)), (isLinkLocalAddress a).
  - destruct (loopback n (nameOfInterface x)), (isLinkLocalAddress a);
      rewrite answer_str_value by (done || (apply Nat.ltb_lt; reflexivity)); in_list.
Qed.

(** A text that is no address is refused after the old address was deleted: the row is
    gone and nothing takes its place. *)
Theorem refused_address_deletes x i m a mask es :
  getIPv6AddressAndMask n x i = Some (Some (a, mask)) → length a = 16%nat → Forall byte a →
  backupIPv6AddressOrigin x = STATIC → socket = true → accepts es (DelAddress (dev_id x) a 64) = true →
  inet_pton (buf_str (paramValue m)) = None →
  set_IPv6Address_IPAddress n socket accepts m i x es = Some (NOK, es ++ [DelAddress (dev_id x) a 64]).
Proof.
  intros Hr Ha Hb Ho Hs Hd Ht. rewrite (set_ipv6_address x i m a mask) by done. cbv zeta. rewrite Ho, Hs, Hd.
  change (strcaseeq STATIC STATIC && true) with true. cbv iota.
  unfold setIp, change. by rewrite Ho, Ht.
Qed.

(** Whenever the command prints a lifetime within the 127 characters that are read, its
    value comes from memory that was never written; the only lifetime that a get
    answers is the one of an unknown time. *)
Theorem lifetime_unwritten search x i m output line :
  addr_show (nameOfInterface x) i = Some output → head (fgets_lines 128 output) = Some line →
  if contains search line then get_Lifetime addr_show strftime search m i x = None
  else ∃ m', get_Lifetime addr_show strftime search m i x = Some (OK, m', x) ∧ buf_str (paramValue m') = TIME_UNKNOWN.
Proof.
  intros Ho Hl. unfold get_Lifetime, get_ipv6address_lifetime. rewrite Ho. cbn [mbind option_bind]. rewrite Hl.
  destruct (contains search line); [done|]. eexists. split; [done|].
  apply answer_str_value; [done|apply Nat.ltb_lt; reflexivity].
Qed.

End addresses.

(** ** A resolution for the examples: a colon and two letters for each byte. *)
Definition letter (k : Z) : ascii := ascii_of_N (Z.to_N (65 + k mod 16)).
Definition unletter (c : ascii) : Z := byte_val c - 65.
Fixpoint letters (a : list Z) : string :=
  match a with [] => EmptyString | b :: a' => String (letter (b / 16)) (String (letter b) (letters a')) end.
Fixpoint unletters (s : string) : option (list Z) :=
  match s with
  | EmptyString => Some []
  | String c (String d s') => a ← unletters s'; Some (16 * unletter c + unletter d :: a)
  | _ => None
  end.

Lemma unletter_letter k : unletter (letter k) = k mod 16.
Proof.
  assert (Forall (λ d, unletter (ascii_of_N (Z.to_N (65 + Z.of_nat d))) = Z.of_nat d) (seq 0 16)) as Hall
    by (apply (bool_decide_unpack _); vm_compute; exact I).
  unfold letter. pose proof (Z.mod_pos_bound k 16 ltac:(lia)). rewrite <- (Z2Nat.id (k mod 16)) by lia.
  apply (proj1 (Forall_forall _ _) Hall), elem_of_seq. lia.
Qed.

Lemma letters_text a : has_char NUL (letters a) = false ∧ String.length (letters a) = (2 * length a)%nat.
Proof.
  induction a as [|b a [IHn IHl]]; [done|]. cbn [letters has_char String.length length].
  assert (∀ k, Ascii.eqb NUL (letter k) = false) as Hk.
  { intros k. destruct (Ascii.eqb_spec NUL (letter k)) as [E|]; [|done]. pose proof (unletter_letter k) as U.
    rewrite <- E in U. pose proof (Z.mod_pos_bound k 16 ltac:(lia)). change (unletter NUL) with (-65) in U. lia. }
  rewrite !Hk, IHn, IHl. split; [done|lia].
Qed.

Lemma unletters_letters a : Forall byte a → unletters (letters a) = Some a.
Proof.
  induction 1 as [|b a Hb _ IH]; [done|]. cbn [letters unletters]. rewrite IH. cbn [mbind option_bind].
  rewrite !unletter_letter. unfold byte in Hb. rewrite (Z.mod_small (b / 16)) by (split; [apply Z.div_pos; lia|apply Z.div_lt_upper_bound; lia]).
  pose proof (Z.div_mod b 16 ltac:(lia)). do 2 f_equal. lia.
Qed.

#[local] Instance plain_inet6 : Inet6.
Proof.
  refine {| inet_ntop a := String ":" (letters (take 16 a));
            inet_pton s := match s with String c s' => if Ascii.eqb c ":" then unletters s' else None | _ => None end |}.
  - intros a. destruct (letters_text (take 16 a)) as [Hn Hl]. cbn [has_char String.length is_empty]. rewrite Hn, Hl.
    split; [done|]. split; [|done]. rewrite length_take. lia.
  - intros a Ha Hb. cbn beta iota. rewrite Ascii.eqb_refl, take_ge by lia. by apply unletters_letters.
Defined.

(** The wired device of the example network, whose only IPv6 address is link-local. *)
Definition eth0 : t := new (home_net []) 2.

Lemma prefix_exact_witness :
  ∃ p m', get_IPv6Prefix_Prefix (home_net []) zero_msg 1 eth0 = Some (OK, m', eth0)
    ∧ buf_str (paramValue m') = inet_ntop p +:+ "/64" ∧ bit p 0 = true ∧ bit p 127 = false.
Proof.
  destruct (prefix_exact (home_net []) eth0 1 zero_msg link_local 64) as (p & m' & Hg & Hv & _ & Hbit).
  - reflexivity.
  - reflexivity.
  - repeat constructor; lia.
  - lia.
  - exists p, m'. split; [exact Hg|]. split; [exact Hv|]. rewrite !Hbit by lia. split; reflexivity.
Defined.

Lemma origin_read_forbids_set_witness :
  ∃ m' x', get_IPv6Address_Origin (home_net []) zero_msg 1 eth0 = Some (OK, m', x')
    ∧ set_IPv6Address_IPAddress (home_net []) true (λ _ _, true) zero_msg 1 x' [] = Some (NOK, [])
    ∧ buf_str (paramValue m') ∈ ["WellKnown"; "AutoConfigured"]%string.
Proof.
  destruct (get_IPv6Address_Origin (home_net []) zero_msg 1 eth0) as [[[ret m'] x']|] eqn:E; [|by vm_compute in E].
  assert (ret = OK ∧ x' = mk 2 "eth0" "AutoConfigured") as [-> ->].
  { split; [apply (f_equal (option_map (λ r, r.1.1))) in E|apply (f_equal (option_map snd)) in E];
      vm_compute in E; by injection E. }
  exists m', (mk 2 "eth0" "AutoConfigured"). split; [done|].
  exact (origin_read_forbids_set (home_net []) true (λ _ _, true) eth0 1 1 zero_msg zero_msg m' _ (Some (link_local, mask64)) [] E eq_refl).
Defined.

Lemma refused_address_deletes_witness :
  set_IPv6Address_IPAddress (home_net []) true (λ _ _, true) (set_value zero_msg (Webpa.fill "fe80::zz")) 1 eth0 []
  = Some (NOK, [DelAddress 2 link_local 64]).
Proof.
  apply (refused_address_deletes (home_net []) true (λ _ _, true) eth0 1 _ link_local mask64 []).
  - reflexivity.
  - reflexivity.
  - repeat constructor; lia.
  - reflexivity.
  - reflexivity.
  - reflexivity.
  - vm_compute. reflexivity.
Defined.

(** A line of ip -6 addr. *)
Definition lifetimes : string := "valid_lft 86400sec preferred_lft 14400sec".

Lemma lifetime_unwritten_witness :
  get_Lifetime (λ _ _, Some lifetimes) dec "valid_lft" zero_msg 1 eth0 = None
  ∧ ∃ m' x', get_Lifetime (λ _ _, Some "no such address"%string) dec "valid_lft" zero_msg 1 eth0 = Some (OK, m', x')
      ∧ buf_str (paramValue m') = TIME_UNKNOWN.
Proof.
  split.
  - exact (lifetime_unwritten (λ _ _, Some lifetimes) dec "valid_lft" eth0 1 zero_msg lifetimes lifetimes eq_refl eq_refl).
  - destruct (lifetime_unwritten (λ _ _, Some "no such address"%string) dec "valid_lft" eth0 1 zero_msg
      "no such address" "no such address" eq_refl eq_refl) as (m' & Hg & Hv). by exists m', eth0.
Defined.

End IPv6Address.
