(* ===== verification/IPProfile.v ===== *)
(** * Interfaces, their counters, and the ports in use

    [IPInterface], [IPInterfaceStats], [IPActivePort], [IPDevice] and [IPPing] model
    the classes of profiles/IP behind Device.IP.Interface.{i}, its Stats,
    Device.IP.ActivePort.{i}, Device.IP itself and Device.IP.Diagnostics.IPPing. *)
From stdpp Require Import base list strings gmap.
From Stdlib Require Import Ascii ZArith Lia.
From S2P Require Import Prelude HostIf FileStore IniFile Webpa ProfileIO Utils Network IPAddress.
Import ProfileIO Network.

#[local] Arguments streq : simpl never.

Module IPInterface.
Import AddressTable.

Section interface.
(** [name]: the name behind the instance, empty when there is none. *)
Context (n : net) (name : string).

Definition getInterfaceOperationalState : string := if up n name then "Up" else "Down".

Definition get_Interface_Type : string :=
  if loopback n name then "Loopback"
  else if starts_with "eth" name || starts_with "wlan" name then "Normal"
  else "Tunneled".

Definition reply : Type := option (Z * HOSTIF_MsgData_t).
Definition answer_uint (m : HOSTIF_MsgData_t) (z : Z) : HOSTIF_MsgData_t := answer_int hostIf_UnsignedIntType 4 m z.
Definition get_counted (f : Z → HOSTIF_MsgData_t) (v6 : bool) : reply :=
  k ← getIPAddressNumberOfEntries v6 n name; Some (OK, f k).

(** ** Getters *)
Definition get_Interface_Enable (m : HOSTIF_MsgData_t) : reply := Some (OK, answer_bool m (up n name)).
Definition get_Interface_IPv4Enable (m : HOSTIF_MsgData_t) : reply := get_counted (λ k, answer_bool m (1 <=? k)) false.
Definition get_Interface_IPv6Enable (m : HOSTIF_MsgData_t) : reply := get_counted (λ k, answer_bool m (1 <=? k)) true.
Definition get_Interface_Status (m : HOSTIF_MsgData_t) : reply :=
  Some (OK, answer_str TR69HOSTIFMGR_MAX_PARAM_LEN m getInterfaceOperationalState).
Definition get_Interface_Name (m : HOSTIF_MsgData_t) : reply :=
  Some (OK, set_len (set_paramtype (set_value m (Webpa.fill name)) hostIf_StringType) (Z.of_nat (String.length name))).
Definition get_Interface_Reset (m : HOSTIF_MsgData_t) : reply := Some (OK, answer_bool m false).
Definition get_Interface_MaxMTUSize (m : HOSTIF_MsgData_t) : reply := Some (OK, answer_uint m (mtu n name)).
Definition get_Type (m : HOSTIF_MsgData_t) : reply := Some (OK, answer_str TR69HOSTIFMGR_MAX_PARAM_LEN m get_Interface_Type).
Definition get_Interface_Loopback (m : HOSTIF_MsgData_t) : reply := Some (OK, answer_bool m (loopback n name)).
Definition get_Interface_IPv4AddressNumberOfEntries (m : HOSTIF_MsgData_t) : reply := get_counted (answer_uint m) false.
Definition get_Interface_IPv6AddressNumberOfEntries (m : HOSTIF_MsgData_t) : reply := get_counted (answer_uint m) true.
Definition get_Interface_IPv6PrefixNumberOfEntries (m : HOSTIF_MsgData_t) : reply := get_counted (answer_uint m) true.
Definition get_Interface_AutoIPEnable (m : HOSTIF_MsgData_t) : reply := Some (OK, m).

(** [None]: the address of an interface without one is read.  AutoIPEnable is
    answered OK without a value. *)
Definition handleGetMsg (setting : string) (m : HOSTIF_MsgData_t) : reply :=
  if strcaseeq setting "Enable" then get_Interface_Enable m
  else if strcaseeq setting "IPv4Enable" then get_Interface_IPv4Enable m
  else if strcaseeq setting "IPv6Enable" then get_Interface_IPv6Enable m
  else if strcaseeq setting "ULAEnable" then Some (NOK, m)
  else if strcaseeq setting "Status" then get_Interface_Status m
  else if strcaseeq setting "Alias" then Some (NOK, m)
  else if strcaseeq setting "Name" then get_Interface_Name m
  else if existsb (strcaseeq setting) ["LastChange"; "LowerLayers"; "Router"]%string then Some (NOK, m)
  else if strcaseeq setting "Reset" then get_Interface_Reset m
  else if strcaseeq setting "MaxMTUSize" then get_Interface_MaxMTUSize m
  else if strcaseeq setting "Type" then get_Type m
  else if strcaseeq setting "Loopback" then get_Interface_Loopback m
  else if strcaseeq setting "IPv4AddressNumberOfEntries" then get_Interface_IPv4AddressNumberOfEntries m
  else if strcaseeq setting "IPv6AddressNumberOfEntries" then get_Interface_IPv6AddressNumberOfEntries m
  else if strcaseeq setting "IPv6PrefixNumberOfEntries" then get_Interface_IPv6PrefixNumberOfEntries m
  else if strcaseeq setting "AutoIPEnable" then get_Interface_AutoIPEnable m
  else Some (NOK, set_fault m fcInvalidParameterName).

(** [system] runs a text; the arguments that come from requests are numbers. *)
Definition ifconfig (words : list string) : request := Command (["ifconfig"; name]%string ++ words).

Definition set_Interface_Enable (b : bool) : list request := [ifconfig [if b then "up" else "down"]%string].

(** The second command is run when the first could be: [ran] says so. *)
Definition set_Interface_Reset (ran : request → bool) (b : bool) : list request :=
  let down := Command ["ifdown"; name]%string in
  if b then if ran down then [down; Command ["ifup"; name]%string] else [down] else [].

Definition set_Interface_Mtu (value : Z) : list request := [ifconfig ["mtu"; dec value]%string].

(** What the commands answer is dropped. *)
Definition handleSetMsg (ran : request → bool) (setting : string) (m : HOSTIF_MsgData_t)
  : Z * HOSTIF_MsgData_t * list request :=
  let b := get_boolean (paramValue m) in
  if strcaseeq setting "Enable" then (OK, m, set_Interface_Enable b)
  else if strcaseeq setting "IPv4Enable" then (OK, m, set_Interface_Enable b)
  else if strcaseeq setting "Reset" then (OK, m, set_Interface_Reset ran b)
  else if strcaseeq setting "MaxMTUSize" then (OK, m, set_Interface_Mtu (get_int (paramValue m)))
  else (NOT_HANDLED, set_fault m fcInvalidParameterName, []).

End interface.
End IPInterface.

Module IPInterfaceStats.

(** The getters: the parameter, the file of its counter, and the type of the answer. *)
Definition getter : Type := string * (string * HostIf_ParamType_t).
Definition BytesSent : getter := ("BytesSent", ("tx_bytes", hostIf_UnsignedLongType)).
Definition BytesReceived : getter := ("BytesReceived", ("rx_bytes", hostIf_UnsignedLongType)).
Definition PacketsSent : getter := ("PacketsSent", ("tx_packets", hostIf_UnsignedLongType)).
Definition PacketsReceived : getter := ("PacketsReceived", ("rx_packets", hostIf_UnsignedLongType)).
Definition ErrorsSent : getter := ("ErrorsSent", ("tx_errors", hostIf_UnsignedIntType)).
Definition ErrorsReceived : getter := ("ErrorsReceived", ("rx_errors", hostIf_UnsignedIntType)).
Definition UnicastPacketsSent : getter := ("UnicastPacketsSent", ("tx_packets", hostIf_UnsignedLongType)).
Definition UnicastPacketsReceived : getter := ("UnicastPacketsReceived", ("rx_packets", hostIf_UnsignedLongType)).
Definition DiscardPacketsSent : getter := ("DiscardPacketsSent", ("tx_dropped", hostIf_UnsignedIntType)).
Definition DiscardPacketsReceived : getter := ("DiscardPacketsReceived", ("rx_dropped", hostIf_UnsignedIntType)).
Definition MulticastPacketsSent : getter := ("MulticastPacketsSent", ("tx_packets", hostIf_UnsignedLongType)).
Definition MulticastPacketsReceived : getter := ("MulticastPacketsReceived", ("multicast", hostIf_UnsignedLongType)).
Definition BroadcastPacketsSent : getter := ("BroadcastPacketsSent", ("tx_packets", hostIf_UnsignedLongType)).
Definition BroadcastPacketsReceived : getter := ("BroadcastPacketsReceived", ("rx_packets", hostIf_UnsignedIntType)).
Definition UnknownProtoPacketsReceived : getter := ("UnknownProtoPacketsReceived", ("rx_dropped", hostIf_UnsignedIntType)).

Definition statistics : list getter :=
  [BytesSent; BytesReceived; PacketsSent; PacketsReceived; ErrorsSent; ErrorsReceived;
   UnicastPacketsSent; UnicastPacketsReceived; DiscardPacketsSent; DiscardPacketsReceived;
   MulticastPacketsSent; MulticastPacketsReceived; BroadcastPacketsSent; BroadcastPacketsReceived; UnknownProtoPacketsReceived].

Definition statistic_file (name statistic : string) : string :=
  str_take 63 ("/sys/class/net/" +:+ name +:+ "/statistics/" +:+ statistic).

(** [fscanf(fp, "%ld", result)] into an unsigned long that was set to zero. *)
Definition getSysClassNetStatistic (w : env) (name statistic : string) : Z :=
  match read_file w (statistic_file name statistic) with
  | None => 0
  | Some content => uint64 (strtol content).1
  end.

Definition paramLen_of (t : HostIf_ParamType_t) : Z := match t with hostIf_UnsignedLongType => 8 | _ => 4 end.

Definition handleGetMsg (w : env) (name setting : string) (m : HOSTIF_MsgData_t) : Z * HOSTIF_MsgData_t :=
  match List.find (λ s, strcaseeq setting ("Stats." +:+ s.1)) statistics with
  | Some (_, (file, t)) => (OK, answer_int t (paramLen_of t) m (getSysClassNetStatistic w name file))
  | None => (NOT_HANDLED, m)
  end.

(** ** What is answered *)
Lemma strtol_line z rest :
  LONG_MIN <= z <= LONG_MAX → has_char NUL rest = false → (∀ a, scan_digits rest a = (a, rest)) →
  strtol (dec z +:+ rest) = (z, rest).
Proof.
  intros Hz Hn Hr. unfold strtol. rewrite c_str_no_nul by by rewrite has_char_app, dec_no_nul.
  rewrite strto_dec_app by (done || unfold LONG_MIN, LONG_MAX in *; lia).
  unfold LONG_MIN, LONG_MAX in *. f_equal. destruct (Z.ltb_spec z 0); lia.
Qed.

(** Every counter of an interface is answered in 32 bits, whatever type the answer
    has: the value is the counter exactly when that is below 2^31, and a counter of
    2^32 is answered as zero. *)
Theorem counters_wrap w name p file t m c :
  (p, (file, t)) ∈ statistics → 0 <= c < 2 ^ 63 →
  read_file w (statistic_file name file) = Some (with_nl (dec c)) →
  ∃ m', handleGetMsg w name ("Stats." +:+ p) m = (OK, m') ∧ paramtype m' = t
    ∧ get_uint (paramValue m') = c mod 2 ^ 32 ∧ (get_int (paramValue m') = c ↔ c < 2 ^ 31).
Proof.
  intros Hin Hc Hr.
  assert (List.find (λ s, strcaseeq ("Stats." +:+ p) ("Stats." +:+ s.1)) statistics = Some (p, (file, t))) as Hf.
  { unfold statistics in Hin |- *. unfold getter in Hin. rewrite !elem_of_cons in Hin.
    repeat (destruct Hin as [[= -> -> ->]|Hin]; [reflexivity|]). by apply not_elem_of_nil in Hin. }
  unfold handleGetMsg. rewrite Hf. eexists. split; [done|]. split; [done|].
  unfold getSysClassNetStatistic. rewrite Hr. unfold with_nl.
  rewrite strtol_line by (done || unfold LONG_MIN, LONG_MAX; lia). cbn [fst]. unfold uint64. rewrite Z.mod_small by lia.
  split; [apply (get_put_uint (paramValue m))|]. rewrite answer_int_value. split.
  - intros E. pose proof (int32_range c). lia.
  - intros Hlt. apply int32_id. lia.
Qed.

Definition bytes_env (c : Z) : env :=
  put_file (mkEnv ∅ ∅ true ∅ EmptyString 0) "/sys/class/net/eth0/statistics/rx_bytes" (with_nl (dec c)).

Lemma counters_wrap_witness :
  ∃ m', handleGetMsg (bytes_env (2 ^ 32 + 5)) "eth0" "Stats.BytesReceived" zero_msg = (OK, m')
    ∧ get_uint (paramValue m') = 5.
Proof.
  destruct (counters_wrap (bytes_env (2 ^ 32 + 5)) "eth0" "BytesReceived" "rx_bytes" hostIf_UnsignedLongType zero_msg
              (2 ^ 32 + 5)) as (m' & Hm & _ & Hv & _).
  - in_list.
  - lia.
  - vm_compute. reflexivity.
  - exists m'. split; [exact Hm|]. rewrite Hv. reflexivity.
Defined.

End IPInterfaceStats.

Module IPActivePort.

Definition _LENGTH_IPADDR : nat := 16.
Definition _HEX_STATE_LEN : nat := 3.
Definition _LENGTH_STATUS : nat := 12.

(** The static structure that the last reading left. *)
Record fields := mkFields {
  localIpAddress : string; localPort : Z; remoteIpAddress : string; remotePort : Z; status : string
}.
Definition cleared : fields := mkFields EmptyString 0 EmptyString 0 EmptyString.

Definition hex_value (c : ascii) : option Z :=
  let v := byte_val c in
  if is_digit c then Some (v - 48)
  else if (97 <=? v) && (v <=? 102) then Some (v - 87)
  else if (65 <=? v) && (v <=? 70) then Some (v - 55)
  else None.

Fixpoint scan_hex (s : string) (acc : Z) : Z :=
  match s with
  | String c s' => match hex_value c with Some d => scan_hex s' (acc * 16 + d) | None => acc end
  | EmptyString => acc
  end.

(** [strtoul(s, NULL, 16)] of a text without white space: an optional sign, an
    optional 0x before a digit, and digits. *)
Definition sign_of (s : string) : bool * string :=
  match s with
  | String c s' => if Ascii.eqb c "-" then (true, s') else if Ascii.eqb c "+" then (false, s') else (false, s)
  | EmptyString => (false, s)
  end.

Definition skip_0x (s : string) : string :=
  match s with
  | String a (String b (String c _ as s')) =>
      if Ascii.eqb a "0" && (Ascii.eqb b "x" || Ascii.eqb b "X") && bool_decide (is_Some (hex_value c)) then s' else s
  | _ => s
  end.

Definition strtoul16 (s : string) : Z :=
  let '(negative, s') := sign_of s in
  let v := scan_hex (skip_0x s') 0 in
  if ULONG_MAX <? v then ULONG_MAX else if negative then (- v) mod 2 ^ 64 else v.

(** [inet_ntop] of the first four bytes of an unsigned long. *)
Definition ntop_word (z : Z) : string :=
  IPv4Address.dotted [z mod 256; z / 256 mod 256; z / 256 ^ 2 mod 256; z / 256 ^ 3 mod 256].

(** A word copied into a buffer, with its terminator; [None]: the terminator is written
    past the buffer. *)
Definition copied (size : nat) (s : string) : option string :=
  if (String.length s <? size)%nat then Some s else None.

(** An address and a port; [None]: there is no colon, and the null pointer that
    [strsep] leaves is read. *)
Definition address_port (s : string) : option (string * Z) :=
  '(address, port) ← split_at ":" s; Some (ntop_word (strtoul16 address), uint32 (strtoul16 port)).

Definition status_text (state : string) : string :=
  if strtoul16 state =? 10 then "LISTEN" else if strtoul16 state =? 1 then "ESTABLISHED" else EmptyString.

Definition word_at (line : string) (i : nat) : string := default EmptyString (words line !! i).

(** Without the file nothing is changed; without the line everything is cleared. *)
Definition getActivePortsFields (w : env) (activePortNo : Z) (f : fields) : option fields :=
  match read_file w TCP_FILE with
  | None => Some f
  | Some content =>
      match (if 1 <=? activePortNo then drop 1 (getlines content) !! Z.to_nat (activePortNo - 1) else None) with
      | None => Some cleared
      | Some line =>
          local_address ← copied _LENGTH_IPADDR (word_at line 1);
          rem_address ← copied _LENGTH_IPADDR (word_at line 2);
          state ← copied _HEX_STATE_LEN (word_at line 3);
          '(la, lp) ← address_port local_address;
          '(ra, rp) ← address_port rem_address;
          Some (mkFields la lp ra rp (status_text state))
      end
  end.

(** ** Getters: each reads the line of its instance anew. *)
Definition reply : Type := option (Z * HOSTIF_MsgData_t * fields).
Definition read_line (w : env) (dev_id : Z) (f : fields) (answer : fields → HOSTIF_MsgData_t) : reply :=
  f' ← getActivePortsFields w dev_id f; Some (OK, answer f', f').

Definition get_LocalIPAddress (w : env) (dev_id : Z) (m : HOSTIF_MsgData_t) (f : fields) : reply :=
  read_line w dev_id f (λ f, answer_str (TR69HOSTIFMGR_MAX_PARAM_LEN - 1) m (localIpAddress f)).
Definition get_LocalPort (w : env) (dev_id : Z) (m : HOSTIF_MsgData_t) (f : fields) : reply :=
  read_line w dev_id f (λ f, answer_int hostIf_UnsignedIntType 4 m (localPort f)).
Definition get_RemoteIPAddress (w : env) (dev_id : Z) (m : HOSTIF_MsgData_t) (f : fields) : reply :=
  read_line w dev_id f (λ f, answer_str (TR69HOSTIFMGR_MAX_PARAM_LEN - 1) m (remoteIpAddress f)).
Definition get_RemotePort (w : env) (dev_id : Z) (m : HOSTIF_MsgData_t) (f : fields) : reply :=
  read_line w dev_id f (λ f, answer_int hostIf_UnsignedIntType 4 m (remotePort f)).
Definition get_Status (w : env) (dev_id : Z) (m : HOSTIF_MsgData_t) (f : fields) : reply :=
  read_line w dev_id f (λ f, answer_str (_LENGTH_STATUS - 1) m (status f)).

Definition handleGetMsg (w : env) (dev_id : Z) (setting : string) (m : HOSTIF_MsgData_t) (f : fields) : reply :=
  if strcaseeq setting "LocalIPAddress" then get_LocalIPAddress w dev_id m f
  else if strcaseeq setting "LocalPort" then get_LocalPort w dev_id m f
  else if strcaseeq setting "RemoteIPAddress" then get_RemoteIPAddress w dev_id m f
  else if strcaseeq setting "RemotePort" then get_RemotePort w dev_id m f
  else if strcaseeq setting "Status" then get_Status w dev_id m f
  else Some (NOT_HANDLED, m, f).

(** ** The lines of the kernel *)
Definition hex_digit (d : Z) : ascii := if d <? 10 then digit d else ascii_of_N (Z.to_N (d + 55)).
Fixpoint hex_text (k : nat) (z : Z) : string :=
  match k with
  | O => EmptyString
  | S k' => hex_text k' (z / 16) +:+ String (hex_digit (z mod 16)) EmptyString
  end.

Lemma hex_value_digit d : 0 <= d < 16 → hex_value (hex_digit d) = Some d.
Proof.
  assert (Forall (λ d, hex_value (hex_digit (Z.of_nat d)) = Some (Z.of_nat d)) (seq 0 16)) as Hall
    by (apply (bool_decide_unpack _); vm_compute; exact I).
  intros Hd. rewrite <- (Z2Nat.id d) by lia. apply (proj1 (Forall_forall _ _) Hall), elem_of_seq. lia.
Qed.

Lemma scan_hex_text k z acc s :
  0 <= z < 16 ^ Z.of_nat k → scan_hex (hex_text k z +:+ s) acc = scan_hex s (acc * 16 ^ Z.of_nat k + z).
Proof.
  revert z acc s. induction k as [|k IH]; intros z acc s Hz.
  { assert (z = 0) as -> by (cbn in Hz; lia). cbn [hex_text String.append]. f_equal. cbn. lia. }
  rewrite Nat2Z.inj_succ, Z.pow_succ_r in Hz |- * by lia. cbn [hex_text].
  pose proof (Z.mod_pos_bound z 16 ltac:(lia)). pose proof (Z.div_mod z 16 ltac:(lia)).
  rewrite str_app_assoc. rewrite IH by (split; [apply Z.div_pos; lia|apply Z.div_lt_upper_bound; lia]).
  cbn [String.append scan_hex]. rewrite hex_value_digit by lia. f_equal. lia.
Qed.

Lemma hex_text_digits k z c : 0 <= z → has_char c (hex_text k z) = true → is_Some (hex_value c).
Proof.
  revert z. induction k as [|k IH]; intros z Hz; [done|]. cbn [hex_text]. rewrite has_char_app. cbn [has_char].
  rewrite orb_false_r. intros [Hc|Hc%Ascii.eqb_eq]%orb_true_iff.
  - apply (IH (z / 16)); [|done]. apply Z.div_pos; lia.
  - subst c. rewrite hex_value_digit by (apply Z.mod_pos_bound; lia). by eexists.
Qed.

Lemma sign_of_digits s : (∀ c, has_char c s = true → is_Some (hex_value c)) → sign_of s = (false, s).
Proof.
  destruct s as [|a s]; intros Hd; [done|]. cbn [sign_of].
  assert (is_Some (hex_value a)) as [v Hv] by (apply Hd; cbn [has_char]; by rewrite Ascii.eqb_refl).
  destruct (Ascii.eqb_spec a "-") as [->|]; [by vm_compute in Hv|].
  destruct (Ascii.eqb_spec a "+") as [->|]; [by vm_compute in Hv|done].
Qed.

Lemma skip_0x_digits s : (∀ c, has_char c s = true → is_Some (hex_value c)) → skip_0x s = s.
Proof.
  destruct s as [|a [|b [|c s]]]; intros Hd; try done. cbn [skip_0x].
  assert (is_Some (hex_value b)) as [v Hv] by (apply Hd; cbn [has_char]; by rewrite Ascii.eqb_refl, orb_true_r).
  destruct (Ascii.eqb_spec b "x") as [->|]; [by vm_compute in Hv|].
  destruct (Ascii.eqb_spec b "X") as [->|]; [by vm_compute in Hv|]. by rewrite andb_false_r.
Qed.

Lemma strtoul16_hex k z : 0 <= z < 16 ^ Z.of_nat k → (k ≤ 8)%nat → strtoul16 (hex_text k z) = z.
Proof.
  intros Hz Hk. unfold strtoul16.
  rewrite sign_of_digits by (intros c; apply hex_text_digits; lia).
  rewrite skip_0x_digits by (intros c; apply hex_text_digits; lia).
  pose proof (scan_hex_text k z 0 EmptyString Hz) as Hs. rewrite str_app_nil_r in Hs. cbn [scan_hex] in Hs.
  rewrite Hs. assert (16 ^ Z.of_nat k <= 16 ^ 8) by (apply Z.pow_le_mono_r; lia).
  unfold ULONG_MAX. destruct (Z.ltb_spec (2 ^ 64 - 1) (0 * 16 ^ Z.of_nat k + z)); lia.
Qed.

Lemma length_hex_text k z : String.length (hex_text k z) = k.
Proof. revert z. induction k as [|k IH]; intros z; [done|]. cbn [hex_text]. rewrite str_length_app, IH. cbn. lia. Qed.

Lemma hex_text_no_char c k z : 0 <= z → hex_value c = None → has_char c (hex_text k z) = false.
Proof.
  intros Hz Hc. apply not_true_iff_false. intros H. apply hex_text_digits in H as [v Hv]; [|done]. by rewrite Hv in Hc.
Qed.

(** A text without white space, for [>>]. *)
Definition solid (s : string) : Prop := ∀ c, is_space c = true → has_char c s = false.

Lemma solid_app a b : solid a → solid b → solid (a +:+ b).
Proof. intros Ha Hb c Hc. by rewrite has_char_app, Ha, Hb. Qed.

Lemma solid_hex k z : 0 <= z → solid (hex_text k z).
Proof.
  intros Hz c Hc. apply hex_text_no_char; [done|]. revert Hc. unfold is_space, hex_value, is_digit. intros Hc.
  repeat case_match; try done; lia.
Qed.

Lemma words_from_solid cur x s : solid x → words_from cur (x +:+ s) = words_from (cur +:+ x) s.
Proof.
  revert cur. induction x as [|c x IH]; intros cur Hx; [by rewrite str_app_nil_r|]. cbn [String.append words_from].
  destruct (is_space c) eqn:Hc. { specialize (Hx c Hc). cbn [has_char] in Hx. by rewrite Ascii.eqb_refl in Hx. }
  rewrite IH; [by rewrite str_app_assoc|]. intros a Ha. specialize (Hx a Ha). cbn [has_char] in Hx.
  by apply orb_false_elim in Hx as [_ ?].
Qed.

Lemma words_cons x s : solid x → x ≠ EmptyString → words (x +:+ String " " s) = x :: words s.
Proof.
  intros Hx Hne. unfold words. rewrite words_from_solid by done. cbn [String.append words_from].
  replace (is_space " ") with true by reflexivity. by destruct x.
Qed.

Lemma words_space s : words (String " " s) = words s.
Proof. reflexivity. Qed.

(** A line of the kernel: its number, the local and the remote address and port,
    the state, and the rest. *)
Definition endpoint (a p : Z) : string := hex_text 8 a +:+ String ":" (hex_text 4 p).
Definition tcp_line (number : string) (a p b q st : Z) (rest : string) : string :=
  number +:+ String " " (endpoint a p +:+ String " " (endpoint b q +:+ String " " (hex_text 2 st +:+ String " " rest))).

Definition word32 (z : Z) : Prop := 0 <= z < 2 ^ 32.
Definition word16 (z : Z) : Prop := 0 <= z < 2 ^ 16.

Lemma solid_endpoint a p : word32 a → word16 p → solid (endpoint a p).
Proof.
  intros Ha Hp. apply solid_app; [apply solid_hex; unfold word32 in Ha; lia|]. intros c Hc. cbn [has_char].
  rewrite solid_hex by (done || unfold word16 in Hp; lia). destruct (Ascii.eqb_spec c ":") as [->|]; done.
Qed.

Lemma address_port_endpoint a p :
  word32 a → word16 p → address_port (endpoint a p) = Some (ntop_word a, p).
Proof.
  unfold word32, word16. intros Ha Hp. unfold address_port, endpoint.
  rewrite split_at_app by (apply hex_text_no_char; [lia|reflexivity]). cbn [mbind option_bind].
  rewrite !strtoul16_hex by (cbn; lia). unfold uint32. by rewrite Z.mod_small by lia.
Qed.

Lemma copied_endpoint a p : copied _LENGTH_IPADDR (endpoint a p) = Some (endpoint a p).
Proof.
  unfold copied, endpoint. rewrite str_length_app. cbn [String.length]. by rewrite !length_hex_text.
Qed.

Definition state_name (st : Z) : string :=
  if st =? 10 then "LISTEN" else if st =? 1 then "ESTABLISHED" else EmptyString.

Lemma words_tcp_line number a p b q st rest :
  solid number → number ≠ EmptyString → word32 a → word16 p → word32 b → word16 q → 0 <= st < 2 ^ 8 →
  words (tcp_line number a p b q st rest) = number :: endpoint a p :: endpoint b q :: hex_text 2 st :: words rest.
Proof.
  intros Hn Hne Ha Hp Hb Hq Hst. unfold tcp_line. rewrite words_cons by done.
  assert (∀ a p, endpoint a p ≠ EmptyString) as Hep by (intros x y E; apply (f_equal String.length) in E; unfold endpoint in E; by rewrite str_length_app, length_hex_text in E).
  rewrite !words_cons; [done|..]; try by (apply Hep || apply solid_endpoint).
  - apply solid_hex; lia.
  - intros E. apply (f_equal String.length) in E. by rewrite length_hex_text in E.
Qed.

(** Instance i answers the addresses, the ports and the state of the i-th line of
    /proc/net/tcp after its heading, whatever was read before: the addresses in the
    byte order of the kernel, the first byte the lowest. *)
Theorem active_port_exact w content header lines i number a p b q st rest f :
  read_file w TCP_FILE = Some content → getlines content = header :: lines →
  lines !! i = Some (tcp_line number a p b q st rest) → solid number → number ≠ EmptyString →
  word32 a → word16 p → word32 b → word16 q → 0 <= st < 2 ^ 8 →
  getActivePortsFields w (Z.of_nat i + 1) f = Some (mkFields (ntop_word a) p (ntop_word b) q (state_name st)).
Proof.
  intros Hr Hg Hi Hn Hne Ha Hp Hb Hq Hst. unfold getActivePortsFields. rewrite Hr, Hg.
  destruct (Z.leb_spec 1 (Z.of_nat i + 1)); [|lia]. cbn [drop]. replace (Z.to_nat (Z.of_nat i + 1 - 1)) with i by lia.
  rewrite drop_0, Hi. unfold word_at. rewrite words_tcp_line by done. cbn [lookup list_lookup default id]. unfold id.
  rewrite !copied_endpoint. cbn [mbind option_bind]. unfold copied. rewrite length_hex_text. cbn [mbind option_bind Nat.ltb Nat.leb _HEX_STATE_LEN].
  rewrite !address_port_endpoint by done. cbn [mbind option_bind]. unfold status_text. rewrite strtoul16_hex by (cbn; lia). done.
Qed.

Definition tcp_header : string := "  sl  local_address rem_address   st tx_queue rx_queue tr tm->when retrnsmt   uid  timeout inode".

(** A resolver that listens, a connection that is closing, and one that is open. *)
Definition tcp_lines : list string :=
  [tcp_line "0:" 0x0100007F 53 0 0 10 "00000000:00000000 00:00000000";
   tcp_line "1:" 0x6501A8C0 50000 0x08080808 443 6 "00000000:00000000 03:00000000";
   tcp_line "2:" 0x6501A8C0 50001 0x08080808 443 1 "00000000:00000000 00:00000000"].
Definition tcp_env : env := put_file (mkEnv ∅ ∅ true ∅ EmptyString 0) TCP_FILE (text_of (tcp_header :: tcp_lines)).

Lemma active_port_exact_witness :
  getActivePortsFields tcp_env 3 cleared = Some (mkFields "192.168.1.101" 50001 "8.8.8.8" 443 "ESTABLISHED").
Proof.
  rewrite (active_port_exact tcp_env (text_of (tcp_header :: tcp_lines)) tcp_header tcp_lines 2 "2:" 0x6501A8C0 50001 0x08080808 443 1
             "00000000:00000000 00:00000000").
  - reflexivity.
  - reflexivity.
  - reflexivity.
  - reflexivity.
  - intros c Hc. cbn [has_char]. destruct (Ascii.eqb_spec c "2") as [->|]; [done|].
    destruct (Ascii.eqb_spec c ":") as [->|]; done.
  - done.
  - split; [apply Z.leb_le|apply Z.ltb_lt]; reflexivity.
  - split; [apply Z.leb_le|apply Z.ltb_lt]; reflexivity.
  - split; [apply Z.leb_le|apply Z.ltb_lt]; reflexivity.
  - split; [apply Z.leb_le|apply Z.ltb_lt]; reflexivity.
  - lia.
Defined.

(** The number of entries counts the lines in the states 0A and 01, but the instances
    number all lines: of the two entries counted here the second has no status, and
    the open connection is instance 3, beyond the count. *)
Example active_ports_misnumbered :
  getNumOfActivePorts tcp_env = 2
  ∧ status <$> getActivePortsFields tcp_env 2 cleared = Some EmptyString
  ∧ status <$> getActivePortsFields tcp_env 3 cleared = Some "ESTABLISHED"%string.
Proof. vm_compute. auto. Qed.

(** The answer of a status is copied without a terminator: ESTABLISHED has as many
    characters as are copied, and is followed by what the buffer held. *)
Example status_unterminated :
  match handleGetMsg tcp_env 3 "Status" (set_value zero_msg (Webpa.fill "Device.IP.ActivePort.3.Status")) cleared with
  | Some (_, m, _) => buf_str (paramValue m) = "ESTABLISHEDctivePort.3.Status"%string
  | None => False
  end.
Proof. vm_compute. reflexivity. Qed.

End IPActivePort.

Module IPDevice.

Definition BUFF_LENGTH : nat := 1024.

(** What the last reading of the addresses left; the other members are read anew for
    every answer. *)
Record t := mk { iPv4Enable : bool; iPv4Status : string }.
Definition init : t := mk false "Disabled".

Section operations.
(** [inet_addrs]: what the command that counts the lines of ifconfig with an address
    prints, where it can be run; [run]: what [system] gives for a command. *)
Context (n : net) (w : env) (inet_addrs : option string) (run : list string → Z).

Definition get_Device_IP_Fields (x : t) : t :=
  match inet_addrs with
  | None => x
  | Some output =>
      let available := match fgets_lines BUFF_LENGTH output with line :: _ => atoi line | [] => 0 end in
      if available =? 0 then mk false "Disabled" else mk true "Enabled"
  end.

Definition get_Device_IP_InterfaceNumberOfEntries (m : HOSTIF_MsgData_t) : option (Z * HOSTIF_MsgData_t) :=
  k ← getInterfaceNumberOfEntries n; Some (OK, answer_int hostIf_UnsignedIntType 4 m k).

Definition get_Device_IP_ActivePortNumberOfEntries (m : HOSTIF_MsgData_t) : Z * HOSTIF_MsgData_t :=
  (OK, answer_int hostIf_UnsignedIntType 4 m (getNumOfActivePorts w)).

Definition get_Device_IP_IPv4Capable (m : HOSTIF_MsgData_t) : Z * HOSTIF_MsgData_t := (OK, answer_bool m true).
Definition get_Device_IP_IPv4Enable (m : HOSTIF_MsgData_t) (x : t) : Z * HOSTIF_MsgData_t * t :=
  let x' := get_Device_IP_Fields x in (OK, answer_bool m (iPv4Enable x'), x').
Definition get_Device_IP_IPv4Status (m : HOSTIF_MsgData_t) (x : t) : Z * HOSTIF_MsgData_t * t :=
  let x' := get_Device_IP_Fields x in (OK, answer_str TR69HOSTIFMGR_MAX_PARAM_LEN m (iPv4Status x'), x').
Definition get_Device_IP_ULAPrefix (m : HOSTIF_MsgData_t) : Z * HOSTIF_MsgData_t := (NOK, m).

Definition handleGetMsg (m : HOSTIF_MsgData_t) (x : t) : option (Z * HOSTIF_MsgData_t * t) :=
  let name := paramName m in
  if strcaseeq name "Device.IP.IPv4Capable" then Some (get_Device_IP_IPv4Capable m, x)
  else if strcaseeq name "Device.IP.IPv4Enable" then Some (get_Device_IP_IPv4Enable m x)
  else if strcaseeq name "Device.IP.IPv4Status" then Some (get_Device_IP_IPv4Status m x)
  else if strcaseeq name "Device.IP.ULAPrefix" then Some (get_Device_IP_ULAPrefix m, x)
  else if strcaseeq name "Device.IP.InterfaceNumberOfEntries" then
    r ← get_Device_IP_InterfaceNumberOfEntries m; Some (r, x)
  else if strcaseeq name "Device.IP.ActivePortNumberOfEntries" then
    Some (get_Device_IP_ActivePortNumberOfEntries m, x)
  else Some (NOK, set_fault m fcInvalidParameterName, x).

Definition set_Device_IP_IPv4Enable (m : HOSTIF_MsgData_t) : Z * list request :=
  let v := get_int (paramValue m) in
  let '(rc, rs) := if v =? 1 then (run ["ifup"; "-a"]%string, [Command ["ifup"; "-a"]%string])
                   else if v =? 0 then (run ["ifdown"; "-a"]%string, [Command ["ifdown"; "-a"]%string])
                   else (-1, []) in
  (if rc <? 0 then NOK else OK, rs).

Definition handleSetMsg (m : HOSTIF_MsgData_t) : Z * HOSTIF_MsgData_t * list request :=
  if strcaseeq (paramName m) "Device.IP.IPv4Enable" then
    let '(ret, rs) := set_Device_IP_IPv4Enable m in (ret, m, rs)
  else (NOT_HANDLED, set_fault m fcInvalidParameterName, []).
End operations.

End IPDevice.

Module IPPing.

Definition PROFILE_NAME : string := "Device.IP.Diagnostics.IPPing.".
Definition filename : string := "/opt/tr-181/" +:+ PROFILE_NAME +:+ "dat".

(** The constructor: a file that cannot be read is made, if it can be. *)
Definition start (w : env) : IniFile.t * env :=
  let '(ok, x) := IniFile.load filename IniFile.init w in
  if ok then (x, w) else (x, default w (open_trunc w filename)).

Definition kept : list string := ["Host"; "NumberOfRepetitions"; "DataBlockSize"]%string.
Definition known (m : HOSTIF_MsgData_t) : bool :=
  existsb (streq (str_drop (String.length PROFILE_NAME) (paramName m))) kept.

Definition handleGetMsg (m : HOSTIF_MsgData_t) (x : IniFile.t) : Z * HOSTIF_MsgData_t :=
  if known m then (OK, set_fault (putValue m (IniFile.value x (paramName m) EmptyString)) fcNoFault)
  else (NOK, set_fault m fcInvalidParameterName).

(** [None]: the value is a number whose text leaves its buffer. *)
Definition handleSetMsg (m : HOSTIF_MsgData_t) (x : IniFile.t) (w : env) : option (Z * HOSTIF_MsgData_t * IniFile.t * env) :=
  if known m then
    v ← getStringValue m;
    let '(ok, x', w') := IniFile.setValue x w (paramName m) v in
    Some (if ok then (OK, set_fault m fcNoFault, x', w') else (NOK, set_fault m fcInternalError, x', w'))
  else Some (NOK, set_fault m fcInvalidParameterName, x, w).

Lemma name_decomposed m : known m = true → starts_with PROFILE_NAME (paramName m) = true →
  ∃ k, k ∈ kept ∧ paramName m = PROFILE_NAME +:+ k.
Proof.
  unfold known. intros (k & Hk & He)%existsb_exists (t & Ht)%starts_with_true. exists k.
  split; [by apply list_elem_of_In|]. rewrite Ht in He |- *. rewrite str_drop_app in He.
  by apply streq_true in He as ->.
Qed.

(** A text that was set is what a get answers from then on, by this process and by one
    that is started afterwards; the other parameters keep their texts. *)
Theorem ping_settings_kept m x w m' x' w' :
  IniFile.m_filename x = filename → kv_ok (IniFile.m_dict x) → starts_with PROFILE_NAME (paramName m) = true →
  paramtype m = hostIf_StringType → val_ok (buf_str (paramValue m)) → (String.length (buf_str (paramValue m)) < 4096)%nat →
  handleSetMsg m x w = Some (OK, m', x', w') →
  (start w').1 = x' ∧ IniFile.m_filename x' = filename ∧ kv_ok (IniFile.m_dict x')
  ∧ ∀ q, known q = true → paramtype q = hostIf_StringType →
      buf_str (paramValue (handleGetMsg q x').2)
      = if decide (paramName q = paramName m) then buf_str (paramValue m)
        else buf_str (paramValue (handleGetMsg q x).2).
Proof.
  intros Hf Hok Hp Ht Hv Hl. unfold handleSetMsg. destruct (known m) eqn:Hk; [|done].
  destruct (name_decomposed m Hk Hp) as (k & Hin & Hn).
  unfold getStringValue. rewrite Ht. cbn [mbind option_bind]. unfold IniFile.setValue. rewrite Hf.
  change (is_empty filename) with false. cbv iota.
  destruct (IniFile.flush _ w) as [r w1] eqn:Hfl. intros Hs. assert (r = true) as ->. { by destruct r. } injection Hs as <- <- <-.
  assert (key_ok (paramName m)) as Hkey.
  { rewrite Hn. unfold kept in Hin. rewrite !elem_of_cons in Hin.
    destruct Hin as [->|[->|[->|[]%not_elem_of_nil]]]; by vm_compute. }
  assert (kv_ok (<[paramName m:=buf_str (paramValue m)]> (IniFile.m_dict x))) as Hok' by by apply kv_ok_insert.
  split; [|split; [done|split; [done|]]].
  - unfold start. change filename with (IniFile.m_filename (IniFile.mk filename (<[paramName m:=buf_str (paramValue m)]> (IniFile.m_dict x)))) at 1.
    by rewrite (IniFile.flush_load (IniFile.mk filename _) _ w w1) by (done || by vm_compute).
  - intros q Hq Hqt. unfold handleGetMsg. rewrite Hq. cbn [snd]. rewrite !value_set_fault. unfold IniFile.value.
    cbn [IniFile.m_dict]. case_decide as Hqn; [|by rewrite lookup_insert_ne by congruence].
    rewrite Hqn, lookup_insert_eq. cbn [default].
    pose proof (putValue_string q (buf_str (paramValue m)) Hqt (c_str_has_nul _) Hl) as Hg.
    unfold getStringValue in Hg. rewrite paramtype_putValue, Hqt in Hg. injection Hg as Hg. exact Hg.
Qed.

Definition ping_env : env := mkEnv ∅ ∅ true ∅ EmptyString 0.
Definition ping_msg (setting value : string) : HOSTIF_MsgData_t :=
  set_value (Webpa.mk_request (PROFILE_NAME +:+ setting) hostIf_StringType zero_msg) (Webpa.fill value).

Lemma ping_settings_kept_witness :
  ∃ m' x' w', handleSetMsg (ping_msg "Host" "192.168.1.1") (start ping_env).1 (start ping_env).2 = Some (OK, m', x', w')
    ∧ buf_str (paramValue (handleGetMsg (ping_msg "Host" "") (start w').1).2) = "192.168.1.1"%string
    ∧ buf_str (paramValue (handleGetMsg (ping_msg "DataBlockSize" "") (start w').1).2) = EmptyString.
Proof.
  destruct (handleSetMsg (ping_msg "Host" "192.168.1.1") (start ping_env).1 (start ping_env).2) as [[[[ret m'] x'] w']|] eqn:E;
    [|by vm_compute in E].
  assert (ret = OK) as -> by (vm_compute in E; by injection E).
  destruct (ping_settings_kept (ping_msg "Host" "192.168.1.1") (start ping_env).1 (start ping_env).2 m' x' w') as (Hx & _ & _ & Hq).
  - reflexivity.
  - apply kv_ok_empty.
  - reflexivity.
  - reflexivity.
  - vm_compute. exact I.
  - apply Nat.ltb_lt. vm_compute. reflexivity.
  - exact E.
  - exists m', x', w'. split; [done|]. rewrite Hx. split.
    + rewrite Hq by reflexivity. vm_compute. reflexivity.
    + rewrite Hq by reflexivity. vm_compute. reflexivity.
Defined.

End IPPing.
