(* ===== verification/IPClient.v ===== *)
(** * The manager of Device.IP

    [IPClientReqHandler] models handlers/src/hostIf_IPClient_ReqHandler.cpp: how
    requests reach the classes of profiles/IP, the state that those keep between
    requests, the attributes, and the rounds that report what came and went. *)
From stdpp Require Import base list strings gmap.
From Stdlib Require Import Ascii ZArith Lia.
From S2P Require Import Prelude HostIf FileStore IniFile Webpa ProfileIO Utils Notify UpdateHandler.
From S2P Require Import Network IPAddress IPProfile.
Import ProfileIO Network NotifyHash updateHandler.

#[local] Arguments streq : simpl never.

Module IPClientReqHandler.
Import AddressTable.

(** The counts of addresses and prefixes that were reported, by the number of the
    interface. *)
Record counts := mkCounts {
  curNumOfInterfaceIPv4Addresses : gmap Z Z;
  curNumOfInterfaceIPv6Addresses : gmap Z Z;
  curNumOfInterfaceIPv6Prefixes : gmap Z Z
}.

(** What the manager and the classes keep: the instances whose members matter, the
    members of Device.IP, whether its instance 0 exists, the table of attributes, the
    last active port, the file of IPPing once it was opened, and the update rounds. *)
Record state := mkState {
  v4Hash : gmap Z IPv4Address.t;
  v6Hash : gmap Z IPv6Address.t;
  stIPInstance : IPDevice.t;
  ip_made : bool;
  m_notifyHash : notify;
  activePort : IPActivePort.fields;
  ipping : option IniFile.t;
  mUpdateCallback : bool;
  curNumOfIPInterface : Z;
  curNumOf : counts
}.

Definition initial : state :=
  mkState ∅ ∅ IPDevice.init false no_table IPActivePort.cleared None false 0 (mkCounts ∅ ∅ ∅).

Definition with_v4 (s : state) (i : Z) (x : IPv4Address.t) : state :=
  mkState (<[i:=x]> (v4Hash s)) (v6Hash s) (stIPInstance s) (ip_made s) (m_notifyHash s) (activePort s) (ipping s)
    (mUpdateCallback s) (curNumOfIPInterface s) (curNumOf s).
Definition with_v6 (s : state) (i : Z) (x : IPv6Address.t) : state :=
  mkState (v4Hash s) (<[i:=x]> (v6Hash s)) (stIPInstance s) (ip_made s) (m_notifyHash s) (activePort s) (ipping s)
    (mUpdateCallback s) (curNumOfIPInterface s) (curNumOf s).
Definition with_ip (s : state) (x : IPDevice.t) : state :=
  mkState (v4Hash s) (v6Hash s) x true (m_notifyHash s) (activePort s) (ipping s)
    (mUpdateCallback s) (curNumOfIPInterface s) (curNumOf s).
Definition with_notify (s : state) (t : notify) : state :=
  mkState (v4Hash s) (v6Hash s) (stIPInstance s) true t (activePort s) (ipping s)
    (mUpdateCallback s) (curNumOfIPInterface s) (curNumOf s).
Definition with_port (s : state) (f : IPActivePort.fields) : state :=
  mkState (v4Hash s) (v6Hash s) (stIPInstance s) (ip_made s) (m_notifyHash s) f (ipping s)
    (mUpdateCallback s) (curNumOfIPInterface s) (curNumOf s).
Definition with_ping (s : state) (x : IniFile.t) : state :=
  mkState (v4Hash s) (v6Hash s) (stIPInstance s) (ip_made s) (m_notifyHash s) (activePort s) (Some x)
    (mUpdateCallback s) (curNumOfIPInterface s) (curNumOf s).
Definition with_counts (s : state) (c : counts) : state :=
  mkState (v4Hash s) (v6Hash s) (stIPInstance s) (ip_made s) (m_notifyHash s) (activePort s) (ipping s)
    (mUpdateCallback s) (curNumOfIPInterface s) c.

Definition registerUpdateCallback (cb : bool) (s : state) : state :=
  mkState (v4Hash s) (v6Hash s) (stIPInstance s) (ip_made s) (m_notifyHash s) (activePort s) (ipping s)
    cb (curNumOfIPInterface s) (curNumOf s).

Definition reset (s : state) : state :=
  mkState (v4Hash s) (v6Hash s) (stIPInstance s) (ip_made s) (m_notifyHash s) (activePort s) (ipping s)
    (mUpdateCallback s) 0 (mkCounts ∅ ∅ ∅).

(** Everything but the IPv6 addresses is closed; the table of attributes goes with the
    instance of Device.IP and is not forgotten.  [None]: it is destroyed twice. *)
Definition unInit (s : state) : option state :=
  t ← if ip_made s then destroy_table (m_notifyHash s) else Some (m_notifyHash s);
  Some (mkState ∅ (v6Hash s) (stIPInstance s) false t (activePort s) (ipping s)
          (mUpdateCallback s) (curNumOfIPInterface s) (curNumOf s)).

Section manager.
(** The process's environment, the network, what the commands print, the resolution of
    IPv6 addresses, and what the system does with requests. *)
Context `{Inet6} (getenv : string → option string) (n : net).
Context (inet_addrs : option string) (addr_show : string → Z → option string) (strftime : Z → string).
Context (run : list string → Z) (ran : request → bool) (socket : bool) (accepts : list request → request → bool).
(** [g_str_hash] *)
Context (str_hash : string → Z).

(** [getInstance]: a new instance where there is none, with the name of today. *)
Definition v4_instance (s : state) (i : Z) : IPv4Address.t :=
  IPv4Address.refresh n (default (IPv4Address.new n i) (v4Hash s !! i)).
Definition v6_instance (s : state) (i : Z) : IPv6Address.t :=
  IPv6Address.refresh n (default (IPv6Address.new n i) (v6Hash s !! i)).
Definition ping_instance (s : state) (w : env) : IniFile.t * env :=
  match ipping s with Some x => (x, w) | None => IPPing.start w end.

(** [None]: the address of an interface without one is read, or memory that was never
    written. *)
Definition reply : Type := option (Z * HOSTIF_MsgData_t * state * env).

Definition get_v6 (isAddress : bool) (setting : string) (i j : Z) (m : HOSTIF_MsgData_t) (s : state) (w : env) : reply :=
  '(ret, m', x') ← IPv6Address.handleGetMsg n addr_show strftime setting j m isAddress (v6_instance s i);
  Some (ret, m', with_v6 s i x', w).

(** What an existing interface is asked. *)
Definition get_interface (i : Z) (setting : string) (m : HOSTIF_MsgData_t) (s : state) (w : env) : reply :=
  if strncaseeq "Stats" setting then
    let '(ret, m') := IPInterfaceStats.handleGetMsg w (refreshInterfaceName n i) setting m in Some (ret, m', s, w)
  else match Utils.matchComponent setting "IPv4Address" with
  | Some (sub, j) =>
      '(ret, m', x') ← IPv4Address.handleGetMsg getenv n sub j m (v4_instance s i); Some (ret, m', with_v4 s i x', w)
  | None => match Utils.matchComponent setting "IPv6Address" with
  | Some (sub, j) => get_v6 true sub i j m s w
  | None => match Utils.matchComponent setting "IPv6Prefix" with
  | Some (sub, j) => get_v6 false sub i j m s w
  | None => '(ret, m') ← IPInterface.handleGetMsg n (refreshInterfaceName n i) setting m; Some (ret, m', s, w)
  end end end.

Definition handleGetMsg (m : HOSTIF_MsgData_t) (s : state) (w : env) : reply :=
  match Utils.matchComponent (paramName m) "Device.IP.Interface" with
  | Some (setting, i) =>
      if i =? 0 then Some (NOK, m, s, w)
      else
        '(_, count) ← IPDevice.get_Device_IP_InterfaceNumberOfEntries n zero_msg;
        if get_int (paramValue count) <? i then Some (NOK, m, s, w)
        else get_interface i setting (set_instance m i) s w
  | None =>
      if strncaseeq IPPing.PROFILE_NAME (paramName m) then
        let '(x, w1) := ping_instance s w in
        let '(ret, m') := IPPing.handleGetMsg m x in Some (ret, m', with_ping s x, w1)
      else match Utils.matchComponent (paramName m) "Device.IP.ActivePort" with
      | Some (setting, i) =>
          '(ret, m', f) ← IPActivePort.handleGetMsg w i setting (set_instance m i) (activePort s);
          Some (ret, m', with_port s f, w)
      | None =>
          if strncaseeq "Device.IP" (paramName m) then
            '(ret, m', x') ← IPDevice.handleGetMsg n w inet_addrs (set_instance m 0) (stIPInstance s);
            Some (ret, m', with_ip s x', w)
          else Some (NOK, set_fault m fcInvalidParameterName, s, w)
      end
  end.

(** ** Set *)
Definition set_reply : Type := option (Z * HOSTIF_MsgData_t * state * env * list request).

Definition set_v6 (isAddress : bool) (setting : string) (i j : Z) (m : HOSTIF_MsgData_t) (s : state) (w : env)
    (es : list request) : set_reply :=
  let x := v6_instance s i in
  '(ret, m', es') ← IPv6Address.handleSetMsg n socket accepts setting j m isAddress x es;
  Some (ret, m', with_v6 s i x, w, es').

(** Whether there is such an interface is not asked. *)
Definition set_interface (i : Z) (setting : string) (m : HOSTIF_MsgData_t) (s : state) (w : env) (es : list request) : set_reply :=
  match Utils.matchComponent setting "IPv4Address" with
  | Some (sub, _) =>
      let x := v4_instance s i in
      let '(ret, m', rs) := IPv4Address.handleSetMsg sub m x in Some (ret, m', with_v4 s i x, w, es ++ rs)
  | None => match Utils.matchComponent setting "IPv6Address" with
  | Some (sub, j) => set_v6 true sub i j m s w es
  | None => match Utils.matchComponent setting "IPv6Prefix" with
  | Some (sub, j) => set_v6 false sub i j m s w es
  | None =>
      let '(ret, m', rs) := IPInterface.handleSetMsg (refreshInterfaceName n i) ran setting m in
      Some (ret, m', s, w, es ++ rs)
  end end end.

(** The fault of a set says whether it was done. *)
Definition handleSetMsg (m : HOSTIF_MsgData_t) (s : state) (w : env) (es : list request) : set_reply :=
  '(ret, m', s', w', es') ←
    match Utils.matchComponent (paramName m) "Device.IP.Interface" with
    | Some (setting, i) => set_interface i setting (set_instance m i) s w es
    | None =>
        if strncaseeq IPPing.PROFILE_NAME (paramName m) then
          let '(x, w1) := ping_instance s w in
          '(ret, m', x', w2) ← IPPing.handleSetMsg m x w1; Some (ret, m', with_ping s x', w2, es)
        else if negb (strncaseeq "Device.IP" (paramName m)) then None
        else Some (NOT_HANDLED, m, s, w, es)
    end;
  Some (ret, set_fault m' (if ret =? OK then fcNoFault else fcRequestDenied), s', w', es').

(** ** Attributes, kept by the table of Device.IP *)
Definition handleGetAttributesMsg (m : HOSTIF_MsgData_t) (s : state) : option (Z * HOSTIF_MsgData_t * state) :=
  let t := made (m_notifyHash s) in
  match t with
  | table_of l =>
      v ← get_attribute str_hash l (paramName m);
      Some (OK, set_paramtype (set_value (set_instance m 0) (put_int (paramValue m) v)) hostIf_IntegerType, with_notify s t)
  | _ => None
  end.

Definition handleSetAttributesMsg (m : HOSTIF_MsgData_t) (s : state) : option (Z * HOSTIF_MsgData_t * state) :=
  match made (m_notifyHash s) with
  | table_of l => l' ← set_attribute str_hash true l (paramName m); Some (OK, set_instance m 0, with_notify s (table_of l'))
  | _ => None
  end.

(** ** Rounds of updates *)
Definition MAX_IFCS : nat := 256.

(** The kernel's indices of the interfaces, in the order in which [ls] prints their
    names; those whose file cannot be read are left out. *)
Definition strip (line : string) : string := match split_at NL line with Some (name, _) => name | None => line end.
Definition ifindex_file (iface : string) : string := "/sys/class/net/" +:+ iface +:+ "/ifindex".
Definition getIPIfcIDs (w : env) (ls : option string) : list Z :=
  match ls with
  | None => []
  | Some output =>
      omap (λ line, text ← read_file w (ifindex_file (strip line)); buffer ← head (fgets_lines 64 text); Some (atoi buffer))
        (fgets_lines 256 output)
  end.

Definition object_path (id : Z) (object : string) : string :=
  "Device.IP.Interface." +:+ dec id +:+ "." +:+ object +:+ ".".

Definition report (object : string) (id count : Z) (cur : gmap Z Z) : list Updates.event * gmap Z Z :=
  let '(evs, c) := sendAddRemoveEvents count (default 0 (cur !! id)) (object_path id object) in (evs, <[id:=c]> cur).

(** The arrays have 100 elements. *)
Definition interface_round (id : Z) (c : counts) : option (list Updates.event * counts) :=
  if (0 <? id) && (id <? 100) then
    let name := refreshInterfaceName n id in
    ipv4AddressNumberOfEntries ← getIPAddressNumberOfEntries false n name;
    ipv6AddressNumberOfEntries ← getIPAddressNumberOfEntries true n name;
    let '(e4, c4) := report "IPv4Address" id ipv4AddressNumberOfEntries (curNumOfInterfaceIPv4Addresses c) in
    let '(e6, c6) := report "IPv6Address" id ipv6AddressNumberOfEntries (curNumOfInterfaceIPv6Addresses c) in
    let '(eP, cP) := report "IPv6Prefix" id ipv6AddressNumberOfEntries (curNumOfInterfaceIPv6Prefixes c) in
    Some (e4 ++ e6 ++ eP, mkCounts c4 c6 cP)
  else Some ([], c).

Fixpoint interface_rounds (ids : list Z) (c : counts) : option (list Updates.event * counts) :=
  match ids with
  | [] => Some ([], c)
  | id :: ids' =>
      '(e, c1) ← interface_round id c;
      '(es, c2) ← interface_rounds ids' c1;
      Some (e ++ es, c2)
  end.

(** The count of interfaces is compared with a copy of the one that was kept, which
    stays.  [None] too when there are more indices than the array has room for, and when
    more interfaces are counted than there are indices: those are never written. *)
Definition checkForUpdates (w : env) (ls : option string) (s : state) : option (list Updates.event * state) :=
  if mUpdateCallback s then
    '(_, count) ← IPDevice.get_Device_IP_InterfaceNumberOfEntries n zero_msg;
    let interfaceNumberOfEntries := get_int (paramValue count) in
    let '(evs, _) := sendAddRemoveEvents interfaceNumberOfEntries (curNumOfIPInterface s) "Device.IP.Interface." in
    let ids := getIPIfcIDs w ls in
    let read := Nat.min (Z.to_nat interfaceNumberOfEntries) MAX_IFCS in
    if ((MAX_IFCS <? length ids) || (length ids <? read))%nat then None
    else '(more, c) ← interface_rounds (take read ids) (curNumOf s); Some (evs ++ more, with_counts s c)
  else Some ([], s).

End manager.

(** ** The tables of addresses, through the manager *)
Definition interface_param (i : Z) (setting : string) : string :=
  "Device.IP.Interface" +:+ String DOT (dec i +:+ String DOT setting).
Definition family (v6 : bool) : string := if v6 then "IPv6Address" else "IPv4Address".
Definition row_param (v6 : bool) (i j : Z) (setting : string) : string :=
  interface_param i (family v6 +:+ String DOT (dec j +:+ String DOT setting)).

(** The addresses are bytes, as many as the family has. *)
Definition well_formed (ifa : list ifaddrs) : Prop :=
  ∀ name a m, mkIfaddrs name (Some (inet a m)) ∈ ifa → length a = 4%nat ∧ Forall IPv4Address.byte a.

Section tables.
Context `{Inet6} (getenv : string → option string) (n : net) (ifa : list ifaddrs) (Hreg : regular n ifa).
Context (inet_addrs : option string) (addr_show : string → Z → option string) (strftime : Z → string).

Local Notation get := (handleGetMsg getenv n inet_addrs addr_show strftime).
Definition address_text (v6 : bool) (a : list Z) : string := if v6 then inet_ntop a else IPv4Address.dotted a.

Lemma interface_get_routed i name setting m s w :
  1 <= i < 10 ^ 9 → interface_names n ifa !! Z.to_nat (i - 1) = Some name → Z.of_nat (length (interface_names n ifa)) < 2 ^ 31 →
  paramName m = interface_param i setting →
  get m s w = get_interface getenv n addr_show strftime i setting (set_instance m i) s w ∧ refreshInterfaceName n i = name.
Proof.
  intros Hi Hname Hlen Hn. pose proof (lookup_lt_Some _ _ _ Hname) as Hlt. split.
  - unfold handleGetMsg. rewrite Hn. unfold interface_param. rewrite Utils.match_component_name by lia.
    rewrite (proj2 (Z.eqb_neq _ _)) by lia. unfold IPDevice.get_Device_IP_InterfaceNumberOfEntries.
    rewrite (regular_entries n ifa Hreg). cbn [mbind option_bind]. rewrite answer_int_value, int32_id by lia.
    by rewrite (proj2 (Z.ltb_ge _ _)) by lia.
  - unfold refreshInterfaceName. rewrite (regular_name n ifa Hreg), Hname.
    by rewrite (proj2 (Z.leb_le _ _)) by lia.
Qed.

Lemma v4_name i s : IPv4Address.nameOfInterface (v4_instance n s i) = refreshInterfaceName n (IPv4Address.dev_id (v4_instance n s i)).
Proof. done. Qed.

(** Every instance is kept under its own number. *)
Definition well_kept (s : state) : Prop :=
  map_Forall (λ i x, IPv4Address.dev_id x = i) (v4Hash s) ∧ map_Forall (λ i x, IPv6Address.dev_id x = i) (v6Hash s).

Lemma instance_names s i : well_kept s →
  IPv4Address.nameOfInterface (v4_instance n s i) = refreshInterfaceName n i
  ∧ IPv6Address.nameOfInterface (v6_instance n s i) = refreshInterfaceName n i.
Proof.
  intros [H4 H6]. unfold v4_instance, v6_instance. split.
  - destruct (v4Hash s !! i) as [x|] eqn:E; [|done]. cbn. by rewrite (H4 i x E).
  - destruct (v6Hash s !! i) as [x|] eqn:E; [|done]. cbn. by rewrite (H6 i x E).
Qed.

Lemma table_row v6 name j :
  getAddressAndMask v6 n name j = Some (if 1 <=? j then rows v6 ifa name !! Z.to_nat (j - 1) else None).
Proof.
  unfold getAddressAndMask. rewrite (reg_addrs _ _ Hreg). apply find_entry_rows, (reg_address _ _ Hreg).
Qed.

Lemma table_length v6 name : getIPAddressNumberOfEntries v6 n name = Some (Z.of_nat (length (rows v6 ifa name))).
Proof.
  unfold getIPAddressNumberOfEntries. rewrite (reg_addrs _ _ Hreg). apply count_entries_rows, (reg_address _ _ Hreg).
Qed.

Lemma rows_inet name a m : (a, m) ∈ rows false ifa name → mkIfaddrs name (Some (inet a m)) ∈ ifa.
Proof.
  clear Hreg. induction ifa as [|[x [[b bm|b bm|]|]] l IH]; cbn [rows of_family]; rewrite ?elem_of_cons; intros Hin;
    try (by apply not_elem_of_nil in Hin); try (right; by apply IH).
  destruct (streq x name) eqn:E; [|right; by apply IH]. apply streq_true in E as ->.
  apply elem_of_cons in Hin as [[= -> ->]|Hin]; [by left|right; by apply IH].
Qed.

Lemma address_answer v6 name a am m :
  well_formed ifa → (a, am) ∈ rows v6 ifa name →
  buf_str (paramValue (answer_str 64 m (address_text v6 a))) = address_text v6 a.
Proof.
  intros Hw Hin. destruct v6.
  - destruct (ntop_text a) as (Hn & Hl & _). apply answer_str_value; [done|cbn [address_text]; lia].
  - apply rows_inet in Hin. destruct (Hw _ _ _ Hin) as [Hl Hb]. destruct (IPv4Address.dotted_text a Hl Hb).
    apply answer_str_value; [done|cbn [address_text]; lia].
Qed.

(** What an interface is asked about a row of addresses. *)
Lemma row_routed v6 i name j setting m s w :
  1 <= i < 10 ^ 9 → interface_names n ifa !! Z.to_nat (i - 1) = Some name → Z.of_nat (length (interface_names n ifa)) < 2 ^ 31 →
  1 <= j < 10 ^ 9 → paramName m = row_param v6 i j setting →
  get m s w
  = if v6 then get_v6 n addr_show strftime true setting i j (set_instance m i) s w
    else '(ret, m', x') ← IPv4Address.handleGetMsg getenv n setting j (set_instance m i) (v4_instance n s i);
         Some (ret, m', with_v4 s i x', w).
Proof.
  intros Hi Hname Hlen Hj Hn. destruct (interface_get_routed i name _ m s w Hi Hname Hlen Hn) as [-> _].
  unfold get_interface. destruct v6; cbn [family].
  - replace (strncaseeq "Stats" _) with false by reflexivity.
    replace (Utils.matchComponent _ "IPv4Address") with (@None (string * Z)) by reflexivity.
    by rewrite Utils.match_component_name by lia.
  - replace (strncaseeq "Stats" _) with false by reflexivity.
    by rewrite Utils.match_component_name by lia.
Qed.

Lemma kept_instances s i : well_kept s →
  well_kept (with_v4 s i (v4_instance n s i)) ∧ well_kept (with_v6 s i (v6_instance n s i)).
Proof.
  intros [H4 H6]. split; (split; [|]); cbn [v4Hash v6Hash with_v4 with_v6]; try done; apply map_Forall_insert_2; try done.
  - unfold v4_instance. destruct (v4Hash s !! i) as [x|] eqn:E; [|done]. cbn. apply (H4 i x E).
  - unfold v6_instance. destruct (v6Hash s !! i) as [x|] eqn:E; [|done]. cbn. apply (H6 i x E).
Qed.

Section row.
Context (v6 : bool) (i : Z) (name : string) (m : HOSTIF_MsgData_t) (s : state) (w : env).
Context (Hi : 1 <= i < 10 ^ 9) (Hname : interface_names n ifa !! Z.to_nat (i - 1) = Some name)
  (Hlen : Z.of_nat (length (interface_names n ifa)) < 2 ^ 31) (Hs : well_kept s).

Lemma name_of : refreshInterfaceName n i = name.
Proof. unfold refreshInterfaceName. rewrite (regular_name n ifa Hreg), Hname. by rewrite (proj2 (Z.leb_le _ _)) by lia. Qed.

Lemma entries_answered :
  Z.of_nat (length (rows v6 ifa name)) < 2 ^ 31 → paramName m = interface_param i (family v6 +:+ "NumberOfEntries") →
  ∃ m', get m s w = Some (OK, m', s, w) ∧ get_int (paramValue m') = Z.of_nat (length (rows v6 ifa name)).
Proof using Hi Hname Hlen Hreg.
  intros Hrows Hp. destruct (interface_get_routed i name _ m s w Hi Hname Hlen Hp) as [-> Hn]. unfold get_interface. rewrite Hn.
  assert (∀ x b, IPInterface.handleGetMsg n x (family b +:+ "NumberOfEntries") (set_instance m i)
                 = IPInterface.get_counted n x (IPInterface.answer_uint (set_instance m i)) b) as E by (intros x []; reflexivity).
  replace (strncaseeq "Stats" _) with false by (destruct v6; reflexivity).
  replace (Utils.matchComponent _ "IPv4Address") with (@None (string * Z)) by (destruct v6; reflexivity).
  replace (Utils.matchComponent _ "IPv6Address") with (@None (string * Z)) by (destruct v6; reflexivity).
  replace (Utils.matchComponent _ "IPv6Prefix") with (@None (string * Z)) by (destruct v6; reflexivity).
  rewrite E. unfold IPInterface.get_counted. rewrite table_length. cbn [mbind option_bind]. eexists. split; [reflexivity|].
  unfold IPInterface.answer_uint. rewrite answer_int_value. apply int32_id. lia.
Qed.

Lemma row_of j : 1 <= j →
  IPv4Address.getIPv4AddressAndMask n (v4_instance n s i) j = Some (rows false ifa name !! Z.to_nat (j - 1))
  ∧ IPv6Address.getIPv6AddressAndMask n (v6_instance n s i) j = Some (rows true ifa name !! Z.to_nat (j - 1)).
Proof using Hi Hname Hreg Hs.
  intros Hj. destruct (instance_names s i Hs) as [H4 H6].
  unfold IPv4Address.getIPv4AddressAndMask, IPv6Address.getIPv6AddressAndMask. rewrite H4, H6, name_of, !table_row.
  by rewrite (proj2 (Z.leb_le _ _)) by lia.
Qed.

Lemma enable_answered j :
  1 <= j < 10 ^ 9 → paramName m = row_param v6 i j "Enable" →
  ∃ m' s', get m s w = Some (OK, m', s', w) ∧ well_kept s'
    ∧ get_boolean (paramValue m') = (j <=? Z.of_nat (length (rows v6 ifa name))).
Proof.
  intros Hj Hp. rewrite (row_routed v6 i name j "Enable" m s w) by done. destruct (row_of j ltac:(lia)) as [E4 E6].
  destruct (kept_instances s i Hs) as [K4 K6].
  assert (∀ l : list (list Z * list Z), bool_decide (is_Some (l !! Z.to_nat (j - 1))) = (j <=? Z.of_nat (length l))) as Hb.
  { intros l. apply eq_bool_prop_intro. rewrite bool_decide_spec, lookup_lt_is_Some, Is_true_true, Z.leb_le. lia. }
  destruct v6.
  - unfold get_v6, IPv6Address.handleGetMsg, IPv6Address.get_IPv6Address_Enable, IPv6Address.get_Enable. replace (strcaseeq "Enable" "Enable") with true by reflexivity.
    rewrite E6. cbn [mbind option_bind]. eexists _, _. split; [reflexivity|]. split; [done|]. by rewrite answer_bool_value.
  - unfold IPv4Address.handleGetMsg, IPv4Address.get_IPv4Address_Enable. replace (strcaseeq "Enable" "Enable") with true by reflexivity.
    rewrite E4. cbn [mbind option_bind]. eexists _, _. split; [reflexivity|]. split; [done|]. by rewrite answer_bool_value.
Qed.

Lemma address_answered j :
  well_formed ifa → 1 <= j < 10 ^ 9 → paramName m = row_param v6 i j "IPAddress" →
  ∃ ret m' s', get m s w = Some (ret, m', s', w) ∧ well_kept s'
    ∧ match rows v6 ifa name !! Z.to_nat (j - 1) with
      | Some (a, _) => ret = OK ∧ buf_str (paramValue m') = address_text v6 a
      | None => ret = NOK ∧ paramValue m' = paramValue m
      end.
Proof.
  intros Hw Hj Hp. rewrite (row_routed v6 i name j "IPAddress" m s w) by done. destruct (row_of j ltac:(lia)) as [E4 E6].
  destruct (kept_instances s i Hs) as [K4 K6].
  assert (∀ a am, rows v6 ifa name !! Z.to_nat (j - 1) = Some (a, am) →
    buf_str (paramValue (answer_str 64 (set_instance m i) (address_text v6 a))) = address_text v6 a) as Ha.
  { intros a am E. by apply (address_answer v6 name a am), (list_elem_of_lookup_2 _ _ _ E). }
  destruct v6.
  - unfold get_v6, IPv6Address.handleGetMsg. replace (strcaseeq "IPAddress" "IPAddress") with true by reflexivity.
    change (strcaseeq "IPAddress" "Enable") with false. change (strcaseeq "IPAddress" "Status") with false.
    change (strcaseeq "IPAddress" "IPAddressStatus") with false. change (strcaseeq "IPAddress" "Alias") with false.
    unfold IPv6Address.get_IPv6Address_IPAddress. cbn [andb]. rewrite E6. cbn [mbind option_bind].
    destruct (rows true ifa name !! _) as [[a am]|]; eexists _, _, _; (split; [reflexivity|]); (split; [done|]); (split; [done|]); [|done].
    by apply (Ha a am).
  - unfold IPv4Address.handleGetMsg. replace (strcaseeq "IPAddress" "IPAddress") with true by reflexivity.
    change (strcaseeq "IPAddress" "Enable") with false. change (strcaseeq "IPAddress" "Status") with false.
    change (strcaseeq "IPAddress" "SubnetMask") with false. change (strcaseeq "IPAddress" "Alias") with false.
    change (strcaseeq "IPAddress" "AddressingType") with false.
    unfold IPv4Address.get_IPv4Address_IPAddress, IPv4Address.get_text. rewrite E4. cbn [mbind option_bind].
    destruct (rows false ifa name !! _) as [[a am]|]; eexists _, _, _; (split; [reflexivity|]); (split; [done|]); (split; [done|]); [|done].
    by apply (Ha a am).
Qed.

(** C16. The tables of an interface, for both families, through the manager: on a regular
    network and in every state of the manager, the number of entries of interface i is
    the number of the addresses that the system lists for its name; row j is enabled
    exactly when it is one of them, and answers the j-th address; another row is
    refused. *)
Theorem address_tables j :
  1 <= j < 10 ^ 9 → Z.of_nat (length (rows v6 ifa name)) < 2 ^ 31 → well_formed ifa →
  (paramName m = interface_param i (family v6 +:+ "NumberOfEntries") →
     ∃ m', get m s w = Some (OK, m', s, w) ∧ get_int (paramValue m') = Z.of_nat (length (rows v6 ifa name)))
  ∧ (paramName m = row_param v6 i j "Enable" →
       ∃ m' s', get m s w = Some (OK, m', s', w) ∧ well_kept s'
         ∧ get_boolean (paramValue m') = (j <=? Z.of_nat (length (rows v6 ifa name))))
  ∧ (paramName m = row_param v6 i j "IPAddress" →
       ∃ ret m' s', get m s w = Some (ret, m', s', w) ∧ well_kept s'
         ∧ match rows v6 ifa name !! Z.to_nat (j - 1) with
           | Some (a, _) => ret = OK ∧ buf_str (paramValue m') = address_text v6 a
           | None => ret = NOK ∧ paramValue m' = paramValue m
           end).
Proof using Hi Hname Hlen Hreg Hs.
  intros Hj Hrows Hw. split; [by apply entries_answered|]. split; [by apply enable_answered|by apply address_answered].
Qed.

(** C19. The addressing type that was read last, of any row of an interface, decides whether
    an address can be set in any row of it: the set is answered as done, and runs its
    command only when the type was Static.  The row that is set is not in the command. *)
Theorem read_type_guards_set ran socket accepts j k a am m1 m2 es :
  rows false ifa name !! Z.to_nat (j - 1) = Some (a, am) → 1 <= j < 10 ^ 9 → 1 <= k < 10 ^ 9 →
  paramName m1 = row_param false i j "AddressingType" → paramName m2 = row_param false i k "IPAddress" →
  let v := buf_str (paramValue m2) in
  ∃ m1' s' m2' s'', get m1 s w = Some (OK, m1', s', w)
    ∧ handleSetMsg n ran socket accepts m2 s' w es
      = Some (OK, m2', s'', w, es ++ if negb (is_empty v) && streq (buf_str (paramValue m1')) "Static"
                                    then [Command ["ifconfig"; name; "inet"; v]%string] else []).
Proof using Hi Hname Hlen Hreg Hs.
  intros Ha Hj Hk H1 H2 v. rewrite (row_routed false i name j "AddressingType" m1 s w) by done.
  destruct (row_of j ltac:(lia)) as [E4 _]. unfold IPv4Address.handleGetMsg.
  change (strcaseeq "AddressingType" "Enable") with false. change (strcaseeq "AddressingType" "Status") with false.
  change (strcaseeq "AddressingType" "SubnetMask") with false. change (strcaseeq "AddressingType" "Alias") with false.
  replace (strcaseeq "AddressingType" "AddressingType") with true by reflexivity.
  unfold IPv4Address.get_IPv4Address_AddressingType. rewrite E4, Ha. cbn [mbind option_bind].
  set (T := IPv4Address.addressing_type _ _ _ a). set (x := IPv4Address.mk _ _ T).
  assert (T ∈ ["Static"; "AutoIP"; "DHCP"]%string) as HT by (unfold T, IPv4Address.addressing_type; repeat case_match; in_list).
  eexists _, _, _, _. split; [reflexivity|].
  assert (v4_instance n (with_v4 s i x) i = IPv4Address.mk i name T) as Hx.
  { unfold v4_instance. cbn [v4Hash with_v4]. rewrite lookup_insert_eq. cbn. unfold IPv4Address.refresh. cbn.
    assert (IPv4Address.dev_id (v4_instance n s i) = i) as E.
    { destruct (kept_instances s i Hs) as [[K _] _]. apply (K i). cbn [v4Hash with_v4]. apply lookup_insert_eq. }
    unfold v4_instance in E. cbn in E. rewrite E. by rewrite name_of. }
  unfold handleSetMsg. rewrite H2. unfold row_param, interface_param. rewrite Utils.match_component_name by lia.
  unfold set_interface. cbn [family]. rewrite Utils.match_component_name by lia. rewrite Hx.
  unfold IPv4Address.handleSetMsg. change (strcaseeq "IPAddress" "Enable") with false.
  change (strcaseeq "IPAddress" "SubnetMask") with false. replace (strcaseeq "IPAddress" "IPAddress") with true by reflexivity.
  cbn [mbind option_bind]. do 2 f_equal.
  rewrite answer_str_value by (rewrite !elem_of_cons in HT; destruct HT as [->|[->|[->|[]%not_elem_of_nil]]]; (done || (apply Nat.ltb_lt; reflexivity))).
  unfold IPv4Address.setIpOrMask. cbn [IPv4Address.backupAddressingType IPv4Address.nameOfInterface].
  change (paramValue (set_instance m2 i)) with (paramValue m2). fold v.
  rewrite !elem_of_cons in HT. destruct HT as [->|[->|[->|[]%not_elem_of_nil]]]; reflexivity.
Qed.
End row.
End tables.

#[local] Existing Instance IPv6Address.plain_inet6.

(** *** On the example network *)
Definition home_get (name : string) (s : state) : reply :=
  handleGetMsg (λ _, None) (home_net []) None (λ _ _, None) dec (Webpa.mk_request name hostIf_StringType zero_msg) s IPPing.ping_env.

Lemma home_kept : well_kept initial.
Proof. split; apply map_Forall_empty. Qed.

Lemma home_formed : well_formed home.
Proof.
  intros name a m Hin. unfold home in Hin. rewrite !elem_of_cons in Hin.
  assert (∀ k, 0 <= k < 256 → length [10; 0; 0; k] = 4%nat ∧ Forall IPv4Address.byte [10; 0; 0; k]) as Hv
    by (intros k Hk; split; [done|]; unfold IPv4Address.byte; repeat constructor; lia).
  destruct Hin as [[= -> -> ->]|[[= -> -> ->]|[[= -> -> ->]|[[= -> -> ->]|[[=]|[]%not_elem_of_nil]]]]]; try (apply Hv; lia).
  split; [done|]. unfold IPv4Address.byte. repeat constructor; lia.
Qed.

(** Interface 4 is the second alias of the wired device; its only address is 10.0.0.7. *)
Lemma address_tables_witness :
  (∃ m', home_get "Device.IP.Interface.4.IPv4AddressNumberOfEntries" initial = Some (OK, m', initial, IPPing.ping_env)
     ∧ get_int (paramValue m') = 1)
  ∧ (∃ ret m' s', home_get "Device.IP.Interface.4.IPv4Address.1.IPAddress" initial = Some (ret, m', s', IPPing.ping_env)
       ∧ ret = OK ∧ buf_str (paramValue m') = "10.0.0.7"%string).
Proof.
  split.
  - refine (proj1 (address_tables (λ _, None) (home_net []) home home_regular None (λ _ _, None) dec false 4 "eth0:2"
      _ initial IPPing.ping_env _ _ _ home_kept 1 _ _ home_formed) _); (lia || reflexivity).
  - destruct (address_tables (λ _, None) (home_net []) home home_regular None (λ _ _, None) dec false 4 "eth0:2"
      (Webpa.mk_request "Device.IP.Interface.4.IPv4Address.1.IPAddress" hostIf_StringType zero_msg) initial IPPing.ping_env
      ltac:(lia) eq_refl ltac:(reflexivity) home_kept 1 ltac:(lia) ltac:(reflexivity) home_formed) as (_ & _ & Ha).
    destruct (Ha ltac:(reflexivity)) as (ret & m' & s' & Hg & _ & Hr & Hv). exists ret, m', s'. split; [exact Hg|].
    split; [exact Hr|]. rewrite Hv. reflexivity.
Defined.

(** The type of the address 10.0.0.5 is DHCP: once that was read, the address of the
    wired device cannot be set. *)
Lemma read_type_guards_set_witness :
  ∃ m1' s' m2' s'', home_get "Device.IP.Interface.2.IPv4Address.1.AddressingType" initial = Some (OK, m1', s', IPPing.ping_env)
    ∧ handleSetMsg (home_net []) (λ _, true) true (λ _ _, true)
        (set_value (Webpa.mk_request "Device.IP.Interface.2.IPv4Address.1.IPAddress" hostIf_StringType zero_msg)
           (Webpa.fill "10.0.0.9")) s' IPPing.ping_env []
      = Some (OK, m2', s'', IPPing.ping_env, []).
Proof.
  destruct (read_type_guards_set (λ _, None) (home_net []) home home_regular None (λ _ _, None) dec 2 "eth0"
    initial IPPing.ping_env ltac:(lia) eq_refl ltac:(reflexivity) home_kept (λ _, true) true (λ _ _, true) 1 1
    [10; 0; 0; 5] [255; 255; 255; 0]
    (Webpa.mk_request "Device.IP.Interface.2.IPv4Address.1.AddressingType" hostIf_StringType zero_msg)
    (set_value (Webpa.mk_request "Device.IP.Interface.2.IPv4Address.1.IPAddress" hostIf_StringType zero_msg) (Webpa.fill "10.0.0.9"))
    [] ltac:(reflexivity) ltac:(lia) ltac:(lia) ltac:(reflexivity) ltac:(reflexivity)) as (m1' & s' & m2' & s'' & Hg & Hset).
  exists m1', s', m2', s''. split; [exact Hg|]. rewrite Hset.
  assert (buf_str (paramValue m1') = "DHCP"%string) as ->.
  { pose proof (f_equal (option_map (λ r, buf_str (paramValue r.1.1.2))) Hg) as E. vm_compute in E. by injection E. }
  cbn [app]. rewrite andb_false_r. reflexivity.
Defined.

(** ** Sets that reach nothing *)
Section sets.
Context `{Inet6} (n : net) (ran : request → bool) (socket : bool) (accepts : list request → request → bool).
Local Notation set := (handleSetMsg n ran socket accepts).

(** A set of an interface that does not exist is answered as done: the command is run
    with an empty name. *)
Theorem set_without_interface i m s w es :
  0 <= i < 10 ^ 9 → getInterfaceName n i = None → paramName m = interface_param i "Enable" →
  set m s w es = Some (OK, set_fault (set_instance m i) fcNoFault, s, w,
    es ++ [Command ["ifconfig"; ""; if get_boolean (paramValue m) then "up" else "down"]%string]).
Proof.
  intros Hi Hno Hp. unfold handleSetMsg. rewrite Hp. unfold interface_param. rewrite Utils.match_component_name by lia.
  unfold set_interface. replace (Utils.matchComponent _ "IPv4Address") with (@None (string * Z)) by reflexivity.
  replace (Utils.matchComponent _ "IPv6Address") with (@None (string * Z)) by reflexivity.
  replace (Utils.matchComponent _ "IPv6Prefix") with (@None (string * Z)) by reflexivity.
  unfold refreshInterfaceName. rewrite Hno. reflexivity.
Qed.

(** Of the parameters of Device.IP itself none can be set: the last branch takes the
    names that do not begin with it. *)
Theorem ip_set_unrouted m s w es :
  strncaseeq "Device.IP" (paramName m) = true → Utils.matchComponent (paramName m) "Device.IP.Interface" = None →
  strncaseeq IPPing.PROFILE_NAME (paramName m) = false →
  set m s w es = Some (NOT_HANDLED, set_fault m fcRequestDenied, s, w, es).
Proof. intros H1 H2 H3. unfold handleSetMsg. by rewrite H2, H3, H1. Qed.
End sets.

Lemma set_without_interface_witness :
  handleSetMsg (home_net []) (λ _, true) true (λ _ _, true)
    (Webpa.mk_request "Device.IP.Interface.9.Enable" hostIf_BooleanType zero_msg) initial IPPing.ping_env []
  = Some (OK, set_fault (set_instance (Webpa.mk_request "Device.IP.Interface.9.Enable" hostIf_BooleanType zero_msg) 9) fcNoFault,
          initial, IPPing.ping_env, [Command ["ifconfig"; ""; "down"]%string]).
Proof.
  apply (set_without_interface (home_net []) (λ _, true) true (λ _ _, true) 9
           (Webpa.mk_request "Device.IP.Interface.9.Enable" hostIf_BooleanType zero_msg) initial IPPing.ping_env []);
    [lia|reflexivity|reflexivity].
Defined.

(** The class would set it. *)
Lemma ip_set_unrouted_witness :
  let m := Webpa.mk_request "Device.IP.IPv4Enable" hostIf_BooleanType zero_msg in
  handleSetMsg (home_net []) (λ _, true) true (λ _ _, true) m initial IPPing.ping_env []
  = Some (NOT_HANDLED, set_fault m fcRequestDenied, initial, IPPing.ping_env, [])
  ∧ IPDevice.handleSetMsg (λ _, 0) m = (OK, m, [Command ["ifdown"; "-a"]%string]).
Proof.
  split; [|vm_compute; reflexivity].
  apply (ip_set_unrouted (home_net []) (λ _, true) true (λ _ _, true)
           (Webpa.mk_request "Device.IP.IPv4Enable" hostIf_BooleanType zero_msg)); reflexivity.
Defined.

(** ** Rounds *)
Section rounds.
Context (n : net).

Definition valid (id : Z) : Prop := 0 < id < 100.

(** The counts of an interface are what was reported last. *)
Definition settled (c : counts) (id : Z) : Prop :=
  valid id → ∃ k4 k6,
    getIPAddressNumberOfEntries false n (refreshInterfaceName n id) = Some k4
    ∧ getIPAddressNumberOfEntries true n (refreshInterfaceName n id) = Some k6
    ∧ curNumOfInterfaceIPv4Addresses c !! id = Some k4
    ∧ curNumOfInterfaceIPv6Addresses c !! id = Some k6
    ∧ curNumOfInterfaceIPv6Prefixes c !! id = Some k6.

Lemma report_value object id count cur :
  report object id count cur
  = ((sendAddRemoveEvents count (default 0 (cur !! id)) (object_path id object)).1, <[id:=count]> cur).
Proof. unfold report. by rewrite add_remove_events. Qed.

Lemma report_same object i count cur : cur !! i = Some count → report object i count cur = ([], cur).
Proof.
  intros E. rewrite report_value, E, insert_id by done. cbn [default]. unfold id. rewrite add_remove_events.
  rewrite (proj2 (Z.leb_le _ _)) by lia. by rewrite Z.sub_diag.
Qed.

Lemma valid_spec id : (0 <? id) && (id <? 100) = true ↔ valid id.
Proof. unfold valid. rewrite andb_true_iff, !Z.ltb_lt. done. Qed.

Lemma interface_round_settled id c : settled c id → interface_round n id c = Some ([], c).
Proof.
  intros Hs. unfold interface_round. destruct (_ && _) eqn:Hv; [|done]. apply valid_spec in Hv.
  destruct (Hs Hv) as (k4 & k6 & -> & -> & E4 & E6 & EP). cbn [mbind option_bind].
  rewrite !report_same by done. by destruct c.
Qed.

Lemma interface_round_settles id c e c' :
  interface_round n id c = Some (e, c') → settled c' id ∧ ∀ id', settled c id' → settled c' id'.
Proof.
  unfold interface_round. destruct (_ && _) eqn:Hv.
  2: { intros [= <- <-]. split; [|done]. intros Hid%valid_spec. congruence. }
  destruct (getIPAddressNumberOfEntries false n _) as [k4|] eqn:E4; [|done].
  destruct (getIPAddressNumberOfEntries true n _) as [k6|] eqn:E6; [|done].
  cbn [mbind option_bind]. rewrite !report_value. intros [= <- <-].
  assert (settled (mkCounts (<[id:=k4]> (curNumOfInterfaceIPv4Addresses c)) (<[id:=k6]> (curNumOfInterfaceIPv6Addresses c))
            (<[id:=k6]> (curNumOfInterfaceIPv6Prefixes c))) id) as Hid.
  { intros _. exists k4, k6. cbn. by rewrite !lookup_insert_eq. }
  split; [done|]. intros id' Hs. destruct (decide (id' = id)) as [->|Hne]; [done|]. intros Hval.
  destruct (Hs Hval) as (j4 & j6 & H1 & H2 & H3 & H4 & H5). exists j4, j6. cbn. by rewrite !lookup_insert_ne by done.
Qed.

Lemma interface_rounds_settled ids c : Forall (settled c) ids → interface_rounds n ids c = Some ([], c).
Proof.
  induction 1 as [|id ids Hid _ IH]; [done|]. cbn [interface_rounds]. rewrite interface_round_settled by done.
  cbn [mbind option_bind]. by rewrite IH.
Qed.

Lemma interface_rounds_settle ids c e c' :
  interface_rounds n ids c = Some (e, c') → Forall (settled c') ids ∧ ∀ id, settled c id → settled c' id.
Proof.
  revert c e. induction ids as [|id ids IH]; intros c e; cbn [interface_rounds]; [by intros [= <- <-]|].
  destruct (interface_round n id c) as [[e1 c1]|] eqn:E1; [|done]. cbn [mbind option_bind].
  destruct (interface_rounds n ids c1) as [[e2 c2]|] eqn:E2; [|done]. intros [= <- <-].
  destruct (interface_round_settles _ _ _ _ E1) as [H1 K1]. destruct (IH _ _ E2) as [H2 K2].
  split; [constructor; [by apply K2|done]|]. intros id' Hs. by apply K2, K1.
Qed.

(** As long as the system stays as it is, every round after the first reports every
    interface as new again, and nothing about addresses and prefixes: the count of
    interfaces is compared with a copy that is never kept, the others are kept. *)
Theorem rounds_repeat w ls s k evs s' :
  mUpdateCallback s = true → getInterfaceNumberOfEntries n = Some k → 0 <= k < 2 ^ 31 → curNumOfIPInterface s = 0 →
  checkForUpdates n w ls s = Some (evs, s') →
  (∃ more, evs = replicate (Z.to_nat k) (Updates.EVENT_ADD "Device.IP.Interface.") ++ more)
  ∧ checkForUpdates n w ls s' = Some (replicate (Z.to_nat k) (Updates.EVENT_ADD "Device.IP.Interface."), s').
Proof.
  intros Hcb Hk Hr Hcur.
  assert (sendAddRemoveEvents k 0 "Device.IP.Interface."
          = (replicate (Z.to_nat k) (Updates.EVENT_ADD "Device.IP.Interface."), k)) as Hadd.
  { rewrite add_remove_events. destruct (Z.leb_spec k 0); [|by rewrite Z.sub_0_r].
    assert (k = 0) as -> by lia. done. }
  unfold checkForUpdates. rewrite Hcb. unfold IPDevice.get_Device_IP_InterfaceNumberOfEntries. rewrite Hk.
  cbn [mbind option_bind]. rewrite answer_int_value, int32_id, Hcur, Hadd by lia.
  destruct (_ || _)%nat eqn:Hroom; [done|]. destruct (interface_rounds n _ (curNumOf s)) as [[more c]|] eqn:E; [|done].
  cbn [mbind option_bind]. intros [= <- <-]. split; [by eexists|].
  destruct (interface_rounds_settle _ _ _ _ E) as [Hset _].
  cbn [mUpdateCallback with_counts curNumOfIPInterface curNumOf]. rewrite Hcb, ?Hcur, ?Hadd.
  rewrite interface_rounds_settled by done. cbn [mbind option_bind]. by rewrite app_nil_r.
Qed.
End rounds.

(** *** A device with two interfaces and no alias *)
Definition plain_net : net :=
  mkNet [(1, "lo"%string); (2, "eth0"%string)] true (Some [lo; v4 "eth0" 5]) (λ _, true) (streq "lo") (λ _, 1500).
Definition sys_env : env :=
  put_file (put_file (mkEnv ∅ ∅ true ∅ EmptyString 0) (ifindex_file "eth0") (with_nl "2")) (ifindex_file "lo") (with_nl "1").
Definition sys_ls : option string := Some (with_nl "eth0" +:+ with_nl "lo").

Lemma rounds_repeat_witness :
  ∃ evs s', checkForUpdates plain_net sys_env sys_ls (registerUpdateCallback true initial) = Some (evs, s')
    ∧ length evs = 4%nat
    ∧ checkForUpdates plain_net sys_env sys_ls s'
      = Some ([Updates.EVENT_ADD "Device.IP.Interface."; Updates.EVENT_ADD "Device.IP.Interface."], s').
Proof.
  destruct (checkForUpdates plain_net sys_env sys_ls (registerUpdateCallback true initial)) as [[evs s']|] eqn:E;
    [|by vm_compute in E].
  exists evs, s'. split; [done|]. split.
  - pose proof (f_equal (option_map (λ r, length r.1)) E) as El. vm_compute in El. by injection El.
  - exact (proj2 (rounds_repeat plain_net sys_env sys_ls (registerUpdateCallback true initial) 2 evs s'
                    eq_refl eq_refl ltac:(lia) eq_refl E)).
Defined.

(** With aliases there are more interfaces than names under /sys/class/net: the indices
    of the others are read without having been written. *)
Example alias_indices_unwritten :
  checkForUpdates (home_net []) sys_env sys_ls (registerUpdateCallback true initial) = None.
Proof. vm_compute. reflexivity. Qed.

(** An attribute that was set is kept under a key that is freed at once. *)
Example attribute_key_freed :
  let m := Webpa.mk_request "Device.IP.IPv4Enable" hostIf_BooleanType zero_msg in
  match handleSetAttributesMsg (λ _, 0) m initial with
  | Some (ret, _, s) => ret = OK ∧ handleGetAttributesMsg (λ _, 0) m s = None
  | None => False
  end.
Proof. vm_compute. done. Qed.

(** The closing of the instances destroys the table of attributes once an instance of
    Device.IP was made, and forgets neither it nor the IPv6 instances: the next
    instance that is closed destroys it again. *)
Theorem uninit_twice s s1 l :
  m_notifyHash s = table_of l → ip_made s = true → unInit s = Some s1 →
  (∀ str_hash m, handleSetAttributesMsg str_hash m s1 = None) ∧ v6Hash s1 = v6Hash s
  ∧ ∀ x, unInit (with_ip s1 x) = None.
Proof.
  intros Ht Hm Hu. unfold unInit in Hu. rewrite Hm, Ht in Hu. cbn [mbind option_bind destroy_table] in Hu.
  injection Hu as <-. done.
Qed.

Lemma uninit_twice_witness :
  ∃ s1, unInit (with_notify initial (table_of [])) = Some s1 ∧ unInit (with_ip s1 IPDevice.init) = None.
Proof.
  destruct (unInit (with_notify initial (table_of []))) as [s1|] eqn:E; [|by vm_compute in E].
  exists s1. split; [done|].
  exact (proj2 (proj2 (uninit_twice (with_notify initial (table_of [])) s1 [] eq_refl eq_refl E)) IPDevice.init).
Defined.

End IPClientReqHandler.
