(* ===== verification/StartParodus.v ===== *)
(** * Starting parodus

    [StartParodus] models parodusClient/startParodus/startParodus.cpp, the program
    that collects what parodus is told about the device and its server, from the
    daemon's parameters, a configuration file and the files of the device, and
    starts it. *)
From stdpp Require Import base list strings gmap.
From Stdlib Require Import Ascii ZArith Lia.
From S2P Require Import Prelude HostIf FileStore ProfileIO.
Import ProfileIO.

#[local] Arguments streq : simpl never.

Module StartParodus.

Definition WEBPA_CFG_FILE : string := "/etc/webpa_cfg.json".
Definition WEBPA_CFG_OVERIDE_FILE : string := "/opt/webpa_cfg.json".
Definition CRUD_CONFIG_FILE : string := "/opt/secure/parodus_cfg.json".
Definition SSL_CERT_FILE : string := "/etc/ssl/certs/ca-certificates.crt".
Definition JWT_KEY : string := "/etc/ssl/certs/webpa-rs256.pem".
Definition RECORD_JWT_PAYLOAD_FILE : string := "/tmp/xmidt-jwt-payload.json".
Definition DNS_TEXT_URL : string := "Device.X_RDK_WebPA_DNSText.URL".
Definition TOKEN_SERVER_URL : string := "Device.X_RDK_WebPA_TokenServer.URL".
Definition REBOOT_REASON_SECURE_FILE : string := "/opt/secure/reboot/previousreboot.info".
Definition SERVER_IP_URL : string := "Device.X_RDK_WebPA_Server.URL".
Definition SERIAL_NUMBER : string := "Device.DeviceInfo.SerialNumber".
Definition BOOT_TIME : string := "Device.DeviceInfo.X_RDKCENTRAL-COM_BootTime".
Definition HWMAC_FILE : string := "/tmp/.macAddress".
Definition VERSION_FILE : string := "/version.txt".
Definition PARTNERID_FILE : string := "/opt/www/authService/partnerId3.dat".
Definition PARTNERID : string := "Device.DeviceInfo.X_RDKCENTRAL-COM_Syndication.PartnerId".
Definition UNKNOWN_PARTNERID : string := "unknown".
Definition PARTNERID_APPEND : string := "*,".
Definition CONFIG_RES_FILE : string := "/tmp/data".
Definition COLON : ascii := ":"%char.

(** An item of a document as cJSON gives it: its text, NULL when it is not a
    string, and its number. *)
Record item := mkItem { valuestring : option string; valueint : Z }.

(** The document that a text is, if it is one, by the items its names have. *)
Class ConfigJson := { cJSON_items : string → option (string → option item) }.

(** The text of an item that has one. *)
Definition text_item (doc : string → option item) (name : string) : option string :=
  i ← doc name; s ← valuestring i; Some (c_str s).

(** [getRFCParameter] on [param.value]: a text written over it, or nothing written
    ([rfc name = None]). *)
Definition getRFCParameter (rfc : string → option string) (name param : string) : string :=
  match rfc name with Some v => c_str v | None => param end.

(** [if(strlen(param.value) != 0) dest = param.value;] *)
Definition take_param (param dest : string) : string := if is_empty param then dest else param.

(** ** What the device is *)

(** The loop over [tempMAC]: [n] more characters fit, colons are passed over. *)
Fixpoint copy_mac (n : nat) (tempMAC : list ascii) : list ascii :=
  match n, tempMAC with
  | S n', c :: l => if Ascii.eqb c COLON then copy_mac n l else c :: copy_mac n' l
  | _, _ => []
  end.

(** What [fread] leaves in a buffer of [n] zeros. *)
Definition fread_buffer (n : nat) (content : string) : list ascii :=
  let l := String.list_ascii_of_string (str_take n content) in l ++ replicate (n - length l) NUL.

Definition get_HWMAcAddress (w : env) : string :=
  match read_file w HWMAC_FILE with
  | Some content => c_str (String.string_of_list_ascii (copy_mac 12 (fread_buffer 17 content)))
  | None => EmptyString
  end.

(** [None]: the end of the text is written past its buffer. *)
Definition get_PartnerId (rfc : string → option string) (w : env) : option string :=
  '(PartnerId, partnerId) ←
    match read_file w PARTNERID_FILE with
    | Some content =>
        if is_empty content then Some (EmptyString, EmptyString)
        else if (128 <=? String.length content)%nat then None
        else Some (c_str content, c_str content)
    | None => Some (str_take 127 (take_param (getRFCParameter rfc PARTNERID EmptyString) EmptyString), EmptyString)
    end;
  Some (erase_char NL (if streq PartnerId UNKNOWN_PARTNERID then partnerId else PARTNERID_APPEND +:+ PartnerId)).

Definition get_RebootReason `{ConfigJson} (w : env) : string :=
  match read_file w REBOOT_REASON_SECURE_FILE with
  | Some content =>
      if is_empty content then EmptyString
      else default EmptyString
             (doc ← cJSON_items (c_str content); reason ← text_item doc "reason"; Some (erase_char NL reason))
  | None => EmptyString
  end.

Definition get_FwName (w : env) : string :=
  match read_file w VERSION_FILE with
  | Some content =>
      let line := c_str (default EmptyString (head (fgets_lines 128 content))) in
      erase_char NL (default EmptyString (tokens COLON line !! 1%nat))
  | None => EmptyString
  end.

(** ** The start *)

(** What the configuration file sets. *)
Record config := mkConfig { serverIp : string; acquireJWT : Z; networkIf : string; serverPort : Z; pingWaitTime : Z }.
Definition no_config (webpa_url : string) : config := mkConfig webpa_url 0 EmptyString 0 0.

(** The file that replaces the configuration, or the configuration. *)
Definition config_content (w : env) : option string :=
  match read_file w WEBPA_CFG_OVERIDE_FILE with
  | Some content => Some content
  | None => read_file w WEBPA_CFG_FILE
  end.

(** The document it holds, if it holds one. *)
Definition config_doc `{ConfigJson} (w : env) : option (string → option item) :=
  content ← config_content w; if is_empty content then None else cJSON_items (c_str content).

Definition read_config `{ConfigJson} (w : env) (webpa_url : string) : config :=
  match config_doc w with
  | Some doc =>
      let number name := match doc name with Some i => valueint i | None => 0 end in
      mkConfig (if is_empty webpa_url then default webpa_url (text_item doc "ServerIP") else webpa_url)
               (number "acquire-jwt") (default EmptyString (text_item doc "DeviceNetworkInterface"))
               (number "ServerPort") (number "MaxPingWaitTimeInSec")
  | None => no_config webpa_url
  end.

(** [stat(path) == 0]: a file or a directory. *)
Definition stat (w : env) (path : string) : bool :=
  match read_file w path, e_dirs w !! path with None, None => false | _, _ => true end.

(** A word of the command: an option and its text; [None] is a NULL that is passed. *)
Definition word : Type := string * option string.

(** The words after [backgroundrun /usr/bin/parodus].  [getenv]: the environment. *)
Definition main `{ConfigJson} (rfc : string → option string) (getenv : string → option string) (w : env)
  : option (list word) :=
  let param1 := getRFCParameter rfc SERVER_IP_URL EmptyString in
  let cfg := read_config w (take_param param1 EmptyString) in
  let param2 := getRFCParameter rfc DNS_TEXT_URL param1 in
  let dnsTextUrl := take_param param2 EmptyString in
  let param3 := getRFCParameter rfc TOKEN_SERVER_URL param2 in
  let tokenServerUrl := take_param param3 EmptyString in
  partnerId ← get_PartnerId rfc w;
  let param4 := getRFCParameter rfc SERIAL_NUMBER param3 in
  let serialNumber := take_param param4 EmptyString in
  let param5 := getRFCParameter rfc BOOT_TIME param4 in
  let bootTime := take_param param5 EmptyString in
  let clientCertFile := if stat w CONFIG_RES_FILE then CONFIG_RES_FILE else EmptyString in
  Some [("hw-mac", Some (get_HWMAcAddress w)); ("webpa-ping-time", Some (dec (pingWaitTime cfg)));
        ("webpa-interface-used", Some (networkIf cfg)); ("webpa-url", Some (serverIp cfg));
        ("partner-id", Some partnerId); ("webpa-backoff-max", Some "9"%string); ("ssl-cert-path", Some SSL_CERT_FILE);
        ("acquire-jwt", Some (dec (acquireJWT cfg))); ("dns-txt-url", Some dnsTextUrl);
        ("jwt-public-key-file", Some JWT_KEY); ("jwt-algo", Some "RS256"%string);
        ("record-jwt-payload", Some RECORD_JWT_PAYLOAD_FILE); ("crud-config-file", Some CRUD_CONFIG_FILE);
        ("hw-manufacturer", getenv "MANUFACTURE"%string); ("fw-name", Some (get_FwName w));
        ("hw-model", getenv "MODEL_NUM"%string); ("hw-serial-number", Some serialNumber); ("boot-time", Some bootTime);
        ("hw-last-reboot-reason", Some (get_RebootReason w)); ("client-cert-path", Some clientCertFile);
        ("token-server-url", Some tokenServerUrl)]%string.

(** ** The address of the device *)

(** Six pairs of characters, as the file has them and as parodus is given them. *)
Definition pairs_text (c : ascii) (l : list (ascii * ascii)) : string :=
  join c ((λ p, String p.1 (String p.2 EmptyString)) <$> l).
Definition pairs_digits (l : list (ascii * ascii)) : string :=
  foldr (λ p s, String p.1 (String p.2 s)) EmptyString l.
Definition plain (c : ascii) : Prop := Ascii.eqb c COLON = false ∧ Ascii.eqb c NUL = false.

Lemma copy_pairs n l rest :
  n = (2 * length l)%nat → Forall (λ p, plain p.1 ∧ plain p.2) l →
  copy_mac n (String.list_ascii_of_string (pairs_text COLON l) ++ rest)
  = String.list_ascii_of_string (pairs_digits l).
Proof.
  intros Hn Hl. revert n Hn. induction Hl as [|[a b] l [[Ha _] [Hb _]] Hl IH]; intros n ->; [by destruct rest|].
  cbn in Ha, Hb. replace (2 * length ((a, b) :: l))%nat with (S (S (2 * length l))) by (cbn [length]; lia).
  destruct l as [|q l].
  - cbn. rewrite Ha, Hb. by destruct rest.
  - change (pairs_text COLON ((a, b) :: q :: l)) with (String a (String b (String COLON (pairs_text COLON (q :: l))))).
    specialize (IH _ eq_refl). replace (2 * length (q :: l))%nat with (S (S (2 * length l))) in * by (cbn [length]; lia).
    cbn [String.list_ascii_of_string app copy_mac pairs_digits foldr fst snd]. rewrite Ha, Hb.
    f_equal. f_equal. exact IH.
Qed.

Lemma pairs_text_length l : l ≠ [] → String.length (pairs_text COLON l) = (3 * length l - 1)%nat.
Proof.
  induction l as [|[a b] l IH]; [done|]. intros _. destruct l as [|q l]; [done|].
  change (pairs_text COLON ((a, b) :: q :: l)) with (String a (String b (String COLON (pairs_text COLON (q :: l))))).
  cbn [String.length]. rewrite IH by done. cbn [length]. lia.
Qed.

Lemma pairs_digits_no_nul l : Forall (λ p, plain p.1 ∧ plain p.2) l → has_char NUL (pairs_digits l) = false.
Proof.
  induction 1 as [|[a b] l [[_ Ha] [_ Hb]] Hl IH]; [done|]. cbn in Ha, Hb |- *.
  fold (pairs_digits l). rewrite IH, (Ascii.eqb_sym NUL a), (Ascii.eqb_sym NUL b). by rewrite Ha, Hb.
Qed.

(** The address is the pairs without the colons, whatever follows them. *)
Theorem mac_without_colons w l rest :
  read_file w HWMAC_FILE = Some (pairs_text COLON l +:+ rest) → length l = 6%nat →
  Forall (λ p, plain p.1 ∧ plain p.2) l →
  get_HWMAcAddress w = pairs_digits l.
Proof.
  intros Hr Hl Hp. unfold get_HWMAcAddress. rewrite Hr. unfold fread_buffer.
  assert (String.length (pairs_text COLON l) = 17%nat) as Ht.
  { rewrite pairs_text_length, Hl; [done|]. by destruct l. }
  rewrite str_take_split, Ht, (str_take_all 17) by lia. rewrite str_app_nil_r.
  rewrite copy_pairs by (done || by rewrite Hl).
  rewrite String.string_of_list_ascii_of_string. by apply c_str_no_nul, pairs_digits_no_nul.
Qed.

Lemma copy_mac_spec n l : (length (copy_mac n l) ≤ n)%nat ∧ COLON ∉ copy_mac n l.
Proof.
  revert n. induction l as [|c l IH]; intros [|n]; cbn; try (split; [lia|apply not_elem_of_nil]).
  destruct (Ascii.eqb_spec c COLON) as [|Hc]; [apply IH|]. destruct (IH n) as [? ?].
  cbn [length]. rewrite not_elem_of_cons. split; [lia|]. split; congruence.
Qed.

(** ** The partner *)

(** The start fails exactly on a file of the partner with 128 characters or more. *)
Theorem partner_id_fits rfc w :
  get_PartnerId rfc w = None ↔ ∃ content, read_file w PARTNERID_FILE = Some content ∧ (128 ≤ String.length content)%nat.
Proof.
  unfold get_PartnerId. destruct (read_file w PARTNERID_FILE) as [content|]; cbn [mbind option_bind].
  - destruct (is_empty content) eqn:He.
    + split; [done|]. intros (? & [= <-] & Hl). destruct content; [cbn in Hl; lia|done].
    + destruct (Nat.leb_spec 128 (String.length content)); cbn.
      * split; [|done]. intros _. by exists content.
      * split; [done|]. intros (? & [= <-] & ?). lia.
  - split; [done|]. by intros (? & ? & _).
Qed.

Lemma streq_app_nl id s : has_char NL s = false → streq (id +:+ String NL EmptyString) s = false.
Proof.
  intros Hs. apply streq_false. intros <-. rewrite has_char_app in Hs. cbn in Hs. by rewrite orb_true_r in Hs.
Qed.

(** A partner's name in the file, on a line of its own or not, is put behind the
    general one. *)
Theorem partner_of_file rfc w id (nl : bool) :
  read_file w PARTNERID_FILE = Some (if nl then with_nl id else id) → fits 127 id → id ≠ EmptyString →
  (nl = false → id ≠ UNKNOWN_PARTNERID) →
  get_PartnerId rfc w = Some ("*," +:+ id).
Proof.
  intros Hr (Hnl & Hnul & Hl) Hne Hu. unfold get_PartnerId. rewrite Hr.
  assert (is_empty (if nl then with_nl id else id) = false) as ->.
  { destruct id as [|? ?]; [done|]. by destruct nl. }
  assert (String.length (if nl then with_nl id else id) ≤ 127)%nat as Hlen.
  { destruct nl; [unfold with_nl; rewrite str_length_app; cbn; lia|lia]. }
  rewrite (proj2 (Nat.leb_gt 128 _)) by lia. cbn [mbind option_bind].
  rewrite c_str_no_nul by (destruct nl; [unfold with_nl; rewrite has_char_app, Hnul|]; done).
  assert (streq (if nl then with_nl id else id) UNKNOWN_PARTNERID = false) as ->.
  { destruct nl; [by apply streq_app_nl|]. apply streq_false. by apply Hu. }
  f_equal. rewrite erase_char_app. f_equal. destruct nl; [|by apply erase_char_no].
  unfold with_nl. rewrite erase_char_app, (erase_char_no NL id) by done. apply str_app_nil_r.
Qed.

(** Without the file the daemon is asked. *)
Theorem partner_of_daemon rfc w id :
  read_file w PARTNERID_FILE = None → rfc PARTNERID = Some id → fits 128 id → id ≠ UNKNOWN_PARTNERID →
  get_PartnerId rfc w = Some ("*," +:+ id).
Proof.
  intros Hr Hrfc (Hnl & Hnul & Hl) Hu. unfold get_PartnerId, getRFCParameter. rewrite Hr, Hrfc. cbn [mbind option_bind].
  assert (take_param (c_str id) EmptyString = id) as ->.
  { rewrite c_str_no_nul by done. unfold take_param. by destruct id. }
  rewrite str_take_all by lia. rewrite (proj2 (streq_false _ _)) by done.
  by rewrite erase_char_app, (erase_char_no NL id).
Qed.

(** An unknown partner is none when the daemon says so, and one of that name when the
    file does. *)
Theorem partner_unknown rfc w :
  (read_file w PARTNERID_FILE = Some UNKNOWN_PARTNERID → get_PartnerId rfc w = Some UNKNOWN_PARTNERID)
  ∧ (read_file w PARTNERID_FILE = None → rfc PARTNERID = Some UNKNOWN_PARTNERID → get_PartnerId rfc w = Some EmptyString).
Proof.
  unfold get_PartnerId, getRFCParameter. split; [by intros ->|]. by intros -> ->.
Qed.

(** ** The firmware *)

(** The image is what stands behind the first colon of the first line, up to the next. *)
Theorem firmware_named w key image rest :
  read_file w VERSION_FILE = Some (with_nl (key +:+ String COLON image) +:+ rest) →
  fits 126 (key +:+ String COLON image) → has_char COLON key = false → has_char COLON image = false →
  key ≠ EmptyString → image ≠ EmptyString →
  get_FwName w = image.
Proof.
  intros Hr (Hnl & Hnul & Hl) Hk Hi Hkey Himage. unfold get_FwName, fgets_lines. rewrite Hr.
  replace (with_nl (key +:+ String COLON image) +:+ rest)
    with ((key +:+ String COLON image) +:+ String NL rest) by (unfold with_nl; by rewrite !str_app_assoc).
  rewrite chunks_line by (done || lia). cbn [head default from_option id].
  rewrite c_str_no_nul by (rewrite has_char_app, Hnul; done).
  rewrite has_char_app in Hnl. apply orb_false_iff in Hnl as [_ Hnl]. cbn [has_char] in Hnl.
  apply orb_false_iff in Hnl as [_ Hnl].
  replace ((key +:+ String COLON image) +:+ String NL EmptyString) with (join COLON [key; with_nl image])
    by (cbn [join]; unfold with_nl; by rewrite !str_app_assoc).
  rewrite tokens_join.
  - cbn. unfold with_nl. rewrite erase_char_app, (erase_char_no NL image) by done. apply str_app_nil_r.
  - repeat constructor; [done|by destruct key| |by destruct image].
    unfold with_nl. by rewrite has_char_app, Hi.
Qed.

(** ** The words of the command *)
Section command.
Context `{ConfigJson} (rfc : string → option string) (getenv : string → option string).

(** The text of an option; [Some None]: a NULL is passed. *)
Definition argument (name : string) (cmd : list word) : option (option string) :=
  snd <$> List.find (λ p : word, streq p.1 name) cmd.

(** Parodus is started unless the file of the partner is too long. *)
Theorem parodus_started w :
  main rfc getenv w = None ↔ ∃ content, read_file w PARTNERID_FILE = Some content ∧ (128 ≤ String.length content)%nat.
Proof. rewrite <- (partner_id_fits rfc w). unfold main. by destruct (get_PartnerId rfc w). Qed.

(** The texts taken from files are one line each. *)
Theorem texts_are_lines w cmd name text :
  main rfc getenv w = Some cmd → name ∈ ["partner-id"; "fw-name"; "hw-last-reboot-reason"]%string →
  argument name cmd = Some (Some text) → has_char NL text = false.
Proof.
  unfold main. destruct (get_PartnerId rfc w) as [id|] eqn:Hid; [|done]. cbn [mbind option_bind]. intros [= <-] Hin.
  assert (has_char NL id = false) as Hline.
  { revert Hid. unfold get_PartnerId. destruct (match read_file w PARTNERID_FILE with Some _ => _ | None => _ end) as [[? ?]|];
      [|done]. cbn [mbind option_bind]. intros [= <-]. apply erase_char_has. }
  rewrite !elem_of_cons in Hin. destruct Hin as [->|[->|[->|[]%not_elem_of_nil]]]; intros [= <-].
  - done.
  - unfold get_FwName. destruct (read_file w VERSION_FILE); [apply erase_char_has|done].
  - unfold get_RebootReason. destruct (read_file w REBOOT_REASON_SECURE_FILE) as [content|]; [|done].
    destruct (is_empty content); [done|]. destruct (cJSON_items (c_str content)) as [doc|]; [|done].
    cbn [mbind option_bind]. destruct (text_item doc "reason"); [apply erase_char_has|done].
Qed.

(** The parameters the daemon is asked for, in this order. *)
Definition asked : list string := [SERVER_IP_URL; DNS_TEXT_URL; TOKEN_SERVER_URL; SERIAL_NUMBER; BOOT_TIME].
(** The options they are passed with; the first can come from the configuration. *)
Definition passed : list string := ["webpa-url"; "dns-txt-url"; "token-server-url"; "hw-serial-number"; "boot-time"]%string.

(** The server of the configuration. *)
Definition configured_server (w : env) : string := default EmptyString (doc ← config_doc w; text_item doc "ServerIP").

Lemma take_param_empty param : take_param param EmptyString = param.
Proof. by destruct param. Qed.

Lemma config_server w url : serverIp (read_config w url) = if is_empty url then configured_server w else url.
Proof.
  unfold read_config, configured_server. destruct (config_doc w) as [doc|]; cbn.
  - destruct url; [|done]. cbn. by destruct (text_item doc "ServerIP").
  - by destruct url.
Qed.

(** What [param] holds after the parameters so far were asked for. *)
Definition param_after (names : list string) : string := foldl (λ p name, getRFCParameter rfc name p) EmptyString names.

Lemma parameter_arguments w cmd :
  main rfc getenv w = Some cmd →
  argument "webpa-url" cmd
    = Some (Some (if is_empty (param_after (take 1 asked)) then configured_server w else param_after (take 1 asked)))
  ∧ ∀ i name, passed !! S i = Some name → argument name cmd = Some (Some (param_after (take (S (S i)) asked))).
Proof.
  unfold main. destruct (get_PartnerId rfc w); [|done]. cbn [mbind option_bind]. intros [= <-].
  rewrite config_server, !take_param_empty. split; [done|].
  by intros [|[|[|[|i]]]] name [= <-].
Qed.

(** The partner for the name that the daemon gives, when no file has one. *)
Definition partner_text (id : string) : string :=
  if streq id UNKNOWN_PARTNERID then EmptyString else erase_char NL (PARTNERID_APPEND +:+ str_take 127 id).

Lemma get_partner_daemon w id :
  read_file w PARTNERID_FILE = None → rfc PARTNERID = Some id → has_char NUL id = false →
  get_PartnerId rfc w = Some (partner_text id).
Proof.
  intros Hf Hr Hn. unfold get_PartnerId, getRFCParameter, partner_text. rewrite Hf, Hr, c_str_no_nul by done.
  cbn [mbind option_bind]. replace (take_param id EmptyString) with id by (by destruct id).
  assert (streq (str_take 127 id) UNKNOWN_PARTNERID = streq id UNKNOWN_PARTNERID) as ->.
  { destruct (Nat.le_gt_cases (String.length id) 127); [by rewrite str_take_all by lia|].
    assert (String.length (str_take 127 id) = 127%nat) as Hl by (apply str_take_exact; lia).
    transitivity false; [|symmetry]; apply streq_false; intros E; rewrite E in *; cbn in *; lia. }
  by destruct (streq id UNKNOWN_PARTNERID).
Qed.

(** C35. A daemon that answers for each of the five parameters parodus' start asks of it
    (the server, the address of the DNS text record, the token server, the serial
    number and the boot time) is quoted: each text reaches parodus under its option
    as it was answered, with any quotes around it and also when it is empty, except
    that the server of the configuration stands in for an empty server.  Without a
    file of the partner the daemon is asked for it too: its name is cut to 127
    characters, put behind the fixed beginning without its newlines, and dropped
    when it is unknown. *)
Theorem daemon_parameters_passed w cmd (daemon : string → string) :
  (∀ name, name ∈ asked → rfc name = Some (daemon name) ∧ has_char NUL (daemon name) = false) →
  main rfc getenv w = Some cmd →
  argument "webpa-url" cmd
    = Some (Some (if is_empty (daemon SERVER_IP_URL) then configured_server w else daemon SERVER_IP_URL))
  ∧ (∀ i name option, asked !! S i = Some name → passed !! S i = Some option →
      argument option cmd = Some (Some (daemon name)))
  ∧ (read_file w PARTNERID_FILE = None → rfc PARTNERID = Some (daemon PARTNERID) → has_char NUL (daemon PARTNERID) = false →
      argument "partner-id" cmd = Some (Some (partner_text (daemon PARTNERID)))).
Proof.
  intros Hd Hm. destruct (parameter_arguments w cmd Hm) as [Hurl Hrest].
  assert (∀ name p, name ∈ asked → getRFCParameter rfc name p = daemon name) as Hget.
  { intros name p [Hr Hn]%Hd. unfold getRFCParameter. rewrite Hr. by apply c_str_no_nul. }
  assert (∀ i name, asked !! i = Some name → param_after (take (S i) asked) = daemon name) as Hafter.
  { intros i name Hi. unfold param_after. rewrite (take_S_r _ _ _ Hi), foldl_app. cbn [foldl].
    apply Hget. by eapply list_elem_of_lookup_2. }
  rewrite (Hafter 0%nat SERVER_IP_URL) in Hurl by done. split; [done|]. split.
  - intros i name option Hi Ho. rewrite (Hrest i option Ho). by rewrite (Hafter (S i) name).
  - intros Hf Hr Hn. clear Hget Hafter Hurl Hrest Hd. revert Hm. unfold main.
    rewrite (get_partner_daemon w (daemon PARTNERID)) by done. cbn [mbind option_bind]. by intros [= <-].
Qed.

(** A daemon that answers for the server only: its text is passed for every other
    parameter as well. *)
Theorem unanswered_repeated w cmd url :
  rfc SERVER_IP_URL = Some url → has_char NUL url = false →
  (∀ name, name ∈ asked → name ≠ SERVER_IP_URL → rfc name = None) → main rfc getenv w = Some cmd →
  ∀ i name, passed !! S i = Some name → argument name cmd = Some (Some url).
Proof.
  intros Hr Hn Hnone Hm i name Hi. destruct (parameter_arguments w cmd Hm) as [_ Hrest].
  rewrite (Hrest i name Hi). do 2 f_equal. clear Hrest Hm Hi.
  change (param_after (take (S (S i)) asked))
    with (foldl (λ p n, getRFCParameter rfc n p) (getRFCParameter rfc SERVER_IP_URL EmptyString)
                (take (S i) [DNS_TEXT_URL; TOKEN_SERVER_URL; SERIAL_NUMBER; BOOT_TIME])).
  assert (getRFCParameter rfc SERVER_IP_URL EmptyString = url) as ->.
  { unfold getRFCParameter. rewrite Hr. by apply c_str_no_nul. }
  assert (∀ l, (∀ n, n ∈ l → n ∈ asked ∧ n ≠ SERVER_IP_URL) → foldl (λ p n, getRFCParameter rfc n p) url l = url) as Hfold.
  { induction l as [|n l IH]; intros Hl; [done|]. cbn [foldl]. unfold getRFCParameter at 2.
    rewrite Hnone by (apply Hl; left). apply IH. intros m Hm. apply Hl. by right. }
  apply Hfold. intros n Hin. assert (n ∈ [DNS_TEXT_URL; TOKEN_SERVER_URL; SERIAL_NUMBER; BOOT_TIME]) as Hn'.
  { apply elem_of_take in Hin as (k & Hk & _). by eapply list_elem_of_lookup_2. }
  split; [by right|]. rewrite !elem_of_cons in Hn'. by destruct Hn' as [->|[->|[->|[->|[]%not_elem_of_nil]]]].
Qed.

(** A file that replaces the configuration hides it, even when it is empty or no
    document. *)
Theorem override_hides_config w content other :
  read_file w WEBPA_CFG_OVERIDE_FILE = Some content →
  main rfc getenv (put_file w WEBPA_CFG_FILE other) = main rfc getenv w.
Proof.
  intros Ho. assert (∀ p, p ≠ WEBPA_CFG_FILE → read_file (put_file w WEBPA_CFG_FILE other) p = read_file w p) as Hr.
  { intros p Hp. by apply read_put_file_ne. }
  unfold main, get_PartnerId, get_HWMAcAddress, get_FwName, get_RebootReason, read_config, config_doc, config_content, stat.
  rewrite (Hr WEBPA_CFG_OVERIDE_FILE), Ho by (vm_compute; discriminate). by rewrite !Hr by (vm_compute; discriminate).
Qed.
End command.

(** ** A start *)
Section example.

#[local] Instance toy_config : ConfigJson :=
  {| cJSON_items := λ text,
       if streq text "config"
       then Some (λ name, if streq name "ServerIP" then Some (mkItem (Some "https://fabric.example.net"%string) 0)
                          else if streq name "acquire-jwt" then Some (mkItem None 1) else None)
       else if streq text "reboot" then Some (λ name, Some (mkItem (Some (with_nl "SOFTWARE_MASTER_REBOOT")) 0))
       else None |}.

Definition device_files : env :=
  mkEnv {[WEBPA_CFG_FILE := "config"%string; REBOOT_REASON_SECURE_FILE := "reboot"%string;
          HWMAC_FILE := with_nl "D4:52:EE:DE:C6:FA"; VERSION_FILE := with_nl "imagename:PX_25Q3";
          PARTNERID_FILE := with_nl "sky"]} ∅ true ∅ EmptyString 0.

Definition toy_daemon (name : string) : string :=
  if streq name SERIAL_NUMBER then "M1234" else if streq name BOOT_TIME then "1700000000"
  else if streq name TOKEN_SERVER_URL then "https://token.example.net" else EmptyString.

Definition started : option (list word) := main (λ name, Some (toy_daemon name)) (λ _, None) device_files.

Example started_words :
  (filter (λ p, p.1 ∈ ["hw-mac"; "acquire-jwt"; "partner-id"; "fw-name"; "hw-model"; "hw-last-reboot-reason"]%string)) <$> started
  = Some [("hw-mac", Some "D452EEDEC6FA"); ("partner-id", Some "*,sky"); ("acquire-jwt", Some "1");
          ("fw-name", Some "PX_25Q3"); ("hw-model", None); ("hw-last-reboot-reason", Some "SOFTWARE_MASTER_REBOOT")]%string.
Proof. vm_compute. reflexivity. Qed.

Lemma daemon_parameters_passed_witness :
  ∃ cmd, started = Some cmd ∧ argument "webpa-url" cmd = Some (Some "https://fabric.example.net"%string)
    ∧ argument "hw-serial-number" cmd = Some (Some "M1234"%string).
Proof.
  exists (default [] started). split; [reflexivity|].
  pose proof (daemon_parameters_passed (λ name, Some (toy_daemon name)) (λ _, None) device_files (default [] started) toy_daemon) as Hall.
  destruct Hall as (Hurl & Hrest & _).
  - intros name Hin. split; [reflexivity|]. unfold asked in Hin. rewrite !elem_of_cons in Hin.
    by destruct Hin as [->|[->|[->|[->|[->|[]%not_elem_of_nil]]]]].
  - reflexivity.
  - split; [exact Hurl|exact (Hrest 2%nat _ _ eq_refl eq_refl)].
Defined.
End example.

End StartParodus.
