(* ===== verification/DHCPv4.v ===== *)
(** * The DHCPv4 clients

    [DHCPv4Client] models profiles/DHCPv4/Device_DHCPv4_Client.cpp, which answers
    for the default routes of the device, over what its commands print;
    [DHCPv4ClientReqHandler] models handlers/src/hostIf_DHCPv4Client_ReqHandler.cpp,
    the manager of the names below Device.DHCPv4. *)
From stdpp Require Import base list strings gmap.
From Stdlib Require Import Ascii ZArith Lia.
From S2P Require Import Prelude HostIf FileStore Webpa ProfileIO Utils Notify Network IPProfile.
Import ProfileIO Network NotifyHash.

#[local] Arguments streq : simpl never.

Module DHCPv4Client.

(** ** What the class and its instances keep *)

(** The structure [DHCPv4Client], which all instances share. *)
Record DHCPv4Client := mkClient { interface : string; dnsservers : string; ipRouters : string }.
Definition cleared : DHCPv4Client := mkClient EmptyString EmptyString EmptyString.

Definition with_interface (c : DHCPv4Client) (s : string) : DHCPv4Client := mkClient s (dnsservers c) (ipRouters c).
Definition with_dnsservers (c : DHCPv4Client) (s : string) : DHCPv4Client := mkClient (interface c) s (ipRouters c).
Definition with_ipRouters (c : DHCPv4Client) (s : string) : DHCPv4Client := mkClient (interface c) (dnsservers c) s.

(** What an instance answered last, with its [bBackUpFlags]. *)
Record backup := mkBackup {
  backup_interface : option string;
  backup_dnsservers : option string;
  backup_ipRouters : option string
}.
Definition no_backup : backup := mkBackup None None None.

Inductive DHCPv4ClientMembers : Type := eDHCPv4Interface | eDHCPv4Dnsservers | eDHCPv4Iprouters.

Definition MAX_IF_LEN : nat := 256.
Definition MAX_DNS_SERVER_LEN : nat := 256.
Definition MAX_IP_ROUTER_LEN : nat := 256.
Definition MAX_BUF_LEN : nat := 256.
Definition IFNAMSIZ : nat := 16.

(** ** Addresses *)
Fixpoint count_chars (p : ascii → bool) (s : string) : nat :=
  match s with EmptyString => 0 | String c s' => (if p c then 1 else 0) + count_chars p s' end.

Definition segment_ok (s : string) : bool := let val := atoi s in negb ((255 <? val) || (val <? 0)).

(** The segments after the first: as many as there are dots. *)
Fixpoint segments_ok (count : nat) (segments : list string) : bool :=
  match count, segments with
  | O, _ => true
  | S _, [] => false
  | S count', s :: segments' => segment_ok s && segments_ok count' segments'
  end.

Definition isValidIPAddr (addr : string) : bool :=
  if (15 <? String.length addr)%nat then false
  else
    let count := count_chars (Ascii.eqb DOT) addr in
    let alpha := count_chars (λ c, negb (Ascii.eqb DOT c) && negb (is_digit c)) addr in
    if negb (count =? 3)%nat then false
    else if negb (alpha =? 0)%nat then false
    else match tokens DOT addr with
         | [] => false
         | s :: segments => segment_ok s && segments_ok count segments
         end.

(** ** The commands *)
Definition quoted (s : string) : string := String QUOTE (s +:+ String QUOTE EmptyString).

Definition count_command : string := "ip r | grep default|wc -l".
Definition name_command (dev_id : Z) : string :=
  "ip r | grep default | sed -n '" +:+ dec dev_id +:+ "p' | awk '{printf $5}'".
Definition routers_command (ifname : string) : string :=
  "ip r|grep default| grep " +:+ ifname +:+ " |awk '{printf $3}'".
Definition route_command (dnsServer : string) : string :=
  "ip route get " +:+ dnsServer +:+ " | grep " +:+ dnsServer +:+ " | awk 'BEGIN {FR=" +:+ quoted " " +:+ "} {printf $5}'".
Definition servers_command : string :=
  "cat /etc/resolv.conf  |  grep nameserver | cut -f2 -d' '|awk 'BEGIN { RS=" +:+ quoted EmptyString +:+ "; FS="
  +:+ quoted "\n" +:+ "}{ for (i=1; i<=NF; i++)  printf $i" +:+ quoted "," +:+ " }'".

(** One [fgets] into a buffer of [size] zeros. *)
Definition fgets_buffer (size : nat) (output : string) : string :=
  c_str (default EmptyString (head (fgets_lines size output))).

Section client.
(** What a command prints, when it can be started; the network. *)
Context (popen : string → option string) (n : net).

Definition get_Device_DHCPv4_ClientNumberOfEntries (m : HOSTIF_MsgData_t) : Z * HOSTIF_MsgData_t :=
  match popen count_command with
  | Some output =>
      let num := string_to_uint (fgets_buffer MAX_BUF_LEN output) in
      (OK, set_len (set_paramtype (set_value m (put_int (paramValue m) num)) hostIf_UnsignedIntType) 4)
  | None => (NOK, m)
  end.

(** The name of the client's device; [None]: not OK. *)
Definition getInterfaceName (dev_id : Z) : option string :=
  output ← popen (name_command dev_id);
  let opIfName := fgets_buffer IFNAMSIZ output in
  if is_empty opIfName then None else Some opIfName.

(** Eight characters are compared, of which the route gives seven. *)
Definition isIfnameInroutetoDNSServer (dnsServer ifName : string) : bool :=
  let opIfName := match popen (route_command dnsServer) with Some output => fgets_buffer 8 output | None => EmptyString end in
  streq (str_take 8 opIfName) (str_take 8 ifName).

(** The first interface from [index] on whose name begins with the client's.
    [Some None]: there is none; [None]: the name cannot be asked for. *)
Fixpoint find_interface (fuel : nat) (index ipNumOfEntries : Z) (ifname : string) : option (option Z) :=
  match fuel with
  | O => Some None
  | S fuel' =>
      if index <=? ipNumOfEntries then
        '(_, msgData) ← IPInterface.get_Interface_Name (Network.refreshInterfaceName n index) zero_msg;
        if starts_with ifname (buf_str (paramValue msgData)) then Some (Some index)
        else find_interface fuel' (index + 1) ipNumOfEntries ifname
      else Some None
  end.

(** Servers after the first, and the first: what is printed into the field so far. *)
Definition append_server (ifname : string) (servers token : string) : string :=
  if isIfnameInroutetoDNSServer token ifname
  then str_take (MAX_DNS_SERVER_LEN - 1) (servers +:+ (token +:+ String COMMA EmptyString)) else servers.

Definition chop (s : string) : string := str_take (String.length s - 1) s.

(** The servers, when the first is an address. *)
Definition read_servers (ifname output : string) : string :=
  match tokens COMMA (fgets_buffer MAX_BUF_LEN output) with
  | token :: rest =>
      if isValidIPAddr token then chop (foldl (append_server ifname) EmptyString (token :: rest)) else EmptyString
  | [] => EmptyString
  end.

(** [None]: the address of an interface without one is read. *)
Definition get_Device_DHCPv4_Client_Fields (dev_id : Z) (dhclientMember : DHCPv4ClientMembers) (c : DHCPv4Client)
    : option (Z * DHCPv4Client) :=
  match getInterfaceName dev_id with
  | None => Some (NOK, c)
  | Some ifname =>
      match dhclientMember with
      | eDHCPv4Interface =>
          '(_, count) ← IPDevice.get_Device_IP_InterfaceNumberOfEntries n zero_msg;
          let ipNumOfEntries := get_int (paramValue count) in
          index ← find_interface (Z.to_nat ipNumOfEntries) 1 ipNumOfEntries ifname;
          Some (OK, match index with
                    | Some index => with_interface c (str_take (MAX_IF_LEN - 2) ("Device.IP.Interface." +:+ dec index))
                    | None => c
                    end)
      | eDHCPv4Dnsservers =>
          Some (OK, with_dnsservers c match popen servers_command with Some output => read_servers ifname output | None => EmptyString end)
      | eDHCPv4Iprouters =>
          Some (OK, with_ipRouters c match popen (routers_command ifname) with
                                     | Some output => str_take (MAX_IP_ROUTER_LEN - 1) (fgets_buffer MAX_BUF_LEN output)
                                     | None => EmptyString
                                     end)
      end
  end.

(** ** The getters: the result, the message, whether the answer differs from the
    last one, and what is kept. *)
Definition reply : Type := option (Z * HOSTIF_MsgData_t * bool * DHCPv4Client * backup).

Definition answer (m : HOSTIF_MsgData_t) (s : string) : HOSTIF_MsgData_t := answer_str (TR69HOSTIFMGR_MAX_PARAM_LEN - 1) m s.

Definition differs (old : option string) (s : string) : bool :=
  match old with Some t => negb (streq t s) | None => false end.

Definition get_Device_DHCPv4_Client_InterfaceReference (dev_id : Z) (m : HOSTIF_MsgData_t) (c : DHCPv4Client) (b : backup) : reply :=
  '(ret, c') ← get_Device_DHCPv4_Client_Fields dev_id eDHCPv4Interface c;
  Some (if ret =? OK then
          (ret, answer m (interface c'), differs (backup_interface b) (interface c'), c',
           mkBackup (Some (interface c')) (backup_dnsservers b) (backup_ipRouters b))
        else (ret, m, false, c', b)).

Definition get_Device_DHCPv4_Client_DnsServer (dev_id : Z) (m : HOSTIF_MsgData_t) (c : DHCPv4Client) (b : backup) : reply :=
  '(ret, c') ← get_Device_DHCPv4_Client_Fields dev_id eDHCPv4Dnsservers c;
  Some (if ret =? OK then
          (ret, answer m (dnsservers c'), differs (backup_dnsservers b) (dnsservers c'), c',
           mkBackup (backup_interface b) (Some (dnsservers c')) (backup_ipRouters b))
        else (ret, m, false, c', b)).

Definition get_Device_DHCPv4_Client_IPRouters (dev_id : Z) (m : HOSTIF_MsgData_t) (c : DHCPv4Client) (b : backup) : reply :=
  '(ret, c') ← get_Device_DHCPv4_Client_Fields dev_id eDHCPv4Iprouters c;
  Some (if ret =? OK then
          (ret, answer m (ipRouters c'), differs (backup_ipRouters b) (ipRouters c'), c',
           mkBackup (backup_interface b) (backup_dnsservers b) (Some (ipRouters c')))
        else (ret, m, false, c', b)).
End client.

(** ** The addresses that are valid *)
Fixpoint all_digits (s : string) : bool :=
  match s with EmptyString => true | String c s' => is_digit c && all_digits s' end.

(** The number that a text of digits is. *)
Definition number (s : string) : Z := (scan_digits s 0).1.

Definition octet (s : string) : Prop := s ≠ EmptyString ∧ all_digits s = true ∧ number s <= 255.

(** The pieces between dots, empty ones included. *)
Fixpoint pieces (c : ascii) (s : string) : list string :=
  match s with
  | EmptyString => [EmptyString]
  | String a s' =>
      if Ascii.eqb a c then EmptyString :: pieces c s'
      else match pieces c s' with p :: ps => String a p :: ps | [] => [] end
  end.

Lemma pieces_cons c s : ∃ p ps, pieces c s = p :: ps.
Proof.
  induction s as [|a s (p & ps & IH)]; cbn [pieces]; [eauto|]. case_bool; [eauto|]. rewrite IH. eauto.
Qed.

Lemma pieces_join c s : join c (pieces c s) = s.
Proof.
  induction s as [|a s IH]; [done|]. cbn [pieces]. destruct (pieces_cons c s) as (p & ps & Hp). rewrite Hp in IH |- *.
  destruct (Ascii.eqb_spec a c) as [->|]; destruct ps; cbn [join String.append] in IH |- *; by rewrite <- IH.
Qed.

Lemma pieces_count c s : length (pieces c s) = S (count_chars (Ascii.eqb c) s).
Proof.
  induction s as [|a s IH]; [done|]. cbn [pieces count_chars]. rewrite Ascii.eqb_sym.
  destruct (pieces_cons c s) as (p & ps & Hp). rewrite Hp in IH |- *. cbn [length] in IH.
  destruct (Ascii.eqb c a); cbn [length]; lia.
Qed.

Lemma tokens_from_pieces c s : ∀ cur,
  tokens_from c cur s
  = filter (λ p, is_empty p = false) match pieces c s with p :: ps => (cur +:+ p) :: ps | [] => [] end.
Proof.
  induction s as [|a s IH]; intros cur; cbn [tokens_from pieces].
  - rewrite str_app_nil_r. rewrite filter_cons. by destruct cur.
  - destruct (pieces_cons c s) as (p & ps & Hp). destruct (Ascii.eqb a c).
    + rewrite IH, Hp, filter_cons, str_app_nil_r. cbn [String.append]. by destruct cur.
    + rewrite IH, Hp. by rewrite str_app_assoc.
Qed.

Lemma tokens_pieces c s : tokens c s = filter (λ p, is_empty p = false) (pieces c s).
Proof. unfold tokens. rewrite tokens_from_pieces. by destruct (pieces_cons c s) as (p & ps & ->). Qed.

Lemma count_chars_app p a b : count_chars p (a +:+ b) = (count_chars p a + count_chars p b)%nat.
Proof. induction a as [|c a IH]; [done|]. cbn [String.append count_chars]. rewrite IH. lia. Qed.

Lemma count_none p s : (∀ c, is_digit c = true → p c = false) → all_digits s = true → count_chars p s = 0%nat.
Proof.
  intros Hp. induction s as [|c s IH]; [done|]. cbn [all_digits count_chars].
  intros [Hc Hs]%andb_true_iff. by rewrite Hp, IH.
Qed.

Lemma digits_of_pieces s :
  count_chars (λ c, negb (Ascii.eqb DOT c) && negb (is_digit c)) s = 0%nat → Forall (λ p, all_digits p = true) (pieces DOT s).
Proof.
  induction s as [|c s IH]; [by constructor|]. cbn [count_chars pieces]. rewrite (Ascii.eqb_sym c).
  destruct (Ascii.eqb DOT c); cbn [negb andb]; intros H; [by constructor; [|apply IH]|].
  destruct (is_digit c) eqn:Hc; cbn [negb] in H; [|lia]. pose proof (IH H) as Hps.
  destruct (pieces_cons DOT s) as (p & ps & Hp). rewrite Hp in Hps |- *. apply Forall_cons in Hps as [? ?].
  constructor; [|done]. cbn [all_digits]. by rewrite Hc.
Qed.

Lemma scan_digits_all s acc :
  all_digits s = true → 0 <= acc →
  ∃ k, scan_digits s acc = (k, EmptyString) ∧ 0 <= k < (acc + 1) * 10 ^ Z.of_nat (String.length s).
Proof.
  revert acc. induction s as [|c s IH]; intros acc; cbn [all_digits scan_digits String.length].
  - intros _ Ha. exists acc. split; [done|]. lia.
  - intros [Hc Hs]%andb_true_iff Ha. rewrite Hc.
    assert (0 <= digit_val c <= 9) as Hd by (unfold is_digit in Hc; unfold digit_val; lia).
    destruct (IH (10 * acc + digit_val c) Hs ltac:(lia)) as (k & E & Hk). exists k. split.
    + rewrite <- E. f_equal. lia.
    + rewrite Nat2Z.inj_succ, Z.pow_succ_r by lia. nia.
Qed.

Lemma atoi_digits s : s ≠ EmptyString → all_digits s = true → number s < 2 ^ 31 → atoi s = number s.
Proof.
  intros He Hd Hn. destruct (scan_digits_all s 0 Hd ltac:(lia)) as (k & E & Hk). unfold number in *.
  rewrite E in Hn |- *. cbn [fst] in *. unfold atoi, strtol.
  assert (has_char NUL s = false) as Hnul.
  { clear -Hd. induction s as [|c s IH]; [done|]. cbn [all_digits] in Hd. apply andb_true_iff in Hd as [Hc Hs].
    cbn [has_char]. rewrite IH by done. rewrite Ascii.eqb_sym. by rewrite is_digit_not. }
  rewrite c_str_no_nul by done. destruct s as [|c s]; [done|]. pose proof Hd as [Hc _]%andb_true_iff.
  unfold strto. cbn [skip_space]. rewrite (is_digit_not_space c Hc), !(is_digit_not c) by done. rewrite Hc, E.
  cbn [fst]. unfold LONG_MIN, LONG_MAX. rewrite Z.min_r, Z.max_r by lia. apply int32_id. lia.
Qed.

Lemma segment_octet s :
  s ≠ EmptyString → all_digits s = true → number s < 2 ^ 31 → segment_ok s = true ↔ octet s.
Proof.
  intros He Hd Hn. unfold segment_ok, octet. rewrite atoi_digits by done.
  destruct (scan_digits_all s 0 Hd ltac:(lia)) as (k & E & Hk). unfold number in *. rewrite E in *. cbn [fst] in *.
  rewrite negb_true_iff, orb_false_iff, !Z.ltb_ge.
  split; [intros []; split_and!; (done || lia)|intros (_ & _ & ?); lia].
Qed.

Lemma octet_ok s : octet s → segment_ok s = true.
Proof. intros Ho. pose proof Ho as (He & Hd & Hn). apply segment_octet; [done|done|lia|done]. Qed.

Lemma octet_no_dot s : octet s → has_char DOT s = false ∧ is_empty s = false.
Proof.
  intros (He & Hd & _). split; [|by destruct s]. clear He. induction s as [|c s IH]; [done|].
  cbn [all_digits has_char] in *. apply andb_true_iff in Hd as [Hc Hs]. rewrite IH by done.
  rewrite Ascii.eqb_sym. by rewrite is_digit_not.
Qed.

(** The largest number of a text without sign that is short enough for an address. *)
Lemma short_number s : all_digits s = true → (String.length s ≤ 9)%nat → number s < 2 ^ 31.
Proof.
  intros Hd Hl. destruct (scan_digits_all s 0 Hd ltac:(lia)) as (k & E & Hk). unfold number. rewrite E. cbn [fst].
  assert (10 ^ Z.of_nat (String.length s) <= 10 ^ 9) by (apply Z.pow_le_mono_r; lia). lia.
Qed.

Lemma filter_length_le {A} (p : A → bool) l : (length (filter (λ x, p x = false) l) ≤ length l)%nat.
Proof. apply length_filter. Qed.

Lemma filter_full (l : list string) :
  (length l ≤ length (filter (λ p, is_empty p = false) l))%nat → Forall (λ p, is_empty p = false) l.
Proof.
  induction l as [|p l IH]; [constructor|]. rewrite filter_cons. cbn [length].
  pose proof (filter_length_le is_empty l). destruct (is_empty p) eqn:Hp; cbn [decide].
  - rewrite decide_False by done. lia.
  - rewrite decide_True by done. cbn [length]. intros Hl. constructor; [done|]. apply IH. lia.
Qed.

Lemma segments_ok_length k l : segments_ok k l = true → (k ≤ length l)%nat.
Proof.
  revert l. induction k as [|k IH]; intros [|s l]; cbn [segments_ok length]; try (done || lia).
  intros [_ H]%andb_true_iff. specialize (IH l H). lia.
Qed.

Lemma count_quad (p : ascii → bool) a b c d :
  (∀ c, is_digit c = true → p c = false) → Forall octet [a; b; c; d] →
  count_chars p (join DOT [a; b; c; d]) = if p DOT then 3%nat else 0%nat.
Proof.
  intros Hp Ho. rewrite !Forall_cons in Ho.
  destruct Ho as ((_ & Ha & _) & (_ & Hb & _) & (_ & Hc & _) & (_ & Hd & _) & _). cbn [join].
  repeat (rewrite count_chars_app; cbn [count_chars]).
  rewrite !(count_none p) by done. by destruct (p DOT).
Qed.

(** C22. The check of an address accepts exactly the texts of at most fifteen
    characters that are four numbers between dots, each of at least one digit and at
    most 255. *)
Theorem valid_address_exact addr :
  isValidIPAddr addr = true
  ↔ (String.length addr ≤ 15)%nat ∧ ∃ a b c d, addr = join DOT [a; b; c; d] ∧ Forall octet [a; b; c; d].
Proof.
  unfold isValidIPAddr. destruct (Nat.ltb_spec 15 (String.length addr)) as [Hl|Hl].
  { split; [done|]. intros [? _]. lia. }
  split.
  - destruct (Nat.eqb_spec (count_chars (Ascii.eqb DOT) addr) 3) as [H3|]; [|done].
    destruct (Nat.eqb_spec (count_chars (λ c, negb (Ascii.eqb DOT c) && negb (is_digit c)) addr) 0) as [H0|]; [|done].
    cbn [negb]. rewrite H3, tokens_pieces. pose proof (pieces_count DOT addr) as Hlen. rewrite H3 in Hlen.
    pose proof (digits_of_pieces _ H0) as Hd. pose proof (pieces_join DOT addr) as Hj.
    destruct (pieces DOT addr) as [|a [|b [|c [|d [|]]]]]; try discriminate Hlen. intros Hok.
    assert (Forall (λ p, is_empty p = false) [a; b; c; d]) as He.
    { apply filter_full. destruct (filter _ [a; b; c; d]) as [|s l]; [done|].
      apply andb_true_iff in Hok as [_ Hk%segments_ok_length]. cbn [length] in *. lia. }
    rewrite !Forall_cons in He, Hd. destruct He as (Ha & Hb & Hc & Hdd & _), Hd as (Da & Db & Dc & Dd & _).
    rewrite !filter_cons, filter_nil, !decide_True in Hok by done. cbn [segments_ok] in Hok.
    assert (String.length (join DOT [a; b; c; d]) ≤ 15)%nat as Hs by by rewrite Hj.
    cbn [join] in Hs. repeat (rewrite str_length_app in Hs; cbn [String.length] in Hs).
    assert (∀ s, is_empty s = false → s ≠ EmptyString ∧ (1 ≤ String.length s)%nat) as Hne
      by (intros [|? ?] ?; [done|split; [done|cbn; lia]]).
    destruct (Hne a Ha), (Hne b Hb), (Hne c Hc), (Hne d Hdd).
    split; [done|]. exists a, b, c, d. split; [done|].
    rewrite !andb_true_iff, !segment_octet in Hok by (done || (apply short_number; [done|lia])).
    destruct Hok as (? & ? & ? & ? & _). by rewrite !Forall_cons.
  - intros (_ & a & b & c & d & -> & Ho). rewrite (count_quad (Ascii.eqb DOT)) by (done || (intros x Hx; by rewrite Ascii.eqb_sym, is_digit_not)).
    rewrite (count_quad (λ c, negb (Ascii.eqb DOT c) && negb (is_digit c))) by (done || (intros x Hx; by rewrite Hx, andb_false_r)).
    cbn [Nat.eqb negb]. rewrite tokens_join by (eapply Forall_impl; [exact Ho|]; apply octet_no_dot).
    rewrite !Forall_cons in Ho. destruct Ho as (Ha & Hb & Hc & Hd & _). cbn [segments_ok Ascii.eqb].
    change (Ascii.eqb DOT DOT) with true. cbn [segments_ok]. by rewrite !octet_ok.
Qed.

(** ** One line of output *)
Lemma chunks_end max s r :
  has_char NL s = false → s ≠ EmptyString → (String.length s ≤ r)%nat → chunks max r s = [s].
Proof.
  revert r. induction s as [|c s IH]; intros r; [done|]. cbn [has_char chunks String.length].
  intros [Hc Hs]%orb_false_elim _ Hr. rewrite Ascii.eqb_sym, Hc. destruct s as [|d s].
  - by destruct r as [|[|r]].
  - cbn [String.length] in Hr. destruct r as [|[|r]]; [lia|lia|]. rewrite IH; [done|done|done|cbn [String.length]; lia].
Qed.

Lemma fgets_fits size s : fits size s → fgets_buffer size s = s.
Proof.
  intros (Hnl & Hnul & Hl). unfold fgets_buffer, fgets_lines. destruct s as [|c s]; [done|].
  rewrite chunks_end by (done || lia). by apply c_str_no_nul.
Qed.

Lemma fgets_line size s : fits (size - 1) s → fgets_buffer size (with_nl s) = with_nl s.
Proof.
  intros (Hnl & Hnul & Hl). unfold fgets_buffer, fgets_lines, with_nl. rewrite chunks_line by (done || lia).
  cbn [head default]. apply c_str_no_nul. rewrite has_char_app, Hnul. done.
Qed.

Lemma string_to_uint_line z : 0 <= z < 2 ^ 32 → string_to_uint (with_nl (dec z)) = z.
Proof.
  intros Hz. unfold string_to_uint, strtoul, with_nl.
  rewrite c_str_no_nul by (by rewrite has_char_app, dec_no_nul). rewrite strto_dec_app by (done || lia).
  cbn [fst]. unfold ULONG_MAX, uint64, uint32. destruct (Z.ltb_spec z 0); [lia|]. rewrite Z.abs_eq by lia.
  destruct (Z.ltb_spec (2 ^ 64 - 1) z); [lia|]. rewrite (Z.mod_small z) by lia. by apply Z.mod_small.
Qed.

Lemma chunks_head max r s : (1 ≤ r)%nat → (String.length (default EmptyString (head (chunks max r s))) ≤ r)%nat.
Proof.
  revert r. induction s as [|c s IH]; intros r Hr; cbn [chunks]; [cbn; lia|]. case_bool; [cbn; lia|].
  destruct r as [|[|r]]; [lia|cbn; lia|]. specialize (IH (S r) ltac:(lia)).
  destruct (chunks max (S r) s) as [|l ls]; simpl in *; lia.
Qed.

Lemma length_c_str s : (String.length (c_str s) ≤ String.length s)%nat.
Proof. induction s as [|c s IH]; cbn [c_str]; [done|]. case_bool; cbn [String.length]; lia. Qed.

Lemma fgets_short o : (String.length (fgets_buffer 8 o) < 8)%nat.
Proof.
  eapply Nat.le_lt_trans; [apply length_c_str|]. apply Nat.lt_succ_r. by apply (chunks_head 7 7 o), le_n_S, Nat.le_0_l.
Qed.

(** ** The list of servers *)
Definition commas (l : list string) : string := foldr (λ t s, t +:+ String COMMA s) EmptyString l.

Lemma commas_app a b : commas (a ++ b) = commas a +:+ commas b.
Proof. induction a as [|t a IH]; [done|]. cbn [app commas foldr]. fold (commas (a ++ b)) (commas a). by rewrite IH, str_app_assoc. Qed.

Lemma tokens_commas l : Forall (λ t, has_char COMMA t = false ∧ is_empty t = false) l → tokens COMMA (commas l) = l.
Proof.
  induction 1 as [|t l [Ht He] _ IH]; [done|]. cbn [commas foldr]. fold (commas l).
  unfold tokens. rewrite tokens_from_sep by done. cbn [String.append]. by rewrite IH.
Qed.

Lemma str_take_prefix a b : str_take (String.length a) (a +:+ b) = a.
Proof. induction a as [|c a IH]; [by destruct b|]. cbn [String.length String.append str_take]. by rewrite IH. Qed.

Lemma commas_join t l : commas (t :: l) = join COMMA (t :: l) +:+ String COMMA EmptyString.
Proof.
  revert t. induction l as [|u l IH]; intros t; [done|].
  change (commas (t :: u :: l)) with (t +:+ String COMMA (commas (u :: l))). rewrite IH.
  change (join COMMA (t :: u :: l)) with (t +:+ String COMMA (join COMMA (u :: l))). by rewrite str_app_assoc.
Qed.

Lemma chop_commas l : chop (commas l) = join COMMA l.
Proof.
  destruct l as [|t l]; [done|]. rewrite commas_join. unfold chop. rewrite str_length_app. cbn [String.length].
  rewrite Nat.add_sub. apply str_take_prefix.
Qed.

Section servers.
Context (popen : string → option string) (ifname : string).
Local Notation routed := (λ t, isIfnameInroutetoDNSServer popen t ifname).

Lemma commas_filter_length l : (String.length (commas (filter (λ t, routed t) l)) ≤ String.length (commas l))%nat.
Proof.
  induction l as [|t l IH]; [done|]. rewrite filter_cons. cbn [commas foldr]. fold (commas l).
  destruct (decide _); cbn [commas foldr]; fold (commas (filter (λ t, routed t) l)); rewrite !str_length_app; cbn [String.length]; lia.
Qed.

Lemma fold_servers l s :
  (String.length s + String.length (commas l) < MAX_DNS_SERVER_LEN)%nat →
  foldl (append_server popen ifname) s l = s +:+ commas (filter (λ t, routed t) l).
Proof.
  revert s. induction l as [|t l IH]; intros s Hs; [by rewrite str_app_nil_r|]. cbn [commas foldr] in Hs.
  fold (commas l) in Hs. rewrite str_length_app in Hs. cbn [String.length] in Hs. cbn [foldl]. unfold append_server at 2.
  rewrite filter_cons. destruct (routed t) eqn:Ht.
  - rewrite decide_True by done. rewrite str_take_all by (rewrite !str_length_app; cbn [String.length]; lia).
    rewrite IH by (rewrite !str_length_app; cbn [String.length]; lia). cbn [commas foldr]. by rewrite !str_app_assoc.
  - rewrite decide_False by (by intros []). apply IH. lia.
Qed.

(** A list of name servers as the command prints it. *)
Lemma read_servers_filter t l :
  Forall (λ t, has_char COMMA t = false ∧ is_empty t = false) (t :: l) → fits MAX_BUF_LEN (commas (t :: l)) →
  read_servers popen ifname (commas (t :: l))
  = if isValidIPAddr t then join COMMA (filter (λ t, routed t) (t :: l)) else EmptyString.
Proof.
  intros Hl Hf. unfold read_servers. rewrite fgets_fits, tokens_commas by done.
  destruct (isValidIPAddr t); [|done]. rewrite fold_servers; [apply chop_commas|]. apply Hf.
Qed.
End servers.

End DHCPv4Client.

Module DHCPv4ClientReqHandler.
Import DHCPv4Client.

(** The instances, what they share, the table of attributes, the callback and the
    count of the last round. *)
Record state := mkState {
  dhcpv4ClientHash : gmap Z backup;
  dhcpClient : DHCPv4Client;
  m_notifyHash : notify;
  mUpdateCallback : bool;
  curNumOfDHCPv4Clients : Z
}.

Definition initial : state := mkState ∅ cleared no_table false 0.

Definition with_client (s : state) (c : DHCPv4Client) (i : Z) (b : backup) : state :=
  mkState (<[i:=b]> (dhcpv4ClientHash s)) c (m_notifyHash s) (mUpdateCallback s) (curNumOfDHCPv4Clients s).
Definition with_notify (s : state) (t : notify) : state :=
  mkState (dhcpv4ClientHash s) (dhcpClient s) t (mUpdateCallback s) (curNumOfDHCPv4Clients s).
Definition registerUpdateCallback (cb : bool) (s : state) : state :=
  mkState (dhcpv4ClientHash s) (dhcpClient s) (m_notifyHash s) cb (curNumOfDHCPv4Clients s).
Definition with_count (s : state) (k : Z) : state :=
  mkState (dhcpv4ClientHash s) (dhcpClient s) (m_notifyHash s) (mUpdateCallback s) k.

Definition reset (s : state) : state := with_count s 0.

(** The new or known instance. *)
Definition getInstance (dev_id : Z) (s : state) : state * backup :=
  let b := default no_backup (dhcpv4ClientHash s !! dev_id) in (with_client s (dhcpClient s) dev_id b, b).

(** The destructor of every instance destroys the table.  [None]: it is destroyed
    twice. *)
Definition unInit (s : state) : option state :=
  t ← Nat.iter (size (dhcpv4ClientHash s)) (λ t, t ≫= destroy_table) (Some (m_notifyHash s));
  Some (mkState ∅ (dhcpClient s) t (mUpdateCallback s) (curNumOfDHCPv4Clients s)).

(** No parameter can be set. *)
Definition handleSetMsg (m : HOSTIF_MsgData_t) (s : state) : Z * HOSTIF_MsgData_t * state :=
  (NOT_HANDLED, set_fault m fcAttemptToSetaNonWritableParameter, s).

Section manager.
Context (popen : string → option string) (n : net).
(** [g_str_hash] *)
Context (str_hash : string → Z).

Definition from_client (i : Z) (s : state) (r : DHCPv4Client.reply) : option (Z * HOSTIF_MsgData_t * state) :=
  '(ret, m, _, c, b) ← r; Some (ret, m, with_client s c i b).

Definition handleGetMsg (m : HOSTIF_MsgData_t) (s : state) : option (Z * HOSTIF_MsgData_t * state) :=
  if strcaseeq (paramName m) "Device.DHCPv4.ClientNumberOfEntries" then
    let '(ret, m') := get_Device_DHCPv4_ClientNumberOfEntries popen m in Some (ret, m', s)
  else match Utils.matchComponent (paramName m) "Device.DHCPv4.Client" with
  | Some (pSetting, instanceNumber) =>
      let '(s1, b) := getInstance instanceNumber s in
      let m1 := set_instance m instanceNumber in
      if strcaseeq pSetting "Interface" then
        from_client instanceNumber s1 (get_Device_DHCPv4_Client_InterfaceReference popen n instanceNumber m1 (dhcpClient s1) b)
      else if strcaseeq pSetting "IPRouters" then
        from_client instanceNumber s1 (get_Device_DHCPv4_Client_IPRouters popen n instanceNumber m1 (dhcpClient s1) b)
      else if strcaseeq pSetting "DNSServers" then
        from_client instanceNumber s1 (get_Device_DHCPv4_Client_DnsServer popen n instanceNumber m1 (dhcpClient s1) b)
      else Some (NOK, set_fault m1 fcInvalidParameterName, s1)
  | None => Some (NOK, set_fault m fcInvalidParameterName, s)
  end.

(** ** Attributes, of instance 0 *)
Definition handleGetAttributesMsg (m : HOSTIF_MsgData_t) (s : state) : option (Z * HOSTIF_MsgData_t * state) :=
  let s1 := (getInstance 0 s).1 in
  match made (m_notifyHash s1) with
  | table_of l =>
      v ← get_attribute str_hash l (paramName m);
      Some (OK, set_paramtype (set_value (set_instance m 0) (put_int (paramValue m) v)) hostIf_IntegerType,
            with_notify s1 (table_of l))
  | _ => None
  end.

Definition handleSetAttributesMsg (m : HOSTIF_MsgData_t) (s : state) : option (Z * HOSTIF_MsgData_t * state) :=
  let s1 := (getInstance 0 s).1 in
  match made (m_notifyHash s1) with
  | table_of l => l' ← set_attribute str_hash false l (paramName m); Some (OK, set_instance m 0, with_notify s1 (table_of l'))
  | _ => None
  end.

(** ** A round of updates *)
Definition checkForUpdates (s : state) : list Updates.event * state :=
  let '(ret, msgData) := get_Device_DHCPv4_ClientNumberOfEntries popen zero_msg in
  if ret =? OK then
    let tmpNoDev := get_int (paramValue msgData) in
    let evs := Updates.count_changes "Device.DHCPv4.Client" (curNumOfDHCPv4Clients s) tmpNoDev in
    (if mUpdateCallback s then evs else [], with_count s tmpNoDev)
  else ([], s).
End manager.

(** ** The routes behind the clients *)

(** The [k]-th word of a line, counted from 1. *)
Definition field (k : nat) (line : string) : string := default EmptyString (words line !! (k - 1)%nat).

Definition default_routes (routes : list string) : list string := filter (λ line, contains "default" line) routes.

(** A name without characters that mean something else to grep. *)
Definition is_alnum (c : ascii) : bool :=
  let v := byte_val (to_lower c) in is_digit c || ((97 <=? v) && (v <=? 122)).
Fixpoint alnum (s : string) : bool := match s with EmptyString => true | String c s' => is_alnum c && alnum s' end.

(** What grep, sed, awk and wc make of the lines of [ip r]. *)
Record prints (popen : string → option string) (routes : list string) : Prop := mkPrints {
  prints_count : popen count_command = Some (with_nl (dec (Z.of_nat (length (default_routes routes)))));
  prints_name : ∀ i, 1 <= i < 10 ^ 9 →
    popen (name_command i) = Some (default EmptyString (field 5 <$> default_routes routes !! Z.to_nat (i - 1)));
  prints_routers : ∀ name, name ≠ EmptyString → alnum name = true →
    popen (routers_command name)
    = Some (foldr (λ line s, field 3 line +:+ s) EmptyString (filter (λ line, contains name line) (default_routes routes)))
}.

Definition client_param (i : Z) (setting : string) : string :=
  "Device.DHCPv4.Client" +:+ String DOT (dec i +:+ String DOT setting).

Section clients.
Context (popen : string → option string) (routes : list string) (Hprints : prints popen routes).
Context (n : net).

Lemma client_get i setting m s :
  0 <= i < 10 ^ 9 → paramName m = client_param i setting →
  handleGetMsg popen n m s
  = let '(s1, b) := getInstance i s in
    let m1 := set_instance m i in
    if strcaseeq setting "Interface" then
      from_client i s1 (get_Device_DHCPv4_Client_InterfaceReference popen n i m1 (dhcpClient s1) b)
    else if strcaseeq setting "IPRouters" then
      from_client i s1 (get_Device_DHCPv4_Client_IPRouters popen n i m1 (dhcpClient s1) b)
    else if strcaseeq setting "DNSServers" then
      from_client i s1 (get_Device_DHCPv4_Client_DnsServer popen n i m1 (dhcpClient s1) b)
    else Some (NOK, set_fault m1 fcInvalidParameterName, s1).
Proof.
  intros Hi Hp. unfold handleGetMsg. rewrite Hp. unfold client_param. rewrite Utils.match_component_name by done.
  reflexivity.
Qed.

Lemma count_answer m :
  Z.of_nat (length (default_routes routes)) < 2 ^ 31 →
  ∃ m', get_Device_DHCPv4_ClientNumberOfEntries popen m = (OK, m')
    ∧ get_int (paramValue m') = Z.of_nat (length (default_routes routes)).
Proof.
  intros Hk. unfold get_Device_DHCPv4_ClientNumberOfEntries. rewrite (prints_count _ _ Hprints).
  set (k := Z.of_nat (length (default_routes routes))) in *. assert (0 <= k) by lia.
  assert (fgets_buffer MAX_BUF_LEN (with_nl (dec k)) = with_nl (dec k)) as ->.
  { apply fgets_line. split_and!; [by apply dec_no_char|by apply dec_no_nul|].
    unfold dec, dec_nat. rewrite (proj2 (Z.ltb_ge _ _)) by lia.
    pose proof (dec_aux_length 20 k EmptyString 19). cbn [String.length] in *. unfold MAX_BUF_LEN. lia. }
  rewrite string_to_uint_line by lia. eexists. split; [reflexivity|].
  cbn [paramValue set_len set_paramtype set_value]. rewrite get_put_int. apply int32_id. lia.
Qed.

Lemma number_of_clients m s :
  paramName m = "Device.DHCPv4.ClientNumberOfEntries"%string → Z.of_nat (length (default_routes routes)) < 2 ^ 31 →
  ∃ m', handleGetMsg popen n m s = Some (OK, m', s)
    ∧ get_int (paramValue m') = Z.of_nat (length (default_routes routes)).
Proof.
  intros Hp Hk. destruct (count_answer m Hk) as (m' & Hg & Hv). exists m'. split; [|done].
  unfold handleGetMsg. by rewrite Hp, Hg.
Qed.
End clients.

(** A client: the [i]-th default route, over a device that no other default route
    names. *)
Record client_route (routes : list string) (i : Z) (line name : string) : Prop := mkRoute {
  route_line : default_routes routes !! Z.to_nat (i - 1) = Some line;
  route_name : field 5 line = name;
  route_fits : fits IFNAMSIZ name;
  route_plain : name ≠ EmptyString ∧ alnum name = true;
  route_only : filter (λ line, contains name line) (default_routes routes) = [line]
}.

Section route.
Context (popen : string → option string) (routes : list string) (Hprints : prints popen routes).
Context (n : net) (i : Z) (line name : string) (Hi : 1 <= i < 10 ^ 9) (Hroute : client_route routes i line name).

Lemma route_device : getInterfaceName popen i = Some name.
Proof.
  unfold getInterfaceName. rewrite (prints_name _ _ Hprints), (route_line _ _ _ _ Hroute) by lia.
  cbn [mbind option_bind fmap option_fmap option_map default]. rewrite (route_name _ _ _ _ Hroute), fgets_fits by apply Hroute.
  destruct name; [by destruct (route_plain _ _ _ _ Hroute)|done].
Qed.

(** What a getter that is OK answers, for any of the three fields. *)
Lemma answer_value m s : has_char NUL s = false → (String.length s < 4095)%nat → buf_str (paramValue (answer m s)) = s.
Proof. apply (answer_str_value (TR69HOSTIFMGR_MAX_PARAM_LEN - 1)). Qed.

Lemma routers_answer m s :
  paramName m = client_param i "IPRouters" → fits MAX_BUF_LEN (field 3 line) →
  ∃ m' s', handleGetMsg popen n m s = Some (OK, m', s') ∧ buf_str (paramValue m') = field 3 line.
Proof.
  intros Hp Hf. rewrite (client_get popen n i "IPRouters") by (done || lia). cbn [getInstance].
  unfold get_Device_DHCPv4_Client_IPRouters, get_Device_DHCPv4_Client_Fields. rewrite route_device.
  destruct (route_plain _ _ _ _ Hroute) as [Hne Hal]. rewrite (prints_routers _ _ Hprints), (route_only _ _ _ _ Hroute) by done.
  cbn [foldr]. rewrite str_app_nil_r, fgets_fits, str_take_all by (done || (unfold fits, MAX_BUF_LEN, MAX_IP_ROUTER_LEN in *; lia)).
  do 2 eexists. split; [reflexivity|]. apply answer_value; [apply Hf|]. unfold fits, MAX_BUF_LEN in Hf. lia.
Qed.

Lemma servers_answer m s t l :
  paramName m = client_param i "DNSServers" → popen servers_command = Some (commas (t :: l)) →
  Forall (λ t, has_char COMMA t = false ∧ is_empty t = false) (t :: l) → fits MAX_BUF_LEN (commas (t :: l)) →
  ∃ m' s', handleGetMsg popen n m s = Some (OK, m', s')
    ∧ buf_str (paramValue m')
      = if isValidIPAddr t then join COMMA (filter (λ t, isIfnameInroutetoDNSServer popen t name) (t :: l)) else EmptyString.
Proof.
  intros Hp Hs Hl Hf. rewrite (client_get popen n i "DNSServers") by (done || lia). cbn [getInstance].
  unfold get_Device_DHCPv4_Client_DnsServer, get_Device_DHCPv4_Client_Fields. rewrite route_device, Hs.
  rewrite read_servers_filter by done. do 2 eexists. split; [reflexivity|]. cbn [dnsservers with_dnsservers].
  destruct (isValidIPAddr t); [|done].
  pose proof (commas_filter_length popen name (t :: l)) as Hlen.
  assert (∀ l, has_char NUL (commas l) = false → has_char NUL (join COMMA l) = false ∧ (String.length (join COMMA l) ≤ String.length (commas l))%nat) as Hj.
  { intros [|u l']; [done|]. rewrite commas_join, has_char_app, str_length_app. intros [? _]%orb_false_elim. split; [done|lia]. }
  destruct (Hj (filter (λ t, isIfnameInroutetoDNSServer popen t name) (t :: l))) as [H1 H2].
  { destruct Hf as (_ & Hnul & _). revert Hnul. clear. induction (t :: l) as [|u l' IH]; [done|]. rewrite filter_cons.
    change (commas (u :: l')) with (u +:+ String COMMA (commas l')). rewrite has_char_app. cbn [has_char].
    intros [Hu [_ Hn]%orb_false_elim]%orb_false_elim. destruct (decide _); [|by apply IH].
    change (commas (u :: ?x)) with (u +:+ String COMMA (commas x)). rewrite has_char_app. cbn [has_char].
    rewrite Hu, IH; done. }
  apply answer_value; [done|]. destruct Hf as (_ & _ & Hf). unfold MAX_BUF_LEN in Hf. lia.
Qed.

Lemma find_interface_device ifa k fuel index count :
  regular n ifa → Forall (fits IFNAMSIZ) (devices n).*2 → (devices n).*2 !! Z.to_nat (k - 1) = Some name → 1 <= index <= k → k <= count →
  (Z.to_nat (k - index) < fuel)%nat →
  find_interface n fuel index count name = Some (Some k).
Proof.
  intros Hreg Hfit Hk. revert index. induction fuel as [|fuel IH]; intros index Hi1 Hc Hf; [lia|]. cbn [find_interface].
  rewrite (proj2 (Z.leb_le _ _)) by lia. cbn [IPInterface.get_Interface_Name mbind option_bind].
  assert (∃ d, (devices n).*2 !! Z.to_nat (index - 1) = Some d ∧ refreshInterfaceName n index = d) as (d & Hd & Hdn).
  { pose proof (lookup_lt_Some _ _ _ Hk) as Hlt. destruct (lookup_lt_is_Some_2 (devices n).*2 (Z.to_nat (index - 1))) as [d Hd]; [lia|].
    exists d. split; [done|]. unfold refreshInterfaceName. rewrite (regular_name n ifa Hreg), (proj2 (Z.leb_le _ _)) by lia.
    unfold interface_names. by rewrite (lookup_app_l_Some _ _ _ _ Hd). }
  rewrite Hdn. clear Hdn. cbn [paramValue set_len set_paramtype set_value].
  pose proof (proj1 (Forall_forall _ _) Hfit d ltac:(by eapply list_elem_of_lookup_2)) as (_ & Hnul & Hlen).
  rewrite Webpa.fill_buf by (done || (eapply Nat.lt_trans; [exact Hlen|apply Nat.ltb_lt; reflexivity])).
  destruct (starts_with name d) eqn:Hpre.
  - apply (reg_prefix _ _ Hreg) in Hpre; [|by eapply list_elem_of_lookup_2..]. subst d.
    assert (Z.to_nat (index - 1) = Z.to_nat (k - 1)) as E by (eapply (NoDup_lookup (devices n).*2); [apply (reg_nodup _ _ Hreg)|exact Hd|exact Hk]).
    do 2 f_equal. lia.
  - assert (index ≠ k) by (intros ->; assert (d = name) as -> by congruence; pose proof (starts_with_app name EmptyString) as E; rewrite str_app_nil_r in E; congruence).
    apply IH; lia.
Qed.

Lemma reference_answer ifa k m s :
  regular n ifa → Forall (fits IFNAMSIZ) (devices n).*2 → (devices n).*2 !! Z.to_nat (k - 1) = Some name → 1 <= k →
  Z.of_nat (length (interface_names n ifa)) < 2 ^ 31 → paramName m = client_param i "Interface" →
  ∃ m' s', handleGetMsg popen n m s = Some (OK, m', s') ∧ buf_str (paramValue m') = "Device.IP.Interface." +:+ dec k.
Proof.
  intros Hreg Hfit Hk Hk1 Hcount Hp. rewrite (client_get popen n i "Interface") by (done || lia). cbn [getInstance].
  unfold get_Device_DHCPv4_Client_InterfaceReference, get_Device_DHCPv4_Client_Fields. rewrite route_device.
  unfold IPDevice.get_Device_IP_InterfaceNumberOfEntries. rewrite (regular_entries n ifa Hreg). cbn [mbind option_bind].
  rewrite answer_int_value, int32_id by lia.
  assert (k <= Z.of_nat (length (interface_names n ifa))) as Hle.
  { pose proof (lookup_lt_Some _ _ _ Hk). unfold interface_names. rewrite length_app. lia. }
  rewrite (find_interface_device ifa k) by (done || lia). cbn [mbind option_bind].
  do 2 eexists. split; [reflexivity|]. cbn [interface with_interface].
  assert (String.length ("Device.IP.Interface." +:+ dec k) ≤ 39)%nat as Hlen.
  { rewrite str_length_app. cbn [String.length]. unfold dec, dec_nat. rewrite (proj2 (Z.ltb_ge _ _)) by lia.
    pose proof (dec_aux_length 20 k EmptyString 19). cbn [String.length] in *. lia. }
  rewrite str_take_all by (unfold MAX_IF_LEN; lia). apply answer_value; [|lia]. rewrite has_char_app. apply dec_no_nul.
Qed.

(** C21. A client whose default route is over a device that no other default
    route names answers for that route: the parameters IPRouters and Interface
    of Device.DHCPv4.Client.{i} are the gateway of the i-th default route and
    the number that Device.IP.Interface gives to its device, whatever was
    answered before. The device is one that the kernel lists (a tunnel or an
    alias is not, see reference_kept; for two routes over one device see
    gateways_run_together), has a name of letters and digits that fits the
    buffer, as all devices' names do, the gateway fits its buffer, and the
    network's names part as the kernel makes them (regular). *)
Theorem client_of_route ifa k m s :
  regular n ifa → Forall (fits IFNAMSIZ) (devices n).*2 → (devices n).*2 !! Z.to_nat (k - 1) = Some name → 1 <= k →
  Z.of_nat (length (interface_names n ifa)) < 2 ^ 31 → fits MAX_BUF_LEN (field 3 line) →
  (paramName m = client_param i "IPRouters" →
   ∃ m' s', handleGetMsg popen n m s = Some (OK, m', s') ∧ buf_str (paramValue m') = field 3 line)
  ∧ (paramName m = client_param i "Interface" →
     ∃ m' s', handleGetMsg popen n m s = Some (OK, m', s') ∧ buf_str (paramValue m') = "Device.IP.Interface." +:+ dec k).
Proof.
  intros Hreg Hfit Hk Hk1 Hcount Hf. split; intros Hp; [by apply routers_answer|by eapply reference_answer].
Qed.

(** The name servers of a client are those of the system whose route leads over
    the client's device, in their order, once the first is an IPv4 address. *)
Theorem servers_by_route device_of m s t l :
  (∀ u, u ∈ t :: l → popen (route_command u) = Some (device_of u) ∧ fits 8 (device_of u)) → (String.length name < 8)%nat →
  paramName m = client_param i "DNSServers" → popen servers_command = Some (commas (t :: l)) →
  Forall (λ t, has_char COMMA t = false ∧ is_empty t = false) (t :: l) → fits MAX_BUF_LEN (commas (t :: l)) →
  isValidIPAddr t = true →
  ∃ m' s', handleGetMsg popen n m s = Some (OK, m', s')
    ∧ buf_str (paramValue m') = join COMMA (filter (λ t, device_of t = name) (t :: l)).
Proof.
  intros Hdev Hn Hp Hs Hl Hf Hv. destruct (servers_answer m s t l Hp Hs Hl Hf) as (m' & s' & Hg & Ha).
  exists m', s'. split; [done|]. rewrite Ha, Hv. f_equal. revert Hdev. clear -Hn. induction (t :: l) as [|u l' IH]; intros Hdev; [done|].
  rewrite !filter_cons, IH by (intros v Hv; apply Hdev; by right). destruct (Hdev u ltac:(left)) as [Hu Hx].
  assert (isIfnameInroutetoDNSServer popen u name = streq (device_of u) name) as ->.
  { unfold isIfnameInroutetoDNSServer. by rewrite Hu, fgets_fits, !str_take_all by (done || (unfold fits in Hx; lia)). }
  destruct (decide (device_of u = name)) as [->|Hne]; [by rewrite streq_refl|].
  rewrite decide_False; [done|]. intros H%Is_true_true. by apply Hne, streq_true.
Qed.

(** Seven characters of a route's device are compared with eight of the client's. *)
Theorem long_name_no_servers m s t l :
  (8 ≤ String.length name)%nat → paramName m = client_param i "DNSServers" → popen servers_command = Some (commas (t :: l)) →
  Forall (λ t, has_char COMMA t = false ∧ is_empty t = false) (t :: l) → fits MAX_BUF_LEN (commas (t :: l)) →
  ∃ m' s', handleGetMsg popen n m s = Some (OK, m', s') ∧ buf_str (paramValue m') = EmptyString.
Proof.
  intros Hn Hp Hs Hl Hf. destruct (servers_answer m s t l Hp Hs Hl Hf) as (m' & s' & Hg & Ha).
  exists m', s'. split; [done|]. rewrite Ha. destruct (isValidIPAddr t); [|done].
  rewrite filter_none; [done|]. apply Forall_forall. intros u _.
  unfold isIfnameInroutetoDNSServer. apply streq_false. intros E%(f_equal String.length).
  assert (∀ o, String.length (fgets_buffer 8 o) < 8)%nat as Hshort by apply fgets_short.
  rewrite (str_take_exact name 8) in E by done.
  destruct (popen (route_command u)) as [o|]; [pose proof (Hshort o)|cbn in E; lia].
  rewrite str_take_all in E by lia. lia.
Qed.

(** When no interface's name begins with the device, the reference that was answered
    before, for whichever client, is answered again. *)
Theorem reference_kept m s count :
  paramName m = client_param i "Interface" → getInterfaceNumberOfEntries n = Some count → 0 <= count < 2 ^ 31 →
  find_interface n (Z.to_nat count) 1 count name = Some None →
  ∃ s', handleGetMsg popen n m s = Some (OK, answer (set_instance m i) (interface (dhcpClient s)), s')
    ∧ dhcpClient s' = dhcpClient s.
Proof.
  intros Hp Hc Hr Hfind. rewrite (client_get popen n i "Interface") by (done || lia). cbn [getInstance].
  unfold get_Device_DHCPv4_Client_InterfaceReference, get_Device_DHCPv4_Client_Fields. rewrite route_device.
  unfold IPDevice.get_Device_IP_InterfaceNumberOfEntries. rewrite Hc. cbn [mbind option_bind].
  rewrite answer_int_value, int32_id, Hfind by lia. eexists. split; reflexivity.
Qed.
End route.

(** ** Rounds, attributes and the end *)

(** A round that follows another with the same routes reports nothing. *)
Theorem client_rounds_settle popen routes s :
  prints popen routes → Z.of_nat (length (default_routes routes)) < 2 ^ 31 →
  ∃ evs s', checkForUpdates popen s = (evs, s') ∧ checkForUpdates popen s' = ([], s')
    ∧ curNumOfDHCPv4Clients s' = Z.of_nat (length (default_routes routes)).
Proof.
  intros Hp Hk. destruct (count_answer popen routes Hp zero_msg Hk) as (m' & Hg & Hv).
  unfold checkForUpdates. rewrite Hg, Hv. do 2 eexists. split; [reflexivity|]. split; [|reflexivity].
  rewrite Updates.count_changes_events. cbn [curNumOfDHCPv4Clients with_count].
  rewrite (proj2 (Z.leb_le _ _)), Z.sub_diag by lia. by destruct (mUpdateCallback _).
Qed.

(** An attribute that was set is read back, unlike those of the managers that free
    it. *)
Theorem client_attribute_kept str_hash m m2 s :
  m_notifyHash s = no_table → paramName m2 = paramName m →
  ∃ m1 s1 m3 s2, handleSetAttributesMsg str_hash m s = Some (OK, m1, s1)
    ∧ handleGetAttributesMsg str_hash m2 s1 = Some (OK, m3, s2) ∧ get_int (paramValue m3) = 1.
Proof.
  intros Hn Hname. destruct (kept_attributes str_hash [paramName m] (paramName m)) as (t & Ht & Hg).
  cbn [set_attributes foldl mbind option_bind] in Ht. rewrite decide_True in Hg by left.
  unfold handleSetAttributesMsg. cbn [getInstance fst m_notifyHash with_client]. rewrite Hn. cbn [made].
  unfold set_attributes in Ht. cbn [foldl mbind option_bind] in Ht. rewrite Ht. cbn [mbind option_bind].
  do 4 eexists. split; [reflexivity|]. unfold handleGetAttributesMsg. cbn [getInstance fst m_notifyHash with_client with_notify made].
  rewrite Hname, Hg. cbn [mbind option_bind]. split; [reflexivity|]. cbn [paramValue set_paramtype set_value].
  apply get_put_int.
Qed.

(** With a table of attributes and two instances the end destroys the table twice. *)
Theorem two_clients_crash s l : m_notifyHash s = table_of l → (2 ≤ size (dhcpv4ClientHash s))%nat → unInit s = None.
Proof.
  intros Hl Hs. unfold unInit. rewrite Hl. destruct (size _) as [|[|k]]; [lia|lia|]. rewrite !Nat.iter_succ_r.
  cbn [mbind option_bind destroy_table]. assert (Nat.iter k (λ t, t ≫= destroy_table) None = None) as ->; [|done].
  clear. induction k as [|k IH]; [done|]. cbn [Nat.iter]. unfold Nat.iter in IH |- *. cbn [nat_rect]. by rewrite IH.
Qed.

(** *** A device with one default route *)
Definition one_popen (routes : list string) (servers : string) (device_of : string → string) (cmd : string) : option string :=
  if streq cmd count_command then Some (with_nl (dec (Z.of_nat (length (default_routes routes)))))
  else if starts_with "ip r | grep default | sed -n '" cmd then
    '(_, i, _) ← strto (str_drop 30 cmd);
    Some (default EmptyString (field 5 <$> default_routes routes !! Z.to_nat (i - 1)))
  else if starts_with "ip r|grep default| grep " cmd then
    '(name, _) ← split_at " " (str_drop 24 cmd);
    Some (foldr (λ line s, field 3 line +:+ s) EmptyString (filter (λ line, contains name line) (default_routes routes)))
  else if starts_with "ip route get " cmd then '(t, _) ← split_at " " (str_drop 13 cmd); Some (device_of t)
  else Some servers.

Lemma one_prints routes servers device_of : prints (one_popen routes servers device_of) routes.
Proof.
  constructor.
  - reflexivity.
  - intros i Hi. unfold one_popen, name_command.
    change (streq _ count_command) with false. cbv iota. rewrite starts_with_app.
    change 30%nat with (String.length "ip r | grep default | sed -n '"). rewrite str_drop_app.
    rewrite strto_dec_app by (done || lia). cbn [mbind option_bind]. by rewrite Z.abs_eq by lia.
  - intros name Hne Hal. unfold one_popen, routers_command.
    change (streq _ count_command) with false. change (starts_with "ip r | grep default | sed -n '" _) with false. cbv iota.
    rewrite starts_with_app. change 24%nat with (String.length "ip r|grep default| grep "). rewrite str_drop_app.
    change " |awk '{printf $3}'"%string with (String " " "|awk '{printf $3}'"). rewrite split_at_app; [done|].
    clear Hne. induction name as [|c name IH]; [done|]. cbn [alnum has_char] in *. apply andb_true_iff in Hal as [Hc Hal].
    rewrite IH by done. destruct (Ascii.eqb_spec " " c) as [<-|]; [by vm_compute in Hc|done].
Qed.

Definition home_routes : list string :=
  ["default via 10.0.0.1 dev eth0 proto dhcp metric 100"; "10.0.0.0/24 dev eth0 proto kernel scope link src 10.0.0.5"]%string.

(** The fifth word of [ip route get]: the device when the server is behind a gateway,
    the device's own address when it is on the same network. *)
Definition home_device (server : string) : string := if starts_with "10.0.0." server then "10.0.0.5" else "eth0".

Definition home_popen (servers : string) : string → option string := one_popen home_routes servers home_device.

Lemma home_route : client_route home_routes 1 "default via 10.0.0.1 dev eth0 proto dhcp metric 100" "eth0".
Proof.
  constructor; [reflexivity|reflexivity| |done|reflexivity].
  split_and!; [reflexivity|reflexivity|apply Nat.ltb_lt; reflexivity].
Qed.

Definition client_request (name : string) : HOSTIF_MsgData_t := Webpa.mk_request name hostIf_StringType zero_msg.

Lemma client_of_route_witness :
  ∃ m' s', handleGetMsg (home_popen "1.1.1.1,") (home_net []) (client_request "Device.DHCPv4.Client.1.Interface") initial
    = Some (OK, m', s') ∧ buf_str (paramValue m') = "Device.IP.Interface.2"%string.
Proof.
  refine (proj2 (client_of_route (home_popen "1.1.1.1,") home_routes (one_prints _ _ _) (home_net []) 1 _ "eth0" ltac:(lia)
    home_route home 2 (client_request "Device.DHCPv4.Client.1.Interface") initial home_regular _ eq_refl ltac:(lia) _ _) _).
  - repeat constructor; (reflexivity || (apply Nat.ltb_lt; reflexivity)).
  - reflexivity.
  - split_and!; [reflexivity|reflexivity|apply Nat.ltb_lt; reflexivity].
  - reflexivity.
Defined.

Lemma servers_by_route_witness :
  ∃ m' s', handleGetMsg (home_popen "1.1.1.1,8.8.8.8,") (home_net []) (client_request "Device.DHCPv4.Client.1.DNSServers") initial
    = Some (OK, m', s') ∧ buf_str (paramValue m') = "1.1.1.1,8.8.8.8"%string.
Proof.
  apply (servers_by_route (home_popen "1.1.1.1,8.8.8.8,") home_routes (one_prints _ _ _) (home_net []) 1 _ "eth0" ltac:(lia)
    home_route (λ _, "eth0"%string) _ initial "1.1.1.1" ["8.8.8.8"%string]).
  - intros u Hu. split; [|split_and!; [reflexivity|reflexivity|apply Nat.ltb_lt; reflexivity]].
    rewrite !elem_of_cons in Hu. destruct Hu as [->|[->|[]%not_elem_of_nil]]; reflexivity.
  - apply Nat.ltb_lt. reflexivity.
  - reflexivity.
  - reflexivity.
  - repeat constructor.
  - split_and!; [reflexivity|reflexivity|apply Nat.ltb_lt; reflexivity].
  - reflexivity.
Defined.

Definition dns_answer (servers : string) : option string :=
  '(_, m, _) ← handleGetMsg (home_popen servers) (home_net []) (client_request "Device.DHCPv4.Client.1.DNSServers") initial;
  Some (buf_str (paramValue m)).

(** A server on the client's own network, as a home router is, is left out. *)
Example own_network_left_out : dns_answer "10.0.0.1,8.8.8.8," = Some "8.8.8.8"%string.
Proof. vm_compute. reflexivity. Qed.

(** An IPv6 server in front hides all others. *)
Example ipv6_server_hides : dns_answer "fe80::1,8.8.8.8," = Some EmptyString.
Proof. vm_compute. reflexivity. Qed.

(** Two default routes over one device, with different metrics: both clients answer
    both gateways, with nothing between them. *)
Example gateways_run_together :
  let routes := ["default via 10.0.0.1 dev eth0 metric 100"; "default via 10.0.0.2 dev eth0 metric 200"]%string in
  match handleGetMsg (one_popen routes EmptyString home_device) (home_net []) (client_request "Device.DHCPv4.Client.2.IPRouters") initial with
  | Some (ret, m, _) => ret = OK ∧ buf_str (paramValue m) = "10.0.0.110.0.0.2"%string
  | None => False
  end.
Proof. vm_compute. done. Qed.

Lemma long_name_no_servers_witness :
  let routes := ["default via 10.0.0.1 dev wwan0qmi0 metric 100"%string] in
  ∃ m' s', handleGetMsg (one_popen routes "1.1.1.1," (λ _, "wwan0qmi0"%string)) (home_net [])
    (client_request "Device.DHCPv4.Client.1.DNSServers") initial = Some (OK, m', s') ∧ buf_str (paramValue m') = EmptyString.
Proof.
  apply (long_name_no_servers _ ["default via 10.0.0.1 dev wwan0qmi0 metric 100"%string] (one_prints _ _ _) (home_net []) 1
    "default via 10.0.0.1 dev wwan0qmi0 metric 100" "wwan0qmi0" ltac:(lia)) with (t := "1.1.1.1"%string) (l := []).
  - constructor; [reflexivity|reflexivity| |done|reflexivity].
    split_and!; [reflexivity|reflexivity|apply Nat.ltb_lt; reflexivity].
  - apply Nat.leb_le. reflexivity.
  - reflexivity.
  - reflexivity.
  - repeat constructor.
  - split_and!; [reflexivity|reflexivity|apply Nat.ltb_lt; reflexivity].
Defined.

(** A tunnel that has the second default route and no number: its client answers what
    the first one did. *)
Lemma reference_kept_witness :
  let routes := ["default via 10.0.0.1 dev eth0 metric 100"; "default via 10.8.0.1 dev tun0 metric 200"]%string in
  let s := mkState ∅ (with_interface cleared "Device.IP.Interface.2") no_table false 0 in
  let m := client_request "Device.DHCPv4.Client.2.Interface" in
  ∃ s', handleGetMsg (one_popen routes EmptyString home_device) (home_net []) m s
        = Some (OK, answer (set_instance m 2) "Device.IP.Interface.2", s') ∧ dhcpClient s' = dhcpClient s.
Proof.
  apply (reference_kept (one_popen ["default via 10.0.0.1 dev eth0 metric 100"; "default via 10.8.0.1 dev tun0 metric 200"]%string
           EmptyString home_device) _ (one_prints _ _ _) (home_net []) 2 "default via 10.8.0.1 dev tun0 metric 200" "tun0" ltac:(lia))
    with (count := 4).
  - constructor; [reflexivity|reflexivity| |done|reflexivity].
    split_and!; [reflexivity|reflexivity|apply Nat.ltb_lt; reflexivity].
  - reflexivity.
  - reflexivity.
  - lia.
  - reflexivity.
Defined.

Lemma client_rounds_settle_witness :
  ∃ evs s', checkForUpdates (home_popen EmptyString) (registerUpdateCallback true initial) = (evs, s')
    ∧ evs = [Updates.EVENT_ADD "Device.DHCPv4.Client."] ∧ checkForUpdates (home_popen EmptyString) s' = ([], s').
Proof.
  destruct (client_rounds_settle (home_popen EmptyString) home_routes (registerUpdateCallback true initial) (one_prints _ _ _)
    ltac:(reflexivity)) as (evs & s' & Hc & Hs & _).
  exists evs, s'. split; [exact Hc|]. split; [|exact Hs].
  pose proof (f_equal fst Hc) as E. vm_compute in E. by symmetry.
Defined.

Lemma client_attribute_kept_witness :
  let m := client_request "Device.DHCPv4.Client.1.Interface" in
  ∃ m1 s1 m3 s2, handleSetAttributesMsg (λ _, 0) m initial = Some (OK, m1, s1)
    ∧ handleGetAttributesMsg (λ _, 0) m s1 = Some (OK, m3, s2) ∧ get_int (paramValue m3) = 1.
Proof. apply client_attribute_kept; reflexivity. Defined.

(** One parameter read and one attribute set are enough. *)
Lemma two_clients_crash_witness :
  ∃ ret m s1 ret2 m2 s2,
    handleGetMsg (home_popen "1.1.1.1,") (home_net []) (client_request "Device.DHCPv4.Client.1.Interface") initial = Some (ret, m, s1)
    ∧ handleSetAttributesMsg (λ _, 0) (client_request "Device.DHCPv4.Client.1.Interface") s1 = Some (ret2, m2, s2)
    ∧ unInit s2 = None.
Proof.
  destruct (handleGetMsg (home_popen "1.1.1.1,") (home_net []) (client_request "Device.DHCPv4.Client.1.Interface") initial)
    as [[[ret m] s1]|] eqn:E1; [|by vm_compute in E1].
  destruct (handleSetAttributesMsg (λ _, 0) (client_request "Device.DHCPv4.Client.1.Interface") s1) as [[[ret2 m2] s2]|] eqn:E2.
  2: { exfalso. vm_compute in E1. injection E1 as <- <- <-. by vm_compute in E2. }
  exists ret, m, s1, ret2, m2, s2. split; [done|]. split; [done|].
  apply (two_clients_crash s2 [mkEntry "Device.DHCPv4.Client.1.Interface" true 1 true]).
  - vm_compute in E1. injection E1 as <- <- <-. vm_compute in E2. by injection E2 as <- <- <-.
  - vm_compute in E1. injection E1 as <- <- <-. vm_compute in E2. injection E2 as <- <- <-. vm_compute. lia.
Defined.

End DHCPv4ClientReqHandler.
