(* ===== verification/Ethernet.v ===== *)
(** * The Ethernet interfaces

    [EthernetInterface] and [EthernetInterfaceStats] model profiles/Ethernet, the
    parameters of Device.Ethernet.Interface.{i} and its counters, over the network
    ([net]) and the files under /sys/class/net; [EthernetClientReqHandler] models
    handlers/src/hostIf_EthernetClient_ReqHandler.cpp. *)
From stdpp Require Import base list strings gmap.
From Stdlib Require Import Ascii ZArith Lia.
From S2P Require Import Prelude HostIf FileStore Webpa ProfileIO Utils Notify Network IPAddress.
Import ProfileIO Network NotifyHash AddressTable.

#[local] Arguments streq : simpl never.

Module EthernetInterface.

Definition is_ethernet (name : string) : bool := starts_with "eth" name.

Section interface.
Context (n : net) (w : env).

(** ** Names *)
Fixpoint nth_ethernet (l : list (Z * string)) (count ethInterfaceNum : Z) : option string :=
  match l with
  | [] => None
  | (_, name) :: l' =>
      if is_ethernet name then if count + 1 =? ethInterfaceNum then Some name else nth_ethernet l' (count + 1) ethInterfaceNum
      else nth_ethernet l' count ethInterfaceNum
  end.

Definition getEthernetInterfaceName (ethInterfaceNum : Z) : option string :=
  l ← phy_if_list n; nth_ethernet l 0 ethInterfaceNum.

(** The first line of a file. *)
Definition readEthernetInterfaceFile (path : string) : option string :=
  content ← read_file w path; Some (c_str (default EmptyString (head (getlines content)))).

(** ** Fields: what [stEthInterface] is after they are read *)
Section fields.
(** The instance, as the unsigned number that is looked for. *)
Context (dev_id : Z).

Definition sys_file (name file : string) : string := "/sys/class/net/" +:+ name +:+ "/" +:+ file.

Definition field_text (file : string) : option string :=
  if uint32 dev_id =? 0 then None
  else name ← getEthernetInterfaceName (uint32 dev_id); readEthernetInterfaceFile (sys_file name file).

Definition enable : bool := match field_text "carrier" with Some value => negb (string_to_int value =? 0) | None => false end.
Definition status : string :=
  match field_text "carrier" with Some value => if string_to_int value =? 1 then "Up" else "Down" | None => EmptyString end.
Definition ifname : string :=
  if uint32 dev_id =? 0 then EmptyString else default EmptyString (getEthernetInterfaceName (uint32 dev_id)).
Definition upStream : bool := match field_text "carrier" with Some value => string_to_bool value | None => false end.
Definition mACAddress : string := match field_text "address" with Some value => str_take 23 value | None => EmptyString end.
Definition maxBitRate : Z := match field_text "speed" with Some value => string_to_int value | None => 0 end.
Definition duplexMode : string := match field_text "duplex" with Some value => str_take 15 value | None => EmptyString end.

(** ** Getters *)
Definition reply : Type := Z * HOSTIF_MsgData_t.

Definition get_Device_Ethernet_Interface_Enable (m : HOSTIF_MsgData_t) : reply :=
  (OK, set_len (set_paramtype (set_value m (put_boolean (paramValue m) enable)) hostIf_BooleanType) 1).
Definition get_Device_Ethernet_Interface_Status (m : HOSTIF_MsgData_t) : reply := (OK, answer_str 16 m status).
Definition get_Device_Ethernet_Interface_Name (m : HOSTIF_MsgData_t) : reply :=
  (OK, set_len (answer_str 16 m (str_take 15 ifname)) (Z.of_nat (String.length ifname))).
Definition get_Device_Ethernet_Interface_LastChange (m : HOSTIF_MsgData_t) : reply := (NOK, m).
Definition get_Device_Ethernet_Interface_LowerLayers (m : HOSTIF_MsgData_t) : reply := (NOK, m).
Definition get_Device_Ethernet_Interface_Upstream (m : HOSTIF_MsgData_t) : reply :=
  (OK, set_len (set_paramtype (set_value m (put_boolean (paramValue m) upStream)) hostIf_BooleanType) 1).
Definition get_Device_Ethernet_Interface_MACAddress (m : HOSTIF_MsgData_t) : reply := (OK, answer_str 24 m mACAddress).
Definition get_Device_Ethernet_Interface_MaxBitRate (m : HOSTIF_MsgData_t) : reply :=
  (OK, answer_int hostIf_IntegerType 4 m maxBitRate).
Definition get_Device_Ethernet_Interface_DuplexMode (m : HOSTIF_MsgData_t) : reply := (OK, answer_str 15 m duplexMode).
End fields.

Definition get_Device_Ethernet_InterfaceNumberOfEntries (m : HOSTIF_MsgData_t) : reply :=
  match phy_if_list n with
  | None => (NOK, m)
  | Some l => (OK, answer_int hostIf_IntegerType 4 m (Z.of_nat (length (filter (λ d, is_ethernet d.2) l))))
  end.
End interface.

(** ** Setters *)

(** The number of the interface is never that of the instance: it is 0, and the
    command is made of one less.  [run]: what [system] returns. *)
Definition ethInterfNo : Z := 0.
Definition set_Device_Ethernet_Interface_Enable (run : list string → Z) (m : HOSTIF_MsgData_t) : reply * list request :=
  let cmd := ["ifconfig"; "eth" +:+ dec (int32 (uint32 (ethInterfNo - 1))); if get_boolean (paramValue m) then "up" else "down"]%string in
  ((if run cmd <? 0 then NOK else OK, m), [Command cmd]).
Definition set_Device_Ethernet_Interface_Alias (m : HOSTIF_MsgData_t) : reply * list request := ((NOK, m), []).
Definition set_Device_Ethernet_Interface_LowerLayers (m : HOSTIF_MsgData_t) : reply * list request := ((NOK, m), []).
Definition set_Device_Ethernet_Interface_DuplexMode (m : HOSTIF_MsgData_t) : reply * list request := ((NOK, m), []).

End EthernetInterface.

Module EthernetInterfaceStats.

Inductive EEthInterfaceStatsMembers : Type :=
  | eBytesSent | eBytesReceived | ePacketsSent | ePacketsReceived | eErrorsSent | eErrorsReceived
  | eUnicastPacketsSent | eUnicastPacketsReceived | eDiscardPacketsSent | eDiscardPacketsReceived
  | eMulticastPacketsSent | eMulticastPacketsReceived | eBroadcastPacketsSent | eBroadcastPacketsReceived
  | eUnknownProtoPacketsReceived.

#[global] Instance members_eq_dec : EqDecision EEthInterfaceStatsMembers.
Proof. solve_decision. Defined.

(** [stEthInterfaceStats], which all instances share. *)
Definition stats : Type := EEthInterfaceStatsMembers → Z.
Definition zero_stats : stats := λ _, 0.
Definition store (l : list EEthInterfaceStatsMembers) (z : Z) (st : stats) : stats :=
  λ k, if decide (k ∈ l) then z else st k.

(** The file that is opened, the width of what is read into, and the members that get
    it.  All but the first two paths begin with the name of a command. *)
Definition stat_file (name counter : string) : string := "/sys/class/net/" +:+ name +:+ "/statistics/" +:+ counter.
Definition cat_file (name counter : string) : string := "cat " +:+ stat_file name counter.

Definition source (member : EEthInterfaceStatsMembers) (name : string) : string * (Z → Z) * list EEthInterfaceStatsMembers :=
  match member with
  | eBytesSent => (stat_file name "tx_bytes", uint64, [eBytesSent])
  | eBytesReceived => (stat_file name "rx_bytes", uint64, [eBytesReceived])
  | ePacketsSent | eUnicastPacketsSent | eMulticastPacketsSent | eBroadcastPacketsSent =>
      (cat_file name "tx_packets", uint64, [ePacketsSent; eUnicastPacketsSent; eMulticastPacketsSent; eBroadcastPacketsSent])
  | ePacketsReceived | eUnicastPacketsReceived | eMulticastPacketsReceived | eBroadcastPacketsReceived =>
      (cat_file name "rx_packets", uint64,
       [ePacketsReceived; eUnicastPacketsReceived; eMulticastPacketsReceived; eBroadcastPacketsReceived])
  | eErrorsSent => (cat_file name "tx_errors", uint32, [eErrorsSent])
  | eErrorsReceived => (cat_file name "rx_errors", uint32, [eErrorsReceived])
  | eDiscardPacketsSent => (cat_file name "tx_dropped", uint32, [eDiscardPacketsSent])
  | eDiscardPacketsReceived | eUnknownProtoPacketsReceived =>
      (cat_file name "rx_dropped", uint32, [eDiscardPacketsReceived; eUnknownProtoPacketsReceived])
  end.

(** Whether the variable that is read into is the field itself, which keeps what it
    has when the file is empty, or one that begins at 0. *)
Definition in_place (member : EEthInterfaceStatsMembers) : bool :=
  match member with eBytesSent | eBytesReceived | eErrorsSent | eErrorsReceived => true | _ => false end.

(** Every line is read, the last one stays. *)
Definition readStatFile (w : env) (file : string) (width : Z → Z) (param : Z) : option Z :=
  content ← read_file w file;
  Some (foldl (λ _ line, width (string_to_ulong (c_str line))) param (getlines content)).

Definition read_Device_Ethernet_Interface_Stats_Fields (n : net) (w : env) (ethInterfaceNum : Z)
    (ethInterfaceStatMem : EEthInterfaceStatsMembers) (st : stats) : stats :=
  let ethName := buf_str (paramValue (snd (EthernetInterface.get_Device_Ethernet_Interface_Name n ethInterfaceNum zero_msg))) in
  let '(cmd, width, members) := source ethInterfaceStatMem ethName in
  match readStatFile w cmd width (if in_place ethInterfaceStatMem then st ethInterfaceStatMem else 0) with
  | Some value => store members value st
  | None => st
  end.

(** ** Getters *)
Section getters.
Context (n : net) (w : env) (dev_id : Z).

Definition reply : Type := Z * HOSTIF_MsgData_t * stats.

Definition get_stat (member : EEthInterfaceStatsMembers) (t : HostIf_ParamType_t) (m : HOSTIF_MsgData_t) (st : stats) : reply :=
  let st' := read_Device_Ethernet_Interface_Stats_Fields n w dev_id member st in (OK, answer_int t 4 m (st' member), st').

Definition get_Device_Ethernet_Interface_Stats_BytesSent := get_stat eBytesSent hostIf_UnsignedLongType.
Definition get_Device_Ethernet_Interface_Stats_BytesReceived := get_stat eBytesReceived hostIf_UnsignedLongType.
Definition get_Device_Ethernet_Interface_Stats_PacketsSent := get_stat ePacketsSent hostIf_UnsignedLongType.
Definition get_Device_Ethernet_Interface_Stats_PacketsReceived := get_stat ePacketsReceived hostIf_UnsignedLongType.
Definition get_Device_Ethernet_Interface_Stats_ErrorsSent := get_stat eErrorsSent hostIf_UnsignedIntType.
Definition get_Device_Ethernet_Interface_Stats_ErrorsReceived := get_stat eErrorsReceived hostIf_UnsignedIntType.
Definition get_Device_Ethernet_Interface_Stats_UnicastPacketsSent := get_stat eUnicastPacketsSent hostIf_UnsignedLongType.
Definition get_Device_Ethernet_Interface_Stats_UnicastPacketsReceived := get_stat eUnicastPacketsReceived hostIf_UnsignedLongType.
Definition get_Device_Ethernet_Interface_Stats_DiscardPacketsSent := get_stat eDiscardPacketsSent hostIf_UnsignedIntType.
Definition get_Device_Ethernet_Interface_Stats_DiscardPacketsReceived := get_stat eDiscardPacketsReceived hostIf_UnsignedIntType.
Definition get_Device_Ethernet_Interface_Stats_MulticastPacketsSent := get_stat eMulticastPacketsSent hostIf_UnsignedLongType.
Definition get_Device_Ethernet_Interface_Stats_MulticastPacketsReceived := get_stat eMulticastPacketsReceived hostIf_UnsignedLongType.
Definition get_Device_Ethernet_Interface_Stats_BroadcastPacketsSent := get_stat eBroadcastPacketsSent hostIf_UnsignedLongType.
Definition get_Device_Ethernet_Interface_Stats_BroadcastPacketsReceived := get_stat eBroadcastPacketsReceived hostIf_UnsignedLongType.
Definition get_Device_Ethernet_Interface_Stats_UnknownProtoPacketsReceived := get_stat eUnknownProtoPacketsReceived hostIf_UnsignedIntType.
End getters.

End EthernetInterfaceStats.

Module EthernetClientReqHandler.
Import EthernetInterface EthernetInterfaceStats.

(** The instances, the counters they share, the table of attributes, the callback and
    the count of the last round, the second of ten. *)
Record state := mkState {
  ifHash : gset Z;
  stEthInterfaceStats : stats;
  m_notifyHash : notify;
  mUpdateCallback : bool;
  curNumOfDevices : Z
}.

Definition initial : state := mkState ∅ zero_stats no_table false 0.

Definition with_instance (s : state) (i : Z) : state :=
  mkState ({[i]} ∪ ifHash s) (stEthInterfaceStats s) (m_notifyHash s) (mUpdateCallback s) (curNumOfDevices s).
Definition with_stats (s : state) (st : stats) : state :=
  mkState (ifHash s) st (m_notifyHash s) (mUpdateCallback s) (curNumOfDevices s).
Definition with_notify (s : state) (t : notify) : state :=
  mkState (ifHash s) (stEthInterfaceStats s) t (mUpdateCallback s) (curNumOfDevices s).
Definition with_count (s : state) (k : Z) : state :=
  mkState (ifHash s) (stEthInterfaceStats s) (m_notifyHash s) (mUpdateCallback s) k.
Definition registerUpdateCallback (cb : bool) (s : state) : state :=
  mkState (ifHash s) (stEthInterfaceStats s) (m_notifyHash s) cb (curNumOfDevices s).

Definition reset (s : state) : state := with_count s 0.

(** The destructor of every instance destroys the table.  [None]: it is destroyed
    twice. *)
Definition unInit (s : state) : option state :=
  t ← Nat.iter (size (ifHash s)) (λ t, t ≫= destroy_table) (Some (m_notifyHash s));
  Some (mkState ∅ (stEthInterfaceStats s) t (mUpdateCallback s) (curNumOfDevices s)).

Section manager.
Context (n : net) (w : env) (run : list string → Z).
(** [g_str_hash] *)
Context (str_hash : string → Z).

(** [None]: the mutex is unlocked that nobody has locked. *)
Definition handleSetMsg (m : HOSTIF_MsgData_t) (s : state) : option (Z * HOSTIF_MsgData_t * state * list request) :=
  '(pSetting, instanceNumber) ← Utils.matchComponent (paramName m) "Device.Ethernet.Interface";
  let m1 := set_instance m instanceNumber in
  let s1 := with_instance s instanceNumber in
  let '((ret, m2), rs) :=
    if strcaseeq pSetting "Enable" then set_Device_Ethernet_Interface_Enable run m1
    else if strcaseeq pSetting "Alias" then set_Device_Ethernet_Interface_Alias m1
    else if strcaseeq pSetting "LowerLayers" then set_Device_Ethernet_Interface_LowerLayers m1
    else if strcaseeq pSetting "MaxBitRate" then set_Device_Ethernet_Interface_Enable run m1
    else if strcaseeq pSetting "DuplexMode" then set_Device_Ethernet_Interface_DuplexMode m1
    else ((NOK, set_fault m1 fcAttemptToSetaNonWritableParameter), []) in
  Some (ret, m2, s1, rs).

(** The getters of the interface. *)
Definition get_interface (i : Z) (pSetting : string) (m : HOSTIF_MsgData_t) : option (Z * HOSTIF_MsgData_t) :=
  if strcaseeq pSetting "Enable" then Some (get_Device_Ethernet_Interface_Enable n w i m)
  else if strcaseeq pSetting "Status" then Some (get_Device_Ethernet_Interface_Status n w i m)
  else if strcaseeq pSetting "Name" then Some (get_Device_Ethernet_Interface_Name n i m)
  else if strcaseeq pSetting "LastChange" then Some (get_Device_Ethernet_Interface_LastChange m)
  else if strcaseeq pSetting "Upstream" then Some (get_Device_Ethernet_Interface_Upstream n w i m)
  else if strcaseeq pSetting "MACAddress" then Some (get_Device_Ethernet_Interface_MACAddress n w i m)
  else if strcaseeq pSetting "LowerLayers" then Some (get_Device_Ethernet_Interface_LowerLayers m)
  else if strcaseeq pSetting "MaxBitRate" then Some (get_Device_Ethernet_Interface_MaxBitRate n w i m)
  else if strcaseeq pSetting "DuplexMode" then Some (get_Device_Ethernet_Interface_DuplexMode n w i m)
  else None.

(** The getters of its counters. *)
Definition get_stats (i : Z) (pSetting : string) (m : HOSTIF_MsgData_t) (st : stats) : option EthernetInterfaceStats.reply :=
  if strcaseeq pSetting "Stats.BytesSent" then Some (get_Device_Ethernet_Interface_Stats_BytesSent n w i m st)
  else if strcaseeq pSetting "Stats.BytesReceived" then Some (get_Device_Ethernet_Interface_Stats_BytesReceived n w i m st)
  else if strcaseeq pSetting "Stats.PacketsSent" then Some (get_Device_Ethernet_Interface_Stats_PacketsSent n w i m st)
  else if strcaseeq pSetting "Stats.PacketsReceived" then Some (get_Device_Ethernet_Interface_Stats_PacketsReceived n w i m st)
  else if strcaseeq pSetting "Stats.ErrorsSent" then Some (get_Device_Ethernet_Interface_Stats_ErrorsSent n w i m st)
  else if strcaseeq pSetting "Stats.ErrorsReceived" then Some (get_Device_Ethernet_Interface_Stats_ErrorsReceived n w i m st)
  else if strcaseeq pSetting "Stats.UnicastPacketsSent" then Some (get_Device_Ethernet_Interface_Stats_UnicastPacketsSent n w i m st)
  else if strcaseeq pSetting "Stats.UnicastPacketsReceived" then Some (get_Device_Ethernet_Interface_Stats_UnicastPacketsReceived n w i m st)
  else if strcaseeq pSetting "Stats.DiscardPacketsSent" then Some (get_Device_Ethernet_Interface_Stats_DiscardPacketsSent n w i m st)
  else if strcaseeq pSetting "Stats.DiscardPacketsReceived" then Some (get_Device_Ethernet_Interface_Stats_DiscardPacketsReceived n w i m st)
  else if strcaseeq pSetting "Stats.MulticastPacketsSent" then Some (get_Device_Ethernet_Interface_Stats_MulticastPacketsSent n w i m st)
  else if strcaseeq pSetting "Stats.MulticastPacketsReceived" then Some (get_Device_Ethernet_Interface_Stats_MulticastPacketsReceived n w i m st)
  else if strcaseeq pSetting "Stats.BroadcastPacketsSent" then Some (get_Device_Ethernet_Interface_Stats_BroadcastPacketsSent n w i m st)
  else if strcaseeq pSetting "Stats.BroadcastPacketsReceived" then Some (get_Device_Ethernet_Interface_Stats_BroadcastPacketsReceived n w i m st)
  else if strcaseeq pSetting "Stats.UnknownProtoPacketsReceived" then Some (get_Device_Ethernet_Interface_Stats_UnknownProtoPacketsReceived n w i m st)
  else None.

Definition handleGetMsg (m : HOSTIF_MsgData_t) (s : state) : Z * HOSTIF_MsgData_t * state :=
  if strcaseeq (paramName m) "Device.Ethernet.InterfaceNumberOfEntries" then
    let '(ret, m') := get_Device_Ethernet_InterfaceNumberOfEntries n m in (ret, m', s)
  else match Utils.matchComponent (paramName m) "Device.Ethernet.Interface" with
  | None => (NOT_HANDLED, m, s)
  | Some (pSetting, instanceNumber) =>
      if instanceNumber =? 0 then (NOK, m, s)
      else
        let '(ret, msgData) := get_Device_Ethernet_InterfaceNumberOfEntries n zero_msg in
        if negb (ret =? OK) then (NOK, m, s)
        else if get_int (paramValue msgData) <? instanceNumber then (NOK, m, s)
        else
          let m1 := set_instance m instanceNumber in
          let s1 := with_instance s instanceNumber in
          match get_interface instanceNumber pSetting m1 with
          | Some (ret, m2) => (ret, m2, s1)
          | None =>
              match get_stats instanceNumber pSetting m1 (stEthInterfaceStats s1) with
              | Some (ret, m2, st) => (ret, m2, with_stats s1 st)
              | None => (NOK, set_fault m1 fcInvalidParameterName, s1)
              end
          end
  end.

(** ** Attributes, of instance 0 *)
Definition handleGetAttributesMsg (m : HOSTIF_MsgData_t) (s : state) : option (Z * HOSTIF_MsgData_t * state) :=
  let s1 := with_instance s 0 in
  match made (m_notifyHash s1) with
  | table_of l =>
      v ← get_attribute str_hash l (paramName m);
      Some (OK, set_paramtype (set_value (set_instance m 0) (put_int (paramValue m) v)) hostIf_IntegerType,
            with_notify s1 (table_of l))
  | _ => None
  end.

Definition handleSetAttributesMsg (m : HOSTIF_MsgData_t) (s : state) : option (Z * HOSTIF_MsgData_t * state) :=
  let s1 := with_instance s 0 in
  match made (m_notifyHash s1) with
  | table_of l => l' ← set_attribute str_hash true l (paramName m); Some (OK, set_instance m 0, with_notify s1 (table_of l'))
  | _ => None
  end.

(** ** A round of updates *)
Definition checkForUpdates (s : state) : list Updates.event * state :=
  let '(ret, msgData) := get_Device_Ethernet_InterfaceNumberOfEntries n zero_msg in
  if ret =? OK then
    let tmpNoDev := get_int (paramValue msgData) in
    let evs := Updates.count_changes "Device.Ethernet.Interface" (curNumOfDevices s) tmpNoDev in
    (if mUpdateCallback s then evs else [], with_count s tmpNoDev)
  else ([], s).
End manager.

(** ** The numbering *)

(** The Ethernet interfaces, in the order of the system. *)
Definition ethernets (l : list (Z * string)) : list string := filter (λ name, is_ethernet name) l.*2.

Lemma nth_ethernet_lookup l c i :
  c < i → nth_ethernet l c i = ethernets l !! Z.to_nat (i - c - 1).
Proof.
  revert c. induction l as [|[j d] l IH]; intros c Hc; [done|]. unfold ethernets. cbn [nth_ethernet fmap list_fmap snd].
  rewrite filter_cons. destruct (is_ethernet d).
  - rewrite decide_True by done. destruct (Z.eqb_spec (c + 1) i) as [<-|Hne].
    + replace (c + 1 - c - 1) with 0 by lia. done.
    + rewrite IH by lia. replace (Z.to_nat (i - c - 1)) with (S (Z.to_nat (i - (c + 1) - 1))) by lia. done.
  - rewrite decide_False by (by intros []). by apply IH.
Qed.

Lemma number_of_ethernets (l : list (Z * string)) : length (filter (λ d, is_ethernet d.2) l) = length (ethernets l).
Proof.
  induction l as [|[j d] l IH]; [done|]. unfold ethernets. cbn [fmap list_fmap snd]. rewrite !filter_cons. cbn [snd].
  destruct (is_ethernet d); [rewrite !decide_True by done; cbn [length]; by f_equal|by rewrite !decide_False by (by intros [])].
Qed.

Definition interface_param (i : Z) (setting : string) : string :=
  "Device.Ethernet.Interface" +:+ String DOT (dec i +:+ String DOT setting).

(** An interface that exists: the [i]-th. *)
Record exists_at (n : net) (i : Z) (d : string) : Prop := mkAt {
  at_index : nameindex_ok n = true;
  at_range : 1 <= i < 10 ^ 9;
  at_count : Z.of_nat (length (ethernets (devices n))) < 2 ^ 31;
  at_name : ethernets (devices n) !! Z.to_nat (i - 1) = Some d;
  at_fits : has_char NUL d = false ∧ (String.length d < 16)%nat
}.

Section existing.
Context (n : net) (w : env) (i : Z) (d : string) (Hat : exists_at n i d).

Lemma at_uint : uint32 i = i.
Proof. pose proof (at_range _ _ _ Hat). apply Z.mod_small. lia. Qed.

Lemma at_lookup : getEthernetInterfaceName n (uint32 i) = Some d.
Proof.
  pose proof (at_range _ _ _ Hat). unfold getEthernetInterfaceName, phy_if_list.
  rewrite (at_index _ _ _ Hat), at_uint. cbn [mbind option_bind]. rewrite nth_ethernet_lookup by lia.
  rewrite Z.sub_0_r. apply Hat.
Qed.

Lemma at_field file : field_text n w i file = readEthernetInterfaceFile w (sys_file d file).
Proof.
  unfold field_text. rewrite at_lookup, at_uint. pose proof (at_range _ _ _ Hat).
  by rewrite (proj2 (Z.eqb_neq _ _)) by lia.
Qed.

Lemma at_ifname : ifname n i = d.
Proof.
  unfold ifname. rewrite at_lookup, at_uint. pose proof (at_range _ _ _ Hat).
  by rewrite (proj2 (Z.eqb_neq _ _)) by lia.
Qed.

Lemma stats_name : buf_str (paramValue (snd (get_Device_Ethernet_Interface_Name n i zero_msg))) = d.
Proof.
  cbn [get_Device_Ethernet_Interface_Name snd]. rewrite at_ifname. destruct (at_fits _ _ _ Hat) as [Hn Hl].
  change (buf_str (paramValue (answer_str 16 zero_msg (str_take 15 d))) = d).
  rewrite str_take_all by lia. by apply answer_str_value.
Qed.

Lemma existing_get setting m s :
  paramName m = interface_param i setting →
  handleGetMsg n w m s
  = let m1 := set_instance m i in
    let s1 := with_instance s i in
    match get_interface n w i setting m1 with
    | Some (ret, m2) => (ret, m2, s1)
    | None =>
        match get_stats n w i setting m1 (stEthInterfaceStats s1) with
        | Some (ret, m2, st) => (ret, m2, with_stats s1 st)
        | None => (NOK, set_fault m1 fcInvalidParameterName, s1)
        end
    end.
Proof.
  intros Hp. pose proof (at_range _ _ _ Hat). unfold handleGetMsg. rewrite Hp.
  change (strcaseeq _ "Device.Ethernet.InterfaceNumberOfEntries") with false. cbv iota. unfold interface_param.
  rewrite Utils.match_component_name by lia. rewrite (proj2 (Z.eqb_neq _ _)) by lia.
  unfold get_Device_Ethernet_InterfaceNumberOfEntries, phy_if_list. rewrite (at_index _ _ _ Hat).
  change (negb (OK =? OK)) with false. cbv iota. rewrite answer_int_value, number_of_ethernets, int32_id by (pose proof (at_count _ _ _ Hat); lia).
  pose proof (lookup_lt_Some _ _ _ (at_name _ _ _ Hat)). by rewrite (proj2 (Z.ltb_ge _ _)) by lia.
Qed.
End existing.

(** What a text file of one line holds. *)
Lemma one_line w path l :
  read_file w path = Some (with_nl l) → has_char NL l = false → has_char NUL l = false →
  readEthernetInterfaceFile w path = Some l.
Proof.
  intros Hr Hl Hn. unfold readEthernetInterfaceFile. rewrite Hr. cbn [mbind option_bind]. unfold with_nl.
  rewrite getlines_line by done. cbn [head default from_option id]. by rewrite c_str_no_nul.
Qed.

(** The parameters of an Ethernet interface: the [i]-th interface of the system
    whose name begins with eth answers with its name, whether it has a carrier, its
    address and its speed as its files give them; beyond the last one a get is refused. *)
Theorem ethernet_answers n w i d m s carrier address speed :
  exists_at n i d →
  read_file w (sys_file d "carrier") = Some (with_nl (dec (if carrier : bool then 1 else 0))) →
  read_file w (sys_file d "address") = Some (with_nl address) →
  has_char NL address = false → has_char NUL address = false → (String.length address ≤ 23)%nat →
  read_file w (sys_file d "speed") = Some (with_nl (dec speed)) → - 2 ^ 31 <= speed < 2 ^ 31 →
  let answers setting (Q : list ascii → Prop) :=
    paramName m = interface_param i setting →
    ∃ m', handleGetMsg n w m s = (OK, m', with_instance s i) ∧ Q (paramValue m') in
  answers "Name"%string (λ v, buf_str v = d)
  ∧ answers "Enable"%string (λ v, get_boolean v = carrier)
  ∧ answers "Status"%string (λ v, buf_str v = if carrier then "Up" else "Down")%string
  ∧ answers "MACAddress"%string (λ v, buf_str v = address)
  ∧ answers "MaxBitRate"%string (λ v, get_int v = speed).
Proof.
  intros Hat Hc Ha Hnl Hnul Hlen Hsp Hr answers.
  assert (∀ z, has_char NL (dec z) = false) as Hdn by (intros z; by apply dec_no_char).
  assert (field_text n w i "carrier" = Some (dec (if carrier then 1 else 0))) as Fc
    by (rewrite (at_field n w i d Hat); apply one_line; [done|done|apply dec_no_nul]).
  assert (field_text n w i "address" = Some address) as Fa by (rewrite (at_field n w i d Hat); by apply one_line).
  assert (field_text n w i "speed" = Some (dec speed)) as Fs
    by (rewrite (at_field n w i d Hat); apply one_line; [done|done|apply dec_no_nul]).
  destruct (at_fits _ _ _ Hat) as [Hdnul Hdl].
  split_and!; intros Hp; rewrite (existing_get n w i d Hat _ m s Hp); (eexists; split; [reflexivity|]); cbn [snd].
  - change (buf_str (paramValue (answer_str 16 (set_instance m i) (str_take 15 (ifname n i)))) = d).
    rewrite (at_ifname n i d Hat), str_take_all by lia. by apply answer_str_value.
  - cbn [paramValue set_len set_paramtype set_value]. rewrite get_put_boolean. unfold enable. rewrite Fc.
    rewrite string_to_int_dec by (destruct carrier; lia). by destruct carrier.
  - unfold status. rewrite Fc, string_to_int_dec by (destruct carrier; lia).
    destruct carrier; apply answer_str_value; (reflexivity || (apply Nat.ltb_lt; reflexivity)).
  - unfold mACAddress. rewrite Fa, str_take_all by lia. apply answer_str_value; [done|lia].
  - rewrite answer_int_value. unfold maxBitRate. rewrite Fs, string_to_int_dec by lia. apply int32_id. lia.
Qed.

(** Beyond the last interface. *)
Theorem no_such_ethernet n w i setting m s :
  nameindex_ok n = true → 0 <= i < 10 ^ 9 → Z.of_nat (length (ethernets (devices n))) < 2 ^ 31 →
  i = 0 ∨ Z.of_nat (length (ethernets (devices n))) < i → paramName m = interface_param i setting →
  handleGetMsg n w m s = (NOK, m, s).
Proof.
  intros Hn Hi Hc Hout Hp. unfold handleGetMsg. rewrite Hp.
  change (strcaseeq _ "Device.Ethernet.InterfaceNumberOfEntries") with false. cbv iota. unfold interface_param.
  rewrite Utils.match_component_name by lia. destruct (Z.eqb_spec i 0); [done|].
  unfold get_Device_Ethernet_InterfaceNumberOfEntries, phy_if_list. rewrite Hn.
  change (negb (OK =? OK)) with false. cbv iota. rewrite answer_int_value, number_of_ethernets, int32_id by lia.
  by rewrite (proj2 (Z.ltb_lt _ _)) by lia.
Qed.

(** ** The counters *)

(** The only members that are read from a file of the system. *)
Definition counted (k : EEthInterfaceStatsMembers) : bool :=
  match k with eBytesSent | eBytesReceived => true | _ => false end.

(** No file has a name that begins with the name of the command. *)
Definition no_cat (w : env) : Prop := ∀ path, starts_with "cat " path = true → read_file w path = None.

Definition frozen (st : stats) : Prop := ∀ k, counted k = false → st k = 0.

Lemma read_frozen n w i k st : no_cat w → frozen st → frozen (read_Device_Ethernet_Interface_Stats_Fields n w i k st).
Proof.
  intros Hw Hst j Hj. unfold read_Device_Ethernet_Interface_Stats_Fields, readStatFile.
  destruct k; cbn [source]; unfold cat_file; try (rewrite (Hw _ (starts_with_app "cat " _)); by apply Hst);
    (destruct (read_file w _); [|by apply Hst]); cbn [mbind option_bind]; unfold store;
    rewrite decide_False by (intros Hin; apply list_elem_of_singleton in Hin; by subst); by apply Hst.
Qed.

Lemma get_stats_frozen n w i setting m st r :
  no_cat w → frozen st → get_stats n w i setting m st = Some r → frozen r.2.
Proof.
  intros Hw Hst. unfold get_stats.
  repeat (case_bool; [intros [= <-]; by apply read_frozen|]). done.
Qed.

(** What the manager can be asked to do, as the files and the network change. *)
Inductive reached : state → Prop :=
  | reached_initial : reached initial
  | reached_get n w m s : no_cat w → reached s → reached (handleGetMsg n w m s).2
  | reached_set run m s ret m' s' rs : reached s → handleSetMsg run m s = Some (ret, m', s', rs) → reached s'
  | reached_attribute str_hash m s ret m' s' : reached s → handleSetAttributesMsg str_hash m s = Some (ret, m', s') → reached s'
  | reached_read_attribute str_hash m s ret m' s' : reached s → handleGetAttributesMsg str_hash m s = Some (ret, m', s') → reached s'
  | reached_round n s : reached s → reached (checkForUpdates n s).2
  | reached_reset s : reached s → reached (reset s)
  | reached_callback cb s : reached s → reached (registerUpdateCallback cb s)
  | reached_end s s' : reached s → unInit s = Some s' → reached s'.

Lemma get_frozen n w m s :
  no_cat w → frozen (stEthInterfaceStats s) → frozen (stEthInterfaceStats (handleGetMsg n w m s).2).
Proof.
  intros Hw Hst. unfold handleGetMsg. case_bool; [by destruct (get_Device_Ethernet_InterfaceNumberOfEntries n m)|].
  destruct (Utils.matchComponent _ _) as [[setting i]|]; [|done]. case_bool; [done|].
  destruct (get_Device_Ethernet_InterfaceNumberOfEntries n zero_msg) as [ret msgData].
  case_bool; [done|]. case_bool; [done|]. destruct (get_interface _ _ _ _ _) as [[ret' m2]|]; [done|].
  destruct (get_stats _ _ _ _ _ _) as [[[ret' m2] st]|] eqn:E; [|done].
  cbn [snd stEthInterfaceStats with_stats]. exact (get_stats_frozen _ _ _ _ _ _ _ Hw Hst E).
Qed.

Lemma reached_frozen s : reached s → frozen (stEthInterfaceStats s).
Proof.
  induction 1 as [|n w m s Hw _ IH|run m s ret m' s' rs _ IH E|str_hash m s ret m' s' _ IH E|str_hash m s ret m' s' _ IH E
                  |n s _ IH|s _ IH|cb s _ IH|s s' _ IH E].
  - done.
  - by apply get_frozen.
  - unfold handleSetMsg in E. destruct (Utils.matchComponent _ _) as [[setting i]|]; [|done]. cbn [mbind option_bind] in E.
    match type of E with match ?x with _ => _ end = _ => destruct x as [[ret2 m2] rs2] end. by injection E as <- <- <- <-.
  - unfold handleSetAttributesMsg in E. destruct (made _); [done| |done].
    destruct (set_attribute _ _ _ _); [|done]. by injection E as <- <- <-.
  - unfold handleGetAttributesMsg in E. destruct (made _); [done| |done].
    destruct (get_attribute _ _ _); [|done]. by injection E as <- <- <-.
  - unfold checkForUpdates. destruct (get_Device_Ethernet_InterfaceNumberOfEntries n zero_msg) as [ret msgData].
    by case_bool.
  - done.
  - done.
  - unfold unInit in E. destruct (Nat.iter _ _ _); [|done]. by injection E as <-.
Qed.

(** The settings whose getters read a path that is a command. *)
Definition cat_settings : list string :=
  ["Stats.PacketsSent"; "Stats.PacketsReceived"; "Stats.ErrorsSent"; "Stats.ErrorsReceived"; "Stats.UnicastPacketsSent";
   "Stats.UnicastPacketsReceived"; "Stats.DiscardPacketsSent"; "Stats.DiscardPacketsReceived"; "Stats.MulticastPacketsSent";
   "Stats.MulticastPacketsReceived"; "Stats.BroadcastPacketsSent"; "Stats.BroadcastPacketsReceived";
   "Stats.UnknownProtoPacketsReceived"]%string.

Lemma cat_setting setting :
  setting ∈ cat_settings →
  ∃ k t, counted k = false ∧ ∀ n w i m st,
    get_interface n w i setting m = None ∧ get_stats n w i setting m st = Some (get_stat n w i k t m st).
Proof.
  unfold cat_settings. rewrite !elem_of_cons. intros Hin.
  repeat (destruct Hin as [->|Hin]; [do 2 eexists; split; cycle 1; [intros; split; reflexivity|reflexivity]|]).
  by apply not_elem_of_nil in Hin.
Qed.

(** C23. Only the bytes are counted: whatever was asked before, every other counter of
    every Ethernet interface is answered as 0, since its path is that of the file with
    a command in front. *)
Theorem counters_stay_zero s n w i d setting m :
  reached s → no_cat w → exists_at n i d → setting ∈ cat_settings → paramName m = interface_param i setting →
  ∃ m' s', handleGetMsg n w m s = (OK, m', s') ∧ get_int (paramValue m') = 0.
Proof.
  intros Hs%reached_frozen Hw Hat (k & t & Hk & Hget)%cat_setting Hp. rewrite (existing_get n w i d Hat _ m s Hp).
  cbv zeta. destruct (Hget n w i (set_instance m i) (stEthInterfaceStats (with_instance s i))) as [-> ->].
  do 2 eexists. split; [reflexivity|]. rewrite answer_int_value. exact (f_equal int32 (read_frozen n w i k _ Hw Hs k Hk)).
Qed.

(** The bytes are answered as their file gives them, modulo 2^32. *)
Theorem bytes_counted n w i d (sent : bool) z m s :
  exists_at n i d →
  read_file w (stat_file d (if sent then "tx_bytes" else "rx_bytes")) = Some (with_nl (dec z)) → 0 <= z < 2 ^ 64 →
  paramName m = interface_param i (if sent then "Stats.BytesSent" else "Stats.BytesReceived") →
  ∃ m' s', handleGetMsg n w m s = (OK, m', s') ∧ get_int (paramValue m') = int32 z.
Proof.
  intros Hat Hr Hz Hp. rewrite (existing_get n w i d Hat _ m s Hp).
  assert (∀ st m1, answer_int hostIf_UnsignedLongType 4 m1 (read_Device_Ethernet_Interface_Stats_Fields n w i
            (if sent then eBytesSent else eBytesReceived) st (if sent then eBytesSent else eBytesReceived))
          = answer_int hostIf_UnsignedLongType 4 m1 z) as Hv.
  { intros st m1. unfold read_Device_Ethernet_Interface_Stats_Fields. rewrite (stats_name n i d Hat). unfold readStatFile.
    assert (getlines (with_nl (dec z)) = [dec z]) as Hl by (unfold with_nl; by rewrite getlines_line by by apply dec_no_char).
    assert (uint64 (string_to_ulong (c_str (dec z))) = z) as Hu
      by (rewrite c_str_dec, string_to_ulong_dec by lia; apply Z.mod_small; lia).
    destruct sent; cbn [source in_place]; rewrite Hr; cbn [mbind option_bind]; rewrite Hl; cbn [foldl];
      rewrite Hu; unfold store; by rewrite decide_True by left. }
  exists (answer_int hostIf_UnsignedLongType 4 (set_instance m i) z). cbv zeta.
  pose proof (Hv (stEthInterfaceStats s) (set_instance m i)) as E. destruct sent; rewrite <- E;
    (eexists; split; [reflexivity|]); rewrite E; apply answer_int_value.
Qed.

(** ** Sets *)

(** Whichever interface is addressed, a set of Enable and a set of MaxBitRate run the
    same command, for an interface that does not exist, and are answered OK when it can
    be started at all. *)
Theorem ethernet_set_misdirected run i setting m s :
  0 <= i < 10 ^ 9 → setting ∈ ["Enable"; "MaxBitRate"]%string → paramName m = interface_param i setting →
  let cmd := ["ifconfig"; "eth-1"; if get_boolean (paramValue m) then "up" else "down"]%string in
  handleSetMsg run m s = Some (if run cmd <? 0 then NOK else OK, set_instance m i, with_instance s i, [Command cmd]).
Proof.
  intros Hi Hin Hp cmd. unfold handleSetMsg. rewrite Hp. unfold interface_param. rewrite Utils.match_component_name by lia.
  cbn [mbind option_bind]. rewrite !elem_of_cons in Hin. by destruct Hin as [->|[->|[]%not_elem_of_nil]].
Qed.

(** *** Two interfaces *)
Definition eth_net : net :=
  mkNet [(1, "lo"%string); (2, "eth0"%string); (3, "wlan0"%string); (4, "eth1"%string)] true None (λ _, true) (streq "lo") (λ _, 1500).

Definition eth_env : env :=
  foldr (λ kv w, put_file w kv.1 (with_nl kv.2)) (mkEnv ∅ ∅ true ∅ EmptyString 0)
    [(sys_file "eth1" "carrier", "1"); (sys_file "eth1" "address", "00:11:22:33:44:55"); (sys_file "eth1" "speed", "1000");
     (stat_file "eth1" "tx_bytes", "4294967297"); (stat_file "eth1" "tx_packets", "77")]%string.

Lemma eth1_at : exists_at eth_net 2 "eth1".
Proof. constructor; [reflexivity|lia|reflexivity|reflexivity|]. split; [reflexivity|apply Nat.ltb_lt; reflexivity]. Qed.

Definition eth_request (name : string) : HOSTIF_MsgData_t := Webpa.mk_request name hostIf_StringType zero_msg.

Lemma ethernet_answers_witness :
  ∃ m', handleGetMsg eth_net eth_env (eth_request "Device.Ethernet.Interface.2.Status") initial
        = (OK, m', with_instance initial 2) ∧ buf_str (paramValue m') = "Up"%string.
Proof.
  refine (proj1 (proj2 (proj2 (ethernet_answers eth_net eth_env 2 "eth1" (eth_request "Device.Ethernet.Interface.2.Status") initial
    true "00:11:22:33:44:55" 1000 eth1_at eq_refl eq_refl eq_refl eq_refl _ eq_refl _))) eq_refl).
  - apply Nat.leb_le. reflexivity.
  - lia.
Defined.

Lemma no_cat_env : no_cat eth_env.
Proof.
  intros path Hp. unfold eth_env. cbn [foldr fst snd]. rewrite !read_put_file_ne by (intros E; subst path; discriminate Hp). done.
Qed.

(** The interface has sent 77 packets. *)
Lemma counters_stay_zero_witness :
  (∃ m' s', handleGetMsg eth_net eth_env (eth_request "Device.Ethernet.Interface.2.Stats.PacketsSent") initial = (OK, m', s')
     ∧ get_int (paramValue m') = 0)
  ∧ read_file eth_env (stat_file "eth1" "tx_packets") = Some (with_nl "77").
Proof.
  split; [|reflexivity].
  apply (counters_stay_zero initial eth_net eth_env 2 "eth1" "Stats.PacketsSent"
           (eth_request "Device.Ethernet.Interface.2.Stats.PacketsSent"));
    [constructor|exact no_cat_env|exact eth1_at|in_list|reflexivity].
Defined.

(** 4294967297 bytes are 1 modulo 2^32. *)
Lemma bytes_counted_witness :
  ∃ m' s', handleGetMsg eth_net eth_env (eth_request "Device.Ethernet.Interface.2.Stats.BytesSent") initial = (OK, m', s')
    ∧ get_int (paramValue m') = 1.
Proof.
  apply (bytes_counted eth_net eth_env 2 "eth1" true 4294967297 (eth_request "Device.Ethernet.Interface.2.Stats.BytesSent") initial eth1_at);
    [reflexivity|lia|reflexivity].
Defined.

(** eth0 has no file: its bytes are those that were read for eth1. *)
Example other_interface_bytes :
  let get p s := handleGetMsg eth_net eth_env (eth_request p) s in
  let s := (get "Device.Ethernet.Interface.2.Stats.BytesSent"%string initial).2 in
  let '(ret, m, _) := get "Device.Ethernet.Interface.1.Stats.BytesSent"%string s in
  ret = OK ∧ get_int (paramValue m) = 1 ∧ read_file eth_env (stat_file "eth0" "tx_bytes") = None.
Proof. vm_compute. done. Qed.

Lemma no_such_ethernet_witness :
  handleGetMsg eth_net eth_env (eth_request "Device.Ethernet.Interface.3.Status") initial
  = (NOK, eth_request "Device.Ethernet.Interface.3.Status", initial).
Proof.
  apply (no_such_ethernet eth_net eth_env 3 "Status"); [reflexivity|lia|reflexivity|right; reflexivity|reflexivity].
Defined.

(** The second interface's rate is set. *)
Lemma ethernet_set_misdirected_witness :
  let m := eth_request "Device.Ethernet.Interface.2.MaxBitRate" in
  handleSetMsg (λ _, 256) m initial
  = Some (OK, set_instance m 2, with_instance initial 2, [Command ["ifconfig"; "eth-1"; "down"]%string]).
Proof.
  apply (ethernet_set_misdirected (λ _, 256) 2 "MaxBitRate" (eth_request "Device.Ethernet.Interface.2.MaxBitRate") initial);
    [lia|in_list|reflexivity].
Defined.

End EthernetClientReqHandler.
