(* ===== verification/MoCA.v ===== *)
(** * The MoCA interface

    [Rmh] is what the library of the MoCA chip answers and how the daemon gets a
    handle of it.  [MoCAInterface], [MoCAInterfaceStats], [MoCAInterfaceAssociatedDevice]
    and [MeshTable] model profiles/moca: the parameters of the one interface, its
    counters, the devices of its network and the table of the links between them. *)
From stdpp Require Import base list strings gmap.
From Stdlib Require Import Ascii ZArith Lia.
From S2P Require Import Prelude HostIf FileStore Webpa ProfileIO Utils Notify Network IPAddress IPProfile.
Import ProfileIO NotifyHash.

#[local] Arguments streq : simpl never.

(** ** The library *)
Module Rmh.

Inductive RMH_LinkStatus : Type :=
  | RMH_LINK_STATUS_DISABLED | RMH_LINK_STATUS_NO_LINK | RMH_LINK_STATUS_INTERFACE_DOWN | RMH_LINK_STATUS_UP
  | other_status.

(** The nodes that are present, by their number, and a number for each two. *)
Record RMH_NodeMesh := mkMesh { nodePresent : list bool; nodeValue : nat → nat → Z }.

(** What the settings of the chip are set to. *)
Inductive call : Type :=
  | RMH_Self_SetEnabled (b : bool) | RMH_Self_SetPreferredNCEnabled (b : bool) | RMH_Self_SetPrivacyEnabled (b : bool)
  | RMH_Self_SetFrequencyMask (z : Z) | RMH_Self_SetPrivacyPassword (s : string) | RMH_Self_SetTxPowerLimit (z : Z)
  | RMH_Self_SetPrimaryChannelTargetPhyRate (z : Z) | RMH_Power_SetTxBeaconPowerReduction (z : Z).

(** What the functions of the library answer under a handle, by their names and kinds;
    [None]: not RMH_SUCCESS.  A number with a fraction stands without it. *)
Record RMH := mkRmh {
  uint32_of : string → option Z;
  bool_of : string → option bool;
  string_of : string → option string;
  nodes_of : string → option (list bool);
  mesh_of : string → option RMH_NodeMesh;
  RMH_Self_GetLinkStatus : option RMH_LinkStatus;
  RMH_Self_GetSupportedFrequencies : option (list Z);
  RMH_MoCAVersionToString : Z → string;
  RMH_RemoteNode_GetNodeIdFromAssociatedId : Z → option Z;
  remote_uint32_of : string → Z → option Z;
  remote_int_of : string → Z → option Z;
  remote_bool_of : string → Z → option bool;
  RMH_RemoteNode_GetMac : Z → option string;
  set_result : call → bool
}.

Definition MAX_WAIT_FOR_RMH_SECONDS : nat := 10.

(** The handle that [getRmhContext] keeps: none, one, or one that was destroyed and is
    still kept. *)
Inductive rmhContext : Type := no_context | open_context | destroyed_context.

(** The loop after [waitedSeconds] pauses; [RMH_Initialize i]: what the i-th attempt
    gives. *)
Fixpoint initialize (fuel : nat) (RMH_Initialize : nat → option RMH) (waitedSeconds : nat) : option RMH * nat :=
  match RMH_Initialize waitedSeconds, fuel with
  | Some r, _ => (Some r, waitedSeconds)
  | None, S fuel' => initialize fuel' RMH_Initialize (S waitedSeconds)
  | None, O => (None, waitedSeconds)
  end.

(** The handle, the seconds waited and what is kept.  A handle is always made anew, and
    the one before destroyed; [None]: one is destroyed twice. *)
Definition getRmhContext (RMH_Initialize : nat → option RMH) (c : rmhContext) : option (option RMH * nat * rmhContext) :=
  match c with
  | destroyed_context => None
  | _ =>
      let '(h, waited) := initialize MAX_WAIT_FOR_RMH_SECONDS RMH_Initialize 0 in
      Some (h, waited, match h with Some _ => open_context | None => no_context end)
  end.

Definition closeRmhContext (RMH_Initialize : nat → option RMH) (c : rmhContext) : option rmhContext :=
  '(_, _, c') ← getRmhContext RMH_Initialize c;
  Some match c' with open_context => destroyed_context | c' => c' end.

End Rmh.
Import Rmh.

Module MoCAInterface.

Definition MOCA_INTERFACE_NUMBER_OF_ENTRIES : Z := 1.
Definition HIGHEST_MOCA_VERSION : Z := 32.
Definition N_LENGTH : nat := 64.

(** The members of the object that something reads. *)
Record t := mk { m_bEnable : bool; m_HighestVersion : Z; m_i8Alias : string }.
Definition new : t := mk false 0 EmptyString.

(** ** Idioms of the getters *)
Definition typed (ty : HostIf_ParamType_t) (len : Z) (m : HOSTIF_MsgData_t) : HOSTIF_MsgData_t :=
  set_len (set_paramtype m ty) len.
(** [snprintf(paramValue, size, "%s", s)] *)
Definition snprintf_s (size : nat) (m : HOSTIF_MsgData_t) (s : string) : HOSTIF_MsgData_t :=
  set_value m (poke (paramValue m) (String.list_ascii_of_string (str_take (size - 1) (c_str s)) ++ [NUL])).
Definition value_len (m : HOSTIF_MsgData_t) : HOSTIF_MsgData_t :=
  set_len m (Z.of_nat (String.length (buf_str (paramValue m)))).
Definition put_text (m : HOSTIF_MsgData_t) (s : string) : HOSTIF_MsgData_t :=
  snprintf_s (TR69HOSTIFMGR_MAX_PARAM_LEN - 1) m s.
Definition put_number (m : HOSTIF_MsgData_t) (z : Z) : HOSTIF_MsgData_t := set_value m (put_int (paramValue m) z).
Definition put_bool (m : HOSTIF_MsgData_t) (b : bool) : HOSTIF_MsgData_t := set_value m (put_boolean (paramValue m) b).
Definition cleared (m : HOSTIF_MsgData_t) : HOSTIF_MsgData_t := set_value m zero_buffer.

(** A result of the library put into the message, or an error. *)
Definition answer_of {A} (q : option A) (m : HOSTIF_MsgData_t) (put : A → HOSTIF_MsgData_t) : Z * HOSTIF_MsgData_t :=
  match q with Some a => (OK, put a) | None => (NOK, m) end.

(** [%02X] and [0x%08x] *)
Definition hex02 (z : Z) : string := IPActivePort.hex_text (Nat.max 2 (Z.to_nat (Z.log2 (uint32 z) / 4 + 1))) (uint32 z).
Definition hex08 (z : Z) : string := "0x" +:+ lower (IPActivePort.hex_text 8 (uint32 z)).

(** [h]: what [getRmhContext] gives. *)
Section getters.
Context (h : option RMH).

(** A getter whose result without a handle is [none]. *)
Definition query (none : Z) (m : HOSTIF_MsgData_t) (ask : RMH → Z * HOSTIF_MsgData_t) : Z * HOSTIF_MsgData_t :=
  match h with Some r => ask r | None => (none, m) end.
Definition uint_query (none : Z) (ty : HostIf_ParamType_t) (f : string) (m : HOSTIF_MsgData_t) : Z * HOSTIF_MsgData_t :=
  let m1 := typed ty 4 m in query none m1 (λ r, answer_of (uint32_of r f) m1 (put_number m1)).
Definition bool_query (none len : Z) (f : string) (m : HOSTIF_MsgData_t) : Z * HOSTIF_MsgData_t :=
  let m1 := typed hostIf_BooleanType len m in query none m1 (λ r, answer_of (bool_of r f) m1 (put_bool m1)).

(** The nodes of a list that are present. *)
Definition count_present (l : list bool) : Z := Z.of_nat (length (filter Is_true l)).

(** The result and the number, which is not set without one. *)
Definition get_Associated_Device_NumberOfEntries : Z * option Z :=
  match (r ← h; nodes_of r "RMH_Network_GetAssociatedIds") with
  | Some l => if count_present l =? 0 then (NOK, None) else (OK, Some (count_present l))
  | None => (NOK, None)
  end.

Definition get_MoCA_Mesh_NumberOfEntries : Z * option Z :=
  match (r ← h; nodes_of r "RMH_Network_GetNodeIds") with
  | Some l =>
      let nodeCount := count_present l in
      if nodeCount =? 0 then (NOK, None) else (OK, Some (int32 (nodeCount ^ 2 - nodeCount)))
  | None => (NOK, None)
  end.

(** ** Getters *)
Definition get_InterfaceNumberOfEntries (m : HOSTIF_MsgData_t) : Z * HOSTIF_MsgData_t :=
  (OK, typed hostIf_IntegerType 4 (put_number m MOCA_INTERFACE_NUMBER_OF_ENTRIES)).

Definition get_Enable (x : t) (m : HOSTIF_MsgData_t) : Z * HOSTIF_MsgData_t * t :=
  let m1 := typed hostIf_BooleanType 1 m in
  match (r ← h; bool_of r "RMH_Self_GetEnabled") with
  | Some b => (OK, put_bool m1 b, mk b (m_HighestVersion x) (m_i8Alias x))
  | None => (OK, m1, x)
  end.

Definition status_text (status : RMH_LinkStatus) : string :=
  match status with
  | RMH_LINK_STATUS_DISABLED => "Disable"
  | RMH_LINK_STATUS_NO_LINK => "LowerLayerDown"
  | RMH_LINK_STATUS_INTERFACE_DOWN => "Down"
  | RMH_LINK_STATUS_UP => "Up"
  | other_status => "Dormant"
  end.

Definition get_Status (m : HOSTIF_MsgData_t) : Z * HOSTIF_MsgData_t :=
  let m1 := set_paramtype m hostIf_StringType in
  query OK m1 (λ r, answer_of (RMH_Self_GetLinkStatus r) m1 (λ s, value_len (put_text m1 (status_text s)))).

Definition get_Alias (x : t) (m : HOSTIF_MsgData_t) : Z * HOSTIF_MsgData_t :=
  (OK, value_len (snprintf_s (N_LENGTH - 1) m ("cpe-" +:+ m_i8Alias x))).

(** A failure leaves before the type is set. *)
Definition get_Name (m : HOSTIF_MsgData_t) : Z * HOSTIF_MsgData_t :=
  query OK (set_paramtype m hostIf_StringType)
    (λ r, answer_of (string_of r "RMH_Interface_GetName") m (λ s, set_paramtype (value_len (put_text m s)) hostIf_StringType)).

Definition get_LastChange := uint_query NOK hostIf_UnsignedIntType "RMH_Network_GetLinkUptime".
Definition get_LowerLayers (m : HOSTIF_MsgData_t) : Z * HOSTIF_MsgData_t := (OK, m).
Definition get_Upstream (x : t) (m : HOSTIF_MsgData_t) : Z * HOSTIF_MsgData_t :=
  (OK, typed hostIf_BooleanType 1 (put_bool m (m_bEnable x))).

(** A text of the library, the type set whatever it answers. *)
Definition text_query (f : string) (m : HOSTIF_MsgData_t) : Z * HOSTIF_MsgData_t :=
  let m1 := set_paramtype m hostIf_StringType in
  query NOK m1 (λ r, answer_of (string_of r f) m1 (λ s, value_len (put_text m1 s))).
Definition get_MACAddress := text_query "RMH_Interface_GetMac".
Definition get_FirmwareVersion := text_query "RMH_Self_GetSoftwareVersion".

Definition get_MaxBitRate := uint_query NOK hostIf_UnsignedIntType "RMH_Self_GetMaxBitrate".
Definition get_MaxIngressBW := uint_query NOK hostIf_UnsignedIntType "RMH_PQOS_GetMaxIngressFlows".
Definition get_MaxEgressBW := uint_query NOK hostIf_UnsignedIntType "RMH_PQoS_GetMaxEgressBandwidth".

Definition get_HighestVersion (x : t) (m : HOSTIF_MsgData_t) : Z * HOSTIF_MsgData_t * t :=
  let m1 := set_paramtype m hostIf_StringType in
  match (r ← h; v ← uint32_of r "RMH_Self_GetHighestSupportedMoCAVersion"; Some (r, v)) with
  | Some (r, v) => (OK, value_len (put_text m1 (RMH_MoCAVersionToString r v)), mk (m_bEnable x) v (m_i8Alias x))
  | None => (NOK, m1, x)
  end.
Definition get_CurrentVersion (m : HOSTIF_MsgData_t) : Z * HOSTIF_MsgData_t :=
  let m1 := set_paramtype m hostIf_StringType in
  query NOK m1 (λ r, answer_of (uint32_of r "RMH_Network_GetMoCAVersion") m1
                       (λ v, value_len (put_text m1 (RMH_MoCAVersionToString r v)))).

Definition get_NetworkCoordinator := uint_query NOK hostIf_UnsignedIntType "RMH_Network_GetNCNodeId".
Definition get_NodeID := uint_query NOK hostIf_UnsignedIntType "RMH_Network_GetNodeId".
Definition get_MaxNodes (x : t) (m : HOSTIF_MsgData_t) : Z * HOSTIF_MsgData_t :=
  (OK, typed hostIf_BooleanType 1 (put_bool m (m_HighestVersion x =? HIGHEST_MOCA_VERSION))).
Definition get_PreferredNC := bool_query OK 1 "RMH_Self_GetPreferredNCEnabled".
Definition get_BackupNC := uint_query OK hostIf_UnsignedIntType "RMH_Network_GetBackupNCNodeId".
Definition get_PrivacyEnabledSetting := bool_query OK 1 "RMH_Self_GetPrivacyEnabled".
Definition get_PrivacyEnabled := bool_query OK 1 "RMH_Self_GetPrivacyEnabled".

(** The pieces are printed one after the other; their room is not counted down.  [None]:
    the value is written past its end. *)
Definition frequencies_text (l : list Z) : string := "0x" +:+ foldr (λ z s, hex02 z +:+ s) EmptyString l.
Definition get_FreqCapabilityMask (m : HOSTIF_MsgData_t) : option (Z * HOSTIF_MsgData_t) :=
  let m1 := set_paramtype m hostIf_StringType in
  match h with
  | Some r =>
      match RMH_Self_GetSupportedFrequencies r with
      | Some l =>
          let text := frequencies_text l in
          if (TR69HOSTIFMGR_MAX_PARAM_LEN <=? String.length text)%nat then None
          else Some (OK, value_len (set_value m1 (poke (paramValue m1) (String.list_ascii_of_string text ++ [NUL]))))
      | None => Some (NOK, m1)
      end
  | None => Some (OK, m1)
  end.

Definition mask_query (f : string) (m : HOSTIF_MsgData_t) : Z * HOSTIF_MsgData_t :=
  let m1 := cleared (set_paramtype m hostIf_StringType) in
  let '(ret, m2) := query NOK m1 (λ r, answer_of (uint32_of r f) m1 (λ z, put_text m1 (hex08 z))) in (ret, value_len m2).
Definition get_FreqCurrentMaskSetting := mask_query "RMH_Self_GetFrequencyMask".
Definition get_FreqCurrentMask := mask_query "RMH_Self_GetFrequencyMask".

Definition get_CurrentOperFreq := uint_query NOK hostIf_IntegerType "RMH_Network_GetRFChannelFreq".
Definition get_LastOperFreq := uint_query NOK hostIf_IntegerType "RMH_Self_GetLOF".
Definition get_KeyPassphrase (m : HOSTIF_MsgData_t) : Z * HOSTIF_MsgData_t :=
  (OK, cleared (typed hostIf_StringType 0 m)).
Definition get_TxPowerLimit (m : HOSTIF_MsgData_t) : Z * HOSTIF_MsgData_t :=
  uint_query NOK hostIf_IntegerType "RMH_Self_GetTxPowerLimit" (cleared m).
Definition get_PowerCntlPhyTarget (m : HOSTIF_MsgData_t) : Z * HOSTIF_MsgData_t :=
  uint_query NOK hostIf_UnsignedIntType "RMH_Self_GetPrimaryChannelTargetPhyRate" (cleared m).
Definition get_BeaconPowerLimit := uint_query NOK hostIf_UnsignedIntType "RMH_Power_GetTxBeaconPowerReduction".

(** A mask of taboo channels. *)
Definition taboo_query (f : string) (m : HOSTIF_MsgData_t) : Z * HOSTIF_MsgData_t :=
  let m1 := set_paramtype m hostIf_StringType in
  query OK m1 (λ r, answer_of (uint32_of r f) m1 (λ mask, value_len (put_text m1 (hex08 mask)))).
Definition get_NetworkTabooMask := taboo_query "RMH_Network_GetTabooChannels".
Definition get_NodeTabooMask := taboo_query "RMH_Self_GetTabooChannels".

Definition get_TxBcastRate := uint_query NOK hostIf_UnsignedIntType "RMH_Network_GetTxBroadcastPhyRate".
Definition get_TxBcastPowerReduction := uint_query NOK hostIf_UnsignedIntType "RMH_Power_GetTxBeaconPowerReduction".
Definition get_QAM256Capable := bool_query NOK 1 "RMH_Self_GetQAM256Enabled".
Definition get_PacketAggregationCapability := uint_query NOK hostIf_UnsignedIntType "RMH_Self_GetMaxPacketAggregation".

(** [unset]: what the number holds that nothing wrote. *)
Definition put_entries (unset : Z) (m : HOSTIF_MsgData_t) (q : Z * option Z) : Z * HOSTIF_MsgData_t :=
  (q.1, typed hostIf_UnsignedIntType 4 (put_number m (default unset q.2))).
Definition get_AssociatedDeviceNumberOfEntries (unset : Z) (m : HOSTIF_MsgData_t) : Z * HOSTIF_MsgData_t :=
  put_entries unset m get_Associated_Device_NumberOfEntries.
Definition get_X_RDKCENTRAL_COM_MeshTableNumberOfEntries (unset : Z) (m : HOSTIF_MsgData_t) : Z * HOSTIF_MsgData_t :=
  put_entries unset m get_MoCA_Mesh_NumberOfEntries.

Definition get_X_RDKCENTRAL_COM_PrimaryChannelFreq := uint_query NOK hostIf_UnsignedIntType "RMH_Network_GetPrimaryChannelFreq".
Definition get_X_RDKCENTRAL_COM_SecondaryChannelFreq :=
  uint_query NOK hostIf_UnsignedIntType "RMH_Network_GetSecondaryChannelFreq".
Definition get_X_RDKCENTRAL_COM_NodePowerState := uint_query NOK hostIf_UnsignedIntType "RMH_Power_GetMode".
Definition get_X_RDKCENTRAL_COM_TurboMode := bool_query NOK 4 "RMH_Self_GetTurboEnabled".

(** The result and what is left in the caller's buffer. *)
Definition check_MoCABootStatus : Z * option string :=
  match (r ← h; status ← RMH_Self_GetLinkStatus r; Some (r, status)) with
  | None => (OK, None)
  | Some (r, RMH_LINK_STATUS_UP) =>
      match (ncId ← uint32_of r "RMH_Network_GetNCNodeId"; ncMac ← string_of r "RMH_Network_GetNCMac"; Some (ncId, ncMac)) with
      | None => (NOK, Some "Coax connection confirmed, MoCA enabled"%string)
      | Some (ncId, ncMac) =>
          let discovering := "Discovering MoCA Network Coordinator: " +:+ dec (int32 ncId) +:+ "  MoCA MAC:  " +:+ str_take 19 ncMac in
          match get_MoCA_Mesh_NumberOfEntries.2 with
          | Some numOfNodes => if 1 <? numOfNodes then (OK, Some "Joined MoCA Network"%string) else (NOK, Some discovering)
          | None => (OK, Some discovering)
          end
      end
  | Some (_, _) => (NOK, None)
  end.
End getters.

(** ** Setters

    With the message come the object and the calls of the library. *)
Definition reply : Type := Z * HOSTIF_MsgData_t * t * list call.

Section setters.
Context (h : option RMH).

(** Without a handle nothing is set, and the answer is OK. *)
Definition set_query (c : call) (x x' : t) (m : HOSTIF_MsgData_t) : reply :=
  match h with
  | Some r =>
      if set_result r c then (OK, set_fault m fcNoFault, x', [c])
      else (NOK, set_fault m fcRequestDenied, x, [c])
  | None => (OK, set_fault m fcNoFault, x, [])
  end.

(** The check at the start of two setters. *)
Definition unless_boolean (x : t) (m : HOSTIF_MsgData_t) (go : reply) : reply :=
  match paramtype m with
  | hostIf_BooleanType => (NOK, set_fault m fcInvalidParameterType, x, [])
  | _ => go
  end.

Definition set_Enable (x : t) (m : HOSTIF_MsgData_t) : reply :=
  let value := get_boolean (paramValue m) in
  unless_boolean x m (set_query (RMH_Self_SetEnabled value) x (mk value (m_HighestVersion x) (m_i8Alias x)) m).
Definition set_Alias (x : t) (m : HOSTIF_MsgData_t) : reply :=
  (OK, set_paramtype m hostIf_StringType,
   mk (m_bEnable x) (m_HighestVersion x) (str_take (N_LENGTH - 2) ("cpe-" +:+ paramName m)), []).
Definition set_LowerLayers (x : t) (m : HOSTIF_MsgData_t) : reply := (OK, m, x, []).
Definition set_PreferredNC (x : t) (m : HOSTIF_MsgData_t) : reply :=
  unless_boolean x m (set_query (RMH_Self_SetPreferredNCEnabled (get_boolean (paramValue m))) x x m).
Definition set_PrivacyEnabledSetting (x : t) (m : HOSTIF_MsgData_t) : reply :=
  set_query (RMH_Self_SetPrivacyEnabled (get_boolean (paramValue m))) x x m.
Definition set_FreqCurrentMaskSetting (x : t) (m : HOSTIF_MsgData_t) : reply :=
  set_query (RMH_Self_SetFrequencyMask (uint32 (atoi (buf_str (paramValue m))))) x x m.
Definition set_KeyPassphrase (x : t) (m : HOSTIF_MsgData_t) : reply :=
  set_query (RMH_Self_SetPrivacyPassword (buf_str (paramValue m))) x x m.
Definition set_TxPowerLimit (x : t) (m : HOSTIF_MsgData_t) : reply :=
  set_query (RMH_Self_SetTxPowerLimit (get_int (paramValue m))) x x m.
Definition set_PowerCntlPhyTarget (x : t) (m : HOSTIF_MsgData_t) : reply :=
  set_query (RMH_Self_SetPrimaryChannelTargetPhyRate (uint32 (get_int (paramValue m)))) x x m.
Definition set_BeaconPowerLimit (x : t) (m : HOSTIF_MsgData_t) : reply :=
  set_query (RMH_Power_SetTxBeaconPowerReduction (uint32 (get_int (paramValue m)))) x x m.
End setters.

End MoCAInterface.
Import MoCAInterface.

(** ** Counters *)
Module MoCAInterfaceStats.
Section stats.
Context (h : option RMH).

(** The type is a long, the number an int of four bytes. *)
Definition counter (f : string) (m : HOSTIF_MsgData_t) : Z * HOSTIF_MsgData_t :=
  let m1 := typed hostIf_UnsignedLongType 8 m in
  query h NOK m1 (λ r, answer_of (uint32_of r f) m1 (put_number m1)).

Definition get_BytesSent := counter "RMH_Stats_GetTxTotalBytes".
Definition get_BytesReceived := counter "RMH_Stats_GetRxTotalBytes".
Definition get_PacketsSent := counter "RMH_Stats_GetTxTotalPackets".
Definition get_PacketsReceived := counter "RMH_Stats_GetRxTotalPackets".
Definition get_ErrorsSent := counter "RMH_Stats_GetTxTotalErrors".
Definition get_ErrorsReceived := counter "RMH_Stats_GetRxTotalErrors".
Definition get_UnicastPacketsSent := counter "RMH_Stats_GetTxUnicastPackets".
Definition get_UnicastPacketsReceived := counter "RMH_Stats_GetRxUnicastPackets".
Definition get_DiscardPacketsSent := counter "RMH_Stats_GetTxDroppedPackets".
Definition get_DiscardPacketsReceived := counter "RMH_Stats_GetRxDroppedPackets".
Definition get_MulticastPacketsSent := counter "RMH_Stats_GetTxMulticastPackets".
Definition get_MulticastPacketsReceived := counter "RMH_Stats_GetRxMulticastPackets".
Definition get_BroadcastPacketsSent := counter "RMH_Stats_GetTxBroadcastPackets".
Definition get_BroadcastPacketsReceived := counter "RMH_Stats_GetRxBroadcastPackets".
Definition get_UnknownProtoPacketsReceived := counter "RMH_Stats_GetRxUnknownProtocolPackets".
End stats.

(** The flows of a chip, and their numbers, are left to its vendor. *)
Definition not_implemented (m : HOSTIF_MsgData_t) : Z * HOSTIF_MsgData_t := (NOK, m).
Definition flow_not_implemented (m : HOSTIF_MsgData_t) : Z * HOSTIF_MsgData_t := (NOK, m).
End MoCAInterfaceStats.

(** ** The devices of the network *)
Module MoCAInterfaceAssociatedDevice.
Section device.
Context (h : option RMH) (associatedDeviceNum : Z).

(** The node of the device is looked up first; when that fails the message is left as
    it is then, [unfound]. *)
Definition remote (unfound m1 : HOSTIF_MsgData_t) (ask : RMH → Z → Z * HOSTIF_MsgData_t) : Z * HOSTIF_MsgData_t :=
  query h NOK m1 (λ r,
    match RMH_RemoteNode_GetNodeIdFromAssociatedId r (uint32 associatedDeviceNum) with
    | Some nodeID => ask r nodeID
    | None => (NOK, unfound)
    end).

(** The length is set at the start. *)
Definition remote_uint (f : string) (m : HOSTIF_MsgData_t) : Z * HOSTIF_MsgData_t :=
  let m1 := typed hostIf_UnsignedIntType 4 m in
  remote m1 m1 (λ r node, answer_of (remote_uint32_of r f node) m1 (put_number m1)).
Definition remote_int (f : string) (m : HOSTIF_MsgData_t) : Z * HOSTIF_MsgData_t :=
  let m1 := typed hostIf_UnsignedIntType 4 m in
  remote m1 m1 (λ r node, answer_of (remote_int_of r f node) m1 (put_number m1)).
Definition remote_bool (f : string) (m : HOSTIF_MsgData_t) : Z * HOSTIF_MsgData_t :=
  let m1 := typed hostIf_BooleanType 1 m in
  remote m1 m1 (λ r node, answer_of (remote_bool_of r f node) m1 (put_bool m1)).
(** The length is set at the end. *)
Definition remote_rate (f : string) (m : HOSTIF_MsgData_t) : Z * HOSTIF_MsgData_t :=
  let m0 := set_paramtype m hostIf_UnsignedIntType in
  let m1 := set_len m0 4 in
  remote m0 m1 (λ r node, answer_of (remote_uint32_of r f node) m1 (put_number m1)).

Definition get_MACAddress (m : HOSTIF_MsgData_t) : Z * HOSTIF_MsgData_t :=
  let m0 := set_paramtype m hostIf_StringType in
  let m1 := set_len m0 (Z.of_nat TR69HOSTIFMGR_MAX_PARAM_LEN) in
  remote m0 m1 (λ r node, answer_of (RMH_RemoteNode_GetMac r node) m1 (λ mac, snprintf_s 19 m1 mac)).
Definition get_NodeID (m : HOSTIF_MsgData_t) : Z * HOSTIF_MsgData_t :=
  let m1 := typed hostIf_UnsignedIntType 4 m in
  remote m1 m1 (λ r node, if (0 <=? node) && (node <=? 16) then (OK, put_number m1 node) else (NOK, m1)).
Definition get_PreferredNC := remote_bool "RMH_RemoteNode_GetPreferredNC".
Definition get_HighestVersion (m : HOSTIF_MsgData_t) : Z * HOSTIF_MsgData_t :=
  let m0 := set_paramtype m hostIf_StringType in
  let m1 := set_len m0 (Z.of_nat TR69HOSTIFMGR_MAX_PARAM_LEN) in
  remote m0 m1 (λ r node, answer_of (remote_uint32_of r "RMH_RemoteNode_GetHighestSupportedMoCAVersion" node) m1
                            (λ hVer, put_text m1 (hex02 hVer))).
Definition get_PHYTxRate := remote_rate "RMH_RemoteNode_GetTxUnicastPhyRate".
Definition get_PHYRxRate := remote_rate "RMH_RemoteNode_GetRxUnicastPhyRate".
Definition get_TxPowerControlReduction := remote_uint "RMH_RemoteNode_GetTxPowerReduction".
Definition get_RxPowerLevel := remote_int "RMH_RemoteNode_GetRxMapPower".
Definition get_TxBcastRate := remote_uint "RMH_RemoteNode_GetRxBroadcastPhyRate".
Definition get_RxBcastPowerLevel := remote_int "RMH_RemoteNode_GetRxBroadcastPower".
Definition get_TxPackets := remote_uint "RMH_RemoteNode_GetTxPackets".
Definition get_RxPackets := remote_uint "RMH_RemoteNode_GetRxPackets".
Definition get_RxErroredAndMissedPackets := remote_uint "RMH_RemoteNode_GetRxTotalErrors".
Definition get_QAM256Capable := remote_bool "RMH_RemoteNode_GetQAM256Capable".
Definition get_PacketAggregationCapability := remote_uint "RMH_RemoteNode_GetMaxPacketAggregation".
Definition get_RxSNR := remote_int "RMH_RemoteNode_GetRxSNR".

(** One byte is written, of a value that is typed as an unsigned int. *)
Definition get_Active (m : HOSTIF_MsgData_t) : Z * HOSTIF_MsgData_t :=
  let m1 := typed hostIf_UnsignedIntType 4 m in
  remote m1 m1 (λ r node,
    match nodes_of r "RMH_Network_GetNodeIds" with
    | Some l => if (0 <=? node) && default false (l !! Z.to_nat node) then (OK, put_bool m1 true) else (NOK, m1)
    | None => (NOK, m1)
    end).
End device.
End MoCAInterfaceAssociatedDevice.

(** ** The links between the nodes *)
Module MeshTable.

Definition QUERY_INTERVAL : Z := 5.

(** What the last query left, for all rows. *)
Record cache := mkCache { gResponse : RMH_NodeMesh; gResBondedConn : RMH_NodeMesh; firstExTime : Z }.
Definition no_mesh : RMH_NodeMesh := mkMesh [] (λ _ _, 0).
Definition empty_cache : cache := mkCache no_mesh no_mesh 0.

(** The inner loop, over the nodes from [j] on: the pair of the row, or the number of
    the next row. *)
Fixpoint row_in (instanceNumber : Z) (i : nat) (j : nat) (present : list bool) (nodeInstance : Z) : nat * nat + Z :=
  match present with
  | [] => inr nodeInstance
  | p :: present' =>
      if negb (i =? j)%nat && p then
        if instanceNumber =? nodeInstance then inl (i, j)
        else row_in instanceNumber i (S j) present' (nodeInstance + 1)
      else row_in instanceNumber i (S j) present' nodeInstance
  end.

(** The outer loop, over the nodes from [i] on, of [all]. *)
Fixpoint row_from (instanceNumber : Z) (all : list bool) (i : nat) (present : list bool) (nodeInstance : Z)
  : nat * nat + Z :=
  match present with
  | [] => inr nodeInstance
  | p :: present' =>
      if p : bool then
        match row_in instanceNumber i O all nodeInstance with
        | inl ij => inl ij
        | inr next => row_from instanceNumber all (S i) present' next
        end
      else row_from instanceNumber all (S i) present' nodeInstance
  end.

(** [now] and [later]: two readings of the clock.  [h]: what one attempt gives. *)
Definition refresh (h : option RMH) (now later : Z) (c : cache) : cache :=
  if QUERY_INTERVAL <? now - firstExTime c then
    match h with
    | Some r =>
        let '(response, time) := match mesh_of r "RMH_Network_GetTxUnicastPhyRate" with
                                 | Some x => (x, later)
                                 | None => (gResponse c, firstExTime c)
                                 end in
        mkCache response (default (gResBondedConn c) (mesh_of r "RMH_Network_GetBondedConnections")) time
    | None => c
    end
  else c.

Definition InstanceToIndex (h : option RMH) (now later : Z) (instanceNumber : Z) (c : cache) : option (nat * nat) * cache :=
  let c' := refresh h now later c in
  (match row_from (uint32 instanceNumber) (nodePresent (gResponse c')) O (nodePresent (gResponse c')) 1 with
   | inl ij => Some ij
   | inr _ => None
   end, c').

Section rows.
Context (h : option RMH) (now later : Z) (instanceNumber : Z).

(** A getter: a number of the row's pair. *)
Definition row_query (number : cache → nat → nat → Z) (m : HOSTIF_MsgData_t) (c : cache) : Z * HOSTIF_MsgData_t * cache :=
  match InstanceToIndex h now later instanceNumber c with
  | (Some (i, j), c') => (OK, typed hostIf_UnsignedIntType 4 (put_number m (number c' i j)), c')
  | (None, c') => (NOK, m, c')
  end.

Definition get_MeshTxNodeId := row_query (λ _ i _, Z.of_nat i).
Definition get_MeshRxNodeId := row_query (λ _ _ j, Z.of_nat j).
Definition get_MeshPHYTxRate := row_query (λ c i j, nodeValue (gResponse c) i j).
Definition get_BondedChannel := row_query (λ c i j, nodeValue (gResBondedConn c) i j).
End rows.

(** ** The rows of the table are the links *)

Fixpoint nodes_from (k : nat) (l : list bool) : list nat :=
  match l with
  | [] => []
  | b :: l' => if b : bool then k :: nodes_from (S k) l' else nodes_from (S k) l'
  end.
Definition nodes (l : list bool) : list nat := nodes_from O l.

(** The links: of each node that is present, in order, to each other one. *)
Definition links_of (all : list nat) (i : nat) : list (nat * nat) := (λ j, (i, j)) <$> filter (λ j, i ≠ j) all.
Definition links (l : list bool) : list (nat * nat) := nodes l ≫= links_of (nodes l).

(** The numbered search that both loops make. *)
Fixpoint search {A} (k nodeInstance : Z) (l : list A) : A + Z :=
  match l with
  | [] => inr nodeInstance
  | x :: l' => if k =? nodeInstance then inl x else search k (nodeInstance + 1) l'
  end.

Lemma search_app {A} k n (a b : list A) :
  search k n (a ++ b) = match search k n a with inl x => inl x | inr n' => search k n' b end.
Proof. revert n. induction a as [|x a IH]; intros n; [done|]. cbn. by destruct (k =? n). Qed.

Lemma search_lookup {A} k n (l : list A) :
  search k n l = match (if n <=? k then l !! Z.to_nat (k - n) else None) with
                 | Some x => inl x
                 | None => inr (n + Z.of_nat (length l))
                 end.
Proof.
  revert n. induction l as [|x l IH]; intros n; cbn [search length].
  { rewrite Z.add_0_r. by destruct (n <=? k). }
  destruct (Z.eqb_spec k n) as [->|Hne]; [by rewrite Z.leb_refl, Z.sub_diag|].
  rewrite IH. destruct (Z.leb_spec (n + 1) k), (Z.leb_spec n k); try lia.
  - replace (Z.to_nat (k - n)) with (S (Z.to_nat (k - (n + 1)))) by lia.
    change ((x :: l) !! S (Z.to_nat (k - (n + 1)))) with (l !! Z.to_nat (k - (n + 1))).
    destruct (l !! _); [done|]. f_equal. lia.
  - f_equal. lia.
Qed.

Lemma row_in_search k i j present n :
  row_in k i j present n = search k n (links_of (nodes_from j present) i).
Proof.
  revert j n. induction present as [|p present IH]; intros j n; [done|]. cbn [row_in nodes_from].
  destruct p; [|by rewrite andb_false_r, IH]. rewrite andb_true_r. unfold links_of. rewrite filter_cons.
  destruct (Nat.eqb_spec i j) as [->|Hne]; cbn [negb].
  - rewrite decide_False by (intros H; by apply H). apply IH.
  - rewrite decide_True by done. cbn [fmap list_fmap search]. destruct (k =? n); [done|]. apply IH.
Qed.

Lemma row_from_search k all i present n :
  row_from k all i present n = search k n (nodes_from i present ≫= links_of (nodes all)).
Proof.
  revert i n. induction present as [|p present IH]; intros i n; [done|]. cbn [row_from nodes_from].
  destruct p; [|apply IH]. rewrite bind_cons, search_app. unfold nodes at 1. rewrite <- row_in_search.
  destruct (row_in _ _ _ _ _); [done|]. apply IH.
Qed.

(** Row [k] is the [k]-th link. *)
Lemma row_is_link k l :
  match row_from k l O l 1 with inl ij => Some ij | inr _ => None end
  = if 1 <=? k then links l !! Z.to_nat (k - 1) else None.
Proof.
  rewrite row_from_search, search_lookup. fold (nodes l) (links l).
  destruct (1 <=? k); [by destruct (links l !! _)|done].
Qed.

Lemma nodes_from_spec k l i : i ∈ nodes_from k l ↔ (k ≤ i)%nat ∧ l !! (i - k)%nat = Some true.
Proof.
  revert k. induction l as [|b l IH]; intros k; cbn [nodes_from].
  { split; [by intros ?%not_elem_of_nil|]. intros [_ H]. by rewrite lookup_nil in H. }
  assert (i ∈ nodes_from (S k) l ↔ (S k ≤ i)%nat ∧ (b :: l) !! (i - k)%nat = Some true) as Hrest.
  { rewrite IH. split; intros [Hi H]; (split; [done|]).
    - by replace (i - k)%nat with (S (i - S k)) by lia.
    - by replace (i - k)%nat with (S (i - S k)) in H by lia. }
  destruct b.
  - rewrite elem_of_cons, Hrest. split.
    + intros [->|[? ?]]; [|split; [lia|done]]. by rewrite Nat.sub_diag.
    + intros [Hi H]. destruct (decide (i = k)); [by left|]. right. split; [lia|done].
  - rewrite Hrest. split; intros [Hi H]; [split; [lia|done]|]. split; [|done].
    destruct (decide (i = k)) as [->|]; [by rewrite Nat.sub_diag in H|lia].
Qed.

Lemma nodes_spec l i : i ∈ nodes l ↔ l !! i = Some true.
Proof. unfold nodes. rewrite nodes_from_spec, Nat.sub_0_r. split; [by intros [_ ?]|]. split; [lia|done]. Qed.

Lemma nodes_NoDup k l : NoDup (nodes_from k l).
Proof.
  revert k. induction l as [|b l IH]; intros k; cbn [nodes_from]; [constructor|]. destruct b; [|apply IH].
  constructor; [|apply IH]. rewrite nodes_from_spec. lia.
Qed.

Lemma nodes_count k l : Z.of_nat (length (nodes_from k l)) = count_present l.
Proof.
  unfold count_present. f_equal. revert k. induction l as [|[] l IH]; intros k; [done| |].
  - rewrite filter_cons, decide_True by done. cbn [nodes_from length]. by rewrite IH.
  - rewrite filter_cons, decide_False by (by intros []). apply IH.
Qed.

(** Each ordered pair of two different nodes that are present is a link, once. *)
Lemma links_spec l i j : (i, j) ∈ links l ↔ l !! i = Some true ∧ l !! j = Some true ∧ i ≠ j.
Proof.
  unfold links, links_of. rewrite list_elem_of_bind. setoid_rewrite list_elem_of_fmap.
  setoid_rewrite list_elem_of_filter. split.
  - intros (i' & (j' & [= -> ->] & Hne & Hj) & Hi). by rewrite <- !nodes_spec.
  - intros (Hi & Hj & Hne). exists i. split; [|by apply nodes_spec]. exists j. by rewrite nodes_spec.
Qed.

Lemma links_NoDup l : NoDup (links l).
Proof.
  unfold links. apply NoDup_bind; [| |apply nodes_NoDup].
  - intros i1 i2 ij _ _ (? & -> & _)%list_elem_of_fmap (? & Heq & _)%list_elem_of_fmap. by injection Heq.
  - intros i _. unfold links_of. apply NoDup_fmap_2; [by intros ? ? [= ->]|]. apply NoDup_filter, nodes_NoDup.
Qed.

Lemma others_length (all : list nat) i : NoDup all → i ∈ all → length (links_of all i) = (length all - 1)%nat.
Proof.
  intros Hn (l' & Hl)%elem_of_Permutation. unfold links_of. rewrite length_fmap, Hl in *. apply NoDup_cons in Hn as [Hi _].
  rewrite filter_cons, decide_False by (intros H; by apply H). cbn [length].
  rewrite Nat.sub_succ, Nat.sub_0_r. clear Hl. induction l' as [|j l' IH]; [done|]. apply not_elem_of_cons in Hi as [Hij Hi].
  rewrite filter_cons, decide_True by done. cbn [length]. by rewrite IH.
Qed.

Lemma links_length l : Z.of_nat (length (links l)) = count_present l ^ 2 - count_present l.
Proof.
  assert (∀ sub, sub ⊆ nodes l → length (sub ≫= links_of (nodes l)) = (length sub * (length (nodes l) - 1))%nat) as Hsub.
  { induction sub as [|i sub IH]; intros Hsub; [done|]. rewrite bind_cons, length_app, IH, others_length; [done| | |].
    - apply nodes_NoDup.
    - apply Hsub. left.
    - intros j Hj. apply Hsub. by right. }
  unfold links. rewrite Hsub by done. rewrite <- (nodes_count O). fold (nodes l). destruct (length (nodes l)); lia.
Qed.

End MeshTable.
Import MeshTable.

(** ** The manager *)
Module MoCAClientReqHandler.

(** The object, when it is made, with the table of attributes; the rows of the links;
    the counts of the last round.  Of [curNumOfDevices] one is used. *)
Record state := mkState {
  pIface : option MoCAInterface.t; m_notifyHash : notify; meshTable : cache; curNumOfDevices : Z;
  numOfMocaMeshEntries : Z; mUpdateCallback : bool
}.
Definition initial : state := mkState None no_table empty_cache 0 0 false.

Definition getInstance (s : state) : MoCAInterface.t := default MoCAInterface.new (pIface s).
Definition with_iface (s : state) (x : MoCAInterface.t) : state :=
  mkState (Some x) (m_notifyHash s) (meshTable s) (curNumOfDevices s) (numOfMocaMeshEntries s) (mUpdateCallback s).
Definition with_mesh (s : state) (c : cache) : state :=
  mkState (pIface s) (m_notifyHash s) c (curNumOfDevices s) (numOfMocaMeshEntries s) (mUpdateCallback s).
Definition with_notify (s : state) (n : notify) : state :=
  mkState (pIface s) n (meshTable s) (curNumOfDevices s) (numOfMocaMeshEntries s) (mUpdateCallback s).
Definition with_counts (s : state) (devices entries : Z) : state :=
  mkState (pIface s) (m_notifyHash s) (meshTable s) devices entries (mUpdateCallback s).
Definition registerUpdateCallback (s : state) : state :=
  mkState (pIface s) (m_notifyHash s) (meshTable s) (curNumOfDevices s) (numOfMocaMeshEntries s) true.

Definition reset (s : state) : state := with_counts s 0 0.

(** [unInit] on the object and the handle: both are kept after they are destroyed.
    [None]: one of them is destroyed twice. *)
Inductive object : Type := no_object | object_of (x : MoCAInterface.t) | deleted.
Definition closeInstance (x : object) : option object :=
  match x with no_object => Some no_object | object_of _ => Some deleted | deleted => None end.
Definition unInit (RMH_Initialize : nat → option RMH) (x : object) (c : rmhContext) : option (object * rmhContext) :=
  x' ← closeInstance x; c' ← closeRmhContext RMH_Initialize c; Some (x', c').

Section requests.
(** The attempts to initialise the library during a request, two readings of the clock
    and what a number holds that nothing wrote. *)
Context (RMH_Initialize : nat → option RMH) (now later unset : Z).

Definition rmh : option RMH := (initialize MAX_WAIT_FOR_RMH_SECONDS RMH_Initialize 0).1.

Definition set_interface (pSetting : string) (x : MoCAInterface.t) (m : HOSTIF_MsgData_t) : reply :=
  if strcaseeq pSetting "Enable" then set_Enable rmh x m
  else if strcaseeq pSetting "Alias" then set_Alias x m
  else if strcaseeq pSetting "LowerLayers" then set_LowerLayers x m
  else if strcaseeq pSetting "PreferredNC" then set_PreferredNC rmh x m
  else if strcaseeq pSetting "PrivacyEnabledSetting" then set_PrivacyEnabledSetting rmh x m
  else if strcaseeq pSetting "FreqCurrentMaskSetting" then set_FreqCurrentMaskSetting rmh x m
  else if strcaseeq pSetting "KeyPassphrase" then set_KeyPassphrase rmh x m
  else if strcaseeq pSetting "TxPowerLimit" then set_TxPowerLimit rmh x m
  else if strcaseeq pSetting "PowerCntlPhyTarget" then set_PowerCntlPhyTarget rmh x m
  else if strcaseeq pSetting "BeaconPowerLimit" then set_BeaconPowerLimit rmh x m
  else (NOK, set_fault m fcAttemptToSetaNonWritableParameter, x, []).

(** [None]: another component's name; the mutex is released that was not taken. *)
Definition handleSetMsg (m : HOSTIF_MsgData_t) (s : state) : option (Z * HOSTIF_MsgData_t * state * list call) :=
  '(pSetting, instanceNumber) ← Utils.matchComponent (paramName m) "Device.MoCA.Interface";
  let '(ret, m', x', calls) := set_interface pSetting (getInstance s) (set_instance m instanceNumber) in
  Some (ret, if ret =? OK then set_fault m' fcNoFault else m', with_iface s x', calls).

(** The parameters of the interface itself; [None]: another name; [Some None]: the value
    is written past its end. *)
Definition get_interface (pSetting : string) (m : HOSTIF_MsgData_t) (x : MoCAInterface.t)
  : option (option (Z * HOSTIF_MsgData_t * MoCAInterface.t)) :=
  let keep (r : Z * HOSTIF_MsgData_t) := Some (Some (r, x)) in
  if strcaseeq pSetting "Enable" then Some (Some (get_Enable rmh x m))
  else if strcaseeq pSetting "Status" then keep (get_Status rmh m)
  else if strcaseeq pSetting "Alias" then keep (get_Alias x m)
  else if strcaseeq pSetting "Name" then keep (get_Name rmh m)
  else if strcaseeq pSetting "LastChange" then keep (get_LastChange rmh m)
  else if strcaseeq pSetting "LowerLayers" then keep (get_LowerLayers m)
  else if strcaseeq pSetting "Upstream" then keep (get_Upstream x m)
  else if strcaseeq pSetting "MACAddress" then keep (get_MACAddress rmh m)
  else if strcaseeq pSetting "FirmwareVersion" then keep (get_FirmwareVersion rmh m)
  else if strcaseeq pSetting "MaxBitRate" then keep (get_MaxBitRate rmh m)
  else if strcaseeq pSetting "MaxIngressBW" then keep (get_MaxIngressBW rmh m)
  else if strcaseeq pSetting "MaxEgressBW" then keep (get_MaxEgressBW rmh m)
  else if strcaseeq pSetting "HighestVersion" then Some (Some (get_HighestVersion rmh x m))
  else if strcaseeq pSetting "CurrentVersion" then keep (get_CurrentVersion rmh m)
  else if strcaseeq pSetting "NetworkCoordinator" then keep (get_NetworkCoordinator rmh m)
  else if strcaseeq pSetting "NodeID" then keep (get_NodeID rmh m)
  else if strcaseeq pSetting "MaxNodes" then keep (get_MaxNodes x m)
  else if strcaseeq pSetting "PreferredNC" then keep (get_PreferredNC rmh m)
  else if strcaseeq pSetting "BackupNC" then keep (get_BackupNC rmh m)
  else if strcaseeq pSetting "PrivacyEnabledSetting" then keep (get_PrivacyEnabledSetting rmh m)
  else if strcaseeq pSetting "PrivacyEnabled" then keep (get_PrivacyEnabled rmh m)
  else if strcaseeq pSetting "FreqCapabilityMask" then Some (r ← get_FreqCapabilityMask rmh m; Some (r, x))
  else if strcaseeq pSetting "FreqCurrentMaskSetting" then keep (get_FreqCurrentMaskSetting rmh m)
  else if strcaseeq pSetting "FreqCurrentMask" then keep (get_FreqCurrentMask rmh m)
  else if strcaseeq pSetting "CurrentOperFreq" then keep (get_CurrentOperFreq rmh m)
  else if strcaseeq pSetting "LastOperFreq" then keep (get_LastOperFreq rmh m)
  else if strcaseeq pSetting "KeyPassphrase" then keep (get_KeyPassphrase m)
  else if strcaseeq pSetting "TxPowerLimit" then keep (get_TxPowerLimit rmh m)
  else if strcaseeq pSetting "PowerCntlPhyTarget" then keep (get_PowerCntlPhyTarget rmh m)
  else if strcaseeq pSetting "BeaconPowerLimit" then keep (get_BeaconPowerLimit rmh m)
  else if strcaseeq pSetting "NetworkTabooMask" then keep (get_NetworkTabooMask rmh m)
  else if strcaseeq pSetting "NodeTabooMask" then keep (get_NodeTabooMask rmh m)
  else if strcaseeq pSetting "TxBcastRate" then keep (get_TxBcastRate rmh m)
  else if strcaseeq pSetting "TxBcastPowerReduction" then keep (get_TxBcastPowerReduction rmh m)
  else if strcaseeq pSetting "QAM256Capable" then keep (get_QAM256Capable rmh m)
  else if strcaseeq pSetting "PacketAggregationCapability" then keep (get_PacketAggregationCapability rmh m)
  else if strcaseeq pSetting "AssociatedDeviceNumberOfEntries" then keep (get_AssociatedDeviceNumberOfEntries rmh unset m)
  else if strcaseeq pSetting "X_RDKCENTRAL-COM_MeshTableNumberOfEntries"
  then keep (get_X_RDKCENTRAL_COM_MeshTableNumberOfEntries rmh unset m)
  else if strcaseeq pSetting "X_RDKCENTRAL-COM_PrimaryChannelFreq" then keep (get_X_RDKCENTRAL_COM_PrimaryChannelFreq rmh m)
  else if strcaseeq pSetting "X_RDKCENTRAL-COM_SecondaryChannelFreq" then keep (get_X_RDKCENTRAL_COM_SecondaryChannelFreq rmh m)
  else if strcaseeq pSetting "X_RDKCENTRAL-COM_TurboMode" then keep (get_X_RDKCENTRAL_COM_TurboMode rmh m)
  else if strcaseeq pSetting "X_RDKCENTRAL-COM_NodePowerState" then keep (get_X_RDKCENTRAL_COM_NodePowerState rmh m)
  else None.

Definition get_stats (pSetting : string) (m : HOSTIF_MsgData_t) : option (Z * HOSTIF_MsgData_t) :=
  if strcaseeq pSetting "Stats.BytesSent" then Some (MoCAInterfaceStats.get_BytesSent rmh m)
  else if strcaseeq pSetting "Stats.BytesReceived" then Some (MoCAInterfaceStats.get_BytesReceived rmh m)
  else if strcaseeq pSetting "Stats.PacketsSent" then Some (MoCAInterfaceStats.get_PacketsSent rmh m)
  else if strcaseeq pSetting "Stats.PacketsReceived" then Some (MoCAInterfaceStats.get_PacketsReceived rmh m)
  else if strcaseeq pSetting "Stats.ErrorsSent" then Some (MoCAInterfaceStats.get_ErrorsSent rmh m)
  else if strcaseeq pSetting "Stats.ErrorsReceived" then Some (MoCAInterfaceStats.get_ErrorsReceived rmh m)
  else if strcaseeq pSetting "Stats.UnicastPacketsSent" then Some (MoCAInterfaceStats.get_UnicastPacketsSent rmh m)
  else if strcaseeq pSetting "Stats.UnicastPacketsReceived" then Some (MoCAInterfaceStats.get_UnicastPacketsReceived rmh m)
  else if strcaseeq pSetting "Stats.DiscardPacketsSent" then Some (MoCAInterfaceStats.get_DiscardPacketsSent rmh m)
  else if strcaseeq pSetting "Stats.DiscardPacketsReceived" then Some (MoCAInterfaceStats.get_DiscardPacketsReceived rmh m)
  else if strcaseeq pSetting "Stats.MulticastPacketsSent" then Some (MoCAInterfaceStats.get_MulticastPacketsSent rmh m)
  else if strcaseeq pSetting "Stats.MulticastPacketsReceived" then Some (MoCAInterfaceStats.get_MulticastPacketsReceived rmh m)
  else if strcaseeq pSetting "Stats.BroadcastPacketsSent" then Some (MoCAInterfaceStats.get_BroadcastPacketsSent rmh m)
  else if strcaseeq pSetting "Stats.BroadcastPacketsReceived" then Some (MoCAInterfaceStats.get_BroadcastPacketsReceived rmh m)
  else if strcaseeq pSetting "Stats.UnknownProtoPacketsReceived"
  then Some (MoCAInterfaceStats.get_UnknownProtoPacketsReceived rmh m)
  else if strcaseeq pSetting "QoS.EgressNumFlows" || strcaseeq pSetting "QoS.IngressNumFlows"
          || strcaseeq pSetting "QoS.FlowStatsNumberOfEntries"
  then Some (MoCAInterfaceStats.not_implemented m)
  else None.

Definition flow_settings : list string :=
  ["FlowID"; "PacketDA"; "MaxRate"; "MaxBurstSize"; "LeaseTime"; "LeaseTimeLeft"; "FlowPackets"]%string.
Definition get_flow (pSubSetting : string) (m : HOSTIF_MsgData_t) : Z * HOSTIF_MsgData_t :=
  if existsb (strcaseeq pSubSetting) flow_settings then MoCAInterfaceStats.flow_not_implemented m
  else (NOK, set_fault m fcInvalidParameterName).

Definition get_device (num : Z) (pSubSetting : string) (m : HOSTIF_MsgData_t) : Z * HOSTIF_MsgData_t :=
  if strcaseeq pSubSetting "MACAddress" then MoCAInterfaceAssociatedDevice.get_MACAddress rmh num m
  else if strcaseeq pSubSetting "NodeID" then MoCAInterfaceAssociatedDevice.get_NodeID rmh num m
  else if strcaseeq pSubSetting "PreferredNC" then MoCAInterfaceAssociatedDevice.get_PreferredNC rmh num m
  else if strcaseeq pSubSetting "HighestVersion" then MoCAInterfaceAssociatedDevice.get_HighestVersion rmh num m
  else if strcaseeq pSubSetting "PHYTxRate" then MoCAInterfaceAssociatedDevice.get_PHYTxRate rmh num m
  else if strcaseeq pSubSetting "PHYRxRate" then MoCAInterfaceAssociatedDevice.get_PHYRxRate rmh num m
  else if strcaseeq pSubSetting "TxPowerControlReduction"
  then MoCAInterfaceAssociatedDevice.get_TxPowerControlReduction rmh num m
  else if strcaseeq pSubSetting "RxPowerLevel" then MoCAInterfaceAssociatedDevice.get_RxPowerLevel rmh num m
  else if strcaseeq pSubSetting "TxBcastRate" then MoCAInterfaceAssociatedDevice.get_TxBcastRate rmh num m
  else if strcaseeq pSubSetting "RxBcastPowerLevel" then MoCAInterfaceAssociatedDevice.get_RxBcastPowerLevel rmh num m
  else if strcaseeq pSubSetting "TxPackets" then MoCAInterfaceAssociatedDevice.get_TxPackets rmh num m
  else if strcaseeq pSubSetting "RxPackets" then MoCAInterfaceAssociatedDevice.get_RxPackets rmh num m
  else if strcaseeq pSubSetting "RxErroredAndMissedPackets"
  then MoCAInterfaceAssociatedDevice.get_RxErroredAndMissedPackets rmh num m
  else if strcaseeq pSubSetting "QAM256Capable" then MoCAInterfaceAssociatedDevice.get_QAM256Capable rmh num m
  else if strcaseeq pSubSetting "PacketAggregationCapability"
  then MoCAInterfaceAssociatedDevice.get_PacketAggregationCapability rmh num m
  else if strcaseeq pSubSetting "RxSNR" then MoCAInterfaceAssociatedDevice.get_RxSNR rmh num m
  else if strcaseeq pSubSetting "Active" then MoCAInterfaceAssociatedDevice.get_Active rmh num m
  else (NOK, set_fault m fcInvalidParameterName).

(** The links are asked of a handle of their own, of one attempt. *)
Definition get_link (num : Z) (pSubSetting : string) (m : HOSTIF_MsgData_t) (c : cache) : Z * HOSTIF_MsgData_t * cache :=
  let hm := RMH_Initialize O in
  if strcaseeq pSubSetting "MeshTxNodeId" then get_MeshTxNodeId hm now later num m c
  else if strcaseeq pSubSetting "MeshRxNodeId" then get_MeshRxNodeId hm now later num m c
  else if strcaseeq pSubSetting "MeshPHYTxRate" then get_MeshPHYTxRate hm now later num m c
  else if strcaseeq pSubSetting "BondedChannel" then get_BondedChannel hm now later num m c
  else (NOK, set_fault m fcInvalidParameterName, c).

(** The three tables below an interface. *)
Definition get_row (pSetting : string) (m : HOSTIF_MsgData_t) (s : state) : Z * HOSTIF_MsgData_t * state :=
  match Utils.matchComponent pSetting "QoS.FlowStats" with
  | Some (sub, _) => (get_flow sub m, s)
  | None =>
      match Utils.matchComponent pSetting "AssociatedDevice" with
      | Some (sub, num) => (get_device num sub m, s)
      | None =>
          match Utils.matchComponent pSetting "X_RDKCENTRAL-COM_MeshTable" with
          | Some (sub, num) => let '(r, c) := get_link num sub m (meshTable s) in (r, with_mesh s c)
          | None => (NOK, set_fault m fcInvalidParameterName, s)
          end
      end
  end.

Definition handleGetMsg (m : HOSTIF_MsgData_t) (s : state) : option (Z * HOSTIF_MsgData_t * state) :=
  if strcaseeq (paramName m) "Device.MoCA.InterfaceNumberOfEntries" then Some (get_InterfaceNumberOfEntries m, s)
  else
    match Utils.matchComponent (paramName m) "Device.MoCA.Interface" with
    | Some (pSetting, instanceNumber) =>
        let m1 := set_instance m instanceNumber in
        let s1 := with_iface s (getInstance s) in
        match get_interface pSetting m1 (getInstance s) with
        | Some r => '(ret, m2, x) ← r; Some (ret, m2, with_iface s x)
        | None =>
            match get_stats pSetting m1 with
            | Some r => Some (r, s1)
            | None => Some (get_row pSetting m1 s1)
            end
        end
    | None => Some (NOK, set_fault m fcInvalidParameterName, s)
    end.

(** ** A round of updates

    The getters do not say whether a value changed, so that there is nothing to
    report for the parameters with attributes. *)
Definition checkForUpdates (s : state) : list Updates.event * state :=
  let round (object : string) (r : Z * HOSTIF_MsgData_t) (last : Z) :=
    if r.1 =? OK then
      let tmpNoDev := get_int (paramValue r.2) in
      (if mUpdateCallback s then Updates.count_changes ("Device.MoCA.Interface.1." +:+ object) last tmpNoDev else [], tmpNoDev)
    else ([], last) in
  let '(evs1, devices) := round "AssociatedDevice" (get_AssociatedDeviceNumberOfEntries rmh unset zero_msg) (curNumOfDevices s) in
  let '(evs2, entries) := round "X_RDKCENTRAL-COM_MeshTable"
                            (get_X_RDKCENTRAL_COM_MeshTableNumberOfEntries rmh unset zero_msg) (numOfMocaMeshEntries s) in
  (evs1 ++ evs2, with_counts (with_iface s (getInstance s)) devices entries).
End requests.

(** ** Attributes *)
Section attributes.
Context (str_hash : string → Z).

(** [None]: there is no attribute, and a null pointer is read. *)
Definition handleGetAttributesMsg (m : HOSTIF_MsgData_t) (s : state) : option (Z * HOSTIF_MsgData_t * state) :=
  let s1 := with_iface s (getInstance s) in
  match made (m_notifyHash s1) with
  | table_of l =>
      v ← get_attribute str_hash l (paramName m);
      Some (OK, set_paramtype (set_value (set_instance m 0) (put_int (paramValue m) v)) hostIf_IntegerType,
            with_notify s1 (table_of l))
  | _ => None
  end.

Definition handleSetAttributesMsg (m : HOSTIF_MsgData_t) (s : state) : option (Z * HOSTIF_MsgData_t * state) :=
  let s1 := with_iface s (getInstance s) in
  match made (m_notifyHash s1) with
  | table_of l => l' ← set_attribute str_hash false l (paramName m); Some (OK, set_instance m 0, with_notify s1 (table_of l'))
  | _ => None
  end.
End attributes.

(** ** Requests by name *)
Definition moca_param (i : Z) (setting : string) : string :=
  "Device.MoCA.Interface" +:+ String DOT (dec i +:+ String DOT setting).
Definition row_param (i : Z) (table : string) (k : Z) (setting : string) : string :=
  moca_param i (table +:+ String DOT (dec k +:+ String DOT setting)).

(** A name that differs from the start of another. *)
Lemma strcaseeq_prefix p s name : starts_with (lower p) (lower name) = false → strcaseeq (p +:+ s) name = false.
Proof.
  intros Hp. unfold strcaseeq. apply String.eqb_neq. intros He. rewrite <- He, lower_app, starts_with_app in Hp. done.
Qed.

Section requests.
Context (RMH_Initialize : nat → option RMH) (now later unset : Z).
#[local] Notation get := (handleGetMsg RMH_Initialize now later unset).
#[local] Notation hd := (rmh RMH_Initialize).

Lemma interface_get i setting m s :
  0 <= i < 10 ^ 9 → paramName m = moca_param i setting →
  get m s =
    match get_interface RMH_Initialize unset setting (set_instance m i) (getInstance s) with
    | Some r => '(ret, m2, x) ← r; Some (ret, m2, with_iface s x)
    | None =>
        match get_stats RMH_Initialize setting (set_instance m i) with
        | Some r => Some (r, with_iface s (getInstance s))
        | None => Some (get_row RMH_Initialize now later setting (set_instance m i) (with_iface s (getInstance s)))
        end
    end.
Proof.
  intros Hi Hp. unfold handleGetMsg. rewrite Hp. change (strcaseeq _ "Device.MoCA.InterfaceNumberOfEntries") with false.
  cbv iota. unfold moca_param. by rewrite Utils.match_component_name.
Qed.

(** The names of a table are none of those of the interface and its counters. *)
Lemma table_is_row table rest m x :
  table ∈ ["AssociatedDevice."; "X_RDKCENTRAL-COM_MeshTable."]%string →
  get_interface RMH_Initialize unset (table +:+ rest) m x = None ∧ get_stats RMH_Initialize (table +:+ rest) m = None.
Proof.
  rewrite !elem_of_cons. intros [->|[->|[]%not_elem_of_nil]]; unfold get_interface, get_stats;
    rewrite !strcaseeq_prefix by reflexivity; done.
Qed.

Lemma device_get i k setting m s :
  0 <= i < 10 ^ 9 → 0 <= k < 10 ^ 9 → paramName m = row_param i "AssociatedDevice" k setting →
  get m s = Some (get_device RMH_Initialize k setting (set_instance m i), with_iface s (getInstance s)).
Proof.
  intros Hi Hk Hp. rewrite (interface_get i _ m s Hi Hp).
  destruct (table_is_row "AssociatedDevice." (dec k +:+ String DOT setting) (set_instance m i) (getInstance s)) as [Ha Hb];
    [by left|].
  change ("AssociatedDevice" +:+ String DOT (dec k +:+ String DOT setting))
    with ("AssociatedDevice." +:+ (dec k +:+ String DOT setting)).
  rewrite Ha, Hb. unfold get_row.
  change (Utils.matchComponent ("AssociatedDevice." +:+ _) "QoS.FlowStats") with (@None (string * Z)). cbv iota.
  change ("AssociatedDevice." +:+ (dec k +:+ String DOT setting))
    with ("AssociatedDevice" +:+ String DOT (dec k +:+ String DOT setting)).
  by rewrite Utils.match_component_name.
Qed.

Lemma link_get i k setting m s :
  0 <= i < 10 ^ 9 → 0 <= k < 10 ^ 9 → paramName m = row_param i "X_RDKCENTRAL-COM_MeshTable" k setting →
  get m s = Some (let '(r, c) := get_link RMH_Initialize now later k setting (set_instance m i) (meshTable s) in
                  (r, with_mesh (with_iface s (getInstance s)) c)).
Proof.
  intros Hi Hk Hp. rewrite (interface_get i _ m s Hi Hp).
  destruct (table_is_row "X_RDKCENTRAL-COM_MeshTable." (dec k +:+ String DOT setting) (set_instance m i) (getInstance s))
    as [Ha Hb]; [by right; left|].
  change ("X_RDKCENTRAL-COM_MeshTable" +:+ String DOT (dec k +:+ String DOT setting))
    with ("X_RDKCENTRAL-COM_MeshTable." +:+ (dec k +:+ String DOT setting)).
  rewrite Ha, Hb. unfold get_row.
  change (Utils.matchComponent ("X_RDKCENTRAL-COM_MeshTable." +:+ _) "QoS.FlowStats") with (@None (string * Z)). cbv iota.
  change (Utils.matchComponent ("X_RDKCENTRAL-COM_MeshTable." +:+ _) "AssociatedDevice") with (@None (string * Z)). cbv iota.
  change ("X_RDKCENTRAL-COM_MeshTable." +:+ (dec k +:+ String DOT setting))
    with ("X_RDKCENTRAL-COM_MeshTable" +:+ String DOT (dec k +:+ String DOT setting)).
  rewrite Utils.match_component_name by done. cbn [meshTable with_iface]. by destruct (get_link _ _ _ _ _ _ _) as [[? ?] ?].
Qed.

(** ** Numbers of the interface *)

(** How a number is asked: the answer without a handle, the type and length that are set,
    and whether the message is cleared before. *)
Record kind := mkKind { without_handle : Z; number_type : HostIf_ParamType_t; number_len : Z; clears : bool }.
Definition unsigned_int : kind := mkKind NOK hostIf_UnsignedIntType 4 false.
Definition signed_int : kind := mkKind NOK hostIf_IntegerType 4 false.
Definition cleared_signed : kind := mkKind NOK hostIf_IntegerType 4 true.
Definition cleared_unsigned : kind := mkKind NOK hostIf_UnsignedIntType 4 true.
Definition lenient : kind := mkKind OK hostIf_UnsignedIntType 4 false.
Definition counted : kind := mkKind NOK hostIf_UnsignedLongType 8 false.

(** The numbers of an interface with the functions that give them. *)
Definition number_settings : list (string * (string * kind)) :=
  [("LastChange", ("RMH_Network_GetLinkUptime", unsigned_int));
   ("MaxBitRate", ("RMH_Self_GetMaxBitrate", unsigned_int));
   ("MaxIngressBW", ("RMH_PQOS_GetMaxIngressFlows", unsigned_int));
   ("MaxEgressBW", ("RMH_PQoS_GetMaxEgressBandwidth", unsigned_int));
   ("NetworkCoordinator", ("RMH_Network_GetNCNodeId", unsigned_int));
   ("NodeID", ("RMH_Network_GetNodeId", unsigned_int)); ("BackupNC", ("RMH_Network_GetBackupNCNodeId", lenient));
   ("CurrentOperFreq", ("RMH_Network_GetRFChannelFreq", signed_int));
   ("LastOperFreq", ("RMH_Self_GetLOF", signed_int)); ("TxPowerLimit", ("RMH_Self_GetTxPowerLimit", cleared_signed));
   ("PowerCntlPhyTarget", ("RMH_Self_GetPrimaryChannelTargetPhyRate", cleared_unsigned));
   ("BeaconPowerLimit", ("RMH_Power_GetTxBeaconPowerReduction", unsigned_int));
   ("TxBcastRate", ("RMH_Network_GetTxBroadcastPhyRate", unsigned_int));
   ("TxBcastPowerReduction", ("RMH_Power_GetTxBeaconPowerReduction", unsigned_int));
   ("PacketAggregationCapability", ("RMH_Self_GetMaxPacketAggregation", unsigned_int));
   ("X_RDKCENTRAL-COM_PrimaryChannelFreq", ("RMH_Network_GetPrimaryChannelFreq", unsigned_int));
   ("X_RDKCENTRAL-COM_SecondaryChannelFreq", ("RMH_Network_GetSecondaryChannelFreq", unsigned_int));
   ("X_RDKCENTRAL-COM_NodePowerState", ("RMH_Power_GetMode", unsigned_int));
   ("Stats.BytesSent", ("RMH_Stats_GetTxTotalBytes", counted));
   ("Stats.BytesReceived", ("RMH_Stats_GetRxTotalBytes", counted));
   ("Stats.PacketsSent", ("RMH_Stats_GetTxTotalPackets", counted));
   ("Stats.PacketsReceived", ("RMH_Stats_GetRxTotalPackets", counted));
   ("Stats.ErrorsSent", ("RMH_Stats_GetTxTotalErrors", counted));
   ("Stats.ErrorsReceived", ("RMH_Stats_GetRxTotalErrors", counted));
   ("Stats.UnicastPacketsSent", ("RMH_Stats_GetTxUnicastPackets", counted));
   ("Stats.UnicastPacketsReceived", ("RMH_Stats_GetRxUnicastPackets", counted));
   ("Stats.DiscardPacketsSent", ("RMH_Stats_GetTxDroppedPackets", counted));
   ("Stats.DiscardPacketsReceived", ("RMH_Stats_GetRxDroppedPackets", counted));
   ("Stats.MulticastPacketsSent", ("RMH_Stats_GetTxMulticastPackets", counted));
   ("Stats.MulticastPacketsReceived", ("RMH_Stats_GetRxMulticastPackets", counted));
   ("Stats.BroadcastPacketsSent", ("RMH_Stats_GetTxBroadcastPackets", counted));
   ("Stats.BroadcastPacketsReceived", ("RMH_Stats_GetRxBroadcastPackets", counted));
   ("Stats.UnknownProtoPacketsReceived", ("RMH_Stats_GetRxUnknownProtocolPackets", counted))]%string.

Definition number_query (f : string) (k : kind) (m : HOSTIF_MsgData_t) : Z * HOSTIF_MsgData_t :=
  let m1 := typed (number_type k) (number_len k) (if clears k then cleared m else m) in
  query hd (without_handle k) m1 (λ r, answer_of (uint32_of r f) m1 (put_number m1)).

Lemma number_getter setting f k m x :
  (setting, (f, k)) ∈ number_settings →
  get_interface RMH_Initialize unset setting m x = Some (Some (number_query f k m, x))
  ∨ get_interface RMH_Initialize unset setting m x = None
    ∧ get_stats RMH_Initialize setting m = Some (number_query f k m).
Proof.
  intros Hin%list_elem_of_In. cbn [number_settings In] in Hin.
  repeat (destruct Hin as [[= <- <- <-]|Hin]; [first [left; reflexivity | right; split; reflexivity]|]). done.
Qed.

(** A number is what its function gives, and refused when it gives none; without a handle
    the backup of the coordinator is answered as it came. *)
Theorem moca_numbers i setting f k m s :
  0 <= i < 10 ^ 9 → (setting, (f, k)) ∈ number_settings → paramName m = moca_param i setting →
  ∃ ret m', get m s = Some (ret, m', with_iface s (getInstance s))
    ∧ match hd with
      | Some r => match uint32_of r f with Some z => ret = OK ∧ get_int (paramValue m') = int32 z | None => ret = NOK end
      | None => ret = without_handle k ∧ (clears k = false → paramValue m' = paramValue m)
      end.
Proof.
  intros Hi Hget Hp. rewrite (interface_get i setting m s Hi Hp). apply (number_getter _ _ _ (set_instance m i) (getInstance s)) in Hget.
  set (q := number_query f k (set_instance m i)) in *. exists q.1, q.2. split.
  { destruct Hget as [->|[-> ->]]; cbn [mbind option_bind]; by destruct q. }
  subst q. clear Hget. unfold number_query. destruct hd as [r|]; cbn [query].
  - destruct (uint32_of r f); cbn [answer_of fst snd]; [|done]. split; [done|apply get_put_int].
  - cbn [fst snd]. split; [done|]. by intros ->.
Qed.
End requests.

(** ** The devices of the network *)
Section devices.
Context (RMH_Initialize : nat → option RMH) (now later unset : Z).

(** The numbers of a device, with the functions that give them. *)
Definition device_settings : list (string * string) :=
  [("PHYTxRate", "RMH_RemoteNode_GetTxUnicastPhyRate"); ("PHYRxRate", "RMH_RemoteNode_GetRxUnicastPhyRate");
   ("TxPowerControlReduction", "RMH_RemoteNode_GetTxPowerReduction");
   ("TxBcastRate", "RMH_RemoteNode_GetRxBroadcastPhyRate"); ("TxPackets", "RMH_RemoteNode_GetTxPackets");
   ("RxPackets", "RMH_RemoteNode_GetRxPackets"); ("RxErroredAndMissedPackets", "RMH_RemoteNode_GetRxTotalErrors");
   ("PacketAggregationCapability", "RMH_RemoteNode_GetMaxPacketAggregation")]%string.

Lemma device_getter k setting f m :
  (setting, f) ∈ device_settings →
  get_device RMH_Initialize k setting m = MoCAInterfaceAssociatedDevice.remote_uint (rmh RMH_Initialize) k f m
  ∨ get_device RMH_Initialize k setting m = MoCAInterfaceAssociatedDevice.remote_rate (rmh RMH_Initialize) k f m.
Proof.
  intros Hin%list_elem_of_In. cbn [device_settings In] in Hin.
  repeat (destruct Hin as [[= <- <-]|Hin]; [first [left; reflexivity | right; reflexivity]|]). done.
Qed.

(** The device's number is looked up, and the answer is its node's own; a device that is
    not there and a number that is not given are refused. *)
Theorem device_numbers i k setting f m s r :
  0 <= i < 10 ^ 9 → 0 <= k < 10 ^ 9 → (setting, f) ∈ device_settings →
  paramName m = row_param i "AssociatedDevice" k setting → rmh RMH_Initialize = Some r →
  ∃ ret m', handleGetMsg RMH_Initialize now later unset m s = Some (ret, m', with_iface s (getInstance s))
    ∧ match RMH_RemoteNode_GetNodeIdFromAssociatedId r k ≫= remote_uint32_of r f with
      | Some z => ret = OK ∧ get_int (paramValue m') = int32 z
      | None => ret = NOK
      end.
Proof.
  intros Hi Hk Hin Hp Hh. rewrite (device_get _ _ _ _ i k setting m s Hi Hk Hp).
  apply (device_getter k _ _ (set_instance m i)) in Hin.
  set (q := get_device RMH_Initialize k setting (set_instance m i)) in *. exists q.1, q.2.
  split; [by destruct q as [? ?]|]. rewrite Hh in Hin.
  assert (uint32 k = k) as Hu by (apply Z.mod_small; lia).
  destruct Hin as [-> | ->]; unfold MoCAInterfaceAssociatedDevice.remote_uint, MoCAInterfaceAssociatedDevice.remote_rate,
    MoCAInterfaceAssociatedDevice.remote; cbn [query]; rewrite Hu;
    (destruct (RMH_RemoteNode_GetNodeIdFromAssociatedId r k) as [node|]; cbn [mbind option_bind]; [|done]);
    (destruct (remote_uint32_of r f node); cbn [answer_of fst snd]; [|done]); (split; [done|apply get_put_int]).
Qed.

(** ** The links *)

(** C20. The table of the links over a table that has just been asked for: its rows are the
    ordered pairs of different nodes that are present, each once, and there are as many
    as the number of entries says when the nodes are the same; row [k] answers its two
    nodes, the rate between them and the bonded channel; every other row is refused. *)
Theorem mesh_links r mesh m s :
  RMH_Initialize O = Some r → mesh_of r "RMH_Network_GetTxUnicastPhyRate" = Some mesh →
  QUERY_INTERVAL < now - firstExTime (meshTable s) →
  ∃ rows, NoDup rows
    ∧ (∀ a b, (a, b) ∈ rows ↔ nodePresent mesh !! a = Some true ∧ nodePresent mesh !! b = Some true ∧ a ≠ b)
    ∧ (∀ i, 0 <= i < 10 ^ 9 → paramName m = moca_param i "X_RDKCENTRAL-COM_MeshTableNumberOfEntries" →
        nodes_of r "RMH_Network_GetNodeIds" = Some (nodePresent mesh) → 0 < count_present (nodePresent mesh) < 2 ^ 15 →
        ∃ m', handleGetMsg RMH_Initialize now later unset m s = Some (OK, m', with_iface s (getInstance s))
          ∧ get_int (paramValue m') = Z.of_nat (length rows))
    ∧ ∀ i k setting number, 0 <= i < 10 ^ 9 → 0 <= k < 10 ^ 9 →
        (setting, number) ∈ [("MeshTxNodeId"%string, λ a b, Z.of_nat a); ("MeshRxNodeId"%string, λ a b, Z.of_nat b);
                             ("MeshPHYTxRate"%string, nodeValue mesh);
                             ("BondedChannel"%string, nodeValue (default (gResBondedConn (meshTable s))
                                                                    (mesh_of r "RMH_Network_GetBondedConnections")))] →
        paramName m = row_param i "X_RDKCENTRAL-COM_MeshTable" k setting →
        ∃ ret m' s', handleGetMsg RMH_Initialize now later unset m s = Some (ret, m', s')
          ∧ match (if 1 <=? k then rows !! Z.to_nat (k - 1) else None) with
            | Some (a, b) => ret = OK ∧ get_int (paramValue m') = int32 (number a b)
            | None => ret = NOK
            end.
Proof.
  intros Hr Hmesh Htime. exists (links (nodePresent mesh)).
  split_and!; [apply links_NoDup|intros; apply links_spec| |].
  - intros i Hi Hp Hn Hc. rewrite (interface_get _ _ _ _ i _ m s Hi Hp).
    assert (rmh RMH_Initialize = Some r) as Hh by (unfold rmh, MAX_WAIT_FOR_RMH_SECONDS; cbn [initialize]; by rewrite Hr).
    change (get_interface RMH_Initialize unset "X_RDKCENTRAL-COM_MeshTableNumberOfEntries" (set_instance m i) (getInstance s))
      with (Some (Some (get_X_RDKCENTRAL_COM_MeshTableNumberOfEntries (rmh RMH_Initialize) unset (set_instance m i), getInstance s))).
    unfold get_X_RDKCENTRAL_COM_MeshTableNumberOfEntries, get_MoCA_Mesh_NumberOfEntries, put_entries.
    rewrite Hh. cbn [mbind option_bind]. rewrite Hn. cbv zeta. rewrite (proj2 (Z.eqb_neq (count_present (nodePresent mesh)) 0)) by lia. cbn [fst snd default from_option id].
    eexists. split; [reflexivity|]. cbn [paramValue typed put_number set_len set_paramtype set_value].
    rewrite get_put_int, links_length.
    rewrite Z.pow_2_r. change (2 ^ 15) with 32768 in Hc. assert (0 <= count_present (nodePresent mesh) * count_present (nodePresent mesh) < 2 ^ 30) by nia.
    by rewrite !int32_id by (rewrite ?int32_id by lia; lia).
  - intros i k setting number Hi Hk Hin Hp. rewrite (link_get _ _ _ _ i k setting m s Hi Hk Hp).
    set (q := get_link RMH_Initialize now later k setting (set_instance m i) (meshTable s)).
    exists q.1.1, q.1.2, (with_mesh (with_iface s (getInstance s)) q.2).
    split; [by destruct q as [[? ?] ?]|]. subst q.
    set (c' := mkCache mesh (default (gResBondedConn (meshTable s)) (mesh_of r "RMH_Network_GetBondedConnections")) later).
    assert (∀ c, row_query (RMH_Initialize O) now later k c (set_instance m i) (meshTable s)
      = match (if 1 <=? k then links (nodePresent mesh) !! Z.to_nat (k - 1) else None) with
        | Some (a, b) => (OK, typed hostIf_UnsignedIntType 4 (put_number (set_instance m i) (c c' a b)), c')
        | None => (NOK, set_instance m i, c')
        end) as Hrow.
    { intros c. unfold row_query, InstanceToIndex. rewrite row_is_link.
      assert (refresh (RMH_Initialize O) now later (meshTable s) = c') as ->.
      { unfold refresh. by rewrite (proj2 (Z.ltb_lt _ _)), Hr, Hmesh by done. }
      replace (uint32 k) with k by (symmetry; apply Z.mod_small; lia). cbn [gResponse c'].
      destruct (if 1 <=? k then _ else None) as [[a b]|]; done. }
    apply list_elem_of_In in Hin. cbn [In] in Hin.
    assert (∃ c, (∀ a b, c c' a b = number a b)
      ∧ get_link RMH_Initialize now later k setting (set_instance m i) (meshTable s)
        = row_query (RMH_Initialize O) now later k c (set_instance m i) (meshTable s)) as (c & Hc & ->).
    { repeat (destruct Hin as [[= <- <-]|Hin]; [eexists; split; cycle 1; [reflexivity|done]|]). done. }
    rewrite Hrow. destruct (if 1 <=? k then _ else None) as [[a b]|]; cbn [fst snd]; [|done].
    split; [done|]. rewrite <- Hc. apply get_put_int.
Qed.
End devices.

(** ** Sets *)
Section sets.
Context (RMH_Initialize : nat → option RMH) (now later unset : Z).

Lemma moca_set i setting m s :
  0 <= i < 10 ^ 9 → paramName m = moca_param i setting →
  handleSetMsg RMH_Initialize m s
  = let '(ret, m', x', calls) := set_interface RMH_Initialize setting (getInstance s) (set_instance m i) in
    Some (ret, if ret =? OK then set_fault m' fcNoFault else m', with_iface s x', calls).
Proof. intros Hi Hp. unfold handleSetMsg. rewrite Hp. unfold moca_param. by rewrite Utils.match_component_name. Qed.

Lemma set_boolean_checked c x x' m r (Hh : rmh RMH_Initialize = Some r) :
  unless_boolean x m (set_query (rmh RMH_Initialize) c x x' m)
  = if bool_decide (paramtype m = hostIf_BooleanType) then (NOK, set_fault m fcInvalidParameterType, x, [])
    else if set_result r c then (OK, set_fault m fcNoFault, x', [c]) else (NOK, set_fault m fcRequestDenied, x, [c]).
Proof. unfold unless_boolean, set_query. rewrite Hh. by destruct (paramtype m). Qed.

(** A boolean, the type that the data model gives both, is refused, and what is no
    boolean is taken for one. *)
Theorem booleans_refused i setting m s r :
  0 <= i < 10 ^ 9 → setting ∈ ["Enable"; "PreferredNC"]%string → paramName m = moca_param i setting →
  rmh RMH_Initialize = Some r →
  let c := (if streq setting "Enable" then RMH_Self_SetEnabled else RMH_Self_SetPreferredNCEnabled) (get_boolean (paramValue m)) in
  ∃ ret m' s' calls, handleSetMsg RMH_Initialize m s = Some (ret, m', s', calls)
    ∧ if bool_decide (paramtype m = hostIf_BooleanType)
      then ret = NOK ∧ faultCode m' = fcInvalidParameterType ∧ s' = with_iface s (getInstance s) ∧ calls = []
      else calls = [c] ∧ ret = (if set_result r c then OK else NOK)
           ∧ faultCode m' = if set_result r c then fcNoFault else fcRequestDenied.
Proof.
  intros Hi Hin%list_elem_of_In Hp Hh c. rewrite (moca_set i setting m s Hi Hp).
  assert (∃ x', set_interface RMH_Initialize setting (getInstance s) (set_instance m i)
    = unless_boolean (getInstance s) (set_instance m i) (set_query (rmh RMH_Initialize) c (getInstance s) x' (set_instance m i)))
    as (x' & ->).
  { cbn [In] in Hin. destruct Hin as [<-|[<-|[]]]; eexists; reflexivity. }
  rewrite (set_boolean_checked _ _ _ _ r Hh). cbn [paramtype set_instance].
  destruct (bool_decide (paramtype m = hostIf_BooleanType)); [|destruct (set_result r c)]; do 4 eexists; (split; [reflexivity|]); done.
Qed.
End sets.

(** ** Numbers in base 16 *)
Lemma lower_no_nul s : has_char NUL (lower s) = has_char NUL s.
Proof.
  induction s as [|c s IH]; [done|]. cbn [lower has_char]. rewrite IH. f_equal.
  unfold to_lower. destruct c as [[] [] [] [] [] [] [] []]; reflexivity.
Qed.

Lemma lower_length s : String.length (lower s) = String.length s.
Proof. induction s as [|c s IH]; [done|]. cbn [lower String.length]. by rewrite IH. Qed.

Lemma hex_digit_not_nul d : 0 <= d < 16 → Ascii.eqb NUL (IPActivePort.hex_digit d) = false.
Proof.
  intros Hd. assert (d ∈ [0;1;2;3;4;5;6;7;8;9;10;11;12;13;14;15]) as Hin.
  { apply list_elem_of_In. cbn. lia. }
  apply list_elem_of_In in Hin. cbn [In] in Hin. repeat (destruct Hin as [<-|Hin]; [reflexivity|]). done.
Qed.

Lemma hex_text_no_nul k z : has_char NUL (IPActivePort.hex_text k z) = false.
Proof.
  revert z. induction k as [|k IH]; intros z; [done|]. cbn [IPActivePort.hex_text].
  rewrite has_char_app, IH. cbn [has_char orb]. rewrite orb_false_r. apply hex_digit_not_nul, Z.mod_pos_bound. lia.
Qed.

Lemma hex_text_length k z : String.length (IPActivePort.hex_text k z) = k.
Proof.
  revert z. induction k as [|k IH]; intros z; [done|]. cbn [IPActivePort.hex_text].
  rewrite str_length_app, IH. cbn [String.length]. lia.
Qed.

Lemma hex_lower_no_nul k z : has_char NUL (lower (IPActivePort.hex_text k z)) = false.
Proof. by rewrite lower_no_nul, hex_text_no_nul. Qed.
Lemma hex_lower_length k z : String.length (lower (IPActivePort.hex_text k z)) = k.
Proof. by rewrite lower_length, hex_text_length. Qed.

Lemma hex02_length z : (String.length (hex02 z) ≤ 8)%nat.
Proof.
  unfold hex02. rewrite hex_text_length. assert (0 <= uint32 z < 2 ^ 32) as Hz by (apply Z.mod_pos_bound; lia).
  assert (Z.log2 (uint32 z) < 32) as Hl.
  { destruct (decide (uint32 z = 0)) as [->|]; [cbn; lia|]. apply Z.log2_lt_pow2; lia. }
  assert (Z.log2 (uint32 z) / 4 < 8) by (apply Z.div_lt_upper_bound; lia). lia.
Qed.

(** The list of 256 frequencies fits into a value, and its text is answered. *)
Theorem frequencies_fit h m r l :
  h = Some r → RMH_Self_GetSupportedFrequencies r = Some l → (length l ≤ 256)%nat →
  ∃ m', get_FreqCapabilityMask h m = Some (OK, m') ∧ buf_str (paramValue m') = frequencies_text l.
Proof.
  intros -> Hl Hlen. unfold get_FreqCapabilityMask. rewrite Hl.
  assert (String.length (frequencies_text l) ≤ 2 + 8 * length l ∧ has_char NUL (frequencies_text l) = false)%nat as [Hs Hn].
  { assert (String.length (foldr (λ z s, hex02 z +:+ s) EmptyString l) ≤ 8 * length l
            ∧ has_char NUL (foldr (λ z s, hex02 z +:+ s) EmptyString l) = false)%nat as [Ha Hb].
    { clear. induction l as [|z l [IH1 IH2]]; [done|]. cbn [foldr length]. rewrite str_length_app, has_char_app, IH2.
      pose proof (hex02_length z). split; [lia|]. unfold hex02. by rewrite hex_text_no_nul. }
    unfold frequencies_text. rewrite str_length_app, has_char_app, Hb. split; [cbn; lia|done]. }
  rewrite (proj2 (Nat.leb_gt _ _)) by (unfold TR69HOSTIFMGR_MAX_PARAM_LEN; lia).
  eexists. split; [reflexivity|]. by apply (buf_str_poke (paramValue (set_paramtype m hostIf_StringType))).
Qed.

Section settings.
Context (RMH_Initialize : nat → option RMH) (now later unset : Z).

Lemma snprintf_text size m s :
  has_char NUL s = false → (String.length s ≤ size - 1)%nat → buf_str (paramValue (snprintf_s size m s)) = s.
Proof.
  intros Hn Hl. unfold snprintf_s. cbn [paramValue set_value].
  rewrite c_str_no_nul, str_take_all by done. by apply buf_str_poke.
Qed.

(** The alias that is kept is the name of the parameter, whatever the value: a get
    answers it behind two prefixes. *)
Theorem alias_is_name i m m2 s :
  0 <= i < 10 ^ 9 → paramName m = moca_param i "Alias" → paramName m2 = moca_param i "Alias" →
  ∃ m' s', handleSetMsg RMH_Initialize m s = Some (OK, m', s', [])
    ∧ ∃ m3 s3, handleGetMsg RMH_Initialize now later unset m2 s' = Some (OK, m3, s3)
        ∧ buf_str (paramValue m3) = "cpe-cpe-" +:+ moca_param i "Alias".
Proof.
  intros Hi Hp Hp2. rewrite (moca_set _ i "Alias" m s Hi Hp).
  change (set_interface RMH_Initialize "Alias" (getInstance s) (set_instance m i)) with (set_Alias (getInstance s) (set_instance m i)).
  unfold set_Alias. do 2 eexists. split; [reflexivity|].
  rewrite (interface_get _ _ _ _ i "Alias" m2 _ Hi Hp2).
  match goal with |- context [get_interface _ _ "Alias" ?m ?x] =>
    change (get_interface RMH_Initialize unset "Alias" m x) with (Some (Some (get_Alias x m, x))) end.
  cbv iota. unfold get_Alias. cbn [mbind option_bind]. do 2 eexists. split; [reflexivity|].
  cbn [getInstance pIface with_iface default from_option id m_i8Alias paramName set_instance]. rewrite Hp.
  pose proof (Utils.dec_length_nine i Hi). assert (has_char NUL (moca_param i "Alias") = false) as Hn.
  { unfold moca_param. rewrite has_char_app. cbn [has_char]. rewrite has_char_app, dec_no_nul. done. }
  assert (String.length (moca_param i "Alias") ≤ 37)%nat as Hl.
  { unfold moca_param. rewrite str_length_app. cbn [String.length]. rewrite str_length_app. cbn [String.length].
    change (String.length "Device.MoCA.Interface") with 21%nat. lia. }
  assert (str_take (N_LENGTH - 2) ("cpe-" +:+ moca_param i "Alias") = "cpe-" +:+ moca_param i "Alias") as ->.
  { apply str_take_all. rewrite str_length_app. cbn [String.length N_LENGTH]. unfold N_LENGTH. lia. }
  change (buf_str (paramValue (snprintf_s (N_LENGTH - 1) (set_instance m2 i) ("cpe-cpe-" +:+ moca_param i "Alias")))
          = "cpe-cpe-" +:+ moca_param i "Alias").
  apply snprintf_text; [by rewrite has_char_app, Hn|]. rewrite str_length_app. cbn [String.length]. unfold N_LENGTH. lia.
Qed.

(** The mask that is answered cannot be set again: read back, every mask is 0. *)
Theorem mask_not_restored i m m2 s r z :
  0 <= i < 10 ^ 9 → paramName m = moca_param i "FreqCurrentMaskSetting" → paramName m2 = paramName m →
  rmh RMH_Initialize = Some r → uint32_of r "RMH_Self_GetFrequencyMask" = Some z →
  ∃ m1 s1, handleGetMsg RMH_Initialize now later unset m s = Some (OK, m1, s1)
    ∧ buf_str (paramValue m1) = hex08 z
    ∧ (paramValue m2 = paramValue m1 →
       ∃ ret m' s', handleSetMsg RMH_Initialize m2 s1 = Some (ret, m', s', [RMH_Self_SetFrequencyMask 0])).
Proof.
  intros Hi Hp Hp2 Hh Hz. rewrite (interface_get _ _ _ _ i "FreqCurrentMaskSetting" m s Hi Hp).
  change (get_interface RMH_Initialize unset "FreqCurrentMaskSetting" (set_instance m i) (getInstance s))
    with (Some (Some (get_FreqCurrentMaskSetting (rmh RMH_Initialize) (set_instance m i), getInstance s))).
  cbv iota. unfold get_FreqCurrentMaskSetting, mask_query. rewrite Hh. cbn [query]. rewrite Hz. cbn [answer_of mbind option_bind].
  do 2 eexists. split; [reflexivity|].
  assert (has_char NUL (hex08 z) = false ∧ String.length (hex08 z) = 10%nat) as [Hn Hl].
  { unfold hex08. split.
    - rewrite has_char_app. cbn [has_char]. cbn [orb]. apply hex_lower_no_nul.
    - rewrite str_length_app, hex_lower_length. done. }
  match goal with |- ?a = _ ∧ _ => assert (a = hex08 z) as Ht end.
  { apply snprintf_text; [done|]. rewrite Hl. unfold TR69HOSTIFMGR_MAX_PARAM_LEN. lia. }
  split; [done|]. intros Hv. rewrite (moca_set _ i "FreqCurrentMaskSetting" m2 _ Hi) by congruence.
  match goal with |- context [set_interface _ _ ?x ?m] =>
    change (set_interface RMH_Initialize "FreqCurrentMaskSetting" x m) with (set_FreqCurrentMaskSetting (rmh RMH_Initialize) x m) end.
  unfold set_FreqCurrentMaskSetting, set_query. rewrite Hh.
  assert (atoi (buf_str (paramValue (set_instance m2 i))) = 0) as ->.
  { cbn [paramValue set_instance]. rewrite Hv, Ht. unfold atoi, strtol. rewrite c_str_no_nul by done.
    unfold hex08. reflexivity. }
  destruct (set_result r _); do 3 eexists; reflexivity.
Qed.

(** A mask in decimal text is the mask that is set. *)
Theorem mask_set i m s r z :
  0 <= i < 10 ^ 9 → paramName m = moca_param i "FreqCurrentMaskSetting" → buf_str (paramValue m) = dec z →
  0 <= z < 2 ^ 31 → rmh RMH_Initialize = Some r →
  ∃ ret m' s', handleSetMsg RMH_Initialize m s = Some (ret, m', s', [RMH_Self_SetFrequencyMask z])
    ∧ ret = if set_result r (RMH_Self_SetFrequencyMask z) then OK else NOK.
Proof.
  intros Hi Hp Hv Hz Hh. rewrite (moca_set _ i "FreqCurrentMaskSetting" m s Hi Hp).
  change (set_interface RMH_Initialize "FreqCurrentMaskSetting" (getInstance s) (set_instance m i))
    with (set_FreqCurrentMaskSetting (rmh RMH_Initialize) (getInstance s) (set_instance m i)).
  unfold set_FreqCurrentMaskSetting, set_query. rewrite Hh. cbn [paramValue set_instance].
  assert (uint32 (atoi (buf_str (paramValue m))) = z) as ->.
  { rewrite Hv. unfold atoi. rewrite strtol_dec by (unfold LONG_MIN, LONG_MAX; lia). cbn [fst].
    rewrite int32_id by lia. apply Z.mod_small. lia. }
  destruct (set_result r _); do 3 eexists; (split; [reflexivity|done]).
Qed.
(** A network that is up and has a coordinator is joined when there is another node. *)
Theorem boot_joined r ncId ncMac l :
  RMH_Self_GetLinkStatus r = Some RMH_LINK_STATUS_UP → uint32_of r "RMH_Network_GetNCNodeId" = Some ncId →
  string_of r "RMH_Network_GetNCMac" = Some ncMac → nodes_of r "RMH_Network_GetNodeIds" = Some l →
  0 < count_present l < 2 ^ 15 →
  (check_MoCABootStatus (Some r)).1 = (if 2 <=? count_present l then OK else NOK)
  ∧ (2 <= count_present l → (check_MoCABootStatus (Some r)).2 = Some "Joined MoCA Network"%string).
Proof.
  intros Hs Hc Hmac Hn Hl. unfold check_MoCABootStatus, get_MoCA_Mesh_NumberOfEntries. cbn [mbind option_bind].
  rewrite Hs. cbn [mbind option_bind]. rewrite Hc. cbn [mbind option_bind]. rewrite Hmac. cbn [mbind option_bind]. rewrite Hn.
  cbv zeta. rewrite (proj2 (Z.eqb_neq (count_present l) 0)) by lia. cbn [snd].
  rewrite Z.pow_2_r. change (2 ^ 15) with 32768 in *.
  assert (0 <= count_present l * count_present l < 2 ^ 30) by nia. rewrite int32_id by lia.
  destruct (Z.leb_spec 2 (count_present l)).
  - by rewrite (proj2 (Z.ltb_lt _ _)) by nia.
  - rewrite (proj2 (Z.ltb_ge _ _)) by nia. split; [done|lia].
Qed.
End settings.

(** ** Rounds *)
Section rounds.
Context (RMH_Initialize : nat → option RMH) (unset : Z).

(** A round reports the devices and links that came or went since the last one. *)
Theorem moca_round s r devices present :
  rmh RMH_Initialize = Some r → nodes_of r "RMH_Network_GetAssociatedIds" = Some devices →
  nodes_of r "RMH_Network_GetNodeIds" = Some present →
  0 < count_present devices < 2 ^ 15 → 0 < count_present present < 2 ^ 15 → mUpdateCallback s = true →
  checkForUpdates RMH_Initialize unset s
  = (Updates.count_changes "Device.MoCA.Interface.1.AssociatedDevice" (curNumOfDevices s) (count_present devices)
     ++ Updates.count_changes "Device.MoCA.Interface.1.X_RDKCENTRAL-COM_MeshTable" (numOfMocaMeshEntries s)
          (Z.of_nat (length (links present))),
     with_counts (with_iface s (getInstance s)) (count_present devices) (Z.of_nat (length (links present)))).
Proof.
  intros Hh Hd Hn Hcd Hcn Hcb. unfold checkForUpdates, get_AssociatedDeviceNumberOfEntries,
    get_X_RDKCENTRAL_COM_MeshTableNumberOfEntries, get_Associated_Device_NumberOfEntries, get_MoCA_Mesh_NumberOfEntries, put_entries.
  rewrite Hh. cbn [mbind option_bind]. rewrite Hd, Hn. cbv zeta.
  rewrite (proj2 (Z.eqb_neq (count_present devices) 0)), (proj2 (Z.eqb_neq (count_present present) 0)) by lia.
  cbn [fst snd default from_option id]. change (OK =? OK) with true. cbv iota.
  cbn [paramValue typed put_number set_len set_paramtype set_value]. rewrite !get_put_int, links_length, Hcb, Z.pow_2_r.
  change (2 ^ 15) with 32768 in *.
  assert (0 <= count_present present * count_present present < 2 ^ 30) by nia.
  by rewrite !int32_id by (rewrite ?int32_id by lia; lia).
Qed.

(** When the last device leaves, or the chip does not answer, nothing is reported and the
    old numbers are kept: the same number of devices later is no news. *)
Theorem last_device_unnoticed s :
  (∀ r l, rmh RMH_Initialize = Some r → nodes_of r "RMH_Network_GetAssociatedIds" = Some l → count_present l = 0) →
  (∀ r l, rmh RMH_Initialize = Some r → nodes_of r "RMH_Network_GetNodeIds" = Some l → count_present l = 0) →
  checkForUpdates RMH_Initialize unset s = ([], with_iface s (getInstance s)).
Proof.
  intros Hd Hn. unfold checkForUpdates, get_AssociatedDeviceNumberOfEntries,
    get_X_RDKCENTRAL_COM_MeshTableNumberOfEntries, get_Associated_Device_NumberOfEntries, get_MoCA_Mesh_NumberOfEntries, put_entries.
  destruct (rmh RMH_Initialize) as [r|]; cbn [mbind option_bind]; [|done].
  destruct (nodes_of r "RMH_Network_GetAssociatedIds") as [l|] eqn:Hl; [rewrite (Hd r l eq_refl Hl)|];
    (destruct (nodes_of r "RMH_Network_GetNodeIds") as [l'|] eqn:Hl'; [rewrite (Hn r l' eq_refl Hl')|]); done.
Qed.
End rounds.

(** ** The handle and the end *)

(** A chip that can be initialised within ten pauses is, after as many pauses as attempts
    that fail; one that cannot makes every request wait for ten seconds. *)
Theorem handle_waited RMH_Initialize c k r :
  c ≠ destroyed_context → (k ≤ MAX_WAIT_FOR_RMH_SECONDS)%nat → (∀ i, (i < k)%nat → RMH_Initialize i = None) →
  (RMH_Initialize k = Some r → getRmhContext RMH_Initialize c = Some (Some r, k, open_context))
  ∧ (k = MAX_WAIT_FOR_RMH_SECONDS → RMH_Initialize k = None →
     getRmhContext RMH_Initialize c = Some (None, MAX_WAIT_FOR_RMH_SECONDS, no_context)).
Proof.
  intros Hc Hk Hnone.
  assert (∀ n, (n ≤ k)%nat → initialize MAX_WAIT_FOR_RMH_SECONDS RMH_Initialize 0
    = initialize (MAX_WAIT_FOR_RMH_SECONDS - n) RMH_Initialize n) as Hrun.
  { induction n as [|n IH]; intros Hn; [done|]. rewrite IH by lia.
    replace (MAX_WAIT_FOR_RMH_SECONDS - n)%nat with (S (MAX_WAIT_FOR_RMH_SECONDS - S n)) by lia.
    cbn [initialize]. by rewrite Hnone by lia. }
  unfold getRmhContext. rewrite (Hrun k) by lia. split.
  - intros Hr. assert (initialize (MAX_WAIT_FOR_RMH_SECONDS - k) RMH_Initialize k = (Some r, k)) as ->.
    { destruct (MAX_WAIT_FOR_RMH_SECONDS - k)%nat; cbn [initialize]; by rewrite Hr. }
    by destruct c.
  - intros -> Hr. rewrite Nat.sub_diag. cbn [initialize]. rewrite Hr. by destruct c.
Qed.

(** After the end both the object and the handle are still kept: a second end, or a
    request for the handle, destroys one of them again. *)
Theorem end_is_final RMH_Initialize x c x' c' r :
  RMH_Initialize O = Some r → c ≠ destroyed_context → x = object_of x' →
  unInit RMH_Initialize x c = Some (deleted, c') →
  c' = destroyed_context ∧ getRmhContext RMH_Initialize c' = None ∧ unInit RMH_Initialize deleted c' = None.
Proof.
  intros Hr Hc -> Hu. unfold unInit, closeRmhContext in Hu. cbn [closeInstance mbind option_bind] in Hu.
  assert (∃ n, getRmhContext RMH_Initialize c = Some (Some r, n, open_context)) as (n & Hg).
  { exists O. unfold getRmhContext, MAX_WAIT_FOR_RMH_SECONDS. cbn [initialize]. rewrite Hr. by destruct c. }
  rewrite Hg in Hu. cbn in Hu. by injection Hu as <-.
Qed.

(** ** Attributes *)

(** An attribute that was set is read back; one that was not ends the daemon. *)
Theorem moca_attribute_kept str_hash m m2 s :
  m_notifyHash s = no_table →
  (handleGetAttributesMsg str_hash m s = None)
  ∧ (paramName m2 = paramName m →
     ∃ m1 s1 m3 s2, handleSetAttributesMsg str_hash m s = Some (OK, m1, s1)
       ∧ handleGetAttributesMsg str_hash m2 s1 = Some (OK, m3, s2) ∧ get_int (paramValue m3) = 1).
Proof.
  intros Hn. split; [unfold handleGetAttributesMsg; cbn [m_notifyHash with_iface]; by rewrite Hn|]. intros Hname.
  destruct (kept_attributes str_hash [paramName m] (paramName m)) as (t & Ht & Hg).
  cbn [set_attributes foldl mbind option_bind] in Ht. rewrite decide_True in Hg by left.
  unfold handleSetAttributesMsg. cbn [m_notifyHash with_iface]. rewrite Hn. cbn [made].
  unfold set_attributes in Ht. cbn [foldl mbind option_bind] in Ht. rewrite Ht. cbn [mbind option_bind].
  do 4 eexists. split; [reflexivity|]. unfold handleGetAttributesMsg. cbn [m_notifyHash with_notify with_iface made].
  rewrite Hname, Hg. cbn [mbind option_bind]. split; [reflexivity|]. cbn [paramValue set_paramtype set_value].
  apply get_put_int.
Qed.

(** ** A network of three nodes *)
Section example.

Definition toy_rate (i j : nat) : Z := Z.of_nat (100 * i + j).
Definition toy_mesh : RMH_NodeMesh := mkMesh [true; false; true; true; false] toy_rate.
Definition toy_rmh : RMH :=
  mkRmh (λ f, if streq f "RMH_Network_GetNodeId" then Some 2 else None) (λ _, Some true) (λ _, None)
        (λ f, Some (if streq f "RMH_Network_GetNodeIds" then [true; false; true; true; false]
                    else [true; false; false; true; false]))
        (λ f, if streq f "RMH_Network_GetTxUnicastPhyRate" then Some toy_mesh else None)
        (Some RMH_LINK_STATUS_UP) (Some [16; 300]) (λ _, "2.0"%string) (λ k, if k =? 1 then Some 3 else None)
        (λ _ node, Some (node * 10)) (λ _ _, None) (λ _ _, None) (λ _, None) (λ _, true).

Definition moca_request (name : string) : HOSTIF_MsgData_t := Webpa.mk_request name hostIf_StringType zero_msg.
Definition toy_get (name : string) : option (Z * HOSTIF_MsgData_t * state) :=
  handleGetMsg (λ _, Some toy_rmh) 100 101 0 (moca_request name) initial.

Example third_link :
  (λ r, get_int (paramValue r.1.2)) <$> toy_get "Device.MoCA.Interface.1.X_RDKCENTRAL-COM_MeshTable.3.MeshPHYTxRate" = Some 200.
Proof. vm_compute. reflexivity. Qed.

Example supported_frequencies :
  (λ r, buf_str (paramValue r.1.2)) <$> toy_get "Device.MoCA.Interface.1.FreqCapabilityMask" = Some "0x1012C"%string.
Proof. vm_compute. reflexivity. Qed.

(** The direction of the interface is known only after it was asked whether it is
    enabled. *)
Example upstream_after_enable :
  let ask name s := handleGetMsg (λ _, Some toy_rmh) 100 101 0 (moca_request name) s in
  (λ r, get_boolean (paramValue r.1.2)) <$> ask "Device.MoCA.Interface.1.Upstream" initial = Some false
  ∧ (λ r, get_boolean (paramValue r.1.2))
      <$> ('(_, _, s) ← ask "Device.MoCA.Interface.1.Enable" initial; ask "Device.MoCA.Interface.1.Upstream" s) = Some true.
Proof. vm_compute. split; reflexivity. Qed.

Lemma mesh_links_witness :
  ∃ m', toy_get "Device.MoCA.Interface.1.X_RDKCENTRAL-COM_MeshTableNumberOfEntries"
        = Some (OK, m', with_iface initial (getInstance initial))
    ∧ get_int (paramValue m') = 6.
Proof.
  destruct (mesh_links (λ _, Some toy_rmh) 100 101 0 toy_rmh toy_mesh
              (moca_request "Device.MoCA.Interface.1.X_RDKCENTRAL-COM_MeshTableNumberOfEntries") initial
              eq_refl eq_refl eq_refl) as (rows & Hnd & Hrows & Hcount & _).
  destruct (Hcount 1) as (m' & Hm & Hv); [lia|reflexivity|reflexivity|vm_compute; split; reflexivity|].
  exists m'. split; [exact Hm|]. vm_compute in Hm. injection Hm as <-. reflexivity.
Defined.
End example.

End MoCAClientReqHandler.
