(* ===== verification/DeviceInfo.v ===== *)
(** * The Device.DeviceInfo profile: its state and its remote-configuration part

    [hostIf_DeviceInfo] models what profiles/DeviceInfo/Device_DeviceInfo.cpp
    does with the RFC stores and the bootstrap store: the choice of the store,
    the validation of the values, ClearDB and ClearDBEnd, the actions that some
    parameters trigger, and the mutex of the profile.  The getters and setters
    that ask the platform are the interface [DeviceProfile]. *)
From stdpp Require Import base list strings gmap.
From Stdlib Require Import Ascii ZArith Lia.
From S2P Require Import Prelude HostIf FileStore IniFile RFCStore BSJournal BSStore MsgHandler.

#[local] Arguments streq : simpl never.

(** ** Names of Device_DeviceInfo.h *)
Definition XRDK_BOOT_TIME : string := "Device.DeviceInfo.X_RDKCENTRAL-COM_BootTime".
Definition xFirmwareDownloadNow_STR : string := "Device.DeviceInfo.X_RDKCENTRAL-COM_FirmwareDownloadNow".
Definition X_RDKCENTRAL_COM_LastRebootReason : string := "Device.DeviceInfo.X_RDKCENTRAL-COM_LastRebootReason".
Definition X_RDKCENTRAL_COM_Experience : string := "Device.DeviceInfo.X_RDKCENTRAL-COM_Experience".
Definition X_RDK_FirmwareName : string := "Device.DeviceInfo.X_RDK_FirmwareName".
Definition X_RDKDownloadManager_InstallPackage : string :=
  "Device.DeviceInfo.X_RDKCENTRAL-COM_RDKDownloadManager.InstallPackage".
Definition X_RDKDownloadManager_DownloadStatus : string :=
  "Device.DeviceInfo.X_RDKCENTRAL-COM_RDKDownloadManager.DownloadStatus".
Definition X_RDKDownloadManager_PackageInstallPath : string :=
  "Device.DeviceInfo.X_RDKCENTRAL-COM_RDKDownloadManager.PackageInstallPath".
Definition X_RDKDownloadManager_PackageExpiryTime : string :=
  "Device.DeviceInfo.X_RDKCENTRAL-COM_RDKDownloadManager.PackageExpiryTime".
Definition xOpsDMUploadLogsNow_STR : string :=
  "Device.DeviceInfo.X_RDKCENTRAL-COM_xOpsDeviceMgmt.Logging.xOpsDMUploadLogsNow".
Definition xOpsDMLogsUploadStatus_STR : string :=
  "Device.DeviceInfo.X_RDKCENTRAL-COM_xOpsDeviceMgmt.Logging.xOpsDMLogsUploadStatus".
Definition xOpsDMMoCALogEnabled : string :=
  "Device.DeviceInfo.X_RDKCENTRAL-COM_xOpsDeviceMgmt.Logging.xOpsDMMoCALogEnabled".
Definition xOpsDMMoCALogPeriod : string :=
  "Device.DeviceInfo.X_RDKCENTRAL-COM_xOpsDeviceMgmt.Logging.xOpsDMMoCALogPeriod".
Definition xOpsReverseSshTrigger_STR : string :=
  "Device.DeviceInfo.X_RDKCENTRAL-COM_xOpsDeviceMgmt.ReverseSSH.xOpsReverseSshTrigger".
Definition xOpsReverseSshArgs_STR : string :=
  "Device.DeviceInfo.X_RDKCENTRAL-COM_xOpsDeviceMgmt.ReverseSSH.xOpsReverseSshArgs".
Definition xOpsReverseSshStatus_STR : string :=
  "Device.DeviceInfo.X_RDKCENTRAL-COM_xOpsDeviceMgmt.ReverseSSH.xOpsReverseSshStatus".
Definition xOpsForwardSshEnable_STR : string :=
  "Device.DeviceInfo.X_RDKCENTRAL-COM_xOpsDeviceMgmt.ForwardSSH.Enable".
Definition X_OPS_RPC_PROFILE : string := "Device.DeviceInfo.X_RDKCENTRAL-COM_xOpsDeviceMgmt.RPC.".
Definition TR181_RFC_PREFIX : string := "Device.DeviceInfo.X_RDKCENTRAL-COM_RFC".
Definition TR181_RFC_RESET_DATA_START : string := "Device.DeviceInfo.X_RDKCENTRAL-COM_RFC.Control.ClearDB".
Definition TR181_RFC_RESET_DATA_END : string := "Device.DeviceInfo.X_RDKCENTRAL-COM_RFC.Control.ClearDBEnd".
Definition RFC_WL_ROAM_TRIGGER_RF : string := "Device.DeviceInfo.X_RDKCENTRAL-COM_RFC.Feature.RoamTrigger".
Definition MS12_DAPV2_RFC_ENABLE : string := "Device.DeviceInfo.X_RDKCENTRAL-COM_RFC.Feature.MS12.DAPv2_Enable".
Definition MS12_DE_RFC_ENABLE : string := "Device.DeviceInfo.X_RDKCENTRAL-COM_RFC.Feature.MS12.DE_Enable".
Definition LE_RFC_ENABLE : string :=
  "Device.DeviceInfo.X_RDKCENTRAL-COM_RFC.Feature.LoudnessEquivalence.Enable".
Definition DAB_RFC_ENABLE : string := "Device.DeviceInfo.X_RDKCENTRAL-COM_RFC.Feature.DAB.Enable".
Definition TR181_AUTOREBOOT_ENABLE : string := "Device.DeviceInfo.X_RDKCENTRAL-COM_RFC.Feature.AutoReboot.Enable".
Definition RFC_CTL_RETRIEVE_NOW : string := "Device.DeviceInfo.X_RDKCENTRAL-COM_RFC.Control.RetrieveNow".
Definition IPREMOTE_SUPPORT : string := "Device.DeviceInfo.X_RDKCENTRAL-COM_IPRemoteSupport.Enable".
Definition IPREMOTE_IPADDRESS : string := "Device.DeviceInfo.X_RDKCENTRAL-COM_IPRemoteSupport.IPAddr".
Definition IPREMOTE_MACADDRESS : string := "Device.DeviceInfo.X_RDKCENTRAL-COM_IPRemoteSupport.MACAddr".
Definition XRPOLLING_ACTION : string := "Device.DeviceInfo.X_RDKCENTRAL-COM_XRPolling.Action".
Definition PARTNER_ID : string := "Device.DeviceInfo.X_RDKCENTRAL-COM_Syndication.PartnerId".
Definition FWDNLD_DEFER_REBOOT : string := "Device.DeviceInfo.X_RDKCENTRAL-COM_FirmwareDownloadDeferReboot".
Definition IUI_VERSION : string := "Device.DeviceInfo.X_RDKCENTRAL-COM.IUI.Version".
Definition IUI_APPSVERSION : string := "Device.DeviceInfo.X_RDKCENTRAL-COM.IUI.AppsVersion".
Definition RDK_REMOTE_DEBUGGER_ISSUETYPE : string :=
  "Device.DeviceInfo.X_RDKCENTRAL-COM_RFC.Feature.RDKRemoteDebugger.IssueType".
Definition RDK_REMOTE_DEBUGGER_WEBCFGDATA : string :=
  "Device.DeviceInfo.X_RDKCENTRAL-COM_RFC.Feature.RDKRemoteDebugger.WebCfgData".
Definition DISTRIBUTED_TRACING_RFC_ENABLE : string :=
  "Device.DeviceInfo.X_RDKCENTRAL-COM_RFC.Feature.DistributedTracing.Enable".
Definition DISTRIBUTED_TRACING_RFC_URL : string :=
  "Device.DeviceInfo.X_RDKCENTRAL-COM_RFC.Feature.DistributedTracing.URL".
Definition DISTRIBUTED_TRACING_RFC_INTERVAL : string :=
  "Device.DeviceInfo.X_RDKCENTRAL-COM_RFC.Feature.DistributedTracing.Interval".
Definition MAX_DISTRIBUTED_TRACING_INTERVAL_MINUTES : Z := 71582.
Definition RDK_REBOOTSTOP_ENABLE : string := "Device.DeviceInfo.X_RDKCENTRAL-COM_RFC.Feature.RebootStop.Enable".
Definition APPARMOR_BLOCKLIST_PROCESS : string :=
  "Device.DeviceInfo.X_RDKCENTRAL-COM_RFC.Feature.NonRootSupport.ApparmorBlocklist".
Definition CANARY_START_TIME : string := "Device.DeviceInfo.X_RDKCENTRAL-COM_RFC.Feature.Canary.wakeUpStart".
Definition CANARY_END_TIME : string := "Device.DeviceInfo.X_RDKCENTRAL-COM_RFC.Feature.Canary.wakeUpEnd".
Definition MEMINSIGHT_TRIGGER : string := "Device.DeviceInfo.X_RDKCENTRAL-COM_RFC.Feature.meminsight.Trigger".
Definition HOTEL_CHECKOUT_LAST_RESET_TIME : string :=
  "Device.DeviceInfo.X_RDKCENTRAL-COM_xAccount.HotelCheckout.LastResetTime".
Definition HOTEL_CHECKOUT_STATUS : string := "Device.DeviceInfo.X_RDKCENTRAL-COM_xAccount.HotelCheckout.Status".
Definition RFC_DBG_SERVICES : string := "Device.DeviceInfo.X_RDKCENTRAL-COM_RFC.Identity.DbgServices.Enable".
Definition RFC_DEVICE_TYPE : string := "Device.DeviceInfo.X_RDKCENTRAL-COM_RFC.Identity.DeviceType".
Definition TR069DOSLIMIT_THRESHOLD : string :=
  "Device.DeviceInfo.X_RDKCENTRAL-COM_RFC.Feature.Tr069DoSLimit.Threshold".
Definition MIN_TR69_DOS_THRESHOLD : Z := 0.
Definition MAX_TR69_DOS_THRESHOLD : Z := 30.
Definition NEWNTP_ENABLE : string := "Device.DeviceInfo.X_RDKCENTRAL-COM_RFC.Feature.newNTP.Enable".
Definition VIDEO_TELEMETRY_FREQUENCY : string :=
  "Device.DeviceInfo.X_RDKCENTRAL-COM_RFC.Feature.VideoTelemetry.FrequncyMinutes".
Definition ACCOUNT_ID : string := "Device.DeviceInfo.X_RDKCENTRAL-COM_RFC.Feature.AccountInfo.AccountID".

(** ** The setters of the profile, and what the RFC setter triggers *)
Inductive setter : Type :=
  | set_Device_DeviceInfo_X_RDKCENTRAL_COM_Reset
  | set_Device_DeviceInfo_X_RDKCENTRAL_COM_FirmwareToDownload
  | set_Device_DeviceInfo_X_RDKCENTRAL_COM_FirmwareDownloadStatus
  | set_Device_DeviceInfo_X_COMCAST_COM_FirmwareDownloadProtocol
  | set_Device_DeviceInfo_X_COMCAST_COM_FirmwareDownloadURL
  | set_Device_DeviceInfo_X_RDKCENTRAL_COM_PreferredGatewayType
  | set_xOpsDMUploadLogsNow | set_xOpsDMMoCALogEnabled | set_xOpsDMMoCALogPeriod
  | set_xOpsReverseSshTrigger | set_xOpsReverseSshArgs | set_xOpsRPC_Profile
  | set_xOpsDeviceMgmtForwardSSHEnable
  | set_xRDKDownloadManager_InstallPackage | set_xRDKDownloadManager_DownloadStatus
  | set_xRDKDownloadManager_PackageInstallPath | set_xRDKDownloadManager_PackageExpiryTime
  | set_Device_DeviceInfo_X_RDKCENTRAL_COM_IPRemoteSupportEnable
  | set_Device_DeviceInfo_X_RDKCENTRAL_COM_Syndication_PartnerId
  | set_Device_DeviceInfo_X_RDKCENTRAL_COM_XRPollingAction
  | set_xFirmwareDownloadNow
  | set_Device_DeviceInfo_X_RDKCENTRAL_COM_FirmwareDownloadUseCodebig
  | set_Device_DeviceInfo_X_RDKCENTRAL_COM_FirmwareDownloadDeferReboot
  | set_Device_DeviceInfo_IUI_Version | set_Device_DeviceInfo_IUI_AppsVersion
  | xBT_handleSetMsg
  | set_xRDKCentralComRFCRoamTrigger | enableMS12Config_DAPV2 | enableMS12Config_DE
  | set_xRDKCentralComRFCLoudnessEquivalenceEnable | set_xRDKCentralComDABRFCEnable
  | set_xRDKCentralComRFCRetrieveNow | set_xRDKCentralComApparmorBlocklist
  | set_Device_DeviceInfo_X_RDKCENTRAL_COM_RDKRemoteDebuggerIssueType
  | set_Device_DeviceInfo_X_RDKCENTRAL_COM_RDKRemoteDebuggerWebCfgData
  | set_Device_DeviceInfo_X_RDKCENTRAL_COM_Canary_wakeUpStart
  | set_Device_DeviceInfo_X_RDKCENTRAL_COM_Canary_wakeUpEnd
  | set_Device_DeviceInfo_X_RDKCENTRAL_COM_MemInsight_Trigger
  | set_Device_DeviceInfo_X_RDKCENTRAL_COM_RebootStopEnable
  | set_xRDKCentralComRFCVideoTelFreq | set_xRDKCentralComRFCAutoRebootEnable
  | set_xRDKCentralComNewNtpEnable
  | set_xRDKCentralComRFCDistributedTracingEnable | set_xRDKCentralComRFCDistributedTracingURL
  | set_xRDKCentralComRFCDistributedTracingInterval | set_xRDKCentralComRFCSecureDebugState.

(** The getters. *)
Inductive getter : Type :=
  | get_Device_DeviceInfo_ProcessStatus_Process_PID | get_Device_DeviceInfo_ProcessStatus_Process_Command
  | get_Device_DeviceInfo_ProcessStatus_Process_Size | get_Device_DeviceInfo_ProcessStatus_Process_Priority
  | get_Device_DeviceInfo_ProcessStatus_Process_CPUTime | get_Device_DeviceInfo_ProcessStatus_Process_State
  | get_Device_DeviceInfo_Processor_Architecture
  | getNumOfProcessEntries | get_Device_DeviceInfo_ProcessStatus_CPUUsage
  | get_xOpsDeviceMgmtForwardSSHEnable | get_xOpsReverseSshStatus | get_ApparmorBlockListStatus
  | xBT_handleGetMsg
  | get_Device_DeviceInfo_X_RDKCENTRAL_COM_BootStatus
  | get_Device_DeviceInfo_X_RDKCENTRAL_COM_PreferredGatewayType
  | get_Device_DeviceInfo_Manufacturer | get_Device_DeviceInfo_ManufacturerOUI
  | get_Device_DeviceInfo_ModelName | get_Device_DeviceInfo_Description
  | get_Device_DeviceInfo_ProductClass | get_Device_DeviceInfo_SerialNumber
  | get_Device_DeviceInfo_HardwareVersion | get_Device_DeviceInfo_SoftwareVersion
  | get_Device_DeviceInfo_MigrationPreparer_MigrationReady
  | get_Device_DeviceInfo_Migration_MigrationStatus
  | get_Device_DeviceInfo_IUI_Version | get_Device_DeviceInfo_IUI_AppsVersion
  | get_Device_DeviceInfo_AdditionalHardwareVersion | get_Device_DeviceInfo_AdditionalSoftwareVersion
  | get_Device_DeviceInfo_ProvisioningCode | get_Device_DeviceInfo_UpTime | get_Device_DeviceInfo_FirstUseDate
  | get_Device_DeviceInfo_X_COMCAST_COM_STB_MAC | get_Device_DeviceInfo_X_COMCAST_COM_STB_IP
  | get_Device_DeviceInfo_X_RDKCENTRAL_COM_FirmwareFilename
  | get_Device_DeviceInfo_X_RDKCENTRAL_COM_FirmwareToDownload
  | get_Device_DeviceInfo_X_RDKCENTRAL_COM_FirmwareDownloadStatus
  | get_Device_DeviceInfo_X_COMCAST_COM_FirmwareDownloadURL
  | get_Device_DeviceInfo_X_COMCAST_COM_FirmwareDownloadProtocol
  | get_Device_DeviceInfo_X_RDKCENTRAL_COM_FirmwareDownloadUseCodebig
  | get_Device_DeviceInfo_X_COMCAST_COM_FirmwareDownloadPercent
  | get_Device_DeviceInfo_X_RDKCENTRAL_COM_FirmwareUpdateState
  | get_Device_DeviceInfo_X_RDKCENTRAL_COM_Reset | get_Device_DeviceInfo_X_COMCAST_COM_PowerStatus
  | get_Device_DeviceInfo_VendorConfigFileNumberOfEntries
  | get_Device_DeviceInfo_SupportedDataModelNumberOfEntries
  | get_Device_DeviceInfo_ProcessorNumberOfEntries | get_Device_DeviceInfo_VendorLogFileNumberOfEntries
  | get_Device_DeviceInfo_MemoryStatus_Total | get_Device_DeviceInfo_MemoryStatus_Free
  | get_Device_DeviceInfo_X_RDKCENTRAL_COM_CPUTemp | get_xOpsDMLogsUploadStatus
  | get_xOpsDMMoCALogEnabled | get_xOpsDMMoCALogPeriod
  | get_xRDKDownloadManager_PackageInstallPath | get_xRDKDownloadManager_PackageExpiryTime
  | get_xOpsDMUploadLogsNow | get_Device_DeviceInfo_X_RDKCENTRAL_COM_IPRemoteSupportEnable
  | get_Device_DeviceInfo_X_RDKCENTRAL_COM_IPRemoteSupportIpaddress
  | get_Device_DeviceInfo_X_RDKCENTRAL_COM_IPRemoteSupportMACaddress
  | get_Device_DeviceInfo_X_RDKCENTRAL_COM_Syndication_PartnerId
  | get_Device_DeviceInfo_X_RDKCENTRAL_COM_XRPollingAction
  | get_X_RDKCENTRAL_COM_BootTime | get_xOpsRPC_Profile | get_X_RDKCENTRAL_COM_LastRebootReason
  | get_X_RDKCENTRAL_COM_experience | get_Device_DeviceInfo_X_RDKCENTRAL_COM_FirmwareDownloadDeferReboot
  | get_X_RDK_FirmwareName | get_HotelCheckoutLastResetTime | get_HotelCheckoutStatus
  | get_xRDKCentralComRFCAccountId.

#[export] Instance setter_eq_dec : EqDecision setter.
Proof. solve_decision. Defined.
#[export] Instance getter_eq_dec : EqDecision getter.
Proof. solve_decision. Defined.

Module hostIf_DeviceInfo.

(** The build and start-up choices: the preprocessor symbols and the flag that
    hostIf_main.cpp sets from the presence of a file. *)
Record options := mkOptions {
  NEW_HTTP_SERVER_DISABLE : bool;
  legacyRFC : bool;
  USE_XRDK_BT_PROFILE : bool;
  USE_REMOTE_DEBUGGER : bool;
  ENABLE_VIDEO_TELEMETRY : bool
}.

(** The statics of the class, the files, and what the platform keeps.  The stores
    are NULL until the profile's object is made. *)
Record profile (P : Type) := mkProfile {
  object0 : bool;
  m_rfcStore : option XRFCStore.t;
  m_rfcStorage : XRFCStorage.t;
  m_bsStore : option XBSStore.t;
  files : env;
  platform : P
}.
#[global] Arguments mkProfile {P}.
#[global] Arguments object0 {P}.
#[global] Arguments m_rfcStore {P}.
#[global] Arguments m_rfcStorage {P}.
#[global] Arguments m_bsStore {P}.
#[global] Arguments files {P}.
#[global] Arguments platform {P}.

Definition set_rfcStore {P} (p : profile P) (x : XRFCStore.t) (w : env) : profile P :=
  mkProfile (object0 p) (Some x) (m_rfcStorage p) (m_bsStore p) w (platform p).
Definition set_rfcStorage {P} (p : profile P) (x : XRFCStorage.t) (w : env) : profile P :=
  mkProfile (object0 p) (m_rfcStore p) x (m_bsStore p) w (platform p).
Definition set_bsStore {P} (p : profile P) (x : XBSStore.t) (w : env) : profile P :=
  mkProfile (object0 p) (m_rfcStore p) (m_rfcStorage p) (Some x) w (platform p).
Definition set_platform {P} (p : profile P) (q : P) : profile P :=
  mkProfile (object0 p) (m_rfcStore p) (m_rfcStorage p) (m_bsStore p) (files p) q.

(** What the handlers use of the rest of the profile: a getter or a setter
    answers or throws, [notifyIARM] broadcasts a change on the bus and
    [sendDeviceMgtNotification] queues a notification. *)
Class DeviceProfile := {
  pstate : Type;
  call_set : setter → HOSTIF_MsgData_t → profile pstate → outcome (profile pstate);
  call_get : getter → HOSTIF_MsgData_t → profile pstate → outcome (profile pstate);
  notifyIARM : string → string → HostIf_ParamType_t → pstate → pstate;
  sendDeviceMgtNotification : string → string → pstate → pstate
}.

Section profile.
Context `{UMapOrder} `{CJson} `{DeviceProfile} (o : options).

(** [legacyRFCEnabled()], or the build has no other store. *)
Definition old_storage : bool := NEW_HTTP_SERVER_DISABLE o || legacyRFC o.

(** [getInstance(0)]: the constructor takes the stores' single objects, making
    them on first use.  [None]: undefined behaviour in a store's constructor. *)
Definition getInstance (p : profile pstate) : option (profile pstate) :=
  if object0 p then Some p
  else
    let p1 := if old_storage then p
              else match m_rfcStore p with
                   | Some _ => p
                   | None => let '(x, w) := XRFCStore.new (files p) in set_rfcStore p x w
                   end in
    p2 ← (match m_bsStore p1 with
          | Some _ => Some p1
          | None => r ← XBSStore.new (files p1); let '(x, w) := r in Some (set_bsStore p1 x w)
          end);
    Some (mkProfile true (m_rfcStore p2) (m_rfcStorage p2) (m_bsStore p2) (files p2) (platform p2)).

(** ** Bootstrap parameters *)
Definition set_xRDKCentralComBootstrap (m : HOSTIF_MsgData_t) (p : profile pstate)
  : option (outcome (profile pstate)) :=
  x ← m_bsStore p;
  r ← XBSStore.overrideValue x (files p) m;
  let '(f, x', m', w') := r in Some (Returned (faultCode_val f) m' (set_bsStore p x' w')).

Definition get_xRDKCentralComBootstrap (m : HOSTIF_MsgData_t) (p : profile pstate)
  : option (outcome (profile pstate)) :=
  x ← m_bsStore p;
  r ← XBSStore.getValue x (files p) m;
  let '(f, x', m', w') := r in Some (Returned (faultCode_val f) m' (set_bsStore p x' w')).

(** ** Validation *)
Definition validate_ParamValue (m : HOSTIF_MsgData_t) : Z * HOSTIF_MsgData_t :=
  if strcaseeq (paramName m) DISTRIBUTED_TRACING_RFC_INTERVAL then
    if decide (paramtype m = hostIf_UnsignedIntType) then
      let intervalMinutes := get_uint (paramValue m) in
      if (intervalMinutes =? 0) || (MAX_DISTRIBUTED_TRACING_INTERVAL_MINUTES <? intervalMinutes)
      then (NOK, set_fault m fcInvalidParameterValue)
      else (OK, m)
    else (NOK, set_fault m fcInvalidParameterType)
  else if strcaseeq (paramName m) TR069DOSLIMIT_THRESHOLD then
    let check tmpVal :=
      if (tmpVal <? MIN_TR69_DOS_THRESHOLD) || (MAX_TR69_DOS_THRESHOLD <? tmpVal)
      then (NOK, set_fault m fcInvalidParameterValue) else (OK, m) in
    match paramtype m with
    | hostIf_StringType => check (strtol (buf_str (paramValue m))).1
    | hostIf_UnsignedIntType => check (get_uint (paramValue m))
    | _ => (NOK, set_fault m fcInvalidParameterType)
    end
  else (OK, m).

(** ** RFC parameters *)

(** The value of ClearDB and ClearDBEnd. *)
Definition is_true (v : string) : bool := strcaseeq (c_str v) "true" || streq (c_str v) "1".

(** The store's part of a set. *)
Definition rfc_store (m : HOSTIF_MsgData_t) (p : profile pstate)
  : option (Z * HOSTIF_MsgData_t * profile pstate) :=
  if strcaseeq (paramName m) TR181_RFC_RESET_DATA_START then
    if old_storage then
      let '(x, w) := XRFCStorage.clearAll (m_rfcStorage p) (files p) in Some (NOK, m, set_rfcStorage p x w)
    else
      v ← getStringValue m;
      if is_true v then
        x ← m_rfcStore p;
        let '(x', w') := XRFCStore.clearAll x (files p) in
        Some (OK, set_fault m fcNoFault, set_rfcStore p x' w')
      else Some (NOK, set_fault m fcInternalError, p)
  else if strcaseeq (paramName m) TR181_RFC_RESET_DATA_END then
    if old_storage then Some (NOK, m, p)
    else
      v ← getStringValue m;
      if is_true v then
        x ← m_rfcStore p;
        let '(x', w') := XRFCStore.reloadCache x (files p) in
        let p' := set_rfcStore p x' w' in
        Some (NOK, set_fault m fcNoFault, set_platform p' (sendDeviceMgtNotification "rfc" "initial" (platform p')))
      else Some (NOK, set_fault m fcInternalError, p)
  else
    let '(valid, m1) := validate_ParamValue m in
    if valid =? OK then
      if old_storage then
        r ← XRFCStorage.setValue (m_rfcStorage p) (files p) m1;
        let '(ret, x', w') := r in Some (ret, m1, set_rfcStorage p x' w')
      else
        x ← m_rfcStore p;
        r ← XRFCStore.setValue x (files p) m1;
        let '(f, x', m', w') := r in Some (faultCode_val f, m', set_rfcStore p x' w')
    else Some (NOK, if decide (faultCode m1 = fcInvalidParameterType) then m1
                    else set_fault m1 fcInvalidParameterValue, p).

(** The action that the parameter's name triggers after it has been stored. *)
Definition rfc_action (ret : Z) (n : string) : option setter :=
  if strcaseeq n RFC_WL_ROAM_TRIGGER_RF then Some set_xRDKCentralComRFCRoamTrigger
  else if strcaseeq n MS12_DAPV2_RFC_ENABLE then Some enableMS12Config_DAPV2
  else if strcaseeq n MS12_DE_RFC_ENABLE then Some enableMS12Config_DE
  else if strcaseeq n LE_RFC_ENABLE then Some set_xRDKCentralComRFCLoudnessEquivalenceEnable
  else if strcaseeq n DAB_RFC_ENABLE then Some set_xRDKCentralComDABRFCEnable
  else if strcaseeq n RFC_CTL_RETRIEVE_NOW then Some set_xRDKCentralComRFCRetrieveNow
  else if strcaseeq n APPARMOR_BLOCKLIST_PROCESS then Some set_xRDKCentralComApparmorBlocklist
  else if USE_REMOTE_DEBUGGER o && strcaseeq n RDK_REMOTE_DEBUGGER_ISSUETYPE
  then Some set_Device_DeviceInfo_X_RDKCENTRAL_COM_RDKRemoteDebuggerIssueType
  else if USE_REMOTE_DEBUGGER o && strcaseeq n RDK_REMOTE_DEBUGGER_WEBCFGDATA
  then Some set_Device_DeviceInfo_X_RDKCENTRAL_COM_RDKRemoteDebuggerWebCfgData
  else if strcaseeq n X_RDKDownloadManager_InstallPackage then Some set_xRDKDownloadManager_InstallPackage
  else if strcaseeq n X_RDKDownloadManager_DownloadStatus then Some set_xRDKDownloadManager_DownloadStatus
  else if strcaseeq n X_RDKDownloadManager_PackageInstallPath
  then Some set_xRDKDownloadManager_PackageInstallPath
  else if strcaseeq n X_RDKDownloadManager_PackageExpiryTime
  then Some set_xRDKDownloadManager_PackageExpiryTime
  else if strcaseeq n CANARY_START_TIME then Some set_Device_DeviceInfo_X_RDKCENTRAL_COM_Canary_wakeUpStart
  else if strcaseeq n CANARY_END_TIME then Some set_Device_DeviceInfo_X_RDKCENTRAL_COM_Canary_wakeUpEnd
  else if strcaseeq n MEMINSIGHT_TRIGGER then Some set_Device_DeviceInfo_X_RDKCENTRAL_COM_MemInsight_Trigger
  else if strcaseeq n RDK_REBOOTSTOP_ENABLE then Some set_Device_DeviceInfo_X_RDKCENTRAL_COM_RebootStopEnable
  else if ENABLE_VIDEO_TELEMETRY o && strcaseeq n VIDEO_TELEMETRY_FREQUENCY
  then Some set_xRDKCentralComRFCVideoTelFreq
  else if strcaseeq n TR181_AUTOREBOOT_ENABLE then Some set_xRDKCentralComRFCAutoRebootEnable
  else if strcaseeq n NEWNTP_ENABLE then Some set_xRDKCentralComNewNtpEnable
  else if strcaseeq n DISTRIBUTED_TRACING_RFC_ENABLE then Some set_xRDKCentralComRFCDistributedTracingEnable
  else if strcaseeq n DISTRIBUTED_TRACING_RFC_URL then Some set_xRDKCentralComRFCDistributedTracingURL
  else if strcaseeq n DISTRIBUTED_TRACING_RFC_INTERVAL
  then Some set_xRDKCentralComRFCDistributedTracingInterval
  else if (ret =? OK) && (strcaseeq n RFC_DBG_SERVICES || strcaseeq n RFC_DEVICE_TYPE)
  then Some set_xRDKCentralComRFCSecureDebugState
  else None.

(** The two MS12 actions keep the store's answer, the others replace it. *)
Definition set_xRDKCentralComRFC (m : HOSTIF_MsgData_t) (p : profile pstate)
  : option (outcome (profile pstate)) :=
  r ← rfc_store m p;
  let '(ret, m1, p1) := r in
  Some (match rfc_action ret (paramName m1) with
        | None => Returned ret m1 p1
        | Some a =>
            match call_set a m1 p1 with
            | Returned ret2 m2 p2 =>
                Returned (if decide (a = enableMS12Config_DAPV2 ∨ a = enableMS12Config_DE) then ret else ret2) m2 p2
            | Threw m2 p2 => Threw m2 p2
            end
        end).

Definition rfc_fetch (m : HOSTIF_MsgData_t) (p : profile pstate)
  : option (Z * HOSTIF_MsgData_t * profile pstate) :=
  if old_storage then
    let '(ret, x', m') := XRFCStorage.getValue (m_rfcStorage p) (files p) m in
    Some (ret, m', set_rfcStorage p x' (files p))
  else
    x ← m_rfcStore p;
    let '(f, x', m', w') := XRFCStore.getValue x (files p) m in
    Some (faultCode_val f, m', set_rfcStore p x' w').

(** The account of a device that does not know it is asked from the authentication
    service and kept in the old storage. *)
Definition get_xRDKCentralComRFC (m : HOSTIF_MsgData_t) (p : profile pstate)
  : option (outcome (profile pstate)) :=
  r ← rfc_fetch m p;
  let '(ret, m1, p1) := r in
  let v := buf_str (paramValue m1) in
  if strcaseeq (paramName m1) ACCOUNT_ID && (is_empty v || strcaseeq v "unknown") then
    match call_get get_xRDKCentralComRFCAccountId m1 p1 with
    | Returned ret2 m2 p2 =>
        if ret2 =? OK then
          r ← XRFCStorage.setValue (m_rfcStorage p2) (files p2) m2;
          let '(_, x, w) := r in Some (Returned OK m2 (set_rfcStorage p2 x w))
        else Some (Returned ret2 m2 p2)
    | Threw m2 p2 => Some (Threw m2 p2)
    end
  else Some (Returned ret m1 p1).

(** ** Properties *)

(** The limits that are checked before a value is stored: a tracing interval is
    an unsigned number from 1 to 71582; a threshold is an unsigned number up to
    30, or a text that strtol reads as a number from 0 to 30, which it does for
    every text that does not start with a number. *)
Theorem rfc_limits m :
  let accepted := (validate_ParamValue m).1 = OK in
  (strcaseeq (paramName m) DISTRIBUTED_TRACING_RFC_INTERVAL = true →
   accepted ↔ paramtype m = hostIf_UnsignedIntType ∧ 1 <= get_uint (paramValue m) <= 71582)
  ∧ (strcaseeq (paramName m) DISTRIBUTED_TRACING_RFC_INTERVAL = false →
     strcaseeq (paramName m) TR069DOSLIMIT_THRESHOLD = true →
     accepted ↔ (paramtype m = hostIf_UnsignedIntType ∧ get_uint (paramValue m) <= 30)
                ∨ (paramtype m = hostIf_StringType ∧
                   (strto (c_str (buf_str (paramValue m))) = None
                    ∨ 0 <= (strtol (buf_str (paramValue m))).1 <= 30))).
Proof.
  assert (0 <= get_uint (paramValue m)) as Hu
    by (unfold get_uint, uint32; by apply Z.mod_pos_bound).
  unfold validate_ParamValue, MAX_DISTRIBUTED_TRACING_INTERVAL_MINUTES, MIN_TR69_DOS_THRESHOLD,
    MAX_TR69_DOS_THRESHOLD. split.
  - intros ->. case_decide as Ht; [|split; [done|by intros [? _]]].
    destruct (Z.eqb_spec (get_uint (paramValue m)) 0), (Z.ltb_spec 71582 (get_uint (paramValue m)));
      cbn [orb fst]; split; try done; intros; try (split; [done|lia]); lia.
  - intros -> ->.
    destruct (paramtype m); cbn [fst]; try (split; [done|by intros [[? _]|[? _]]]).
    + split.
      * intros Hok. right. split; [done|]. right.
        destruct (Z.ltb_spec (strtol (buf_str (paramValue m))).1 0),
          (Z.ltb_spec 30 (strtol (buf_str (paramValue m))).1); cbn [orb fst] in Hok; try done; lia.
      * intros [[? _]|[_ Hs]]; [done|].
        assert (0 <= (strtol (buf_str (paramValue m))).1 <= 30) as Hr.
        { destruct Hs as [Hs|]; [|done]. unfold strtol. rewrite Hs. done. }
        by rewrite (proj2 (Z.ltb_ge _ _)), (proj2 (Z.ltb_ge _ _)) by lia.
    + destruct (Z.ltb_spec (get_uint (paramValue m)) 0); [lia|].
      destruct (Z.ltb_spec 30 (get_uint (paramValue m))); cbn [orb fst]; split; try done; try lia.
      * intros [[_ ?]|[? _]]; [lia|done].
      * intros _. by left.
Qed.

End profile.

Definition ex_msg (n v : string) (rule requestor : HostIf_Source_Type_t) : HOSTIF_MsgData_t :=
  let m := string_set n v requestor in
  mkMsg (paramName m) (paramValue m) None EmptyString 0 0 hostIf_StringType HOSTIF_SET fcNoFault requestor rule false.

Lemma rfc_limits_witness :
  (validate_ParamValue (ex_msg TR069DOSLIMIT_THRESHOLD "many" HOSTIF_NONE HOSTIF_SRC_RFC)).1 = OK.
Proof.
  apply (proj2 (rfc_limits (ex_msg TR069DOSLIMIT_THRESHOLD "many" HOSTIF_NONE HOSTIF_SRC_RFC)));
    [vm_compute; reflexivity..|]. right. split; [reflexivity|]. left. vm_compute. reflexivity.
Defined.

End hostIf_DeviceInfo.
