(* ===== verification/DeviceClient.v ===== *)
(** * The request handler of Device.DeviceInfo

    [DeviceClientReqHandler] models handlers/src/hostIf_DeviceClient_ReqHandler.cpp,
    the manager behind the dispatcher for the names under Device.DeviceInfo and
    for every bootstrap parameter, over the profile ([hostIf_DeviceInfo]). *)
From stdpp Require Import base list strings gmap.
From Stdlib Require Import Ascii ZArith Lia.
From S2P Require Import Prelude HostIf FileStore IniFile RFCStore BSJournal BSStore MsgHandler Utils Notify.
From S2P Require Import DeviceInfo.
Import hostIf_DeviceInfo.

#[local] Arguments streq : simpl never.

(** The end of a call: the handler answered or threw, its behaviour is
    undefined, or it waits for a mutex that another thread keeps. *)
Inductive reply (D : Type) : Type :=
  | Reply (o : outcome D)
  | Undefined
  | Blocked.
Arguments Reply {D} o.
Arguments Undefined {D}.
Arguments Blocked {D}.

Module DeviceClientReqHandler.

(** The owner of the mutex, the notify table (empty until it is made), the
    counts of the last round of updates ([curNumOfProcess[1]] and
    [curNumOfProcessor[1]]), and the profile. *)
Record device (P : Type) := mkDevice {
  m_mutex : option nat;
  m_notifyHash : list NotifyHash.entry;
  curNumOfProcess : Z;
  curNumOfProcessor : Z;
  body : profile P
}.
#[global] Arguments mkDevice {P}.
#[global] Arguments m_mutex {P}.
#[global] Arguments m_notifyHash {P}.
#[global] Arguments curNumOfProcess {P}.
#[global] Arguments curNumOfProcessor {P}.
#[global] Arguments body {P}.

Definition with_mutex {P} (d : device P) (o : option nat) : device P :=
  mkDevice o (m_notifyHash d) (curNumOfProcess d) (curNumOfProcessor d) (body d).
Definition with_hash {P} (d : device P) (h : list NotifyHash.entry) : device P :=
  mkDevice (m_mutex d) h (curNumOfProcess d) (curNumOfProcessor d) (body d).
Definition with_body {P} (d : device P) (p : profile P) : device P :=
  mkDevice (m_mutex d) (m_notifyHash d) (curNumOfProcess d) (curNumOfProcessor d) p.
Definition with_counts {P} (d : device P) (a b : Z) : device P :=
  mkDevice (m_mutex d) (m_notifyHash d) a b (body d).

(** An error-checking mutex: its owner's second lock fails and is logged, and
    an unlock by another thread is skipped. *)
Definition getLock {P} (self : nat) (d : device P) : option (device P) :=
  match m_mutex d with
  | None => Some (with_mutex d (Some self))
  | Some t => if Nat.eqb t self then Some d else None
  end.

Definition releaseLock {P} (self : nat) (d : device P) : device P :=
  match m_mutex d with
  | Some t => if Nat.eqb t self then with_mutex d None else d
  | None => d
  end.

(** A handler's work between its lock and its unlock.  An exception leaves the
    mutex locked. *)
Definition locked {P} (self : nat) (d : device P) (work : profile P → option (outcome (profile P)))
  : reply (device P) :=
  match getLock self d with
  | None => Blocked
  | Some d1 =>
      match work (body d1) with
      | None => Undefined
      | Some (Returned ret m p) => Reply (Returned ret m (releaseLock self (with_body d1 p)))
      | Some (Threw m p) => Reply (Threw m (with_body d1 p))
      end
  end.

(** ** Setting *)

(** What a name is set by; [None]: it cannot be written. *)
Inductive set_route : Type :=
  | by_setter (s : setter)
  | by_set_xRDKCentralComRFC.

Definition set_route_of (o : options) (n : string) : option set_route :=
  if strcaseeq n "Device.DeviceInfo.X_COMCAST-COM_Reset" || strcaseeq n "Device.DeviceInfo.X_RDKCENTRAL-COM_Reset"
  then Some (by_setter set_Device_DeviceInfo_X_RDKCENTRAL_COM_Reset)
  else if strcaseeq n "Device.DeviceInfo.X_COMCAST-COM_FirmwareToDownload"
          || strcaseeq n "Device.DeviceInfo.X_RDKCENTRAL-COM_FirmwareToDownload"
  then Some (by_setter set_Device_DeviceInfo_X_RDKCENTRAL_COM_FirmwareToDownload)
  else if strcaseeq n "Device.DeviceInfo.X_COMCAST-COM_FirmwareDownloadStatus"
          || strcaseeq n "Device.DeviceInfo.X_RDKCENTRAL-COM_FirmwareDownloadStatus"
  then Some (by_setter set_Device_DeviceInfo_X_RDKCENTRAL_COM_FirmwareDownloadStatus)
  else if strcaseeq n "Device.DeviceInfo.X_RDKCENTRAL-COM_FirmwareDownloadProtocol"
  then Some (by_setter set_Device_DeviceInfo_X_COMCAST_COM_FirmwareDownloadProtocol)
  else if strcaseeq n "Device.DeviceInfo.X_RDKCENTRAL-COM_FirmwareDownloadURL"
  then Some (by_setter set_Device_DeviceInfo_X_COMCAST_COM_FirmwareDownloadURL)
  else if strcaseeq n "Device.DeviceInfo.X_RDKCENTRAL-COM_PreferredGatewayType"
  then Some (by_setter set_Device_DeviceInfo_X_RDKCENTRAL_COM_PreferredGatewayType)
  else if strcaseeq n xOpsDMUploadLogsNow_STR then Some (by_setter set_xOpsDMUploadLogsNow)
  else if strcaseeq n xOpsDMMoCALogEnabled then Some (by_setter set_xOpsDMMoCALogEnabled)
  else if strcaseeq n xOpsDMMoCALogPeriod then Some (by_setter set_xOpsDMMoCALogPeriod)
  else if strcaseeq n xOpsReverseSshTrigger_STR then Some (by_setter set_xOpsReverseSshTrigger)
  else if strcaseeq n xOpsReverseSshArgs_STR then Some (by_setter set_xOpsReverseSshArgs)
  else if starts_with X_OPS_RPC_PROFILE n then Some (by_setter set_xOpsRPC_Profile)
  else if strncaseeq xOpsForwardSshEnable_STR n then Some (by_setter set_xOpsDeviceMgmtForwardSSHEnable)
  else if strcaseeq n X_RDKDownloadManager_InstallPackage
  then Some (by_setter set_xRDKDownloadManager_InstallPackage)
  else if strcaseeq n X_RDKDownloadManager_DownloadStatus
  then Some (by_setter set_xRDKDownloadManager_DownloadStatus)
  else if strcaseeq n X_RDKDownloadManager_PackageInstallPath
  then Some (by_setter set_xRDKDownloadManager_PackageInstallPath)
  else if strcaseeq n X_RDKDownloadManager_PackageExpiryTime
  then Some (by_setter set_xRDKDownloadManager_PackageExpiryTime)
  else if strcaseeq n IPREMOTE_SUPPORT
  then Some (by_setter set_Device_DeviceInfo_X_RDKCENTRAL_COM_IPRemoteSupportEnable)
  else if strcaseeq n PARTNER_ID
  then Some (by_setter set_Device_DeviceInfo_X_RDKCENTRAL_COM_Syndication_PartnerId)
  else if strcaseeq n XRPOLLING_ACTION
  then Some (by_setter set_Device_DeviceInfo_X_RDKCENTRAL_COM_XRPollingAction)
  else if contains TR181_RFC_PREFIX n then Some by_set_xRDKCentralComRFC
  else if USE_XRDK_BT_PROFILE o && strncaseeq "Device.DeviceInfo.X_RDKCENTRAL-COM_xBlueTooth." n
  then Some (by_setter xBT_handleSetMsg)
  else if strcaseeq n xFirmwareDownloadNow_STR then Some (by_setter set_xFirmwareDownloadNow)
  else if strcaseeq n "Device.DeviceInfo.X_RDKCENTRAL-COM_FirmwareDownloadUseCodebig"
  then Some (by_setter set_Device_DeviceInfo_X_RDKCENTRAL_COM_FirmwareDownloadUseCodebig)
  else if strcaseeq n FWDNLD_DEFER_REBOOT
  then Some (by_setter set_Device_DeviceInfo_X_RDKCENTRAL_COM_FirmwareDownloadDeferReboot)
  else if strcaseeq n IUI_VERSION then Some (by_setter set_Device_DeviceInfo_IUI_Version)
  else if strcaseeq n IUI_APPSVERSION then Some (by_setter set_Device_DeviceInfo_IUI_AppsVersion)
  else None.

(** Who may override a bootstrap parameter of this update rule. *)
Definition may_override (rule requestor : HostIf_Source_Type_t) : bool :=
  bool_decide ((rule = HOSTIF_SRC_RFC ∧ requestor = HOSTIF_SRC_RFC)
               ∨ (rule = HOSTIF_SRC_ALL ∧ (requestor = HOSTIF_SRC_RFC ∨ requestor = HOSTIF_SRC_WEBPA))).

(** ** Getting *)

(** What a name is read by. *)
Inductive get_route : Type :=
  | by_getter (g : getter)
  | by_get_xRDKCentralComRFC.

Definition process_getter (pSetting : string) : option getter :=
  if strcaseeq pSetting "PID" then Some get_Device_DeviceInfo_ProcessStatus_Process_PID
  else if strcaseeq pSetting "Command" then Some get_Device_DeviceInfo_ProcessStatus_Process_Command
  else if strcaseeq pSetting "Size" then Some get_Device_DeviceInfo_ProcessStatus_Process_Size
  else if strcaseeq pSetting "Priority" then Some get_Device_DeviceInfo_ProcessStatus_Process_Priority
  else if strcaseeq pSetting "CPUTime" then Some get_Device_DeviceInfo_ProcessStatus_Process_CPUTime
  else if strcaseeq pSetting "State" then Some get_Device_DeviceInfo_ProcessStatus_Process_State
  else None.

Definition process_status_getter (n : string) : option getter :=
  if strcaseeq n "Device.DeviceInfo.ProcessStatus.ProcessNumberOfEntries" then Some getNumOfProcessEntries
  else if strcaseeq n "Device.DeviceInfo.ProcessStatus.CPUUsage"
  then Some get_Device_DeviceInfo_ProcessStatus_CPUUsage
  else None.

(** The names under Device.DeviceInfo that no earlier branch takes. *)
Definition get_route_of (n : string) : option get_route :=
  if strcaseeq n "Device.DeviceInfo.X_RDKCENTRAL-COM.BootStatus"
  then Some (by_getter get_Device_DeviceInfo_X_RDKCENTRAL_COM_BootStatus)
  else if strcaseeq n "Device.DeviceInfo.X_RDKCENTRAL-COM_PreferredGatewayType"
  then Some (by_getter get_Device_DeviceInfo_X_RDKCENTRAL_COM_PreferredGatewayType)
  else if strcaseeq n "Device.DeviceInfo.Manufacturer" then Some (by_getter get_Device_DeviceInfo_Manufacturer)
  else if strcaseeq n "Device.DeviceInfo.ManufacturerOUI"
  then Some (by_getter get_Device_DeviceInfo_ManufacturerOUI)
  else if strcaseeq n "Device.DeviceInfo.ModelName" then Some (by_getter get_Device_DeviceInfo_ModelName)
  else if strcaseeq n "Device.DeviceInfo.Description" then Some (by_getter get_Device_DeviceInfo_Description)
  else if strcaseeq n "Device.DeviceInfo.ProductClass" then Some (by_getter get_Device_DeviceInfo_ProductClass)
  else if strcaseeq n "Device.DeviceInfo.SerialNumber" then Some (by_getter get_Device_DeviceInfo_SerialNumber)
  else if strcaseeq n "Device.DeviceInfo.HardwareVersion"
  then Some (by_getter get_Device_DeviceInfo_HardwareVersion)
  else if strcaseeq n "Device.DeviceInfo.SoftwareVersion"
  then Some (by_getter get_Device_DeviceInfo_SoftwareVersion)
  else if strcaseeq n "Device.DeviceInfo.MigrationPreparer.MigrationReady"
  then Some (by_getter get_Device_DeviceInfo_MigrationPreparer_MigrationReady)
  else if strcaseeq n "Device.DeviceInfo.Migration.MigrationStatus"
  then Some (by_getter get_Device_DeviceInfo_Migration_MigrationStatus)
  else if strcaseeq n IUI_VERSION then Some (by_getter get_Device_DeviceInfo_IUI_Version)
  else if strcaseeq n IUI_APPSVERSION then Some (by_getter get_Device_DeviceInfo_IUI_AppsVersion)
  else if strcaseeq n "Device.DeviceInfo.AdditionalHardwareVersion"
  then Some (by_getter get_Device_DeviceInfo_AdditionalHardwareVersion)
  else if strcaseeq n "Device.DeviceInfo.AdditionalSoftwareVersion"
  then Some (by_getter get_Device_DeviceInfo_AdditionalSoftwareVersion)
  else if strcaseeq n "Device.DeviceInfo.ProvisioningCode"
  then Some (by_getter get_Device_DeviceInfo_ProvisioningCode)
  else if strcaseeq n "Device.DeviceInfo.UpTime" then Some (by_getter get_Device_DeviceInfo_UpTime)
  else if strcaseeq n "Device.DeviceInfo.FirstUseDate" then Some (by_getter get_Device_DeviceInfo_FirstUseDate)
  else if strcaseeq n "Device.DeviceInfo.X_COMCAST-COM_STB_MAC"
  then Some (by_getter get_Device_DeviceInfo_X_COMCAST_COM_STB_MAC)
  else if strcaseeq n "Device.DeviceInfo.X_COMCAST-COM_STB_IP"
  then Some (by_getter get_Device_DeviceInfo_X_COMCAST_COM_STB_IP)
  else if strcaseeq n "Device.DeviceInfo.X_COMCAST-COM_FirmwareFilename"
          || strcaseeq n "Device.DeviceInfo.X_RDKCENTRAL-COM_FirmwareFilename"
  then Some (by_getter get_Device_DeviceInfo_X_RDKCENTRAL_COM_FirmwareFilename)
  else if strcaseeq n "Device.DeviceInfo.X_COMCAST-COM_FirmwareToDownload"
          || strcaseeq n "Device.DeviceInfo.X_RDKCENTRAL-COM_FirmwareToDownload"
  then Some (by_getter get_Device_DeviceInfo_X_RDKCENTRAL_COM_FirmwareToDownload)
  else if strcaseeq n "Device.DeviceInfo.X_COMCAST-COM_FirmwareDownloadStatus"
          || strcaseeq n "Device.DeviceInfo.X_RDKCENTRAL-COM_FirmwareDownloadStatus"
  then Some (by_getter get_Device_DeviceInfo_X_RDKCENTRAL_COM_FirmwareDownloadStatus)
  else if strcaseeq n "Device.DeviceInfo.X_RDKCENTRAL-COM_FirmwareDownloadURL"
  then Some (by_getter get_Device_DeviceInfo_X_COMCAST_COM_FirmwareDownloadURL)
  else if strcaseeq n "Device.DeviceInfo.X_RDKCENTRAL-COM_FirmwareDownloadProtocol"
  then Some (by_getter get_Device_DeviceInfo_X_COMCAST_COM_FirmwareDownloadProtocol)
  else if strcaseeq n "Device.DeviceInfo.X_RDKCENTRAL-COM_FirmwareDownloadUseCodebig"
  then Some (by_getter get_Device_DeviceInfo_X_RDKCENTRAL_COM_FirmwareDownloadUseCodebig)
  else if strcaseeq n "Device.DeviceInfo.X_RDKCENTRAL-COM_FirmwareDownloadPercent"
  then Some (by_getter get_Device_DeviceInfo_X_COMCAST_COM_FirmwareDownloadPercent)
  else if strcaseeq n "Device.DeviceInfo.X_RDKCENTRAL-COM_FirmwareUpdateState"
  then Some (by_getter get_Device_DeviceInfo_X_RDKCENTRAL_COM_FirmwareUpdateState)
  else if strcaseeq n "Device.DeviceInfo.X_RDKCENTRAL-COM_RDKVersion"
  then Some (by_getter get_Device_DeviceInfo_SoftwareVersion)
  else if strcaseeq n "Device.DeviceInfo.X_COMCAST-COM_Reset" || strcaseeq n "Device.DeviceInfo.X_RDKCENTRAL-COM_Reset"
  then Some (by_getter get_Device_DeviceInfo_X_RDKCENTRAL_COM_Reset)
  else if strcaseeq n "Device.DeviceInfo.X_COMCAST-COM_PowerStatus"
  then Some (by_getter get_Device_DeviceInfo_X_COMCAST_COM_PowerStatus)
  else if strcaseeq n "Device.DeviceInfo.VendorConfigFileNumberOfEntries"
  then Some (by_getter get_Device_DeviceInfo_VendorConfigFileNumberOfEntries)
  else if strcaseeq n "Device.DeviceInfo.SupportedDataModelNumberOfEntries"
  then Some (by_getter get_Device_DeviceInfo_SupportedDataModelNumberOfEntries)
  else if strcaseeq n "Device.DeviceInfo.ProcessorNumberOfEntries"
  then Some (by_getter get_Device_DeviceInfo_ProcessorNumberOfEntries)
  else if strcaseeq n "Device.DeviceInfo.VendorLogFileNumberOfEntries"
  then Some (by_getter get_Device_DeviceInfo_VendorLogFileNumberOfEntries)
  else if strcaseeq n "Device.DeviceInfo.MemoryStatus.Total"
  then Some (by_getter get_Device_DeviceInfo_MemoryStatus_Total)
  else if strcaseeq n "Device.DeviceInfo.MemoryStatus.Free"
  then Some (by_getter get_Device_DeviceInfo_MemoryStatus_Free)
  else if strcaseeq n "Device.DeviceInfo.X_RDKCENTRAL-COM.CPUTemp"
  then Some (by_getter get_Device_DeviceInfo_X_RDKCENTRAL_COM_CPUTemp)
  else if strcaseeq n xOpsDMLogsUploadStatus_STR then Some (by_getter get_xOpsDMLogsUploadStatus)
  else if strcaseeq n xOpsDMMoCALogEnabled then Some (by_getter get_xOpsDMMoCALogEnabled)
  else if strcaseeq n xOpsDMMoCALogPeriod then Some (by_getter get_xOpsDMMoCALogPeriod)
  else if strcaseeq n X_RDKDownloadManager_PackageInstallPath
  then Some (by_getter get_xRDKDownloadManager_PackageInstallPath)
  else if strcaseeq n X_RDKDownloadManager_PackageExpiryTime
  then Some (by_getter get_xRDKDownloadManager_PackageExpiryTime)
  else if strcaseeq n xOpsDMUploadLogsNow_STR then Some (by_getter get_xOpsDMUploadLogsNow)
  else if strcaseeq n IPREMOTE_SUPPORT
  then Some (by_getter get_Device_DeviceInfo_X_RDKCENTRAL_COM_IPRemoteSupportEnable)
  else if strcaseeq n IPREMOTE_IPADDRESS
  then Some (by_getter get_Device_DeviceInfo_X_RDKCENTRAL_COM_IPRemoteSupportIpaddress)
  else if strcaseeq n IPREMOTE_MACADDRESS
  then Some (by_getter get_Device_DeviceInfo_X_RDKCENTRAL_COM_IPRemoteSupportMACaddress)
  else if strcaseeq n PARTNER_ID then Some (by_getter get_Device_DeviceInfo_X_RDKCENTRAL_COM_Syndication_PartnerId)
  else if strcaseeq n XRPOLLING_ACTION
  then Some (by_getter get_Device_DeviceInfo_X_RDKCENTRAL_COM_XRPollingAction)
  else if strcaseeq n XRDK_BOOT_TIME then Some (by_getter get_X_RDKCENTRAL_COM_BootTime)
  else if contains TR181_RFC_PREFIX n then Some by_get_xRDKCentralComRFC
  else if starts_with X_OPS_RPC_PROFILE n then Some (by_getter get_xOpsRPC_Profile)
  else if starts_with X_RDKCENTRAL_COM_LastRebootReason n
  then Some (by_getter get_X_RDKCENTRAL_COM_LastRebootReason)
  else if starts_with X_RDKCENTRAL_COM_Experience n then Some (by_getter get_X_RDKCENTRAL_COM_experience)
  else if strcaseeq n FWDNLD_DEFER_REBOOT
  then Some (by_getter get_Device_DeviceInfo_X_RDKCENTRAL_COM_FirmwareDownloadDeferReboot)
  else if strcaseeq n X_RDK_FirmwareName then Some (by_getter get_X_RDK_FirmwareName)
  else if strcaseeq n HOTEL_CHECKOUT_LAST_RESET_TIME then Some (by_getter get_HotelCheckoutLastResetTime)
  else if strcaseeq n HOTEL_CHECKOUT_STATUS then Some (by_getter get_HotelCheckoutStatus)
  else None.

(** The branches before it: the getter and the instance, [None] when the
    component has no such setting. *)
Inductive get_target : Type :=
  | indexed (g : option getter) (instanceNumber : Z)
  | plain (g : getter)
  | profile_name
  | elsewhere.

Definition get_target_of (o : options) (n : string) : get_target :=
  match Utils.matchComponent n "Device.DeviceInfo.ProcessStatus.Process" with
  | Some (pSetting, i) => indexed (process_getter pSetting) i
  | None =>
      match Utils.matchComponent n "Device.DeviceInfo.Processor" with
      | Some (pSetting, i) =>
          indexed (if strcaseeq pSetting "Architecture" then Some get_Device_DeviceInfo_Processor_Architecture
                   else None) i
      | None =>
          if strncaseeq "Device.DeviceInfo.ProcessStatus" n then indexed (process_status_getter n) 0
          else if strncaseeq xOpsForwardSshEnable_STR n then plain get_xOpsDeviceMgmtForwardSSHEnable
          else if strncaseeq xOpsReverseSshStatus_STR n then plain get_xOpsReverseSshStatus
          else if strncaseeq APPARMOR_BLOCKLIST_PROCESS n then plain get_ApparmorBlockListStatus
          else if USE_XRDK_BT_PROFILE o && strncaseeq "Device.DeviceInfo.X_RDKCENTRAL-COM_xBlueTooth." n
          then plain xBT_handleGetMsg
          else if strncaseeq "Device.DeviceInfo" n then profile_name
          else elsewhere
      end
  end.

Section handler.
Context `{UMapOrder} `{CJson} `{DeviceProfile} (o : options).

Definition after_set (r : option (outcome (profile pstate))) : option (outcome (profile pstate)) :=
  x ← r;
  Some (match x with
        | Returned ret m p => Returned ret (if ret =? OK then set_fault m fcNoFault else m) p
        | Threw m p => Threw m p
        end).

Definition run_setter (s : setter) (m : HOSTIF_MsgData_t) (p : profile pstate) : outcome (profile pstate) :=
  match call_set s m p with
  | Returned ret m' p' =>
      if decide (s = set_Device_DeviceInfo_X_RDKCENTRAL_COM_XRPollingAction ∧ ret = OK)
      then Returned ret m' (set_platform p' (notifyIARM (paramName m') (buf_str (paramValue m')) (paramtype m')
                                               (platform p')))
      else Returned ret m' p'
  | Threw m' p' => Threw m' p'
  end.

Definition handleSetMsg (self : nat) (m : HOSTIF_MsgData_t) (d : device pstate) : reply (device pstate) :=
  locked self d (λ p,
    if decide (bsUpdate m ≠ HOSTIF_NONE) then
      if may_override (bsUpdate m) (requestor m) then
        p1 ← getInstance o p;
        set_xRDKCentralComBootstrap (set_instance m 0) p1
      else Some (Returned NOT_HANDLED m p)
    else if strncaseeq "Device.DeviceInfo" (paramName m) then
      p1 ← getInstance o p;
      let m1 := set_instance m 0 in
      match set_route_of o (paramName m1) with
      | Some (by_setter s) => after_set (Some (run_setter s m1 p1))
      | Some by_set_xRDKCentralComRFC => after_set (set_xRDKCentralComRFC o m1 p1)
      | None => Some (Returned NOK (set_fault m1 fcAttemptToSetaNonWritableParameter) p1)
      end
    else Some (Returned NOT_HANDLED m p)).

Definition handleGetMsg (self : nat) (m : HOSTIF_MsgData_t) (d : device pstate) : reply (device pstate) :=
  locked self d (λ p,
    if decide (bsUpdate m ≠ HOSTIF_NONE) then
      p1 ← getInstance o p;
      get_xRDKCentralComBootstrap (set_instance m 0) p1
    else
      let unsupported m' p' := Some (Returned NOK (set_fault m' fcInvalidParameterName) p') in
      match get_target_of o (paramName m) with
      | indexed (Some g) i => Some (call_get g (set_instance m i) p)
      | indexed None i => unsupported (set_instance m i) p
      | plain g =>
          if decide (g = xBT_handleGetMsg) then Some (call_get g m p)
          else p1 ← getInstance o p; Some (call_get g m p1)
      | profile_name =>
          p1 ← getInstance o p;
          let m1 := set_instance m 0 in
          match get_route_of (paramName m1) with
          | Some (by_getter g) => Some (call_get g m1 p1)
          | Some by_get_xRDKCentralComRFC => get_xRDKCentralComRFC o m1 p1
          | None => unsupported m1 p1
          end
      | elsewhere => Some (Returned NOT_HANDLED m p)
      end).

(** ** Notification attributes; [str_hash] is [g_str_hash] *)
Definition handleGetAttributesMsg (str_hash : string → Z) (self : nat) (m : HOSTIF_MsgData_t)
    (d : device pstate) : reply (device pstate) :=
  match getLock self d with
  | None => Blocked
  | Some d1 =>
      match getInstance o (body d1), NotifyHash.get_attribute str_hash (m_notifyHash d1) (paramName m) with
      | Some p1, Some v =>
          let m1 := set_instance m 0 in
          let m2 := set_value m1 (put_int (paramValue m1) v) in
          Reply (Returned OK (set_paramtype m2 hostIf_IntegerType) (releaseLock self (with_body d1 p1)))
      | _, _ => Undefined
      end
  end.

Definition handleSetAttributesMsg (str_hash : string → Z) (self : nat) (m : HOSTIF_MsgData_t)
    (d : device pstate) : reply (device pstate) :=
  match getLock self d with
  | None => Blocked
  | Some d1 =>
      match getInstance o (body d1), NotifyHash.set_attribute str_hash true (m_notifyHash d1) (paramName m) with
      | Some p1, Some h => Reply (Returned OK (set_instance m 0) (releaseLock self (with_hash (with_body d1 p1) h)))
      | _, _ => Undefined
      end
  end.

(** ** Updates *)

(** The counts of processes and of processors, compared with the last round's.
    [None]: an exception ends the thread, or the mutex is kept by another one.
    The mutex of the processes is taken by this function only. *)
Definition checkForUpdates (self : nat) (d : device pstate) : option (device pstate * list Updates.event) :=
  match call_get getNumOfProcessEntries zero_msg (body d) with
  | Threw _ _ => None
  | Returned ret m p =>
      let n := get_int (paramValue m) in
      let '(d1, evs1) :=
        if ret =? OK
        then (with_counts (with_body d p) n (curNumOfProcessor d),
              Updates.count_changes "Device.DeviceInfo.ProcessStatus.Process" (curNumOfProcess d) n)
        else (with_body d p, []) in
      d2 ← getLock self d1;
      match call_get get_Device_DeviceInfo_ProcessorNumberOfEntries m (body d2) with
      | Threw _ _ => None
      | Returned ret' m' p' =>
          let n' := get_int (paramValue m') in
          let '(d3, evs2) :=
            if ret' =? OK
            then (with_counts (with_body d2 p') (curNumOfProcess d2) n',
                  Updates.count_changes "Device.DeviceInfo.Processor" (curNumOfProcessor d2) n')
            else (with_body d2 p', []) in
          Some (releaseLock self d3, evs1 ++ evs2)
      end
  end.

Definition reset (self : nat) (d : device pstate) : option (device pstate) :=
  d1 ← getLock self d; Some (releaseLock self (with_counts d1 0 0)).

End handler.

(** ** Lemmas *)
Section lemmas.
Context `{UMapOrder} `{CJson} `{DeviceProfile} (o : options).

(** A parameter that is kept in the RFC store, and whose name triggers nothing. *)
Record rfc_parameter (n : string) : Prop := {
  rp_device : strncaseeq "Device.DeviceInfo" n = true;
  rp_set : set_route_of o n = Some by_set_xRDKCentralComRFC;
  rp_target : get_target_of o n = profile_name;
  rp_get : get_route_of n = Some by_get_xRDKCentralComRFC;
  rp_start : strcaseeq n TR181_RFC_RESET_DATA_START = false;
  rp_end : strcaseeq n TR181_RFC_RESET_DATA_END = false;
  rp_interval : strcaseeq n DISTRIBUTED_TRACING_RFC_INTERVAL = false;
  rp_limit : strcaseeq n TR069DOSLIMIT_THRESHOLD = false;
  rp_action : rfc_action o OK n = None;
  rp_account : strcaseeq n ACCOUNT_ID = false;
  rp_plain : XRFCStore.plain_name n;
  rp_key : key_ok n
}.

(** A device with its profile object made, the new RFC store in order, inside or
    outside an update, and no handler at work. *)
Record serving_in (update : bool) (f l : string) (d : device pstate) (x : XRFCStore.t) : Prop := {
  sv_free : m_mutex d = None;
  sv_object : object0 (body d) = true;
  sv_new : old_storage o = false;
  sv_store : m_rfcStore (body d) = Some x;
  sv_good : XRFCStore.good f l x (files (body d));
  sv_update : XRFCStore.m_updateInProgress x = update
}.

Definition serving := serving_in false.

(** The value that the store has under a name. *)
Definition holds (x : XRFCStore.t) (n v : string) : Prop :=
  c_str (default EmptyString (XRFCStore.m_dict x !! n)) = v.

Lemma getLock_free {P} self (d : device P) : m_mutex d = None → getLock self d = Some (with_mutex d (Some self)).
Proof. unfold getLock. by intros ->. Qed.

Lemma releaseLock_owned {P} self (d : device P) p :
  m_mutex d = None → releaseLock self (with_body (with_mutex d (Some self)) p) = with_body d p.
Proof. intros Hd. unfold releaseLock. simpl. rewrite Nat.eqb_refl. destruct d. simpl in *. by rewrite Hd. Qed.

Lemma locked_free {P} self (d : device P) work ret m p :
  m_mutex d = None → work (body d) = Some (Returned ret m p) →
  locked self d work = Reply (Returned ret m (with_body d p)).
Proof.
  intros Hd Hw. unfold locked. rewrite getLock_free by done. simpl. rewrite Hw.
  by rewrite releaseLock_owned.
Qed.

Lemma getInstance_made (p : profile pstate) : object0 p = true → getInstance o p = Some p.
Proof. unfold getInstance. by intros ->. Qed.

Lemma with_body_fields {P} (d : device P) p : body (with_body d p) = p ∧ m_mutex (with_body d p) = m_mutex d.
Proof. done. Qed.

Lemma validate_other m :
  strcaseeq (paramName m) DISTRIBUTED_TRACING_RFC_INTERVAL = false →
  strcaseeq (paramName m) TR069DOSLIMIT_THRESHOLD = false → validate_ParamValue m = (OK, m).
Proof. unfold validate_ParamValue. by intros -> ->. Qed.

(** A set of an RFC parameter is answered by the store. *)
Lemma handle_set_rfc u f l self d x m x' m' w' :
  serving_in u f l d x → rfc_parameter (paramName m) → bsUpdate m = HOSTIF_NONE →
  XRFCStore.setValue x (files (body d)) (set_instance m 0) = Some (fcNoFault, x', m', w') →
  paramName m' = paramName m →
  handleSetMsg o self m d
  = Reply (Returned OK (set_fault m' fcNoFault) (with_body d (set_rfcStore (body d) x' w'))).
Proof.
  intros [Hf Ho Hn Hx Hg Hu] [] Hb Hset Hname.
  apply locked_free; [done|]. rewrite decide_False by (by rewrite Hb; intros []).
  rewrite rp_device0, getInstance_made by done. cbn [mbind option_bind].
  change (paramName (set_instance m 0)) with (paramName m). rewrite rp_set0.
  unfold set_xRDKCentralComRFC, rfc_store.
  change (paramName (set_instance m 0)) with (paramName m). rewrite rp_start0, rp_end0.
  rewrite validate_other by done. rewrite Z.eqb_refl, Hn, Hx. cbn [mbind option_bind]. rewrite Hset.
  cbn [mbind option_bind]. change (faultCode_val fcNoFault) with OK.
  rewrite Hname, rp_action0. reflexivity.
Qed.

(** Outside an update the store takes the value. *)
Lemma set_rfc_parameter f l self d x m v :
  serving f l d x → rfc_parameter (paramName m) → bsUpdate m = HOSTIF_NONE →
  getStringValue m = Some v → val_ok v → has_char NUL v = false →
  ∃ x' m' w', handleSetMsg o self m d
    = Reply (Returned OK m' (with_body d (set_rfcStore (body d) x' w')))
    ∧ faultCode m' = fcNoFault ∧ serving f l (with_body d (set_rfcStore (body d) x' w')) x'
    ∧ holds x' (paramName m) v
    ∧ ∀ k, k ≠ paramName m → XRFCStore.m_dict x' !! k = XRFCStore.m_dict x !! k.
Proof.
  intros Hsv Hp Hb Hs Hv Hnul. pose proof Hsv as [Hf Ho Hn Hx Hg Hu].
  destruct (XRFCStore.setValue_plain f l x (files (body d)) (set_instance m 0) v Hg Hu)
    as (x' & m' & w' & Hset & Hg' & Hu' & Hm' & Hr & Hother); try done; [apply Hp..|].
  exists x', (set_fault m' fcNoFault), w'. split; [|split_and!; [done| |done|done]; by constructor].
  apply (handle_set_rfc false f l self d x m); try done. by destruct Hm' as [-> | ->].
Qed.

(** During an update the value is collected in the main file. *)
Lemma set_rfc_collected f l self d x m v :
  serving_in true f l d x → rfc_parameter (paramName m) → bsUpdate m = HOSTIF_NONE →
  getStringValue m = Some v → requestor m ≠ HOSTIF_SRC_WEBPA → val_ok v →
  ∃ m' w', handleSetMsg o self m d
    = Reply (Returned OK m' (with_body d (set_rfcStore (body d) x w')))
    ∧ faultCode m' = fcNoFault ∧ serving_in true f l (with_body d (set_rfcStore (body d) x w')) x
    ∧ file_map w' f = <[paramName m := v]> (file_map (files (body d)) f)
    ∧ file_map w' l = file_map (files (body d)) l.
Proof.
  intros Hsv Hp Hb Hs Hr Hv. pose proof Hsv as [Hf Ho Hn Hx Hg Hu].
  destruct (XRFCStore.setValue_update f l x (files (body d)) (set_instance m 0) (paramName m) v Hg Hu)
    as (w' & Hset & Hg' & Hff & Hfl); try done; [apply Hp..|].
  eexists _, w'. split; [by apply (handle_set_rfc true f l self d x m x _ w' Hsv Hp Hb Hset)|].
  split; [done|]. split; [by constructor|]. by split.
Qed.

(** ClearDB and ClearDBEnd with the new store. *)
Lemma handle_clear u f l self d x m v :
  serving_in u f l d x → paramName m = TR181_RFC_RESET_DATA_START → bsUpdate m = HOSTIF_NONE →
  getStringValue m = Some v → is_true v = true →
  handleSetMsg o self m d
  = let '(x', w') := XRFCStore.clearAll x (files (body d)) in
    Reply (Returned OK (set_fault (set_fault (set_instance m 0) fcNoFault) fcNoFault)
             (with_body d (set_rfcStore (body d) x' w'))).
Proof.
  intros [Hf Ho Hn Hx Hg Hu] Hname Hb Hv Ht.
  destruct (XRFCStore.clearAll x (files (body d))) as [x' w'] eqn:Hre.
  apply locked_free; [done|]. rewrite decide_False by (by rewrite Hb; intros []).
  rewrite Hname. change (strncaseeq "Device.DeviceInfo" TR181_RFC_RESET_DATA_START) with true. cbv iota.
  rewrite getInstance_made by done. cbn [mbind option_bind].
  change (paramName (set_instance m 0)) with (paramName m). rewrite Hname.
  change (set_route_of o TR181_RFC_RESET_DATA_START) with (Some by_set_xRDKCentralComRFC). cbv iota.
  unfold set_xRDKCentralComRFC, rfc_store. change (paramName (set_instance m 0)) with (paramName m).
  rewrite Hname, strcaseeq_refl, Hn. change (getStringValue (set_instance m 0)) with (getStringValue m).
  rewrite Hv. cbn [mbind option_bind]. rewrite Ht, Hx. cbn [mbind option_bind]. rewrite Hre. cbv zeta.
  cbn [mbind option_bind].
  change (paramName (set_fault (set_instance m 0) fcNoFault)) with (paramName m). rewrite Hname.
  assert (rfc_action o OK TR181_RFC_RESET_DATA_START = None) as ->; [|done].
  unfold rfc_action. destruct (USE_REMOTE_DEBUGGER o), (ENABLE_VIDEO_TELEMETRY o); vm_compute; reflexivity.
Qed.

Lemma handle_clear_end self d x m v :
  m_mutex d = None → object0 (body d) = true → old_storage o = false → m_rfcStore (body d) = Some x →
  paramName m = TR181_RFC_RESET_DATA_END →
  bsUpdate m = HOSTIF_NONE → getStringValue m = Some v → is_true v = true →
  handleSetMsg o self m d
  = let '(x', w') := XRFCStore.reloadCache x (files (body d)) in
    Reply (Returned NOK (set_fault (set_instance m 0) fcNoFault)
      (with_body d (set_platform (set_rfcStore (body d) x' w')
                      (sendDeviceMgtNotification "rfc" "initial" (platform (body d)))))).
Proof.
  intros Hf Ho Hn Hx Hname Hb Hv Ht.
  destruct (XRFCStore.reloadCache x (files (body d))) as [x' w'] eqn:Hre.
  apply locked_free; [done|]. rewrite decide_False by (by rewrite Hb; intros []).
  rewrite Hname. change (strncaseeq "Device.DeviceInfo" TR181_RFC_RESET_DATA_END) with true. cbv iota.
  rewrite getInstance_made by done. cbn [mbind option_bind].
  change (paramName (set_instance m 0)) with (paramName m). rewrite Hname.
  change (set_route_of o TR181_RFC_RESET_DATA_END) with (Some by_set_xRDKCentralComRFC). cbv iota.
  unfold set_xRDKCentralComRFC, rfc_store. change (paramName (set_instance m 0)) with (paramName m).
  rewrite Hname.
  change (strcaseeq TR181_RFC_RESET_DATA_END TR181_RFC_RESET_DATA_START) with false.
  rewrite strcaseeq_refl, Hn. change (getStringValue (set_instance m 0)) with (getStringValue m).
  rewrite Hv. cbn [mbind option_bind]. rewrite Ht, Hx. cbn [mbind option_bind]. rewrite Hre. cbv zeta.
  cbn [mbind option_bind].
  change (paramName (set_fault (set_instance m 0) fcNoFault)) with (paramName m). rewrite Hname.
  assert (rfc_action o NOK TR181_RFC_RESET_DATA_END = None) as ->; [|done].
  unfold rfc_action. destruct (USE_REMOTE_DEBUGGER o), (ENABLE_VIDEO_TELEMETRY o); vm_compute; reflexivity.
Qed.

(** The profile's getter on an RFC parameter that has a value. *)
Lemma fetch_rfc_value f l (p : profile pstate) x m v :
  old_storage o = false → m_rfcStore p = Some x → XRFCStore.good f l x (files p) →
  XRFCStore.plain_name (paramName m) → strcaseeq (paramName m) ACCOUNT_ID = false →
  holds x (paramName m) v → v ≠ EmptyString →
  get_xRDKCentralComRFC o m p = Some (Returned OK (set_fault (putValue m v) fcNoFault) p).
Proof.
  intros Hn Hx Hg Hp Ha Hv Hne.
  assert (XRFCStore.getValue x (files p) m = (fcNoFault, x, set_fault (putValue m v) fcNoFault, files p)) as Hget.
  { unfold XRFCStore.getValue. rewrite XRFCStore.init_id by apply Hg.
    rewrite XRFCStore.getRawValue_plain by done. unfold holds in Hv.
    destruct (is_empty (default EmptyString (XRFCStore.m_dict x !! paramName m))) eqn:He; cbn [negb].
    { destruct (default EmptyString (XRFCStore.m_dict x !! paramName m)); [by subst v|done]. }
    by rewrite Hv. }
  unfold get_xRDKCentralComRFC, rfc_fetch. rewrite Hn, Hx. cbn [mbind option_bind]. rewrite Hget.
  cbn [mbind option_bind].
  assert (paramName (set_fault (putValue m v) fcNoFault) = paramName m) as ->.
  { unfold set_fault, putValue. simpl. by destruct (paramtype m). }
  rewrite Ha. cbn [andb].
  replace (set_rfcStore p x (files p)) with p; [done|].
  destruct p; simpl in *. by rewrite Hx.
Qed.

(** A get of an RFC parameter that has a value answers it, and changes nothing. *)
Lemma get_rfc_parameter f l self d x m v :
  serving f l d x → rfc_parameter (paramName m) → bsUpdate m = HOSTIF_NONE →
  holds x (paramName m) v → v ≠ EmptyString →
  handleGetMsg o self m d
  = Reply (Returned OK (set_fault (putValue (set_instance m 0) v) fcNoFault) d).
Proof.
  intros [Hf Ho Hn Hx Hg Hu] [] Hb Hv Hne.
  replace d with (with_body d (body d)) at 2 by by destruct d.
  apply locked_free; [done|]. rewrite decide_False by (by rewrite Hb; intros []).
  rewrite rp_target0, getInstance_made by done. cbn [mbind option_bind].
  change (paramName (set_instance m 0)) with (paramName m). rewrite rp_get0.
  by apply (fetch_rfc_value f l (body d) x (set_instance m 0)).
Qed.

(** ** The mutex after a handler *)

Lemma answered_unlocked self (d : device pstate) work ret m d' :
  m_mutex d = None → locked self d work = Reply (Returned ret m d') → m_mutex d' = None.
Proof.
  intros Hf. unfold locked. rewrite getLock_free by done.
  destruct (work _) as [[ret' m' p|m' p]|]; [|done|done]. rewrite releaseLock_owned by done. by intros [= <- <- <-].
Qed.

Lemma thrown_locked self (d : device pstate) work m d' :
  m_mutex d = None → locked self d work = Reply (Threw m d') → m_mutex d' = Some self.
Proof.
  intros Hf. unfold locked. rewrite getLock_free by done.
  destruct (work _) as [[ret' m' p|m' p]|]; [done| |done]. by intros [= <- <-].
Qed.

(** No request of another thread gets past the lock. *)
Definition stuck (other : nat) (d : device pstate) : Prop :=
  ∀ m, handleSetMsg o other m d = Blocked ∧ handleGetMsg o other m d = Blocked
    ∧ ∀ h, handleGetAttributesMsg o h other m d = Blocked ∧ handleSetAttributesMsg o h other m d = Blocked.

Lemma locked_stuck self other d : m_mutex d = Some self → other ≠ self → stuck other d.
Proof.
  intros Hm Hne m. assert (getLock other d = None) as Hl.
  { unfold getLock. by rewrite Hm, (proj2 (Nat.eqb_neq _ _)). }
  unfold handleSetMsg, handleGetMsg, locked, handleGetAttributesMsg, handleSetAttributesMsg. by rewrite Hl.
Qed.

(** A getter that throws. *)
Lemma getter_throws self d m g m' p' :
  m_mutex d = None → object0 (body d) = true → bsUpdate m = HOSTIF_NONE →
  get_target_of o (paramName m) = profile_name → get_route_of (paramName m) = Some (by_getter g) →
  call_get g (set_instance m 0) (body d) = Threw m' p' →
  handleGetMsg o self m d = Reply (Threw m' (with_body (with_mutex d (Some self)) p')).
Proof.
  intros Hf Ho Hb Ht Hr Hg. unfold handleGetMsg, locked. rewrite getLock_free by done.
  rewrite decide_False by (by rewrite Hb; intros []). rewrite Ht.
  change (body (with_mutex d (Some self))) with (body d). rewrite getInstance_made by done. cbn [mbind option_bind].
  change (paramName (set_instance m 0)) with (paramName m). by rewrite Hr, Hg.
Qed.

(** ** Properties *)

(** C9. Who may override a parameter with an update rule: with the rule of RFC only
    the caller of RFC, with the rule of all the callers of RFC and of WebPA, and
    with every other rule nobody.  Whoever may is answered what the bootstrap
    store answers to its override; everyone else is answered that nobody
    handled it, and the message and the device are as they were.  (With the
    profile object and the bootstrap store made and no request at work.) *)
Theorem bootstrap_override_rule self m d x :
  m_mutex d = None → object0 (body d) = true → m_bsStore (body d) = Some x → bsUpdate m ≠ HOSTIF_NONE →
  handleSetMsg o self m d
  = match bsUpdate m, requestor m with
    | HOSTIF_SRC_RFC, HOSTIF_SRC_RFC | HOSTIF_SRC_ALL, HOSTIF_SRC_RFC | HOSTIF_SRC_ALL, HOSTIF_SRC_WEBPA =>
        match XBSStore.overrideValue x (files (body d)) (set_instance m 0) with
        | Some (f, x', m', w') => Reply (Returned (faultCode_val f) m' (with_body d (set_bsStore (body d) x' w')))
        | None => Undefined
        end
    | _, _ => Reply (Returned NOT_HANDLED m d)
    end.
Proof.
  intros Hf Ho Hx Hb.
  assert (handleSetMsg o self m d
    = if may_override (bsUpdate m) (requestor m) then
        match XBSStore.overrideValue x (files (body d)) (set_instance m 0) with
        | Some (f, x', m', w') => Reply (Returned (faultCode_val f) m' (with_body d (set_bsStore (body d) x' w')))
        | None => Undefined
        end
      else Reply (Returned NOT_HANDLED m d)) as ->.
  { destruct (may_override _ _) eqn:Hmay.
    - unfold handleSetMsg, locked. rewrite getLock_free, decide_True by done. rewrite Hmay.
      change (body (with_mutex d (Some self))) with (body d).
      rewrite getInstance_made by done. cbn [mbind option_bind].
      unfold set_xRDKCentralComBootstrap. rewrite Hx. cbn [mbind option_bind].
      destruct (XBSStore.overrideValue _ _ _) as [[[[f x'] m'] w']|]; [|done]. cbn [mbind option_bind].
      by rewrite releaseLock_owned.
    - replace d with (with_body d (body d)) at 2 by by destruct d.
      apply locked_free; [done|]. by rewrite decide_True, Hmay by done. }
  by destruct (bsUpdate m), (requestor m).
Qed.

(** ClearDBEnd reloads the store as asked and sends the notification, and yet
    answers failure: the handler's result is never set. *)
Theorem clear_db_end_answers_failure self d x m v :
  m_mutex d = None → object0 (body d) = true → old_storage o = false → m_rfcStore (body d) = Some x →
  paramName m = TR181_RFC_RESET_DATA_END →
  bsUpdate m = HOSTIF_NONE → getStringValue m = Some v → is_true v = true →
  ∃ m' d' x' w', handleSetMsg o self m d = Reply (Returned NOK m' d')
    ∧ faultCode m' = fcNoFault ∧ m_rfcStore (body d') = Some x' ∧ files (body d') = w'
    ∧ XRFCStore.reloadCache x (files (body d)) = (x', w')
    ∧ platform (body d') = sendDeviceMgtNotification "rfc" "initial" (platform (body d)).
Proof.
  intros Hf Ho Hn Hx Hname Hb Hv Ht. rewrite (handle_clear_end self d x m v) by done.
  destruct (XRFCStore.reloadCache _ _) as [x' w']. by eexists _, _, x', w'.
Qed.

End lemmas.

(** ** Witnesses *)
#[local] Existing Instance canonical_order.
#[local] Existing Instance XBSStore.toy_cjson.

(** A platform whose getters throw. *)
#[local] Instance throwing : DeviceProfile := {
  pstate := list string;
  call_set := λ _ m p, Returned OK m p;
  call_get := λ _ m p, Threw m p;
  notifyIARM := λ n _ _ q, n :: q;
  sendDeviceMgtNotification := λ n _ q, n :: q
}.

Definition ex_opts : options := mkOptions false false true true false.

Definition ex_dev : device pstate :=
  mkDevice None [] 0 0
    (mkProfile true (Some XRFCStore.ex_store) XRFCStorage.new (Some XBSStore.ex_store) XBSStore.ex_env []).

Lemma bootstrap_override_rule_witness :
  handleSetMsg ex_opts 1 (ex_msg "Device.A" "x" HOSTIF_SRC_RFC HOSTIF_SRC_WEBPA) ex_dev
  = Reply (Returned NOT_HANDLED (ex_msg "Device.A" "x" HOSTIF_SRC_RFC HOSTIF_SRC_WEBPA) ex_dev).
Proof.
  apply (bootstrap_override_rule ex_opts 1 (ex_msg "Device.A" "x" HOSTIF_SRC_RFC HOSTIF_SRC_WEBPA) ex_dev
           XBSStore.ex_store); (reflexivity || discriminate).
Defined.

Lemma clear_db_end_answers_failure_witness :
  ∃ m' d', handleSetMsg ex_opts 1 (ex_msg TR181_RFC_RESET_DATA_END "true" HOSTIF_NONE HOSTIF_SRC_RFC) ex_dev
           = Reply (Returned NOK m' d') ∧ faultCode m' = fcNoFault.
Proof.
  destruct (clear_db_end_answers_failure ex_opts 1 ex_dev XRFCStore.ex_store
    (ex_msg TR181_RFC_RESET_DATA_END "true" HOSTIF_NONE HOSTIF_SRC_RFC) "true")
    as (m' & d' & x' & w' & Hs & Hf & _); [reflexivity..|vm_compute; reflexivity|reflexivity|].
  exists m', d'. exact (conj Hs Hf).
Defined.

End DeviceClientReqHandler.
