(* ===== verification/ProcessStatus.v ===== *)
(** * The processes of the device

    [ProcessStatus] and [Process] model
    profiles/DeviceInfo/Device_DeviceInfo_ProcessStatus.cpp, the use of the CPU, and
    Device_DeviceInfo_ProcessStatus_Process.cpp, the table of processes, over what
    libproc lists; a request reaches them by the routes of [DeviceClientReqHandler]. *)
From stdpp Require Import base list strings gmap.
From Stdlib Require Import Ascii ZArith Lia.
From S2P Require Import Prelude HostIf FileStore MsgHandler DeviceInfo DeviceClient Utils Webpa ProfileIO.
Import ProfileIO.

#[local] Arguments streq : simpl never.

Module ProcessStatus.

Definition STAT_FILE : string := "/proc/stat".

(** [%llu], at most [k] times: the numbers that are there. *)
Fixpoint scan_numbers (k : nat) (s : string) : list Z :=
  match k with
  | O => []
  | S k' =>
      match strto s with
      | Some (neg, n, rest) => (if ULONG_MAX <? n then ULONG_MAX else uint64 (if neg then - n else n)) :: scan_numbers k' rest
      | None => []
      end
  end.

(** The seven counters; those that a line does not have keep what they were.  [None]:
    the file cannot be read, or has no such line. *)
Definition getProcessStatParam (w : env) (counters : list Z) : option (list Z) :=
  content ← read_file w STAT_FILE;
  line ← List.find (starts_with "cpu ") (getlines content);
  let read := scan_numbers 7 (str_drop 3 (c_str line)) in
  Some (read ++ drop (length read) counters).

Definition sum (l : list Z) : Z := foldr Z.add 0 l.
Definition total_jiffies (counters : list Z) : Z := uint64 (sum counters).
Definition work_jiffies (counters : list Z) : Z := uint64 (sum (take 3 counters)).

(** [w1] and [w2]: the files at the two readings, a second apart. *)
Definition getProcessStatusCPUUsage (w1 w2 : env) : Z :=
  match getProcessStatParam w1 (replicate 7 0) with
  | None => -1
  | Some c1 =>
      match getProcessStatParam w2 c1 with
      | None => -1
      | Some c2 =>
          let temp := uint32 (uint64 (total_jiffies c2 - total_jiffies c1)) in
          if temp =? 0 then 0
          else int32 (uint32 (uint64 (uint64 (work_jiffies c2 - work_jiffies c1) * 100) / temp))
      end
  end.

Definition get_Device_DeviceInfo_ProcessStatus_CPUUsage (w1 w2 : env) (m : HOSTIF_MsgData_t) : Z * HOSTIF_MsgData_t :=
  let uiCpuUsage := getProcessStatusCPUUsage w1 w2 in
  (OK, answer_int hostIf_IntegerType 32 m (if uiCpuUsage <? 0 then 0 else uiCpuUsage)).

(** ** The use of the CPU *)
Definition numbers (l : list Z) : string := foldr (λ z s, String " " (dec z +:+ s)) EmptyString l.

(** The first line of the file, as the kernel prints it, and what follows. *)
Definition stat_text (counters : list Z) (rest : string) : string := ("cpu " +:+ numbers counters) +:+ String NL rest.

Lemma scan_numbers_printed k l :
  Forall (λ z, 0 <= z < 2 ^ 64) l → scan_numbers k (numbers l) = take k l.
Proof.
  intros Hl. revert k. induction Hl as [|z l Hz _ IH]; intros [|k]; [done|done|done|].
  cbn [scan_numbers numbers foldr]. fold (numbers l).
  change (strto (String " " (dec z +:+ numbers l))) with (strto (dec z +:+ numbers l)).
  rewrite strto_dec_app by (lia || by destruct l). rewrite IH. cbn [take]. f_equal.
  rewrite (proj2 (Z.ltb_ge z 0)), Z.abs_eq by lia. unfold ULONG_MAX, uint64.
  rewrite (proj2 (Z.ltb_ge _ _)) by lia. by apply Z.mod_small.
Qed.

Lemma numbers_no c l : is_digit c = false → Ascii.eqb c "-" = false → Ascii.eqb c " " = false → has_char c (numbers l) = false.
Proof.
  intros Hd Hm Hs. induction l as [|z l IH]; [done|]. cbn [numbers foldr has_char]. fold (numbers l).
  by rewrite has_char_app, IH, dec_no_char, Hs by done.
Qed.

Lemma stat_read w counters rest old :
  read_file w STAT_FILE = Some (stat_text counters rest) → Forall (λ z, 0 <= z < 2 ^ 64) counters → (7 ≤ length counters)%nat →
  length old = 7%nat → getProcessStatParam w old = Some (take 7 counters).
Proof.
  intros Hr Hc Hl Ho. unfold getProcessStatParam. rewrite Hr. cbn [mbind option_bind]. unfold stat_text.
  rewrite getlines_line by by apply (numbers_no NL).
  cbn [List.find]. rewrite starts_with_app. cbn [mbind option_bind].
  rewrite c_str_no_nul by by apply (numbers_no NUL).
  change (str_drop 3 ("cpu " +:+ numbers counters)) with (String " " (numbers counters)).
  assert (scan_numbers 7 (String " " (numbers counters)) = take 7 counters) as ->.
  { rewrite <- (scan_numbers_printed 7 counters Hc). destruct counters; [done|]. reflexivity. }
  rewrite drop_ge by (rewrite length_take; lia). by rewrite app_nil_r.
Qed.

Lemma sum_le a b : Forall2 Z.le a b → sum a <= sum b.
Proof. unfold sum. induction 1 as [|x y a b Hx _ IH]; cbn [foldr] in *; lia. Qed.

Lemma sum_diff_prefix k a b : Forall2 Z.le a b → sum (take k b) - sum (take k a) <= sum b - sum a.
Proof.
  intros Hab. revert k. induction Hab as [|x y a b Hx Hab IH]; intros [|k]; unfold sum in *; cbn [take foldr]; try lia.
  - pose proof (sum_le _ _ Hab). unfold sum in *. lia.
  - specialize (IH k). lia.
Qed.

Lemma sum_nonneg l : Forall (λ z, 0 <= z) l → 0 <= sum l.
Proof. unfold sum. induction 1; cbn [foldr] in *; lia. Qed.

Lemma sum_prefix_le k l : Forall (λ z, 0 <= z) l → 0 <= sum (take k l) <= sum l.
Proof.
  intros Hl. revert k. induction Hl as [|z l Hz Hl IH]; intros [|k]; unfold sum in *; cbn [take foldr]; try lia.
  - pose proof (sum_nonneg l Hl). unfold sum in *. lia.
  - specialize (IH k). lia.
Qed.

(** C24. Two readings of counters that only grow, by less than 2^32 together: the use of
    the CPU is the share of the time in user, nice and system mode in percent, rounded
    down, between 0 and 100, and 0 when no time has passed. *)
Theorem cpu_usage_exact w1 w2 c1 c2 rest1 rest2 m :
  read_file w1 STAT_FILE = Some (stat_text c1 rest1) → read_file w2 STAT_FILE = Some (stat_text c2 rest2) →
  (7 ≤ length c1)%nat → Forall (λ z, 0 <= z) c1 → Forall2 Z.le c1 c2 → Forall (λ z, z < 2 ^ 64) c2 →
  sum (take 7 c2) < 2 ^ 64 → sum (take 7 c2) - sum (take 7 c1) < 2 ^ 32 →
  ∃ m', get_Device_DeviceInfo_ProcessStatus_CPUUsage w1 w2 m = (OK, m')
    ∧ get_int (paramValue m')
      = 100 * (sum (take 3 c2) - sum (take 3 c1)) / (sum (take 7 c2) - sum (take 7 c1))
    ∧ 0 <= get_int (paramValue m') <= 100.
Proof.
  intros Hr1 Hr2 Hl Hpos Hle Hmax Hsum Hdiff.
  assert (Forall (λ z, 0 <= z < 2 ^ 64) c1 ∧ Forall (λ z, 0 <= z < 2 ^ 64) c2) as [H1 H2].
  { clear -Hpos Hle Hmax. induction Hle as [|x y c1 c2 Hx _ IH]; [done|].
    apply Forall_cons in Hpos as [? ?], Hmax as [? ?]. destruct IH as [? ?]; [done|done|].
    split; (constructor; [lia|done]). }
  pose proof (Forall2_length _ _ _ Hle) as Hlen.
  assert (Forall (λ z, 0 <= z) c2) as Hpos2 by (eapply Forall_impl; [exact H2|cbn; lia]).
  unfold get_Device_DeviceInfo_ProcessStatus_CPUUsage, getProcessStatusCPUUsage.
  rewrite (stat_read w1 c1 rest1) by done.
  rewrite (stat_read w2 c2 rest2) by (done || lia || (rewrite length_take; lia)).
  eexists. split; [reflexivity|]. rewrite answer_int_value. unfold total_jiffies, work_jiffies.
  rewrite !take_take. change (Nat.min 3 7) with 3%nat.
  pose proof (Forall2_take _ _ _ 7 Hle) as Hle7.
  pose proof (sum_le _ _ Hle7). pose proof (sum_le _ _ (Forall2_take _ _ _ 3 Hle)).
  pose proof (sum_diff_prefix 3 _ _ Hle7) as Hw. rewrite !take_take in Hw. change (Nat.min 3 7) with 3%nat in Hw.
  pose proof (sum_nonneg _ (Forall_take _ 7 _ Hpos)). pose proof (sum_nonneg _ (Forall_take _ 3 _ Hpos)).
  pose proof (sum_prefix_le 3 (take 7 c2) (Forall_take _ 7 _ Hpos2)) as Hp2. rewrite take_take in Hp2. change (Nat.min 3 7) with 3%nat in Hp2.
  set (t1 := sum (take 7 c1)) in *. set (t2 := sum (take 7 c2)) in *.
  set (k1 := sum (take 3 c1)) in *. set (k2 := sum (take 3 c2)) in *.
  unfold uint64, uint32. rewrite !(Z.mod_small t1), !(Z.mod_small t2), !(Z.mod_small k1), !(Z.mod_small k2) by lia.
  rewrite !(Z.mod_small (t2 - t1)), (Z.mod_small (k2 - k1)), (Z.mod_small ((k2 - k1) * 100)) by (rewrite ?(Z.mod_small (t2 - t1)); lia).
  destruct (Z.eqb_spec (t2 - t1) 0) as [->|Hne]; [rewrite Z.div_0_r; split; [reflexivity|]; change (0 <= 0 <= 100); lia|].
  rewrite Z.mul_comm. assert (0 <= (100 * (k2 - k1)) / (t2 - t1) <= 100) as Hq.
  { split; [apply Z.div_pos; lia|]. apply Z.div_le_upper_bound; lia. }
  rewrite (Z.mod_small (_ / _)) by lia. rewrite (int32_id (_ / _)) by lia.
  rewrite (proj2 (Z.ltb_ge _ _)) by lia. by rewrite int32_id by lia.
Qed.

Definition stat_env (counters : list Z) : env :=
  put_file (mkEnv ∅ ∅ true ∅ EmptyString 0) STAT_FILE (stat_text counters "cpu0 1 2 3 4 5 6 7").

(** In a second of 100 ticks on four processors 137 were work. *)
Lemma cpu_usage_exact_witness :
  ∃ m', get_Device_DeviceInfo_ProcessStatus_CPUUsage (stat_env [1000; 20; 300; 5000; 10; 0; 5; 0; 0; 0])
          (stat_env [1100; 20; 337; 5260; 12; 0; 6; 0; 0; 0]) zero_msg = (OK, m') ∧ get_int (paramValue m') = 34.
Proof.
  destruct (cpu_usage_exact (stat_env [1000; 20; 300; 5000; 10; 0; 5; 0; 0; 0]) (stat_env [1100; 20; 337; 5260; 12; 0; 6; 0; 0; 0])
    [1000; 20; 300; 5000; 10; 0; 5; 0; 0; 0] [1100; 20; 337; 5260; 12; 0; 6; 0; 0; 0] "cpu0 1 2 3 4 5 6 7" "cpu0 1 2 3 4 5 6 7" zero_msg)
    as (m' & Hg & Hv & _).
  - reflexivity.
  - reflexivity.
  - cbn. lia.
  - repeat constructor; lia.
  - repeat constructor; lia.
  - repeat constructor; lia.
  - cbn. lia.
  - cbn. lia.
  - exists m'. split; [exact Hg|]. rewrite Hv. reflexivity.
Defined.

(** The time of waiting for input and output may go back: the difference wraps, and
    the share of the idle rest is lost. *)
Example iowait_goes_back :
  let '(ret, m) := get_Device_DeviceInfo_ProcessStatus_CPUUsage (stat_env [1000; 0; 0; 5000; 100; 0; 0; 0; 0; 0])
                     (stat_env [1050; 0; 0; 5000; 49; 0; 0; 0; 0; 0]) zero_msg in
  ret = OK ∧ get_int (paramValue m) = 0.
Proof. vm_compute. done. Qed.

End ProcessStatus.

Module Process.

(** What libproc tells of a process: pages of memory and ticks of the clock. *)
Record proc_t := mkProc {
  tid : Z;
  cmd : string;
  state : ascii;
  priority : Z;
  size : Z;
  utime : Z;
  stime : Z
}.

(** The static [processStatus]. *)
Record DeviceProcessStatusProcess := mkStatus {
  uiPid : Z;
  cCommand : string;
  uiSize : Z;
  uiPriority : Z;
  uiCpuTime : Z;
  cState : string
}.
Definition no_process : DeviceProcessStatusProcess := mkStatus 0 EmptyString 0 0 0 EmptyString.

Inductive EProcessMembers : Type :=
  | eProcessPid | eProcessCommand | eProcessSize | eProcessPriority | eProcessCpuTime | eProcessState.

(** The other letters leave no text. *)
Definition state_text (c : ascii) : string :=
  if Ascii.eqb c "R" then "Running" else if Ascii.eqb c "S" then "Sleeping"
  else if Ascii.eqb c "T" then "Stopped" else if Ascii.eqb c "Z" then "Zombie" else EmptyString.

(** [strcpy_s] into a field that was cleared. *)
Definition copied (length : nat) (s : string) : string :=
  if (String.length (c_str s) <? length)%nat then c_str s else EmptyString.

Definition fill_member (mem : EProcessMembers) (t : proc_t) (p : DeviceProcessStatusProcess) : DeviceProcessStatusProcess :=
  match mem with
  | eProcessPid => mkStatus (uint32 (tid t)) (cCommand p) (uiSize p) (uiPriority p) (uiCpuTime p) (cState p)
  | eProcessCommand => mkStatus (uiPid p) (copied 256 (cmd t)) (uiSize p) (uiPriority p) (uiCpuTime p) (cState p)
  | eProcessSize => mkStatus (uiPid p) (cCommand p) (uint32 (size t * 4)) (uiPriority p) (uiCpuTime p) (cState p)
  | eProcessPriority => mkStatus (uiPid p) (cCommand p) (uiSize p) (uint32 (priority t)) (uiCpuTime p) (cState p)
  | eProcessCpuTime => mkStatus (uiPid p) (cCommand p) (uiSize p) (uiPriority p) (uint32 (uint64 (utime t + stime t))) (cState p)
  | eProcessState => mkStatus (uiPid p) (cCommand p) (uiSize p) (uiPriority p) (uiCpuTime p) (state_text (state t))
  end.

Section table.
(** The processes in the order of libproc, when it opens the table. *)
Context (tasks : option (list proc_t)).

Definition getNumOfProcessEntries (m : HOSTIF_MsgData_t) : Z * HOSTIF_MsgData_t :=
  match tasks with
  | None => (NOK, m)
  | Some l => (OK, set_paramtype (set_value m (put_int (paramValue m) (Z.of_nat (length l)))) hostIf_UnsignedIntType)
  end.

(** [None]: a process that was never looked for is read. *)
Definition getProcessFields (iProcInstanceNum : Z) (mem : EProcessMembers) (p : DeviceProcessStatusProcess)
    : option (Z * DeviceProcessStatusProcess) :=
  match tasks with
  | None => Some (NOK, p)
  | Some l =>
      if iProcInstanceNum <=? 0 then None
      else Some (OK, match l !! Z.to_nat (iProcInstanceNum - 1) with Some t => fill_member mem t p | None => no_process end)
  end.

Definition readProcessFields (name : string) (mem : EProcessMembers) (p : DeviceProcessStatusProcess)
    : option (Z * DeviceProcessStatusProcess) :=
  match Utils.matchComponent name "Device.DeviceInfo.ProcessStatus.Process" with
  | None => Some (NOK, p)
  | Some (_, i) => getProcessFields i mem p
  end.

(** ** Getters *)
Definition reply : Type := option (Z * HOSTIF_MsgData_t * DeviceProcessStatusProcess).

Definition answered (mem : EProcessMembers) (f : DeviceProcessStatusProcess → HOSTIF_MsgData_t)
    (m : HOSTIF_MsgData_t) (p : DeviceProcessStatusProcess) : reply :=
  '(ret, p') ← readProcessFields (paramName m) mem p;
  Some (if ret =? OK then (OK, f p', p') else (NOK, m, p')).

(** The length is not set, and for a text neither is the type. *)
Definition put_number (m : HOSTIF_MsgData_t) (z : Z) : HOSTIF_MsgData_t :=
  set_paramtype (set_value m (put_int (paramValue m) z)) hostIf_UnsignedIntType.
Definition put_string (m : HOSTIF_MsgData_t) (s : string) : HOSTIF_MsgData_t :=
  set_value m (strcpy_s (paramValue m) TR69HOSTIFMGR_MAX_PARAM_LEN s).

Definition get_Device_DeviceInfo_ProcessStatus_Process_PID m p := answered eProcessPid (λ p', put_number m (uiPid p')) m p.
Definition get_Device_DeviceInfo_ProcessStatus_Process_Command m p := answered eProcessCommand (λ p', put_string m (cCommand p')) m p.
Definition get_Device_DeviceInfo_ProcessStatus_Process_Size m p := answered eProcessSize (λ p', put_number m (uiSize p')) m p.
Definition get_Device_DeviceInfo_ProcessStatus_Process_Priority m p := answered eProcessPriority (λ p', put_number m (uiPriority p')) m p.
Definition get_Device_DeviceInfo_ProcessStatus_Process_CPUTime m p := answered eProcessCpuTime (λ p', put_number m (uiCpuTime p')) m p.
Definition get_Device_DeviceInfo_ProcessStatus_Process_State m p := answered eProcessState (λ p', put_string m (cState p')) m p.

(** The getters of the handler's routes. *)
Definition run_getter (g : getter) (m : HOSTIF_MsgData_t) (p : DeviceProcessStatusProcess) : option reply :=
  match g with
  | DeviceInfo.get_Device_DeviceInfo_ProcessStatus_Process_PID => Some (get_Device_DeviceInfo_ProcessStatus_Process_PID m p)
  | DeviceInfo.get_Device_DeviceInfo_ProcessStatus_Process_Command => Some (get_Device_DeviceInfo_ProcessStatus_Process_Command m p)
  | DeviceInfo.get_Device_DeviceInfo_ProcessStatus_Process_Size => Some (get_Device_DeviceInfo_ProcessStatus_Process_Size m p)
  | DeviceInfo.get_Device_DeviceInfo_ProcessStatus_Process_Priority => Some (get_Device_DeviceInfo_ProcessStatus_Process_Priority m p)
  | DeviceInfo.get_Device_DeviceInfo_ProcessStatus_Process_CPUTime => Some (get_Device_DeviceInfo_ProcessStatus_Process_CPUTime m p)
  | DeviceInfo.get_Device_DeviceInfo_ProcessStatus_Process_State => Some (get_Device_DeviceInfo_ProcessStatus_Process_State m p)
  | _ => None
  end.

(** The handler's branch for the table: what a name is routed to, run on the message
    with the number of the instance. *)
Definition process_get (o : hostIf_DeviceInfo.options) (m : HOSTIF_MsgData_t) (p : DeviceProcessStatusProcess) : option reply :=
  match DeviceClientReqHandler.get_target_of o (paramName m) with
  | DeviceClientReqHandler.indexed (Some g) i => run_getter g (set_instance m i) p
  | _ => None
  end.

(** ** The table *)
Definition process_param (i : Z) (setting : string) : string :=
  "Device.DeviceInfo.ProcessStatus.Process" +:+ String DOT (dec i +:+ String DOT setting).

(** A getter of the table, reached by its setting. *)
Lemma process_value o l i setting g mem f m p :
  tasks = Some l → 1 <= i < 10 ^ 9 → paramName m = process_param i setting →
  DeviceClientReqHandler.process_getter setting = Some g → (∀ m p, run_getter g m p = Some (answered mem (f m) m p)) →
  process_get o m p
  = let p' := match l !! Z.to_nat (i - 1) with Some t => fill_member mem t p | None => no_process end in
    Some (Some (OK, f (set_instance m i) p', p')).
Proof.
  intros Hl Hi Hp Hg Hrun. unfold process_get, DeviceClientReqHandler.get_target_of. rewrite Hp. unfold process_param.
  rewrite Utils.match_component_name, Hg, Hrun by lia. unfold answered, readProcessFields.
  change (paramName (set_instance m i)) with (paramName m). rewrite Hp. unfold process_param.
  rewrite Utils.match_component_name by lia. unfold getProcessFields. by rewrite Hl, (proj2 (Z.leb_gt _ _)) by lia.
Qed.

Lemma uint32_twice z : uint32 (uint32 z) = uint32 z.
Proof. by apply Z.mod_mod. Qed.

Lemma uint32_uint64 z : uint32 (uint64 z) = uint32 z.
Proof. unfold uint32, uint64. apply Z.mod_mod_divide. by exists (2 ^ 32). Qed.

Lemma number_value m z : get_uint (paramValue (put_number m z)) = uint32 z.
Proof. apply (get_put_uint (paramValue m)). Qed.

Lemma string_value m s : has_char NUL s = false → (String.length s < 4096)%nat → buf_str (paramValue (put_string m s)) = s.
Proof.
  intros Hn Hl. unfold put_string, strcpy_s. rewrite c_str_no_nul by done.
  replace (String.length s <? TR69HOSTIFMGR_MAX_PARAM_LEN)%nat with true; [by apply (buf_str_poke (paramValue m))|].
  symmetry. by apply Nat.ltb_lt.
Qed.

(** C25. A parameter of the [i]-th process is the process's own, whatever was read
    before: the numbers modulo 2^32, the memory in kilobytes for pages of four, the
    text for four of the states; and a process that is not there is answered like one
    with no number, no memory and no text. *)
Theorem process_answers o l i m p :
  tasks = Some l → 1 <= i < 10 ^ 9 →
  let shown := l !! Z.to_nat (i - 1) in
  let number (f : proc_t → Z) setting :=
    paramName m = process_param i setting →
    ∃ m' p', process_get o m p = Some (Some (OK, m', p'))
      ∧ get_uint (paramValue m') = match shown with Some t => uint32 (f t) | None => 0 end in
  number tid "PID"%string ∧ number (λ t, size t * 4) "Size"%string ∧ number priority "Priority"%string
  ∧ number (λ t, utime t + stime t) "CPUTime"%string
  ∧ (paramName m = process_param i "State" →
     ∃ m' p', process_get o m p = Some (Some (OK, m', p'))
       ∧ buf_str (paramValue m') = match shown with Some t => state_text (state t) | None => EmptyString end)
  ∧ (paramName m = process_param i "Command" → (∀ t, shown = Some t → has_char NUL (cmd t) = false ∧ (String.length (cmd t) < 256)%nat) →
     ∃ m' p', process_get o m p = Some (Some (OK, m', p'))
       ∧ buf_str (paramValue m') = match shown with Some t => cmd t | None => EmptyString end).
Proof.
  intros Hl Hi shown number. split_and!; intros Hp.
  - rewrite (process_value o l i "PID" _ eProcessPid (λ m p', put_number m (uiPid p'))) by done.
    do 2 eexists. split; [reflexivity|]. rewrite number_value. fold shown. destruct shown; [apply uint32_twice|done].
  - rewrite (process_value o l i "Size" _ eProcessSize (λ m p', put_number m (uiSize p'))) by done.
    do 2 eexists. split; [reflexivity|]. rewrite number_value. fold shown. destruct shown; [apply uint32_twice|done].
  - rewrite (process_value o l i "Priority" _ eProcessPriority (λ m p', put_number m (uiPriority p'))) by done.
    do 2 eexists. split; [reflexivity|]. rewrite number_value. fold shown. destruct shown; [apply uint32_twice|done].
  - rewrite (process_value o l i "CPUTime" _ eProcessCpuTime (λ m p', put_number m (uiCpuTime p'))) by done.
    do 2 eexists. split; [reflexivity|]. rewrite number_value. fold shown. destruct shown; [|done].
    etrans; [apply uint32_twice|apply uint32_uint64].
  - rewrite (process_value o l i "State" _ eProcessState (λ m p', put_string m (cState p'))) by done.
    do 2 eexists. split; [reflexivity|]. fold shown. destruct shown as [t|]; [|by apply string_value, Nat.ltb_lt].
    cbn [cState fill_member]. unfold state_text.
    repeat case_bool; (apply string_value; [done|]; apply Nat.ltb_lt; reflexivity).
  - intros Hcmd. rewrite (process_value o l i "Command" _ eProcessCommand (λ m p', put_string m (cCommand p'))) by done.
    do 2 eexists. split; [reflexivity|]. fold shown. destruct shown as [t|] eqn:Ht; [|by apply string_value, Nat.ltb_lt].
    destruct (Hcmd t eq_refl) as [Hn Hc]. cbn [cCommand fill_member]. unfold copied. rewrite c_str_no_nul by done.
    rewrite (proj2 (Nat.ltb_lt _ _)) by done. apply string_value; [done|lia].
Qed.
End table.

(** *** Three processes *)
Definition three : option (list proc_t) :=
  Some [mkProc 1 "init" "S" 20 500 300 200; mkProc 7 "rt" "R" (-51) 100 5 5; mkProc 9 "disk" "D" 20 1 0 0].

Definition plain_options : hostIf_DeviceInfo.options := hostIf_DeviceInfo.mkOptions false false false false false.

Lemma process_answers_witness :
  let m := Webpa.mk_request "Device.DeviceInfo.ProcessStatus.Process.1.Size" hostIf_UnsignedIntType zero_msg in
  ∃ m' p', process_get three plain_options m no_process = Some (Some (OK, m', p'))
    ∧ get_uint (paramValue m') = 2000.
Proof.
  refine (proj1 (proj2 (process_answers three plain_options _ 1
    (Webpa.mk_request "Device.DeviceInfo.ProcessStatus.Process.1.Size" hostIf_UnsignedIntType zero_msg) no_process eq_refl _)) eq_refl).
  lia.
Defined.

(** A process of the real-time class has a priority below zero, which is answered as
    a number of 32 bits without sign. *)
Example negative_priority :
  match process_get three plain_options
          (Webpa.mk_request "Device.DeviceInfo.ProcessStatus.Process.2.Priority" hostIf_StringType zero_msg) no_process with
  | Some (Some (ret, m', _)) => ret = OK ∧ getStringValue m' = Some "4294967245"%string
  | _ => False
  end.
Proof. vm_compute. done. Qed.

(** A process that waits for a disk has no state. *)
Example waiting_has_no_state :
  match process_get three plain_options
          (Webpa.mk_request "Device.DeviceInfo.ProcessStatus.Process.3.State" hostIf_StringType zero_msg) no_process with
  | Some (Some (ret, m', _)) => ret = OK ∧ buf_str (paramValue m') = EmptyString
  | _ => False
  end.
Proof. vm_compute. done. Qed.

(** Instance 0 is not refused: the record that is read was never written. *)
Example process_zero_unwritten :
  process_get three plain_options
    (Webpa.mk_request "Device.DeviceInfo.ProcessStatus.Process.0.PID" hostIf_UnsignedIntType zero_msg) no_process = Some None.
Proof. vm_compute. reflexivity. Qed.

End Process.
