(* ===== verification/TimeClient.v ===== *)
(** * The time profile

    [hostIf_Time] models profiles/Time/Device_Time.cpp: the time the device shows,
    the settings of chrony, which are files, and the parameters of the bootstrap
    store.  [TimeClientReqHandler] models handlers/src/hostIf_TimeClient_ReqHandler.cpp,
    the manager of the names below Device.Time. *)
From stdpp Require Import base list strings gmap.
From Stdlib Require Import Ascii ZArith Lia.
From S2P Require Import Prelude HostIf FileStore BSJournal BSStore Webpa ProfileIO Utils Notify DeviceInfo DeviceClient.
Import ProfileIO.
Import NotifyHash (entry, notify(..), destroy_table).
Import DeviceClientReqHandler (may_override).

#[local] Arguments streq : simpl never.

Module hostIf_Time.

(** ** Scanning *)

(** [%<width>[^,]]: one to [width] characters that are no comma. *)
Fixpoint scan_until_comma (width : nat) (s : string) : string * string :=
  match width, s with
  | S w, String c s' =>
      if Ascii.eqb c COMMA then (EmptyString, s)
      else let '(t, r) := scan_until_comma w s' in (String c t, r)
  | _, _ => (EmptyString, s)
  end.

Definition scan_set (width : nat) (s : string) : option (string * string) :=
  let '(t, r) := scan_until_comma width s in if is_empty t then None else Some (t, r).

(** [%d]: the number is read as a long and stored in an int. *)
Definition scan_int (s : string) : option (Z * string) :=
  '(neg, n, rest) ← strto s;
  Some (int32 (Z.max LONG_MIN (Z.min LONG_MAX (if neg : bool then - n else n))), rest).

Definition scan_comma (s : string) : option string :=
  match s with String c s' => if Ascii.eqb c COMMA then Some s' else None | EmptyString => None end.

Record settings := mkSettings { typeStr : string; maxsources : Z; iburstStr : string; minpoll : Z; maxpoll : Z }.

(** The five conversions, and nothing after the last. *)
Definition parse_settings (input : string) : option settings :=
  '(typeStr, s) ← scan_set 15 (c_str input);
  s ← scan_comma s;
  '(maxsources, s) ← scan_int s;
  s ← scan_comma s;
  '(iburstStr, s) ← scan_set 7 s;
  s ← scan_comma s;
  '(minpoll, s) ← scan_int s;
  s ← scan_comma s;
  '(maxpoll, s) ← scan_int s;
  if is_empty s then Some (mkSettings typeStr maxsources iburstStr minpoll maxpoll) else None.

(** The checks, in their order. *)
Definition settings_valid (x : settings) : bool :=
  (strcaseeq (typeStr x) "server" || strcaseeq (typeStr x) "pool")
  && negb (strcaseeq (typeStr x) "server" && negb (maxsources x =? 0))
  && negb (maxsources x <? 0)
  && (strcaseeq (iburstStr x) "true" || strcaseeq (iburstStr x) "false")
  && negb ((minpoll x <? 4) || (24 <? minpoll x))
  && negb ((maxpoll x <? 4) || (24 <? maxpoll x))
  && negb (maxpoll x <? minpoll x).

(** ** Files *)
Definition CHRONY_ENABLE_FILE : string := "/opt/secure/RFC/chrony/chronyd_enabled".
Definition NTP_MAXSTEP_FILE : string := "/opt/secure/RFC/chrony/ntp_maxstep".
Definition NTP_MAXSTEP_DEFAULT : string := "1.0,3".
Definition NTP_SERVER_SETTINGS_FILE_PREFIX : string := "/opt/secure/RFC/chrony/ntp_server".
Definition NTP_SERVER_SETTINGS_FILE_SUFFIX : string := "_settings".
Definition NTP_SERVER_SETTINGS_DEFAULT : string := "pool,4,true,10,12".
Definition NTP_SERVER_MAX_INSTANCES : Z := 5.

Definition getNTPServerSettingsFilePath (idx : Z) : string :=
  str_take 127 (NTP_SERVER_SETTINGS_FILE_PREFIX +:+ dec idx +:+ NTP_SERVER_SETTINGS_FILE_SUFFIX).

Definition PREFIX : string := "Device.Time.Chrony.NTPServer.".
Definition SUFFIX : string := ".Settings".

Definition parseNTPServerInstance (paramName : string) : Z :=
  if strncaseeq PREFIX paramName then
    match strto (str_drop (String.length PREFIX) paramName) with
    | None => -1
    | Some (neg, n, end_) =>
        let idx := if neg : bool then - n else n in
        if (idx <? LONG_MIN) || (LONG_MAX <? idx) then -1
        else if negb (strcaseeq end_ SUFFIX) then -1
        else if (idx <? 1) || (NTP_SERVER_MAX_INSTANCES <? idx) then -1
        else idx
    end
  else -1.

(** The first line of a file, or the default when it is empty or not there. *)
Definition first_line (w : env) (path default_ : string) : string :=
  match read_file w path with
  | Some content => match getlines content with l :: _ => if is_empty l then default_ else l | [] => default_ end
  | None => default_
  end.

Section settings.
(** [mkdir] of /opt/secure/RFC/chrony: made, or there already. *)
Variable mkdir_ok : bool.

Definition get_Device_Time_NTPServerSettings (w : env) (m : HOSTIF_MsgData_t) : Z * HOSTIF_MsgData_t :=
  let idx := parseNTPServerInstance (paramName m) in
  if (idx <? 1) || (NTP_SERVER_MAX_INSTANCES <? idx)
  then (NOK, set_fault (set_paramtype m hostIf_StringType) fcInvalidParameterName)
  else (OK, answer_text m (first_line w (getNTPServerSettingsFilePath idx) NTP_SERVER_SETTINGS_DEFAULT)).

(** [None]: undefined behaviour in [getStringValue]. *)
Definition set_Device_Time_NTPServerSettings (w : env) (m : HOSTIF_MsgData_t) : option (Z * HOSTIF_MsgData_t * env) :=
  let idx := parseNTPServerInstance (paramName m) in
  if (idx <? 1) || (NTP_SERVER_MAX_INSTANCES <? idx)
  then Some (NOK, set_fault m fcInvalidParameterName, w)
  else
    input ← getStringValue m;
    Some (match parse_settings input with
          | None => (NOK, set_fault m fcInvalidParameterValue, w)
          | Some x =>
              if settings_valid x then
                if mkdir_ok then
                  match rewrite_file w (getNTPServerSettingsFilePath idx) input with
                  | Some w' => (OK, m, w')
                  | None => (NOK, m, w)
                  end
                else (NOK, m, w)
              else (NOK, set_fault m fcInvalidParameterValue, w)
          end).

Definition get_Device_Time_NTPMaxstep (w : env) (m : HOSTIF_MsgData_t) : Z * HOSTIF_MsgData_t :=
  (OK, answer_text m (first_line w NTP_MAXSTEP_FILE NTP_MAXSTEP_DEFAULT)).

Definition set_Device_Time_NTPMaxstep (w : env) (m : HOSTIF_MsgData_t) : option (Z * HOSTIF_MsgData_t * env) :=
  input ← getStringValue m;
  Some (if has_char COMMA input then
          match rewrite_file w NTP_MAXSTEP_FILE input with Some w' => (OK, m, w') | None => (NOK, m, w) end
        else (NOK, set_fault m fcInvalidParameterValue, w)).

Definition get_Device_Time_Chrony_Enable (w : env) (m : HOSTIF_MsgData_t) : Z * HOSTIF_MsgData_t :=
  let there := match read_file w CHRONY_ENABLE_FILE with Some _ => true | None => false end in
  (OK, set_len (set_value (set_paramtype m hostIf_BooleanType) (put_boolean (paramValue m) there)) 1).

Definition set_Device_Time_Chrony_Enable (w : env) (m : HOSTIF_MsgData_t) : option (Z * HOSTIF_MsgData_t * env) :=
  chronyEnableStr ← getStringValue m;
  Some (if is_empty chronyEnableStr || streq chronyEnableStr "false" || streq chronyEnableStr "0"
        then (OK, m, remove_file w CHRONY_ENABLE_FILE)
        else if streq chronyEnableStr "true" || streq chronyEnableStr "1" then
          if mkdir_ok then
            match rewrite_file w CHRONY_ENABLE_FILE "true" with Some w' => (OK, m, w') | None => (NOK, m, w) end
          else (NOK, m, w)
        else (NOK, m, w)).
End settings.

(** ** The clock *)

(** What strftime makes of the time for the formats of the getters, and the
    seconds; [None]: the name of the zone does not fit. *)
Record clock := mkClock {
  zone_name : option string;
  local_time : string;
  zone_offset : string;
  tm_sec : Z;
  utc_time : string
}.

Definition get_Device_Time_LocalTimeZone (c : clock) (m : HOSTIF_MsgData_t) : Z * HOSTIF_MsgData_t :=
  match zone_name c with None => (NOK, m) | Some tmp => (OK, answer_text m tmp) end.

(** Six digits at least. *)
Fixpoint zeros (n : nat) : string := match n with O => EmptyString | S n' => String "0"%char (zeros n') end.
Definition six_digits (z : Z) : string := zeros (6 - String.length (dec z)) +:+ dec z.

(** The fraction is made of the seconds. *)
Definition get_Device_Time_CurrentLocalTime (c : clock) (m : HOSTIF_MsgData_t) : Z * HOSTIF_MsgData_t :=
  (OK, answer_text m (str_take 63 (local_time c +:+ "." +:+ six_digits (tm_sec c) +:+ zone_offset c))).

Definition get_Device_Time_CurrentUTCTime (c : clock) (m : HOSTIF_MsgData_t) : Z * HOSTIF_MsgData_t :=
  (OK, answer_text m (utc_time c)).

Definition set_Device_Time_Enable (m : HOSTIF_MsgData_t) : Z * HOSTIF_MsgData_t := (NOK, m).

(** ** The instances *)

(** The identifiers of the instances, the table of notifications, the bootstrap
    store, which is one for all profiles, and the files. *)
Record state := mkState {
  ifHash : gset Z;
  m_notifyHash : notify;
  m_bsStore : option XBSStore.t;
  files : env
}.

Definition with_files (s : state) (w : env) : state := mkState (ifHash s) (m_notifyHash s) (m_bsStore s) w.

Section order.
Context `{UMapOrder} `{CJson}.

(** A new instance takes the store.  [None]: undefined behaviour in its
    constructor. *)
Definition getInstance (dev_id : Z) (s : state) : option state :=
  if decide (dev_id ∈ ifHash s) then Some s
  else
    '(x, w) ← (match m_bsStore s with Some x => Some (x, files s) | None => XBSStore.new (files s) end);
    Some (mkState ({[dev_id]} ∪ ifHash s) (m_notifyHash s) (Some x) w).

(** The destructor of every instance destroys the table. *)
Definition closeAllInstances (s : state) : option state :=
  t ← Nat.iter (size (ifHash s)) (λ t, t ≫= destroy_table) (Some (m_notifyHash s));
  Some (mkState ∅ t (m_bsStore s) (files s)).

Definition set_xRDKCentralComBootstrap (m : HOSTIF_MsgData_t) (s : state) : option (Z * HOSTIF_MsgData_t * state) :=
  x ← m_bsStore s;
  '(f, x', m', w') ← XBSStore.overrideValue x (files s) m;
  Some (faultCode_val f, m', mkState (ifHash s) (m_notifyHash s) (Some x') w').

Definition get_xRDKCentralComBootstrap (m : HOSTIF_MsgData_t) (s : state) : option (Z * HOSTIF_MsgData_t * state) :=
  x ← m_bsStore s;
  '(f, x', m', w') ← XBSStore.getValue x (files s) m;
  Some (faultCode_val f, m', mkState (ifHash s) (m_notifyHash s) (Some x') w').
End order.

(** ** Scanning what has been printed *)
Definition is_int (z : Z) : Prop := - 2 ^ 31 <= z < 2 ^ 31.

Lemma clamp_int z : is_int z → int32 (Z.max LONG_MIN (Z.min LONG_MAX (if z <? 0 then - Z.abs z else Z.abs z))) = z.
Proof.
  unfold is_int, LONG_MIN, LONG_MAX. intros Hz. rewrite int32_id; destruct (Z.ltb_spec z 0); lia.
Qed.

Lemma scan_int_app z r : is_int z → scan_int (dec z +:+ String COMMA r) = Some (z, String COMMA r).
Proof.
  intros Hz. unfold scan_int. rewrite strto_dec_app by (unfold is_int in Hz; lia || done).
  cbn [mbind option_bind]. by rewrite clamp_int.
Qed.

Lemma scan_int_end z : is_int z → scan_int (dec z) = Some (z, EmptyString).
Proof.
  intros Hz. unfold scan_int. rewrite strto_dec by (unfold is_int in Hz; lia).
  cbn [mbind option_bind]. by rewrite clamp_int.
Qed.

(** A word of at most [n] characters that a line of settings can hold. *)
Definition word (n : nat) (s : string) : Prop :=
  (0 < String.length s ≤ n)%nat ∧ has_char COMMA s = false ∧ has_char NL s = false ∧ has_char NUL s = false.

Lemma scan_set_app n s r : word n s → scan_set n (s +:+ String COMMA r) = Some (s, String COMMA r).
Proof.
  intros (Hl & Hc & _). unfold scan_set.
  assert (scan_until_comma n (s +:+ String COMMA r) = (s, String COMMA r)) as ->.
  { clear -Hl Hc. destruct Hl as [_ Hl]. revert n Hl. induction s as [|c s IH]; intros n Hl; [by destruct n|].
    cbn [has_char] in Hc. apply orb_false_elim in Hc as [Hc Hs]. cbn [String.length] in Hl.
    destruct n as [|n]; [lia|]. cbn [String.append scan_until_comma].
    rewrite Ascii.eqb_sym, Hc, IH by (done || lia). done. }
  destruct s; [cbn in Hl; lia|done].
Qed.

Definition print_settings (x : settings) : string :=
  typeStr x +:+ String COMMA (dec (maxsources x) +:+ String COMMA (iburstStr x +:+ String COMMA
    (dec (minpoll x) +:+ String COMMA (dec (maxpoll x))))).

Definition printable (x : settings) : Prop :=
  word 15 (typeStr x) ∧ word 7 (iburstStr x) ∧ is_int (maxsources x) ∧ is_int (minpoll x) ∧ is_int (maxpoll x).

Lemma print_settings_no c x : printable x → c ∈ [NUL; NL] → has_char c (print_settings x) = false.
Proof.
  intros ((_ & _ & Ha1 & Ha2) & (_ & _ & Hb1 & Hb2) & _) Hc. unfold print_settings.
  assert (has_char c (typeStr x) = false ∧ has_char c (iburstStr x) = false
          ∧ (∀ z, has_char c (dec z) = false) ∧ Ascii.eqb c COMMA = false) as (H1 & H2 & H3 & H4).
  { apply elem_of_cons in Hc as [->| ->%list_elem_of_singleton]; split_and!; try done; intros; by apply dec_no_char. }
  by repeat (rewrite ?has_char_app, ?H1, ?H2, ?H3; cbn [has_char orb]; rewrite ?H4).
Qed.

Lemma parse_print x : printable x → parse_settings (print_settings x) = Some x.
Proof.
  intros Hx. pose proof (print_settings_no NUL x Hx ltac:(left)) as Hn.
  destruct Hx as (Ht & Hi & Ha & Hb & Hc). unfold parse_settings. rewrite c_str_no_nul by done.
  unfold print_settings. rewrite scan_set_app by done. cbn [mbind option_bind scan_comma].
  change (Ascii.eqb COMMA COMMA) with true. cbn [mbind option_bind].
  rewrite scan_int_app by done. cbn [mbind option_bind scan_comma]. change (Ascii.eqb COMMA COMMA) with true.
  cbn [mbind option_bind]. rewrite scan_set_app by done. cbn [mbind option_bind scan_comma].
  change (Ascii.eqb COMMA COMMA) with true. cbn [mbind option_bind].
  rewrite scan_int_app by done. cbn [mbind option_bind scan_comma]. change (Ascii.eqb COMMA COMMA) with true.
  cbn [mbind option_bind]. rewrite scan_int_end by done. cbn [mbind option_bind]. by destruct x.
Qed.

Lemma strncaseeq_prefix p s : strncaseeq p (p +:+ s) = true.
Proof. apply Utils.strncaseeq_app. Qed.

Definition server_name (k : Z) : string := PREFIX +:+ dec k +:+ SUFFIX.

Lemma parse_instance_name k :
  is_int k → parseNTPServerInstance (server_name k) = if decide (1 <= k <= 5) then k else -1.
Proof.
  intros Hk. unfold parseNTPServerInstance, server_name. rewrite strncaseeq_prefix, str_drop_app.
  unfold SUFFIX at 1. rewrite strto_dec_app by (unfold is_int in Hk; lia || done).
  assert ((if k <? 0 then - Z.abs k else Z.abs k) = k) as -> by (destruct (Z.ltb_spec k 0); lia).
  rewrite (proj2 (orb_false_iff _ _)) by (unfold is_int, LONG_MIN, LONG_MAX in *; lia).
  change (strcaseeq _ SUFFIX) with (strcaseeq SUFFIX SUFFIX). rewrite strcaseeq_refl. cbn [negb].
  unfold NTP_SERVER_MAX_INSTANCES. case_decide.
  - by rewrite (proj2 (orb_false_iff _ _)) by lia.
  - destruct ((k <? 1) || (5 <? k)) eqn:E; [done|]. apply orb_false_elim in E. lia.
Qed.

Lemma path_inj i j :
  1 <= i <= 5 → 1 <= j <= 5 → getNTPServerSettingsFilePath i = getNTPServerSettingsFilePath j → i = j.
Proof.
  intros Hi Hj. assert (i = 1 ∨ i = 2 ∨ i = 3 ∨ i = 4 ∨ i = 5) as Ei by lia.
  assert (j = 1 ∨ j = 2 ∨ j = 3 ∨ j = 4 ∨ j = 5) as Ej by lia.
  destruct Ei as [->|[->|[->|[->| ->]]]]; destruct Ej as [->|[->|[->|[->| ->]]]]; done.
Qed.

Lemma getlines_single s : has_char NL s = false → s ≠ EmptyString → getlines s = [s].
Proof.
  induction s as [|c s IH]; [done|]. cbn [has_char]. intros [Hc Hs]%orb_false_elim _. cbn [getlines].
  rewrite Ascii.eqb_sym, Hc. destruct s as [|c' s']; [done|]. by rewrite IH.
Qed.

(** ** The manager *)
Module TimeClientReqHandler.

Definition NTPSTATUS_NAME_FILE : string := "/tmp/ntp_status".
Definition NTPENABLED_FILE : string := "/opt/.ntpEnabled".

(** [fgets] into [size] bytes: up to and with the first newline. *)
Fixpoint fgets (size : nat) (s : string) : string :=
  match size, s with
  | S (S n), String c s' => if Ascii.eqb c NL then String c EmptyString else String c (fgets (S n) s')
  | _, _ => EmptyString
  end.

(** Without the newline at its end.  [None]: the character before an empty text
    is read. *)
Definition chomp (line : string) : option string :=
  match last_char (c_str line) with
  | None => None
  | Some c => Some (if Ascii.eqb c NL then str_take (String.length (c_str line) - 1) (c_str line) else c_str line)
  end.

Definition is_settings (n : string) : bool :=
  strncaseeq "Device.Time.Chrony.NTPServer." n && contains (lower ".Settings") (lower n).

Section manager.
Context `{UMapOrder} `{CJson} (str_hash : string → Z) (mkdir_ok : bool).

Definition put_files (s : state) (r : option (Z * HOSTIF_MsgData_t * env)) : option (Z * HOSTIF_MsgData_t * state) :=
  '(ret, m, w) ← r; Some (ret, m, with_files s w).

Definition handleSetMsg (m : HOSTIF_MsgData_t) (s : state) : option (Z * HOSTIF_MsgData_t * state) :=
  if strncaseeq "Device.Time" (paramName m) then
    let m1 := set_instance m 0 in
    s1 ← getInstance 0 s;
    if decide (bsUpdate m ≠ HOSTIF_NONE) then
      if may_override (bsUpdate m) (requestor m) then set_xRDKCentralComBootstrap m1 s1
      else Some (NOT_HANDLED, m1, s1)
    else if strcaseeq (paramName m) "Device.Time.Enable" then
      let '(ret, m2) := set_Device_Time_Enable m1 in Some (ret, m2, s1)
    else if strcaseeq (paramName m) "Device.Time.Chrony.Enable" then
      put_files s1 (set_Device_Time_Chrony_Enable mkdir_ok (files s1) m1)
    else if strcaseeq (paramName m) "Device.Time.Chrony.Makestep" then
      put_files s1 (set_Device_Time_NTPMaxstep (files s1) m1)
    else if is_settings (paramName m) then
      put_files s1 (set_Device_Time_NTPServerSettings mkdir_ok (files s1) m1)
    else Some (NOK, set_fault m1 fcInvalidParameterName, s1)
  else Some (NOT_HANDLED, m, s).

(** [None] in the result of the file: undefined behaviour. *)
Definition get_status (w : env) (m : HOSTIF_MsgData_t) : option (Z * HOSTIF_MsgData_t) :=
  match read_file w NTPSTATUS_NAME_FILE with
  | None => Some (NOK, m)
  | Some EmptyString => Some (NOT_HANDLED, m)
  | Some content =>
      ntpStatus ← chomp (fgets 64 content);
      Some (OK, set_len (set_value m (Webpa.fill ntpStatus)) (Z.of_nat (String.length ntpStatus)))
  end.

Definition get_enable (w : env) (m : HOSTIF_MsgData_t) : Z * HOSTIF_MsgData_t :=
  let enable := match read_file w NTPENABLED_FILE with Some _ => true | None => false end in
  (OK, set_len (set_paramtype (set_value m (put_boolean (paramValue m) enable)) hostIf_BooleanType) 1).

Definition handleGetMsg (c : clock) (m : HOSTIF_MsgData_t) (s : state) : option (Z * HOSTIF_MsgData_t * state) :=
  if strncaseeq "Device.Time" (paramName m) then
    let m1 := set_instance m 0 in
    s1 ← getInstance 0 s;
    let reply (r : Z * HOSTIF_MsgData_t) := Some (r.1, r.2, s1) in
    if decide (bsUpdate m ≠ HOSTIF_NONE) then get_xRDKCentralComBootstrap m1 s1
    else if strcaseeq (paramName m) "Device.Time.LocalTimeZone" then reply (get_Device_Time_LocalTimeZone c m1)
    else if strcaseeq (paramName m) "Device.Time.CurrentLocalTime" then reply (get_Device_Time_CurrentLocalTime c m1)
    else if strcaseeq (paramName m) "Device.Time.Status" then r ← get_status (files s1) m1; reply r
    else if strcaseeq (paramName m) "Device.Time.Enable" then reply (get_enable (files s1) m1)
    else if strcaseeq (paramName m) "Device.Time.X_RDK_CurrentUTCTime" then reply (get_Device_Time_CurrentUTCTime c m1)
    else if strcaseeq (paramName m) "Device.Time.Chrony.Enable" then
      reply (get_Device_Time_Chrony_Enable (files s1) m1)
    else if strcaseeq (paramName m) "Device.Time.Chrony.Makestep" then reply (get_Device_Time_NTPMaxstep (files s1) m1)
    else if is_settings (paramName m) then reply (get_Device_Time_NTPServerSettings (files s1) m1)
    else Some (NOK, set_fault m1 fcInvalidParameterName, s1)
  else Some (NOK, set_fault m fcInvalidParameterName, s).

Definition handleSetAttributesMsg (m : HOSTIF_MsgData_t) (s : state) : option (Z * HOSTIF_MsgData_t * state) :=
  s1 ← getInstance 0 s;
  match NotifyHash.made (m_notifyHash s1) with
  | table_of t =>
      t' ← NotifyHash.set_attribute str_hash true t (paramName m);
      Some (OK, set_instance m 0, mkState (ifHash s1) (table_of t') (m_bsStore s1) (files s1))
  | _ => None
  end.

(** The body is that of [handleSetAttributesMsg]. *)
Definition handleGetAttributesMsg (m : HOSTIF_MsgData_t) (s : state) : option (Z * HOSTIF_MsgData_t * state) :=
  s1 ← getInstance 0 s;
  match NotifyHash.made (m_notifyHash s1) with
  | table_of t =>
      t' ← NotifyHash.set_attribute str_hash true t (paramName m);
      Some (OK, set_instance m 0, mkState (ifHash s1) (table_of t') (m_bsStore s1) (files s1))
  | _ => None
  end.

Definition unInit (s : state) : option state := closeAllInstances s.
End manager.

(** ** Settings through the manager *)
Section settings_correct.
Context `{UMapOrder} `{CJson}.

Lemma instance_there (s : state) : 0 ∈ ifHash s → getInstance 0 s = Some s.
Proof. intros Hs. unfold getInstance. by rewrite decide_True. Qed.

Lemma time_name rest : strncaseeq "Device.Time" ("Device.Time" +:+ rest) = true.
Proof. apply strncaseeq_prefix. Qed.

(** A name of an NTP server's settings is found by the handlers. *)
Lemma server_name_routed k :
  strncaseeq "Device.Time" (server_name k) = true ∧ is_settings (server_name k) = true
  ∧ ∀ n, n ∈ ["Device.Time.LocalTimeZone"; "Device.Time.CurrentLocalTime"; "Device.Time.Status"; "Device.Time.Enable";
              "Device.Time.X_RDK_CurrentUTCTime"; "Device.Time.Chrony.Enable"; "Device.Time.Chrony.Makestep"]%string →
    strcaseeq (server_name k) n = false.
Proof.
  split; [reflexivity|]. split.
  - unfold is_settings, server_name, PREFIX. rewrite strncaseeq_prefix. cbn [andb].
    apply contains_true. exists (lower ("Device.Time.Chrony.NTPServer." +:+ dec k)), EmptyString.
    rewrite str_app_nil_r, <- lower_app. by rewrite str_app_assoc.
  - intros n Hn. repeat (apply elem_of_cons in Hn as [->|Hn]; [reflexivity|]). by apply not_elem_of_nil in Hn.
Qed.

Lemma get_settings c m s k :
  0 ∈ ifHash s → bsUpdate m = HOSTIF_NONE → paramName m = server_name k → 1 <= k <= 5 →
  handleGetMsg c m s
  = Some (OK, answer_text (set_instance m 0)
                (first_line (files s) (getNTPServerSettingsFilePath k) NTP_SERVER_SETTINGS_DEFAULT), s).
Proof.
  intros Hs Hb Hn Hk. destruct (server_name_routed k) as (Ht & Hi & Hr).
  unfold handleGetMsg. rewrite Hn, Ht, instance_there, Hb by done. cbn [mbind option_bind].
  rewrite decide_False by (by intros []). rewrite !Hr by in_list. rewrite Hi.
  unfold get_Device_Time_NTPServerSettings. change (paramName (set_instance m 0)) with (paramName m).
  rewrite Hn, parse_instance_name by (unfold is_int; lia). rewrite decide_True by done.
  unfold NTP_SERVER_MAX_INSTANCES. rewrite (proj2 (orb_false_iff _ _)) by lia. done.
Qed.

(** The settings that chrony takes: a server has no number of sources, a pool any,
    and the two polls are ordered within their range. *)
Definition chrony_takes (x : settings) : Prop :=
  (strcaseeq (typeStr x) "server" = true ∧ maxsources x = 0
   ∨ strcaseeq (typeStr x) "pool" = true ∧ 0 <= maxsources x)
  ∧ (strcaseeq (iburstStr x) "true" = true ∨ strcaseeq (iburstStr x) "false" = true)
  ∧ 4 <= minpoll x <= maxpoll x ∧ maxpoll x <= 24.

#[local] Instance chrony_takes_dec x : Decision (chrony_takes x).
Proof. unfold chrony_takes. apply _. Defined.

Lemma settings_valid_spec x : settings_valid x = bool_decide (chrony_takes x).
Proof.
  assert (strcaseeq (typeStr x) "server" = true → strcaseeq (typeStr x) "pool" = false) as Hsp.
  { unfold strcaseeq. intros ->%String.eqb_eq. reflexivity. }
  apply eq_true_iff_eq. rewrite bool_decide_eq_true. unfold settings_valid, chrony_takes.
  rewrite !andb_true_iff, !orb_true_iff, !negb_true_iff, !andb_false_iff, !orb_false_iff, negb_false_iff.
  rewrite Z.eqb_eq, !Z.ltb_ge. destruct (strcaseeq (typeStr x) "server"), (strcaseeq (typeStr x) "pool");
    intuition (try done; try lia).
Qed.

(** C26. The settings of an NTP server are checked and kept as they are. Of the
    lines of five fields (a type of 1 to 15 characters, a number, a flag of 1 to
    7 characters, two numbers, all numbers ints printed in decimal, no blanks
    around them), set as a string for one of the five servers whose file can be
    written, a line is accepted exactly when its type is server and its first
    number 0, or its type is pool and its first number not negative, its flag is
    true or false (in any case, as the type), and its polls are between 4 and 24
    in order. Then it is what a get answers for that server, and those of the
    other servers stay; otherwise the request fails as an invalid value and no
    file changes. *)
Theorem ntp_settings_exact c m s k x :
  0 ∈ ifHash s → bsUpdate m = HOSTIF_NONE → paramName m = server_name k → 1 <= k <= 5 →
  paramtype m = hostIf_StringType → buf_str (paramValue m) = print_settings x → printable x →
  can_write (files s) (getNTPServerSettingsFilePath k) = true →
  ∃ ret m' s', handleSetMsg true m s = Some (ret, m', s')
    ∧ if decide (chrony_takes x)
      then ret = OK ∧ ∀ j q, 1 <= j <= 5 → bsUpdate q = HOSTIF_NONE → paramName q = server_name j →
             ∃ q', handleGetMsg c q s' = Some (OK, q', s')
                   ∧ if decide (j = k) then buf_str (paramValue q') = print_settings x
                     else handleGetMsg c q s = Some (OK, q', s)
      else ret = NOK ∧ faultCode m' = fcInvalidParameterValue ∧ s' = s.
Proof.
  intros Hs Hb Hn Hk Ht Hv Hx Hw. destruct (server_name_routed k) as (Hpre & Hi & Hr).
  destruct (rewrite_file_read _ _ (print_settings x) Hw) as (w' & Hw' & Hread).
  assert (with_files s (files s) = s) as Hsame by by destruct s.
  assert (handleSetMsg true m s
          = Some (if settings_valid x then (OK, set_instance m 0, with_files s w')
                  else (NOK, set_fault (set_instance m 0) fcInvalidParameterValue, s))) as Hset.
  { unfold handleSetMsg. rewrite Hn, Hpre, instance_there, Hb by done. cbn [mbind option_bind].
    rewrite decide_False by (by intros []). rewrite !Hr by in_list. rewrite Hi.
    unfold set_Device_Time_NTPServerSettings. change (paramName (set_instance m 0)) with (paramName m).
    rewrite Hn, parse_instance_name by (unfold is_int; lia). rewrite decide_True by done.
    unfold NTP_SERVER_MAX_INSTANCES. rewrite (proj2 (orb_false_iff _ _)) by lia.
    change (getStringValue (set_instance m 0)) with (getStringValue m). unfold getStringValue.
    rewrite Ht, Hv. cbn [mbind option_bind]. rewrite parse_print by done.
    destruct (settings_valid x); cbn [put_files mbind option_bind]; [by rewrite Hw'|by rewrite Hsame]. }
  rewrite Hset, settings_valid_spec. destruct (decide (chrony_takes x)) as [Hok|Hok];
    [rewrite bool_decide_eq_true_2 by done|rewrite bool_decide_eq_false_2 by done; by eexists _, _, _].
  eexists _, _, _. split; [done|]. split; [done|]. intros j q Hj Hbq Hnq.
  rewrite (get_settings c q (with_files s w') j) by done. eexists. split; [done|].
  unfold first_line. change (files (with_files s w')) with w'. rewrite Hread. case_decide as Hd.
  - subst j. rewrite decide_True by done.
    assert (print_settings x ≠ EmptyString) as Hne.
    { destruct Hx as ((Hl & _) & _). unfold print_settings. destruct (typeStr x); [cbn in Hl; lia|done]. }
    rewrite getlines_single; [|by apply print_settings_no; [|right; left]|done].
    replace (is_empty (print_settings x)) with false by (by destruct (print_settings x)).
    apply answer_text_value; [|by apply print_settings_no; [|left]].
    destruct Hx as ((Hl1 & _) & (Hl2 & _) & Ha & Hbb & Hc). unfold print_settings.
    assert (∀ z, is_int z → (String.length (dec z) ≤ 11)%nat) as Hlen.
    { intros z Hz. unfold dec, dec_nat. unfold is_int in Hz. destruct (Z.ltb_spec z 0); cbn [String.length].
      - pose proof (dec_aux_length 20 (- z) EmptyString 10 ltac:(lia) ltac:(lia)) as Hd. cbn [String.length] in Hd. lia.
      - pose proof (dec_aux_length 20 z EmptyString 10 ltac:(lia) ltac:(lia)) as Hd. cbn [String.length] in Hd. lia. }
    pose proof (Hlen _ Ha). pose proof (Hlen _ Hbb). pose proof (Hlen _ Hc).
    repeat (rewrite str_length_app; cbn [String.length]). lia.
  - rewrite decide_False by (intros E; by apply path_inj in E). by rewrite (get_settings c q s j).
Qed.
End settings_correct.

(** ** The other settings, and the attributes *)
Section others_correct.
Context `{UMapOrder} `{CJson}.

Definition chrony_name : string := "Device.Time.Chrony.Enable".
Definition makestep_name : string := "Device.Time.Chrony.Makestep".

(** What a text asks for. *)
Definition switch (text : string) : option bool :=
  if decide (text ∈ [""; "false"; "0"]%string) then Some false
  else if decide (text ∈ ["true"; "1"]%string) then Some true
  else None.

(** Chrony is switched by a file that is there or not: after a set of true, 1,
    false, 0 or nothing, in any type, a get answers the boolean that was asked for,
    and any other text is refused and changes nothing. *)
Theorem chrony_switch c m s text q :
  0 ∈ ifHash s → paramName m = chrony_name → bsUpdate m = HOSTIF_NONE → getStringValue m = Some text →
  can_write (files s) CHRONY_ENABLE_FILE = true → paramName q = chrony_name → bsUpdate q = HOSTIF_NONE →
  ∃ ret s' q', handleSetMsg true m s = Some (ret, set_instance m 0, s') ∧ handleGetMsg c q s' = Some (OK, q', s')
    ∧ paramtype q' = hostIf_BooleanType
    ∧ match switch text with
      | Some b => ret = OK ∧ get_boolean (paramValue q') = b
      | None => ret = NOK ∧ s' = s
      end.
Proof.
  intros Hs Hn Hb Ht Hw Hnq Hbq.
  assert (∀ s', 0 ∈ ifHash s' → handleGetMsg c q s' = Some (OK, (get_Device_Time_Chrony_Enable (files s') (set_instance q 0)).2, s')) as Hget.
  { intros s' Hs'. unfold handleGetMsg. rewrite Hnq, instance_there, Hbq by done. reflexivity. }
  assert (handleSetMsg true m s = put_files s (set_Device_Time_Chrony_Enable true (files s) (set_instance m 0))) as Hset.
  { unfold handleSetMsg. rewrite Hn, instance_there, Hb by done. reflexivity. }
  rewrite Hset. unfold set_Device_Time_Chrony_Enable.
  change (getStringValue (set_instance m 0)) with (getStringValue m). rewrite Ht. cbn [mbind option_bind].
  assert (with_files s (files s) = s) as Hsame by by destruct s.
  destruct (rewrite_file_read _ _ "true" Hw) as (w' & Hw' & Hread).
  destruct (switch text) as [b|] eqn:Hsw; unfold switch in Hsw.
  - destruct b.
    + case_decide as Hf; [done|]. case_decide as Htrue; [|done].
      assert ((is_empty text || streq text "false" || streq text "0") = false
              ∧ (streq text "true" || streq text "1") = true) as [-> ->].
      { apply elem_of_cons in Htrue as [->| ->%list_elem_of_singleton]; done. }
      rewrite Hw'. eexists _, (with_files s w'), _. split; [done|]. split; [by apply Hget|]. split; [done|].
      split; [done|]. cbn [snd get_Device_Time_Chrony_Enable]. change (files (with_files s w')) with w'.
      rewrite Hread, decide_True by done. apply get_put_boolean.
    + case_decide as Hf; [|by case_decide].
      assert ((is_empty text || streq text "false" || streq text "0") = true) as ->.
      { apply elem_of_cons in Hf as [->|[->| ->%list_elem_of_singleton]%elem_of_cons]; done. }
      eexists _, (with_files s (remove_file (files s) CHRONY_ENABLE_FILE)), _. split; [done|].
      split; [by apply Hget|]. split; [done|]. split; [done|].
      cbn [snd get_Device_Time_Chrony_Enable]. unfold read_file, remove_file, with_files. cbn [files e_files set_files].
      rewrite lookup_delete_eq. apply get_put_boolean.
  - case_decide as Hf; [done|]. case_decide as Htrue; [done|].
    assert ((is_empty text || streq text "false" || streq text "0") = false
            ∧ (streq text "true" || streq text "1") = false) as [-> ->].
    { assert (∀ t, t ∈ [""; "false"; "0"; "true"; "1"]%string → streq text t = false) as Hne.
      { intros t Hin. apply streq_false. intros ->.
        change (t ∈ [""; "false"; "0"]%string ++ ["true"; "1"]%string) in Hin. by apply elem_of_app in Hin as [?|?]. }
      rewrite !Hne by in_list. destruct text; [|done]. exfalso. apply Hf. left. }
    cbn [put_files mbind option_bind]. rewrite Hsame.
    eexists _, s, _. split; [done|]. split; [by apply Hget|]. done.
Qed.

(** A step is accepted when it has a comma, whatever else it is, and a get answers
    its first line, or the default when that is empty. *)
Theorem makestep_first_line c m s text q :
  0 ∈ ifHash s → paramName m = makestep_name → bsUpdate m = HOSTIF_NONE → getStringValue m = Some text →
  can_write (files s) NTP_MAXSTEP_FILE = true → paramName q = makestep_name → bsUpdate q = HOSTIF_NONE →
  ∃ ret m' s', handleSetMsg true m s = Some (ret, m', s')
    ∧ if has_char COMMA text
      then ret = OK ∧ handleGetMsg c q s'
             = Some (OK, answer_text (set_instance q 0)
                           (match getlines text with
                            | l :: _ => if is_empty l then NTP_MAXSTEP_DEFAULT else l
                            | [] => NTP_MAXSTEP_DEFAULT
                            end), s')
      else ret = NOK ∧ faultCode m' = fcInvalidParameterValue ∧ s' = s.
Proof.
  intros Hs Hn Hb Ht Hw Hnq Hbq.
  assert (handleSetMsg true m s = put_files s (set_Device_Time_NTPMaxstep (files s) (set_instance m 0))) as ->.
  { unfold handleSetMsg. rewrite Hn, instance_there, Hb by done. reflexivity. }
  assert (with_files s (files s) = s) as Hsame by by destruct s.
  unfold set_Device_Time_NTPMaxstep.
  change (getStringValue (set_instance m 0)) with (getStringValue m). rewrite Ht. cbn [mbind option_bind].
  destruct (has_char COMMA text).
  - destruct (rewrite_file_read _ _ text Hw) as (w' & -> & Hread). cbn [put_files mbind option_bind].
    eexists _, _, _. split; [done|]. split; [done|]. unfold handleGetMsg.
    rewrite Hnq, instance_there, Hbq by done. cbn [mbind option_bind]. rewrite decide_False by (by intros []).
    change (Some (OK, answer_text (set_instance q 0) (first_line w' NTP_MAXSTEP_FILE NTP_MAXSTEP_DEFAULT), with_files s w')
      = Some (OK, answer_text (set_instance q 0)
                (match getlines text with
                 | l :: _ => if is_empty l then NTP_MAXSTEP_DEFAULT else l
                 | [] => NTP_MAXSTEP_DEFAULT end), with_files s w')).
    unfold first_line. by rewrite Hread, decide_True.
  - cbn [put_files mbind option_bind]. rewrite Hsame. by eexists _, _, _.
Qed.

(** Reading an attribute sets it: the answer is success without a value, the name
    is put into the table, and as the table's copy of it is freed, the next request
    for the attributes of the same name, of either kind, reads freed memory. *)
Theorem time_attributes_set_by_get (str_hash : string → Z) m s :
  0 ∈ ifHash s → m_notifyHash s = no_table →
  ∃ s', handleGetAttributesMsg str_hash m s = Some (OK, set_instance m 0, s')
    ∧ handleGetAttributesMsg str_hash m s' = None ∧ handleSetAttributesMsg str_hash m s' = None.
Proof.
  intros Hs Hn. unfold handleGetAttributesMsg at 1. rewrite instance_there by done.
  cbn [mbind option_bind]. rewrite Hn. cbn.
  eexists. split; [done|].
  assert (∀ h, NotifyHash.set_attribute h true [NotifyHash.mkEntry (paramName m) false 1 false] (paramName m) = None) as Hnone.
  { intros h. unfold NotifyHash.set_attribute, NotifyHash.g_hash_table_insert. cbn. by rewrite Z.eqb_refl. }
  unfold handleGetAttributesMsg, handleSetAttributesMsg. rewrite !instance_there by done. cbn [mbind option_bind].
  cbn [m_notifyHash NotifyHash.made]. by rewrite Hnone.
Qed.
End others_correct.

(** ** Examples *)
#[local] Existing Instance canonical_order.
#[local] Existing Instance XBSStore.toy_cjson.

Definition ex_message (n v : string) : HOSTIF_MsgData_t :=
  mkMsg n (Webpa.fill v) None EmptyString 0 0 hostIf_StringType HOSTIF_INVALID_TYPE fcNoFault
    HOSTIF_SRC_WEBPA HOSTIF_NONE false.

Definition ex_state : state := mkState {[0]} no_table None (mkEnv ∅ ∅ true ∅ EmptyString 0).
Definition ex_clock : clock := mkClock (Some "UTC"%string) "2024-01-01T10:20:30" "+0000" 30 "2024-01-01 10:20:30".
Definition ex_settings : settings := mkSettings "pool" 4 "true" 10 12.

Lemma ntp_settings_exact_witness :
  ∃ ret m' s', handleSetMsg true (ex_message "Device.Time.Chrony.NTPServer.2.Settings" "pool,4,true,10,12") ex_state
               = Some (ret, m', s') ∧ ret = OK.
Proof.
  destruct (ntp_settings_exact ex_clock (ex_message "Device.Time.Chrony.NTPServer.2.Settings" "pool,4,true,10,12")
    ex_state 2 ex_settings) as (ret & m' & s' & Hset & Hr & _); [reflexivity|done|done|lia|done| | | |by eauto].
  - apply Webpa.fill_buf; [done|]. apply Nat.ltb_lt. reflexivity.
  - split; [|split; [|done]]; (split; [split; apply Nat.leb_le; reflexivity|done]).
  - reflexivity.
Defined.

Lemma chrony_switch_witness :
  ∃ ret s', handleSetMsg true (ex_message chrony_name "1") ex_state
            = Some (ret, set_instance (ex_message chrony_name "1") 0, s') ∧ ret = OK.
Proof.
  destruct (chrony_switch ex_clock (ex_message chrony_name "1") ex_state "1" (ex_message chrony_name ""))
    as (ret & s' & q' & Hs & _ & _ & Hr & _); [reflexivity|done|done|reflexivity|done|done|done|by eauto].
Defined.

Lemma makestep_first_line_witness :
  ∃ ret m' s', handleSetMsg true (ex_message makestep_name "2.0,1") ex_state = Some (ret, m', s') ∧ ret = OK.
Proof.
  destruct (makestep_first_line ex_clock (ex_message makestep_name "2.0,1") ex_state "2.0,1" (ex_message makestep_name ""))
    as (ret & m' & s' & Hs & Hr & _); [reflexivity|done|done|reflexivity|done|done|done|by eauto].
Defined.

Lemma time_attributes_set_by_get_witness :
  ∃ s', handleGetAttributesMsg (λ _, 0) (ex_message "Device.Time.Status" "") ex_state
        = Some (OK, ex_message "Device.Time.Status" "", s')
        ∧ handleSetAttributesMsg (λ _, 0) (ex_message "Device.Time.Status" "") s' = None.
Proof.
  destruct (time_attributes_set_by_get (λ _, 0) (ex_message "Device.Time.Status" "") ex_state)
    as (s' & H1 & _ & H2); [reflexivity|done|]. by exists s'.
Defined.

End TimeClientReqHandler.

End hostIf_Time.
