(* ===== verification/DeviceFirmware.v ===== *)
(** * Downloading firmware

    [Firmware] models the parameters of profiles/DeviceInfo/Device_DeviceInfo.cpp
    by which a client has the device download an image: the settings that are kept
    until the download is asked for, the status file that the download script and
    the client share, the progress and the name of the running image. *)
From stdpp Require Import base list strings gmap.
From Stdlib Require Import Ascii ZArith Lia.
From S2P Require Import Prelude HostIf FileStore Webpa ProfileIO.
Import ProfileIO.

#[local] Arguments streq : simpl never.

Module Firmware.

Definition FW_DWN_FILE_PATH : string := "/opt/fwdnldstatus.txt".
Definition TEMP_FW_DWN_FILE_PATH : string := "/opt/fwdnldstatus_tmp.txt".
Definition CURENT_FW_FILE : string := "/tmp/currently_running_image_name".
Definition VERSION_FILE : string := "/version.txt".
Definition CURL_PROGRESS : string := "/opt/curl_progress".

(** ** The status file: lines of a key, a bar and a value *)
Definition BAR : ascii := "|"%char.

(** Whether [findIgnoreCase] finds the needle. *)
Definition findIgnoreCase (haystack needle : string) : bool := contains (lower needle) (lower haystack).

Definition readFirmwareInfo (param : string) (w : env) (m : HOSTIF_MsgData_t) : Z * HOSTIF_MsgData_t :=
  match read_file w FW_DWN_FILE_PATH with
  | None => (NOK, m)
  | Some content =>
      let line := scan_lines (λ l, findIgnoreCase l param) content in
      if is_empty line then (NOK, m)
      else match split_at BAR (c_str line) with
           | None => (NOK, m)
           | Some (_, rest) =>
               let pch := skip_space rest in
               (OK, set_len (set_paramtype (set_value m (Webpa.fill pch)) hostIf_StringType)
                            (int32 (Z.of_nat (String.length pch))))
           end
  end.

(** What a line is replaced by. *)
Definition new_line (param value line : string) : string :=
  if contains "Method" line then "Method|tr69"
  else if contains param line then param +:+ String BAR value
  else line.

(** The copy is made without looking whether its file was opened. *)
Definition writeFirmwareInfo (param : string) (m : HOSTIF_MsgData_t) (w : env) : Z * env :=
  match read_file w FW_DWN_FILE_PATH with
  | None => (NOK, w)
  | Some content =>
      let text := text_of (new_line param (buf_str (paramValue m)) <$> getlines content) in
      let w1 := default w (rewrite_file w TEMP_FW_DWN_FILE_PATH text) in
      (OK, (rename TEMP_FW_DWN_FILE_PATH FW_DWN_FILE_PATH (remove_file w1 FW_DWN_FILE_PATH)).2)
  end.

Definition get_FirmwareToDownload := readFirmwareInfo "DnldFile".
Definition get_FirmwareDownloadStatus := readFirmwareInfo "Status".
Definition get_FirmwareDownloadProtocol := readFirmwareInfo "Proto".
Definition get_FirmwareDownloadURL := readFirmwareInfo "DnldURL".
Definition get_FirmwareDownloadUseCodebig := readFirmwareInfo "Codebig_Enable".
Definition get_FirmwareUpdateState := readFirmwareInfo "fwUpdateState".

(** The result of the writing is not looked at. *)
Definition set_FirmwareDownloadStatus (m : HOSTIF_MsgData_t) (w : env) : Z * env :=
  (OK, (writeFirmwareInfo "Status" m w).2).

(** ** The settings of the next download *)
Record settings := mkSettings {
  m_xFirmwareToDownload : string;
  m_xFirmwareDownloadProtocol : string;
  m_xFirmwareDownloadURL : string;
  m_xFirmwareDownloadNow : bool;
  m_xFirmwareDownloadUseCodebig : bool;
  m_xFirmwareDownloadDeferReboot : bool
}.

Definition no_settings : settings := mkSettings EmptyString EmptyString EmptyString false false false.

Definition set_FirmwareToDownload (m : HOSTIF_MsgData_t) (x : settings) : Z * settings :=
  (OK, mkSettings (buf_str (paramValue m)) (m_xFirmwareDownloadProtocol x) (m_xFirmwareDownloadURL x)
                  (m_xFirmwareDownloadNow x) (m_xFirmwareDownloadUseCodebig x) (m_xFirmwareDownloadDeferReboot x)).
Definition set_FirmwareDownloadProtocol (m : HOSTIF_MsgData_t) (x : settings) : Z * settings :=
  (OK, mkSettings (m_xFirmwareToDownload x) (buf_str (paramValue m)) (m_xFirmwareDownloadURL x)
                  (m_xFirmwareDownloadNow x) (m_xFirmwareDownloadUseCodebig x) (m_xFirmwareDownloadDeferReboot x)).
Definition set_FirmwareDownloadURL (m : HOSTIF_MsgData_t) (x : settings) : Z * settings :=
  (OK, mkSettings (m_xFirmwareToDownload x) (m_xFirmwareDownloadProtocol x) (buf_str (paramValue m))
                  (m_xFirmwareDownloadNow x) (m_xFirmwareDownloadUseCodebig x) (m_xFirmwareDownloadDeferReboot x)).
Definition set_FirmwareDownloadUseCodebig (m : HOSTIF_MsgData_t) (x : settings) : Z * settings :=
  (OK, mkSettings (m_xFirmwareToDownload x) (m_xFirmwareDownloadProtocol x) (m_xFirmwareDownloadURL x)
                  (m_xFirmwareDownloadNow x) (get_boolean (paramValue m)) (m_xFirmwareDownloadDeferReboot x)).
Definition set_FirmwareDownloadDeferReboot (m : HOSTIF_MsgData_t) (x : settings) : Z * settings :=
  (OK, mkSettings (m_xFirmwareToDownload x) (m_xFirmwareDownloadProtocol x) (m_xFirmwareDownloadURL x)
                  (m_xFirmwareDownloadNow x) (m_xFirmwareDownloadUseCodebig x) (get_boolean (paramValue m))).

Definition get_FirmwareDownloadDeferReboot (x : settings) (m : HOSTIF_MsgData_t) : Z * HOSTIF_MsgData_t :=
  (OK, set_value (set_len (set_paramtype m hostIf_BooleanType) 1)
                 (put_boolean (paramValue m) (m_xFirmwareDownloadDeferReboot x))).

Definition DOWNLOAD_SCRIPT : string := "/lib/rdk/userInitiatedFWDnld.sh".
Definition flag (b : bool) : string := if b then "1" else "0".

(** The words of the command. *)
Definition download_command (x : settings) : list string :=
  ["backgroundrun"; DOWNLOAD_SCRIPT; m_xFirmwareDownloadProtocol x; m_xFirmwareDownloadURL x; m_xFirmwareToDownload x;
   flag (m_xFirmwareDownloadUseCodebig x); flag (m_xFirmwareDownloadDeferReboot x)].

(** [system]: the exit status of a command.  The commands that are run come back. *)
Definition set_xFirmwareDownloadNow (system : list string → Z) (m : HOSTIF_MsgData_t) (x : settings)
  : Z * settings * list (list string) :=
  if bool_decide (paramtype m = hostIf_BooleanType) then
    if m_xFirmwareDownloadNow x then (NOK, x, [])
    else if get_boolean (paramValue m) then
      if negb (is_empty (m_xFirmwareDownloadProtocol x)) && negb (is_empty (m_xFirmwareDownloadURL x))
         && negb (is_empty (m_xFirmwareToDownload x)) then
        if system (download_command x) =? 0 then (OK, no_settings, [download_command x])
        else (NOK, x, [download_command x])
      else (NOK, x, [])
    else (NOK, x, [])
  else (NOK, x, []).

(** ** The progress *)
Definition getLastField (line : string) : option string := last (tokens " " (c_str line)).

Definition get_FirmwareDownloadPercent (w : env) (m : HOSTIF_MsgData_t) : Z * HOSTIF_MsgData_t :=
  match read_file w CURL_PROGRESS with
  | None => (NOK, m)
  | Some content =>
      match (line ← last (fgets_lines 1024 content); getLastField line) with
      | None => (NOK, m)
      | Some lastField =>
          (OK, set_len (set_paramtype (set_value m (put_int (paramValue m) (atoi (str_take 7 lastField))))
                                      hostIf_IntegerType) 4)
      end
  end.

(** ** The running image *)

(** The name last answered from the version file, once there was one. *)
Definition backup := option string.

Fixpoint skip_blank (s : string) : string :=
  match s with
  | String c s' => if Ascii.eqb c " " || Ascii.eqb c "009" then skip_blank s' else s
  | EmptyString => EmptyString
  end.

(** [strncpy(buf, s, n)]; [None]: [n] is more than the buffer holds. *)
Definition strncpy (buf : list ascii) (s : string) (n : nat) : option (list ascii) :=
  if (n <=? length buf)%nat then Some (strncpy_into buf s n) else None.

Definition first_getline (content : string) : option string := head (getlines content).

(** The answer, whether the caller is told of a change, and the backup. *)
Definition get_FirmwareFilename (w : env) (told : bool) (b : backup) (m : HOSTIF_MsgData_t)
  : option (Z * HOSTIF_MsgData_t * bool * backup) :=
  let finish m := set_len (set_paramtype m hostIf_StringType) (Z.of_nat (String.length (buf_str (paramValue m)))) in
  match (content ← read_file w CURENT_FW_FILE; line ← first_getline content; if is_empty line then None else Some line) with
  | Some line =>
      buf ← strncpy (paramValue m) line (S (String.length line));
      Some (OK, finish (set_value m buf), false, b)
  | None =>
      let line := match read_file w VERSION_FILE with
                  | Some content => scan_lines (contains "imagename") content
                  | None => EmptyString
                  end in
      if is_empty line then Some (OK, finish m, false, b)
      else match split_at ":" line with
           | None => Some (NOK, m, false, b)
           | Some (_, rest) =>
               let value := c_str (skip_blank rest) in
               Some (OK, finish (set_value m (Webpa.fill value)),
                     told && match b with
                             | Some old => negb (streq (str_take 64 value) (str_take 64 old))
                             | None => false
                             end,
                     Some (str_take 63 value))
           end
  end.

(** ** Lemmas *)
Lemma find_contains l p : findIgnoreCase l p = false → contains p l = false.
Proof.
  unfold findIgnoreCase. intros Hf. destruct (contains p l) eqn:E; [|done].
  apply contains_true in E as (a & b & ->). rewrite !lower_app in Hf.
  rewrite (proj2 (contains_true _ _)) in Hf; [done|]. eauto.
Qed.

(** A line where a reading of a key stops is the same after a set of another key
    that comes later. *)
Lemma new_line_find param value key l :
  findIgnoreCase l param = false → findIgnoreCase l key = false → findIgnoreCase "Method|tr69" key = false →
  findIgnoreCase (new_line param value l) key = false.
Proof.
  intros Hp Hk Hm. unfold new_line. destruct (contains "Method" l); [done|]. by rewrite (find_contains l param).
Qed.

Lemma new_line_no_nl param value l :
  has_char NL param = false → has_char NL value = false → has_char NL l = false →
  has_char NL (new_line param value l) = false.
Proof.
  intros Hp Hv Hl. unfold new_line. destruct (contains "Method" l); [done|]. destruct (contains param l); [|done].
  rewrite has_char_app, Hp. exact Hv.
Qed.

Lemma new_lines_no_nl param value ls :
  has_char NL param = false → has_char NL value = false → Forall (λ l, has_char NL l = false) ls →
  Forall (λ l, has_char NL l = false) (new_line param value <$> ls).
Proof. intros Hp Hv Hl. rewrite Forall_fmap. eapply Forall_impl; [exact Hl|]. intros l. by apply new_line_no_nl. Qed.

(** The files after a set, when they can be written. *)
Lemma writeFirmwareInfo_file param m w lines :
  Forall (λ l, has_char NL l = false) lines → read_file w FW_DWN_FILE_PATH = Some (text_of lines) →
  can_write w TEMP_FW_DWN_FILE_PATH = true → can_write w FW_DWN_FILE_PATH = true →
  ∃ w', writeFirmwareInfo param m w = (OK, w')
    ∧ read_file w' FW_DWN_FILE_PATH = Some (text_of (new_line param (buf_str (paramValue m)) <$> lines))
    ∧ read_file w' TEMP_FW_DWN_FILE_PATH = None
    ∧ ∀ p, p ≠ FW_DWN_FILE_PATH → p ≠ TEMP_FW_DWN_FILE_PATH → read_file w' p = read_file w p.
Proof.
  intros Hl Hf Ht Hw. unfold writeFirmwareInfo. rewrite Hf, getlines_text_of by done.
  set (text := text_of _). rewrite rewrite_file_put by done. cbn [default from_option id].
  destruct (rename_read TEMP_FW_DWN_FILE_PATH FW_DWN_FILE_PATH
              (remove_file (put_file w TEMP_FW_DWN_FILE_PATH text) FW_DWN_FILE_PATH) text) as (w' & -> & Hn & Ho & Hq).
  - unfold read_file, remove_file, put_file. cbn. rewrite lookup_delete_ne by done. apply lookup_insert_eq.
  - exact Hw.
  - done.
  - exists w'. split; [done|]. split; [exact Hn|]. split; [exact Ho|]. intros p Hp Hp'. rewrite Hq by done.
    unfold read_file, remove_file, put_file. cbn. rewrite lookup_delete_ne by done. by apply lookup_insert_ne.
Qed.

Lemma readFirmwareInfo_line param w m a l b :
  Forall (λ l, has_char NL l = false) (a ++ l :: b) → read_file w FW_DWN_FILE_PATH = Some (text_of (a ++ l :: b)) →
  Forall (λ l, findIgnoreCase l param = false) a → findIgnoreCase l param = true →
  readFirmwareInfo param w m =
    (if is_empty l then (NOK, m)
     else match split_at BAR (c_str l) with
          | None => (NOK, m)
          | Some (_, rest) =>
              (OK, set_len (set_paramtype (set_value m (Webpa.fill (skip_space rest))) hostIf_StringType)
                           (int32 (Z.of_nat (String.length (skip_space rest)))))
          end).
Proof.
  intros Hn Hf Ha Hl. unfold readFirmwareInfo. rewrite Hf.
  by rewrite (scan_lines_found (λ l, findIgnoreCase l param) a l b).
Qed.

(** ** Properties *)

(** A status that is set is in the file of the download script on its line,
    and is what the next get answers; every other line stays, apart from those of
    the method, so that whatever is kept before the status reads as before; no copy
    is left behind and no other file changes. *)
Theorem download_status_round_trip w m q pre old post v :
  Forall (λ l, has_char NL l = false) (pre ++ ("Status|" +:+ old) :: post) →
  read_file w FW_DWN_FILE_PATH = Some (text_of (pre ++ ("Status|" +:+ old) :: post)) →
  Forall (λ l, findIgnoreCase l "Status" = false) pre → contains "Method" ("Status|" +:+ old) = false →
  buf_str (paramValue m) = v → has_char NL v = false → skip_space v = v → (String.length v < 4096)%nat →
  can_write w TEMP_FW_DWN_FILE_PATH = true → can_write w FW_DWN_FILE_PATH = true →
  ∃ w', set_FirmwareDownloadStatus m w = (OK, w')
    ∧ (∃ r, get_FirmwareDownloadStatus w' q = (OK, r) ∧ buf_str (paramValue r) = v ∧ paramtype r = hostIf_StringType)
    ∧ (∀ key a l b, pre = a ++ l :: b → Forall (λ l, findIgnoreCase l key = false) a → findIgnoreCase l key = true →
         contains "Method" l = false → findIgnoreCase "Method|tr69" key = false →
         readFirmwareInfo key w' q = readFirmwareInfo key w q)
    ∧ read_file w' TEMP_FW_DWN_FILE_PATH = None
    ∧ ∀ p, p ≠ FW_DWN_FILE_PATH → p ≠ TEMP_FW_DWN_FILE_PATH → read_file w' p = read_file w p.
Proof.
  intros Hn Hf Hpre Hold Hv Hvn Hvs Hvl Ht Hw.
  destruct (writeFirmwareInfo_file "Status" m w _ Hn Hf Ht Hw) as (w' & Hset & Hread & Htmp & Hother).
  exists w'. unfold set_FirmwareDownloadStatus. rewrite Hset. split; [done|]. rewrite Hv in Hread.
  assert (has_char NUL v = false) as Hvz by (rewrite <- Hv; apply c_str_has_nul).
  pose proof (new_lines_no_nl "Status" v _ eq_refl Hvn Hn) as Hn'.
  rewrite fmap_app, fmap_cons in Hread, Hn'.
  replace (new_line "Status" v ("Status|" +:+ old)) with ("Status|" +:+ v) in Hread, Hn'
    by (unfold new_line; by rewrite Hold).
  split; [|split; [|done]].
  - eexists. split.
    + unfold get_FirmwareDownloadStatus. rewrite (readFirmwareInfo_line "Status" w' q _ _ _ Hn' Hread).
      * change (is_empty ("Status|" +:+ v)) with false. rewrite c_str_no_nul by exact Hvz.
        change ("Status|" +:+ v) with ("Status" +:+ String BAR v). rewrite split_at_app by done. rewrite Hvs. reflexivity.
      * rewrite Forall_fmap. eapply Forall_impl; [exact Hpre|]. intros l Hl. by apply new_line_find.
      * unfold findIgnoreCase. rewrite lower_app. apply contains_true. exists EmptyString, (String "|"%char (lower v)). done.
    + split; [|done]. cbn [paramValue set_len set_paramtype set_value]. by apply Webpa.fill_buf.
  - intros key a l b -> Ha Hl Hlm Hk.
    apply Forall_app in Hpre as [Hpa Hpb]. apply Forall_cons in Hpb as [Hpl _].
    rewrite <- app_assoc in Hf, Hn. rewrite (readFirmwareInfo_line key w q a l _ Hn Hf Ha Hl).
    rewrite fmap_app, fmap_cons, <- app_assoc in Hread, Hn'.
    replace (new_line "Status" v l) with l in Hread, Hn'
      by (unfold new_line; by rewrite Hlm, (find_contains l "Status")).
    rewrite (readFirmwareInfo_line key w' q _ l _ Hn' Hread); [done| |done].
    rewrite Forall_fmap. apply Forall_forall. intros x Hx. rewrite Forall_forall in Ha, Hpa.
    cbn. apply new_line_find; [by apply Hpa|by apply Ha|done].
Qed.

(** Three texts are there. *)
Definition complete (x : settings) : bool :=
  negb (is_empty (m_xFirmwareDownloadProtocol x)) && negb (is_empty (m_xFirmwareDownloadURL x))
  && negb (is_empty (m_xFirmwareToDownload x)).

(** A trigger runs the download script exactly when it is the boolean true, no
    download is marked as running and protocol, address and file were all set; it
    is run once, with the values that were set last, in their order; when the
    script starts, the settings are used up, so that the next trigger is refused
    and runs nothing, and in every other case the trigger fails and they stay. *)
Theorem download_trigger system m x :
  let '(r, x', commands) := set_xFirmwareDownloadNow system m x in
  let wanted := bool_decide (paramtype m = hostIf_BooleanType) && negb (m_xFirmwareDownloadNow x)
                && get_boolean (paramValue m) && complete x in
  commands = (if wanted then [download_command x] else [])
  ∧ (r = OK ↔ wanted = true ∧ system (download_command x) = 0)
  ∧ (r = OK → ∀ system' m', set_xFirmwareDownloadNow system' m' x' = (NOK, x', []))
  ∧ (r ≠ OK → r = NOK ∧ x' = x).
Proof.
  unfold set_xFirmwareDownloadNow, complete. destruct (bool_decide _) eqn:Et; cbn [andb]; [|naive_solver].
  destruct (m_xFirmwareDownloadNow x); cbn [andb negb]; [naive_solver|].
  destruct (get_boolean (paramValue m)); cbn [andb]; [|naive_solver].
  destruct (negb (is_empty (m_xFirmwareDownloadProtocol x)) && _ && _); [|naive_solver].
  destruct (system (download_command x) =? 0) eqn:Es.
  - apply Z.eqb_eq in Es. split_and!; [done|done| |done]. intros _ system' m'.
    destruct (bool_decide (paramtype m' = hostIf_BooleanType)); [|done]. cbn. by destruct (get_boolean (paramValue m')).
  - apply Z.eqb_neq in Es. naive_solver.
Qed.

(** What the setters leave alone: a download is never marked as running. *)
Lemma never_running system m x :
  m_xFirmwareDownloadNow x = false →
  m_xFirmwareDownloadNow (set_FirmwareToDownload m x).2 = false
  ∧ m_xFirmwareDownloadNow (set_FirmwareDownloadProtocol m x).2 = false
  ∧ m_xFirmwareDownloadNow (set_FirmwareDownloadURL m x).2 = false
  ∧ m_xFirmwareDownloadNow (set_FirmwareDownloadUseCodebig m x).2 = false
  ∧ m_xFirmwareDownloadNow (set_FirmwareDownloadDeferReboot m x).2 = false
  ∧ m_xFirmwareDownloadNow (set_xFirmwareDownloadNow system m x).1.2 = false.
Proof.
  intros Hx. split_and!; try done. unfold set_xFirmwareDownloadNow. by repeat case_bool.
Qed.

(** A key that is nowhere in the file is answered with the value of the last line
    when that line has no newline. *)
Lemma absent_key_last_line w m param ls k v :
  Forall (λ l, has_char NL l = false) ls → has_char NL v = false → has_char NL k = false →
  has_char BAR k = false → has_char NUL (k +:+ String BAR v) = false →
  read_file w FW_DWN_FILE_PATH = Some (text_of ls +:+ (k +:+ String BAR v)) →
  getlines (text_of ls +:+ (k +:+ String BAR v)) = ls ++ [k +:+ String BAR v] →
  unterminated (text_of ls +:+ (k +:+ String BAR v)) = true →
  Forall (λ l, findIgnoreCase l param = false) (ls ++ [k +:+ String BAR v]) →
  ∃ r, readFirmwareInfo param w m = (OK, r) ∧ paramValue r = Webpa.fill (skip_space v).
Proof.
  intros Hls Hv Hk Hb Hz Hf Hg Hu Ha. unfold readFirmwareInfo. rewrite Hf. unfold scan_lines. rewrite Hg, Hu.
  rewrite find_absent by done. rewrite last_snoc.
  change (default EmptyString (Some (k +:+ String BAR v))) with (k +:+ String BAR v).
  assert (is_empty (k +:+ String BAR v) = false) as -> by (destruct k; reflexivity).
  rewrite c_str_no_nul, split_at_app by done. eexists. by split.
Qed.

(** ** Concrete inputs *)
Definition ex_message (v : string) : HOSTIF_MsgData_t :=
  mkMsg "Device.DeviceInfo.X_RDKCENTRAL-COM_FirmwareDownloadStatus" (Webpa.fill v) None EmptyString 0 0 hostIf_StringType
        HOSTIF_SET fcNoFault HOSTIF_SRC_WEBPA HOSTIF_NONE false.

Definition ex_files : env :=
  mkEnv {[ FW_DWN_FILE_PATH := text_of ["Method|xconf"; "Proto|http"; "Status|Idle"; "DnldFile|image.bin"] ]} ∅ true ∅ EmptyString 0.

Lemma download_status_round_trip_witness :
  ∃ w', set_FirmwareDownloadStatus (ex_message "Download complete") ex_files = (OK, w')
    ∧ (∃ r, get_FirmwareDownloadStatus w' (ex_message "") = (OK, r)
            ∧ buf_str (paramValue r) = "Download complete" ∧ paramtype r = hostIf_StringType)
    ∧ get_FirmwareDownloadProtocol w' (ex_message "") = get_FirmwareDownloadProtocol ex_files (ex_message "").
Proof.
  destruct (download_status_round_trip ex_files (ex_message "Download complete") (ex_message "")
              ["Method|xconf"; "Proto|http"] "Idle" ["DnldFile|image.bin"] "Download complete")
    as (w' & Hset & Hget & Hkeep & _).
  - repeat constructor.
  - reflexivity.
  - repeat constructor.
  - reflexivity.
  - apply fill_text; reflexivity.
  - reflexivity.
  - reflexivity.
  - apply Nat.ltb_lt. reflexivity.
  - reflexivity.
  - reflexivity.
  - exists w'. split; [exact Hset|]. split; [exact Hget|].
    apply (Hkeep "Proto" ["Method|xconf"] "Proto|http" []); [reflexivity|repeat constructor|reflexivity|reflexivity|reflexivity].
Defined.

End Firmware.
