(* ===== verification/DeviceSsh.v ===== *)
(** * Remote access to the device

    Three groups of parameters of profiles/DeviceInfo/Device_DeviceInfo.cpp that
    decide who may do what on the device: [ReverseSsh], the arguments and the
    trigger of the reverse SSH tunnel; [ForwardSsh], the switch of the SSH daemon;
    [Blocklist], the list of AppArmor profiles and their modes. *)
From stdpp Require Import base list strings gmap.
From Stdlib Require Import Ascii ZArith Lia.
From S2P Require Import Prelude HostIf FileStore Webpa ProfileIO.
Import ProfileIO.

#[local] Arguments streq : simpl never.

Module ReverseSsh.

Definition MIN_PORT_RANGE : nat := 3000.
Definition MAX_PORT_RANGE : nat := 3020.
Definition stunnelCommand : string := "/lib/rdk/startStunnel.sh".
Definition sshCommand : string := "/lib/rdk/startTunnel.sh".

(** The statics of the file. *)
Record ssh := mkSsh {
  reverseSSHArgs : string;
  shortsArgs : string;
  nonShortsArgs : string;
  stunnelSSHArgs : gmap string string
}.

Definition no_args : ssh := mkSsh EmptyString EmptyString EmptyString ∅.

(** [free]: a socket is made and a connection to the port is refused. *)
Fixpoint first_free (free : Z → bool) (ports : list Z) : Z :=
  match ports with [] => -1 | p :: ports' => if free p then p else first_free free ports' end.

Definition findLocalPortAvailable (free : Z → bool) : Z :=
  first_free free (Z.of_nat <$> seq MIN_PORT_RANGE (S (MAX_PORT_RANGE - MIN_PORT_RANGE))).

(** ** The arguments *)

(** A piece without an equals sign is its own key and value. *)
Definition parse_pair (chunk : string) : string * string := default (chunk, chunk) (split_at EQ chunk).

Definition parse_args (input : string) : gmap string string :=
  foldl (λ m chunk, <[(parse_pair chunk).1 := (parse_pair chunk).2]> m) ∅ (tokens ";" input).

(** [parsedMap[key]] *)
Definition at_or_empty (m : gmap string string) (key : string) : string := default EmptyString (m !! key).

Definition is_alnum (c : ascii) : bool :=
  let z := byte_val c in
  ((48 <=? z) && (z <=? 57)) || ((65 <=? z) && (z <=? 90)) || ((97 <=? z) && (z <=? 122)).

Definition allowed (c : ascii) : bool :=
  is_alnum c || existsb (Ascii.eqb c) [" "%char; ":"%char; "-"%char; "."%char; "@"%char; "_"%char; "["%char; "]"%char].

Fixpoint all_chars (p : ascii → bool) (s : string) : bool :=
  match s with EmptyString => true | String c s' => p c && all_chars p s' end.

(** The arguments of ssh up to the host, with the address of the box. *)
Definition tunnel_args (m : gmap string string) (is_v6 : string → bool) (estbip : string) : string :=
  " -I " +:+ at_or_empty m "idletimeout" +:+ " -f -N -y -T -R " +:+ at_or_empty m "revsshport" +:+ ":"
  +:+ (if is_v6 estbip then "[" +:+ estbip +:+ "]" else estbip)
  +:+ ":22 " +:+ at_or_empty m "user" +:+ "@".

Definition with_reverse (s : ssh) (r : string) : ssh := mkSsh r (shortsArgs s) (nonShortsArgs s) (stunnelSSHArgs s).

Section args.
(** Whether the place of a key is made before [at] throws for its value: C++11
    leaves the order open.  What [inet_pton] and [getEstbIp] say. *)
Variable key_first : bool.
Variable is_v6 : string → bool.
Variable estbip : string.

(** [stunnelSSHArgs[key] = parsedMap.at(key)] for the keys in order; [inl]: it
    threw. *)
Fixpoint copy_keys (m : gmap string string) (keys : list string) (st : gmap string string)
  : gmap string string + gmap string string :=
  match keys with
  | [] => inr st
  | k :: keys' =>
      match m !! k with
      | Some v => copy_keys m keys' (<[k := v]> st)
      | None => inl (if key_first then match st !! k with Some _ => st | None => <[k := EmptyString]> st end else st)
      end
  end.

(** [inl]: the end without the check of the characters. *)
Definition stunnel_args (m : gmap string string) (port : Z) (s : ssh) : ssh + ssh :=
  match m !! "stunnelport" with
  | None => inr (mkSsh (reverseSSHArgs s) (shortsArgs s) (at_or_empty m "host" +:+ " -p " +:+ at_or_empty m "sshport")
                       (stunnelSSHArgs s))
  | Some _ =>
      let localPort := dec port in
      if streq localPort "-1" then inl s
      else
        let shorts := "localhost -p " +:+ localPort in
        match copy_keys m ["host"; "hostIp"; "stunnelport"] (<["localport" := localPort]> (stunnelSSHArgs s)) with
        | inl st => inl (mkSsh EmptyString shorts (nonShortsArgs s) st)
        | inr st => inr (mkSsh (reverseSSHArgs s) shorts (at_or_empty m "hostIp" +:+ " -p " +:+ at_or_empty m "sshport") st)
        end
  end.

Definition set_xOpsReverseSshArgs (free : Z → bool) (m : HOSTIF_MsgData_t) (s : ssh) : Z * ssh :=
  let parsed := parse_args (buf_str (paramValue m)) in
  match stunnel_args parsed (findLocalPortAvailable free) (with_reverse s (tunnel_args parsed is_v6 estbip)) with
  | inl s' => (NOK, s')
  | inr s' => if all_chars allowed (reverseSSHArgs s') then (OK, s') else (NOK, with_reverse s' EmptyString)
  end.
End args.

Definition get_xOpsReverseSshArgs (s : ssh) (m : HOSTIF_MsgData_t) : Z * HOSTIF_MsgData_t :=
  (OK, set_paramtype (set_value m (Webpa.fill (if is_empty (reverseSSHArgs s) then "Not Set" else reverseSSHArgs s)))
                     hostIf_StringType).

(** ** The trigger *)
Record build := mkBuild { PRIVACYMODES_CONTROL : bool; SINGLE_SESSION_ONLY : bool }.

(** What the device says: the mode of the privacy settings, the kind of its image,
    and whether a process group is there. *)
Record device := mkDevice { privacy_mode : option string; BUILD_TYPE : option string; process_group : Z → bool }.

Definition PID_FILE : string := "/var/tmp/rssh.pid".

(** The exception of a file that is not there or holds no int is caught. *)
Definition isRsshactive (d : device) (w : env) : bool :=
  match (content ← read_file w PID_FILE; strto content) with
  | Some (neg, n, _) =>
      let pid := if neg : bool then - n else n in
      (- 2 ^ 31 <=? pid) && (pid <? 2 ^ 31) && process_group d pid
  | None => false
  end.

(** The words of the commands that are run; [None]: [at] throws. *)
Definition set_xOpsReverseSshTrigger (b : build) (d : device) (w : env) (m : HOSTIF_MsgData_t) (s : ssh)
  : option (Z * list (list string)) :=
  let inputStr := buf_str (paramValue m) in
  let trigger := starts_with "start" inputStr in
  let trigger_shorts := starts_with "start shorts" inputStr in
  if PRIVACYMODES_CONTROL b && bool_decide (privacy_mode d = Some "DO_NOT_SHARE") then Some (NOK, [])
  else if trigger then
    if SINGLE_SESSION_ONLY b && isRsshactive d w then Some (NOK, [])
    else if trigger_shorts then
      localport ← stunnelSSHArgs s !! "localport";
      host ← stunnelSSHArgs s !! "host";
      hostIp ← stunnelSSHArgs s !! "hostIp";
      stunnelport ← stunnelSSHArgs s !! "stunnelport";
      Some (OK, [["backgroundrun"; "/bin/sh"; stunnelCommand; localport; host; hostIp; stunnelport;
                  reverseSSHArgs s; shortsArgs s; nonShortsArgs s]])
    else if (match BUILD_TYPE d with None => true | Some t => strcaseeq t "prod" end) then Some (NOK, [])
    else Some (OK, [["backgroundrun"; sshCommand; "start"; reverseSSHArgs s]])
  else Some (OK, [["backgroundrun"; sshCommand; "stop"]]).

Definition get_xOpsReverseSshStatus (d : device) (w : env) (m : HOSTIF_MsgData_t) : Z * HOSTIF_MsgData_t :=
  (OK, set_paramtype (set_value m (Webpa.fill (if isRsshactive d w then "ACTIVE" else "INACTIVE"))) hostIf_StringType).

(** ** Lemmas *)
Definition SEMI : ascii := ";"%char.

(** A request's text: pairs with an equals sign, semicolons between them. *)
Definition pair_text (kv : string * string) : string := kv.1 +:+ String EQ kv.2.
Definition request (kvs : list (string * string)) : string := join SEMI (pair_text <$> kvs).

Definition plain_pair (kv : string * string) : Prop :=
  has_char EQ kv.1 = false ∧ has_char SEMI kv.1 = false ∧ has_char SEMI kv.2 = false.

Lemma parse_pair_text kv : plain_pair kv → parse_pair (pair_text kv) = kv.
Proof. destruct kv as [k v]. intros (Hk & _). unfold parse_pair, pair_text. cbn in *. by rewrite split_at_app. Qed.

(** The last value of a key counts. *)
Lemma parse_request kvs : Forall plain_pair kvs → parse_args (request kvs) = list_to_map (reverse kvs).
Proof.
  intros Hp. unfold parse_args, request. change ";"%char with SEMI. rewrite tokens_join.
  - induction kvs as [|kv kvs IH] using rev_ind; [done|].
    apply Forall_app in Hp as [Hp Hkv]. apply Forall_cons in Hkv as [Hkv _].
    rewrite fmap_app, foldl_app, IH by done. cbn [fmap list_fmap foldl]. rewrite parse_pair_text by done.
    rewrite reverse_snoc. by destruct kv.
  - rewrite Forall_fmap. eapply Forall_impl; [exact Hp|]. intros [k v] (_ & Hk & Hv). cbn in *.
    unfold pair_text. rewrite has_char_app, Hk. cbn [fst snd has_char]. split; [exact Hv|by destruct k].
Qed.

Lemma all_chars_app p a b : all_chars p (a +:+ b) = all_chars p a && all_chars p b.
Proof. induction a as [|c a IH]; [done|]. cbn [String.append all_chars]. by rewrite IH, andb_assoc. Qed.

Lemma findLocalPort_range free : findLocalPortAvailable free = -1 ∨ 3000 <= findLocalPortAvailable free <= 3020.
Proof.
  assert (∀ ports, Forall (λ p, 3000 <= p <= 3020) ports → first_free free ports = -1 ∨ 3000 <= first_free free ports <= 3020) as Hf.
  { induction 1 as [|p ports Hp _ IH]; [by left|]. cbn [first_free]. destruct (free p); [by right|done]. }
  apply Hf. unfold MIN_PORT_RANGE, MAX_PORT_RANGE. rewrite Forall_fmap. apply Forall_forall. intros n Hn.
  apply elem_of_seq in Hn. cbn. lia.
Qed.

Lemma port_not_minus_one n : 3000 <= n <= 3020 → streq (dec n) "-1" = false.
Proof.
  intros Hn. apply streq_false. intros E. pose proof (strtol_dec n) as Hs. rewrite E in Hs.
  assert ((strtol "-1").1 = -1) as Hm by reflexivity. rewrite Hs in Hm by (unfold LONG_MIN, LONG_MAX; lia).
  cbn in Hm. lia.
Qed.

(** ** Properties *)

(** What a client and the device can do. *)
Inductive op :=
| SetArgs (key_first : bool) (is_v6 : string → bool) (estbip : string) (free : Z → bool) (m : HOSTIF_MsgData_t)
| Trigger (b : build) (d : device) (w : env) (m : HOSTIF_MsgData_t).

Definition run_op (s : ssh) (o : op) : ssh * list (list string) :=
  match o with
  | SetArgs kf v6 ip free m => ((set_xOpsReverseSshArgs kf v6 ip free m s).2, [])
  | Trigger b d w m => (s, match set_xOpsReverseSshTrigger b d w m s with Some (_, cmds) => cmds | None => [] end)
  end.

Fixpoint run_ops (s : ssh) (ops : list op) : ssh * list (list string) :=
  match ops with
  | [] => (s, [])
  | o :: ops' =>
      let '(s1, c1) := run_op s o in let '(s2, c2) := run_ops s1 ops' in (s2, c1 ++ c2)
  end.

(** The pairs of a request for arguments. *)
Definition pairs_of (m : HOSTIF_MsgData_t) : gmap string string := parse_args (buf_str (paramValue m)).

(** A port of the range could be had when one was looked for. *)
Definition port_found (o : op) : Prop :=
  match o with
  | SetArgs _ _ _ free m => pairs_of m !! "stunnelport" ≠ None → findLocalPortAvailable free ≠ -1
  | Trigger _ _ _ _ => True
  end.

(** A request for arguments among these. *)
Definition asked (ops : list op) (m : HOSTIF_MsgData_t) : Prop :=
  ∃ kf v6 ip free, SetArgs kf v6 ip free m ∈ ops.

(** The value of a key in such a request, or no text. *)
Definition given (ops : list op) (k v : string) : Prop :=
  v = EmptyString ∨ ∃ m, asked ops m ∧ pairs_of m !! k = Some v.

Definition local_port (p : string) : Prop := ∃ n, 3000 <= n <= 3020 ∧ p = dec n.

(** The destination of ssh without stunnel: the host or its address and the port of
    one request, or no text. *)
Definition destination (ops : list op) (v : string) : Prop :=
  v = EmptyString
  ∨ ∃ m, asked ops m ∧ (v = at_or_empty (pairs_of m) "host" +:+ " -p " +:+ at_or_empty (pairs_of m) "sshport"
                        ∨ v = at_or_empty (pairs_of m) "hostIp" +:+ " -p " +:+ at_or_empty (pairs_of m) "sshport").

(** What a trigger may run after these calls. *)
Definition checked (ops : list op) (c : list string) : Prop :=
  c = ["backgroundrun"; sshCommand; "stop"]
  ∨ (∃ r, all_chars allowed r = true ∧ c = ["backgroundrun"; sshCommand; "start"; r])
  ∨ (∃ r p host hostIp stunnelport dest,
       all_chars allowed r = true ∧ local_port p
       ∧ given ops "host" host ∧ given ops "hostIp" hostIp ∧ given ops "stunnelport" stunnelport ∧ destination ops dest
       ∧ c = ["backgroundrun"; "/bin/sh"; stunnelCommand; p; host; hostIp; stunnelport; r; "localhost -p " +:+ p; dest]).

(** The statics after these calls. *)
Record kept (ops : list op) (s : ssh) : Prop := {
  kept_text : all_chars allowed (reverseSSHArgs s) = true;
  kept_port : ∀ p, stunnelSSHArgs s !! "localport" = Some p → local_port p ∧ shortsArgs s = "localhost -p " +:+ p;
  kept_keys : ∀ k v, k ∈ ["host"; "hostIp"; "stunnelport"] → stunnelSSHArgs s !! k = Some v → given ops k v;
  kept_destination : destination ops (nonShortsArgs s)
}.

Lemma asked_more ops o m : asked ops m → asked (ops ++ [o]) m.
Proof. intros (? & ? & ? & ? & Hin). do 4 eexists. apply elem_of_app. left. exact Hin. Qed.

Lemma given_more ops o k v : given ops k v → given (ops ++ [o]) k v.
Proof. intros [->|(m & Hm & Hv)]; [by left|right]. exists m. split; [by apply asked_more|done]. Qed.

Lemma destination_more ops o v : destination ops v → destination (ops ++ [o]) v.
Proof. intros [->|(m & Hm & Hv)]; [by left|right]. exists m. split; [by apply asked_more|done]. Qed.

Lemma kept_more ops o s : kept ops s → kept (ops ++ [o]) s.
Proof. intros [H1 H2 H3 H4]. constructor; [done|done|eauto using given_more|by apply destination_more]. Qed.

(** A copy of keys, finished or not, adds values of the request or no text. *)
Lemma copy_keys_given kf ops m keys st st' :
  asked ops m → "localport" ∉ keys →
  copy_keys kf (pairs_of m) keys st = inl st' ∨ copy_keys kf (pairs_of m) keys st = inr st' →
  (∀ k v, k ∈ ["host"; "hostIp"; "stunnelport"] → st !! k = Some v → given ops k v) →
  st' !! "localport" = st !! "localport"
  ∧ ∀ k v, k ∈ ["host"; "hostIp"; "stunnelport"] → st' !! k = Some v → given ops k v.
Proof.
  intros Hm. revert st. induction keys as [|k keys IH]; intros st Hnin Hc Hst; cbn [copy_keys] in Hc.
  { destruct Hc as [|[= <-]]; [done|]. done. }
  apply not_elem_of_cons in Hnin as [Hk Hnin]. destruct (pairs_of m !! k) as [v|] eqn:Ek.
  - destruct (IH (<[k := v]> st) Hnin Hc) as [Hp Hg].
    { intros k' v' Hin. destruct (decide (k = k')) as [->|Hne]; [|rewrite lookup_insert_ne by done; by apply Hst].
      rewrite lookup_insert_eq. intros [= <-]. right. by exists m. }
    split; [|exact Hg]. by rewrite Hp, lookup_insert_ne.
  - destruct Hc as [[= <-]|]; [|done]. destruct kf; [|done]. destruct (st !! k) eqn:E; [done|].
    split; [by rewrite lookup_insert_ne|]. intros k' v' Hin.
    destruct (decide (k = k')) as [->|Hne]; [|rewrite lookup_insert_ne by done; by apply Hst].
    rewrite lookup_insert_eq. intros [= <-]. by left.
Qed.

Lemma set_args_kept kf v6 ip free m ops s :
  port_found (SetArgs kf v6 ip free m) → kept ops s →
  kept (ops ++ [SetArgs kf v6 ip free m]) (set_xOpsReverseSshArgs kf v6 ip free m s).2.
Proof.
  intros Hp Hs. apply (kept_more ops (SetArgs kf v6 ip free m)) in Hs. cbn [port_found] in Hp.
  set (ops' := ops ++ _) in *.
  assert (asked ops' m) as Hm by (do 4 eexists; apply elem_of_app; right; by apply list_elem_of_singleton).
  clearbody ops'. destruct Hs as [H1 H2 H3 H4].
  unfold set_xOpsReverseSshArgs. fold (pairs_of m). unfold stunnel_args.
  destruct (pairs_of m !! "stunnelport") as [sp|] eqn:Esp.
  - destruct (findLocalPort_range free) as [Hn|Hr]; [by destruct Hp|].
    rewrite port_not_minus_one by done. set (p := dec (findLocalPortAvailable free)).
    assert (local_port p) as Hlp by (by eexists).
    destruct (copy_keys _ _ _ _) as [st|st] eqn:Ec;
      (destruct (copy_keys_given kf ops' m ["host"; "hostIp"; "stunnelport"]
         (<["localport" := p]> (stunnelSSHArgs s)) st) as [Hport Hkeys];
       [done|rewrite !not_elem_of_cons; split_and!; [done..|apply not_elem_of_nil]|by (left + right)| |]).
    1, 3: intros k v Hin; rewrite lookup_insert_ne; [by apply H3|];
      intros <-; repeat (apply elem_of_cons in Hin as [Hin|Hin]; [done|]); by apply not_elem_of_nil in Hin.
    + constructor; [done| |done|done]. cbn. intros q. rewrite Hport, lookup_insert_eq. by intros [= <-].
    + assert (∀ r, all_chars allowed r = true → kept ops' (mkSsh r ("localhost -p " +:+ p)
        (at_or_empty (pairs_of m) "hostIp" +:+ " -p " +:+ at_or_empty (pairs_of m) "sshport") st)) as Hk.
      { intros r Hr'. constructor; [done| |done|].
        - cbn. intros q. rewrite Hport, lookup_insert_eq. by intros [= <-].
        - right. exists m. split; [done|by right]. }
      cbn [reverseSSHArgs with_reverse]. destruct (all_chars allowed (tunnel_args _ _ _)) eqn:E; by apply Hk.
  - assert (∀ r, all_chars allowed r = true → kept ops' (mkSsh r (shortsArgs s)
      (at_or_empty (pairs_of m) "host" +:+ " -p " +:+ at_or_empty (pairs_of m) "sshport") (stunnelSSHArgs s))) as Hk.
    { intros r Hr'. constructor; [done..|]. right. exists m. split; [done|by left]. }
    cbn [reverseSSHArgs with_reverse shortsArgs stunnelSSHArgs].
    destruct (all_chars allowed (tunnel_args _ _ _)) eqn:E; by apply Hk.
Qed.

Lemma run_ops_kept pre s ops : Forall port_found ops → kept pre s → kept (pre ++ ops) (run_ops s ops).1.
Proof.
  revert pre s. induction ops as [|o ops IH]; intros pre s Ho Hs; [by rewrite app_nil_r|].
  apply Forall_cons in Ho as [Ho Hops]. cbn [run_ops].
  destruct (run_op s o) as [s1 c1] eqn:Er. specialize (IH (pre ++ [o]) s1 Hops).
  destruct (run_ops s1 ops) as [s2 c2]. rewrite <- (assoc app) in IH. apply IH.
  destruct o as [kf v6 ip free m|b d w m]; cbn [run_op] in Er; injection Er as <- <-;
    [by apply set_args_kept|by apply kept_more].
Qed.

(** C27. What reaches the scripts of the tunnel, whatever arguments clients set and
    however the device answers, as long as a port of the range is free whenever a
    request for stunnel looks for one: every command that a later trigger runs is
    the stop of the tunnel, or its start with a text of letters, digits, blanks
    and the characters : - . @ _ [ ] only, or the start of stunnel's script.  The
    latter is given such a text too, a port from 3000 to 3020 for the local end
    and again in the destination of ssh through stunnel, and the rest as the
    earlier requests gave it, with whatever characters: the host, its address and
    the port of stunnel, each the value of its key in one of the requests or
    empty, and the destination of ssh without stunnel, made of the host or the
    address and the port of one of the requests or empty. *)
Theorem tunnel_text_checked ops b d w t r cmds :
  Forall port_found ops → set_xOpsReverseSshTrigger b d w t (run_ops no_args ops).1 = Some (r, cmds) →
  Forall (checked ops) cmds.
Proof.
  intros Ho. assert (kept ops (run_ops no_args ops).1) as [H1 H2 H3 H4].
  { apply (run_ops_kept [] no_args ops Ho). constructor; [done..|by left]. }
  revert H1 H2 H3 H4. generalize (run_ops no_args ops).1 as s. intros s H1 H2 H3 H4.
  unfold set_xOpsReverseSshTrigger.
  destruct (_ && bool_decide _); [by intros [= <- <-]|].
  destruct (starts_with "start" _); [|intros [= <- <-]; repeat constructor].
  destruct (SINGLE_SESSION_ONLY b && _); [by intros [= <- <-]|].
  destruct (starts_with "start shorts" _).
  - destruct (_ !! "localport") as [lp|] eqn:E1; [|done]. destruct (_ !! "host") as [h|] eqn:E2; [|done].
    destruct (_ !! "hostIp") as [hi|] eqn:E3; [|done]. destruct (_ !! "stunnelport") as [sp|] eqn:E4; [|done].
    destruct (H2 lp eq_refl) as [Hlp Hsh]. intros [= <- <-]. apply Forall_singleton. right. right.
    exists (reverseSSHArgs s), lp, h, hi, sp, (nonShortsArgs s). split; [exact H1|]. split; [exact Hlp|].
    split; [apply H3; [left|exact E2]|]. split; [apply H3; [right; left|exact E3]|].
    split; [apply H3; [right; right; left|exact E4]|]. split; [exact H4|]. by rewrite Hsh.
  - destruct (match BUILD_TYPE d with Some _ => _ | None => _ end); [by intros [= <- <-]|].
    intros [= <- <-]. apply Forall_singleton. right. left. eauto.
Qed.

(** When no port is free the text is kept as it was given, and the set fails. *)
Lemma unchecked_text_kept kf v6 ip free m s p :
  findLocalPortAvailable free = -1 → parse_args (buf_str (paramValue m)) !! "stunnelport" = Some p →
  set_xOpsReverseSshArgs kf v6 ip free m s
  = (NOK, with_reverse s (tunnel_args (parse_args (buf_str (paramValue m))) v6 ip)).
Proof. intros Hf Hp. unfold set_xOpsReverseSshArgs, stunnel_args. by rewrite Hp, Hf. Qed.

(** Arguments with a port for stunnel, of which those for ssh are of allowed
    characters, are accepted, and the trigger then hands stunnel's script the first
    free port of the range, and host, address and ports exactly as they were given,
    whatever characters are in them. *)
Theorem shorts_tunnel_command kf v6 ip free n b d w m t s kvs idle rport user host hostIp sport port :
  Forall plain_pair kvs → NoDup kvs.*1 → buf_str (paramValue m) = request kvs →
  ("idletimeout", idle) ∈ kvs → ("revsshport", rport) ∈ kvs → ("user", user) ∈ kvs → ("host", host) ∈ kvs →
  ("hostIp", hostIp) ∈ kvs → ("stunnelport", sport) ∈ kvs → ("sshport", port) ∈ kvs →
  findLocalPortAvailable free = n → n ≠ -1 →
  all_chars allowed (idle +:+ rport +:+ user +:+ ip) = true →
  PRIVACYMODES_CONTROL b = false → SINGLE_SESSION_ONLY b = false → buf_str (paramValue t) = "start shorts" →
  let '(r, s') := set_xOpsReverseSshArgs kf v6 ip free m s in
  r = OK
  ∧ set_xOpsReverseSshTrigger b d w t s'
    = Some (OK, [["backgroundrun"; "/bin/sh"; stunnelCommand; dec n; host; hostIp; sport;
                  " -I " +:+ idle +:+ " -f -N -y -T -R " +:+ rport +:+ ":" +:+ (if v6 ip then "[" +:+ ip +:+ "]" else ip)
                  +:+ ":22 " +:+ user +:+ "@";
                  "localhost -p " +:+ dec n; hostIp +:+ " -p " +:+ port]]).
Proof.
  intros Hp Hd Hm Hidle Hrport Huser Hhost HhostIp Hsport Hport Hn Hn1 Hok Hpriv Hsingle Ht.
  unfold set_xOpsReverseSshArgs. rewrite Hm, parse_request by done.
  set (parsed := list_to_map (reverse kvs) : gmap string string).
  assert (∀ k v, (k, v) ∈ kvs → parsed !! k = Some v) as Hl.
  { intros k v Hkv. apply elem_of_list_to_map_1; [rewrite fmap_reverse; eapply NoDup_Permutation_proper; [apply reverse_Permutation|done]|by apply elem_of_reverse]. }
  assert (∀ k v, (k, v) ∈ kvs → at_or_empty parsed k = v) as Ha by (intros k v Hkv; unfold at_or_empty; by rewrite (Hl k v)).
  unfold stunnel_args. rewrite (Hl _ _ Hsport), Hn.
  rewrite port_not_minus_one by (destruct (findLocalPort_range free); lia).
  cbn [copy_keys]. rewrite (Hl _ _ Hhost), (Hl _ _ HhostIp), (Hl _ _ Hsport).
  cbn [reverseSSHArgs with_reverse]. unfold tunnel_args.
  rewrite (Ha _ _ Hidle), (Ha _ _ Hrport), (Ha _ _ Huser), (Ha _ _ HhostIp), (Ha _ _ Hport).
  rewrite !all_chars_app in Hok. apply andb_true_iff in Hok as [H1' Hok]. apply andb_true_iff in Hok as [H2' Hok].
  apply andb_true_iff in Hok as [H3' H4'].
  replace (all_chars allowed _) with true.
  2: { rewrite !all_chars_app, H1', H2', H3'. destruct (v6 ip); rewrite ?all_chars_app, H4'; reflexivity. }
  split; [done|]. unfold set_xOpsReverseSshTrigger. rewrite Ht, Hpriv, Hsingle. cbn [andb].
  change (starts_with "start" "start shorts") with true. change (starts_with "start shorts" "start shorts") with true.
  cbn [stunnelSSHArgs]. by simplify_map_eq.
Qed.

(** ** Concrete inputs *)
Definition ex_message (v : string) : HOSTIF_MsgData_t :=
  mkMsg "Device.DeviceInfo.X_RDKCENTRAL-COM_xOpsDeviceMgmt.ReverseSSH.xOpsReverseSshArgs" (Webpa.fill v) None EmptyString 0 0
        hostIf_StringType HOSTIF_SET fcNoFault HOSTIF_SRC_WEBPA HOSTIF_NONE false.

Definition ex_pairs : list (string * string) :=
  [("idletimeout", "60"); ("revsshport", "2222"); ("user", "webpa"); ("host", "shorts.example.net"); ("hostIp", "$(10.0.0.1)");
   ("stunnelport", "443"); ("sshport", "22")].

Definition ex_build : build := mkBuild true true.
Definition ex_device : device := mkDevice (Some "SHARE") (Some "prod") (λ _, false).
Definition ex_env : env := mkEnv ∅ ∅ true ∅ EmptyString 0.

Lemma shorts_tunnel_command_witness :
  let '(r, s') := set_xOpsReverseSshArgs false (contains ":") "fe80::1" (λ p, 3001 <=? p) (ex_message (request ex_pairs)) no_args in
  r = OK
  ∧ set_xOpsReverseSshTrigger (mkBuild false false) ex_device ex_env (ex_message "start shorts") s'
    = Some (OK, [["backgroundrun"; "/bin/sh"; stunnelCommand; "3001"; "shorts.example.net"; "$(10.0.0.1)"; "443";
                  " -I 60 -f -N -y -T -R 2222:[fe80::1]:22 webpa@"; "localhost -p 3001"; "$(10.0.0.1) -p 22"]]).
Proof.
  apply (shorts_tunnel_command false (contains ":") "fe80::1" (λ p, 3001 <=? p) 3001 (mkBuild false false) ex_device ex_env
           (ex_message (request ex_pairs)) (ex_message "start shorts") no_args ex_pairs "60" "2222" "webpa"
           "shorts.example.net" "$(10.0.0.1)" "443" "22").
  - repeat constructor.
  - refine (bool_decide_unpack _ _). vm_compute. exact I.
  - apply fill_text; reflexivity.
  - in_list.
  - in_list.
  - in_list.
  - in_list.
  - in_list.
  - in_list.
  - in_list.
  - reflexivity.
  - discriminate.
  - reflexivity.
  - reflexivity.
  - reflexivity.
  - apply fill_text; reflexivity.
Defined.

Lemma tunnel_text_checked_witness :
  let ops := [SetArgs true (contains ":") "10.0.0.7" (λ _, true) (ex_message (request ex_pairs))] in
  ∃ cmds, set_xOpsReverseSshTrigger (mkBuild false false) ex_device ex_env (ex_message "start shorts") (run_ops no_args ops).1
          = Some (OK, cmds) ∧ length cmds = 1%nat ∧ Forall (checked ops) cmds.
Proof.
  intros ops.
  assert (∃ cmds, set_xOpsReverseSshTrigger (mkBuild false false) ex_device ex_env (ex_message "start shorts")
    (run_ops no_args ops).1 = Some (OK, cmds) ∧ length cmds = 1%nat) as (cmds & E & Hl)
    by (eexists; vm_compute; split; reflexivity).
  exists cmds. split; [exact E|]. split; [exact Hl|].
  apply (tunnel_text_checked ops (mkBuild false false) ex_device ex_env (ex_message "start shorts") OK cmds); [|exact E].
  repeat constructor. discriminate.
Defined.

End ReverseSsh.

Module ForwardSsh.

Definition FORWARD_SSH_FILE : string := "/opt/secure/.RFC_ForwardSSH".

(** The last line counts; [None]: a line without an equals sign. *)
Fixpoint read_lines (lines : list string) (m : HOSTIF_MsgData_t) : option HOSTIF_MsgData_t :=
  match lines with
  | [] => Some m
  | l :: lines' =>
      '(_, rest) ← split_at EQ (c_str l);
      read_lines lines' (set_value m (put_boolean (paramValue m) (streq (str_take 9 rest) "true")))
  end.

Definition get_xOpsDeviceMgmtForwardSSHEnable (w : env) (m : HOSTIF_MsgData_t) : option (Z * HOSTIF_MsgData_t) :=
  match read_file w FORWARD_SSH_FILE with
  | None => Some (NOK, set_value m (put_boolean (paramValue m) true))
  | Some content => m' ← read_lines (fgets_lines 50 content) m; Some (OK, m')
  end.

Definition set_xOpsDeviceMgmtForwardSSHEnable (m : HOSTIF_MsgData_t) (w : env) : Z * env :=
  match rewrite_file w FORWARD_SSH_FILE ("ForwardSSH=" +:+ (if get_boolean (paramValue m) then "true" else "false")) with
  | None => (NOK, w)
  | Some w' => (OK, w')
  end.

(** What is set is what the next get answers. *)
Lemma forward_ssh_round_trip m w q :
  can_write w FORWARD_SSH_FILE = true →
  let '(r, w') := set_xOpsDeviceMgmtForwardSSHEnable m w in
  r = OK
  ∧ ∃ q', get_xOpsDeviceMgmtForwardSSHEnable w' q = Some (OK, q')
          ∧ get_boolean (paramValue q') = get_boolean (paramValue m).
Proof.
  intros Hw. unfold set_xOpsDeviceMgmtForwardSSHEnable. rewrite rewrite_file_put by done. split; [done|].
  unfold get_xOpsDeviceMgmtForwardSSHEnable. rewrite read_put_file. destruct (get_boolean (paramValue m)) eqn:E.
  - eexists. split; [reflexivity|]. apply get_put_boolean.
  - eexists. split; [reflexivity|]. apply get_put_boolean.
Qed.

(** A line that ends is never taken for the word. *)
Lemma terminated_line_is_false w q :
  read_file w FORWARD_SSH_FILE = Some ("ForwardSSH=true" +:+ String NL EmptyString) →
  get_xOpsDeviceMgmtForwardSSHEnable w q = Some (OK, set_value q (put_boolean (paramValue q) false)).
Proof. intros Hf. unfold get_xOpsDeviceMgmtForwardSSHEnable. by rewrite Hf. Qed.

End ForwardSsh.

Module Blocklist.

Definition apparmor_config : string := "/opt/secure/Apparmor_blocklist".
Definition apparmor_tmp_config : string := "/opt/secure/Apparmor_blocklist_bck.txt".
Definition ENTRY_WIDTH : nat := 64.
Definition COLON : ascii := ":"%char.
Definition HASH : ascii := "#"%char.
Definition CR : ascii := "013"%char.

Definition before (c : ascii) (s : string) : string := match split_at c s with Some (l, _) => l | None => s end.

(** What is kept of a line of the list: a line whose profile is somewhere in the
    request is dropped, and so is one without a profile. *)
Definition kept_line (input l : string) : string :=
  let buf := before NL (c_str l) in
  match tokens COLON buf with
  | [] => EmptyString
  | token :: _ => if contains token input then EmptyString else buf +:+ String NL EmptyString
  end.

Definition concat_all (l : list string) : string := foldr (λ a b, a +:+ b) EmptyString l.

Definition is_mode (s : string) : bool := streq s "disable" || streq s "complain" || streq s "enforce".

(** The loop over the request; the text is what was written up to its end. *)
Fixpoint validate (files_name : string) (services : option (list string)) (toks : list string) : bool * string :=
  match toks with
  | [] => (true, EmptyString)
  | token :: toks' =>
      match split_at COLON token with
      | None => (false, EmptyString)
      | Some (_, arg) =>
          if is_mode arg then
            match tokens COLON (str_take (ENTRY_WIDTH - 1) token) with
            | [] => validate files_name services toks'
            | subtoken :: _ =>
                if contains subtoken files_name
                   || match services with
                      | Some names => existsb (λ n, contains subtoken n && contains ".service.sp" n) names
                      | None => false
                      end
                then let '(ok, text) := validate files_name services toks' in (ok, token +:+ String NL text)
                else (false, EmptyString)
            end
          else (false, EmptyString)
      end
  end.

(** The names in the two directories of profiles; [None]: it does not open. *)
Definition ValidateInput_Arguments (profiles services : option (list string)) (input : string) : bool * string :=
  match profiles with
  | None => (false, EmptyString)
  | Some names => validate (concat_all (str_take (ENTRY_WIDTH - 1) <$> names)) services (tokens HASH input)
  end.

Definition set_xRDKCentralComApparmorBlocklist (profiles services : option (list string)) (m : HOSTIF_MsgData_t) (w : env)
  : Z * env :=
  let input := buf_str (paramValue m) in
  if is_empty input then (NOK, w)
  else match open_trunc w apparmor_tmp_config with
       | None => (NOK, w)
       | Some w1 =>
           let old := match read_file w1 apparmor_config with
                      | Some content => concat_all (kept_line input <$> fgets_lines 128 content)
                      | None => EmptyString
                      end in
           let '(ok, new) := ValidateInput_Arguments profiles services input in
           let w2 := append_file w1 apparmor_tmp_config (old +:+ new) in
           if ok then let '(renamed, w3) := rename apparmor_tmp_config apparmor_config w2 in
                      (if renamed then OK else NOK, w3)
           else (NOK, w2)
       end.

(** Ends of lines become hashes, and the last character goes. *)
Fixpoint Replace_AllOccurrence (s : string) : string :=
  match s with
  | EmptyString => EmptyString
  | String c s' =>
      match s' with
      | EmptyString => EmptyString
      | String _ _ => String (if Ascii.eqb c NL || Ascii.eqb c CR then HASH else c) (Replace_AllOccurrence s')
      end
  end.

Definition put_text (buf : list ascii) (s : string) : list ascii := poke buf (String.list_ascii_of_string s ++ [NUL]).

Definition get_ApparmorBlockListStatus (w : env) (m : HOSTIF_MsgData_t) : Z * HOSTIF_MsgData_t :=
  match read_file w apparmor_config with
  | None => (-1, set_value m (put_text (paramValue m) "Apparmorblocklist is empty"))
  | Some content =>
      if is_empty content then (0, m)
      else
        let buf := strcpy_s (paramValue m) TR69HOSTIFMGR_MAX_PARAM_LEN (c_str content) in
        (0, set_value m (put_text buf (Replace_AllOccurrence (buf_str buf))))
  end.

(** ** Entries *)

(** A profile with its mode. *)
Definition entry_text (e : string * string) : string := e.1 +:+ String COLON e.2.

Record entry_ok (e : string * string) : Prop := mkEntryOk {
  ok_name : is_empty e.1 = false;
  ok_colon : has_char COLON e.1 = false;
  ok_hash : has_char HASH e.1 = false;
  ok_nl : has_char NL e.1 = false;
  ok_cr : has_char CR e.1 = false;
  ok_nul : has_char NUL e.1 = false;
  ok_length : (String.length e.1 ≤ 63)%nat;
  ok_mode : is_mode e.2 = true
}.

Definition request (es : list (string * string)) : string := join HASH (entry_text <$> es).

(** The entries of the list that a request leaves there. *)
Definition remaining (input : string) (old : list (string * string)) : list (string * string) :=
  List.filter (λ e, negb (contains e.1 input)) old.

(** ** Lemmas *)
Lemma is_mode_cases s : is_mode s = true → s = "disable" ∨ s = "complain" ∨ s = "enforce".
Proof. unfold is_mode. rewrite !orb_true_iff, !streq_true. naive_solver. Qed.

Lemma entry_no c e :
  entry_ok e → c = HASH ∨ c = NL ∨ c = CR ∨ c = NUL → has_char c (entry_text e) = false.
Proof.
  intros [] Hc. unfold entry_text. rewrite has_char_app. cbn [has_char].
  destruct (is_mode_cases e.2) as [E|[E|E]]; [done|..]; rewrite E;
    destruct Hc as [->|[->|[->| ->]]]; rewrite ?ok_hash0, ?ok_nl0, ?ok_cr0, ?ok_nul0; reflexivity.
Qed.

Lemma entry_length e : entry_ok e → (String.length (entry_text e) < 127)%nat.
Proof.
  intros []. unfold entry_text. rewrite str_length_app. cbn [String.length].
  destruct (is_mode_cases e.2) as [E|[E|E]]; [done|..]; rewrite E; cbn [String.length]; lia.
Qed.

Lemma entry_tokens e : entry_ok e → tokens COLON (entry_text e) = [e.1; e.2].
Proof.
  intros []. unfold entry_text, tokens. rewrite tokens_from_sep by done. cbn [String.append]. f_equal.
  unfold tokens. destruct (is_mode_cases e.2) as [E|[E|E]]; [done|..]; rewrite E; reflexivity.
Qed.

Lemma entry_subtoken e : entry_ok e → ∃ rest, tokens COLON (str_take (ENTRY_WIDTH - 1) (entry_text e)) = e.1 :: rest.
Proof.
  intros []. unfold entry_text. rewrite str_take_split, (str_take_all _ e.1) by done. unfold tokens.
  destruct (ENTRY_WIDTH - 1 - String.length e.1)%nat as [|n] eqn:En; cbn [str_take].
  - rewrite str_app_nil_r, tokens_from_end by done. cbn [String.append]. rewrite ok_name0. eauto.
  - rewrite tokens_from_sep by done. cbn [String.append]. eauto.
Qed.

Lemma kept_entry input e :
  entry_ok e →
  kept_line input (with_nl (entry_text e)) = if contains e.1 input then EmptyString else entry_text e +:+ String NL EmptyString.
Proof.
  intros He. unfold kept_line, with_nl. rewrite c_str_no_nul.
  - unfold before. rewrite split_at_app by (apply entry_no; [done|auto]). by rewrite entry_tokens.
  - rewrite has_char_app, (entry_no NUL e) by auto. done.
Qed.

Lemma kept_entries input old :
  Forall entry_ok old →
  concat_all (kept_line input <$> (with_nl <$> (entry_text <$> old))) = text_of (entry_text <$> remaining input old).
Proof.
  induction 1 as [|e old He _ IH]; [done|]. cbn [fmap list_fmap concat_all foldr].
  rewrite kept_entry by done. unfold remaining. cbn [List.filter].
  destruct (contains e.1 input); cbn [negb]; [exact IH|]. cbn [fmap list_fmap text_of foldr].
  rewrite str_app_assoc. cbn [String.append]. f_equal. f_equal. exact IH.
Qed.

Lemma validate_entries names services es :
  Forall entry_ok es → Forall (λ e, contains e.1 names = true) es →
  validate names services (entry_text <$> es) = (true, text_of (entry_text <$> es)).
Proof.
  induction 1 as [|e es He _ IH]; intros Hk; [done|]. apply Forall_cons in Hk as [Hk Hks].
  cbn [fmap list_fmap validate].
  replace (split_at COLON (entry_text e)) with (Some (e.1, e.2)) by (symmetry; apply split_at_app, He).
  rewrite (ok_mode e He). destruct (entry_subtoken e He) as [rest ->]. rewrite Hk. cbn [orb].
  rewrite IH by done. done.
Qed.

Lemma request_tokens es : Forall entry_ok es → tokens HASH (request es) = entry_text <$> es.
Proof.
  intros He. apply tokens_join. rewrite Forall_fmap. eapply Forall_impl; [exact He|]. intros e Hok.
  split; [apply entry_no; auto|]. cbn. unfold entry_text. destruct Hok. by destruct e.1.
Qed.

Lemma request_not_empty es : es ≠ [] → is_empty (request es) = false.
Proof.
  destruct es as [|e [|e' es]]; [done|..]; intros _; unfold request; cbn [fmap list_fmap join]; unfold entry_text;
    by destruct e.1.
Qed.

Lemma entries_fgets es :
  Forall entry_ok es → fgets_lines 128 (text_of (entry_text <$> es)) = with_nl <$> (entry_text <$> es).
Proof.
  intros He. apply fgets_text_of. rewrite Forall_fmap. eapply Forall_impl; [exact He|]. intros e Hok. split.
  - apply entry_length in Hok. cbn. lia.
  - apply entry_no; auto.
Qed.

(** A text with its ends of lines shown as hashes. *)
Lemma replaced_line l s :
  has_char NL l = false → has_char CR l = false → is_empty s = false →
  Replace_AllOccurrence (l +:+ String NL s) = l +:+ String HASH (Replace_AllOccurrence s).
Proof.
  intros Hn Hc Hs. induction l as [|c l IH].
  - cbn [String.append]. destruct s; [done|]. reflexivity.
  - cbn [has_char] in Hn, Hc. apply orb_false_elim in Hn as [Hn1 Hn2]. apply orb_false_elim in Hc as [Hc1 Hc2].
    cbn [String.append]. rewrite <- IH by done.
    destruct (l +:+ String NL s) as [|a r] eqn:E; [by destruct l|].
    cbn [Replace_AllOccurrence]. rewrite (Ascii.eqb_sym c NL), (Ascii.eqb_sym c CR), Hn1, Hc1. reflexivity.
Qed.

Lemma replaced_last l : has_char NL l = false → has_char CR l = false → Replace_AllOccurrence (l +:+ String NL EmptyString) = l.
Proof.
  intros Hn Hc. induction l as [|c l IH]; [done|].
  cbn [has_char] in Hn, Hc. apply orb_false_elim in Hn as [Hn1 Hn2]. apply orb_false_elim in Hc as [Hc1 Hc2].
  cbn [String.append]. destruct (l +:+ String NL EmptyString) as [|a r] eqn:E; [by destruct l|].
  cbn [Replace_AllOccurrence]. cbn [Replace_AllOccurrence] in IH.
  rewrite (Ascii.eqb_sym c NL), (Ascii.eqb_sym c CR), Hn1, Hc1. cbn [orb]. f_equal. by apply IH.
Qed.

Lemma replaced_text lines :
  lines ≠ [] → Forall (λ l, has_char NL l = false ∧ has_char CR l = false) lines →
  Replace_AllOccurrence (text_of lines) = join HASH lines.
Proof.
  intros Hne Hl. induction Hl as [|l lines [Hn Hc] Hl IH]; [done|]. cbn [text_of foldr]. destruct lines as [|l' lines].
  - by apply replaced_last.
  - rewrite replaced_line by (done || by destruct l'). cbn [join]. f_equal. f_equal. by apply IH.
Qed.

(** ** Properties *)

Lemma remaining_nodup input old new :
  NoDup old.*1 → NoDup new.*1 → (∀ e, e ∈ new → contains e.1 input = true) → NoDup (remaining input old ++ new).*1.
Proof.
  intros Ho Hn Hin. rewrite fmap_app. apply NoDup_app. split; [|split; [|done]].
  - unfold remaining. clear Hin. induction old as [|e old IH]; [constructor|]. cbn [List.filter].
    rewrite fmap_cons in Ho. apply NoDup_cons in Ho as [Hni Ho].
    destruct (negb (contains e.1 input)); [|by apply IH]. rewrite fmap_cons. apply NoDup_cons. split; [|by apply IH].
    intros (x & Hx & Hxin)%list_elem_of_fmap. apply Hni. rewrite Hx. apply list_elem_of_fmap_2.
    apply list_elem_of_In, filter_In in Hxin as [Hxin _]. by apply list_elem_of_In.
  - intros x (e & -> & He)%list_elem_of_fmap (e' & Heq & He')%list_elem_of_fmap.
    apply list_elem_of_In, filter_In in He as [_ He]. rewrite Heq, (Hin e' He') in He. done.
Qed.

(** The name of an entry is in the request for it. *)
Lemma request_contains es e : e ∈ es → contains e.1 (request es) = true.
Proof.
  unfold request. induction es as [|x es IH]; [by intros ?%elem_of_nil|]. intros He.
  assert (∃ r, join HASH (entry_text <$> x :: es) = x.1 +:+ r ∧ (es ≠ [] → ∃ a, join HASH (entry_text <$> x :: es)
            = a +:+ join HASH (entry_text <$> es))) as (r & Hr & Hrest).
  { destruct es as [|y es]; cbn [fmap list_fmap join]; unfold entry_text.
    - exists (String COLON x.2). by split.
    - exists (String COLON x.2 +:+ String HASH (join HASH (entry_text <$> y :: es))). rewrite str_app_assoc. split; [done|].
      intros _. exists ((x.1 +:+ String COLON x.2) +:+ String HASH EmptyString). by rewrite !str_app_assoc. }
  apply elem_of_cons in He as [->|He].
  - rewrite Hr. apply contains_true. by exists EmptyString, r.
  - destruct Hrest as [a Ha]; [by destruct es; [apply elem_of_nil in He|]|]. rewrite Ha.
    specialize (IH He). apply contains_true in IH as (p & q & ->). apply contains_true.
    exists (a +:+ p), q. by rewrite str_app_assoc.
Qed.

Lemma length_text_join c lines : lines ≠ [] → String.length (text_of lines) = S (String.length (join c lines)).
Proof.
  intros Hne. induction lines as [|x lines IH]; [done|]. destruct lines as [|y lines].
  - cbn [text_of foldr join]. rewrite str_length_app. cbn [String.length]. lia.
  - change (String.length (x +:+ String NL (text_of (y :: lines))) = S (String.length (x +:+ String c (join c (y :: lines))))).
    rewrite !str_length_app. cbn [String.length]. rewrite IH by done. lia.
Qed.

Lemma text_no_nul lines : Forall (λ l, has_char NUL l = false) lines → has_char NUL (text_of lines) = false.
Proof.
  induction 1 as [|l lines Hl _ IH]; [done|]. cbn [text_of foldr]. rewrite has_char_app, Hl. exact IH.
Qed.

Lemma entries_no c es :
  Forall entry_ok es → c = HASH ∨ c = NL ∨ c = CR ∨ c = NUL → Forall (λ l, has_char c l = false) (entry_text <$> es).
Proof. intros He Hc. rewrite Forall_fmap. eapply Forall_impl; [exact He|]. intros e Hok. by apply entry_no. Qed.

(** Reading a list of entries. *)
Lemma get_entries w q es :
  Forall entry_ok es → es ≠ [] → (String.length (request es) < 4095)%nat →
  read_file w apparmor_config = Some (text_of (entry_text <$> es)) →
  ∃ r, get_ApparmorBlockListStatus w q = (0, r) ∧ buf_str (paramValue r) = request es.
Proof.
  intros He Hne Hlen Hf. unfold get_ApparmorBlockListStatus. rewrite Hf.
  assert (entry_text <$> es ≠ []) as Hne' by (by destruct es).
  assert (has_char NUL (text_of (entry_text <$> es)) = false) as Hz by (apply text_no_nul, entries_no; auto).
  assert (is_empty (text_of (entry_text <$> es)) = false) as ->.
  { pose proof (length_text_join HASH _ Hne') as Hl. by destruct (text_of (entry_text <$> es)). }
  eexists. split; [reflexivity|]. cbn [paramValue set_value]. unfold put_text at 1.
  assert (has_char NUL (request es) = false) as Hrz.
  { pose proof (replaced_text (entry_text <$> es) Hne') as Hr. unfold request. rewrite <- Hr.
    - clear -Hz. induction (text_of (entry_text <$> es)) as [|c s IH]; [done|]. cbn [has_char] in Hz.
      apply orb_false_elim in Hz as [Hc Hz]. destruct s as [|c' s]; [done|]. cbn [Replace_AllOccurrence].
      cbn [has_char]. cbn [Replace_AllOccurrence] in IH. rewrite IH by done.
      by destruct (Ascii.eqb c NL || Ascii.eqb c CR); [|rewrite Hc].
    - rewrite Forall_fmap. eapply Forall_impl; [exact He|]. intros e Hok. split; apply entry_no; auto. }
  unfold strcpy_s. rewrite !(c_str_no_nul (text_of (entry_text <$> es))) by exact Hz. unfold TR69HOSTIFMGR_MAX_PARAM_LEN.
  rewrite (proj2 (Nat.ltb_lt _ _)).
  - rewrite (buf_str_poke (paramValue q) (text_of (entry_text <$> es))) by done.
    rewrite replaced_text; [by rewrite buf_str_poke|done|].
    rewrite Forall_fmap. eapply Forall_impl; [exact He|]. intros e Hok. split; apply entry_no; auto.
  - rewrite (length_text_join HASH) by done. unfold request in Hlen. clear -Hlen. lia.
Qed.

(** A request of profiles that are there, each with one of the three modes,
    is accepted: the list then has its old entries, in their order, without those
    whose name occurs in the request, and after them the requested ones, so that a
    list without repetitions stays one; it replaces the old list at once, and
    reading it answers its entries with hashes between them, as the request has. *)
Theorem blocklist_set m w names services old new q :
  Forall entry_ok old → Forall entry_ok new → new ≠ [] →
  read_file w apparmor_config = Some (text_of (entry_text <$> old)) →
  buf_str (paramValue m) = request new → Forall (λ e, contains e.1 (concat_all (str_take (ENTRY_WIDTH - 1) <$> names)) = true) new →
  can_write w apparmor_tmp_config = true → can_write w apparmor_config = true →
  let list := remaining (request new) old ++ new in
  (String.length (request list) < 4095)%nat →
  ∃ w' r, set_xRDKCentralComApparmorBlocklist (Some names) services m w = (OK, w')
    ∧ read_file w' apparmor_config = Some (text_of (entry_text <$> list))
    ∧ read_file w' apparmor_tmp_config = None
    ∧ (NoDup old.*1 → NoDup new.*1 → NoDup list.*1)
    ∧ get_ApparmorBlockListStatus w' q = (0, r) ∧ buf_str (paramValue r) = request list.
Proof.
  intros Hold Hnew Hne Hf Hm Hk Ht Hw list Hlen. unfold set_xRDKCentralComApparmorBlocklist. rewrite Hm.
  rewrite request_not_empty, open_trunc_ok by done. rewrite read_put_file_ne, Hf by done.
  unfold ValidateInput_Arguments. rewrite request_tokens, validate_entries, entries_fgets, kept_entries by done.
  rewrite <- text_of_app, <- fmap_app. fold list.
  destruct (rename_read apparmor_tmp_config apparmor_config
              (append_file (put_file w apparmor_tmp_config EmptyString) apparmor_tmp_config (text_of (entry_text <$> list)))
              (text_of (entry_text <$> list))) as (w' & -> & Hn & Ho & _).
  { unfold append_file. by rewrite !read_put_file. } { done. } { done. }
  assert (list ≠ []) as Hlne by (unfold list; destruct (remaining (request new) old); [done|discriminate]).
  assert (Forall entry_ok list) as Hlok.
  { apply Forall_app. split; [|done]. apply Forall_forall. intros e He%list_elem_of_In.
    apply filter_In in He as [He _]. rewrite Forall_forall in Hold. by apply Hold, list_elem_of_In. }
  destruct (get_entries w' q list Hlok Hlne Hlen Hn) as (r & Hr & Hv).
  exists w', r. split; [done|]. split; [exact Hn|]. split; [exact Ho|]. split; [|by split].
  intros Hd Hd'. apply remaining_nodup; [done|done|]. intros e He. by apply request_contains.
Qed.

(** A request that is not accepted, for whatever reason, leaves the list as it
    was. *)
Theorem blocklist_refused profiles services m w :
  let '(r, w') := set_xRDKCentralComApparmorBlocklist profiles services m w in
  r ≠ OK → read_file w' apparmor_config = read_file w apparmor_config.
Proof.
  unfold set_xRDKCentralComApparmorBlocklist. destruct (is_empty _); [done|].
  unfold open_trunc. destruct (can_write w apparmor_tmp_config); [|done].
  destruct (ValidateInput_Arguments profiles services _) as [[|] new]; unfold append_file.
  - unfold rename. rewrite read_put_file. destruct (can_write _ apparmor_config); [done|]. intros _.
    by rewrite !read_put_file_ne.
  - intros _. by rewrite !read_put_file_ne.
Qed.

(** An entry goes when its name occurs in the request, as another profile's. *)
Lemma unrelated_entry_dropped input name mode :
  contains name input = true → remaining input [(name, mode)] = [].
Proof. intros Hc. unfold remaining. cbn. by rewrite Hc. Qed.

(** ** Concrete inputs *)
Definition ex_message (v : string) : HOSTIF_MsgData_t :=
  mkMsg "Device.DeviceInfo.X_RDKCENTRAL-COM_RFC.Feature.Apparmor.Blocklist" (Webpa.fill v) None EmptyString 0 0
        hostIf_StringType HOSTIF_SET fcNoFault HOSTIF_SRC_WEBPA HOSTIF_NONE false.

Definition ex_old : list (string * string) := [("usr.bin.dobby", "enforce"); ("usr.bin.wpe", "complain")].
Definition ex_new : list (string * string) := [("usr.bin.wpe", "disable")].
Definition ex_env : env :=
  mkEnv {[ apparmor_config := text_of (entry_text <$> ex_old) ]} ∅ true ∅ EmptyString 0.

Lemma ex_entry_ok name mode :
  negb (is_empty name) && negb (has_char COLON name) && negb (has_char HASH name) && negb (has_char NL name)
  && negb (has_char CR name) && negb (has_char NUL name) && (String.length name <=? 63)%nat && is_mode mode = true →
  entry_ok (name, mode).
Proof.
  rewrite !andb_true_iff, !negb_true_iff, Nat.leb_le. intros [[[[[[[? ?] ?] ?] ?] ?] ?] ?]. by constructor.
Qed.

Lemma blocklist_set_witness :
  ∃ w' r, set_xRDKCentralComApparmorBlocklist (Some ["."; ".."; "usr.bin.dobby"; "usr.bin.wpe"]) None
            (ex_message "usr.bin.wpe:disable") ex_env = (OK, w')
    ∧ read_file w' apparmor_config = Some (text_of ["usr.bin.dobby:enforce"; "usr.bin.wpe:disable"])
    ∧ get_ApparmorBlockListStatus w' zero_msg = (0, r)
    ∧ buf_str (paramValue r) = "usr.bin.dobby:enforce#usr.bin.wpe:disable".
Proof.
  destruct (blocklist_set (ex_message "usr.bin.wpe:disable") ex_env ["."; ".."; "usr.bin.dobby"; "usr.bin.wpe"] None
              ex_old ex_new zero_msg) as (w' & r & Hs & Hf & _ & _ & Hg & Hv).
  - repeat constructor; apply ex_entry_ok; reflexivity.
  - repeat constructor; apply ex_entry_ok; reflexivity.
  - discriminate.
  - reflexivity.
  - apply fill_text; reflexivity.
  - repeat constructor.
  - reflexivity.
  - reflexivity.
  - apply Nat.ltb_lt. reflexivity.
  - exists w', r. split; [exact Hs|]. split; [exact Hf|]. split; [exact Hg|exact Hv].
Defined.

End Blocklist.
