(* ===== verification/DevicePackages.v ===== *)
(** * Installing packages for debugging

    [Packages] models the RDKDownloadManager parameters of
    profiles/DeviceInfo/Device_DeviceInfo.cpp: where packages are installed, after
    how many seconds a debug tool expires, and the installation, which reads
    that time back from its file. *)
From stdpp Require Import base list strings gmap.
From Stdlib Require Import Ascii ZArith Lia.
From S2P Require Import Prelude HostIf FileStore Webpa ProfileIO.
Import ProfileIO.

#[local] Arguments streq : simpl never.

Module Packages.

Definition INSTALL_PATH_FILE : string := "/tmp/.rdm_debug_tool_install_path".
Definition EXPIRY_FILE : string := "/tmp/.rdm_debug_tool_expiry_value".
Definition DEFAULT_INSTALL_PATH : string := "/run/tools".
Definition DEFAULT_EXPIRY : Z := 3600.
Definition UINT_MAX : Z := 2 ^ 32 - 1.

(** ** Texts *)

(** A text without the white space at its end, and at both ends. *)
Fixpoint rtrim (s : string) : string :=
  match s with
  | EmptyString => EmptyString
  | String c s' => let t := rtrim s' in if is_empty t && is_space c then EmptyString else String c t
  end.
Definition trim (s : string) : string := rtrim (skip_space s).

(** [s.substr(s.rfind(c) + 1)], where the character is found. *)
Fixpoint after_last (c : ascii) (s : string) : option string :=
  match s with
  | EmptyString => None
  | String a s' =>
      match after_last c s' with
      | Some t => Some t
      | None => if Ascii.eqb a c then Some s' else None
      end
  end.

(** [std::strtoull(s, &end, 10)]: the number, the text at [end] and whether it
    set [ERANGE]; [None] when [end] is [s]. *)
Definition strtoull (s : string) : option (Z * string * bool) :=
  match strto s with
  | None => None
  | Some (neg, n, rest) =>
      Some (if ULONG_MAX <? n then (ULONG_MAX, rest, true) else (uint64 (if neg then - n else n), rest, false))
  end.

(** [stream >> value] for an [unsigned long long] that holds [old]: what it holds
    after that, and whether the stream is still good. *)
Definition extract (s : string) (old : Z) : Z * bool :=
  if is_empty (skip_space s) then (old, false)
  else match strto s with
       | None => (0, false)
       | Some (neg, n, _) => if ULONG_MAX <? n then (ULONG_MAX, false) else (uint64 (if neg then - n else n), true)
       end.

Section operations.
(** [is_dir]: [stat] finds a directory under a path.  [room]: how many characters
    can still be written to the disk, if there is a limit. *)
Context (is_dir : string → bool) (room : option nat).

(** ** The directory *)
Definition get_xRDKDownloadManager_PackageInstallPath (w : env) (m : HOSTIF_MsgData_t) : Z * HOSTIF_MsgData_t :=
  let line := default EmptyString (read_file w INSTALL_PATH_FILE ≫= λ content, head (getlines content)) in
  (OK, set_fault (answer_text m (if is_empty line then DEFAULT_INSTALL_PATH else line)) fcNoFault).

Definition install_path_of (m : HOSTIF_MsgData_t) : string :=
  let path := trim (buf_str (paramValue m)) in
  if starts_with "/" path && is_dir path then path else DEFAULT_INSTALL_PATH.

Definition set_xRDKDownloadManager_PackageInstallPath (m : HOSTIF_MsgData_t) (w : env) : Z * HOSTIF_MsgData_t * env :=
  match open_trunc w INSTALL_PATH_FILE with
  | None => (NOK, m, w)
  | Some w1 =>
      let '(good, w2) := write_all room w1 INSTALL_PATH_FILE (with_nl (install_path_of m)) in
      if good then (OK, m, w2) else (NOK, set_fault m fcInternalError, w2)
  end.

(** ** The time *)

(** The first line that is neither empty nor a comment nor something else than
    a number. *)
Fixpoint expiry_lines (lines : list string) : Z :=
  match lines with
  | [] => DEFAULT_EXPIRY
  | line :: lines' =>
      let trimmed := trim line in
      if is_empty trimmed || starts_with "#" trimmed then expiry_lines lines'
      else match extract trimmed 0 with
           | (ttl, true) => ttl
           | _ => expiry_lines lines'
           end
  end.

Definition get_xRDKDownloadManager_PackageExpiryTime (w : env) (m : HOSTIF_MsgData_t) : Z * HOSTIF_MsgData_t :=
  let seconds := match read_file w EXPIRY_FILE with
                 | None => DEFAULT_EXPIRY
                 | Some content => expiry_lines (getlines content)
                 end in
  let m1 := set_len (set_paramtype (set_value m zero_buffer) hostIf_UnsignedIntType) 4 in
  (OK, set_fault (set_value m1 (put_uint (paramValue m1) (Z.min seconds UINT_MAX))) fcNoFault).

(** The number a request stands for. *)
Definition expiry_of (m : HOSTIF_MsgData_t) : option Z :=
  match paramtype m with
  | hostIf_UnsignedIntType => Some (get_uint (paramValue m))
  | hostIf_StringType =>
      match strtoull (buf_str (paramValue m)) with
      | Some (n, EmptyString, false) => Some n
      | _ => None
      end
  | _ => None
  end.

Definition set_xRDKDownloadManager_PackageExpiryTime (m : HOSTIF_MsgData_t) (w : env) : Z * HOSTIF_MsgData_t * env :=
  match expiry_of m with
  | None => (NOK, m, w)
  | Some seconds =>
      if (seconds =? 0) || (UINT_MAX <? seconds) then (NOK, m, w)
      else match open_trunc w EXPIRY_FILE with
           | None => (NOK, m, w)
           | Some w1 =>
               let '(good, w2) := write_all room w1 EXPIRY_FILE (with_nl (dec seconds)) in
               if good then (OK, m, w2) else (NOK, set_fault m fcInternalError, w2)
           end
  end.

(** ** The installation *)
Definition is_debug_tool (name : string) : bool := streq name "strace" || streq name "tcpdump".

(** The tool a package is of: what is before a colon, or after the last dash of
    that. *)
Definition tool_name (spec : string) : string :=
  let name := match split_at ":" spec with Some (l, _) => l | None => spec end in
  match after_last "-" name with
  | Some suffix => if is_debug_tool suffix then suffix else name
  | None => name
  end.

Definition install_command (spec : string) : list string := ["backgroundrun"; "rdm"; "-v"; spec]%string.
Definition expire_command (tool : string) (ttl : Z) : list string :=
  ["backgroundrun"; "rdm"; "-s"; tool +:+ String ":" (dec ttl)]%string.

Definition stored_ttl (w : env) : Z :=
  match read_file w EXPIRY_FILE with
  | None => DEFAULT_EXPIRY
  | Some content => (extract content DEFAULT_EXPIRY).1
  end.

(** [system]: the exit status of a command.  The commands that are run come back. *)
Definition set_xRDKDownloadManager_InstallPackage (system : list string → Z) (m : HOSTIF_MsgData_t) (w : env)
  : Z * list (list string) :=
  let spec := buf_str (paramValue m) in
  if is_empty spec then (NOK, [])
  else if negb (system (install_command spec) =? 0) then (NOK, [install_command spec])
  else if is_debug_tool (tool_name spec) then
    let expire := expire_command (tool_name spec) (stored_ttl w) in
    (if system expire =? 0 then OK else NOK, [install_command spec; expire])
  else (OK, [install_command spec]).

End operations.

(** ** Lemmas: trimming and reading numbers *)
Lemma skip_space_dec z s : 0 <= z → skip_space (dec z +:+ s) = dec z +:+ s ∧ is_empty (dec z +:+ s) = false.
Proof.
  intros Hz. unfold dec, dec_nat. destruct (Z.ltb_spec z 0); [lia|].
  destruct (dec_aux_head 20 z EmptyString ltac:(lia) ltac:(lia)) as (d & t & -> & Hd).
  cbn [String.append skip_space is_empty]. by rewrite is_digit_not_space.
Qed.

Lemma extract_dec z rest old :
  0 <= z < 2 ^ 64 → (∀ a, scan_digits rest a = (a, rest)) → extract (dec z +:+ rest) old = (z, true).
Proof.
  intros Hz Hr. unfold extract. destruct (skip_space_dec z rest) as [-> ->]; [lia|].
  rewrite strto_dec_app by (done || lia). unfold ULONG_MAX, uint64. rewrite Z.abs_eq by lia.
  destruct (Z.ltb_spec (2 ^ 64 - 1) z); [lia|]. destruct (Z.ltb_spec z 0); [lia|]. by rewrite Z.mod_small by lia.
Qed.

Lemma rtrim_no_space s : (∀ c, is_space c = true → has_char c s = false) → rtrim s = s.
Proof.
  induction s as [|c s IH]; intros Hs; [done|]. cbn [rtrim]. rewrite IH.
  - destruct (is_space c) eqn:Hc; [|by rewrite andb_false_r].
    specialize (Hs c Hc). cbn [has_char] in Hs. by rewrite Ascii.eqb_refl in Hs.
  - intros a Ha. specialize (Hs a Ha). cbn [has_char] in Hs. by apply orb_false_elim in Hs as [_ ?].
Qed.

Lemma dec_no_space z c : is_space c = true → has_char c (dec z) = false.
Proof.
  intros Hc. apply dec_no_char.
  - destruct (is_digit c) eqn:Hd; [|done]. by rewrite is_digit_not_space in Hc.
  - apply Ascii.eqb_neq. by intros ->.
Qed.

Lemma trim_dec z : 0 <= z → trim (dec z) = dec z.
Proof.
  intros Hz. unfold trim. destruct (skip_space_dec z EmptyString Hz) as [He _]. rewrite str_app_nil_r in He.
  rewrite He. apply rtrim_no_space, dec_no_space.
Qed.

Lemma dec_not_comment z : starts_with "#" (dec z) = false.
Proof.
  pose proof (dec_no_char "#" z eq_refl eq_refl) as Hn. destruct (dec z) as [|c s]; [done|].
  cbn [has_char] in Hn. apply orb_false_elim in Hn as [Hc _]. cbn [starts_with]. by rewrite Hc.
Qed.

(** What trimming leaves is part of the text. *)
Lemma rtrim_prefix s : ∃ t, s = rtrim s +:+ t.
Proof.
  induction s as [|c s [t IH]]; [by exists EmptyString|]. cbn [rtrim]. case_bool; [by exists (String c s)|].
  exists t. cbn [String.append]. by rewrite <- IH.
Qed.

Lemma skip_space_suffix s : ∃ t, s = t +:+ skip_space s.
Proof.
  induction s as [|c s [t IH]]; [by exists EmptyString|]. cbn [skip_space]. case_bool; [|by exists EmptyString].
  exists (String c t). cbn [String.append]. by rewrite <- IH.
Qed.

Lemma trim_infix s : ∃ a b, s = a +:+ (trim s +:+ b).
Proof.
  destruct (skip_space_suffix s) as [a Ha]. destruct (rtrim_prefix (skip_space s)) as [b Hb].
  exists a, b. unfold trim. by rewrite <- Hb.
Qed.

(** *** The file of the time, as it is written *)
Lemma expiry_written z : 0 <= z < 2 ^ 64 → expiry_lines (getlines (with_nl (dec z))) = z.
Proof.
  intros Hz. unfold with_nl. rewrite getlines_line by apply dec_no_space, eq_refl. cbn [getlines expiry_lines].
  rewrite trim_dec, dec_not_comment by lia.
  destruct (skip_space_dec z EmptyString) as [_ He]; [lia|]. rewrite str_app_nil_r in He. rewrite He. cbn [orb].
  pose proof (extract_dec z EmptyString 0 Hz ltac:(done)) as Hx. rewrite str_app_nil_r in Hx. by rewrite Hx.
Qed.

Lemma ttl_written z old : 0 <= z < 2 ^ 64 → extract (with_nl (dec z)) old = (z, true).
Proof. intros Hz. by apply extract_dec. Qed.

(** ** What a client sees *)
(** A request asks for a number of seconds, as a number or as its decimal text. *)
Definition asks_for (m : HOSTIF_MsgData_t) (v : Z) : Prop :=
  (paramtype m = hostIf_UnsignedIntType ∧ get_uint (paramValue m) = v)
  ∨ (paramtype m = hostIf_StringType ∧ buf_str (paramValue m) = dec v).

Lemma asks_for_expiry m v : asks_for m v → 0 <= v < 2 ^ 64 → expiry_of m = Some v.
Proof.
  intros [[Ht Hv]|[Ht Hv]] Hr; unfold expiry_of; rewrite Ht, Hv; [done|].
  unfold strtoull. rewrite strto_dec by lia. unfold ULONG_MAX, uint64. rewrite Z.abs_eq by lia.
  destruct (Z.ltb_spec (2 ^ 64 - 1) v); [lia|]. destruct (Z.ltb_spec v 0); [lia|]. by rewrite Z.mod_small by lia.
Qed.

(** C30. The time after which a debug tool expires.  A request for a number below 2^64,
    an unsigned int or the number's decimal text without a sign, is accepted
    exactly when the number is from 1 to 2^32-1 and the disk has room for its line;
    the file can be opened.  What was accepted is what a get answers, as an unsigned
    integer without a fault, and what the installation of strace or tcpdump
    schedules when its commands succeed, in whatever form the package is named.  A
    number out of the range changes no file; one in the range for which there is no
    room is answered as an internal error and leaves the beginning of its line in
    the place of the old time.  (A text with a minus sign is wrapped around 2^64
    first, see negative_expiry_accepted.) *)
Theorem package_expiry_exact room m v w q system p :
  asks_for m v → 0 <= v < 2 ^ 64 → can_write w EXPIRY_FILE = true →
  is_debug_tool (tool_name (buf_str (paramValue p))) = true →
  (∀ words, system words = 0) →
  if decide (1 <= v <= UINT_MAX) then
    ∃ ret m' w', set_xRDKDownloadManager_PackageExpiryTime room m w = (ret, m', w')
    ∧ (∀ path, path ≠ EXPIRY_FILE → read_file w' path = read_file w path)
    ∧ if fits_room room (with_nl (dec v)) then
        ret = OK ∧ m' = m
        ∧ (∃ q', get_xRDKDownloadManager_PackageExpiryTime w' q = (OK, q')
             ∧ paramtype q' = hostIf_UnsignedIntType ∧ get_uint (paramValue q') = v ∧ faultCode q' = fcNoFault)
        ∧ set_xRDKDownloadManager_InstallPackage system p w'
          = (OK, [install_command (buf_str (paramValue p)); expire_command (tool_name (buf_str (paramValue p))) v])
      else
        ret = NOK ∧ faultCode m' = fcInternalError
        ∧ read_file w' EXPIRY_FILE = Some (cut_to_room room (with_nl (dec v)))
  else set_xRDKDownloadManager_PackageExpiryTime room m w = (NOK, m, w).
Proof.
  intros Hm Hv Hw Hp Hsys. unfold set_xRDKDownloadManager_PackageExpiryTime. rewrite (asks_for_expiry m v) by done.
  unfold UINT_MAX in *. case_decide as Hb.
  2: { destruct (Z.eqb_spec v 0); [done|]. destruct (Z.ltb_spec (2 ^ 32 - 1) v); [done|lia]. }
  destruct (Z.eqb_spec v 0); [lia|]. destruct (Z.ltb_spec (2 ^ 32 - 1) v); [lia|]. cbn [orb].
  pose proof (open_trunc_ok w EXPIRY_FILE Hw) as Ho. rewrite Ho, (write_all_room room w _ _ _ Ho).
  destruct (fits_room room (with_nl (dec v))) eqn:Hroom.
  2: { eexists _, _, _. split; [done|]. split; [intros path Hne; by apply read_put_file_ne|].
       split; [done|]. split; [done|apply read_put_file]. }
  assert (cut_to_room room (with_nl (dec v)) = with_nl (dec v)) as ->.
  { unfold cut_to_room, fits_room in *. destruct room; [|done]. apply Nat.leb_le in Hroom. by apply str_take_all. }
  eexists _, _, _. split; [done|]. split; [intros path Hne; by apply read_put_file_ne|].
  split; [done|]. split; [done|]. split.
  - eexists. unfold get_xRDKDownloadManager_PackageExpiryTime.
    rewrite read_put_file, expiry_written by lia. unfold UINT_MAX. rewrite Z.min_l by lia.
    split; [done|]. split; [done|]. split; [|done].
    cbn [paramValue set_fault set_value]. rewrite get_put_uint. apply Z.mod_small. lia.
  - unfold set_xRDKDownloadManager_InstallPackage. destruct (buf_str (paramValue p)) as [|c s] eqn:Hs; [done|].
    cbn [is_empty]. rewrite Hsys, Z.eqb_refl. cbn [negb]. rewrite Hp, Hsys, Z.eqb_refl.
    unfold stored_ttl. rewrite read_put_file, ttl_written by lia. done.
Qed.

(** *** A concrete device *)
Definition text_msg (text : string) : HOSTIF_MsgData_t := set_value zero_msg (Webpa.fill text).
Definition uint_msg (z : Z) : HOSTIF_MsgData_t :=
  set_paramtype (set_value zero_msg (put_uint zero_buffer z)) hostIf_UnsignedIntType.
Definition empty_env : env := mkEnv ∅ ∅ true ∅ EmptyString 0.

Lemma text_msg_text t : has_char NUL t = false → (String.length t <? 4096)%nat = true → buf_str (paramValue (text_msg t)) = t.
Proof. apply fill_text. Qed.

Lemma uint_msg_value z : 0 <= z < 2 ^ 32 → get_uint (paramValue (uint_msg z)) = z.
Proof. intros Hz. unfold uint_msg. cbn [paramValue set_paramtype set_value]. rewrite get_put_uint. by apply Z.mod_small. Qed.

Lemma package_expiry_exact_witness :
  (∃ m' w', set_xRDKDownloadManager_PackageExpiryTime (Some 3%nat) (uint_msg 90) empty_env = (OK, m', w')
    ∧ set_xRDKDownloadManager_InstallPackage (λ _, 0) (text_msg "os-strace:1.2") w'
      = (OK, [install_command (buf_str (paramValue (text_msg "os-strace:1.2")));
              expire_command (tool_name (buf_str (paramValue (text_msg "os-strace:1.2")))) 90]))
  ∧ set_xRDKDownloadManager_PackageExpiryTime None (text_msg "4294967296") empty_env = (NOK, text_msg "4294967296", empty_env).
Proof.
  split.
  - destruct (package_expiry_exact (Some 3%nat) (uint_msg 90) 90 empty_env zero_msg (λ _, 0) (text_msg "os-strace:1.2"))
      as (ret & m' & w' & Hs & _ & -> & _ & _ & Hi).
    + left. split; [reflexivity|]. apply uint_msg_value. lia.
    + lia.
    + reflexivity.
    + rewrite text_msg_text by reflexivity. reflexivity.
    + reflexivity.
    + exists m', w'. split; [exact Hs|exact Hi].
  - apply (package_expiry_exact None (text_msg "4294967296") 4294967296 empty_env zero_msg (λ _, 0) (text_msg "strace")).
    + right. split; [reflexivity|]. rewrite text_msg_text by reflexivity. reflexivity.
    + lia.
    + reflexivity.
    + rewrite text_msg_text by reflexivity. reflexivity.
    + reflexivity.
Defined.

(** What the getter reads from a file with one line. *)
Lemma get_install_path w path q :
  read_file w INSTALL_PATH_FILE = Some (with_nl path) → has_char NL path = false → is_empty path = false →
  get_xRDKDownloadManager_PackageInstallPath w q = (OK, set_fault (answer_text q path) fcNoFault).
Proof.
  intros Hr Hn He. unfold get_xRDKDownloadManager_PackageInstallPath. rewrite Hr. cbn [mbind option_bind].
  unfold with_nl. rewrite getlines_line by done. cbn [head default from_option id]. by rewrite He.
Qed.

Lemma set_install_path is_dir m w :
  can_write w INSTALL_PATH_FILE = true →
  set_xRDKDownloadManager_PackageInstallPath is_dir None m w
  = (OK, m, put_file w INSTALL_PATH_FILE (with_nl (install_path_of is_dir m))).
Proof.
  intros Hw. unfold set_xRDKDownloadManager_PackageInstallPath.
  pose proof (open_trunc_ok w INSTALL_PATH_FILE Hw) as Ho. by rewrite Ho, (write_all_unlimited w _ _ _ Ho).
Qed.

(** The path that is chosen is the one asked for or the default, and fits. *)
Lemma install_path_choice is_dir m text :
  buf_str (paramValue m) = text → has_char NL text = false → has_char NUL text = false → (String.length text < 4096)%nat →
  let path := install_path_of is_dir m in
  (path = DEFAULT_INSTALL_PATH ∨ starts_with "/" path = true ∧ is_dir path = true)
  ∧ (starts_with "/" (trim text) = true → is_dir (trim text) = true → path = trim text)
  ∧ has_char NL path = false ∧ has_char NUL path = false ∧ (String.length path < 4096)%nat ∧ is_empty path = false.
Proof.
  intros Ht Hnl Hnul Hlen. cbn zeta. unfold install_path_of. rewrite Ht.
  destruct (starts_with "/" (trim text)) eqn:Hs, (is_dir (trim text)) eqn:Hd; cbn [andb];
    (split; [by auto|split; [done|]]);
    try (repeat split; apply Nat.ltb_lt; reflexivity).
  destruct (trim_infix text) as (a & b & E). rewrite E, !has_char_app in Hnl, Hnul. rewrite E, !str_length_app in Hlen.
  apply orb_false_elim in Hnl as [_ [? _]%orb_false_elim]. apply orb_false_elim in Hnul as [_ [? _]%orb_false_elim].
  repeat split; [done|done|lia|by destruct (trim text)].
Qed.

(** Whatever a client asks for, packages are installed in a directory that was
    there when it asked, named from the root, or in the default one; the directory
    asked for is the one that is answered when it is there. *)
Theorem install_path_safe is_dir m w q text :
  buf_str (paramValue m) = text → has_char NL text = false → has_char NUL text = false → (String.length text < 4096)%nat →
  can_write w INSTALL_PATH_FILE = true →
  ∃ w' q' path, set_xRDKDownloadManager_PackageInstallPath is_dir None m w = (OK, m, w')
    ∧ get_xRDKDownloadManager_PackageInstallPath w' q = (OK, q') ∧ buf_str (paramValue q') = path
    ∧ (path = DEFAULT_INSTALL_PATH ∨ starts_with "/" path = true ∧ is_dir path = true)
    ∧ (starts_with "/" (trim text) = true → is_dir (trim text) = true → path = trim text).
Proof.
  intros Ht Hnl Hnul Hlen Hw. destruct (install_path_choice is_dir m text Ht Hnl Hnul Hlen) as (Hsafe & Hasked & Hn & Hu & Hl & He).
  rewrite set_install_path by done. revert Hsafe Hasked Hn Hu Hl He. generalize (install_path_of is_dir m). intros path ? ? Hn Hu Hl He.
  eexists _, _, path. split; [done|].
  split; [by apply get_install_path; [apply read_put_file|..]|]. split; [|done].
  rewrite value_set_fault. by apply answer_text_value.
Qed.

Lemma install_path_safe_witness :
  ∃ w' q' path, set_xRDKDownloadManager_PackageInstallPath (streq "/media") None (text_msg " /media ") empty_env
                = (OK, text_msg " /media ", w')
    ∧ get_xRDKDownloadManager_PackageInstallPath w' zero_msg = (OK, q') ∧ buf_str (paramValue q') = path
    ∧ (path = DEFAULT_INSTALL_PATH ∨ starts_with "/" path = true ∧ streq "/media" path = true)
    ∧ (starts_with "/" (trim " /media ") = true → streq "/media" (trim " /media ") = true → path = trim " /media ").
Proof.
  apply (install_path_safe (streq "/media") (text_msg " /media ") empty_env zero_msg " /media ");
    [apply text_msg_text; reflexivity|reflexivity|reflexivity|apply Nat.ltb_lt; reflexivity|reflexivity].
Defined.

(** A time file that begins with a comment, which the parameter skips: the
    installation reads 0 from it. *)
Example comment_expires_at_once :
  let w := put_file empty_env EXPIRY_FILE (text_of ["# seconds"; "90"]%string) in
  expiry_lines (getlines (text_of ["# seconds"; "90"]%string)) = 90 ∧ stored_ttl w = 0.
Proof. split; vm_compute; reflexivity. Qed.

(** The text -18446744073709551615 stands for 1. *)
Example negative_expiry_accepted : expiry_of (text_msg "-18446744073709551615") = Some 1.
Proof. unfold expiry_of. rewrite text_msg_text by reflexivity. vm_compute. reflexivity. Qed.

(** When the disk is full the time that was set before is lost, and the answer is
    an internal error. *)
Example full_disk_loses_expiry :
  let w := put_file empty_env EXPIRY_FILE (with_nl "90") in
  let '(ret, m, w') := set_xRDKDownloadManager_PackageExpiryTime (Some 0%nat) (uint_msg 60) w in
  ret = NOK ∧ faultCode m = fcInternalError ∧ read_file w' EXPIRY_FILE = Some EmptyString.
Proof. vm_compute. done. Qed.

End Packages.
