(* ===== verification/DeviceSwitches.v ===== *)
(** * Settings that act at once

    [Switches] models the setters of profiles/DeviceInfo/Device_DeviceInfo.cpp that
    follow the storing of a remote configuration: files that other processes watch,
    services that are started and stopped, scripts, and events on the RBus. *)
From stdpp Require Import base list strings gmap.
From Stdlib Require Import Ascii ZArith Lia.
From S2P Require Import Prelude HostIf FileStore DeviceInfo Webpa ProfileIO.
Import ProfileIO.

#[local] Arguments streq : simpl never.

Module Switches.

Definition NTPENABLED_FILE : string := "/opt/.ntpEnabled".
Definition RDKV_DAB_ENABLE_FILE : string := "/opt/dab-enable".
Definition RDK_TRACING_FLAG_FILE : string := "/tmp/rdk_distributed_tracing_enabled".
Definition OTEL_EXPORT_ENDPOINT_FILE : string := "/opt/secure/otel-export-endpoint".
Definition OTEL_EXPORT_INTERVAL_FILE : string := "/opt/secure/otel-export-interval".
Definition MEMINSIGHT_SERVICE : string := "meminsight-runner.service".
Definition MEMINSIGHT_TRIGGER_FILE : string := "/opt/.enable_meminsight".
Definition MEMINSIGHT_TMP_TRIGGER_FILE : string := "/tmp/.enable_meminsight".

(** What a setter does besides writing its answer, in order. *)
Inductive effect : Type :=
  | Created (path : string)
  | Removed (path : string)
  | Ran (words : list string).

Definition result : Type := Z * HOSTIF_MsgData_t * env * list effect.

Section setters.
(** [removable], [room]: see ProfileIO.  [system]: the exit status of a command, given
    what was run before it. *)
Context (removable : string → bool) (room : option nat) (system : list effect → list string → Z).

(** An output stream that is opened, and closed when it goes out of scope. *)
Definition touch (w : env) (path : string) : env * list effect :=
  match open_trunc w path with
  | Some w' => (w', [Created path])
  | None => (w, [])
  end.

Definition unlink (w : env) (path : string) : bool * env * list effect :=
  let '(gone, w') := remove_path removable w path in (gone, w', if gone then [Removed path] else []).

Definition set_xRDKCentralComNewNtpEnable (m : HOSTIF_MsgData_t) (w : env) : result :=
  if bool_decide (paramtype m = hostIf_BooleanType) then
    if get_boolean (paramValue m) then let '(w', es) := touch w NTPENABLED_FILE in (OK, m, w', es)
    else match read_file w NTPENABLED_FILE with
         | Some _ => let '(gone, w', es) := unlink w NTPENABLED_FILE in (if gone then OK else NOK, m, w', es)
         | None => (OK, m, w, [])
         end
  else (NOK, m, w, []).

Definition otel (verb : string) : list string := ["systemctl"; verb; "rdk-otel-collector.service"]%string.

Definition set_xRDKCentralComRFCDistributedTracingEnable (m : HOSTIF_MsgData_t) (w : env) : result :=
  if bool_decide (paramtype m ≠ hostIf_BooleanType) then (NOK, m, w, [])
  else if get_boolean (paramValue m) then
    let '(w', es) := touch w RDK_TRACING_FLAG_FILE in (OK, m, w', es ++ [Ran (otel "start")])
  else
    let '(_, w', es) := unlink w RDK_TRACING_FLAG_FILE in (OK, m, w', Ran (otel "stop") :: es).

(** The text goes to the stream's buffer, so [fputs] succeeds, and nothing looks
    whether [fclose] does. *)
Definition set_xRDKCentralComRFCDistributedTracingURL (m : HOSTIF_MsgData_t) (w : env) : result :=
  if bool_decide (paramtype m ≠ hostIf_StringType) then (NOK, m, w, [])
  else match open_trunc w OTEL_EXPORT_ENDPOINT_FILE with
       | None => (NOK, m, w, [])
       | Some w1 =>
           (OK, m, (write_all room w1 OTEL_EXPORT_ENDPOINT_FILE (buf_str (paramValue m))).2, [Created OTEL_EXPORT_ENDPOINT_FILE])
       end.

Definition set_xRDKCentralComRFCDistributedTracingInterval (m : HOSTIF_MsgData_t) (w : env) : result :=
  if bool_decide (paramtype m ≠ hostIf_UnsignedIntType) then (NOK, set_fault m fcInvalidParameterType, w, [])
  else
    let minutes := get_uint (paramValue m) in
    if (minutes =? 0) || (MAX_DISTRIBUTED_TRACING_INTERVAL_MINUTES <? minutes)
    then (NOK, set_fault m fcInvalidParameterValue, w, [])
    else match open_trunc w OTEL_EXPORT_INTERVAL_FILE with
         | None => (NOK, m, w, [])
         | Some w1 =>
             let '(good, w2) := write_all room w1 OTEL_EXPORT_INTERVAL_FILE (dec minutes) in
             (if good then OK else NOK, m, w2, [Created OTEL_EXPORT_INTERVAL_FILE])
         end.

Definition set_xRDKCentralComDABRFCEnable (m : HOSTIF_MsgData_t) (w : env) : result :=
  if bool_decide (paramtype m = hostIf_BooleanType) then
    if get_boolean (paramValue m) then let '(w', es) := touch w RDKV_DAB_ENABLE_FILE in (OK, m, w', es)
    else let '(_, w', es) := unlink w RDKV_DAB_ENABLE_FILE in (OK, m, w', es)
  else (NOK, set_fault m fcInvalidParameterType, w, []).

(** *** MemInsight *)
Definition meminsight (verb : string) : list string := ["systemctl"; verb; MEMINSIGHT_SERVICE]%string.

(** The service is stopped when it runs; the last command only serves the log. *)
Definition stop_meminsight (es : list effect) : list effect :=
  let es1 := es ++ [Ran (meminsight "is-active")] in
  if system es (meminsight "is-active") =? 0
  then es1 ++ [Ran (meminsight "stop"); Ran (meminsight "is-active")]
  else es1.

Definition set_Device_DeviceInfo_X_RDKCENTRAL_COM_MemInsight_Trigger (m : HOSTIF_MsgData_t) (w : env) : result :=
  if bool_decide (paramtype m ≠ hostIf_StringType) then (NOK, set_fault m fcInvalidParameterType, w, [])
  else
    let text := buf_str (paramValue m) in
    if starts_with "start" text then
      let '(w1, es1) := touch w MEMINSIGHT_TRIGGER_FILE in
      let '(w2, es2) := touch w1 MEMINSIGHT_TMP_TRIGGER_FILE in
      match es1 ++ es2 with
      | [] => (NOK, set_fault m fcInternalError, w2, [])
      | es => (OK, m, w2, es)
      end
    else if starts_with "stop" text then
      match read_file w MEMINSIGHT_TRIGGER_FILE, read_file w MEMINSIGHT_TMP_TRIGGER_FILE with
      | None, None => (OK, m, w, [])
      | _, _ =>
          let '(gone1, w1, es1) := unlink w MEMINSIGHT_TMP_TRIGGER_FILE in
          let '(gone2, w2, es2) := unlink w1 MEMINSIGHT_TRIGGER_FILE in
          if gone1 || gone2 then (OK, m, w2, stop_meminsight (es1 ++ es2))
          else (NOK, set_fault m fcInternalError, w2, [])
      end
    else (NOK, m, w, []).

(** *** Scripts *)
Definition ScheduleAutoReboot (bValue : bool) : list effect :=
  [Ran ["backgroundrun"; "sh"; "/lib/rdk/ScheduleAutoReboot.sh"; dec (if bValue then 1 else 0)]%string].

Definition set_xRDKCentralComRFCAutoRebootEnable (m : HOSTIF_MsgData_t) (w : env) : result :=
  if bool_decide (paramtype m = hostIf_BooleanType)
  then (OK, m, w, ScheduleAutoReboot (get_boolean (paramValue m)))
  else (NOK, m, w, []).

Definition set_xRDKCentralComRFCRoamTrigger (m : HOSTIF_MsgData_t) (w : env) : result :=
  (OK, m, w, [Ran ["backgroundrun"; "wl"; "roam_trigger"; buf_str (paramValue m)]%string;
              Ran ["backgroundrun"; "wl"; "roam_trigger"]%string]).

Definition set_xRDKCentralComRFCVideoTelFreq (m : HOSTIF_MsgData_t) (w : env) : result :=
  if bool_decide (paramtype m = hostIf_UnsignedIntType) then
    let v := get_uint (paramValue m) in
    if (0 <? v) && (v <=? 60)
    then (OK, m, w, [Ran ["backgroundrun"; "sh"; "/lib/rdk/vdec-statistics.sh"; dec v]%string])
    else (NOK, m, w, [])
  else (NOK, m, w, []).

(** The number of the text is only logged. *)
Definition set_Device_DeviceInfo_X_RDKCENTRAL_COM_Canary_wakeUpStart (m : HOSTIF_MsgData_t) (w : env) : result :=
  (OK, m, w, []).
Definition set_Device_DeviceInfo_X_RDKCENTRAL_COM_Canary_wakeUpEnd (m : HOSTIF_MsgData_t) (w : env) : result :=
  (OK, m, w, []).

End setters.

(** ** Events on the RBus *)
Inductive event_value : Type := Bool_value (b : bool) | Text_value (s : string).

(** The members of an event of type [RBUS_EVENT_VALUE_CHANGED]. *)
Record rbus_event := mkEvent {
  ev_name : string;
  ev_value : event_value;
  ev_oldValue : option event_value;
  ev_by : string
}.

Section events.
(** What [rbusEvent_Publish] answers.  [RRD_SET_ISSUE_EVENT], [RRD_WEBCFG_ISSUE_EVENT]
    and [RDM_DOWNLOAD_EVENT] are names of other components' headers. *)
Context (RRD_SET_ISSUE_EVENT RRD_WEBCFG_ISSUE_EVENT RDM_DOWNLOAD_EVENT : string).
Context (rbusEvent_Publish : rbus_event → Z).

Definition RBUS_ERROR_SUCCESS : Z := 0.
Definition RBUS_ERROR_NOSUBSCRIBERS : Z := 23.

(** The event and the answer to the request. *)
Definition publish (e : rbus_event) : Z * list rbus_event :=
  let rc := rbusEvent_Publish e in
  (if negb (rc =? RBUS_ERROR_SUCCESS) && negb (rc =? RBUS_ERROR_NOSUBSCRIBERS) then NOK else OK, [e]).

Definition set_Device_DeviceInfo_X_RDKCENTRAL_COM_RebootStopEnable (m : HOSTIF_MsgData_t)
  : Z * HOSTIF_MsgData_t * list rbus_event :=
  if bool_decide (paramtype m = hostIf_BooleanType) then
    let '(ret, es) := publish (mkEvent RDK_REBOOTSTOP_ENABLE (Bool_value (get_boolean (paramValue m))) None "tr69hostif") in
    (ret, m, es)
  else (NOK, set_fault m fcInvalidParameterType, []).

Definition publish_issue (name : string) (m : HOSTIF_MsgData_t) : Z * HOSTIF_MsgData_t * list rbus_event :=
  let issueStr := buf_str (paramValue m) in
  let '(ret, es) := publish (mkEvent name (Text_value issueStr) (Some (Text_value issueStr)) "tr69hostif") in
  (ret, m, es).

Definition set_Device_DeviceInfo_X_RDKCENTRAL_COM_RDKRemoteDebuggerIssueType := publish_issue RRD_SET_ISSUE_EVENT.
Definition set_Device_DeviceInfo_X_RDKCENTRAL_COM_RDKRemoteDebuggerWebCfgData := publish_issue RRD_WEBCFG_ISSUE_EVENT.

Definition set_xRDKDownloadManager_DownloadStatus (m : HOSTIF_MsgData_t) : Z * HOSTIF_MsgData_t * list rbus_event :=
  if bool_decide (paramtype m = hostIf_BooleanType) then
    let isenabled := get_boolean (paramValue m) in
    let '(ret, es) :=
      publish (mkEvent RDM_DOWNLOAD_EVENT (Bool_value isenabled) (Some (Bool_value (negb isenabled))) "tr69hostif") in
    (ret, m, es)
  else (NOK, set_fault m fcInvalidParameterType, []).

End events.

(** ** What the switches promise

    The state another process sees: which flag files are there, what the files of
    the exporter say, and whether the collector was last started or stopped. *)
Record switches := mkSwitches {
  newNTP : bool;
  dab : bool;
  tracing : bool;
  endpoint : option string;
  interval : option string;
  collector : option bool
}.

(** What a command does to the collector. *)
Definition otel_effect (e : effect) : option bool :=
  match e with
  | Ran words => if bool_decide (words = otel "start") then Some true
                 else if bool_decide (words = otel "stop") then Some false else None
  | _ => None
  end.

Definition there (w : env) (path : string) : bool := match read_file w path with Some _ => true | None => false end.

Definition abs (w : env) (es : list effect) : switches :=
  mkSwitches (there w NTPENABLED_FILE) (there w RDKV_DAB_ENABLE_FILE) (there w RDK_TRACING_FLAG_FILE)
             (read_file w OTEL_EXPORT_ENDPOINT_FILE) (read_file w OTEL_EXPORT_INTERVAL_FILE)
             (last (omap otel_effect es)).

(** The requests, and what each is to do on a disk with room whose files can be
    made and removed; [None]: it is refused. *)
Inductive switch := Ntp | Tracing | Dab | Endpoint | Interval.
#[global] Instance switch_eq_dec : EqDecision switch.
Proof. solve_decision. Defined.

Definition ideal (a : switch) (m : HOSTIF_MsgData_t) (s : switches) : option switches :=
  let b := get_boolean (paramValue m) in
  match a, paramtype m with
  | Ntp, hostIf_BooleanType => Some (mkSwitches b (dab s) (tracing s) (endpoint s) (interval s) (collector s))
  | Dab, hostIf_BooleanType => Some (mkSwitches (newNTP s) b (tracing s) (endpoint s) (interval s) (collector s))
  | Tracing, hostIf_BooleanType => Some (mkSwitches (newNTP s) (dab s) b (endpoint s) (interval s) (Some b))
  | Endpoint, hostIf_StringType =>
      Some (mkSwitches (newNTP s) (dab s) (tracing s) (Some (buf_str (paramValue m))) (interval s) (collector s))
  | Interval, hostIf_UnsignedIntType =>
      let n := get_uint (paramValue m) in
      if (1 <=? n) && (n <=? 71582)
      then Some (mkSwitches (newNTP s) (dab s) (tracing s) (endpoint s) (Some (dec n)) (collector s)) else None
  | _, _ => None
  end.

(** *** On any disk *)
Section disk.
(** Which files can be written and removed, and the characters the disk still
    takes. *)
Context (can removable : string → bool) (room : option nat).

(** A flag that is set is on when it was or its file can be made; one that is
    cleared stays on when it was and its file cannot be removed. *)
Definition flag_after (p : string) (b was : bool) : bool := if b then was || can p else was && negb (removable p).

(** The answer to a request and the state it leaves.  Only the flag of NTP looks
    whether its file is gone, and only the interval whether its text is on the disk. *)
Definition promised (a : switch) (m : HOSTIF_MsgData_t) (s : switches) : Z * switches :=
  let b := get_boolean (paramValue m) in
  match a, paramtype m with
  | Ntp, hostIf_BooleanType =>
      (if b || negb (newNTP s) || removable NTPENABLED_FILE then OK else NOK,
       mkSwitches (flag_after NTPENABLED_FILE b (newNTP s)) (dab s) (tracing s) (endpoint s) (interval s) (collector s))
  | Dab, hostIf_BooleanType =>
      (OK, mkSwitches (newNTP s) (flag_after RDKV_DAB_ENABLE_FILE b (dab s)) (tracing s) (endpoint s) (interval s) (collector s))
  | Tracing, hostIf_BooleanType =>
      (OK, mkSwitches (newNTP s) (dab s) (flag_after RDK_TRACING_FLAG_FILE b (tracing s)) (endpoint s) (interval s) (Some b))
  | Endpoint, hostIf_StringType =>
      if can OTEL_EXPORT_ENDPOINT_FILE
      then (OK, mkSwitches (newNTP s) (dab s) (tracing s) (Some (cut_to_room room (buf_str (paramValue m)))) (interval s) (collector s))
      else (NOK, s)
  | Interval, hostIf_UnsignedIntType =>
      let n := get_uint (paramValue m) in
      if (1 <=? n) && (n <=? 71582) && can OTEL_EXPORT_INTERVAL_FILE
      then (if fits_room room (dec n) then OK else NOK,
            mkSwitches (newNTP s) (dab s) (tracing s) (endpoint s) (Some (cut_to_room room (dec n))) (collector s))
      else (NOK, s)
  | _, _ => (NOK, s)
  end.

Fixpoint promised_all (l : list (switch * HOSTIF_MsgData_t)) (s : switches) : list Z * switches :=
  match l with
  | [] => ([], s)
  | (a, m) :: l' =>
      let '(ret, s1) := promised a m s in let '(rets, s2) := promised_all l' s1 in (ret :: rets, s2)
  end.

End disk.

Fixpoint ideal_all (l : list (switch * HOSTIF_MsgData_t)) (s : switches) : list Z * switches :=
  match l with
  | [] => ([], s)
  | (a, m) :: l' =>
      let '(ret, s1) := match ideal a m s with Some s1 => (OK, s1) | None => (NOK, s) end in
      let '(rets, s2) := ideal_all l' s1 in (ret :: rets, s2)
  end.

Definition switch_files : list string :=
  [NTPENABLED_FILE; RDKV_DAB_ENABLE_FILE; RDK_TRACING_FLAG_FILE; OTEL_EXPORT_ENDPOINT_FILE; OTEL_EXPORT_INTERVAL_FILE].
Definition all_usable (can removable : string → bool) : Prop :=
  Forall (λ p, can p = true ∧ removable p = true) switch_files.

Lemma flag_usable can removable p b was :
  can p = true ∧ removable p = true → flag_after can removable p b was = b.
Proof. intros [Hc Hr]. unfold flag_after. rewrite Hc, Hr. by destruct b, was. Qed.

Lemma promised_ideal can removable a m s :
  all_usable can removable →
  promised can removable None a m s = match ideal a m s with Some s1 => (OK, s1) | None => (NOK, s) end.
Proof.
  intros Hu. assert (∀ p, p ∈ switch_files → can p = true ∧ removable p = true) as Hp by (by apply Forall_forall).
  unfold promised, ideal. destruct a, (paramtype m); try done;
    rewrite ?flag_usable by (apply Hp; in_list); try done.
  - destruct (Hp NTPENABLED_FILE ltac:(in_list)) as [_ ->]. by rewrite orb_true_r.
  - by destruct (Hp OTEL_EXPORT_ENDPOINT_FILE ltac:(in_list)) as [-> _].
  - destruct (Hp OTEL_EXPORT_INTERVAL_FILE ltac:(in_list)) as [-> _]. rewrite andb_true_r. by destruct (_ && _).
Qed.

Lemma promised_all_ideal can removable l s :
  all_usable can removable → promised_all can removable None l s = ideal_all l s.
Proof.
  intros Hu. revert s. induction l as [|[a m] l IH]; intros s; [done|]. cbn [promised_all ideal_all].
  rewrite promised_ideal by done. destruct (ideal a m s); by rewrite IH.
Qed.

(** What is refused on every disk leaves everything as it is. *)
Lemma ideal_refused can removable room a m s : ideal a m s = None → promised can removable room a m s = (NOK, s).
Proof. unfold ideal, promised. destruct a, (paramtype m); try done. by destruct (_ && _). Qed.

Section refinement.
Context (removable : string → bool) (room : option nat).

Definition request (a : switch) (m : HOSTIF_MsgData_t) (w : env) : result :=
  match a with
  | Ntp => set_xRDKCentralComNewNtpEnable removable m w
  | Tracing => set_xRDKCentralComRFCDistributedTracingEnable removable m w
  | Dab => set_xRDKCentralComDABRFCEnable removable m w
  | Endpoint => set_xRDKCentralComRFCDistributedTracingURL room m w
  | Interval => set_xRDKCentralComRFCDistributedTracingInterval room m w
  end.

(** Requests one after another: the answers, the files and the effects. *)
Fixpoint requests (l : list (switch * HOSTIF_MsgData_t)) (w : env) (es : list effect) : list Z * env * list effect :=
  match l with
  | [] => ([], w, es)
  | (a, m) :: l' =>
      let '(ret, _, w1, es1) := request a m w in
      let '(rets, w2, es2) := requests l' w1 (es ++ es1) in (ret :: rets, w2, es2)
  end.

Lemma there_put w p t q : there (put_file w p t) q = bool_decide (q = p) || there w q.
Proof.
  unfold there. case_bool_decide as E; [subst; by rewrite read_put_file|]. by rewrite read_put_file_ne.
Qed.

Lemma there_remove w p q : there (remove_file w p) q = negb (bool_decide (q = p)) && there w q.
Proof.
  unfold there, read_file, remove_file, set_files. cbn [e_files].
  case_bool_decide as E; [subst; by rewrite lookup_delete_eq|]. by rewrite lookup_delete_ne.
Qed.

Lemma read_remove w p q : q ≠ p → read_file (remove_file w p) q = read_file w q.
Proof. intros Hne. by apply lookup_delete_ne. Qed.

(** After [unlink] a removable file is not there. *)
Lemma unlink_spec w p :
  removable p = true →
  ∃ gone w' es, unlink removable w p = (gone, w', es) ∧ gone = there w p ∧ omap otel_effect es = []
    ∧ e_readonly w' = e_readonly w
    ∧ (∀ q, there w' q = negb (bool_decide (q = p)) && there w q) ∧ (∀ q, q ≠ p → read_file w' q = read_file w q).
Proof.
  intros Hr. unfold unlink, remove_path, there at 1. destruct (read_file w p) as [t|] eqn:Hp.
  - rewrite Hr. eexists _, _, _. split; [done|]. repeat split; intros; [apply there_remove|by apply read_remove].
  - eexists _, _, _. split; [done|]. repeat split. intros q.
    case_bool_decide as E; [subst; unfold there; by rewrite Hp|done].
Qed.

Lemma unlink_any w p :
  ∃ gone w' es, unlink removable w p = (gone, w', es) ∧ gone = there w p && removable p ∧ omap otel_effect es = []
    ∧ e_readonly w' = e_readonly w ∧ there w' p = there w p && negb (removable p)
    ∧ (∀ q, q ≠ p → there w' q = there w q) ∧ (∀ q, q ≠ p → read_file w' q = read_file w q).
Proof.
  destruct (removable p) eqn:Hr.
  - destruct (unlink_spec w p Hr) as (g & w' & es & -> & -> & He & Hro & Ht & Hq). eexists _, _, _. split; [done|].
    split; [by rewrite andb_true_r|]. split; [done|]. split; [done|].
    split; [by rewrite Ht, bool_decide_true, andb_false_r|]. split; [|done].
    intros q Hne. by rewrite Ht, bool_decide_false.
  - unfold unlink, remove_path. rewrite Hr. unfold there at 1.
    destruct (read_file w p) eqn:Hp; (eexists _, _, _; split; [done|]; split; [by unfold there; rewrite ?Hp|];
      split; [done|]; split; [done|]; split; [by rewrite andb_true_r|]; by split).
Qed.

Lemma last_omap_app es es' :
  last (omap otel_effect (es ++ es')) = match last (omap otel_effect es') with Some b => Some b | None => last (omap otel_effect es) end.
Proof. rewrite omap_app. apply last_app. Qed.

Lemma touch_spec w p :
  ∃ w' es, touch w p = (w', es) ∧ omap otel_effect es = [] ∧ e_readonly w' = e_readonly w
    ∧ there w' p = there w p || can_write w p
    ∧ (∀ q, q ≠ p → there w' q = there w q) ∧ (∀ q, q ≠ p → read_file w' q = read_file w q).
Proof.
  unfold touch, open_trunc. destruct (can_write w p); eexists _, _; (split; [done|]; split; [done|]; split; [done|]).
  - split; [by rewrite there_put, bool_decide_true, orb_true_r|].
    split; intros q Hne; [by rewrite there_put, bool_decide_false|by apply read_put_file_ne].
  - by rewrite orb_false_r.
Qed.

Lemma abs_eq w es s :
  there w NTPENABLED_FILE = newNTP s → there w RDKV_DAB_ENABLE_FILE = dab s → there w RDK_TRACING_FLAG_FILE = tracing s →
  read_file w OTEL_EXPORT_ENDPOINT_FILE = endpoint s → read_file w OTEL_EXPORT_INTERVAL_FILE = interval s →
  last (omap otel_effect es) = collector s → abs w es = s.
Proof. destruct s. unfold abs. cbn. by intros -> -> -> -> -> ->. Qed.

(** A flag file that is made, or removed, as far as it can be; the other files'
    readers see nothing of it. *)
Lemma flag_set w p (b : bool) :
  ∃ w' es, (if b then touch w p else let '(_, w', es) := unlink removable w p in (w', es)) = (w', es)
    ∧ omap otel_effect es = [] ∧ e_readonly w' = e_readonly w
    ∧ there w' p = flag_after (can_write w) removable p b (there w p)
    ∧ (∀ q, q ≠ p → there w' q = there w q) ∧ (∀ q, q ≠ p → read_file w' q = read_file w q).
Proof.
  unfold flag_after. destruct b; [apply touch_spec|].
  destruct (unlink_any w p) as (g & w' & es & -> & _ & Hrest). by eexists _, _.
Qed.

Lemma same_touch ps w p : p ∈ ps → same_but ps w (touch w p).1.
Proof.
  intros Hp. unfold touch. destruct (open_trunc w p) eqn:Ho; [by eapply same_but_trunc|apply same_but_refl].
Qed.

Lemma same_unlink ps w p : p ∈ ps → same_but ps w (unlink removable w p).1.2.
Proof.
  intros Hp. unfold unlink, remove_path. destruct (read_file w p); [|apply same_but_refl].
  destruct (removable p); [by apply same_but_remove|apply same_but_refl].
Qed.

(** A request touches no other file. *)
Lemma request_frame a m w : same_but switch_files w (request a m w).1.2.
Proof.
  assert (∀ p, p ∈ switch_files → ∀ t w1, open_trunc w p = Some w1 → same_but switch_files w (write_all room w1 p t).2) as Hw.
  { intros p Hp t w1 Ho. eapply same_but_trans; [by eapply same_but_trunc|by apply same_but_write_all]. }
  destruct a; cbn [request].
  - unfold set_xRDKCentralComNewNtpEnable. case_bool; [|apply same_but_refl]. case_bool.
    + pose proof (same_touch switch_files w NTPENABLED_FILE ltac:(in_list)) as Ht. by destruct (touch _ _).
    + destruct (read_file _ _); [|apply same_but_refl].
      pose proof (same_unlink switch_files w NTPENABLED_FILE ltac:(in_list)) as Ht. by destruct (unlink _ _ _) as [[? ?] ?].
  - unfold set_xRDKCentralComRFCDistributedTracingEnable. case_bool; [apply same_but_refl|]. case_bool.
    + pose proof (same_touch switch_files w RDK_TRACING_FLAG_FILE ltac:(in_list)) as Ht. by destruct (touch _ _).
    + pose proof (same_unlink switch_files w RDK_TRACING_FLAG_FILE ltac:(in_list)) as Ht. by destruct (unlink _ _ _) as [[? ?] ?].
  - unfold set_xRDKCentralComDABRFCEnable. case_bool; [|apply same_but_refl]. case_bool.
    + pose proof (same_touch switch_files w RDKV_DAB_ENABLE_FILE ltac:(in_list)) as Ht. by destruct (touch _ _).
    + pose proof (same_unlink switch_files w RDKV_DAB_ENABLE_FILE ltac:(in_list)) as Ht. by destruct (unlink _ _ _) as [[? ?] ?].
  - unfold set_xRDKCentralComRFCDistributedTracingURL. case_bool; [apply same_but_refl|].
    destruct (open_trunc _ _) eqn:Ho; [|apply same_but_refl]. apply (Hw OTEL_EXPORT_ENDPOINT_FILE ltac:(in_list) _ _ Ho).
  - unfold set_xRDKCentralComRFCDistributedTracingInterval. case_bool; [apply same_but_refl|].
    case_bool; [apply same_but_refl|]. destruct (open_trunc _ _) eqn:Ho; [|apply same_but_refl].
    pose proof (Hw OTEL_EXPORT_INTERVAL_FILE ltac:(in_list) (dec (get_uint (paramValue m))) _ Ho) as Hs. by destruct (write_all _ _ _ _).
Qed.

Lemma ntp_flag m w :
  paramtype m = hostIf_BooleanType →
  set_xRDKCentralComNewNtpEnable removable m w
  = let b := get_boolean (paramValue m) in
    let '(w', es) := if b then touch w NTPENABLED_FILE
                     else let '(_, w', es) := unlink removable w NTPENABLED_FILE in (w', es) in
    (if b || negb (there w NTPENABLED_FILE) || removable NTPENABLED_FILE then OK else NOK, m, w', es).
Proof.
  intros Ht. unfold set_xRDKCentralComNewNtpEnable. rewrite Ht. case_bool_decide; [|done].
  destruct (get_boolean (paramValue m)); [done|]. unfold unlink, remove_path, there.
  destruct (read_file w NTPENABLED_FILE); [by destruct (removable NTPENABLED_FILE)|done].
Qed.

Lemma dab_flag m w :
  paramtype m = hostIf_BooleanType →
  set_xRDKCentralComDABRFCEnable removable m w
  = let '(w', es) := if get_boolean (paramValue m) then touch w RDKV_DAB_ENABLE_FILE
                     else let '(_, w', es) := unlink removable w RDKV_DAB_ENABLE_FILE in (w', es) in (OK, m, w', es).
Proof.
  intros Ht. unfold set_xRDKCentralComDABRFCEnable. rewrite Ht. case_bool_decide; [|done].
  destruct (get_boolean (paramValue m)); [done|]. by destruct (unlink _ _ _) as [[g w'] es].
Qed.

(** The order of the two effects apart, a tracing request is a flag too. *)
Lemma tracing_flag m w :
  paramtype m = hostIf_BooleanType →
  ∃ w' es es', set_xRDKCentralComRFCDistributedTracingEnable removable m w = (OK, m, w', es')
    ∧ (if get_boolean (paramValue m) then touch w RDK_TRACING_FLAG_FILE
       else let '(_, w', es) := unlink removable w RDK_TRACING_FLAG_FILE in (w', es)) = (w', es)
    ∧ (omap otel_effect es = [] → omap otel_effect es' = [get_boolean (paramValue m)]).
Proof.
  intros Ht. unfold set_xRDKCentralComRFCDistributedTracingEnable. rewrite Ht. case_bool_decide; [done|].
  destruct (get_boolean (paramValue m)).
  - destruct (touch _ _) as [w' es]. eexists _, _, _. split; [done|]. split; [done|]. intros He. by rewrite omap_app, He.
  - destruct (unlink _ _ _) as [[g w'] es]. eexists _, _, _. split; [done|]. split; [done|]. intros He.
    cbn [omap list_omap]. replace (otel_effect (Ran (otel "stop"))) with (Some false) by reflexivity. f_equal. exact He.
Qed.

Ltac view := cbn [newNTP dab tracing endpoint interval collector abs].
Ltac same_paths Hth Hrd := first [rewrite Hth by discriminate; reflexivity | rewrite Hrd by discriminate; reflexivity | assumption].

(** One request is answered as promised, and does it. *)
Definition keeps_promise (a : switch) (m : HOSTIF_MsgData_t) (w : env) (es : list effect) (r : result) : Prop :=
  let '(ret, _, w', es') := r in
  e_readonly w' = e_readonly w
  ∧ promised (can_write w) removable room a m (abs w es) = (ret, abs w' (es ++ es')).

Lemma flag_promised a m w es :
  a ∈ [Ntp; Tracing; Dab] → keeps_promise a m w es (request a m w).
Proof.
  intros Ha. assert (paramtype m ≠ hostIf_BooleanType → keeps_promise a m w es (NOK, m, w, [])
                     ∧ keeps_promise a m w es (NOK, set_fault m fcInvalidParameterType, w, [])) as Hrefused.
  { intros Hne. unfold keeps_promise. rewrite app_nil_r.
    assert (promised (can_write w) removable room a m (abs w es) = (NOK, abs w es)) as ->; [|done].
    rewrite !elem_of_cons in Ha. destruct Ha as [->|[->|[->|[]%not_elem_of_nil]]]; cbn; by destruct (paramtype m). }
  destruct (decide (paramtype m = hostIf_BooleanType)) as [Ht|Ht].
  2: { destruct (Hrefused Ht) as [H1 H2]. rewrite !elem_of_cons in Ha.
       destruct Ha as [->|[->|[->|[]%not_elem_of_nil]]]; cbn [request].
       - unfold set_xRDKCentralComNewNtpEnable. by rewrite bool_decide_false.
       - unfold set_xRDKCentralComRFCDistributedTracingEnable. by rewrite bool_decide_true.
       - unfold set_xRDKCentralComDABRFCEnable. by rewrite bool_decide_false. }
  clear Hrefused. unfold keeps_promise, promised. rewrite Ht.
  rewrite !elem_of_cons in Ha. destruct Ha as [->|[->|[->|[]%not_elem_of_nil]]]; cbn [request].
  - rewrite ntp_flag by done. cbv zeta.
    destruct (flag_set w NTPENABLED_FILE (get_boolean (paramValue m))) as (w' & es' & -> & He & Hro & Hp & Hth & Hrd).
    split; [done|]. f_equal. symmetry. apply abs_eq; view; try same_paths Hth Hrd. by rewrite last_omap_app, He.
  - destruct (tracing_flag m w Ht) as (w1 & es1 & es2 & -> & Hfl & He2).
    destruct (flag_set w RDK_TRACING_FLAG_FILE (get_boolean (paramValue m))) as (w' & es' & Hfl' & He & Hro & Hp & Hth & Hrd).
    rewrite Hfl in Hfl'. injection Hfl' as -> ->. split; [done|]. f_equal. symmetry.
    apply abs_eq; view; try same_paths Hth Hrd. by rewrite last_omap_app, He2.
  - rewrite dab_flag by done.
    destruct (flag_set w RDKV_DAB_ENABLE_FILE (get_boolean (paramValue m))) as (w' & es' & -> & He & Hro & Hp & Hth & Hrd).
    split; [done|]. f_equal. symmetry. apply abs_eq; view; try same_paths Hth Hrd. by rewrite last_omap_app, He.
Qed.

(** A file that is written is what its readers see, and the other files stay. *)
Lemma written_file w p t es es' :
  p ∈ [OTEL_EXPORT_ENDPOINT_FILE; OTEL_EXPORT_INTERVAL_FILE] → es' = [Created p] →
  abs (put_file w p t) (es ++ es')
  = mkSwitches (newNTP (abs w es)) (dab (abs w es)) (tracing (abs w es))
      (if bool_decide (p = OTEL_EXPORT_ENDPOINT_FILE) then Some t else endpoint (abs w es))
      (if bool_decide (p = OTEL_EXPORT_INTERVAL_FILE) then Some t else interval (abs w es)) (collector (abs w es)).
Proof.
  intros Hp ->. rewrite !elem_of_cons in Hp.
  destruct Hp as [->|[->|[]%not_elem_of_nil]]; apply abs_eq; view;
    rewrite ?there_put, ?read_put_file, ?last_omap_app, ?read_put_file_ne by done; done.
Qed.

Lemma endpoint_promised m w es : keeps_promise Endpoint m w es (request Endpoint m w).
Proof.
  cbn [request]. unfold set_xRDKCentralComRFCDistributedTracingURL, keeps_promise, promised.
  destruct (decide (paramtype m = hostIf_StringType)) as [Ht|Ht].
  2: { rewrite bool_decide_true by done. rewrite app_nil_r. by destruct (paramtype m). }
  rewrite bool_decide_false by (intros Hn; by apply Hn). rewrite Ht.
  destruct (can_write w OTEL_EXPORT_ENDPOINT_FILE) eqn:Hw.
  - pose proof (open_trunc_ok w _ Hw) as Ho. rewrite Ho, (write_all_room room w _ _ _ Ho). cbn [snd].
    split; [done|]. rewrite (written_file w _ _ es _) by (done || in_list). reflexivity.
  - assert (open_trunc w OTEL_EXPORT_ENDPOINT_FILE = None) as -> by (unfold open_trunc; by rewrite Hw).
    by rewrite app_nil_r.
Qed.

Lemma interval_promised m w es : keeps_promise Interval m w es (request Interval m w).
Proof.
  cbn [request]. unfold set_xRDKCentralComRFCDistributedTracingInterval, keeps_promise, promised.
  destruct (decide (paramtype m = hostIf_UnsignedIntType)) as [Ht|Ht].
  2: { rewrite bool_decide_true by done. rewrite app_nil_r. by destruct (paramtype m). }
  rewrite bool_decide_false by (intros Hn; by apply Hn). rewrite Ht.
  assert (0 <= get_uint (paramValue m)) as Hpos by (unfold get_uint, uint32; by apply Z.mod_pos_bound).
  change MAX_DISTRIBUTED_TRACING_INTERVAL_MINUTES with 71582. set (n := get_uint (paramValue m)) in *.
  replace ((n =? 0) || (71582 <? n)) with (negb ((1 <=? n) && (n <=? 71582))) by lia.
  destruct ((1 <=? n) && (n <=? 71582)); cbn [negb andb]; [|by rewrite app_nil_r].
  destruct (can_write w OTEL_EXPORT_INTERVAL_FILE) eqn:Hw.
  - pose proof (open_trunc_ok w _ Hw) as Ho. rewrite Ho, (write_all_room room w _ _ _ Ho).
    split; [done|]. rewrite (written_file w _ _ es _) by (done || in_list). reflexivity.
  - assert (open_trunc w OTEL_EXPORT_INTERVAL_FILE = None) as -> by (unfold open_trunc; by rewrite Hw).
    by rewrite app_nil_r.
Qed.

Lemma request_promised a m w es : keeps_promise a m w es (request a m w).
Proof.
  destruct a; [| | |by apply endpoint_promised|by apply interval_promised]; (apply flag_promised; in_list).
Qed.

(** Whether files can be written is a matter of the file system alone. *)
Lemma promised_all_readonly w w' l s :
  e_readonly w' = e_readonly w →
  promised_all (can_write w') removable room l s = promised_all (can_write w) removable room l s.
Proof.
  intros E. assert (∀ a m s0, promised (can_write w') removable room a m s0 = promised (can_write w) removable room a m s0) as Hp.
  { intros a m s0. unfold promised, flag_after, can_write. by rewrite E. }
  revert s. induction l as [|[a m] l IH]; intros s; [done|]. cbn [promised_all]. rewrite Hp.
  destruct (promised _ _ _ a m s). by rewrite IH.
Qed.

(** C29. Five settings that act on the device at once, over any sequence of requests
    of any types.  On any disk, whichever of their files can be written or removed
    and however much room there is, the answers and what the flag files, the
    exporter's files and the collector's service show in the end are those of the
    promise: the requests of the right type and range are accepted, except that
    NTP is refused when its flag cannot be removed, endpoint and interval when
    their file cannot be opened, and the interval when its text does not fit; a
    flag that cannot be made or removed stays as it was, and a text that does not
    fit leaves its beginning, under an accepted endpoint too.  On a disk with room
    on which all five files can be written and removed this is the ideal: a
    request is accepted exactly when it has the right type and range, and then
    everything shows it. *)
Theorem switches_refine l w es :
  let '(rets, w', es') := requests l w es in
  promised_all (can_write w) removable room l (abs w es) = (rets, abs w' es')
  ∧ (all_usable (can_write w) removable → room = None → ideal_all l (abs w es) = (rets, abs w' es')).
Proof.
  assert (let '(rets, w', es') := requests l w es in
          promised_all (can_write w) removable room l (abs w es) = (rets, abs w' es')) as Hl.
  { revert w es. induction l as [|[a m] l IH]; intros w es; [done|]. cbn [requests promised_all].
    pose proof (request_promised a m w es) as Hstep. unfold keeps_promise in Hstep.
    destruct (request a m w) as [[[ret m1] w1] es1]. destruct Hstep as [Hro Hp]. rewrite Hp.
    specialize (IH w1 (es ++ es1)). rewrite (promised_all_readonly w w1) in IH by done.
    destruct (requests l w1 (es ++ es1)) as [[rets w2] es2]. by rewrite IH. }
  destruct (requests l w es) as [[rets w'] es']. split; [exact Hl|]. intros Hu Hr.
  rewrite Hr in Hl. by rewrite promised_all_ideal in Hl.
Qed.

End refinement.

(** *** A concrete device *)
Definition bool_msg (b : bool) : HOSTIF_MsgData_t :=
  set_paramtype (set_value zero_msg (put_boolean zero_buffer b)) hostIf_BooleanType.
Definition minutes_msg (z : Z) : HOSTIF_MsgData_t :=
  set_paramtype (set_value zero_msg (put_uint zero_buffer z)) hostIf_UnsignedIntType.
Definition url_msg (url : string) : HOSTIF_MsgData_t := set_value zero_msg (Webpa.fill url).
Definition new_env : env := mkEnv ∅ ∅ true ∅ EmptyString 0.

Definition demo : list (switch * HOSTIF_MsgData_t) :=
  [(Tracing, bool_msg true); (Endpoint, url_msg "http://c:4318"); (Interval, minutes_msg 71583); (Interval, minutes_msg 5);
   (Ntp, url_msg "true"); (Ntp, bool_msg true); (Dab, bool_msg false); (Tracing, bool_msg false)].

Lemma demo_ideal :
  ideal_all demo (abs new_env [])
  = ([OK; OK; NOK; OK; NOK; OK; OK; OK], mkSwitches true false false (Some "http://c:4318"%string) (Some "5"%string) (Some false)).
Proof. vm_compute. reflexivity. Qed.

Lemma switches_refine_witness :
  let '(rets, w', es') := requests (λ _, true) None demo new_env [] in
  (rets, abs w' es')
  = ([OK; OK; NOK; OK; NOK; OK; OK; OK], mkSwitches true false false (Some "http://c:4318"%string) (Some "5"%string) (Some false)).
Proof.
  assert (all_usable (can_write new_env) (λ _, true)) as Hu by (unfold all_usable, switch_files; repeat constructor).
  pose proof (switches_refine (λ _, true) None demo new_env []) as Hd.
  destruct (requests (λ _, true) None demo new_env []) as [[rets w'] es'].
  destruct Hd as [_ Hd]. rewrite <- (Hd Hu eq_refl). apply demo_ideal.
Defined.

(** The same requests on a disk that takes four more characters, where the flag of
    NTP cannot be made and that of tracing cannot be removed. *)
Example demo_full_disk :
  promised_all (λ p, negb (streq p NTPENABLED_FILE)) (λ p, negb (streq p RDK_TRACING_FLAG_FILE)) (Some 4%nat) demo (abs new_env [])
  = ([OK; OK; NOK; OK; NOK; OK; OK; OK], mkSwitches false false true (Some "http"%string) (Some "5"%string) (Some false)).
Proof. vm_compute. reflexivity. Qed.

(** ** MemInsight *)

(** A text that begins with start makes both trigger files, as far as they can be
    made; one that begins with stop removes both and stops the service if it runs,
    and does nothing when neither file was there; every other text is refused. *)
Theorem meminsight_trigger removable system m w text :
  paramtype m = hostIf_StringType → buf_str (paramValue m) = text →
  can_write w MEMINSIGHT_TRIGGER_FILE = true → can_write w MEMINSIGHT_TMP_TRIGGER_FILE = true →
  removable MEMINSIGHT_TRIGGER_FILE = true → removable MEMINSIGHT_TMP_TRIGGER_FILE = true →
  let before := there w MEMINSIGHT_TRIGGER_FILE || there w MEMINSIGHT_TMP_TRIGGER_FILE in
  ∃ ret w' es, set_Device_DeviceInfo_X_RDKCENTRAL_COM_MemInsight_Trigger removable system m w = (ret, m, w', es)
    ∧ let after p := there w' p in
      if starts_with "start" text then
        ret = OK ∧ after MEMINSIGHT_TRIGGER_FILE = true ∧ after MEMINSIGHT_TMP_TRIGGER_FILE = true
        ∧ Ran (meminsight "stop") ∉ es
      else if starts_with "stop" text then
        ret = OK ∧ after MEMINSIGHT_TRIGGER_FILE = false ∧ after MEMINSIGHT_TMP_TRIGGER_FILE = false
        ∧ ((∀ es, system es (meminsight "is-active") = 0) → Ran (meminsight "stop") ∈ es ↔ before = true)
      else ret = NOK ∧ w' = w ∧ es = [].
Proof.
  intros Ht Hs Hw1 Hw2 Hr1 Hr2 before. unfold set_Device_DeviceInfo_X_RDKCENTRAL_COM_MemInsight_Trigger.
  rewrite bool_decide_false by (intros Hn; by apply Hn). rewrite Hs.
  destruct (starts_with "start" text).
  - unfold touch. rewrite open_trunc_ok by done. rewrite (open_trunc_ok (put_file _ _ _)) by done. cbn [app].
    eexists _, _, _. split; [done|]. split; [done|]. rewrite !there_put.
    repeat split. rewrite !elem_of_cons. intros [[=]|[[=]|[]%not_elem_of_nil]].
  - destruct (starts_with "stop" text).
    2: { eexists _, _, _. done. }
    destruct (unlink_spec removable w _ Hr2) as (g1 & w1 & es1 & Hun & Hg1 & _ & _ & Hth1 & Hrd1).
    destruct (unlink_spec removable w1 _ Hr1) as (g2 & w2 & es2 & Hun2 & Hg2 & _ & _ & Hth2 & Hrd2).
    rewrite Hth1 in Hg2. cbn [negb bool_decide] in Hg2.
    assert (∀ es, Ran (meminsight "stop") ∈ stop_meminsight system es ∨ system es (meminsight "is-active") ≠ 0) as Hstop.
    { intros es. unfold stop_meminsight. destruct (Z.eqb_spec (system es (meminsight "is-active")) 0); [left|by right].
      rewrite !elem_of_app, !elem_of_cons. tauto. }
    destruct before eqn:Hb; unfold before, there in Hb.
    + assert ((g1 || g2) = true) as Hg.
      { rewrite Hg1, Hg2. unfold there. revert Hb. destruct (read_file w MEMINSIGHT_TRIGGER_FILE), (read_file w MEMINSIGHT_TMP_TRIGGER_FILE); done. }
      exists OK, w2, (stop_meminsight system (es1 ++ es2)). rewrite Hun, Hun2, Hg. split.
      { revert Hb. by destruct (read_file w MEMINSIGHT_TRIGGER_FILE), (read_file w MEMINSIGHT_TMP_TRIGGER_FILE). }
      split; [done|]. rewrite !Hth2, !Hth1. split; [reflexivity|]. split; [reflexivity|].
      intros Hact. split; [done|]. intros _. destruct (Hstop (es1 ++ es2)) as [Hin|Hne]; [done|by exfalso; apply Hne].
    + exists OK, w, []. split; [revert Hb; by destruct (read_file w MEMINSIGHT_TRIGGER_FILE), (read_file w MEMINSIGHT_TMP_TRIGGER_FILE)|].
      split; [done|]. split; [|split]; unfold there.
      * revert Hb. by destruct (read_file w MEMINSIGHT_TRIGGER_FILE).
      * revert Hb. by destruct (read_file w MEMINSIGHT_TRIGGER_FILE), (read_file w MEMINSIGHT_TMP_TRIGGER_FILE).
      * intros _. split; [by intros ?%not_elem_of_nil|done].
Qed.

Definition trigger_env : env := put_file new_env MEMINSIGHT_TMP_TRIGGER_FILE EmptyString.

Lemma meminsight_trigger_witness :
  ∃ ret w' es, set_Device_DeviceInfo_X_RDKCENTRAL_COM_MemInsight_Trigger (λ _, true) (λ _ _, 0) (url_msg "stop") trigger_env
               = (ret, url_msg "stop", w', es)
    ∧ ret = OK ∧ there w' MEMINSIGHT_TRIGGER_FILE = false ∧ there w' MEMINSIGHT_TMP_TRIGGER_FILE = false
    ∧ ((∀ es : list effect, (0 : Z) = 0) → Ran (meminsight "stop") ∈ es ↔ true = true).
Proof.
  apply (meminsight_trigger (λ _, true) (λ _ _, 0) (url_msg "stop") trigger_env "stop");
    [reflexivity|apply fill_text; reflexivity|reflexivity..].
Defined.

(** ** What falls short *)

(** On a full disk the address of the exporter is answered as set and is lost. *)
Example endpoint_lost :
  let '(ret, _, w', _) := set_xRDKCentralComRFCDistributedTracingURL (Some 0%nat) (url_msg "http://c:4318") new_env in
  ret = OK ∧ read_file w' OTEL_EXPORT_ENDPOINT_FILE = Some EmptyString.
Proof. vm_compute. done. Qed.

(** A flag file that cannot be made is answered as made. *)
Example ntp_not_enabled :
  let w := mkEnv ∅ {[NTPENABLED_FILE]} true ∅ EmptyString 0 in
  let '(ret, _, w', es) := set_xRDKCentralComNewNtpEnable (λ _, true) (bool_msg true) w in
  ret = OK ∧ read_file w' NTPENABLED_FILE = None ∧ es = [].
Proof. vm_compute. done. Qed.

End Switches.
