(* ===== verification/DeviceActions.v ===== *)
(** * The settings of the profile, acting

    [DeviceInfo] and [DeviceClient] are proved for any behaviour of the profile's
    setters and getters.  [Actions] puts the setters and getters that DevicePackages
    and DeviceSwitches model in their place, and any others behind them: a setting
    goes into the RFC store and then to its setter, which acts on the device. *)
From stdpp Require Import base list strings gmap.
From Stdlib Require Import Ascii ZArith Lia.
From S2P Require Import Prelude HostIf FileStore RFCStore BSStore MsgHandler DeviceInfo DeviceClient Webpa ProfileIO.
From S2P Require Import DevicePackages DeviceSwitches.
Import hostIf_DeviceInfo DeviceClientReqHandler.

#[local] Arguments streq : simpl never.

Module Actions.
Import Switches (effect, rbus_event).

(** What the setters did, in order, the events they published, and what the other
    setters and getters keep. *)
Record actions (P : Type) := mkActions {
  effects : list effect;
  published : list rbus_event;
  others : P
}.
#[global] Arguments mkActions {P}.
#[global] Arguments effects {P}.
#[global] Arguments published {P}.
#[global] Arguments others {P}.

Section profile.
Context `{rest : DeviceProfile}.
(** The arguments of DeviceSwitches and DevicePackages. *)
Context (removable : string → bool) (room : option nat) (is_dir : string → bool).
Context (system : list string → Z) (rbusEvent_Publish : rbus_event → Z).
Context (RRD_SET_ISSUE_EVENT RRD_WEBCFG_ISSUE_EVENT RDM_DOWNLOAD_EVENT : string).

Definition with_files {P} (p : profile (actions P)) (w : env) (es : list effect) : profile (actions P) :=
  mkProfile (object0 p) (m_rfcStore p) (m_rfcStorage p) (m_bsStore p) w
    (mkActions (effects (platform p) ++ es) (published (platform p)) (others (platform p))).

Definition with_events {P} (p : profile (actions P)) (es : list rbus_event) : profile (actions P) :=
  set_platform p (mkActions (effects (platform p)) (published (platform p) ++ es) (others (platform p))).

(** The profile as the other setters and getters see it, and as they leave it. *)
Definition without (p : profile (actions pstate)) : profile pstate :=
  mkProfile (object0 p) (m_rfcStore p) (m_rfcStorage p) (m_bsStore p) (files p) (others (platform p)).
Definition back (p : profile (actions pstate)) (q : profile pstate) : profile (actions pstate) :=
  mkProfile (object0 q) (m_rfcStore q) (m_rfcStorage q) (m_bsStore q) (files q)
    (mkActions (effects (platform p)) (published (platform p)) (platform q)).

Definition by_others (p : profile (actions pstate)) (r : outcome (profile pstate)) : outcome (profile (actions pstate)) :=
  match r with
  | Returned ret m q => Returned ret m (back p q)
  | Threw m q => Threw m (back p q)
  end.

(** The setters that act on files and run commands. *)
Definition acting_setter (a : setter) : option (HOSTIF_MsgData_t → env → Switches.result) :=
  let no_effects f m w : Switches.result := let '(ret, m', w') := f m w in (ret, m', w', []) in
  let commands f (m : HOSTIF_MsgData_t) (w : env) : Switches.result := let '(ret, cs) := f m w in (ret, m, w, Switches.Ran <$> cs) in
  match a with
  | set_xRDKCentralComNewNtpEnable => Some (Switches.set_xRDKCentralComNewNtpEnable removable)
  | set_xRDKCentralComDABRFCEnable => Some (Switches.set_xRDKCentralComDABRFCEnable removable)
  | set_xRDKCentralComRFCDistributedTracingEnable => Some (Switches.set_xRDKCentralComRFCDistributedTracingEnable removable)
  | set_xRDKCentralComRFCDistributedTracingURL => Some (Switches.set_xRDKCentralComRFCDistributedTracingURL room)
  | set_xRDKCentralComRFCDistributedTracingInterval => Some (Switches.set_xRDKCentralComRFCDistributedTracingInterval room)
  | set_Device_DeviceInfo_X_RDKCENTRAL_COM_MemInsight_Trigger =>
      Some (Switches.set_Device_DeviceInfo_X_RDKCENTRAL_COM_MemInsight_Trigger removable (λ _, system))
  | set_xRDKCentralComRFCAutoRebootEnable => Some Switches.set_xRDKCentralComRFCAutoRebootEnable
  | set_xRDKCentralComRFCRoamTrigger => Some Switches.set_xRDKCentralComRFCRoamTrigger
  | set_xRDKCentralComRFCVideoTelFreq => Some Switches.set_xRDKCentralComRFCVideoTelFreq
  | set_Device_DeviceInfo_X_RDKCENTRAL_COM_Canary_wakeUpStart =>
      Some Switches.set_Device_DeviceInfo_X_RDKCENTRAL_COM_Canary_wakeUpStart
  | set_Device_DeviceInfo_X_RDKCENTRAL_COM_Canary_wakeUpEnd =>
      Some Switches.set_Device_DeviceInfo_X_RDKCENTRAL_COM_Canary_wakeUpEnd
  | set_xRDKDownloadManager_PackageInstallPath =>
      Some (no_effects (Packages.set_xRDKDownloadManager_PackageInstallPath is_dir room))
  | set_xRDKDownloadManager_PackageExpiryTime => Some (no_effects (Packages.set_xRDKDownloadManager_PackageExpiryTime room))
  | set_xRDKDownloadManager_InstallPackage => Some (commands (Packages.set_xRDKDownloadManager_InstallPackage system))
  | _ => None
  end.

(** The setters that publish events. *)
Definition event_setter (a : setter) : option (HOSTIF_MsgData_t → Z * HOSTIF_MsgData_t * list rbus_event) :=
  match a with
  | set_Device_DeviceInfo_X_RDKCENTRAL_COM_RebootStopEnable =>
      Some (Switches.set_Device_DeviceInfo_X_RDKCENTRAL_COM_RebootStopEnable rbusEvent_Publish)
  | set_Device_DeviceInfo_X_RDKCENTRAL_COM_RDKRemoteDebuggerIssueType =>
      Some (Switches.set_Device_DeviceInfo_X_RDKCENTRAL_COM_RDKRemoteDebuggerIssueType RRD_SET_ISSUE_EVENT rbusEvent_Publish)
  | set_Device_DeviceInfo_X_RDKCENTRAL_COM_RDKRemoteDebuggerWebCfgData =>
      Some (Switches.set_Device_DeviceInfo_X_RDKCENTRAL_COM_RDKRemoteDebuggerWebCfgData RRD_WEBCFG_ISSUE_EVENT rbusEvent_Publish)
  | set_xRDKDownloadManager_DownloadStatus =>
      Some (Switches.set_xRDKDownloadManager_DownloadStatus RDM_DOWNLOAD_EVENT rbusEvent_Publish)
  | _ => None
  end.

Definition acting_getter (g : getter) : option (env → HOSTIF_MsgData_t → Z * HOSTIF_MsgData_t) :=
  match g with
  | get_xRDKDownloadManager_PackageInstallPath => Some Packages.get_xRDKDownloadManager_PackageInstallPath
  | get_xRDKDownloadManager_PackageExpiryTime => Some Packages.get_xRDKDownloadManager_PackageExpiryTime
  | _ => None
  end.

#[local] Instance acting : DeviceProfile := {
  pstate := actions pstate;
  call_set := λ a m p,
    match acting_setter a, event_setter a with
    | Some f, _ => let '(ret, m', w', es) := f m (files p) in Returned ret m' (with_files p w' es)
    | None, Some f => let '(ret, m', es) := f m in Returned ret m' (with_events p es)
    | None, None => by_others p (call_set a m (without p))
    end;
  call_get := λ g m p,
    match acting_getter g with
    | Some f => let '(ret, m') := f (files p) m in Returned ret m' p
    | None => by_others p (call_get g m (without p))
    end;
  notifyIARM := λ n v t q, mkActions (effects q) (published q) (notifyIARM n v t (others q));
  sendDeviceMgtNotification := λ n v q, mkActions (effects q) (published q) (sendDeviceMgtNotification n v (others q))
}.

End profile.

(** ** Lemmas: what a store keeps while others write *)
Section frames.
Context `{UMapOrder}.
Import ProfileIO.

Lemma file_map_same ps w w' p : same_but ps w w' → p ∉ ps → file_map w' p = file_map w p.
Proof. intros (Hr & _) Hp. unfold file_map. by rewrite Hr. Qed.

(** The store is in order as long as its own files and its configuration are not
    written. *)
Lemma good_same f l x ps w w' :
  XRFCStore.good f l x w → same_but ps w w' → f ∉ ps → l ∉ ps →
  XRFCStore.RFC_PROPERTIES_FILE ∉ ps → XRFCStore.RFCDEFAULTS_FILE ∉ ps → XRFCStore.good f l x w'.
Proof.
  intros [[] ] Hs Hf Hl Hp Hd. pose proof Hs as (Hr & Ho & Hsem).
  assert (∀ p, can_write w' p = can_write w p) as Hcw by (intros p; unfold can_write; by rewrite Ho).
  constructor; try done.
  - constructor; rewrite ?Hcw, ?Hsem, ?Hr by done; done.
  - by rewrite (file_map_same ps w w').
  - by rewrite (file_map_same ps w w').
  - by rewrite Hr.
Qed.

Lemma writeHashToFile_same ps key v d p w : p ∈ ps → same_but ps w (XRFCStore.writeHashToFile key v d p w).2.
Proof.
  intros Hp. unfold XRFCStore.writeHashToFile. destruct (open_trunc w p) eqn:Ho; [|apply same_but_refl].
  eapply same_but_trans; [by eapply same_but_trunc|by apply same_but_write_map].
Qed.

Lemma setOrdinary_same f l x w m v :
  XRFCStore.good f l x w → XRFCStore.m_updateInProgress x = false →
  same_but [f; l] w (XRFCStore.setOrdinary x w m v).2.
Proof.
  intros Hg Hu. unfold XRFCStore.setOrdinary. destruct (_ && _ && _); [apply same_but_refl|].
  unfold XRFCStore.setRawValue. rewrite Hu. destruct (XRFCStore.good_names _ _ _ _ Hg) as [-> _].
  pose proof (writeHashToFile_same [f; l] (paramName m) v (XRFCStore.m_dict x) f w ltac:(left)) as Hw.
  by destruct (XRFCStore.writeHashToFile _ _ _ _ _) as [[? ?] ?].
Qed.

(** A set of an ordinary parameter writes the two files of the store. *)
Lemma setValue_same f l x w m v r x' m' w' :
  XRFCStore.good f l x w → XRFCStore.m_updateInProgress x = false → XRFCStore.plain_name (paramName m) → key_ok (paramName m) →
  getStringValue m = Some v → val_ok v →
  XRFCStore.setValue x w m = Some (r, x', m', w') → same_but [f; l] w w'.
Proof.
  intros Hg Hu (Hc & Hnp & _) Hk Hs Hv. unfold XRFCStore.setValue. rewrite XRFCStore.init_id by apply Hg.
  rewrite Hs. cbn [mbind option_bind]. rewrite Hc, Hnp. destruct (decide (requestor m = HOSTIF_SRC_WEBPA)).
  - destruct (e_sem_ok w); cbn [negb]; [|intros [= <- <- <- <-]; apply same_but_refl].
    destruct (XRFCStore.setWebpaLocal x w m v) as [[ok x1] w1] eqn:Hw.
    pose proof (XRFCStore.setWebpaLocal_good f l x w m v ok x1 w1 Hg Hk Hv Hw) as Hg1.
    assert (same_but [f; l] w w1 ∧ XRFCStore.m_updateInProgress x1 = false) as [Hs1 Hu1].
    { unfold XRFCStore.setWebpaLocal in Hw. destruct (XRFCStore.good_names _ _ _ _ Hg) as [_ Hnl]. rewrite Hnl in Hw.
      set (d := (XRFCStore.loadFileToCache _ _ _).2) in Hw.
      pose proof (writeHashToFile_same [f; l] (paramName m) v d l w ltac:(in_list)) as Hw1.
      destruct (XRFCStore.writeHashToFile _ _ _ _ _) as [[? ?] ?]. by injection Hw as <- <- <-. }
    destruct ok; cbn [negb]; [|by intros [= <- <- <- <-]]. rewrite Hu1.
    intros [= Heq]. eapply same_but_trans; [exact Hs1|].
    pose proof (setOrdinary_same f l x1 w1 m v Hg1 Hu1) as Ho. by rewrite Heq in Ho.
  - intros [= Heq]. pose proof (setOrdinary_same f l x w m v Hg Hu) as Ho. by rewrite Heq in Ho.
Qed.

Lemma abs_same ps w w' es :
  same_but ps w w' → (∀ p, p ∈ Switches.switch_files → p ∉ ps) → Switches.abs w' es = Switches.abs w es.
Proof.
  intros (Hr & _) Hd. unfold Switches.abs, Switches.there. by rewrite !Hr by (apply Hd; in_list).
Qed.

End frames.

(** ** A setting that is stored and acts *)
Import Switches (switch, Ntp, Tracing, Dab, Endpoint, Interval, switches, switch_files, all_usable, ideal, promised, abs).

Definition switch_name (a : switch) : string :=
  match a with
  | Ntp => NEWNTP_ENABLE
  | Tracing => DISTRIBUTED_TRACING_RFC_ENABLE
  | Dab => DAB_RFC_ENABLE
  | Endpoint => DISTRIBUTED_TRACING_RFC_URL
  | Interval => DISTRIBUTED_TRACING_RFC_INTERVAL
  end.

Definition switch_setter (a : switch) : setter :=
  match a with
  | Ntp => set_xRDKCentralComNewNtpEnable
  | Tracing => set_xRDKCentralComRFCDistributedTracingEnable
  | Dab => set_xRDKCentralComDABRFCEnable
  | Endpoint => set_xRDKCentralComRFCDistributedTracingURL
  | Interval => set_xRDKCentralComRFCDistributedTracingInterval
  end.

Section device.
Context `{UMapOrder} `{CJson}.
Variable rest : DeviceProfile.
Variables (removable : string → bool) (room : option nat) (is_dir : string → bool) (system : list string → Z)
  (rbusEvent_Publish : rbus_event → Z) (ev1 ev2 ev3 : string) (o : options).

#[local] Instance device_profile : DeviceProfile :=
  acting (rest := rest) removable room is_dir system rbusEvent_Publish ev1 ev2 ev3.

(** The state of the switches on a device. *)
Definition switches_of (d : device (actions (@pstate rest))) : switches :=
  abs (files (body d)) (effects (platform (body d))).

Lemma switch_routes a :
  strncaseeq "Device.DeviceInfo" (switch_name a) = true
  ∧ set_route_of o (switch_name a) = Some by_set_xRDKCentralComRFC
  ∧ strcaseeq (switch_name a) TR181_RFC_RESET_DATA_START = false
  ∧ strcaseeq (switch_name a) TR181_RFC_RESET_DATA_END = false
  ∧ strcaseeq (switch_name a) TR069DOSLIMIT_THRESHOLD = false
  ∧ strcaseeq (switch_name a) DISTRIBUTED_TRACING_RFC_INTERVAL = bool_decide (a = Interval)
  ∧ (∀ ret, rfc_action o ret (switch_name a) = Some (switch_setter a))
  ∧ XRFCStore.plain_name (switch_name a) ∧ key_ok (switch_name a).
Proof.
  destruct o as [b1 b2 b3 b4 b5].
  split_and!; [destruct a; vm_compute; reflexivity| |destruct a; vm_compute; reflexivity..| | |destruct a; vm_compute; exact I].
  - destruct a, b3, b4, b5; vm_compute; reflexivity.
  - intros ret. unfold rfc_action. destruct a, b4, b5; vm_compute; reflexivity.
  - destruct a; (split; [|split]); vm_compute; reflexivity.
Qed.

Lemma promised_ext can a m m' s :
  paramtype m' = paramtype m → paramValue m' = paramValue m →
  promised can removable room a m' s = promised can removable room a m s.
Proof. intros Ht Hv. unfold promised. by rewrite Ht, Hv. Qed.

(** What a switch is asked for, in its type and range, passes the check of its value. *)
Lemma ideal_valid a m s s1 :
  paramName m = switch_name a → ideal a m s = Some s1 → validate_ParamValue m = (OK, m).
Proof.
  intros Hn Hp. destruct (switch_routes a) as (_ & _ & _ & _ & Hlim & Hint & _).
  unfold validate_ParamValue. rewrite Hn, Hint, Hlim. case_bool_decide as Ha; [|done]. subst a.
  unfold ideal in Hp. destruct (paramtype m); try done.
  rewrite decide_True by done. change MAX_DISTRIBUTED_TRACING_INTERVAL_MINUTES with 71582.
  set (n := get_uint (paramValue m)) in *.
  destruct ((1 <=? n) && (n <=? 71582)) eqn:Hr; [|done].
  by replace ((n =? 0) || (71582 <? n)) with false by lia.
Qed.

Lemma acting_switch a :
  acting_setter removable room is_dir system (switch_setter a)
  = Some (Switches.request removable room a).
Proof. by destruct a. Qed.

(** The store's part, and then the action, on the files that the store left. *)
Lemma set_switch a m p x v x' m1 w1 :
  old_storage o = false → m_rfcStore p = Some x → paramName m = switch_name a → paramName m1 = paramName m →
  validate_ParamValue m = (OK, m) → getStringValue m = Some v →
  XRFCStore.setValue x (files p) m = Some (fcNoFault, x', m1, w1) →
  set_xRDKCentralComRFC o m p
  = Some (let '(ret, m2, w2, es) := Switches.request removable room a m1 w1 in
          Returned ret m2 (with_files (set_rfcStore p x' w1) w2 es)).
Proof.
  intros Ho Hx Hn Hn1 Hv Hs Hset. destruct (switch_routes a) as (_ & _ & Hst & Hend & _ & _ & Hact & _).
  unfold set_xRDKCentralComRFC, rfc_store. rewrite Hn, Hst, Hend, Hv, Z.eqb_refl, Ho, Hx. cbn [mbind option_bind].
  rewrite Hset. cbn [mbind option_bind]. rewrite Hn1, Hn, Hact.
  unfold call_set, device_profile, acting. rewrite acting_switch. cbn [files set_rfcStore].
  destruct (Switches.request removable room a m1 w1) as [[[ret m2] w2] es].
  rewrite decide_False by (destruct a; intros [[=]|[=]]). done.
Qed.

(** A set whose value passes the check is stored, whatever the action then answers. *)
Lemma switch_answer f l self d x a m v :
  serving o f l d x → f ∉ switch_files → l ∉ switch_files →
  paramName m = switch_name a → bsUpdate m = HOSTIF_NONE →
  getStringValue m = Some v → val_ok v → has_char NUL v = false → validate_ParamValue m = (OK, m) →
  ∃ ret m' d' x', handleSetMsg o self m d = Reply (Returned ret m' d') ∧ serving o f l d' x'
    ∧ holds x' (paramName m) v ∧ (∀ k, k ≠ paramName m → XRFCStore.m_dict x' !! k = XRFCStore.m_dict x !! k)
    ∧ e_readonly (files (body d')) = e_readonly (files (body d))
    ∧ (ret = OK → faultCode m' = fcNoFault)
    ∧ promised (can_write (files (body d))) removable room a m (switches_of d) = (ret, switches_of d').
Proof.
  intros [Hf Ho Hnew Hx Hg Hu] Hfs Hls Hn Hb Hv Hok Hnul Hvalid.
  destruct (switch_routes a) as (Hdev & Hroute & _ & _ & _ & _ & _ & Hplain & Hkey). rewrite <- Hn in Hplain, Hkey.
  destruct (XRFCStore.setValue_plain f l x (files (body d)) (set_instance m 0) v Hg Hu)
    as (x' & m1 & w1 & Hset & Hg' & Hu' & Hm1 & Hr & Hother); try done.
  pose proof (setValue_same f l x _ (set_instance m 0) v _ x' m1 w1 Hg Hu Hplain Hkey Hv Hok Hset) as Hsame.
  assert (abs w1 (effects (platform (body d))) = switches_of d) as Habs.
  { apply (abs_same [f; l]); [done|]. intros p Hp1 Hin. rewrite !elem_of_cons in Hin.
    destruct Hin as [->|[->|[]%not_elem_of_nil]]; done. }
  assert (e_readonly w1 = e_readonly (files (body d))) as Hro1 by apply Hsame.
  assert (paramName m1 = paramName m ∧ promised (can_write w1) removable room a m1 (switches_of d)
          = promised (can_write (files (body d))) removable room a m (switches_of d)) as [Hn1 Hp1].
  { destruct Hm1 as [->| ->]; (split; [done|]); rewrite (promised_ext _ a m) by done;
      unfold promised, Switches.flag_after, can_write; by rewrite Hro1. }
  pose proof (Switches.request_promised removable room a m1 w1 (effects (platform (body d)))) as Hreq.
  pose proof (Switches.request_frame removable room a m1 w1) as Hframe.
  assert (validate_ParamValue (set_instance m 0) = (OK, set_instance m 0)) as Hvalid0.
  { unfold validate_ParamValue in *. change (paramName (set_instance m 0)) with (paramName m).
    change (paramtype (set_instance m 0)) with (paramtype m). change (paramValue (set_instance m 0)) with (paramValue m).
    repeat case_match; by simplify_eq. }
  pose proof (set_switch a (set_instance m 0) (body d) x v x' m1 w1 Hnew Hx Hn Hn1 Hvalid0 Hv Hset) as Hcall.
  destruct (Switches.request removable room a m1 w1) as [[[ret m2] w2] es]. cbn in Hframe.
  unfold Switches.keeps_promise in Hreq. rewrite Habs, Hp1 in Hreq. destruct Hreq as (Hro & Hs).
  exists ret, (if ret =? OK then set_fault m2 fcNoFault else m2), (with_body d (with_files (set_rfcStore (body d) x' w1) w2 es)), x'.
  split; [|split; [|split; [exact Hr|split; [exact Hother|split]]]].
  - apply locked_free; [done|]. rewrite decide_False by (by rewrite Hb; intros []).
    rewrite Hn, Hdev, getInstance_made by done. cbn [mbind option_bind].
    change (paramName (set_instance m 0)) with (paramName m). rewrite Hn, Hroute. unfold after_set.
    rewrite Hcall. reflexivity.
  - constructor; try done. cbn.
    eapply good_same; [exact Hg'|exact Hframe|done|done|..]; unfold switch_files;
      repeat (apply not_elem_of_cons; split; [discriminate|]); apply not_elem_of_nil.
  - cbn. by rewrite Hro.
  - split; [|exact Hs]. intros ->. by rewrite Z.eqb_refl.
Qed.

(** C28. Remote configuration reaches the device: a set of one of the five switches in
    its type, the interval from 1 to 71582, is put into the RFC store, which stays
    in order and keeps every other value, under the parameter's name; then the
    setter acts, and the answer and the device's flag files, exporter files and
    collector are those of the promise for any disk (see switches_refine).  When
    the five files can be written and removed and the disk has room the answer is
    OK without a fault, and the device shows what was asked for.  The new RFC store
    is in use and in order, with files other than the five, no update is in
    progress, no request is at work on the device, the data model gives the
    parameter no update rule and the value has no newline. *)
Theorem switch_stored_and_acts f l self d x a m v s :
  serving o f l d x → f ∉ switch_files → l ∉ switch_files →
  paramName m = switch_name a → bsUpdate m = HOSTIF_NONE →
  getStringValue m = Some v → val_ok v → has_char NUL v = false →
  ideal a m (switches_of d) = Some s →
  ∃ ret m' d' x', handleSetMsg o self m d = Reply (Returned ret m' d')
    ∧ serving o f l d' x' ∧ holds x' (paramName m) v
    ∧ (∀ k, k ≠ paramName m → XRFCStore.m_dict x' !! k = XRFCStore.m_dict x !! k)
    ∧ promised (can_write (files (body d))) removable room a m (switches_of d) = (ret, switches_of d')
    ∧ (ret = OK → faultCode m' = fcNoFault)
    ∧ (all_usable (can_write (files (body d))) removable → room = None → ret = OK ∧ switches_of d' = s).
Proof.
  intros Hsv Hf Hl Hn Hb Hv Hok Hnul Hp.
  destruct (switch_answer f l self d x a m v) as (ret & m' & d' & x' & Hset & Hsv' & Hh & Hother & _ & Hfault & Hs);
    [done..|by eapply ideal_valid|].
  exists ret, m', d', x'. split_and!; try done; [].
  intros Hus Hroom. rewrite Hroom, Switches.promised_ideal, Hp in Hs by done. by apply pair_eq in Hs as [<- <-].
Qed.

(** A switch that is asked for in a type its setter does not take is answered as a
    failure and leaves the device alone, and yet the RFC store has taken the value:
    the two disagree. *)
Theorem refused_switch_stored f l self d x a m v :
  serving o f l d x → f ∉ switch_files → l ∉ switch_files →
  paramName m = switch_name a → a ≠ Interval → bsUpdate m = HOSTIF_NONE →
  getStringValue m = Some v → val_ok v → has_char NUL v = false →
  ideal a m (switches_of d) = None →
  ∃ m' d' x', handleSetMsg o self m d = Reply (Returned NOK m' d') ∧ serving o f l d' x'
    ∧ holds x' (paramName m) v ∧ switches_of d' = switches_of d.
Proof.
  intros Hsv Hf Hl Hn Ha Hb Hv Hok Hnul Hp. destruct (switch_routes a) as (_ & _ & _ & _ & Hlim & Hint & _).
  destruct (switch_answer f l self d x a m v) as (ret & m' & d' & x' & Hset & Hsv' & Hh & Hother & _ & _ & Hs);
    [done..|apply validate_other; rewrite Hn; [by rewrite Hint, bool_decide_false|done]|].
  rewrite Switches.ideal_refused in Hs by done. apply pair_eq in Hs as [<- Hs]. by exists m', d', x'.
Qed.

End device.

(** ** A concrete device *)
#[local] Existing Instance canonical_order.
#[local] Existing Instance XBSStore.toy_cjson.

(** The other setters and getters answer without doing anything. *)
Definition quiet : DeviceProfile := {|
  pstate := unit;
  call_set := λ _ m p, Returned OK m p;
  call_get := λ _ m p, Returned OK m p;
  notifyIARM := λ _ _ _ q, q;
  sendDeviceMgtNotification := λ _ _ q, q
|}.

Definition ex_options : options := mkOptions false false false false false.

Definition ex_device : device (actions unit) :=
  mkDevice None [] 0 0
    (mkProfile true (Some XRFCStore.ex_store) IniFile.XRFCStorage.new None XRFCStore.ex_env (mkActions [] [] tt)).

Lemma acting_serving : serving (H1 := acting (rest := quiet) (λ _, true) None (λ _, false) (λ _, 0) (λ _, 0) "a" "b" "c")
  ex_options "/opt/s.ini" "/opt/l.ini" ex_device XRFCStore.ex_store.
Proof. destruct XRFCStore.ex_good as [Hg Hu]. by constructor. Qed.

Definition ntp_message (t : HostIf_ParamType_t) (value : list ascii) : HOSTIF_MsgData_t :=
  mkMsg NEWNTP_ENABLE value None EmptyString 0 0 t HOSTIF_INVALID_TYPE fcNoFault HOSTIF_SRC_WEBPA HOSTIF_NONE false.
Definition ntp_on : HOSTIF_MsgData_t := ntp_message hostIf_BooleanType (put_boolean zero_buffer true).
Definition ntp_text : HOSTIF_MsgData_t := ntp_message hostIf_StringType (Webpa.fill "true").

Lemma ex_usable : all_usable (can_write (files (body ex_device))) (λ _, true).
Proof. unfold all_usable, switch_files. repeat constructor. Qed.

Lemma not_a_switch_file : "/opt/s.ini"%string ∉ switch_files ∧ "/opt/l.ini"%string ∉ switch_files.
Proof. split; unfold switch_files; repeat (apply not_elem_of_cons; split; [discriminate|]); apply not_elem_of_nil. Qed.

Lemma ntp_on_value :
  getStringValue ntp_on = Some "true"%string
  ∧ ideal Ntp ntp_on (switches_of quiet ex_device) = Some (Switches.mkSwitches true false false None None None).
Proof. split; vm_compute; reflexivity. Qed.

Lemma switch_stored_and_acts_witness :
  ∃ m' d' x', handleSetMsg (H1 := acting (rest := quiet) (λ _, true) None (λ _, false) (λ _, 0) (λ _, 0) "a" "b" "c")
                ex_options 1 ntp_on ex_device = Reply (Returned OK m' d')
    ∧ holds x' NEWNTP_ENABLE "true" ∧ switches_of quiet d' = Switches.mkSwitches true false false None None None.
Proof.
  destruct (switch_stored_and_acts quiet (λ _, true) None (λ _, false) (λ _, 0) (λ _, 0) "a" "b" "c" ex_options
              "/opt/s.ini" "/opt/l.ini" 1 ex_device XRFCStore.ex_store Ntp ntp_on "true" _
              acting_serving (proj1 not_a_switch_file) (proj2 not_a_switch_file) eq_refl eq_refl
              (proj1 ntp_on_value) I eq_refl (proj2 ntp_on_value))
    as (ret & m' & d' & x' & Hs & _ & Hh & _ & _ & _ & Hd).
  destruct (Hd ex_usable eq_refl) as [-> Hd']. exists m', d', x'. exact (conj Hs (conj Hh Hd')).
Defined.

Lemma ntp_text_value :
  getStringValue ntp_text = Some "true"%string ∧ ideal Ntp ntp_text (switches_of quiet ex_device) = None.
Proof. split; [|reflexivity]. change (Some (buf_str (Webpa.fill "true")) = Some "true"%string). apply f_equal. by apply ProfileIO.fill_text. Qed.

Lemma refused_switch_stored_witness :
  ∃ m' d' x', handleSetMsg (H1 := acting (rest := quiet) (λ _, true) None (λ _, false) (λ _, 0) (λ _, 0) "a" "b" "c")
                ex_options 1 ntp_text ex_device = Reply (Returned NOK m' d')
    ∧ holds x' NEWNTP_ENABLE "true" ∧ switches_of quiet d' = switches_of quiet ex_device.
Proof.
  destruct (refused_switch_stored quiet (λ _, true) None (λ _, false) (λ _, 0) (λ _, 0) "a" "b" "c" ex_options
              "/opt/s.ini" "/opt/l.ini" 1 ex_device XRFCStore.ex_store Ntp ntp_text "true"
              acting_serving (proj1 not_a_switch_file) (proj2 not_a_switch_file) eq_refl ltac:(discriminate) eq_refl
              (proj1 ntp_text_value) I eq_refl (proj2 ntp_text_value)) as (m' & d' & x' & Hs & _ & Hh & Hd).
  exists m', d', x'. exact (conj Hs (conj Hh Hd)).
Defined.

End Actions.
