(* ===== verification/DeviceRpc.v ===== *)
(** * Telling the cloud about the device's life

    [Rpc] models the xOpsDeviceMgmt.RPC parameters of
    profiles/DeviceInfo/Device_DeviceInfo.cpp: clients set them when the device is
    manageable, downloads firmware or is about to reboot, and the cloud is notified
    when the RFC store says so; and the two getters that such a notification asks. *)
From stdpp Require Import base list strings gmap.
From Stdlib Require Import Ascii ZArith Lia.
From S2P Require Import Prelude HostIf FileStore RFCStore BSStore MsgHandler Webpa NotificationHandler DeviceInfo DeviceClient.
Import hostIf_DeviceInfo DeviceClientReqHandler.

#[local] Arguments streq : simpl never.

Module Rpc.

Definition X_OPS_RPC_REBOOTNOW : string := X_OPS_RPC_PROFILE +:+ "RebootNow".
Definition X_OPS_RPC_DEV_MANAGEABLE_NOTIFICATION : string := X_OPS_RPC_PROFILE +:+ "DeviceManageableNotification".
Definition X_OPS_RPC_FW_DNLD_STARTED_NOTIFICATION : string :=
  X_OPS_RPC_PROFILE +:+ "FirmwareDownloadStartedNotification".
Definition X_OPS_RPC_FW_DNLD_COMPLETED_NOTIFICATION : string :=
  X_OPS_RPC_PROFILE +:+ "FirmwareDownloadCompletedNotification".
Definition X_OPS_RPC_REBOOT_PENDING_NOTIFICATION : string := X_OPS_RPC_PROFILE +:+ "RebootPendingNotification".
Definition X_RDK_RFC_MANGEBLENOTIFICATION_ENABLE : string :=
  "Device.DeviceInfo.X_RDKCENTRAL-COM_RFC.Feature.ManageableNotification.Enable".
Definition PREVIOUS_REBOT_REASON_FILE : string := "/opt/secure/reboot/previousreboot.info".

(** ** The getters that a notification asks *)

(** [bTime] is kept between the calls.  [uptime] and [now]: what [sysinfo] and
    [gettimeofday] say; [None] when they fail. *)
Definition get_X_RDKCENTRAL_COM_BootTime (uptime now : option Z) (bTime : Z) (m : HOSTIF_MsgData_t)
  : Z * HOSTIF_MsgData_t * Z :=
  let answer t := (OK, set_len (set_paramtype (set_value m (put_ulong (paramValue m) t)) hostIf_UnsignedIntType) 4, t) in
  if bTime =? 0 then
    match uptime, now with
    | Some u, Some n => answer (uint32 (n - u))
    | _, _ => (NOK, m, bTime)
    end
  else answer bTime.

(** [None]: the buffer is read past its end, or the member that is asked for is not
    there. *)
Definition get_X_RDKCENTRAL_COM_LastRebootReason `{CJson} (w : env) (m : HOSTIF_MsgData_t)
  : option (Z * HOSTIF_MsgData_t) :=
  match read_file w PREVIOUS_REBOT_REASON_FILE with
  | None => Some (NOK, m)
  | Some content =>
      let buffer := str_take 1024 content in
      if (1024 <=? String.length content)%nat && negb (has_char NUL buffer) then None
      else if contains "reason" (c_str buffer) then
        match cJSON_Parse (c_str buffer) with
        | None => Some (NOK, m)
        | Some root =>
            item ← List.find (λ kv, strcaseeq kv.1 "reason") (cJSON_members root);
            Some match item.2 with
                 | Some reason =>
                     (OK, set_len (set_paramtype (set_value m (Webpa.fill (c_str reason))) hostIf_StringType)
                                  (int32 (Z.of_nat (String.length (c_str reason)))))
                 | None => (NOK, m)
                 end
        end
      else Some (NOK, m)
  end.

(** ** The parameters *)
Record rpc := mkRpc {
  m_strXOpsDevManageableNotification : string;
  m_strXOpsRPCFwDwldStartedNotification : string;
  m_bXOpsRPCFwDwldCompletedNotification : bool;
  queue : NotificationHandler.t;
  reboots : nat
}.

Definition with_manageable (s : string) (r : rpc) : rpc :=
  mkRpc s (m_strXOpsRPCFwDwldStartedNotification r) (m_bXOpsRPCFwDwldCompletedNotification r) (queue r) (reboots r).
Definition with_started (s : string) (r : rpc) : rpc :=
  mkRpc (m_strXOpsDevManageableNotification r) s (m_bXOpsRPCFwDwldCompletedNotification r) (queue r) (reboots r).
Definition with_completed (b : bool) (r : rpc) : rpc :=
  mkRpc (m_strXOpsDevManageableNotification r) (m_strXOpsRPCFwDwldStartedNotification r) b (queue r) (reboots r).
Definition with_queue (q : NotificationHandler.t) (r : rpc) : rpc :=
  mkRpc (m_strXOpsDevManageableNotification r) (m_strXOpsRPCFwDwldStartedNotification r)
        (m_bXOpsRPCFwDwldCompletedNotification r) q (reboots r).

(** The script runs in a thread of its own. *)
Definition reboot (r : rpc) : rpc :=
  mkRpc (m_strXOpsDevManageableNotification r) (m_strXOpsRPCFwDwldStartedNotification r)
        (m_bXOpsRPCFwDwldCompletedNotification r) (queue r) (S (reboots r)).

Definition new_rpc (q : NotificationHandler.t) : rpc := mkRpc EmptyString EmptyString false q O.

(** [chVal] of the getters. *)
Definition text_or_0 (s : string) : string := if is_empty s then "0" else s.

Definition get_xOpsRPC_Profile (r : rpc) (m : HOSTIF_MsgData_t) : Z * HOSTIF_MsgData_t :=
  let text s := (OK, set_value m (strcpy_s (paramValue m) TR69HOSTIFMGR_MAX_PARAM_LEN (text_or_0 s))) in
  if streq (paramName m) X_OPS_RPC_DEV_MANAGEABLE_NOTIFICATION then text (m_strXOpsDevManageableNotification r)
  else if streq (paramName m) X_OPS_RPC_FW_DNLD_STARTED_NOTIFICATION then text (m_strXOpsRPCFwDwldStartedNotification r)
  else if streq (paramName m) X_OPS_RPC_FW_DNLD_COMPLETED_NOTIFICATION
  then (OK, set_value m (put_boolean (paramValue m) (m_bXOpsRPCFwDwldCompletedNotification r)))
  else if streq (paramName m) X_OPS_RPC_REBOOT_PENDING_NOTIFICATION then (OK, set_value m (put_uint (paramValue m) 0))
  else (NOK, set_fault m fcInvalidParameterName).

Section setters.
Context `{UMapOrder} `{CJson} `{DeviceProfile} (o : options).
Context (device_id : string) (boot_time last_reboot_reason : HOSTIF_MsgData_t → HOSTIF_MsgData_t).

Definition push (delay time download_status status system_ready_time : option string) (r : rpc) : rpc :=
  with_queue (NotificationHandler.pushNotification
                (NotificationHandler.push_device_mgmt_notifications device_id boot_time last_reboot_reason
                   delay time download_status status system_ready_time) (queue r)) r.

Definition stRfcData : HOSTIF_MsgData_t :=
  mkMsg X_RDK_RFC_MANGEBLENOTIFICATION_ENABLE zero_buffer None EmptyString 0 0 hostIf_StringType
        HOSTIF_INVALID_TYPE fcNoFault HOSTIF_NONE HOSTIF_NONE false.

(** Something that is done when the RFC store says true. *)
Definition when_enabled (m : HOSTIF_MsgData_t) (act : rpc → rpc) (p : profile pstate) (r : rpc)
  : option (outcome (profile pstate * rpc)) :=
  res ← get_xRDKCentralComRFC o stRfcData p;
  Some match res with
       | Returned ret m' p' =>
           Returned OK m (p', if (ret =? OK) && streq (buf_str (paramValue m')) "true" then act r else r)
       | Threw m' p' => Threw m (p', r)
       end.

Definition set_xOpsDeviceMgmtRPCRebootNow (m : HOSTIF_MsgData_t) (r : rpc) : rpc :=
  if get_boolean (paramValue m) then reboot r else r.

Definition set_xOpsRPCDevManageableNotification (m : HOSTIF_MsgData_t) (p : profile pstate) (r : rpc) :=
  let text := buf_str (paramValue m) in
  when_enabled m (λ r, push None None None (Some "fully-manageable"%string) (Some text) (with_manageable text r)) p
    (with_manageable EmptyString r).

Definition set_xOpsRPCFwDwldStartedNotification (m : HOSTIF_MsgData_t) (p : profile pstate) (r : rpc) :=
  let text := buf_str (paramValue m) in
  when_enabled m (λ r, push None (Some text) None (Some "firmware-download-started"%string) None (with_started text r)) p
    (with_started EmptyString r).

Definition set_xOpsRPCFwDwldCompletedNotification (m : HOSTIF_MsgData_t) (p : profile pstate) (r : rpc) :=
  let b := get_boolean (paramValue m) in
  when_enabled m (λ r, push None (Some (m_strXOpsRPCFwDwldStartedNotification r)) (Some (bool_to_string b))
                            (Some "firmware-download-completed"%string) None (with_completed b r)) p r.

Definition set_xOpsRPCRebootPendingNotification (m : HOSTIF_MsgData_t) (p : profile pstate) (r : rpc) :=
  when_enabled m (λ r, push (Some (dec (int32 (get_uint (paramValue m))))) None None (Some "reboot-pending"%string) None r) p r.

(** The answer is OK whatever happens, for names that are not known too. *)
Definition set_xOpsRPC_Profile (m : HOSTIF_MsgData_t) (p : profile pstate) (r : rpc)
  : option (outcome (profile pstate * rpc)) :=
  if streq (paramName m) X_OPS_RPC_REBOOTNOW then Some (Returned OK m (p, set_xOpsDeviceMgmtRPCRebootNow m r))
  else if streq (paramName m) X_OPS_RPC_DEV_MANAGEABLE_NOTIFICATION then set_xOpsRPCDevManageableNotification m p r
  else if streq (paramName m) X_OPS_RPC_FW_DNLD_STARTED_NOTIFICATION then set_xOpsRPCFwDwldStartedNotification m p r
  else if streq (paramName m) X_OPS_RPC_FW_DNLD_COMPLETED_NOTIFICATION then set_xOpsRPCFwDwldCompletedNotification m p r
  else if streq (paramName m) X_OPS_RPC_REBOOT_PENDING_NOTIFICATION then set_xOpsRPCRebootPendingNotification m p r
  else Some (Returned OK (set_fault m fcInvalidParameterName) (p, r)).
End setters.

(** ** Properties *)
Section notified.
Context `{UMapOrder} `{CJson} `{DeviceProfile} (o : options).
Context (device_id : string) (boot_time last_reboot_reason : HOSTIF_MsgData_t → HOSTIF_MsgData_t).
Context (f l : string) (p : profile pstate) (x : XRFCStore.t) (v : string).
Hypothesis new_store : old_storage o = false.
Hypothesis the_store : m_rfcStore p = Some x.
Hypothesis store_good : XRFCStore.good f l x (files p).
Hypothesis setting : holds x X_RDK_RFC_MANGEBLENOTIFICATION_ENABLE v.
Hypothesis setting_there : v ≠ EmptyString.

(** What the cloud is to be told. *)
Definition notification (m : HOSTIF_MsgData_t) (r : rpc) : option NotificationHandler.NotifyData :=
  let text := buf_str (paramValue m) in
  let n := NotificationHandler.push_device_mgmt_notifications device_id boot_time last_reboot_reason in
  if streq (paramName m) X_OPS_RPC_DEV_MANAGEABLE_NOTIFICATION
  then Some (n None None None (Some "fully-manageable"%string) (Some text))
  else if streq (paramName m) X_OPS_RPC_FW_DNLD_STARTED_NOTIFICATION
  then Some (n None (Some text) None (Some "firmware-download-started"%string) None)
  else if streq (paramName m) X_OPS_RPC_FW_DNLD_COMPLETED_NOTIFICATION
  then Some (n None (Some (m_strXOpsRPCFwDwldStartedNotification r)) (Some (bool_to_string (get_boolean (paramValue m))))
               (Some "firmware-download-completed"%string) None)
  else if streq (paramName m) X_OPS_RPC_REBOOT_PENDING_NOTIFICATION
  then Some (n (Some (dec (int32 (get_uint (paramValue m))))) None None (Some "reboot-pending"%string) None)
  else None.

Lemma when_enabled_eq m act r :
  has_char NUL v = false → (String.length v < 4096)%nat →
  when_enabled o m act p r = Some (Returned OK m (p, if streq v "true" then act r else r)).
Proof.
  intros Hn Hl. unfold when_enabled.
  rewrite (fetch_rfc_value o f l p x stRfcData v new_store the_store store_good); try done.
  cbn [mbind option_bind]. rewrite Z.eqb_refl. cbn [andb]. do 3 f_equal.
  assert (buf_str (paramValue (set_fault (putValue stRfcData v) fcNoFault)) = v) as ->; [|done].
  pose proof (putValue_string stRfcData v eq_refl Hn Hl) as Hp. unfold getStringValue in Hp.
  rewrite paramtype_putValue in Hp. by injection Hp.
Qed.

Lemma text_answered q s :
  (String.length s < 4096)%nat → has_char NUL s = false →
  buf_str (paramValue (set_value q (strcpy_s (paramValue q) TR69HOSTIFMGR_MAX_PARAM_LEN (text_or_0 s)))) = text_or_0 s.
Proof.
  intros Hs Hsn.
  assert (has_char NUL (text_or_0 s) = false ∧ (String.length (text_or_0 s) < TR69HOSTIFMGR_MAX_PARAM_LEN)%nat) as [Hr1 Hr2].
  { unfold text_or_0, TR69HOSTIFMGR_MAX_PARAM_LEN. destruct s; cbn [is_empty]; [|done]. split; [done|]. apply Nat.ltb_lt; reflexivity. }
  cbn [paramValue set_value]. unfold strcpy_s. rewrite c_str_no_nul by done. rewrite (proj2 (Nat.ltb_lt _ _)) by done.
  by apply buf_str_poke.
Qed.

Lemma nothing_answered q :
  buf_str (paramValue (set_value q (strcpy_s (paramValue q) TR69HOSTIFMGR_MAX_PARAM_LEN (text_or_0 EmptyString)))) = "0"%string.
Proof. apply (text_answered q EmptyString); [apply Nat.ltb_lt; reflexivity|done]. Qed.

(** A notification is sent exactly when the RFC store's setting is the text true:
    each of the four parameters then puts what it stands for into the queue, once,
    and otherwise nothing; the answer is OK in both cases, and the time of the
    start, or of the end of the start-up, that a get answers is the one given, or 0
    when nothing was sent. *)
Theorem rpc_notified_iff_enabled m r n :
  has_char NUL v = false → (String.length v < 4096)%nat → notification m r = Some n →
  (String.length (buf_str (paramValue m)) < 4096)%nat →
  ∃ r', set_xOpsRPC_Profile o device_id boot_time last_reboot_reason m p r = Some (Returned OK m (p, r'))
    ∧ queue r' = (if streq v "true" then NotificationHandler.pushNotification n (queue r) else queue r)
    ∧ reboots r' = reboots r
    ∧ ∀ q, paramName q = paramName m →
        paramName m ∈ [X_OPS_RPC_DEV_MANAGEABLE_NOTIFICATION; X_OPS_RPC_FW_DNLD_STARTED_NOTIFICATION] →
        buf_str (paramValue (get_xOpsRPC_Profile r' q).2)
        = if streq v "true" then text_or_0 (buf_str (paramValue m)) else "0"%string.
Proof.
  intros Hnul Hlen Hn Hl.
  assert (has_char NUL (buf_str (paramValue m)) = false) as Hmn by apply c_str_has_nul.
  unfold notification in Hn. unfold set_xOpsRPC_Profile, set_xOpsRPCDevManageableNotification,
    set_xOpsRPCFwDwldStartedNotification, set_xOpsRPCFwDwldCompletedNotification, set_xOpsRPCRebootPendingNotification.
  destruct (streq (paramName m) X_OPS_RPC_REBOOTNOW) eqn:E0.
  { apply streq_true in E0. rewrite E0 in Hn. discriminate Hn. }
  destruct (streq (paramName m) X_OPS_RPC_DEV_MANAGEABLE_NOTIFICATION) eqn:E1.
  { injection Hn as <-. rewrite when_enabled_eq by done. eexists. split; [done|].
    apply streq_true in E1. split; [by destruct (streq v "true")|]. split; [by destruct (streq v "true")|].
    intros q Hq _. unfold get_xOpsRPC_Profile. rewrite Hq, E1, streq_refl.
    destruct (streq v "true"); [by apply text_answered|apply nothing_answered]. }
  destruct (streq (paramName m) X_OPS_RPC_FW_DNLD_STARTED_NOTIFICATION) eqn:E2.
  { injection Hn as <-. rewrite when_enabled_eq by done. eexists. split; [done|].
    apply streq_true in E2. split; [by destruct (streq v "true")|]. split; [by destruct (streq v "true")|].
    intros q Hq _. unfold get_xOpsRPC_Profile. rewrite Hq, E1, E2, streq_refl.
    destruct (streq v "true"); [by apply text_answered|apply nothing_answered]. }
  assert (paramName m ∉ [X_OPS_RPC_DEV_MANAGEABLE_NOTIFICATION; X_OPS_RPC_FW_DNLD_STARTED_NOTIFICATION]) as Hne.
  { apply streq_false in E1, E2. rewrite !not_elem_of_cons. repeat split; [done|done|apply not_elem_of_nil]. }
  destruct (streq (paramName m) X_OPS_RPC_FW_DNLD_COMPLETED_NOTIFICATION).
  { injection Hn as <-. rewrite when_enabled_eq by done. eexists. split; [done|].
    split; [by destruct (streq v "true")|]. split; [by destruct (streq v "true")|done]. }
  destruct (streq (paramName m) X_OPS_RPC_REBOOT_PENDING_NOTIFICATION); [|done].
  injection Hn as <-. rewrite when_enabled_eq by done. eexists. split; [done|].
  split; [by destruct (streq v "true")|]. split; [by destruct (streq v "true")|done].
Qed.

(** A download that a client reports, enabled by the store: the cloud is told of
    its start with the client's time and of its end with the same time and whether
    it succeeded, in this order, and nothing else is sent. *)
Theorem download_reported start finish r :
  v = "true"%string →
  paramName start = X_OPS_RPC_FW_DNLD_STARTED_NOTIFICATION → paramName finish = X_OPS_RPC_FW_DNLD_COMPLETED_NOTIFICATION →
  NotificationHandler.notifyUpdateCallback (queue r) = true → NotificationHandler.notificationQueue (queue r) = [] →
  let set := set_xOpsRPC_Profile o device_id boot_time last_reboot_reason in
  let status s := NotificationHandler.JString s in
  let t := NotificationHandler.JString (buf_str (paramValue start)) in
  let device := ("device_id"%string, NotificationHandler.JString device_id) in
  ∃ r1 r2, set start p r = Some (Returned OK start (p, r1)) ∧ set finish p r1 = Some (Returned OK finish (p, r2))
    ∧ NotificationHandler.sent (queue r2)
      = NotificationHandler.sent (queue r)
        ++ [NotificationHandler.mkNotify "event:device-status"
              [device; ("status", status "firmware-download-started"); ("start-time", t)];
            NotificationHandler.mkNotify "event:device-status"
              [device; ("status", status "firmware-download-completed"); ("start-time", t);
               ("download-status", status (if get_boolean (paramValue finish) then "success" else "failure"))]]%string.
Proof.
  intros Hv Hs Hf Hcb Hq set status t device. unfold set, set_xOpsRPC_Profile. rewrite Hs, Hf.
  change (streq X_OPS_RPC_FW_DNLD_STARTED_NOTIFICATION X_OPS_RPC_REBOOTNOW) with false.
  change (streq X_OPS_RPC_FW_DNLD_STARTED_NOTIFICATION X_OPS_RPC_DEV_MANAGEABLE_NOTIFICATION) with false.
  change (streq X_OPS_RPC_FW_DNLD_COMPLETED_NOTIFICATION X_OPS_RPC_REBOOTNOW) with false.
  change (streq X_OPS_RPC_FW_DNLD_COMPLETED_NOTIFICATION X_OPS_RPC_DEV_MANAGEABLE_NOTIFICATION) with false.
  change (streq X_OPS_RPC_FW_DNLD_COMPLETED_NOTIFICATION X_OPS_RPC_FW_DNLD_STARTED_NOTIFICATION) with false.
  rewrite !streq_refl. unfold set_xOpsRPCFwDwldStartedNotification, set_xOpsRPCFwDwldCompletedNotification.
  assert (has_char NUL v = false ∧ (String.length v < 4096)%nat ∧ streq v "true" = true) as (Hnul & Hlen & Htrue)
    by (rewrite Hv; split; [done|split; [apply Nat.ltb_lt; reflexivity|done]]).
  eexists _, _. split; [by rewrite when_enabled_eq, Htrue|]. split; [by rewrite when_enabled_eq, Htrue|].
  unfold push, NotificationHandler.pushNotification. cbn [queue with_queue with_started with_completed].
  rewrite Hcb, Hq. cbn [app NotificationHandler.notificationCallBack NotificationHandler.notificationQueue
    NotificationHandler.notifyUpdateCallback NotificationHandler.sent].
  rewrite <- app_assoc. unfold NotificationHandler.push_device_mgmt_notifications.
  by destruct (get_boolean (paramValue finish)).
Qed.

End notified.

(** A name that is not known is answered as set; the handler then removes the fault
    that was put into the message. *)
Lemma unknown_rpc_accepted `{UMapOrder} `{CJson} `{DeviceProfile} o device_id bt rr m p r :
  paramName m = X_OPS_RPC_PROFILE +:+ "Restart" →
  set_xOpsRPC_Profile o device_id bt rr m p r = Some (Returned OK (set_fault m fcInvalidParameterName) (p, r)).
Proof. intros Hn. unfold set_xOpsRPC_Profile. by rewrite Hn. Qed.

(** ** A concrete device *)
#[local] Existing Instance canonical_order.
#[local] Existing Instance XBSStore.toy_cjson.

#[local] Instance quiet : DeviceProfile := {|
  pstate := unit;
  call_set := λ _ m p, Returned OK m p;
  call_get := λ _ m p, Returned OK m p;
  notifyIARM := λ _ _ _ q, q;
  sendDeviceMgtNotification := λ _ _ q, q
|}.

Definition ex_options : options := mkOptions false false false false false.

Definition rpc_env (v : string) : env :=
  put_file XRFCStore.ex_env "/opt/s.ini" (kv_line X_RDK_RFC_MANGEBLENOTIFICATION_ENABLE v).

Definition rpc_profile (v : string) : profile (@pstate quiet) :=
  mkProfile true (Some (XRFCStore.new (rpc_env v)).1) IniFile.XRFCStorage.new None (rpc_env v) tt.

Lemma rpc_good v :
  XRFCStore.good "/opt/s.ini" "/opt/l.ini" (XRFCStore.new (rpc_env v)).1 (rpc_env v).
Proof.
  destruct (XRFCStore.new_good "/opt/s.ini" "/opt/l.ini" (rpc_env v)) as (x & Hn & Hg & _); [|by rewrite Hn].
  apply XRFCStore.installed_put; [apply XRFCStore.ex_installed|discriminate].
Qed.

Definition rpc_message (name : string) (value : list ascii) : HOSTIF_MsgData_t :=
  mkMsg name value None EmptyString 0 0 hostIf_StringType HOSTIF_INVALID_TYPE fcNoFault HOSTIF_SRC_WEBPA HOSTIF_NONE false.

Definition idle : rpc := new_rpc (NotificationHandler.mk [] true []).
Definition started_at_7 : HOSTIF_MsgData_t := rpc_message X_OPS_RPC_FW_DNLD_STARTED_NOTIFICATION (Webpa.fill "7").
Definition completed : HOSTIF_MsgData_t := rpc_message X_OPS_RPC_FW_DNLD_COMPLETED_NOTIFICATION (put_boolean zero_buffer true).

Lemma started_text : buf_str (paramValue started_at_7) = "7"%string.
Proof. vm_compute. reflexivity. Qed.

Lemma rpc_holds v : v = "true"%string ∨ v = "false"%string →
  holds (XRFCStore.new (rpc_env v)).1 X_RDK_RFC_MANGEBLENOTIFICATION_ENABLE v.
Proof. intros [->| ->]; vm_compute; reflexivity. Qed.

Lemma rpc_notified_iff_enabled_witness :
  ∃ r', set_xOpsRPC_Profile ex_options "mac" id id started_at_7 (rpc_profile "false") idle
        = Some (Returned OK started_at_7 (rpc_profile "false", r'))
    ∧ queue r' = queue idle
    ∧ buf_str (paramValue (get_xOpsRPC_Profile r' started_at_7).2) = "0"%string.
Proof.
  destruct (rpc_notified_iff_enabled ex_options "mac" id id "/opt/s.ini" "/opt/l.ini" (rpc_profile "false")
              (XRFCStore.new (rpc_env "false")).1 "false" eq_refl eq_refl (rpc_good "false")
              (rpc_holds "false" (or_intror eq_refl)) ltac:(discriminate) started_at_7 idle _ eq_refl
              ltac:(apply Nat.ltb_lt; reflexivity) eq_refl ltac:(rewrite started_text; apply Nat.ltb_lt; reflexivity))
    as (r' & Hs & Hq & _ & Hg).
  exists r'. split; [exact Hs|]. split; [exact Hq|]. exact (Hg started_at_7 eq_refl ltac:(in_list)).
Defined.

Lemma download_reported_witness :
  ∃ r1 r2, set_xOpsRPC_Profile ex_options "mac" id id started_at_7 (rpc_profile "true") idle
           = Some (Returned OK started_at_7 (rpc_profile "true", r1))
    ∧ set_xOpsRPC_Profile ex_options "mac" id id completed (rpc_profile "true") r1
      = Some (Returned OK completed (rpc_profile "true", r2))
    ∧ length (NotificationHandler.sent (queue r2)) = 2%nat.
Proof.
  destruct (download_reported ex_options "mac" id id "/opt/s.ini" "/opt/l.ini" (rpc_profile "true")
              (XRFCStore.new (rpc_env "true")).1 "true" eq_refl eq_refl (rpc_good "true")
              (rpc_holds "true" (or_introl eq_refl)) ltac:(discriminate) started_at_7 completed idle
              eq_refl eq_refl eq_refl eq_refl eq_refl)
    as (r1 & r2 & Hs & Hf & Hq).
  exists r1, r2. split; [exact Hs|]. split; [exact Hf|]. rewrite Hq. reflexivity.
Defined.

End Rpc.
