(* ===== verification/EndToEnd.v ===== *)
(** * From a front end to the store and back

    [DeviceManager] puts the handler of Device.DeviceInfo behind the dispatcher,
    as handlers/src/hostIf_msgHandler.cpp does, and [EndToEnd] composes the HTTP
    and WebPA front ends, the dispatcher, that handler and the stores: an ordinary
    parameter that a client sets is what any client then reads.  What an exception
    does to the handler's mutex behind the dispatcher is here too. *)
From stdpp Require Import base list strings gmap.
From Stdlib Require Import Ascii ZArith Lia.
From S2P Require Import Prelude HostIf FileStore IniFile RFCStore BSJournal BSStore MsgHandler WalDB WalList.
From S2P Require Import RFCVar FrontEnd Webpa HttpServer Utils Notify DeviceInfo DeviceClient.
Import WalList (walk, Done, Crash, OutOfFuel, wbind, of_option).
Import hostIf_DeviceInfo DeviceClientReqHandler.

#[local] Arguments streq : simpl never.

Module DeviceManager.
Section managers.
Context `{UMapOrder} `{CJson} `{DeviceProfile} (o : options).

(** The thread that serves the front end, GLib's hash of a string, the other
    managers over the same state, what a call that does not return does, and
    the time a call takes. *)
Variables (self : nat) (str_hash : string → Z)
  (others : HostIf_ParamMgr_t → request → HOSTIF_MsgData_t → device pstate → outcome (device pstate))
  (abnormal : request → HOSTIF_MsgData_t → device pstate → outcome (device pstate))
  (time : request → HOSTIF_MsgData_t → Z).

Definition device_handler (r : request) (m : HOSTIF_MsgData_t) (d : device pstate) : reply (device pstate) :=
  match r with
  | GetMsg => handleGetMsg o self m d
  | SetMsg => handleSetMsg o self m d
  | GetAttributesMsg => handleGetAttributesMsg o str_hash self m d
  | SetAttributesMsg => handleSetAttributesMsg o str_hash self m d
  end.

Definition managers : Managers := {|
  dev := device pstate;
  handle := λ mgr r m d,
    (match mgr with
     | HOSTIF_DeviceMgr => match device_handler r m d with Reply x => x | _ => abnormal r m d end
     | _ => others mgr r m d
     end, time r m)
|}.

Lemma handle_device r m d ret m' d' :
  device_handler r m d = Reply (Returned ret m' d') →
  @handle managers HOSTIF_DeviceMgr r m d = (Returned ret m' d', time r m).
Proof. simpl. by intros ->. Qed.

(** The dispatcher on a name that is routed to the manager. *)
Context `{GHashTable} (b : MsgHandler.build) (t : option ghash) (clock : nat → Z).

Definition front_end : ReqHandler := @dispatcher _ managers b t clock.

Definition routed (n : string) : Prop :=
  ∀ m, paramName m = n → MsgHandler.HostIf_GetMgr b t m = Some HOSTIF_DeviceMgr.

Lemma front_end_set cg cs k d m ret m' d' :
  routed (paramName m) → handleSetMsg o self m d = Reply (Returned ret m' d') →
  ∃ cs' k', @hostIf_Set front_end m (cg, cs, k, d) = (Some ret, m', (cg, cs', k', d')).
Proof.
  intros Hr Hd. unfold front_end, dispatcher. simpl. unfold MsgHandler.hostIf_SetMsgHandler.
  rewrite (Hr m eq_refl). destruct (MsgHandler.count_call _ _ _ _ _) as [c' evs].
  simpl. rewrite Hd. by eexists c', _.
Qed.

Lemma front_end_get cg cs k d m ret m' d' :
  routed (paramName m) → handleGetMsg o self m d = Reply (Returned ret m' d') →
  ∃ cg' k', @hostIf_Get front_end m (cg, cs, k, d) = (ret, m', (cg', cs, k', d')).
Proof.
  intros Hr Hd. unfold front_end, dispatcher. simpl. unfold MsgHandler.hostIf_GetMsgHandler.
  rewrite (Hr m eq_refl). destruct (MsgHandler.count_call _ _ _ _ _) as [c' evs].
  simpl. rewrite Hd. by eexists c', _.
Qed.

(** An exception of the handler: a get is answered NOK, a set lets it out. *)
Lemma front_end_get_threw cg cs k d m m' d' :
  routed (paramName m) → handleGetMsg o self m d = Reply (Threw m' d') →
  ∃ cg' k', @hostIf_Get front_end m (cg, cs, k, d) = (NOK, m', (cg', cs, k', d')).
Proof.
  intros Hr Hd. unfold front_end, dispatcher. simpl. unfold MsgHandler.hostIf_GetMsgHandler.
  rewrite (Hr m eq_refl). destruct (MsgHandler.count_call _ _ _ _ _) as [c' evs].
  simpl. rewrite Hd. by eexists c', _.
Qed.

Lemma front_end_set_threw cg cs k d m m' d' :
  routed (paramName m) → handleSetMsg o self m d = Reply (Threw m' d') →
  ∃ cs' k', @hostIf_Set front_end m (cg, cs, k, d) = (None, m', (cg, cs', k', d')).
Proof.
  intros Hr Hd. unfold front_end, dispatcher. simpl. unfold MsgHandler.hostIf_SetMsgHandler.
  rewrite (Hr m eq_refl). destruct (MsgHandler.count_call _ _ _ _ _) as [c' evs].
  simpl. rewrite Hd. by eexists c', _.
Qed.

(** C10. The mutex of Device.DeviceInfo behind the dispatcher, from a state in which
    it is free.  A get or a set that the manager answers leaves it free.  A get
    whose getter throws is caught by the dispatcher and answered NOK, so the
    daemon goes on; so is any get that lets an exception out.  A set that does
    goes on to the front end with it.  After such a get or set the mutex is
    locked by the thread that made it, and every get, set or request for
    attributes that another thread makes of the manager waits. *)
Theorem exception_keeps_mutex other cg cs k d m :
  m_mutex d = None → other ≠ self → routed (paramName m) →
  (∀ ret m' d', handleGetMsg o self m d = Reply (Returned ret m' d') →
     m_mutex d' = None ∧ ∃ cg' k', @hostIf_Get front_end m (cg, cs, k, d) = (ret, m', (cg', cs, k', d')))
  ∧ (∀ ret m' d', handleSetMsg o self m d = Reply (Returned ret m' d') →
     m_mutex d' = None ∧ ∃ cs' k', @hostIf_Set front_end m (cg, cs, k, d) = (Some ret, m', (cg, cs', k', d')))
  ∧ (∀ g m' p', object0 (body d) = true → bsUpdate m = HOSTIF_NONE →
     get_target_of o (paramName m) = profile_name → get_route_of (paramName m) = Some (by_getter g) →
     call_get g (set_instance m 0) (body d) = Threw m' p' →
     ∃ cg' k' d', @hostIf_Get front_end m (cg, cs, k, d) = (NOK, m', (cg', cs, k', d'))
       ∧ body d' = p' ∧ m_mutex d' = Some self ∧ stuck o other d')
  ∧ (∀ m' d', handleGetMsg o self m d = Reply (Threw m' d') →
     (∃ cg' k', @hostIf_Get front_end m (cg, cs, k, d) = (NOK, m', (cg', cs, k', d')))
     ∧ m_mutex d' = Some self ∧ stuck o other d')
  ∧ (∀ m' d', handleSetMsg o self m d = Reply (Threw m' d') →
     (∃ cs' k', @hostIf_Set front_end m (cg, cs, k, d) = (None, m', (cg, cs', k', d')))
     ∧ m_mutex d' = Some self ∧ stuck o other d').
Proof.
  intros Hf Hne Hr. split_and!.
  - intros ret m' d' Hd. split; [by eapply answered_unlocked|by apply front_end_get].
  - intros ret m' d' Hd. split; [by eapply answered_unlocked|by apply front_end_set].
  - intros g m' p' Ho Hb Ht Hg Hc. pose proof (getter_throws o self d m g m' p' Hf Ho Hb Ht Hg Hc) as Hd.
    destruct (front_end_get_threw cg cs k d m _ _ Hr Hd) as (cg' & k' & E). eexists cg', k', _.
    split; [exact E|]. split; [done|]. split; [done|]. by eapply locked_stuck.
  - intros m' d' Hd. assert (m_mutex d' = Some self) as Hm by by eapply thrown_locked.
    split; [by apply front_end_get_threw|]. split; [done|by eapply locked_stuck].
  - intros m' d' Hd. assert (m_mutex d' = Some self) as Hm by by eapply thrown_locked.
    split; [by apply front_end_set_threw|]. split; [done|by eapply locked_stuck].
Qed.

End managers.
End DeviceManager.

Module EndToEnd.
Import DeviceManager.

(** Values that HTTP prints the way they were written: of the unsigned range,
    the lower half. *)
Definition shown (t : HostIf_ParamType_t) (v : string) : Prop :=
  canonical_text t v ∧ v ≠ EmptyString
  ∧ (t = hostIf_UnsignedIntType → ∃ z, v = dec z ∧ 0 <= z < 2 ^ 31)
  ∧ (t ≠ hostIf_UnsignedLongType).

Lemma shown_text m v :
  shown (paramtype m) v → HostIf.getStringValue m = Some v →
  RequestHandler.getStringValue (paramtype m) (paramValue m) = v.
Proof.
  intros (Hc & Hne & Hu & Hl) Hv. unfold HostIf.getStringValue in Hv. unfold RequestHandler.getStringValue.
  destruct (paramtype m) eqn:E; simpl in Hc.
  - injection Hv as ->. destruct Hc as [_ Hlen]. apply str_take_all.
    unfold TR69HOSTIFMGR_MAX_PARAM_LEN in *. lia.
  - unfold int_to_string in Hv. case_match; [|done]. by injection Hv as ->.
  - destruct (Hu eq_refl) as (z & -> & Hz). injection Hv as Hv. unfold uint_to_string in Hv.
    apply dec_inj in Hv; [|unfold get_uint, uint32; pose proof (Z.mod_pos_bound (le_val (take 4 (paramValue m))) (2 ^ 32)); lia|lia].
    f_equal. unfold get_int, get_uint in *. rewrite <- (int32_id z) by lia. rewrite <- Hv.
    unfold uint32. by rewrite int32_mod.
  - by injection Hv as <-.
  - done.
  - done.
Qed.

Section http.
Context `{UMapOrder} `{CJson} `{DeviceProfile} `{GHashTable} `{TinyXml} `{Wdmp} `{Rbus}.
Variables (o : options) (self : nat) (str_hash : string → Z)
  (others : HostIf_ParamMgr_t → request → HOSTIF_MsgData_t → device pstate → outcome (device pstate))
  (abnormal : request → HOSTIF_MsgData_t → device pstate → outcome (device pstate))
  (time : request → HOSTIF_MsgData_t → Z)
  (b : MsgHandler.build) (t : option ghash) (clock : nat → Z) (doc : XMLNode) (w : env).

#[local] Instance daemon : ReqHandler := front_end o self str_hash others abnormal time b t clock.

(** The state of the HTTP server with this device behind its dispatcher. *)
Definition behind (s : RequestHandler.server) (d : device pstate) : Prop :=
  ∃ cg cs k, Webpa.hs (RequestHandler.pl s) = (cg, cs, k, d).

(** A parameter of a request: its name, the data model's type and entry, the
    value. *)
Record setting := mkSetting {
  s_name : string;
  s_type : string;
  s_entry : WalDB.DataModelParam;
  s_value : string
}.

Definition s_param (p : setting) : RequestHandler.param_t :=
  RequestHandler.mkParam (s_name p) (Some (s_value p))
    (data_type (RequestHandler.getWdmpDataType (s_type p))).

(** The data model lets it be read and written with this type and text, and the
    configuration routes it to the handler of Device.DeviceInfo. *)
Record offered (p : setting) : Prop := {
  of_writable : RequestHandler.writable doc (s_name p) (s_type p) (s_entry p);
  of_readable : RequestHandler.readable doc (s_name p) (s_type p) (s_entry p);
  of_type : RequestHandler.getWdmpDataType (s_type p) ≠ WDMP_NONE;
  of_shown : shown (RequestHandler.http_type (s_type p)) (s_value p);
  of_line : val_ok (s_value p);
  of_routed : routed b t (s_name p)
}.

(** A parameter kept in the RFC store, without an update rule. *)
Record rfc_setting (p : setting) : Prop := {
  rs_offered : offered p;
  rs_rule : getBSUpdateEnum (WalDB.bsUpdate (s_entry p)) = HOSTIF_NONE;
  rs_rfc : rfc_parameter o (s_name p)
}.

Lemma offered_length p : offered p → (String.length (s_name p) < TR69HOSTIFMGR_MAX_PARAM_LEN)%nat.
Proof. intros Ho. apply (RequestHandler.wr_length _ _ _ _ (of_writable _ Ho)). Qed.

Definition get_message_of (p : setting) (caller : string) : HOSTIF_MsgData_t :=
  RequestHandler.get_message (s_name p) (s_type p) caller (s_entry p).
Definition set_message_of (p : setting) (caller : string) : HOSTIF_MsgData_t :=
  RequestHandler.set_message (s_name p) (s_type p) (s_value p) caller (s_entry p).

(** What the client gets for a set that the handler answers. *)
Lemma deliver_offered p caller s d ret m' d' :
  offered p → behind s d →
  handleSetMsg o self (set_message_of p caller) d = Reply (Returned ret m' d') →
  ∃ s', RequestHandler.set_param doc w (s_param p) caller s
        = Done ((RequestHandler.result_of ret m').1,
                RequestHandler.mkParam (s_name p) (Some (s_value p)) 0, s') ∧ behind s' d'.
Proof.
  intros Ho (cg & cs & k & Hs) Hd.
  destruct (RequestHandler.set_message_fields (s_name p) (s_type p) (s_value p) caller (s_entry p)) as (Hn & _);
    [by apply offered_length|].
  destruct (front_end_set o self str_hash others abnormal time b t clock cg cs k d (set_message_of p caller) ret m' d')
    as (cs' & k' & Hf); [unfold set_message_of; rewrite Hn; by apply of_routed|done|].
  eexists. split.
  - unfold s_param. rewrite (RequestHandler.set_param_canonical doc w _ _ (s_entry p))
      by (apply Ho || apply (of_shown _ Ho)).
    unfold RequestHandler.deliver. rewrite Hs. unfold set_message_of, daemon in *. rewrite Hf. done.
  - by eexists _, _, _.
Qed.

(** What the client gets for a get that the handler answers without a fault. *)
Lemma fetch_offered fuel p caller s d m' d' :
  offered p → behind s d →
  handleGetMsg o self (get_message_of p caller) d = Reply (Returned OK m' d') → faultCode m' = fcNoFault →
  paramtype m' = RequestHandler.http_type (s_type p) → HostIf.getStringValue m' = Some (s_value p) →
  ∃ s', RequestHandler.handleRequest doc w fuel caller (RequestHandler.getReq [s_name p]) s
        = Done (Some [(WDMP_SUCCESS, [s_param p])], s') ∧ behind s' d'.
Proof.
  intros Ho (cg & cs & k & Hs) Hd Hf Ht Hv.
  destruct (RequestHandler.get_message_fields (s_name p) (s_type p) caller (s_entry p)) as (Hn & _);
    [by apply offered_length|].
  destruct (front_end_get o self str_hash others abnormal time b t clock cg cs k d (get_message_of p caller) OK m' d')
    as (cg' & k' & Hg); [unfold get_message_of; rewrite Hn; by apply of_routed|done|].
  eexists. split.
  - rewrite (RequestHandler.handle_get_readable doc w fuel _ _ (s_entry p)) by apply Ho.
    rewrite Hs. unfold get_message_of, daemon in *. rewrite Hg. rewrite decide_True by done.
    rewrite shown_text with (v := s_value p) by (rewrite ?Ht; by apply (of_shown _ Ho) || done). done.
  - by eexists _, _, _.
Qed.

(** One set of an RFC parameter over HTTP. *)
Lemma http_set_one f l p caller s d x :
  rfc_setting p → behind s d → serving o f l d x →
  ∃ s' d' x', RequestHandler.set_param doc w (s_param p) caller s
      = Done (WDMP_SUCCESS, RequestHandler.mkParam (s_name p) (Some (s_value p)) 0, s')
    ∧ behind s' d' ∧ serving o f l d' x' ∧ holds x' (s_name p) (s_value p)
    ∧ ∀ n, n ≠ s_name p → XRFCStore.m_dict x' !! n = XRFCStore.m_dict x !! n.
Proof.
  intros [Ho Hr Hp] Hb Hsv.
  destruct (RequestHandler.set_message_fields (s_name p) (s_type p) (s_value p) caller (s_entry p))
    as (Hn & _ & _ & _ & Hbs); [by apply offered_length|]. fold (set_message_of p caller) in Hn, Hbs.
  pose proof (of_shown _ Ho) as (Hc & _).
  destruct (set_rfc_parameter o f l self d x (set_message_of p caller) (s_value p))
    as (x' & m' & w' & Hset & Hf & Hsv' & Hh & Hother); try done.
  - by rewrite Hn.
  - by rewrite Hbs.
  - by apply RequestHandler.set_message_value.
  - by apply Ho.
  - by eapply canonical_no_nul.
  - rewrite Hn in Hh, Hother.
    destruct (deliver_offered p caller s d OK m' _ Ho Hb Hset) as (s' & Hs & Hb').
    exists s', (with_body d (set_rfcStore (body d) x' w')), x'. split; [|done].
    rewrite Hs. unfold RequestHandler.result_of. rewrite Z.eqb_refl, decide_True by done. done.
Qed.

(** One get. *)
Lemma http_get_one f l fuel p caller s d x :
  rfc_setting p → behind s d → serving o f l d x → holds x (s_name p) (s_value p) →
  ∃ s', RequestHandler.handleRequest doc w fuel caller (RequestHandler.getReq [s_name p]) s
        = Done (Some [(WDMP_SUCCESS, [s_param p])], s') ∧ behind s' d.
Proof.
  intros [Ho Hr Hp] Hb Hsv Hh.
  destruct (RequestHandler.get_message_fields (s_name p) (s_type p) caller (s_entry p))
    as (Hn & _ & Ht & _ & Hbs); [by apply offered_length|]. fold (get_message_of p caller) in Hn, Ht, Hbs.
  pose proof (of_shown _ Ho) as (Hc & Hne & _).
  eapply fetch_offered; [done|done|eapply (get_rfc_parameter o f l self d x _ (s_value p));
    try done; by rewrite ?Hn, ?Hbs|done| |].
  - change (paramtype (set_fault (putValue (set_instance (get_message_of p caller) 0) (s_value p)) fcNoFault))
      with (paramtype (putValue (set_instance (get_message_of p caller) 0) (s_value p))).
    by rewrite paramtype_putValue.
  - etrans; [|apply (putValue_canonical (set_instance (get_message_of p caller) 0))].
    + by apply getStringValue_eq.
    + change (paramtype (set_instance (get_message_of p caller) 0)) with (paramtype (get_message_of p caller)).
      by rewrite Ht.
Qed.

Lemma http_set_all f l ps caller s d x :
  Forall rfc_setting ps → NoDup (s_name <$> ps) → behind s d → serving o f l d x →
  ∃ s' d' x', RequestHandler.set_params doc w (s_param <$> ps) caller s
      = Done ((λ p, (WDMP_SUCCESS, [RequestHandler.mkParam (s_name p) (Some (s_value p)) 0])) <$> ps, s')
    ∧ behind s' d' ∧ serving o f l d' x'
    ∧ (∀ p, p ∈ ps → holds x' (s_name p) (s_value p))
    ∧ ∀ n, n ∉ s_name <$> ps → XRFCStore.m_dict x' !! n = XRFCStore.m_dict x !! n.
Proof.
  intros Hps. revert s d x. induction Hps as [|p ps Hp Hps IH]; intros s d x Hnd Hb Hsv.
  { exists s, d, x. split_and!; try done. by intros p ?%not_elem_of_nil. }
  rewrite fmap_cons in Hnd. apply NoDup_cons in Hnd as [Hnin Hnd].
  destruct (http_set_one f l p caller s d x Hp Hb Hsv) as (s1 & d1 & x1 & Hset & Hb1 & Hsv1 & Hh & Ho).
  destruct (IH s1 d1 x1 Hnd Hb1 Hsv1) as (s2 & d2 & x2 & Hrest & Hb2 & Hsv2 & Hh2 & Ho2).
  exists s2, d2, x2. split_and!; [|done|done| |].
  - cbn [RequestHandler.set_params fmap list_fmap]. rewrite Hset. cbn [wbind]. rewrite Hrest. done.
  - intros p' [->|Hin]%elem_of_cons; [|by apply Hh2]. unfold holds. rewrite Ho2; [exact Hh|].
    done.
  - intros n Hn. rewrite fmap_cons, not_elem_of_cons in Hn. destruct Hn. by rewrite Ho2, Ho.
Qed.

(** C3. Ordinary RFC parameters that are set over HTTP are read over HTTP: a
    request that sets one or more of different names, from any caller, succeeds
    for each, and afterwards each of them, asked for by any caller, answers the
    value given with the data model's type. Ordinary is a parameter of
    Device.DeviceInfo that the configuration routes to its manager, that the
    data model lets be read and written and gives no update rule, kept in the
    RFC store, with a name that fits the messages, has no wildcard, equals sign
    or newline, is no control name nor the account id, is not NonPersistent, has
    no limit and triggers no action on the device; each value is a non-empty
    text as the daemon itself prints it: a string without newline that fits the
    message, true or false, an int above -10^8 and below 10^9, or an unsigned
    int below 2^31 (for the unsigned ones from 2^31 see
    http_uint_shown_negative). The new RFC store is in use and in order, no RFC
    update is in progress and no request is at work on the device. *)
Theorem http_rfc_round_trip f l ps caller s d x :
  Forall rfc_setting ps → NoDup (s_name <$> ps) → ps ≠ [] → behind s d → serving o f l d x →
  ∃ s' d' x', RequestHandler.handleRequest doc w 0 caller (RequestHandler.setReq (s_param <$> ps)) s
      = Done (Some ((λ p, (WDMP_SUCCESS, [RequestHandler.mkParam (s_name p) (Some (s_value p)) 0])) <$> ps), s')
    ∧ behind s' d' ∧ serving o f l d' x'
    ∧ ∀ p fuel caller', p ∈ ps →
        ∃ s'', RequestHandler.handleRequest doc w fuel caller' (RequestHandler.getReq [s_name p]) s'
               = Done (Some [(WDMP_SUCCESS, [s_param p])], s'').
Proof.
  intros Hps Hnd Hne Hb Hsv.
  destruct (http_set_all f l ps caller s d x Hps Hnd Hb Hsv) as (s' & d' & x' & Hset & Hb' & Hsv' & Hh & _).
  exists s', d', x'. split_and!; [|done|done|].
  - unfold RequestHandler.handleRequest. destruct ps as [|p ps]; [done|].
    rewrite fmap_cons in Hset |- *. cbn [fmap list_fmap] in *. rewrite Hset. done.
  - intros p fuel caller' Hin.
    destruct (http_get_one f l fuel p caller' s' d' x') as (s'' & Hget & _);
      [by eapply Forall_forall|done|done|by apply Hh|]. by exists s''.
Qed.

(** The two front ends show the same parameter: what the cloud sets through WebPA
    is what a local client reads over HTTP. *)
Theorem webpa_http_round_trip f l fuel p tid caller s d x :
  rfc_setting p → behind s d → serving o f l d x →
  s_type p ∈ ["string"; "boolean"; "int"; "unsignedInt"]%string →
  strcaseeq (s_name p) "Device.X_RDKCENTRAL-COM_T2.ReportProfiles" = false →
  ∃ s' s'', Webpa.setValues (Some doc)
      [Webpa.mkParamVal (s_name p) (Some (s_value p)) (Webpa.converttoWalType (Webpa.entry_type (s_entry p)))]
      tid (RequestHandler.pl s)
      = Done ([Webpa.wal_status Webpa.WAL_SUCCESS], RequestHandler.pl s')
    ∧ RequestHandler.handleRequest doc w fuel caller (RequestHandler.getReq [s_name p]) s'
      = Done (Some [(WDMP_SUCCESS, [s_param p])], s'').
Proof.
  intros Hp Hb Hsv Hty Hrp. pose proof Hp as [Ho Hr Hrfc]. pose proof (of_shown _ Ho) as (Hc & Hne & Hu & Hul).
  assert (Webpa.settable (RequestHandler.http_type (s_type p)) (s_value p)) as Hset.
  { destruct (RequestHandler.http_type (s_type p)); try done. by apply Hu. }
  destruct (RequestHandler.webpa_set_message doc (s_name p) (s_type p) (s_entry p) (s_value p) EmptyString tid s)
    as (_ & _ & Hw); [apply Ho|done|done|done|done|].
  destruct (RequestHandler.set_message_fields (s_name p) (s_type p) (s_value p) EmptyString (s_entry p))
    as (Hn & _ & _ & _ & Hbs); [by apply offered_length|]. fold (set_message_of p EmptyString) in Hn, Hbs, Hw.
  destruct (set_rfc_parameter o f l self d x (set_message_of p EmptyString) (s_value p))
    as (x' & m' & w' & Hhandle & Hf & Hsv' & Hh & _);
    [done|by rewrite Hn|by rewrite Hbs|by apply RequestHandler.set_message_value|apply Ho|by eapply canonical_no_nul|].
  rewrite Hn in Hh. destruct Hb as (cg & cs & k & Hs).
  destruct (front_end_set o self str_hash others abnormal time b t clock cg cs k d (set_message_of p EmptyString) OK m'
    (with_body d (set_rfcStore (body d) x' w'))) as (cs' & k' & Hfe);
    [rewrite Hn; by apply of_routed|done|].
  set (s' := RequestHandler.set_handler s
    ((cg, cs', k', with_body d (set_rfcStore (body d) x' w')) : @hst daemon)).
  destruct (http_get_one f l fuel p caller s' (with_body d (set_rfcStore (body d) x' w')) x') as (s'' & Hget & _);
    [done|by eexists _, _, _|done|done|].
  exists s', s''. split; [|exact Hget]. cbn [Webpa.setValues]. rewrite Hw, Hs. unfold daemon in *. rewrite Hfe.
  cbn [of_option wbind]. by rewrite Z.eqb_refl.
Qed.

(** ** An RFC update over HTTP *)

(** ClearDB or ClearDBEnd with a true value. *)
Record switch (p : setting) (n : string) : Prop := {
  sw_offered : offered p;
  sw_rule : getBSUpdateEnum (WalDB.bsUpdate (s_entry p)) = HOSTIF_NONE;
  sw_name : s_name p = n;
  sw_true : is_true (s_value p) = true
}.

Definition key_value (p : setting) : string * string := (s_name p, s_value p).

Lemma http_collect_all f l ps s d x :
  Forall rfc_setting ps → behind s d → serving_in o true f l d x →
  ∃ s' d', RequestHandler.set_params doc w (s_param <$> ps) "rfc" s
      = Done ((λ p, (WDMP_SUCCESS, [RequestHandler.mkParam (s_name p) (Some (s_value p)) 0])) <$> ps, s')
    ∧ behind s' d' ∧ serving_in o true f l d' x
    ∧ file_map (files (body d')) f = insert_all (key_value <$> ps) (file_map (files (body d)) f)
    ∧ file_map (files (body d')) l = file_map (files (body d)) l.
Proof.
  intros Hps. revert s d. induction Hps as [|p ps [Ho Hr Hp] Hps IH]; intros s d Hb Hsv.
  { by exists s, d. }
  destruct (RequestHandler.set_message_fields (s_name p) (s_type p) (s_value p) "rfc" (s_entry p))
    as (Hn & _ & _ & Hrq & Hbs); [by apply offered_length|]. fold (set_message_of p "rfc") in Hn, Hrq, Hbs.
  destruct (set_rfc_collected o f l self d x (set_message_of p "rfc") (s_value p))
    as (m' & w' & Hset & Hf & Hsv1 & Hff & Hfl); [done|by rewrite Hn|by rewrite Hbs| |by rewrite Hrq|apply Ho|].
  { apply RequestHandler.set_message_value. apply (of_shown _ Ho). }
  destruct (deliver_offered p "rfc" s d OK m' _ Ho Hb Hset) as (s1 & Hs & Hb1).
  destruct (IH s1 _ Hb1 Hsv1) as (s2 & d2 & Hrest & Hb2 & Hsv2 & Hff2 & Hfl2).
  exists s2, d2. split_and!; [|done|done| |].
  - cbn [RequestHandler.set_params fmap list_fmap]. rewrite Hs. cbn [wbind].
    unfold RequestHandler.result_of. rewrite Z.eqb_refl, decide_True by done. cbn [fst]. by rewrite Hrest.
  - rewrite Hff2. simpl. by rewrite Hff, Hn.
  - by rewrite Hfl2.
Qed.

(** C4. The RFC client's update over HTTP: ClearDB, ordinary RFC parameters in
    any number of sets and ClearDBEnd leave the store with exactly the settings
    sent, the last value of each, and the local overrides of the others, and the
    file agrees. Yet ClearDBEnd is answered with an error. Ordinary is a
    parameter of Device.DeviceInfo that the configuration routes to its manager,
    that the data model lets be read and written and gives no update rule, kept
    in the RFC store, with a name that fits the messages, has no wildcard,
    equals sign or newline, is no control name nor the account id, is not
    NonPersistent, has no limit and triggers no action on the device; each value
    is a non-empty text as the daemon itself prints it: a string without newline
    that fits the message, true or false, an int above -10^8 and below 10^9, or
    an unsigned int below 2^31. The new RFC store is in use and in order and
    outside an update when ClearDB comes, and no other request is at work on the
    device. *)
Theorem http_rfc_update f l start ps stop s d x :
  switch start TR181_RFC_RESET_DATA_START → switch stop TR181_RFC_RESET_DATA_END →
  Forall rfc_setting ps → behind s d → serving o f l d x →
  ∃ s1 s2 s3 d3 x3,
    RequestHandler.set_param doc w (s_param start) "rfc" s
      = Done (WDMP_SUCCESS, RequestHandler.mkParam (s_name start) (Some (s_value start)) 0, s1)
    ∧ RequestHandler.set_params doc w (s_param <$> ps) "rfc" s1
      = Done ((λ p, (WDMP_SUCCESS, [RequestHandler.mkParam (s_name p) (Some (s_value p)) 0])) <$> ps, s2)
    ∧ RequestHandler.set_param doc w (s_param stop) "rfc" s2
      = Done (WDMP_ERR_INTERNAL_ERROR, RequestHandler.mkParam (s_name stop) (Some (s_value stop)) 0, s3)
    ∧ behind s3 d3 ∧ serving o f l d3 x3
    ∧ XRFCStore.m_dict x3 = insert_all (key_value <$> ps) ∅ ∪ XRFCStore.m_local_dict x
    ∧ file_map (files (body d3)) f = XRFCStore.m_dict x3.
Proof.
  intros [Ho1 Hr1 Hn1 Ht1] [Ho2 Hr2 Hn2 Ht2] Hps Hb Hsv. pose proof Hsv as [Hf Hob Hnew Hx Hg Hu].
  destruct (RequestHandler.set_message_fields (s_name start) (s_type start) (s_value start) "rfc" (s_entry start))
    as (Hm1 & _ & _ & _ & Hb1); [by apply offered_length|]. fold (set_message_of start "rfc") in Hm1, Hb1.
  destruct (RequestHandler.set_message_fields (s_name stop) (s_type stop) (s_value stop) "rfc" (s_entry stop))
    as (Hm2 & _ & _ & _ & Hb2); [by apply offered_length|]. fold (set_message_of stop "rfc") in Hm2, Hb2.
  destruct (XRFCStore.clearAll_spec f l x (files (body d)) Hg Hu) as (w1 & Hc & Hg1 & Hf1 & Hl1).
  assert (HostIf.getStringValue (set_message_of start "rfc") = Some (s_value start)) as Hv1
    by (apply RequestHandler.set_message_value, (of_shown _ Ho1)).
  assert (HostIf.getStringValue (set_message_of stop "rfc") = Some (s_value stop)) as Hv2
    by (apply RequestHandler.set_message_value, (of_shown _ Ho2)).
  pose proof (handle_clear o false f l self d x (set_message_of start "rfc") _ Hsv
    ltac:(by rewrite Hm1) ltac:(by rewrite Hb1) Hv1 Ht1) as Hstart. rewrite Hc in Hstart.
  destruct (deliver_offered start "rfc" s d _ _ _ Ho1 Hb Hstart) as (s1 & Hs1 & Hbe1).
  destruct (http_collect_all f l ps s1 _ (XRFCStore.set_update x true) Hps Hbe1) as
    (s2 & d2 & Hs2 & Hbe2 & Hsv2 & Hf2 & Hl2); [by constructor|]. simpl in Hf2, Hl2.
  pose proof Hsv2 as [Hfr2 Hob2 _ Hx2 Hg2 Hu2].
  destruct (XRFCStore.reloadCache_spec f l _ (files (body d2)) Hg2 Hu2) as (x3 & w3 & Hre & Hg3 & Hu3 & Hd3 & _).
  pose proof (handle_clear_end o self d2 _ (set_message_of stop "rfc") _ Hfr2 Hob2 Hnew Hx2
    ltac:(by rewrite Hm2) ltac:(by rewrite Hb2) Hv2 Ht2) as Hstop. rewrite Hre in Hstop.
  destruct (deliver_offered stop "rfc" s2 d2 _ _ _ Ho2 Hbe2 Hstop) as (s3 & Hs3 & Hbe3).
  eexists s1, s2, s3, _, x3. split; [by rewrite Hs1|]. split; [exact Hs2|]. split; [by rewrite Hs3|].
  split; [exact Hbe3|]. split; [by constructor|]. simpl. split; [|by apply (XRFCStore.good_main f l)].
  rewrite Hd3, Hf2, Hf1, Hl2, Hl1. f_equal. by apply (XRFCStore.good_local f l).
Qed.

(** ** Bootstrap parameters *)

(** The bootstrap store in order behind a device whose handler is idle. *)
Record bs_serving (d : device pstate) (x : XBSStore.t) (jo : XBSStoreJournal.t) : Prop := {
  bv_free : m_mutex d = None;
  bv_object : object0 (body d) = true;
  bv_store : m_bsStore (body d) = Some x;
  bv_ready : XBSStore.ready x (files (body d)) jo;
  bv_init : XBSStore.m_initDone x = true;
  bv_values : XBSStore.dict_ok (XBSStore.m_dict x)
}.

(** The update rule of the data model and the source that a caller stands for. *)
Definition rule (p : setting) : HostIf_Source_Type_t := getBSUpdateEnum (WalDB.bsUpdate (s_entry p)).

Lemma bootstrap_get self' m d x v :
  m_mutex d = None → object0 (body d) = true → m_bsStore (body d) = Some x → XBSStore.m_initDone x = true →
  bsUpdate m ≠ HOSTIF_NONE → XBSStore.m_dict x !! paramName m = Some v → has_char NUL v = false → v ≠ EmptyString →
  handleGetMsg o self' m d = Reply (Returned OK (set_fault (putValue (set_instance m 0) v) fcNoFault) d).
Proof.
  intros Hf Ho Hx Hi Hb Hv Hn Hne. replace d with (with_body d (body d)) at 2 by by destruct d.
  apply locked_free; [done|]. rewrite decide_True, getInstance_made by done. cbn [mbind option_bind].
  unfold get_xRDKCentralComBootstrap. rewrite Hx. cbn [mbind option_bind].
  unfold XBSStore.getValue. rewrite XBSStore.bs_init_id by done. cbn [mbind option_bind].
  unfold XBSStore.getRawValue. change (paramName (set_instance m 0)) with (paramName m). rewrite Hv.
  destruct v as [|c v]; [done|]. cbn [default is_empty negb mbind option_bind].
  rewrite c_str_no_nul by done.
  assert (set_bsStore (body d) x (files (body d)) = body d) as E
    by (destruct (body d); simpl in *; by rewrite Hx).
  unfold id. cbn [is_empty negb]. cbv beta iota. by rewrite E.
Qed.

(** C5. A bootstrap parameter over HTTP: a caller whom the update rule allows
    sets it, and any caller then reads the value. The parameter is one that the
    data model lets be read and written and gives an update rule, with a name
    that fits the messages, has no wildcard, and is neither an RFC variable, nor
    the reboot parameter, nor one of the two that clear the store, and the
    configuration routes it to the manager of Device.DeviceInfo; the value is a
    non-empty text as the daemon itself prints it: a string without newline that
    fits the message, true or false, an int above -10^8 and below 10^9, or an
    unsigned int below 2^31. Store, journal and files are in order and no
    request is at work on the device. *)
Theorem http_bootstrap_round_trip fuel p caller caller' s d x jo :
  offered p → XBSStore.bs_name (s_name p) → behind s d → bs_serving d x jo →
  rule p ≠ HOSTIF_NONE → may_override (rule p) (RequestHandler.caller_source caller) = true →
  ∃ s' s'', RequestHandler.set_param doc w (s_param p) caller s
      = Done (WDMP_SUCCESS, RequestHandler.mkParam (s_name p) (Some (s_value p)) 0, s')
    ∧ RequestHandler.handleRequest doc w fuel caller' (RequestHandler.getReq [s_name p]) s'
      = Done (Some [(WDMP_SUCCESS, [s_param p])], s'').
Proof.
  intros Ho Hbn Hb [Hf Hob Hx Hr Hi Hd] Hru Hmay. pose proof (of_shown _ Ho) as (Hc & Hne & _).
  destruct (RequestHandler.set_message_fields (s_name p) (s_type p) (s_value p) caller (s_entry p))
    as (Hn & _ & _ & Hrq & Hbs); [by apply offered_length|]. fold (set_message_of p caller) in Hn, Hrq, Hbs.
  destruct (RequestHandler.get_message_fields (s_name p) (s_type p) caller' (s_entry p))
    as (Hn' & _ & Ht' & _ & Hbs'); [by apply offered_length|]. fold (get_message_of p caller') in Hn', Ht', Hbs'.
  destruct (XBSStore.overrideValue_ready x (files (body d)) jo (set_instance (set_message_of p caller) 0) (s_value p))
    as (w' & Hov & _); [done|done|simpl; by rewrite Hn|by apply RequestHandler.set_message_value|].
  cbv zeta in Hov. simpl in Hov. rewrite Hn, Hrq in Hov.
  match type of Hov with _ = Some (_, ?y, ?n, _) => set (x' := y) in *; set (m' := n) in * end.
  assert (handleSetMsg o self (set_message_of p caller) d
          = Reply (Returned OK m' (with_body d (set_bsStore (body d) x' w')))) as Hset.
  { apply locked_free; [done|]. rewrite decide_True by (rewrite Hbs; done).
    rewrite Hbs, Hrq. unfold rule in Hmay. rewrite Hmay, getInstance_made by done. cbn [mbind option_bind].
    unfold set_xRDKCentralComBootstrap. rewrite Hx. cbn [mbind option_bind]. rewrite Hov. done. }
  destruct (deliver_offered p caller s d OK m' _ Ho Hb Hset) as (s' & Hs & Hb').
  assert (XBSStore.m_dict x' !! s_name p = Some (s_value p)) as Hv.
  { unfold x'. simpl. rewrite XBSStore.dict_after_override;
      [by rewrite lookup_insert_eq|done|by eapply canonical_no_nul|].
    unfold RequestHandler.caller_source. by destruct (streq caller "rfc"). }
  destruct (fetch_offered fuel p caller' s' (with_body d (set_bsStore (body d) x' w'))
    (set_fault (putValue (set_instance (get_message_of p caller') 0) (s_value p)) fcNoFault)
    (with_body d (set_bsStore (body d) x' w')) Ho Hb') as (s'' & Hget & _).
  - apply (bootstrap_get _ _ _ x'); try done; [by rewrite Hn'|by eapply canonical_no_nul].
  - done.
  - change (paramtype (set_fault ?y _)) with (paramtype y). by rewrite paramtype_putValue.
  - etrans; [|apply (putValue_canonical (set_instance (get_message_of p caller') 0))].
    + by apply getStringValue_eq.
    + change (paramtype (set_instance (get_message_of p caller') 0)) with (paramtype (get_message_of p caller')).
      by rewrite Ht'.
  - exists s', s''. split; [|exact Hget]. rewrite Hs. unfold RequestHandler.result_of.
    rewrite Z.eqb_refl, decide_True by done. done.
Qed.

(** A caller whom the update rule does not allow is answered an internal error,
    and neither the stores nor the files change. *)
Theorem http_bootstrap_denied p caller s d x :
  offered p → behind s d → m_mutex d = None → object0 (body d) = true → m_bsStore (body d) = Some x →
  rule p ≠ HOSTIF_NONE → may_override (rule p) (RequestHandler.caller_source caller) = false →
  ∃ s', RequestHandler.set_param doc w (s_param p) caller s
        = Done (WDMP_ERR_INTERNAL_ERROR, RequestHandler.mkParam (s_name p) (Some (s_value p)) 0, s')
    ∧ behind s' d.
Proof.
  intros Ho Hb Hf Hob Hx Hru Hmay.
  destruct (RequestHandler.set_message_fields (s_name p) (s_type p) (s_value p) caller (s_entry p))
    as (Hn & _ & _ & Hrq & Hbs); [by apply offered_length|]. fold (set_message_of p caller) in Hn, Hrq, Hbs.
  assert (handleSetMsg o self (set_message_of p caller) d
          = Reply (Returned NOT_HANDLED (set_message_of p caller) (with_body d (body d)))) as Hset.
  { apply locked_free; [done|]. rewrite decide_True by (rewrite Hbs; done).
    rewrite Hbs, Hrq. unfold rule in Hmay. by rewrite Hmay. }
  replace (with_body d (body d)) with d in Hset by by destruct d.
  destruct (deliver_offered p caller s d _ _ _ Ho Hb Hset) as (s' & Hs & Hb'). by exists s'.
Qed.

End http.
(** ** A concrete daemon *)
#[local] Existing Instance canonical_order.
#[local] Existing Instance plain_wdmp.
#[local] Existing Instance WalDB.toy_xml.
#[local] Existing Instance XBSStore.toy_cjson.
#[local] Existing Instance RequestHandler.ex_bus.
#[local] Existing Instance MsgHandler.list_table | 100.

(** A platform that remembers the notifications it sent; its getters and setters
    answer, except the one for the reset, which throws. *)
#[local] Instance ex_platform : DeviceProfile := {
  pstate := list string;
  call_set := λ a m p, Returned OK m p;
  call_get := λ g m p, if decide (g = get_Device_DeviceInfo_X_RDKCENTRAL_COM_Reset) then Threw m p
                       else Returned OK m p;
  notifyIARM := λ n _ _ q, n :: q;
  sendDeviceMgtNotification := λ n _ q, n :: q
}.

Definition ex_options : options := mkOptions false false true true false.

Definition ex_object : string := "Device.DeviceInfo.X_RDKCENTRAL-COM_RFC.Feature.".
Definition ex_control : string := "Device.DeviceInfo.X_RDKCENTRAL-COM_RFC.Control.".

Definition ex_doc : @XMLNode WalDB.toy_xml :=
  WalDB.toy_model
    [WalDB.toy_object ex_object
       [RequestHandler.ex_parameter "A" "readWrite" "string"; RequestHandler.ex_parameter "B" "readWrite" "boolean"];
     WalDB.toy_object ex_control
       [RequestHandler.ex_parameter "ClearDB" "readWrite" "boolean";
        RequestHandler.ex_parameter "ClearDBEnd" "readWrite" "boolean"];
     WalDB.toy_object "Device.DeviceInfo.X_RDKCENTRAL-COM_Syndication."
       [WalDB.Elem "parameter" [("base", "Url"); ("access", "readWrite"); ("bsUpdate", "rfcUpdate")]%string
          [WalDB.Elem "syntax" [] [WalDB.Elem "string" [] []]]]].

Definition ex_setting (object base type v : string) : setting :=
  mkSetting (object +:+ base) type (RequestHandler.ex_entry (object +:+ base) base type "readWrite") v.

Definition ex_table : option (@ghash (MsgHandler.list_table false)) :=
  @MsgHandler.hostIf_initalize_ConfigManger (MsgHandler.list_table false) MsgHandler.full_build
    MsgHandler.mgrlist_env "/etc/mgrlist.conf".

Definition ex_device : device pstate :=
  mkDevice None [] 0 0
    (mkProfile true (Some XRFCStore.ex_store) XRFCStorage.new (Some XBSStore.ex_store) XRFCStore.ex_env []).

Lemma ex_serving : serving ex_options "/opt/s.ini" "/opt/l.ini" ex_device XRFCStore.ex_store.
Proof. destruct XRFCStore.ex_good. by constructor. Qed.

Definition ex_url : setting :=
  mkSetting "Device.DeviceInfo.X_RDKCENTRAL-COM_Syndication.Url" "string"
    (WalDB.mkParam (Some "Device.DeviceInfo.X_RDKCENTRAL-COM_Syndication.Url") (Some "Url") (Some "string")
       (Some "readWrite") None (Some "rfcUpdate"))%string "https://a"%string.

Definition ex_bs_device : device pstate :=
  mkDevice None [] 0 0
    (mkProfile true (Some XRFCStore.ex_store) XRFCStorage.new (Some XBSStore.ex_store) XBSStore.ex_env []).

#[local] Instance ex_hash : GHashTable := MsgHandler.list_table false.

(** The front end over a device: the other managers answer 0. *)
#[local] Instance ex_daemon : ReqHandler :=
  daemon ex_options 7 (λ _, 0) (λ _ _ m d, Returned OK m d) (λ _ m d, Threw m d) (λ _ _, 0) MsgHandler.full_build
    ex_table (λ _, 0).

Definition ex_server (d : device pstate) : RequestHandler.server :=
  RequestHandler.mkServer
    (Webpa.mkPal false () ((MsgHandler.fresh_counters, MsgHandler.fresh_counters, 0%nat, d) : @hst ex_daemon)) None.

Ltac ex_offered :=
  constructor;
  [RequestHandler.ex_record|RequestHandler.ex_record|vm_compute; discriminate
  | |vm_compute; exact I
  |let m := fresh "m" in let Hm := fresh "Hm" in
   intros m Hm; unfold MsgHandler.HostIf_GetMgr; rewrite Hm; vm_compute; reflexivity].

Definition ex_a : setting := ex_setting ex_object "A" "string" "on".
Definition ex_b : setting := ex_setting ex_object "B" "boolean" "true".

Lemma ex_a_offered : offered MsgHandler.full_build ex_table ex_doc ex_a.
Proof.
  ex_offered.
  refine (conj (conj _ _) (conj _ (conj _ _)));
    [reflexivity|apply Nat.ltb_lt; vm_compute; reflexivity|discriminate|intros E; vm_compute in E; discriminate E..].
Qed.

Lemma ex_b_offered : offered MsgHandler.full_build ex_table ex_doc ex_b.
Proof.
  ex_offered. refine (conj (or_introl _) (conj _ (conj _ _)));
    [reflexivity|discriminate|intros E; vm_compute in E; discriminate E..].
Qed.

Lemma ex_a_rfc : rfc_setting ex_options MsgHandler.full_build ex_table ex_doc ex_a.
Proof.
  constructor; [exact ex_a_offered|reflexivity|].
  constructor; vm_compute; first [reflexivity|exact I|repeat split].
Qed.

Lemma ex_b_rfc : rfc_setting ex_options MsgHandler.full_build ex_table ex_doc ex_b.
Proof.
  constructor; [exact ex_b_offered|reflexivity|].
  constructor; vm_compute; first [reflexivity|exact I|repeat split].
Qed.

Lemma ex_url_offered : offered MsgHandler.full_build ex_table ex_doc ex_url.
Proof.
  ex_offered.
  refine (conj (conj _ _) (conj _ (conj _ _)));
    [reflexivity|apply Nat.ltb_lt; vm_compute; reflexivity|discriminate|intros E; vm_compute in E; discriminate E..].
Qed.

Lemma ex_behind d : behind ex_options 7 (λ _, 0) (λ _ _ m d, Returned OK m d) (λ _ m d, Threw m d) (λ _ _, 0)
    MsgHandler.full_build ex_table (λ _, 0) (ex_server d) d.
Proof. by eexists _, _, _. Qed.

(** The getter of the reset throws; a set of another thread then waits. *)
Lemma exception_keeps_mutex_witness :
  let m := mkMsg "Device.DeviceInfo.X_RDKCENTRAL-COM_Reset" zero_buffer None "" 0 0 hostIf_StringType HOSTIF_GET
             fcNoFault HOSTIF_SRC_WEBPA HOSTIF_NONE false in
  ∃ cg' k' d', @hostIf_Get ex_daemon m (MsgHandler.fresh_counters, MsgHandler.fresh_counters, 0%nat, ex_device)
      = (NOK, set_instance m 0, (cg', MsgHandler.fresh_counters, k', d'))
    ∧ handleSetMsg ex_options 8 m d' = Blocked.
Proof.
  intros m.
  destruct (exception_keeps_mutex ex_options 7 (λ _, 0) (λ _ _ m d, Returned OK m d) (λ _ m d, Threw m d) (λ _ _, 0)
    MsgHandler.full_build ex_table (λ _, 0) 8 MsgHandler.fresh_counters MsgHandler.fresh_counters 0%nat ex_device m)
    as (_ & _ & Hg & _); [reflexivity|discriminate| |].
  { intros m0 Hm. unfold MsgHandler.HostIf_GetMgr. rewrite Hm. vm_compute. reflexivity. }
  destruct (Hg get_Device_DeviceInfo_X_RDKCENTRAL_COM_Reset (set_instance m 0) (body ex_device))
    as (cg' & k' & d' & E & _ & _ & Hs); [reflexivity|reflexivity|vm_compute; reflexivity..|reflexivity|].
  exists cg', k', d'. split; [exact E|]. apply (Hs m).
Defined.

Lemma http_rfc_round_trip_witness :
  ∃ s' s'', RequestHandler.handleRequest ex_doc XRFCStore.ex_env 0 "cli"
      (RequestHandler.setReq [s_param ex_a; s_param ex_b]) (ex_server ex_device)
      = Done (Some [(WDMP_SUCCESS, [RequestHandler.mkParam (s_name ex_a) (Some "on"%string) 0]);
                    (WDMP_SUCCESS, [RequestHandler.mkParam (s_name ex_b) (Some "true"%string) 0])], s')
    ∧ RequestHandler.handleRequest ex_doc XRFCStore.ex_env 0 "rfc" (RequestHandler.getReq [s_name ex_a]) s'
      = Done (Some [(WDMP_SUCCESS, [s_param ex_a])], s'').
Proof.
  destruct (http_rfc_round_trip ex_options 7 (λ _, 0) (λ _ _ m d, Returned OK m d) (λ _ m d, Threw m d) (λ _ _, 0)
    MsgHandler.full_build ex_table (λ _, 0) ex_doc XRFCStore.ex_env "/opt/s.ini" "/opt/l.ini" [ex_a; ex_b] "cli"
    (ex_server ex_device) ex_device XRFCStore.ex_store) as (s' & d' & x' & Hset & _ & _ & Hget).
  - apply List.Forall_cons; [exact ex_a_rfc|]. apply List.Forall_cons; [exact ex_b_rfc|apply List.Forall_nil].
  - apply NoDup_cons. split; [|apply NoDup_singleton]. rewrite list_elem_of_singleton. discriminate.
  - discriminate.
  - apply ex_behind.
  - exact ex_serving.
  - destruct (Hget ex_a 0%nat "rfc"%string) as [s'' Hs]; [left|]. exists s', s''. exact (conj Hset Hs).
Defined.

Lemma webpa_http_round_trip_witness :
  ∃ s' s'', Webpa.setValues (Some ex_doc)
      [Webpa.mkParamVal (s_name ex_b) (Some "true"%string) (Webpa.converttoWalType (Webpa.entry_type (s_entry ex_b)))]
      None (RequestHandler.pl (ex_server ex_device))
      = Done ([Webpa.wal_status Webpa.WAL_SUCCESS], RequestHandler.pl s')
    ∧ RequestHandler.handleRequest ex_doc XRFCStore.ex_env 0 "cli" (RequestHandler.getReq [s_name ex_b]) s'
      = Done (Some [(WDMP_SUCCESS, [s_param ex_b])], s'').
Proof.
  refine (webpa_http_round_trip ex_options 7 (λ _, 0) (λ _ _ m d, Returned OK m d) (λ _ m d, Threw m d) (λ _ _, 0)
    MsgHandler.full_build ex_table (λ _, 0) ex_doc XRFCStore.ex_env "/opt/s.ini" "/opt/l.ini" 0 ex_b None "cli"
    (ex_server ex_device) ex_device XRFCStore.ex_store ex_b_rfc (ex_behind _) ex_serving _ _).
  - right. left.
  - vm_compute. reflexivity.
Defined.

Definition ex_start : setting := ex_setting ex_control "ClearDB" "boolean" "true".
Definition ex_stop : setting := ex_setting ex_control "ClearDBEnd" "boolean" "true".

Lemma http_rfc_update_witness :
  ∃ s1 s2 s3 d3 x3,
    RequestHandler.set_param ex_doc XRFCStore.ex_env (s_param ex_start) "rfc" (ex_server ex_device)
      = Done (WDMP_SUCCESS, RequestHandler.mkParam (s_name ex_start) (Some "true"%string) 0, s1)
    ∧ RequestHandler.set_param ex_doc XRFCStore.ex_env (s_param ex_stop) "rfc" s2
      = Done (WDMP_ERR_INTERNAL_ERROR, RequestHandler.mkParam (s_name ex_stop) (Some "true"%string) 0, s3)
    ∧ serving ex_options "/opt/s.ini" "/opt/l.ini" d3 x3
    ∧ XRFCStore.m_dict x3 = <[s_name ex_a := "on"%string]> ∅ ∪ XRFCStore.m_local_dict XRFCStore.ex_store.
Proof.
  destruct (http_rfc_update ex_options 7 (λ _, 0) (λ _ _ m d, Returned OK m d) (λ _ m d, Threw m d) (λ _ _, 0)
    MsgHandler.full_build ex_table (λ _, 0) ex_doc XRFCStore.ex_env "/opt/s.ini" "/opt/l.ini" ex_start [ex_a] ex_stop
    (ex_server ex_device) ex_device XRFCStore.ex_store) as (s1 & s2 & s3 & d3 & x3 & H1 & _ & H3 & _ & Hs & Hd & _).
  - constructor; try reflexivity. ex_offered. refine (conj (or_introl _) (conj _ (conj _ _)));
      [reflexivity|discriminate|intros E; vm_compute in E; discriminate E..].
  - constructor; try reflexivity. ex_offered. refine (conj (or_introl _) (conj _ (conj _ _)));
      [reflexivity|discriminate|intros E; vm_compute in E; discriminate E..].
  - apply List.Forall_cons; [exact ex_a_rfc|apply List.Forall_nil].
  - apply ex_behind.
  - exact ex_serving.
  - exists s1, s2, s3, d3, x3. exact (conj H1 (conj H3 (conj Hs Hd))).
Defined.

Lemma ex_bs_serving : bs_serving ex_bs_device XBSStore.ex_store XBSStore.ex_journal.
Proof. constructor; try reflexivity; [exact XBSStore.ex_ready|exact XBSStore.ex_dict_ok]. Qed.

Lemma http_bootstrap_round_trip_witness :
  ∃ s' s'', RequestHandler.set_param ex_doc XBSStore.ex_env (s_param ex_url) "rfc" (ex_server ex_bs_device)
      = Done (WDMP_SUCCESS, RequestHandler.mkParam (s_name ex_url) (Some "https://a"%string) 0, s')
    ∧ RequestHandler.handleRequest ex_doc XBSStore.ex_env 0 "cli" (RequestHandler.getReq [s_name ex_url]) s'
      = Done (Some [(WDMP_SUCCESS, [s_param ex_url])], s'').
Proof.
  refine (http_bootstrap_round_trip ex_options 7 (λ _, 0) (λ _ _ m d, Returned OK m d) (λ _ m d, Threw m d) (λ _ _, 0)
    MsgHandler.full_build ex_table (λ _, 0) ex_doc XBSStore.ex_env 0 ex_url "rfc" "cli" (ex_server ex_bs_device)
    ex_bs_device XBSStore.ex_store XBSStore.ex_journal ex_url_offered _ (ex_behind _) ex_bs_serving _ _).
  - split; vm_compute; reflexivity.
  - vm_compute. discriminate.
  - vm_compute. reflexivity.
Defined.

Lemma http_bootstrap_denied_witness :
  ∃ s', RequestHandler.set_param ex_doc XBSStore.ex_env (s_param ex_url) "cli" (ex_server ex_bs_device)
        = Done (WDMP_ERR_INTERNAL_ERROR, RequestHandler.mkParam (s_name ex_url) (Some "https://a"%string) 0, s').
Proof.
  destruct (http_bootstrap_denied ex_options 7 (λ _, 0) (λ _ _ m d, Returned OK m d) (λ _ m d, Threw m d) (λ _ _, 0)
    MsgHandler.full_build ex_table (λ _, 0) ex_doc XBSStore.ex_env ex_url "cli" (ex_server ex_bs_device)
    ex_bs_device XBSStore.ex_store ex_url_offered (ex_behind _)) as (s' & Hs & _);
    [reflexivity|reflexivity|reflexivity|vm_compute; discriminate|vm_compute; reflexivity|].
  exists s'. exact Hs.
Defined.

End EndToEnd.
