(* ===== verification/RbusDml.v ===== *)
(** * The data model on the RBus

    [RbusDml] models handlers/src/hostIf_rbus_Dml_Provider.cpp: the daemon
    registers every parameter of its data model with the RBus, and the bus calls
    it back to get and set them.  The dispatcher is used through [ReqHandler];
    the bus library is the parameter [RbusProvider], and a value that arrives
    from it is its type with the text that rbusValue_ToString gives. *)
From stdpp Require Import base list strings.
From Stdlib Require Import Ascii ZArith Lia.
From S2P Require Import Prelude HostIf MsgHandler WalDB WalList FrontEnd Webpa.
Import WalList (walk, Done, Crash, OutOfFuel, wbind, of_option).

#[local] Arguments streq : simpl never.

Module RbusDml.

(** The error codes that the provider answers. *)
Inductive rbusError_t : Type :=
  | RBUS_ERROR_SUCCESS | RBUS_ERROR_BUS_ERROR | RBUS_ERROR_INVALID_INPUT
  | RBUS_ERROR_DESTINATION_RESPONSE_FAILURE | RBUS_ERROR_ELEMENT_DOES_NOT_EXIST
  | RBUS_ERROR_INVALID_OPERATION.

#[export] Instance rbusError_eq_dec : EqDecision rbusError_t.
Proof. solve_decision. Defined.

(** What the answer's value is set to. *)
Inductive rbusValue : Type :=
  | SetInt32 (z : Z) | SetBoolean (b : bool) | SetUInt32 (z : Z) | SetUInt64 (z : Z) | SetString (s : string).

Definition MAX_PARAMETER_LENGTH : nat := 512.

Definition EXCLUDE_PARAMLIST : list string :=
  ["Device.X_RDKCENTRAL-COM_T2.ReportProfiles"; "Device.X_RDKCENTRAL-COM_T2.ReportProfilesMsgPack"]%string.

Definition isInExclusionList (param : string) : bool :=
  existsb (λ e, streq (str_take MAX_PARAMETER_LENGTH e) (str_take MAX_PARAMETER_LENGTH param)) EXCLUDE_PARAMLIST.

Definition convert2hostIfDataType (ParamDataType : string) : HostIf_ParamType_t :=
  if streq ParamDataType "string" then hostIf_StringType
  else if streq ParamDataType "unsignedInt" then hostIf_UnsignedIntType
  else if streq ParamDataType "int" then hostIf_IntegerType
  else if streq ParamDataType "unsignedLong" then hostIf_UnsignedLongType
  else if streq ParamDataType "boolean" then hostIf_BooleanType
  else if streq ParamDataType "hexBinary" then hostIf_StringType
  else hostIf_StringType.

(** [None] is the error -1. *)
Definition convertRbus2hostIfDataType (type : rbusValueType_t) : option HostIf_ParamType_t :=
  match type with
  | RBUS_BOOLEAN => Some hostIf_BooleanType
  | RBUS_INT8 | RBUS_INT16 | RBUS_INT32 => Some hostIf_IntegerType
  | RBUS_UINT8 | RBUS_UINT16 | RBUS_UINT32 => Some hostIf_UnsignedIntType
  | RBUS_INT64 | RBUS_UINT64 => Some hostIf_UnsignedLongType
  | RBUS_STRING => Some hostIf_StringType
  | RBUS_DATETIME => Some hostIf_DateTimeType
  | _ => None
  end.

(** Whether events are published without being asked for. *)
Definition TR_Dml_EventSubHandler (eventName : string) : rbusError_t * bool :=
  if streq "Device.DeviceInfo.X_RDKCENTRAL-COM_RFC.Feature.RDKRemoteDebugger.IssueType" eventName
  then (RBUS_ERROR_SUCCESS, false)
  else if streq "Device.DeviceInfo.X_RDKCENTRAL-COM_RFC.Feature.RDKRemoteDebugger.WebCfgData" eventName
  then (RBUS_ERROR_SUCCESS, false)
  else (RBUS_ERROR_SUCCESS, true).

(** The value of a message, and a text, in the type of the message.  A boolean
    of a message is read as an int. *)
Definition message_value (m : HOSTIF_MsgData_t) : rbusValue :=
  match paramtype m with
  | hostIf_IntegerType => SetInt32 (get_int (paramValue m))
  | hostIf_BooleanType => SetBoolean (negb (get_int (paramValue m) =? 0))
  | hostIf_UnsignedIntType => SetUInt32 (get_uint (paramValue m))
  | hostIf_UnsignedLongType => SetUInt64 (uint64 (le_val (take 8 (paramValue m))))
  | _ => SetString (buf_str (paramValue m))
  end.

Definition text_value (t : HostIf_ParamType_t) (s : string) : rbusValue :=
  match t with
  | hostIf_IntegerType => SetInt32 (string_to_int s)
  | hostIf_BooleanType => SetBoolean (string_to_bool s)
  | hostIf_UnsignedIntType => SetUInt32 (string_to_uint s)
  | hostIf_UnsignedLongType => SetUInt64 (string_to_ulong s)
  | _ => SetString s
  end.

(** The message of a request before its value. *)
Definition request (r : HostIf_ReqType_t) (n : string) (t : HostIf_ParamType_t) (dm : WalDB.DataModelParam)
  : HOSTIF_MsgData_t :=
  set_reqType (Webpa.with_source (Webpa.mk_request n t zero_msg) HOSTIF_SRC_WEBPA
                 (getBSUpdateEnum (WalDB.bsUpdate dm))) r.

Definition atol (s : string) : Z := (strtol s).1.

Definition text_is_true (s : string) : bool :=
  strcaseeq (str_take 4 s) "TRUE"
  || match s with String c _ => is_digit c && negb (Ascii.eqb c "0") | EmptyString => false end.

(** The text of the property in the value of the message. *)
Definition put_text (m : HOSTIF_MsgData_t) (strValue : string) : HOSTIF_MsgData_t :=
  match paramtype m with
  | hostIf_StringType | hostIf_DateTimeType => set_value m (Webpa.fill strValue)
  | hostIf_IntegerType | hostIf_UnsignedIntType => set_value m (put_int (paramValue m) (atoi strValue))
  | hostIf_UnsignedLongType => set_value m (put_ulong (paramValue m) (atol strValue))
  | hostIf_BooleanType => set_value m (put_boolean (paramValue m) (text_is_true strValue))
  end.

Definition read_only (dm : WalDB.DataModelParam) : bool :=
  match WalDB.access dm with Some a => strcaseeq a "readOnly" | None => false end.

Section handlers.
Context `{TinyXml} `{ReqHandler}.

(** The property with its name missing or not; the answer's value is set on
    success only. *)
Definition TR_Dml_GetHandler (doc : option XMLNode) (inProperty : option string) (h : hst)
  : walk (rbusError_t * option rbusValue * hst) :=
  match inProperty with
  | None => Done (RBUS_ERROR_INVALID_INPUT, None, h)
  | Some name =>
      match doc with
      | None => Done (RBUS_ERROR_DESTINATION_RESPONSE_FAILURE, None, h)
      | Some doc =>
          let* found := of_option (WalDB.getParamInfoFromDataModel doc name WalDB.zero_param) in
          match (dm ← found; d ← WalDB.dataType dm; Some (dm, d)) with
          | None => Done (RBUS_ERROR_INVALID_INPUT, None, h)
          | Some (dm, d) =>
              let '(status, param, h') := hostIf_Get (request HOSTIF_GET name (convert2hostIfDataType d) dm) h in
              if (status =? OK) && bool_decide (faultCode param = fcNoFault) then
                Done (RBUS_ERROR_SUCCESS, Some (message_value param), h')
              else
                match WalDB.defaultValue dm with
                | Some defaultValue => Done (RBUS_ERROR_SUCCESS, Some (text_value (paramtype param) defaultValue), h')
                | None =>
                    Done (if bool_decide (faultCode param = fcInvalidParameterName)
                          then RBUS_ERROR_ELEMENT_DOES_NOT_EXIST else RBUS_ERROR_BUS_ERROR, None, h')
                end
          end
      end
  end.

(** The property's name, and its value as a type and a text.  An exception
    that the dispatcher lets out ends the process. *)
Definition TR_Dml_SetHandler (doc : option XMLNode) (rbusPropName : option string)
    (rbusPropValue : option (rbusValueType_t * string)) (h : hst) : walk (rbusError_t * hst) :=
  match rbusPropName, rbusPropValue with
  | Some name, Some (rbusPropType, strValue) =>
      match doc with
      | None => Done (RBUS_ERROR_DESTINATION_RESPONSE_FAILURE, h)
      | Some doc =>
          let* found := of_option (WalDB.getParamInfoFromDataModel doc name WalDB.zero_param) in
          match found with
          | None => Done (RBUS_ERROR_INVALID_INPUT, h)
          | Some dm =>
              if read_only dm then Done (RBUS_ERROR_INVALID_OPERATION, h)
              else
                let t := match WalDB.dataType dm with Some d => convert2hostIfDataType d | None => hostIf_StringType end in
                let param := request HOSTIF_SET name t dm in
                match convertRbus2hostIfDataType rbusPropType with
                | None => Done (RBUS_ERROR_INVALID_INPUT, h)
                | Some inputParamType =>
                    if decide (inputParamType = paramtype param) then
                      let '(status, _, h') := hostIf_Set (put_text param strValue) h in
                      let* st := of_option status in
                      Done (if st =? OK then RBUS_ERROR_SUCCESS else RBUS_ERROR_BUS_ERROR, h')
                    else Done (RBUS_ERROR_INVALID_INPUT, h)
                end
          end
      end
  | _, _ => Done (RBUS_ERROR_INVALID_INPUT, h)
  end.

End handlers.

(** ** Registration *)

(** What is registered for a parameter: a table or a property; the get handler
    is always there. *)
Record element := mkElement { e_name : string; e_table : bool; e_setHandler : bool; e_eventSubHandler : bool }.

#[export] Instance element_eq_dec : EqDecision element.
Proof. solve_decision. Defined.

(** The bus: its states and the handles it gives; a call's Boolean is whether
    it succeeds.  A text that is read can be missing. *)
Class RbusProvider := {
  busState : Type;
  busHandle : Type;
  bus_checkStatus : busState → bool * busState;
  bus_open : string → busState → option busHandle * busState;
  bus_regDataElements : busHandle → list element → busState → bool * busState;
  bus_close : busHandle → busState → busState;
  bus_set : busHandle → string → string → busState → bool * busState;
  bus_get : busHandle → string → busState → option (option string) * busState
}.

Section registration.
Context `{TinyXml} `{RbusProvider}.

Definition max_retry : nat := 6.

(** The wait for the bus, with the number of sleeps. *)
Fixpoint wait_enabled (retries sleeps : nat) (s : busState) : bool * nat * busState :=
  let '(enabled, s') := bus_checkStatus s in
  if enabled then (true, sleeps, s')
  else match retries with
       | O => (false, sleeps, s')
       | S r => wait_enabled r (S sleeps) s'
       end.

Definition set_allowed (doc : option XMLNode) (name : string) : walk bool :=
  match doc with
  | None => Done false
  | Some doc =>
      let* found := of_option (WalDB.getParamInfoFromDataModel doc name WalDB.zero_param) in
      Done match found with Some dm => negb (read_only dm) | None => false end
  end.

Definition data_element (n : string) (ok : bool) : element :=
  let table := contains ".{i}." n in mkElement n table ok (negb table).

(** The loop over the names; [capacity] is what was allocated. *)
Fixpoint data_elements (doc : option XMLNode) (capacity : Z) (l : list string) (acc : list element)
  : walk (list element) :=
  match l with
  | [] => Done acc
  | n :: l' =>
      if isInExclusionList n then data_elements doc capacity l' acc
      else if Z.of_nat (length acc) <? capacity then
        let* ok := set_allowed doc n in
        data_elements doc capacity l' (acc ++ [data_element n ok])
      else Crash
  end.

(** The handle that the other calls use, and the bus. *)
Record provider := mkProvider { rbusHandle : option busHandle; busOf : busState }.

(** The allocation fails on a size that is negative as an int. *)
Definition init_rbus_dml_provider (fuel : nat) (doc : option XMLNode) (alloc : bool) (p : provider)
  : walk provider :=
  let '(enabled, _, s1) := wait_enabled max_retry 0 (busOf p) in
  if negb enabled then Done (mkProvider (rbusHandle p) s1)
  else
    let '(handle, s2) := bus_open "tr69hostif" s1 in
    match handle with
    | None => Done (mkProvider None s2)
    | Some h =>
        let* list := WalList.get_complete_param_list fuel doc in
        match list with
        | (WalList.DB_SUCCESS, l) =>
            let num_of_rbus_params := Z.of_nat (length l) - Z.of_nat (length EXCLUDE_PARAMLIST) in
            if alloc && (0 <=? num_of_rbus_params) then
              let* elements := data_elements doc num_of_rbus_params l [] in
              let '(ok, s3) := bus_regDataElements h elements s2 in
              Done (mkProvider (Some h) (if ok then s3 else bus_close h s3))
            else Done (mkProvider (Some h) s2)
        | _ => Done (mkProvider (Some h) s2)
        end
    end.

Definition setRbusStringParam (rbusParamName rbusParamValue : string) (p : provider) : Z * provider :=
  match rbusHandle p with
  | None => (NOK, p)
  | Some h =>
      let '(ok, s) := bus_set h rbusParamName rbusParamValue (busOf p) in
      (if ok then OK else NOT_HANDLED, mkProvider (Some h) s)
  end.

(** The text is written to the caller's variable, which stays as it is when
    there is none. *)
Definition getRbusStringParam (rbusParamName : string) (out : option string) (p : provider)
  : Z * option string * provider :=
  match rbusHandle p with
  | None => (NOK, out, p)
  | Some h =>
      let '(r, s) := bus_get h rbusParamName (busOf p) in
      match r with
      | None => (NOK, out, mkProvider (Some h) s)
      | Some (Some text) => (OK, Some text, mkProvider (Some h) s)
      | Some None => (OK, out, mkProvider (Some h) s)
      end
  end.

End registration.

(** ** Values *)

(** How the bus may print a value: a boolean as a word or as a number. *)
Definition bus_text (t : HostIf_ParamType_t) (v s : string) : Prop :=
  match t with
  | hostIf_BooleanType => (v = "true" ∧ (s = "true" ∨ s = "1")) ∨ (v = "false" ∧ (s = "false" ∨ s = "0"))
  | _ => s = v
  end%string.

Lemma atoi_dec z : LONG_MIN <= z <= LONG_MAX → atoi (dec z) = int32 z.
Proof. intros Hz. unfold atoi. by rewrite strtol_dec. Qed.

Lemma atol_dec z : 0 <= z < 2 ^ 64 → atol (dec z) = Z.min z LONG_MAX.
Proof.
  intros Hz. unfold atol, strtol. rewrite c_str_dec, strto_dec by lia.
  rewrite (proj2 (Z.ltb_ge z 0)), Z.abs_eq by lia. cbn [fst]. unfold LONG_MIN, LONG_MAX. lia.
Qed.

Lemma le_val_put8 buf z : le_val (take 8 (put_ulong buf z)) = uint64 z.
Proof. apply le_val_put. Qed.

Lemma get_int_boolean b : get_int (put_boolean zero_buffer b) = if b then 1 else 0.
Proof. by destruct b. Qed.

Lemma paramtype_put_text m s : paramtype (put_text m s) = paramtype m.
Proof. unfold put_text. destruct (paramtype m) eqn:E; exact E. Qed.

(** WebPA puts a value it accepts in the message the same way. *)
Lemma put_text_encode m v s :
  Webpa.settable (paramtype m) v → isLengthyParam m = false → bus_text (paramtype m) v s →
  Webpa.encode_value m v = inr (put_text m s).
Proof.
  intros Hv Hl Hs. unfold Webpa.encode_value, put_text.
  destruct (paramtype m); cbn [Webpa.settable canonical_text bus_text] in Hv, Hs; try done.
  - by rewrite Hl, Hs.
  - subst s. destruct Hv as (z & -> & Hz). rewrite strtol_dec, atoi_dec by (unfold LONG_MIN, LONG_MAX; lia). done.
  - subst s. destruct Hv as (z & -> & Hz). rewrite strtol_dec, atoi_dec by (unfold LONG_MIN, LONG_MAX; lia).
    rewrite int32_id by lia. by rewrite (proj2 (Z.ltb_ge z 0)) by lia.
  - destruct Hs as [[-> [-> | ->]]|[-> [-> | ->]]]; done.
Qed.

(** ** Properties of the handlers *)
Section handlers_correct.
Context `{TinyXml} `{ReqHandler} `{Wdmp} `{Rbus}.

(** The set of a parameter that the data model lets be written. *)
Lemma set_writable doc n dm ty s h :
  Webpa.owned doc n dm → read_only dm = false → convertRbus2hostIfDataType ty = Some (Webpa.entry_type dm) →
  TR_Dml_SetHandler (Some doc) (Some n) (Some (ty, s)) h
  = (let '(status, _, h') := hostIf_Set (put_text (request HOSTIF_SET n (Webpa.entry_type dm) dm) s) h in
     let* st := of_option status in Done (if st =? OK then RBUS_ERROR_SUCCESS else RBUS_ERROR_BUS_ERROR, h')).
Proof.
  intros Ho Hr Ht. unfold TR_Dml_SetHandler. rewrite Ho. cbn [of_option wbind]. rewrite Hr, Ht.
  change (match WalDB.dataType dm with Some d => convert2hostIfDataType d | None => hostIf_StringType end)
    with (Webpa.entry_type dm).
  by rewrite decide_True by done.
Qed.

Lemma request_webpa n dm :
  (String.length n < Webpa.MAX_PARAM_LENGTH)%nat →
  strcaseeq n "Device.X_RDKCENTRAL-COM_T2.ReportProfiles" = false →
  request HOSTIF_SET n (Webpa.entry_type dm) dm = set_reqType (Webpa.set_request n dm) HOSTIF_SET.
Proof.
  intros Hl Hrp. unfold Webpa.set_request, request. rewrite (str_take_all _ n) by lia. rewrite Hrp.
  assert (paramValueLong zero_msg = None) as Hlong by reflexivity.
  assert (isLengthyParam zero_msg = false) as Hlen by reflexivity.
  revert Hlong Hlen. generalize zero_msg as m. intros m Hlong Hlen.
  unfold Webpa.with_long, Webpa.with_source, Webpa.mk_request, set_reqType.
  cbn [paramName paramValue paramValueLong transactionID paramLen instanceNum paramtype reqType faultCode requestor
       bsUpdate isLengthyParam].
  by rewrite Hlong, Hlen.
Qed.

Lemma put_text_reqType m r s : put_text (set_reqType m r) s = set_reqType (put_text m s) r.
Proof. unfold put_text. change (paramtype (set_reqType m r)) with (paramtype m).
  generalize (Webpa.fill s). intros l. destruct (paramtype m); reflexivity.
Qed.

(** C37. A set over the RBus of a value that WebPA takes too reaches the
    dispatcher once, as the very message that a WebPA set of the same value
    makes, whichever way the bus prints a boolean: a parameter's handler cannot
    tell the two apart. The values are a string that fits the message, true or
    false, an int above -10^8 and below 10^9 and an unsigned int below 2^31 (the
    unsigned ones above that and the unsigned longs WebPA refuses, see
    webpa_set_refused, and the RBus delivers, see rbus_value_roundtrip), printed
    in decimal, sent in the parameter's type; the parameter is one of the data
    model's that can be written, with a name that fits the message, other than
    the report profiles. *)
Theorem rbus_set_delivers doc n dm v ty s tid pal h :
  Webpa.owned doc n dm → read_only dm = false → convertRbus2hostIfDataType ty = Some (Webpa.entry_type dm) →
  Webpa.settable (Webpa.entry_type dm) v → bus_text (Webpa.entry_type dm) v s →
  (String.length n < Webpa.MAX_PARAM_LENGTH)%nat →
  strcaseeq n "Device.X_RDKCENTRAL-COM_T2.ReportProfiles" = false →
  ∃ m, HostIf.getStringValue m = Some v ∧ paramName m = n
    ∧ TR_Dml_SetHandler (Some doc) (Some n) (Some (ty, s)) h
      = (let '(status, _, h') := hostIf_Set m h in
         let* st := of_option status in Done (if st =? OK then RBUS_ERROR_SUCCESS else RBUS_ERROR_BUS_ERROR, h'))
    ∧ Webpa.SetParamInfo (Some doc) (Webpa.mkParamVal n (Some v) (Webpa.converttoWalType (Webpa.entry_type dm)))
        tid pal
      = (let '(status, m', h') := hostIf_Set m (Webpa.hs pal) in
         let* st := of_option status in
         Done (if st =? 0 then Webpa.WAL_SUCCESS else Webpa.convertFaultCodeToWalStatus (faultCode m'),
               Webpa.set_hs pal h')).
Proof.
  intros Ho Hr Hty Hv Hs Hl Hrp.
  assert (paramtype (Webpa.set_request n dm) = Webpa.entry_type dm) as Ht by done.
  assert (isLengthyParam (Webpa.set_request n dm) = false) as Hlong.
  { unfold Webpa.set_request. rewrite (str_take_all _ n) by lia. exact Hrp. }
  assert (Webpa.encode_value (Webpa.set_request n dm) v = inr (put_text (Webpa.set_request n dm) s)) as He
    by (apply put_text_encode; rewrite ?Ht; done).
  exists (put_text (request HOSTIF_SET n (Webpa.entry_type dm) dm) s).
  rewrite request_webpa, put_text_reqType by done.
  destruct (Webpa.encode_settable (Webpa.set_request n dm) v) as (m & He' & Hg & Hname & _);
    [by rewrite Ht|done|]. rewrite He in He'. injection He' as <-. split_and!.
  - exact Hg.
  - change (paramName (set_reqType ?y _)) with (paramName y). rewrite Hname. apply str_take_all. lia.
  - rewrite (set_writable doc n dm ty s h Ho Hr Hty), request_webpa, put_text_reqType by done. done.
  - rewrite Webpa.SetParamInfo_owned, He by done. done.
Qed.

(** What is refused is refused before the dispatcher: a missing name or value, no data
    model, a name it does not have, a read-only parameter, a type of the bus
    that is not the parameter's.  A date is never accepted, since no type of the
    data model is read as a date. *)
Theorem rbus_set_refused doc n dm ty s h :
  (TR_Dml_SetHandler (Some doc) None (Some (ty, s)) h = Done (RBUS_ERROR_INVALID_INPUT, h)
   ∧ TR_Dml_SetHandler (Some doc) (Some n) None h = Done (RBUS_ERROR_INVALID_INPUT, h)
   ∧ TR_Dml_SetHandler None (Some n) (Some (ty, s)) h = Done (RBUS_ERROR_DESTINATION_RESPONSE_FAILURE, h))
  ∧ (WalDB.getParamInfoFromDataModel doc n WalDB.zero_param = Some None →
     TR_Dml_SetHandler (Some doc) (Some n) (Some (ty, s)) h = Done (RBUS_ERROR_INVALID_INPUT, h))
  ∧ (Webpa.owned doc n dm →
     TR_Dml_SetHandler (Some doc) (Some n) (Some (RBUS_DATETIME, s)) h
     = Done (if read_only dm then RBUS_ERROR_INVALID_OPERATION else RBUS_ERROR_INVALID_INPUT, h)
     ∧ (convertRbus2hostIfDataType ty ≠ Some (Webpa.entry_type dm) ∨ read_only dm = true →
        TR_Dml_SetHandler (Some doc) (Some n) (Some (ty, s)) h
        = Done (if read_only dm then RBUS_ERROR_INVALID_OPERATION else RBUS_ERROR_INVALID_INPUT, h))).
Proof.
  split; [done|]. unfold TR_Dml_SetHandler. split; [by intros ->|].
  intros ->. cbn [of_option wbind].
  change (match WalDB.dataType dm with Some d => convert2hostIfDataType d | None => hostIf_StringType end)
    with (Webpa.entry_type dm).
  assert (Webpa.entry_type dm ≠ hostIf_DateTimeType) as Hdate.
  { unfold Webpa.entry_type, Webpa.converttohostIfType. by repeat case_match. }
  destruct (read_only dm); [done|]. split.
  - cbn [convertRbus2hostIfDataType]. by rewrite decide_False by (intros E; by apply Hdate).
  - intros [Hne|?]; [|done]. destruct (convertRbus2hostIfDataType ty) as [t|]; [|done].
    rewrite decide_False; [done|]. intros E. apply Hne. by rewrite E.
Qed.

(** What a get answers: the handler's value in the type the handler gave it, the data
    model's default when the handler fails, an error otherwise. *)
Definition get_result (dm : WalDB.DataModelParam) (status : Z) (m : HOSTIF_MsgData_t)
  : rbusError_t * option rbusValue :=
  if (status =? OK) && bool_decide (faultCode m = fcNoFault) then (RBUS_ERROR_SUCCESS, Some (message_value m))
  else match WalDB.defaultValue dm with
       | Some def => (RBUS_ERROR_SUCCESS, Some (text_value (paramtype m) def))
       | None => (if bool_decide (faultCode m = fcInvalidParameterName)
                  then RBUS_ERROR_ELEMENT_DOES_NOT_EXIST else RBUS_ERROR_BUS_ERROR, None)
       end.

Lemma get_owned doc n dm d h :
  Webpa.owned doc n dm → WalDB.dataType dm = Some d →
  TR_Dml_GetHandler (Some doc) (Some n) h
  = (let '(status, m, h') := hostIf_Get (request HOSTIF_GET n (Webpa.entry_type dm) dm) h in
     Done ((get_result dm status m).1, (get_result dm status m).2, h')).
Proof.
  intros Ho Hd. unfold TR_Dml_GetHandler. rewrite Ho. cbn [of_option wbind mbind option_bind]. rewrite Hd.
  cbn [mbind option_bind]. unfold Webpa.entry_type. rewrite Hd.
  change (Webpa.converttohostIfType d) with (convert2hostIfDataType d).
  destruct (hostIf_Get _ h) as [[status m] h']. unfold get_result. case_match; [done|]. by case_match.
Qed.

Definition has_type (t : HostIf_ParamType_t) (v : rbusValue) : Prop :=
  match v with
  | SetInt32 z => t = hostIf_IntegerType ∧ - 2 ^ 31 <= z < 2 ^ 31
  | SetUInt32 z => t = hostIf_UnsignedIntType ∧ 0 <= z < 2 ^ 32
  | SetUInt64 z => t = hostIf_UnsignedLongType ∧ 0 <= z < 2 ^ 64
  | SetBoolean _ => t = hostIf_BooleanType
  | SetString _ => t = hostIf_StringType ∨ t = hostIf_DateTimeType
  end.

Lemma message_value_type m : has_type (paramtype m) (message_value m).
Proof.
  unfold message_value. destruct (paramtype m); cbn [has_type]; try by auto.
  - split; [done|apply int32_range].
  - split; [done|]. unfold get_uint, uint32. by apply Z.mod_pos_bound.
  - split; [done|]. unfold uint64. by apply Z.mod_pos_bound.
Qed.

Lemma strtoul_range s : 0 <= (strtoul s).1 < 2 ^ 64.
Proof.
  unfold strtoul, ULONG_MAX, uint64. destruct (strto _) as [[[neg n] r]|]; [|done]. cbn [fst].
  destruct (Z.ltb_spec (2 ^ 64 - 1) n); [lia|]. by apply Z.mod_pos_bound.
Qed.

Lemma text_value_type t s : has_type t (text_value t s).
Proof.
  destruct t; cbn [has_type text_value]; try by auto.
  - split; [done|]. unfold string_to_int. apply int32_range.
  - split; [done|]. unfold string_to_uint, uint32. by apply Z.mod_pos_bound.
  - split; [done|]. unfold string_to_ulong. apply strtoul_range.
Qed.

(** C36. A get over the RBus of a parameter of the data model asks the dispatcher once,
    with a message of the declared type, and what it answers is typed by the
    message that comes back.  Without a fault it is the value that the handler put
    into the message, otherwise the default of the data model, either as a value
    of the message's type and in that type's range: of the declared type when the
    handler left it or set that type itself, of the type that it set when it set
    another.  Without a default it is an error and no value. *)
Theorem rbus_get_typed doc n dm d h :
  Webpa.owned doc n dm → WalDB.dataType dm = Some d →
  let '(status, m, h') := hostIf_Get (request HOSTIF_GET n (Webpa.converttohostIfType d) dm) h in
  ∃ e v, TR_Dml_GetHandler (Some doc) (Some n) h = Done (e, v, h')
    ∧ match v with
      | Some x =>
          e = RBUS_ERROR_SUCCESS ∧ has_type (paramtype m) x
          ∧ (if decide (status = OK ∧ faultCode m = fcNoFault) then x = message_value m
             else ∃ def, WalDB.defaultValue dm = Some def ∧ x = text_value (paramtype m) def)
      | None =>
          ¬ (status = OK ∧ faultCode m = fcNoFault) ∧ WalDB.defaultValue dm = None
          ∧ e = if decide (faultCode m = fcInvalidParameterName)
                then RBUS_ERROR_ELEMENT_DOES_NOT_EXIST else RBUS_ERROR_BUS_ERROR
      end.
Proof.
  intros Ho Hd. rewrite (get_owned doc n dm d) by done.
  assert (Webpa.entry_type dm = Webpa.converttohostIfType d) as -> by (unfold Webpa.entry_type; by rewrite Hd).
  destruct (hostIf_Get _ h) as [[status m] h1]. eexists _, _. split; [done|]. unfold get_result.
  destruct ((status =? OK) && bool_decide (faultCode m = fcNoFault)) eqn:E.
  - apply andb_true_iff in E as [->%Z.eqb_eq Hf%bool_decide_eq_true]. cbn [fst snd].
    split; [done|]. split; [apply message_value_type|]. by rewrite decide_True.
  - assert (¬ (status = OK ∧ faultCode m = fcNoFault)) as Hne.
    { intros [-> Hf]. by rewrite Z.eqb_refl, bool_decide_true in E. }
    destruct (WalDB.defaultValue dm) as [def|]; cbn [fst snd].
    + split; [done|]. split; [apply text_value_type|]. rewrite decide_False by done. by exists def.
    + split; [done|].
      split; [done|].
      clear E. case_bool_decide; [by rewrite decide_True|by rewrite decide_False].
Qed.

End handlers_correct.

(** A number set over the RBus and answered by a handler that keeps the message is the
    same number over its type's whole range, but an unsigned long above the
    largest signed one, which becomes that one. *)
Theorem rbus_value_roundtrip m z :
  (paramtype m = hostIf_IntegerType → - 2 ^ 31 <= z < 2 ^ 31 → message_value (put_text m (dec z)) = SetInt32 z)
  ∧ (paramtype m = hostIf_UnsignedIntType → 0 <= z < 2 ^ 32 → message_value (put_text m (dec z)) = SetUInt32 z)
  ∧ (paramtype m = hostIf_UnsignedLongType → 0 <= z < 2 ^ 64 →
     message_value (put_text m (dec z)) = SetUInt64 (Z.min z (2 ^ 63 - 1))).
Proof.
  unfold message_value. rewrite paramtype_put_text. unfold put_text.
  split_and!; intros -> Hz; cbn [paramValue set_value].
  - rewrite atoi_dec by (unfold LONG_MIN, LONG_MAX; lia). by rewrite get_put_int, !int32_id by (rewrite ?int32_id; lia).
  - rewrite atoi_dec by (unfold LONG_MIN, LONG_MAX; lia).
    change (put_int ?b ?x) with (put_uint b x). rewrite get_put_uint, uint32_int32.
    by rewrite Z.mod_small.
  - rewrite atol_dec, le_val_put8 by done. unfold uint64, LONG_MAX. by rewrite Z.mod_mod, Z.mod_small by lia.
Qed.

(** ** Properties of the registration *)
Section registration_correct.
Context `{TinyXml} `{RbusProvider}.

(** The bus is asked at most seven times, with a sleep between two questions. *)
Lemma wait_sleeps retries sleeps s :
  (sleeps ≤ (wait_enabled retries sleeps s).1.2 ≤ sleeps + retries)%nat
  ∧ ((wait_enabled retries sleeps s).1.1 = false → (wait_enabled retries sleeps s).1.2 = (sleeps + retries)%nat).
Proof.
  revert sleeps s. induction retries as [|r IH]; intros sleeps s; cbn [wait_enabled];
    destruct (bus_checkStatus s) as [[] s']; cbn [fst snd]; try (split; [lia|done]); try (split; lia).
  specialize (IH (S sleeps) s') as [? Hf]. split; [lia|]. intros E. rewrite (Hf E). lia.
Qed.

Definition registered (ok : string → bool) (l : list string) : list element :=
  (λ n, data_element n (ok n)) <$> filter (λ n, isInExclusionList n = false) l.

Definition excluded (l : list string) : nat := length (filter (λ n, isInExclusionList n = true) l).

Lemma excluded_rest l :
  (length (filter (λ n, isInExclusionList n = false) l) + excluded l = length l)%nat.
Proof.
  induction l as [|n l IH]; [done|]. unfold excluded in *. rewrite !filter_cons.
  destruct (isInExclusionList n) eqn:E.
  - rewrite decide_False, decide_True by congruence. cbn [length]. lia.
  - rewrite decide_True, decide_False by congruence. cbn [length]. lia.
Qed.

Lemma data_elements_run doc cap ok l acc :
  (∀ n, n ∈ l → isInExclusionList n = false → set_allowed doc n = Done (ok n)) →
  data_elements doc cap l acc
  = if bool_decide (filter (λ n, isInExclusionList n = false) l = [])
       || (Z.of_nat (length acc + length (filter (λ n, isInExclusionList n = false) l)) <=? cap)
    then Done (acc ++ registered ok l) else Crash.
Proof.
  revert acc. induction l as [|n l IH]; intros acc Hok; [by rewrite app_nil_r|].
  cbn [data_elements]. unfold registered. rewrite filter_cons.
  destruct (isInExclusionList n) eqn:E.
  { rewrite decide_False by congruence. apply IH. intros n' Hn'. apply Hok. by right. }
  rewrite decide_True by done. rewrite (Hok n) by (done || by left). rewrite bool_decide_eq_false_2 by done.
  cbn [wbind orb length]. destruct (Z.ltb_spec (Z.of_nat (length acc)) cap).
  - rewrite IH by (intros n' Hn'; apply Hok; by right). rewrite length_app. cbn [length].
    replace (length acc + 1 + length (filter (λ n0, isInExclusionList n0 = false) l))%nat
      with (length acc + S (length (filter (λ n0, isInExclusionList n0 = false) l)))%nat by lia.
    rewrite fmap_cons, <- app_assoc. unfold registered. destruct (Z.leb_spec
      (Z.of_nat (length acc + S (length (filter (λ n0, isInExclusionList n0 = false) l)))) cap).
    + by rewrite orb_true_r.
    + rewrite orb_false_r. case_bool_decide as Hnil; [|done]. rewrite Hnil in *. cbn [length] in *. lia.
  - by rewrite (proj2 (Z.leb_gt _ _)) by lia.
Qed.

(** The provider registers what the data model lists: every parameter but those that
    another component owns, in the model's order, a table when its name has an
    instance number, with a set handler when the model lets it be written.  The
    array of elements has two entries fewer than the model has parameters, so
    this needs both excluded names in the model; with fewer of them the array
    is written past its end. *)
Theorem rbus_registers_model fuel doc l ok p sleeps s1 h s2 :
  wait_enabled max_retry 0 (busOf p) = (true, sleeps, s1) → bus_open "tr69hostif" s1 = (Some h, s2) →
  WalList.get_complete_param_list fuel doc = Done (WalList.DB_SUCCESS, l) →
  (∀ n, n ∈ l → isInExclusionList n = false → set_allowed doc n = Done (ok n)) → (2 < length l)%nat →
  ((2 ≤ excluded l)%nat →
   init_rbus_dml_provider fuel doc true p
   = (let '(done, s3) := bus_regDataElements h (registered ok l) s2 in
      Done (mkProvider (Some h) (if done then s3 else bus_close h s3))))
  ∧ ((excluded l < 2)%nat → init_rbus_dml_provider fuel doc true p = Crash).
Proof.
  intros Hw Ho Hl Hok Hlen. unfold init_rbus_dml_provider. rewrite Hw, Ho, Hl. cbn [negb wbind andb].
  change (Z.of_nat (length EXCLUDE_PARAMLIST)) with 2.
  rewrite (proj2 (Z.leb_le 0 _)) by lia. rewrite (data_elements_run _ _ ok) by done.
  pose proof (excluded_rest l) as Hx. cbn [length Nat.add].
  split; intros Hex.
  - by rewrite (proj2 (Z.leb_le _ _)), orb_true_r by lia.
  - rewrite (proj2 (Z.leb_gt _ _)), orb_false_r by lia. by rewrite bool_decide_eq_false_2 by (intros E; rewrite E in Hx; cbn in Hx; lia).
Qed.

(** When the bus refuses the registration the handle is closed but kept: what the
    daemon later sets over the bus goes through the closed handle. *)
Theorem refused_handle_kept fuel doc l ok p sleeps s1 h s2 s3 n v :
  wait_enabled max_retry 0 (busOf p) = (true, sleeps, s1) → bus_open "tr69hostif" s1 = (Some h, s2) →
  WalList.get_complete_param_list fuel doc = Done (WalList.DB_SUCCESS, l) →
  (∀ n, n ∈ l → isInExclusionList n = false → set_allowed doc n = Done (ok n)) → (2 ≤ excluded l)%nat →
  bus_regDataElements h (registered ok l) s2 = (false, s3) →
  ∃ p', init_rbus_dml_provider fuel doc true p = Done p'
    ∧ (setRbusStringParam n v p').2 = mkProvider (Some h) (bus_set h n v (bus_close h s3)).2.
Proof.
  intros Hw Ho Hl Hok Hex Hr. exists (mkProvider (Some h) (bus_close h s3)). split.
  - unfold init_rbus_dml_provider. rewrite Hw, Ho, Hl. cbn [negb wbind andb].
    change (Z.of_nat (length EXCLUDE_PARAMLIST)) with 2. pose proof (excluded_rest l).
    rewrite (proj2 (Z.leb_le 0 _)) by lia. rewrite (data_elements_run _ _ ok) by done. cbn [length Nat.add].
    rewrite (proj2 (Z.leb_le _ _)), orb_true_r by lia. cbn [wbind app]. by rewrite Hr.
  - unfold setRbusStringParam. cbn [rbusHandle busOf]. by destruct (bus_set h n v _).
Qed.

End registration_correct.

(** ** Concrete inputs *)
#[local] Existing Instance WalDB.toy_xml.

(** A bus that counts the questions, is up at the second one, and refuses a
    registration when it is not empty; its state is what was registered. *)
#[local] Instance ex_provider : RbusProvider := {
  busState := nat * list element;
  busHandle := string;
  bus_checkStatus s := (bool_decide (0 < s.1)%nat, (S s.1, s.2));
  bus_open n s := (Some n, s);
  bus_regDataElements _ l s := (bool_decide (s.2 = []), (s.1, l));
  bus_close _ s := (s.1, []);
  bus_set _ _ _ s := (true, s);
  bus_get _ _ s := (None, s)
}.

Definition ex_names : list (string * list WalDB.toy_node) :=
  [("Device.X_RDKCENTRAL-COM_T2.",
    [Webpa.ex_param "ReportProfiles" "string" ""; Webpa.ex_param "ReportProfilesMsgPack" "string" ""]);
   ("Device.X.", [Webpa.ex_param "Text" "string" "none"; Webpa.ex_param "Flag" "boolean" "false"])]%string.

Definition ex_model : @XMLNode WalDB.toy_xml :=
  WalDB.toy_model ((λ o, WalDB.toy_object o.1 o.2) <$> ex_names).

Definition ex_flag : WalDB.DataModelParam :=
  WalDB.mkParam (Some "Device.X.Flag") (Some "Flag") (Some "boolean") (Some "readWrite") (Some "false")
    (Some "allUpdate")%string.

Definition ex_get : ReqHandler := {|
  hst := unit;
  hostIf_Get := λ m h, (if streq (paramName m) "Device.X.Flag" then OK else NOK, m, h);
  hostIf_Set := λ m h, (Some OK, m, h);
  hostIf_GetAttributes := λ m h, (Some NOK, m, h);
  hostIf_SetAttributes := λ m h, (Some NOK, m, h)
|}.

Lemma rbus_set_delivers_witness :
  @TR_Dml_SetHandler _ ex_get (Some Webpa.ex_doc) (Some "Device.X.Flag"%string) (Some (RBUS_BOOLEAN, "1"%string)) ()
  = Done (RBUS_ERROR_SUCCESS, ()).
Proof.
  destruct (@rbus_set_delivers WalDB.toy_xml ex_get Webpa.ex_rbus Webpa.ex_doc "Device.X.Flag" ex_flag "true"
    RBUS_BOOLEAN "1" None (@Webpa.mkPal ex_get Webpa.ex_rbus false () ()) ()) as (m & _ & _ & Hs & _).
  - vm_compute. reflexivity.
  - reflexivity.
  - reflexivity.
  - by left.
  - left. split; [reflexivity|by right].
  - apply Nat.ltb_lt; vm_compute; reflexivity.
  - vm_compute. reflexivity.
  - exact Hs.
Defined.

Lemma rbus_set_refused_witness :
  @TR_Dml_SetHandler _ ex_get (Some Webpa.ex_doc) (Some "Device.X.Flag"%string) (Some (RBUS_STRING, "true"%string)) ()
  = Done (RBUS_ERROR_INVALID_INPUT, ()).
Proof.
  refine (proj2 (proj2 (proj2 (@rbus_set_refused WalDB.toy_xml ex_get Webpa.ex_doc "Device.X.Flag" ex_flag
    RBUS_STRING "true" ())) _) _).
  - vm_compute. reflexivity.
  - left. discriminate.
Defined.

Lemma rbus_get_typed_witness :
  ∃ e v, @TR_Dml_GetHandler _ ex_get (Some Webpa.ex_doc) (Some "Device.X.Flag"%string) () = Done (e, v, ())
    ∧ e = RBUS_ERROR_SUCCESS.
Proof.
  destruct (@rbus_get_typed WalDB.toy_xml ex_get Webpa.ex_doc "Device.X.Flag" ex_flag "boolean" ())
    as (e & v & Hg & Hv); [vm_compute; reflexivity|reflexivity|].
  exists e, v. split; [exact Hg|]. destruct v; [exact (proj1 Hv)|].
  exfalso. apply (proj1 Hv). split; reflexivity.
Defined.

Lemma rbus_value_roundtrip_witness :
  message_value (put_text (request HOSTIF_SET "Device.X.Big" hostIf_UnsignedLongType ex_flag) (dec (2 ^ 63)))
  = SetUInt64 (2 ^ 63 - 1).
Proof.
  apply (proj2 (proj2 (rbus_value_roundtrip
    (request HOSTIF_SET "Device.X.Big" hostIf_UnsignedLongType ex_flag) (2 ^ 63)))); [reflexivity|].
  split; [discriminate|reflexivity].
Defined.

Definition ex_listed : list string :=
  ["Device.X_RDKCENTRAL-COM_T2.ReportProfiles"; "Device.X_RDKCENTRAL-COM_T2.ReportProfilesMsgPack";
   "Device.X.Text"; "Device.X.Flag"]%string.

Lemma rbus_registers_model_witness :
  @init_rbus_dml_provider WalList.doc_xml ex_provider 100 (Some ex_model) true (@mkProvider ex_provider None (O, []))
  = Done (@mkProvider ex_provider (Some "tr69hostif"%string)
      (2%nat, [data_element "Device.X.Text" true; data_element "Device.X.Flag" true])).
Proof.
  refine (proj1 (@rbus_registers_model WalList.doc_xml ex_provider 100 (Some ex_model) ex_listed (λ _, true)
    (@mkProvider ex_provider None (O, [])) 1 (2%nat, []) "tr69hostif"%string (2%nat, []) _ _ _ _ _) _).
  - reflexivity.
  - reflexivity.
  - vm_compute. reflexivity.
  - intros n Hn Hx.
    repeat (apply elem_of_cons in Hn as [->|Hn]; [first [discriminate Hx | vm_compute; reflexivity]|]).
    by apply not_elem_of_nil in Hn.
  - apply Nat.ltb_lt. reflexivity.
  - apply Nat.leb_le. vm_compute. reflexivity.
Defined.

Lemma refused_handle_kept_witness :
  ∃ p', @init_rbus_dml_provider WalList.doc_xml ex_provider 100 (Some ex_model) true
          (@mkProvider ex_provider None (O, [data_element "old" true])) = Done p'
    ∧ (setRbusStringParam "a" "b" p').2 = @mkProvider ex_provider (Some "tr69hostif"%string) (2%nat, []).
Proof.
  refine (@refused_handle_kept WalList.doc_xml ex_provider 100 (Some ex_model) ex_listed (λ _, true)
    (@mkProvider ex_provider None (O, [data_element "old" true])) 1 (2%nat, [data_element "old" true])
    "tr69hostif"%string (2%nat, [data_element "old" true])
    (2%nat, registered (λ _, true) ex_listed) "a" "b" _ _ _ _ _ _).
  - reflexivity.
  - reflexivity.
  - vm_compute. reflexivity.
  - intros n Hn Hx.
    repeat (apply elem_of_cons in Hn as [->|Hn]; [first [discriminate Hx | vm_compute; reflexivity]|]).
    by apply not_elem_of_nil in Hn.
  - apply Nat.leb_le. vm_compute. reflexivity.
  - vm_compute. reflexivity.
Defined.

End RbusDml.
