(* ===== verification/SmallClients.v ===== *)
(** * Three small managers

    [XRdkCentralT2] models handlers/src/hostIf_XrdkCentralT2_ReqHandler.cpp, which
    passes the telemetry profiles on to the RBus; [XRdkProfile] models
    handlers/src/x_rdk_req_handler.cpp with profiles/Device/x_rdk_profile.cpp, the
    addresses that WebPA starts with, kept in the bootstrap store; [XREClient] models
    handlers/src/hostIf_XREClient_ReqHandler.cpp, the check for new firmware. *)
From stdpp Require Import base list strings gmap.
From Stdlib Require Import Ascii ZArith Lia.
From S2P Require Import Prelude HostIf FileStore BSJournal BSStore MsgHandler WalDB WalList FrontEnd Webpa ProfileIO.
From S2P Require Import DeviceInfo DeviceClient RbusDml.
Import WalList (walk, Done, Crash, OutOfFuel, wbind, of_option).

#[local] Arguments streq : simpl never.

Module XRdkCentralT2.
Import RbusDml (RbusProvider, provider, setRbusStringParam, getRbusStringParam).

Definition T2_REPORT_PROFILE_PARAM : string := "Device.X_RDKCENTRAL-COM_T2.ReportProfiles".
Definition T2_REPORT_PROFILES_MSGPACK : string := "Device.X_RDKCENTRAL-COM_T2.ReportProfilesMsgPack".

Section handlers.
Context `{RbusProvider}.

(** [None]: the length of a text that is not there is taken.  The answers of the
    bus to a set are not looked at. *)
Definition handleSetMsg (m : HOSTIF_MsgData_t) (p : provider) : option (Z * HOSTIF_MsgData_t * provider) :=
  let text := buf_str (paramValue m) in
  if strcaseeq (paramName m) T2_REPORT_PROFILE_PARAM then
    if is_empty text then Some (OK, m, p)
    else match (if isLengthyParam m then paramValueLong m else None) with
         | Some long =>
             let p1 := (setRbusStringParam T2_REPORT_PROFILE_PARAM long p).2 in
             let '(ret, read, p2) := getRbusStringParam T2_REPORT_PROFILE_PARAM None p1 in
             if (ret =? OK) && bool_decide (read = None) then None
             else Some (OK, Webpa.with_long m (isLengthyParam m) None, p2)
         | None => Some (OK, m, (setRbusStringParam T2_REPORT_PROFILE_PARAM text p).2)
         end
  else if strcaseeq (paramName m) T2_REPORT_PROFILES_MSGPACK then
    if is_empty text then Some (OK, m, p)
    else Some (OK, m, (setRbusStringParam T2_REPORT_PROFILES_MSGPACK text p).2)
  else Some (NOT_HANDLED, set_fault m fcInvalidParameterName, p).

Definition handleGetMsg (m : HOSTIF_MsgData_t) (p : provider) : option (Z * HOSTIF_MsgData_t * provider) :=
  if strcaseeq (paramName m) T2_REPORT_PROFILE_PARAM then
    let m1 := Webpa.with_long m true (paramValueLong m) in
    let '(ret, read, p1) := getRbusStringParam T2_REPORT_PROFILE_PARAM None p in
    if ret =? OK then value ← read; Some (OK, Webpa.with_long m true (Some value), p1)
    else Some (NOT_HANDLED, m1, p1)
  else if strcaseeq (paramName m) T2_REPORT_PROFILES_MSGPACK then
    let '(ret, read, p1) := getRbusStringParam T2_REPORT_PROFILES_MSGPACK None p in
    if ret =? OK then value ← read; Some (OK, set_value m (Webpa.fill value), p1)
    else Some (NOT_HANDLED, m, p1)
  else Some (NOK, m, p).

(** ** The manager behind the dispatcher *)
Context (others : HostIf_ParamMgr_t → request → HOSTIF_MsgData_t → provider → outcome provider)
        (abnormal : request → HOSTIF_MsgData_t → provider → outcome provider)
        (time : request → HOSTIF_MsgData_t → Z).

Definition t2_handler (r : request) (m : HOSTIF_MsgData_t) (p : provider) : outcome provider :=
  let answer res := match res with Some (ret, m', p') => Returned ret m' p' | None => abnormal r m p end in
  match r with
  | GetMsg => answer (handleGetMsg m p)
  | SetMsg => answer (handleSetMsg m p)
  | _ => Returned NOT_HANDLED m p
  end.

Definition managers : Managers := {|
  dev := provider;
  handle := λ mgr r m p,
    (if decide (mgr = HOSTIF_TelemetryMgr) then t2_handler r m p else others mgr r m p, time r m)
|}.
End handlers.

(** ** The profiles from the cloud *)
Section from_the_cloud.
Context `{TinyXml} `{RbusProvider} `{Wdmp} `{Rbus} `{GHashTable}.
Variables (others : HostIf_ParamMgr_t → request → HOSTIF_MsgData_t → provider → outcome provider)
  (abnormal : request → HOSTIF_MsgData_t → provider → outcome provider)
  (time : request → HOSTIF_MsgData_t → Z) (b : MsgHandler.build) (t : option ghash) (clock : nat → Z).

#[local] Instance daemon : ReqHandler := @dispatcher _ (managers others abnormal time) b t clock.

(** The bus as the telemetry manager left it. *)
Definition bus_of (s : Webpa.pal) : provider := let '(_, _, _, p) := Webpa.hs s in p.

(** The telemetry profiles that the cloud sets are answered as set and are never
    given to the bus: WebPA puts them into the long value, and the handler forwards
    the long value only when the short one, which is empty then, is not. *)
Theorem cloud_profiles_dropped doc v dm tid s :
  Webpa.owned doc T2_REPORT_PROFILE_PARAM dm → Webpa.entry_type dm = hostIf_StringType →
  Z.of_nat (String.length v) <= Webpa.TR69HOSTIFMGR_MAX_LONG_PARAM_LEN →
  (∀ m, paramName m = T2_REPORT_PROFILE_PARAM → MsgHandler.HostIf_GetMgr b t m = Some HOSTIF_TelemetryMgr) →
  ∃ s', Webpa.SetParamInfo (Some doc)
          (Webpa.mkParamVal T2_REPORT_PROFILE_PARAM (Some v) (Webpa.converttoWalType (Webpa.entry_type dm))) tid s
        = Done (Webpa.WAL_SUCCESS, s') ∧ bus_of s' = bus_of s.
Proof.
  intros Ho Ht Hl Hmgr. rewrite Webpa.SetParamInfo_owned by done.
  assert (Webpa.encode_value (Webpa.set_request T2_REPORT_PROFILE_PARAM dm) v
          = inr (Webpa.with_long (Webpa.set_request T2_REPORT_PROFILE_PARAM dm) true (Some v))) as ->.
  { unfold Webpa.encode_value.
    change (paramtype (Webpa.set_request T2_REPORT_PROFILE_PARAM dm)) with (Webpa.entry_type dm). rewrite Ht.
    change (isLengthyParam (Webpa.set_request T2_REPORT_PROFILE_PARAM dm)) with true. cbv iota.
    unfold Webpa.TR69HOSTIFMGR_MAX_LONG_PARAM_LEN in *. rewrite int32_id by lia.
    by rewrite (proj2 (Z.ltb_ge _ _)) by lia. }
  unfold Webpa.set_ParamValues_tr69hostIf, bus_of. destruct s as [hd bus [[[cg cs] k] p]].
  cbn [Webpa.hs]. set (m := set_reqType _ HOSTIF_SET). unfold hostIf_Set, daemon, dispatcher, MsgHandler.hostIf_SetMsgHandler.
  rewrite (Hmgr m eq_refl). destruct (MsgHandler.count_call _ _ _ _ _) as [c' evs]. cbn [handle managers].
  rewrite decide_True by done. unfold t2_handler, handleSetMsg.
  change (strcaseeq (paramName m) T2_REPORT_PROFILE_PARAM) with true.
  assert (is_empty (buf_str (paramValue m)) = true) as -> by (vm_compute; reflexivity).
  cbn [of_option wbind]. by eexists.
Qed.

End from_the_cloud.

(** ** What passes *)
Section passed.
Context `{RbusProvider}.

(** A text that fits into a message goes to the bus under its name, once, and a get
    answers what the bus then says; a set is answered as done whatever the bus
    says to it. *)
Theorem profiles_pass_through h m q p v :
  RbusDml.rbusHandle p = Some h → paramName m ∈ [T2_REPORT_PROFILE_PARAM; T2_REPORT_PROFILES_MSGPACK] →
  buf_str (paramValue m) = v → is_empty v = false → isLengthyParam m = false → paramName q = paramName m →
  ∃ p', handleSetMsg m p = Some (OK, m, p')
    ∧ p' = RbusDml.mkProvider (Some h) (RbusDml.bus_set h (paramName m) v (RbusDml.busOf p)).2
    ∧ ∀ text b, RbusDml.bus_get h (paramName m) (RbusDml.busOf p') = (Some (Some text), b) →
        has_char NUL text = false → (String.length text < 4096)%nat →
        ∃ q', handleGetMsg q p' = Some (OK, q', RbusDml.mkProvider (Some h) b)
          ∧ (if isLengthyParam q' && streq (paramName m) T2_REPORT_PROFILE_PARAM
             then default EmptyString (paramValueLong q') else buf_str (paramValue q')) = text.
Proof.
  intros Hh Hn Hv Hne Hl Hq. unfold handleSetMsg. rewrite Hv, Hne, Hl.
  rewrite !elem_of_cons in Hn. unfold setRbusStringParam. rewrite Hh.
  destruct Hn as [Hn|[Hn|[]%not_elem_of_nil]]; rewrite Hn.
  - rewrite strcaseeq_refl. destruct (RbusDml.bus_set _ _ _ _) as [ok s] eqn:Hs. eexists. split; [done|].
    split; [done|]. intros text b Hg Hnul Hlen. cbn [snd RbusDml.busOf] in Hg.
    unfold handleGetMsg. rewrite Hq, Hn, strcaseeq_refl. unfold getRbusStringParam. cbn [snd RbusDml.rbusHandle RbusDml.busOf].
    rewrite Hg. cbn [mbind option_bind]. rewrite Z.eqb_refl. eexists. split; [done|]. reflexivity.
  - change (strcaseeq T2_REPORT_PROFILES_MSGPACK T2_REPORT_PROFILE_PARAM) with false. rewrite strcaseeq_refl.
    destruct (RbusDml.bus_set _ _ _ _) as [ok s] eqn:Hs. eexists. split; [done|].
    split; [done|]. intros text b Hg Hnul Hlen. cbn [snd RbusDml.busOf] in Hg.
    unfold handleGetMsg. rewrite Hq, Hn, strcaseeq_refl.
    change (strcaseeq T2_REPORT_PROFILES_MSGPACK T2_REPORT_PROFILE_PARAM) with false.
    unfold getRbusStringParam. cbn [snd RbusDml.rbusHandle RbusDml.busOf]. rewrite Hg. cbn [mbind option_bind].
    rewrite Z.eqb_refl. eexists. split; [done|].
    change (streq T2_REPORT_PROFILES_MSGPACK T2_REPORT_PROFILE_PARAM) with false. rewrite andb_false_r.
    by apply Webpa.fill_buf.
Qed.

End passed.

(** ** A concrete bus: one text, which a set replaces *)
Definition one_text : RbusProvider := {|
  RbusDml.busState := string;
  RbusDml.busHandle := unit;
  RbusDml.bus_checkStatus := λ s, (true, s);
  RbusDml.bus_open := λ _ s, (Some tt, s);
  RbusDml.bus_regDataElements := λ _ _ s, (true, s);
  RbusDml.bus_close := λ _ s, s;
  RbusDml.bus_set := λ _ _ v _, (true, v);
  RbusDml.bus_get := λ _ _ s, (Some (Some s), s)
|}.

Definition ex_bus : @provider one_text := @RbusDml.mkProvider one_text (Some tt) "old"%string.

Definition t2_doc : @XMLNode WalDB.toy_xml :=
  WalDB.toy_model
    [WalDB.toy_object "Device.X_RDKCENTRAL-COM_T2."
       [Webpa.ex_param "ReportProfiles" "string" ""; Webpa.ex_param "ReportProfilesMsgPack" "string" ""]].

Definition t2_entry : WalDB.DataModelParam :=
  WalDB.mkParam (Some T2_REPORT_PROFILE_PARAM) (Some "ReportProfiles") (Some "string") (Some "readWrite") (Some "")
    (Some "allUpdate")%string.

Definition ex_managers : Managers :=
  managers (H := one_text) (λ _ _ m p, Returned NOK m p) (λ _ m p, Threw m p) (λ _ _, 0).

Definition ex_table : option (@ghash (MsgHandler.list_table false)) :=
  @MsgHandler.hostIf_initalize_ConfigManger (MsgHandler.list_table false) MsgHandler.full_build
    MsgHandler.mgrlist_env "/etc/mgrlist.conf".

Lemma ex_routed m :
  paramName m = T2_REPORT_PROFILE_PARAM →
  @MsgHandler.HostIf_GetMgr (MsgHandler.list_table false) MsgHandler.full_build ex_table m = Some HOSTIF_TelemetryMgr.
Proof. intros Hm. unfold MsgHandler.HostIf_GetMgr. rewrite Hm. vm_compute. reflexivity. Qed.

Definition ex_daemon : ReqHandler :=
  @dispatcher (MsgHandler.list_table false) ex_managers MsgHandler.full_build ex_table (λ _, 0).

Definition ex_pal : @Webpa.pal ex_daemon Webpa.ex_rbus :=
  @Webpa.mkPal ex_daemon Webpa.ex_rbus true tt (MsgHandler.fresh_counters, MsgHandler.fresh_counters, O, ex_bus).

Lemma cloud_profiles_dropped_witness :
  ∃ s', @Webpa.SetParamInfo WalDB.toy_xml ex_daemon Webpa.ex_rbus (Some t2_doc)
          (Webpa.mkParamVal T2_REPORT_PROFILE_PARAM (Some "new"%string) Webpa.WAL_STRING) None ex_pal
        = Done (Webpa.WAL_SUCCESS, s')
    ∧ RbusDml.busOf (let '(_, _, _, p) := Webpa.hs s' in p) = "old"%string.
Proof.
  destruct (@cloud_profiles_dropped WalDB.toy_xml one_text Webpa.ex_rbus (MsgHandler.list_table false)
              (λ _ _ m p, Returned NOK m p) (λ _ m p, Threw m p) (λ _ _, 0) MsgHandler.full_build ex_table (λ _, 0)
              t2_doc "new" t2_entry None ex_pal) as (s' & Hs & Hb).
  - vm_compute. reflexivity.
  - reflexivity.
  - vm_compute. discriminate.
  - exact ex_routed.
  - exists s'. split; [exact Hs|]. exact (f_equal RbusDml.busOf Hb).
Defined.

Definition msgpack (text : string) : HOSTIF_MsgData_t := string_set T2_REPORT_PROFILES_MSGPACK text HOSTIF_SRC_WEBPA.

Lemma profiles_pass_through_witness :
  ∃ p' q', handleSetMsg (msgpack "new") ex_bus = Some (OK, msgpack "new", p')
    ∧ handleGetMsg (msgpack "") p' = Some (OK, q', p') ∧ buf_str (paramValue q') = "new"%string.
Proof.
  destruct (@profiles_pass_through one_text tt (msgpack "new") (msgpack "") ex_bus "new") as (p' & Hs & Hp & Hg).
  - reflexivity.
  - in_list.
  - vm_compute. reflexivity.
  - reflexivity.
  - reflexivity.
  - reflexivity.
  - subst p'. destruct (Hg "new"%string "new"%string) as (q' & Hq & Hv); [reflexivity|reflexivity|apply Nat.ltb_lt; reflexivity|].
    eexists _, q'. split; [exact Hs|]. split; [exact Hq|].
    change (streq (paramName (msgpack "new")) T2_REPORT_PROFILE_PARAM) with false in Hv.
    rewrite andb_false_r in Hv. exact Hv.
Defined.

End XRdkCentralT2.

Module XRdkProfile.
Import DeviceClientReqHandler (may_override).

Definition X_RDK_PREFIX_STR : string := "Device.X_RDK_".
Definition X_RDK_WebPA_SERVER_URL : string := "Device.X_RDK_WebPA_Server.URL".
Definition X_RDK_WebPA_TokenServer_URL : string := "Device.X_RDK_WebPA_TokenServer.URL".
Definition X_RDK_WebPA_DNSText_URL : string := "Device.X_RDK_WebPA_DNSText.URL".

Section handlers.
Context `{UMapOrder} `{CJson}.

(** What the profile answers, with the bootstrap store and the files after it;
    [None] is undefined behaviour in the store. *)
Definition reply : Type := option (Z * HOSTIF_MsgData_t * XBSStore.t * env).

Definition get_from_store (m : HOSTIF_MsgData_t) (x : XBSStore.t) (w : env) : reply :=
  r ← XBSStore.getValue x w m;
  let '(_, x', m', w') := r in Some (OK, set_paramtype m' hostIf_StringType, x', w').

Definition set_WebPA_DNSText_URL (m : HOSTIF_MsgData_t) (x : XBSStore.t) (w : env) : reply :=
  r ← XBSStore.overrideValue x w m;
  let '(_, x', m', w') := r in Some (OK, m', x', w').

Definition profile_set (m : HOSTIF_MsgData_t) (x : XBSStore.t) (w : env) : reply :=
  if strncaseeq X_RDK_WebPA_DNSText_URL (paramName m) then set_WebPA_DNSText_URL m x w
  else Some (NOK, set_fault m fcInvalidParameterName, x, w).

Definition profile_get (m : HOSTIF_MsgData_t) (x : XBSStore.t) (w : env) : reply :=
  if strncaseeq X_RDK_WebPA_SERVER_URL (paramName m) || strncaseeq X_RDK_WebPA_TokenServer_URL (paramName m)
     || strncaseeq X_RDK_WebPA_DNSText_URL (paramName m)
  then get_from_store m x w
  else Some (NOK, set_fault m fcInvalidParameterName, x, w).

Definition handleSetMsg (m : HOSTIF_MsgData_t) (x : XBSStore.t) (w : env) : reply :=
  if strncaseeq X_RDK_PREFIX_STR (paramName m) then profile_set m x w
  else Some (NOT_HANDLED, set_fault m fcAttemptToSetaNonWritableParameter, x, w).

Definition handleGetMsg (m : HOSTIF_MsgData_t) (x : XBSStore.t) (w : env) : reply :=
  if strncaseeq X_RDK_PREFIX_STR (paramName m) then profile_get m x w
  else Some (NOK, m, x, w).

End handlers.

Section rule.
Context `{UMapOrder} `{CJson}.

(** The address that WebPA looks its server up with can be set by anyone: whatever
    the update rule of the parameter and whoever asks, if only not as a firmware
    default, this manager overrides the bootstrap store and a get answers the new
    address.  The check that the manager of Device.DeviceInfo makes
    ([may_override]) is missing. *)
Theorem dns_text_set_by_anyone x w j m v g :
  XBSStore.ready x w j → XBSStore.m_initDone x = true → XBSStore.dict_ok (XBSStore.m_dict x) →
  paramName m = X_RDK_WebPA_DNSText_URL → paramtype m = hostIf_StringType → buf_str (paramValue m) = v →
  is_empty v = false → (String.length v < 4096)%nat → requestor m ≠ HOSTIF_SRC_DEFAULT →
  paramName g = paramName m → paramtype g = hostIf_StringType →
  ∃ x' m' w' g', handleSetMsg m x w = Some (OK, m', x', w')
    ∧ handleGetMsg g x' w' = Some (OK, g', x', w') ∧ buf_str (paramValue g') = v ∧ faultCode g' = fcNoFault.
Proof.
  intros Hr Hi Hd Hn Ht Hv Hne Hl Hsrc Hg Htg.
  assert (getStringValue m = Some v) as Hs by (unfold getStringValue; by rewrite Ht, Hv).
  assert (has_char NUL v = false) as Hnul by (rewrite <- Hv; apply c_str_has_nul).
  assert (XBSStore.bs_name (paramName m)) as Hbs by (rewrite Hn; split; vm_compute; reflexivity).
  destruct (XBSStore.overrideValue_ready x w j m v Hr Hi Hbs Hs) as (w' & Ho & _).
  eexists _, _, w', _. split; [|split].
  - unfold handleSetMsg, profile_set, set_WebPA_DNSText_URL. rewrite Hn.
    change (strncaseeq X_RDK_PREFIX_STR X_RDK_WebPA_DNSText_URL) with true.
    change (strncaseeq X_RDK_WebPA_DNSText_URL X_RDK_WebPA_DNSText_URL) with true. rewrite Ho. reflexivity.
  - unfold handleGetMsg, profile_get, get_from_store. rewrite Hg, Hn.
    change (strncaseeq X_RDK_PREFIX_STR X_RDK_WebPA_DNSText_URL) with true.
    change (strncaseeq X_RDK_WebPA_DNSText_URL X_RDK_WebPA_DNSText_URL) with true. rewrite orb_true_r.
    unfold XBSStore.getValue. rewrite XBSStore.bs_init_id by done.
    cbn [mbind option_bind]. unfold XBSStore.getRawValue. cbn [XBSStore.m_dict XBSStore.set_journal XBSStore.set_dict].
    rewrite XBSStore.dict_after_override by done. rewrite Hg, Hn, lookup_insert_eq. cbn [default from_option id].
    rewrite c_str_no_nul by done. rewrite Hne. reflexivity.
  - split; [|reflexivity]. cbn [paramValue set_paramtype set_fault].
    pose proof (putValue_string g v Htg Hnul Hl) as Hp. unfold getStringValue in Hp.
    rewrite paramtype_putValue, Htg in Hp. by injection Hp.
Qed.

End rule.

(** That manager refuses a local client where the rule is allUpdate. *)
Example device_manager_refuses : may_override HOSTIF_SRC_ALL HOSTIF_SRC_IARM = false.
Proof. reflexivity. Qed.

#[local] Existing Instance canonical_order.
#[local] Existing Instance XBSStore.toy_cjson.

Definition dns_text (url : string) (src : HostIf_Source_Type_t) : HOSTIF_MsgData_t :=
  string_set X_RDK_WebPA_DNSText_URL url src.

Lemma dns_text_set_by_anyone_witness :
  ∃ x' m' w' g', handleSetMsg (dns_text "evil.example" HOSTIF_SRC_IARM) XBSStore.ex_store XBSStore.ex_env = Some (OK, m', x', w')
    ∧ handleGetMsg (dns_text "" HOSTIF_SRC_WEBPA) x' w' = Some (OK, g', x', w')
    ∧ buf_str (paramValue g') = "evil.example"%string ∧ faultCode g' = fcNoFault.
Proof.
  apply (dns_text_set_by_anyone XBSStore.ex_store XBSStore.ex_env XBSStore.ex_journal
           (dns_text "evil.example" HOSTIF_SRC_IARM) "evil.example" (dns_text "" HOSTIF_SRC_WEBPA));
    [exact XBSStore.ex_ready|reflexivity|exact XBSStore.ex_dict_ok|reflexivity|reflexivity|vm_compute; reflexivity
    |reflexivity|apply Nat.ltb_lt; reflexivity|discriminate|reflexivity|reflexivity].
Defined.

End XRdkProfile.

Module XREClient.

Definition XCONF_CHECKNOW_NAME : string := "Device.X_COMCAST-COM_Xcalibur.Client.xconfCheckNow".
Definition XCONF_CHECKNOW_FILE : string := "/tmp/xconfchecknow_val".
Definition XCONF_CHECKNOW_SCRIPT_CMD : list string := ["backgroundrun"; "/usr/bin/rdkvfwupgrader"; "0"; "3"]%string.

(** [strncasecmp("TRUE", value, 4) == 0], or with CANARY. *)
Definition asks_to_check (value : string) : bool := strncaseeq "TRUE" value || strncaseeq "CANARY" value.

(** The number is what [v_secure_system] answers; the commands come back. *)
Definition set_xconfCheckNow (system : list string → Z) (m : HOSTIF_MsgData_t) (w : env)
  : Z * HOSTIF_MsgData_t * env * list (list string) :=
  let value := buf_str (paramValue m) in
  match ProfileIO.rewrite_file w XCONF_CHECKNOW_FILE value with
  | None => (NOK, m, w, [])
  | Some w' =>
      if asks_to_check value then
        (if system XCONF_CHECKNOW_SCRIPT_CMD =? -1 then NOK else OK, m, w', [XCONF_CHECKNOW_SCRIPT_CMD])
      else (NOK, m, w', [])
  end.

(** [fscanf(file, "%9s", stMsgData->paramValue)] *)
Definition get_xconfCheckNow (w : env) (m : HOSTIF_MsgData_t) : Z * HOSTIF_MsgData_t :=
  match read_file w XCONF_CHECKNOW_FILE with
  | None => (NOK, m)
  | Some content =>
      let word := (MsgHandler.take_word 9 (skip_space content)).1 in
      if is_empty word then (NOK, m)
      else (OK, set_value m (poke (paramValue m) (String.list_ascii_of_string word ++ [NUL])))
  end.

Definition handleSetMsg (system : list string → Z) (m : HOSTIF_MsgData_t) (w : env)
  : Z * HOSTIF_MsgData_t * env * list (list string) :=
  let m1 := set_instance m 0 in
  if strcaseeq (paramName m1) XCONF_CHECKNOW_NAME then set_xconfCheckNow system m1 w
  else (NOT_HANDLED, set_fault m1 fcInvalidParameterName, w, []).

Definition handleGetMsg (w : env) (m : HOSTIF_MsgData_t) : Z * HOSTIF_MsgData_t :=
  let m1 := set_instance m 0 in
  if strcaseeq (paramName m1) XCONF_CHECKNOW_NAME then get_xconfCheckNow w m1
  else (NOK, set_fault m1 fcInvalidParameterName).

(** A check for firmware is started by exactly the texts that begin with true or
    canary, in any case of letters, and once; every other text is refused. *)
Theorem xconf_check_started system m w :
  strcaseeq (paramName m) XCONF_CHECKNOW_NAME = true → can_write w XCONF_CHECKNOW_FILE = true →
  (∀ words, system words = 0) →
  let '(ret, _, w', cmds) := handleSetMsg system m w in
  (ret = OK ↔ asks_to_check (buf_str (paramValue m)) = true)
  ∧ cmds = (if asks_to_check (buf_str (paramValue m)) then [XCONF_CHECKNOW_SCRIPT_CMD] else [])
  ∧ read_file w' XCONF_CHECKNOW_FILE = Some (buf_str (paramValue m)).
Proof.
  intros Hn Hw Hs. unfold handleSetMsg. change (paramName (set_instance m 0)) with (paramName m). rewrite Hn.
  unfold set_xconfCheckNow. change (paramValue (set_instance m 0)) with (paramValue m).
  rewrite ProfileIO.rewrite_file_put by done.
  destruct (asks_to_check (buf_str (paramValue m))); [rewrite Hs; cbn [Z.eqb]|]; rewrite read_put_file; done.
Qed.

Definition check_now (value : string) : HOSTIF_MsgData_t := string_set XCONF_CHECKNOW_NAME value HOSTIF_SRC_WEBPA.
Definition no_files : env := mkEnv ∅ ∅ true ∅ EmptyString 0.

(** A refused value stays in the file and is what a get answers, and of a longer
    one a get answers nine characters. *)
Example refused_value_answered :
  let '(ret, _, w', _) := handleSetMsg (λ _, 0) (check_now "nevermore, said") no_files in
  ret = NOK ∧ read_file w' XCONF_CHECKNOW_FILE = Some "nevermore, said"%string
  ∧ (MsgHandler.take_word 9 (skip_space "nevermore, said")).1 = "nevermore"%string.
Proof. vm_compute. done. Qed.

End XREClient.
