(* ===== verification/JsonHandler.v ===== *)
(** * The JSON server

    [JsonHandler] models handlers/src/hostIf_jsonReqHandlerThread.cpp: a request
    is a JSON document with a list of parameter names, the answer one with their
    values.  The parser (yajl) is a parameter that gives the calls it makes of
    the callbacks, and the generator one that prints the calls it gets; the
    server (soup) is a parameter too. *)
From stdpp Require Import base list strings.
From Stdlib Require Import Ascii ZArith Lia.
From S2P Require Import Prelude HostIf MsgHandler WalList FrontEnd Webpa.

#[local] Arguments streq : simpl never.

Module JsonHandler.

(** ** The parser's callbacks *)
Inductive state_t : Type := STATE_BEFORE | STATE_PARAM | STATE_PROCESSING | STATE_DONE.

Record parser_state_t := mkParser { list_ : list string; state : state_t; grabString : bool }.

(** The calls of the callbacks. *)
Inductive event : Type :=
  | null | boolean (b : bool) | integer (z : Z) | double (s : string) | number (s : string)
  | string_ (s : string) | start_map | map_key (s : string) | end_map | start_array | end_array.

Definition process_string (s : string) (c : parser_state_t) : parser_state_t :=
  match state c with
  | STATE_PROCESSING =>
      if grabString c && (String.length s <? TR69HOSTIFMGR_MAX_PARAM_LEN - 1)%nat
      then mkParser (list_ c ++ [c_str s]) (state c) false else c
  | _ => c
  end.

Definition process_map_key (key : string) (c : parser_state_t) : parser_state_t :=
  match state c with
  | STATE_BEFORE =>
      if streq key "paramList" then mkParser (list_ c) STATE_PARAM (grabString c)
      else mkParser (list_ c) (state c) false
  | STATE_PROCESSING => mkParser (list_ c) (state c) (streq key "name")
  | _ => mkParser (list_ c) (state c) false
  end.

Definition process_start_array (c : parser_state_t) : parser_state_t :=
  match state c with STATE_PARAM => mkParser (list_ c) STATE_PROCESSING (grabString c) | _ => c end.

Definition process_end_array (c : parser_state_t) : parser_state_t :=
  match state c with
  | STATE_PROCESSING | STATE_PARAM => mkParser (list_ c) STATE_DONE (grabString c)
  | _ => c
  end.

Definition callbacks (e : event) (c : parser_state_t) : parser_state_t :=
  match e with
  | string_ s => process_string s c
  | map_key k => process_map_key k c
  | start_array => process_start_array c
  | end_array => process_end_array c
  | _ => c
  end.

(** The calls of the generator. *)
Inductive gen : Type :=
  | gen_map_open | gen_map_close | gen_array_open | gen_array_close
  | gen_string (s : string) | gen_integer (z : Z) | gen_bool (b : bool).

(** The calls that the parser makes on a text, up to its end or to an error,
    whether it can be made, and the text that the generator makes. *)
Class Yajl := {
  yajl_alloc : bool;
  yajl_gen_alloc : bool;
  yajl_parse : string → list event;
  yajl_gen_get_buf : list gen → string
}.

Section messages.
Context `{Yajl}.

Definition hostIf_HTTPJsonParse (message : string) : list string :=
  if yajl_alloc then
    list_ (fold_left (λ c e, callbacks e c) (yajl_parse message) (mkParser [] STATE_BEFORE false))
  else [].

(** ** The answer *)
Inductive response : Type :=
  | SOUP_STATUS_BAD_REQUEST | SOUP_STATUS_INTERNAL_SERVER_ERROR | SOUP_STATUS_OK (body : string).

Definition value_calls (m : HOSTIF_MsgData_t) : list gen :=
  match paramtype m with
  | hostIf_StringType => [gen_string (buf_str (paramValue m))]
  | hostIf_IntegerType | hostIf_UnsignedIntType => [gen_integer (get_int (paramValue m))]
  | hostIf_UnsignedLongType => [gen_integer (get_ulong (paramValue m))]
  | hostIf_BooleanType => [gen_bool (get_boolean (paramValue m))]
  | hostIf_DateTimeType => [gen_string "Unknown"]
  end.

Definition json_request (n : string) : HOSTIF_MsgData_t :=
  mkMsg (str_take TR69HOSTIFMGR_MAX_PARAM_LEN n) (paramValue zero_msg) None EmptyString 0 0 hostIf_StringType
        HOSTIF_INVALID_TYPE fcNoFault HOSTIF_NONE HOSTIF_NONE false.

Context `{ReqHandler}.

Fixpoint param_calls (l : list string) (h : hst) : list gen * hst :=
  match l with
  | [] => ([], h)
  | n :: l' =>
      let '(ret, param, h1) := hostIf_Get (json_request n) h in
      let entry :=
        if ret =? OK
        then [gen_map_open; gen_string "name"; gen_string (paramName param); gen_string "value"]
             ++ value_calls param ++ [gen_map_close]
        else [] in
      let '(rest, h2) := param_calls l' h1 in (entry ++ rest, h2)
  end.

Definition hostIf_HTTPJsonMsgHandler (req_body : option string) (h : hst) : response * hst :=
  match req_body with
  | None | Some EmptyString => (SOUP_STATUS_BAD_REQUEST, h)
  | Some data =>
      match hostIf_HTTPJsonParse data with
      | [] => (SOUP_STATUS_BAD_REQUEST, h)
      | params =>
          if yajl_gen_alloc then
            let '(calls, h') := param_calls params h in
            (SOUP_STATUS_OK (yajl_gen_get_buf
               ([gen_map_open; gen_string "paramList"; gen_array_open] ++ calls ++ [gen_array_close; gen_map_close])),
             h')
          else (SOUP_STATUS_INTERNAL_SERVER_ERROR, h)
      end
  end.
End messages.

(** ** The server *)
Class Soup := {
  soup : Type;
  soup_server_new : option soup;
  soup_server_add_handler : string → soup → soup;
  soup_server_listen_local : Z → soup → bool * soup;
  soup_server_disconnect : soup → soup
}.

Section server.
Context `{Soup}.

(** [server] and the port of the arguments. *)
Definition hostIf_HttpServerStart (httpPort : Z) (server : option soup) : option soup :=
  match (match server with Some s => Some s | None => soup_server_new end) with
  | None => None
  | Some s => Some (soup_server_listen_local httpPort (soup_server_add_handler "/" s)).2
  end.

Definition hostIf_HttpServerStop (server : option soup) : option soup := soup_server_disconnect <$> server.

Definition jsonIfHandlerThread (httpPort : Z) (server : option soup) : option soup :=
  hostIf_HttpServerStart httpPort server.
End server.

(** ** JSON documents *)
Inductive json : Type :=
  | JNull | JBool (b : bool) | JInt (z : Z) | JStr (s : string)
  | JArr (l : list json) | JObj (l : list (string * json)).

(** The calls that a parser makes on a document, and those that write one. *)
Fixpoint events (j : json) : list event :=
  match j with
  | JNull => [null] | JBool b => [boolean b] | JInt z => [integer z] | JStr s => [string_ s]
  | JArr l => start_array :: concat (events <$> l) ++ [end_array]
  | JObj l => start_map :: concat ((λ kv, map_key kv.1 :: events kv.2) <$> l) ++ [end_map]
  end.

Fixpoint calls (j : json) : list gen :=
  match j with
  | JNull => [] | JBool b => [gen_bool b] | JInt z => [gen_integer z] | JStr s => [gen_string s]
  | JArr l => gen_array_open :: concat (calls <$> l) ++ [gen_array_close]
  | JObj l => gen_map_open :: concat ((λ kv, gen_string kv.1 :: calls kv.2) <$> l) ++ [gen_map_close]
  end.

(** Values without structure, and the members of an object that has only such. *)
Definition scalar (j : json) : Prop := match j with JArr _ | JObj _ => False | _ => True end.
Definition flat (l : list (string * json)) : Prop := Forall (λ kv, scalar kv.2) l.

(** The names that such an object asks for. *)
Definition names_of (l : list (string * json)) : list string :=
  concat ((λ kv, match kv with
                 | (k, JStr s) => if streq k "name" && (String.length s <? TR69HOSTIFMGR_MAX_PARAM_LEN - 1)%nat
                                  then [c_str s] else []
                 | _ => []
                 end) <$> l).

Definition run (l : list event) (c : parser_state_t) : parser_state_t := fold_left (λ c e, callbacks e c) l c.

Lemma run_app a b c : run (a ++ b) c = run b (run a c).
Proof. apply fold_left_app. Qed.

(** Once the list has ended nothing is added to it. *)
Lemma run_after l c : state c = STATE_DONE → list_ (run l c) = list_ c.
Proof.
  revert c. induction l as [|e l IH]; intros c Hc; [done|].
  change (list_ (run l (callbacks e c)) = list_ c).
  assert (state (callbacks e c) = STATE_DONE ∧ list_ (callbacks e c) = list_ c) as [H1 H2].
  { destruct c as [x st g]. simpl in Hc. subst st. by destruct e. }
  by rewrite IH, H2.
Qed.

Definition members (l : list (string * json)) : list event :=
  concat ((λ kv, map_key kv.1 :: events kv.2) <$> l).

(** Before the list. *)
Lemma run_before l x g :
  flat l → Forall (λ kv, streq kv.1 "paramList" = false) l →
  ∃ g', run (members l) (mkParser x STATE_BEFORE g) = mkParser x STATE_BEFORE g'.
Proof.
  intros Hf Hk. revert g. induction l as [|[k v] l IH]; intros g; [by exists g|].
  apply Forall_cons in Hf as [Hv Hf]. apply Forall_cons in Hk as [Hkey Hk]. cbn [fst snd] in *.
  destruct (IH Hf Hk false) as [g' Hg]. exists g'. rewrite <- Hg.
  unfold members. rewrite fmap_cons. cbn [concat fst snd]. rewrite run_app. fold (members l). f_equal.
  unfold run. cbn [fold_left callbacks process_map_key state list_]. rewrite Hkey. by destruct v.
Qed.

(** Within an object of the list. *)
Lemma run_item l x g :
  flat l → ∃ g', run (members l) (mkParser x STATE_PROCESSING g) = mkParser (x ++ names_of l) STATE_PROCESSING g'.
Proof.
  intros Hf. revert x g. induction l as [|[k v] l IH]; intros x g; [exists g; by rewrite app_nil_r|].
  apply Forall_cons in Hf as [Hv Hf]. cbn [fst snd] in Hv.
  set (added := match v with
                | JStr s => if streq k "name" && (String.length s <? TR69HOSTIFMGR_MAX_PARAM_LEN - 1)%nat
                            then [c_str s] else []
                | _ => []
                end).
  assert (∃ g1, run (map_key k :: events v) (mkParser x STATE_PROCESSING g) = mkParser (x ++ added) STATE_PROCESSING g1)
    as [g1 H1].
  { unfold run. cbn [fold_left callbacks process_map_key state list_ grabString].
    destruct v; try done; cbn [events fold_left callbacks]; try (eexists; unfold added; by rewrite app_nil_r).
    cbn [process_string state grabString list_]. unfold added. case_match; [by eexists|].
    eexists. by rewrite app_nil_r. }
  destruct (IH Hf (x ++ added) g1) as [g2 H2]. exists g2.
  unfold members. rewrite fmap_cons. cbn [concat fst snd]. rewrite run_app, H1.
  fold (members l). rewrite H2. f_equal. unfold names_of. rewrite fmap_cons. cbn [concat]. by rewrite app_assoc.
Qed.

Definition items (l : list (list (string * json))) : list event := concat ((λ o, events (JObj o)) <$> l).

Lemma run_items l x g :
  Forall flat l →
  ∃ g', run (items l) (mkParser x STATE_PROCESSING g)
        = mkParser (x ++ concat (names_of <$> l)) STATE_PROCESSING g'.
Proof.
  intros Hf. revert x g. induction Hf as [|o l Ho _ IH]; intros x g; [exists g; by rewrite app_nil_r|].
  unfold items. rewrite !fmap_cons. cbn [concat]. rewrite run_app.
  fold (items l). cbn [events]. fold (members o).
  destruct (run_item o x g Ho) as [g1 H1]. destruct (IH (x ++ names_of o) g1) as [g2 H2]. exists g2.
  assert (run (start_map :: members o ++ [end_map]) (mkParser x STATE_PROCESSING g)
          = mkParser (x ++ names_of o) STATE_PROCESSING g1) as ->.
  { change (run (start_map :: ?y) ?c) with (run y c). rewrite run_app, H1. done. }
  rewrite H2. by rewrite app_assoc.
Qed.

(** ** Properties *)
Section properties.
Context `{Yajl} `{ReqHandler}.

(** The document that a client sends: a list of objects under "paramList", after and
    before any other members. *)
Definition request_members (pre : list (string * json)) (l : list (list (string * json))) : list event :=
  [start_map] ++ members pre ++ [map_key "paramList"; start_array] ++ items l.

Lemma run_request pre l :
  flat pre → Forall (λ kv, streq kv.1 "paramList" = false) pre → Forall flat l →
  ∃ g, run (request_members pre l) (mkParser [] STATE_BEFORE false)
       = mkParser (concat (names_of <$> l)) STATE_PROCESSING g.
Proof.
  intros Hp Hk Hl. destruct (run_before pre [] false Hp Hk) as [g0 Hb]. unfold request_members.
  rewrite !run_app. change (run [start_map] ?c) with c. rewrite Hb.
  change (run [map_key "paramList"; start_array] (mkParser [] STATE_BEFORE g0))
    with (mkParser [] STATE_PROCESSING g0).
  destruct (run_items l [] g0 Hl) as [g Hg]. by exists g.
Qed.

(** A document with a list of parameters asks for exactly the names of its list, in
    their order, whatever other members the document and the objects of the
    list have, and whatever follows the list.  But a list in one of the objects
    ends it: the names after that are lost. *)
Theorem json_names message pre l rest :
  yajl_alloc = true → flat pre → Forall (λ kv, streq kv.1 "paramList" = false) pre → Forall flat l →
  (yajl_parse message = request_members pre l ++ end_array :: rest →
   hostIf_HTTPJsonParse message = concat (names_of <$> l))
  ∧ ∀ o k, flat o →
      yajl_parse message
      = request_members pre l ++ [start_map] ++ members o ++ [map_key k; start_array; end_array] ++ rest →
      hostIf_HTTPJsonParse message = concat (names_of <$> l) ++ names_of o.
Proof.
  intros Ha Hp Hk Hl. destruct (run_request pre l Hp Hk Hl) as [g Hg].
  unfold hostIf_HTTPJsonParse. rewrite Ha. split.
  - intros ->. fold (run (request_members pre l ++ end_array :: rest) (mkParser [] STATE_BEFORE false)).
    rewrite run_app, Hg. change (run (end_array :: rest) ?c) with (run rest (callbacks end_array c)).
    by rewrite run_after.
  - intros o k Ho ->.
    fold (run (request_members pre l ++ [start_map] ++ members o ++ [map_key k; start_array; end_array] ++ rest)
            (mkParser [] STATE_BEFORE false)).
    rewrite !run_app, Hg. change (run [start_map] ?c) with c.
    destruct (run_item o (concat (names_of <$> l)) g Ho) as [g1 ->].
    rewrite run_after by done. done.
Qed.

(** The entry of an answered parameter. *)
Definition value_json (m : HOSTIF_MsgData_t) : json :=
  match paramtype m with
  | hostIf_StringType => JStr (buf_str (paramValue m))
  | hostIf_IntegerType | hostIf_UnsignedIntType => JInt (get_int (paramValue m))
  | hostIf_UnsignedLongType => JInt (get_ulong (paramValue m))
  | hostIf_BooleanType => JBool (get_boolean (paramValue m))
  | hostIf_DateTimeType => JStr "Unknown"
  end.

(** What the dispatcher answers to the names in turn. *)
Fixpoint answers (l : list string) (h : hst) : list json * hst :=
  match l with
  | [] => ([], h)
  | n :: l' =>
      let '(ret, m, h1) := hostIf_Get (json_request n) h in
      let '(rest, h2) := answers l' h1 in
      ((if ret =? OK then [JObj [("name"%string, JStr (paramName m)); ("value"%string, value_json m)]] else [])
       ++ rest, h2)
  end.

Lemma param_calls_answers l h :
  param_calls l h = (concat (calls <$> (answers l h).1), (answers l h).2).
Proof.
  revert h. induction l as [|n l IH]; intros h; [done|]. cbn [param_calls answers].
  destruct (hostIf_Get (json_request n) h) as [[ret m] h1]. rewrite IH.
  destruct (answers l h1) as [rest h2]. cbn [fst snd]. f_equal.
  destruct (ret =? OK); [|done]. cbn [app fmap list_fmap concat calls fst snd].
  do 6 f_equal. unfold value_calls, value_json. by destruct (paramtype m).
Qed.

(** C38. The answer is always a well-formed document: the calls of the generator are those
    of one JSON value, an object whose "paramList" holds, in the order of the
    request, an object with name and value for each parameter the dispatcher
    answers; the others are left out without a word.  A request that names no
    parameter is refused and the dispatcher is not asked. *)
Theorem json_answer_well_formed data h :
  yajl_gen_alloc = true →
  hostIf_HTTPJsonMsgHandler (Some data) h
  = match data, hostIf_HTTPJsonParse data with
    | EmptyString, _ | _, [] => (SOUP_STATUS_BAD_REQUEST, h)
    | _, names =>
        (SOUP_STATUS_OK (yajl_gen_get_buf (calls (JObj [("paramList"%string, JArr (answers names h).1)]))),
         (answers names h).2)
    end.
Proof.
  intros Hg. unfold hostIf_HTTPJsonMsgHandler. destruct data as [|c data]; [done|].
  destruct (hostIf_HTTPJsonParse (String c data)) as [|n names]; [done|]. rewrite Hg.
  rewrite param_calls_answers. do 3 f_equal. cbn [calls fmap list_fmap concat fst snd app].
  do 2 f_equal. rewrite <- !app_assoc. done.
Qed.

(** The upper half of the unsigned range is answered as a negative number. *)
Theorem json_unsigned_negative m z :
  paramtype m = hostIf_UnsignedIntType → 2 ^ 31 <= z < 2 ^ 32 →
  value_calls (set_value m (put_uint (paramValue m) z)) = [gen_integer (z - 2 ^ 32)].
Proof.
  intros Ht Hz. unfold value_calls. cbn [paramtype set_value paramValue]. rewrite Ht.
  change (put_uint ?b ?x) with (put_int b x). rewrite get_put_int. do 2 f_equal.
  unfold int32. replace (z + 2 ^ 31) with ((z - 2 ^ 31) + 1 * 2 ^ 32) by lia.
  rewrite Z.mod_add, Z.mod_small by lia. lia.
Qed.
End properties.

(** ** Concrete inputs *)

(** Two documents: one with a member before the list, one whose first object has
    a list of its own. *)
Definition ex_pre : list (string * json) := [("version"%string, JInt 1)].
Definition ex_object (n : string) : list (string * json) := [("name", JStr n); ("id", JInt 7)]%string.

#[local] Instance ex_yajl : Yajl := {
  yajl_alloc := true;
  yajl_gen_alloc := true;
  yajl_parse m :=
    if streq m "plain"
    then request_members ex_pre [ex_object "A"; ex_object "B"] ++ end_array :: [end_map]
    else request_members ex_pre [ex_object "A"]
         ++ [start_map] ++ members (ex_object "B") ++ [map_key "tags"; start_array; end_array]
         ++ [end_map] ++ items [ex_object "C"] ++ [end_array; end_map];
  yajl_gen_get_buf l := dec (Z.of_nat (length l))
}.

Lemma json_names_witness :
  hostIf_HTTPJsonParse "plain" = ["A"; "B"]%string ∧ hostIf_HTTPJsonParse "nested" = ["A"; "B"]%string.
Proof.
  split.
  - refine (proj1 (json_names "plain" ex_pre [ex_object "A"; ex_object "B"] [end_map] _ _ _ _) _); try reflexivity;
      repeat first [apply List.Forall_cons | apply List.Forall_nil | exact I | reflexivity].
  - refine (proj2 (json_names "nested" ex_pre [ex_object "A"] ([end_map] ++ items [ex_object "C"] ++ [end_array; end_map])
      _ _ _ _) (ex_object "B") "tags"%string _ _); try reflexivity;
      repeat first [apply List.Forall_cons | apply List.Forall_nil | exact I | reflexivity].
Defined.

Definition ex_handler : ReqHandler := {|
  hst := nat;
  hostIf_Get := λ m h, (if streq (paramName m) "A" then OK else NOK, m, S h);
  hostIf_Set := λ m h, (Some OK, m, h);
  hostIf_GetAttributes := λ m h, (Some NOK, m, h);
  hostIf_SetAttributes := λ m h, (Some NOK, m, h)
|}.

Lemma json_answer_well_formed_witness :
  @hostIf_HTTPJsonMsgHandler ex_yajl ex_handler (Some "plain"%string) O = (SOUP_STATUS_OK "11", 2%nat).
Proof.
  etrans; [apply (@json_answer_well_formed ex_yajl ex_handler "plain" O); reflexivity|]. vm_compute. reflexivity.
Defined.

Lemma json_unsigned_negative_witness :
  value_calls (set_value (mkMsg "a" zero_buffer None "" 0 0 hostIf_UnsignedIntType HOSTIF_GET fcNoFault HOSTIF_NONE
                            HOSTIF_NONE false) (put_uint zero_buffer (2 ^ 32 - 1)))%string
  = [gen_integer (-1)].
Proof.
  apply (json_unsigned_negative (mkMsg "a" zero_buffer None "" 0 0 hostIf_UnsignedIntType HOSTIF_GET fcNoFault
    HOSTIF_NONE HOSTIF_NONE false)%string (2 ^ 32 - 1)); [reflexivity|]. split; [discriminate|reflexivity].
Defined.

End JsonHandler.
