(* ===== verification/IarmHandler.v ===== *)
(** * Requests over IARM

    [IarmHandler] models handlers/src/hostIf_IARM_ReqHandler.cpp: the calls that
    the daemon registers on the IARM bus, its connection to the bus and to the
    power controller, and the notification of deep sleep.  The bus, the power
    controller and the display settings library are the parameter [Platform].
    Requests are served with the data model loaded. *)
From stdpp Require Import base list strings gmap.
From Stdlib Require Import Ascii ZArith Lia.
From S2P Require Import Prelude HostIf FileStore IniFile RFCStore BSJournal BSStore MsgHandler WalDB WalList.
From S2P Require Import RFCVar FrontEnd Webpa NotificationHandler HttpServer Utils Notify DeviceInfo DeviceClient EndToEnd.
Import WalList (walk, Done, Crash, OutOfFuel, wbind, of_option).
Import hostIf_DeviceInfo DeviceClientReqHandler.

#[local] Arguments streq : simpl never.

Module IarmHandler.

(** ** Names of hostIf_tr69ReqHandler.h *)
Definition IARM_BUS_TR69HOSTIFMGR_NAME : string := "tr69HostIfMgr".
Definition IARM_BUS_TR69HOSTIFMGR_API_SetParams : string := "tr69HostIfSetParams".
Definition IARM_BUS_TR69HOSTIFMGR_API_GetParams : string := "tr69HostIfGetParams".
Definition IARM_BUS_TR69HOSTIFMGR_API_SetAttributes : string := "tr69HostIfGetAttributes".
Definition IARM_BUS_TR69HOSTIFMGR_API_GetAttributes : string := "tr69HostIfSetAttributes".
Definition IARM_BUS_TR69HOSTIFMGR_API_RegisterForEvents : string := "tr69HostIfRegisterForEvents".

Definition X_RDK_RFC_DEEPSLEEP_ENABLE : string :=
  "Device.DeviceInfo.X_RDKCENTRAL-COM_RFC.Feature.Power.DeepSleepNotification.Enable".

(** ** The calls *)
Inductive rpc : Type :=
  | _Gettr69HostIfMgr | _Settr69HostIfMgr | _SetAttributestr69HostIfMgr | _GetAttributestr69HostIfMgr
  | _RegisterForEventstr69HostIfMgr.

(** What is registered, in this order. *)
Definition rpcs : list (string * rpc) :=
  [(IARM_BUS_TR69HOSTIFMGR_API_GetParams, _Gettr69HostIfMgr);
   (IARM_BUS_TR69HOSTIFMGR_API_SetParams, _Settr69HostIfMgr);
   (IARM_BUS_TR69HOSTIFMGR_API_SetAttributes, _SetAttributestr69HostIfMgr);
   (IARM_BUS_TR69HOSTIFMGR_API_GetAttributes, _GetAttributestr69HostIfMgr);
   (IARM_BUS_TR69HOSTIFMGR_API_RegisterForEvents, _RegisterForEventstr69HostIfMgr)].

Section calls.
Context `{TinyXml} `{ReqHandler}.

(** The data model, and [updateHandler::reset] on the state behind the handlers. *)
Variables (doc : XMLNode) (reset : hst → hst).

Definition set_sources (m : HOSTIF_MsgData_t) (rule : HostIf_Source_Type_t) : HOSTIF_MsgData_t :=
  Webpa.with_source m HOSTIF_SRC_IARM rule.

(** The argument, which can be missing, is changed in place.  An exception of
    the dispatcher ends the process. *)
Definition on_message (f : HOSTIF_MsgData_t → walk (HOSTIF_MsgData_t * hst)) (arg : option HOSTIF_MsgData_t)
    (h : hst) : walk (option HOSTIF_MsgData_t * hst) :=
  match arg with
  | None => Done (None, h)
  | Some m => let* r := f m in Done (Some r.1, r.2)
  end.

(** A name that the data model does not have is served with no update rule. *)
Definition hostIf_GetReqHandler (arg : option HOSTIF_MsgData_t) (h : hst) : walk (option HOSTIF_MsgData_t * hst) :=
  on_message (λ m,
    let* found := of_option (WalDB.getParamInfoFromDataModel doc (paramName m) WalDB.zero_param) in
    let rule := getBSUpdateEnum (dm ← found; WalDB.bsUpdate dm) in
    let '(_, m', h') := hostIf_Get (set_sources m rule) h in Done (m', h')) arg h.

Definition hostIf_SetReqHandler (arg : option HOSTIF_MsgData_t) (h : hst) : walk (option HOSTIF_MsgData_t * hst) :=
  on_message (λ m,
    let '(ret, m', h') := hostIf_Set (set_sources m HOSTIF_NONE) h in
    let* _ := of_option ret in Done (m', h')) arg h.

Definition hostIf_SetAttributesReqHandler (arg : option HOSTIF_MsgData_t) (h : hst)
  : walk (option HOSTIF_MsgData_t * hst) :=
  on_message (λ m,
    let '(ret, m', h') := hostIf_SetAttributes m h in let* _ := of_option ret in Done (m', h')) arg h.

Definition hostIf_GetAttributesReqHandler (arg : option HOSTIF_MsgData_t) (h : hst)
  : walk (option HOSTIF_MsgData_t * hst) :=
  on_message (λ m,
    let '(ret, m', h') := hostIf_SetAttributes m h in let* _ := of_option ret in Done (m', h')) arg h.

(** Every call answers IARM_RESULT_SUCCESS. *)
Definition run_rpc (r : rpc) (arg : option HOSTIF_MsgData_t) (h : hst) : walk (option HOSTIF_MsgData_t * hst) :=
  match r with
  | _Gettr69HostIfMgr => hostIf_GetReqHandler arg h
  | _Settr69HostIfMgr => hostIf_SetReqHandler arg h
  | _SetAttributestr69HostIfMgr => hostIf_SetAttributesReqHandler arg h
  | _GetAttributestr69HostIfMgr => hostIf_GetAttributesReqHandler arg h
  | _RegisterForEventstr69HostIfMgr => Done (arg, reset h)
  end.

(** A call by name, among those registered. *)
Definition bus_call (registered : list (string * rpc)) (name : string) (arg : option HOSTIF_MsgData_t) (h : hst)
  : walk (option (option HOSTIF_MsgData_t) * hst) :=
  match List.find (λ x, streq x.1 name) registered with
  | None => Done (None, h)
  | Some (_, r) => let* x := run_rpc r arg h in Done (Some x.1, x.2)
  end.

End calls.

(** ** The connections *)

(** The libraries: whether a call succeeds, and their state. *)
Class Platform := {
  plat : Type;
  IARM_Bus_Init : string → plat → bool * plat;
  IARM_Bus_Connect : plat → bool * plat;
  IARM_Bus_Disconnect : plat → bool * plat;
  IARM_Bus_Term : plat → bool * plat;
  IARM_Bus_RegisterCall : string → rpc → plat → bool * plat;
  IARM_Bus_RegisterEvents : plat → plat;
  ds_init : plat → plat;
  ds_unInit : plat → plat;
  PowerController_Init : plat → plat;
  PowerController_Connect : plat → bool * plat;
  PowerController_Term : plat → plat;
  PowerController_RegisterPowerModeChangedCallback : plat → plat;
  PowerController_UnRegisterPowerModeChangedCallback : plat → plat
}.

Section connections.
Context `{Platform}.

(** [IsPwrCtlInt], the flag of the device profile, the thread that waits for
    the power controller having been started, and the libraries. *)
Record links := mkLinks { IsPwrCtlInt : bool; bPowerControllerEnable : bool; pwrThread : bool; libs : plat }.

Definition with_libs (l : links) (p : plat) : links := mkLinks (IsPwrCtlInt l) (bPowerControllerEnable l) (pwrThread l) p.

Definition TR69_HostIf_Mgr_Init (l : links) : bool * links :=
  let '(ok, p) := IARM_Bus_Init IARM_BUS_TR69HOSTIFMGR_NAME (libs l) in
  if ok then (true, mkLinks (IsPwrCtlInt l) (bPowerControllerEnable l) true p) else (false, with_libs l p).

Definition TR69_HostIf_Mgr_Connect (l : links) : bool * links :=
  let '(ok, p) := IARM_Bus_Connect (libs l) in
  if ok then (true, with_libs l p) else (false, with_libs l (IARM_Bus_Term p).2).

(** The registrations end at the first that fails. *)
Fixpoint register_all (l : list (string * rpc)) (p : plat) : bool * plat :=
  match l with
  | [] => (true, p)
  | (n, r) :: l' => let '(ok, p') := IARM_Bus_RegisterCall n r p in if ok then register_all l' p' else (false, p')
  end.

Definition TR69_HostIf_Mgr_Get_RegisterCall (l : links) : bool * links :=
  let '(ret, p) := register_all rpcs (libs l) in (ret, with_libs l (IARM_Bus_RegisterEvents p)).

Definition hostIf_IARM_IF_Start (l : links) : bool * links :=
  let '(ok1, l1) := TR69_HostIf_Mgr_Init l in
  if negb ok1 then (false, l1)
  else let '(ok2, l2) := TR69_HostIf_Mgr_Connect l1 in
       if negb ok2 then (false, l2) else TR69_HostIf_Mgr_Get_RegisterCall l2.

(** The thread that waits for the power controller; [OutOfFuel] while it does. *)
Fixpoint connect_power (fuel : nat) (p : plat) : walk plat :=
  match fuel with
  | O => OutOfFuel
  | S fuel' => let '(ok, p') := PowerController_Connect p in if ok then Done p' else connect_power fuel' p'
  end.

Definition hostIf_getPwrContInterface (fuel : nat) (l : links) : walk links :=
  let* p := connect_power fuel (PowerController_Init (ds_init (libs l))) in
  Done (mkLinks true true (pwrThread l) (PowerController_RegisterPowerModeChangedCallback p)).

(** The result is that of ending the bus. *)
Definition tr69hostIfMgr_Stop (l : links) : bool * links :=
  let '(_, p1) := IARM_Bus_Disconnect (libs l) in
  let '(ok, p2) := IARM_Bus_Term p1 in
  (ok, if IsPwrCtlInt l
       then mkLinks false false (pwrThread l) (PowerController_Term (PowerController_UnRegisterPowerModeChangedCallback p2))
       else with_libs l p2).

Definition hostIf_IARM_IF_Stop (l : links) : links := (tr69hostIfMgr_Stop (with_libs l (ds_unInit (libs l)))).2.

End connections.

(** ** Deep sleep *)
Inductive PowerState_t : Type :=
  | POWER_STATE_UNKNOWN | POWER_STATE_OFF | POWER_STATE_STANDBY | POWER_STATE_ON
  | POWER_STATE_STANDBY_LIGHT_SLEEP | POWER_STATE_STANDBY_DEEP_SLEEP.

#[export] Instance PowerState_eq_dec : EqDecision PowerState_t.
Proof. solve_decision. Defined.

Definition deepsleep_status (currentState newState : PowerState_t) : option string :=
  if decide (newState = POWER_STATE_STANDBY_DEEP_SLEEP ∧ currentState ≠ POWER_STATE_STANDBY_DEEP_SLEEP)
  then Some "device-enter-deepsleep-state"%string
  else if decide (newState ≠ POWER_STATE_STANDBY_DEEP_SLEEP ∧ currentState = POWER_STATE_STANDBY_DEEP_SLEEP)
  then Some "device-exit-deepsleep-state"%string
  else None.

Section events.
Context `{UMapOrder} `{CJson} `{DeviceProfile} (o : options).

(** [getNotifySource ()], the profile's getter of the firmware's name, and
    [std::time]. *)
Variables (device_id : string) (get_X_RDK_FirmwareName : HOSTIF_MsgData_t → HOSTIF_MsgData_t) (now : Z).

Definition rfc_question : HOSTIF_MsgData_t :=
  mkMsg X_RDK_RFC_DEEPSLEEP_ENABLE zero_buffer None EmptyString 0 0 hostIf_StringType HOSTIF_INVALID_TYPE
        fcNoFault HOSTIF_NONE HOSTIF_NONE false.

(** The profile is asked without its mutex.  [None]: undefined behaviour, or an
    exception, which nothing catches. *)
Definition _hostIf_EventHandler (currentState newState : PowerState_t) (p : profile pstate)
    (q : NotificationHandler.t) : option (profile pstate * NotificationHandler.t) :=
  p1 ← getInstance o p;
  r ← get_xRDKCentralComRFC o rfc_question p1;
  match r with
  | Threw _ _ => None
  | Returned ret m p2 =>
      if (ret =? OK) && streq (buf_str (paramValue m)) "true" then
        match deepsleep_status currentState newState with
        | Some status =>
            Some (p2, NotificationHandler.pushNotification
                        (NotificationHandler.push_device_deepsleep_notifications device_id get_X_RDK_FirmwareName
                           (Some status) (Some (dec now))) q)
        | None => Some (p2, q)
        end
      else Some (p2, q)
  end.
End events.

(** ** Properties *)
Section calls_correct.
Context `{TinyXml} `{ReqHandler} (doc : XMLNode) (reset : hst → hst).

(** Attributes cannot be read over IARM: of the two calls for attributes, whatever
    their names, each sets the attributes of its argument, with the handler
    that sets, and answers what that handler left.  The names of the two are
    swapped besides. *)
Theorem iarm_attributes_never_read name m h :
  name ∈ [IARM_BUS_TR69HOSTIFMGR_API_GetAttributes; IARM_BUS_TR69HOSTIFMGR_API_SetAttributes] →
  bus_call doc reset rpcs name (Some m) h
  = (let '(ret, m', h') := hostIf_SetAttributes m h in
     let* _ := of_option ret in Done (Some (Some m'), h'))
  ∧ IARM_BUS_TR69HOSTIFMGR_API_GetAttributes = "tr69HostIfSetAttributes"%string
  ∧ IARM_BUS_TR69HOSTIFMGR_API_SetAttributes = "tr69HostIfGetAttributes"%string.
Proof.
  intros Hn. split; [|done].
  repeat (apply elem_of_cons in Hn as [->|Hn];
    [unfold bus_call; match goal with |- context [List.find ?f ?l] =>
       let r := eval vm_compute in (List.find f l) in change (List.find f l) with r end;
     cbn [run_rpc]; unfold hostIf_GetAttributesReqHandler, hostIf_SetAttributesReqHandler, on_message;
     destruct (hostIf_SetAttributes m h) as [[[r|] m'] h']; reflexivity|]).
  by apply not_elem_of_nil in Hn.
Qed.

(** A get and a set over IARM, by the names that are registered: the dispatcher gets
    the caller's own message, marked as coming from IARM, with the data model's
    update rule on a get and with none on a set, and the caller gets the
    message back as the dispatcher left it. *)
Theorem iarm_get_set found m h :
  WalDB.getParamInfoFromDataModel doc (paramName m) WalDB.zero_param = Some found →
  bus_call doc reset rpcs IARM_BUS_TR69HOSTIFMGR_API_GetParams (Some m) h
  = (let '(_, m', h') := hostIf_Get
       (Webpa.with_source m HOSTIF_SRC_IARM (getBSUpdateEnum (dm ← found; WalDB.bsUpdate dm))) h in
     Done (Some (Some m'), h'))
  ∧ bus_call doc reset rpcs IARM_BUS_TR69HOSTIFMGR_API_SetParams (Some m) h
    = (let '(ret, m', h') := hostIf_Set (Webpa.with_source m HOSTIF_SRC_IARM HOSTIF_NONE) h in
       let* _ := of_option ret in Done (Some (Some m'), h')).
Proof.
  intros Hf. unfold bus_call. split.
  - change (List.find _ _) with (Some (IARM_BUS_TR69HOSTIFMGR_API_GetParams, _Gettr69HostIfMgr)).
    cbn [run_rpc]. unfold hostIf_GetReqHandler, on_message. rewrite Hf. cbn [of_option wbind]. unfold set_sources.
    by destruct (hostIf_Get _ h) as [[ret m'] h'].
  - change (List.find _ _) with (Some (IARM_BUS_TR69HOSTIFMGR_API_SetParams, _Settr69HostIfMgr)).
    cbn [run_rpc]. unfold hostIf_SetReqHandler, on_message, set_sources.
    by destruct (hostIf_Set _ h) as [[[ret|] m'] h'].
Qed.

End calls_correct.

Section events_correct.
Context `{UMapOrder} `{CJson} `{DeviceProfile} (o : options).
Variables (device_id : string) (get_X_RDK_FirmwareName : HOSTIF_MsgData_t → HOSTIF_MsgData_t).

(** The notification of a change between two power states, when there is one. *)
Definition deepsleep_notification (now : Z) (currentState newState : PowerState_t)
  : list NotificationHandler.NotifyData :=
  match deepsleep_status currentState newState with
  | Some s => [NotificationHandler.push_device_deepsleep_notifications device_id get_X_RDK_FirmwareName
                 (Some s) (Some (dec now))]
  | None => []
  end.

(** The changes of the power state, one after another, with their times. *)
Fixpoint power_events (l : list (Z * PowerState_t * PowerState_t)) (p : profile pstate) (q : NotificationHandler.t)
  : option (profile pstate * NotificationHandler.t) :=
  match l with
  | [] => Some (p, q)
  | (now, currentState, newState) :: l' =>
      r ← _hostIf_EventHandler o device_id get_X_RDK_FirmwareName now currentState newState p q;
      power_events l' r.1 r.2
  end.

Lemma one_event f l d x v now cur new q :
  serving o f l d x → holds x X_RDK_RFC_DEEPSLEEP_ENABLE v → canonical_text hostIf_StringType v →
  v ≠ EmptyString →
  NotificationHandler.notifyUpdateCallback q = true → NotificationHandler.notificationQueue q = [] →
  _hostIf_EventHandler o device_id get_X_RDK_FirmwareName now cur new (body d) q
  = Some (body d, NotificationHandler.mk [] true
                    (NotificationHandler.sent q ++ if streq v "true" then deepsleep_notification now cur new else [])).
Proof.
  intros [_ Ho Hn Hx Hg _] Hv Hc Hne Hcb Hq. unfold _hostIf_EventHandler. rewrite getInstance_made by done.
  cbn [mbind option_bind].
  rewrite (fetch_rfc_value o f l (body d) x rfc_question v) by (done || (vm_compute; reflexivity) || (vm_compute; done)).
  cbn [mbind option_bind]. change (OK =? OK) with true. cbn [andb].
  assert (buf_str (paramValue (set_fault (putValue rfc_question v) fcNoFault)) = v) as ->.
  { pose proof (putValue_canonical rfc_question v Hc) as E. unfold HostIf.getStringValue in E.
    rewrite paramtype_putValue in E. by injection E. }
  destruct q as [queue cb sent]. cbn in Hcb, Hq |- *. subst.
  destruct (streq v "true"); [|by rewrite app_nil_r].
  unfold deepsleep_notification. destruct (deepsleep_status cur new); [done|by rewrite app_nil_r].
Qed.

(** Deep sleep is told to the cloud once each way: over any sequence of changes of the
    power state, with the RFC parameter set to "true", the notifications sent
    are those of the changes into and out of deep sleep, in order and at their
    times; with any other value there are none.  The stores do not change. *)
Theorem deepsleep_notified f l d x v evs q :
  serving o f l d x → holds x X_RDK_RFC_DEEPSLEEP_ENABLE v → canonical_text hostIf_StringType v →
  v ≠ EmptyString →
  NotificationHandler.notifyUpdateCallback q = true → NotificationHandler.notificationQueue q = [] →
  power_events evs (body d) q
  = Some (body d, NotificationHandler.mk [] true
      (NotificationHandler.sent q
       ++ if streq v "true" then evs ≫= (λ e, deepsleep_notification e.1.1 e.1.2 e.2) else [])).
Proof.
  intros Hs Hv Hc Hne. revert q. induction evs as [|[[now cur] new] evs IH]; intros q Hcb Hq.
  - destruct q as [queue cb sent]. cbn in Hcb, Hq |- *. subst. by destruct (streq v "true"); rewrite app_nil_r.
  - cbn [power_events]. rewrite (one_event f l d x v) by done. cbn [mbind option_bind fst snd].
    rewrite IH by done. do 3 f_equal. cbn [NotificationHandler.sent].
    destruct (streq v "true"); [|by rewrite app_nil_r]. rewrite <- app_assoc. done.
Qed.
End events_correct.

Section power.
Context `{Platform}.

Fixpoint after_refusals (n : nat) (p : plat) : plat :=
  match n with O => p | S n' => after_refusals n' (PowerController_Connect p).2 end.

Lemma connect_power_run n p fuel :
  (∀ k, (k < n)%nat → (PowerController_Connect (after_refusals k p)).1 = false) →
  (PowerController_Connect (after_refusals n p)).1 = true → (n < fuel)%nat →
  connect_power fuel p = Done (PowerController_Connect (after_refusals n p)).2.
Proof.
  revert p fuel. induction n as [|n IH]; intros p [|fuel] Hno Hyes Hf; try lia.
  - cbn [connect_power after_refusals] in *. by destruct (PowerController_Connect p) as [[] p'].
  - cbn [connect_power]. pose proof (Hno O ltac:(lia)) as H0. cbn [after_refusals] in H0.
    destruct (PowerController_Connect p) as [[] p'] eqn:E; [done|].
    replace p' with (PowerController_Connect p).2 by by rewrite E.
    apply (IH _ fuel); [|done|lia]. intros k Hk. apply (Hno (S k)). lia.
Qed.

(** However often the power controller refuses, the thread that waits for it ends at
    the first attempt that succeeds, given fuel for one more than the refusals, with
    both flags set; stopping the interface then clears both. *)
Theorem power_flags_agree n l fuel :
  let p := PowerController_Init (ds_init (libs l)) in
  (∀ k, (k < n)%nat → (PowerController_Connect (after_refusals k p)).1 = false) →
  (PowerController_Connect (after_refusals n p)).1 = true → (n < fuel)%nat →
  ∃ l', hostIf_getPwrContInterface fuel l = Done l'
    ∧ IsPwrCtlInt l' = true ∧ bPowerControllerEnable l' = true
    ∧ IsPwrCtlInt (hostIf_IARM_IF_Stop l') = false ∧ bPowerControllerEnable (hostIf_IARM_IF_Stop l') = false.
Proof.
  intros p Hno Hyes Hf. unfold hostIf_getPwrContInterface. fold p. rewrite (connect_power_run n) by done.
  cbn [wbind]. eexists. split; [done|]. split; [done|]. split; [done|].
  unfold hostIf_IARM_IF_Stop, tr69hostIfMgr_Stop.
  destruct (IARM_Bus_Disconnect _) as [b1 p1]. destruct (IARM_Bus_Term p1) as [b2 p2]. done.
Qed.
End power.

(** ** Concrete inputs *)
#[local] Existing Instance WalDB.toy_xml.

Definition ex_message (n : string) : HOSTIF_MsgData_t :=
  mkMsg n zero_buffer None "" 0 0 hostIf_StringType HOSTIF_GET fcNoFault HOSTIF_NONE HOSTIF_NONE false.

Definition ex_handler : ReqHandler := {|
  hst := nat;
  hostIf_Get := λ m h, (OK, m, h);
  hostIf_Set := λ m h, (Some OK, m, h);
  hostIf_GetAttributes := λ m h, (Some OK, m, h);
  hostIf_SetAttributes := λ m h, (Some OK, m, S h)
|}.

Lemma iarm_attributes_never_read_witness :
  @bus_call _ ex_handler Webpa.ex_doc id rpcs "tr69HostIfGetAttributes" (Some (ex_message "Device.X.Text")) O
  = Done (Some (Some (ex_message "Device.X.Text")), 1%nat).
Proof.
  apply (proj1 (@iarm_attributes_never_read WalDB.toy_xml ex_handler Webpa.ex_doc id
    IARM_BUS_TR69HOSTIFMGR_API_SetAttributes (ex_message "Device.X.Text") O ltac:(right; left))).
Defined.

Lemma iarm_get_set_witness :
  @bus_call _ ex_handler Webpa.ex_doc id rpcs "tr69HostIfGetParams" (Some (ex_message "Device.X.Text")) O
  = Done (Some (Some (Webpa.with_source (ex_message "Device.X.Text") HOSTIF_SRC_IARM HOSTIF_SRC_ALL)), O).
Proof.
  apply (proj1 (@iarm_get_set WalDB.toy_xml ex_handler Webpa.ex_doc id
    (Some (WalDB.mkParam (Some "Device.X.Text") (Some "Text") (Some "string") (Some "readWrite") (Some "none")
             (Some "allUpdate"))%string) (ex_message "Device.X.Text") O ltac:(vm_compute; reflexivity))).
Defined.

#[local] Existing Instance canonical_order.
#[local] Existing Instance XBSStore.toy_cjson.
#[local] Existing Instance EndToEnd.ex_platform.

Lemma ex_deepsleep_parameter : rfc_parameter EndToEnd.ex_options X_RDK_RFC_DEEPSLEEP_ENABLE.
Proof. constructor; vm_compute; first [reflexivity|exact I|repeat split]. Qed.

Definition ex_enable : HOSTIF_MsgData_t :=
  putValue (ex_message X_RDK_RFC_DEEPSLEEP_ENABLE) "true".

(** Into deep sleep, to another standby, and out. *)
Definition ex_changes : list (Z * PowerState_t * PowerState_t) :=
  [(5, POWER_STATE_ON, POWER_STATE_STANDBY_DEEP_SLEEP); (6, POWER_STATE_STANDBY_DEEP_SLEEP, POWER_STATE_STANDBY_DEEP_SLEEP);
   (7, POWER_STATE_STANDBY_DEEP_SLEEP, POWER_STATE_ON); (8, POWER_STATE_ON, POWER_STATE_OFF)].

Lemma deepsleep_notified_witness :
  ∃ (p p' : profile pstate) q', power_events EndToEnd.ex_options "mac:1" id ex_changes p
      (NotificationHandler.mk [] true []) = Some (p', q')
    ∧ length (NotificationHandler.sent q') = 2%nat.
Proof.
  destruct (set_rfc_parameter EndToEnd.ex_options "/opt/s.ini" "/opt/l.ini" 7 EndToEnd.ex_device XRFCStore.ex_store
    ex_enable "true" EndToEnd.ex_serving) as (x' & m' & w' & _ & _ & Hs & Hh & _).
  - exact ex_deepsleep_parameter.
  - reflexivity.
  - vm_compute. reflexivity.
  - vm_compute. first [reflexivity|repeat split; discriminate].
  - reflexivity.
  - eexists _, _, _. split.
    + apply (deepsleep_notified EndToEnd.ex_options "mac:1" id "/opt/s.ini" "/opt/l.ini" _ x' "true" ex_changes
        (NotificationHandler.mk [] true []) Hs Hh); try reflexivity; [|discriminate].
      split; [reflexivity|]. apply Nat.ltb_lt. vm_compute. reflexivity.
    + vm_compute. reflexivity.
Defined.

(** Libraries that count the connections; the power controller is there at the
    third. *)
#[local] Instance ex_libs : Platform := {
  plat := nat;
  IARM_Bus_Init _ p := (true, p);
  IARM_Bus_Connect p := (true, p);
  IARM_Bus_Disconnect p := (true, p);
  IARM_Bus_Term p := (true, p);
  IARM_Bus_RegisterCall _ _ p := (true, p);
  IARM_Bus_RegisterEvents p := p;
  ds_init p := p;
  ds_unInit p := p;
  PowerController_Init p := p;
  PowerController_Connect p := (2 <=? p, S p)%nat;
  PowerController_Term p := p;
  PowerController_RegisterPowerModeChangedCallback p := p;
  PowerController_UnRegisterPowerModeChangedCallback p := p
}.

Lemma power_flags_agree_witness :
  ∃ l', @hostIf_getPwrContInterface ex_libs 5 (@mkLinks ex_libs false false true O) = Done l' ∧ IsPwrCtlInt l' = true
    ∧ IsPwrCtlInt (hostIf_IARM_IF_Stop l') = false.
Proof.
  destruct (@power_flags_agree ex_libs 2 (@mkLinks ex_libs false false true O) 5) as (l' & Hl & Ha & _ & Hb & _).
  - intros [|[|k]] Hk; [reflexivity|reflexivity|exfalso; lia].
  - reflexivity.
  - lia.
  - exists l'. exact (conj Hl (conj Ha Hb)).
Defined.

End IarmHandler.
