(* ===== verification/Cloud.v ===== *)
(** * The daemon from the cloud to its stores

    The connection to parodus, the WebPA adapter, the dispatcher, the handler of
    Device.DeviceInfo and the RFC store put together: requests that arrive from
    the cloud, and the answers that go back. *)
From stdpp Require Import base list strings gmap.
From Stdlib Require Import Ascii ZArith Lia.
From S2P Require Import Prelude HostIf FileStore IniFile RFCStore BSJournal BSStore MsgHandler WalDB WalList.
From S2P Require Import FrontEnd Webpa WebpaAttr WebpaAdapter NotificationHandler Libpd RFCVar HttpServer.
From S2P Require Import Utils Notify DeviceInfo DeviceClient EndToEnd.
Import hostIf_DeviceInfo DeviceClientReqHandler DeviceManager EndToEnd.
Import WalList (walk, Done, Crash, OutOfFuel, wbind, of_option).

#[local] Arguments streq : simpl never.

Module Cloud.

(** A value as WebPA prints it: a boolean as a number. *)
Definition webpa_text (t : HostIf_ParamType_t) (v : string) : string :=
  match t with
  | hostIf_BooleanType => if streq v "true" then "1" else "0"
  | _ => v
  end%string.

Lemma value_text_put m v :
  canonical_text (paramtype m) v → paramtype m ≠ hostIf_UnsignedLongType → paramtype m ≠ hostIf_DateTimeType →
  isLengthyParam m = false → Webpa.value_text (putValue m v) = webpa_text (paramtype m) v.
Proof.
  intros Hc Hu Hd Hl. pose proof (putValue_canonical m v Hc) as Hv.
  unfold Webpa.value_text. rewrite paramtype_putValue. unfold HostIf.getStringValue in Hv.
  rewrite paramtype_putValue in Hv.
  assert (isLengthyParam (putValue m v) = false) as -> by by destruct m as [? ? ? ? ? ? []].
  destruct (paramtype m) eqn:Ht; try done; cbn [webpa_text].
  - injection Hv as ->. destruct Hc as [_ Hlen]. apply str_take_all.
    unfold Webpa.MAX_PARAM_LENGTH, TR69HOSTIFMGR_MAX_PARAM_LEN in *. lia.
  - unfold int_to_string in Hv. case_match; [|done]. by injection Hv.
  - by injection Hv.
  - clear Hv. unfold putValue. cbv zeta. change (paramtype (set_value m zero_buffer)) with (paramtype m).
    rewrite Ht.
    destruct Hc as [-> | ->]; vm_compute; reflexivity.
Qed.

Section cloud.
Context `{UMapOrder} `{CJson} `{DeviceProfile} `{GHashTable} `{TinyXml} `{Wdmp} `{Rbus} `{Adapter.WdmpJson}.
Variables (o : options) (self : nat) (str_hash : string → Z)
  (others : HostIf_ParamMgr_t → request → HOSTIF_MsgData_t → device pstate → outcome (device pstate))
  (abnormal : request → HOSTIF_MsgData_t → device pstate → outcome (device pstate))
  (time : request → HOSTIF_MsgData_t → Z)
  (b : MsgHandler.build) (t : option ghash) (clock : nat → Z) (doc : XMLNode) (fuel : nat)
  (g_notifyParamList : list string).

#[local] Instance daemon : ReqHandler := front_end o self str_hash others abnormal time b t clock.

(** The state of the WebPA layer with this device behind its dispatcher. *)
Definition behind_pal (s : Webpa.pal) (d : device pstate) : Prop :=
  ∃ cg cs k, Webpa.hs s = (cg, cs, k, d).

(** A parameter as the cloud sends it. *)
Definition cloud_param (p : setting) : Webpa.ParamVal :=
  Webpa.mkParamVal (s_name p) (Some (s_value p)) (Webpa.converttoWalType (Webpa.entry_type (s_entry p))).

(** A parameter of the RFC store that the cloud may set. *)
Record cloud_setting (p : setting) : Prop := {
  cs_rfc : rfc_setting o b t doc p;
  cs_type : s_type p ∈ ["string"; "boolean"; "int"; "unsignedInt"]%string;
  cs_report : strcaseeq (s_name p) "Device.X_RDKCENTRAL-COM_T2.ReportProfiles" = false;
  cs_accepted : Adapter.acceptable (cloud_param p);
  cs_reboot : Adapter.no_reboot (cloud_param p);
  cs_length : (String.length (s_name p) < Webpa.MAX_PARAMETERNAME_LEN)%nat
}.

(** The answer to a get of it. *)
Definition cloud_answer (p : setting) : Webpa.param_t :=
  Webpa.mkParamT (s_name p) (webpa_text (RequestHandler.http_type (s_type p)) (s_value p))
    (Webpa.wal_type (Webpa.converttoWalType (RequestHandler.http_type (s_type p)))).

Lemma cloud_entry_type p : cloud_setting p → Webpa.entry_type (s_entry p) = RequestHandler.http_type (s_type p).
Proof.
  intros [[Ho _ _] Hty _ _ _ _]. unfold Webpa.entry_type. rewrite (RequestHandler.wr_type _ _ _ _ (of_writable _ _ _ _ Ho)).
  unfold RequestHandler.http_type. rewrite RequestHandler.getHostIfParamType_of.
  repeat (apply elem_of_cons in Hty as [->|Hty]; [done|]). by apply not_elem_of_nil in Hty.
Qed.

Lemma cloud_type p :
  cloud_setting p → RequestHandler.http_type (s_type p) ≠ hostIf_UnsignedLongType
    ∧ RequestHandler.http_type (s_type p) ≠ hostIf_DateTimeType.
Proof.
  intros Hp. pose proof (cs_type _ Hp) as Hty. unfold RequestHandler.http_type.
  rewrite RequestHandler.getHostIfParamType_of.
  repeat (apply elem_of_cons in Hty as [->|Hty]; [done|]). by apply not_elem_of_nil in Hty.
Qed.

(** One set from the cloud. *)
Lemma cloud_set_one f l tid p s d x :
  cloud_setting p → behind_pal s d → serving o f l d x →
  ∃ s' d' x', Webpa.SetParamInfo (Some doc) (cloud_param p) tid s = Done (Webpa.WAL_SUCCESS, s')
    ∧ behind_pal s' d' ∧ serving o f l d' x' ∧ holds x' (s_name p) (s_value p)
    ∧ ∀ n, n ≠ s_name p → XRFCStore.m_dict x' !! n = XRFCStore.m_dict x !! n.
Proof.
  intros Hp (cg & cs & k & Hs) Hsv. pose proof Hp as [[Ho Hr Hrfc] Hty Hrep _ _ _].
  pose proof (of_shown _ _ _ _ Ho) as (Hc & Hne & Hu & Hul).
  destruct (RequestHandler.webpa_set_message doc (s_name p) (s_type p) (s_entry p) (s_value p) EmptyString tid
    (RequestHandler.mkServer s None)) as (_ & _ & Hw); [apply Ho|done| |done|done|].
  { destruct (RequestHandler.http_type (s_type p)); try done. by apply Hu. }
  destruct (RequestHandler.set_message_fields (s_name p) (s_type p) (s_value p) EmptyString (s_entry p))
    as (Hn & _ & _ & _ & Hbs); [by eapply offered_length|]. fold (set_message_of p EmptyString) in Hn, Hbs, Hw.
  destruct (set_rfc_parameter o f l self d x (set_message_of p EmptyString) (s_value p))
    as (x' & m' & w' & Hhandle & Hf & Hsv' & Hh & Hoth);
    [done|by rewrite Hn|by rewrite Hbs|by apply RequestHandler.set_message_value|apply Ho|by eapply canonical_no_nul|].
  rewrite Hn in Hh, Hoth.
  destruct (front_end_set o self str_hash others abnormal time b t clock cg cs k d (set_message_of p EmptyString) OK m'
    (with_body d (set_rfcStore (body d) x' w'))) as (cs' & k' & Hfe);
    [rewrite Hn; by apply (of_routed _ _ _ _ Ho)|done|].
  exists (Webpa.set_hs s ((cg, cs', k', with_body d (set_rfcStore (body d) x' w')) : @hst daemon)),
    (with_body d (set_rfcStore (body d) x' w')), x'.
  split; [|split_and!; [by eexists _, _, _|done..]].
  unfold cloud_param. cbn [RequestHandler.pl] in Hw. rewrite Hw, Hs. unfold daemon in *. rewrite Hfe. done.
Qed.

Lemma cloud_set_all f l tid ps s d x :
  Forall cloud_setting ps → NoDup (s_name <$> ps) → behind_pal s d → serving o f l d x →
  ∃ s' d' x', Webpa.setValues (Some doc) (cloud_param <$> ps) tid s = Done (replicate (length ps) 0, s')
    ∧ behind_pal s' d' ∧ serving o f l d' x'
    ∧ (∀ p, p ∈ ps → holds x' (s_name p) (s_value p))
    ∧ ∀ n, n ∉ s_name <$> ps → XRFCStore.m_dict x' !! n = XRFCStore.m_dict x !! n.
Proof.
  intros Hps. revert s d x. induction Hps as [|p ps Hp Hps IH]; intros s d x Hnd Hb Hsv.
  { exists s, d, x. split_and!; try done. by intros p ?%not_elem_of_nil. }
  rewrite fmap_cons in Hnd. apply NoDup_cons in Hnd as [Hnin Hnd].
  destruct (cloud_set_one f l tid p s d x Hp Hb Hsv) as (s1 & d1 & x1 & Hset & Hb1 & Hsv1 & Hh & Ho).
  destruct (IH s1 d1 x1 Hnd Hb1 Hsv1) as (s2 & d2 & x2 & Hrest & Hb2 & Hsv2 & Hh2 & Ho2).
  exists s2, d2, x2. split_and!; [|done|done| |].
  - rewrite fmap_cons. cbn [Webpa.setValues]. rewrite Hset. cbn [wbind]. by rewrite Hrest.
  - intros p' [->|Hin]%elem_of_cons; [|by apply Hh2]. unfold holds. rewrite Ho2; [exact Hh|done].
  - intros n Hn. rewrite fmap_cons, not_elem_of_cons in Hn. destruct Hn. by rewrite Ho2, Ho.
Qed.

(** One get from the cloud. *)
Lemma cloud_get_one f l p s d x :
  cloud_setting p → behind_pal s d → serving o f l d x → holds x (s_name p) (s_value p) →
  ∃ s', Webpa.GetParamInfo fuel (Some doc) (s_name p) s = Done (0, [cloud_answer p], s') ∧ behind_pal s' d.
Proof.
  intros Hp (cg & cs & k & Hs) Hsv Hh. pose proof Hp as [[Ho Hr Hrfc] Hty Hrep _ _ Hlen].
  pose proof (of_shown _ _ _ _ Ho) as (Hc & Hne & _). pose proof (cloud_type p Hp) as [Hul Hdt].
  set (m := set_reqType (Webpa.with_source (Webpa.mk_request (s_name p) (RequestHandler.http_type (s_type p)) zero_msg)
              HOSTIF_SRC_WEBPA (getBSUpdateEnum (WalDB.bsUpdate (s_entry p)))) HOSTIF_GET).
  assert (paramName m = s_name p) as Hn.
  { apply str_take_all. unfold Webpa.MAX_PARAMETERNAME_LEN in Hlen.
    assert (256 ≤ Webpa.MAX_PARAM_LENGTH - 1)%nat by (apply Nat.leb_le; vm_compute; reflexivity). lia. }
  assert (handleGetMsg o self m d = Reply (Returned OK (set_fault (putValue (set_instance m 0) (s_value p)) fcNoFault) d))
    as Hget by (apply (get_rfc_parameter o f l self d x m); rewrite ?Hn; done).
  destruct (front_end_get o self str_hash others abnormal time b t clock cg cs k d m OK
    (set_fault (putValue (set_instance m 0) (s_value p)) fcNoFault) d) as (cg' & k' & Hfe);
    [rewrite Hn; by apply (of_routed _ _ _ _ Ho)|done|].
  exists (Webpa.set_hs s ((cg', cs, k', d) : @hst daemon)). split; [|by eexists _, _, _].
  unfold Webpa.GetParamInfo. rewrite (RequestHandler.rd_wild _ _ _ _ (of_readable _ _ _ _ Ho)). cbn [of_option wbind].
  unfold Webpa.get_single.
  pose proof (RequestHandler.rd_owned _ _ _ _ (of_readable _ _ _ _ Ho)) as Hown. unfold Webpa.owned in Hown.
  rewrite Hown. cbn [of_option wbind]. fold (Webpa.entry_type (s_entry p)). rewrite cloud_entry_type by done.
  unfold Webpa.get_ParamValues_tr69hostIf. fold m. rewrite Hs. unfold daemon in *. rewrite Hfe.
  change (OK =? 0) with true. cbv iota beta zeta. rewrite wdmp_success, Z.eqb_refl.
  assert (paramName (set_fault (putValue (set_instance m 0) (s_value p)) fcNoFault) = s_name p) as ->.
  { rewrite <- Hn. change (paramName (set_fault ?y _)) with (paramName y). unfold putValue. by case_match. }
  rewrite str_take_all by lia. unfold Webpa.answer, cloud_answer.
  change (Webpa.value_text (set_fault ?y _)) with (Webpa.value_text y).
  change (paramtype (set_fault ?y _)) with (paramtype y). rewrite paramtype_putValue.
  by rewrite value_text_put.
Qed.

Lemma cloud_get_all f l qs s d x :
  Forall cloud_setting qs → behind_pal s d → serving o f l d x →
  Forall (λ p, holds x (s_name p) (s_value p)) qs →
  ∃ s', Webpa.getValues fuel (Some doc) (s_name <$> qs) s = Done ((λ p, (0, [cloud_answer p])) <$> qs, s')
    ∧ behind_pal s' d.
Proof.
  intros Hqs. revert s. induction Hqs as [|p qs Hp Hqs IH]; intros s Hb Hsv Hh; [by exists s|].
  apply Forall_cons_1 in Hh as [Hh Hhs].
  destruct (cloud_get_one f l p s d x Hp Hb Hsv Hh) as (s1 & Hget & Hb1).
  destruct (IH s1 Hb1 Hsv Hhs) as (s2 & Hrest & Hb2). exists s2. split; [|done].
  rewrite !fmap_cons. cbn [Webpa.getValues]. rewrite (proj2 (Nat.ltb_lt _ _) (cs_length _ Hp)), Hget. cbn [wbind].
  by rewrite Hrest.
Qed.

Lemma set_answer_names ps :
  Forall cloud_setting ps →
  (λ p, Some (Adapter.res_name (Webpa.pv_name p))) <$> (cloud_param <$> ps) = Some <$> (s_name <$> ps).
Proof.
  induction 1 as [|p ps Hp _ IH]; [done|]. rewrite !fmap_cons, IH. f_equal. unfold Adapter.res_name.
  change (Webpa.pv_name (cloud_param p)) with (s_name p). by rewrite (proj2 (Nat.ltb_lt _ _) (cs_length _ Hp)).
Qed.

Lemma get_answer_lists (qs : list setting) :
  let out := (λ p, (0, [cloud_answer p])) <$> qs in
  (Some ∘ fst <$> out = replicate (length qs) (Some 0))
  ∧ zip (s_name <$> qs) (snd <$> out) = (λ p, (s_name p, [cloud_answer p])) <$> qs.
Proof.
  induction qs as [|q qs [IH1 IH2]]; [done|]. cbv zeta in *. rewrite !fmap_cons. cbn [length replicate zip zip_with].
  by rewrite IH1, IH2.
Qed.

Lemma process_get_ok l s out s' :
  l ≠ [] → (length l ≤ 256)%nat → Webpa.getValues fuel (Some doc) l s = Done (out, s') →
  Adapter.process_get fuel (Some doc) l s
  = Done (Adapter.mkRes Adapter.GET (Some ∘ fst <$> out) (Adapter.getRes (zip l (snd <$> out))), s').
Proof.
  intros Hne Hl Hg. unfold Adapter.process_get.
  rewrite (proj2 (Nat.ltb_ge _ _)) by (unfold Webpa.MAX_PARAMETERNAME_LEN; lia). destruct l as [|n l]; [done|].
  rewrite Hg. done.
Qed.

(** ** Properties *)

(** C2. What the cloud sets is what the cloud reads, for ordinary RFC
    parameters: two messages, a set of one or more of different names and a get
    of one to 256 of these names, are answered in their own transactions, the
    first with success for each parameter, the second with the values set, and
    parodus gets the two answers in that order. Ordinary is a parameter of
    Device.DeviceInfo that the configuration routes to its manager, that the
    data model lets be read and written and gives no update rule, kept in the
    RFC store, with a name that fits the messages, has no wildcard, equals sign
    or newline, is no control name nor the account id, is not NonPersistent, has
    no limit and triggers no action on the device, nor reboots it, and is a
    string, boolean, int or unsigned int other than the report profiles; each
    value is a non-empty text as the daemon itself prints it: a string without
    newline that fits the message, true or false, an int above -10^8 and below
    10^9, or an unsigned int below 2^31. The new RFC store is in use and in
    order, no RFC update is in progress and no request is at work on the device.
    *)
Theorem cloud_rfc_round_trip f l ps qs set_payload get_payload id1 id2 src dst s d x :
  Forall cloud_setting ps → NoDup (s_name <$> ps) → ps ≠ [] → qs ⊆ ps → qs ≠ [] → (length qs ≤ 256)%nat →
  Adapter.wdmp_parse_request set_payload = Some (Adapter.mkReq Adapter.SET [] (cloud_param <$> ps)) →
  Adapter.wdmp_parse_request get_payload = Some (Adapter.mkReq Adapter.GET (s_name <$> qs) []) →
  behind_pal s d → serving o f l d x →
  ∃ s' d' x',
    Libpd.parodus_receive_wait fuel (Some doc) g_notifyParamList
      [(0, Some (Libpd.WRP_MSG_TYPE__REQ (Libpd.mkReq (Some set_payload) id1 src dst)));
       (0, Some (Libpd.WRP_MSG_TYPE__REQ (Libpd.mkReq (Some get_payload) id2 src dst)))] s
    = Done ([Libpd.mkReq (Adapter.wdmp_form_response (Some (Adapter.mkRes Adapter.SET
                (replicate (length ps) (Some 0)) (Adapter.paramRes (Some (Some <$> (s_name <$> ps))))))) id1 dst src;
             Libpd.mkReq (Adapter.wdmp_form_response (Some (Adapter.mkRes Adapter.GET
                (replicate (length qs) (Some 0))
                (Adapter.getRes ((λ p, (s_name p, [cloud_answer p])) <$> qs))))) id2 dst src], s')
    ∧ behind_pal s' d' ∧ serving o f l d' x' ∧ ∀ p, p ∈ ps → holds x' (s_name p) (s_value p).
Proof.
  intros Hps Hnd Hne Hin Hqne Hqlen Hpset Hpget Hb Hsv.
  destruct (cloud_set_all f l id1 ps s d x Hps Hnd Hb Hsv) as (s1 & d1 & x1 & Hset & Hb1 & Hsv1 & Hh & _).
  assert (Forall cloud_setting qs) as Hqs.
  { apply Forall_forall. intros q Hq. rewrite Forall_forall in Hps. apply Hps. by apply Hin. }
  destruct (cloud_get_all f l qs s1 d1 x1 Hqs Hb1 Hsv1) as (s2 & Hget & Hb2).
  { apply Forall_forall. intros q Hq. apply Hh. by apply Hin. }
  exists s2, d1, x1. split; [|done].
  cbn [Libpd.parodus_receive_wait]. change (0 =? 1) with false. change (negb (0 =? 0)) with false. cbv iota.
  unfold Libpd.respond. cbn [Libpd.payload Libpd.transaction_uuid of_option wbind Libpd.source Libpd.dest].
  unfold Adapter.processRequest. rewrite Hpset, Hpget. cbn [Adapter.reqType Adapter.param Adapter.paramNames].
  rewrite Adapter.process_set_accepted, Hset.
  2:{ apply Forall_fmap. eapply Forall_impl; [exact Hps|]. intros p Hp. apply Hp. }
  2:{ apply Forall_fmap. eapply Forall_impl; [exact Hps|]. intros p Hp. apply Hp. }
  cbn [wbind fst snd]. assert (s_name <$> qs ≠ []) as Hqn by by destruct qs.
  rewrite (process_get_ok _ _ _ _ Hqn ltac:(by rewrite length_fmap) Hget).
  destruct (get_answer_lists qs) as [E1 E2]. cbv zeta in E1, E2. rewrite E1, E2.
  rewrite set_answer_names, fmap_replicate by done. done.
Qed.

End cloud.

(** ** A concrete daemon *)
#[local] Existing Instance canonical_order.
#[local] Existing Instance plain_wdmp.
#[local] Existing Instance WalDB.toy_xml.
#[local] Existing Instance XBSStore.toy_cjson.
#[local] Existing Instance RequestHandler.ex_bus.
#[local] Existing Instance ex_platform.
#[local] Existing Instance ex_hash.

(** Two payloads; an answer is the text of the states and values it has. *)
#[local] Instance ex_json : Adapter.WdmpJson := {
  wdmp_parse_request p :=
    if streq p "set" then Some (Adapter.mkReq Adapter.SET [] (cloud_param <$> [ex_a; ex_b]))
    else if streq p "get" then Some (Adapter.mkReq Adapter.GET (s_name <$> [ex_b]) [])
    else None;
  wdmp_form_response r :=
    match r with
    | Some (Adapter.mkRes _ st (Adapter.getRes l)) =>
        Some (foldr (λ x acc, foldr (λ v acc, Webpa.value v +:+ ";" +:+ acc)%string acc x.2) EmptyString l)
    | Some (Adapter.mkRes _ st _) => Some (dec (Z.of_nat (length st)))
    | None => None
    end
}.

Lemma ex_cloud p :
  rfc_setting ex_options MsgHandler.full_build ex_table ex_doc p → p = ex_a ∨ p = ex_b →
  cloud_setting ex_options MsgHandler.full_build ex_table ex_doc p.
Proof.
  intros Hr [-> | ->]; (constructor; [exact Hr| |reflexivity| |discriminate|apply Nat.ltb_lt; vm_compute; reflexivity]).
  1, 3: vm_compute; repeat first [left|right].
  all: refine (conj _ (conj _ (conj _ (conj _ _)))); try discriminate; intros E; vm_compute in E; discriminate E.
Qed.

Lemma cloud_rfc_round_trip_witness :
  ∃ s', Libpd.parodus_receive_wait 0 (Some ex_doc) []
      [(0, Some (Libpd.WRP_MSG_TYPE__REQ (Libpd.mkReq (Some "set") (Some "1") (Some "cloud") (Some "me"))));
       (0, Some (Libpd.WRP_MSG_TYPE__REQ (Libpd.mkReq (Some "get") (Some "2") (Some "cloud") (Some "me"))))]%string
      (RequestHandler.pl (ex_server ex_device))
    = Done ([Libpd.mkReq (Some "2") (Some "1") (Some "me") (Some "cloud");
             Libpd.mkReq (Some "1;") (Some "2") (Some "me") (Some "cloud")]%string, s').
Proof.
  destruct (cloud_rfc_round_trip ex_options 7 (λ _, 0) (λ _ _ m d, Returned OK m d) (λ _ m d, Threw m d) (λ _ _, 0)
    MsgHandler.full_build ex_table (λ _, 0) ex_doc 0 [] "/opt/s.ini" "/opt/l.ini" [ex_a; ex_b] [ex_b] "set" "get"
    (Some "1"%string) (Some "2"%string) (Some "cloud"%string) (Some "me"%string)
    (RequestHandler.pl (ex_server ex_device)) ex_device XRFCStore.ex_store) as (s' & d' & x' & H & _).
  - apply List.Forall_cons; [apply (ex_cloud ex_a ex_a_rfc); by left|].
    apply List.Forall_cons; [apply (ex_cloud ex_b ex_b_rfc); by right|apply List.Forall_nil].
  - apply NoDup_cons. split; [|apply NoDup_singleton]. rewrite list_elem_of_singleton. discriminate.
  - discriminate.
  - intros p ->%list_elem_of_singleton. right. left.
  - discriminate.
  - apply Nat.leb_le. reflexivity.
  - reflexivity.
  - reflexivity.
  - by eexists _, _, _.
  - exact ex_serving.
  - exists s'. exact H.
Defined.

End Cloud.
