(* ===== verification/AllFrontEnds.v ===== *)
(** * One parameter through every front end

    The RBus provider, the IARM calls, the JSON server and WebPA over the same
    dispatcher, with the handler of Device.DeviceInfo and the RFC store behind
    it: what one client sets is what the others read. *)
From stdpp Require Import base list strings gmap.
From Stdlib Require Import Ascii ZArith Lia.
From S2P Require Import Prelude HostIf FileStore IniFile RFCStore BSJournal BSStore MsgHandler WalDB WalList.
From S2P Require Import FrontEnd Webpa WebpaAttr WebpaAdapter NotificationHandler Libpd RFCVar HttpServer.
From S2P Require Import Utils Notify DeviceInfo DeviceClient EndToEnd RbusDml JsonHandler IarmHandler Cloud.
Import hostIf_DeviceInfo DeviceClientReqHandler DeviceManager EndToEnd Cloud.
Import WalList (walk, Done, Crash, OutOfFuel, wbind, of_option).

#[local] Arguments streq : simpl never.

Module AllFrontEnds.

(** What the RBus answers for a text put into a message. *)
Lemma message_value_put m v :
  canonical_text (paramtype m) v → paramtype m ≠ hostIf_DateTimeType →
  RbusDml.message_value (putValue m v) = RbusDml.text_value (paramtype m) v.
Proof.
  intros Hc Hd. pose proof (canonical_no_nul _ _ Hc) as Hn. unfold RbusDml.message_value.
  rewrite paramtype_putValue. unfold putValue. cbv zeta.
  change (paramtype (set_value m zero_buffer)) with (paramtype m).
  destruct (paramtype m) eqn:Ht; try done; cbn [paramValue set_value set_len RbusDml.text_value];
    rewrite ?(c_str_no_nul v Hn).
  - destruct Hc as [_ Hl]. unfold strcpy_s. rewrite (c_str_no_nul v Hn), (proj2 (Nat.ltb_lt _ _) Hl).
    by rewrite buf_str_poke.
  - rewrite get_put_int. f_equal. unfold string_to_int. apply int32_id, int32_range.
  - rewrite get_put_uint. f_equal. unfold string_to_uint, uint32. by rewrite Z.mod_mod.
  - destruct Hc as [-> | ->]; reflexivity.
  - rewrite RbusDml.le_val_put8. f_equal. unfold string_to_ulong, uint64.
    rewrite Z.mod_mod by done. rewrite Z.mod_small; [done|apply RbusDml.strtoul_range].
Qed.

(** What the JSON server writes for a text in a message of type string. *)
Lemma value_json_put m v :
  paramtype m = hostIf_StringType → canonical_text hostIf_StringType v →
  JsonHandler.value_json (set_fault (putValue m v) fcNoFault) = JsonHandler.JStr v
  ∧ paramName (set_fault (putValue m v) fcNoFault) = paramName m.
Proof.
  intros Ht Hc. assert (canonical_text (paramtype m) v) as Hc' by by rewrite Ht.
  pose proof (putValue_canonical m v Hc') as Hv. unfold HostIf.getStringValue in Hv.
  rewrite paramtype_putValue, Ht in Hv. injection Hv as Hv. unfold JsonHandler.value_json.
  change (paramtype (set_fault ?y _)) with (paramtype y).
  change (paramValue (set_fault ?y _)) with (paramValue y).
  change (paramName (set_fault ?y _)) with (paramName y). rewrite paramtype_putValue, Ht, Hv.
  split; [done|]. unfold putValue. by destruct (paramtype _).
Qed.

Lemma short_name n : (String.length n < Webpa.MAX_PARAMETERNAME_LEN)%nat →
  (String.length n ≤ Webpa.MAX_PARAM_LENGTH - 1)%nat.
Proof.
  unfold Webpa.MAX_PARAMETERNAME_LEN.
  assert (256 ≤ Webpa.MAX_PARAM_LENGTH - 1)%nat by (apply Nat.leb_le; vm_compute; reflexivity). lia.
Qed.

Section everywhere.
Context `{UMapOrder} `{CJson} `{DeviceProfile} `{GHashTable} `{TinyXml} `{Wdmp} `{Rbus} `{Adapter.WdmpJson}
  `{JsonHandler.Yajl}.
Variables (o : options) (self : nat) (str_hash : string → Z)
  (others : HostIf_ParamMgr_t → request → HOSTIF_MsgData_t → device pstate → outcome (device pstate))
  (abnormal : request → HOSTIF_MsgData_t → device pstate → outcome (device pstate))
  (time : request → HOSTIF_MsgData_t → Z)
  (b : MsgHandler.build) (t : option ghash) (clock : nat → Z) (doc : XMLNode) (fuel : nat).

#[local] Instance daemon : ReqHandler := front_end o self str_hash others abnormal time b t clock.

(** The state behind the dispatcher holds this device. *)
Definition over (h : hst) (d : device pstate) : Prop := ∃ cg cs k, h = (cg, cs, k, d).

(** The dispatcher's answer to any get of a parameter that has a value. *)
Lemma daemon_get f l p h d x m :
  rfc_setting o b t doc p → over h d → serving o f l d x → holds x (s_name p) (s_value p) →
  paramName m = s_name p → bsUpdate m = HOSTIF_NONE →
  ∃ h', hostIf_Get m h = (OK, set_fault (putValue (set_instance m 0) (s_value p)) fcNoFault, h') ∧ over h' d.
Proof.
  intros [Ho Hr Hp] (cg & cs & k & ->) Hs Hh Hn Hb. pose proof (of_shown _ _ _ _ Ho) as (_ & Hne & _).
  assert (handleGetMsg o self m d
          = Reply (Returned OK (set_fault (putValue (set_instance m 0) (s_value p)) fcNoFault) d)) as Hg
    by (apply (get_rfc_parameter o f l self d x m); rewrite ?Hn; done).
  destruct (front_end_get o self str_hash others abnormal time b t clock cg cs k d m OK
    (set_fault (putValue (set_instance m 0) (s_value p)) fcNoFault) d) as (cg' & k' & Hfe);
    [rewrite Hn; by apply (of_routed _ _ _ _ Ho)|done|].
  eexists. split; [exact Hfe|]. by eexists _, _, _.
Qed.

(** A set over the RBus of such a parameter. *)
Lemma rbus_set_one f l p ty s h d x :
  cloud_setting o b t doc p → RbusDml.read_only (s_entry p) = false →
  RbusDml.convertRbus2hostIfDataType ty = Some (RequestHandler.http_type (s_type p)) →
  RbusDml.bus_text (RequestHandler.http_type (s_type p)) (s_value p) s →
  over h d → serving o f l d x →
  ∃ h' d' x', RbusDml.TR_Dml_SetHandler (Some doc) (Some (s_name p)) (Some (ty, s)) h
      = Done (RbusDml.RBUS_ERROR_SUCCESS, h')
    ∧ over h' d' ∧ serving o f l d' x' ∧ holds x' (s_name p) (s_value p)
    ∧ ∀ n, n ≠ s_name p → XRFCStore.m_dict x' !! n = XRFCStore.m_dict x !! n.
Proof.
  intros Hp Hro Hty Htext Hov Hsv. pose proof Hp as [[Ho Hr Hrfc] _ Hrep _ _ Hlen].
  pose proof (of_shown _ _ _ _ Ho) as (Hc & Hne & Hu & Hul).
  pose proof (cloud_entry_type _ _ _ _ p Hp) as He.
  assert (String.length (s_name p) < Webpa.MAX_PARAM_LENGTH)%nat as Hmax.
  { unfold Webpa.MAX_PARAMETERNAME_LEN in Hlen.
    assert (256 ≤ Webpa.MAX_PARAM_LENGTH)%nat by (apply Nat.leb_le; vm_compute; reflexivity). lia. }
  set (m0 := RbusDml.request HOSTIF_SET (s_name p) (Webpa.entry_type (s_entry p)) (s_entry p)).
  assert (paramName m0 = s_name p) as Hn by (apply str_take_all; lia).
  assert (Webpa.settable (paramtype (Webpa.set_request (s_name p) (s_entry p))) (s_value p)) as Hset.
  { change (paramtype _) with (Webpa.entry_type (s_entry p)). rewrite He.
    pose proof (cloud_type o b t doc p Hp) as [_ Hdate].
    destruct (RequestHandler.http_type (s_type p)); try done. by apply Hu. }
  assert (isLengthyParam (Webpa.set_request (s_name p) (s_entry p)) = false) as Hlong.
  { unfold Webpa.set_request. rewrite (str_take_all _ (s_name p)) by lia. exact Hrep. }
  assert (HostIf.getStringValue (RbusDml.put_text m0 s) = Some (s_value p)) as Hv.
  { destruct (Webpa.encode_settable (Webpa.set_request (s_name p) (s_entry p)) (s_value p)) as (m & Hm & Hg & _);
      [done|done|].
    rewrite (RbusDml.put_text_encode _ _ s) in Hm; [|done|done|].
    - injection Hm as <-. unfold m0. rewrite RbusDml.request_webpa by done. by rewrite RbusDml.put_text_reqType.
    - change (paramtype _) with (Webpa.entry_type (s_entry p)). by rewrite He. }
  assert (paramName (RbusDml.put_text m0 s) = s_name p ∧ bsUpdate (RbusDml.put_text m0 s) = HOSTIF_NONE) as [Hpn Hpb].
  { rewrite <- Hn, <- Hr. unfold RbusDml.put_text. destruct (paramtype m0); split; reflexivity. }
  destruct Hov as (cg & cs & k & ->).
  destruct (set_rfc_parameter o f l self d x (RbusDml.put_text m0 s) (s_value p))
    as (x' & m' & w' & Hhandle & Hf & Hsv' & Hh & Hoth);
    [done|by rewrite Hpn|done|done|apply Ho|by eapply canonical_no_nul|].
  rewrite Hpn in Hh, Hoth.
  destruct (front_end_set o self str_hash others abnormal time b t clock cg cs k d (RbusDml.put_text m0 s) OK m'
    (with_body d (set_rfcStore (body d) x' w'))) as (cs' & k' & Hfe);
    [rewrite Hpn; by apply (of_routed _ _ _ _ Ho)|done|].
  eexists _, (with_body d (set_rfcStore (body d) x' w')), x'. split; [|split; [by eexists _, _, _|done]].
  pose proof (RequestHandler.rd_owned _ _ _ _ (of_readable _ _ _ _ Ho)) as Hown.
  rewrite (RbusDml.set_writable doc (s_name p) (s_entry p) ty s) by (try exact Hown; rewrite ?He; done).
  fold m0. unfold daemon in *. rewrite Hfe. reflexivity.
Qed.

(** C1. An ordinary RFC parameter that is set over the RBus is read by every
    client: afterwards a get over the RBus answers the value in the parameter's
    type, one over IARM puts it into the caller's message in the message's type,
    the JSON server answers its text, and the cloud gets it with the parameter's
    type. Ordinary is a parameter of Device.DeviceInfo that the configuration
    routes to its manager, that the data model lets be read and written and
    gives no update rule, kept in the RFC store, with a name that fits the
    messages, has no wildcard, equals sign or newline, is no control name nor
    the account id, is not NonPersistent, has no limit and triggers no action on
    the device, and is a string, boolean, int or unsigned int other than the
    report profiles; the value is a non-empty text as the daemon itself prints
    it: a string without newline that fits the message, true or false, an int
    above -10^8 and below 10^9, or an unsigned int below 2^31, and also a text
    that the message of the IARM caller can hold. The new RFC store is in use
    and in order, no RFC update is in progress and no request is at work on the
    device. *)
Theorem rbus_set_read_everywhere f l p ty s h d x reset m :
  cloud_setting o b t doc p → RbusDml.read_only (s_entry p) = false →
  RbusDml.convertRbus2hostIfDataType ty = Some (RequestHandler.http_type (s_type p)) →
  RbusDml.bus_text (RequestHandler.http_type (s_type p)) (s_value p) s →
  over h d → serving o f l d x → WalDB.dataType (s_entry p) = Some (s_type p) →
  paramName m = s_name p → canonical_text (paramtype m) (s_value p) → canonical_text hostIf_StringType (s_value p) →
  ∃ h', RbusDml.TR_Dml_SetHandler (Some doc) (Some (s_name p)) (Some (ty, s)) h
      = Done (RbusDml.RBUS_ERROR_SUCCESS, h')
    ∧ (∃ h'', RbusDml.TR_Dml_GetHandler (Some doc) (Some (s_name p)) h'
        = Done (RbusDml.RBUS_ERROR_SUCCESS,
                Some (RbusDml.text_value (RequestHandler.http_type (s_type p)) (s_value p)), h''))
    ∧ (∃ m' h'', IarmHandler.bus_call doc reset IarmHandler.rpcs IarmHandler.IARM_BUS_TR69HOSTIFMGR_API_GetParams
          (Some m) h' = Done (Some (Some m'), h'')
        ∧ HostIf.getStringValue m' = Some (s_value p) ∧ paramtype m' = paramtype m ∧ faultCode m' = fcNoFault)
    ∧ (JsonHandler.answers [s_name p] h').1
      = [JsonHandler.JObj [("name"%string, JsonHandler.JStr (s_name p));
                           ("value"%string, JsonHandler.JStr (s_value p))]]
    ∧ ∀ bh br, ∃ s', Webpa.GetParamInfo fuel (Some doc) (s_name p) (Webpa.mkPal bh br h')
        = Done (0, [cloud_answer p], s').
Proof.
  intros Hp Hro Hty Htext Hov Hsv Hdt Hmn Hmc Hstr.
  destruct (rbus_set_one f l p ty s h d x) as (h' & d' & x' & Hset & Hov' & Hsv' & Hh & _); [done..|].
  pose proof Hp as [Hrs _ _ _ _ Hlen]. pose proof Hrs as [Ho Hr Hrfc].
  pose proof (of_shown _ _ _ _ Ho) as (Hc & Hne & _).
  pose proof (RequestHandler.rd_owned _ _ _ _ (of_readable _ _ _ _ Ho)) as Hown.
  pose proof (cloud_entry_type _ _ _ _ p Hp) as He. pose proof (cloud_type o b t doc p Hp) as [Hul Hdate].
  exists h'. split; [exact Hset|]. split_and!.
  - rewrite (RbusDml.get_owned doc (s_name p) (s_entry p) (s_type p)) by done. rewrite He.
    set (r := RbusDml.request _ _ _ _).
    destruct (daemon_get f l p h' d' x' r) as (h'' & -> & _); try done.
    { apply str_take_all. by apply short_name. }
    exists h''. unfold RbusDml.get_result. change (OK =? OK) with true.
    rewrite bool_decide_eq_true_2 by done. cbn [andb fst snd].
    change (RbusDml.message_value (set_fault ?y _)) with (RbusDml.message_value y).
    by rewrite message_value_put.
  - rewrite (proj1 (IarmHandler.iarm_get_set doc reset (Some (s_entry p)) m h' ltac:(by rewrite Hmn))).
    cbn [mbind option_bind]. set (r := Webpa.with_source _ _ _).
    destruct (daemon_get f l p h' d' x' r) as (h'' & -> & _); try done.
    eexists _, h''. split; [reflexivity|]. split; [|split; [|done]].
    2:{ change (paramtype (set_fault ?y _)) with (paramtype y). by rewrite paramtype_putValue. }
    by apply (putValue_canonical (set_instance r 0)).
  - cbn [JsonHandler.answers].
    destruct (daemon_get f l p h' d' x' (JsonHandler.json_request (s_name p))) as (h'' & -> & _); try done.
    { apply str_take_all. apply short_name in Hlen. unfold Webpa.MAX_PARAM_LENGTH in Hlen. lia. }
    destruct (value_json_put (set_instance (JsonHandler.json_request (s_name p)) 0) (s_value p) eq_refl Hstr)
      as [-> ->].
    change (OK =? OK) with true. cbn [fst app]. do 4 f_equal. f_equal.
    apply str_take_all. apply short_name in Hlen. unfold Webpa.MAX_PARAM_LENGTH in Hlen. lia.
  - intros bh br. destruct Hov' as (cg & cs & k & ->).
    destruct (cloud_get_one o self str_hash others abnormal time b t clock doc fuel f l p
      (Webpa.mkPal bh br ((cg, cs, k, d') : @hst daemon)) d' x') as (s' & Hg & _); try done.
    { by eexists _, _, _. }
    by exists s'.
Qed.

End everywhere.

(** ** A concrete daemon *)
#[local] Existing Instance canonical_order.
#[local] Existing Instance plain_wdmp.
#[local] Existing Instance WalDB.toy_xml.
#[local] Existing Instance XBSStore.toy_cjson.
#[local] Existing Instance RequestHandler.ex_bus.
#[local] Existing Instance ex_platform.
#[local] Existing Instance ex_hash.
#[local] Existing Instance ex_json.
#[local] Existing Instance JsonHandler.ex_yajl.

#[local] Instance ex_front : ReqHandler :=
  daemon ex_options 7 (λ _, 0) (λ _ _ m d, Returned OK m d) (λ _ m d, Threw m d) (λ _ _, 0)
    MsgHandler.full_build ex_table (λ _, 0).

Lemma rbus_set_read_everywhere_witness :
  ∃ h' h'' : @hst ex_front,
    RbusDml.TR_Dml_SetHandler (Some ex_doc) (Some (s_name ex_b)) (Some (RBUS_BOOLEAN, "1"%string))
      ((MsgHandler.fresh_counters, MsgHandler.fresh_counters, O, ex_device) : @hst ex_front)
    = Done (RbusDml.RBUS_ERROR_SUCCESS, h')
    ∧ RbusDml.TR_Dml_GetHandler (Some ex_doc) (Some (s_name ex_b)) h'
      = Done (RbusDml.RBUS_ERROR_SUCCESS, Some (RbusDml.SetBoolean true), h'').
Proof.
  destruct (rbus_set_read_everywhere ex_options 7 (λ _, 0) (λ _ _ m d, Returned OK m d) (λ _ m d, Threw m d)
    (λ _ _, 0) MsgHandler.full_build ex_table (λ _, 0) ex_doc 0 "/opt/s.ini" "/opt/l.ini" ex_b RBUS_BOOLEAN "1"
    ((MsgHandler.fresh_counters, MsgHandler.fresh_counters, O, ex_device) : @hst ex_front) ex_device XRFCStore.ex_store
    id (IarmHandler.ex_message (s_name ex_b))) as (h' & Hs & [h'' Hg] & _).
  - apply (ex_cloud ex_b ex_b_rfc). by right.
  - vm_compute. reflexivity.
  - reflexivity.
  - left. split; [reflexivity|by right].
  - by eexists _, _, _.
  - exact ex_serving.
  - reflexivity.
  - reflexivity.
  - split; [reflexivity|]. apply Nat.ltb_lt. vm_compute. reflexivity.
  - split; [reflexivity|]. apply Nat.ltb_lt. vm_compute. reflexivity.
  - exists h', h''. exact (conj Hs Hg).
Defined.

End AllFrontEnds.
