(* ===== verification/DaemonMain.v ===== *)
(** * The daemon's process

    src/hostIf_main.cpp.  [DataModelMerge] is the making of the data model's file
    from the files for every device and for its kind; [Startup] the options of the
    command line and the order in which the parts are started; [Shutdown] the
    threads that take part when a signal ends the daemon. *)
From stdpp Require Import base list strings relations gmap.
From Stdlib Require Import Ascii ZArith Lia.
From S2P Require Import Prelude HostIf FileStore ProfileIO.
Import ProfileIO.

#[local] Arguments streq : simpl never.

Module DataModelMerge.

(** ** Merging *)
Definition quoted (s : string) : string := String QUOTE (s +:+ String QUOTE EmptyString).

Definition XML_DECLARATION : string := "<?xml version=" +:+ quoted "1.0" +:+ " encoding=" +:+ quoted "UTF-8" +:+ "?>".
Definition MODEL_OPEN : string := "<model name=" +:+ quoted "data-model" +:+ ">".
Definition MODEL_END : string := "</model>".
Definition DOCUMENT_END : string := "</dm:document>".

(** The number of the last line that holds a text, counted from [i]. *)
Fixpoint last_line_pos (text : string) (i : nat) (lines : list string) : option nat :=
  match lines with
  | [] => None
  | l :: ls =>
      match last_line_pos text (S i) ls with
      | Some j => Some j
      | None => if contains text (c_str l) then Some i else None
      end
  end.

(** The second file, without those two lines. *)
Fixpoint copy_base (model_pos document_pos : option nat) (i : nat) (lines : list string) : string :=
  match lines with
  | [] => EmptyString
  | l :: ls =>
      let rest := copy_base model_pos document_pos (S i) ls in
      if (bool_decide (model_pos = Some i) && contains MODEL_END (c_str l))
         || (bool_decide (document_pos = Some i) && contains DOCUMENT_END (c_str l))
      then rest else c_str l +:+ rest
  end.

(** The first file, without what is from its declaration to the opening of the
    model. *)
Fixpoint copy_rest (skip_range : bool) (lines : list string) : string :=
  match lines with
  | [] => EmptyString
  | l :: ls =>
      if contains XML_DECLARATION (c_str l) then copy_rest true ls
      else if skip_range && contains MODEL_OPEN (c_str l) then copy_rest false ls
      else if skip_range then copy_rest skip_range ls
      else c_str l +:+ copy_rest skip_range ls
  end.

Definition merged (first second : string) : string :=
  let lines := fgets_lines 1024 second in
  copy_base (last_line_pos MODEL_END 0 lines) (last_line_pos DOCUMENT_END 0 lines) 0 lines
  +:+ copy_rest false (fgets_lines 1024 first).

(** The three files are opened before the check, the last one emptied. *)
Definition filter_and_merge_xml (input1 input2 output : string) (w : env) : bool * env :=
  let there := match read_file w input1, read_file w input2 with Some _, Some _ => true | _, _ => false end in
  match open_trunc w output with
  | None => (false, w)
  | Some w1 =>
      if there then
        (true, append_file w1 output (merged (default EmptyString (read_file w1 input1))
                                             (default EmptyString (read_file w1 input2))))
      else (false, w1)
  end.

(** ** The files of a device *)
Definition DEVICE_PROPS_FILE : string := "/etc/device.properties".
Definition GENERIC_XML_FILE : string := "/etc/data-model-generic.xml".
Definition STB_XML_FILE : string := "/etc/data-model-stb.xml".
Definition TV_XML_FILE : string := "/etc/data-model-tv.xml".
Definition WEBPA_DATA_MODEL_FILE : string := "/tmp/data-model.xml".
Definition BASE_DATA_MODEL_FILE : string := "/etc/data-model.xml".
Definition INTERMEDIATE_DATA_MODEL_FILE : string := "/tmp/data-model-intermediate.xml".

Fixpoint word (s : string) : string :=
  match s with
  | String c s' => if is_space c then EmptyString else String c (word s')
  | EmptyString => EmptyString
  end.

(** [sscanf(line, "RDK_PROFILE=%s", ...)]; [None]: nothing was stored. *)
Definition scan_profile (line : string) : option string :=
  if starts_with "RDK_PROFILE=" line then
    let w := word (skip_space (str_drop (String.length "RDK_PROFILE=") line)) in
    if is_empty w then None else Some w
  else None.

Fixpoint first_profile (lines : list string) : string :=
  match lines with
  | [] => EmptyString
  | l :: ls => match scan_profile (c_str l) with Some p => p | None => first_profile ls end
  end.

Definition mergeDataModelRDKV (rdk_profile : string) (w : env) : bool * env :=
  let '(ok, w1) := filter_and_merge_xml GENERIC_XML_FILE BASE_DATA_MODEL_FILE INTERMEDIATE_DATA_MODEL_FILE w in
  if ok then
    if streq rdk_profile "TV" then filter_and_merge_xml TV_XML_FILE INTERMEDIATE_DATA_MODEL_FILE WEBPA_DATA_MODEL_FILE w1
    else if streq rdk_profile "STB" then
      filter_and_merge_xml STB_XML_FILE INTERMEDIATE_DATA_MODEL_FILE WEBPA_DATA_MODEL_FILE w1
    else rename INTERMEDIATE_DATA_MODEL_FILE WEBPA_DATA_MODEL_FILE w1
  else (false, w1).

Definition mergeDataModelRDKE (rdk_profile : string) (w : env) : bool * env :=
  if streq rdk_profile "TV" then filter_and_merge_xml GENERIC_XML_FILE TV_XML_FILE WEBPA_DATA_MODEL_FILE w
  else if streq rdk_profile "STB" then filter_and_merge_xml GENERIC_XML_FILE STB_XML_FILE WEBPA_DATA_MODEL_FILE w
  else (false, w).

(** Success as a boolean. *)
Definition mergeDataModel (RDKV_TR69 : bool) (w : env) : bool * env :=
  match read_file w DEVICE_PROPS_FILE with
  | None => (false, w)
  | Some props =>
      let rdk_profile := first_profile (fgets_lines 256 props) in
      if RDKV_TR69 then mergeDataModelRDKV rdk_profile w else mergeDataModelRDKE rdk_profile w
  end.

(** ** Documents *)

(** A line of a file that [fgets] gives as it is, and one that is part of a
    model: no declaration is in it. *)
Definition plain_line (l : string) : Prop :=
  (String.length l < 1023)%nat ∧ has_char NL l = false ∧ has_char NUL l = false.

Definition item (l : string) : Prop := plain_line l ∧ contains XML_DECLARATION l = false.

(** A document of a data model: the declaration, the heading up to the line that
    opens the model, the items, the two closing lines. *)
Definition document (header items : list string) : string :=
  text_of ([XML_DECLARATION] ++ header ++ ["  " +:+ MODEL_OPEN] ++ items ++ ["  " +:+ MODEL_END; DOCUMENT_END]).

Definition heading (l : string) : Prop := item l ∧ contains MODEL_OPEN l = false.

(** ** Lemmas *)
Lemma fgets_text lines :
  Forall plain_line lines → fgets_lines 1024 (text_of lines) = with_nl <$> lines.
Proof.
  intros Hl. apply fgets_text_of. eapply Forall_impl; [exact Hl|]. by intros l (? & ? & _).
Qed.

Lemma c_str_with_nl l : has_char NUL l = false → c_str (with_nl l) = with_nl l.
Proof. intros Hl. apply c_str_no_nul. unfold with_nl. by rewrite has_char_app, Hl. Qed.

Lemma starts_with_nl t l : has_char NL t = false → starts_with t (with_nl l) = starts_with t l.
Proof.
  revert l. induction t as [|c t IH]; intros l; [done|]. cbn [has_char]. intros [Hc Ht]%orb_false_elim.
  destruct l as [|c' l]; cbn [with_nl String.append starts_with]; [by rewrite Ascii.eqb_sym, Hc|].
  f_equal. by apply IH.
Qed.

Lemma contains_with_nl t l : has_char NL t = false → contains t (with_nl l) = contains t l.
Proof.
  intros Ht. induction l as [|c l IH].
  - cbn [with_nl String.append contains]. rewrite (starts_with_nl t EmptyString Ht : starts_with t (String NL EmptyString) = _).
    by destruct (starts_with t EmptyString).
  - cbn [with_nl String.append contains]. fold (with_nl l). rewrite IH. f_equal.
    by apply (starts_with_nl t (String c l)).
Qed.

Lemma contains_line t l : has_char NL t = false → plain_line l → contains t (c_str (with_nl l)) = contains t l.
Proof. intros Ht (_ & _ & Hn). by rewrite c_str_with_nl, contains_with_nl. Qed.

Lemma last_line_pos_app text i a b :
  last_line_pos text i (a ++ b) =
  match last_line_pos text (i + length a) b with Some j => Some j | None => last_line_pos text i a end.
Proof.
  revert i. induction a as [|l a IH]; intros i; cbn [app last_line_pos length].
  - rewrite Nat.add_0_r. by destruct (last_line_pos _ _ _).
  - rewrite IH. replace (S i + length a)%nat with (i + S (length a))%nat by lia. by destruct (last_line_pos _ _ b).
Qed.

(** Lines before the two positions are copied. *)
Lemma copy_base_before m d i a b :
  Forall plain_line a → (∀ p, m = Some p → (i + length a ≤ p)%nat) → (∀ p, d = Some p → (i + length a ≤ p)%nat) →
  copy_base m d i ((with_nl <$> a) ++ b) = text_of a +:+ copy_base m d (i + length a) b.
Proof.
  intros Ha. revert i. induction Ha as [|l a (Hl & Hnl & Hn) _ IH]; intros i Hm Hd.
  { cbn [fmap list_fmap app length text_of foldr String.append]. by rewrite Nat.add_0_r. }
  cbn [fmap list_fmap app copy_base length] in *.
  rewrite !bool_decide_eq_false_2.
  2: { intros E. specialize (Hd _ E). lia. } 2: { intros E. specialize (Hm _ E). lia. }
  cbn [andb orb]. rewrite IH.
  2: { intros p E. specialize (Hm p E). lia. } 2: { intros p E. specialize (Hd p E). lia. }
  rewrite c_str_with_nl by done. replace (S i + length a)%nat with (i + S (length a))%nat by lia.
  unfold with_nl. cbn [text_of foldr]. fold (text_of a). by rewrite !str_app_assoc.
Qed.

(** The markers are recognised, one of them in each of the lines that hold them. *)
Lemma markers :
  has_char NL XML_DECLARATION = false ∧ has_char NL MODEL_OPEN = false
  ∧ has_char NL MODEL_END = false ∧ has_char NL DOCUMENT_END = false.
Proof. done. Qed.

Lemma plain_line_bool l :
  (String.length l <? 1023)%nat && negb (has_char NL l) && negb (has_char NUL l) = true → plain_line l.
Proof.
  intros [[Hl Hn]%andb_true_iff Hz]%andb_true_iff. apply Nat.ltb_lt in Hl. apply negb_true_iff in Hn, Hz. done.
Qed.

Lemma plain_lines_document header items :
  Forall heading header → Forall item items →
  Forall plain_line ([XML_DECLARATION] ++ header ++ ["  " +:+ MODEL_OPEN] ++ items ++ ["  " +:+ MODEL_END; DOCUMENT_END]).
Proof.
  intros Hh Hi. apply Forall_app; split; [|apply Forall_app; split; [|apply Forall_app; split; [|apply Forall_app; split]]].
  all: try (repeat constructor; apply plain_line_bool; vm_compute; reflexivity).
  - eapply Forall_impl; [exact Hh|]. by intros l [[? _] _].
  - eapply Forall_impl; [exact Hi|]. by intros l [? _].
Qed.

(** The lines of a document before its closing lines. *)
Definition opening (header items : list string) : list string :=
  [XML_DECLARATION] ++ header ++ ["  " +:+ MODEL_OPEN] ++ items.

Lemma document_lines header items :
  [XML_DECLARATION] ++ header ++ ["  " +:+ MODEL_OPEN] ++ items ++ ["  " +:+ MODEL_END; DOCUMENT_END]
  = opening header items ++ ["  " +:+ MODEL_END; DOCUMENT_END].
Proof. unfold opening. by rewrite <- !app_assoc. Qed.

Lemma copy_base_document header items :
  Forall heading header → Forall item items →
  let lines := with_nl <$> (opening header items ++ ["  " +:+ MODEL_END; DOCUMENT_END]) in
  copy_base (last_line_pos MODEL_END 0 lines) (last_line_pos DOCUMENT_END 0 lines) 0 lines
  = text_of (opening header items).
Proof.
  intros Hh Hi lines. pose proof (plain_lines_document header items Hh Hi) as Hop.
  rewrite document_lines in Hop. apply Forall_app in Hop as [Hop _].
  unfold lines. rewrite fmap_app, !last_line_pos_app, length_fmap.
  set (n := length (opening header items)).
  replace (last_line_pos MODEL_END (0 + n) _) with (Some n) by reflexivity.
  replace (last_line_pos DOCUMENT_END (0 + n) _) with (Some (S n)) by reflexivity.
  rewrite copy_base_before; [|done|intros p [= <-]; lia|intros p [= <-]; lia].
  replace (copy_base _ _ _ _) with EmptyString; [apply str_app_nil_r|]. fold n.
  cbn [fmap list_fmap copy_base Nat.add].
  rewrite (bool_decide_eq_true_2 (Some n = Some n)), (bool_decide_eq_true_2 (Some (S n) = Some (S n))) by done.
  replace (contains MODEL_END (c_str (with_nl ("  " +:+ MODEL_END)))) with true by reflexivity.
  replace (contains DOCUMENT_END (c_str (with_nl DOCUMENT_END))) with true by reflexivity.
  cbn [andb orb]. by rewrite orb_true_r.
Qed.

Lemma copy_rest_document header items :
  Forall heading header → Forall item items →
  copy_rest false (with_nl <$> (opening header items ++ ["  " +:+ MODEL_END; DOCUMENT_END]))
  = text_of (items ++ ["  " +:+ MODEL_END; DOCUMENT_END]).
Proof.
  intros Hh Hi. unfold opening. rewrite <- !app_assoc. cbn [app fmap list_fmap copy_rest].
  replace (contains XML_DECLARATION _) with true by reflexivity.
  induction Hh as [|l header [(Hp & Hd) Ho] Hh IH].
  - cbn [app fmap list_fmap copy_rest].
    replace (contains XML_DECLARATION _) with false by reflexivity.
    replace (contains MODEL_OPEN _) with true by reflexivity. cbn [andb].
    induction Hi as [|l items (Hp & Hd) Hi IH]; [reflexivity|].
    cbn [app fmap list_fmap copy_rest andb]. rewrite contains_line, Hd by done. rewrite IH.
    destruct Hp as (_ & _ & Hn). rewrite c_str_with_nl by done. unfold with_nl. by rewrite str_app_assoc.
  - cbn [app fmap list_fmap copy_rest andb]. rewrite !contains_line, Hd, Ho by done. exact IH.
Qed.

Lemma merged_documents h1 i1 h2 i2 :
  Forall heading h1 → Forall item i1 → Forall heading h2 → Forall item i2 →
  merged (document h1 i1) (document h2 i2) = document h2 (i2 ++ i1).
Proof.
  intros Hh1 Hi1 Hh2 Hi2. unfold merged, document. rewrite !fgets_text by by apply plain_lines_document.
  rewrite !document_lines, copy_base_document, copy_rest_document by done.
  unfold opening. by rewrite <- !app_assoc, <- !text_of_app, <- !app_assoc.
Qed.

(** ** Properties *)
Lemma filter_and_merge_documents w in1 in2 out h1 i1 h2 i2 :
  Forall heading h1 → Forall item i1 → Forall heading h2 → Forall item i2 →
  read_file w in1 = Some (document h1 i1) → read_file w in2 = Some (document h2 i2) →
  can_write w out = true → in1 ≠ out → in2 ≠ out →
  filter_and_merge_xml in1 in2 out w = (true, put_file w out (document h2 (i2 ++ i1))).
Proof.
  intros Hh1 Hi1 Hh2 Hi2 H1 H2 Hw Hn1 Hn2. unfold filter_and_merge_xml. rewrite H1, H2, open_trunc_ok by done.
  cbn beta iota. f_equal. unfold append_file. rewrite read_put_file, !read_put_file_ne, H1, H2 by done.
  change (put_file (put_file w out EmptyString) out (merged (document h1 i1) (document h2 i2))
          = put_file w out (document h2 (i2 ++ i1))).
  rewrite merged_documents by done. apply put_file_twice.
Qed.

Lemma filter_and_merge_missing w in1 in2 out :
  read_file w in1 = None ∨ read_file w in2 = None →
  filter_and_merge_xml in1 in2 out w = (false, default w (open_trunc w out)).
Proof.
  intros Hm. unfold filter_and_merge_xml. destruct (open_trunc w out) as [w1|]; [|done].
  destruct Hm as [-> | ->]; [done|]. by destruct (read_file w in1).
Qed.

(** The file of a kind of device. *)
Definition profile_file (profile : string) : option string :=
  if streq profile "TV" then Some TV_XML_FILE else if streq profile "STB" then Some STB_XML_FILE else None.

(** What every data model of the device is made of. *)
Record inputs (w : env) (props profile : string) (hb ib hg ig hp ip : list string) : Prop := mkInputs {
  in_props : read_file w DEVICE_PROPS_FILE = Some props;
  in_profile : first_profile (fgets_lines 256 props) = profile;
  in_base : read_file w BASE_DATA_MODEL_FILE = Some (document hb ib);
  in_generic : read_file w GENERIC_XML_FILE = Some (document hg ig);
  in_kind : ∀ f, profile_file profile = Some f → read_file w f = Some (document hp ip);
  in_lines : Forall heading hb ∧ Forall item ib ∧ Forall heading hg ∧ Forall item ig ∧ Forall heading hp ∧ Forall item ip;
  in_out : can_write w WEBPA_DATA_MODEL_FILE = true;
  in_tmp : can_write w INTERMEDIATE_DATA_MODEL_FILE = true
}.

Lemma item_app i j : Forall item i → Forall item j → Forall item (i ++ j).
Proof. intros Hi Hj. by apply Forall_app. Qed.

(** C31. The file that [mergeDataModel] makes for the data model's loader is one
    document: for a device of kind TV or STB the kind's own document with the items
    of the one for every device after its own, or, in a build for RDK-V, the base
    document with the items for every device and then those of the kind.  For any
    other kind a build for RDK-V leaves the kind's items out, and the other build
    fails and leaves every file as it was. *)
Theorem merge_data_model w RDKV_TR69 props profile hb ib hg ig hp ip :
  inputs w props profile hb ib hg ig hp ip →
  match profile_file profile, RDKV_TR69 with
  | Some _, false =>
      mergeDataModel false w = (true, put_file w WEBPA_DATA_MODEL_FILE (document hp (ip ++ ig)))
  | None, false => mergeDataModel false w = (false, w)
  | Some _, true =>
      ∃ w', mergeDataModel true w = (true, w')
            ∧ read_file w' WEBPA_DATA_MODEL_FILE = Some (document hb (ib ++ ig ++ ip))
  | None, true =>
      ∃ w', mergeDataModel true w = (true, w')
            ∧ read_file w' WEBPA_DATA_MODEL_FILE = Some (document hb (ib ++ ig))
            ∧ read_file w' INTERMEDIATE_DATA_MODEL_FILE = None
  end.
Proof.
  intros [Hp Hpr Hb Hg Hk (Hhb & Hib & Hhg & Hig & Hhp & Hip) Ho Ht]. unfold mergeDataModel. rewrite Hp, Hpr.
  unfold mergeDataModelRDKV, mergeDataModelRDKE, profile_file in *.
  rewrite (filter_and_merge_documents w GENERIC_XML_FILE BASE_DATA_MODEL_FILE INTERMEDIATE_DATA_MODEL_FILE hg ig hb ib) by done.
  cbn beta iota. destruct (streq profile "TV"); [|destruct (streq profile "STB")].
  1,2: specialize (Hk _ eq_refl); destruct RDKV_TR69.
  1,3: eexists; split;
       [eapply filter_and_merge_documents; [exact Hhp|exact Hip|exact Hhb|by apply item_app; [exact Hib|exact Hig]|..]; try done;
        [by rewrite read_put_file_ne|by rewrite read_put_file]
       |rewrite read_put_file; by rewrite <- app_assoc].
  1,2: by apply (filter_and_merge_documents w _ _ _ hg ig hp ip).
  destruct RDKV_TR69; [|done]. unfold rename. rewrite read_put_file. rewrite can_write_put_file.
  eexists. split; [by rewrite Ho|]. split; [apply read_put_file|].
  rewrite read_put_file_ne by done. apply lookup_delete_eq.
Qed.

(** A television of a build for RDK-V. *)
Definition ex_document (n : string) (items : list string) : string := document ["<dm:document " +:+ n +:+ ">"] items.
Definition ex_env : env :=
  mkEnv {[ DEVICE_PROPS_FILE := text_of ["# device"; "DEVICE_NAME=tv"; "RDK_PROFILE=TV"];
           BASE_DATA_MODEL_FILE := ex_document "base" ["<object base/>"];
           GENERIC_XML_FILE := ex_document "generic" ["<object any/>"; "<object any2/>"];
           TV_XML_FILE := ex_document "tv" ["<object tv/>"] ]} ∅ true ∅ EmptyString 0.

Lemma heading_bool l :
  (String.length l <? 1023)%nat && negb (has_char NL l) && negb (has_char NUL l)
  && negb (contains XML_DECLARATION l) && negb (contains MODEL_OPEN l) = true → heading l.
Proof.
  intros [[Hp Hd%negb_true_iff]%andb_true_iff Ho%negb_true_iff]%andb_true_iff.
  split; [split; [by apply plain_line_bool|done]|done].
Qed.

Lemma item_bool l :
  (String.length l <? 1023)%nat && negb (has_char NL l) && negb (has_char NUL l)
  && negb (contains XML_DECLARATION l) = true → item l.
Proof. intros [Hp Hd%negb_true_iff]%andb_true_iff. split; [by apply plain_line_bool|done]. Qed.

Lemma merge_data_model_witness :
  ∃ w', mergeDataModel true ex_env = (true, w')
        ∧ read_file w' WEBPA_DATA_MODEL_FILE
          = Some (ex_document "base" ["<object base/>"; "<object any/>"; "<object any2/>"; "<object tv/>"]).
Proof.
  apply (merge_data_model ex_env true (text_of ["# device"; "DEVICE_NAME=tv"; "RDK_PROFILE=TV"]) "TV" ["<dm:document base>"] ["<object base/>"]
           ["<dm:document generic>"] ["<object any/>"; "<object any2/>"] ["<dm:document tv>"] ["<object tv/>"]).
  constructor; try reflexivity.
  - by intros f [= <-].
  - split_and!; repeat constructor.
    all: (apply heading_bool || apply item_bool); vm_compute; reflexivity.
Defined.

(** A file that is missing leaves an empty file for the loader. *)
Lemma merge_missing w RDKV_TR69 props profile :
  read_file w DEVICE_PROPS_FILE = Some props → first_profile (fgets_lines 256 props) = profile →
  profile = "TV" ∨ profile = "STB" →
  read_file w GENERIC_XML_FILE = None → can_write w WEBPA_DATA_MODEL_FILE = true →
  (mergeDataModel RDKV_TR69 w).1 = false
  ∧ read_file (mergeDataModel false w).2 WEBPA_DATA_MODEL_FILE = Some EmptyString.
Proof.
  intros Hp Hpr Hk Hg Hw. unfold mergeDataModel. rewrite Hp, Hpr. unfold mergeDataModelRDKV, mergeDataModelRDKE.
  rewrite !(filter_and_merge_missing w GENERIC_XML_FILE) by by left.
  rewrite (open_trunc_ok w WEBPA_DATA_MODEL_FILE) by done.
  destruct Hk as [-> | ->]; (split; [by destruct RDKV_TR69|apply read_put_file]).
Qed.

End DataModelMerge.

Module Startup.
Import DataModelMerge.

(** ** The command line *)
Record T_ARGLIST := mkArgs { confFile : string; httpPort : Z; httpServerPort : Z }.

Record build := mkBuild {
  NEW_HTTP_SERVER_DISABLE : bool;
  RDKV_TR69 : bool;
  PARODUS_ENABLE : bool;
  WEB_CONFIG_ENABLED : bool;
  WEBCONFIG_LITE_ENABLE : bool;
  ENABLE_SD_NOTIFY : bool
}.

Definition argList : T_ARGLIST := mkArgs EmptyString 0 0.

(** One answer of [getopt_long]; [None]: the usage is printed and the process ends. *)
Definition option_step (b : build) (a : T_ARGLIST) (ch : ascii) (optarg : string) : option T_ARGLIST :=
  if Ascii.eqb ch "c" then
    Some (mkArgs (if (String.length (c_str optarg) <? 100)%nat then c_str optarg else EmptyString)
                 (httpPort a) (httpServerPort a))
  else if Ascii.eqb ch "p" then Some (mkArgs (confFile a) (atoi optarg) (httpServerPort a))
  else if Ascii.eqb ch "s" && negb (NEW_HTTP_SERVER_DISABLE b) then
    Some (mkArgs (confFile a) (httpPort a) (atoi optarg))
  else None.

Fixpoint parse_options (b : build) (a : T_ARGLIST) (opts : list (ascii * string)) : option T_ARGLIST :=
  match opts with
  | [] => Some a
  | (ch, optarg) :: opts' => a' ← option_step b a ch optarg; parse_options b a' opts'
  end.

Definition command_line (b : build) (opts : list (ascii * string)) (non_options : list string) : option T_ARGLIST :=
  a ← parse_options b argList opts; if bool_decide (non_options = []) then Some a else None.

(** ** The order of start *)
Inductive part :=
| ConfigManager | LegacyRFC (enabled : bool) | IarmInterface
| JsonThread | HttpThread | UpdateThread | ParodusThread (notify_config : string) | WebConfig | RbusProvider
| HttpWait (announced : bool) | ReadyNotified | DeviceManageable | MainLoop.

Definition LEGACY_RFC_ENABLED_PATH : string := "/opt/RFC/.RFC_LegacyRFCEnabled.ini".
Definition HTTP_SERVER_READY : string := "/tmp/.tr69hostif_http_server_ready".

Definition DB_FAILURE : Z := 1.

(** The thread of the HTTP server: whether it announces that it is done, whether
    the server listens, and the file that tells the RFC client to go on. *)
Definition HTTPServerStartThread (g_dbhandle server_new listen_local : bool) (w : env) : bool * bool * env :=
  if negb g_dbhandle then (false, false, w)
  else if negb server_new then (false, false, w)
  else (true, listen_local, default w (open_trunc w HTTP_SERVER_READY)).

(** What the calls of [main] answer. *)
Record answers := mkAnswers {
  sem_init_ok : bool;
  shutdown_thread_ok : bool;
  http_thread_ok : bool;
  server_new : bool;
  listen_local : bool;
  in_ten_seconds : bool;
  main_loop_new : bool
}.

Section start.
(** Whether [XMLDocument::LoadFile] reports no error on a file's text. *)
Variable loads : string → bool.
Variable b : build.
Variable o : answers.

Definition loadDataModel (g_dbhandle : bool) (w : env) : bool :=
  g_dbhandle || match read_file w WEBPA_DATA_MODEL_FILE with Some t => loads t | None => false end.

(** [ifs_legacyEnabled] *)
Definition legacy (w : env) : bool :=
  negb (NEW_HTTP_SERVER_DISABLE b) && match read_file w LEGACY_RFC_ENABLED_PATH with Some _ => true | None => false end.

Definition http_thread (w : env) : bool := negb (NEW_HTTP_SERVER_DISABLE b) && negb (legacy w) && http_thread_ok o.

(** What is started before the data model is made. *)
Definition first_parts (w : env) : list part :=
  [ConfigManager] ++ (if NEW_HTTP_SERVER_DISABLE b then [] else [LegacyRFC (legacy w)]) ++ [IarmInterface].

Definition later_parts (w : env) : list part * env :=
  let '(announced, _, w1) :=
    if http_thread w then HTTPServerStartThread true (server_new o) (listen_local o) w else (false, false, w) in
  ([JsonThread] ++ (if http_thread w then [HttpThread] else []) ++ [UpdateThread]
   ++ (if PARODUS_ENABLE b then
         [ParodusThread match read_file w "/opt/notify_webpa_cfg.json" with
                        | Some _ => "/opt/notify_webpa_cfg.json" | None => "/etc/notify_webpa_cfg.json" end]
       else [])
   ++ (if WEB_CONFIG_ENABLED b || WEBCONFIG_LITE_ENABLE b then [WebConfig] else [])
   ++ [RbusProvider; HttpWait (announced && in_ten_seconds o)]
   ++ (if ENABLE_SD_NOTIFY b then [ReadyNotified] else [])
   ++ [DeviceManageable] ++ (if main_loop_new o then [MainLoop] else []), w1).

(** The exit status, what was started, in order, and the files. *)
Definition main (opts : list (ascii * string)) (non_options : list string) (w : env) : Z * list part * env :=
  match command_line b opts non_options with
  | None => (0, [], w)
  | Some _ =>
      if negb (sem_init_ok o) then (1, [], w)
      else if negb (shutdown_thread_ok o) then (1, [], w)
      else
        let '(ok, w1) := mergeDataModel (RDKV_TR69 b) w in
        if negb ok then (DB_FAILURE, first_parts w, w1)
        else if negb (loadDataModel false w1) then (DB_FAILURE, first_parts w, w1)
        else let '(parts, w2) := later_parts w1 in (0, first_parts w ++ parts, w2)
  end.

End start.

(** ** Properties *)

(** The parts through which clients are served, the IARM bus apart. *)
Definition front_end (p : part) : Prop :=
  match p with
  | JsonThread | HttpThread | UpdateThread | ParodusThread _ | WebConfig | RbusProvider | ReadyNotified | MainLoop => True
  | _ => False
  end.

(** The command line was right and the shutdown thread is there. *)
Definition runs b o opts non_options : bool :=
  match command_line b opts non_options with Some _ => sem_init_ok o && shutdown_thread_ok o | None => false end.

(** C32. The daemon starts the IARM bus whenever its command line is right, and
    every other way in only when the data model's file was made and the loader
    takes exactly the text that [mergeDataModel] left in it; it ends with status 0
    after that and with a failure otherwise. *)
Theorem served_with_data_model loads b o opts non_options w :
  runs b o opts non_options = true →
  let '(status, parts, _) := main loads b o opts non_options w in
  let '(ok, w1) := mergeDataModel (RDKV_TR69 b) w in
  let loaded := ok && match read_file w1 WEBPA_DATA_MODEL_FILE with Some t => loads t | None => false end in
  IarmInterface ∈ parts
  ∧ (RbusProvider ∈ parts ↔ loaded = true)
  ∧ (∀ p, p ∈ parts → front_end p → loaded = true)
  ∧ status = (if loaded then 0 else DB_FAILURE)%Z.
Proof.
  unfold runs, main. destruct (command_line _ _ _); [|done]. intros [-> ->]%andb_true_iff.
  destruct (mergeDataModel _ w) as [ok w1]. unfold loadDataModel. cbn [negb orb].
  assert (IarmInterface ∈ first_parts b w) as Hi by (unfold first_parts; destruct (NEW_HTTP_SERVER_DISABLE b); in_list).
  assert (∀ p, p ∈ first_parts b w → ¬ front_end p) as Hf.
  { intros p. unfold first_parts. destruct (NEW_HTTP_SERVER_DISABLE b); cbn [app]; rewrite !elem_of_cons, elem_of_nil;
    intros Hp; decompose [or] Hp; subst; (done || by intros []). }
  assert (RbusProvider ∉ first_parts b w) as Hr by (intros Hr; exact (Hf _ Hr I)).
  destruct ok; cbn [negb andb]; [|split_and!; [done|split; [done|by intros]|intros p Hp Hq; by destruct (Hf p Hp)|done]].
  destruct (match read_file w1 WEBPA_DATA_MODEL_FILE with Some t => loads t | None => false end); cbn [negb].
  2: { split_and!; [done|split; [done|by intros]|intros p Hp Hq; by destruct (Hf p Hp)|done]. }
  destruct (later_parts b o w1) as [parts w2] eqn:Hl. split_and!; [apply elem_of_app; by left| |done|done].
  split; [done|]. intros _. apply elem_of_app; right. unfold later_parts in Hl.
  destruct (if http_thread b o w1 then _ else _) as [[? ?] ?]. injection Hl as <- <-.
  repeat (rewrite elem_of_cons || rewrite elem_of_app). tauto.
Qed.

(** With the old storage the wait for the HTTP server, which is not started, runs
    out. *)
Lemma legacy_waits_out b o w parts w1 :
  http_thread b o w = false → later_parts b o w = (parts, w1) →
  HttpWait false ∈ parts ∧ HttpThread ∉ parts.
Proof.
  unfold later_parts. intros -> [= <- <-]. cbn [andb app].
  split; repeat (rewrite elem_of_cons || rewrite elem_of_app); [tauto|].
  destruct (PARODUS_ENABLE b), (WEB_CONFIG_ENABLED b || WEBCONFIG_LITE_ENABLE b), (ENABLE_SD_NOTIFY b), (main_loop_new o);
    rewrite ?elem_of_cons, ?elem_of_nil; intuition discriminate.
Qed.

(** A server that does not listen is announced like one that does. *)
Lemma deaf_server_announced w :
  can_write w HTTP_SERVER_READY = true →
  ∃ w', HTTPServerStartThread true true false w = (true, false, w') ∧ read_file w' HTTP_SERVER_READY = Some EmptyString.
Proof.
  intros Hw. eexists. split; [reflexivity|]. rewrite open_trunc_ok by done. apply read_put_file.
Qed.

(** The options that the usage names and the program does not know. *)
Lemma usage_options b a f : option_step b a "l" f = None ∧ option_step b a "d" f = None.
Proof. done. Qed.

Definition ex_build : build := mkBuild false true true false true true.
Definition ex_answers : answers := mkAnswers true true true true true true true.

Definition ex_main : Z * list part * env :=
  main (λ t, negb (is_empty t)) ex_build ex_answers [("p"%char, "10999"); ("s"%char, "11999")] [] ex_env.

Lemma ex_loaded :
  (let '(ok, w1) := mergeDataModel true ex_env in
   ok && match read_file w1 WEBPA_DATA_MODEL_FILE with Some t => negb (is_empty t) | None => false end) = true.
Proof. vm_compute. reflexivity. Qed.

Lemma served_with_data_model_witness :
  let '(status, parts, _) := ex_main in IarmInterface ∈ parts ∧ RbusProvider ∈ parts ∧ status = 0%Z.
Proof.
  pose proof (served_with_data_model (λ t, negb (is_empty t)) ex_build ex_answers
                [("p"%char, "10999"); ("s"%char, "11999")] [] ex_env eq_refl) as Hs.
  fold ex_main in Hs. destruct ex_main as [[status parts] w']. pose proof ex_loaded as Hl.
  change (RDKV_TR69 ex_build) with true in Hs. destruct (mergeDataModel true ex_env) as [ok w1].
  rewrite Hl in Hs. destruct Hs as (Hi & Hr & _ & Hst). split; [exact Hi|]. split; [by apply Hr|exact Hst].
Defined.

End Startup.

Module Shutdown.

(** The main thread: before and after it has read the managers' file, while its
    loop runs, and after. *)
Inductive main_phase := Configuring | Starting | Running | Quitting | Ended.
(** The thread that waits for a signal. *)
Inductive thread_phase := Waiting | Woken | Returned.

#[export] Instance main_phase_eq_dec : EqDecision main_phase.
Proof. solve_decision. Defined.
#[export] Instance thread_phase_eq_dec : EqDecision thread_phase.
Proof. solve_decision. Defined.

(** What is stopped on the way out, in order. *)
Inductive stopped := ParodusWait | JsonServer | UpdateLoop | BootstrapStore | IarmBus | HttpServer.

Record state := mkState {
  shutdown_thread_sem : nat;
  shutdown_sig_received : Z;
  shutdown_thread : thread_phase;
  isShutdownTriggered : bool;
  main_loop : main_phase;
  paramMgrhash : bool;
  stops : list stopped
}.

Definition start_state : state := mkState 0 0 Waiting false Configuring false [].

(** [quit_handler] *)
Definition quit_handler (sig_received : Z) (s : state) : state :=
  mkState (S (shutdown_thread_sem s)) sig_received (shutdown_thread s) (isShutdownTriggered s) (main_loop s)
          (paramMgrhash s) (stops s).

(** [exit_gracefully]; the mutex is taken nowhere else. *)
Definition exit_gracefully (parodus : bool) (s : state) : state :=
  if isShutdownTriggered s then s
  else
    let running := bool_decide (main_loop s = Running) in
    mkState (shutdown_thread_sem s) (shutdown_sig_received s) (shutdown_thread s) true
            (if running then Quitting else main_loop s) false
            (stops s ++ (if parodus then [ParodusWait] else []) ++ [JsonServer; UpdateLoop; BootstrapStore; IarmBus]
             ++ (if running then [HttpServer] else [])).

Definition with_thread (p : thread_phase) (s : state) : state :=
  mkState (shutdown_thread_sem s) (shutdown_sig_received s) p (isShutdownTriggered s) (main_loop s) (paramMgrhash s) (stops s).
Definition with_loop (p : main_phase) (h : bool) (s : state) : state :=
  mkState (shutdown_thread_sem s) (shutdown_sig_received s) (shutdown_thread s) (isShutdownTriggered s) p h (stops s).

(** What the threads do by themselves. *)
Inductive own_step (parodus : bool) : state → state → Prop :=
| step_wake n s :
    shutdown_thread s = Waiting → shutdown_thread_sem s = S n →
    own_step parodus s (mkState n (shutdown_sig_received s) Woken (isShutdownTriggered s) (main_loop s) (paramMgrhash s) (stops s))
| step_exit s :
    shutdown_thread s = Woken → own_step parodus s (with_thread Returned (exit_gracefully parodus s))
| step_config s : main_loop s = Configuring → own_step parodus s (with_loop Starting true s)
| step_run s : main_loop s = Starting → own_step parodus s (with_loop Running (paramMgrhash s) s)
| step_end s : main_loop s = Quitting → own_step parodus s (with_loop Ended (paramMgrhash s) s).

Inductive step (parodus : bool) : state → state → Prop :=
| step_own s s' : own_step parodus s s' → step parodus s s'
| step_signal n s : step parodus s (quit_handler n s).

Definition reachable (parodus : bool) (s : state) : Prop := rtc (step parodus) start_state s.

(** ** Properties *)

(** Until the thread has done its work nothing is stopped, and the loop is not quit. *)
Definition untouched (s : state) : Prop :=
  isShutdownTriggered s = false ∧ stops s = [] ∧ main_loop s ≠ Quitting ∧ main_loop s ≠ Ended.
Definition inv (s : state) : Prop := shutdown_thread s = Returned ∨ untouched s.

Lemma untouched_step parodus s s' : inv s → step parodus s s' → inv s'.
Proof.
  unfold inv, untouched. intros Hi Hs. revert Hi. destruct Hs as [s1 s1' Hs|n s1]; intros Hi; [|exact Hi].
  revert Hi. destruct Hs as [n s1 Hw Hn|s1 Hw|s1 Hm|s1 Hm|s1 Hm]; cbn; intros [Hi|(Ht & Hst & Hq & He)]; auto; try congruence;
    right; done.
Qed.

Lemma untouched_reachable parodus s : reachable parodus s → inv s.
Proof.
  assert (inv start_state) as H0' by by right. unfold reachable. revert H0'. intros Hi Hs. revert Hi.
  induction Hs as [|s1 s2 s3 Hs _ IH]; intros Hi; [done|]. apply IH. by apply (untouched_step parodus s1).
Qed.

(** The thread is gone and the loop was not told. *)
Definition lost (st : list stopped) (s : state) : Prop :=
  shutdown_thread s = Returned ∧ (main_loop s = Starting ∨ main_loop s = Running)
  ∧ paramMgrhash s = false ∧ stops s = st.

Lemma lost_step parodus st s s' : lost st s → step parodus s s' → lost st s'.
Proof.
  intros Hl Hs. revert Hl. destruct Hs as [s1 s1' Hs|n s1]; intros (Hr & Hm & Hh & Hst); [|done].
  revert Hr Hm Hh Hst. destruct Hs as [n s1 Hw Hn|s1 Hw|s1 Hm'|s1 Hm'|s1 Hm']; intros Hr Hm Hh Hst; try congruence; destruct Hm as [Hm|Hm]; try congruence.
  split; [done|]. split; [by right|]. done.
Qed.

(** A signal that the shutdown thread handles before the main loop runs stops
    every other part and empties the table of the managers, but not the daemon: the
    thread has returned, the loop then starts, and no later signal, however many
    there are, ends it or stops the HTTP server. *)
Theorem early_signal_lost parodus s s' :
  reachable parodus s → shutdown_thread s = Woken → main_loop s = Starting →
  rtc (step parodus) (with_thread Returned (exit_gracefully parodus s)) s' →
  main_loop s' ≠ Ended ∧ paramMgrhash s' = false
  ∧ stops s' = (if parodus then [ParodusWait] else []) ++ [JsonServer; UpdateLoop; BootstrapStore; IarmBus].
Proof.
  intros Hre Hw Hm Hs. destruct (untouched_reachable _ _ Hre) as [Hr|(Ht & Hst & _)]; [congruence|].
  assert (lost ((if parodus then [ParodusWait] else []) ++ [JsonServer; UpdateLoop; BootstrapStore; IarmBus])
               (with_thread Returned (exit_gracefully parodus s))) as Hl.
  { unfold exit_gracefully. rewrite Ht, Hm, Hst. unfold lost. cbn [bool_decide with_thread]. split; [done|].
    split; [by left|]. split; [done|]. cbn. by destruct parodus. }
  assert (lost ((if parodus then [ParodusWait] else []) ++ [JsonServer; UpdateLoop; BootstrapStore; IarmBus]) s') as (_ & Hm' & Hh & Hst').
  { induction Hs as [|s1 s2 s3 Hs _ IH]; [done|]. apply IH. by apply (lost_step parodus _ s1). }
  split; [|done]. destruct Hm'; congruence.
Qed.

(** C33. Once the loop runs, and as long as the shutdown thread still waits for
    its first signal, a signal ends the daemon: the threads take three more
    steps of their own, in the one order there is, and then the loop has ended
    with everything stopped, the HTTP server last. (A signal that the thread has
    handled before the loop runs is lost, and so is every later one: see
    early_signal_lost.) *)
Theorem signal_ends_daemon parodus n s :
  reachable parodus s → main_loop s = Running → shutdown_thread s = Waiting →
  (∃ s', nsteps (own_step parodus) 3 (quit_handler n s) s')
  ∧ ∀ s', nsteps (own_step parodus) 3 (quit_handler n s) s' →
      main_loop s' = Ended ∧ paramMgrhash s' = false ∧ shutdown_sig_received s' = n
      ∧ stops s' = (if parodus then [ParodusWait] else []) ++ [JsonServer; UpdateLoop; BootstrapStore; IarmBus; HttpServer].
Proof.
  intros Hre Hm Hw. destruct (untouched_reachable _ _ Hre) as [Hr|(Ht & Hst & _)]; [congruence|].
  destruct s as [sem sig th tr ml h st]. cbn in Hm, Hw, Ht, Hst. subst. split.
  - eexists. eapply nsteps_l; [apply (step_wake parodus sem); reflexivity|].
    eapply nsteps_l; [apply step_exit; reflexivity|]. eapply nsteps_l; [apply step_end; reflexivity|]. apply nsteps_O.
  - intros s' Hs. inversion_clear Hs as [|? ? s1 ? H1 Hs1]. inversion_clear Hs1 as [|? ? s2 ? H2 Hs2].
    inversion_clear Hs2 as [|? ? s3 ? H3 Hs3]. inversion Hs3; subst.
    inversion H1; subst; cbn in *; try discriminate; simplify_eq.
    inversion H2; subst; cbn in *; try discriminate; simplify_eq.
    inversion H3; subst; cbn in *; try discriminate; simplify_eq. cbn. by destruct parodus.
Qed.

Lemma reachable_step parodus s s' : reachable parodus s → step parodus s s' → reachable parodus s'.
Proof. apply rtc_r. Qed.

(** SIGTERM while the daemon waits for its HTTP server, then twice more. *)
Definition ex_woken : state := mkState 0 15 Woken false Starting true [].

Lemma ex_woken_reachable : reachable true ex_woken.
Proof.
  eapply reachable_step; [eapply reachable_step; [eapply reachable_step; [apply rtc_refl|]|]|].
  - apply step_own, step_config. reflexivity.
  - apply (step_signal _ 15).
  - apply step_own. apply (step_wake true 0); reflexivity.
Qed.

Lemma early_signal_lost_witness :
  let s' := quit_handler 15 (quit_handler 15 (with_loop Running false (with_thread Returned (exit_gracefully true ex_woken)))) in
  shutdown_thread_sem s' = 2%nat ∧ main_loop s' ≠ Ended
  ∧ paramMgrhash s' = false
  ∧ stops s' = [ParodusWait; JsonServer; UpdateLoop; BootstrapStore; IarmBus].
Proof.
  intros s'. split; [reflexivity|]. apply (early_signal_lost true ex_woken).
  - apply ex_woken_reachable.
  - reflexivity.
  - reflexivity.
  - eapply rtc_l; [apply step_own, step_run; reflexivity|].
    eapply rtc_l; [apply (step_signal _ 15)|]. eapply rtc_l; [apply (step_signal _ 15)|]. apply rtc_refl.
Defined.

Definition ex_running : state := mkState 0 0 Waiting false Running true [].

Lemma signal_ends_daemon_witness :
  ∃ s', nsteps (own_step false) 3 (quit_handler 15 ex_running) s'.
Proof.
  apply (signal_ends_daemon false 15 ex_running).
  - eapply reachable_step; [eapply reachable_step; [apply rtc_refl|]|].
    + apply step_own, step_config. reflexivity.
    + apply step_own, (step_run _ (with_loop Starting true start_state)). reflexivity.
  - reflexivity.
  - reflexivity.
Defined.

End Shutdown.
